(* ===== verification/_CoqProject ===== *)
-Q . S2P
Prelude.v
RustStr.v
RustOrd.v
Wildcard.v
Ids.v
Authority.v
Identity.v
WorkItem.v
Crypto.v
Governance.v
Policy.v
Budgets.v
Scheduler.v
Readiness.v
Workflow.v
Security.v
Auth.v
AuditChain.v
WorkOrder.v
Promotion.v
PromotionFacts.v
Autonomy.v
Reconciliation.v
Attention.v
Evidence.v
Receipt.v
Outcome.v
RunmillPort.v
RunmillGateway.v
GatewayFacts.v
RunEvents.v
RunEventFacts.v
JobQueue.v
JobQueueFacts.v
RunmillOrder.v
Steps.v
StepFacts.v
Reservations.v
ReservationFacts.v
SourceGateway.v
SourceFacts.v
ForgeGateway.v
ForgeFacts.v
DeadLetter.v
DeadLetterFacts.v
RunmillEvidence.v
RunmillEvidenceFacts.v
TerminalEvidence.v
Handlers.v
HandlerFacts.v
Timers.v
TimerFacts.v
ReactorClaims.v
Reactor.v
ReactorFacts.v
Incidents.v
IncidentFacts.v
Webhook.v
Artifacts.v
ArtifactFacts.v
Producers.v
ProducerFacts.v
Poll.v
PollFacts.v
