(* ===== verification/Prelude.v ===== *)
(** * Verification of the ASF work-control plane

    ASF decides whether a work item is ready, records its acceptance, composes
    the authority under which it may be worked on, schedules attempts, reserves
    capacity and budget, signs Work Orders, hands them to a worker and follows
    each attempt over its events to verified evidence and the closure of its
    source; it keeps durable jobs, timers and dead letters for all of this, and
    widens or withdraws autonomy on the evidence of past work.  This library
    models the Rust core of the program, [src/src/domain], [application],
    [contracts], [ports], the in-memory gateways of [adapters], the ledger with
    its SQL, and the reactor of [runtime], and proves what makes each part correct.

    ** How Rust is read

    - [Result<T>] and panics: [res], with [Ok], [Err] carrying the source's
      [Error], and [Panic] for a failed [expect], an index out of bounds or an
      arithmetic overflow (overflow checks on, as in debug and test builds).
      Theorems say where [Panic] cannot happen.  The addition in
      the parser of [TerminalEvidence], which a document can overflow, is
      modelled for both builds ([Build]); the counters of [Workflow] overflow
      only after [2^32] attempts.  [?] is the bind of [res]; early returns are [bail_if].
      Gateways with an error type of their own return an [outcome], and a
      method on shared state is a [call] from states to states ([Outcome]).
    - Error messages are lists of the literal pieces of the format string and
      the interpolated values ([message]); the text of a database or input
      and output error is dropped.
    - Integers are [Z] with the width written out at each operation
      ([checked_add], [saturating_add], [add_assign], [try_from]); a record
      field of an unsigned type is unsigned by hypothesis where that matters.
    - Strings are byte strings with the [str] operations the code uses
      ([RustStr]); [BTreeSet] is a sorted duplicate-free list, [Ord] a class
      with the derived orders, [sort_by] a stable insertion sort, times are
      nanoseconds since the epoch ([RustOrd]).
    - [&mut self] methods return the object next to the result, so that what a
      failed call leaves behind is visible.
    - SQL: a table is a finite map or a list of rows, a statement a definition
      over tables with its conditions, order, locks, unique keys and the clock
      of the database.  A transaction that fails commits nothing; what others
      commit between two statements is an argument ([found], [between]), and a
      deferred trigger that the code relies on runs at the commit.  A cast that
      fails in SQL is [None].  Lost connections, [updated_at] and foreign keys
      to tables that are not modelled are left out.
    - Clocks, [Uuid::now_v7] and the answers of handlers are arguments.

    Code of other crates is a parameter, a class whose fields state documented
    behaviour only and that has a concrete instance for the witnesses:
    [UuidText], [UuidHyphenated], [UuidJson] (the text of a UUID), [UrlCrate],
    [Hashing] (SHA-256 and hex), [Canonical] and [ToValue] (RFC 8785 JSON and
    serde values), [Ed25519], [SignatureBytes], [VerifyingKeyBytes],
    [Base64Url], [Chrono], [DateTimeText], [Rfc3339] (the range and the text of
    dates), [DebugText] ([{:?}]), [PgColumns], [Jsonb], [JsonbText],
    [StoredJson], [StoredShape], [Collation] (what PostgreSQL columns keep and
    compare), [HmacSha256], [UuidParse], [UrlPath] ([Url::set_path]), [DateStamps],
    [Environment], and for
    serde parsing [ApiTokenJson], [ExportJson], [AttentionJson],
    [ProductEventJson], [RunmillOrderJson], [AdmissionJson],
    [RunmillBundleJson], [TerminalBundleJson] and [WebhookJson].  The tasks
    that [tokio] runs at the end of a poll are a field of its inputs.

    Loops are folds over their input.  Three need fuel: draining the stored
    events of a run ([RunEvents], one round per stored event and one more,
    since every round but the last consumes one), collecting the pages of an
    intake ([SourceFacts], one page per item and one more, proved enough by
    [intake_complete]) and the scans of the reactor ([Reactor], the batch size,
    which is the bound of the source's loop).

    ** Files and what they model

    - [Prelude]: results, machine integers, loops, the closure of a step
      relation, the [reflect] and [no_panic] automation and their hint bases.
    - [RustStr], [RustOrd]: strings; orders, sets, sorting, time and UUIDs.
    - [Wildcard]: [wildcard_matches] of [domain/authority.rs] against a
      declarative meaning of patterns.
    - [Ids], [Authority], [Identity], [WorkItem]: the files of these names in
      [domain/]; [Governance]: its attempts, accountability, approvals,
      escalations, source snapshots, repositories and workers.
    - [Crypto]: [crypto.rs].
    - [Policy], [Budgets], [Scheduler], [Readiness], [Workflow]: the files of
      the same names in [application/]; [Promotion], [PromotionFacts],
      [Autonomy]: [promotion.rs] (evaluation; what a report says; approvals,
      grants and demotions); [Reconciliation], [Attention].
    - [Security], [Auth], [AuditChain]: [security.rs], [auth.rs], [audit.rs].
    - [WorkOrder], [Evidence], [Receipt]: [contracts/work_order.rs],
      [evidence.rs], [evidence_verification.rs] and [event.rs].
    - [RunmillOrder]: [contracts/runmill_work_order.rs]; [RunmillEvidence],
      [RunmillEvidenceFacts]: [runmill_evidence.rs]; [TerminalEvidence]:
      [asf_terminal_evidence.rs].
    - [Outcome]; [RunmillPort], [RunmillGateway], [GatewayFacts]:
      [ports/runmill.rs] and [adapters/runmill.rs]; [SourceGateway],
      [SourceFacts]: [ports/source.rs], [adapters/source.rs]; [ForgeGateway],
      [ForgeFacts]: [ports/forge.rs], [adapters/forge.rs].  A port is a class
      with the contract that clients are proved against.
    - [RunEvents], [RunEventFacts]: [ledger/run_events.rs]; [JobQueue],
      [JobQueueFacts]: [ledger/jobs.rs]; [Steps], [StepFacts], [DeadLetter],
      [DeadLetterFacts]: [ledger/steps.rs]; [Reservations],
      [ReservationFacts]: [ledger/reservations.rs]; [Incidents],
      [IncidentFacts]: [ledger/operational_incidents.rs]; [Producers],
      [ProducerFacts]: [ledger/runmill_observation_streams.rs] and
      [ledger/runmill_terminal_evidence_jobs.rs].
    - [Handlers], [HandlerFacts]: [runtime/handlers.rs]; [Timers],
      [TimerFacts]: [runtime/timers.rs]; [ReactorClaims], [Reactor],
      [ReactorFacts], [Poll], [PollFacts]: [runtime/reactor.rs], its claims,
      its handling of one job, and a whole poll.
    - [Webhook]: [adapters/linear_webhook.rs]; [Artifacts], [ArtifactFacts]:
      [artifacts/], its file store as interleaved operations, its S3 store and
      the signatures of the requests.

    ** How the parts interact

    A source snapshot becomes a work item ([WorkItem]); the readiness engine
    ([Readiness]) checks it against identities ([Identity]), worker, policy and
    repository ([Governance]); [Policy] composes the authority ([Authority])
    that a Work Order carries ([WorkOrder], [RunmillOrder], signed with
    [Crypto]); the [Scheduler] picks the next item and [Reservations] sets
    capacity and budget aside; the workflow reducer ([Workflow]) turns facts
    about the attempt into effects and an accountability anchor.  Effects are
    durable jobs ([JobQueue]) and timers ([Timers]) that the reactor
    ([ReactorClaims], [Reactor]) claims for the handlers installed
    ([Handlers]); a handler commits its step ([Steps]) or fails it
    ([DeadLetter]).  In each poll ([Poll]) the producers ([Producers]) also make
    the jobs that observe a run and that retain its evidence.  Gateways ([RunmillGateway], [SourceGateway],
    [ForgeGateway]) talk to the worker, the tracker and the forge; events of a
    run are ingested in order ([RunEvents]); evidence ([Evidence],
    [RunmillEvidence], [TerminalEvidence]) closes it.  [Budgets] gates further
    work; every change is chained in [AuditChain]; [Auth] and [Security] guard
    the entry points; [Autonomy] decides how much may be done without
    supervision; [Reconciliation] audits the whole, and [Attention] shows
    people what needs them.

    ** What is shown

    - Work items: transitions are total and atomic (but for the last version
      number), the life of an item keeps its version, acceptance and terminal
      states, and no state is a trap.
    - Authority: the matcher implements its specification; composition narrows
      every dimension and keeps validity up to a shared scope.
    - Readiness and scheduling: readiness is exactly the conjunction of its
      conditions; selection is sound, optimal, order independent and fair.
    - Workflow: by induction over all sequences of facts, the invariant of the
      reachable states, closure only after a delivery whose evidence was announced
      and then validated, an account of
      every effect, totality of steps and the possibility to finish.
    - Budgets, approvals, escalations, accountability: exact accounting under
      saturation, approvals bound to what they approve, lifecycles that do not
      run backwards.
    - Contracts: each validator accepts exactly its specification; signatures,
      chains and exports round trip; the head hash commits to the history.
    - Gateways: their state keeps its invariant under every call; events reach
      a reader without loss; a source is closed once and a lost reply can be
      recovered; intake ends and finds every item; forge evidence is exact;
      a webhook is accepted only if it is signed and fresh; an artifact that is
      read is the content of its digest, however writers interleave, and its path
      in S3 is the bucket, the prefix and the digest, sent as it was signed where
      the prefix has no dot segment.
    - Ledger: ingestion keeps a gapless prefix and its result does not depend
      on the order of delivery; the job queue refines a protocol of leases and
      fences, forgets no job and completes one once; a step is committed once,
      whole, and extends the audit chain; a failed step is retried or dead with
      an owner, and escalations only get stricter; reservations never exceed
      capacity and balance; an incident is acknowledged and closed once.
    - Runtime: the registry holds guarded handlers only and grants what they
      serve; every claimed job finds its handler; what an activity reports is in
      the tables; due timers fire once; delays are bounded; observation streams
      follow their protocol and the jobs produced for them are on the route that
      a claim checks; a poll does at most a batch of each kind of work, counts
      it exactly, and stops at a due job that nothing supports.
    - Autonomy: a grant is exactly an admissible request, clean evidence stands
      behind it, it ends by itself, and violations lower it by one rung.
    - The audit: it reports exactly the broken invariants, and what the
      workflow reducer leaves never breaks the one about accountability.
    - Divergences between code and comments are theorems too
      ([exhausted_version_breaks_atomicity], [acceptance_can_be_skipped],
      [reacceptance_rewrites_the_stamp], [refusal_code_decides_status],
      [screening_misses_camel_case], [audit_chain_selection],
      [anchored_timers_block], [malformed_retention_invisible],
      [retention_starved], [validated_evidence_is_not_compared],
      [dots_leave_the_bucket], [overflow_wraps]).

    ** Not modelled

    The handlers of [runtime/] other than the reactor (cancellation, intake,
    source closure, dispatch, observation, evidence and submission recovery) and
    the files of [ledger/] that serve them: each is a chain of statements over
    many more tables and triggers, and needs the models of those first.  HTTP
    and socket clients ([adapters/] beyond the in-memory ones), request routing
    ([api/]) and process start-up ([bin/], [config.rs]) are
    input and output around what is modelled.  Serde attributes, [Debug]
    output, logging and plain accessors are left out. *)

From Stdlib Require Import ZArith Lia.
From stdpp Require Import base tactics option list strings.

#[global] Open Scope string_scope.
#[global] Open Scope list_scope.
#[global] Open Scope Z_scope.

(** ** Errors and results *)

(** A formatted message: the literal pieces of the format string and the
    values it interpolates.  [Dbg] stands for the [{:?}] rendering of a
    string, whose escaping rules are not spelled out. *)
Inductive fragment :=
| Lit (s : string)
| Disp (s : string)
| Dbg (s : string)
| FmtUuid (u : N)
| FmtNum (n : Z).

Definition message := list fragment.

(** [src/src/error.rs], enum [Error]. *)
Inductive Error :=
| Validation (m : message)
| InvalidTransition (from to : message)
| Conflict (m : message)
| NotFound (m : message)
| Unauthenticated
| Forbidden (m : message)
| Crypto (m : message)
| ExternalUnavailable (m : message)
| AmbiguousEffect (m : message)
| Persistence (m : message)
| Serialization (m : message).

(** The result of a Rust call: [Result<A>] plus the possibility that the call
    panics (an [expect] on [None], an index out of bounds, an arithmetic
    overflow under overflow checks). *)
Inductive res (A : Type) :=
| Ok (a : A)
| Err (e : Error)
| Panic.
Arguments Ok {A} _.
Arguments Err {A} _.
Arguments Panic {A}.

#[global] Instance res_ret : MRet res := λ A a, Ok a.
#[global] Instance res_bind : MBind res := λ A B f m,
  match m with Ok a => f a | Err e => Err e | Panic => Panic end.
#[global] Instance res_fmap : FMap res := λ A B f m,
  match m with Ok a => Ok (f a) | Err e => Err e | Panic => Panic end.

(** [if cond { return Err(e) }]. *)
Definition bail_if (cond : bool) (e : Error) : res unit :=
  if cond then Err e else Ok tt.

(** [Option::ok_or]. *)
Definition ok_or {A} (o : option A) (e : Error) : res A :=
  match o with Some a => Ok a | None => Err e end.

(** [Option::expect]. *)
Definition expect {A} (o : option A) : res A :=
  match o with Some a => Ok a | None => Panic end.

Definition is_ok {A} (r : res A) : bool :=
  match r with Ok _ => true | _ => false end.

Definition is_err {A} (r : res A) : bool :=
  match r with Err _ => true | _ => false end.

(** A [for] loop whose body may leave early with [?]. *)
Fixpoint try_for {A} (l : list A) (body : A → res unit) : res unit :=
  match l with
  | [] => Ok tt
  | x :: l => body x ≫= λ _, try_for l body
  end.

(** The same loop with state carried from one iteration to the next. *)
Fixpoint try_fold {A S} (l : list A) (s : S) (body : S → A → res S) : res S :=
  match l with
  | [] => Ok s
  | x :: l => body s x ≫= λ s', try_fold l s' body
  end.

(** [iter().map(f).collect()] into a [Result<Vec<_>>],
    or where [f] may panic. *)
Definition try_map {A B} (f : A → res B) (l : list A) : res (list B) :=
  foldr (λ x r, y ← f x; ys ← r; Ok (y :: ys)) (Ok []) l.

(** [iter().any(f)] where [f] may panic. *)
Fixpoint try_any {A} (f : A → res bool) (l : list A) : res bool :=
  match l with
  | [] => Ok false
  | x :: l => b ← f x; if b : bool then Ok true else try_any f l
  end.

Lemma try_any_false {A} (f : A → res bool) l :
  try_any f l = Ok false ↔ Forall (λ x, f x = Ok false) l.
Proof.
  induction l as [|x l IH]; simpl; [by split|]. rewrite Forall_cons, <- IH.
  destruct (f x) as [[]| |]; simpl; naive_solver.
Qed.

Lemma try_any_not_panic {A} (f : A → res bool) l :
  (∀ x, f x ≠ Panic) → try_any f l ≠ Panic.
Proof.
  intros Hf. induction l as [|x l IH]; simpl; [done|].
  destruct (f x) as [[]| |] eqn:E; simpl; try done. by destruct (Hf x).
Qed.

Lemma try_map_cons {A B} (f : A → res B) x l :
  try_map f (x :: l) = (y ← f x; ys ← try_map f l; Ok (y :: ys)).
Proof. done. Qed.

Lemma bind_ok {A B} (m : res A) (f : A → res B) b :
  m ≫= f = Ok b ↔ ∃ a, m = Ok a ∧ f a = Ok b.
Proof. destruct m; simpl; naive_solver. Qed.

Lemma bail_if_ok b e u : bail_if b e = Ok u ↔ b = false.
Proof. destruct b, u; simpl; naive_solver. Qed.

Lemma bail_if_bind_ok {A} b e (f : unit → res A) a :
  bail_if b e ≫= f = Ok a ↔ b = false ∧ f tt = Ok a.
Proof. destruct b; simpl; naive_solver. Qed.

Lemma bind_unit_ok {A} (m : res unit) (f : unit → res A) a :
  m ≫= f = Ok a ↔ m = Ok tt ∧ f tt = Ok a.
Proof. destruct m as [[]| |]; simpl; naive_solver. Qed.

Lemma bail_if_not_panic b e : bail_if b e ≠ Panic.
Proof. by destruct b. Qed.

Lemma ok_or_ok {A} (o : option A) e a : ok_or o e = Ok a ↔ o = Some a.
Proof. destruct o; simpl; naive_solver. Qed.

Lemma bind_not_panic {A B} (m : res A) (f : A → res B) :
  m ≠ Panic → (∀ a, m = Ok a → f a ≠ Panic) → m ≫= f ≠ Panic.
Proof. destruct m; simpl; naive_solver. Qed.

Lemma try_for_ok {A} (l : list A) body :
  try_for l body = Ok tt ↔ Forall (λ x, body x = Ok tt) l.
Proof.
  induction l as [|x l IH]; simpl; [by split|].
  rewrite Forall_cons, bind_ok. split.
  - intros ([] & ? & ?). by rewrite <- IH.
  - intros [? ?]. exists tt. by rewrite IH.
Qed.

Lemma try_for_unit {A} (l : list A) body u :
  try_for l body = Ok u ↔ Forall (λ x, body x = Ok tt) l.
Proof. destruct u. apply try_for_ok. Qed.

Lemma try_for_not_panic {A} (l : list A) body :
  (∀ x, x ∈ l → body x ≠ Panic) → try_for l body ≠ Panic.
Proof.
  induction l as [|x l IH]; intros H; simpl; [done|].
  apply bind_not_panic; [apply H; left|]. intros _ _. apply IH.
  intros y Hy. apply H. by right.
Qed.

Lemma is_ok_true {A} (r : res A) : is_ok r = true ↔ ∃ a, r = Ok a.
Proof. destruct r; simpl; naive_solver. Qed.

Lemma is_ok_unit (r : res unit) : is_ok r = true ↔ r = Ok tt.
Proof. destruct r as [[]| |]; simpl; naive_solver. Qed.

Lemma is_err_false_unit (r : res unit) :
  r ≠ Panic → is_err r = false ↔ r = Ok tt.
Proof. destruct r as [[]| |]; simpl; naive_solver. Qed.

(** ** Machine integers *)

Definition u8_max : Z := 2 ^ 8 - 1.
Definition u16_max : Z := 2 ^ 16 - 1.
Definition u32_max : Z := 2 ^ 32 - 1.
Definition i32_max : Z := 2 ^ 31 - 1.
Definition u64_max : Z := 2 ^ 64 - 1.
Definition i64_max : Z := 2 ^ 63 - 1.
Definition u128_max : Z := 2 ^ 128 - 1.

(** Membership in an unsigned width. *)
Definition fits (max x : Z) : Prop := 0 ≤ x ≤ max.

(** [checked_add] at the width whose largest value is [max]. *)
Definition checked_add (max a b : Z) : option Z :=
  if a + b <=? max then Some (a + b) else None.

(** [saturating_add] at the width whose largest value is [max]. *)
Definition saturating_add (max a b : Z) : Z := Z.min max (a + b).
Definition saturating_mul (max a b : Z) : Z := Z.min max (a * b).

(** [a += b] with overflow checks. *)
Definition add_assign (max a b : Z) : res Z :=
  if a + b <=? max then Ok (a + b) else Panic.

(** [T::try_from(x)] for an unsigned target whose largest value is [max]. *)
Definition try_from (max x : Z) : option Z :=
  if (0 <=? x) && (x <=? max) then Some x else None.

Lemma checked_add_some max a b c :
  checked_add max a b = Some c ↔ a + b ≤ max ∧ c = a + b.
Proof. unfold checked_add. case_match; naive_solver lia. Qed.

Lemma checked_add_none max a b : checked_add max a b = None ↔ max < a + b.
Proof. unfold checked_add. case_match; naive_solver lia. Qed.

Lemma try_from_some max x y : try_from max x = Some y ↔ fits max x ∧ y = x.
Proof. unfold try_from, fits. case_match; naive_solver lia. Qed.

Lemma saturating_add_fits max a b :
  fits max a → fits max b → fits max (saturating_add max a b).
Proof. unfold fits, saturating_add. lia. Qed.

Lemma le_div_iff a b q : 0 < b → q ≤ a / b ↔ q * b ≤ a.
Proof.
  intros Hb. split.
  - intros H. pose proof (Z.mul_div_le a b Hb). nia.
  - intros H. apply Z.div_le_lower_bound; lia.
Qed.

Lemma div_le_iff a b q : 0 < b → a / b ≤ q ↔ a < (q + 1) * b.
Proof. intros Hb. pose proof (le_div_iff a b (q + 1) Hb). lia. Qed.

(** ** [array.into_iter().filter_map(|(flag, x)| flag.then_some(x)).collect()] *)

Fixpoint flagged {A} (checks : list (bool * A)) : list A :=
  match checks with
  | [] => []
  | (b, x) :: checks => if b then x :: flagged checks else flagged checks
  end.

Lemma elem_of_flagged {A} (checks : list (bool * A)) x :
  x ∈ flagged checks ↔ (true, x) ∈ checks.
Proof.
  induction checks as [|[[] y] l IH]; simpl.
  - by rewrite !elem_of_nil.
  - rewrite !elem_of_cons, IH. naive_solver.
  - rewrite elem_of_cons, IH. naive_solver.
Qed.

Lemma flagged_nil {A} (checks : list (bool * A)) :
  flagged checks = [] ↔ Forall (λ c, c.1 = false) checks.
Proof.
  induction checks as [|[[] y] l IH]; simpl; [by split| |];
    rewrite Forall_cons; naive_solver.
Qed.

Lemma flagged_app {A} (l k : list (bool * A)) :
  flagged (l ++ k) = flagged l ++ flagged k.
Proof. induction l as [|[[] x] l IH]; simpl; by rewrite ?IH. Qed.

(** ** Booleans and lists *)

Lemma existsb_false {A} (f : A → bool) l :
  existsb f l = false ↔ Forall (λ x, f x = false) l.
Proof.
  induction l as [|x l IH]; simpl; [by split|].
  rewrite Forall_cons, orb_false_iff. naive_solver.
Qed.

Lemma existsb_true {A} (f : A → bool) l :
  existsb f l = true ↔ ∃ x, x ∈ l ∧ f x = true.
Proof.
  rewrite existsb_exists. setoid_rewrite <- list_elem_of_In. done.
Qed.

Lemma forallb_true {A} (f : A → bool) l :
  forallb f l = true ↔ Forall (λ x, f x = true) l.
Proof.
  induction l as [|x l IH]; simpl; [by split|].
  rewrite Forall_cons, andb_true_iff. naive_solver.
Qed.

(** Membership in a list with decidable equality, as a boolean. *)
Definition mem {A} `{EqDecision A} (x : A) (l : list A) : bool :=
  existsb (λ y, bool_decide (x = y)) l.

Lemma mem_true {A} `{EqDecision A} (x : A) l : mem x l = true ↔ x ∈ l.
Proof.
  unfold mem. rewrite existsb_true. setoid_rewrite bool_decide_eq_true.
  naive_solver.
Qed.

Lemma mem_false {A} `{EqDecision A} (x : A) l : mem x l = false ↔ x ∉ l.
Proof. rewrite <- mem_true. by destruct (mem x l). Qed.

Definition is_none {A} (o : option A) : bool :=
  match o with None => true | Some _ => false end.

Definition is_some {A} (o : option A) : bool :=
  match o with None => false | Some _ => true end.

Lemma is_none_false {A} (o : option A) : is_none o = false ↔ is_Some o.
Proof. destruct o; simpl; unfold is_Some; naive_solver. Qed.

Lemma is_none_true {A} (o : option A) : is_none o = true ↔ o = None.
Proof. by destruct o. Qed.

Lemma is_some_false {A} (o : option A) : is_some o = false ↔ o = None.
Proof. by destruct o. Qed.

Lemma is_some_true {A} (o : option A) : is_some o = true ↔ is_Some o.
Proof. destruct o; simpl; unfold is_Some; naive_solver. Qed.

(** The boolean [filter] of the iterators. *)
Lemma elem_of_filter_bool {A} (p : A → bool) x l :
  x ∈ List.filter p l ↔ x ∈ l ∧ p x = true.
Proof. rewrite !list_elem_of_In, filter_In. done. Qed.

Lemma filter_permutation {A} (p : A → bool) l k :
  Permutation l k → Permutation (List.filter p l) (List.filter p k).
Proof.
  induction 1 as [|x l k _ IH|x y l|l k m _ IH1 _ IH2]; simpl; [done| | |by rewrite IH1].
  - by destruct (p x); rewrite IH.
  - destruct (p x), (p y); try done. apply Permutation_swap.
Qed.

Lemma find_head_filter {A} (p : A → bool) l : find p l = head (List.filter p l).
Proof. induction l as [|x l IH]; simpl; [done|]. by destruct (p x). Qed.

(** ** Reflexive transitive closure of a step relation *)

Inductive star {A} (R : A → A → Prop) : A → A → Prop :=
| star_nil a : star R a a
| star_snoc a b c : star R a b → R b c → star R a c.

Lemma star_invariant {A} (R : A → A → Prop) (I : A → Prop) a b :
  I a → (∀ x y, I x → R x y → I y) → star R a b → I b.
Proof. intros Ha Hstep H. induction H; eauto. Qed.

Lemma star_cons {A} (R : A → A → Prop) a b c :
  R a b → star R b c → star R a c.
Proof.
  intros Hab H. induction H as [|x y z Hxy IH Hyz].
  - eapply star_snoc; [apply star_nil|done].
  - eapply star_snoc; [apply IH, Hab|done].
Qed.

Lemma star_trans {A} (R : A → A → Prop) a b c : star R a b → star R b c → star R a c.
Proof. intros Hab. induction 1; [done|]. eapply star_snoc; [|done]. auto. Qed.

Lemma star_mono {A} (R S : A → A → Prop) a b : (∀ x y, R x y → S x y) → star R a b → star S a b.
Proof. intros H. induction 1; [apply star_nil|]. eapply star_snoc; eauto. Qed.

(** Induction from the first step. *)
Lemma star_ind_l {A} (R : A → A → Prop) (c : A) (P : A → Prop) :
  P c → (∀ a b, R a b → star R b c → P b → P a) → ∀ a, star R a c → P a.
Proof.
  intros Hc Hs a H. induction H as [a|a b c H IH Hbc]; [done|].
  apply IH.
  - apply (Hs b c Hbc); [apply star_nil|done].
  - intros x y Hxy Hyb Hy. apply (Hs x y Hxy); [by eapply star_snoc|done].
Qed.

Lemma star_uncons {A} (R : A → A → Prop) a c : star R a c → a = c ∨ ∃ b, R a b ∧ star R b c.
Proof. revert a. apply star_ind_l; eauto. Qed.

(** A function has at most one normal form. *)
Lemma star_normal_form {A} (step : A → option A) a b c :
  star (λ x y, step x = Some y) a b → step b = None →
  star (λ x y, step x = Some y) a c → step c = None → b = c.
Proof.
  intros Hb Nb. revert a Hb. refine (star_ind_l _ _ _ _ _).
  - intros [?|(x & Hx & _)]%star_uncons _; [done|congruence].
  - intros a x Hax _ IH [->|(y & Hy & Hc)]%star_uncons Nc; [congruence|].
    apply IH; [|done]. by replace x with y by congruence.
Qed.

(** ** Automation *)

(** Rewriting base of the reflection lemmas that turn a boolean guard of the
    code into the proposition it decides. *)
Create Rewrite HintDb reflect_db.
#[export] Hint Rewrite @bind_unit_ok @bail_if_ok @ok_or_ok @try_for_unit
  @bool_decide_eq_true @bool_decide_eq_false @orb_false_iff @orb_true_iff
  @andb_true_iff @andb_false_iff @negb_true_iff @negb_false_iff
  @existsb_false @is_none_false @is_none_true @is_some_false @is_some_true
  Z.ltb_lt Z.ltb_ge Z.leb_le Z.leb_gt Z.eqb_eq Z.eqb_neq : reflect_db.

Ltac reflect := autorewrite with reflect_db in *.

(** Split a goal or hypotheses into their conjuncts and clean up. *)
Ltac crush :=
  repeat (reflect; simplify_eq/=; destruct_and?; try done).

(** Open every [match] of the goal, discarding impossible branches. *)
Ltac open_matches := repeat (case_match; simplify_eq/=; try done).

(** Absence of panics, step by step through the binds of a function; the
    components add their own functions to the base. *)
Create HintDb no_panic discriminated.
#[export] Hint Resolve bail_if_not_panic : no_panic.

Ltac no_panic :=
  repeat (intros; lazymatch goal with
    | |- (_ ≫= _) ≠ Panic => apply bind_not_panic
    | |- _ => first [ done | solve [auto with no_panic nocore] ]
    end).

(** ** Loops *)

(** A loop establishes an invariant indexed by the items processed so far,
    and finishes without error or panic, when every iteration does. *)
Lemma try_fold_invariant {A S} (I : list A → S → Prop) (body : S → A → res S) l s :
  I [] s →
  (∀ pre x post s, l = pre ++ x :: post → I pre s →
     ∃ s', body s x = Ok s' ∧ I (pre ++ [x]) s') →
  ∃ s', try_fold l s body = Ok s' ∧ I l s'.
Proof.
  intros H0 Hstep.
  assert (∀ post pre s, l = pre ++ post → I pre s →
    ∃ s', try_fold post s body = Ok s' ∧ I l s') as Hgen; [|by apply (Hgen l [])].
  induction post as [|x post IH]; intros pre s1 Hl HI; simpl.
  - rewrite app_nil_r in Hl. subst. eauto.
  - destruct (Hstep pre x post s1 Hl HI) as (s2 & -> & HI2). simpl.
    apply (IH (pre ++ [x])); [|done]. by rewrite <- app_assoc.
Qed.

Lemma try_fold_not_panic {A S} (l : list A) (s : S) body :
  (∀ s x, body s x ≠ Panic) → try_fold l s body ≠ Panic.
Proof.
  intros Hb. revert s. induction l as [|x l IH]; intros s; simpl; [done|].
  apply bind_not_panic; [apply Hb|]. intros s' _. apply IH.
Qed.

Lemma try_fold_app {A S} (l k : list A) (s : S) body :
  try_fold (l ++ k) s body = (try_fold l s body ≫= λ s', try_fold k s' body).
Proof.
  revert s. induction l as [|x l IH]; intros s; simpl; [done|].
  destruct (body s x); simpl; [apply IH|done|done].
Qed.

Lemma try_fold_map {A B S} (h : A → B) (l : list A) (s : S) body :
  try_fold (h <$> l) s body = try_fold l s (λ s x, body s (h x)).
Proof.
  revert s. induction l as [|x l IH]; intros s; simpl; [done|].
  destruct (body s (h x)); simpl; [apply IH|done|done].
Qed.

(** Two nested loops are one loop over the pairs. *)
Lemma try_fold_nested {A B S} (l : list A) (k : list B) (s : S) f :
  try_fold l s (λ s x, try_fold k s (λ s y, f s (x, y))) =
  try_fold (list_prod l k) s f.
Proof.
  revert s. induction l as [|x l IH]; intros s; simpl; [done|].
  rewrite try_fold_app. change (map (λ y, (x, y)) k) with ((λ y, (x, y)) <$> k).
  rewrite try_fold_map. destruct (try_fold k s _); simpl; [apply IH|done|done].
Qed.
