(* ===== verification/RustStr.v ===== *)
(** Rust string primitives used by the sources.

    A [str] is the Rocq [string] of its UTF-8 bytes, so [len], [as_bytes],
    [starts_with], [contains], [split] and comparison work on the bytes, as
    they do in Rust; [chars] decodes the bytes to Unicode scalar values for the
    three predicates that are defined on characters: [trim], [is_control] and
    [is_whitespace]. *)

From Stdlib Require Import ZArith Lia Ascii String.
From stdpp Require Import base tactics option list strings.
From S2P Require Import Prelude.

(** ** Bytes *)

Definition byte_of (c : ascii) : Z := Z.of_N (N_of_ascii c).

Fixpoint bytes (s : string) : list Z :=
  match s with
  | EmptyString => []
  | String c s => byte_of c :: bytes s
  end.

(** [str::len], in bytes. *)
Definition len (s : string) : Z := Z.of_nat (String.length s).

(** [str::is_empty]. *)
Definition str_is_empty (s : string) : bool :=
  match s with EmptyString => true | String _ _ => false end.

Definition is_ascii_digit (b : Z) : bool := (48 <=? b) && (b <=? 57).
Definition is_ascii_uppercase (b : Z) : bool := (65 <=? b) && (b <=? 90).
Definition is_ascii_lowercase (b : Z) : bool := (97 <=? b) && (b <=? 122).
Definition is_ascii_alphanumeric (b : Z) : bool :=
  is_ascii_digit b || is_ascii_uppercase b || is_ascii_lowercase b.
Definition is_ascii_hexdigit (b : Z) : bool :=
  is_ascii_digit b || ((65 <=? b) && (b <=? 70)) || ((97 <=? b) && (b <=? 102)).

(** [str::to_ascii_lowercase]. *)
Definition ascii_lower (c : ascii) : ascii :=
  if is_ascii_uppercase (byte_of c) then ascii_of_N (N_of_ascii c + 32) else c.

Fixpoint to_ascii_lowercase (s : string) : string :=
  match s with
  | EmptyString => EmptyString
  | String c s => String (ascii_lower c) (to_ascii_lowercase s)
  end.

(** ** Characters *)

(** The continuation byte [10xxxxxx]. *)
Definition cont (b : Z) : Z := Z.land b 63.

(** UTF-8 decoding.  A [str] is valid UTF-8, so the fallback for a truncated
    sequence is never taken on the strings of the program. *)
Fixpoint decode (bs : list Z) : list Z :=
  match bs with
  | [] => []
  | b0 :: t0 =>
    if b0 <? 128 then b0 :: decode t0 else
    match t0 with
    | [] => [65533]
    | b1 :: t1 =>
      if b0 <? 224 then Z.shiftl (Z.land b0 31) 6 + cont b1 :: decode t1 else
      match t1 with
      | [] => [65533]
      | b2 :: t2 =>
        if b0 <? 240 then
          Z.shiftl (Z.land b0 15) 12 + Z.shiftl (cont b1) 6 + cont b2 :: decode t2
        else
        match t2 with
        | [] => [65533]
        | b3 :: t3 =>
          Z.shiftl (Z.land b0 7) 18 + Z.shiftl (cont b1) 12
            + Z.shiftl (cont b2) 6 + cont b3 :: decode t3
        end
      end
    end
  end.

Definition chars (s : string) : list Z := decode (bytes s).

(** [char::is_control]: general category Cc. *)
Definition is_control (c : Z) : bool :=
  (c <? 32) || ((127 <=? c) && (c <=? 159)).

(** [char::is_whitespace]: the Unicode property White_Space. *)
Definition is_whitespace (c : Z) : bool :=
  ((9 <=? c) && (c <=? 13)) || (c =? 32) || (c =? 133) || (c =? 160)
  || (c =? 5760) || ((8192 <=? c) && (c <=? 8202)) || (c =? 8232)
  || (c =? 8233) || (c =? 8239) || (c =? 8287) || (c =? 12288).

Fixpoint skip_while {A} (p : A → bool) (l : list A) : list A :=
  match l with
  | [] => []
  | x :: l' => if p x then skip_while p l' else l
  end.

(** [str::trim], as the characters that remain. *)
Definition trim (s : string) : list Z :=
  rev (skip_while is_whitespace (rev (skip_while is_whitespace (chars s)))).

(** [value.trim().is_empty()]. *)
Definition blank (s : string) : bool :=
  match trim s with [] => true | _ => false end.

(** [value.chars().any(char::is_control)]. *)
Definition has_control (s : string) : bool := existsb is_control (chars s).

(** [value.chars().any(char::is_whitespace)]. *)
Definition has_whitespace (s : string) : bool := existsb is_whitespace (chars s).

(** [value.trim() != value]. *)
Definition trim_differs (s : string) : bool := negb (bool_decide (trim s = chars s)).

(** ** Searching and splitting *)

(** [str::starts_with]. *)
Definition starts_with (pat s : string) : bool := String.prefix pat s.

(** [str::contains] for a string pattern. *)
Fixpoint contains (pat s : string) : bool :=
  String.prefix pat s ||
  match s with EmptyString => false | String _ s' => contains pat s' end.

(** [str::contains] for an ASCII character. *)
Fixpoint contains_char (c : ascii) (s : string) : bool :=
  match s with
  | EmptyString => false
  | String d s' => bool_decide (c = d) || contains_char c s'
  end.

(** [ends_with] on bytes. *)
Definition ends_with (pat s : string) : bool :=
  bool_decide (drop (length (bytes s) - length (bytes pat)) (bytes s) = bytes pat).

(** [str::ends_with] for an ASCII character. *)
Fixpoint ends_with_char (c : ascii) (s : string) : bool :=
  match s with
  | EmptyString => false
  | String d EmptyString => bool_decide (c = d)
  | String _ s' => ends_with_char c s'
  end.

(** [str::strip_prefix]. *)
Fixpoint strip_prefix (pat s : string) : option string :=
  match pat, s with
  | EmptyString, _ => Some s
  | String _ _, EmptyString => None
  | String c pat', String d s' =>
    if bool_decide (c = d) then strip_prefix pat' s' else None
  end.

(** [str::split] on an ASCII character. *)
Fixpoint split_on (c : ascii) (s : string) : list string :=
  match s with
  | EmptyString => [EmptyString]
  | String d s' =>
    if bool_decide (c = d) then EmptyString :: split_on c s'
    else match split_on c s' with
         | [] => [String d EmptyString]
         | w :: ws => String d w :: ws
         end
  end.

(** [str::split_once] on an ASCII character. *)
Fixpoint split_once (c : ascii) (s : string) : option (string * string) :=
  match s with
  | EmptyString => None
  | String d s' =>
    if bool_decide (c = d) then Some (EmptyString, s')
    else match split_once c s' with
         | Some (l, r) => Some (String d l, r)
         | None => None
         end
  end.

(** ** Facts *)

#[global] Arguments String.append : simpl nomatch.

Lemma skip_while_nil {A} (p : A → bool) l :
  skip_while p l = [] ↔ Forall (λ x, p x = true) l.
Proof.
  induction l as [|x l IH]; simpl; [by split|].
  rewrite Forall_cons. destruct (p x) eqn:E; naive_solver.
Qed.

Lemma blank_true s : blank s = true ↔ Forall (λ c, is_whitespace c = true) (chars s).
Proof.
  unfold blank, trim.
  set (l := skip_while is_whitespace (chars s)).
  assert (Hl : l = [] ↔ Forall (λ c, is_whitespace c = true) (chars s))
    by apply skip_while_nil.
  rewrite <- Hl.
  destruct l as [|x l'] eqn:El; simpl; [done|].
  assert (is_whitespace x = false) as Hx.
  { subst l. clear -El. revert El. generalize (chars s) as k. intros k.
    induction k as [|y k IH]; simpl; [done|].
    destruct (is_whitespace y) eqn:E; [done|]. by intros [= <-]. }
  split; [|done]. case_match eqn:E; [|done]. intros _.
  apply (f_equal (@rev Z)) in E. rewrite rev_involutive in E.
  apply skip_while_nil in E. simpl in E.
  apply Forall_app in E as [_ E]. inversion E; congruence.
Qed.

(** A string that starts with a printable ASCII byte is not blank. *)
Lemma blank_head c s :
  32 < byte_of c < 128 → blank (String c s) = false.
Proof.
  intros Hc. apply not_true_iff_false. rewrite blank_true.
  unfold chars. simpl. rewrite (proj2 (Z.ltb_lt _ _)) by lia.
  intros H. inversion H as [|? ? Hw _]; subst.
  assert (is_whitespace (byte_of c) = false) as Hn; [|congruence].
  unfold is_whitespace.
  repeat (apply orb_false_iff; split); try apply andb_false_iff; lia.
Qed.

Lemma contains_prefix pat s : String.prefix pat s = true → contains pat s = true.
Proof. destruct s; simpl; intros ->; done. Qed.

Lemma split_once_spec c s l r :
  split_once c s = Some (l, r) ↔ s = (l +:+ String c r) ∧ contains_char c l = false.
Proof.
  revert l r. induction s as [|d s IH]; intros l r; simpl.
  - split; [done|]. intros [H _]. by destruct l.
  - case_bool_decide as E; subst.
    + split; [naive_solver|]. intros [H Hc]. destruct l as [|e l]; simpl in *.
      * congruence.
      * simplify_eq. by rewrite bool_decide_true in Hc.
    + destruct (split_once c s) as [[l' r']|] eqn:Es.
      * split.
        -- intros [= <- <-]. destruct (proj1 (IH l' r') eq_refl) as [-> Hc]. simpl.
           rewrite bool_decide_false by done. done.
        -- intros [H Hc]. destruct l as [|e l]; simpl in *; [congruence|].
           injection H as -> H. apply orb_false_iff in Hc as [_ Hc].
           pose proof (proj2 (IH l r) (conj H Hc)). congruence.
      * split; [done|]. intros [H Hc]. destruct l as [|e l]; simpl in *; [congruence|].
        injection H as -> H. apply orb_false_iff in Hc as [_ Hc].
        by discriminate (proj2 (IH l r) (conj H Hc)).
Qed.

Lemma strip_prefix_spec pat s r : strip_prefix pat s = Some r ↔ s = (pat +:+ r).
Proof.
  revert s. induction pat as [|c pat IH]; intros s; simpl; [naive_solver|].
  destruct s as [|d s]; [done|]. case_bool_decide as E.
  - subst. rewrite IH. naive_solver.
  - naive_solver.
Qed.

Lemma bytes_app s t : bytes (s +:+ t) = bytes s ++ bytes t.
Proof. induction s as [|c s IH]; simpl; by rewrite ?IH. Qed.

Lemma length_bytes s : Z.of_nat (length (bytes s)) = len s.
Proof.
  unfold len. induction s as [|c s IH]; simpl; [done|]. lia.
Qed.

Lemma byte_of_inj : Inj (=) (=) byte_of.
Proof.
  intros a b H. unfold byte_of in H. apply N2Z.inj in H.
  rewrite <- (ascii_N_embedding a), <- (ascii_N_embedding b). by f_equal.
Qed.

Lemma bytes_inj : Inj (=) (=) bytes.
Proof.
  intros s. induction s as [|c s IH]; intros [|d t] H; simpl in *; try done.
  injection H as Hc H. f_equal; [by apply byte_of_inj|]. by apply IH.
Qed.

Lemma byte_of_bound c : 0 ≤ byte_of c < 256.
Proof.
  unfold byte_of. pose proof (N_ascii_bounded c). lia.
Qed.
