(* ===== verification/RustOrd.v ===== *)
(** Rust's [Ord], [BTreeSet], [sort_by] and the [chrono] instants.

    [Ord] states the laws that [#[derive(Ord)]] provides; instances cover the
    integers, strings, pairs, options and lists, and [ord_via] transports an
    order along an injective key.  [BTreeSet A] is a strictly increasing list,
    so its iteration order is the list itself and two sets with the same
    members are equal.  [sort_by] is the stable sort of the slice methods. *)

From Stdlib Require Import ZArith Lia Sorting Permutation Eqdep_dec.
From stdpp Require Import base tactics option list strings sets.
From S2P Require Import Prelude RustStr.

(** ** Total orders *)

Class Ord (A : Type) := {
  cmp : A → A → comparison;
  cmp_eq x y : cmp x y = Eq ↔ x = y;
  cmp_opp x y : cmp y x = CompOpp (cmp x y);
  cmp_trans x y z : cmp x y = Lt → cmp y z = Lt → cmp x z = Lt
}.

(** [Ordering::then_with]. *)
Definition then_with (o : comparison) (k : comparison) : comparison :=
  match o with Eq => k | _ => o end.

Section ord_facts.
  Context {A : Type} `{Ord A}.

Lemma cmp_refl (x : A) : cmp x x = Eq.
Proof. by apply cmp_eq. Qed.

Lemma cmp_gt_lt (x y : A) : cmp x y = Gt ↔ cmp y x = Lt.
Proof. rewrite (cmp_opp x y). destruct (cmp x y); done. Qed.

Lemma cmp_lt_irrefl (x : A) : cmp x x ≠ Lt.
Proof. by rewrite cmp_refl. Qed.

#[export] Instance ord_eq_dec : EqDecision A | 10.
Proof.
  intros x y. destruct (cmp x y) eqn:E.
  - left. by apply cmp_eq.
  - right. intros ->. by rewrite cmp_refl in E.
  - right. intros ->. by rewrite cmp_refl in E.
Defined.

(** [x <= y] as a relation. *)
Definition ole (x y : A) : Prop := cmp x y ≠ Gt.
Definition olt (x y : A) : Prop := cmp x y = Lt.

Lemma ole_total x y : ole x y ∨ ole y x.
Proof. unfold ole. rewrite (cmp_opp x y). destruct (cmp x y); naive_solver. Qed.

Lemma ole_antisym x y : ole x y → ole y x → x = y.
Proof.
  unfold ole. rewrite (cmp_opp x y). destruct (cmp x y) eqn:E; simpl; try done.
  intros _ _. by apply cmp_eq.
Qed.

Lemma ole_alt x y : ole x y ↔ olt x y ∨ x = y.
Proof.
  unfold ole, olt. rewrite <- cmp_eq. destruct (cmp x y); naive_solver.
Qed.

Lemma ole_trans x y z : ole x y → ole y z → ole x z.
Proof.
  rewrite !ole_alt. intros [?| ->] [?| ->]; eauto.
  left. by eapply cmp_trans.
Qed.
End ord_facts.

(** ** Instances *)

#[global, program] Instance Z_ord : Ord Z := {| cmp := Z.compare |}.
Next Obligation. apply Z.compare_eq_iff. Qed.
Next Obligation. intros. apply Z.compare_antisym. Qed.
Next Obligation. intros x y z. rewrite !Z.compare_lt_iff. lia. Qed.

#[global, program] Instance N_ord : Ord N := {| cmp := N.compare |}.
Next Obligation. apply N.compare_eq_iff. Qed.
Next Obligation. intros. apply N.compare_antisym. Qed.
Next Obligation. intros x y z. rewrite !N.compare_lt_iff. lia. Qed.

#[global, program] Instance pair_ord {A B} `{Ord A, Ord B} : Ord (A * B) :=
  {| cmp p q := then_with (cmp p.1 q.1) (cmp p.2 q.2) |}.
Next Obligation.
  intros A B ?? [a b] [c d]; simpl. rewrite pair_equal_spec, <- !cmp_eq.
  destruct (cmp a c); simpl; naive_solver.
Qed.
Next Obligation.
  intros A B ?? [a b] [c d]; simpl. rewrite (cmp_opp a c), (cmp_opp b d).
  by destruct (cmp a c).
Qed.
Next Obligation.
  intros A B ?? [a b] [c d] [e f]; simpl.
  destruct (cmp a c) eqn:E1; simpl; try done.
  - apply cmp_eq in E1 as ->. destruct (cmp c e); simpl; try done. apply cmp_trans.
  - intros _. destruct (cmp c e) eqn:E2; simpl; try done.
    + apply cmp_eq in E2 as <-. by rewrite E1.
    + intros _. by rewrite (cmp_trans _ _ _ E1 E2).
Qed.

#[global, program] Instance option_ord {A} `{Ord A} : Ord (option A) :=
  {| cmp x y := match x, y with
                | None, None => Eq
                | None, Some _ => Lt
                | Some _, None => Gt
                | Some a, Some b => cmp a b
                end |}.
Next Obligation. intros A ? [a|] [b|]; rewrite ?cmp_eq; naive_solver. Qed.
Next Obligation. intros A ? [a|] [b|]; simpl; try done. apply cmp_opp. Qed.
Next Obligation. intros A ? [a|] [b|] [c|]; try done. apply cmp_trans. Qed.

Fixpoint list_cmp {A} `{Ord A} (l k : list A) : comparison :=
  match l, k with
  | [], [] => Eq
  | [], _ => Lt
  | _, [] => Gt
  | x :: l, y :: k => then_with (cmp x y) (list_cmp l k)
  end.

#[global, program] Instance list_ord {A} `{Ord A} : Ord (list A) :=
  {| cmp := list_cmp |}.
Next Obligation.
  intros A ? l. induction l as [|x l IH]; intros [|y k]; simpl; [done..|].
  destruct (cmp x y) eqn:E; simpl.
  - specialize (IH k). apply cmp_eq in E as ->. naive_solver.
  - split; [done|]. intros [= -> _]. by rewrite cmp_refl in E.
  - split; [done|]. intros [= -> _]. by rewrite cmp_refl in E.
Qed.
Next Obligation.
  intros A ? l. induction l as [|x l IH]; intros [|y k]; simpl; try done.
  rewrite (cmp_opp x y). destruct (cmp x y); simpl; by rewrite ?IH.
Qed.
Next Obligation.
  intros A ? l. induction l as [|x l IH]; intros [|y k] [|z m]; simpl; try done.
  destruct (cmp x y) eqn:E1; simpl; try done.
  - apply cmp_eq in E1 as ->. destruct (cmp y z); simpl; try done. apply IH.
  - intros _. destruct (cmp y z) eqn:E2; simpl; try done.
    + apply cmp_eq in E2 as <-. by rewrite E1.
    + intros _. by rewrite (cmp_trans _ _ _ E1 E2).
Qed.

(** The order pulled back along an injective key, which is what
    [#[derive(Ord)]] computes on enums and structs. *)
Definition ord_via {A B} `{Ord B} (key : A → B) (Hinj : Inj (=) (=) key) : Ord A.
Proof.
  refine {| cmp x y := cmp (key x) (key y) |}.
  - intros x y. rewrite cmp_eq. split; [apply Hinj|congruence].
  - intros x y. apply cmp_opp.
  - intros x y z. apply cmp_trans.
Defined.

(** [str] compares by bytes. *)
#[global] Instance string_ord : Ord string := ord_via bytes bytes_inj.

(** ** Sorted sets *)

Fixpoint insert_sorted {A} `{Ord A} (x : A) (l : list A) : list A :=
  match l with
  | [] => [x]
  | y :: l' =>
    match cmp x y with
    | Lt => x :: l
    | Eq => l
    | Gt => y :: insert_sorted x l'
    end
  end.

Fixpoint increasing {A} `{Ord A} (l : list A) : bool :=
  match l with
  | [] => true
  | x :: l' =>
    match l' with
    | [] => true
    | y :: _ => match cmp x y with Lt => increasing l' | _ => false end
    end
  end.

Section sorted_sets.
  Context {A : Type} `{Ord A}.
  Implicit Types (l k : list A) (x y : A).

Lemma increasing_cons x l :
  increasing (x :: l) = true ↔ Forall (olt x) l ∧ increasing l = true.
Proof.
  revert x. induction l as [|y l IH]; intros x; [simpl; naive_solver|].
  change (match cmp x y with Lt => increasing (y :: l) | _ => false end = true
          ↔ Forall (olt x) (y :: l) ∧ increasing (y :: l) = true).
  rewrite Forall_cons. destruct (cmp x y) eqn:E; unfold olt at 1; rewrite E.
  - naive_solver.
  - split; [|naive_solver]. intros Hl. split_and!; try done.
    apply IH in Hl as [Hl _]. eapply Forall_impl; [exact Hl|].
    intros z Hz. by eapply cmp_trans.
  - naive_solver.
Qed.

Lemma elem_of_insert_sorted x y l : y ∈ insert_sorted x l ↔ y = x ∨ y ∈ l.
Proof.
  induction l as [|z l IH]; simpl; [set_solver|].
  destruct (cmp x z) eqn:E.
  - apply cmp_eq in E as ->. set_solver.
  - set_solver.
  - rewrite !elem_of_cons, IH. naive_solver.
Qed.

Lemma insert_sorted_increasing x l :
  increasing l = true → increasing (insert_sorted x l) = true.
Proof.
  induction l as [|z l IH]; intros Hl; [done|].
  simpl insert_sorted. destruct (cmp x z) eqn:E; [done| |].
  - apply increasing_cons in Hl as Hl'. apply increasing_cons. split; [|done].
    constructor; [done|]. destruct Hl' as [Hl' _].
    eapply Forall_impl; [exact Hl'|]. intros y Hy. by eapply cmp_trans.
  - apply increasing_cons in Hl as [Hz Hl]. apply increasing_cons.
    split; [|by apply IH]. apply Forall_forall. intros y Hy.
    apply elem_of_insert_sorted in Hy as [->|Hy].
    + by apply cmp_gt_lt.
    + by rewrite Forall_forall in Hz; apply Hz.
Qed.

Lemma increasing_ext l k :
  increasing l = true → increasing k = true → (∀ x, x ∈ l ↔ x ∈ k) → l = k.
Proof.
  revert k. induction l as [|x l IH]; intros [|y k] Hl Hk Hx; [done| | |].
  - specialize (Hx y). set_solver.
  - specialize (Hx x). set_solver.
  - apply increasing_cons in Hl as [Hxl Hl]. apply increasing_cons in Hk as [Hyk Hk].
    rewrite Forall_forall in Hxl, Hyk.
    assert (x = y) as ->.
    { pose proof (proj1 (Hx x)) as H1. pose proof (proj2 (Hx y)) as H2.
      rewrite !elem_of_cons in H1, H2.
      destruct (H1 (or_introl eq_refl)) as [|H1']; [done|].
      destruct (H2 (or_introl eq_refl)) as [|H2']; [done|].
      exfalso. apply (cmp_lt_irrefl x).
      eapply cmp_trans; [apply Hxl, H2'|apply Hyk, H1']. }
    f_equal. apply IH; try done. intros z. specialize (Hx z).
    rewrite !elem_of_cons in Hx. split; intros Hz.
    + destruct (proj1 Hx (or_intror Hz)) as [->|]; [|done].
      exfalso. by apply (cmp_lt_irrefl y), Hxl.
    + destruct (proj2 Hx (or_intror Hz)) as [->|]; [|done].
      exfalso. by apply (cmp_lt_irrefl y), Hyk.
Qed.

Lemma increasing_filter (p : A → bool) l :
  increasing l = true → increasing (List.filter p l) = true.
Proof.
  induction l as [|x l IH]; intros Hl; [done|].
  apply increasing_cons in Hl as [Hx Hl]. simpl. destruct (p x); [|by apply IH].
  apply increasing_cons. split; [|by apply IH].
  rewrite Forall_forall in *. intros y Hy. apply Hx.
  apply list_elem_of_In, List.filter_In in Hy as [Hy _]. by apply list_elem_of_In.
Qed.
End sorted_sets.

(** [std::collections::BTreeSet]. *)
Record BTreeSet (A : Type) `{Ord A} := mkBTreeSet {
  elems : list A;
  elems_increasing : increasing elems = true
}.
Arguments elems {A _} _.
Arguments elems_increasing {A _} _.
Arguments mkBTreeSet {A _} _ _.

Section btree_set.
  Context {A : Type} `{Ord A}.
  Implicit Types (s t : BTreeSet A) (x y : A).

Definition bs_empty : BTreeSet A := mkBTreeSet [] eq_refl.

Definition bs_insert x s : BTreeSet A :=
  mkBTreeSet (insert_sorted x (elems s))
    (insert_sorted_increasing x (elems s) (elems_increasing s)).

Definition bs_extend (l : list A) s : BTreeSet A := foldr bs_insert s l.
Definition bs_of_list (l : list A) : BTreeSet A := bs_extend l bs_empty.
Definition bs_contains x s : bool := mem x (elems s).
Definition bs_is_empty s : bool := match elems s with [] => true | _ => false end.

Definition bs_inter s t : BTreeSet A :=
  mkBTreeSet (List.filter (λ x, bs_contains x t) (elems s))
    (increasing_filter _ _ (elems_increasing s)).

Definition bs_union s t : BTreeSet A := bs_extend (elems t) s.

(** [s.is_subset(&t)]. *)
Definition bs_is_subset s t : bool := forallb (λ x, bs_contains x t) (elems s).

#[export] Instance bs_elem_of : ElemOf A (BTreeSet A) := λ x s, x ∈ elems s.

Lemma bs_ext s t : (∀ x, x ∈ s ↔ x ∈ t) → s = t.
Proof.
  destruct s as [l Hl], t as [k Hk]. intros Hx. change (∀ x, x ∈ l ↔ x ∈ k) in Hx.
  assert (l = k) as <- by by apply increasing_ext.
  f_equal. apply UIP_dec. apply bool_dec.
Qed.

Lemma elem_of_bs_empty x : x ∈ bs_empty ↔ False.
Proof. apply elem_of_nil. Qed.

Lemma elem_of_bs_insert x y s : y ∈ bs_insert x s ↔ y = x ∨ y ∈ s.
Proof. apply elem_of_insert_sorted. Qed.

Lemma elem_of_bs_extend x l s : x ∈ bs_extend l s ↔ x ∈ l ∨ x ∈ s.
Proof.
  induction l as [|y l IH]; simpl; [set_solver|].
  rewrite elem_of_bs_insert, elem_of_cons, IH. naive_solver.
Qed.

Lemma elem_of_bs_of_list x l : x ∈ bs_of_list l ↔ x ∈ l.
Proof.
  unfold bs_of_list. rewrite elem_of_bs_extend, elem_of_bs_empty. naive_solver.
Qed.

Lemma bs_contains_true x s : bs_contains x s = true ↔ x ∈ s.
Proof. apply mem_true. Qed.

Lemma elem_of_bs_inter x s t : x ∈ bs_inter s t ↔ x ∈ s ∧ x ∈ t.
Proof.
  unfold bs_inter, elem_of, bs_elem_of; simpl.
  rewrite list_elem_of_In, List.filter_In, <- list_elem_of_In, bs_contains_true. done.
Qed.

Lemma elem_of_bs_union x s t : x ∈ bs_union s t ↔ x ∈ s ∨ x ∈ t.
Proof.
  unfold bs_union. rewrite elem_of_bs_extend.
  change (x ∈ elems t) with (x ∈ t). naive_solver.
Qed.

Lemma bs_is_subset_true s t : bs_is_subset s t = true ↔ ∀ x, x ∈ s → x ∈ t.
Proof.
  unfold bs_is_subset. rewrite forallb_true, Forall_forall.
  by setoid_rewrite bs_contains_true.
Qed.

Lemma bs_is_empty_true s : bs_is_empty s = true ↔ ∀ x, x ∈ s → False.
Proof.
  unfold bs_is_empty, elem_of, bs_elem_of. destruct (elems s) as [|y l].
  - split; [intros _ x; set_solver|done].
  - split; [done|]. intros Hx. exfalso. apply (Hx y). left.
Qed.

Lemma bs_is_empty_elems s : bs_is_empty s = true ↔ elems s = [].
Proof. unfold bs_is_empty. by destruct (elems s). Qed.

Lemma bs_eq_elems s t : elems s = elems t → s = t.
Proof. intros E. apply bs_ext. intros x. unfold elem_of, bs_elem_of. by rewrite E. Qed.

#[export] Instance bs_eq_dec : EqDecision (BTreeSet A).
Proof.
  refine (λ s t, cast_if (decide (elems s = elems t))); [by apply bs_eq_elems|congruence].
Defined.
End btree_set.

(** Membership lemmas used as simplification rules. *)
#[export] Hint Rewrite @elem_of_bs_empty @elem_of_bs_insert @elem_of_bs_extend
  @elem_of_bs_of_list @elem_of_bs_inter @elem_of_bs_union : reflect_db.

(** ** Stable sorting *)

Fixpoint insert_by {A} (f : A → A → comparison) (x : A) (l : list A) : list A :=
  match l with
  | [] => [x]
  | y :: l' => match f x y with Gt => y :: insert_by f x l' | _ => x :: l end
  end.

(** [slice::sort_by]. *)
Definition sort_by {A} (f : A → A → comparison) (l : list A) : list A :=
  foldr (insert_by f) [] l.

(** [slice::sort_by_key]. *)
Definition sort_by_key {A K} `{Ord K} (key : A → K) (l : list A) : list A :=
  sort_by (λ x y, cmp (key x) (key y)) l.

Section sorting.
  Context {A K : Type} `{Ord K} (key : A → K).
  Local Abbreviation le := (λ x y, ole (key x) (key y)).
  Local Abbreviation sortk := (sort_by_key key).

Lemma insert_by_perm f (x : A) l : Permutation (insert_by f x l) (x :: l).
Proof.
  induction l as [|y l IH]; simpl; [done|]. case_match; try done.
  rewrite IH. apply Permutation_swap.
Qed.

Lemma sort_by_perm (f : A → A → comparison) l : Permutation (sort_by f l) l.
Proof.
  induction l as [|x l IH]; simpl; [done|]. by rewrite insert_by_perm, IH.
Qed.

Lemma sort_by_key_perm l : Permutation (sortk l) l.
Proof. apply sort_by_perm. Qed.

Lemma elem_of_sort_by_key x l : x ∈ sortk l ↔ x ∈ l.
Proof. by rewrite sort_by_key_perm. Qed.

Lemma sort_by_key_sorted l : StronglySorted le (sortk l).
Proof.
  unfold sort_by_key, sort_by. induction l as [|x l IH]; simpl; [constructor|].
  revert IH. generalize (foldr (insert_by (λ x y, cmp (key x) (key y))) [] l) as k.
  intros k Hk. induction Hk as [|y k Hk IH Hy]; simpl.
  - repeat constructor.
  - destruct (cmp (key x) (key y)) eqn:E.
    1,2: constructor; [by constructor|]; constructor; [unfold ole; congruence|];
      eapply Forall_impl; [exact Hy|]; intros z Hz; eapply ole_trans; [|exact Hz];
      unfold ole; congruence.
    constructor; [done|]. apply Forall_forall. intros z Hz.
    rewrite insert_by_perm in Hz. apply elem_of_cons in Hz as [->|Hz].
    + apply cmp_gt_lt in E. apply ole_alt. by left.
    + by rewrite Forall_forall in Hy; apply Hy.
Qed.

(** A sorted list is determined by its elements when the key is injective on
    them: sorting forgets the order of its input. *)
Lemma sorted_perm_unique (l k : list A) :
  (∀ x y, x ∈ l → y ∈ l → key x = key y → x = y) →
  StronglySorted le l → StronglySorted le k → Permutation l k → l = k.
Proof.
  revert k. induction l as [|x l IH]; intros k Hinj Hl Hk Hp.
  - by apply Permutation_nil in Hp.
  - destruct k as [|y k]; [by apply Permutation_sym, Permutation_nil in Hp|].
    inversion Hl as [|? ? Hl' Hxl]; inversion Hk as [|? ? Hk' Hyk]; subst.
    rewrite Forall_forall in Hxl, Hyk.
    assert (x = y) as ->.
    { apply Hinj; [left|rewrite Hp; left|].
      assert (Hx : x ∈ y :: k) by (rewrite <- Hp; left).
      assert (Hy : y ∈ x :: l) by (rewrite Hp; left).
      apply elem_of_cons in Hx as [->|Hx]; [done|].
      apply elem_of_cons in Hy as [->|Hy]; [done|].
      apply ole_antisym; [by apply Hxl|by apply Hyk]. }
    f_equal. apply IH; try done.
    + intros a b Ha Hb. apply Hinj; by right.
    + by apply Permutation_cons_inv in Hp.
Qed.

Lemma sort_by_key_permutation_invariant l k :
  (∀ x y, x ∈ l → y ∈ l → key x = key y → x = y) →
  Permutation l k → sortk l = sortk k.
Proof.
  intros Hinj Hp. apply sorted_perm_unique; try apply sort_by_key_sorted.
  - intros x y. rewrite !elem_of_sort_by_key. apply Hinj.
  - by rewrite !sort_by_key_perm.
Qed.

Lemma sort_by_key_head l x k :
  sortk l = x :: k → ∀ y, y ∈ l → ole (key x) (key y).
Proof.
  intros E y Hy. pose proof (sort_by_key_sorted l) as Hs. rewrite E in Hs.
  rewrite <- elem_of_sort_by_key, E in Hy. inversion Hs as [|? ? _ Hx]; subst.
  apply elem_of_cons in Hy as [->|Hy].
  - unfold ole. by rewrite cmp_refl.
  - by rewrite Forall_forall in Hx; apply Hx.
Qed.
End sorting.

Lemma StronglySorted_fmap {A B} (f : A → B) (R : B → B → Prop) l :
  StronglySorted (λ x y, R (f x) (f y)) l → StronglySorted R (f <$> l).
Proof.
  induction 1 as [|x l _ IH Hx]; simpl; constructor; [done|]. by rewrite Forall_fmap.
Qed.

Lemma sort_by_ext {A} (f g : A → A → comparison) l :
  (∀ x y, f x y = g x y) → sort_by f l = sort_by g l.
Proof.
  intros E. unfold sort_by. induction l as [|x l IH]; simpl; [done|]. rewrite IH.
  generalize (foldr (insert_by g) [] l) as k. induction k as [|y k IHk]; simpl; [done|].
  by rewrite E, IHk.
Qed.

(** [slice::sort_by] with a comparator that may panic. *)
Fixpoint try_insert_by {A} (f : A → A → res comparison) (x : A) (l : list A) : res (list A) :=
  match l with
  | [] => Ok [x]
  | y :: l' =>
      o ← f x y;
      match o with Gt => cons y <$> try_insert_by f x l' | _ => Ok (x :: l) end
  end.

Definition try_sort_by {A} (f : A → A → res comparison) (l : list A) : res (list A) :=
  foldr (λ x r, r ≫= try_insert_by f x) (Ok []) l.

Lemma try_sort_by_ok {A} (f : A → A → res comparison) g l :
  (∀ x y, f x y = Ok (g x y)) → try_sort_by f l = Ok (sort_by g l).
Proof.
  intros Hf. unfold try_sort_by, sort_by. induction l as [|x l IH]; simpl; [done|].
  rewrite IH. simpl. generalize (foldr (insert_by g) [] l) as k.
  induction k as [|y k IHk]; simpl; [done|]. rewrite Hf. simpl.
  destruct (g x y); [done|done|]. by rewrite IHk.
Qed.

(** ** Instants and durations *)

(** [chrono::DateTime<Utc>] and [chrono::Duration], in nanoseconds. *)
Definition DateTime := Z.
Definition Duration := Z.

(** The range of the instants and durations that [chrono] represents. *)
Class Chrono := {
  datetime_min : Z;
  datetime_max : Z;
  duration_max : Z
}.

Definition nanos : Z := 1000000000.
Definition seconds (n : Z) : Duration := n * nanos.
Definition minutes (n : Z) : Duration := seconds (n * 60).
Definition hours (n : Z) : Duration := seconds (n * 3600).

(** [TimeDelta::num_seconds] truncates towards zero. *)
Definition num_seconds (d : Duration) : Z := Z.quot d nanos.

(** [DateTime::signed_duration_since]. *)
Definition signed_duration_since (a b : DateTime) : Duration := a - b.

(** [DateTime + Duration] panics outside the representable range. *)
Definition dt_add `{Chrono} (t : DateTime) (d : Duration) : res DateTime :=
  if (datetime_min <=? t + d) && (t + d <=? datetime_max) then Ok (t + d) else Panic.

(** [Duration * i32] panics when the product is not representable. *)
Definition duration_mul `{Chrono} (d : Duration) (n : Z) : res Duration :=
  if Z.abs (d * n) <=? duration_max then Ok (d * n) else Panic.

(** ** Identifiers *)

(** A 128-bit UUID; its [Ord] is that of its big-endian bytes, i.e. of its value. *)
Definition Uuid := N.

(** [Uuid::is_nil]. *)
Definition is_nil (u : Uuid) : bool := N.eqb u 0.
