(* ===== verification/Wildcard.v ===== *)
(** Path patterns: [wildcard_matches] of [src/src/domain/authority.rs].

    The function fills a table [reachable] whose cell [(i, j)] says that the
    first [i] bytes of the pattern can match the first [j] bytes of the value.
    [glob] is the meaning of a pattern read directly off the documentation of
    [PathAuthority::allows_path]: [?] and [*] stay within one path segment and
    [**] crosses segments.  The file proves that the table never indexes out of
    bounds and that its last cell decides [glob]. *)

From Stdlib Require Import ZArith Lia Sorting.
From stdpp Require Import base tactics option list sets sorting.
From S2P Require Import Prelude RustStr.

Module Wildcard.

Definition b_star : Z := 42.
Definition b_question : Z := 63.
Definition b_slash : Z := 47.

Abbreviation grid := (list (list bool)).

(** [reachable[i][j]]. *)
Definition grid_get (g : grid) (i j : nat) : res bool :=
  expect (g !! i ≫= λ row, row !! j).

(** [reachable[i][j] = true]. *)
Definition grid_set (g : grid) (i j : nat) : res grid :=
  match g !! i with
  | Some row => if decide (j < length row)%nat
                then Ok (<[i := <[j := true]> row]> g) else Panic
  | None => Panic
  end.

(** [value.get(j).is_some_and(|byte| *byte != b'/')]. *)
Definition within_segment (value : list Z) (j : nat) : bool :=
  match value !! j with Some b => negb (b =? b_slash) | None => false end.

(** The body of the inner loop. *)
Definition wildcard_step (pattern value : list Z) (g : grid) (c : nat * nat) : res grid :=
  let (i, j) := c in
  here ← grid_get g i j;
  if negb here then Ok g else
  p ← expect (pattern !! i);
  if (p =? b_star) && bool_decide (pattern !! S i = Some b_star) then
    g ← grid_set g (S (S i)) j;
    if decide (j < length value)%nat then grid_set g i (S j) else Ok g
  else if p =? b_star then
    g ← grid_set g (S i) j;
    if within_segment value j then grid_set g i (S j) else Ok g
  else if (p =? b_question) && within_segment value j then grid_set g (S i) (S j)
  else if bool_decide (value !! j = Some p) then grid_set g (S i) (S j)
  else Ok g.

Definition wildcard_matches (pattern value : list Z) : res bool :=
  let reachable := replicate (S (length pattern))
                     (replicate (S (length value)) false) in
  g ← grid_set reachable 0 0;
  g ← try_fold (seq 0 (length pattern)) g (λ g i,
        try_fold (seq 0 (S (length value))) g (λ g j,
          wildcard_step pattern value g (i, j)));
  grid_get g (length pattern) (length value).

(** ** The meaning of a pattern *)

Inductive glob : list Z → list Z → Prop :=
| glob_nil : glob [] []
| glob_dstar_end p v : glob p v → glob (b_star :: b_star :: p) v
| glob_dstar_eat p b v :
    glob (b_star :: b_star :: p) v → glob (b_star :: b_star :: p) (b :: v)
| glob_star_end p v : head p ≠ Some b_star → glob p v → glob (b_star :: p) v
| glob_star_eat p b v :
    head p ≠ Some b_star → b ≠ b_slash →
    glob (b_star :: p) v → glob (b_star :: p) (b :: v)
| glob_any p b v : b ≠ b_slash → glob p v → glob (b_question :: p) (b :: v)
| glob_lit p b v : b ≠ b_star → b ≠ b_question → glob p v → glob (b :: p) (b :: v).

(** ** The table decides the meaning *)

Section correctness.
  Context (pattern value : list Z).
  Local Abbreviation P := (length pattern).
  Local Abbreviation V := (length value).

(** The cells that [wildcard_step] marks from a reachable cell. *)
Definition succs (c : nat * nat) : list (nat * nat) :=
  let (i, j) := c in
  match pattern !! i with
  | None => []
  | Some p =>
    if (p =? b_star) && bool_decide (pattern !! S i = Some b_star) then
      (S (S i), j) :: (if decide (j < V)%nat then [(i, S j)] else [])
    else if p =? b_star then
      (S i, j) :: (if within_segment value j then [(i, S j)] else [])
    else if (p =? b_question) && within_segment value j then [(S i, S j)]
    else if bool_decide (value !! j = Some p) then [(S i, S j)]
    else []
  end.

Definition edge (c d : nat * nat) : Prop := d ∈ succs c.
Local Abbreviation reach := (star edge (0%nat, 0%nat)).

Definition cell (g : grid) (c : nat * nat) : option bool :=
  g !! c.1 ≫= λ row, row !! c.2.

(** The table keeps its dimensions. *)
Definition shaped (g : grid) : Prop :=
  length g = S P ∧ Forall (λ row, length row = S V) g.

Lemma shaped_get g i j : shaped g → (i ≤ P)%nat → (j ≤ V)%nat →
  ∃ b, grid_get g i j = Ok b ∧ cell g (i, j) = Some b.
Proof.
  intros [Hg Hrow] Hi Hj. unfold grid_get, cell; simpl.
  destruct (lookup_lt_is_Some_2 g i) as [row Hr]; [lia|]. rewrite Hr; simpl.
  rewrite Forall_forall in Hrow.
  assert (length row = S V) by (eapply Hrow, list_elem_of_lookup_2, Hr).
  destruct (lookup_lt_is_Some_2 row j) as [b Hb]; [lia|]. rewrite Hb. eauto.
Qed.

Lemma shaped_set g i j : shaped g → (i ≤ P)%nat → (j ≤ V)%nat →
  ∃ g', grid_set g i j = Ok g' ∧ shaped g' ∧
    ∀ c, cell g' c = if decide (c = (i, j)) then Some true else cell g c.
Proof.
  intros [Hg Hrow] Hi Hj. unfold grid_set.
  destruct (lookup_lt_is_Some_2 g i) as [row Hr]; [lia|]. rewrite Hr.
  pose proof Hrow as Hrow'. rewrite Forall_forall in Hrow'.
  assert (length row = S V) by (eapply Hrow', list_elem_of_lookup_2, Hr).
  rewrite decide_True by lia. eexists. split_and!; [done| |].
  - split; [by rewrite length_insert|].
    apply Forall_insert; [done|]. by rewrite length_insert.
  - intros [a b]. unfold cell; simpl. rewrite list_lookup_insert.
    case_decide as Ha; simpl.
    + destruct Ha as [<- Ha]. rewrite list_lookup_insert, Hr; simpl.
      case_decide as Hb.
      * destruct Hb as [<- Hb]. by rewrite decide_True.
      * rewrite decide_False; [done|]. intros [= ->]. apply Hb. split; [done|lia].
    + rewrite decide_False; [done|]. intros [= -> ->]. apply Ha. split; [done|lia].
Qed.

Lemma within_segment_bound j : within_segment value j = true → (j < V)%nat.
Proof.
  unfold within_segment. destruct (value !! j) eqn:E; [|done].
  intros _. by eapply lookup_lt_Some.
Qed.

(** Marking a cell, stated on the set of marked cells. *)
Lemma mark_spec g i j : shaped g → (i ≤ P)%nat → (j ≤ V)%nat →
  ∃ g', grid_set g i j = Ok g' ∧ shaped g' ∧
    ∀ c, cell g' c = Some true ↔ cell g c = Some true ∨ c ∈ [(i, j)].
Proof.
  intros Hg Hi Hj. destruct (shaped_set g i j) as (g' & -> & ? & Hc); [done..|].
  exists g'. split_and!; [done..|]. intros c. rewrite Hc, list_elem_of_singleton.
  case_decide; naive_solver.
Qed.

(** What one step does: it keeps the shape and, when the cell it looks at is
    marked, marks exactly its successors. *)
Lemma step_spec g i j : shaped g → (i < P)%nat → (j ≤ V)%nat →
  ∃ g', wildcard_step pattern value g (i, j) = Ok g' ∧ shaped g' ∧
    ∀ c, cell g' c = Some true ↔
         cell g c = Some true ∨ (cell g (i, j) = Some true ∧ edge (i, j) c).
Proof.
  intros Hg Hi Hj. unfold wildcard_step, edge, succs.
  destruct (shaped_get g i j) as (b & -> & Hb); [done|lia|lia|]. simpl.
  rewrite Hb. destruct b; simpl; [|exists g; split_and!; [done|done|]; naive_solver].
  destruct (lookup_lt_is_Some_2 pattern i) as [p Hp]; [lia|]. rewrite Hp; simpl.
  destruct ((p =? b_star) && _) eqn:E1;
    [|destruct (p =? b_star) eqn:E2; [|destruct ((p =? b_question) && _) eqn:E3;
      [|destruct (bool_decide (value !! j = Some p)) eqn:E4]]].
  - reflect. destruct E1 as [_ E1]. apply lookup_lt_Some in E1.
    destruct (mark_spec g (S (S i)) j) as (g1 & -> & Hg1 & Hc1); [done|lia|lia|]. simpl.
    case_decide as Hv.
    + destruct (mark_spec g1 i (S j)) as (g2 & -> & Hg2 & Hc2); [done|lia|lia|].
      exists g2. split_and!; [done..|]. intros c. rewrite Hc2, Hc1. set_solver.
    + exists g1. split_and!; [done..|]. intros c. rewrite Hc1. set_solver.
  - destruct (mark_spec g (S i) j) as (g1 & -> & Hg1 & Hc1); [done|lia|lia|]. simpl.
    destruct (within_segment value j) eqn:Hv.
    + apply within_segment_bound in Hv.
      destruct (mark_spec g1 i (S j)) as (g2 & -> & Hg2 & Hc2); [done|lia|lia|].
      exists g2. split_and!; [done..|]. intros c. rewrite Hc2, Hc1. set_solver.
    + exists g1. split_and!; [done..|]. intros c. rewrite Hc1. set_solver.
  - apply andb_true_iff in E3 as [_ Hv]. apply within_segment_bound in Hv.
    destruct (mark_spec g (S i) (S j)) as (g1 & -> & Hg1 & Hc1); [done|lia|lia|].
    exists g1. split_and!; [done..|]. intros c. rewrite Hc1. set_solver.
  - apply bool_decide_eq_true, lookup_lt_Some in E4.
    destruct (mark_spec g (S i) (S j)) as (g1 & -> & Hg1 & Hc1); [done|lia|lia|].
    exists g1. split_and!; [done..|]. intros c. rewrite Hc1. set_solver.
  - exists g. split_and!; [done..|]. set_solver.
Qed.

(** The loop visits the cells in lexicographic order, and every edge goes
    forward in that order. *)
Definition lex (c d : nat * nat) : Prop :=
  (c.1 < d.1)%nat ∨ (c.1 = d.1 ∧ (c.2 < d.2)%nat).

Lemma edge_forward c d : edge c d → lex c d.
Proof.
  unfold edge, succs, lex. destruct c as [i j]. intros H.
  repeat (case_match; try case_bool_decide); simplify_eq/=;
    repeat (apply elem_of_cons in H as [->|H]; [simpl; lia|]);
    by apply elem_of_nil in H.
Qed.

Lemma row_sorted a b m : StronglySorted lex (map (pair a) (seq b m)).
Proof.
  revert b. induction m as [|m IH]; intros b; simpl; constructor; [apply IH|].
  apply Forall_forall. intros [x y] Hy. apply list_elem_of_In, in_map_iff in Hy.
  destruct Hy as (z & [= <- <-] & Hz). apply in_seq in Hz. right. simpl. lia.
Qed.

Lemma prod_lex_sorted a n m : StronglySorted lex (list_prod (seq a n) (seq 0 m)).
Proof.
  revert a. induction n as [|n IH]; intros a; simpl; [constructor|].
  apply StronglySorted_app. split_and!; [|apply row_sorted|apply IH].
  intros [x y] [x' y'] Hx Hx'. apply list_elem_of_In, in_map_iff in Hx.
  destruct Hx as (z & [= <- <-] & _). apply list_elem_of_In, in_prod_iff in Hx'.
  destruct Hx' as [Hx' _]. apply in_seq in Hx'. left. simpl. lia.
Qed.

(** The state of the table after the cells of [pre] were visited: marked cells
    are reachable, and the successors of marked visited cells are marked. *)
Definition filled (pre : list (nat * nat)) (g : grid) : Prop :=
  shaped g ∧ cell g (0%nat, 0%nat) = Some true ∧
  (∀ c, cell g c = Some true → reach c) ∧
  (∀ c d, c ∈ pre → cell g c = Some true → edge c d → cell g d = Some true).

Lemma filled_init g :
  grid_set (replicate (S P) (replicate (S V) false)) 0 0 = Ok g → filled [] g.
Proof.
  assert (shaped (replicate (S P) (replicate (S V) false))) as Hg.
  { split; [apply length_replicate|].
    apply Forall_replicate, length_replicate. }
  destruct (shaped_set _ 0 0 Hg) as (g' & -> & Hg' & Hc); [lia|lia|].
  intros [= <-]. split_and!; [done|by rewrite Hc| |].
  - intros c. rewrite Hc. case_decide as E; [intros _; subst; apply star_nil|].
    unfold cell. intros H. apply bind_Some in H as (row & Hr & H).
    apply lookup_replicate in Hr as [-> _]. by apply lookup_replicate in H as [? _].
  - intros c d Hin. by apply elem_of_nil in Hin.
Qed.

Lemma filled_step pre i j g :
  Forall (λ c, lex c (i, j)) pre → (i < P)%nat → (j ≤ V)%nat → filled pre g →
  ∃ g', wildcard_step pattern value g (i, j) = Ok g' ∧ filled (pre ++ [(i, j)]) g'.
Proof.
  intros Hpre Hi Hj (Hg & H0 & Hsound & Hcl).
  destruct (step_spec g i j) as (g' & -> & Hg' & Hc); [done..|].
  exists g'. split; [done|]. split_and!; [done|apply Hc; by left| |].
  - intros c [Hcell|[Hij He]]%Hc; [by apply Hsound|].
    eapply star_snoc; [apply Hsound, Hij|done].
  - intros c d Hin Hcell He. apply Hc.
    assert (cell g c = Some true) as Hold.
    { apply Hc in Hcell as [?|[_ Hf]]; [done|]. apply edge_forward in Hf.
      rewrite Forall_forall in Hpre. apply elem_of_app in Hin as [Hin|Hin].
      - specialize (Hpre c Hin). unfold lex in *. simpl in *. lia.
      - apply list_elem_of_singleton in Hin as ->. unfold lex in Hf. lia. }
    apply elem_of_app in Hin as [Hin|Hin]; [left; by eapply Hcl|].
    apply list_elem_of_singleton in Hin as ->. by right.
Qed.

Lemma marked_visited g c d :
  shaped g → cell g c = Some true → edge c d →
  c ∈ list_prod (seq 0 P) (seq 0 (S V)).
Proof.
  intros [Hlen Hrow] Hc He. destruct c as [i j].
  apply list_elem_of_In, in_prod_iff. rewrite !in_seq. split; [|split; [lia|]].
  - unfold edge, succs in He. destruct (pattern !! i) eqn:Ei; [|by apply elem_of_nil in He].
    apply lookup_lt_Some in Ei. lia.
  - unfold cell in Hc; simpl in Hc. apply bind_Some in Hc as (row & Hr & Hj).
    apply list_elem_of_lookup_2 in Hr. rewrite Forall_forall in Hrow.
    specialize (Hrow row Hr). apply lookup_lt_Some in Hj. lia.
Qed.

Lemma table_correct :
  ∃ b, wildcard_matches pattern value = Ok b ∧ (b = true ↔ reach (P, V)).
Proof.
  unfold wildcard_matches.
  destruct (grid_set _ 0 0) as [g0| |] eqn:E0; [|done|done].
  apply filled_init in E0. cbv beta iota delta [mbind res_bind].
  rewrite (try_fold_nested (seq 0 P) (seq 0 (S V)) g0 (wildcard_step pattern value)).
  destruct (try_fold_invariant filled (wildcard_step pattern value)
    (list_prod (seq 0 P) (seq 0 (S V))) g0 E0) as (g & -> & Hg & H0 & Hsound & Hcl).
  { intros pre [i j] post g Hl Hf. pose proof (prod_lex_sorted 0 P (S V)) as Hs.
    rewrite Hl in Hs. apply StronglySorted_app in Hs as (Hs & _ & _).
    assert (In (i, j) (list_prod (seq 0 P) (seq 0 (S V)))) as Hin
      by (rewrite Hl, <- list_elem_of_In; set_solver).
    apply in_prod_iff in Hin as [Hi Hj]. apply in_seq in Hi, Hj.
    apply filled_step; [|lia|lia|done]. apply Forall_forall. intros c Hc.
    apply Hs; [done|left]. }
  cbv beta iota delta [mbind res_bind]. destruct (shaped_get g P V) as (b & -> & Hb); [done|lia|lia|].
  exists b. split; [done|]. rewrite <- (inj_iff Some), <- Hb. split; [apply Hsound|].
  apply (star_invariant edge (λ c, cell g c = Some true)); [done|].
  intros c d Hc He. apply (Hcl c); [by eapply marked_visited|done|done].
Qed.

(** ** From table paths to the meaning of patterns *)

Lemma head_drop (l : list Z) i : head (drop i l) = l !! i.
Proof.
  destruct (l !! i) as [x|] eqn:E.
  - by rewrite (drop_S _ _ _ E).
  - apply lookup_ge_None in E. by rewrite drop_ge.
Qed.

(** A path to [(i, j)] followed by a match of the remaining suffixes is a match. *)
Lemma edge_glob i j i' j' :
  edge (i, j) (i', j') → (j ≤ V)%nat →
  glob (drop i' pattern) (drop j' value) → glob (drop i pattern) (drop j value).
Proof.
  unfold edge, succs. destruct (pattern !! i) as [p|] eqn:Hp; [|by intros ?%elem_of_nil].
  rewrite (drop_S _ _ _ Hp). intros He Hj Hg.
  assert (within_segment value j = true →
    ∃ b, value !! j = Some b ∧ b ≠ b_slash) as Hseg.
  { unfold within_segment. destruct (value !! j); [|done]. intros ?. reflect. eauto. }
  destruct (p =? b_star) eqn:E2; reflect; subst; simpl in He.
  - destruct (bool_decide _) eqn:E1; reflect.
    + rewrite (drop_S _ _ _ E1). apply elem_of_cons in He as [[= -> ->]|He].
      { by apply glob_dstar_end. }
      case_decide as Hv; [|by apply elem_of_nil in He].
      apply list_elem_of_singleton in He as [= -> ->].
      destruct (lookup_lt_is_Some_2 value j Hv) as [b Hb]. rewrite (drop_S _ _ _ Hb).
      rewrite (drop_S _ _ _ Hp), (drop_S _ _ _ E1) in Hg. by apply glob_dstar_eat.
    + apply elem_of_cons in He as [[= -> ->]|He].
      { apply glob_star_end; [by rewrite head_drop|done]. }
      destruct (within_segment value j); [|by apply elem_of_nil in He].
      destruct (Hseg eq_refl) as (b & Hb & Hne). rewrite (drop_S _ _ _ Hb).
      apply list_elem_of_singleton in He as [= -> ->]. rewrite (drop_S _ _ _ Hp) in Hg.
      apply glob_star_eat; [by rewrite head_drop|done|done].
  - destruct ((p =? b_question) && within_segment value j) eqn:E3.
    + apply andb_true_iff in E3 as [E3 Hw]. reflect. subst.
      destruct (Hseg Hw) as (b & Hb & Hne). rewrite (drop_S _ _ _ Hb).
      apply list_elem_of_singleton in He as [= -> ->]. by apply glob_any.
    + destruct (bool_decide (value !! j = Some p)) eqn:E4; [|by apply elem_of_nil in He].
      reflect. rewrite (drop_S _ _ _ E4).
      apply list_elem_of_singleton in He as [= -> ->]. apply glob_lit; [done| |done].
      intros ->. unfold within_segment in E3. rewrite E4 in E3. by destruct E3.
Qed.

Lemma reach_bounds c : reach c → (c.2 ≤ V)%nat.
Proof.
  apply (star_invariant edge (λ c, (c.2 ≤ V)%nat)); [simpl; lia|].
  intros [i j] [i' j'] Hj He. simpl in *. unfold edge, succs in He.
  assert (within_segment value j = true → (S j ≤ V)%nat) as Hw
    by (intros ?%within_segment_bound; lia).
  assert (∀ p, value !! j = Some p → (S j ≤ V)%nat) as Hl
    by (intros p ?%lookup_lt_Some; lia).
  repeat case_match; reflect;
    repeat (apply elem_of_cons in He as [[= -> ->]|He]; [naive_solver lia|]);
    by apply elem_of_nil in He.
Qed.

Lemma reach_glob c :
  reach c → glob (drop c.1 pattern) (drop c.2 value) → glob pattern value.
Proof.
  intros Hr. remember (0%nat, 0%nat) as o eqn:Eo.
  induction Hr as [|a [i j] [i' j'] Hr IH He]; subst; [by rewrite !drop_0|].
  simpl in *. intros Hg. apply IH; [done|].
  eapply edge_glob; [exact He|by apply (reach_bounds (i, j))|done].
Qed.

(** A match of the remaining suffixes extends to a path to the last cell. *)
Lemma glob_reach p v : glob p v → ∀ i j,
  drop i pattern = p → drop j value = v → (i ≤ P)%nat → (j ≤ V)%nat →
  reach (i, j) → reach (P, V).
Proof.
  assert (∀ (l k : list Z) x i, drop i l = x :: k →
    l !! i = Some x ∧ drop (S i) l = k ∧ (S i ≤ length l)%nat) as Hdrop.
  { intros l k x i E. rewrite <- (head_drop l i), E. split; [done|].
    assert (l !! i = Some x) as Hx by by rewrite <- (head_drop l i), E.
    rewrite (drop_S _ _ _ Hx) in E. apply lookup_lt_Some in Hx.
    split; [congruence|lia]. }
  assert (∀ b j, value !! j = Some b → b ≠ b_slash → within_segment value j = true) as Hw.
  { intros b j Hb Hne. unfold within_segment. rewrite Hb. by reflect. }
  assert (∀ i j c, reach (i, j) → c ∈ succs (i, j) → reach c) as Hgo.
  { intros i j c Hr He. by eapply star_snoc. }
  induction 1 as [|p v _ IH|p b v _ IH|p v Hh _ IH|p b v Hh Hb _ IH|p b v Hb _ IH
    |p b v Hs Hq _ IH]; intros i j Ep Ev Hi Hj Hr.
  - apply (f_equal length) in Ep, Ev. rewrite length_drop in Ep, Ev. simpl in *.
    by replace P with i by lia; replace V with j by lia.
  - apply Hdrop in Ep as (Hp & Ep & _). apply Hdrop in Ep as (Hp' & Ep & ?).
    apply (IH (S (S i)) j); try done. apply (Hgo _ _ _ Hr). simpl.
    rewrite Hp; simpl. rewrite bool_decide_true by done. left.
  - pose proof Ep as Ep'. apply Hdrop in Ep as (Hp & Ep & _).
    apply Hdrop in Ep as (Hp' & Ep & ?). apply Hdrop in Ev as (Hv & Ev & ?).
    apply (IH i (S j)); try done. apply (Hgo _ _ _ Hr). simpl.
    rewrite Hp; simpl. rewrite bool_decide_true by done.
    rewrite decide_True by lia. right. left.
  - apply Hdrop in Ep as (Hp & Ep & ?). rewrite <- Ep, head_drop in Hh.
    apply (IH (S i) j); try done. apply (Hgo _ _ _ Hr). simpl.
    rewrite Hp; simpl. rewrite bool_decide_false by done. left.
  - pose proof Ep as Ep'. apply Hdrop in Ep as (Hp & Ep & ?).
    rewrite <- Ep, head_drop in Hh. apply Hdrop in Ev as (Hv & Ev & ?).
    apply (IH i (S j)); try done. apply (Hgo _ _ _ Hr). simpl.
    rewrite Hp; simpl. rewrite bool_decide_false by done.
    rewrite (Hw b) by done. right. left.
  - apply Hdrop in Ep as (Hp & Ep & ?). apply Hdrop in Ev as (Hv & Ev & ?).
    apply (IH (S i) (S j)); try done. apply (Hgo _ _ _ Hr). simpl.
    rewrite Hp; simpl. rewrite (Hw b) by done. left.
  - apply Hdrop in Ep as (Hp & Ep & ?). apply Hdrop in Ev as (Hv & Ev & ?).
    apply (IH (S i) (S j)); try done. apply (Hgo _ _ _ Hr). simpl. rewrite Hp.
    rewrite (proj2 (Z.eqb_neq _ _) Hs), (proj2 (Z.eqb_neq _ _) Hq). simpl.
    rewrite bool_decide_true by done. left.
Qed.
End correctness.

Lemma wildcard_matches_spec pattern value :
  ∃ b, wildcard_matches pattern value = Ok b ∧ (b = true ↔ glob pattern value).
Proof.
  destruct (table_correct pattern value) as (b & Hb & Hr). exists b.
  split; [done|]. rewrite Hr. split.
  - intros Hreach. apply (reach_glob _ _ _ Hreach). simpl.
    rewrite !drop_all. constructor.
  - intros Hg. eapply glob_reach; [exact Hg|by rewrite drop_0|by rewrite drop_0|lia|lia|].
    apply star_nil.
Qed.
(** C34. The pattern matcher decides the documented meaning of patterns: on every
    pattern and value it answers without an index out of bounds, yes exactly
    when [?] and [*] can be read within one path segment and [**] across
    segments so that the pattern spells the value. *)
Theorem wildcard_matches_correct pattern value :
  (wildcard_matches pattern value = Ok true ↔ glob pattern value) ∧
  (wildcard_matches pattern value = Ok false ↔ ¬ glob pattern value).
Proof.
  destruct (wildcard_matches_spec pattern value) as (b & -> & Hb).
  rewrite <- Hb. destruct b; naive_solver.
Qed.
End Wildcard.
