(* ===== verification/Ids.v ===== *)
(** Typed identifiers, [src/src/domain/ids.rs].

    Each identifier is a newtype over [Uuid] whose order and equality are those
    of the UUID.  Rendering a UUID is the [uuid] crate's: [UuidText] is the
    parameter that stands for it, with the fact the sources rely on, namely
    that the text is not blank. *)

From Stdlib Require Import ZArith Ascii.
From stdpp Require Import base strings.
From S2P Require Import Prelude RustStr RustOrd.

Definition TenantId := Uuid.
Definition RepositoryId := Uuid.
Definition SourceSnapshotId := Uuid.
Definition WorkItemId := Uuid.
Definition AttemptId := Uuid.
Definition WorkOrderId := Uuid.
Definition RunId := Uuid.
Definition ApprovalId := Uuid.
Definition EscalationId := Uuid.
Definition EvidenceId := Uuid.
Definition WorkerId := Uuid.
Definition EventId := Uuid.

(** [impl Display for Uuid]. *)
Class UuidText := {
  uuid_to_string : Uuid → string;
  uuid_to_string_visible u : blank (uuid_to_string u) = false
}.

(** The hyphenated form: one text per identifier, of hexadecimal digits and
    hyphens, so without a colon. *)
Class UuidHyphenated `{UuidText} := {
  uuid_to_string_inj u v : uuid_to_string u = uuid_to_string v → u = v;
  uuid_to_string_no_colon u : contains_char ":"%char (uuid_to_string u) = false
}.

(** A key that continues an identifier after a colon tells both apart. *)
Lemma uuid_colon_inj `{UuidHyphenated} u v a b :
  uuid_to_string u +:+ ":" +:+ a = uuid_to_string v +:+ ":" +:+ b → u = v ∧ a = b.
Proof.
  intros E. assert (split_once ":"%char (uuid_to_string u +:+ ":" +:+ a)
    = Some (uuid_to_string v, b)) as S.
  { rewrite E. apply split_once_spec. split; [done|apply uuid_to_string_no_colon]. }
  rewrite (proj2 (split_once_spec ":"%char _ (uuid_to_string u) a)
    (conj eq_refl (uuid_to_string_no_colon u))) in S.
  injection S as S ->. split; [by apply uuid_to_string_inj|done].
Qed.
