(* ===== verification/Authority.v ===== *)
(** Execution authority, [src/src/domain/authority.rs]: path, tool, effect and
    budget scopes, their validation and their narrowing operations. *)

From Stdlib Require Import ZArith Lia Ascii.
From stdpp Require Import base tactics option list strings sets.
From S2P Require Import Prelude RustStr RustOrd Wildcard.

(** ** Paths *)

Record PathAuthority := mkPathAuthority {
  pa_allowed : BTreeSet string;
  pa_forbidden : BTreeSet string
}.

Definition validate_repo_path_pattern (path : string) : res unit :=
  bail_if (str_is_empty path
           || starts_with "/" path
           || starts_with "./" path
           || ends_with_char "/"%char path
           || existsb (λ seg, str_is_empty seg || bool_decide (seg = ".."))
                (split_on "/"%char path)
           || contains_char "000"%char path
           || contains_char "\"%char path
           || has_control path)
    (Validation [Lit "unsafe repository path pattern: "; Dbg path]).

Definition PathAuthority_validate (a : PathAuthority) : res unit :=
  bail_if (bs_is_empty (pa_allowed a))
    (Validation [Lit "allowed path scope is empty"]) ;;
  try_for (elems (pa_allowed a) ++ elems (pa_forbidden a)) validate_repo_path_pattern.

Definition PathAuthority_intersect (a restriction : PathAuthority) : PathAuthority :=
  {| pa_allowed := bs_inter (pa_allowed a) (pa_allowed restriction);
     pa_forbidden := bs_union (pa_forbidden a) (pa_forbidden restriction) |}.

Definition is_safe_repository_path (path : string) : bool :=
  negb (str_is_empty path)
  && negb (starts_with "/" path)
  && negb (starts_with "./" path)
  && negb (ends_with_char "/"%char path)
  && negb (contains_char "*"%char path)
  && negb (contains_char "?"%char path)
  && negb (contains_char "\"%char path)
  && negb (has_control path)
  && forallb (λ seg, negb (str_is_empty seg) && negb (bool_decide (seg = "."))
                     && negb (bool_decide (seg = "..")))
       (split_on "/"%char path).

(** [patterns.iter().any(|pattern| wildcard_matches(pattern.as_bytes(), path.as_bytes()))]. *)
Fixpoint any_pattern (patterns : list string) (path : string) : res bool :=
  match patterns with
  | [] => Ok false
  | pattern :: patterns =>
    hit ← Wildcard.wildcard_matches (bytes pattern) (bytes path);
    if (hit : bool) then Ok true else any_pattern patterns path
  end.

Definition PathAuthority_allows_path (a : PathAuthority) (path : string) : res bool :=
  if negb (is_safe_repository_path path) then Ok false else
  allowed ← any_pattern (elems (pa_allowed a)) path;
  if negb allowed then Ok false else
  forbidden ← any_pattern (elems (pa_forbidden a)) path;
  Ok (negb forbidden).

(** ** Tools *)

Record ToolAuthority := mkToolAuthority {
  ta_allowed_tools : BTreeSet string;
  ta_allowed_commands : BTreeSet string;
  ta_network_destinations : BTreeSet string
}.

Definition ToolAuthority_intersect (a restriction : ToolAuthority) : ToolAuthority :=
  {| ta_allowed_tools := bs_inter (ta_allowed_tools a) (ta_allowed_tools restriction);
     ta_allowed_commands :=
       bs_inter (ta_allowed_commands a) (ta_allowed_commands restriction);
     ta_network_destinations :=
       bs_inter (ta_network_destinations a) (ta_network_destinations restriction) |}.

(** ** Effects *)

Module DeliveryPermission.
Inductive DeliveryPermission := None_ | PullRequest | MergeQueue | DirectMerge.
End DeliveryPermission.
Abbreviation DeliveryPermission := DeliveryPermission.DeliveryPermission.

#[global] Instance DeliveryPermission_eq_dec : EqDecision DeliveryPermission.
Proof. solve_decision. Defined.

Definition DeliveryPermission_restrict (a b : DeliveryPermission) : DeliveryPermission :=
  match a, b with
  | DeliveryPermission.None_, _ | _, DeliveryPermission.None_ =>
      DeliveryPermission.None_
  | DeliveryPermission.PullRequest, _ | _, DeliveryPermission.PullRequest =>
      DeliveryPermission.PullRequest
  | DeliveryPermission.MergeQueue, _ | _, DeliveryPermission.MergeQueue =>
      DeliveryPermission.MergeQueue
  | DeliveryPermission.DirectMerge, DeliveryPermission.DirectMerge =>
      DeliveryPermission.DirectMerge
  end.

Record EffectAuthority := mkEffectAuthority {
  ea_delivery : DeliveryPermission;
  ea_may_comment : bool;
  ea_may_update_checks : bool;
  ea_deployment_environment : option string
}.

(** ** Budgets *)

Record BudgetLimits := mkBudgetLimits {
  max_cost_microunits : Z;
  max_input_tokens : Z;
  max_output_tokens : Z;
  max_implementer_invocations : Z;
  max_reviewer_invocations : Z;
  max_fix_iterations : Z;
  max_wall_time_seconds : Z;
  max_external_api_calls : Z
}.

Definition BudgetLimits_validate (b : BudgetLimits) : res unit :=
  bail_if ((max_wall_time_seconds b =? 0)
           || (max_implementer_invocations b =? 0)
           || (max_reviewer_invocations b =? 0))
    (Validation [Lit "wall time and role invocation budgets must be positive"]).

Definition BudgetLimits_restrict (a b : BudgetLimits) : BudgetLimits :=
  {| max_cost_microunits := Z.min (max_cost_microunits a) (max_cost_microunits b);
     max_input_tokens := Z.min (max_input_tokens a) (max_input_tokens b);
     max_output_tokens := Z.min (max_output_tokens a) (max_output_tokens b);
     max_implementer_invocations :=
       Z.min (max_implementer_invocations a) (max_implementer_invocations b);
     max_reviewer_invocations :=
       Z.min (max_reviewer_invocations a) (max_reviewer_invocations b);
     max_fix_iterations := Z.min (max_fix_iterations a) (max_fix_iterations b);
     max_wall_time_seconds := Z.min (max_wall_time_seconds a) (max_wall_time_seconds b);
     max_external_api_calls :=
       Z.min (max_external_api_calls a) (max_external_api_calls b) |}.

(** ** The complete authority *)

Record ExecutionAuthority := mkExecutionAuthority {
  xa_paths : PathAuthority;
  xa_tools : ToolAuthority;
  xa_effects : EffectAuthority;
  xa_budgets : BudgetLimits;
  xa_required_approval_types : BTreeSet string;
  xa_sandbox_policy_ref : string
}.

(** The [url] crate: the parts of a parsed URL that the sources read. *)
Record Url := mkUrl {
  url_scheme : string;
  url_host : option string;
  url_username : string;
  url_password : option string;
  url_query : option string;
  url_fragment : option string
}.

(** [Url::parse]: the parsed URL or the text of the parse error. *)
Class UrlCrate := { url_parse : string → string + Url }.

(** [value.trim().is_empty() || value.chars().any(char::is_control)]. *)
Definition unfit (value : string) : bool := blank value || has_control value.

Definition validate_destination `{UrlCrate} (destination : string) : res unit :=
  match url_parse destination with
  | inl error => Err (Validation [Lit "invalid network destination "; Dbg destination;
                                  Lit ": "; Disp error])
  | inr url =>
    bail_if (negb (bool_decide (url_scheme url = "https")
                   || bool_decide (url_scheme url = "ssh"))
             || is_none (url_host url)
             || negb (str_is_empty (url_username url))
             || is_some (url_password url))
      (Validation [Lit "network destination must be a credential-free https or ssh endpoint: ";
                   Disp destination])
  end.

Definition ExecutionAuthority_validate `{UrlCrate} (a : ExecutionAuthority) : res unit :=
  PathAuthority_validate (xa_paths a) ;;
  BudgetLimits_validate (xa_budgets a) ;;
  try_for (((λ v, ("tool", v)) <$> elems (ta_allowed_tools (xa_tools a)))
           ++ ((λ v, ("command", v)) <$> elems (ta_allowed_commands (xa_tools a)))
           ++ ((λ v, ("approval type", v)) <$> elems (xa_required_approval_types a)))
    (λ '(label, value), bail_if (unfit value)
       (Validation [Lit "authority "; Disp label;
                    Lit " must be non-empty and contain no control characters"])) ;;
  bail_if (unfit (xa_sandbox_policy_ref a))
    (Validation [Lit "sandbox policy reference must be non-empty and contain no control characters"]) ;;
  bail_if (match ea_deployment_environment (xa_effects a) with
           | Some value => unfit value
           | None => false
           end)
    (Validation [Lit "deployment environment must be non-empty and contain no control characters"]) ;;
  try_for (elems (ta_network_destinations (xa_tools a))) validate_destination.

(** ** What a path scope permits *)

(** The meaning of [allows_path]: the path is safe, some allowed pattern
    matches it and no forbidden pattern does. *)
Definition permits (a : PathAuthority) (path : string) : Prop :=
  is_safe_repository_path path = true ∧
  (∃ pat, pat ∈ pa_allowed a ∧ Wildcard.glob (bytes pat) (bytes path)) ∧
  (∀ pat, pat ∈ pa_forbidden a → ¬ Wildcard.glob (bytes pat) (bytes path)).

Lemma any_pattern_spec patterns path :
  ∃ b, any_pattern patterns path = Ok b ∧
    (b = true ↔ ∃ pat, pat ∈ patterns ∧ Wildcard.glob (bytes pat) (bytes path)).
Proof.
  induction patterns as [|pat patterns (b & IHb & IH)]; simpl.
  - exists false. split; [done|]. set_solver.
  - destruct (Wildcard.wildcard_matches_spec (bytes pat) (bytes path)) as (h & -> & Hh).
    simpl. destruct h.
    + exists true. split; [done|]. split; [|done]. intros _. exists pat. set_solver.
    + exists b. split; [done|]. rewrite IH. split; [set_solver|].
      intros (q & Hq & Hg). apply elem_of_cons in Hq as [->|Hq]; [|eauto].
      by apply Hh in Hg.
Qed.

Lemma allows_path_spec a path :
  ∃ b, PathAuthority_allows_path a path = Ok b ∧ (b = true ↔ permits a path).
Proof.
  unfold PathAuthority_allows_path, permits.
  destruct (is_safe_repository_path path); simpl; [|exists false; naive_solver].
  destruct (any_pattern_spec (elems (pa_allowed a)) path) as (b & -> & Hb). simpl.
  destruct b; simpl.
  - destruct (any_pattern_spec (elems (pa_forbidden a)) path) as (f & -> & Hf). simpl.
    exists (negb f). split; [done|]. rewrite negb_true_iff. split.
    + intros ->. split_and!; [done|by apply Hb|]. intros pat Hp Hg.
      assert (false = true) by (apply Hf; eauto). done.
    + intros (_ & _ & Hn). destruct f; [|done].
      destruct (proj1 Hf eq_refl) as (pat & Hp & Hg). by destruct (Hn pat Hp).
  - exists false. split; [done|]. split; [done|]. intros (_ & Hp & _). by apply Hb.
Qed.

Lemma permits_intersect a b path :
  permits (PathAuthority_intersect a b) path ↔
  is_safe_repository_path path = true ∧
  (∃ pat, pat ∈ pa_allowed a ∧ pat ∈ pa_allowed b ∧
          Wildcard.glob (bytes pat) (bytes path)) ∧
  (∀ pat, pat ∈ pa_forbidden a ∨ pat ∈ pa_forbidden b →
          ¬ Wildcard.glob (bytes pat) (bytes path)).
Proof.
  unfold permits, PathAuthority_intersect; simpl.
  setoid_rewrite elem_of_bs_inter. setoid_rewrite elem_of_bs_union. naive_solver.
Qed.

(** ** What validation guarantees *)

Record authority_valid `{UrlCrate} (a : ExecutionAuthority) : Prop := {
  av_allowed : ∃ pat, pat ∈ pa_allowed (xa_paths a);
  av_patterns pat : pat ∈ pa_allowed (xa_paths a) ∨ pat ∈ pa_forbidden (xa_paths a) →
    validate_repo_path_pattern pat = Ok tt;
  av_wall : max_wall_time_seconds (xa_budgets a) ≠ 0;
  av_implementer : max_implementer_invocations (xa_budgets a) ≠ 0;
  av_reviewer : max_reviewer_invocations (xa_budgets a) ≠ 0;
  av_tools v : v ∈ ta_allowed_tools (xa_tools a) → unfit v = false;
  av_commands v : v ∈ ta_allowed_commands (xa_tools a) → unfit v = false;
  av_approvals v : v ∈ xa_required_approval_types a → unfit v = false;
  av_sandbox : unfit (xa_sandbox_policy_ref a) = false;
  av_environment v : ea_deployment_environment (xa_effects a) = Some v → unfit v = false;
  av_network v : v ∈ ta_network_destinations (xa_tools a) → validate_destination v = Ok tt
}.

Lemma bs_nonempty {A} `{Ord A} (s : BTreeSet A) :
  bs_is_empty s = false ↔ ∃ x, x ∈ s.
Proof.
  unfold bs_is_empty, elem_of, bs_elem_of. destruct (elems s) as [|x l]; [set_solver|].
  split; [|done]. exists x. left.
Qed.

Lemma PathAuthority_validate_ok a :
  PathAuthority_validate a = Ok tt ↔
  (∃ pat, pat ∈ pa_allowed a) ∧
  ∀ pat, pat ∈ pa_allowed a ∨ pat ∈ pa_forbidden a → validate_repo_path_pattern pat = Ok tt.
Proof.
  unfold PathAuthority_validate.
  rewrite bail_if_bind_ok, try_for_ok, bs_nonempty, Forall_forall.
  setoid_rewrite elem_of_app. done.
Qed.

Lemma ExecutionAuthority_validate_ok `{UrlCrate} a :
  ExecutionAuthority_validate a = Ok tt ↔ authority_valid a.
Proof.
  unfold ExecutionAuthority_validate, BudgetLimits_validate. reflect.
  rewrite PathAuthority_validate_ok, !Forall_app, !Forall_fmap, !Forall_forall.
  unfold compose; simpl. split.
  - intros ([? ?] & [[? ?] ?] & (Ht & Hc & Hr) & ? & He & ?). constructor; try done.
    + intros v Hv. by eapply bail_if_ok, Ht.
    + intros v Hv. by eapply bail_if_ok, Hc.
    + intros v Hv. by eapply bail_if_ok, Hr.
    + intros v Hv. by rewrite Hv in He.
  - intros [? ? ? ? ? Ht Hc Hr ? He ?]. split_and!; try done.
    + intros v Hv. by apply bail_if_ok, Ht.
    + intros v Hv. by apply bail_if_ok, Hc.
    + intros v Hv. by apply bail_if_ok, Hr.
    + destruct (ea_deployment_environment _); auto.
Qed.

Lemma permits_intersect_l a b path :
  permits (PathAuthority_intersect a b) path → permits a path.
Proof. rewrite permits_intersect. unfold permits. naive_solver. Qed.

Lemma permits_intersect_r a b path :
  permits (PathAuthority_intersect a b) path → permits b path.
Proof. rewrite permits_intersect. unfold permits. naive_solver. Qed.

(** An authority permits a repository path exactly when the path is safe
    (relative, without traversal, wildcard, backslash or control characters),
    some allowed pattern matches it and no forbidden pattern does; the decision
    never panics, and an intersected scope permits only paths both sides
    permit. *)
Lemma allows_path_exact a b path :
  (PathAuthority_allows_path a path = Ok true ↔ permits a path) ∧
  (PathAuthority_allows_path a path = Ok false ↔ ¬ permits a path) ∧
  (PathAuthority_allows_path (PathAuthority_intersect a b) path = Ok true →
   PathAuthority_allows_path a path = Ok true ∧ PathAuthority_allows_path b path = Ok true).
Proof.
  assert (∀ c, (PathAuthority_allows_path c path = Ok true ↔ permits c path) ∧
    (PathAuthority_allows_path c path = Ok false ↔ ¬ permits c path)) as Hex.
  { intros c. destruct (allows_path_spec c path) as (x & -> & Hx).
    rewrite <- Hx. destruct x; naive_solver. }
  split_and!; [apply Hex..|]. rewrite !(proj1 (Hex _)). intros Hp.
  split; [by eapply permits_intersect_l|by eapply permits_intersect_r].
Qed.
