(* ===== verification/Identity.v ===== *)
(** Workload identities, [src/src/domain/identity.rs]: the [provider:name]
    profile grammar, the bounded machine identifiers, and the worker-bound
    readiness and lease records with their admission checks. *)

From Stdlib Require Import ZArith Lia Ascii.
From stdpp Require Import base tactics option list strings.
From S2P Require Import Prelude RustStr RustOrd Ids.

Definition MAX_PROFILE_NAME_BYTES : Z := 64.
Definition MAX_ENVIRONMENT_BYTES : Z := 64.
Definition MAX_REASON_CODE_BYTES : Z := 96.
Definition MAX_LEASE_ID_BYTES : Z := 128.
Definition MAX_ATTRIBUTION_REF_BYTES : Z := 512.

(** ** Profiles *)

Module CtxlaneProvider.
Inductive CtxlaneProvider := Claude | Codex.
End CtxlaneProvider.
Abbreviation CtxlaneProvider := CtxlaneProvider.CtxlaneProvider.

(** [impl Display for CtxlaneProvider]. *)
Definition CtxlaneProvider_to_string (p : CtxlaneProvider) : string :=
  match p with CtxlaneProvider.Claude => "claude" | CtxlaneProvider.Codex => "codex" end.

Record CtxlaneProfileRef := mkProfileRef { profile_str : string }.

#[global] Instance CtxlaneProfileRef_eq_dec : EqDecision CtxlaneProfileRef.
Proof. solve_decision. Defined.

Definition CtxlaneProfileRef_provider (r : CtxlaneProfileRef) : CtxlaneProvider :=
  if starts_with "claude:" (profile_str r) then CtxlaneProvider.Claude
  else CtxlaneProvider.Codex.

Definition CtxlaneProfileRef_name (r : CtxlaneProfileRef) : string :=
  match split_once ":"%char (profile_str r) with
  | Some (_, name) => name
  | None => ""
  end.

(** [name.as_bytes().first().is_some_and(u8::is_ascii_alphanumeric)]. *)
Definition first_alphanumeric (s : string) : bool :=
  match bytes s with b :: _ => is_ascii_alphanumeric b | [] => false end.

(** [byte.is_ascii_alphanumeric() || matches!(byte, b'-' | b'_')]. *)
Definition atom_byte (b : Z) : bool := is_ascii_alphanumeric b || (b =? 45) || (b =? 95).

Definition valid_profile_name (name : string) : bool :=
  negb (str_is_empty name)
  && (len name <=? MAX_PROFILE_NAME_BYTES)
  && forallb atom_byte (bytes name)
  && first_alphanumeric name.

Definition validate_profile_name (name : string) : res unit :=
  bail_if (negb (valid_profile_name name))
    (Validation [Lit "ctxlane profile name must be 1-64 ASCII letters, digits, `-`, or `_`, and start with a letter or digit"]).

Definition CtxlaneProfileRef_from_str (value : string) : res CtxlaneProfileRef :=
  '(provider, name) ← ok_or (split_once ":"%char value)
    (Validation [Lit "ctxlane profile reference "; Dbg value;
                 Lit " must have the form `claude:name` or `codex:name`"]);
  bail_if (contains_char ":"%char name)
    (Validation [Lit "ctxlane profile reference "; Dbg value;
                 Lit " contains too many `:` separators"]) ;;
  bail_if (negb (bool_decide (provider = "claude") || bool_decide (provider = "codex")))
    (Validation [Lit "ctxlane profile reference "; Dbg value;
                 Lit " has an unsupported provider"]) ;;
  validate_profile_name name ;;
  Ok (mkProfileRef value).

(** ** Roles *)

Module IdentityRole.
Inductive IdentityRole := Implementer | LocalReviewer | PrReviewer.
End IdentityRole.
Abbreviation IdentityRole := IdentityRole.IdentityRole.

#[global] Instance IdentityRole_eq_dec : EqDecision IdentityRole.
Proof. solve_decision. Defined.

(** [impl Display for IdentityRole]. *)
Definition IdentityRole_to_string (r : IdentityRole) : string :=
  match r with
  | IdentityRole.Implementer => "implementer"
  | IdentityRole.LocalReviewer => "local-reviewer"
  | IdentityRole.PrReviewer => "pr-reviewer"
  end.

(** [#[derive(Ord)]]. *)
Definition IdentityRole_index (r : IdentityRole) : Z :=
  match r with
  | IdentityRole.Implementer => 0 | IdentityRole.LocalReviewer => 1
  | IdentityRole.PrReviewer => 2
  end.

Lemma IdentityRole_index_inj : Inj (=) (=) IdentityRole_index.
Proof. by intros [] []. Qed.

#[global] Instance IdentityRole_ord : Ord IdentityRole :=
  ord_via IdentityRole_index IdentityRole_index_inj.

Record WorkOrderIdentities := mkWorkOrderIdentities {
  woi_implementer : CtxlaneProfileRef;
  woi_local_reviewer : CtxlaneProfileRef;
  woi_pr_reviewer : CtxlaneProfileRef
}.

Definition WorkOrderIdentities_validate (i : WorkOrderIdentities) : res unit :=
  bail_if (bool_decide (woi_implementer i = woi_local_reviewer i)
           || bool_decide (woi_implementer i = woi_pr_reviewer i))
    (Validation [Lit "implementer and reviewer ctxlane profile references must differ"]).

Definition profile_for (i : WorkOrderIdentities) (role : IdentityRole) : CtxlaneProfileRef :=
  match role with
  | IdentityRole.Implementer => woi_implementer i
  | IdentityRole.LocalReviewer => woi_local_reviewer i
  | IdentityRole.PrReviewer => woi_pr_reviewer i
  end.

(** ** Bounded identifiers *)

Definition validate_safe_atom (label value : string) (max_bytes : Z) (allow_dot : bool)
  : res unit :=
  bail_if (negb (negb (str_is_empty value)
                 && (len value <=? max_bytes)
                 && forallb (λ b, atom_byte b || (allow_dot && (b =? 46))) (bytes value)
                 && first_alphanumeric value))
    (Validation [Disp label; Lit " must be a bounded ASCII machine identifier"]).

Definition validate_non_secret_reference (label value : string) (max_bytes : Z) : res unit :=
  bail_if (str_is_empty value
           || (max_bytes <? len value)
           || trim_differs value
           || has_control value
           || has_whitespace value)
    (Validation [Disp label; Lit " must be non-empty, bounded, and contain no whitespace or control characters"]).

Record AutomationEnvironment := mkAutomationEnvironment { environment_str : string }.
Record IdentityReasonCode := mkIdentityReasonCode { reason_code_str : string }.
Record CtxlaneLeaseId := mkCtxlaneLeaseId { lease_id_str : string }.
Record CtxlanePrincipalRef := mkCtxlanePrincipalRef { principal_str : string }.
Record CtxlaneWorkspaceRef := mkCtxlaneWorkspaceRef { workspace_str : string }.

#[global] Instance AutomationEnvironment_eq_dec : EqDecision AutomationEnvironment.
Proof. solve_decision. Defined.
#[global] Instance CtxlanePrincipalRef_eq_dec : EqDecision CtxlanePrincipalRef.
Proof. solve_decision. Defined.

Definition AutomationEnvironment_from_str (value : string) : res AutomationEnvironment :=
  validate_safe_atom "automation environment" value MAX_ENVIRONMENT_BYTES false ;;
  Ok (mkAutomationEnvironment value).

Definition IdentityReasonCode_from_str (value : string) : res IdentityReasonCode :=
  validate_safe_atom "identity reason code" value MAX_REASON_CODE_BYTES true ;;
  Ok (mkIdentityReasonCode value).

Definition CtxlaneLeaseId_from_str (value : string) : res CtxlaneLeaseId :=
  validate_safe_atom "ctxlane lease ID" value MAX_LEASE_ID_BYTES true ;;
  Ok (mkCtxlaneLeaseId value).

Definition CtxlanePrincipalRef_from_str (value : string) : res CtxlanePrincipalRef :=
  validate_non_secret_reference "ctxlane principal reference" value
    MAX_ATTRIBUTION_REF_BYTES ;;
  Ok (mkCtxlanePrincipalRef value).

Definition CtxlaneWorkspaceRef_from_str (value : string) : res CtxlaneWorkspaceRef :=
  validate_non_secret_reference "ctxlane workspace reference" value
    MAX_ATTRIBUTION_REF_BYTES ;;
  Ok (mkCtxlaneWorkspaceRef value).

(** ** Readiness *)

Module CtxlaneAuthMode.
Inductive CtxlaneAuthMode := Wif | SubscriptionToken | ChatgptOauth | ApiKey | AccessToken.
End CtxlaneAuthMode.
Abbreviation CtxlaneAuthMode := CtxlaneAuthMode.CtxlaneAuthMode.

Module CredentialIsolation.
Inductive CredentialIsolation := CredentialIsolated | Unproven | Unknown.
End CredentialIsolation.
Abbreviation CredentialIsolation := CredentialIsolation.CredentialIsolation.

#[global] Instance CredentialIsolation_eq_dec : EqDecision CredentialIsolation.
Proof. solve_decision. Defined.

Module ReadinessCheckStatus.
Inductive ReadinessCheckStatus := Passed | Failed | Unknown | NotApplicable.
End ReadinessCheckStatus.
Abbreviation ReadinessCheckStatus := ReadinessCheckStatus.ReadinessCheckStatus.

(** [matches!(status, Passed)] and [matches!(status, Passed | NotApplicable)]. *)
Definition passed (s : ReadinessCheckStatus) : bool :=
  match s with ReadinessCheckStatus.Passed => true | _ => false end.
Definition passed_or_na (s : ReadinessCheckStatus) : bool :=
  match s with
  | ReadinessCheckStatus.Passed | ReadinessCheckStatus.NotApplicable => true
  | _ => false
  end.

Record IdentityReadinessChecks := mkIdentityReadinessChecks {
  metadata_valid : ReadinessCheckStatus;
  credential_source_available : ReadinessCheckStatus;
  upstream_identity_token_current : ReadinessCheckStatus;
  provider_harness_trusted : ReadinessCheckStatus;
  provider_principal_verified : ReadinessCheckStatus;
  expected_workspace_verified : ReadinessCheckStatus;
  automation_policy_permitted : ReadinessCheckStatus
}.

Definition permits_dispatch (c : IdentityReadinessChecks) : bool :=
  passed (metadata_valid c)
  && passed (credential_source_available c)
  && passed_or_na (upstream_identity_token_current c)
  && passed (provider_harness_trusted c)
  && passed (provider_principal_verified c)
  && passed_or_na (expected_workspace_verified c)
  && passed (automation_policy_permitted c).

Record IdentityReadiness := mkIdentityReadiness {
  ir_profile_ref : CtxlaneProfileRef;
  ir_role : IdentityRole;
  ir_environment : AutomationEnvironment;
  ir_worker_id : WorkerId;
  ir_worker_generation : Z;
  ir_policy_digest : string;
  ir_checked_at : DateTime;
  ir_valid_until : DateTime;
  ir_checks : IdentityReadinessChecks;
  ir_principal_ref : option CtxlanePrincipalRef;
  ir_workspace_ref : option CtxlaneWorkspaceRef;
  ir_auth_mode : option CtxlaneAuthMode;
  ir_isolation : CredentialIsolation;
  ir_refusal_code : option IdentityReasonCode
}.

Record IdentityReadinessExpectation := mkIdentityReadinessExpectation {
  ix_profile_ref : CtxlaneProfileRef;
  ix_role : IdentityRole;
  ix_environment : AutomationEnvironment;
  ix_worker_id : WorkerId;
  ix_worker_generation : Z;
  ix_policy_digest : string;
  ix_at : DateTime
}.

Definition isolated (r : CredentialIsolation) : bool :=
  bool_decide (r = CredentialIsolation.CredentialIsolated).

Definition IdentityReadiness_validate (r : IdentityReadiness) : res unit :=
  bail_if ((ir_worker_generation r =? 0) || blank (ir_policy_digest r))
    (Validation [Lit "identity readiness requires a worker generation and policy digest"]) ;;
  bail_if (ir_valid_until r <=? ir_checked_at r)
    (Validation [Lit "identity readiness validity must end after it was checked"]) ;;
  bail_if (passed (provider_principal_verified (ir_checks r)) && is_none (ir_principal_ref r))
    (Validation [Lit "verified provider-principal readiness requires non-secret principal attribution"]) ;;
  bail_if (passed (expected_workspace_verified (ir_checks r)) && is_none (ir_workspace_ref r))
    (Validation [Lit "verified workspace readiness requires non-secret workspace attribution"]) ;;
  let ready := permits_dispatch (ir_checks r) && is_some (ir_auth_mode r)
               && isolated (ir_isolation r) in
  bail_if (bool_decide (ready = is_some (ir_refusal_code r)))
    (Validation [Lit "ready identity records must omit a refusal code and non-ready records must include one"]).

Definition ensure_ready_for (r : IdentityReadiness) (x : IdentityReadinessExpectation)
  : res unit :=
  IdentityReadiness_validate r ;;
  bail_if (negb (bool_decide (ir_profile_ref r = ix_profile_ref x))
           || negb (bool_decide (ir_role r = ix_role x))
           || negb (bool_decide (ir_environment r = ix_environment x))
           || negb (bool_decide (ir_worker_id r = ix_worker_id x))
           || negb (ir_worker_generation r =? ix_worker_generation x)
           || negb (bool_decide (ir_policy_digest r = ix_policy_digest x)))
    (Validation [Lit "identity readiness is not bound to the requested profile, role, environment, worker generation, and policy"]) ;;
  bail_if ((ix_at x <? ir_checked_at r) || (ir_valid_until r <=? ix_at x))
    (Validation [Lit "identity readiness is not currently valid"]) ;;
  bail_if (negb (permits_dispatch (ir_checks r))
           || is_none (ir_auth_mode r)
           || negb (isolated (ir_isolation r))
           || is_some (ir_refusal_code r))
    (Validation [Lit "identity readiness did not prove every required production check"]).

Definition production_ready_at (r : IdentityReadiness) (at_ : DateTime) : bool :=
  is_ok (IdentityReadiness_validate r)
  && (ir_checked_at r <=? at_)
  && (at_ <? ir_valid_until r)
  && permits_dispatch (ir_checks r)
  && is_some (ir_auth_mode r)
  && isolated (ir_isolation r)
  && is_none (ir_refusal_code r).

(** ** Lease attribution *)

Record IdentityLeaseAttribution := mkIdentityLeaseAttribution {
  la_lease_id : CtxlaneLeaseId;
  la_profile_ref : CtxlaneProfileRef;
  la_principal_ref : CtxlanePrincipalRef;
  la_workspace_ref : option CtxlaneWorkspaceRef;
  la_auth_mode : CtxlaneAuthMode;
  la_role : IdentityRole;
  la_run_id : RunId;
  la_worker_id : WorkerId;
  la_policy_digest : string;
  la_fencing_generation : Z;
  la_issued_at : DateTime;
  la_expires_at : DateTime;
  la_isolation : CredentialIsolation
}.

Definition IdentityLeaseAttribution_validate (a : IdentityLeaseAttribution) : res unit :=
  bail_if (blank (la_policy_digest a) || (la_fencing_generation a =? 0))
    (Validation [Lit "identity attribution requires a policy digest and positive fencing generation"]) ;;
  bail_if (la_expires_at a <=? la_issued_at a)
    (Validation [Lit "identity lease attribution must expire after issuance"]).

Definition ensure_production_safe_for (a : IdentityLeaseAttribution)
    (identities : WorkOrderIdentities) (role : IdentityRole) (run_id : RunId)
    (worker_id : WorkerId) (policy_digest : string) (at_ : DateTime) : res unit :=
  IdentityLeaseAttribution_validate a ;;
  bail_if (negb (bool_decide (la_profile_ref a = profile_for identities role))
           || negb (bool_decide (la_role a = role))
           || negb (bool_decide (la_run_id a = run_id))
           || negb (bool_decide (la_worker_id a = worker_id))
           || negb (bool_decide (la_policy_digest a = policy_digest)))
    (Validation [Lit "identity lease attribution is not bound to the expected Work Order role and run"]) ;;
  bail_if ((at_ <? la_issued_at a) || (la_expires_at a <=? at_))
    (Validation [Lit "identity lease attribution is not currently valid"]) ;;
  bail_if (negb (isolated (la_isolation a)))
    (Validation [Lit "production identity attribution must prove credential isolation"]).

(** ** Facts *)

Lemma profile_from_str_ok s r :
  CtxlaneProfileRef_from_str s = Ok r ↔
  r = mkProfileRef s ∧
  ∃ p name, s = (CtxlaneProvider_to_string p +:+ String ":" name) ∧
            contains_char ":"%char name = false ∧ valid_profile_name name = true.
Proof.
  unfold CtxlaneProfileRef_from_str, validate_profile_name. split.
  - intros H. apply bind_ok in H as ([p n] & Hs & H). reflect.
    apply split_once_spec in Hs as [Hs _]. destruct H as (Hc & Hp & Hn & [= <-]).
    split; [done|]. destruct Hp as [->| ->].
    + by exists CtxlaneProvider.Claude, n.
    + by exists CtxlaneProvider.Codex, n.
  - intros (-> & p & n & Hs & Hc & Hn).
    rewrite (proj2 (split_once_spec ":"%char s (CtxlaneProvider_to_string p) n))
      by (by destruct p). simpl. rewrite Hc, Hn. by destruct p.
Qed.

(** When every check of the record passes, what the admission asks for. *)
Definition readiness_bound (r : IdentityReadiness) (x : IdentityReadinessExpectation) : Prop :=
  ir_profile_ref r = ix_profile_ref x ∧ ir_role r = ix_role x ∧
  ir_environment r = ix_environment x ∧ ir_worker_id r = ix_worker_id x ∧
  ir_worker_generation r = ix_worker_generation x ∧
  ir_policy_digest r = ix_policy_digest x.

Lemma ensure_ready_for_ok r x :
  ensure_ready_for r x = Ok tt ↔
  readiness_bound r x ∧ production_ready_at r (ix_at x) = true.
Proof.
  unfold ensure_ready_for, production_ready_at, readiness_bound.
  rewrite !bind_unit_ok, !bail_if_ok. reflect. rewrite is_ok_unit, <- !is_some_true.
  naive_solver lia.
Qed.

Lemma ensure_ready_for_not_panic r x : ensure_ready_for r x ≠ Panic.
Proof.
  unfold ensure_ready_for, IdentityReadiness_validate.
  repeat (apply bind_not_panic; intros); apply bail_if_not_panic.
Qed.
