(* ===== verification/WorkItem.v ===== *)
(** The work-item aggregate, [src/src/domain/work_item.rs], and the attempt
    record, [src/src/domain/attempt.rs].

    [WorkItem::transition] takes [&mut self]: the model returns the item as the
    call leaves it together with the result, so a call that fails after a write
    is visible as such. *)

From Stdlib Require Import ZArith Lia.
From stdpp Require Import base tactics option list strings.
From S2P Require Import Prelude RustStr RustOrd Ids Authority Identity.

(** ** States *)

Module ClosureTarget.
Inductive ClosureTarget := PullRequest | Merge | Deploy | Observe.
End ClosureTarget.
Abbreviation ClosureTarget := ClosureTarget.ClosureTarget.

#[global] Instance ClosureTarget_eq_dec : EqDecision ClosureTarget.
Proof. solve_decision. Defined.

Definition production_supported_v1 (t : ClosureTarget) : bool :=
  match t with ClosureTarget.PullRequest => true | _ => false end.

Module RiskClass.
Inductive RiskClass := Low | Medium | High | Critical | Unknown.
End RiskClass.
Abbreviation RiskClass := RiskClass.RiskClass.

#[global] Instance RiskClass_eq_dec : EqDecision RiskClass.
Proof. solve_decision. Defined.

(** [matches!(class, RiskClass::Critical | RiskClass::Unknown)]. *)
Definition risk_not_automatable (r : RiskClass) : bool :=
  match r with RiskClass.Critical | RiskClass.Unknown => true | _ => false end.

Module WorkItemState.
Inductive WorkItemState :=
| Discovered | ReadinessPending | NeedsSpec | Ready | Accepted | Planned | Scheduled
| Dispatching | Running | VerifyingOutcome | TargetReached | ClosingSource | Closed
| WaitingDependency | WaitingApproval | RetryScheduled | BlockedExternal
| BudgetExhausted | Refused | Quarantined | CancelRequested | Cancelled | Escalated.
End WorkItemState.
Abbreviation WorkItemState := WorkItemState.WorkItemState.

#[global] Instance WorkItemState_eq_dec : EqDecision WorkItemState.
Proof. solve_decision. Defined.

(** [impl Display for WorkItemState], through the derived [Debug]. *)
Definition WorkItemState_to_string (s : WorkItemState) : string :=
  match s with
  | WorkItemState.Discovered => "Discovered"
  | WorkItemState.ReadinessPending => "ReadinessPending"
  | WorkItemState.NeedsSpec => "NeedsSpec"
  | WorkItemState.Ready => "Ready"
  | WorkItemState.Accepted => "Accepted"
  | WorkItemState.Planned => "Planned"
  | WorkItemState.Scheduled => "Scheduled"
  | WorkItemState.Dispatching => "Dispatching"
  | WorkItemState.Running => "Running"
  | WorkItemState.VerifyingOutcome => "VerifyingOutcome"
  | WorkItemState.TargetReached => "TargetReached"
  | WorkItemState.ClosingSource => "ClosingSource"
  | WorkItemState.Closed => "Closed"
  | WorkItemState.WaitingDependency => "WaitingDependency"
  | WorkItemState.WaitingApproval => "WaitingApproval"
  | WorkItemState.RetryScheduled => "RetryScheduled"
  | WorkItemState.BlockedExternal => "BlockedExternal"
  | WorkItemState.BudgetExhausted => "BudgetExhausted"
  | WorkItemState.Refused => "Refused"
  | WorkItemState.Quarantined => "Quarantined"
  | WorkItemState.CancelRequested => "CancelRequested"
  | WorkItemState.Cancelled => "Cancelled"
  | WorkItemState.Escalated => "Escalated"
  end.

Definition is_pre_acceptance (s : WorkItemState) : bool :=
  match s with
  | WorkItemState.Discovered | WorkItemState.ReadinessPending | WorkItemState.NeedsSpec
  | WorkItemState.Ready | WorkItemState.Refused => true
  | _ => false
  end.

Definition is_terminal (s : WorkItemState) : bool :=
  match s with WorkItemState.Closed | WorkItemState.Cancelled => true | _ => false end.

Definition can_transition_to (s next : WorkItemState) : bool :=
  match s, next with
  | WorkItemState.Discovered, WorkItemState.ReadinessPending => true
  | WorkItemState.ReadinessPending,
    (WorkItemState.NeedsSpec | WorkItemState.Ready | WorkItemState.Refused
     | WorkItemState.WaitingDependency) => true
  | WorkItemState.NeedsSpec,
    (WorkItemState.ReadinessPending | WorkItemState.Refused) => true
  | WorkItemState.Ready,
    (WorkItemState.Accepted | WorkItemState.ReadinessPending | WorkItemState.Refused) => true
  | WorkItemState.Accepted,
    (WorkItemState.Planned | WorkItemState.Scheduled | WorkItemState.WaitingApproval
     | WorkItemState.WaitingDependency | WorkItemState.CancelRequested
     | WorkItemState.Escalated) => true
  | WorkItemState.Planned,
    (WorkItemState.Scheduled | WorkItemState.WaitingApproval
     | WorkItemState.WaitingDependency | WorkItemState.CancelRequested
     | WorkItemState.Escalated) => true
  | WorkItemState.Scheduled,
    (WorkItemState.Dispatching | WorkItemState.WaitingApproval
     | WorkItemState.WaitingDependency | WorkItemState.RetryScheduled
     | WorkItemState.CancelRequested | WorkItemState.Escalated) => true
  | WorkItemState.Dispatching,
    (WorkItemState.Running | WorkItemState.RetryScheduled | WorkItemState.BlockedExternal
     | WorkItemState.CancelRequested | WorkItemState.Escalated
     | WorkItemState.Quarantined) => true
  | WorkItemState.Running,
    (WorkItemState.VerifyingOutcome | WorkItemState.WaitingApproval
     | WorkItemState.RetryScheduled | WorkItemState.BlockedExternal
     | WorkItemState.BudgetExhausted | WorkItemState.CancelRequested
     | WorkItemState.Escalated | WorkItemState.Quarantined) => true
  | WorkItemState.VerifyingOutcome,
    (WorkItemState.TargetReached | WorkItemState.RetryScheduled
     | WorkItemState.BlockedExternal | WorkItemState.WaitingApproval
     | WorkItemState.Escalated | WorkItemState.Quarantined) => true
  | WorkItemState.TargetReached,
    (WorkItemState.ClosingSource | WorkItemState.Quarantined) => true
  | WorkItemState.ClosingSource,
    (WorkItemState.Closed | WorkItemState.BlockedExternal | WorkItemState.Escalated) => true
  | WorkItemState.WaitingDependency,
    (WorkItemState.Scheduled | WorkItemState.ReadinessPending
     | WorkItemState.CancelRequested | WorkItemState.Escalated) => true
  | WorkItemState.WaitingApproval,
    (WorkItemState.Scheduled | WorkItemState.Dispatching | WorkItemState.Running
     | WorkItemState.VerifyingOutcome | WorkItemState.CancelRequested
     | WorkItemState.Escalated | WorkItemState.Refused) => true
  | WorkItemState.RetryScheduled,
    (WorkItemState.Scheduled | WorkItemState.ReadinessPending
     | WorkItemState.CancelRequested | WorkItemState.Escalated) => true
  | WorkItemState.BlockedExternal,
    (WorkItemState.RetryScheduled | WorkItemState.Running | WorkItemState.ClosingSource
     | WorkItemState.CancelRequested | WorkItemState.Escalated
     | WorkItemState.Quarantined) => true
  | WorkItemState.BudgetExhausted,
    (WorkItemState.WaitingApproval | WorkItemState.RetryScheduled
     | WorkItemState.CancelRequested | WorkItemState.Escalated) => true
  | WorkItemState.Quarantined,
    (WorkItemState.RetryScheduled | WorkItemState.CancelRequested
     | WorkItemState.Escalated) => true
  | WorkItemState.CancelRequested,
    (WorkItemState.Cancelled | WorkItemState.BlockedExternal
     | WorkItemState.Escalated) => true
  | WorkItemState.Escalated,
    (WorkItemState.ReadinessPending | WorkItemState.Scheduled
     | WorkItemState.RetryScheduled | WorkItemState.CancelRequested
     | WorkItemState.Cancelled) => true
  | _, _ => false
  end.

(** ** The aggregate *)

Record RiskAssessment := mkRiskAssessment {
  risk_class : RiskClass;
  risk_reasons : list string;
  risk_matched_rules : BTreeSet string
}.

Record WorkItem := mkWorkItem {
  wi_id : WorkItemId;
  wi_tenant_id : TenantId;
  wi_source_snapshot_id : SourceSnapshotId;
  wi_repository_id : option RepositoryId;
  wi_state : WorkItemState;
  wi_closure_target : option ClosureTarget;
  wi_risk : option RiskAssessment;
  wi_policy_digest : option string;
  wi_budgets : option BudgetLimits;
  wi_identity_requirements : option WorkOrderIdentities;
  wi_owner_fallback : option string;
  wi_active_attempt_id : option AttemptId;
  wi_priority : Z;
  wi_version : Z;
  wi_discovered_at : DateTime;
  wi_ready_at : option DateTime;
  wi_accepted_at : option DateTime;
  wi_updated_at : DateTime
}.

(** [WorkItem::discovered]; the fresh UUID is an argument. *)
Definition WorkItem_discovered (id : WorkItemId) (tenant_id : TenantId)
    (source_snapshot_id : SourceSnapshotId) (priority : Z) (now : DateTime) : WorkItem :=
  {| wi_id := id;
     wi_tenant_id := tenant_id;
     wi_source_snapshot_id := source_snapshot_id;
     wi_repository_id := None;
     wi_state := WorkItemState.Discovered;
     wi_closure_target := None;
     wi_risk := None;
     wi_policy_digest := None;
     wi_budgets := None;
     wi_identity_requirements := None;
     wi_owner_fallback := None;
     wi_active_attempt_id := None;
     wi_priority := priority;
     wi_version := 1;
     wi_discovered_at := now;
     wi_ready_at := None;
     wi_accepted_at := None;
     wi_updated_at := now |}.

Definition validate_acceptance_fields (w : WorkItem) : res unit :=
  bail_if (is_none (wi_repository_id w)
           || is_none (wi_closure_target w)
           || is_none (wi_risk w)
           || is_none (wi_policy_digest w)
           || is_none (wi_budgets w)
           || is_none (wi_identity_requirements w)
           || match wi_owner_fallback w with None => true | Some owner => blank owner end)
    (Validation [Lit "accepted work requires repository, closure target, risk, policy, budgets, identity requirements, and owner fallback"]) ;;
  match wi_identity_requirements w with
  | Some requirements => WorkOrderIdentities_validate requirements
  | None => Ok tt
  end ;;
  bail_if (negb (match wi_closure_target w with
                 | Some target => production_supported_v1 target
                 | None => false
                 end))
    (Validation [Lit "only pull-request closure is production-supported in V1"]) ;;
  bail_if (match wi_risk w with
           | Some risk => risk_not_automatable (risk_class risk)
           | None => false
           end)
    (Validation [Lit "critical or unknown-risk work cannot be accepted for unattended V1 execution"]) ;;
  budgets ← expect (wi_budgets w);
  BudgetLimits_validate budgets.

(** Field assignments. *)
Definition set_wi_state (w : WorkItem) (s : WorkItemState) : WorkItem :=
  let 'mkWorkItem id te so re _ cl ri po bu ide ow at_ pr ve di rd ac up := w in
  mkWorkItem id te so re s cl ri po bu ide ow at_ pr ve di rd ac up.

Definition set_wi_stamp (w : WorkItem) (version : Z) (updated_at : DateTime) : WorkItem :=
  let 'mkWorkItem id te so re st cl ri po bu ide ow at_ pr _ di rd ac _ := w in
  mkWorkItem id te so re st cl ri po bu ide ow at_ pr version di rd ac updated_at.

Definition set_wi_ready_at (w : WorkItem) (t : DateTime) : WorkItem :=
  let 'mkWorkItem id te so re st cl ri po bu ide ow at_ pr ve di _ ac up := w in
  mkWorkItem id te so re st cl ri po bu ide ow at_ pr ve di (Some t) ac up.

Definition set_wi_accepted_at (w : WorkItem) (t : DateTime) : WorkItem :=
  let 'mkWorkItem id te so re st cl ri po bu ide ow at_ pr ve di rd _ up := w in
  mkWorkItem id te so re st cl ri po bu ide ow at_ pr ve di rd (Some t) up.

(** [WorkItem::transition(&mut self, next, now)]: the item left behind and the
    result.  The state is written before the version is checked. *)
Definition WorkItem_transition (w : WorkItem) (next : WorkItemState) (now : DateTime)
  : WorkItem * res unit :=
  if negb (can_transition_to (wi_state w) next) then
    (w, Err (InvalidTransition [Disp (WorkItemState_to_string (wi_state w))]
                               [Disp (WorkItemState_to_string next)]))
  else
  let acceptance := if bool_decide (next = WorkItemState.Accepted)
                    then validate_acceptance_fields w else Ok tt in
  match acceptance with
  | Err e => (w, Err e)
  | Panic => (w, Panic)
  | Ok _ =>
    let w1 := set_wi_state w next in
    match checked_add u64_max (wi_version w1) 1 with
    | None => (w1, Err (Conflict [Lit "work item aggregate version overflowed"]))
    | Some version =>
      let w2 := set_wi_stamp w1 version now in
      let w3 := if bool_decide (next = WorkItemState.Ready)
                then set_wi_ready_at w2 now else w2 in
      let w4 := if bool_decide (next = WorkItemState.Accepted)
                then set_wi_accepted_at w3 now else w3 in
      (w4, Ok tt)
    end
  end.

(** ** Attempts *)

Module AttemptState.
Inductive AttemptState :=
| Authorizing | Dispatching | Running | Verifying | TargetReached
| RetryableFailure | Escalated | Cancelled | Quarantined.
End AttemptState.
Abbreviation AttemptState := AttemptState.AttemptState.

Definition AttemptState_active (s : AttemptState) : bool :=
  match s with
  | AttemptState.Authorizing | AttemptState.Dispatching | AttemptState.Running
  | AttemptState.Verifying => true
  | _ => false
  end.

Record Attempt := mkAttempt {
  at_id : AttemptId;
  at_work_item_id : WorkItemId;
  at_ordinal : Z;
  at_state : AttemptState;
  at_worker_id : WorkerId;
  at_worker_generation : Z;
  at_work_order_digest : option string;
  at_run_id : option RunId;
  at_last_event_cursor : option string;
  at_version : Z;
  at_created_at : DateTime;
  at_updated_at : DateTime
}.

(** ** Acceptance *)

(** What an item must carry to be accepted. *)
Record acceptable (w : WorkItem) : Prop := {
  acc_repository : is_Some (wi_repository_id w);
  acc_target : wi_closure_target w = Some ClosureTarget.PullRequest;
  acc_risk : ∃ risk, wi_risk w = Some risk ∧ risk_not_automatable (risk_class risk) = false;
  acc_policy : is_Some (wi_policy_digest w);
  acc_budgets : ∃ budgets, wi_budgets w = Some budgets ∧
    max_wall_time_seconds budgets ≠ 0 ∧ max_implementer_invocations budgets ≠ 0 ∧
    max_reviewer_invocations budgets ≠ 0;
  acc_identities : ∃ ids, wi_identity_requirements w = Some ids ∧
    woi_implementer ids ≠ woi_local_reviewer ids ∧ woi_implementer ids ≠ woi_pr_reviewer ids;
  acc_owner : ∃ owner, wi_owner_fallback w = Some owner ∧ blank owner = false
}.

Lemma validate_acceptance_ok w : validate_acceptance_fields w = Ok tt ↔ acceptable w.
Proof.
  unfold validate_acceptance_fields.
  rewrite !bind_unit_ok, !bail_if_ok, !orb_false_iff, !is_none_false. split.
  - intros ((((((( [? ?] & [tg Ht]) & [ri Hr]) & ?) & [bu Hb]) & [ids Hi]) & Ho)
      & Hid & Hcl & Hri & Hbu).
    rewrite Ht in Hcl. rewrite Hr in Hri. rewrite Hb in Hbu. rewrite Hi in Hid. simpl in Hbu.
    unfold WorkOrderIdentities_validate, BudgetLimits_validate in *. reflect.
    constructor; rewrite ?Ht, ?Hr, ?Hb, ?Hi; eauto.
    + by destruct tg.
    + exists bu. naive_solver.
    + destruct (wi_owner_fallback w); [eauto|done].
  - intros [? Ht (ri & Hr & Hri) ? (bu & Hb & Hbu) (ids & Hi & Hid) (ow & Ho & How)].
    rewrite Ht, Hr, Hb, Hi, Ho. simpl.
    unfold WorkOrderIdentities_validate, BudgetLimits_validate. reflect. naive_solver.
Qed.

Lemma validate_acceptance_not_panic w : validate_acceptance_fields w ≠ Panic.
Proof.
  unfold validate_acceptance_fields, WorkOrderIdentities_validate, BudgetLimits_validate.
  destruct (wi_budgets w) as [bu|]; simpl.
  - repeat (apply bind_not_panic; intros); try apply bail_if_not_panic.
    by destruct (wi_identity_requirements w); [apply bail_if_not_panic|].
  - by destruct (wi_repository_id w), (wi_closure_target w), (wi_risk w), (wi_policy_digest w).
Qed.

(** The guard of a transition: the edge is in the graph, and acceptance is
    only granted to an acceptable item. *)
Definition admissible (w : WorkItem) (next : WorkItemState) : Prop :=
  can_transition_to (wi_state w) next = true ∧
  (next = WorkItemState.Accepted → acceptable w).

(** The three ways a transition can end. *)
Variant transition_outcome (w : WorkItem) (next : WorkItemState) (now : DateTime)
  : WorkItem * res unit → Prop :=
| outcome_rejected e : ¬ admissible w next → transition_outcome w next now (w, Err e)
| outcome_overflow :
    admissible w next → u64_max ≤ wi_version w →
    transition_outcome w next now
      (set_wi_state w next, Err (Conflict [Lit "work item aggregate version overflowed"]))
| outcome_done w' :
    admissible w next → wi_version w < u64_max →
    wi_state w' = next → wi_version w' = wi_version w + 1 → wi_updated_at w' = now →
    wi_ready_at w' = (if bool_decide (next = WorkItemState.Ready)
                      then Some now else wi_ready_at w) →
    wi_accepted_at w' = (if bool_decide (next = WorkItemState.Accepted)
                         then Some now else wi_accepted_at w) →
    (wi_id w', wi_tenant_id w', wi_source_snapshot_id w', wi_repository_id w',
     wi_closure_target w', wi_risk w', wi_policy_digest w', wi_budgets w',
     wi_identity_requirements w', wi_owner_fallback w', wi_active_attempt_id w',
     wi_priority w', wi_discovered_at w') =
    (wi_id w, wi_tenant_id w, wi_source_snapshot_id w, wi_repository_id w,
     wi_closure_target w, wi_risk w, wi_policy_digest w, wi_budgets w,
     wi_identity_requirements w, wi_owner_fallback w, wi_active_attempt_id w,
     wi_priority w, wi_discovered_at w) →
    transition_outcome w next now (w', Ok tt).

Lemma transition_spec w next now :
  transition_outcome w next now (WorkItem_transition w next now).
Proof.
  unfold WorkItem_transition.
  destruct (can_transition_to (wi_state w) next) eqn:Ec; simpl;
    [|apply outcome_rejected; intros [? _]; congruence].
  set (acc := if bool_decide _ then _ else _).
  assert (acc = Ok tt ↔ admissible w next) as Hacc.
  { unfold acc, admissible. case_bool_decide.
    - rewrite validate_acceptance_ok. naive_solver.
    - naive_solver. }
  assert (acc ≠ Panic) as Hnp.
  { unfold acc. case_bool_decide; [apply validate_acceptance_not_panic|done]. }
  destruct acc as [[]|e|]; [|by apply outcome_rejected; rewrite <- Hacc|done].
  destruct w as [id te so re st cl ri po bu ide ow at_ pr ve di rd ac up]; simpl.
  destruct (checked_add u64_max ve 1) eqn:Ev.
  - apply checked_add_some in Ev as [Ev ->].
    apply outcome_done; [by apply Hacc|simpl; lia|..]; by do 2 case_bool_decide.
  - apply checked_add_none in Ev. apply outcome_overflow; [by apply Hacc|simpl; lia].
Qed.

(** ** The life of an item *)

(** Code outside [transition] may fill in the public fields that are not part
    of the lifecycle. *)
Definition lifecycle_fields (w : WorkItem) :=
  (wi_id w, wi_state w, wi_version w, wi_discovered_at w, wi_ready_at w, wi_accepted_at w).

Inductive life_step (w w' : WorkItem) : Prop :=
| life_transition next now : WorkItem_transition w next now = (w', Ok tt) → life_step w w'
| life_edit : lifecycle_fields w' = lifecycle_fields w → life_step w w'.

Lemma transition_ok_inv w next now w' :
  WorkItem_transition w next now = (w', Ok tt) →
  admissible w next ∧ wi_version w < u64_max ∧ wi_state w' = next ∧
  wi_version w' = wi_version w + 1 ∧
  wi_accepted_at w' = (if bool_decide (next = WorkItemState.Accepted)
                       then Some now else wi_accepted_at w).
Proof.
  intros E. pose proof (transition_spec w next now) as H. rewrite E in H.
  inversion H; subst; done.
Qed.

(** States whose only way in passes through acceptance. *)
Definition post_acceptance (s : WorkItemState) : bool :=
  match s with WorkItemState.Accepted | WorkItemState.Planned => true | _ => false end.

Lemma post_acceptance_back s s' :
  can_transition_to s s' = true → post_acceptance s' = true →
  s' ≠ WorkItemState.Accepted → post_acceptance s = true.
Proof. destruct s'; try done; by destruct s. Qed.

Lemma terminal_stuck s s' : is_terminal s = true → can_transition_to s s' = false.
Proof. by destruct s. Qed.

Definition life_invariant (w w' : WorkItem) : Prop :=
  wi_version w ≤ wi_version w' ∧
  (is_Some (wi_accepted_at w) → is_Some (wi_accepted_at w')) ∧
  (is_terminal (wi_state w) = true → wi_state w' = wi_state w) ∧
  (post_acceptance (wi_state w') = true → is_Some (wi_accepted_at w')).

Lemma life_invariant_step w0 w w' :
  life_invariant w0 w → life_step w w' → life_invariant w0 w'.
Proof.
  intros (Hv & Ha & Ht & Hp) [next now E|E].
  - apply transition_ok_inv in E as ([Hc _] & _ & <- & Hv' & Hacc).
    unfold life_invariant. rewrite Hacc. split_and!; [lia| | |].
    + case_bool_decide; [eauto|done].
    + intros Hterm. specialize (Ht Hterm). rewrite Ht in Hc.
      by rewrite terminal_stuck in Hc.
    + intros Hpost. case_bool_decide as Ea; [eauto|].
      apply Hp. by eapply post_acceptance_back.
  - injection E as _ Es Ev _ _ Ea. unfold life_invariant. by rewrite Es, Ev, Ea.
Qed.

(** ** Reachability in the state graph *)

Definition edge_to (s s' : WorkItemState) : Prop := can_transition_to s s' = true.

(** A path to [Cancelled] from every state that has one. *)
Definition to_cancelled (s : WorkItemState) : list WorkItemState :=
  match s with
  | WorkItemState.Cancelled => []
  | WorkItemState.CancelRequested | WorkItemState.Escalated => [WorkItemState.Cancelled]
  | WorkItemState.Discovered | WorkItemState.NeedsSpec | WorkItemState.Ready =>
    [WorkItemState.ReadinessPending; WorkItemState.WaitingDependency;
     WorkItemState.CancelRequested; WorkItemState.Cancelled]
  | WorkItemState.ReadinessPending =>
    [WorkItemState.WaitingDependency; WorkItemState.CancelRequested;
     WorkItemState.Cancelled]
  | WorkItemState.TargetReached =>
    [WorkItemState.ClosingSource; WorkItemState.Escalated; WorkItemState.Cancelled]
  | WorkItemState.ClosingSource | WorkItemState.VerifyingOutcome =>
    [WorkItemState.Escalated; WorkItemState.Cancelled]
  | _ => [WorkItemState.CancelRequested; WorkItemState.Cancelled]
  end.

Fixpoint follows (s : WorkItemState) (path : list WorkItemState) : bool :=
  match path with
  | [] => bool_decide (s = WorkItemState.Cancelled)
  | s' :: path => can_transition_to s s' && follows s' path
  end.

Lemma follows_star s path : follows s path = true → star edge_to s WorkItemState.Cancelled.
Proof.
  revert s. induction path as [|s' path IH]; intros s H; simpl in H; reflect.
  - subst. apply star_nil.
  - destruct H as [H1 H2]. eapply star_cons; [exact H1|by apply IH].
Qed.

(** ** Theorems *)

(** A transition of a work item ends in exactly one of three ways: it is
    rejected with the item untouched when the edge is not in the graph or the
    item is not acceptable, it succeeds and changes only the state, the version,
    the update time and the ready/accepted stamps, or the version is exhausted.
    It never panics, although it calls [expect] on the budgets. *)
Lemma work_item_transition_total w next now :
  transition_outcome w next now (WorkItem_transition w next now) ∧
  (WorkItem_transition w next now).2 ≠ Panic.
Proof.
  pose proof (transition_spec w next now) as H. split; [done|].
  by destruct H.
Qed.

(** A failed transition is atomic: while the version counter is not
    exhausted, a transition that does not succeed leaves every field of the
    item as it was. *)
Lemma failed_transition_is_atomic w next now :
  wi_version w < u64_max →
  (WorkItem_transition w next now).2 ≠ Ok tt →
  (WorkItem_transition w next now).1 = w.
Proof. intros Hv. destruct (transition_spec w next now); simpl; [done|lia|done]. Qed.

Definition sample_item : WorkItem := WorkItem_discovered 1%N 2%N 3%N 50 0.

Lemma failed_transition_is_atomic_witness :
  (WorkItem_transition sample_item WorkItemState.Accepted 7).1 = sample_item.
Proof. apply failed_transition_is_atomic; vm_compute; congruence. Defined.

(** At the last version number a legal transition reports a conflict but has
    already overwritten the state: the call fails and is not atomic. *)
Lemma exhausted_version_breaks_atomicity w next now :
  admissible w next → wi_state w ≠ next → wi_version w = u64_max →
  (WorkItem_transition w next now).2 =
    Err (Conflict [Lit "work item aggregate version overflowed"]) ∧
  wi_state (WorkItem_transition w next now).1 = next ∧
  (WorkItem_transition w next now).1 ≠ w.
Proof.
  intros Ha Hne Hv. destruct (transition_spec w next now); simpl; [done| |lia].
  assert (wi_state (set_wi_state w next) = next) as Hs by by destruct w.
  split_and!; [done|done|]. intros E. rewrite E in Hs. done.
Qed.

Lemma exhausted_version_breaks_atomicity_witness :
  wi_state (WorkItem_transition (set_wi_stamp sample_item u64_max 0)
              WorkItemState.ReadinessPending 7).1 = WorkItemState.ReadinessPending.
Proof. apply exhausted_version_breaks_atomicity; done. Defined.

(** C32. Over any life of an item, made of successful transitions and edits of the
    fields outside the lifecycle: the version never decreases, acceptance is
    never forgotten, terminal states are absorbing, and an item in [Accepted] or
    [Planned] carries its acceptance time. *)
Theorem work_item_life_invariant id tenant snapshot priority t w w' :
  star life_step (WorkItem_discovered id tenant snapshot priority t) w →
  star life_step w w' → life_invariant w w'.
Proof.
  set (w0 := WorkItem_discovered id tenant snapshot priority t). intros H0 H.
  assert (life_invariant w0 w) as (_ & _ & _ & Hp).
  { apply (star_invariant life_step (life_invariant w0) w0 w);
      [split_and!; done|apply life_invariant_step|done]. }
  apply (star_invariant life_step (life_invariant w) w w');
    [split_and!; done|apply life_invariant_step|done].
Qed.

Lemma work_item_life_invariant_witness :
  life_invariant sample_item
    (WorkItem_transition sample_item WorkItemState.ReadinessPending 7).1.
Proof.
  apply (work_item_life_invariant 1%N 2%N 3%N 50 0); [apply star_nil|].
  eapply star_snoc; [apply star_nil|].
  by apply (life_transition _ _ WorkItemState.ReadinessPending 7).
Defined.

(** No item is trapped on the way: the states without a successor are
    exactly [Closed], [Cancelled] and [Refused], and from every state but
    [Closed] and [Refused] cancellation can still be reached. *)
Lemma work_item_graph_liveness s :
  ((∀ s', can_transition_to s s' = false) ↔
     is_terminal s = true ∨ s = WorkItemState.Refused) ∧
  (star edge_to s WorkItemState.Cancelled ↔
     s ≠ WorkItemState.Closed ∧ s ≠ WorkItemState.Refused).
Proof.
  assert (∀ s', is_terminal s = true ∨ s = WorkItemState.Refused →
    can_transition_to s s' = false) as Hstuck.
  { intros s' [H|H]; [by apply terminal_stuck|by subst]. }
  split; split.
  - intros H. specialize (H (List.hd s (to_cancelled s))).
    destruct s; vm_compute in H; try done; first [by left|by right].
  - intros H s'. by apply Hstuck.
  - assert (∀ a b, star edge_to a b → (∀ s', can_transition_to a s' = false) → b = a) as Hs.
    { intros a b H Ha. induction H as [|x y z _ IH E]; [done|].
      rewrite (IH Ha) in E. unfold edge_to in E. by rewrite Ha in E. }
    intros H. split; intros ->; by specialize (Hs _ _ H (λ s', Hstuck s' ltac:(auto))).
  - intros [H1 H2]. apply (follows_star s (to_cancelled s)). by destruct s.
Qed.

(** Successive transitions, each of which must succeed. *)
Fixpoint run_path (w : WorkItem) (path : list WorkItemState) (now : DateTime)
  : option WorkItem :=
  match path with
  | [] => Some w
  | s :: path =>
    match WorkItem_transition w s now with
    | (w', Ok _) => run_path w' path now
    | _ => None
    end
  end.

Lemma run_path_app w path path' now :
  run_path w (path ++ path') now =
  match run_path w path now with Some w' => run_path w' path' now | None => None end.
Proof.
  revert w. induction path as [|s path IH]; intros w; simpl; [done|].
  destruct (WorkItem_transition w s now) as [w' []]; [apply IH|done|done].
Qed.

(** The edges of a path are in the graph and none of them is acceptance. *)
Fixpoint legal_path (s : WorkItemState) (path : list WorkItemState) : bool :=
  match path with
  | [] => true
  | s' :: path => can_transition_to s s' && negb (bool_decide (s' = WorkItemState.Accepted))
                  && legal_path s' path
  end.

Fixpoint endpoint (s : WorkItemState) (path : list WorkItemState) : WorkItemState :=
  match path with [] => s | s' :: path => endpoint s' path end.

Lemma run_legal_path w path now :
  legal_path (wi_state w) path = true →
  wi_version w + Z.of_nat (length path) ≤ u64_max →
  ∃ w', run_path w path now = Some w' ∧ wi_state w' = endpoint (wi_state w) path ∧
        wi_version w' = wi_version w + Z.of_nat (length path) ∧
        wi_accepted_at w' = wi_accepted_at w ∧ wi_repository_id w' = wi_repository_id w ∧
        (acceptable w → acceptable w').
Proof.
  revert w. induction path as [|s path IH]; intros w Hl Hv.
  - exists w. split_and!; try done. simpl. lia.
  - simpl in Hl. reflect. destruct Hl as [[Hc Hne] Hl]. cbn [run_path length] in *.
    pose proof (transition_spec w s now) as Ht.
    destruct (WorkItem_transition w s now) as [w1 r].
    inversion Ht as [e Hn|? ?|w'' ? ? Hs Hve ? ? Ha Hf]; subst.
    + destruct Hn. split; [done|]. by intros ->.
    + lia.
    + rewrite bool_decide_false in Ha by done.
      injection Hf as _ _ _ Hr Ht1 Ht2 Ht3 Ht4 Ht5 Ht6 _ _ _.
      destruct (IH w1) as (w' & E & Es & Ev & Ea & Er & Hacc); [done|lia|].
      exists w'. split_and!; [done|done|lia|congruence..|].
      intros [A1 A2 A3 A4 A5 A6 A7]. apply Hacc.
      constructor; by rewrite ?Hr, ?Ht1, ?Ht2, ?Ht3, ?Ht4, ?Ht5, ?Ht6.
Qed.

(** Acceptance can be skipped: an item fresh from discovery, with no
    repository, target, risk, policy, budget, identity or owner, can be taken to
    [Running] and to [Closed] by legal transitions that never visit [Accepted],
    and it ends without an acceptance time. *)
Lemma acceptance_can_be_skipped id tenant snapshot priority t now :
  let w := WorkItem_discovered id tenant snapshot priority t in
  (∃ w', run_path w [WorkItemState.ReadinessPending; WorkItemState.WaitingDependency;
                     WorkItemState.Scheduled; WorkItemState.Dispatching;
                     WorkItemState.Running] now = Some w' ∧
         wi_state w' = WorkItemState.Running ∧ wi_accepted_at w' = None ∧
         wi_repository_id w' = None) ∧
  (∃ w', run_path w [WorkItemState.ReadinessPending; WorkItemState.WaitingDependency;
                     WorkItemState.Scheduled; WorkItemState.Dispatching;
                     WorkItemState.BlockedExternal; WorkItemState.ClosingSource;
                     WorkItemState.Closed] now = Some w' ∧
         wi_state w' = WorkItemState.Closed ∧ wi_accepted_at w' = None).
Proof.
  intros w. split.
  - destruct (run_legal_path w
      [WorkItemState.ReadinessPending; WorkItemState.WaitingDependency;
       WorkItemState.Scheduled; WorkItemState.Dispatching; WorkItemState.Running] now)
      as (w' & ? & ? & _ & ? & ? & _); [done|vm_compute; congruence|]. by exists w'.
  - destruct (run_legal_path w
      [WorkItemState.ReadinessPending; WorkItemState.WaitingDependency;
       WorkItemState.Scheduled; WorkItemState.Dispatching; WorkItemState.BlockedExternal;
       WorkItemState.ClosingSource; WorkItemState.Closed] now)
      as (w' & ? & ? & _ & ? & ? & _); [done|vm_compute; congruence|]. by exists w'.
Qed.

(** The acceptance time is not written once: an accepted item can legally
    return to readiness and be accepted again, which replaces the stamp. *)
Lemma reacceptance_rewrites_the_stamp w t now :
  acceptable w → wi_state w = WorkItemState.Accepted → wi_accepted_at w = Some t →
  wi_version w + 4 ≤ u64_max →
  ∃ w', run_path w [WorkItemState.WaitingDependency; WorkItemState.ReadinessPending;
                    WorkItemState.Ready; WorkItemState.Accepted] now = Some w' ∧
        wi_accepted_at w' = Some now.
Proof.
  intros Hacc Hs Ha Hv.
  destruct (run_legal_path w
    [WorkItemState.WaitingDependency; WorkItemState.ReadinessPending;
     WorkItemState.Ready] now) as (w1 & E1 & Hs1 & Hv1 & _ & _ & Hacc1);
    [by rewrite Hs|simpl; lia|].
  change (∃ w', run_path w ([WorkItemState.WaitingDependency; WorkItemState.ReadinessPending;
     WorkItemState.Ready] ++ [WorkItemState.Accepted]) now = Some w' ∧
     wi_accepted_at w' = Some now).
  rewrite run_path_app, E1. cbn [run_path].
  pose proof (transition_spec w1 WorkItemState.Accepted now) as Ht. simpl in Hs1, Hv1.
  destruct (WorkItem_transition w1 WorkItemState.Accepted now) as [w2 r].
  inversion Ht as [e Hn|? ?|w'' ? ? ? ? ? ? Ha2 _]; subst; [|lia|eauto].
  destruct Hn. split; [by rewrite Hs1|auto].
Qed.

Definition accepted_item : WorkItem :=
  {| wi_id := 1%N; wi_tenant_id := 2%N; wi_source_snapshot_id := 3%N;
     wi_repository_id := Some 4%N; wi_state := WorkItemState.Accepted;
     wi_closure_target := Some ClosureTarget.PullRequest;
     wi_risk := Some (mkRiskAssessment RiskClass.Low ["docs"] bs_empty);
     wi_policy_digest := Some "sha256:p";
     wi_budgets := Some (mkBudgetLimits 1 1 1 1 1 1 1 1);
     wi_identity_requirements :=
       Some (mkWorkOrderIdentities (mkProfileRef "codex:a") (mkProfileRef "claude:b")
               (mkProfileRef "claude:b"));
     wi_owner_fallback := Some "owner"; wi_active_attempt_id := None;
     wi_priority := 50; wi_version := 5; wi_discovered_at := 0; wi_ready_at := Some 1;
     wi_accepted_at := Some 2; wi_updated_at := 2 |}.

Lemma accepted_item_acceptable : acceptable accepted_item.
Proof. by apply validate_acceptance_ok. Qed.

Lemma reacceptance_rewrites_the_stamp_witness :
  ∃ w', run_path accepted_item
          [WorkItemState.WaitingDependency; WorkItemState.ReadinessPending;
           WorkItemState.Ready; WorkItemState.Accepted] 9 = Some w' ∧
        wi_accepted_at w' = Some 9.
Proof.
  apply (reacceptance_rewrites_the_stamp accepted_item 2 9);
    [apply accepted_item_acceptable|done|done|vm_compute; congruence].
Defined.
