(* ===== verification/Crypto.v ===== *)
(** Digests and signatures, [src/src/crypto.rs].

    SHA-256, hex, base64, RFC 8785 canonicalization and Ed25519 come from
    crates: [Hashing], [Canonical] and [Ed25519] are the parameters that stand
    for them, with the documented facts the sources rely on as fields. *)

From Stdlib Require Import ZArith Lia Ascii.
From stdpp Require Import base tactics option list strings countable numbers.
From S2P Require Import Prelude RustStr.

(** [byte.is_ascii_hexdigit() && !byte.is_ascii_uppercase()]. *)
Definition lower_hex (b : Z) : bool := is_ascii_hexdigit b && negb (is_ascii_uppercase b).

(** [sha2] and [hex]. *)
Class Hashing := {
  sha256 : list Z → list Z;
  hex_encode : list Z → string;
  hex_sha256_len m : len (hex_encode (sha256 m)) = 64;
  hex_sha256_lower m : forallb lower_hex (bytes (hex_encode (sha256 m))) = true
}.

Definition sha256_digest `{Hashing} (m : list Z) : string :=
  "sha256:" +:+ hex_encode (sha256 m).

Definition is_sha256_digest (value : string) : bool :=
  match strip_prefix "sha256:" value with
  | Some hex => (len hex =? 64) && forallb lower_hex (bytes hex)
  | None => false
  end.

(** [.map_err(|error| e(error))] on the result of a crate call, whose failure
    is its rendered text. *)
Definition map_err {A} (r : string + A) (e : string → Error) : res A :=
  match r with inr a => Ok a | inl error => Err (e error) end.

(** [serde_jcs::to_vec]: the canonical bytes or the text of the failure. *)
Class Canonical (T : Type) := { to_jcs : T → string + list Z }.

Definition canonical_json {T} `{Canonical T} (value : T) : res (list Z) :=
  map_err (to_jcs value) (λ error, Serialization [Disp error]).

(** [digest_canonical] of [src/src/application/promotion.rs]. *)
Definition digest_canonical {T} `{Hashing, Canonical T} (value : T) : res string :=
  bytes ← canonical_json value; Ok (sha256_digest bytes).

(** [ed25519_dalek] and [base64] (URL-safe, without padding). *)
Class Ed25519 := {
  SigningKey : Type;
  VerifyingKey : Type;
  Signature : Type;
  verifying_key_of : SigningKey → VerifyingKey;
  sign_bytes : SigningKey → list Z → Signature;
  signature_to_bytes : Signature → list Z;
  signature_from_slice : list Z → string + Signature;
  verify_bytes : VerifyingKey → list Z → Signature → bool;
  signing_key_from_bytes : list Z → SigningKey;
  base64_encode : list Z → string;
  base64_decode : string → string + list Z;
  seed_decoders : list (string → option (list Z));
  base64_round_trip m : base64_decode (base64_encode m) = inr m;
  signature_round_trip s : signature_from_slice (signature_to_bytes s) = inr s;
  verify_signed k m : verify_bytes (verifying_key_of k) m (sign_bytes k m) = true
}.

Record Ed25519Signer `{Ed25519} := mkSigner {
  signer_key_id : string;
  signer_key : SigningKey
}.

Fixpoint first_decoded (engines : list (string → option (list Z))) (seed : string)
  : option (list Z) :=
  match engines with
  | [] => None
  | decode :: engines =>
    match decode seed with Some d => Some d | None => first_decoded engines seed end
  end.

Definition decode_signing_seed `{Ed25519} (seed : string) : res (list Z) :=
  ok_or (first_decoded seed_decoders seed) (Crypto [Lit "invalid base64 signing seed"]).

Definition from_base64_seed `{Ed25519} (key_id seed : string) : res Ed25519Signer :=
  decoded ← decode_signing_seed seed;
  bail_if (negb (Nat.eqb (length decoded) 32))
    (Crypto [Lit "Ed25519 signing seed must be 32 bytes"]) ;;
  Ok (mkSigner _ key_id (signing_key_from_bytes decoded)).

Definition domain_separated_message (domain : string) (message : list Z) : list Z :=
  bytes domain ++ [0] ++ message.

Definition sign `{Ed25519} (s : Ed25519Signer) (message : list Z) : string :=
  base64_encode (signature_to_bytes (sign_bytes (signer_key s) message)).

Definition sign_domain `{Ed25519} (s : Ed25519Signer) (domain : string) (message : list Z)
  : string := sign s (domain_separated_message domain message).

Definition verify_signature `{Ed25519} (key : VerifyingKey) (message : list Z)
    (encoded : string) : res unit :=
  decoded ← map_err (base64_decode encoded)
    (λ error, Crypto [Lit "invalid signature encoding: "; Disp error]);
  signature ← map_err (signature_from_slice decoded)
    (λ error, Crypto [Lit "invalid signature: "; Disp error]);
  bail_if (negb (verify_bytes key message signature)) (Crypto [Lit "signature does not match"]).

Definition verify_domain_signature `{Ed25519} (key : VerifyingKey) (domain : string)
    (message : list Z) (encoded : string) : res unit :=
  verify_signature key (domain_separated_message domain message) encoded.

(** The text form of a verifying key: [VerifyingKey::as_bytes] and
    [VerifyingKey::from_bytes] of [ed25519_dalek]. *)
Class VerifyingKeyBytes `{Ed25519} := {
  verifying_key_to_bytes : VerifyingKey → list Z;
  verifying_key_from_bytes : list Z → string + VerifyingKey;
  verifying_key_length k : length (verifying_key_to_bytes k) = 32%nat;
  verifying_key_round_trip k : verifying_key_from_bytes (verifying_key_to_bytes k) = inr k
}.

Definition encode_verifying_key `{VerifyingKeyBytes} (key : VerifyingKey) : string :=
  base64_encode (verifying_key_to_bytes key).

Definition decode_verifying_key `{VerifyingKeyBytes} (encoded : string) : res VerifyingKey :=
  decoded ← map_err (base64_decode encoded)
    (λ error, Crypto [Lit "invalid verifying key: "; Disp error]);
  bail_if (negb (Nat.eqb (length decoded) 32))
    (Crypto [Lit "Ed25519 verifying key must be 32 bytes"]) ;;
  map_err (verifying_key_from_bytes decoded)
    (λ error, Crypto [Lit "invalid Ed25519 verifying key: "; Disp error]).

(** ** Facts *)

Lemma decode_encoded_key `{VerifyingKeyBytes} (key : VerifyingKey) :
  decode_verifying_key (encode_verifying_key key) = Ok key.
Proof.
  unfold decode_verifying_key, encode_verifying_key. rewrite base64_round_trip. simpl.
  rewrite verifying_key_length. simpl. by rewrite verifying_key_round_trip.
Qed.

Lemma sha256_digest_shape `{Hashing} m : is_sha256_digest (sha256_digest m) = true.
Proof.
  unfold is_sha256_digest, sha256_digest.
  rewrite (proj2 (strip_prefix_spec "sha256:" _ _) eq_refl).
  by rewrite hex_sha256_len, hex_sha256_lower.
Qed.

Lemma sign_verifies `{Ed25519} s domain message :
  verify_domain_signature (verifying_key_of (signer_key s)) domain message
    (sign_domain s domain message) = Ok tt.
Proof.
  unfold verify_domain_signature, verify_signature, sign_domain, sign.
  rewrite base64_round_trip; simpl. rewrite signature_round_trip; simpl.
  by rewrite verify_signed.
Qed.

Lemma canonical_json_not_panic {T} `{Canonical T} (v : T) : canonical_json v ≠ Panic.
Proof. unfold canonical_json. by destruct (to_jcs v). Qed.

Lemma digest_canonical_not_panic {T} `{Hashing, Canonical T} (v : T) :
  digest_canonical v ≠ Panic.
Proof. apply bind_not_panic; [apply canonical_json_not_panic|done]. Qed.

#[export] Hint Resolve canonical_json_not_panic digest_canonical_not_panic : no_panic.

Lemma digest_canonical_shape {T} `{Hashing, Canonical T} (v : T) d :
  digest_canonical v = Ok d → is_sha256_digest d = true.
Proof.
  unfold digest_canonical. rewrite bind_ok. intros (b & _ & [= <-]).
  apply sha256_digest_shape.
Qed.

(** ** Instances for concrete evaluations *)

(** A function of the documented shape: the digest of [m] is the sum of its
    bytes in binary. *)
Fixpoint hex_sum (fuel : nat) (z : Z) : string :=
  match fuel with
  | O => EmptyString
  | S fuel => String (if Z.odd z then "1"%char else "0"%char) (hex_sum fuel (z / 2))
  end.

Lemma hex_sum_len fuel z : len (hex_sum fuel z) = Z.of_nat fuel.
Proof.
  revert z. induction fuel as [|n IH]; intros z; [done|].
  specialize (IH (z / 2)). unfold len in *. simpl String.length. lia.
Qed.

Lemma hex_sum_lower fuel z : forallb lower_hex (bytes (hex_sum fuel z)) = true.
Proof.
  revert z. induction fuel as [|n IH]; intros z; simpl; [done|].
  rewrite IH. by destruct (Z.odd z).
Qed.

Definition sample_hashing : Hashing :=
  {| sha256 m := m; hex_encode m := hex_sum 64 (foldr Z.add 0 m);
     hex_sha256_len m := hex_sum_len 64 _; hex_sha256_lower m := hex_sum_lower 64 _ |}.

(** An injective text for byte lists, and a scheme whose signature is the
    number of bytes of the message. *)
Fixpoint pos_text (p : positive) : string :=
  match p with
  | xH => EmptyString
  | xO p => String "0"%char (pos_text p)
  | xI p => String "1"%char (pos_text p)
  end.

Fixpoint text_pos (s : string) : positive :=
  match s with
  | EmptyString => xH
  | String c s => if bool_decide (c = "0"%char) then xO (text_pos s) else xI (text_pos s)
  end.

Lemma text_pos_text p : text_pos (pos_text p) = p.
Proof. induction p as [p IH|p IH|]; simpl; by rewrite ?IH. Qed.

Definition text_decode (s : string) : string + list Z :=
  match countable.decode (text_pos s) with Some m => inr m | None => inl "invalid" end.

Lemma text_round_trip (m : list Z) : text_decode (pos_text (encode m)) = inr m.
Proof. unfold text_decode. by rewrite text_pos_text, decode_encode. Qed.

Definition sample_ed25519 : Ed25519 :=
  {| SigningKey := unit; VerifyingKey := unit; Signature := list Z;
     verifying_key_of k := k; sign_bytes _ m := [Z.of_nat (length m)]; signature_to_bytes s := s;
     signature_from_slice b := inr b; verify_bytes _ m s := bool_decide (s = [Z.of_nat (length m)]);
     signing_key_from_bytes _ := tt;
     base64_encode m := pos_text (encode m); base64_decode := text_decode;
     seed_decoders := [];
     base64_round_trip := text_round_trip; signature_round_trip _ := eq_refl;
     verify_signed _ m := bool_decide_eq_true_2 ([Z.of_nat (length m)] = _) eq_refl |}.

(** ** Theorems *)

(** Domain separation is unambiguous: for protocol domains without a NUL
    byte, equal separated messages come from equal domains and equal messages,
    so a signature made for one protocol message cannot be read as another. *)
Lemma domain_separation_injective d d' m m' :
  0 ∉ bytes d → 0 ∉ bytes d' →
  domain_separated_message d m = domain_separated_message d' m' → d = d' ∧ m = m'.
Proof.
  unfold domain_separated_message. intros Hd Hd' E.
  enough (bytes d = bytes d' ∧ m = m') as [? ?] by (split; [by apply bytes_inj|done]).
  revert Hd Hd' E. generalize (bytes d) (bytes d'). intros l.
  induction l as [|x l IH]; intros [|y k] Hd Hd' E; simpl in E; simplify_eq/=.
  - done.
  - rewrite elem_of_cons in Hd'. naive_solver.
  - rewrite elem_of_cons in Hd. naive_solver.
  - rewrite not_elem_of_cons in Hd, Hd'.
    destruct (IH k) as [-> ->]; naive_solver.
Qed.
