(* ===== verification/Governance.v ===== *)
(** Obligations around a work item: the accountability anchor
    ([src/src/domain/accountability.rs]), approvals ([approval.rs]), escalations
    ([escalation.rs]), immutable source snapshots ([source.rs]), and the
    repository and worker registrations ([repository.rs]). *)

From Stdlib Require Import ZArith Lia.
From stdpp Require Import base tactics option list strings.
From S2P Require Import Prelude RustStr RustOrd Ids Authority Identity WorkItem Crypto.

(** ** Accountability *)

Module AccountabilityKind.
Inductive AccountabilityKind :=
| ActiveWorkflow | ActiveRun | Timer | Retry | Approval | Escalation
| VerifiedClosure | Cancellation.
End AccountabilityKind.
Abbreviation AccountabilityKind := AccountabilityKind.AccountabilityKind.

#[global] Instance AccountabilityKind_eq_dec : EqDecision AccountabilityKind.
Proof. solve_decision. Defined.

Record AccountabilityAnchor := mkAnchor {
  anchor_work_item_id : WorkItemId;
  anchor_kind : AccountabilityKind;
  anchor_reference_id : string;
  anchor_wake_or_deadline_at : option DateTime;
  anchor_generation : Z;
  anchor_updated_at : DateTime
}.

Definition validate_accountability (state : WorkItemState) (accepted_at : option DateTime)
    (anchor : option AccountabilityAnchor) : res unit :=
  if is_none accepted_at then Ok tt else
  a ← ok_or anchor (Validation [Lit "accepted work item has no accountability anchor"]);
  bail_if (blank (anchor_reference_id a))
    (Validation [Lit "accountability anchor reference is empty"]) ;;
  bail_if (bool_decide (state = WorkItemState.Closed)
           && negb (bool_decide (anchor_kind a = AccountabilityKind.VerifiedClosure)))
    (Validation [Lit "closed work must have a verified-closure anchor"]) ;;
  bail_if (bool_decide (state = WorkItemState.Cancelled)
           && negb (bool_decide (anchor_kind a = AccountabilityKind.Cancellation)))
    (Validation [Lit "cancelled work must have a cancellation anchor"]).

(** The obligation that an accepted item has a durable owner. *)
Definition accountable (state : WorkItemState) (a : AccountabilityAnchor) : Prop :=
  blank (anchor_reference_id a) = false ∧
  (state = WorkItemState.Closed → anchor_kind a = AccountabilityKind.VerifiedClosure) ∧
  (state = WorkItemState.Cancelled → anchor_kind a = AccountabilityKind.Cancellation).

Lemma validate_accountability_ok state accepted_at anchor :
  validate_accountability state accepted_at anchor = Ok tt ↔
  (accepted_at = None ∨ ∃ a, anchor = Some a ∧ accountable state a).
Proof.
  unfold validate_accountability, accountable. destruct accepted_at; simpl; [|naive_solver].
  destruct anchor as [a|]; simpl; [|naive_solver]. reflect.
  destruct (decide (state = WorkItemState.Closed)), (decide (state = WorkItemState.Cancelled));
    naive_solver.
Qed.

Lemma validate_accountability_not_panic state accepted_at anchor :
  validate_accountability state accepted_at anchor ≠ Panic.
Proof.
  unfold validate_accountability. destruct accepted_at; simpl; [|done].
  destruct anchor; simpl; [|done].
  repeat (apply bind_not_panic; intros); apply bail_if_not_panic.
Qed.

(** ** Approvals *)

Module ApprovalType.
Inductive ApprovalType :=
| PlannerInterpretation | RiskImplementation | ProtectedPath
| PullRequestDeliveryException | GuardedMerge | AmbiguousExternalEffect
| BudgetIncrease | Cancellation.
End ApprovalType.
Abbreviation ApprovalType := ApprovalType.ApprovalType.

#[global] Instance ApprovalType_eq_dec : EqDecision ApprovalType.
Proof. solve_decision. Defined.

Module ApprovalDecision.
Inductive ApprovalDecision := Approved | Rejected | ChangesRequested.
End ApprovalDecision.
Abbreviation ApprovalDecision := ApprovalDecision.ApprovalDecision.

#[global] Instance ApprovalDecision_eq_dec : EqDecision ApprovalDecision.
Proof. solve_decision. Defined.

Record ApprovalBinding := mkApprovalBinding {
  ab_work_item_id : WorkItemId;
  ab_attempt_id : option AttemptId;
  ab_work_order_digest : option string;
  ab_candidate_sha : option string;
  ab_decision_type : ApprovalType;
  ab_risk_digest : string;
  ab_policy_digest : string;
  ab_evidence_digest : option string
}.

#[global] Instance ApprovalBinding_eq_dec : EqDecision ApprovalBinding.
Proof. solve_decision. Defined.

Record ApprovalDecisionRecord := mkApprovalDecisionRecord {
  ad_decision : ApprovalDecision;
  ad_approver_subject : string;
  ad_approver_role : string;
  ad_reason : option string;
  ad_decided_at : DateTime
}.

Record ApprovalRequest := mkApprovalRequest {
  ar_id : ApprovalId;
  ar_binding : ApprovalBinding;
  ar_owner : string;
  ar_one_sentence_request : string;
  ar_rationale : string;
  ar_consequence_on_approve : string;
  ar_consequence_on_reject : string;
  ar_consequence_on_timeout : string;
  ar_issued_at : DateTime;
  ar_expires_at : DateTime;
  ar_decision : option ApprovalDecisionRecord
}.

Definition set_ar_decision (r : ApprovalRequest) (d : ApprovalDecisionRecord) : ApprovalRequest :=
  let 'mkApprovalRequest id b o s ra ca cr ct ia ea _ := r in
  mkApprovalRequest id b o s ra ca cr ct ia ea (Some d).

(** The checks of [ApprovalRequest::decide], before it writes. *)
Definition decide_checks (r : ApprovalRequest) (binding : ApprovalBinding)
    (decision : ApprovalDecisionRecord) (now : DateTime) : res unit :=
  bail_if (is_some (ar_decision r)) (Conflict [Lit "approval has already been decided"]) ;;
  bail_if (ar_expires_at r <=? now) (Conflict [Lit "approval has expired"]) ;;
  bail_if (negb (bool_decide (ar_binding r = binding)))
    (Conflict [Lit "approval binding changed; a new approval is required"]) ;;
  bail_if (blank (ad_approver_subject decision) || blank (ad_approver_role decision))
    (Validation [Lit "approver subject and role must be recorded"]).

Definition ApprovalRequest_decide (r : ApprovalRequest) (binding : ApprovalBinding)
    (decision : ApprovalDecisionRecord) (now : DateTime) : ApprovalRequest * res unit :=
  match decide_checks r binding decision now with
  | Ok _ => (set_ar_decision r decision, Ok tt)
  | Err e => (r, Err e)
  | Panic => (r, Panic)
  end.

Definition is_effective_for (r : ApprovalRequest) (binding : ApprovalBinding) (now : DateTime)
  : bool :=
  bool_decide (ar_binding r = binding)
  && (now <? ar_expires_at r)
  && match ar_decision r with
     | Some d => bool_decide (ad_decision d = ApprovalDecision.Approved)
     | None => false
     end.

(** One call of [decide], successful or not, at some time. *)
Definition approval_call (r r' : ApprovalRequest) : Prop :=
  ∃ binding decision now, (ApprovalRequest_decide r binding decision now).1 = r'.

(** How a request that was issued undecided may look later: unchanged, or
    carrying one decision taken before expiry by a recorded approver. *)
Definition approval_history (r0 r : ApprovalRequest) : Prop :=
  r = r0 ∨
  ∃ d now, r = set_ar_decision r0 d ∧ now < ar_expires_at r0 ∧
           blank (ad_approver_subject d) = false ∧ blank (ad_approver_role d) = false.

Lemma decide_checks_ok r b d now :
  decide_checks r b d now = Ok tt ↔
  ar_decision r = None ∧ now < ar_expires_at r ∧ ar_binding r = b ∧
  blank (ad_approver_subject d) = false ∧ blank (ad_approver_role d) = false.
Proof. unfold decide_checks. reflect. naive_solver. Qed.

Lemma decide_spec r b d now :
  (ApprovalRequest_decide r b d now).1 =
  match ar_decision r with
  | None => if (now <? ar_expires_at r) && bool_decide (ar_binding r = b)
               && negb (blank (ad_approver_subject d)) && negb (blank (ad_approver_role d))
            then set_ar_decision r d else r
  | Some _ => r
  end.
Proof.
  unfold ApprovalRequest_decide.
  destruct (decide_checks r b d now) as [[]|e|] eqn:E; simpl.
  - apply decide_checks_ok in E as (-> & Hn & Hb & Hs & Hr). rewrite Hs, Hr.
    rewrite (proj2 (Z.ltb_lt _ _) Hn), bool_decide_true by done. done.
  - destruct (ar_decision r) eqn:Ed; [done|]. case_match eqn:Ec; [|done]. reflect.
    assert (decide_checks r b d now = Ok tt) by (apply decide_checks_ok; naive_solver).
    congruence.
  - destruct (ar_decision r) eqn:Ed; [done|]. case_match eqn:Ec; [|done]. reflect.
    assert (decide_checks r b d now = Ok tt) by (apply decide_checks_ok; naive_solver).
    congruence.
Qed.

Lemma approval_history_step r0 r r' :
  ar_decision r0 = None → approval_history r0 r → approval_call r r' → approval_history r0 r'.
Proof.
  intros H0 Hh (b & d & now & <-). rewrite decide_spec.
  destruct Hh as [->|(d0 & n0 & -> & Hd0)].
  - rewrite H0. case_match eqn:E; [|by left]. reflect. right. exists d, now. naive_solver.
  - destruct r0; simpl in *. right. eauto.
Qed.

Lemma decided_is_final r d r' :
  ar_decision r = Some d → star approval_call r r' → r' = r.
Proof.
  intros Hd. apply (star_invariant approval_call (λ x, x = r)); [done|].
  intros x y -> (b & d' & now & <-). by rewrite decide_spec, Hd.
Qed.

(** ** Escalations *)

Module EscalationCategory.
Inductive EscalationCategory :=
| NeedsSpec | NeedsApproval | BlockedDependency | BlockedExternal | IdentityUnavailable
| WorkerUnavailable | VerificationFailed | ReviewBlocked | CiFailed
| RemoteEffectAmbiguous | BudgetExhausted | ProviderRefused | PolicyRefused
| WorkflowJobExhausted | Quarantined | SecurityIncident.
End EscalationCategory.
Abbreviation EscalationCategory := EscalationCategory.EscalationCategory.

Module EscalationSeverity.
Inductive EscalationSeverity := Info | Warning | Error | Critical.
End EscalationSeverity.
Abbreviation EscalationSeverity := EscalationSeverity.EscalationSeverity.

Module EscalationOwner.
Inductive EscalationOwner :=
| Person (name : string) | Team (name : string) | OnCallRole (name : string).
End EscalationOwner.
Abbreviation EscalationOwner := EscalationOwner.EscalationOwner.

Definition EscalationOwner_name (o : EscalationOwner) : string :=
  match o with
  | EscalationOwner.Person v | EscalationOwner.Team v | EscalationOwner.OnCallRole v => v
  end.

Record RetryPolicy := mkRetryPolicy {
  rp_automatic : bool;
  rp_max_additional_attempts : Z;
  rp_backoff_seconds : Z;
  rp_prerequisites : list string
}.

Module EscalationStatus.
Inductive EscalationStatus := Open | Snoozed | Resolved.
End EscalationStatus.
Abbreviation EscalationStatus := EscalationStatus.EscalationStatus.

#[global] Instance EscalationStatus_eq_dec : EqDecision EscalationStatus.
Proof. solve_decision. Defined.

Record Escalation := mkEscalation {
  es_id : EscalationId;
  es_work_item_id : WorkItemId;
  es_attempt_id : option AttemptId;
  es_run_id : option RunId;
  es_category : EscalationCategory;
  es_stable_reason_code : string;
  es_reason : string;
  es_severity : EscalationSeverity;
  es_owner : EscalationOwner;
  es_required_action : string;
  es_evidence_references : list string;
  es_deadline : DateTime;
  es_escalation_path : list EscalationOwner;
  es_retry_policy : RetryPolicy;
  es_authority_or_effect_active : bool;
  es_status : EscalationStatus;
  es_snoozed_until : option DateTime;
  es_resolution : option string;
  es_created_at : DateTime;
  es_updated_at : DateTime
}.

Definition Escalation_validate (e : Escalation) : res unit :=
  bail_if (blank (es_stable_reason_code e)
           || blank (es_reason e)
           || blank (EscalationOwner_name (es_owner e))
           || blank (es_required_action e))
    (Validation [Lit "escalation requires category reason, owner, and action"]) ;;
  bail_if (es_deadline e <=? es_created_at e)
    (Validation [Lit "escalation deadline must be after creation"]).

(** Assignment of the four lifecycle fields. *)
Definition set_es_lifecycle (e : Escalation) (status : EscalationStatus)
    (snoozed_until : option DateTime) (resolution : option string) (updated_at : DateTime)
  : Escalation :=
  let 'mkEscalation id wi at_ ru ca sc re se ow ac ev de pa rp au _ _ _ cr _ := e in
  mkEscalation id wi at_ ru ca sc re se ow ac ev de pa rp au
    status snoozed_until resolution cr updated_at.

Definition Escalation_snooze (e : Escalation) (until now : DateTime) : Escalation * res unit :=
  if until <=? now then (e, Err (Validation [Lit "snooze requires a future wake time"])) else
  if bool_decide (es_status e = EscalationStatus.Resolved) then
    (e, Err (Conflict [Lit "resolved escalation cannot be snoozed"]))
  else (set_es_lifecycle e EscalationStatus.Snoozed (Some until) (es_resolution e) now, Ok tt).

Definition Escalation_resolve (e : Escalation) (resolution : string) (now : DateTime)
  : Escalation * res unit :=
  if blank resolution then
    (e, Err (Validation [Lit "closing an escalation requires a resolution"]))
  else (set_es_lifecycle e EscalationStatus.Resolved (es_snoozed_until e) (Some resolution) now,
        Ok tt).

(** One call of the escalation API. *)
Inductive escalation_call (e e' : Escalation) : Prop :=
| call_snooze until now : (Escalation_snooze e until now).1 = e' → escalation_call e e'
| call_resolve resolution now :
    (Escalation_resolve e resolution now).1 = e' → escalation_call e e'.

(** The invariant of an escalation that started open. *)
Definition escalation_ok (e : Escalation) : Prop :=
  match es_status e with
  | EscalationStatus.Open => es_resolution e = None
  | EscalationStatus.Snoozed =>
    es_resolution e = None ∧ ∃ until, es_snoozed_until e = Some until ∧ es_updated_at e < until
  | EscalationStatus.Resolved => ∃ r, es_resolution e = Some r ∧ blank r = false
  end.

(** The facts about an escalation that no lifecycle call may change. *)
Definition escalation_facts (e : Escalation) :=
  set_es_lifecycle e EscalationStatus.Open None None 0.

Lemma set_es_lifecycle_facts e s u r t :
  escalation_facts (set_es_lifecycle e s u r t) = escalation_facts e.
Proof. by destruct e. Qed.

Lemma set_es_lifecycle_get e s u r t :
  es_status (set_es_lifecycle e s u r t) = s ∧
  es_snoozed_until (set_es_lifecycle e s u r t) = u ∧
  es_resolution (set_es_lifecycle e s u r t) = r ∧
  es_updated_at (set_es_lifecycle e s u r t) = t.
Proof. by destruct e. Qed.

Definition escalation_inv (e0 e : Escalation) : Prop :=
  escalation_ok e ∧ escalation_facts e = escalation_facts e0 ∧
  (es_status e0 = EscalationStatus.Resolved → es_status e = EscalationStatus.Resolved).

Lemma escalation_inv_step e0 e e' :
  escalation_inv e0 e → escalation_call e e' → escalation_inv e0 e'.
Proof.
  intros (Hok & Hf & Hr) [until now <-|resolution now <-].
  - unfold Escalation_snooze. destruct (until <=? now) eqn:Eu; [done|]. reflect.
    case_bool_decide as Es; [done|]. simpl.
    destruct (set_es_lifecycle_get e EscalationStatus.Snoozed (Some until) (es_resolution e) now)
      as (H1 & H2 & H3 & H4).
    split_and!; [|by rewrite set_es_lifecycle_facts|tauto].
    unfold escalation_ok in *. rewrite H1, H2, H3, H4.
    split; [|eauto]. destruct (es_status e); [done|by destruct Hok|done].
  - unfold Escalation_resolve. destruct (blank resolution) eqn:Eb; [done|]. simpl.
    destruct (set_es_lifecycle_get e EscalationStatus.Resolved (es_snoozed_until e)
      (Some resolution) now) as (H1 & H2 & H3 & H4).
    split_and!; [|by rewrite set_es_lifecycle_facts|done].
    unfold escalation_ok. rewrite H1, H3. eauto.
Qed.

(** ** Source snapshots *)

Module SourceSystem.
Inductive SourceSystem := Linear | Api | Github.
End SourceSystem.
Abbreviation SourceSystem := SourceSystem.SourceSystem.

Record SourceSnapshotContent := mkSourceSnapshotContent {
  sc_source : SourceSystem;
  sc_external_id : string;
  sc_source_revision : string;
  sc_source_url : option Url;
  sc_title : string;
  sc_objective : string;
  sc_acceptance_criteria : list string;
  sc_non_goals : list string;
  sc_labels : BTreeSet string;
  sc_normalized_priority : Z;
  sc_source_state : string;
  sc_assignee : option string;
  sc_repository_hint : option string;
  sc_source_updated_at : DateTime
}.

Definition SourceSnapshotContent_validate (c : SourceSnapshotContent) : res unit :=
  bail_if (blank (sc_external_id c) || blank (sc_source_revision c))
    (Validation [Lit "source external ID and revision must be non-empty"]) ;;
  bail_if (blank (sc_title c) || blank (sc_objective c))
    (Validation [Lit "source title and objective must be non-empty"]) ;;
  bail_if (100 <? sc_normalized_priority c)
    (Validation [Lit "normalized priority must be in 0..=100"]).

Definition SourceSnapshotContent_digest `{Hashing, Canonical SourceSnapshotContent}
    (c : SourceSnapshotContent) : res string :=
  canonical ← map_err (to_jcs c) (λ error, Serialization [Disp error]);
  Ok (sha256_digest canonical).

Record SourceSnapshot := mkSourceSnapshot {
  ss_id : SourceSnapshotId;
  ss_tenant_id : TenantId;
  ss_repository_id : option RepositoryId;
  ss_content : SourceSnapshotContent;
  ss_content_digest : string;
  ss_captured_at : DateTime;
  ss_connector_identity : string
}.

(** [SourceSnapshot::create]; the fresh UUID is an argument. *)
Definition SourceSnapshot_create `{Hashing, Canonical SourceSnapshotContent}
    (id : SourceSnapshotId) (tenant_id : TenantId) (repository_id : option RepositoryId)
    (content : SourceSnapshotContent) (connector_identity : string) (captured_at : DateTime)
  : res SourceSnapshot :=
  SourceSnapshotContent_validate content ;;
  bail_if (blank connector_identity)
    (Validation [Lit "connector identity must be non-empty"]) ;;
  content_digest ← SourceSnapshotContent_digest content;
  Ok (mkSourceSnapshot id tenant_id repository_id content content_digest captured_at
        connector_identity).

(** ** Repositories and workers *)

Module AutonomyLevel.
Inductive AutonomyLevel :=
| Observe | SupervisedPullRequest | AutomaticVerifiedPullRequest
| GuardedMergeCandidate | GuardedMergeEnabled.
End AutonomyLevel.
Abbreviation AutonomyLevel := AutonomyLevel.AutonomyLevel.

#[global] Instance AutonomyLevel_eq_dec : EqDecision AutonomyLevel.
Proof. solve_decision. Defined.

Record Repository := mkRepository {
  repo_id : RepositoryId;
  repo_tenant_id : TenantId;
  repo_forge : string;
  repo_owner : string;
  repo_name : string;
  repo_base_ref : string;
  repo_policy_digest : string;
  repo_harness_digest : string;
  repo_required_local_checks : BTreeSet string;
  repo_required_remote_checks : BTreeSet string;
  repo_wip_limit : Z;
  repo_autonomy_level : AutonomyLevel;
  repo_preferred_worker_id : option WorkerId;
  repo_enabled : bool;
  repo_version : Z;
  repo_created_at : DateTime;
  repo_updated_at : DateTime
}.

Definition Repository_slug (r : Repository) : string :=
  repo_owner r +:+ "/" +:+ repo_name r.

Definition production_wip_limit (r : Repository) : Z := Z.min (repo_wip_limit r) 1.

Module WorkerHealth.
Inductive WorkerHealth := Healthy | Degraded | Offline | Fenced.
End WorkerHealth.
Abbreviation WorkerHealth := WorkerHealth.WorkerHealth.

#[global] Instance WorkerHealth_eq_dec : EqDecision WorkerHealth.
Proof. solve_decision. Defined.

Record WorkerCapabilities := mkWorkerCapabilities {
  wc_protocol_schema : string;
  wc_work_order_schemas : BTreeSet string;
  wc_evidence_schemas : BTreeSet string;
  wc_closure_targets : BTreeSet string;
  wc_sandbox_profiles : BTreeSet string;
  wc_supports_cursor_events : bool;
  wc_supports_idempotent_submission : bool;
  wc_supports_signed_evidence : bool
}.

Definition production_qualified (c : WorkerCapabilities) : bool :=
  wc_supports_cursor_events c
  && wc_supports_idempotent_submission c
  && wc_supports_signed_evidence c
  && bs_contains "asf.work-order/v1" (wc_work_order_schemas c)
  && bs_contains "runmill.evidence/v1" (wc_evidence_schemas c)
  && bs_contains "pr" (wc_closure_targets c).

Record Worker := mkWorker {
  wk_id : WorkerId;
  wk_tenant_id : TenantId;
  wk_display_name : string;
  wk_endpoint : string;
  wk_generation : Z;
  wk_health : WorkerHealth;
  wk_capabilities : WorkerCapabilities;
  wk_max_concurrency : Z;
  wk_active_slots : Z;
  wk_last_seen_at : DateTime
}.

Definition Worker_production_ready (w : Worker) : bool :=
  bool_decide (wk_health w = WorkerHealth.Healthy)
  && (wk_active_slots w <? wk_max_concurrency w)
  && production_qualified (wk_capabilities w).

(** ** Theorems *)

(** An approval request that was issued undecided is effective for a binding
    only if the binding is exactly the one it was issued for, it has not
    expired, and its one decision is an approval taken before expiry by a
    recorded approver; that decision can never be replaced by a later call. *)
Lemma effective_approval_is_bound r0 r binding now :
  ar_decision r0 = None → star approval_call r0 r →
  is_effective_for r binding now = true →
  binding = ar_binding r0 ∧ now < ar_expires_at r0 ∧
  (∃ d t, r = set_ar_decision r0 d ∧ ad_decision d = ApprovalDecision.Approved ∧
          t < ar_expires_at r0 ∧ blank (ad_approver_subject d) = false ∧
          blank (ad_approver_role d) = false) ∧
  (∀ r', star approval_call r r' → r' = r).
Proof.
  intros H0 Hstar He.
  assert (approval_history r0 r) as Hh.
  { eapply (star_invariant approval_call (approval_history r0)); [by left| |done].
    intros x y. by apply approval_history_step. }
  unfold is_effective_for in He. reflect. destruct He as [[Hb Hn] Hd].
  destruct Hh as [->|(d & t & -> & Ht & Hs & Hr)]; [by rewrite H0 in Hd|].
  assert (ar_decision (set_ar_decision r0 d) = Some d) as Hd' by by destruct r0.
  assert (ar_binding (set_ar_decision r0 d) = ar_binding r0 ∧
          ar_expires_at (set_ar_decision r0 d) = ar_expires_at r0) as [Eb Ee] by by destruct r0.
  rewrite Hd' in Hd. reflect. split_and!; [congruence|lia|eauto 10|].
  intros r'. by eapply decided_is_final.
Qed.

Definition sample_binding : ApprovalBinding :=
  mkApprovalBinding 1%N (Some 2%N) (Some "sha256:wo") (Some "abc") ApprovalType.GuardedMerge
    "sha256:risk" "sha256:policy" (Some "sha256:evidence").

Definition sample_request : ApprovalRequest :=
  mkApprovalRequest 3%N sample_binding "repo-owner" "Merge?" "policy" "merge" "escalate"
    "escalate" 0 100 None.

Definition sample_decision : ApprovalDecisionRecord :=
  mkApprovalDecisionRecord ApprovalDecision.Approved "user:1" "repository_owner" None 10.

Lemma effective_approval_is_bound_witness :
  is_effective_for (ApprovalRequest_decide sample_request sample_binding sample_decision 10).1
    sample_binding 20 = true ∧ 20 < ar_expires_at sample_request.
Proof.
  assert (is_effective_for
    (ApprovalRequest_decide sample_request sample_binding sample_decision 10).1
    sample_binding 20 = true) as He by reflexivity.
  split; [exact He|].
  destruct (effective_approval_is_bound sample_request
    (ApprovalRequest_decide sample_request sample_binding sample_decision 10).1
    sample_binding 20) as (_ & Hn & _); [reflexivity| |exact He|exact Hn].
  eapply star_snoc; [apply star_nil|]. by exists sample_binding, sample_decision, 10.
Defined.

(** Whatever sequence of snooze and resolve calls an open escalation
    receives, its identity, owner, reason and deadline stay as they were
    created, it is resolved exactly with a non-blank resolution, a snooze always
    has a wake time in the future of the call that set it, and a resolved
    escalation never becomes open or snoozed again. *)
Lemma escalation_lifecycle_invariant e0 e e' :
  escalation_ok e0 → star escalation_call e0 e → star escalation_call e e' →
  escalation_inv e0 e ∧ escalation_inv e e'.
Proof.
  intros H0 H1 H2.
  assert (escalation_inv e0 e) as Hinv.
  { apply (star_invariant escalation_call (escalation_inv e0) e0 e);
      [by split_and!|apply escalation_inv_step|done]. }
  split; [done|]. destruct Hinv as (Hok & _ & _).
  apply (star_invariant escalation_call (escalation_inv e) e e');
    [by split_and!|apply escalation_inv_step|done].
Qed.

Definition sample_escalation : Escalation :=
  mkEscalation 1%N 2%N None None EscalationCategory.CiFailed "CI_FAILED" "ci"
    EscalationSeverity.Error (EscalationOwner.Team "platform") "fix the build" ["sha256:e"]
    100 [] (mkRetryPolicy false 0 300 []) true EscalationStatus.Open None None 0 0.

Lemma escalation_lifecycle_invariant_witness :
  escalation_inv (Escalation_snooze sample_escalation 50 10).1
    (Escalation_resolve (Escalation_snooze sample_escalation 50 10).1 "fixed" 60).1.
Proof.
  apply (escalation_lifecycle_invariant sample_escalation).
  - reflexivity.
  - eapply star_snoc; [apply star_nil|]. by eapply (call_snooze _ _ 50 10).
  - eapply star_snoc; [apply star_nil|]. by eapply (call_resolve _ _ "fixed" 60).
Defined.

(** Accountability validation accepts an item exactly when ASF owns no
    obligation for it (it was never accepted) or it has an anchor with a
    non-blank reference, which for closed work is a verified closure and for
    cancelled work a cancellation. *)
Lemma accountability_validation_exact state accepted_at anchor :
  validate_accountability state accepted_at anchor ≠ Panic ∧
  (validate_accountability state accepted_at anchor = Ok tt ↔
   accepted_at = None ∨ ∃ a, anchor = Some a ∧ accountable state a).
Proof.
  split; [apply validate_accountability_not_panic|apply validate_accountability_ok].
Qed.
