(* ===== verification/Policy.v ===== *)
(** Policy composition, [src/src/application/policy.rs]: the authority of a Work
    Order is the intersection of tenant, repository and order authority. *)

From Stdlib Require Import ZArith Lia.
From stdpp Require Import base tactics option list strings sets.
From S2P Require Import Prelude RustStr RustOrd Wildcard Authority Identity WorkItem.

Definition intersect_authority (tenant repository work_order : ExecutionAuthority)
  : ExecutionAuthority :=
  let paths := PathAuthority_intersect
    (PathAuthority_intersect (xa_paths tenant) (xa_paths repository)) (xa_paths work_order) in
  let tools := ToolAuthority_intersect
    (ToolAuthority_intersect (xa_tools tenant) (xa_tools repository)) (xa_tools work_order) in
  let budgets := BudgetLimits_restrict
    (BudgetLimits_restrict (xa_budgets tenant) (xa_budgets repository))
    (xa_budgets work_order) in
  let delivery := DeliveryPermission_restrict
    (DeliveryPermission_restrict (ea_delivery (xa_effects tenant))
       (ea_delivery (xa_effects repository))) (ea_delivery (xa_effects work_order)) in
  let deployment_environment :=
    if bool_decide (ea_deployment_environment (xa_effects tenant)
                    = ea_deployment_environment (xa_effects repository))
       && bool_decide (ea_deployment_environment (xa_effects repository)
                       = ea_deployment_environment (xa_effects work_order))
    then ea_deployment_environment (xa_effects tenant) else None in
  {| xa_paths := paths;
     xa_tools := tools;
     xa_effects :=
       {| ea_delivery := delivery;
          ea_may_comment := ea_may_comment (xa_effects tenant)
                            && ea_may_comment (xa_effects repository)
                            && ea_may_comment (xa_effects work_order);
          ea_may_update_checks := ea_may_update_checks (xa_effects tenant)
                                  && ea_may_update_checks (xa_effects repository)
                                  && ea_may_update_checks (xa_effects work_order);
          ea_deployment_environment := deployment_environment |};
     xa_budgets := budgets;
     xa_required_approval_types :=
       bs_of_list (elems (bs_union (xa_required_approval_types tenant)
                            (xa_required_approval_types repository))
                   ++ elems (xa_required_approval_types work_order));
     xa_sandbox_policy_ref :=
       if bool_decide (xa_sandbox_policy_ref tenant = xa_sandbox_policy_ref repository)
          && bool_decide (xa_sandbox_policy_ref repository = xa_sandbox_policy_ref work_order)
       then xa_sandbox_policy_ref tenant
       else "refused:mismatched-sandbox-policy" |}.

Definition v1_risk_delivery_cap (risk : RiskClass) : DeliveryPermission :=
  match risk with
  | RiskClass.Low | RiskClass.Medium | RiskClass.High => DeliveryPermission.PullRequest
  | RiskClass.Critical | RiskClass.Unknown => DeliveryPermission.None_
  end.

(** ** The narrowing order *)

(** Delivery permissions from the weakest to the strongest. *)
Definition delivery_rank (d : DeliveryPermission) : Z :=
  match d with
  | DeliveryPermission.None_ => 0
  | DeliveryPermission.PullRequest => 1
  | DeliveryPermission.MergeQueue => 2
  | DeliveryPermission.DirectMerge => 3
  end.

Record budgets_within (a b : BudgetLimits) : Prop := {
  bw_cost : max_cost_microunits a ≤ max_cost_microunits b;
  bw_input : max_input_tokens a ≤ max_input_tokens b;
  bw_output : max_output_tokens a ≤ max_output_tokens b;
  bw_implementer : max_implementer_invocations a ≤ max_implementer_invocations b;
  bw_reviewer : max_reviewer_invocations a ≤ max_reviewer_invocations b;
  bw_fix : max_fix_iterations a ≤ max_fix_iterations b;
  bw_wall : max_wall_time_seconds a ≤ max_wall_time_seconds b;
  bw_api : max_external_api_calls a ≤ max_external_api_calls b
}.

(** [narrower a b]: whatever [a] grants, [b] grants; whatever [b] requires, [a]
    requires. *)
Record narrower (a b : ExecutionAuthority) : Prop := {
  nw_paths path : permits (xa_paths a) path → permits (xa_paths b) path;
  nw_tools v : v ∈ ta_allowed_tools (xa_tools a) → v ∈ ta_allowed_tools (xa_tools b);
  nw_commands v : v ∈ ta_allowed_commands (xa_tools a) → v ∈ ta_allowed_commands (xa_tools b);
  nw_network v :
    v ∈ ta_network_destinations (xa_tools a) → v ∈ ta_network_destinations (xa_tools b);
  nw_delivery :
    delivery_rank (ea_delivery (xa_effects a)) ≤ delivery_rank (ea_delivery (xa_effects b));
  nw_comment :
    ea_may_comment (xa_effects a) = true → ea_may_comment (xa_effects b) = true;
  nw_checks :
    ea_may_update_checks (xa_effects a) = true → ea_may_update_checks (xa_effects b) = true;
  nw_environment e :
    ea_deployment_environment (xa_effects a) = Some e →
    ea_deployment_environment (xa_effects b) = Some e;
  nw_budgets : budgets_within (xa_budgets a) (xa_budgets b);
  nw_approvals v : v ∈ xa_required_approval_types b → v ∈ xa_required_approval_types a;
  nw_sandbox : xa_sandbox_policy_ref a = xa_sandbox_policy_ref b ∨
               xa_sandbox_policy_ref a = "refused:mismatched-sandbox-policy"
}.

Lemma restrict_rank a b :
  delivery_rank (DeliveryPermission_restrict a b) = Z.min (delivery_rank a) (delivery_rank b).
Proof. by destruct a, b. Qed.

Lemma intersect_approvals t r w v :
  v ∈ xa_required_approval_types (intersect_authority t r w) ↔
  v ∈ xa_required_approval_types t ∨ v ∈ xa_required_approval_types r ∨
  v ∈ xa_required_approval_types w.
Proof.
  unfold intersect_authority; simpl. rewrite elem_of_bs_of_list, elem_of_app.
  change (v ∈ elems ?s) with (v ∈ s). rewrite elem_of_bs_union. tauto.
Qed.

(** The three sides of the composition. *)
Variant is_part (t r w : ExecutionAuthority) : ExecutionAuthority → Prop :=
| part_tenant : is_part t r w t
| part_repository : is_part t r w r
| part_order : is_part t r w w.

(** ** Theorems *)

(** C33. Policy composition never widens: the composed authority is narrower than
    the tenant's, the repository's and the Work Order's, in every path it
    permits, every tool, command and destination, every budget, every effect and
    every required approval. *)
Theorem intersect_authority_narrows t r w side :
  is_part t r w side → narrower (intersect_authority t r w) side.
Proof.
  intros Hs.
  assert (∀ v, v ∈ xa_required_approval_types side →
    v ∈ xa_required_approval_types (intersect_authority t r w)) as Happ.
  { intros v Hv. rewrite intersect_approvals. destruct Hs; auto. }
  unfold intersect_authority in *. constructor; cbn [xa_paths xa_tools xa_effects xa_budgets
    xa_required_approval_types xa_sandbox_policy_ref ea_delivery ea_may_comment
    ea_may_update_checks ea_deployment_environment ToolAuthority_intersect ta_allowed_tools
    ta_allowed_commands ta_network_destinations] in *.
  - intros path Hp. destruct Hs.
    + by apply permits_intersect_l, permits_intersect_l in Hp.
    + by apply permits_intersect_l, permits_intersect_r in Hp.
    + by apply permits_intersect_r in Hp.
  - intros v. rewrite !elem_of_bs_inter. destruct Hs; tauto.
  - intros v. rewrite !elem_of_bs_inter. destruct Hs; tauto.
  - intros v. rewrite !elem_of_bs_inter. destruct Hs; tauto.
  - rewrite !restrict_rank. destruct Hs; lia.
  - rewrite !andb_true_iff. destruct Hs; tauto.
  - rewrite !andb_true_iff. destruct Hs; tauto.
  - intros e. case_match eqn:E; [|done]. reflect. destruct Hs; naive_solver congruence.
  - destruct Hs; constructor; simpl; lia.
  - exact Happ.
  - case_match eqn:E; [|by right]. left. reflect. destruct Hs; naive_solver congruence.
Qed.

Definition sample_authority (allowed : list string) (delivery : DeliveryPermission)
    (budget : Z) : ExecutionAuthority :=
  {| xa_paths := mkPathAuthority (bs_of_list allowed) (bs_of_list ["src/generated/**"]);
     xa_tools := mkToolAuthority (bs_of_list ["shell"]) (bs_of_list ["cargo test"]) bs_empty;
     xa_effects := mkEffectAuthority delivery true true None;
     xa_budgets := mkBudgetLimits budget budget budget 1 1 1 budget 1;
     xa_required_approval_types := bs_empty;
     xa_sandbox_policy_ref := "linux-v1" |}.

Definition tenant_authority :=
  sample_authority ["src/**"; "tests/*.rs"] DeliveryPermission.MergeQueue 100.
Definition order_authority := sample_authority ["src/**"] DeliveryPermission.PullRequest 10.

Lemma intersect_authority_narrows_witness :
  narrower (intersect_authority tenant_authority tenant_authority order_authority)
    order_authority.
Proof. apply intersect_authority_narrows, part_order. Defined.

(** Composition preserves validity up to scope: three valid authorities
    compose to an authority that passes validation exactly when they share an
    allowed path pattern. *)
Lemma intersect_authority_valid `{UrlCrate} t r w :
  ExecutionAuthority_validate t = Ok tt → ExecutionAuthority_validate r = Ok tt →
  ExecutionAuthority_validate w = Ok tt →
  ExecutionAuthority_validate (intersect_authority t r w) = Ok tt ↔
  ∃ pat, pat ∈ pa_allowed (xa_paths t) ∧ pat ∈ pa_allowed (xa_paths r) ∧
         pat ∈ pa_allowed (xa_paths w).
Proof.
  rewrite !ExecutionAuthority_validate_ok. intros Ht Hr Hw. split.
  - intros [[pat Hp] _ _ _ _ _ _ _ _ _ _]. exists pat. simpl in Hp.
    rewrite !elem_of_bs_inter in Hp. tauto.
  - intros (pat & H1 & H2 & H3). constructor.
    + exists pat. simpl. rewrite !elem_of_bs_inter. tauto.
    + intros q. simpl. rewrite !elem_of_bs_inter, !elem_of_bs_union.
      pose proof (av_patterns t Ht q). pose proof (av_patterns r Hr q).
      pose proof (av_patterns w Hw q). tauto.
    + simpl. pose proof (av_wall _ Ht). pose proof (av_wall _ Hr). pose proof (av_wall _ Hw). lia.
    + simpl. pose proof (av_implementer _ Ht). pose proof (av_implementer _ Hr).
      pose proof (av_implementer _ Hw). lia.
    + simpl. pose proof (av_reviewer _ Ht). pose proof (av_reviewer _ Hr).
      pose proof (av_reviewer _ Hw). lia.
    + intros v. simpl. rewrite !elem_of_bs_inter. intros [[Hv _] _]. by apply (av_tools t).
    + intros v. simpl. rewrite !elem_of_bs_inter. intros [[Hv _] _]. by apply (av_commands t).
    + intros v. rewrite intersect_approvals. intros [?|[?|?]];
        [by apply (av_approvals t)|by apply (av_approvals r)|by apply (av_approvals w)].
    + simpl. case_match; [by apply av_sandbox|done].
    + intros v. simpl. case_match; [|done]. by apply av_environment.
    + intros v. simpl. rewrite !elem_of_bs_inter. intros [[Hv _] _]. by apply (av_network t).
Qed.

(** The parser of the witness: everything is an [https] endpoint. *)
Definition https_only : UrlCrate :=
  {| url_parse s := inr (mkUrl "https" (Some s) "" None None None) |}.

Lemma intersect_authority_valid_witness :
  @ExecutionAuthority_validate https_only
    (intersect_authority tenant_authority tenant_authority order_authority) = Ok tt.
Proof.
  apply (@intersect_authority_valid https_only); [by vm_compute..|].
  exists "src/**". rewrite <- !bs_contains_true. by vm_compute.
Defined.
