(* ===== verification/Budgets.v ===== *)
(** Budget accounting and circuit breakers, [src/src/application/budgets.rs].

    Consumption is kept in saturating counters of their Rust widths.  The facts
    relate them to the unbounded sum of what was really spent. *)

From Stdlib Require Import ZArith Lia.
From stdpp Require Import base tactics option list strings.
From S2P Require Import Prelude Authority.

Record BudgetConsumption := mkBudgetConsumption {
  cost_microunits : Z;
  input_tokens : Z;
  output_tokens : Z;
  implementer_invocations : Z;
  reviewer_invocations : Z;
  fix_iterations : Z;
  wall_time_seconds : Z;
  external_api_calls : Z
}.

(** [#[derive(Default)]]. *)
Definition BudgetConsumption_default : BudgetConsumption :=
  mkBudgetConsumption 0 0 0 0 0 0 0 0.

Module BudgetDimension.
Inductive BudgetDimension :=
| Cost | InputTokens | OutputTokens | ImplementerInvocations | ReviewerInvocations
| FixIterations | WallTime | ExternalApiCalls.
End BudgetDimension.
Abbreviation BudgetDimension := BudgetDimension.BudgetDimension.

#[global] Instance BudgetDimension_eq_dec : EqDecision BudgetDimension.
Proof. solve_decision. Defined.

Definition exceeded_dimensions (c : BudgetConsumption) (limits : BudgetLimits)
  : list BudgetDimension :=
  flagged
    [ (max_cost_microunits limits <? cost_microunits c, BudgetDimension.Cost);
      (max_input_tokens limits <? input_tokens c, BudgetDimension.InputTokens);
      (max_output_tokens limits <? output_tokens c, BudgetDimension.OutputTokens);
      (max_implementer_invocations limits <? implementer_invocations c,
        BudgetDimension.ImplementerInvocations);
      (max_reviewer_invocations limits <? reviewer_invocations c,
        BudgetDimension.ReviewerInvocations);
      (max_fix_iterations limits <? fix_iterations c, BudgetDimension.FixIterations);
      (max_wall_time_seconds limits <? wall_time_seconds c, BudgetDimension.WallTime);
      (max_external_api_calls limits <? external_api_calls c,
        BudgetDimension.ExternalApiCalls) ].

Definition permits_more_work (c : BudgetConsumption) (limits : BudgetLimits) : bool :=
  match exceeded_dimensions c limits with [] => true | _ => false end
  && (cost_microunits c <? max_cost_microunits limits)
  && (wall_time_seconds c <? max_wall_time_seconds limits)
  && (implementer_invocations c <? max_implementer_invocations limits).

Definition BudgetConsumption_saturating_add (c increment : BudgetConsumption)
  : BudgetConsumption :=
  {| cost_microunits :=
       saturating_add u64_max (cost_microunits c) (cost_microunits increment);
     input_tokens := saturating_add u64_max (input_tokens c) (input_tokens increment);
     output_tokens := saturating_add u64_max (output_tokens c) (output_tokens increment);
     implementer_invocations :=
       saturating_add u32_max (implementer_invocations c) (implementer_invocations increment);
     reviewer_invocations :=
       saturating_add u32_max (reviewer_invocations c) (reviewer_invocations increment);
     fix_iterations :=
       saturating_add u32_max (fix_iterations c) (fix_iterations increment);
     wall_time_seconds :=
       saturating_add u64_max (wall_time_seconds c) (wall_time_seconds increment);
     external_api_calls :=
       saturating_add u32_max (external_api_calls c) (external_api_calls increment) |}.

Record BreakerThresholds := mkBreakerThresholds {
  bt_consecutive_failures : Z;
  bt_quarantine_count : Z;
  bt_identity_mismatches : Z;
  bt_reconciliation_backlog : Z;
  bt_daily_cost_microunits : Z
}.

Record BreakerSignals := mkBreakerSignals {
  bs_consecutive_failures : Z;
  bs_quarantine_count : Z;
  bs_identity_mismatches : Z;
  bs_reconciliation_backlog : Z;
  bs_daily_cost_microunits : Z
}.

Module BreakerReason.
Inductive BreakerReason :=
| ConsecutiveFailures | QuarantineRate | IdentityMismatch | ReconciliationBacklog
| DailySpend.
End BreakerReason.
Abbreviation BreakerReason := BreakerReason.BreakerReason.

Definition evaluate_breaker (s : BreakerSignals) (t : BreakerThresholds)
  : list BreakerReason :=
  flagged
    [ (bt_consecutive_failures t <=? bs_consecutive_failures s,
        BreakerReason.ConsecutiveFailures);
      (bt_quarantine_count t <=? bs_quarantine_count s, BreakerReason.QuarantineRate);
      (bt_identity_mismatches t <=? bs_identity_mismatches s,
        BreakerReason.IdentityMismatch);
      (bt_reconciliation_backlog t <=? bs_reconciliation_backlog s,
        BreakerReason.ReconciliationBacklog);
      (bt_daily_cost_microunits t <=? bs_daily_cost_microunits s,
        BreakerReason.DailySpend) ].

(** ** Reading records by dimension *)

Definition spent (d : BudgetDimension) (c : BudgetConsumption) : Z :=
  match d with
  | BudgetDimension.Cost => cost_microunits c
  | BudgetDimension.InputTokens => input_tokens c
  | BudgetDimension.OutputTokens => output_tokens c
  | BudgetDimension.ImplementerInvocations => implementer_invocations c
  | BudgetDimension.ReviewerInvocations => reviewer_invocations c
  | BudgetDimension.FixIterations => fix_iterations c
  | BudgetDimension.WallTime => wall_time_seconds c
  | BudgetDimension.ExternalApiCalls => external_api_calls c
  end.

Definition limit (d : BudgetDimension) (l : BudgetLimits) : Z :=
  match d with
  | BudgetDimension.Cost => max_cost_microunits l
  | BudgetDimension.InputTokens => max_input_tokens l
  | BudgetDimension.OutputTokens => max_output_tokens l
  | BudgetDimension.ImplementerInvocations => max_implementer_invocations l
  | BudgetDimension.ReviewerInvocations => max_reviewer_invocations l
  | BudgetDimension.FixIterations => max_fix_iterations l
  | BudgetDimension.WallTime => max_wall_time_seconds l
  | BudgetDimension.ExternalApiCalls => max_external_api_calls l
  end.

(** The largest value of the counter's integer type. *)
Definition counter_max (d : BudgetDimension) : Z :=
  match d with
  | BudgetDimension.Cost | BudgetDimension.InputTokens | BudgetDimension.OutputTokens
  | BudgetDimension.WallTime => u64_max
  | _ => u32_max
  end.

(** The values a consumption record can have in Rust. *)
Definition consumption_typed (c : BudgetConsumption) : Prop :=
  ∀ d, fits (counter_max d) (spent d c).

(** What the usage reports [cs] add up to, without any width. *)
Definition total_spent (d : BudgetDimension) (cs : list BudgetConsumption) : Z :=
  foldr (λ c acc, spent d c + acc) 0 cs.

(** Usage reports charged one after the other. *)
Definition charge_all (c : BudgetConsumption) (cs : list BudgetConsumption)
  : BudgetConsumption := foldl BudgetConsumption_saturating_add c cs.

Lemma elem_of_exceeded d c l : d ∈ exceeded_dimensions c l ↔ limit d l < spent d c.
Proof.
  unfold exceeded_dimensions. rewrite elem_of_flagged, !elem_of_cons, elem_of_nil.
  destruct d; simpl; rewrite <- Z.ltb_lt; intuition congruence.
Qed.

Lemma exceeded_nil c l : exceeded_dimensions c l = [] ↔ ∀ d, spent d c ≤ limit d l.
Proof.
  split.
  - intros H d. destruct (Z.lt_ge_cases (limit d l) (spent d c)) as [Hd|]; [|done].
    apply elem_of_exceeded in Hd. rewrite H in Hd. by apply elem_of_nil in Hd.
  - intros H. apply elem_of_nil_inv. intros d Hd. apply elem_of_exceeded in Hd.
    specialize (H d). lia.
Qed.

(** The dimensions whose exact exhaustion also stops work. *)
Definition strict (d : BudgetDimension) : bool :=
  match d with
  | BudgetDimension.Cost | BudgetDimension.WallTime
  | BudgetDimension.ImplementerInvocations => true
  | _ => false
  end.

Definition within (d : BudgetDimension) (used allowed : Z) : Prop :=
  if strict d then used < allowed else used ≤ allowed.

Lemma permits_more_work_true c l :
  permits_more_work c l = true ↔ ∀ d, within d (spent d c) (limit d l).
Proof.
  unfold permits_more_work. rewrite !andb_true_iff, !Z.ltb_lt. split.
  - intros (((He & ?) & ?) & ?). case_match eqn:E; [|done].
    rewrite exceeded_nil in E. intros d. specialize (E d). destruct d; simpl in *; done.
  - intros H. split_and!.
    + case_match eqn:E; [done|]. exfalso.
      assert (exceeded_dimensions c l = []) as He; [|congruence].
      apply exceeded_nil. intros d. specialize (H d). unfold within in H.
      case_match; lia.
    + apply (H BudgetDimension.Cost).
    + apply (H BudgetDimension.WallTime).
    + apply (H BudgetDimension.ImplementerInvocations).
Qed.

Lemma spent_saturating_add d a b :
  spent d (BudgetConsumption_saturating_add a b)
  = saturating_add (counter_max d) (spent d a) (spent d b).
Proof. by destruct d. Qed.

Lemma total_spent_nonneg d cs : Forall consumption_typed cs → 0 ≤ total_spent d cs.
Proof.
  induction 1 as [|c cs Hc _ IH]; simpl; [done|]. specialize (Hc d). unfold fits in Hc. lia.
Qed.

(** Charging saturates once, at the end: the order and the intermediate values
    of the reports do not matter. *)
Lemma spent_charge_all d c cs :
  consumption_typed c → Forall consumption_typed cs →
  spent d (charge_all c cs) = Z.min (counter_max d) (spent d c + total_spent d cs).
Proof.
  intros Hc Hcs. revert c Hc. induction Hcs as [|x cs Hx Hcs IH]; intros c Hc; simpl.
  - specialize (Hc d). unfold fits in Hc. lia.
  - unfold charge_all in *. simpl. rewrite IH.
    + rewrite spent_saturating_add. unfold saturating_add.
      pose proof (total_spent_nonneg d cs Hcs). lia.
    + intros e. rewrite spent_saturating_add. apply saturating_add_fits; [apply Hc|apply Hx].
Qed.

Lemma default_typed : consumption_typed BudgetConsumption_default.
Proof. intros []; unfold fits; simpl; unfold u64_max, u32_max; lia. Qed.

Lemma limit_restrict d a b :
  limit d (BudgetLimits_restrict a b) = Z.min (limit d a) (limit d b).
Proof. by destruct d. Qed.

(** C40. Saturation never hides an overspend: after charging any sequence of
    usage reports, a dimension is reported as exceeded exactly when the true,
    unbounded total is above the limit (for every limit below the counter's
    largest value; a limit at the largest value can never be exceeded), and the
    order of the reports is irrelevant. *)
Theorem budget_accounting_exact cs l d :
  Forall consumption_typed cs →
  (d ∈ exceeded_dimensions (charge_all BudgetConsumption_default cs) l ↔
   limit d l < Z.min (counter_max d) (total_spent d cs)) ∧
  (limit d l < counter_max d →
   d ∈ exceeded_dimensions (charge_all BudgetConsumption_default cs) l ↔
   limit d l < total_spent d cs) ∧
  (∀ cs', Permutation cs cs' →
   spent d (charge_all BudgetConsumption_default cs)
   = spent d (charge_all BudgetConsumption_default cs')).
Proof.
  intros Hcs. rewrite elem_of_exceeded, (spent_charge_all d _ cs default_typed Hcs).
  assert (spent d BudgetConsumption_default = 0) as -> by (by destruct d).
  split_and!; [lia|lia|]. intros cs' Hp.
  rewrite spent_charge_all; [|apply default_typed|by rewrite <- Hp].
  assert (total_spent d cs = total_spent d cs') as ->; [|by destruct d].
  clear Hcs. unfold total_spent. induction Hp; simpl; lia.
Qed.

Lemma budget_accounting_exact_witness :
  BudgetDimension.FixIterations ∈
    exceeded_dimensions
      (charge_all BudgetConsumption_default
         [mkBudgetConsumption 0 0 0 0 0 u32_max 0 0; mkBudgetConsumption 0 0 0 0 0 7 0 0])
      (mkBudgetLimits 1 1 1 1 1 5 1 1).
Proof.
  refine (proj2 (proj1 (proj2 (budget_accounting_exact _ _ _ _)) _) _); [|by vm_compute..].
  rewrite !Forall_cons, Forall_nil.
  split_and!; [| |done]; intros []; unfold fits; simpl; unfold u64_max, u32_max; lia.
Defined.

(** The gate that admits further work is sound and only ever closes: it
    permits work exactly when no dimension is above its limit and cost, wall
    time and implementer invocations are strictly below theirs; charging more
    usage never reopens it; and under the intersection of two budgets it permits
    work exactly when both budgets do. *)
Lemma budget_gate c l l' inc :
  (permits_more_work c l = true ↔ ∀ d, within d (spent d c) (limit d l)) ∧
  (consumption_typed c → consumption_typed inc →
   permits_more_work (BudgetConsumption_saturating_add c inc) l = true →
   permits_more_work c l = true) ∧
  (permits_more_work c (BudgetLimits_restrict l l') = true ↔
   permits_more_work c l = true ∧ permits_more_work c l' = true).
Proof.
  rewrite !permits_more_work_true. split_and!; [done| |].
  - intros Hc Hi H d. specialize (H d). rewrite spent_saturating_add in H.
    specialize (Hc d). specialize (Hi d).
    unfold within, fits, saturating_add in *. case_match; lia.
  - setoid_rewrite limit_restrict. unfold within. split.
    + intros H. split; intros d; specialize (H d); case_match; lia.
    + intros [H H'] d. specialize (H d). specialize (H' d). case_match; lia.
Qed.

(** A breaker opens exactly for the signals at or above their threshold, and
    worse signals never close it. *)
Lemma breaker_monotone s s' t r :
  bs_consecutive_failures s ≤ bs_consecutive_failures s' →
  bs_quarantine_count s ≤ bs_quarantine_count s' →
  bs_identity_mismatches s ≤ bs_identity_mismatches s' →
  bs_reconciliation_backlog s ≤ bs_reconciliation_backlog s' →
  bs_daily_cost_microunits s ≤ bs_daily_cost_microunits s' →
  r ∈ evaluate_breaker s t → r ∈ evaluate_breaker s' t.
Proof.
  intros ? ? ? ? ?. unfold evaluate_breaker.
  rewrite !elem_of_flagged, !elem_of_cons, !elem_of_nil.
  assert (∀ a b c, a ≤ b → true = (c <=? a) → true = (c <=? b)) as Hm.
  { intros a b c ? E. symmetry in E |- *. reflect. lia. }
  destruct r; intros E; destruct_or?; simplify_eq/=; try done; repeat (first
    [ left; f_equal; eapply Hm; [|match goal with E : (_, _) = _ |- _ => injection E; intros; done
      | E : _ = (_ <=? _) |- _ => exact E end]; done | right]).
Qed.
