(* ===== verification/Scheduler.v ===== *)
(** The deterministic scheduler, [src/src/application/scheduler.rs]: rejection
    reasons, priority aging, the comparator and the selection. *)

From Stdlib Require Import ZArith Lia Sorting Permutation.
From stdpp Require Import base tactics option list strings.
From S2P Require Import Prelude RustStr RustOrd Ids.

Definition AGING_INTERVAL : Duration := hours 24.
Definition MAX_AGING_BONUS : Z := 20.

Record SchedulingCandidate := mkSchedulingCandidate {
  cand_work_item_id : WorkItemId;
  cand_repository_id : RepositoryId;
  cand_normalized_priority : Z;
  cand_ready_at : DateTime;
  cand_due_at : option DateTime;
  cand_dependencies_ready : bool;
  cand_source_current : bool;
  cand_approvals_ready : bool;
  cand_budget_available : bool;
  cand_worker_available : bool;
  cand_identity_available : bool;
  cand_repository_wip_available : bool;
  cand_breaker_open : bool
}.

Definition effective_priority (c : SchedulingCandidate) (now : DateTime) : res Z :=
  let age := Z.max (signed_duration_since now (cand_ready_at c)) 0 in
  let bounded_bonus :=
    Z.max 0 (Z.min (Z.quot (num_seconds age) (num_seconds AGING_INTERVAL)) MAX_AGING_BONUS) in
  bonus ← expect (try_from u8_max bounded_bonus);
  Ok (Z.min (saturating_add u8_max (cand_normalized_priority c) bonus) (100 + MAX_AGING_BONUS)).

Module SchedulingRejection.
Inductive SchedulingRejection :=
| DependencyBlocked | StaleSource | ApprovalMissing | BudgetUnavailable
| WorkerUnavailable | IdentityUnavailable | RepositoryWipFull | CircuitBreakerOpen.
End SchedulingRejection.
Abbreviation SchedulingRejection := SchedulingRejection.SchedulingRejection.

Definition rejection_reasons (c : SchedulingCandidate) : list SchedulingRejection :=
  flagged
    [ (negb (cand_dependencies_ready c), SchedulingRejection.DependencyBlocked);
      (negb (cand_source_current c), SchedulingRejection.StaleSource);
      (negb (cand_approvals_ready c), SchedulingRejection.ApprovalMissing);
      (negb (cand_budget_available c), SchedulingRejection.BudgetUnavailable);
      (negb (cand_worker_available c), SchedulingRejection.WorkerUnavailable);
      (negb (cand_identity_available c), SchedulingRejection.IdentityUnavailable);
      (negb (cand_repository_wip_available c), SchedulingRejection.RepositoryWipFull);
      (cand_breaker_open c, SchedulingRejection.CircuitBreakerOpen) ].

Record CandidateEvaluation := mkCandidateEvaluation {
  ce_work_item_id : WorkItemId;
  ce_effective_priority : Z;
  ce_selected : bool;
  ce_rejections : list SchedulingRejection
}.

Record SchedulingDecision := mkSchedulingDecision {
  sd_selected : option WorkItemId;
  sd_evaluations : list CandidateEvaluation
}.

Definition compare_due_date (left right : option DateTime) : comparison :=
  match left, right with
  | Some l, Some r => cmp l r
  | Some _, None => Lt
  | None, Some _ => Gt
  | None, None => Eq
  end.

Definition compare_candidates (now : DateTime) (left right : SchedulingCandidate)
  : res comparison :=
  right_priority ← effective_priority right now;
  left_priority ← effective_priority left now;
  Ok (then_with (then_with (then_with
        (cmp right_priority left_priority)
        (compare_due_date (cand_due_at left) (cand_due_at right)))
        (cmp (cand_ready_at left) (cand_ready_at right)))
        (cmp (cand_work_item_id left) (cand_work_item_id right))).

(** [candidate.rejection_reasons().is_empty()]. *)
Definition eligible (c : SchedulingCandidate) : bool :=
  match rejection_reasons c with [] => true | _ => false end.

Definition evaluate_candidate (selected : option WorkItemId) (now : DateTime)
    (c : SchedulingCandidate) : res CandidateEvaluation :=
  priority ← effective_priority c now;
  Ok {| ce_work_item_id := cand_work_item_id c;
        ce_effective_priority := priority;
        ce_selected := bool_decide (selected = Some (cand_work_item_id c));
        ce_rejections := rejection_reasons c |}.

Definition select (candidates : list SchedulingCandidate) (now : DateTime)
  : res SchedulingDecision :=
  sorted ← try_sort_by (compare_candidates now) (List.filter eligible candidates);
  let selected := cand_work_item_id <$> head sorted in
  evaluations ← try_map (evaluate_candidate selected now) candidates;
  Ok {| sd_selected := selected; sd_evaluations := evaluations |}.

(** ** The order *)

(** Whole aging intervals waited, at most the bonus cap. *)
Definition aging_bonus (c : SchedulingCandidate) (now : DateTime) : Z :=
  Z.min (Z.max (now - cand_ready_at c) 0 / AGING_INTERVAL) MAX_AGING_BONUS.

Definition priority_value (c : SchedulingCandidate) (now : DateTime) : Z :=
  Z.min (cand_normalized_priority c + aging_bonus c now) 120.

Lemma aging_bonus_fits c now : 0 ≤ aging_bonus c now ≤ 20.
Proof.
  unfold aging_bonus, MAX_AGING_BONUS.
  assert (0 ≤ Z.max (now - cand_ready_at c) 0 / AGING_INTERVAL); [|lia].
  apply Z.div_pos; [lia|done].
Qed.

(** The truncating divisions of the source compute the number of whole
    intervals, and the conversion to [u8] cannot fail. *)
Lemma effective_priority_ok c now :
  effective_priority c now = Ok (priority_value c now).
Proof.
  unfold effective_priority, priority_value.
  assert (Z.quot (num_seconds (Z.max (signed_duration_since now (cand_ready_at c)) 0))
            (num_seconds AGING_INTERVAL)
          = Z.max (now - cand_ready_at c) 0 / AGING_INTERVAL) as ->.
  { unfold num_seconds, signed_duration_since. set (a := Z.max _ 0).
    rewrite (Z.quot_div_nonneg a) by (unfold a, nanos; lia).
    change (Z.quot AGING_INTERVAL nanos) with 86400.
    assert (0 ≤ a / nanos) by (apply Z.div_pos; [unfold a; lia|done]).
    rewrite Z.quot_div_nonneg by lia. by rewrite Z.div_div by (unfold nanos; lia). }
  pose proof (aging_bonus_fits c now) as Hb. unfold aging_bonus in *.
  rewrite Z.max_r by lia. unfold try_from. unfold u8_max.
  destruct (_ && _) eqn:E; [|reflect; lia]. simpl. f_equal.
  unfold saturating_add, MAX_AGING_BONUS in *. lia.
Qed.

(** The sort key the comparator orders by. *)
Definition candidate_key (now : DateTime) (c : SchedulingCandidate)
  : Z * (Z * Z) * Z * N :=
  (- priority_value c now,
   match cand_due_at c with Some d => (0, d) | None => (1, 0) end,
   cand_ready_at c, cand_work_item_id c).

Definition ranks_before (now : DateTime) (a b : SchedulingCandidate) : Prop :=
  olt (candidate_key now a) (candidate_key now b).

Lemma compare_due_date_key a b :
  compare_due_date a b =
  cmp (match a with Some d => (0, d) | None => (1, 0) end)
      (match b with Some d => (0, d) | None => (1, 0) end).
Proof. by destruct a, b. Qed.

Lemma compare_candidates_key now a b :
  compare_candidates now a b = Ok (cmp (candidate_key now a) (candidate_key now b)).
Proof.
  unfold compare_candidates. rewrite !effective_priority_ok. simpl. f_equal.
  rewrite compare_due_date_key. unfold candidate_key. simpl.
  rewrite <- Z.compare_opp.
  unfold then_with. destruct (cand_due_at a), (cand_due_at b); simpl;
    by destruct (- priority_value a now ?= - priority_value b now);
    repeat match goal with |- context [match ?x ?= ?y with _ => _ end] => destruct (x ?= y) end.
Qed.

Lemma select_sorted cs now :
  ∃ evals, select cs now =
    Ok (mkSchedulingDecision
          (cand_work_item_id <$> head (sort_by_key (candidate_key now) (List.filter eligible cs)))
          evals) ∧
  evals = (λ c, mkCandidateEvaluation (cand_work_item_id c) (priority_value c now)
     (bool_decide ((cand_work_item_id <$> head (sort_by_key (candidate_key now)
        (List.filter eligible cs))) = Some (cand_work_item_id c)))
     (rejection_reasons c)) <$> cs.
Proof.
  eexists. split; [|reflexivity]. unfold select.
  rewrite (try_sort_by_ok _ _ _ (compare_candidates_key now)). simpl.
  change (sort_by _ ?l) with (sort_by_key (candidate_key now) l).
  match goal with |- context [try_map (evaluate_candidate ?s now)] => generalize s end.
  intros s.
  assert (try_map (evaluate_candidate s now) cs = Ok ((λ c, mkCandidateEvaluation
    (cand_work_item_id c) (priority_value c now) (bool_decide (s = Some (cand_work_item_id c)))
    (rejection_reasons c)) <$> cs)) as ->; [|done].
  assert (∀ c, evaluate_candidate s now c = Ok (mkCandidateEvaluation
    (cand_work_item_id c) (priority_value c now) (bool_decide (s = Some (cand_work_item_id c)))
    (rejection_reasons c))) as He
    by (intros c; unfold evaluate_candidate; by rewrite effective_priority_ok).
  induction cs as [|c cs IH]; [done|]. cbn [try_map foldr fmap list_fmap].
  unfold try_map in IH. by rewrite He, IH.
Qed.

Lemma ids_determine_candidates cs x y :
  NoDup (cand_work_item_id <$> cs) → x ∈ cs → y ∈ cs →
  cand_work_item_id x = cand_work_item_id y → x = y.
Proof.
  induction cs as [|c cs IH]; simpl; intros Hn Hx Hy E.
  - by apply elem_of_nil in Hx.
  - apply NoDup_cons in Hn as [Hc Hn].
    assert (∀ z, z ∈ cs → cand_work_item_id c ≠ cand_work_item_id z) as Hz.
    { intros z Hz Heq. apply Hc, list_elem_of_fmap. eauto. }
    rewrite elem_of_cons in Hx, Hy. destruct Hx as [->|Hx], Hy as [->|Hy].
    + done.
    + by destruct (Hz y Hy).
    + by destruct (Hz x Hx).
    + by apply IH.
Qed.

(** ** Theorems *)

(** C37. Selection is total, sound and optimal: it never panics; it selects
    nothing exactly when every candidate has a rejection reason; otherwise it
    selects a candidate without rejection reasons that no eligible candidate
    ranks before; and it reports every candidate, in input order, with all its
    rejection reasons. *)
Theorem select_sound cs now :
  ∃ d, select cs now = Ok d ∧
  (sd_selected d = None ↔ ∀ c, c ∈ cs → rejection_reasons c ≠ []) ∧
  (∀ id, sd_selected d = Some id → ∃ c, c ∈ cs ∧ cand_work_item_id c = id ∧
     rejection_reasons c = [] ∧
     ∀ c', c' ∈ cs → rejection_reasons c' = [] → ¬ ranks_before now c' c) ∧
  ((λ e, (ce_work_item_id e, ce_rejections e)) <$> sd_evaluations d)
    = (λ c, (cand_work_item_id c, rejection_reasons c)) <$> cs.
Proof.
  destruct (select_sorted cs now) as (evals & -> & ->). eexists. split; [done|].
  assert (∀ c, c ∈ List.filter eligible cs ↔ c ∈ cs ∧ rejection_reasons c = []) as Hel.
  { intros c. rewrite elem_of_filter_bool. unfold eligible. case_match; naive_solver. }
  cbn [sd_selected sd_evaluations].
  destruct (sort_by_key (candidate_key now) (List.filter eligible cs)) as [|c k] eqn:E; simpl.
  all: split_and!; [split| |by rewrite <- list_fmap_compose].
  - intros _ c Hc Hr. assert (Hf : c ∈ List.filter eligible cs) by (by apply Hel).
    rewrite <- (elem_of_sort_by_key (candidate_key now)), E in Hf. by apply elem_of_nil in Hf.
  - done.
  - done.
  - done.
  - intros H. exfalso.
    assert (c ∈ List.filter eligible cs) as Hf
      by (rewrite <- (elem_of_sort_by_key (candidate_key now)), E; left).
    apply Hel in Hf as [??]. by apply (H c).
  - intros id [= <-]. exists c.
    assert (c ∈ List.filter eligible cs) as Hf
      by (rewrite <- (elem_of_sort_by_key (candidate_key now)), E; left).
    apply Hel in Hf as [??]. split_and!; [done..|]. intros c' Hc' Hr' Hlt.
    assert (Hf' : c' ∈ List.filter eligible cs) by (by apply Hel).
    pose proof (sort_by_key_head _ _ _ _ E c' Hf') as Hle.
    apply cmp_gt_lt in Hlt. done.
Qed.

(** Scheduling is deterministic: when work item ids are distinct, the
    selected item does not depend on the order in which candidates are listed,
    and an evaluation is marked selected exactly for the selected item, which
    then has no rejection. *)
Lemma select_order_independent cs cs' now d d' :
  NoDup (cand_work_item_id <$> cs) → Permutation cs cs' →
  select cs now = Ok d → select cs' now = Ok d' →
  sd_selected d = sd_selected d' ∧
  Permutation (sd_evaluations d) (sd_evaluations d') ∧
  ∀ e, e ∈ sd_evaluations d → ce_selected e = true →
       sd_selected d = Some (ce_work_item_id e) ∧ ce_rejections e = [].
Proof.
  intros Hn Hp Hd Hd'.
  destruct (select_sorted cs now) as (? & E & ->). rewrite Hd in E. injection E as ->.
  destruct (select_sorted cs' now) as (? & E & ->). rewrite Hd' in E. injection E as ->.
  assert (sort_by_key (candidate_key now) (List.filter eligible cs')
    = sort_by_key (candidate_key now) (List.filter eligible cs)) as Hs.
  { symmetry. apply sort_by_key_permutation_invariant; [|by apply filter_permutation].
    intros x y Hx Hy [= _ _ _ Hid]. apply elem_of_filter_bool in Hx as [Hx _], Hy as [Hy _].
    by apply (ids_determine_candidates cs). }
  cbn [sd_selected sd_evaluations]. rewrite Hs. split_and!; [done| |].
  - by rewrite Hp.
  - intros e He Hsel. apply list_elem_of_fmap in He as (c & -> & Hc). simpl in *.
    apply bool_decide_eq_true in Hsel. split; [done|].
    destruct (sort_by_key _ _) as [|c0 k] eqn:E; [done|]. simpl in Hsel.
    injection Hsel as Hid.
    assert (c0 ∈ List.filter eligible cs) as Hf
      by (rewrite <- (elem_of_sort_by_key (candidate_key now)), E; left).
    apply elem_of_filter_bool in Hf as [Hc0 He0].
    rewrite (ids_determine_candidates cs c c0) by done.
    unfold eligible in He0. by case_match.
Qed.

Definition sample_candidate (id : N) (priority : Z) (ready_at : DateTime) (blocked : bool)
  : SchedulingCandidate :=
  mkSchedulingCandidate id 9%N priority ready_at None (negb blocked) true true true true true
    true false.

Lemma select_order_independent_witness :
  ∃ d d', select [sample_candidate 1 50 0 false; sample_candidate 2 90 0 true] 0 = Ok d ∧
          select [sample_candidate 2 90 0 true; sample_candidate 1 50 0 false] 0 = Ok d' ∧
          sd_selected d = sd_selected d'.
Proof.
  eexists _, _. split; [vm_compute; reflexivity|]. split; [vm_compute; reflexivity|].
  eapply (select_order_independent
    [sample_candidate 1 50 0 false; sample_candidate 2 90 0 true]
    [sample_candidate 2 90 0 true; sample_candidate 1 50 0 false] 0).
  - apply (bool_decide_unpack _). by vm_compute.
  - apply Permutation_swap.
  - vm_compute; reflexivity.
  - vm_compute; reflexivity.
Defined.

(** Aging bounds starvation: a candidate that has waited [k] days (at most
    twenty) ranks before every candidate ready for less than a day whose
    priority is below its own plus [k], whatever due dates and ids are. *)
Lemma aging_prevents_starvation a b k now :
  0 ≤ k ≤ 20 → k * AGING_INTERVAL ≤ now - cand_ready_at a →
  now - cand_ready_at b < AGING_INTERVAL →
  cand_normalized_priority a ≤ 100 →
  cand_normalized_priority b < cand_normalized_priority a + k →
  compare_candidates now a b = Ok Lt ∧ compare_candidates now b a = Ok Gt.
Proof.
  intros Hk Ha Hb Hpa Hpb.
  assert (priority_value b now < priority_value a now) as Hlt.
  { assert (k ≤ aging_bonus a now).
    { unfold aging_bonus, MAX_AGING_BONUS. apply Z.min_glb; [|lia].
      apply Z.div_le_lower_bound; [done|]. lia. }
    assert (aging_bonus b now = 0).
    { unfold aging_bonus. rewrite Z.div_small; [done|].
      assert (0 < AGING_INTERVAL) by done. lia. }
    pose proof (aging_bonus_fits a now). unfold priority_value. lia. }
  rewrite !compare_candidates_key.
  assert (cmp (candidate_key now a) (candidate_key now b) = Lt) as E.
  { unfold candidate_key. simpl.
    by rewrite (proj2 (Z.compare_lt_iff _ _)) by lia. }
  by rewrite E, cmp_opp, E.
Qed.

Lemma aging_prevents_starvation_witness :
  compare_candidates (5 * AGING_INTERVAL) (sample_candidate 1 50 0 false)
    (sample_candidate 2 54 (5 * AGING_INTERVAL) false) = Ok Lt.
Proof. by apply (aging_prevents_starvation _ _ 5); vm_compute. Defined.
