(* ===== verification/Readiness.v ===== *)
(** The readiness engine, [src/src/application/readiness.rs]: the issues that keep
    an item from being accepted and the status they classify to. *)

From Stdlib Require Import ZArith Lia.
From stdpp Require Import base tactics option list strings sets.
From S2P Require Import Prelude RustStr RustOrd Ids Authority Identity WorkItem Crypto Governance.

Module ReadinessStatus.
Inductive ReadinessStatus :=
| Ready | NeedsSpec | NeedsApproval | Unsupported | BlockedDependency | PolicyRefused.
End ReadinessStatus.
Abbreviation ReadinessStatus := ReadinessStatus.ReadinessStatus.

Record ReadinessIssue := mkReadinessIssue {
  issue_code : string;
  issue_field : string;
  issue_owner : string;
  issue_suggested_action : string;
  issue_reevaluation_trigger : string
}.

Record ReadinessReport := mkReadinessReport {
  rr_status : ReadinessStatus;
  rr_issues : list ReadinessIssue;
  rr_evaluated_at : DateTime;
  rr_source_snapshot_digest : string;
  rr_policy_digest : string
}.

Record ReadinessContext := mkReadinessContext {
  rc_snapshot : SourceSnapshot;
  rc_source_is_current : bool;
  rc_repository : option Repository;
  rc_closure_target : ClosureTarget;
  rc_risk : RiskAssessment;
  rc_dependencies_known : bool;
  rc_dependency_cycle : bool;
  rc_dependencies_satisfied : bool;
  rc_exact_base_sha : option string;
  rc_path_and_check_policy_compiled : bool;
  rc_identity_requirements : WorkOrderIdentities;
  rc_identity_environment : AutomationEnvironment;
  rc_identities : list IdentityReadiness;
  rc_worker : option Worker;
  rc_budgets_reservable : bool;
  rc_required_approval_present_or_scheduled : bool;
  rc_policy_digest : string;
  rc_now : DateTime
}.

Definition classify (issues : list ReadinessIssue) : ReadinessStatus :=
  let any_code codes := existsb (λ i, mem (issue_code i) codes) issues in
  match issues with
  | [] => ReadinessStatus.Ready
  | _ =>
    if any_code ["CLOSURE_TARGET_UNSUPPORTED"; "WORKER_PROTOCOL_UNSUPPORTED"]
    then ReadinessStatus.Unsupported
    else if any_code ["DEPENDENCY_BLOCKED"] then ReadinessStatus.BlockedDependency
    else if any_code ["POLICY_COMPILE_FAILED"; "RISK_NOT_AUTOMATABLE_V1"; "DEPENDENCY_CYCLE"]
    then ReadinessStatus.PolicyRefused
    else if any_code ["APPROVAL_PATH_MISSING"] then ReadinessStatus.NeedsApproval
    else ReadinessStatus.NeedsSpec
  end.

(** [if cond { issues.push(issue) }]. *)
Definition push_if (cond : bool) (i : ReadinessIssue) : list ReadinessIssue :=
  if cond then [i] else [].

(** [identities.iter().find(|r| r.role == role).and_then(|r| r.principal_ref)]. *)
Definition principal_of (identities : list IdentityReadiness) (role : IdentityRole)
  : option CtxlanePrincipalRef :=
  find (λ r, bool_decide (ir_role r = role)) identities ≫= ir_principal_ref.

(** The binding check of one role, inside the loop over the three roles. *)
Definition bound_ready (c : ReadinessContext) (role : IdentityRole)
    (matching : list IdentityReadiness) : bool :=
  match rc_worker c with
  | None => false
  | Some worker =>
    match matching with
    | [readiness] =>
      is_ok (ensure_ready_for readiness
        {| ix_profile_ref := profile_for (rc_identity_requirements c) role;
           ix_role := role;
           ix_environment := rc_identity_environment c;
           ix_worker_id := wk_id worker;
           ix_worker_generation := wk_generation worker;
           ix_policy_digest := rc_policy_digest c;
           ix_at := rc_now c |})
    | _ => false
    end
  end.

Definition role_issues (c : ReadinessContext) (role : IdentityRole) : list ReadinessIssue :=
  let matching := List.filter (λ r, bool_decide (ir_role r = role)) (rc_identities c) in
  push_if (negb (bound_ready c role matching))
    (mkReadinessIssue
      match head matching ≫= ir_refusal_code with
      | Some code => reason_code_str code
      | None => "IDENTITY_BINDING_NOT_READY"
      end
      "identities" "platform-operator"
      "restore the role-bound identity readiness proof and re-run preflight"
      "fresh ctxlane readiness result received").

Definition reviewers_are_independent (identities : list IdentityReadiness) : bool :=
  match principal_of identities IdentityRole.Implementer with
  | None => false
  | Some implementer =>
    forallb (λ role, match principal_of identities role with
                     | Some reviewer => negb (bool_decide (reviewer = implementer))
                     | None => false
                     end)
      [IdentityRole.LocalReviewer; IdentityRole.PrReviewer]
  end.

(** [iter().find_map(f)]. *)
Fixpoint find_map {A B} (f : A → option B) (l : list A) : option B :=
  match l with
  | [] => None
  | x :: l => match f x with Some y => Some y | None => find_map f l end
  end.

(** The dependency chain [if !known .. else if cycle .. else if !satisfied ..]. *)
Definition dependency_issues (c : ReadinessContext) (source_owner : string)
  : list ReadinessIssue :=
  if negb (rc_dependencies_known c) then
    [mkReadinessIssue "DEPENDENCIES_UNKNOWN" "dependencies" source_owner
       "identify blocking dependencies" "dependency graph changed"]
  else if rc_dependency_cycle c then
    [mkReadinessIssue "DEPENDENCY_CYCLE" "dependencies" "repository-owner"
       "break the dependency cycle" "dependency graph changed"]
  else if negb (rc_dependencies_satisfied c) then
    [mkReadinessIssue "DEPENDENCY_BLOCKED" "dependencies" source_owner
       "complete or waive the blocking dependency" "dependency target reached"]
  else [].

Definition source_owner_of (c : ReadinessContext) : string :=
  match sc_assignee (ss_content (rc_snapshot c)) with
  | Some assignee => assignee
  | None => "product-owner"
  end.

Definition source_issues (c : ReadinessContext) : list ReadinessIssue :=
  let source_owner := source_owner_of c in
  let content := ss_content (rc_snapshot c) in
  push_if (is_none (rc_repository c))
    (mkReadinessIssue "REPOSITORY_MAPPING_MISSING" "repository" source_owner
      "map the source item to a registered repository" "repository configuration changed")
  ++ push_if (negb (rc_source_is_current c))
    (mkReadinessIssue "SOURCE_SNAPSHOT_STALE" "source_snapshot" source_owner
      "refresh and re-evaluate the source snapshot" "new source snapshot captured")
  ++ push_if (blank (sc_objective content))
    (mkReadinessIssue "OBJECTIVE_MISSING" "objective" source_owner
      "provide a concrete objective" "source objective changed")
  ++ push_if (match sc_acceptance_criteria content with [] => true | _ => false end
              || existsb blank (sc_acceptance_criteria content))
    (mkReadinessIssue "ACCEPTANCE_CRITERIA_UNTESTABLE" "acceptance_criteria" source_owner
      "provide observable acceptance criteria" "source acceptance criteria changed")
  ++ dependency_issues c source_owner.

Definition policy_issues (c : ReadinessContext) : list ReadinessIssue :=
  push_if (match rc_exact_base_sha c with None => true | Some sha => str_is_empty sha end)
    (mkReadinessIssue "BASE_SHA_UNRESOLVED" "base_sha" "repository-owner"
      "resolve the configured base ref to an exact commit" "repository base becomes reachable")
  ++ push_if (negb (rc_path_and_check_policy_compiled c))
    (mkReadinessIssue "POLICY_COMPILE_FAILED" "policy" "policy-admin"
      "repair the path and check policy" "policy version changed")
  ++ push_if (negb (production_supported_v1 (rc_closure_target c)))
    (mkReadinessIssue "CLOSURE_TARGET_UNSUPPORTED" "closure_target" "repository-owner"
      "select the pull-request closure target for V1" "target or adapter support changed")
  ++ push_if (risk_not_automatable (risk_class (rc_risk c)))
    (mkReadinessIssue "RISK_NOT_AUTOMATABLE_V1" "risk" "policy-admin"
      "refuse, narrow, or route the item to human-controlled delivery"
      "risk assessment or policy changed").

Definition identity_issues (c : ReadinessContext) : list ReadinessIssue :=
  push_if (negb (Z.of_nat (length (rc_identities c)) =? 3))
    (mkReadinessIssue "IDENTITY_ROLES_INCOMPLETE" "identities" "platform-operator"
      "configure implementer, local reviewer, and PR reviewer profiles"
      "identity configuration changed")
  ++ ([IdentityRole.Implementer; IdentityRole.LocalReviewer; IdentityRole.PrReviewer]
        ≫= role_issues c)
  ++ push_if (negb (reviewers_are_independent (rc_identities c)))
    (mkReadinessIssue
      match find_map ir_refusal_code (rc_identities c) with
      | Some code => reason_code_str code
      | None => "IDENTITY_PRINCIPAL_SEPARATION_UNPROVEN"
      end
      "identities" "platform-operator"
      "have ctxlane prove implementer/reviewer principal separation"
      "fresh ctxlane principal attestations received").

Definition resource_issues (c : ReadinessContext) : list ReadinessIssue :=
  push_if (match rc_worker c with
           | None => true
           | Some worker => negb (Worker_production_ready worker)
           end)
    (mkReadinessIssue "WORKER_UNAVAILABLE" "worker" "platform-operator"
      "register or recover a compatible healthy worker" "worker health or capabilities changed")
  ++ push_if (negb (rc_budgets_reservable c))
    (mkReadinessIssue "BUDGET_UNAVAILABLE" "budgets" "platform-operator"
      "wait for budget release or approve a bound increase" "budget ledger changed")
  ++ push_if (negb (rc_required_approval_present_or_scheduled c))
    (mkReadinessIssue "APPROVAL_PATH_MISSING" "approvals" "repository-owner"
      "supply or schedule the required approval" "approval request created or decided").

Definition evaluate (c : ReadinessContext) : ReadinessReport :=
  let issues := source_issues c ++ policy_issues c ++ identity_issues c ++ resource_issues c in
  {| rr_status := classify issues;
     rr_issues := issues;
     rr_evaluated_at := rc_now c;
     rr_source_snapshot_digest := ss_content_digest (rc_snapshot c);
     rr_policy_digest := rc_policy_digest c |}.

(** ** What readiness means *)

(** The readiness expectation of a role on a worker. *)
Definition expectation (c : ReadinessContext) (w : Worker) (role : IdentityRole)
  : IdentityReadinessExpectation :=
  {| ix_profile_ref := profile_for (rc_identity_requirements c) role;
     ix_role := role;
     ix_environment := rc_identity_environment c;
     ix_worker_id := wk_id w;
     ix_worker_generation := wk_generation w;
     ix_policy_digest := rc_policy_digest c;
     ix_at := rc_now c |}.

(** Exactly three attestations, one per role, each bound to this worker
    generation, profile, environment and policy and currently production ready;
    both reviewers are other principals than the implementer. *)
Definition separated_identities (c : ReadinessContext) (w : Worker) : Prop :=
  ∃ i l p, Permutation (rc_identities c) [i; l; p] ∧
    (readiness_bound i (expectation c w IdentityRole.Implementer) ∧
     readiness_bound l (expectation c w IdentityRole.LocalReviewer) ∧
     readiness_bound p (expectation c w IdentityRole.PrReviewer)) ∧
    Forall (λ r, production_ready_at r (rc_now c) = true) [i; l; p] ∧
    ∃ pi pl pp, ir_principal_ref i = Some pi ∧ ir_principal_ref l = Some pl ∧
      ir_principal_ref p = Some pp ∧ pl ≠ pi ∧ pp ≠ pi.

Record ready_to_accept (c : ReadinessContext) : Prop := {
  ra_repository : is_Some (rc_repository c);
  ra_source : rc_source_is_current c = true;
  ra_objective : blank (sc_objective (ss_content (rc_snapshot c))) = false;
  ra_criteria : sc_acceptance_criteria (ss_content (rc_snapshot c)) ≠ [] ∧
    Forall (λ s, blank s = false) (sc_acceptance_criteria (ss_content (rc_snapshot c)));
  ra_dependencies : rc_dependencies_known c = true ∧ rc_dependency_cycle c = false ∧
    rc_dependencies_satisfied c = true;
  ra_base : ∃ sha, rc_exact_base_sha c = Some sha ∧ sha ≠ "";
  ra_policy : rc_path_and_check_policy_compiled c = true;
  ra_target : rc_closure_target c = ClosureTarget.PullRequest;
  ra_risk : risk_class (rc_risk c) ∈ [RiskClass.Low; RiskClass.Medium; RiskClass.High];
  ra_worker : ∃ w, rc_worker c = Some w ∧ Worker_production_ready w = true ∧
    separated_identities c w;
  ra_budgets : rc_budgets_reservable c = true;
  ra_approval : rc_required_approval_present_or_scheduled c = true
}.

Lemma push_if_nil b i : push_if b i = [] ↔ b = false.
Proof. by destruct b. Qed.

Lemma classify_ready issues : classify issues = ReadinessStatus.Ready ↔ issues = [].
Proof.
  unfold classify. destruct issues as [|i l]; [done|]. split; [|done].
  intros H. by repeat case_match.
Qed.

Abbreviation by_role role := (List.filter (λ r, bool_decide (ir_role r = role))).

Lemma roles_partition l :
  Permutation l (by_role IdentityRole.Implementer l ++ by_role IdentityRole.LocalReviewer l
                 ++ by_role IdentityRole.PrReviewer l).
Proof.
  induction l as [|x l IH]; simpl; [done|].
  destruct (ir_role x) eqn:E; simpl.
  - by rewrite <- IH.
  - rewrite <- Permutation_middle. by rewrite <- IH.
  - rewrite app_assoc, <- Permutation_middle, <- app_assoc. by rewrite <- IH.
Qed.

Lemma bound_ready_true c role m :
  bound_ready c role m = true ↔
  ∃ w r, rc_worker c = Some w ∧ m = [r] ∧ readiness_bound r (expectation c w role) ∧
         production_ready_at r (rc_now c) = true.
Proof.
  unfold bound_ready. destruct (rc_worker c) as [w|]; [|naive_solver].
  destruct m as [|r [|r' m]]; [naive_solver| |naive_solver].
  rewrite is_ok_unit. fold (expectation c w role).
  rewrite ensure_ready_for_ok. simpl. naive_solver.
Qed.

Lemma by_role_permutation role l k :
  Permutation l k → Permutation (by_role role l) (by_role role k).
Proof. apply filter_permutation. Qed.

Lemma identity_issues_nil c :
  identity_issues c = [] ↔
  ∃ w, rc_worker c = Some w ∧ separated_identities c w.
Proof.
  unfold identity_issues, role_issues. simpl. rewrite app_nil_r.
  rewrite !app_nil, !push_if_nil, !negb_false_iff, !bound_ready_true, Z.eqb_eq.
  unfold reviewers_are_independent, principal_of. rewrite !find_head_filter. split.
  - intros (_ & ((w & i & Hw & Ei & Bi & Ri) & (w1 & l & Hw1 & El & Bl & Rl) &
      (w2 & p & Hw2 & Ep & Bp & Rp)) & Hind).
    simplify_eq. exists w. split; [done|]. exists i, l, p.
    rewrite Ei in Hind. simpl in Hind.
    rewrite ?find_head_filter, El, Ep in Hind. simpl in Hind.
    split_and!; [|done..| |].
    + by rewrite (roles_partition (rc_identities c)), Ei, El, Ep at 1.
    + by rewrite !Forall_cons, Forall_nil.
    + destruct (ir_principal_ref i), (ir_principal_ref l), (ir_principal_ref p); try done.
      all: simpl in Hind; reflect; naive_solver.
  - intros (w & Hw & i & l & p & Hp & (Bi & Bl & Bp) & HR & pi & pl & pp & Ei & El & Ep & ? & ?).
    rewrite !Forall_cons in HR. destruct HR as (Ri & Rl & Rp & _).
    assert (ir_role i = IdentityRole.Implementer) as ri by apply Bi.
    assert (ir_role l = IdentityRole.LocalReviewer) as rl by apply Bl.
    assert (ir_role p = IdentityRole.PrReviewer) as rp by apply Bp.
    assert (∀ role x, by_role role [i; l; p] = [x] →
      by_role role (rc_identities c) = [x]) as Hone.
    { intros role x E. apply Permutation_singleton_r. rewrite <- E.
      by apply by_role_permutation. }
    rewrite (Hone IdentityRole.Implementer i), (Hone IdentityRole.LocalReviewer l),
      (Hone IdentityRole.PrReviewer p) by (simpl; by rewrite ri, rl, rp).
    split_and!; [by rewrite Hp|by exists w, i|by exists w, l|by exists w, p|].
    + simpl. rewrite !find_head_filter.
      rewrite (Hone IdentityRole.LocalReviewer l), (Hone IdentityRole.PrReviewer p)
        by (simpl; by rewrite ri, rl, rp).
      simpl. rewrite Ei, El, Ep. by rewrite !bool_decide_eq_false_2.
Qed.

Lemma source_issues_nil c :
  source_issues c = [] ↔
  is_Some (rc_repository c) ∧ rc_source_is_current c = true ∧
  blank (sc_objective (ss_content (rc_snapshot c))) = false ∧
  (sc_acceptance_criteria (ss_content (rc_snapshot c)) ≠ [] ∧
   Forall (λ s, blank s = false) (sc_acceptance_criteria (ss_content (rc_snapshot c)))) ∧
  rc_dependencies_known c = true ∧ rc_dependency_cycle c = false ∧
  rc_dependencies_satisfied c = true.
Proof.
  unfold source_issues, dependency_issues. rewrite !app_nil, !push_if_nil. reflect.
  destruct (sc_acceptance_criteria _), (rc_dependencies_known c), (rc_dependency_cycle c),
    (rc_dependencies_satisfied c); naive_solver.
Qed.

Lemma policy_issues_nil c :
  policy_issues c = [] ↔
  (∃ sha, rc_exact_base_sha c = Some sha ∧ sha ≠ "") ∧
  rc_path_and_check_policy_compiled c = true ∧
  rc_closure_target c = ClosureTarget.PullRequest ∧
  risk_class (rc_risk c) ∈ [RiskClass.Low; RiskClass.Medium; RiskClass.High].
Proof.
  unfold policy_issues. rewrite !app_nil, !push_if_nil. reflect.
  rewrite !elem_of_cons, elem_of_nil.
  destruct (rc_exact_base_sha c) as [[]|], (rc_closure_target c), (risk_class (rc_risk c));
    naive_solver.
Qed.

Lemma resource_issues_nil c :
  resource_issues c = [] ↔
  (∃ w, rc_worker c = Some w ∧ Worker_production_ready w = true) ∧
  rc_budgets_reservable c = true ∧ rc_required_approval_present_or_scheduled c = true.
Proof.
  unfold resource_issues. rewrite !app_nil, !push_if_nil. reflect.
  destruct (rc_worker c); reflect; naive_solver.
Qed.


Lemma readiness_ready c :
  rr_status (evaluate c) = ReadinessStatus.Ready ↔ ready_to_accept c.
Proof.
  simpl. rewrite classify_ready.
  rewrite !app_nil, source_issues_nil, policy_issues_nil, identity_issues_nil,
    resource_issues_nil. split.
  - intros (? & ? & (w & Hw & ?) & ?). destruct_and?. destruct select (∃ _, _ ∧ _ = true).
    constructor; try done. naive_solver.
  - intros []. naive_solver.
Qed.

(** ** Theorems *)

(** C36. An item is classified ready exactly when every acceptance condition
    holds, among them that the three role identities are proven on one
    production-ready worker generation under the current policy and that no
    reviewer is the implementer's principal.  A report without issues is ready
    and a report with an issue is not. *)
Theorem readiness_exact c :
  (rr_status (evaluate c) = ReadinessStatus.Ready ↔ ready_to_accept c) ∧
  (rr_status (evaluate c) = ReadinessStatus.Ready ↔ rr_issues (evaluate c) = []).
Proof. split; [apply readiness_ready|]. simpl. apply classify_ready. Qed.

(** The issue codes that select a status. *)
Definition unsupported_codes := ["CLOSURE_TARGET_UNSUPPORTED"; "WORKER_PROTOCOL_UNSUPPORTED"].
Definition policy_codes := ["POLICY_COMPILE_FAILED"; "RISK_NOT_AUTOMATABLE_V1"; "DEPENDENCY_CYCLE"].
Definition status_codes :=
  unsupported_codes ++ ["DEPENDENCY_BLOCKED"] ++ policy_codes ++ ["APPROVAL_PATH_MISSING"].

Definition any_code (codes : list string) (issues : list ReadinessIssue) : bool :=
  existsb (λ i, mem (issue_code i) codes) issues.

(** No attestation carries one of these codes as its refusal code. *)
Definition refusals_avoid (codes : list string) (c : ReadinessContext) : Prop :=
  ∀ r code, r ∈ rc_identities c → ir_refusal_code r = Some code →
            reason_code_str code ∉ codes.

Lemma any_code_app codes l k : any_code codes (l ++ k) = any_code codes l || any_code codes k.
Proof. apply existsb_app. Qed.

Lemma any_code_push codes b i :
  any_code codes (push_if b i) = b && mem (issue_code i) codes.
Proof. destruct b; [|done]. unfold any_code. simpl. by rewrite orb_false_r. Qed.

Lemma find_map_some {A B} (f : A → option B) l y :
  find_map f l = Some y → ∃ x, x ∈ l ∧ f x = Some y.
Proof.
  induction l as [|x l IH]; simpl; [done|]. destruct (f x) eqn:E.
  - intros [= ->]. exists x. split; [left|done].
  - intros H. destruct (IH H) as (z & ? & ?). exists z. split; [by right|done].
Qed.

(** Identity issues carry their literal codes or a refusal code. *)
Lemma identity_issues_codes codes c :
  refusals_avoid codes c →
  "IDENTITY_ROLES_INCOMPLETE" ∉ codes → "IDENTITY_BINDING_NOT_READY" ∉ codes →
  "IDENTITY_PRINCIPAL_SEPARATION_UNPROVEN" ∉ codes →
  any_code codes (identity_issues c) = false.
Proof.
  intros Ha H1 H2 H3.
  assert (∀ role, any_code codes (role_issues c role) = false) as Hrole.
  { intros role. unfold role_issues. rewrite any_code_push. apply andb_false_iff. right.
    apply mem_false. simpl. destruct (head _) as [r|] eqn:E; simpl; [|done].
    destruct (ir_refusal_code r) eqn:Er; [|done]. apply (Ha r); [|done].
    assert (r ∈ List.filter (λ r, bool_decide (ir_role r = role)) (rc_identities c)) as Hr
      by (destruct (List.filter _ _); simplify_eq/=; left).
    by apply elem_of_filter_bool in Hr as [? _]. }
  unfold identity_issues. simpl. rewrite !any_code_app, !any_code_push, !Hrole. simpl.
  rewrite (proj2 (mem_false "IDENTITY_ROLES_INCOMPLETE" codes) H1), andb_false_r. simpl.
  apply andb_false_iff. right. apply mem_false.
  destruct (find_map _ _) as [code|] eqn:E; [|done].
  apply find_map_some in E as (r & ? & ?). by apply (Ha r).
Qed.

(** The status the conditions call for, in the order of precedence. *)
Definition status_of (c : ReadinessContext) : ReadinessStatus :=
  if negb (production_supported_v1 (rc_closure_target c)) then ReadinessStatus.Unsupported
  else if rc_dependencies_known c && negb (rc_dependency_cycle c)
          && negb (rc_dependencies_satisfied c) then ReadinessStatus.BlockedDependency
  else if negb (rc_path_and_check_policy_compiled c)
          || risk_not_automatable (risk_class (rc_risk c))
          || (rc_dependencies_known c && rc_dependency_cycle c)
       then ReadinessStatus.PolicyRefused
  else if negb (rc_required_approval_present_or_scheduled c)
       then ReadinessStatus.NeedsApproval
  else ReadinessStatus.NeedsSpec.

Lemma classify_cons issues :
  issues ≠ [] →
  classify issues =
    if any_code unsupported_codes issues then ReadinessStatus.Unsupported
    else if any_code ["DEPENDENCY_BLOCKED"] issues then ReadinessStatus.BlockedDependency
    else if any_code policy_codes issues then ReadinessStatus.PolicyRefused
    else if any_code ["APPROVAL_PATH_MISSING"] issues then ReadinessStatus.NeedsApproval
    else ReadinessStatus.NeedsSpec.
Proof. by destruct issues. Qed.

Lemma refusals_avoid_mono c codes codes' :
  codes ⊆ codes' → refusals_avoid codes' c → refusals_avoid codes c.
Proof. intros Hs H r code Hr Hc Hin. by eapply H; eauto. Qed.

(** Compute which literal codes belong to a literal list of codes. *)
Ltac ground_codes :=
  repeat match goal with
  | |- context [mem ?s ?l] =>
      let b := eval vm_compute in (mem s l) in change (mem s l) with b
  end; rewrite ?andb_true_r, ?andb_false_r.

Lemma any_code_issues codes c :
  codes ⊆ status_codes → refusals_avoid status_codes c →
  any_code codes (rr_issues (evaluate c)) =
  any_code codes (source_issues c) || any_code codes (policy_issues c)
  || any_code codes (resource_issues c).
Proof.
  intros Hs Ha. simpl. rewrite !any_code_app, (identity_issues_codes codes c).
  - by rewrite orb_assoc.
  - by eapply refusals_avoid_mono.
  - intros H%Hs. revert H. apply mem_false. by vm_compute.
  - intros H%Hs. revert H. apply mem_false. by vm_compute.
  - intros H%Hs. revert H. apply mem_false. by vm_compute.
Qed.

Lemma any_code_dependency codes c owner :
  any_code codes (dependency_issues c owner) =
  (negb (rc_dependencies_known c) && mem "DEPENDENCIES_UNKNOWN" codes)
  || (rc_dependencies_known c && rc_dependency_cycle c && mem "DEPENDENCY_CYCLE" codes)
  || (rc_dependencies_known c && negb (rc_dependency_cycle c)
      && negb (rc_dependencies_satisfied c) && mem "DEPENDENCY_BLOCKED" codes).
Proof.
  unfold dependency_issues, any_code.
  destruct (rc_dependencies_known c), (rc_dependency_cycle c), (rc_dependencies_satisfied c);
    simpl; by rewrite ?orb_false_r.
Qed.

(** The status of a report that is not ready names the most serious
    condition that fails (unsupported target, blocked dependency, policy, missing
    approval, otherwise specification), provided no identity attestation carries
    one of the engine's own issue codes as its refusal code. *)
Lemma classification_exact c :
  refusals_avoid status_codes c → ¬ ready_to_accept c →
  rr_status (evaluate c) = status_of c.
Proof.
  intros Ha Hn.
  assert (rr_issues (evaluate c) ≠ []) as Hi.
  { intros E. apply Hn, readiness_ready. simpl. by rewrite classify_ready. }
  change (rr_status (evaluate c)) with (classify (rr_issues (evaluate c))).
  rewrite classify_cons by done.
  rewrite !any_code_issues by (done || (vm_compute; set_solver)).
  unfold source_issues, policy_issues, resource_issues, status_of.
  rewrite !any_code_app, !any_code_push, !any_code_dependency.
  cbn [issue_code]. ground_codes. simpl.
  destruct (rc_dependencies_known c), (rc_dependency_cycle c), (rc_dependencies_satisfied c),
    (production_supported_v1 _), (rc_path_and_check_policy_compiled c),
    (risk_not_automatable _), (rc_required_approval_present_or_scheduled c); reflexivity.
Qed.

(** A context that is ready but for its implementer, whose attestation refuses
    with the given code. *)
Definition sample_readiness (role : IdentityRole) (profile principal : string)
    (refusal : option IdentityReasonCode) : IdentityReadiness :=
  {| ir_profile_ref := mkProfileRef profile; ir_role := role;
     ir_environment := mkAutomationEnvironment "production"; ir_worker_id := 7%N;
     ir_worker_generation := 1; ir_policy_digest := "p"; ir_checked_at := 0;
     ir_valid_until := 10;
     ir_checks := mkIdentityReadinessChecks ReadinessCheckStatus.Passed
       (if is_some refusal then ReadinessCheckStatus.Failed else ReadinessCheckStatus.Passed)
       ReadinessCheckStatus.Passed ReadinessCheckStatus.Passed ReadinessCheckStatus.Passed
       ReadinessCheckStatus.NotApplicable ReadinessCheckStatus.Passed;
     ir_principal_ref := Some (mkCtxlanePrincipalRef principal); ir_workspace_ref := None;
     ir_auth_mode := Some CtxlaneAuthMode.Wif;
     ir_isolation := CredentialIsolation.CredentialIsolated; ir_refusal_code := refusal |}.

Definition sample_worker : Worker :=
  mkWorker 7%N 1%N "w" "https://w" 1 WorkerHealth.Healthy
    (mkWorkerCapabilities "v1" (bs_of_list ["asf.work-order/v1"])
       (bs_of_list ["runmill.evidence/v1"]) (bs_of_list ["pr"]) bs_empty true true true)
    1 0 0.

Definition sample_context (refusal : option IdentityReasonCode) : ReadinessContext :=
  {| rc_snapshot := mkSourceSnapshot 1%N 1%N None
       (mkSourceSnapshotContent SourceSystem.Linear "X-1" "r1" None "t" "objective" ["done"] []
          bs_empty 50 "open" None None 0) "d" 0 "c";
     rc_source_is_current := true;
     rc_repository := Some (mkRepository 2%N 1%N "github" "o" "n" "main" "p" "h" bs_empty
       bs_empty 1 AutonomyLevel.SupervisedPullRequest None true 1 0 0);
     rc_closure_target := ClosureTarget.PullRequest;
     rc_risk := mkRiskAssessment RiskClass.Low [] bs_empty;
     rc_dependencies_known := true; rc_dependency_cycle := false;
     rc_dependencies_satisfied := true; rc_exact_base_sha := Some "abc";
     rc_path_and_check_policy_compiled := true;
     rc_identity_requirements := mkWorkOrderIdentities (mkProfileRef "claude:a")
       (mkProfileRef "codex:b") (mkProfileRef "codex:b");
     rc_identity_environment := mkAutomationEnvironment "production";
     rc_identities :=
       [ sample_readiness IdentityRole.Implementer "claude:a" "alice" refusal;
         sample_readiness IdentityRole.LocalReviewer "codex:b" "bob" None;
         sample_readiness IdentityRole.PrReviewer "codex:b" "bob" None ];
     rc_worker := Some sample_worker; rc_budgets_reservable := true;
     rc_required_approval_present_or_scheduled := true; rc_policy_digest := "p"; rc_now := 5 |}.

Lemma classification_exact_witness :
  rr_status (evaluate (sample_context (Some (mkIdentityReasonCode "token.expired"))))
  = ReadinessStatus.NeedsSpec.
Proof.
  apply (classification_exact (sample_context (Some (mkIdentityReasonCode "token.expired")))).
  - intros r code Hr Hc. apply mem_false. revert Hc.
    assert (Forall (λ r, ir_refusal_code r = Some code →
      mem (reason_code_str code) status_codes = false) (rc_identities
        (sample_context (Some (mkIdentityReasonCode "token.expired"))))) as Hf
      by (repeat constructor; intros [= <-]; by vm_compute).
    by rewrite Forall_forall in Hf; apply Hf.
  - rewrite <- readiness_ready. by vm_compute.
Defined.

(** The proviso of the classification is needed: the refusal code of an
    attestation is copied into the issue code that selects the status, so a
    worker's well-formed refusal code "DEPENDENCY_BLOCKED" reports an item whose
    dependencies are all satisfied as blocked on a dependency.  (With no refusal
    the same item is ready.) *)
Lemma refusal_code_decides_status :
  let c := sample_context (Some (mkIdentityReasonCode "DEPENDENCY_BLOCKED")) in
  rr_status (evaluate (sample_context None)) = ReadinessStatus.Ready ∧
  IdentityReasonCode_from_str "DEPENDENCY_BLOCKED"
    = Ok (mkIdentityReasonCode "DEPENDENCY_BLOCKED") ∧
  Forall (λ r, IdentityReadiness_validate r = Ok tt) (rc_identities c) ∧
  rc_dependencies_known c = true ∧ rc_dependency_cycle c = false ∧
  rc_dependencies_satisfied c = true ∧
  rr_status (evaluate c) = ReadinessStatus.BlockedDependency.
Proof. split_and!; try by vm_compute. repeat constructor. Qed.
