(* ===== verification/Workflow.v ===== *)
(** The workflow reducer, [src/src/application/workflow.rs]: one step of the
    durable workflow of an accepted item, the effects it orders and the
    accountability anchor it leaves.

    Additions on counters are modelled with overflow checks: [Panic] stands for
    the overflow, and for an instant or a duration outside the range of
    [chrono].  [apply_total] states when neither happens. *)

From Stdlib Require Import ZArith Lia Ascii.
From stdpp Require Import base tactics option list strings pretty sets.
From S2P Require Import Prelude RustStr RustOrd Ids WorkItem Governance.

Module WorkflowStage.
Inductive WorkflowStage :=
| Accepted | WaitingSchedule | Authorizing | Dispatching | ObservingRun
| VerifyingEvidence | ClosingSource | Closed | WaitingRetry | WaitingApproval
| Escalated | Cancelling | Cancelled | Quarantined.
End WorkflowStage.
Abbreviation WorkflowStage := WorkflowStage.WorkflowStage.

#[global] Instance WorkflowStage_eq_dec : EqDecision WorkflowStage.
Proof. solve_decision. Defined.

Record WorkflowState := mkWorkflowState {
  ws_work_item_id : WorkItemId;
  ws_stage : WorkflowStage;
  ws_generation : Z;
  ws_run_id : option RunId;
  ws_evidence_id : option EvidenceId;
  ws_attempt_number : Z;
  ws_retry_count : Z;
  ws_accountability : AccountabilityAnchor
}.

Module RunStop.
Inductive RunStop :=
| EvidenceAvailable (evidence_id : EvidenceId)
| RetryableFailure (reason : string)
| ApprovalRequired (approval_type : ApprovalType) (reason : string)
| BudgetExhausted (reason : string)
| ProviderRefused (reason : string)
| VerificationFailed (reason : string)
| ReviewBlocked (reason : string)
| CiFailed (reason : string)
| AmbiguousRemoteEffect (reason : string)
| Quarantined (reason : string)
| Cancelled.
End RunStop.
Abbreviation RunStop := RunStop.RunStop.

Module WorkflowFact.
Inductive WorkflowFact :=
| ScheduleRequested
| ScheduleGranted
| WorkOrderStored (digest : string)
| SubmissionAccepted (run_id : RunId)
| SubmissionAmbiguous
| RunStopped (stop : RunStop)
| EvidenceValidated (evidence_id : EvidenceId)
| EvidenceRejected (reason : string)
| SourceCloseConfirmed
| SourceCloseAmbiguous
| RetryDue
| ApprovalGranted (approval_type : ApprovalType)
| ApprovalRejected (reason : string)
| CancelRequested
| CancellationConfirmed.
End WorkflowFact.
Abbreviation WorkflowFact := WorkflowFact.WorkflowFact.

Module WorkflowEffect.
Inductive WorkflowEffect :=
| EnqueueScheduler
| ReserveAndCreateAttempt
| SignAndStoreWorkOrder
| SubmitStoredWorkOrder
| ObserveRun (run_id : RunId)
| ReconcileSubmission
| FetchAndVerifyEvidence (evidence_id : EvidenceId)
| ScheduleRetry (at_ : DateTime) (reason : string)
| RequestApproval (approval_type : ApprovalType) (reason : string)
| OpenEscalation (category : EscalationCategory) (reason : string)
| CloseSource (evidence_id : EvidenceId)
| ReconcileSourceClosure
| RequestRunCancellation
| ReleaseReservations
| None_.
End WorkflowEffect.
Abbreviation WorkflowEffect := WorkflowEffect.WorkflowEffect.

Record WorkflowTransition := mkWorkflowTransition {
  wt_state : WorkflowState;
  wt_effects : list WorkflowEffect
}.

(** ** [#[derive(Debug)]] renderings *)

Definition ApprovalType_debug (t : ApprovalType) : string :=
  match t with
  | ApprovalType.PlannerInterpretation => "PlannerInterpretation"
  | ApprovalType.RiskImplementation => "RiskImplementation"
  | ApprovalType.ProtectedPath => "ProtectedPath"
  | ApprovalType.PullRequestDeliveryException => "PullRequestDeliveryException"
  | ApprovalType.GuardedMerge => "GuardedMerge"
  | ApprovalType.AmbiguousExternalEffect => "AmbiguousExternalEffect"
  | ApprovalType.BudgetIncrease => "BudgetIncrease"
  | ApprovalType.Cancellation => "Cancellation"
  end.

Definition EscalationCategory_debug (c : EscalationCategory) : string :=
  match c with
  | EscalationCategory.NeedsSpec => "NeedsSpec"
  | EscalationCategory.NeedsApproval => "NeedsApproval"
  | EscalationCategory.BlockedDependency => "BlockedDependency"
  | EscalationCategory.BlockedExternal => "BlockedExternal"
  | EscalationCategory.IdentityUnavailable => "IdentityUnavailable"
  | EscalationCategory.WorkerUnavailable => "WorkerUnavailable"
  | EscalationCategory.VerificationFailed => "VerificationFailed"
  | EscalationCategory.ReviewBlocked => "ReviewBlocked"
  | EscalationCategory.CiFailed => "CiFailed"
  | EscalationCategory.RemoteEffectAmbiguous => "RemoteEffectAmbiguous"
  | EscalationCategory.BudgetExhausted => "BudgetExhausted"
  | EscalationCategory.ProviderRefused => "ProviderRefused"
  | EscalationCategory.PolicyRefused => "PolicyRefused"
  | EscalationCategory.WorkflowJobExhausted => "WorkflowJobExhausted"
  | EscalationCategory.Quarantined => "Quarantined"
  | EscalationCategory.SecurityIncident => "SecurityIncident"
  end.

Definition WorkflowStage_debug (s : WorkflowStage) : string :=
  match s with
  | WorkflowStage.Accepted => "Accepted"
  | WorkflowStage.WaitingSchedule => "WaitingSchedule"
  | WorkflowStage.Authorizing => "Authorizing"
  | WorkflowStage.Dispatching => "Dispatching"
  | WorkflowStage.ObservingRun => "ObservingRun"
  | WorkflowStage.VerifyingEvidence => "VerifyingEvidence"
  | WorkflowStage.ClosingSource => "ClosingSource"
  | WorkflowStage.Closed => "Closed"
  | WorkflowStage.WaitingRetry => "WaitingRetry"
  | WorkflowStage.WaitingApproval => "WaitingApproval"
  | WorkflowStage.Escalated => "Escalated"
  | WorkflowStage.Cancelling => "Cancelling"
  | WorkflowStage.Cancelled => "Cancelled"
  | WorkflowStage.Quarantined => "Quarantined"
  end.

Definition reason_debug (name reason : string) : message :=
  [Lit name; Lit " { reason: "; Dbg reason; Lit " }"].

Definition RunStop_debug (s : RunStop) : message :=
  match s with
  | RunStop.EvidenceAvailable e =>
      [Lit "EvidenceAvailable { evidence_id: EvidenceId("; FmtUuid e; Lit ") }"]
  | RunStop.RetryableFailure r => reason_debug "RetryableFailure" r
  | RunStop.ApprovalRequired t r =>
      [Lit "ApprovalRequired { approval_type: "; Lit (ApprovalType_debug t);
       Lit ", reason: "; Dbg r; Lit " }"]
  | RunStop.BudgetExhausted r => reason_debug "BudgetExhausted" r
  | RunStop.ProviderRefused r => reason_debug "ProviderRefused" r
  | RunStop.VerificationFailed r => reason_debug "VerificationFailed" r
  | RunStop.ReviewBlocked r => reason_debug "ReviewBlocked" r
  | RunStop.CiFailed r => reason_debug "CiFailed" r
  | RunStop.AmbiguousRemoteEffect r => reason_debug "AmbiguousRemoteEffect" r
  | RunStop.Quarantined r => reason_debug "Quarantined" r
  | RunStop.Cancelled => [Lit "Cancelled"]
  end.

Definition WorkflowFact_debug (f : WorkflowFact) : message :=
  match f with
  | WorkflowFact.ScheduleRequested => [Lit "ScheduleRequested"]
  | WorkflowFact.ScheduleGranted => [Lit "ScheduleGranted"]
  | WorkflowFact.WorkOrderStored d => [Lit "WorkOrderStored { digest: "; Dbg d; Lit " }"]
  | WorkflowFact.SubmissionAccepted r =>
      [Lit "SubmissionAccepted { run_id: RunId("; FmtUuid r; Lit ") }"]
  | WorkflowFact.SubmissionAmbiguous => [Lit "SubmissionAmbiguous"]
  | WorkflowFact.RunStopped s => [Lit "RunStopped("] ++ RunStop_debug s ++ [Lit ")"]
  | WorkflowFact.EvidenceValidated e =>
      [Lit "EvidenceValidated { evidence_id: EvidenceId("; FmtUuid e; Lit ") }"]
  | WorkflowFact.EvidenceRejected r => reason_debug "EvidenceRejected" r
  | WorkflowFact.SourceCloseConfirmed => [Lit "SourceCloseConfirmed"]
  | WorkflowFact.SourceCloseAmbiguous => [Lit "SourceCloseAmbiguous"]
  | WorkflowFact.RetryDue => [Lit "RetryDue"]
  | WorkflowFact.ApprovalGranted t =>
      [Lit "ApprovalGranted { approval_type: "; Lit (ApprovalType_debug t); Lit " }"]
  | WorkflowFact.ApprovalRejected r => reason_debug "ApprovalRejected" r
  | WorkflowFact.CancelRequested => [Lit "CancelRequested"]
  | WorkflowFact.CancellationConfirmed => [Lit "CancellationConfirmed"]
  end.

(** ** The reducer *)

Definition anchor (work_item_id : WorkItemId) (kind : AccountabilityKind)
    (reference_id : string) (wake_or_deadline_at : option DateTime) (generation : Z)
    (now : DateTime) : AccountabilityAnchor :=
  mkAnchor work_item_id kind reference_id wake_or_deadline_at generation now.

Definition WorkflowState_accepted (work_item_id : WorkItemId) (now : DateTime) : WorkflowState :=
  {| ws_work_item_id := work_item_id;
     ws_stage := WorkflowStage.Accepted;
     ws_generation := 1;
     ws_run_id := None;
     ws_evidence_id := None;
     ws_attempt_number := 0;
     ws_retry_count := 0;
     ws_accountability := anchor work_item_id AccountabilityKind.ActiveWorkflow
       "workflow:accepted" None 1 now |}.

Record WorkflowReducer := mkWorkflowReducer {
  retry_backoff : Duration;
  escalation_sla : Duration;
  approval_sla : Duration;
  max_retries : Z
}.

(** [impl Default for WorkflowReducer]. *)
Definition WorkflowReducer_default : WorkflowReducer :=
  {| retry_backoff := minutes 5; escalation_sla := hours 4; approval_sla := hours 8;
     max_retries := 2 |}.

(** The tuple both matches produce. *)
Definition outcome : Type :=
  WorkflowStage * list WorkflowEffect * AccountabilityKind * string * option DateTime.

(** Assignments to fields of the state. *)
Definition set_generation (s : WorkflowState) (g : Z) : WorkflowState :=
  let 'mkWorkflowState wi st _ ru ev at_ re ac := s in
  mkWorkflowState wi st g ru ev at_ re ac.
Definition set_run_id (s : WorkflowState) (r : RunId) : WorkflowState :=
  let 'mkWorkflowState wi st ge _ ev at_ re ac := s in
  mkWorkflowState wi st ge (Some r) ev at_ re ac.
Definition set_evidence_id (s : WorkflowState) (e : EvidenceId) : WorkflowState :=
  let 'mkWorkflowState wi st ge ru _ at_ re ac := s in
  mkWorkflowState wi st ge ru (Some e) at_ re ac.
Definition set_attempt_number (s : WorkflowState) (n : Z) : WorkflowState :=
  let 'mkWorkflowState wi st ge ru ev _ re ac := s in
  mkWorkflowState wi st ge ru ev n re ac.
Definition set_retry_count (s : WorkflowState) (n : Z) : WorkflowState :=
  let 'mkWorkflowState wi st ge ru ev at_ _ ac := s in
  mkWorkflowState wi st ge ru ev at_ n ac.
Definition set_stage_anchor (s : WorkflowState) (stage : WorkflowStage)
    (a : AccountabilityAnchor) : WorkflowState :=
  let 'mkWorkflowState wi _ ge ru ev at_ re _ := s in
  mkWorkflowState wi stage ge ru ev at_ re a.

Definition escalation (stage : WorkflowStage) (category : EscalationCategory)
    (reason : string) (deadline : DateTime) : outcome :=
  (stage, [WorkflowEffect.OpenEscalation category reason], AccountabilityKind.Escalation,
   "escalation:" +:+ EscalationCategory_debug category, Some deadline).

Section reducer.
  Context {chrono : Chrono} {uuids : UuidText}.

Definition handle_run_stop (r : WorkflowReducer) (state : WorkflowState) (stop : RunStop)
    (now : DateTime) : res (WorkflowState * outcome) :=
  let escalate stage category reason :=
    deadline ← dt_add now (escalation_sla r);
    Ok (state, escalation stage category reason deadline) in
  match stop with
  | RunStop.EvidenceAvailable evidence_id =>
      Ok (state, (WorkflowStage.VerifyingEvidence,
                  [WorkflowEffect.FetchAndVerifyEvidence evidence_id],
                  AccountabilityKind.ActiveWorkflow,
                  "evidence:" +:+ uuid_to_string evidence_id +:+ ":verify", None))
  | RunStop.RetryableFailure reason =>
      if ws_retry_count state <? max_retries r then
        count ← add_assign u32_max (ws_retry_count state) 1;
        let state := set_retry_count state count in
        let multiplier := match try_from i32_max count with
                          | Some m => m | None => i32_max end in
        backoff ← duration_mul (retry_backoff r) multiplier;
        at_ ← dt_add now backoff;
        Ok (state, (WorkflowStage.WaitingRetry, [WorkflowEffect.ScheduleRetry at_ reason],
                    AccountabilityKind.Retry,
                    "retry:" +:+ pretty count +:+ ":" +:+ reason, Some at_))
      else escalate WorkflowStage.Escalated EscalationCategory.BlockedExternal
             ("retry limit reached: " +:+ reason)
  | RunStop.ApprovalRequired approval_type reason =>
      deadline ← dt_add now (approval_sla r);
      Ok (state, (WorkflowStage.WaitingApproval,
                  [WorkflowEffect.RequestApproval approval_type reason],
                  AccountabilityKind.Approval,
                  "approval:" +:+ ApprovalType_debug approval_type +:+ ":" +:+ reason,
                  Some deadline))
  | RunStop.BudgetExhausted reason =>
      escalate WorkflowStage.Escalated EscalationCategory.BudgetExhausted reason
  | RunStop.ProviderRefused reason =>
      escalate WorkflowStage.Escalated EscalationCategory.ProviderRefused reason
  | RunStop.VerificationFailed reason =>
      escalate WorkflowStage.Escalated EscalationCategory.VerificationFailed reason
  | RunStop.ReviewBlocked reason =>
      escalate WorkflowStage.Escalated EscalationCategory.ReviewBlocked reason
  | RunStop.CiFailed reason =>
      escalate WorkflowStage.Escalated EscalationCategory.CiFailed reason
  | RunStop.AmbiguousRemoteEffect reason =>
      escalate WorkflowStage.Escalated EscalationCategory.RemoteEffectAmbiguous reason
  | RunStop.Quarantined reason =>
      escalate WorkflowStage.Quarantined EscalationCategory.Quarantined reason
  | RunStop.Cancelled =>
      Ok (state, (WorkflowStage.Cancelled, [WorkflowEffect.ReleaseReservations],
                  AccountabilityKind.Cancellation, "run:cancelled", None))
  end.

(** The stages that accept [CancelRequested]. *)
Definition cancellable (s : WorkflowStage) : bool :=
  match s with
  | WorkflowStage.Accepted | WorkflowStage.WaitingSchedule | WorkflowStage.Authorizing
  | WorkflowStage.Dispatching | WorkflowStage.ObservingRun | WorkflowStage.VerifyingEvidence
  | WorkflowStage.WaitingRetry | WorkflowStage.WaitingApproval | WorkflowStage.Escalated
  | WorkflowStage.Quarantined => true
  | _ => false
  end.

(** The [match (current, fact)] of [apply]. *)
Definition reduce (r : WorkflowReducer) (state : WorkflowState) (fact : WorkflowFact)
    (now : DateTime) : res (WorkflowState * outcome) :=
  let current := ws_stage state in
  let refuse := Err (InvalidTransition [Lit (WorkflowStage_debug current)]
                                       (WorkflowFact_debug fact)) in
  match current, fact with
  | WorkflowStage.Accepted, WorkflowFact.ScheduleRequested =>
      Ok (state, (WorkflowStage.WaitingSchedule, [WorkflowEffect.EnqueueScheduler],
                  AccountabilityKind.ActiveWorkflow, "scheduler:queued", None))
  | WorkflowStage.WaitingSchedule, WorkflowFact.ScheduleGranted =>
      number ← add_assign u32_max (ws_attempt_number state) 1;
      Ok (set_attempt_number state number,
          (WorkflowStage.Authorizing, [WorkflowEffect.ReserveAndCreateAttempt],
           AccountabilityKind.ActiveWorkflow,
           "attempt:" +:+ pretty number +:+ ":authorizing", None))
  | WorkflowStage.Authorizing, WorkflowFact.WorkOrderStored digest =>
      Ok (state, (WorkflowStage.Dispatching, [WorkflowEffect.SubmitStoredWorkOrder],
                  AccountabilityKind.ActiveWorkflow, digest, None))
  | WorkflowStage.Dispatching, WorkflowFact.SubmissionAccepted run_id =>
      Ok (set_run_id state run_id,
          (WorkflowStage.ObservingRun, [WorkflowEffect.ObserveRun run_id],
           AccountabilityKind.ActiveRun, uuid_to_string run_id, None))
  | WorkflowStage.Dispatching, WorkflowFact.SubmissionAmbiguous =>
      wake ← dt_add now (seconds 10);
      Ok (state, (WorkflowStage.Dispatching, [WorkflowEffect.ReconcileSubmission],
                  AccountabilityKind.Timer, "dispatch:reconcile", Some wake))
  | WorkflowStage.ObservingRun, WorkflowFact.RunStopped stop =>
      handle_run_stop r state stop now
  | WorkflowStage.VerifyingEvidence, WorkflowFact.EvidenceValidated evidence_id =>
      Ok (set_evidence_id state evidence_id,
          (WorkflowStage.ClosingSource, [WorkflowEffect.CloseSource evidence_id],
           AccountabilityKind.ActiveWorkflow,
           "source-close:" +:+ uuid_to_string evidence_id, None))
  | WorkflowStage.VerifyingEvidence, WorkflowFact.EvidenceRejected reason =>
      deadline ← dt_add now (escalation_sla r);
      Ok (state, (WorkflowStage.Quarantined,
                  [WorkflowEffect.OpenEscalation EscalationCategory.VerificationFailed reason],
                  AccountabilityKind.Escalation, "escalation:verification-failed",
                  Some deadline))
  | WorkflowStage.ClosingSource, WorkflowFact.SourceCloseConfirmed =>
      Ok (state, (WorkflowStage.Closed, [WorkflowEffect.ReleaseReservations],
                  AccountabilityKind.VerifiedClosure,
                  match ws_evidence_id state with
                  | Some id => uuid_to_string id
                  | None => "evidence:missing"
                  end, None))
  | WorkflowStage.ClosingSource, WorkflowFact.SourceCloseAmbiguous =>
      wake ← dt_add now (seconds 30);
      Ok (state, (WorkflowStage.ClosingSource, [WorkflowEffect.ReconcileSourceClosure],
                  AccountabilityKind.Timer, "source-close:reconcile", Some wake))
  | WorkflowStage.WaitingRetry, WorkflowFact.RetryDue =>
      Ok (state, (WorkflowStage.WaitingSchedule, [WorkflowEffect.EnqueueScheduler],
                  AccountabilityKind.ActiveWorkflow, "scheduler:retry", None))
  | WorkflowStage.WaitingApproval, WorkflowFact.ApprovalGranted _ =>
      Ok (state, (WorkflowStage.WaitingSchedule, [WorkflowEffect.EnqueueScheduler],
                  AccountabilityKind.ActiveWorkflow, "scheduler:approved", None))
  | WorkflowStage.WaitingApproval, WorkflowFact.ApprovalRejected reason =>
      deadline ← dt_add now (escalation_sla r);
      Ok (state, (WorkflowStage.Escalated,
                  [WorkflowEffect.OpenEscalation EscalationCategory.NeedsApproval reason],
                  AccountabilityKind.Escalation, "escalation:approval-rejected",
                  Some deadline))
  | _, WorkflowFact.CancelRequested =>
      if cancellable current then
        Ok (state, (WorkflowStage.Cancelling, [WorkflowEffect.RequestRunCancellation],
                    AccountabilityKind.ActiveWorkflow, "cancellation:requested", None))
      else refuse
  | WorkflowStage.Cancelling, WorkflowFact.CancellationConfirmed =>
      Ok (state, (WorkflowStage.Cancelled, [WorkflowEffect.ReleaseReservations],
                  AccountabilityKind.Cancellation, "cancelled", None))
  | _, _ => refuse
  end.

Definition apply_fact (r : WorkflowReducer) (state : WorkflowState) (fact : WorkflowFact)
    (now : DateTime) : res WorkflowTransition :=
  generation ← ok_or (checked_add u64_max (ws_generation state) 1)
    (Conflict [Lit "workflow generation overflowed"]);
  let state := set_generation state generation in
  '(state, (stage, effects, kind, reference, wake)) ← reduce r state fact now;
  Ok {| wt_state := set_stage_anchor state stage
          (anchor (ws_work_item_id state) kind reference wake (ws_generation state) now);
        wt_effects := effects |}.
End reducer.

(** ** Runs *)

Definition terminal (s : WorkflowStage) : bool :=
  match s with WorkflowStage.Closed | WorkflowStage.Cancelled => true | _ => false end.

(** Stages after the submission of the current attempt was accepted. *)
Definition run_known (s : WorkflowStage) : bool :=
  match s with
  | WorkflowStage.ObservingRun | WorkflowStage.VerifyingEvidence | WorkflowStage.ClosingSource
  | WorkflowStage.Closed | WorkflowStage.WaitingRetry | WorkflowStage.WaitingApproval
  | WorkflowStage.Escalated | WorkflowStage.Quarantined => true
  | _ => false
  end.

(** Stages in which an attempt is under way. *)
Definition attempting (s : WorkflowStage) : bool :=
  match s with
  | WorkflowStage.Authorizing | WorkflowStage.Dispatching | WorkflowStage.ObservingRun
  | WorkflowStage.VerifyingEvidence | WorkflowStage.ClosingSource => true
  | _ => false
  end.

Definition closing (s : WorkflowStage) : bool :=
  match s with WorkflowStage.ClosingSource | WorkflowStage.Closed => true | _ => false end.

(** The kinds of anchor a stage can have. *)
Definition stage_kinds (s : WorkflowStage) : list AccountabilityKind :=
  match s with
  | WorkflowStage.Dispatching | WorkflowStage.ClosingSource =>
      [AccountabilityKind.ActiveWorkflow; AccountabilityKind.Timer]
  | WorkflowStage.ObservingRun => [AccountabilityKind.ActiveRun]
  | WorkflowStage.Closed => [AccountabilityKind.VerifiedClosure]
  | WorkflowStage.WaitingRetry => [AccountabilityKind.Retry]
  | WorkflowStage.WaitingApproval => [AccountabilityKind.Approval]
  | WorkflowStage.Escalated | WorkflowStage.Quarantined => [AccountabilityKind.Escalation]
  | WorkflowStage.Cancelled => [AccountabilityKind.Cancellation]
  | _ => [AccountabilityKind.ActiveWorkflow]
  end.

(** Kinds under which the item waits for a clock or a person. *)
Definition waits (k : AccountabilityKind) : bool :=
  match k with
  | AccountabilityKind.Timer | AccountabilityKind.Retry | AccountabilityKind.Approval
  | AccountabilityKind.Escalation => true
  | _ => false
  end.

Section runs.
  Context {chrono : Chrono} {uuids : UuidText} (r : WorkflowReducer).

(** Facts applied in sequence; the effects ordered along the way. *)
Fixpoint run (s : WorkflowState) (facts : list (WorkflowFact * DateTime))
  : res (WorkflowState * list WorkflowEffect) :=
  match facts with
  | [] => Ok (s, [])
  | (f, now) :: facts =>
      t ← apply_fact r s f now;
      '(s', effects) ← run (wt_state t) facts;
      Ok (s', wt_effects t ++ effects)
  end.

Lemma run_snoc s facts f now s' effects :
  run s (facts ++ [(f, now)]) = Ok (s', effects) →
  ∃ s1 e1 t, run s facts = Ok (s1, e1) ∧ apply_fact r s1 f now = Ok t ∧
             s' = wt_state t ∧ effects = e1 ++ wt_effects t.
Proof.
  revert s effects. induction facts as [|[g at_] facts IH]; intros s effects; simpl.
  - intros Hr. apply bind_ok in Hr as (t & Ht & [= <- <-]).
    exists s, [], t. by rewrite app_nil_r.
  - intros Hr. apply bind_ok in Hr as (t & Ht & Hr).
    apply bind_ok in Hr as ([s2 e2] & Hr & [= <- <-]).
    destruct (IH _ _ Hr) as (s1 & e1 & t1 & Hs1 & Ht1 & -> & ->).
    rewrite Ht. simpl. rewrite Hs1. simpl.
    eexists s1, _, t1. split_and!; [done|done|done|by rewrite app_assoc].
Qed.

(** Invariants of runs, by induction on the facts applied so far. *)
Lemma run_invariant (I : list WorkflowFact → WorkflowState → list WorkflowEffect → Prop) s0 :
  I [] s0 [] →
  (∀ fs s es f now t, I fs s es → apply_fact r s f now = Ok t →
     I (fs ++ [f]) (wt_state t) (es ++ wt_effects t)) →
  ∀ facts s es, run s0 facts = Ok (s, es) → I (facts.*1) s es.
Proof.
  intros H0 Hstep facts. induction facts as [|[f now] facts IH] using rev_ind; intros s es Hr.
  - by injection Hr as <- <-.
  - apply run_snoc in Hr as (s1 & e1 & t & Hr & Ht & -> & ->).
    rewrite fmap_app. simpl. eapply Hstep; eauto.
Qed.

Lemma apply_inv s f now t :
  apply_fact r s f now = Ok t →
  ∃ s1 st es k rf wk,
    ws_generation s + 1 ≤ u64_max ∧
    reduce r (set_generation s (ws_generation s + 1)) f now = Ok (s1, (st, es, k, rf, wk)) ∧
    t = mkWorkflowTransition (set_stage_anchor s1 st
          (anchor (ws_work_item_id s1) k rf wk (ws_generation s1) now)) es.
Proof.
  unfold apply_fact. intros Ha.
  apply bind_ok in Ha as (g & Hg & Ha). apply ok_or_ok, checked_add_some in Hg as [Hg ->].
  apply bind_ok in Ha as ([s1 [[[[st es] k] rf] wk]] & Hr & [= <-]).
  eauto 10.
Qed.

Lemma add_assign_ok max a b c : add_assign max a b = Ok c ↔ a + b ≤ max ∧ c = a + b.
Proof. unfold add_assign. case_match; naive_solver lia. Qed.

(** The outcome of one step, by the stage it starts from and the fact. *)
Ltac step_cases Ha :=
  apply apply_inv in Ha as (?s1 & ?st & ?es & ?k & ?rf & ?wk & ?Hgen & Ha & ->);
  match type of Ha with reduce _ (set_generation ?s _) ?f _ = _ =>
    destruct s as [? stage ? ? ? ? ? ?]; destruct f as [| | | | |stop| | | | | | | | |];
    destruct stage; unfold reduce in Ha; cbn in Ha; try discriminate Ha; try destruct stop
  end;
  unfold handle_run_stop, escalation in *; cbn in Ha;
  repeat (match goal with
    | E : (if ?b then _ else _) = Ok _ |- _ => destruct b eqn:?
    | E : (_ ≫= _) = Ok _ |- _ =>
        let a := fresh "a" in let Hm := fresh "Hm" in
        apply bind_ok in E as (a & Hm & E)
    end; simpl in *); simplify_eq/=;
  rewrite ?add_assign_ok in *; reflect; simplify_eq/=; destruct_and?.

Record workflow_ok (id : WorkItemId) (s : WorkflowState) : Prop := {
  wo_item : ws_work_item_id s = id;
  wo_generation : 1 ≤ ws_generation s ≤ u64_max;
  wo_anchor : anchor_generation (ws_accountability s) = ws_generation s ∧
              anchor_work_item_id (ws_accountability s) = id;
  wo_kind : anchor_kind (ws_accountability s) ∈ stage_kinds (ws_stage s);
  wo_wake : is_some (anchor_wake_or_deadline_at (ws_accountability s))
            = waits (anchor_kind (ws_accountability s));
  wo_attempts : 0 ≤ ws_retry_count s ≤ ws_attempt_number s ∧
                ws_attempt_number s < ws_generation s;
  wo_attempting : attempting (ws_stage s) = true → ws_retry_count s < ws_attempt_number s;
  wo_retries : ws_retry_count s ≤ Z.max 0 (max_retries r);
  wo_run : run_known (ws_stage s) = true → is_Some (ws_run_id s);
  wo_evidence : is_some (ws_evidence_id s) = closing (ws_stage s);
  wo_closed : ws_stage s = WorkflowStage.Closed → ∃ e, ws_evidence_id s = Some e ∧
    anchor_reference_id (ws_accountability s) = uuid_to_string e
}.

Lemma accepted_ok id now : workflow_ok id (WorkflowState_accepted id now).
Proof. constructor; simpl; try done; unfold u64_max; try lia. left. Qed.

Lemma apply_preserves_ok id s f now t :
  workflow_ok id s → apply_fact r s f now = Ok t → workflow_ok id (wt_state t).
Proof.
  intros [] Ha. step_cases Ha.
  all: constructor; simpl in *; rewrite ?elem_of_cons, ?elem_of_nil; try done; try lia; auto.
  all: destruct wo_evidence0 as [? ->]; eauto.
Qed.

(** The digests of the stored Work Orders are not blank. *)
Definition digests_visible (fs : list WorkflowFact) : Prop :=
  ∀ d, WorkflowFact.WorkOrderStored d ∈ fs → blank d = false.

Lemma apply_reference_visible s f now t :
  apply_fact r s f now = Ok t → digests_visible [f] →
  blank (anchor_reference_id (ws_accountability (wt_state t))) = false.
Proof.
  intros Ha Hd. step_cases Ha.
  all: try (apply blank_head; vm_compute; split; reflexivity).
  all: try apply uuid_to_string_visible.
  - apply Hd. by left.
  - case_match; [apply uuid_to_string_visible|by vm_compute].
Qed.

(** ** Counting effects *)

Definition count (p : WorkflowEffect → bool) (es : list WorkflowEffect) : Z :=
  Z.of_nat (length (List.filter p es)).

Definition reserves (e : WorkflowEffect) : bool :=
  match e with WorkflowEffect.ReserveAndCreateAttempt => true | _ => false end.
Definition submits (e : WorkflowEffect) : bool :=
  match e with WorkflowEffect.SubmitStoredWorkOrder => true | _ => false end.
Definition retries (e : WorkflowEffect) : bool :=
  match e with WorkflowEffect.ScheduleRetry _ _ => true | _ => false end.
Definition releases (e : WorkflowEffect) : bool :=
  match e with WorkflowEffect.ReleaseReservations => true | _ => false end.
Definition closes (e : WorkflowEffect) : bool :=
  match e with WorkflowEffect.CloseSource _ => true | _ => false end.

Definition approvals (fs : list WorkflowFact) : Z :=
  Z.of_nat (length (List.filter
    (λ f, match f with WorkflowFact.ApprovalGranted _ => true | _ => false end) fs)).

Lemma count_app p l k : count p (l ++ k) = count p l + count p k.
Proof. unfold count. rewrite List.filter_app, length_app. lia. Qed.

Lemma approvals_app l k : approvals (l ++ k) = approvals l + approvals k.
Proof. unfold approvals. rewrite List.filter_app, length_app. lia. Qed.

(** An attempt that may still be started: one is owed to a waiting item. *)
Definition owed (s : WorkflowStage) : Z :=
  match s with
  | WorkflowStage.Accepted | WorkflowStage.WaitingSchedule | WorkflowStage.WaitingRetry => 1
  | _ => 0
  end.

(** Attempts whose Work Order has not been submitted yet. *)
Definition unsubmitted (s : WorkflowStage) : Z :=
  match s with WorkflowStage.Authorizing => 1 | _ => 0 end.

Record effects_accounted (fs : list WorkflowFact) (s : WorkflowState)
    (es : list WorkflowEffect) : Prop := {
  ea_reserves : count reserves es = ws_attempt_number s;
  ea_submits : count submits es + unsubmitted (ws_stage s) ≤ ws_attempt_number s;
  ea_retries : count retries es = ws_retry_count s;
  ea_attempts : ws_attempt_number s + owed (ws_stage s) ≤ 1 + ws_retry_count s + approvals fs;
  ea_closes : count closes es = if closing (ws_stage s) then 1 else 0;
  ea_releases : count releases es = if terminal (ws_stage s) then 1 else 0
}.

Lemma apply_effects_accounted fs s es f now t :
  effects_accounted fs s es → apply_fact r s f now = Ok t →
  effects_accounted (fs ++ [f]) (wt_state t) (es ++ wt_effects t).
Proof.
  intros [] Ha. step_cases Ha.
  all: constructor; simpl in *; rewrite ?count_app, ?approvals_app.
  all: unfold count, approvals in *; simpl in *; lia.
Qed.

(** ** The trace of the current attempt *)

Definition dispatched (d : string) (n : nat) : list WorkflowFact :=
  [WorkflowFact.ScheduleGranted; WorkflowFact.WorkOrderStored d]
  ++ replicate n WorkflowFact.SubmissionAmbiguous.

Definition observed (d : string) (n : nat) (run_id : RunId) : list WorkflowFact :=
  dispatched d n ++ [WorkflowFact.SubmissionAccepted run_id].

Definition evidenced (d : string) (n : nat) (run_id : RunId) (announced : EvidenceId)
  : list WorkflowFact :=
  observed d n run_id ++ [WorkflowFact.RunStopped (RunStop.EvidenceAvailable announced)].

Definition validated (d : string) (n : nat) (run_id : RunId) (announced e : EvidenceId)
    (m : nat) : list WorkflowFact :=
  evidenced d n run_id announced ++ [WorkflowFact.EvidenceValidated e]
  ++ replicate m WorkflowFact.SourceCloseAmbiguous.

(** How the facts applied so far end, for each stage of an attempt, and the effects
    ordered for its evidence. *)
Definition trace_ok (fs : list WorkflowFact) (s : WorkflowState) (es : list WorkflowEffect) : Prop :=
  match ws_stage s with
  | WorkflowStage.Authorizing => ∃ pre, fs = pre ++ [WorkflowFact.ScheduleGranted]
  | WorkflowStage.Dispatching => ∃ pre d n, fs = pre ++ dispatched d n
  | WorkflowStage.ObservingRun => ∃ pre d n rid, fs = pre ++ observed d n rid ∧
      ws_run_id s = Some rid
  | WorkflowStage.VerifyingEvidence => ∃ pre d n rid e0, fs = pre ++ evidenced d n rid e0 ∧
      ws_run_id s = Some rid ∧ WorkflowEffect.FetchAndVerifyEvidence e0 ∈ es
  | WorkflowStage.ClosingSource => ∃ pre d n rid e0 e m,
      fs = pre ++ validated d n rid e0 e m ∧
      ws_run_id s = Some rid ∧ ws_evidence_id s = Some e ∧
      WorkflowEffect.FetchAndVerifyEvidence e0 ∈ es ∧ WorkflowEffect.CloseSource e ∈ es
  | WorkflowStage.Closed => ∃ pre d n rid e0 e m,
      fs = pre ++ validated d n rid e0 e m ++ [WorkflowFact.SourceCloseConfirmed] ∧
      ws_run_id s = Some rid ∧ ws_evidence_id s = Some e ∧
      WorkflowEffect.FetchAndVerifyEvidence e0 ∈ es ∧ WorkflowEffect.CloseSource e ∈ es
  | _ => True
  end.

Lemma replicate_snoc {A} n (x : A) : replicate n x ++ [x] = replicate (S n) x.
Proof. by rewrite <- replicate_S_end. Qed.

Lemma apply_trace_ok fs s es f now t :
  trace_ok fs s es → apply_fact r s f now = Ok t →
  trace_ok (fs ++ [f]) (wt_state t) (es ++ wt_effects t).
Proof.
  unfold trace_ok. intros Ht Ha. step_cases Ha; try done.
  - eauto.
  - destruct Ht as (pre & ->). exists pre. eexists _, 0%nat.
    rewrite <- app_assoc. reflexivity.
  - destruct Ht as (pre & d & n & ->). exists pre, d, n. eexists.
    rewrite <- app_assoc. split; reflexivity.
  - destruct Ht as (pre & d & n & ->). exists pre, d, (S n). unfold dispatched.
    by rewrite <- replicate_snoc, <- !app_assoc.
  - destruct Ht as (pre & d & n & rid & -> & ->). exists pre, d, n, rid. eexists.
    rewrite <- app_assoc. split_and!; [reflexivity..|]. set_solver.
  - destruct Ht as (pre & d & n & rid & e0 & -> & -> & He). exists pre, d, n, rid, e0.
    eexists _, 0%nat. rewrite <- app_assoc. split_and!; [reflexivity..| |]; set_solver.
  - destruct Ht as (pre & d & n & rid & e0 & e & m & -> & -> & -> & Hf & Hc).
    exists pre, d, n, rid, e0, e, m. rewrite <- app_assoc. split_and!; [done..| |]; set_solver.
  - destruct Ht as (pre & d & n & rid & e0 & e & m & -> & -> & -> & Hf & Hc).
    exists pre, d, n, rid, e0, e, (S m). unfold validated.
    rewrite <- replicate_snoc, <- !app_assoc. split_and!; [done..| |]; set_solver.
Qed.

(** ** Which facts a stage accepts *)

Definition accepts (s : WorkflowStage) (f : WorkflowFact) : bool :=
  match s, f with
  | WorkflowStage.Accepted, WorkflowFact.ScheduleRequested
  | WorkflowStage.WaitingSchedule, WorkflowFact.ScheduleGranted
  | WorkflowStage.Authorizing, WorkflowFact.WorkOrderStored _
  | WorkflowStage.Dispatching, WorkflowFact.SubmissionAccepted _
  | WorkflowStage.Dispatching, WorkflowFact.SubmissionAmbiguous
  | WorkflowStage.ObservingRun, WorkflowFact.RunStopped _
  | WorkflowStage.VerifyingEvidence, WorkflowFact.EvidenceValidated _
  | WorkflowStage.VerifyingEvidence, WorkflowFact.EvidenceRejected _
  | WorkflowStage.ClosingSource, WorkflowFact.SourceCloseConfirmed
  | WorkflowStage.ClosingSource, WorkflowFact.SourceCloseAmbiguous
  | WorkflowStage.WaitingRetry, WorkflowFact.RetryDue
  | WorkflowStage.WaitingApproval, WorkflowFact.ApprovalGranted _
  | WorkflowStage.WaitingApproval, WorkflowFact.ApprovalRejected _
  | WorkflowStage.Cancelling, WorkflowFact.CancellationConfirmed => true
  | _, WorkflowFact.CancelRequested => cancellable s
  | _, _ => false
  end.

(** No counter is at its end and every instant the step may compute exists. *)
Record step_in_range (s : WorkflowState) (now : DateTime) : Prop := {
  sr_attempt : ws_attempt_number s < u32_max;
  sr_retry : 0 ≤ ws_retry_count s ∧ max_retries r ≤ u32_max;
  sr_delay d : d ∈ [seconds 10; seconds 30; escalation_sla r; approval_sla r] →
    datetime_min ≤ now + d ≤ datetime_max;
  sr_backoff k : 0 ≤ k ≤ max_retries r →
    Z.abs (retry_backoff r * k) ≤ duration_max ∧
    datetime_min ≤ now + retry_backoff r * k ≤ datetime_max
}.

Lemma dt_add_ok t d :
  datetime_min ≤ t + d ≤ datetime_max → dt_add t d = Ok (t + d).
Proof. intros [??]. unfold dt_add. case_match; [done|reflect; lia]. Qed.

Lemma duration_mul_ok d n : Z.abs (d * n) ≤ duration_max → duration_mul d n = Ok (d * n).
Proof. intros ?. unfold duration_mul. case_match; [done|reflect; lia]. Qed.

Lemma add_assign_in_range max a b : a + b ≤ max → add_assign max a b = Ok (a + b).
Proof. intros ?. by apply add_assign_ok. Qed.

Lemma retry_step_ok s now reason :
  step_in_range s now → ∃ o, handle_run_stop r s (RunStop.RetryableFailure reason) now = Ok o.
Proof.
  intros []. unfold handle_run_stop.
  destruct (_ <? _) eqn:E; simpl.
  - apply Z.ltb_lt in E. rewrite add_assign_in_range by lia. simpl.
    set (c := ws_retry_count s + 1).
    assert (∃ m, 0 ≤ m ≤ max_retries r ∧
      match try_from i32_max c with Some m => m | None => i32_max end = m) as (m & Hm & ->).
    { unfold try_from. destruct (_ && _) eqn:F; [exists c; split; [lia|done]|].
      exists i32_max. split; [|done]. apply andb_false_iff in F. reflect.
      unfold i32_max in *. lia. }
    destruct (sr_backoff0 m Hm) as [Hb Hd].
    rewrite duration_mul_ok by done. simpl. rewrite dt_add_ok by done. simpl. eauto.
  - rewrite dt_add_ok by (apply sr_delay0; set_solver). simpl. eauto.
Qed.

Lemma reduce_total s f now :
  step_in_range s now →
  if accepts (ws_stage s) f then ∃ o, reduce r s f now = Ok o
  else reduce r s f now = Err (InvalidTransition [Lit (WorkflowStage_debug (ws_stage s))]
                                                 (WorkflowFact_debug f)).
Proof.
  intros Hr. pose proof (retry_step_ok s now) as Hretry.
  destruct Hr. unfold reduce.
  destruct (ws_stage s) eqn:Es, f as [| | | | |stop| | | | | | | | |]; simpl; try by eauto.
  - rewrite add_assign_in_range by lia. simpl. eauto.
  - rewrite dt_add_ok by (apply sr_delay0; set_solver). simpl. eauto.
  - destruct stop; try (by apply Hretry); simpl; try by eauto.
    all: rewrite dt_add_ok by (apply sr_delay0; set_solver); simpl; eauto.
  - rewrite dt_add_ok by (apply sr_delay0; set_solver). simpl. eauto.
  - rewrite dt_add_ok by (apply sr_delay0; set_solver). simpl. eauto.
  - rewrite dt_add_ok by (apply sr_delay0; set_solver). simpl. eauto.
Qed.
End runs.

Lemma run_keeps_ok `{Chrono, UuidText} r id t0 facts s es :
  run r (WorkflowState_accepted id t0) facts = Ok (s, es) → workflow_ok r id s.
Proof.
  apply (run_invariant r (λ _ s _, workflow_ok r id s)).
  - apply accepted_ok.
  - intros. by eapply apply_preserves_ok.
Qed.

Lemma digests_visible_app l k :
  digests_visible (l ++ k) ↔ digests_visible l ∧ digests_visible k.
Proof. unfold digests_visible. setoid_rewrite elem_of_app. naive_solver. Qed.

Lemma run_reference_visible `{Chrono, UuidText} r id t0 facts s es :
  run r (WorkflowState_accepted id t0) facts = Ok (s, es) → digests_visible (facts.*1) →
  blank (anchor_reference_id (ws_accountability s)) = false.
Proof.
  apply (run_invariant r (λ fs s _, digests_visible fs →
    blank (anchor_reference_id (ws_accountability s)) = false)).
  - intros _. by vm_compute.
  - intros fs s1 e1 f now t _ Ha Hd. eapply apply_reference_visible; [done|].
    by apply digests_visible_app in Hd as [_ ?].
Qed.

(** ** Theorems *)

(** C2. The workflow invariant: whatever facts arrive in whatever order, every
    state reached from acceptance has an anchor of the state's generation, of a
    kind that fits the stage, with a deadline exactly when the item waits for a
    clock or a person; verified evidence is recorded exactly while the source is
    being closed or closed, a closed item's anchor names that evidence (so the
    fallback "evidence:missing" is never used); retries stay within the limit;
    and the anchor names something as long as Work Order digests do. *)
Theorem workflow_run_invariant `{Chrono, UuidText} r id t0 facts s es :
  run r (WorkflowState_accepted id t0) facts = Ok (s, es) →
  workflow_ok r id s ∧
  (digests_visible (facts.*1) →
   blank (anchor_reference_id (ws_accountability s)) = false).
Proof.
  intros Hr. split; [by eapply run_keeps_ok|]. by eapply run_reference_visible.
Qed.

Definition sample_chrono : Chrono :=
  {| datetime_min := - 10 ^ 30; datetime_max := 10 ^ 30; duration_max := 10 ^ 30 |}.

Definition sample_uuids : UuidText :=
  {| uuid_to_string _ := "u"; uuid_to_string_visible _ := eq_refl |}.

(** A delivery that fails once, is retried, has an ambiguous submission and an
    ambiguous closure, and closes. *)
Definition sample_facts : list (WorkflowFact * DateTime) :=
  (λ f, (f, 0)) <$>
  [ WorkflowFact.ScheduleRequested; WorkflowFact.ScheduleGranted;
    WorkflowFact.WorkOrderStored "d1"; WorkflowFact.SubmissionAccepted 8%N;
    WorkflowFact.RunStopped (RunStop.RetryableFailure "io"); WorkflowFact.RetryDue;
    WorkflowFact.ScheduleGranted; WorkflowFact.WorkOrderStored "d2";
    WorkflowFact.SubmissionAmbiguous; WorkflowFact.SubmissionAccepted 9%N;
    WorkflowFact.RunStopped (RunStop.EvidenceAvailable 5%N);
    WorkflowFact.EvidenceValidated 5%N; WorkflowFact.SourceCloseAmbiguous;
    WorkflowFact.SourceCloseConfirmed ].

Definition sample_run :=
  @run sample_chrono sample_uuids WorkflowReducer_default (WorkflowState_accepted 1%N 0)
    sample_facts.

Lemma workflow_run_invariant_witness :
  ∃ s es, sample_run = Ok (s, es) ∧ ws_stage s = WorkflowStage.Closed ∧
          @workflow_ok sample_uuids WorkflowReducer_default 1%N s.
Proof.
  eexists _, _. split; [vm_compute; reflexivity|]. split; [reflexivity|].
  eapply (@workflow_run_invariant sample_chrono sample_uuids WorkflowReducer_default 1%N 0
            sample_facts).
  vm_compute; reflexivity.
Defined.

(** C1. Closure is earned: if a workflow is closed, the facts it received end with
    one complete delivery: a granted schedule, a stored Work Order, any number of
    ambiguous submissions, an accepted submission of a run, the announcement of
    evidence, a validation of evidence, any number of ambiguous closures and a
    confirmed closure.  The announced evidence was ordered to be fetched and
    verified, and the source was ordered to be closed with the validated one.  The
    state names the run and the validated evidence, and the closing anchor is a
    verified closure naming the validated evidence.  The reducer does not compare
    the two identifiers ([validated_evidence_is_not_compared]): that the validated
    evidence is the announced one is up to whoever reports the facts. *)
Theorem closure_requires_verified_delivery `{Chrono, UuidText} r id t0 facts s es :
  run r (WorkflowState_accepted id t0) facts = Ok (s, es) →
  ws_stage s = WorkflowStage.Closed →
  ∃ pre digest n run_id announced e m,
    facts.*1 = pre ++ validated digest n run_id announced e m
               ++ [WorkflowFact.SourceCloseConfirmed] ∧
    ws_run_id s = Some run_id ∧ ws_evidence_id s = Some e ∧
    WorkflowEffect.FetchAndVerifyEvidence announced ∈ es ∧ WorkflowEffect.CloseSource e ∈ es ∧
    anchor_kind (ws_accountability s) = AccountabilityKind.VerifiedClosure ∧
    anchor_reference_id (ws_accountability s) = uuid_to_string e.
Proof.
  intros Hr Hc. pose proof (run_keeps_ok _ _ _ _ _ _ Hr) as Hok.
  assert (trace_ok (facts.*1) s es) as Ht.
  { revert Hr. apply (run_invariant r trace_ok); [done|]. intros. by eapply apply_trace_ok. }
  unfold trace_ok in Ht. rewrite Hc in Ht.
  destruct Ht as (pre & d & n & rid & e0 & e & m & Hf & Hrid & He & Hfetch & Hclose).
  exists pre, d, n, rid, e0, e, m. split_and!; try done.
  - pose proof (wo_kind _ _ _ Hok) as Hk. rewrite Hc in Hk. by apply list_elem_of_singleton in Hk.
  - destruct (wo_closed _ _ _ Hok Hc) as (e' & He' & ->). congruence.
Qed.

Lemma closure_requires_verified_delivery_witness :
  ∃ s es, sample_run = Ok (s, es) ∧ ws_evidence_id s = Some 5%N ∧
    ∃ pre digest n run_id announced e m,
      sample_facts.*1 = pre ++ validated digest n run_id announced e m
                        ++ [WorkflowFact.SourceCloseConfirmed] ∧ ws_evidence_id s = Some e.
Proof.
  eexists _, _. split; [vm_compute; reflexivity|]. split; [reflexivity|].
  edestruct (@closure_requires_verified_delivery sample_chrono sample_uuids
    WorkflowReducer_default 1%N 0 sample_facts) as (pre & d & n & rid & e0 & e & m & Hf & _ & He & _).
  - vm_compute; reflexivity.
  - reflexivity.
  - exists pre, d, n, rid, e0, e, m. split; [exact Hf|exact He].
Defined.

(** The evidence that is validated need not be the evidence that was announced: for
    any two identifiers a workflow closes, naming the validated one. *)
Lemma validated_evidence_is_not_compared announced e :
  ∃ s es, @run sample_chrono sample_uuids WorkflowReducer_default (WorkflowState_accepted 1%N 0)
    ((λ f, (f, 0)) <$>
     [ WorkflowFact.ScheduleRequested; WorkflowFact.ScheduleGranted;
       WorkflowFact.WorkOrderStored "d1"; WorkflowFact.SubmissionAccepted 8%N;
       WorkflowFact.RunStopped (RunStop.EvidenceAvailable announced);
       WorkflowFact.EvidenceValidated e; WorkflowFact.SourceCloseConfirmed ]) = Ok (s, es) ∧
    ws_stage s = WorkflowStage.Closed ∧ ws_evidence_id s = Some e ∧
    WorkflowEffect.FetchAndVerifyEvidence announced ∈ es ∧ WorkflowEffect.CloseSource e ∈ es.
Proof. eexists _, _. split; [vm_compute; reflexivity|]. split_and!; [reflexivity..| |]; set_solver. Qed.

(** C3. Effects are ordered the right number of times over a whole run: every
    attempt is reserved once and submitted at most once (an ambiguous submission
    is reconciled, not resubmitted), retries are scheduled at most [max_retries]
    times, attempts are bounded by retries and granted approvals, the source is
    closed at most once, and reservations are released exactly once when the
    workflow ends and never before. *)
Theorem workflow_effects_accounted `{Chrono, UuidText} r id t0 facts s es :
  run r (WorkflowState_accepted id t0) facts = Ok (s, es) →
  count reserves es = ws_attempt_number s ∧
  count submits es ≤ count reserves es ∧
  count retries es ≤ Z.max 0 (max_retries r) ∧
  count reserves es ≤ 1 + Z.max 0 (max_retries r) + approvals (facts.*1) ∧
  count closes es ≤ 1 ∧
  count releases es = (if terminal (ws_stage s) then 1 else 0).
Proof.
  intros Hr. pose proof (run_keeps_ok _ _ _ _ _ _ Hr) as Hok.
  assert (effects_accounted (facts.*1) s es) as [].
  { revert Hr. apply (run_invariant r effects_accounted); [by constructor|].
    intros. by eapply apply_effects_accounted. }
  destruct Hok.
  assert (0 ≤ unsubmitted (ws_stage s)) by (by destruct (ws_stage s)).
  assert (0 ≤ owed (ws_stage s)) by (by destruct (ws_stage s)).
  split_and!; try done; try lia. destruct (closing _); lia.
Qed.

Lemma workflow_effects_accounted_witness :
  ∃ s es, sample_run = Ok (s, es) ∧ count reserves es = 2 ∧ count submits es ≤ count reserves es.
Proof.
  eexists _, _. split; [vm_compute; reflexivity|]. split; [reflexivity|].
  eapply (@workflow_effects_accounted sample_chrono sample_uuids WorkflowReducer_default 1%N 0
            sample_facts).
  vm_compute; reflexivity.
Defined.

(** Every step is answered: away from the ends of the counters and of the
    calendar, a fact is applied exactly when the stage accepts it and is
    otherwise refused as an invalid transition, without a panic; the state is
    not changed by a refusal (the reducer returns no state), and the two
    terminal stages accept no fact at all. *)
Lemma workflow_step_total `{Chrono, UuidText} r s f now :
  ws_generation s < u64_max → step_in_range r s now →
  (accepts (ws_stage s) f = true → ∃ t, apply_fact r s f now = Ok t) ∧
  (accepts (ws_stage s) f = false →
   apply_fact r s f now = Err (InvalidTransition [Lit (WorkflowStage_debug (ws_stage s))]
                                                 (WorkflowFact_debug f))) ∧
  (terminal (ws_stage s) = true → accepts (ws_stage s) f = false).
Proof.
  intros Hg Hr.
  assert (step_in_range r (set_generation s (ws_generation s + 1)) now) as Hr'
    by (by destruct s, Hr).
  pose proof (reduce_total r _ f now Hr') as Ht.
  unfold apply_fact. rewrite (proj2 (checked_add_some _ _ _ _)) by (split; [lia|done]).
  simpl. replace (ws_stage (set_generation s (ws_generation s + 1))) with (ws_stage s) in Ht
    by (by destruct s).
  split_and!.
  - intros E. rewrite E in Ht. destruct Ht as ([s1 [[[[st es] k] rf] wk]] & ->). simpl. eauto.
  - intros E. rewrite E in Ht. by rewrite Ht.
  - by destruct (ws_stage s), f.
Qed.

Lemma workflow_step_total_witness :
  ∃ t, @apply_fact sample_chrono sample_uuids WorkflowReducer_default
         (WorkflowState_accepted 1%N 0) WorkflowFact.ScheduleRequested 0 = Ok t.
Proof.
  apply (@workflow_step_total sample_chrono sample_uuids WorkflowReducer_default
           (WorkflowState_accepted 1%N 0) WorkflowFact.ScheduleRequested 0);
    [by vm_compute| |by vm_compute].
  constructor; [by vm_compute|by vm_compute| |].
  - intros d Hd. simpl. repeat (apply elem_of_cons in Hd as [->|Hd]; [by vm_compute|]).
    by apply elem_of_nil in Hd.
  - intros k Hk. cbn in Hk |- *. unfold minutes, seconds, nanos. lia.
Defined.

(** No workflow is stuck: from every state that is not terminal, two facts
    that the reducer accepts end it (cancellation, or the confirmation of a
    closure already under way), unless the generation counter is exhausted. *)
Lemma workflow_can_finish `{Chrono, UuidText} r s now :
  terminal (ws_stage s) = false → ws_generation s + 2 ≤ u64_max →
  ∃ facts s' es, (length facts ≤ 2)%nat ∧ run r s ((λ f, (f, now)) <$> facts) = Ok (s', es) ∧
                 terminal (ws_stage s') = true.
Proof.
  intros Ht Hg. destruct s as [wi st ge ru ev at_ re an]. simpl in *.
  assert (∀ g, g + 1 ≤ u64_max → checked_add u64_max g 1 = Some (g + 1)) as Hc
    by (intros g Hle; by apply checked_add_some).
  destruct st; try done.
  all: first
    [ exists [WorkflowFact.CancelRequested; WorkflowFact.CancellationConfirmed];
      eexists _, _; split; [done|]; simpl; unfold apply_fact; simpl;
      rewrite Hc by lia; simpl; rewrite Hc by lia; simpl; split; [reflexivity|done]
    | exists [WorkflowFact.CancellationConfirmed];
      eexists _, _; split; [simpl; lia|]; simpl; unfold apply_fact; simpl;
      rewrite Hc by lia; simpl; split; [reflexivity|done]
    | exists [WorkflowFact.SourceCloseConfirmed];
      eexists _, _; split; [simpl; lia|]; simpl; unfold apply_fact; simpl;
      rewrite Hc by lia; simpl; split; [reflexivity|done] ].
Qed.

Lemma workflow_can_finish_witness :
  ∃ facts s' es, (length facts ≤ 2)%nat ∧
    @run sample_chrono sample_uuids WorkflowReducer_default (WorkflowState_accepted 1%N 0)
      ((λ f, (f, 0)) <$> facts) = Ok (s', es) ∧ terminal (ws_stage s') = true.
Proof.
  by apply (@workflow_can_finish sample_chrono sample_uuids); vm_compute.
Defined.
