(* ===== verification/Auth.v ===== *)
(** Bearer-token authentication, [src/src/auth.rs]. *)

From Stdlib Require Import ZArith Lia.
From stdpp Require Import base tactics option list strings.
From S2P Require Import Prelude RustStr RustOrd Crypto Security.

Record ApiTokenConfig := mkApiTokenConfig {
  atc_token : string;
  atc_subject : string;
  atc_roles : BTreeSet Role
}.

Record StoredCredential := mkStoredCredential {
  cred_token_hash : list Z;
  cred_caller : Caller
}.

Record ApiAuthenticator := mkApiAuthenticator { credentials : list StoredCredential }.

(** [serde_json::from_str::<Vec<ApiTokenConfig>>]: the configurations or the
    text of the parse error. *)
Class ApiTokenJson := { parse_api_tokens : string → string + list ApiTokenConfig }.

Section auth.
  Context {hashing : Hashing} {json : ApiTokenJson}.

Definition load_credential (s : BTreeSet (list Z) * list StoredCredential)
    (config : ApiTokenConfig) : res (BTreeSet (list Z) * list StoredCredential) :=
  let '(hashes, creds) := s in
  bail_if ((len (atc_token config) <? 32) || blank (atc_subject config)
           || bs_is_empty (atc_roles config))
    (Validation [Lit "API credentials require a >=32-byte token, subject, and roles"]) ;;
  let token_hash := sha256 (bytes (atc_token config)) in
  bail_if (bs_contains token_hash hashes) (Validation [Lit "duplicate API token"]) ;;
  Ok (bs_insert token_hash hashes,
      creds ++ [mkStoredCredential token_hash
                  (mkCaller (atc_subject config) (atc_roles config))]).

Definition ApiAuthenticator_from_json (value : string) : res ApiAuthenticator :=
  configs ← map_err (parse_api_tokens value)
    (λ error, Validation [Lit "invalid API token config: "; Disp error]);
  bail_if (match configs with [] => true | _ => false end)
    (Validation [Lit "at least one API credential is required"]) ;;
  '(_, creds) ← try_fold configs (bs_empty, []) load_credential;
  Ok (mkApiAuthenticator creds).

Definition authenticate_header (a : ApiAuthenticator) (authorization : string) : res Caller :=
  token ← ok_or (match strip_prefix "Bearer " authorization with
                 | Some token => if str_is_empty token then None else Some token
                 | None => None
                 end) Unauthenticated;
  let candidate := sha256 (bytes token) in
  let matched := foldl (λ matched c,
    if bool_decide (cred_token_hash c = candidate) then Some (cred_caller c) else matched)
    None (credentials a) in
  ok_or matched Unauthenticated.

(** ** Facts *)

Definition credential_of (c : ApiTokenConfig) : StoredCredential :=
  mkStoredCredential (sha256 (bytes (atc_token c))) (mkCaller (atc_subject c) (atc_roles c)).

Definition config_valid (c : ApiTokenConfig) : Prop :=
  32 ≤ len (atc_token c) ∧ blank (atc_subject c) = false ∧ elems (atc_roles c) ≠ [].

Lemma load_credentials_inv configs hashes creds h' creds' :
  (∀ x, x ∈ hashes ↔ x ∈ cred_token_hash <$> creds) →
  NoDup (cred_token_hash <$> creds) →
  try_fold configs (hashes, creds) load_credential = Ok (h', creds') →
  creds' = creds ++ (credential_of <$> configs) ∧ Forall config_valid configs ∧
  NoDup (cred_token_hash <$> creds').
Proof.
  revert hashes creds. induction configs as [|c configs IH]; intros hashes creds Hh Hn; simpl.
  - intros [= <- <-]. by rewrite app_nil_r.
  - intros Hf. apply bind_ok in Hf as ([h1 c1] & Hl & Hf). unfold load_credential in Hl.
    reflect. destruct Hl as (((Hlen & Hb) & Hr) & Hc & [= <- <-]).
    apply IH in Hf.
    + destruct Hf as (-> & Hv & Hnd). split_and!; [by rewrite <- app_assoc| |done].
      constructor; [|done]. split_and!; [done|done|]. intros E.
      apply bs_is_empty_elems in E. congruence.
    + intros x. rewrite elem_of_bs_insert, Hh, fmap_app, elem_of_app. simpl.
      rewrite list_elem_of_singleton. tauto.
    + rewrite fmap_app. simpl. apply NoDup_app. split_and!; [done| |apply NoDup_singleton].
      intros x Hx. rewrite list_elem_of_singleton. intros ->. apply Hh, bs_contains_true in Hx.
      congruence.
Qed.

Lemma from_json_ok value a :
  ApiAuthenticator_from_json value = Ok a →
  ∃ configs, parse_api_tokens value = inr configs ∧ configs ≠ [] ∧
    credentials a = credential_of <$> configs ∧ Forall config_valid configs ∧
    NoDup ((λ c, sha256 (bytes (atc_token c))) <$> configs).
Proof.
  unfold ApiAuthenticator_from_json. intros Ha.
  apply bind_ok in Ha as (configs & Hp & Ha). unfold map_err in Hp.
  destruct (parse_api_tokens value) as [|cs]; [done|]. injection Hp as ->.
  apply bind_unit_ok in Ha as [He Ha]. apply bind_ok in Ha as ([h creds] & Hf & [= <-]).
  exists configs. apply load_credentials_inv in Hf as (-> & Hv & Hn).
  - simpl in *. split_and!; try done; [by destruct configs|].
    by rewrite <- list_fmap_compose in Hn.
  - intros x. rewrite elem_of_bs_empty. simpl. by rewrite elem_of_nil.
  - constructor.
Qed.

(** The scan over all credentials keeps the last match; with distinct hashes it
    is the only one. *)
Lemma scan_matched creds candidate acc :
  NoDup (cred_token_hash <$> creds) →
  foldl (λ matched c, if bool_decide (cred_token_hash c = candidate)
                      then Some (cred_caller c) else matched) acc creds =
  match find (λ c, bool_decide (cred_token_hash c = candidate)) creds with
  | Some c => Some (cred_caller c)
  | None => acc
  end.
Proof.
  revert acc. induction creds as [|c creds IH]; intros acc Hn; simpl; [done|].
  simpl in Hn. apply NoDup_cons in Hn as [Hc Hn]. rewrite IH by done.
  destruct (bool_decide _) eqn:E; [|done]. apply bool_decide_eq_true in E.
  destruct (find _ creds) as [d|] eqn:F; [|done].
  apply find_some in F as [F1 F2]. apply bool_decide_eq_true in F2.
  destruct Hc. rewrite E, <- F2. apply list_elem_of_fmap. exists d. split; [done|].
  by apply list_elem_of_In.
Qed.

(** A loaded authenticator holds the credentials of the valid, distinct [cs]. *)
Definition loaded (a : ApiAuthenticator) (cs : list ApiTokenConfig) : Prop :=
  credentials a = credential_of <$> cs ∧ Forall config_valid cs ∧
  NoDup ((λ c, sha256 (bytes (atc_token c))) <$> cs).

Lemma loaded_nodup a cs : loaded a cs → NoDup (cred_token_hash <$> credentials a).
Proof. intros (-> & _ & Hn). by rewrite <- list_fmap_compose. Qed.

Lemma configured_token_authenticates a cs c :
  loaded a cs → c ∈ cs →
  authenticate_header a ("Bearer " +:+ atc_token c)
  = Ok (mkCaller (atc_subject c) (atc_roles c)).
Proof.
  intros Hl Hin. pose proof (loaded_nodup a cs Hl) as Hn'. destruct Hl as (Hc & Hv & Hn).
  unfold authenticate_header. rewrite (proj2 (strip_prefix_spec "Bearer " _ _) eq_refl).
  rewrite Forall_forall in Hv. destruct (Hv c Hin) as (Hlen & _).
  assert (str_is_empty (atc_token c) = false) as -> by (by destruct (atc_token c)).
  simpl. rewrite scan_matched by done. destruct (find _ _) as [d|] eqn:F.
  - apply find_some in F as [F1 F2]. apply bool_decide_eq_true in F2.
    apply list_elem_of_In in F1. rewrite Hc in F1.
    apply list_elem_of_fmap in F1 as (c' & -> & Hc'). simpl in F2.
    assert (c' = c) as ->; [|done].
    apply list_elem_of_lookup in Hc' as [i Hi], Hin as [j Hj].
    assert (i = j) as <-; [|congruence].
    eapply NoDup_lookup; [exact Hn|rewrite list_lookup_fmap, Hi; done|].
    rewrite list_lookup_fmap, Hj. simpl. by rewrite F2.
  - exfalso. assert (In (credential_of c) (credentials a)) as Hf
      by (apply list_elem_of_In; rewrite Hc; by apply list_elem_of_fmap_2).
    apply (find_none _ _ F), bool_decide_eq_false in Hf. by apply Hf.
Qed.

Lemma authenticated_header_inv a cs header caller :
  loaded a cs → authenticate_header a header = Ok caller →
  ∃ c token, c ∈ cs ∧ header = "Bearer " +:+ token ∧
    sha256 (bytes token) = sha256 (bytes (atc_token c)) ∧
    caller = mkCaller (atc_subject c) (atc_roles c).
Proof.
  intros Hl Ht. pose proof (loaded_nodup a cs Hl) as Hn'. destruct Hl as (Hc & _).
  apply bind_ok in Ht as (token & Ho & Hm).
  apply ok_or_ok in Ho, Hm. rewrite scan_matched in Hm by done.
  destruct (strip_prefix _ _) as [t|] eqn:Es; [|done]. destruct (str_is_empty t); [done|].
  injection Ho as ->. apply strip_prefix_spec in Es.
  destruct (find _ _) as [d|] eqn:F; [|done]. injection Hm as <-.
  apply find_some in F as [F1 F2]. apply bool_decide_eq_true in F2.
  apply list_elem_of_In in F1. rewrite Hc in F1.
  apply list_elem_of_fmap in F1 as (c & -> & Hin). by exists c, token.
Qed.
End auth.

(** ** Theorems *)

(** Authentication is exact: with a loaded configuration, every configured
    token authenticates as its own subject and roles; conversely a header that
    authenticates has the Bearer scheme and a token with the SHA-256 digest of a
    configured one (the same token, or a collision), and yields exactly that
    entry's caller, who has a visible subject, at least one role, and the
    permissions of those roles. *)
Lemma authentication_exact `{Hashing, ApiTokenJson} value a :
  ApiAuthenticator_from_json value = Ok a →
  ∃ configs, parse_api_tokens value = inr configs ∧
  (∀ c, c ∈ configs →
     authenticate_header a ("Bearer " +:+ atc_token c)
     = Ok (mkCaller (atc_subject c) (atc_roles c))) ∧
  (∀ header caller, authenticate_header a header = Ok caller →
     ∃ c token, c ∈ configs ∧ header = "Bearer " +:+ token ∧
       sha256 (bytes token) = sha256 (bytes (atc_token c)) ∧
       caller = mkCaller (atc_subject c) (atc_roles c) ∧
       blank (caller_subject caller) = false ∧
       (∃ role, role ∈ caller_roles caller) ∧
       ∀ p, Caller_require caller p = Ok tt ↔
            ∃ role, role ∈ atc_roles c ∧ role_allows role p = true).
Proof.
  intros Ha. apply from_json_ok in Ha as (configs & Hp & _ & Hc & Hv & Hn).
  exists configs. assert (loaded a configs) as Hl by done. split_and!; [done| |].
  - intros c. by apply configured_token_authenticates.
  - intros header caller Ht.
    destruct (authenticated_header_inv _ _ _ _ Hl Ht) as (c & token & Hin & -> & Hh & ->).
    rewrite Forall_forall in Hv. destruct (Hv c Hin) as (_ & Hs & Hr).
    exists c, token. split_and!; try done.
    + simpl. destruct (elems (atc_roles c)) as [|role l] eqn:E; [done|].
      exists role. unfold elem_of, bs_elem_of. rewrite E. left.
    + intros p. by rewrite Caller_require_ok.
Qed.

Definition sample_tokens : ApiTokenJson :=
  {| parse_api_tokens _ := inr
       [ mkApiTokenConfig "0123456789012345678901234567890a" "alice"
           (bs_of_list [Role.Operator]);
         mkApiTokenConfig "0123456789012345678901234567890b" "bob"
           (bs_of_list [Role.Viewer]) ] |}.

Lemma authentication_exact_witness :
  ∃ a, @ApiAuthenticator_from_json sample_hashing sample_tokens "" = Ok a ∧
    @authenticate_header sample_hashing a "Bearer 0123456789012345678901234567890b"
    = Ok (mkCaller "bob" (bs_of_list [Role.Viewer])).
Proof.
  eexists. split; [vm_compute; reflexivity|].
  edestruct (@authentication_exact sample_hashing sample_tokens "") as (cs & Hp & H & _);
    [vm_compute; reflexivity|].
  simpl in Hp. injection Hp as <-.
  apply (H (mkApiTokenConfig "0123456789012345678901234567890b" "bob"
           (bs_of_list [Role.Viewer]))). right. left.
Defined.
