(* ===== verification/AuditChain.v ===== *)
(** The audit hash chain, [src/src/audit.rs]: hashed events, verification of a
    tenant's chain and the portable export. *)

From Stdlib Require Import ZArith Lia.
From stdpp Require Import base tactics option list strings sets.
From S2P Require Import Prelude RustStr RustOrd Ids Crypto Security.

Definition AUDIT_CHAIN_EXPORT_FORMAT : string := "asf.audit-chain.v1".

#[global] Instance Value_eq_dec : EqDecision Value.
Proof.
  refine (fix go v w := let _ : EqDecision Value := @go in
    match v, w with
    | Null, Null => left _
    | Bool a, Bool b => cast_if (decide (a = b))
    | Number a, Number b => cast_if (decide (a = b))
    | VString a, VString b => cast_if (decide (a = b))
    | Array l, Array k => cast_if (decide (l = k))
    | Object l, Object k => cast_if (decide (l = k))
    | _, _ => right _
    end); abstract congruence.
Defined.

Record AuditEventContent := mkAuditEventContent {
  ae_id : EventId;
  ae_tenant_id : TenantId;
  ae_work_item_id : option WorkItemId;
  ae_attempt_id : option AttemptId;
  ae_actor_type : string;
  ae_actor_id : string;
  ae_action : string;
  ae_subject_type : string;
  ae_subject_id : string;
  ae_correlation_id : string;
  ae_trace_id : option string;
  ae_policy_digest : option string;
  ae_before_digest : option string;
  ae_after_digest : option string;
  ae_previous_event_hash : option string;
  ae_details : Value;
  ae_occurred_at : DateTime
}.

#[global] Instance AuditEventContent_eq_dec : EqDecision AuditEventContent.
Proof. solve_decision. Defined.

Record HashedAuditEvent := mkHashedAuditEvent {
  he_content : AuditEventContent;
  he_event_hash : string
}.

#[global] Instance HashedAuditEvent_eq_dec : EqDecision HashedAuditEvent.
Proof. solve_decision. Defined.

Definition validate_content (c : AuditEventContent) : res unit :=
  try_for [ ("actor type", ae_actor_type c); ("actor ID", ae_actor_id c);
            ("action", ae_action c); ("subject type", ae_subject_type c);
            ("subject ID", ae_subject_id c); ("correlation ID", ae_correlation_id c) ]
    (λ '(name, value),
       bail_if (blank value)
         (Validation [Lit "audit event "; Disp name; Lit " must be non-empty"])) ;;
  try_for (omap id [ ae_policy_digest c; ae_before_digest c; ae_after_digest c;
                     ae_previous_event_hash c ])
    (λ digest, bail_if (negb (is_sha256_digest digest))
       (Validation [Lit "audit digest fields must use lowercase sha256"])) ;;
  reject_sensitive_fields (ae_details c).

Record VerifiedAuditChain := mkVerifiedAuditChain {
  vc_tenant_id : TenantId;
  vc_event_count : Z;
  vc_genesis_event_id : option EventId;
  vc_genesis_event_hash : option string;
  vc_head_event_id : option EventId;
  vc_head_event_hash : option string
}.

Record AuditChainExport := mkAuditChainExport {
  ex_format : string;
  ex_tenant_id : TenantId;
  ex_event_count : Z;
  ex_genesis_event_hash : option string;
  ex_head_event_hash : option string;
  ex_events : list HashedAuditEvent
}.

(** [serde_json::from_slice::<AuditChainExport>] with the facts that canonical
    bytes parse back to what was serialized. *)
Class ExportJson `{Canonical AuditChainExport} := {
  export_from_slice : list Z → string + AuditChainExport;
  export_round_trip e b : to_jcs e = inr b → export_from_slice b = inr e
}.

(** The state of the verification loop. *)
Record ChainCursor := mkChainCursor {
  cc_index : Z;
  cc_event_ids : BTreeSet EventId;
  cc_event_hashes : BTreeSet string;
  cc_expected_previous_hash : option string
}.

Section audit.
  Context {hashing : Hashing} {jcs : Canonical AuditEventContent}.

Definition HashedAuditEvent_create (content : AuditEventContent) : res HashedAuditEvent :=
  validate_content content ;;
  bytes ← canonical_json content;
  Ok (mkHashedAuditEvent content (sha256_digest bytes)).

Definition HashedAuditEvent_verify (e : HashedAuditEvent) : res unit :=
  validate_content (he_content e) ;;
  bytes ← canonical_json (he_content e);
  bail_if (negb (bool_decide (sha256_digest bytes = he_event_hash e)))
    (Crypto [Lit "audit event hash mismatch"]).

(** One iteration of the loop over the events. *)
Definition check_link (tenant_id : TenantId) (s : ChainCursor) (event : HashedAuditEvent)
  : res ChainCursor :=
  let index := cc_index s in
  HashedAuditEvent_verify event ;;
  bail_if (negb (bool_decide (ae_tenant_id (he_content event) = tenant_id)))
    (Validation [Lit "audit event at index "; FmtNum index;
                 Lit " belongs to a different tenant"]) ;;
  bail_if (bs_contains (ae_id (he_content event)) (cc_event_ids s))
    (Validation [Lit "audit chain contains duplicate event ID at index "; FmtNum index]) ;;
  bail_if (bs_contains (he_event_hash event) (cc_event_hashes s))
    (Validation [Lit "audit chain contains duplicate event hash at index "; FmtNum index]) ;;
  bail_if (negb (bool_decide (ae_previous_event_hash (he_content event)
                              = cc_expected_previous_hash s)))
    (Validation [Lit "audit chain is out of order or has a gap at index "; FmtNum index]) ;;
  Ok (mkChainCursor (index + 1)
        (bs_insert (ae_id (he_content event)) (cc_event_ids s))
        (bs_insert (he_event_hash event) (cc_event_hashes s))
        (Some (he_event_hash event))).

Definition verify_audit_chain (tenant_id : TenantId) (events : list HashedAuditEvent)
  : res VerifiedAuditChain :=
  try_fold events (mkChainCursor 0 bs_empty bs_empty None) (check_link tenant_id) ≫= λ _,
  event_count ← ok_or (try_from u64_max (Z.of_nat (length events)))
    (Validation [Lit "audit chain contains too many events"]);
  Ok {| vc_tenant_id := tenant_id;
        vc_event_count := event_count;
        vc_genesis_event_id := (λ e, ae_id (he_content e)) <$> head events;
        vc_genesis_event_hash := he_event_hash <$> head events;
        vc_head_event_id := (λ e, ae_id (he_content e)) <$> last events;
        vc_head_event_hash := he_event_hash <$> last events |}.

Definition AuditChainExport_create (tenant_id : TenantId) (events : list HashedAuditEvent)
  : res AuditChainExport :=
  verified ← verify_audit_chain tenant_id events;
  Ok {| ex_format := AUDIT_CHAIN_EXPORT_FORMAT;
        ex_tenant_id := tenant_id;
        ex_event_count := vc_event_count verified;
        ex_genesis_event_hash := vc_genesis_event_hash verified;
        ex_head_event_hash := vc_head_event_hash verified;
        ex_events := events |}.

Definition AuditChainExport_verify (x : AuditChainExport) : res VerifiedAuditChain :=
  bail_if (negb (bool_decide (ex_format x = AUDIT_CHAIN_EXPORT_FORMAT)))
    (Validation [Lit "unsupported audit-chain export format "; Dbg (ex_format x)]) ;;
  verified ← verify_audit_chain (ex_tenant_id x) (ex_events x);
  bail_if (negb (ex_event_count x =? vc_event_count verified))
    (Validation [Lit "audit-chain export event count does not match its events"]) ;;
  bail_if (negb (bool_decide (ex_genesis_event_hash x = vc_genesis_event_hash verified)))
    (Validation [Lit "audit-chain export genesis hash does not match its events"]) ;;
  bail_if (negb (bool_decide (ex_head_event_hash x = vc_head_event_hash verified)))
    (Validation [Lit "audit-chain export head hash does not match its events"]) ;;
  Ok verified.

Definition to_canonical_bytes `{Canonical AuditChainExport} (x : AuditChainExport)
  : res (list Z) :=
  AuditChainExport_verify x ≫= λ _, canonical_json x.

Definition from_canonical_bytes `{ExportJson} (bytes : list Z) : res AuditChainExport :=
  export ← map_err (export_from_slice bytes) (λ error, Serialization [Disp error]);
  AuditChainExport_verify export ≫= λ _,
  canonical ← canonical_json export;
  bail_if (negb (bool_decide (canonical = bytes)))
    (Validation [Lit "audit-chain export is not canonical JSON"]) ;;
  Ok export.

Definition AuditChainExport_digest `{Canonical AuditChainExport} (x : AuditChainExport)
  : res string :=
  bytes ← to_canonical_bytes x; Ok (sha256_digest bytes).

(** ** What a verified chain is *)

Record event_ok (tenant_id : TenantId) (e : HashedAuditEvent) : Prop := {
  eo_valid : validate_content (he_content e) = Ok tt;
  eo_hash : digest_canonical (he_content e) = Ok (he_event_hash e);
  eo_tenant : ae_tenant_id (he_content e) = tenant_id
}.

Fixpoint linked (previous : option string) (events : list HashedAuditEvent) : Prop :=
  match events with
  | [] => True
  | e :: events => ae_previous_event_hash (he_content e) = previous ∧
                   linked (Some (he_event_hash e)) events
  end.

Record chain_ok (tenant_id : TenantId) (events : list HashedAuditEvent) : Prop := {
  co_events : Forall (event_ok tenant_id) events;
  co_ids : NoDup ((λ e, ae_id (he_content e)) <$> events);
  co_hashes : NoDup (he_event_hash <$> events);
  co_linked : linked None events;
  co_count : Z.of_nat (length events) ≤ u64_max
}.

Definition summary (tenant_id : TenantId) (events : list HashedAuditEvent)
  : VerifiedAuditChain :=
  {| vc_tenant_id := tenant_id;
     vc_event_count := Z.of_nat (length events);
     vc_genesis_event_id := (λ e, ae_id (he_content e)) <$> head events;
     vc_genesis_event_hash := he_event_hash <$> head events;
     vc_head_event_id := (λ e, ae_id (he_content e)) <$> last events;
     vc_head_event_hash := he_event_hash <$> last events |}.

Lemma HashedAuditEvent_verify_ok e t :
  HashedAuditEvent_verify e = Ok tt ∧ ae_tenant_id (he_content e) = t ↔ event_ok t e.
Proof.
  unfold HashedAuditEvent_verify. rewrite bind_unit_ok, bind_ok. split.
  - intros [(Hv & b & Hb & Hh) Ht]. reflect. constructor; [done| |done].
    unfold digest_canonical. rewrite Hb. simpl. by rewrite Hh.
  - intros [Hv Hh Ht]. split; [|done]. split; [done|].
    unfold digest_canonical in Hh. apply bind_ok in Hh as (b & Hb & [= <-]).
    exists b. split; [done|]. by rewrite bool_decide_eq_true_2.
Qed.

Lemma check_link_ok t s e s' :
  check_link t s e = Ok s' ↔
  event_ok t e ∧ (ae_id (he_content e) ∉ cc_event_ids s) ∧
  (he_event_hash e ∉ cc_event_hashes s) ∧
  ae_previous_event_hash (he_content e) = cc_expected_previous_hash s ∧
  s' = mkChainCursor (cc_index s + 1) (bs_insert (ae_id (he_content e)) (cc_event_ids s))
         (bs_insert (he_event_hash e) (cc_event_hashes s)) (Some (he_event_hash e)).
Proof.
  unfold check_link. rewrite <- HashedAuditEvent_verify_ok, <- !bs_contains_true. reflect.
  rewrite !not_true_iff_false. naive_solver.
Qed.

(** What the loop checks of the events it has still to process. *)
Lemma check_links_ok t events s :
  (∃ s', try_fold events s (check_link t) = Ok s') ↔
  Forall (event_ok t) events ∧
  NoDup ((λ e, ae_id (he_content e)) <$> events) ∧
  (∀ e, e ∈ events → ae_id (he_content e) ∉ cc_event_ids s) ∧
  NoDup (he_event_hash <$> events) ∧
  (∀ e, e ∈ events → he_event_hash e ∉ cc_event_hashes s) ∧
  linked (cc_expected_previous_hash s) events.
Proof.
  revert s. induction events as [|e events IH]; intros s; simpl.
  - setoid_rewrite elem_of_nil. split; [|by eauto]. intros _.
    split_and!; try done; constructor.
  - rewrite Forall_cons, !NoDup_cons, !list_elem_of_fmap. setoid_rewrite elem_of_cons.
    setoid_rewrite bind_ok. setoid_rewrite check_link_ok. split.
    + intros (s' & s1 & (He & Hi & Hh & Hp & ->) & Hf).
      destruct (proj1 (IH _) (ex_intro _ _ Hf)) as (Hes & Hids & Hni & Hhs & Hnh & Hl).
      simpl in *. setoid_rewrite elem_of_bs_insert in Hni.
      setoid_rewrite elem_of_bs_insert in Hnh. split_and!; naive_solver.
    + intros ((He & Hes) & (Hni & Hids) & Hi & (Hnh & Hhs) & Hh & Hp & Hl).
      edestruct (proj2 (IH (mkChainCursor (cc_index s + 1)
        (bs_insert (ae_id (he_content e)) (cc_event_ids s))
        (bs_insert (he_event_hash e) (cc_event_hashes s)) (Some (he_event_hash e)))))
        as [s' Hs']; [|naive_solver].
      simpl. setoid_rewrite elem_of_bs_insert. split_and!; naive_solver.
Qed.

Lemma verify_audit_chain_ok t events v :
  verify_audit_chain t events = Ok v ↔ chain_ok t events ∧ v = summary t events.
Proof.
  unfold verify_audit_chain, summary. rewrite bind_ok.
  setoid_rewrite bind_ok. setoid_rewrite ok_or_ok. setoid_rewrite try_from_some. split.
  - intros (s' & Hf & n & [Hfit ->] & [= <-]). split; [|done].
    destruct (proj1 (check_links_ok t events _) (ex_intro _ _ Hf)) as (?&?&_&?&_&?).
    constructor; try done. apply Hfit.
  - intros [[He Hi Hh Hl Hn] ->].
    destruct (proj2 (check_links_ok t events (mkChainCursor 0 bs_empty bs_empty None)))
      as [s' Hs'].
    { split_and!; try done; intros e _ Hx; by apply elem_of_bs_empty in Hx. }
    exists s'. split; [done|]. eexists. split; [split; [split; [lia|done]|done]|done].
Qed.

Lemma validate_content_not_panic c : validate_content c ≠ Panic.
Proof.
  unfold validate_content. apply bind_not_panic; [|intros _ _; apply bind_not_panic].
  - apply try_for_not_panic. intros [] _. apply bail_if_not_panic.
  - apply try_for_not_panic. intros ? _. apply bail_if_not_panic.
  - intros _ _. apply reject_sensitive_not_panic.
Qed.

#[local] Hint Resolve validate_content_not_panic : no_panic.

Lemma verify_audit_chain_not_panic t events : verify_audit_chain t events ≠ Panic.
Proof.
  unfold verify_audit_chain. apply bind_not_panic.
  - apply try_fold_not_panic. intros s e. unfold check_link, HashedAuditEvent_verify.
    no_panic.
  - intros s _. apply bind_not_panic; [|done]. unfold try_from. by case_match.
Qed.

(** ** Positions in a chain *)

Lemma linked_app prev l k :
  linked prev (l ++ k) ↔
  linked prev l ∧
  linked (match last l with Some e => Some (he_event_hash e) | None => prev end) k.
Proof.
  revert prev. induction l as [|e l IH]; intros prev; [simpl; tauto|].
  rewrite last_cons. simpl. rewrite IH. destruct (last l); simpl; tauto.
Qed.

Lemma chain_ok_app t l k : chain_ok t (l ++ k) → chain_ok t l.
Proof.
  intros [He Hi Hh Hl Hn]. rewrite fmap_app, NoDup_app in Hi. rewrite fmap_app, NoDup_app in Hh.
  apply Forall_app in He as [? _]. apply linked_app in Hl as [? _].
  rewrite length_app in Hn. constructor; try tauto. lia.
Qed.

(** The link of the event at a position. *)
Lemma linked_lookup prev l i e :
  linked prev l → l !! i = Some e →
  ae_previous_event_hash (he_content e) =
  match i with O => prev | S j => he_event_hash <$> l !! j end.
Proof.
  revert prev i. induction l as [|x l IH]; intros prev [|i] Hl Hi; simplify_eq/=.
  - apply Hl.
  - rewrite (IH _ _ (proj2 Hl) Hi). by destruct i.
Qed.

(** Two chains over the same events agree position by position. *)
Lemma chain_subset_lookup t l k i e :
  chain_ok t l → chain_ok t k → k ⊆ l → k !! i = Some e → l !! i = Some e.
Proof.
  intros Hl Hk Hs. revert e. induction i as [|i IH]; intros e Hi.
  all: pose proof (linked_lookup _ _ _ _ (co_linked _ _ Hk) Hi) as Hp.
  all: assert (e ∈ l) as Hel by (apply Hs; by eapply list_elem_of_lookup_2).
  all: apply list_elem_of_lookup in Hel as [j Hj].
  all: pose proof (linked_lookup _ _ _ _ (co_linked _ _ Hl) Hj) as Hq.
  - destruct j as [|j]; [done|]. simpl in Hq. rewrite Hp in Hq.
    destruct (lookup_lt_is_Some_2 l j) as [x Hx].
    { apply lookup_lt_Some in Hj. lia. }
    by rewrite Hx in Hq.
  - destruct (lookup_lt_is_Some_2 k i) as [x Hx].
    { apply lookup_lt_Some in Hi. lia. }
    specialize (IH x Hx). simpl in Hp. rewrite Hx in Hp. rewrite Hp in Hq.
    destruct j as [|j]; [done|]. simpl in Hq. destruct (lookup_lt_is_Some_2 l j) as [y Hy].
    { apply lookup_lt_Some in Hj. lia. }
    rewrite Hy in Hq. injection Hq as Hq.
    assert (i = j) as ->; [|done]. eapply NoDup_lookup; [apply (co_hashes _ _ Hl)|..].
    + rewrite list_lookup_fmap, IH. done.
    + rewrite list_lookup_fmap, Hy. simpl. by rewrite Hq.
Qed.

Lemma lookup_prefix {A} (k l : list A) :
  (∀ i x, k !! i = Some x → l !! i = Some x) → k `prefix_of` l.
Proof.
  revert l. induction k as [|x k IH]; intros l H; [apply prefix_nil|].
  destruct l as [|y l]; [by specialize (H 0%nat x eq_refl)|].
  specialize (H 0%nat x eq_refl) as H0. injection H0 as ->. apply prefix_cons, IH.
  intros i z. apply (H (S i)).
Qed.

(** ** Collisions *)

(** Two different contents with the same event hash. *)
Definition collision (l k : list HashedAuditEvent) : Prop :=
  ∃ e e', e ∈ l ∧ e' ∈ k ∧ he_content e ≠ he_content e' ∧
          digest_canonical (he_content e) = digest_canonical (he_content e') ∧
          he_event_hash e = he_event_hash e'.

Lemma head_hash_commits t l k :
  chain_ok t l → chain_ok t k →
  (he_event_hash <$> last l) = (he_event_hash <$> last k) → l = k ∨ collision l k.
Proof.
  revert k. induction l as [|e l IH] using rev_ind; intros k Hl Hk Hh.
  - destruct k as [|e k _] using rev_ind; [by left|]. by rewrite last_snoc in Hh.
  - destruct k as [|e' k _] using rev_ind; [by rewrite last_snoc in Hh|].
    rewrite !last_snoc in Hh. injection Hh as Hh.
    pose proof (co_events _ _ Hl) as Hel. pose proof (co_events _ _ Hk) as Hek.
    rewrite Forall_app, Forall_singleton in Hel. rewrite Forall_app, Forall_singleton in Hek.
    destruct Hel as [_ He], Hek as [_ He'].
    destruct (decide (he_content e = he_content e')) as [Ec|Ec].
    + assert (e = e') as <- by (destruct e, e'; simpl in *; congruence).
      pose proof (co_linked _ _ Hl) as Ll. pose proof (co_linked _ _ Hk) as Lk.
      rewrite linked_app in Ll. rewrite linked_app in Lk. simpl in Ll, Lk.
      destruct (IH k) as [->|Hc]; [by eapply chain_ok_app..| |by left|].
      * destruct Ll as (_ & Ll & _), Lk as (_ & Lk & _). rewrite Ll in Lk.
        destruct (last l), (last k); simpl; congruence.
      * right. destruct Hc as (x & y & ? & ? & Hc). exists x, y.
        rewrite !elem_of_app. tauto.
    + right. exists e, e'. rewrite !elem_of_app, !list_elem_of_singleton.
      rewrite (eo_hash _ _ He), (eo_hash _ _ He'), Hh. tauto.
Qed.
End audit.

(** ** Theorems *)

(** C39. Chain verification is exact: it accepts a list of events exactly when
    every event is valid, hashes to its recorded hash and belongs to the tenant,
    ids and hashes are unique, the first event is a genesis event and each later
    event names the hash of the one before; it then reports the count, the
    genesis and the head, and it never panics. *)
Theorem audit_chain_exact `{Hashing, Canonical AuditEventContent} t events v :
  (verify_audit_chain t events = Ok v ↔ chain_ok t events ∧ v = summary t events) ∧
  verify_audit_chain t events ≠ Panic.
Proof. split; [apply verify_audit_chain_ok|apply verify_audit_chain_not_panic]. Qed.

(** A chain of two events, for concrete evaluations. *)
Definition sample_content (id : N) (previous : option string) : AuditEventContent :=
  mkAuditEventContent id 1%N None None "user" "alice" "accept" "work_item" "w" "c" None None None
    None previous (Object [("note", VString "ok")]) 0.

Definition sample_jcs : Canonical AuditEventContent :=
  {| to_jcs c := inr [Z.of_N (ae_id c)] |}.

Definition sample_event (id : N) (previous : option string) : HashedAuditEvent :=
  mkHashedAuditEvent (sample_content id previous) (@sha256_digest sample_hashing [Z.of_N id]).

Definition sample_chain : list HashedAuditEvent :=
  [sample_event 1 None; sample_event 2 (Some (he_event_hash (sample_event 1 None)))].

Lemma audit_chain_exact_witness :
  @chain_ok sample_hashing sample_jcs 1%N sample_chain.
Proof.
  apply (@audit_chain_exact sample_hashing sample_jcs 1%N sample_chain
           (summary 1%N sample_chain)). by vm_compute.
Defined.

(** What a verified chain proves about its rows: among the rows of a verified
    chain, the selections that verify on their own are exactly its prefixes.  So
    a reordered or duplicated row, or a row missing before the end, is always
    detected, and a cut at the end never is. *)
Lemma audit_chain_selection `{Hashing, Canonical AuditEventContent} t events v rows :
  verify_audit_chain t events = Ok v → rows ⊆ events →
  (∃ v', verify_audit_chain t rows = Ok v') ↔ rows `prefix_of` events.
Proof.
  rewrite verify_audit_chain_ok. intros [Hok _] Hs. split.
  - intros [v' [Hr _]%verify_audit_chain_ok]. apply lookup_prefix. intros i x.
    by apply (chain_subset_lookup t).
  - intros [k ->]. exists (summary t rows). apply verify_audit_chain_ok.
    split; [by eapply chain_ok_app|done].
Qed.

Lemma audit_chain_selection_witness :
  ¬ (∃ v, @verify_audit_chain sample_hashing sample_jcs 1%N (tail sample_chain) = Ok v).
Proof.
  intros Hv.
  apply (proj1 (@audit_chain_selection sample_hashing sample_jcs 1%N sample_chain
    (summary 1%N sample_chain) (tail sample_chain) ltac:(by vm_compute)
    ltac:(intros x Hx; by right))) in Hv.
  by destruct Hv as [k [= ?]].
Defined.

(** The head hash commits to the whole history: two verified chains of a
    tenant with the same head hash are the same list of events, or they exhibit
    two different event contents with the same canonical SHA-256 digest. *)
Lemma audit_head_commits `{Hashing, Canonical AuditEventContent} t l k v w :
  verify_audit_chain t l = Ok v → verify_audit_chain t k = Ok w →
  vc_head_event_hash v = vc_head_event_hash w → l = k ∨ collision l k.
Proof.
  rewrite !verify_audit_chain_ok. intros [Hl ->] [Hk ->] Hh. by eapply head_hash_commits.
Qed.

Lemma audit_head_commits_witness :
  sample_chain = sample_chain ∨
  @collision sample_hashing sample_jcs sample_chain sample_chain.
Proof.
  by apply (@audit_head_commits sample_hashing sample_jcs 1%N sample_chain sample_chain
    (summary 1%N sample_chain) (summary 1%N sample_chain)); vm_compute.
Defined.

(** Events and exports round trip: a created event verifies; a created export
    verifies and carries its events unchanged; parsing the canonical bytes of a
    verified export gives the export back; and bytes that parse are the
    canonical bytes of what they parse to, so an export has one byte form. *)
Lemma audit_round_trips `{Hashing, Canonical AuditEventContent, ExportJson} :
  (∀ c e, HashedAuditEvent_create c = Ok e →
     he_content e = c ∧ HashedAuditEvent_verify e = Ok tt) ∧
  (∀ t events x, AuditChainExport_create t events = Ok x →
     ex_events x = events ∧ ∃ v, AuditChainExport_verify x = Ok v) ∧
  (∀ x b, to_canonical_bytes x = Ok b → from_canonical_bytes b = Ok x) ∧
  (∀ x b, from_canonical_bytes b = Ok x → to_canonical_bytes x = Ok b).
Proof.
  split_and!.
  - unfold HashedAuditEvent_create, HashedAuditEvent_verify. intros c e Hc.
    apply bind_unit_ok in Hc as [Hv Hc]. apply bind_ok in Hc as (b & Hb & [= <-]). simpl.
    rewrite Hv. simpl. rewrite Hb. simpl. by rewrite bool_decide_eq_true_2.
  - unfold AuditChainExport_create, AuditChainExport_verify. intros t events x Hc.
    apply bind_ok in Hc as (v & Hv & [= <-]). simpl. split; [done|]. exists v.
    rewrite Hv. simpl. by rewrite Z.eqb_refl, !bool_decide_eq_true_2.
  - unfold to_canonical_bytes, from_canonical_bytes. intros x b Hx.
    apply bind_ok in Hx as (v & Hv & Hb).
    pose proof Hb as Hj. unfold canonical_json in Hj.
    destruct (to_jcs x) eqn:E; [done|]. injection Hj as <-.
    rewrite (export_round_trip _ _ E). simpl. rewrite Hv. simpl. rewrite Hb. simpl.
    by rewrite bool_decide_eq_true_2.
  - unfold to_canonical_bytes, from_canonical_bytes. intros x b Hx.
    apply bind_ok in Hx as (x' & Hp & Hx). apply bind_ok in Hx as (v & Hv & Hx).
    apply bind_ok in Hx as (c & Hb & Hx). reflect. destruct Hx as [<- [= <-]].
    rewrite Hv. simpl. exact Hb.
Qed.

#[global] Instance AuditChainExport_eq_dec : EqDecision AuditChainExport.
Proof. solve_decision. Defined.

(** A codec for one export. *)
Definition sample_export : AuditChainExport :=
  mkAuditChainExport AUDIT_CHAIN_EXPORT_FORMAT 1%N 2
    (he_event_hash <$> head sample_chain) (he_event_hash <$> last sample_chain) sample_chain.

Definition sample_export_jcs : Canonical AuditChainExport :=
  {| to_jcs x := if decide (x = sample_export) then inr [1] else inl "unsupported" |}.

Lemma sample_export_round_trip x b :
  @to_jcs _ sample_export_jcs x = inr b → (inr sample_export : string + _) = inr x.
Proof. simpl. by case_decide as E; [rewrite E|]. Qed.

Definition sample_export_json : @ExportJson sample_export_jcs :=
  {| export_from_slice _ := inr sample_export;
     export_round_trip := sample_export_round_trip |}.

Lemma audit_round_trips_witness :
  @from_canonical_bytes sample_hashing sample_jcs sample_export_jcs sample_export_json [1]
  = Ok sample_export.
Proof.
  apply (@audit_round_trips sample_hashing sample_jcs sample_export_jcs sample_export_json).
  by vm_compute.
Defined.
