(* ===== verification/WorkOrder.v ===== *)
(** The Work Order contract, [src/src/contracts/work_order.rs]: what may be
    dispatched to a worker, and the signed envelope that carries it. *)

From Stdlib Require Import ZArith Lia.
From stdpp Require Import base tactics option list strings.
From S2P Require Import Prelude RustStr RustOrd Ids Authority Identity WorkItem Crypto Governance.

Definition WORK_ORDER_SCHEMA_V1 : string := "asf.work-order/v1".
Definition WORK_ORDER_ENVELOPE_SCHEMA_V1 : string := "asf.work-order-envelope/v1".
Definition WORK_ORDER_SIGNATURE_DOMAIN : string := "asf.work-order-envelope/v1".

Record CheckRequirements := mkCheckRequirements {
  local_check_ids : BTreeSet string;
  remote_ci_contexts : BTreeSet string
}.

Record RepositoryTarget := mkRepositoryTarget {
  rt_repository_id : RepositoryId;
  rt_forge : string;
  rt_owner : string;
  rt_name : string;
  rt_base_ref : string;
  rt_base_sha : string
}.

Record ContractDigests := mkContractDigests {
  cd_policy : string;
  cd_repository_policy : string;
  cd_planner : string;
  cd_harness : string
}.

Record WorkOrderV1 := mkWorkOrderV1 {
  wo_schema : string;
  wo_work_order_id : WorkOrderId;
  wo_tenant_id : TenantId;
  wo_work_item_id : WorkItemId;
  wo_attempt_id : AttemptId;
  wo_idempotency_key : string;
  wo_source_system : SourceSystem;
  wo_source_external_id : string;
  wo_source_snapshot_digest : string;
  wo_source_reference : string;
  wo_repository : RepositoryTarget;
  wo_objective : string;
  wo_acceptance_criteria : list string;
  wo_non_goals : list string;
  wo_checks : CheckRequirements;
  wo_risk : RiskAssessment;
  wo_identities : WorkOrderIdentities;
  wo_authority : ExecutionAuthority;
  wo_closure_target : ClosureTarget;
  wo_digests : ContractDigests;
  wo_issued_at : DateTime;
  wo_not_before : DateTime;
  wo_expires_at : DateTime
}.

Definition is_git_sha (value : string) : bool :=
  ((len value =? 40) || (len value =? 64)) && forallb lower_hex (bytes value).

(** [list.is_empty()]. *)
Definition list_is_empty {A} (l : list A) : bool := match l with [] => true | _ => false end.

Definition WorkOrderV1_validate `{UrlCrate} (o : WorkOrderV1) : res unit :=
  bail_if (negb (bool_decide (wo_schema o = WORK_ORDER_SCHEMA_V1)))
    (Validation [Lit "unsupported Work Order schema: "; Disp (wo_schema o)]) ;;
  bail_if (blank (wo_idempotency_key o)
           || blank (wo_source_external_id o)
           || blank (wo_source_reference o)
           || blank (wo_objective o)
           || list_is_empty (wo_acceptance_criteria o)
           || existsb blank (wo_acceptance_criteria o)
           || existsb blank (wo_non_goals o)
           || existsb blank (elems (local_check_ids (wo_checks o))
                             ++ elems (remote_ci_contexts (wo_checks o)))
           || blank (rt_base_ref (wo_repository o))
           || blank (rt_base_sha (wo_repository o)))
    (Validation [Lit "Work Order identity, source, objective, criteria, checks, and exact base must be complete"]) ;;
  bail_if (512 <? len (wo_idempotency_key o))
    (Validation [Lit "Work Order idempotency key exceeds 512 bytes"]) ;;
  try_for [ ("source snapshot", wo_source_snapshot_digest o);
            ("policy", cd_policy (wo_digests o));
            ("repository policy", cd_repository_policy (wo_digests o));
            ("planner", cd_planner (wo_digests o));
            ("harness", cd_harness (wo_digests o)) ]
    (λ '(name, digest), bail_if (negb (is_sha256_digest digest))
       (Validation [Disp name; Lit " digest must be a lowercase sha256 digest"])) ;;
  bail_if (negb (bool_decide (rt_forge (wo_repository o) = "github"))
           || blank (rt_owner (wo_repository o))
           || blank (rt_name (wo_repository o))
           || negb (is_git_sha (rt_base_sha (wo_repository o))))
    (Validation [Lit "Work Order requires a GitHub repository and exact 40/64-hex base SHA"]) ;;
  bail_if (negb (production_supported_v1 (wo_closure_target o)))
    (Validation [Lit "only pull-request closure can be dispatched in V1"]) ;;
  bail_if (negb (bool_decide (ea_delivery (xa_effects (wo_authority o))
                              = DeliveryPermission.PullRequest))
           || is_some (ea_deployment_environment (xa_effects (wo_authority o))))
    (Validation [Lit "V1 pull-request Work Orders require exactly pull-request delivery authority and no deployment scope"]) ;;
  bail_if (risk_not_automatable (risk_class (wo_risk o))
           || list_is_empty (risk_reasons (wo_risk o))
           || bs_is_empty (risk_matched_rules (wo_risk o))
           || existsb blank (risk_reasons (wo_risk o))
           || existsb blank (elems (risk_matched_rules (wo_risk o))))
    (Validation [Lit "V1 Work Order risk must be automatable and carry non-empty policy rationale"]) ;;
  bail_if (bool_decide (risk_class (wo_risk o) = RiskClass.High)
           && bs_is_empty (xa_required_approval_types (wo_authority o)))
    (Validation [Lit "high-risk V1 Work Orders require an explicit bound approval type"]) ;;
  bail_if ((wo_not_before o <? wo_issued_at o) || (wo_expires_at o <=? wo_not_before o))
    (Validation [Lit "Work Order timestamps must satisfy issued <= not-before < expiration"]) ;;
  WorkOrderIdentities_validate (wo_identities o) ;;
  ExecutionAuthority_validate (wo_authority o).

(** [ProtectedEnvelope]: what the signature covers. *)
Record ProtectedEnvelope := mkProtectedEnvelope {
  pe_schema : string;
  pe_key_id : string;
  pe_algorithm : string;
  pe_issued_at : DateTime;
  pe_not_before : DateTime;
  pe_expires_at : DateTime;
  pe_payload_digest : string;
  pe_payload : WorkOrderV1
}.

Record SignedWorkOrder := mkSignedWorkOrder {
  sw_envelope_schema : string;
  sw_algorithm : string;
  sw_key_id : string;
  sw_issued_at : DateTime;
  sw_not_before : DateTime;
  sw_expires_at : DateTime;
  sw_payload_digest : string;
  sw_payload : WorkOrderV1;
  sw_signature : string
}.

(** [envelope.signature = signature]. *)
Definition set_sw_signature (e : SignedWorkOrder) (signature : string) : SignedWorkOrder :=
  let 'mkSignedWorkOrder sc al ke ia nb ex di pa _ := e in
  mkSignedWorkOrder sc al ke ia nb ex di pa signature.

Section work_order.
  Context {url : UrlCrate} {hashing : Hashing} {ed : Ed25519}.
  Context {order_jcs : Canonical WorkOrderV1} {envelope_jcs : Canonical ProtectedEnvelope}.

Definition WorkOrderV1_canonical_bytes (o : WorkOrderV1) : res (list Z) :=
  WorkOrderV1_validate o ;; canonical_json o.

Definition WorkOrderV1_digest (o : WorkOrderV1) : res string :=
  bytes ← WorkOrderV1_canonical_bytes o; Ok (sha256_digest bytes).

Definition protected_envelope (e : SignedWorkOrder) : ProtectedEnvelope :=
  {| pe_schema := sw_envelope_schema e;
     pe_key_id := sw_key_id e;
     pe_algorithm := sw_algorithm e;
     pe_issued_at := sw_issued_at e;
     pe_not_before := sw_not_before e;
     pe_expires_at := sw_expires_at e;
     pe_payload_digest := sw_payload_digest e;
     pe_payload := sw_payload e |}.

Definition protected_canonical_bytes (e : SignedWorkOrder) : res (list Z) :=
  canonical_json (protected_envelope e).

Definition SignedWorkOrder_sign (payload : WorkOrderV1) (signer : Ed25519Signer)
  : res SignedWorkOrder :=
  bytes ← WorkOrderV1_canonical_bytes payload;
  let envelope :=
    {| sw_envelope_schema := WORK_ORDER_ENVELOPE_SCHEMA_V1;
       sw_algorithm := "EdDSA";
       sw_key_id := signer_key_id signer;
       sw_issued_at := wo_issued_at payload;
       sw_not_before := wo_not_before payload;
       sw_expires_at := wo_expires_at payload;
       sw_payload_digest := sha256_digest bytes;
       sw_payload := payload;
       sw_signature := "" |} in
  protected ← protected_canonical_bytes envelope;
  Ok (set_sw_signature envelope
        (sign_domain signer WORK_ORDER_SIGNATURE_DOMAIN protected)).

Definition verify_integrity (e : SignedWorkOrder) (key : VerifyingKey) : res unit :=
  bail_if (negb (bool_decide (sw_envelope_schema e = WORK_ORDER_ENVELOPE_SCHEMA_V1))
           || negb (bool_decide (sw_algorithm e = "EdDSA")))
    (Crypto [Lit "unsupported signed envelope"]) ;;
  bytes ← WorkOrderV1_canonical_bytes (sw_payload e);
  bail_if (negb (bool_decide (sha256_digest bytes = sw_payload_digest e)))
    (Crypto [Lit "Work Order payload digest mismatch"]) ;;
  bail_if (negb (sw_issued_at e =? wo_issued_at (sw_payload e))
           || negb (sw_not_before e =? wo_not_before (sw_payload e))
           || negb (sw_expires_at e =? wo_expires_at (sw_payload e)))
    (Crypto [Lit "Work Order envelope and payload validity windows differ"]) ;;
  protected ← protected_canonical_bytes e;
  verify_domain_signature key WORK_ORDER_SIGNATURE_DOMAIN protected (sw_signature e).

Definition SignedWorkOrder_verify (e : SignedWorkOrder) (key : VerifyingKey) (now : DateTime)
  : res unit :=
  verify_integrity e key ;;
  bail_if (now <? sw_not_before e) (Validation [Lit "Work Order is not active yet"]) ;;
  bail_if (sw_expires_at e <=? now) (Validation [Lit "Work Order has expired"]).
End work_order.

(** ** What a valid order is *)

(** The bounds a worker may rely on. *)
Record order_valid `{UrlCrate} (o : WorkOrderV1) : Prop := {
  ov_schema : wo_schema o = WORK_ORDER_SCHEMA_V1;
  ov_complete : blank (wo_idempotency_key o) = false ∧
    blank (wo_source_external_id o) = false ∧ blank (wo_source_reference o) = false ∧
    blank (wo_objective o) = false;
  ov_key : len (wo_idempotency_key o) ≤ 512;
  ov_criteria : wo_acceptance_criteria o ≠ [] ∧
    Forall (λ s, blank s = false) (wo_acceptance_criteria o ++ wo_non_goals o);
  ov_checks c : c ∈ local_check_ids (wo_checks o) ∨ c ∈ remote_ci_contexts (wo_checks o) →
    blank c = false;
  ov_base : blank (rt_base_ref (wo_repository o)) = false ∧
    blank (rt_base_sha (wo_repository o)) = false ∧
    is_git_sha (rt_base_sha (wo_repository o)) = true;
  ov_repository : rt_forge (wo_repository o) = "github" ∧
    blank (rt_owner (wo_repository o)) = false ∧ blank (rt_name (wo_repository o)) = false;
  ov_digests : Forall (λ d, is_sha256_digest d = true)
    [ wo_source_snapshot_digest o; cd_policy (wo_digests o);
      cd_repository_policy (wo_digests o); cd_planner (wo_digests o);
      cd_harness (wo_digests o) ];
  ov_target : wo_closure_target o = ClosureTarget.PullRequest;
  ov_delivery : ea_delivery (xa_effects (wo_authority o)) = DeliveryPermission.PullRequest ∧
    ea_deployment_environment (xa_effects (wo_authority o)) = None;
  ov_risk : risk_class (wo_risk o) ∈ [RiskClass.Low; RiskClass.Medium; RiskClass.High];
  ov_rationale : risk_reasons (wo_risk o) ≠ [] ∧ (∃ r, r ∈ risk_matched_rules (wo_risk o)) ∧
    Forall (λ s, blank s = false) (risk_reasons (wo_risk o)) ∧
    ∀ r, r ∈ risk_matched_rules (wo_risk o) → blank r = false;
  ov_approval : risk_class (wo_risk o) = RiskClass.High →
    ∃ a, a ∈ xa_required_approval_types (wo_authority o);
  ov_window : wo_issued_at o ≤ wo_not_before o < wo_expires_at o;
  ov_separation : woi_implementer (wo_identities o) ≠ woi_local_reviewer (wo_identities o) ∧
    woi_implementer (wo_identities o) ≠ woi_pr_reviewer (wo_identities o);
  ov_authority : authority_valid (wo_authority o)
}.

Lemma list_is_empty_false {A} (l : list A) : list_is_empty l = false ↔ l ≠ [].
Proof. by destruct l. Qed.

Lemma pr_supported t : production_supported_v1 t = true ↔ t = ClosureTarget.PullRequest.
Proof. by destruct t. Qed.

Lemma risk_automatable r :
  risk_not_automatable r = false ↔ r ∈ [RiskClass.Low; RiskClass.Medium; RiskClass.High].
Proof. rewrite !elem_of_cons, elem_of_nil. destruct r; naive_solver. Qed.

Lemma WorkOrderV1_validate_ok `{UrlCrate} o :
  WorkOrderV1_validate o = Ok tt ↔ order_valid o.
Proof.
  unfold WorkOrderV1_validate, WorkOrderIdentities_validate.
  rewrite !bind_unit_ok, try_for_ok, ExecutionAuthority_validate_ok, !bail_if_ok.
  rewrite !Forall_cons, Forall_nil, !bail_if_ok.
  rewrite !orb_false_iff, !andb_false_iff, !negb_false_iff, !existsb_false,
    !list_is_empty_false, pr_supported, risk_automatable, !bs_nonempty, Forall_app.
  rewrite !bool_decide_eq_true, !bool_decide_eq_false, is_some_false, !Z.ltb_ge, Z.leb_gt.
  rewrite !(Forall_forall _ (elems _)). split.
  - intros H0. destruct_and!. constructor; try done; try (split_and!; done).
    + split; [done|]. by rewrite Forall_app.
    + intros c [Hc|Hc]; auto.
    + by rewrite !Forall_cons.
    + intros Hr. by destruct select (_ ∨ _).
  - intros []. rewrite Forall_app in ov_criteria0. rewrite !Forall_cons in ov_digests0.
    destruct_and!. split_and!; try done; try (intros x Hx; apply ov_checks0; tauto).
    destruct (decide (risk_class (wo_risk o) = RiskClass.High)); auto.
Qed.

Section envelope.
  Context {url : UrlCrate} {hashing : Hashing} {ed : Ed25519}.
  Context {order_jcs : Canonical WorkOrderV1} {envelope_jcs : Canonical ProtectedEnvelope}.

(** What the envelope proves once its integrity is verified. *)
Record envelope_sound (e : SignedWorkOrder) (key : VerifyingKey) : Prop := {
  es_schema : sw_envelope_schema e = WORK_ORDER_ENVELOPE_SCHEMA_V1 ∧ sw_algorithm e = "EdDSA";
  es_payload : order_valid (sw_payload e);
  es_digest : WorkOrderV1_digest (sw_payload e) = Ok (sw_payload_digest e);
  es_window : sw_issued_at e = wo_issued_at (sw_payload e) ∧
    sw_not_before e = wo_not_before (sw_payload e) ∧
    sw_expires_at e = wo_expires_at (sw_payload e);
  es_signature : ∃ bytes, protected_canonical_bytes e = Ok bytes ∧
    verify_domain_signature key WORK_ORDER_SIGNATURE_DOMAIN bytes (sw_signature e) = Ok tt
}.

Lemma canonical_bytes_ok o b :
  WorkOrderV1_canonical_bytes o = Ok b ↔ order_valid o ∧ canonical_json o = Ok b.
Proof. unfold WorkOrderV1_canonical_bytes. by rewrite bind_unit_ok, WorkOrderV1_validate_ok. Qed.

Lemma verify_integrity_ok e key : verify_integrity e key = Ok tt ↔ envelope_sound e key.
Proof.
  unfold verify_integrity. rewrite bind_unit_ok, bind_ok. split.
  - intros (Hs & b & Hb & Hi). rewrite !bind_unit_ok, bind_ok in Hi.
    destruct Hi as (Hd & Hw & Hp). pose proof Hb as [Hv _]%canonical_bytes_ok. reflect.
    constructor; [tauto|done| |tauto|done].
    unfold WorkOrderV1_digest. rewrite Hb. simpl. by rewrite Hd.
  - intros [[Hs1 Hs2] Hv Hd (Hw1 & Hw2 & Hw3) (p & Hp & Hsig)]. unfold WorkOrderV1_digest in Hd.
    apply bind_ok in Hd as (b & Hb & [= Hd]).
    split; [reflect; tauto|]. exists b. rewrite !bind_unit_ok, bind_ok. reflect. eauto 10.
Qed.

Lemma verify_ok e key now :
  SignedWorkOrder_verify e key now = Ok tt ↔
  envelope_sound e key ∧ sw_not_before e ≤ now < sw_expires_at e.
Proof.
  unfold SignedWorkOrder_verify. rewrite !bind_unit_ok, verify_integrity_ok. reflect. tauto.
Qed.

Lemma sign_sound o signer e :
  SignedWorkOrder_sign o signer = Ok e →
  sw_payload e = o ∧ envelope_sound e (verifying_key_of (signer_key signer)).
Proof.
  unfold SignedWorkOrder_sign. intros Hs. apply bind_ok in Hs as (b & Hb & Hs).
  apply bind_ok in Hs as (p & Hp & [= <-]). split; [done|].
  pose proof Hb as Hv. apply canonical_bytes_ok in Hv as [Hv _].
  constructor; simpl; try done.
  - unfold WorkOrderV1_digest. by rewrite Hb.
  - exists p. split; [done|]. apply sign_verifies.
Qed.
End envelope.

(** ** Theorems *)

(** A Work Order passes validation exactly when it is within the bounds of
    V1: pull-request delivery and nothing more, an automatable risk with its
    rationale (and a bound approval when high), reviewers who are not the
    implementer, a valid authority, complete contents with pinned digests and
    base commit, and a non-empty validity window. *)
Lemma work_order_validation_exact `{UrlCrate} o :
  WorkOrderV1_validate o = Ok tt ↔ order_valid o.
Proof. apply WorkOrderV1_validate_ok. Qed.

(** A valid order, for concrete evaluations. *)
Definition sample_digest : string :=
  "sha256:0000000000000000000000000000000000000000000000000000000000000000".

Definition sample_order : WorkOrderV1 :=
  {| wo_schema := WORK_ORDER_SCHEMA_V1; wo_work_order_id := 1%N; wo_tenant_id := 2%N;
     wo_work_item_id := 3%N; wo_attempt_id := 4%N; wo_idempotency_key := "key";
     wo_source_system := SourceSystem.Linear; wo_source_external_id := "X-1";
     wo_source_snapshot_digest := sample_digest; wo_source_reference := "X-1";
     wo_repository := mkRepositoryTarget 5%N "github" "owner" "name" "main"
       "0000000000000000000000000000000000000000";
     wo_objective := "fix"; wo_acceptance_criteria := ["done"]; wo_non_goals := [];
     wo_checks := mkCheckRequirements (bs_of_list ["cargo test"]) bs_empty;
     wo_risk := mkRiskAssessment RiskClass.Low ["small"] (bs_of_list ["r1"]);
     wo_identities := mkWorkOrderIdentities (mkProfileRef "claude:a") (mkProfileRef "codex:b")
       (mkProfileRef "codex:b");
     wo_authority :=
       {| xa_paths := mkPathAuthority (bs_of_list ["src/**"]) bs_empty;
          xa_tools := mkToolAuthority (bs_of_list ["shell"]) bs_empty bs_empty;
          xa_effects := mkEffectAuthority DeliveryPermission.PullRequest true true None;
          xa_budgets := mkBudgetLimits 1 1 1 1 1 1 1 1;
          xa_required_approval_types := bs_empty; xa_sandbox_policy_ref := "linux-v1" |};
     wo_closure_target := ClosureTarget.PullRequest;
     wo_digests := mkContractDigests sample_digest sample_digest sample_digest sample_digest;
     wo_issued_at := 0; wo_not_before := 10; wo_expires_at := 20 |}.

Definition sample_url : UrlCrate := {| url_parse _ := inl "unsupported" |}.

Lemma work_order_validation_exact_witness : @order_valid sample_url sample_order.
Proof. apply (@work_order_validation_exact sample_url sample_order). by vm_compute. Defined.

(** C38. Signed Work Orders: an order that was signed verifies under the signer's
    key exactly during its validity window and keeps its integrity forever; and
    an envelope that verifies under a key at some instant carries a valid order,
    is inside that order's own window, names the order's digest, and has a
    signature of that key over all of it. *)
Theorem signed_work_order_exact `{UrlCrate, Hashing, Ed25519, Canonical WorkOrderV1,
    Canonical ProtectedEnvelope} :
  (∀ o signer e, SignedWorkOrder_sign o signer = Ok e →
     sw_payload e = o ∧
     verify_integrity e (verifying_key_of (signer_key signer)) = Ok tt ∧
     ∀ now, SignedWorkOrder_verify e (verifying_key_of (signer_key signer)) now = Ok tt ↔
            wo_not_before o ≤ now < wo_expires_at o) ∧
  (∀ e key now, SignedWorkOrder_verify e key now = Ok tt ↔
     envelope_sound e key ∧
     wo_not_before (sw_payload e) ≤ now < wo_expires_at (sw_payload e)).
Proof.
  assert (∀ e key now, SignedWorkOrder_verify e key now = Ok tt ↔ envelope_sound e key ∧
    wo_not_before (sw_payload e) ≤ now < wo_expires_at (sw_payload e)) as Hv.
  { intros e key now. rewrite verify_ok. split; intros [Hs Hw]; (split; [done|]);
      destruct (es_window _ _ Hs) as (_ & E1 & E2); by rewrite ?E1, ?E2 in *. }
  split; [|done]. intros o signer e Hs. apply sign_sound in Hs as [<- Hs].
  split_and!; [done|by apply verify_integrity_ok|]. intros now. rewrite Hv. tauto.
Qed.

Definition sample_order_jcs : Canonical WorkOrderV1 := {| to_jcs o := inr [wo_issued_at o] |}.
Definition sample_envelope_jcs : Canonical ProtectedEnvelope :=
  {| to_jcs e := inr [pe_issued_at e; pe_expires_at e] |}.

Lemma signed_work_order_exact_witness :
  ∃ e, @SignedWorkOrder_sign sample_url sample_hashing sample_ed25519 sample_order_jcs
         sample_envelope_jcs sample_order (@mkSigner sample_ed25519 "k" tt) = Ok e ∧
    @SignedWorkOrder_verify sample_url sample_hashing sample_ed25519 sample_order_jcs
      sample_envelope_jcs e tt 15 = Ok tt ∧
    @SignedWorkOrder_verify sample_url sample_hashing sample_ed25519 sample_order_jcs
      sample_envelope_jcs e tt 20 ≠ Ok tt.
Proof.
  assert (is_ok (@SignedWorkOrder_sign sample_url sample_hashing sample_ed25519
    sample_order_jcs sample_envelope_jcs sample_order (@mkSigner sample_ed25519 "k" tt)) = true)
    as Hok by (vm_compute; reflexivity).
  destruct (SignedWorkOrder_sign _ _) as [e| |] eqn:E; [|done|done]. exists e. split; [done|].
  destruct (proj1 (@signed_work_order_exact sample_url sample_hashing sample_ed25519
    sample_order_jcs sample_envelope_jcs) _ _ _ E) as (_ & _ & Hw).
  split; [apply Hw; by vm_compute|]. intros F. apply Hw in F. by destruct F.
Defined.
