(* ===== verification/Promotion.v ===== *)
(** Quality evaluation, [src/src/application/promotion.rs], first part: samples,
    incidents, threshold policies, aggregation and the evaluation report on
    which an autonomy decision rests. *)

From Stdlib Require Import ZArith Lia.
From stdpp Require Import base tactics option list strings gmap.
From S2P Require Import Prelude RustStr RustOrd Ids WorkItem Crypto Governance.

Definition SAMPLE_SCHEMA : string := "asf.autonomy-evaluation-sample/v1".
Definition POLICY_SCHEMA : string := "asf.autonomy-threshold-policy/v1".
Definition REPORT_SCHEMA : string := "asf.autonomy-evaluation-report/v1".
Definition MAX_WORK_CLASS_BYTES : Z := 64.
Definition MAX_EVALUATION_SAMPLES : Z := 10000.
Definition MAX_INCIDENT_SNAPSHOTS : Z := 10000.
Definition MAX_WINDOW_SECONDS : Z := 366 * 24 * 60 * 60.
Definition MAX_PROMOTION_SECONDS : Z := 366 * 24 * 60 * 60.
Definition MAX_CYCLE_TIME_SECONDS : Z := 10 * 366 * 24 * 60 * 60.
Definition MAX_COST_MICROUNITS : Z := 1000000000000000.
Definition BASIS_POINTS : Z := 10000.

(** ** Segments and windows *)

Record WorkClass := mkWorkClass { work_class_str : string }.

#[global] Instance WorkClass_eq_dec : EqDecision WorkClass.
Proof. solve_decision. Defined.

Definition work_class_byte (b : Z) : bool :=
  is_ascii_lowercase b || is_ascii_digit b || (b =? 46) || (b =? 95) || (b =? 45).

Definition valid_work_class (value : string) : bool :=
  negb (str_is_empty value)
  && (len value <=? MAX_WORK_CLASS_BYTES)
  && match bytes value with b :: _ => is_ascii_lowercase b | [] => false end
  && forallb work_class_byte (bytes value).

Definition validate_work_class (value : string) : res unit :=
  bail_if (negb (valid_work_class value))
    (Validation [Lit "work class must be a 1..=64 byte lowercase ASCII slug"]).

Definition WorkClass_new (value : string) : res WorkClass :=
  validate_work_class value ;; Ok (mkWorkClass value).

Record EvaluationSegment := mkEvaluationSegment {
  seg_repository_id : RepositoryId;
  seg_work_class : WorkClass;
  seg_risk_class : RiskClass;
  seg_target : ClosureTarget
}.

#[global] Instance EvaluationSegment_eq_dec : EqDecision EvaluationSegment.
Proof. solve_decision. Defined.

Definition EvaluationSegment_validate (s : EvaluationSegment) : res unit :=
  validate_work_class (work_class_str (seg_work_class s)).

Record EvaluationWindow := mkEvaluationWindow {
  win_start : DateTime;
  win_end : DateTime
}.

#[global] Instance EvaluationWindow_eq_dec : EqDecision EvaluationWindow.
Proof. solve_decision. Defined.

Definition EvaluationWindow_validate (w : EvaluationWindow) : res unit :=
  let seconds := num_seconds (signed_duration_since (win_end w) (win_start w)) in
  bail_if ((seconds <=? 0)
           || negb (match try_from u64_max seconds with
                    | Some value => value <=? MAX_WINDOW_SECONDS
                    | None => false
                    end))
    (Validation [Lit "evaluation window must be positive and at most 366 days"]).

Definition EvaluationWindow_new (start end_ : DateTime) : res EvaluationWindow :=
  EvaluationWindow_validate (mkEvaluationWindow start end_) ;;
  Ok (mkEvaluationWindow start end_).

Definition EvaluationWindow_contains (w : EvaluationWindow) (timestamp : DateTime) : bool :=
  (win_start w <=? timestamp) && (timestamp <? win_end w).

(** ** Samples *)

Module ApplicabilityOutcome.
Inductive ApplicabilityOutcome := NotApplicable | Pass | Fail_.
End ApplicabilityOutcome.
Abbreviation ApplicabilityOutcome := ApplicabilityOutcome.ApplicabilityOutcome.

#[global] Instance ApplicabilityOutcome_eq_dec : EqDecision ApplicabilityOutcome.
Proof. solve_decision. Defined.

Module IncidentSeverity.
Inductive IncidentSeverity := Low | Medium | High | Critical.
End IncidentSeverity.
Abbreviation IncidentSeverity := IncidentSeverity.IncidentSeverity.

Definition is_high_severity (s : IncidentSeverity) : bool :=
  match s with IncidentSeverity.High | IncidentSeverity.Critical => true | _ => false end.

Module SecurityAssessment.
Inductive SecurityAssessment :=
| Clean | LowSeverityViolation | HighSeverityViolation | CriticalViolation.
End SecurityAssessment.
Abbreviation SecurityAssessment := SecurityAssessment.SecurityAssessment.

Definition is_clean (s : SecurityAssessment) : bool :=
  match s with SecurityAssessment.Clean => true | _ => false end.

Module SevereViolation.
Inductive SevereViolation :=
| AuthorityExpansion | EvidenceIntegrity | SandboxEscape | CredentialExposure
| UnaccountableExternalEffect | PolicyBypass.
End SevereViolation.
Abbreviation SevereViolation := SevereViolation.SevereViolation.

Record QualityMeasurements := mkQualityMeasurements {
  qm_correct : bool;
  qm_acceptance_criteria_met : bool;
  qm_scope_respected : bool;
  qm_verification_correct : bool;
  qm_false_green : bool;
  qm_reviewer_independent : bool;
  qm_human_rework_required : bool;
  qm_refusal_or_escalation : ApplicabilityOutcome;
  qm_recovery : ApplicabilityOutcome;
  qm_security : SecurityAssessment;
  qm_severe_violation : option SevereViolation;
  qm_cycle_time_seconds : Z;
  qm_cost_microunits : Z
}.

Definition QualityMeasurements_validate (m : QualityMeasurements) : res unit :=
  bail_if (qm_false_green m && qm_verification_correct m)
    (Validation [Lit "a false-green sample cannot claim correct verification"]) ;;
  bail_if (MAX_CYCLE_TIME_SECONDS <? qm_cycle_time_seconds m)
    (Validation [Lit "sample cycle time exceeds the evaluation bound"]) ;;
  bail_if (MAX_COST_MICROUNITS <? qm_cost_microunits m)
    (Validation [Lit "sample cost exceeds the evaluation bound"]).

Record EvaluationSampleContent := mkEvaluationSampleContent {
  esc_schema_version : string;
  esc_sample_id : Uuid;
  esc_segment : EvaluationSegment;
  esc_work_item_id : WorkItemId;
  esc_attempt_id : option AttemptId;
  esc_evaluated_at : DateTime;
  esc_measurements : QualityMeasurements
}.

Record EvaluationSample := mkEvaluationSample {
  sample_content : EvaluationSampleContent;
  sample_digest : string
}.

Definition sample_id (s : EvaluationSample) : Uuid := esc_sample_id (sample_content s).
Definition sample_segment (s : EvaluationSample) : EvaluationSegment :=
  esc_segment (sample_content s).
Definition sample_evaluated_at (s : EvaluationSample) : DateTime :=
  esc_evaluated_at (sample_content s).
Definition measurements (s : EvaluationSample) : QualityMeasurements :=
  esc_measurements (sample_content s).

Definition validate_sample_content (c : EvaluationSampleContent) : res unit :=
  bail_if (negb (bool_decide (esc_schema_version c = SAMPLE_SCHEMA))
           || is_nil (esc_sample_id c))
    (Validation [Lit "evaluation sample has an unsupported schema or nil identity"]) ;;
  EvaluationSegment_validate (esc_segment c) ;;
  QualityMeasurements_validate (esc_measurements c).

(** ** Incidents *)

Module IncidentKind.
Inductive IncidentKind := Quality | FalseGreen | Security | SeverePolicyViolation.
End IncidentKind.
Abbreviation IncidentKind := IncidentKind.IncidentKind.

Record EvaluationIncident := mkEvaluationIncident {
  inc_incident_id : Uuid;
  inc_segment : EvaluationSegment;
  inc_kind : IncidentKind;
  inc_severity : IncidentSeverity;
  inc_opened_at : DateTime;
  inc_resolved_at : option DateTime
}.

Definition EvaluationIncident_validate (i : EvaluationIncident) (observed_at : DateTime)
  : res unit :=
  bail_if (is_nil (inc_incident_id i)) (Validation [Lit "incident identity cannot be nil"]) ;;
  EvaluationSegment_validate (inc_segment i) ;;
  bail_if ((observed_at <? inc_opened_at i)
           || match inc_resolved_at i with
              | Some resolved => (resolved <? inc_opened_at i) || (observed_at <? resolved)
              | None => false
              end)
    (Validation [Lit "incident timestamps are inconsistent with the evaluation"]).

Definition unresolved_at (i : EvaluationIncident) (observed_at : DateTime) : bool :=
  match inc_resolved_at i with Some resolved => observed_at <? resolved | None => true end.

Definition is_safety_incident (i : EvaluationIncident) : bool :=
  match inc_kind i with
  | IncidentKind.FalseGreen | IncidentKind.Security | IncidentKind.SeverePolicyViolation => true
  | IncidentKind.Quality => false
  end.

(** ** Threshold policies *)

Record PromotionThresholds := mkPromotionThresholds {
  min_samples : Z;
  max_samples : Z;
  min_correctness_bps : Z;
  min_acceptance_criteria_bps : Z;
  min_scope_bps : Z;
  min_verification_bps : Z;
  min_reviewer_independence_bps : Z;
  max_human_rework_bps : Z;
  min_refusal_or_escalation_observations : Z;
  min_refusal_or_escalation_bps : Z;
  min_recovery_observations : Z;
  min_recovery_bps : Z;
  min_security_clean_bps : Z;
  max_mean_cycle_time_seconds : Z;
  max_mean_cost_microunits : Z;
  max_evaluation_age_seconds : Z;
  max_promotion_seconds : Z
}.

Record PromotionThresholdPolicy := mkPromotionThresholdPolicy {
  policy_schema_version : string;
  policy_thresholds : PromotionThresholds
}.

Definition PromotionThresholdPolicy_validate (p : PromotionThresholdPolicy) : res unit :=
  let value := policy_thresholds p in
  maximum ← expect (try_from u32_max MAX_EVALUATION_SAMPLES);
  bail_if (negb (bool_decide (policy_schema_version p = POLICY_SCHEMA))
           || (min_samples value =? 0)
           || (max_samples value <? min_samples value)
           || (maximum <? max_samples value)
           || (max_samples value <? min_refusal_or_escalation_observations value)
           || (max_samples value <? min_recovery_observations value))
    (Validation [Lit "promotion sample thresholds are outside bounded limits"]) ;;
  try_for [ min_correctness_bps value; min_acceptance_criteria_bps value;
            min_scope_bps value; min_verification_bps value;
            min_reviewer_independence_bps value; max_human_rework_bps value;
            min_refusal_or_escalation_bps value; min_recovery_bps value;
            min_security_clean_bps value ]
    (λ basis_points, bail_if (BASIS_POINTS <? basis_points)
       (Validation [Lit "promotion rate thresholds must be in 0..=10000 basis points"])) ;;
  bail_if ((max_mean_cycle_time_seconds value =? 0)
           || (MAX_CYCLE_TIME_SECONDS <? max_mean_cycle_time_seconds value)
           || (max_mean_cost_microunits value =? 0)
           || (MAX_COST_MICROUNITS <? max_mean_cost_microunits value)
           || (max_evaluation_age_seconds value =? 0)
           || (MAX_WINDOW_SECONDS <? max_evaluation_age_seconds value)
           || (max_promotion_seconds value =? 0)
           || (MAX_PROMOTION_SECONDS <? max_promotion_seconds value))
    (Validation [Lit "promotion time or cost thresholds are outside bounded limits"]).

Definition PromotionThresholdPolicy_new (thresholds : PromotionThresholds)
  : res PromotionThresholdPolicy :=
  let value := mkPromotionThresholdPolicy POLICY_SCHEMA thresholds in
  PromotionThresholdPolicy_validate value ;; Ok value.

(** ** Rates and aggregates *)

Record EvaluationRate := mkEvaluationRate {
  rate_passed : Z;
  rate_observed : Z;
  rate_basis_points : Z
}.

Definition from_counts (passed observed : Z) : res (option EvaluationRate) :=
  if observed =? 0 then Ok None else
  passed ← ok_or (try_from u32_max passed)
    (Validation [Lit "evaluation pass count is too large"]);
  observed ← ok_or (try_from u32_max observed)
    (Validation [Lit "evaluation observation count is too large"]);
  points ← ok_or (if observed =? 0 then None
                  else Some (saturating_mul u64_max passed BASIS_POINTS / observed))
    (Validation [Lit "evaluation rate has no observations"]);
  basis_points ← ok_or (try_from u16_max points)
    (Validation [Lit "evaluation rate is outside basis points"]);
  Ok (Some (mkEvaluationRate passed observed basis_points)).

Record EvaluationAggregate := mkEvaluationAggregate {
  agg_sample_count : Z;
  agg_correctness : option EvaluationRate;
  agg_acceptance_criteria : option EvaluationRate;
  agg_scope : option EvaluationRate;
  agg_verification : option EvaluationRate;
  agg_reviewer_independence : option EvaluationRate;
  agg_human_rework : option EvaluationRate;
  agg_refusal_or_escalation : option EvaluationRate;
  agg_recovery : option EvaluationRate;
  agg_security_clean : option EvaluationRate;
  agg_false_green_count : Z;
  agg_security_violation_count : Z;
  agg_severe_violation_count : Z;
  agg_mean_cycle_time_seconds : option Z;
  agg_mean_cost_microunits : option Z
}.

(** [samples.iter().filter(|s| predicate(s.measurements())).count()]. *)
Definition count_where (predicate : QualityMeasurements → bool) (samples : list EvaluationSample)
  : Z := Z.of_nat (length (List.filter (λ s, predicate (measurements s)) samples)).

Definition bool_rate (samples : list EvaluationSample) (predicate : QualityMeasurements → bool)
  : res (option EvaluationRate) :=
  from_counts (count_where predicate samples) (Z.of_nat (length samples)).

Definition applicable_rate (samples : list EvaluationSample)
    (select : QualityMeasurements → ApplicabilityOutcome) : res (option EvaluationRate) :=
  let observed := count_where (λ m, negb (bool_decide
    (select m = ApplicabilityOutcome.NotApplicable))) samples in
  let passed := count_where (λ m, bool_decide (select m = ApplicabilityOutcome.Pass)) samples in
  from_counts passed observed.

Definition mean (samples : list EvaluationSample) (select : QualityMeasurements → Z)
  : res (option Z) :=
  match samples with
  | [] => Ok None
  | _ =>
    let total := foldl (λ total s, saturating_add u128_max total (select (measurements s)))
                   0 samples in
    denominator ← ok_or (try_from u128_max (Z.of_nat (length samples)))
      (Validation [Lit "evaluation sample count is too large"]);
    let value := total / denominator in
    v ← ok_or (try_from u64_max value) (Validation [Lit "evaluation mean is too large"]);
    Ok (Some v)
  end.

Definition count_matching (samples : list EvaluationSample)
    (predicate : QualityMeasurements → bool) : res Z :=
  ok_or (try_from u32_max (count_where predicate samples))
    (Validation [Lit "evaluation event count is too large"]).

Definition aggregate_samples (samples : list EvaluationSample) : res EvaluationAggregate :=
  sample_count ← ok_or (try_from u32_max (Z.of_nat (length samples)))
    (Validation [Lit "evaluation sample count is too large"]);
  correctness ← bool_rate samples qm_correct;
  acceptance_criteria ← bool_rate samples qm_acceptance_criteria_met;
  scope ← bool_rate samples qm_scope_respected;
  verification ← bool_rate samples qm_verification_correct;
  reviewer_independence ← bool_rate samples qm_reviewer_independent;
  human_rework ← bool_rate samples qm_human_rework_required;
  refusal_or_escalation ← applicable_rate samples qm_refusal_or_escalation;
  recovery ← applicable_rate samples qm_recovery;
  security_clean ← bool_rate samples (λ m, is_clean (qm_security m));
  false_green_count ← count_matching samples qm_false_green;
  security_violation_count ← count_matching samples (λ m, negb (is_clean (qm_security m)));
  severe_violation_count ← count_matching samples (λ m, is_some (qm_severe_violation m));
  mean_cycle_time_seconds ← mean samples qm_cycle_time_seconds;
  mean_cost_microunits ← mean samples qm_cost_microunits;
  Ok {| agg_sample_count := sample_count;
        agg_correctness := correctness;
        agg_acceptance_criteria := acceptance_criteria;
        agg_scope := scope;
        agg_verification := verification;
        agg_reviewer_independence := reviewer_independence;
        agg_human_rework := human_rework;
        agg_refusal_or_escalation := refusal_or_escalation;
        agg_recovery := recovery;
        agg_security_clean := security_clean;
        agg_false_green_count := false_green_count;
        agg_security_violation_count := security_violation_count;
        agg_severe_violation_count := severe_violation_count;
        agg_mean_cycle_time_seconds := mean_cycle_time_seconds;
        agg_mean_cost_microunits := mean_cost_microunits |}.

(** ** Hold reasons *)

Module QualityMetric.
Inductive QualityMetric :=
| Correctness | AcceptanceCriteria | Scope | Verification | ReviewerIndependence
| HumanRework | RefusalOrEscalation | Recovery | Security | CycleTime | Cost.
End QualityMetric.
Abbreviation QualityMetric := QualityMetric.QualityMetric.

Definition QualityMetric_index (m : QualityMetric) : Z :=
  match m with
  | QualityMetric.Correctness => 0 | QualityMetric.AcceptanceCriteria => 1
  | QualityMetric.Scope => 2 | QualityMetric.Verification => 3
  | QualityMetric.ReviewerIndependence => 4 | QualityMetric.HumanRework => 5
  | QualityMetric.RefusalOrEscalation => 6 | QualityMetric.Recovery => 7
  | QualityMetric.Security => 8 | QualityMetric.CycleTime => 9 | QualityMetric.Cost => 10
  end.

Module PromotionHoldReason.
Inductive PromotionHoldReason :=
| DuplicateSample (sample_id : Uuid)
| InvalidSample (sample_id : Uuid)
| SampleSegmentMismatch (sample_id : Uuid)
| SampleOutsideWindow (sample_id : Uuid)
| SampleCountBelowMinimum (required observed : Z)
| SampleCountAboveMaximum (maximum observed : Z)
| MetricBelowMinimum (metric : QualityMetric) (required_bps observed_bps : Z)
| MetricAboveMaximum (metric : QualityMetric) (maximum_bps observed_bps : Z)
| ApplicableObservationsBelowMinimum (metric : QualityMetric) (required observed : Z)
| MeanAboveMaximum (metric : QualityMetric) (maximum observed : Z)
| FalseGreenObserved (sample_id : Uuid)
| SecurityViolationObserved (sample_id : Uuid)
| SevereViolationObserved (sample_id : Uuid)
| DuplicateIncident (incident_id : Uuid)
| InvalidIncident (incident_id : Uuid)
| IncidentSegmentMismatch (incident_id : Uuid)
| SafetyIncidentObserved (incident_id : Uuid)
| UnresolvedHighSeverityIncident (incident_id : Uuid)
| ReportIntegrityMismatch
| PolicyDigestMismatch
| EvaluationExpired
| NonAdjacentPromotion
| HighRiskGuardedMergeForbidden
| InvalidPromotionWindow
| MissingOwnerApproval
| OwnerApprovalIdentityMismatch
| OwnerApprovalBindingMismatch
| OwnerApprovalSignatureInvalid.
End PromotionHoldReason.
Abbreviation PromotionHoldReason := PromotionHoldReason.PromotionHoldReason.

(** [#[derive(Ord)]]: the variant, then its fields in order. *)
Definition hold_key (r : PromotionHoldReason) : Z * N * Z * Z * Z :=
  match r with
  | PromotionHoldReason.DuplicateSample i => (0, i, 0, 0, 0)
  | PromotionHoldReason.InvalidSample i => (1, i, 0, 0, 0)
  | PromotionHoldReason.SampleSegmentMismatch i => (2, i, 0, 0, 0)
  | PromotionHoldReason.SampleOutsideWindow i => (3, i, 0, 0, 0)
  | PromotionHoldReason.SampleCountBelowMinimum x y => (4, 0%N, 0, x, y)
  | PromotionHoldReason.SampleCountAboveMaximum x y => (5, 0%N, 0, x, y)
  | PromotionHoldReason.MetricBelowMinimum m x y => (6, 0%N, QualityMetric_index m, x, y)
  | PromotionHoldReason.MetricAboveMaximum m x y => (7, 0%N, QualityMetric_index m, x, y)
  | PromotionHoldReason.ApplicableObservationsBelowMinimum m x y =>
      (8, 0%N, QualityMetric_index m, x, y)
  | PromotionHoldReason.MeanAboveMaximum m x y => (9, 0%N, QualityMetric_index m, x, y)
  | PromotionHoldReason.FalseGreenObserved i => (10, i, 0, 0, 0)
  | PromotionHoldReason.SecurityViolationObserved i => (11, i, 0, 0, 0)
  | PromotionHoldReason.SevereViolationObserved i => (12, i, 0, 0, 0)
  | PromotionHoldReason.DuplicateIncident i => (13, i, 0, 0, 0)
  | PromotionHoldReason.InvalidIncident i => (14, i, 0, 0, 0)
  | PromotionHoldReason.IncidentSegmentMismatch i => (15, i, 0, 0, 0)
  | PromotionHoldReason.SafetyIncidentObserved i => (16, i, 0, 0, 0)
  | PromotionHoldReason.UnresolvedHighSeverityIncident i => (17, i, 0, 0, 0)
  | PromotionHoldReason.ReportIntegrityMismatch => (18, 0%N, 0, 0, 0)
  | PromotionHoldReason.PolicyDigestMismatch => (19, 0%N, 0, 0, 0)
  | PromotionHoldReason.EvaluationExpired => (20, 0%N, 0, 0, 0)
  | PromotionHoldReason.NonAdjacentPromotion => (21, 0%N, 0, 0, 0)
  | PromotionHoldReason.HighRiskGuardedMergeForbidden => (22, 0%N, 0, 0, 0)
  | PromotionHoldReason.InvalidPromotionWindow => (23, 0%N, 0, 0, 0)
  | PromotionHoldReason.MissingOwnerApproval => (24, 0%N, 0, 0, 0)
  | PromotionHoldReason.OwnerApprovalIdentityMismatch => (25, 0%N, 0, 0, 0)
  | PromotionHoldReason.OwnerApprovalBindingMismatch => (26, 0%N, 0, 0, 0)
  | PromotionHoldReason.OwnerApprovalSignatureInvalid => (27, 0%N, 0, 0, 0)
  end.

Lemma QualityMetric_index_inj : Inj (=) (=) QualityMetric_index.
Proof. intros [] []; done. Qed.

Lemma hold_key_inj : Inj (=) (=) hold_key.
Proof.
  intros x y E. destruct x, y; try discriminate E; simpl in E; simplify_eq; f_equal;
    by apply QualityMetric_index_inj.
Qed.

#[global] Instance PromotionHoldReason_ord : Ord PromotionHoldReason :=
  ord_via hold_key hold_key_inj.

(** [if cond { reasons.insert(reason) }]. *)
Definition insert_if {A} `{Ord A} (cond : bool) (reason : A) (reasons : BTreeSet A)
  : BTreeSet A := if cond then bs_insert reason reasons else reasons.

Definition require_minimum_rate (metric : QualityMetric) (rate : option EvaluationRate)
    (minimum : Z) (reasons : BTreeSet PromotionHoldReason) : BTreeSet PromotionHoldReason :=
  match rate with
  | Some rate => insert_if (rate_basis_points rate <? minimum)
      (PromotionHoldReason.MetricBelowMinimum metric minimum (rate_basis_points rate)) reasons
  | None => reasons
  end.

Definition apply_applicable_threshold (metric : QualityMetric) (rate : option EvaluationRate)
    (minimum_observations minimum_bps : Z) (reasons : BTreeSet PromotionHoldReason)
  : BTreeSet PromotionHoldReason :=
  let observed := match rate with Some value => rate_observed value | None => 0 end in
  require_minimum_rate metric rate minimum_bps
    (insert_if (observed <? minimum_observations)
       (PromotionHoldReason.ApplicableObservationsBelowMinimum metric minimum_observations
          observed) reasons).

Definition require_maximum_mean (metric : QualityMetric) (observed : option Z) (maximum : Z)
    (reasons : BTreeSet PromotionHoldReason) : BTreeSet PromotionHoldReason :=
  match observed with
  | Some observed => insert_if (maximum <? observed)
      (PromotionHoldReason.MeanAboveMaximum metric maximum observed) reasons
  | None => reasons
  end.

Definition apply_thresholds (a : EvaluationAggregate) (t : PromotionThresholds)
    (reasons : BTreeSet PromotionHoldReason) : BTreeSet PromotionHoldReason :=
  let reasons := insert_if (agg_sample_count a <? min_samples t)
    (PromotionHoldReason.SampleCountBelowMinimum (min_samples t) (agg_sample_count a)) reasons in
  let reasons := insert_if (max_samples t <? agg_sample_count a)
    (PromotionHoldReason.SampleCountAboveMaximum (max_samples t) (agg_sample_count a)) reasons in
  let reasons := foldl (λ reasons '(metric, rate, minimum),
      require_minimum_rate metric rate minimum reasons) reasons
    [ (QualityMetric.Correctness, agg_correctness a, min_correctness_bps t);
      (QualityMetric.AcceptanceCriteria, agg_acceptance_criteria a,
        min_acceptance_criteria_bps t);
      (QualityMetric.Scope, agg_scope a, min_scope_bps t);
      (QualityMetric.Verification, agg_verification a, min_verification_bps t);
      (QualityMetric.ReviewerIndependence, agg_reviewer_independence a,
        min_reviewer_independence_bps t);
      (QualityMetric.Security, agg_security_clean a, min_security_clean_bps t) ] in
  let reasons := match agg_human_rework a with
    | Some rate => insert_if (max_human_rework_bps t <? rate_basis_points rate)
        (PromotionHoldReason.MetricAboveMaximum QualityMetric.HumanRework
           (max_human_rework_bps t) (rate_basis_points rate)) reasons
    | None => reasons
    end in
  let reasons := apply_applicable_threshold QualityMetric.RefusalOrEscalation
    (agg_refusal_or_escalation a) (min_refusal_or_escalation_observations t)
    (min_refusal_or_escalation_bps t) reasons in
  let reasons := apply_applicable_threshold QualityMetric.Recovery (agg_recovery a)
    (min_recovery_observations t) (min_recovery_bps t) reasons in
  foldl (λ reasons '(metric, observed, maximum),
      require_maximum_mean metric observed maximum reasons) reasons
    [ (QualityMetric.CycleTime, agg_mean_cycle_time_seconds a, max_mean_cycle_time_seconds t);
      (QualityMetric.Cost, agg_mean_cost_microunits a, max_mean_cost_microunits t) ].

(** ** The evaluation engine *)

Record SampleDigestReference := mkSampleDigestReference {
  sref_sample_id : Uuid;
  sref_digest : string
}.

Record EvaluationReportContent := mkEvaluationReportContent {
  rep_schema_version : string;
  rep_segment : EvaluationSegment;
  rep_window : EvaluationWindow;
  rep_generated_at : DateTime;
  rep_policy_digest : string;
  rep_samples : list SampleDigestReference;
  rep_incidents : list EvaluationIncident;
  rep_aggregate : EvaluationAggregate;
  rep_hold_reasons : list PromotionHoldReason
}.

Record EvaluationReport := mkEvaluationReport {
  report_content : EvaluationReportContent;
  report_digest : string
}.

(** [fold(BTreeMap::new(), |counts, x| *counts.entry(id(x)).or_insert(0) += 1)]. *)
Definition count_ids (ids : list Uuid) : gmap Uuid Z :=
  foldl (λ counts id, <[id := default 0 (counts !! id) + 1]> counts) ∅ ids.

(** [counts.get(&id).copied().unwrap_or_default() > 1]. *)
Definition repeated (counts : gmap Uuid Z) (id : Uuid) : bool := 1 <? default 0 (counts !! id).

Section evaluation.
  Context {hashing : Hashing}.
  Context {sample_jcs : Canonical EvaluationSampleContent}
          {policy_jcs : Canonical PromotionThresholdPolicy}
          {incident_jcs : Canonical EvaluationIncident}
          {report_jcs : Canonical EvaluationReportContent}.

Definition EvaluationSample_new (id : Uuid) (segment : EvaluationSegment)
    (work_item_id : WorkItemId) (attempt_id : option AttemptId) (evaluated_at : DateTime)
    (m : QualityMeasurements) : res EvaluationSample :=
  let content := mkEvaluationSampleContent SAMPLE_SCHEMA id segment work_item_id attempt_id
    evaluated_at m in
  validate_sample_content content ;;
  digest ← digest_canonical content;
  Ok (mkEvaluationSample content digest).

Definition EvaluationSample_verify (s : EvaluationSample) : res unit :=
  validate_sample_content (sample_content s) ;;
  failed ← (if negb (is_sha256_digest (sample_digest s)) then Ok true
            else d ← digest_canonical (sample_content s);
                 Ok (negb (bool_decide (d = sample_digest s))));
  bail_if failed
    (Validation [Lit "evaluation sample "; FmtUuid (sample_id s);
                 Lit " failed its immutable digest"]).

Definition PromotionThresholdPolicy_digest (p : PromotionThresholdPolicy) : res string :=
  PromotionThresholdPolicy_validate p ;; digest_canonical p.

Definition EvaluationReport_verify (r : EvaluationReport) : res unit :=
  failed ← (if negb (bool_decide (rep_schema_version (report_content r) = REPORT_SCHEMA))
               || negb (is_sha256_digest (report_digest r)) then Ok true
            else d ← digest_canonical (report_content r);
                 Ok (negb (bool_decide (d = report_digest r))));
  bail_if failed
    (Validation [Lit "autonomy evaluation report failed its canonical digest"]).

(** The loop over the ordered samples: the reason that excludes a sample, if any. *)
Definition exclusion (counts : gmap Uuid Z) (segment : EvaluationSegment)
    (window : EvaluationWindow) (s : EvaluationSample) : option PromotionHoldReason :=
  if repeated counts (sample_id s) then
    Some (PromotionHoldReason.DuplicateSample (sample_id s))
  else if is_err (EvaluationSample_verify s) then
    Some (PromotionHoldReason.InvalidSample (sample_id s))
  else if negb (bool_decide (sample_segment s = segment)) then
    Some (PromotionHoldReason.SampleSegmentMismatch (sample_id s))
  else if negb (EvaluationWindow_contains window (sample_evaluated_at s)) then
    Some (PromotionHoldReason.SampleOutsideWindow (sample_id s))
  else None.

Definition screen_samples (counts : gmap Uuid Z) (segment : EvaluationSegment)
    (window : EvaluationWindow) (ordered : list EvaluationSample)
    (reasons : BTreeSet PromotionHoldReason)
  : BTreeSet PromotionHoldReason * list EvaluationSample :=
  foldl (λ '(reasons, valid) s,
    match exclusion counts segment window s with
    | Some reason => (bs_insert reason reasons, valid)
    | None => (reasons, valid ++ [s])
    end) (reasons, []) ordered.

(** The loop over the valid samples that records safety observations. *)
Definition sample_observations (s : EvaluationSample)
    (reasons : BTreeSet PromotionHoldReason) : BTreeSet PromotionHoldReason :=
  let m := measurements s in
  let reasons := insert_if (qm_false_green m)
    (PromotionHoldReason.FalseGreenObserved (sample_id s)) reasons in
  let reasons := insert_if (negb (is_clean (qm_security m)))
    (PromotionHoldReason.SecurityViolationObserved (sample_id s)) reasons in
  insert_if (is_some (qm_severe_violation m))
    (PromotionHoldReason.SevereViolationObserved (sample_id s)) reasons.

(** The loop over the ordered incidents. *)
Definition incident_observations (counts : gmap Uuid Z) (segment : EvaluationSegment)
    (window : EvaluationWindow) (generated_at : DateTime) (i : EvaluationIncident)
    (reasons : BTreeSet PromotionHoldReason) : BTreeSet PromotionHoldReason :=
  let id := inc_incident_id i in
  if repeated counts id then
    bs_insert (PromotionHoldReason.DuplicateIncident id) reasons
  else if is_err (EvaluationIncident_validate i generated_at) then
    bs_insert (PromotionHoldReason.InvalidIncident id) reasons
  else if negb (bool_decide (inc_segment i = segment)) then
    bs_insert (PromotionHoldReason.IncidentSegmentMismatch id) reasons
  else
    let reasons := insert_if (is_high_severity (inc_severity i) && unresolved_at i generated_at)
      (PromotionHoldReason.UnresolvedHighSeverityIncident id) reasons in
    insert_if (is_safety_incident i && EvaluationWindow_contains window (inc_opened_at i))
      (PromotionHoldReason.SafetyIncidentObserved id) reasons.

Definition order_incidents (incidents : list EvaluationIncident)
  : res (list EvaluationIncident) :=
  keyed ← try_map (λ i, digest ← digest_canonical i; Ok (inc_incident_id i, digest, i)) incidents;
  Ok (snd <$> sort_by (λ l r, cmp l.1 r.1) keyed).

Definition evaluate (segment : EvaluationSegment) (window : EvaluationWindow)
    (generated_at : DateTime) (policy : PromotionThresholdPolicy)
    (samples : list EvaluationSample) (incidents : list EvaluationIncident)
  : res EvaluationReport :=
  EvaluationSegment_validate segment ;;
  EvaluationWindow_validate window ;;
  PromotionThresholdPolicy_validate policy ;;
  bail_if (generated_at <? win_end window)
    (Validation [Lit "evaluation window must be closed before report generation"]) ;;
  bail_if ((MAX_EVALUATION_SAMPLES <? Z.of_nat (length samples))
           || (MAX_INCIDENT_SNAPSHOTS <? Z.of_nat (length incidents)))
    (Validation [Lit "evaluation input exceeds the absolute processing bound"]) ;;
  let ordered_samples := sort_by_key (λ s, (sample_id s, sample_digest s)) samples in
  let sample_counts := count_ids (sample_id <$> ordered_samples) in
  let sample_references :=
    (λ s, mkSampleDigestReference (sample_id s) (sample_digest s)) <$> ordered_samples in
  let '(reasons, valid_samples) :=
    screen_samples sample_counts segment window ordered_samples bs_empty in
  aggregate ← aggregate_samples valid_samples;
  let reasons := apply_thresholds aggregate (policy_thresholds policy) reasons in
  let reasons := foldl (λ reasons s, sample_observations s reasons) reasons valid_samples in
  ordered_incidents ← order_incidents incidents;
  let incident_counts := count_ids (inc_incident_id <$> ordered_incidents) in
  let reasons := foldl (λ reasons i,
    incident_observations incident_counts segment window generated_at i reasons)
    reasons ordered_incidents in
  policy_digest ← PromotionThresholdPolicy_digest policy;
  let content :=
    {| rep_schema_version := REPORT_SCHEMA;
       rep_segment := segment;
       rep_window := window;
       rep_generated_at := generated_at;
       rep_policy_digest := policy_digest;
       rep_samples := sample_references;
       rep_incidents := ordered_incidents;
       rep_aggregate := aggregate;
       rep_hold_reasons := elems reasons |} in
  digest ← digest_canonical content;
  Ok (mkEvaluationReport content digest).
End evaluation.
