(* ===== verification/PromotionFacts.v ===== *)
(** What the evaluation report says about the evidence it was computed from:
    a report without hold reasons means clean evidence, and a report does not
    depend on the order of its inputs. *)

From Stdlib Require Import ZArith Lia Sorting Permutation.
From stdpp Require Import base tactics option list strings gmap.
From S2P Require Import Prelude RustStr RustOrd Ids WorkItem Crypto Governance Promotion.

(** ** Sets of reasons *)

Lemma insert_not_nil {A} `{Ord A} (x : A) s : elems (bs_insert x s) ≠ [].
Proof.
  intros E. assert (x ∈ bs_insert x s) as Hx by (apply elem_of_bs_insert; by left).
  unfold elem_of, bs_elem_of in Hx. rewrite E in Hx. by apply elem_of_nil in Hx.
Qed.

Lemma insert_if_nil {A} `{Ord A} b (x : A) s :
  elems (insert_if b x s) = [] ↔ b = false ∧ elems s = [].
Proof. destruct b; simpl; [|tauto]. pose proof (insert_not_nil x s). naive_solver. Qed.

Lemma foldl_nil_iff {A B} `{Ord B} (f : BTreeSet B → A → BTreeSet B) (P : A → Prop) l s :
  (∀ s x, x ∈ l → elems (f s x) = [] ↔ P x ∧ elems s = []) →
  elems (foldl f s l) = [] ↔ Forall P l ∧ elems s = [].
Proof.
  revert s. induction l as [|x l IH]; intros s Hf; simpl; [by rewrite Forall_nil; tauto|].
  rewrite IH, Forall_cons, Hf by (try (left || intros; apply Hf; by right); left). tauto.
Qed.

(** ** Counting ids *)

Definition occurrences (id : Uuid) (ids : list Uuid) : Z :=
  Z.of_nat (length (List.filter (λ x, bool_decide (x = id)) ids)).

Lemma count_ids_lookup ids (m : gmap Uuid Z) id :
  default 0 (foldl (λ counts id, <[id := default 0 (counts !! id) + 1]> counts) m ids !! id)
  = default 0 (m !! id) + occurrences id ids.
Proof.
  unfold occurrences. revert m. induction ids as [|x ids IH]; intros m; simpl; [lia|].
  rewrite IH. destruct (decide (x = id)) as [->|Hne].
  - rewrite lookup_insert_eq, bool_decide_eq_true_2 by done. simpl. lia.
  - rewrite lookup_insert_ne, bool_decide_eq_false_2 by done. simpl. lia.
Qed.

Lemma repeated_false ids id :
  repeated (count_ids ids) id = false ↔ occurrences id ids ≤ 1.
Proof.
  unfold repeated, count_ids. rewrite count_ids_lookup, lookup_empty. simpl.
  rewrite Z.ltb_ge. lia.
Qed.

Lemma occurrences_perm id ids ids' :
  Permutation ids ids' → occurrences id ids = occurrences id ids'.
Proof. intros Hp. unfold occurrences. by rewrite (filter_permutation _ _ _ Hp). Qed.

Lemma occurrences_pos id ids : id ∈ ids → 1 ≤ occurrences id ids.
Proof.
  intros Hi. unfold occurrences.
  assert (id ∈ List.filter (λ x, bool_decide (x = id)) ids) as Hf
    by (apply elem_of_filter_bool; by rewrite bool_decide_eq_true).
  destruct (List.filter _ _); [by apply elem_of_nil in Hf|]. simpl. lia.
Qed.

Lemma occurrences_cons id x ids :
  occurrences id (x :: ids) = (if decide (x = id) then 1 else 0) + occurrences id ids.
Proof.
  unfold occurrences. simpl. case_decide as E.
  - rewrite bool_decide_eq_true_2 by done. simpl. lia.
  - by rewrite bool_decide_eq_false_2 by done.
Qed.

(** No id is repeated exactly when the ids are distinct. *)
Lemma occurrences_nodup ids : (∀ id, id ∈ ids → occurrences id ids ≤ 1) ↔ NoDup ids.
Proof.
  induction ids as [|x ids IH].
  - split; [constructor|]. intros _ id Hid. by apply elem_of_nil in Hid.
  - rewrite NoDup_cons, <- IH. setoid_rewrite occurrences_cons. split.
    + intros H. split.
      * intros Hx. specialize (H x (list_elem_of_here _ _)). rewrite decide_True in H by done.
        pose proof (occurrences_pos x ids Hx). lia.
      * intros id Hid. specialize (H id (list_elem_of_further _ _ _ Hid)). case_decide; lia.
    + intros [Hx H] id Hid. apply elem_of_cons in Hid as [->|Hid].
      * rewrite decide_True by done.
        assert (occurrences x ids = 0) as ->; [|lia]. unfold occurrences.
        destruct (List.filter _ _) as [|y l] eqn:E; [done|]. exfalso.
        assert (y ∈ List.filter (λ z, bool_decide (z = x)) ids) as Hy by (rewrite E; left).
        apply elem_of_filter_bool in Hy as [Hy Hb]. apply bool_decide_eq_true in Hb as ->. done.
      * case_decide as E; [subst; done|]. specialize (H id Hid). lia.
Qed.

(** ** Rates *)

Lemma count_where_bounds p l : 0 ≤ count_where p l ≤ Z.of_nat (length l).
Proof. unfold count_where. pose proof (filter_length_le (λ s, p (measurements s)) l). lia. Qed.

Lemma from_counts_ok p o r :
  0 ≤ p → 0 ≤ o → from_counts p o = Ok r →
  (o = 0 ∧ r = None) ∨ (0 < o ∧ r = Some (mkEvaluationRate p o (p * BASIS_POINTS / o))).
Proof.
  intros Hp Ho. unfold from_counts. destruct (o =? 0) eqn:E.
  - apply Z.eqb_eq in E. intros [= <-]. by left.
  - apply Z.eqb_neq in E. intros H.
    apply bind_ok in H as (p' & H1 & H). apply ok_or_ok, try_from_some in H1 as [F1 ->].
    apply bind_ok in H as (o' & H2 & H). apply ok_or_ok, try_from_some in H2 as [F2 ->].
    rewrite (proj2 (Z.eqb_neq _ _) E) in H. simpl in H.
    apply bind_ok in H as (b & H3 & [= <-]). apply ok_or_ok, try_from_some in H3 as [F3 ->].
    right. split; [lia|]. unfold saturating_mul. rewrite Z.min_r; [done|].
    unfold fits, u32_max, u64_max, BASIS_POINTS in *. lia.
Qed.

(** What a rate threshold asks of the counts. *)
Definition minimum_met (minimum passed observed : Z) : Prop :=
  minimum * observed ≤ passed * BASIS_POINTS.

Lemma require_minimum_rate_nil metric p o r minimum s :
  0 ≤ p → 0 ≤ o → from_counts p o = Ok r →
  elems (require_minimum_rate metric r minimum s) = [] ↔
  minimum_met minimum p o ∧ elems s = [].
Proof.
  intros Hp Ho Hr. unfold minimum_met.
  destruct (from_counts_ok _ _ _ Hp Ho Hr) as [[-> ->]|[Hpos ->]]; simpl.
  - unfold BASIS_POINTS. split; [|tauto]. intros E. split; [lia|done].
  - rewrite insert_if_nil, Z.ltb_ge. simpl.
    by rewrite le_div_iff by done.
Qed.

Lemma maximum_rate_nil p o r maximum (reason : EvaluationRate → PromotionHoldReason) s :
  0 ≤ p → 0 < o → from_counts p o = Ok r →
  elems (match r with
         | Some rate => insert_if (maximum <? rate_basis_points rate) (reason rate) s
         | None => s
         end) = [] ↔
  p * BASIS_POINTS < (maximum + 1) * o ∧ elems s = [].
Proof.
  intros Hp Ho Hr.
  destruct (from_counts_ok _ _ _ Hp (Z.lt_le_incl _ _ Ho) Hr) as [[-> _]|[_ ->]]; [lia|].
  rewrite insert_if_nil, Z.ltb_ge. cbn [rate_basis_points]. by rewrite div_le_iff by done.
Qed.

Lemma applicable_nil metric p o r minimum_observations minimum s :
  0 ≤ p → 0 ≤ o → from_counts p o = Ok r →
  elems (apply_applicable_threshold metric r minimum_observations minimum s) = [] ↔
  (minimum_observations ≤ o ∧ minimum_met minimum p o) ∧ elems s = [].
Proof.
  intros Hp Ho Hr. unfold apply_applicable_threshold.
  rewrite (require_minimum_rate_nil metric p o r minimum) by done.
  rewrite insert_if_nil, Z.ltb_ge.
  destruct (from_counts_ok _ _ _ Hp Ho Hr) as [[-> ->]|[_ ->]]; simpl; tauto.
Qed.

(** ** Means *)

Definition total_of (select : QualityMeasurements → Z) (l : list EvaluationSample) : Z :=
  foldr (λ s acc, select (measurements s) + acc) 0 l.

Lemma saturating_total select l bound :
  (∀ s, s ∈ l → 0 ≤ select (measurements s) ≤ bound) →
  ∀ acc, 0 ≤ acc → acc + bound * Z.of_nat (length l) ≤ u128_max →
  foldl (λ total s, saturating_add u128_max total (select (measurements s))) acc l
  = acc + total_of select l.
Proof.
  induction l as [|s l IH]; intros Hb acc Hacc Hle; simpl; [lia|].
  pose proof (Hb s (list_elem_of_here _ _)) as Hs. simpl length in Hle.
  unfold saturating_add at 2. rewrite Z.min_r by nia.
  rewrite IH; [lia| |lia|nia]. intros x Hx. apply Hb. by right.
Qed.

Lemma mean_ok select l bound v :
  (∀ s, s ∈ l → 0 ≤ select (measurements s) ≤ bound) →
  bound * Z.of_nat (length l) ≤ u128_max → mean l select = Ok v →
  v = match l with [] => None | _ => Some (total_of select l / Z.of_nat (length l)) end.
Proof.
  intros Hb Hle. unfold mean. destruct l as [|s l]; [naive_solver|].
  intros H. apply bind_ok in H as (d & Hd & H). apply ok_or_ok, try_from_some in Hd as [_ ->].
  apply bind_ok in H as (v' & Hv & [= <-]). apply ok_or_ok, try_from_some in Hv as [_ ->].
  by rewrite (saturating_total select (s :: l) bound) by (done || lia).
Qed.

Lemma maximum_mean_nil metric select l bound v maximum s :
  (∀ x, x ∈ l → 0 ≤ select (measurements x) ≤ bound) →
  bound * Z.of_nat (length l) ≤ u128_max → l ≠ [] → mean l select = Ok v →
  elems (require_maximum_mean metric v maximum s) = [] ↔
  total_of select l < (maximum + 1) * Z.of_nat (length l) ∧ elems s = [].
Proof.
  intros Hb Hle Hne Hm. rewrite (mean_ok _ _ _ _ Hb Hle Hm).
  destruct l as [|x l]; [done|]. simpl require_maximum_mean.
  rewrite insert_if_nil, Z.ltb_ge, div_le_iff by (simpl; lia). tauto.
Qed.

(** ** Thresholds *)

Definition applicable (select : QualityMeasurements → ApplicabilityOutcome)
    (m : QualityMeasurements) : bool :=
  negb (bool_decide (select m = ApplicabilityOutcome.NotApplicable)).
Definition passes (select : QualityMeasurements → ApplicabilityOutcome)
    (m : QualityMeasurements) : bool :=
  bool_decide (select m = ApplicabilityOutcome.Pass).

(** The thresholds, in terms of the samples themselves: rates compare exact
    counts, means compare exact totals. *)
Record thresholds_met (t : PromotionThresholds) (l : list EvaluationSample) : Prop := {
  tm_count : min_samples t ≤ Z.of_nat (length l) ≤ max_samples t;
  tm_correctness : minimum_met (min_correctness_bps t) (count_where qm_correct l)
    (Z.of_nat (length l));
  tm_acceptance : minimum_met (min_acceptance_criteria_bps t)
    (count_where qm_acceptance_criteria_met l) (Z.of_nat (length l));
  tm_scope : minimum_met (min_scope_bps t) (count_where qm_scope_respected l)
    (Z.of_nat (length l));
  tm_verification : minimum_met (min_verification_bps t)
    (count_where qm_verification_correct l) (Z.of_nat (length l));
  tm_independence : minimum_met (min_reviewer_independence_bps t)
    (count_where qm_reviewer_independent l) (Z.of_nat (length l));
  tm_security : minimum_met (min_security_clean_bps t)
    (count_where (λ m, is_clean (qm_security m)) l) (Z.of_nat (length l));
  tm_rework : count_where qm_human_rework_required l * BASIS_POINTS
    < (max_human_rework_bps t + 1) * Z.of_nat (length l);
  tm_refusal : min_refusal_or_escalation_observations t
      ≤ count_where (applicable qm_refusal_or_escalation) l ∧
    minimum_met (min_refusal_or_escalation_bps t)
      (count_where (passes qm_refusal_or_escalation) l)
      (count_where (applicable qm_refusal_or_escalation) l);
  tm_recovery : min_recovery_observations t ≤ count_where (applicable qm_recovery) l ∧
    minimum_met (min_recovery_bps t) (count_where (passes qm_recovery) l)
      (count_where (applicable qm_recovery) l);
  tm_cycle : total_of qm_cycle_time_seconds l
    < (max_mean_cycle_time_seconds t + 1) * Z.of_nat (length l);
  tm_cost : total_of qm_cost_microunits l
    < (max_mean_cost_microunits t + 1) * Z.of_nat (length l)
}.

(** The measurements a validated sample can have. *)
Definition measured (l : list EvaluationSample) : Prop :=
  (∀ s, s ∈ l → 0 ≤ qm_cycle_time_seconds (measurements s) ≤ MAX_CYCLE_TIME_SECONDS) ∧
  (∀ s, s ∈ l → 0 ≤ qm_cost_microunits (measurements s) ≤ MAX_COST_MICROUNITS) ∧
  Z.of_nat (length l) ≤ MAX_EVALUATION_SAMPLES.

Ltac peel_binds H :=
  repeat match type of H with
  | (_ ≫= _) = Ok _ =>
      let x := fresh "x" in let E := fresh "E" in apply bind_ok in H as (x & E & H)
  end.

Lemma aggregate_count l a :
  aggregate_samples l = Ok a → agg_sample_count a = Z.of_nat (length l).
Proof.
  unfold aggregate_samples. intros H. peel_binds H. injection H as <-. simpl.
  by match goal with E : ok_or (try_from u32_max (Z.of_nat (length l))) _ = _ |- _ =>
    apply ok_or_ok, try_from_some in E as [_ ->] end.
Qed.

Lemma apply_thresholds_nil t l a s :
  aggregate_samples l = Ok a → l ≠ [] → measured l →
  elems (apply_thresholds a t s) = [] ↔ thresholds_met t l ∧ elems s = [].
Proof.
  intros Ha Hne (Hcycle & Hcost & Hlen).
  assert (∀ p, 0 ≤ count_where p l) as Hc by (intros p; apply count_where_bounds).
  assert (0 < Z.of_nat (length l)) as Hn by (destruct l; [done|simpl; lia]).
  assert (MAX_CYCLE_TIME_SECONDS * Z.of_nat (length l) ≤ u128_max) as Hb1
    by (unfold MAX_CYCLE_TIME_SECONDS, MAX_EVALUATION_SAMPLES, u128_max in *; lia).
  assert (MAX_COST_MICROUNITS * Z.of_nat (length l) ≤ u128_max) as Hb2
    by (unfold MAX_COST_MICROUNITS, MAX_EVALUATION_SAMPLES, u128_max in *; lia).
  pose proof (aggregate_count l a Ha) as Hcount.
  unfold aggregate_samples in Ha. peel_binds Ha. injection Ha as <-. simpl in Hcount. subst.
  unfold bool_rate, applicable_rate in *. unfold apply_thresholds. cbn -[require_maximum_mean
    apply_applicable_threshold require_minimum_rate insert_if elems].
  repeat first
    [ rewrite (maximum_mean_nil _ _ _ _ _ _ _ Hcost Hb2 Hne) by eassumption
    | rewrite (maximum_mean_nil _ _ _ _ _ _ _ Hcycle Hb1 Hne) by eassumption
    | rewrite (applicable_nil _ _ _ _ _ _ _ (Hc _) (Hc _)) by eassumption
    | rewrite (maximum_rate_nil _ _ _ _ _ _ (Hc _) Hn) by eassumption
    | rewrite (require_minimum_rate_nil _ _ _ _ _ _ (Hc _) (Z.lt_le_incl _ _ Hn)) by eassumption
    | rewrite insert_if_nil ].
  rewrite !Z.ltb_ge. fold (applicable qm_recovery) (passes qm_recovery)
    (applicable qm_refusal_or_escalation) (passes qm_refusal_or_escalation).
  split.
  - intros H. destruct_and!. split; [|done]. by constructor.
  - intros [[] ?]. tauto.
Qed.

Section evaluation_facts.
  Context {hashing : Hashing}.
  Context {sample_jcs : Canonical EvaluationSampleContent}
          {policy_jcs : Canonical PromotionThresholdPolicy}
          {incident_jcs : Canonical EvaluationIncident}
          {report_jcs : Canonical EvaluationReportContent}.

(** ** Screening *)

Lemma EvaluationSample_verify_not_panic s : EvaluationSample_verify s ≠ Panic.
Proof.
  unfold EvaluationSample_verify, validate_sample_content, EvaluationSegment_validate,
    validate_work_class, QualityMeasurements_validate.
  no_panic. case_match; no_panic.
Qed.

Lemma EvaluationIncident_validate_not_panic i t : EvaluationIncident_validate i t ≠ Panic.
Proof.
  unfold EvaluationIncident_validate, EvaluationSegment_validate, validate_work_class.
  no_panic.
Qed.

Lemma verified_measured s :
  EvaluationSample_verify s = Ok tt →
  qm_cycle_time_seconds (measurements s) ≤ MAX_CYCLE_TIME_SECONDS ∧
  qm_cost_microunits (measurements s) ≤ MAX_COST_MICROUNITS.
Proof.
  unfold EvaluationSample_verify, validate_sample_content, QualityMeasurements_validate.
  rewrite !bind_unit_ok. intros [(_ & _ & _ & H1 & H2) _]. by reflect.
Qed.

Lemma exclusion_none counts segment window s :
  exclusion counts segment window s = None ↔
  repeated counts (sample_id s) = false ∧ EvaluationSample_verify s = Ok tt ∧
  sample_segment s = segment ∧
  EvaluationWindow_contains window (sample_evaluated_at s) = true.
Proof.
  unfold exclusion.
  rewrite <- (is_err_false_unit _ (EvaluationSample_verify_not_panic s)).
  destruct (repeated _ _); [naive_solver|]. destruct (is_err _); [naive_solver|].
  destruct (bool_decide _) eqn:E; simpl; reflect.
  - destruct (EvaluationWindow_contains _ _); naive_solver.
  - naive_solver.
Qed.

Definition included (counts : gmap Uuid Z) (segment : EvaluationSegment)
    (window : EvaluationWindow) (s : EvaluationSample) : bool :=
  is_none (exclusion counts segment window s).

Lemma screen_samples_spec counts segment window l s :
  (screen_samples counts segment window l s).2
    = List.filter (included counts segment window) l ∧
  (elems (screen_samples counts segment window l s).1 = [] ↔
   Forall (λ x, exclusion counts segment window x = None) l ∧ elems s = []).
Proof.
  unfold screen_samples.
  enough (∀ valid, (foldl (λ '(reasons, valid) s,
    match exclusion counts segment window s with
    | Some reason => (bs_insert reason reasons, valid)
    | None => (reasons, valid ++ [s]) end) (s, valid) l).2
      = valid ++ List.filter (included counts segment window) l ∧
    (elems (foldl (λ '(reasons, valid) s,
    match exclusion counts segment window s with
    | Some reason => (bs_insert reason reasons, valid)
    | None => (reasons, valid ++ [s]) end) (s, valid) l).1 = [] ↔
     Forall (λ x, exclusion counts segment window x = None) l ∧ elems s = [])) as H
    by apply (H []).
  revert s. induction l as [|x l IH]; intros s valid; simpl.
  - rewrite app_nil_r, Forall_nil. tauto.
  - unfold included at 1. rewrite Forall_cons.
    destruct (exclusion counts segment window x) as [r|] eqn:E; simpl.
    + destruct (IH (bs_insert r s) valid) as [-> ->]. split; [done|].
      pose proof (insert_not_nil r s). naive_solver.
    + destruct (IH s (valid ++ [x])) as [-> ->]. rewrite <- app_assoc. simpl. tauto.
Qed.

Lemma sample_observations_nil s r :
  elems (sample_observations s r) = [] ↔
  (qm_false_green (measurements s) = false ∧
   qm_security (measurements s) = SecurityAssessment.Clean ∧
   qm_severe_violation (measurements s) = None) ∧ elems r = [].
Proof.
  unfold sample_observations. rewrite !insert_if_nil, negb_false_iff, is_some_false.
  destruct (qm_security _); naive_solver.
Qed.

Definition incident_harmless (segment : EvaluationSegment) (window : EvaluationWindow)
    (generated_at : DateTime) (i : EvaluationIncident) : Prop :=
  EvaluationIncident_validate i generated_at = Ok tt ∧ inc_segment i = segment ∧
  (is_high_severity (inc_severity i) && unresolved_at i generated_at) = false ∧
  (is_safety_incident i && EvaluationWindow_contains window (inc_opened_at i)) = false.

Lemma incident_observations_nil counts segment window t i r :
  elems (incident_observations counts segment window t i r) = [] ↔
  (repeated counts (inc_incident_id i) = false ∧ incident_harmless segment window t i) ∧
  elems r = [].
Proof.
  unfold incident_observations, incident_harmless.
  rewrite <- (is_err_false_unit _ (EvaluationIncident_validate_not_panic i t)).
  destruct (repeated _ _); [pose proof (insert_not_nil (A:=PromotionHoldReason)); naive_solver|].
  destruct (is_err _); [pose proof (insert_not_nil (A:=PromotionHoldReason)); naive_solver|].
  destruct (bool_decide _) eqn:E; simpl.
  - apply bool_decide_eq_true in E. rewrite !insert_if_nil. naive_solver.
  - apply bool_decide_eq_false in E.
    pose proof (insert_not_nil (A:=PromotionHoldReason)). naive_solver.
Qed.

(** ** Clean evidence *)

Record evidence_clean (segment : EvaluationSegment) (window : EvaluationWindow)
    (generated_at : DateTime) (policy : PromotionThresholdPolicy)
    (samples : list EvaluationSample) (incidents : list EvaluationIncident) : Prop := {
  ec_distinct : NoDup (sample_id <$> samples);
  ec_verified : Forall (λ s, EvaluationSample_verify s = Ok tt) samples;
  ec_segment : Forall (λ s, sample_segment s = segment) samples;
  ec_window : Forall (λ s, EvaluationWindow_contains window (sample_evaluated_at s) = true)
    samples;
  ec_safe : Forall (λ s, qm_false_green (measurements s) = false ∧
    qm_security (measurements s) = SecurityAssessment.Clean ∧
    qm_severe_violation (measurements s) = None) samples;
  ec_thresholds : thresholds_met (policy_thresholds policy) samples;
  ec_incidents_distinct : NoDup (inc_incident_id <$> incidents);
  ec_incidents : Forall (incident_harmless segment window generated_at) incidents
}.

(** Counters and thresholds are unsigned. *)
Definition evidence_unsigned (policy : PromotionThresholdPolicy)
    (samples : list EvaluationSample) : Prop :=
  0 ≤ min_samples (policy_thresholds policy) ∧
  ∀ s, s ∈ samples → 0 ≤ qm_cycle_time_seconds (measurements s) ∧
                     0 ≤ qm_cost_microunits (measurements s).

(** ** Reading a report *)

Abbreviation sorted_samples samples :=
  (sort_by_key (λ s, (sample_id s, sample_digest s)) samples).
Abbreviation id_counts samples := (count_ids (sample_id <$> sorted_samples samples)).
Abbreviation screened segment window samples :=
  (screen_samples (id_counts samples) segment window (sorted_samples samples) bs_empty).

Definition holds (segment : EvaluationSegment) (window : EvaluationWindow)
    (generated_at : DateTime) (policy : PromotionThresholdPolicy)
    (samples : list EvaluationSample) (aggregate : EvaluationAggregate)
    (ordered : list EvaluationIncident) : BTreeSet PromotionHoldReason :=
  foldl (λ reasons i, incident_observations (count_ids (inc_incident_id <$> ordered))
           segment window generated_at i reasons)
    (foldl (λ reasons s, sample_observations s reasons)
       (apply_thresholds aggregate (policy_thresholds policy)
          (screened segment window samples).1)
       (screened segment window samples).2)
    ordered.

Lemma evaluate_ok segment window generated_at policy samples incidents report :
  evaluate segment window generated_at policy samples incidents = Ok report →
  ∃ aggregate ordered policy_digest,
    (EvaluationSegment_validate segment = Ok tt ∧ EvaluationWindow_validate window = Ok tt ∧
     PromotionThresholdPolicy_validate policy = Ok tt ∧
     Z.of_nat (length samples) ≤ MAX_EVALUATION_SAMPLES) ∧
    aggregate_samples (screened segment window samples).2 = Ok aggregate ∧
    order_incidents incidents = Ok ordered ∧
    PromotionThresholdPolicy_digest policy = Ok policy_digest ∧
    report_content report = mkEvaluationReportContent REPORT_SCHEMA segment window generated_at
      policy_digest
      ((λ s, mkSampleDigestReference (sample_id s) (sample_digest s)) <$> sorted_samples samples)
      ordered aggregate
      (elems (holds segment window generated_at policy samples aggregate ordered)) ∧
    digest_canonical (report_content report) = Ok (report_digest report).
Proof.
  unfold evaluate, holds. rewrite !bind_unit_ok.
  intros (Hs & Hw & Hp & _ & Hb & H). apply bail_if_ok, orb_false_iff in Hb as [Hb _].
  destruct (screened segment window samples) as [reasons valid]. simpl.
  peel_binds H. injection H as <-. simpl. apply Z.ltb_ge in Hb. eauto 15.
Qed.

Lemma order_incidents_perm incidents ordered :
  order_incidents incidents = Ok ordered → Permutation ordered incidents.
Proof.
  unfold order_incidents. intros H. apply bind_ok in H as (keyed & Hk & [= <-]).
  rewrite sort_by_perm. revert keyed Hk.
  induction incidents as [|i incidents IH]; intros keyed Hk; simpl in Hk.
  - by injection Hk as <-.
  - apply bind_ok in Hk as (k & Hd & Hk). apply bind_ok in Hd as (d & _ & [= <-]).
    apply bind_ok in Hk as (ks & Hks & [= <-]). simpl. constructor. by apply IH.
Qed.

Lemma count_where_perm p l k : Permutation l k → count_where p l = count_where p k.
Proof. intros Hp. unfold count_where. by rewrite (filter_permutation _ _ _ Hp). Qed.

Lemma total_of_perm select l k : Permutation l k → total_of select l = total_of select k.
Proof. unfold total_of. induction 1; simpl; lia. Qed.

Lemma thresholds_met_perm t l k : Permutation l k → thresholds_met t l → thresholds_met t k.
Proof.
  intros Hp []. assert (length l = length k) as Hl by (by rewrite Hp).
  constructor; rewrite <- ?Hl, <- ?(λ p, count_where_perm p l k Hp),
    <- ?(λ f, total_of_perm f l k Hp); done.
Qed.

#[export] Instance thresholds_met_proper t : Proper (Permutation ==> iff) (thresholds_met t).
Proof. intros l k Hp. split; apply thresholds_met_perm; by symmetry. Qed.

(** Screening excludes nothing exactly when the evidence is well formed. *)
Lemma nothing_excluded segment window samples :
  Forall (λ x, exclusion (id_counts samples) segment window x = None) (sorted_samples samples) ↔
  NoDup (sample_id <$> samples) ∧ Forall (λ s, EvaluationSample_verify s = Ok tt) samples ∧
  Forall (λ s, sample_segment s = segment) samples ∧
  Forall (λ s, EvaluationWindow_contains window (sample_evaluated_at s) = true) samples.
Proof.
  rewrite <- occurrences_nodup. rewrite !Forall_forall.
  setoid_rewrite exclusion_none. setoid_rewrite repeated_false.
  setoid_rewrite elem_of_sort_by_key. setoid_rewrite list_elem_of_fmap.
  assert (∀ id, occurrences id (sample_id <$> sorted_samples samples)
    = occurrences id (sample_id <$> samples)) as Ho
    by (intros id; apply occurrences_perm; by rewrite sort_by_key_perm).
  setoid_rewrite Ho. split.
  - intros H. split_and!; [|intros x Hx; by apply H..].
    intros id (x & -> & Hx). by apply H.
  - intros (H1 & H2 & H3 & H4) x Hx. split_and!; eauto.
Qed.

Lemma filter_all {A} (p : A → bool) l : Forall (λ x, p x = true) l → List.filter p l = l.
Proof. induction 1 as [|x l Hx _ IH]; simpl; [done|]. by rewrite Hx, IH. Qed.

Lemma included_all segment window samples :
  Forall (λ x, exclusion (id_counts samples) segment window x = None) (sorted_samples samples) →
  (screened segment window samples).2 = sorted_samples samples.
Proof.
  intros H. rewrite (proj1 (screen_samples_spec _ _ _ _ _)). apply filter_all.
  eapply Forall_impl; [exact H|]. intros x Hx. unfold included. by rewrite Hx.
Qed.

(** Thresholds only add reasons. *)
Lemma apply_thresholds_count a t s :
  elems (apply_thresholds a t s) = [] → min_samples t ≤ agg_sample_count a ∧ elems s = [].
Proof.
  assert (∀ b (x : PromotionHoldReason) r, elems (insert_if b x r) = [] → elems r = []) as Hi
    by (intros b x r; rewrite insert_if_nil; tauto).
  assert (∀ m v mx r, elems (require_maximum_mean m v mx r) = [] → elems r = []) as Hm
    by (intros m [v|] mx r; simpl; eauto).
  assert (∀ m v mn r, elems (require_minimum_rate m v mn r) = [] → elems r = []) as Hr
    by (intros m [v|] mn r; simpl; eauto).
  assert (∀ m v mo mn r, elems (apply_applicable_threshold m v mo mn r) = [] → elems r = [])
    as Ha by (intros m v mo mn r H; by eapply Hi, Hr).
  unfold apply_thresholds. cbn -[require_maximum_mean apply_applicable_threshold
    require_minimum_rate insert_if elems].
  intros H. do 2 apply Hm in H. do 2 apply Ha in H.
  assert (elems (foldl (λ reasons '(metric, rate, minimum),
      require_minimum_rate metric rate minimum reasons)
    (insert_if (max_samples t <? agg_sample_count a)
      (PromotionHoldReason.SampleCountAboveMaximum (max_samples t) (agg_sample_count a))
      (insert_if (agg_sample_count a <? min_samples t)
        (PromotionHoldReason.SampleCountBelowMinimum (min_samples t) (agg_sample_count a)) s))
    [ (QualityMetric.Correctness, agg_correctness a, min_correctness_bps t);
      (QualityMetric.AcceptanceCriteria, agg_acceptance_criteria a,
        min_acceptance_criteria_bps t);
      (QualityMetric.Scope, agg_scope a, min_scope_bps t);
      (QualityMetric.Verification, agg_verification a, min_verification_bps t);
      (QualityMetric.ReviewerIndependence, agg_reviewer_independence a,
        min_reviewer_independence_bps t);
      (QualityMetric.Security, agg_security_clean a, min_security_clean_bps t) ]) = []) as H'
    by (destruct (agg_human_rework a); [by apply Hi in H|exact H]).
  simpl in H'. do 6 apply Hr in H'. apply Hi in H'. rewrite insert_if_nil, Z.ltb_ge in H'. tauto.
Qed.

Lemma incidents_nil segment window t ordered r :
  elems (foldl (λ reasons i, incident_observations (count_ids (inc_incident_id <$> ordered))
           segment window t i reasons) r ordered) = [] ↔
  (NoDup (inc_incident_id <$> ordered) ∧ Forall (incident_harmless segment window t) ordered) ∧
  elems r = [].
Proof.
  rewrite (foldl_nil_iff _ (λ i,
    repeated (count_ids (inc_incident_id <$> ordered)) (inc_incident_id i) = false ∧
    incident_harmless segment window t i)) by (intros; apply incident_observations_nil).
  rewrite Forall_and, <- occurrences_nodup, (Forall_forall (λ i, repeated _ _ = false)).
  setoid_rewrite repeated_false. setoid_rewrite list_elem_of_fmap. naive_solver.
Qed.

Lemma holds_nil segment window t policy samples aggregate ordered :
  evidence_unsigned policy samples → min_samples (policy_thresholds policy) ≠ 0 →
  Z.of_nat (length samples) ≤ MAX_EVALUATION_SAMPLES →
  aggregate_samples (screened segment window samples).2 = Ok aggregate →
  elems (holds segment window t policy samples aggregate ordered) = [] ↔
  evidence_clean segment window t policy samples ordered.
Proof.
  intros [Hmin Hun] Hmin0 Hlen Ha. unfold holds.
  rewrite incidents_nil, (foldl_nil_iff (λ reasons s, sample_observations s reasons) _ _ _
    (λ s x _, sample_observations_nil x s)).
  assert (∀ k, Permutation k samples → Forall (λ s, EvaluationSample_verify s = Ok tt) samples →
    measured k) as Hmeas.
  { intros k Hk Hv. rewrite Forall_forall in Hv. split_and!.
    - intros x Hx. rewrite Hk in Hx. pose proof (verified_measured x (Hv x Hx)).
      pose proof (Hun x Hx). lia.
    - intros x Hx. rewrite Hk in Hx. pose proof (verified_measured x (Hv x Hx)).
      pose proof (Hun x Hx). lia.
    - by rewrite Hk. }
  pose proof (sort_by_key_perm (λ s, (sample_id s, sample_digest s)) samples) as Hperm.
  split.
  - intros ((Hids & Hharm) & Hsafe & Hth).
    destruct (apply_thresholds_count _ _ _ Hth) as [Hcount Hscr].
    rewrite (proj2 (screen_samples_spec _ _ _ _ _)) in Hscr. destruct Hscr as [Hex _].
    pose proof (included_all _ _ _ Hex) as Hall. rewrite Hall in Hsafe, Ha.
    apply nothing_excluded in Hex as (Hn & Hv & Hs & Hw).
    rewrite (apply_thresholds_nil _ (sorted_samples samples)) in Hth; [|done| |by apply Hmeas].
    + destruct Hth as [Hth _]. constructor; try done.
      * by rewrite <- Hperm.
      * by rewrite <- Hperm.
    + intros E. rewrite (aggregate_count _ _ Ha), E in Hcount. simpl in Hcount. lia.
  - intros [Hn Hv Hs Hw Hsafe Hth Hids Hharm].
    assert (Forall (λ x, exclusion (id_counts samples) segment window x = None)
      (sorted_samples samples)) as Hex by (by apply nothing_excluded).
    pose proof (included_all _ _ _ Hex) as Hall. rewrite Hall in *.
    rewrite (apply_thresholds_nil _ (sorted_samples samples)); [|done| |by apply Hmeas].
    + rewrite (proj2 (screen_samples_spec _ _ _ _ _)). split_and!; try done; by rewrite Hperm.
    + intros E. rewrite <- Hperm in Hth. pose proof (tm_count _ _ Hth) as Hc. rewrite E in Hc. simpl in Hc. lia.
Qed.

Lemma policy_min_samples p :
  PromotionThresholdPolicy_validate p = Ok tt → min_samples (policy_thresholds p) ≠ 0.
Proof.
  unfold PromotionThresholdPolicy_validate. intros H. apply bind_ok in H as (m & _ & H).
  apply bind_unit_ok in H as [H _]. reflect. tauto.
Qed.

#[export] Instance evidence_clean_proper segment window t policy samples :
  Proper (Permutation ==> iff) (evidence_clean segment window t policy samples).
Proof.
  intros l k Hp. split; intros []; constructor; try done; first [by rewrite <- Hp|by rewrite Hp].
Qed.

Lemma report_clean segment window t policy samples incidents report :
  evidence_unsigned policy samples →
  evaluate segment window t policy samples incidents = Ok report →
  rep_hold_reasons (report_content report) = [] ↔
  evidence_clean segment window t policy samples incidents.
Proof.
  intros Hun He. apply evaluate_ok in He as (agg & ordered & pd & (_ & _ & Hp & Hlen) & Ha & Ho
    & _ & Hc & _).
  rewrite Hc. cbn [rep_hold_reasons].
  rewrite holds_nil by (done || by apply policy_min_samples).
  by rewrite (order_incidents_perm _ _ Ho).
Qed.

(** ** The order of the inputs *)

(** Elements of a list that share an id which occurs once are the same. *)
Lemma unique_id {A} (id_of : A → Uuid) l x y :
  occurrences (id_of x) (id_of <$> l) ≤ 1 → x ∈ l → y ∈ l → id_of x = id_of y → x = y.
Proof.
  induction l as [|z l IH]; intros Ho Hx Hy E; [by apply elem_of_nil in Hx|].
  rewrite fmap_cons, occurrences_cons in Ho. pose proof (occurrences_pos (id_of x) (id_of <$> l)) as Hp.
  rewrite elem_of_cons in Hx, Hy. destruct Hx as [->|Hx], Hy as [->|Hy]; try done.
  - exfalso. rewrite decide_True in Ho by done.
    assert (1 ≤ occurrences (id_of z) (id_of <$> l)); [|lia].
    apply Hp. rewrite E. by apply list_elem_of_fmap_2.
  - exfalso. rewrite decide_True in Ho by done.
    assert (1 ≤ occurrences (id_of x) (id_of <$> l)); [|lia].
    apply Hp. by apply list_elem_of_fmap_2.
  - apply IH; try done. case_decide; lia.
Qed.

Abbreviation sample_key := (λ s, (sample_id s, sample_digest s)).

Lemma sorted_keys_agree samples samples' :
  Permutation samples samples' →
  sample_key <$> sorted_samples samples = sample_key <$> sorted_samples samples'.
Proof.
  intros Hp. apply (sorted_perm_unique id).
  - done.
  - apply StronglySorted_fmap, sort_by_key_sorted.
  - apply StronglySorted_fmap, sort_by_key_sorted.
  - by rewrite !sort_by_key_perm, Hp.
Qed.

(** Sorted permutations agree position by position, up to repeated ids. *)
Lemma sorted_samples_agree samples samples' :
  Permutation samples samples' →
  Forall2 (λ x y, (sample_id x, sample_digest x) = (sample_id y, sample_digest y) ∧
                  (repeated (id_counts samples) (sample_id x) = false → x = y))
    (sorted_samples samples) (sorted_samples samples').
Proof.
  intros Hp.
  pose proof (sorted_keys_agree samples samples' Hp) as Hk.
  apply Forall2_same_length_lookup. split.
  - apply (f_equal length) in Hk. by rewrite !length_fmap in Hk.
  - intros i x y Hx Hy. apply (f_equal (.!! i)) in Hk.
    rewrite !list_lookup_fmap, Hx, Hy in Hk. simpl in Hk. split; [congruence|].
    intros Hr. apply repeated_false in Hr.
    apply (unique_id sample_id (sorted_samples samples)); [done| | |by simplify_eq].
    + by eapply list_elem_of_lookup_2.
    + rewrite sort_by_key_perm, Hp. apply list_elem_of_lookup_2 in Hy.
      by rewrite sort_by_key_perm in Hy.
Qed.

Lemma screened_order segment window samples samples' :
  Permutation samples samples' →
  id_counts samples = id_counts samples' ∧
  screened segment window samples = screened segment window samples'.
Proof.
  intros Hp. pose proof (sorted_samples_agree samples samples' Hp) as Ha.
  assert (id_counts samples = id_counts samples') as Hc.
  { f_equal. clear -Ha. induction Ha as [|x y l k [[= ? _] _] _ IH]; simpl; by f_equal. }
  split; [done|]. rewrite <- Hc. unfold screen_samples. clear Hc.
  revert Ha. generalize (id_counts samples) as counts. intros counts Ha.
  generalize (bs_empty (A:=PromotionHoldReason), @nil EvaluationSample).
  induction Ha as [|x y l k [[= Hi _] Hxy] _ IH]; intros [b v]; simpl; [done|].
  assert (exclusion counts segment window x = exclusion counts segment window y ∧
    (exclusion counts segment window y = None → x = y)) as [-> Hn].
  { destruct (repeated counts (sample_id x)) eqn:E.
    - unfold exclusion. rewrite <- Hi, E. by split.
    - by rewrite (Hxy eq_refl). }
  destruct (exclusion _ _ _ y); [apply IH|]. rewrite Hn by done. apply IH.
Qed.

(** No two of these incidents share their id and digest without being equal. *)
Definition incidents_distinguished (incidents : list EvaluationIncident) : Prop :=
  ∀ i j, i ∈ incidents → j ∈ incidents → inc_incident_id i = inc_incident_id j →
         digest_canonical i = digest_canonical j → i = j.

Lemma try_map_perm {A B} (f : A → res B) l k r :
  Permutation l k → try_map f l = Ok r → ∃ r', try_map f k = Ok r' ∧ Permutation r r'.
Proof.
  intros Hp. revert r. induction Hp as [|x l k _ IH|x y l|l k m _ IH1 _ IH2]; intros r Hr.
  - eauto.
  - rewrite try_map_cons in *. apply bind_ok in Hr as (b & -> & Hr).
    apply bind_ok in Hr as (bs & Hbs & [= <-]).
    destruct (IH _ Hbs) as (r' & Hr' & Hp'). simpl. rewrite Hr'. simpl.
    exists (b :: r'). by rewrite Hp'.
  - rewrite !try_map_cons in *. apply bind_ok in Hr as (b & -> & Hr). apply bind_ok in Hr as (bs & Hr & [= <-]).
    apply bind_ok in Hr as (c & -> & Hr). apply bind_ok in Hr as (cs & -> & [= <-]). simpl.
    eexists. split; [done|]. apply Permutation_swap.
  - destruct (IH1 _ Hr) as (r1 & Hr1 & Hp1). destruct (IH2 _ Hr1) as (r2 & Hr2 & Hp2).
    exists r2. split; [done|]. by rewrite Hp1.
Qed.

Lemma try_map_elem {A B} (f : A → res B) l r y :
  try_map f l = Ok r → y ∈ r → ∃ x, x ∈ l ∧ f x = Ok y.
Proof.
  revert r. induction l as [|x l IH]; intros r Hr Hy.
  - injection Hr as <-. by apply elem_of_nil in Hy.
  - rewrite try_map_cons in Hr. apply bind_ok in Hr as (b & Hb & Hr).
    apply bind_ok in Hr as (bs & Hbs & [= <-]).
    apply elem_of_cons in Hy as [->|Hy].
    + exists x. split; [left|done].
    + destruct (IH _ Hbs Hy) as (z & ? & ?). exists z. split; [by right|done].
Qed.

Lemma order_incidents_order incidents incidents' ordered :
  Permutation incidents incidents' → incidents_distinguished incidents →
  order_incidents incidents = Ok ordered → order_incidents incidents' = Ok ordered.
Proof.
  unfold order_incidents. intros Hp Hd Ho. apply bind_ok in Ho as (keyed & Hk & Ho).
  destruct (try_map_perm _ _ _ _ Hp Hk) as (keyed' & -> & Hkp). rewrite <- Ho.
  cbn [mbind res_bind]. do 2 f_equal. symmetry.
  apply (sort_by_key_permutation_invariant fst); [|done]. intros x y Hx Hy E.
  destruct (try_map_elem _ _ _ _ Hk Hx) as (i & Hi & Ei).
  destruct (try_map_elem _ _ _ _ Hk Hy) as (j & Hj & Ej).
  apply bind_ok in Ei as (d & Hdi & [= <-]). apply bind_ok in Ej as (d' & Hdj & [= <-]).
  simpl in E. injection E as E1 E2. subst d'.
  assert (i = j) as ->; [|done]. apply Hd; [done|done|done|]. by rewrite Hdi, Hdj.
Qed.

(** Evaluation is deterministic in what it is given: the same samples and
    incidents in any order, repeated ids included, produce the same report,
    and so the same digest and the same decision. *)
Lemma evaluation_order_independent segment window t policy samples samples' incidents
    incidents' report :
  Permutation samples samples' → Permutation incidents incidents' →
  incidents_distinguished incidents →
  evaluate segment window t policy samples incidents = Ok report →
  evaluate segment window t policy samples' incidents' = Ok report.
Proof.
  intros Hs Hi Hd He. destruct (screened_order segment window samples samples' Hs) as [Hc Hsc].
  assert ((λ s, mkSampleDigestReference (sample_id s) (sample_digest s)) <$> sorted_samples samples
    = (λ s, mkSampleDigestReference (sample_id s) (sample_digest s)) <$> sorted_samples samples')
    as Href.
  { pose proof (f_equal (fmap (λ k, mkSampleDigestReference k.1 k.2))
      (sorted_keys_agree samples samples' Hs)) as Hk.
    by rewrite <- !list_fmap_compose in Hk. }
  unfold evaluate in *.
  rewrite <- (Permutation_length Hs), <- (Permutation_length Hi), <- Hsc, <- Href.
  repeat (apply bind_unit_ok in He as [-> He]; simpl).
  destruct (screened segment window samples) as [reasons valid].
  apply bind_ok in He as (agg & -> & He). simpl.
  apply bind_ok in He as (ordered & Ho & He).
  rewrite (order_incidents_order _ _ _ Hi Hd Ho). exact He.
Qed.
End evaluation_facts.
