(* ===== verification/Autonomy.v ===== *)
(** Autonomy decisions, [src/src/application/promotion.rs], second part: owner
    approvals, promotion grants and their expiry, rollbacks and the immediate
    safety decision. *)

From Stdlib Require Import ZArith Lia Permutation.
From stdpp Require Import base tactics option list strings gmap.
From S2P Require Import Prelude RustStr RustOrd Ids WorkItem Crypto Governance Promotion PromotionFacts.

Definition APPROVAL_SCHEMA : string := "asf.autonomy-promotion-approval/v1".
Definition APPROVAL_SIGNATURE_DOMAIN : string := "asf.autonomy-promotion-approval/v1".
Definition GRANT_SCHEMA : string := "asf.autonomy-promotion-grant/v1".

(** ** Rungs *)

Definition next_autonomy_rung (level : AutonomyLevel) : option AutonomyLevel :=
  match level with
  | AutonomyLevel.Observe => Some AutonomyLevel.SupervisedPullRequest
  | AutonomyLevel.SupervisedPullRequest => Some AutonomyLevel.AutomaticVerifiedPullRequest
  | AutonomyLevel.AutomaticVerifiedPullRequest => Some AutonomyLevel.GuardedMergeCandidate
  | AutonomyLevel.GuardedMergeCandidate => Some AutonomyLevel.GuardedMergeEnabled
  | AutonomyLevel.GuardedMergeEnabled => None
  end.

Definition previous_autonomy_rung (level : AutonomyLevel) : option AutonomyLevel :=
  match level with
  | AutonomyLevel.Observe => None
  | AutonomyLevel.SupervisedPullRequest => Some AutonomyLevel.Observe
  | AutonomyLevel.AutomaticVerifiedPullRequest => Some AutonomyLevel.SupervisedPullRequest
  | AutonomyLevel.GuardedMergeCandidate => Some AutonomyLevel.AutomaticVerifiedPullRequest
  | AutonomyLevel.GuardedMergeEnabled => Some AutonomyLevel.GuardedMergeCandidate
  end.

(** [matches!(risk, High | Critical)]. *)
Definition high_or_critical (r : RiskClass) : bool :=
  match r with RiskClass.High | RiskClass.Critical => true | _ => false end.

(** ** Approvals *)

Record TrustedRepositoryOwner `{Ed25519} := mkTrustedRepositoryOwner {
  tro_owner_id : string;
  tro_key_id : string;
  tro_verifying_key : VerifyingKey
}.

Definition TrustedRepositoryOwner_new `{Ed25519} (owner_id key_id : string)
    (key : VerifyingKey) : res TrustedRepositoryOwner :=
  bail_if (blank owner_id || blank key_id)
    (Validation [Lit "trusted repository owner and key identities are required"]) ;;
  Ok (mkTrustedRepositoryOwner _ owner_id key_id key).

Record PromotionApprovalBinding := mkPromotionApprovalBinding {
  pab_schema_version : string;
  pab_repository_owner : string;
  pab_owner_key_id : string;
  pab_segment : EvaluationSegment;
  pab_evaluation_window : EvaluationWindow;
  pab_evaluation_digest : string;
  pab_policy_digest : string;
  pab_current_rung : AutonomyLevel;
  pab_requested_rung : AutonomyLevel;
  pab_effective_from : DateTime;
  pab_expires_at : DateTime;
  pab_rollback_rung : AutonomyLevel
}.

#[global] Instance PromotionApprovalBinding_eq_dec : EqDecision PromotionApprovalBinding.
Proof. solve_decision. Defined.

Record RepositoryOwnerApproval := mkRepositoryOwnerApproval {
  roa_binding : PromotionApprovalBinding;
  roa_signature : string
}.

Record PromotionRequest `{Ed25519} := mkPromotionRequest {
  pr_report : EvaluationReport;
  pr_policy : PromotionThresholdPolicy;
  pr_current_rung : AutonomyLevel;
  pr_requested_rung : AutonomyLevel;
  pr_effective_from : DateTime;
  pr_expires_at : DateTime;
  pr_decided_at : DateTime;
  pr_approval : option RepositoryOwnerApproval;
  pr_trusted_owner : TrustedRepositoryOwner
}.

Record PromotionGrant := mkPromotionGrant {
  pg_schema_version : string;
  pg_segment : EvaluationSegment;
  pg_evaluation_window : EvaluationWindow;
  pg_evaluation_digest : string;
  pg_policy_digest : string;
  pg_previous_rung : AutonomyLevel;
  pg_promoted_rung : AutonomyLevel;
  pg_rollback_rung : AutonomyLevel;
  pg_effective_from : DateTime;
  pg_expires_at : DateTime;
  pg_repository_owner : string;
  pg_owner_key_id : string;
  pg_approval_binding_digest : string
}.

Definition PromotionGrant_validate (g : PromotionGrant) : res unit :=
  EvaluationSegment_validate (pg_segment g) ;;
  EvaluationWindow_validate (pg_evaluation_window g) ;;
  bail_if (negb (bool_decide (pg_schema_version g = GRANT_SCHEMA))
           || negb (is_sha256_digest (pg_evaluation_digest g))
           || negb (is_sha256_digest (pg_policy_digest g))
           || negb (is_sha256_digest (pg_approval_binding_digest g))
           || blank (pg_repository_owner g)
           || blank (pg_owner_key_id g)
           || negb (bool_decide (pg_previous_rung g = pg_rollback_rung g))
           || negb (bool_decide (next_autonomy_rung (pg_previous_rung g)
                                 = Some (pg_promoted_rung g)))
           || (pg_expires_at g <=? pg_effective_from g))
    (Validation [Lit "promotion grant is malformed or does not describe one adjacent rung"]) ;;
  bail_if (high_or_critical (seg_risk_class (pg_segment g))
           && bool_decide (pg_promoted_rung g = AutonomyLevel.GuardedMergeEnabled))
    (Validation [Lit "high- and critical-risk segments cannot hold guarded merge authority"]).

Module PromotionDecision.
Inductive PromotionDecision :=
| Granted (grant : PromotionGrant)
| Held (evaluation_digest : string) (reasons : list PromotionHoldReason).
End PromotionDecision.
Abbreviation PromotionDecision := PromotionDecision.PromotionDecision.

(** ** Demotions *)

Module ImmediateDemotionReason.
Inductive ImmediateDemotionReason :=
| InvalidSample (sample_id : Uuid)
| FalseGreen (sample_id : Uuid)
| SecurityViolation (sample_id : Uuid)
| SevereViolation (sample_id : Uuid)
| SafetyIncident (incident_id : Uuid)
| UnresolvedHighSeverityIncident (incident_id : Uuid)
| HighRiskGuardedMerge.
End ImmediateDemotionReason.
Abbreviation ImmediateDemotionReason := ImmediateDemotionReason.ImmediateDemotionReason.

Definition demotion_key (r : ImmediateDemotionReason) : Z * N :=
  match r with
  | ImmediateDemotionReason.InvalidSample i => (0, i)
  | ImmediateDemotionReason.FalseGreen i => (1, i)
  | ImmediateDemotionReason.SecurityViolation i => (2, i)
  | ImmediateDemotionReason.SevereViolation i => (3, i)
  | ImmediateDemotionReason.SafetyIncident i => (4, i)
  | ImmediateDemotionReason.UnresolvedHighSeverityIncident i => (5, i)
  | ImmediateDemotionReason.HighRiskGuardedMerge => (6, 0%N)
  end.

Lemma demotion_key_inj : Inj (=) (=) demotion_key.
Proof. intros [] [] E; simpl in E; by simplify_eq. Qed.

#[global] Instance ImmediateDemotionReason_ord : Ord ImmediateDemotionReason :=
  ord_via demotion_key demotion_key_inj.

Module DemotionCause.
Inductive DemotionCause :=
| ExplicitRollback (actor reason : string)
| PromotionExpired (grant_digest : string)
| AutomaticSafety (reasons : list ImmediateDemotionReason).
End DemotionCause.
Abbreviation DemotionCause := DemotionCause.DemotionCause.

Record DemotionDecision := mkDemotionDecision {
  dd_segment : EvaluationSegment;
  dd_from_rung : AutonomyLevel;
  dd_to_rung : AutonomyLevel;
  dd_effective_at : DateTime;
  dd_cause : DemotionCause
}.

Record ExplicitRollback := mkExplicitRollback {
  er_segment : EvaluationSegment;
  er_current_rung : AutonomyLevel;
  er_requested_rung : AutonomyLevel;
  er_actor : string;
  er_reason : string;
  er_effective_at : DateTime
}.

Definition explicit_rollback (request : ExplicitRollback) : res DemotionDecision :=
  EvaluationSegment_validate (er_segment request) ;;
  bail_if (blank (er_actor request) || blank (er_reason request))
    (Validation [Lit "explicit rollback requires an actor and reason"]) ;;
  bail_if (negb (bool_decide (previous_autonomy_rung (er_current_rung request)
                              = Some (er_requested_rung request))))
    (Validation [Lit "explicit rollback must move down exactly one autonomy rung"]) ;;
  Ok {| dd_segment := er_segment request;
        dd_from_rung := er_current_rung request;
        dd_to_rung := er_requested_rung request;
        dd_effective_at := er_effective_at request;
        dd_cause := DemotionCause.ExplicitRollback (er_actor request) (er_reason request) |}.

Module ImmediateSafetyDecision.
Inductive ImmediateSafetyDecision :=
| Retain
| FrozenAtObserve (reasons : list ImmediateDemotionReason)
| Demote (decision : DemotionDecision).
End ImmediateSafetyDecision.
Abbreviation ImmediateSafetyDecision := ImmediateSafetyDecision.ImmediateSafetyDecision.

Definition valid_promotion_window (effective_from expires_at decided_at : DateTime)
    (maximum_seconds : Z) : bool :=
  let seconds := num_seconds (signed_duration_since expires_at effective_from) in
  (effective_from <=? decided_at)
  && (decided_at <? expires_at)
  && (0 <? seconds)
  && match try_from u64_max seconds with
     | Some value => value <=? maximum_seconds
     | None => false
     end.

Section autonomy.
  Context {hashing : Hashing} {ed : Ed25519}.
  Context {sample_jcs : Canonical EvaluationSampleContent}
          {policy_jcs : Canonical PromotionThresholdPolicy}
          {report_jcs : Canonical EvaluationReportContent}
          {binding_jcs : Canonical PromotionApprovalBinding}
          {grant_jcs : Canonical PromotionGrant}.

Definition RepositoryOwnerApproval_sign (binding : PromotionApprovalBinding)
    (signer : Ed25519Signer) : res RepositoryOwnerApproval :=
  bail_if (negb (bool_decide (signer_key_id signer = pab_owner_key_id binding)))
    (Validation [Lit "approval signer does not match the binding key identity"]) ;;
  bytes ← canonical_json binding;
  Ok (mkRepositoryOwnerApproval binding (sign_domain signer APPROVAL_SIGNATURE_DOMAIN bytes)).

Definition PromotionGrant_digest (g : PromotionGrant) : res string :=
  PromotionGrant_validate g ;; digest_canonical g.

Definition effective_rung_at (g : PromotionGrant) (at_ : DateTime) : res AutonomyLevel :=
  PromotionGrant_validate g ;;
  Ok (if (pg_effective_from g <=? at_) && (at_ <? pg_expires_at g)
      then pg_promoted_rung g else pg_rollback_rung g).

Definition expiration_rollback (g : PromotionGrant) (at_ : DateTime)
  : res (option DemotionDecision) :=
  PromotionGrant_validate g ;;
  if at_ <? pg_expires_at g then Ok None else
  grant_digest ← PromotionGrant_digest g;
  Ok (Some {| dd_segment := pg_segment g;
              dd_from_rung := pg_promoted_rung g;
              dd_to_rung := pg_rollback_rung g;
              dd_effective_at := at_;
              dd_cause := DemotionCause.PromotionExpired grant_digest |}).

Definition approval_binding (r : PromotionRequest) : res PromotionApprovalBinding :=
  policy_digest ← PromotionThresholdPolicy_digest (pr_policy r);
  Ok {| pab_schema_version := APPROVAL_SCHEMA;
        pab_repository_owner := tro_owner_id (pr_trusted_owner r);
        pab_owner_key_id := tro_key_id (pr_trusted_owner r);
        pab_segment := rep_segment (report_content (pr_report r));
        pab_evaluation_window := rep_window (report_content (pr_report r));
        pab_evaluation_digest := report_digest (pr_report r);
        pab_policy_digest := policy_digest;
        pab_current_rung := pr_current_rung r;
        pab_requested_rung := pr_requested_rung r;
        pab_effective_from := pr_effective_from r;
        pab_expires_at := pr_expires_at r;
        pab_rollback_rung := pr_current_rung r |}.

(** The checks of [decide] before the approval, in order. *)
Definition request_reasons (r : PromotionRequest) (policy_digest : string)
    (reasons : BTreeSet PromotionHoldReason) : BTreeSet PromotionHoldReason :=
  let content := report_content (pr_report r) in
  let reasons := insert_if (negb (bool_decide (rep_policy_digest content = policy_digest)))
    PromotionHoldReason.PolicyDigestMismatch reasons in
  let report_age :=
    num_seconds (signed_duration_since (pr_decided_at r) (rep_generated_at content)) in
  let reasons := insert_if
    ((report_age <? 0)
     || negb (match try_from u64_max report_age with
              | Some age => age <=? max_evaluation_age_seconds (policy_thresholds (pr_policy r))
              | None => false
              end))
    PromotionHoldReason.EvaluationExpired reasons in
  let reasons := insert_if
    (negb (bool_decide (next_autonomy_rung (pr_current_rung r) = Some (pr_requested_rung r))))
    PromotionHoldReason.NonAdjacentPromotion reasons in
  let reasons := insert_if
    (high_or_critical (seg_risk_class (rep_segment content))
     && bool_decide (pr_requested_rung r = AutonomyLevel.GuardedMergeEnabled))
    PromotionHoldReason.HighRiskGuardedMergeForbidden reasons in
  insert_if
    (negb (valid_promotion_window (pr_effective_from r) (pr_expires_at r) (pr_decided_at r)
             (max_promotion_seconds (policy_thresholds (pr_policy r)))))
    PromotionHoldReason.InvalidPromotionWindow reasons.

(** The [match request.approval] of [decide]. *)
Definition approval_reasons (r : PromotionRequest) (expected : PromotionApprovalBinding)
    (reasons : BTreeSet PromotionHoldReason) : res (BTreeSet PromotionHoldReason) :=
  match pr_approval r with
  | None => Ok (bs_insert PromotionHoldReason.MissingOwnerApproval reasons)
  | Some approval =>
    let reasons := insert_if
      (negb (bool_decide (pab_repository_owner (roa_binding approval)
                          = tro_owner_id (pr_trusted_owner r)))
       || negb (bool_decide (pab_owner_key_id (roa_binding approval)
                             = tro_key_id (pr_trusted_owner r))))
      PromotionHoldReason.OwnerApprovalIdentityMismatch reasons in
    let reasons := insert_if (negb (bool_decide (roa_binding approval = expected)))
      PromotionHoldReason.OwnerApprovalBindingMismatch reasons in
    bytes ← canonical_json (roa_binding approval);
    Ok (insert_if
      (is_err (verify_domain_signature (tro_verifying_key (pr_trusted_owner r))
                 APPROVAL_SIGNATURE_DOMAIN bytes (roa_signature approval)))
      PromotionHoldReason.OwnerApprovalSignatureInvalid reasons)
  end.

Definition decide_promotion (r : PromotionRequest) : res PromotionDecision :=
  PromotionThresholdPolicy_validate (pr_policy r) ;;
  let reasons := bs_of_list (rep_hold_reasons (report_content (pr_report r))) in
  let reasons := insert_if (is_err (EvaluationReport_verify (pr_report r)))
    PromotionHoldReason.ReportIntegrityMismatch reasons in
  policy_digest ← PromotionThresholdPolicy_digest (pr_policy r);
  let reasons := request_reasons r policy_digest reasons in
  expected_binding ← approval_binding r;
  reasons ← approval_reasons r expected_binding reasons;
  if negb (bs_is_empty reasons) then
    Ok (PromotionDecision.Held (report_digest (pr_report r)) (elems reasons))
  else
  approval ← expect (pr_approval r);
  approval_binding_digest ← digest_canonical (roa_binding approval);
  Ok (PromotionDecision.Granted
    {| pg_schema_version := GRANT_SCHEMA;
       pg_segment := rep_segment (report_content (pr_report r));
       pg_evaluation_window := rep_window (report_content (pr_report r));
       pg_evaluation_digest := report_digest (pr_report r);
       pg_policy_digest := policy_digest;
       pg_previous_rung := pr_current_rung r;
       pg_promoted_rung := pr_requested_rung r;
       pg_rollback_rung := pr_current_rung r;
       pg_effective_from := pr_effective_from r;
       pg_expires_at := pr_expires_at r;
       pg_repository_owner := tro_owner_id (pr_trusted_owner r);
       pg_owner_key_id := tro_key_id (pr_trusted_owner r);
       pg_approval_binding_digest := approval_binding_digest |}).

(** ** The immediate safety decision *)

Definition safety_sample (segment : EvaluationSegment) (observed_at : DateTime)
    (reasons : BTreeSet ImmediateDemotionReason) (s : EvaluationSample)
  : res (BTreeSet ImmediateDemotionReason) :=
  bail_if (negb (bool_decide (sample_segment s = segment))
           || (observed_at <? sample_evaluated_at s))
    (Validation [Lit "safety samples must match the exact segment and observation time"]) ;;
  Ok (if is_err (EvaluationSample_verify s) then
        bs_insert (ImmediateDemotionReason.InvalidSample (sample_id s)) reasons
      else
        let m := measurements s in
        let reasons := insert_if (qm_false_green m)
          (ImmediateDemotionReason.FalseGreen (sample_id s)) reasons in
        let reasons := insert_if (negb (is_clean (qm_security m)))
          (ImmediateDemotionReason.SecurityViolation (sample_id s)) reasons in
        insert_if (is_some (qm_severe_violation m))
          (ImmediateDemotionReason.SevereViolation (sample_id s)) reasons).

Definition safety_incident (segment : EvaluationSegment) (observed_at : DateTime)
    (reasons : BTreeSet ImmediateDemotionReason) (i : EvaluationIncident)
  : res (BTreeSet ImmediateDemotionReason) :=
  EvaluationIncident_validate i observed_at ;;
  bail_if (negb (bool_decide (inc_segment i = segment)))
    (Validation [Lit "safety incidents must match the exact segment"]) ;;
  let reasons := insert_if (is_safety_incident i)
    (ImmediateDemotionReason.SafetyIncident (inc_incident_id i)) reasons in
  Ok (insert_if (is_high_severity (inc_severity i) && unresolved_at i observed_at)
        (ImmediateDemotionReason.UnresolvedHighSeverityIncident (inc_incident_id i)) reasons).

Definition immediate_safety_decision (segment : EvaluationSegment)
    (current_rung : AutonomyLevel) (observed_at : DateTime) (samples : list EvaluationSample)
    (incidents : list EvaluationIncident) : res ImmediateSafetyDecision :=
  EvaluationSegment_validate segment ;;
  bail_if ((MAX_EVALUATION_SAMPLES <? Z.of_nat (length samples))
           || (MAX_INCIDENT_SNAPSHOTS <? Z.of_nat (length incidents)))
    (Validation [Lit "safety input exceeds the absolute processing bound"]) ;;
  reasons ← try_fold samples bs_empty (safety_sample segment observed_at);
  reasons ← try_fold incidents reasons (safety_incident segment observed_at);
  let reasons := insert_if
    (high_or_critical (seg_risk_class segment)
     && bool_decide (current_rung = AutonomyLevel.GuardedMergeEnabled))
    ImmediateDemotionReason.HighRiskGuardedMerge reasons in
  if bs_is_empty reasons then Ok ImmediateSafetyDecision.Retain else
  match previous_autonomy_rung current_rung with
  | None => Ok (ImmediateSafetyDecision.FrozenAtObserve (elems reasons))
  | Some to_rung =>
    Ok (ImmediateSafetyDecision.Demote
      {| dd_segment := segment;
         dd_from_rung := current_rung;
         dd_to_rung := to_rung;
         dd_effective_at := observed_at;
         dd_cause := DemotionCause.AutomaticSafety (elems reasons) |})
  end.
End autonomy.

(** ** Granted promotions *)

Lemma within_u64 x maximum :
  maximum ≤ u64_max →
  match try_from u64_max x with Some v => v <=? maximum | None => false end = true ↔
  0 ≤ x ≤ maximum.
Proof.
  intros Hm. destruct (try_from u64_max x) as [v|] eqn:E.
  - apply try_from_some in E as [F ->]. unfold fits in F. rewrite Z.leb_le. lia.
  - split; [done|]. intros H. exfalso.
    assert (try_from u64_max x = Some x) by (apply try_from_some; unfold fits; split; [lia|done]).
    congruence.
Qed.

Lemma valid_promotion_window_true from until decided maximum :
  maximum ≤ u64_max →
  valid_promotion_window from until decided maximum = true ↔
  from ≤ decided < until ∧ 0 < num_seconds (until - from) ≤ maximum.
Proof.
  intros Hm. unfold valid_promotion_window, signed_duration_since.
  rewrite !andb_true_iff, within_u64, Z.leb_le, !Z.ltb_lt by done. lia.
Qed.

Lemma policy_durations p :
  PromotionThresholdPolicy_validate p = Ok tt →
  max_evaluation_age_seconds (policy_thresholds p) ≤ u64_max ∧
  max_promotion_seconds (policy_thresholds p) ≤ u64_max.
Proof.
  unfold PromotionThresholdPolicy_validate. intros H. apply bind_ok in H as (m & _ & H).
  apply bind_unit_ok in H as [_ H]. apply bind_unit_ok in H as [_ H]. reflect.
  unfold MAX_WINDOW_SECONDS, MAX_PROMOTION_SECONDS, u64_max in *. lia.
Qed.

Lemma bs_of_list_nil {A} `{Ord A} (l : list A) : elems (bs_of_list l) = [] ↔ l = [].
Proof.
  destruct l as [|x l]; [done|]. split; [|done]. intros E. exfalso.
  by apply (insert_not_nil x (bs_of_list l)).
Qed.

Section decisions.
  Context {hashing : Hashing} {ed : Ed25519}.
  Context {sample_jcs : Canonical EvaluationSampleContent}
          {policy_jcs : Canonical PromotionThresholdPolicy}
          {incident_jcs : Canonical EvaluationIncident}
          {report_jcs : Canonical EvaluationReportContent}
          {binding_jcs : Canonical PromotionApprovalBinding}
          {grant_jcs : Canonical PromotionGrant}.

Lemma EvaluationReport_verify_not_panic r : EvaluationReport_verify r ≠ Panic.
Proof. unfold EvaluationReport_verify. no_panic. case_match; no_panic. Qed.

Lemma verify_domain_signature_not_panic k d m s : verify_domain_signature k d m s ≠ Panic.
Proof.
  unfold verify_domain_signature, verify_signature, map_err.
  repeat (apply bind_not_panic; [by case_match|intros ? _]). apply bail_if_not_panic.
Qed.

(** The owner's signature over a binding. *)
Definition binding_signed (key : VerifyingKey) (a : RepositoryOwnerApproval) : Prop :=
  ∃ bytes, canonical_json (roa_binding a) = Ok bytes ∧
    verify_domain_signature key APPROVAL_SIGNATURE_DOMAIN bytes (roa_signature a) = Ok tt.

(** When a promotion may be granted. *)
Record promotion_admissible (r : PromotionRequest) (a : RepositoryOwnerApproval) : Prop := {
  pa_policy_valid : PromotionThresholdPolicy_validate (pr_policy r) = Ok tt;
  pa_clean : rep_hold_reasons (report_content (pr_report r)) = [];
  pa_integrity : EvaluationReport_verify (pr_report r) = Ok tt;
  pa_policy : PromotionThresholdPolicy_digest (pr_policy r)
    = Ok (rep_policy_digest (report_content (pr_report r)));
  pa_age : 0 ≤ num_seconds (pr_decided_at r - rep_generated_at (report_content (pr_report r)))
    ≤ max_evaluation_age_seconds (policy_thresholds (pr_policy r));
  pa_adjacent : next_autonomy_rung (pr_current_rung r) = Some (pr_requested_rung r);
  pa_risk : high_or_critical (seg_risk_class (rep_segment (report_content (pr_report r)))) = true →
    pr_requested_rung r ≠ AutonomyLevel.GuardedMergeEnabled;
  pa_window : pr_effective_from r ≤ pr_decided_at r < pr_expires_at r ∧
    0 < num_seconds (pr_expires_at r - pr_effective_from r)
      ≤ max_promotion_seconds (policy_thresholds (pr_policy r));
  pa_approved : pr_approval r = Some a;
  pa_bound : approval_binding r = Ok (roa_binding a);
  pa_signed : binding_signed (tro_verifying_key (pr_trusted_owner r)) a
}.

(** The grant a request asks for. *)
Definition grant_of (r : PromotionRequest) (policy_digest binding_digest : string)
  : PromotionGrant :=
  {| pg_schema_version := GRANT_SCHEMA;
     pg_segment := rep_segment (report_content (pr_report r));
     pg_evaluation_window := rep_window (report_content (pr_report r));
     pg_evaluation_digest := report_digest (pr_report r);
     pg_policy_digest := policy_digest;
     pg_previous_rung := pr_current_rung r;
     pg_promoted_rung := pr_requested_rung r;
     pg_rollback_rung := pr_current_rung r;
     pg_effective_from := pr_effective_from r;
     pg_expires_at := pr_expires_at r;
     pg_repository_owner := tro_owner_id (pr_trusted_owner r);
     pg_owner_key_id := tro_key_id (pr_trusted_owner r);
     pg_approval_binding_digest := binding_digest |}.

Lemma request_reasons_nil r pd s :
  PromotionThresholdPolicy_validate (pr_policy r) = Ok tt →
  elems (request_reasons r pd s) = [] ↔
  (rep_policy_digest (report_content (pr_report r)) = pd ∧
   0 ≤ num_seconds (pr_decided_at r - rep_generated_at (report_content (pr_report r)))
     ≤ max_evaluation_age_seconds (policy_thresholds (pr_policy r)) ∧
   next_autonomy_rung (pr_current_rung r) = Some (pr_requested_rung r) ∧
   (high_or_critical (seg_risk_class (rep_segment (report_content (pr_report r)))) = true →
    pr_requested_rung r ≠ AutonomyLevel.GuardedMergeEnabled) ∧
   pr_effective_from r ≤ pr_decided_at r < pr_expires_at r ∧
   0 < num_seconds (pr_expires_at r - pr_effective_from r)
     ≤ max_promotion_seconds (policy_thresholds (pr_policy r))) ∧ elems s = [].
Proof.
  intros Hp. destruct (policy_durations _ Hp) as [Ha Hw]. unfold request_reasons.
  rewrite !insert_if_nil, !negb_false_iff, orb_false_iff, negb_false_iff,
    within_u64, valid_promotion_window_true, !bool_decide_eq_true, andb_false_iff,
    bool_decide_eq_false, Z.ltb_ge by done.
  unfold signed_duration_since.
  destruct (high_or_critical _); split; intros; destruct_and!; split_and!; try done; naive_solver.
Qed.

Lemma approval_reasons_nil r expected s s' :
  approval_binding r = Ok expected → approval_reasons r expected s = Ok s' →
  elems s' = [] ↔
  (∃ a, pr_approval r = Some a ∧ roa_binding a = expected ∧
        binding_signed (tro_verifying_key (pr_trusted_owner r)) a) ∧ elems s = [].
Proof.
  intros He. unfold approval_reasons, binding_signed. destruct (pr_approval r) as [a|].
  - intros H. apply bind_ok in H as (b & Hb & [= <-]).
    rewrite !insert_if_nil, (is_err_false_unit _ (verify_domain_signature_not_panic _ _ _ _)),
      orb_false_iff, !negb_false_iff, !bool_decide_eq_true.
    split; [naive_solver|]. intros [(a' & [= <-] & E & b' & Hb' & Hv) Hs]. rewrite Hb in Hb'.
    simplify_eq. apply bind_ok in He as (pd & _ & [= He]). by rewrite <- He.
  - intros [= <-]. pose proof (insert_not_nil PromotionHoldReason.MissingOwnerApproval s).
    naive_solver.
Qed.

Lemma decide_granted r g :
  decide_promotion r = Ok (PromotionDecision.Granted g) →
  ∃ a pd bd, promotion_admissible r a ∧ PromotionThresholdPolicy_digest (pr_policy r) = Ok pd ∧
    digest_canonical (roa_binding a) = Ok bd ∧ g = grant_of r pd bd.
Proof.
  unfold decide_promotion. intros H. apply bind_unit_ok in H as [Hp H].
  apply bind_ok in H as (pd & Hpd & H). apply bind_ok in H as (b & Hb & H).
  apply bind_ok in H as (rs & Hrs & H).
  destruct (bs_is_empty rs) eqn:E; [|done]. apply bs_is_empty_elems in E. simpl in H.
  rewrite (approval_reasons_nil _ _ _ _ Hb Hrs), (request_reasons_nil _ _ _ Hp), insert_if_nil,
    bs_of_list_nil, (is_err_false_unit _ (EvaluationReport_verify_not_panic _)) in E.
  destruct E as [(a & Ha & <- & Hs) [Hreq [Hv Hn]]]. rewrite Ha in H. simpl in H.
  apply bind_ok in H as (bd & Hbd & [= <-]). destruct_and!. subst pd.
  exists a, (rep_policy_digest (report_content (pr_report r))), bd.
  split; [by constructor|]. split; [done|]. split; [done|]. reflexivity.
Qed.

Lemma admissible_granted r a :
  promotion_admissible r a → ∃ g, decide_promotion r = Ok (PromotionDecision.Granted g).
Proof.
  intros []. unfold decide_promotion. rewrite pa_policy_valid0, pa_policy0. cbn [mbind res_bind].
  rewrite pa_bound0. cbn [mbind res_bind].
  destruct pa_signed0 as (b & Hb & Hsig).
  match goal with |- context [approval_reasons r _ ?s] => set (s0 := s) end.
  assert (∃ s', approval_reasons r (roa_binding a) s0 = Ok s') as [s' Hs'].
  { unfold approval_reasons. rewrite pa_approved0, Hb. simpl. eauto. }
  assert (elems s' = []) as Hnil.
  { rewrite (approval_reasons_nil _ _ _ _ pa_bound0 Hs'). split.
    { exists a. split_and!; [done|done|]. by exists b. }
    unfold s0. rewrite request_reasons_nil, insert_if_nil, bs_of_list_nil by done.
    rewrite (is_err_false_unit _ (EvaluationReport_verify_not_panic _)). tauto. }
  rewrite Hs'. cbn [mbind res_bind]. rewrite (proj2 (bs_is_empty_elems _) Hnil).
  cbn [negb]. rewrite pa_approved0. cbn [mbind res_bind expect].
  unfold digest_canonical. rewrite Hb. cbn [mbind res_bind]. eauto.
Qed.

(** A promotion is granted exactly when it is admissible: the policy is
    valid, the report records no reason to hold, matches its own digest and
    was made under exactly this policy not longer ago than it allows, the
    requested rung is the next one up (and not guarded merging for high or
    critical risk), the promotion window is current and bounded, and the
    trusted owner signed exactly this request.  Anything less is held or
    fails, and a decision never panics. *)
Lemma promotion_granted_exact r :
  ((∃ g, decide_promotion r = Ok (PromotionDecision.Granted g)) ↔
   ∃ a, promotion_admissible r a) ∧
  decide_promotion r ≠ Panic.
Proof.
  split; [split|].
  - intros [g Hg]. destruct (decide_granted _ _ Hg) as (a & _ & _ & Ha & _). eauto.
  - intros [a Ha]. by apply (admissible_granted r a).
  - unfold decide_promotion. apply bind_not_panic.
    { unfold PromotionThresholdPolicy_validate. no_panic. apply try_for_not_panic. no_panic. }
    intros [] Hp. apply bind_not_panic.
    { unfold PromotionThresholdPolicy_digest. rewrite Hp. simpl. no_panic. }
    intros pd Hpd. apply bind_not_panic.
    { unfold approval_binding. rewrite Hpd. done. }
    intros b Hb. apply bind_not_panic.
    { unfold approval_reasons. case_match; no_panic. }
    intros s Hs. destruct (bs_is_empty s) eqn:E; [|done]. apply bs_is_empty_elems in E.
    rewrite (approval_reasons_nil _ _ _ _ Hb Hs) in E. destruct E as [(a & -> & _) _].
    simpl. no_panic.
Qed.

(** The rung a grant gives at a moment. *)
Definition rung_at (r : PromotionRequest) (t : DateTime) : AutonomyLevel :=
  if bool_decide (pr_effective_from r ≤ t < pr_expires_at r)
  then pr_requested_rung r else pr_current_rung r.

Lemma num_seconds_pos d : 0 < num_seconds d → 0 < d.
Proof.
  unfold num_seconds. intros H. destruct (Z_lt_le_dec 0 d) as [|Hd]; [done|].
  assert (0 < nanos) by done. exfalso.
  pose proof (Z.quot_opp_l d nanos ltac:(lia)) as Ho.
  pose proof (Z.quot_pos (- d) nanos ltac:(lia) ltac:(lia)). lia.
Qed.

Lemma grant_valid r a pd bd owner_id key_id key segment window t policy samples incidents :
  TrustedRepositoryOwner_new owner_id key_id key = Ok (pr_trusted_owner r) →
  evaluate segment window t policy samples incidents = Ok (pr_report r) →
  promotion_admissible r a → PromotionThresholdPolicy_digest (pr_policy r) = Ok pd →
  digest_canonical (roa_binding a) = Ok bd →
  PromotionGrant_validate (grant_of r pd bd) = Ok tt.
Proof.
  intros Ho He [] Hpd Hbd. apply bind_unit_ok in Ho as [Hb [= Ho]].
  apply bail_if_ok, orb_false_iff in Hb as [Hb1 Hb2].
  apply evaluate_ok in He as (agg & ordered & pd' & (Hseg & Hwin & _ & _) & _ & _ & _ & Hc & Hd).
  unfold PromotionThresholdPolicy_digest in Hpd. apply bind_unit_ok in Hpd as [_ Hpd].
  unfold PromotionGrant_validate, grant_of. cbn -[is_sha256_digest next_autonomy_rung bool_decide blank].
  rewrite Hc, <- Ho. cbn -[is_sha256_digest next_autonomy_rung bool_decide blank]. rewrite Hseg, Hwin. cbn -[is_sha256_digest next_autonomy_rung bool_decide blank].
  rewrite (digest_canonical_shape _ _ Hd), (digest_canonical_shape _ _ Hpd),
    (digest_canonical_shape _ _ Hbd), Hb1, Hb2.
  rewrite (bool_decide_eq_true_2 (GRANT_SCHEMA = _)), (bool_decide_eq_true_2 (_ = pr_current_rung r)),
    (bool_decide_eq_true_2 (next_autonomy_rung _ = _)) by done.
  destruct pa_window0 as [_ [Hs _]]. apply num_seconds_pos in Hs.
  rewrite (proj2 (Z.leb_gt _ _)) by lia. cbn.
  rewrite Hc in pa_risk0. simpl in pa_risk0.
  destruct (high_or_critical _); [|done]. by rewrite bool_decide_eq_false_2 by (by apply pa_risk0).
Qed.

(** C35. Autonomy is earned: when a report computed from samples and incidents
    leads to a grant, the evidence is clean (distinct, verified samples of the
    segment and window, no false green, security or severe violation, every
    threshold met by exact counts and totals, no open high-severity and no
    safety incident), the grant is well formed, it raises autonomy by one rung
    and only between its start and its expiry, and at its expiry, not before,
    the rollback to the previous rung is due. *)
Theorem granted_autonomy_is_earned r g owner_id key_id key segment window t policy samples
    incidents :
  TrustedRepositoryOwner_new owner_id key_id key = Ok (pr_trusted_owner r) →
  evidence_unsigned policy samples →
  evaluate segment window t policy samples incidents = Ok (pr_report r) →
  decide_promotion r = Ok (PromotionDecision.Granted g) →
  evidence_clean segment window t policy samples incidents ∧
  PromotionGrant_validate g = Ok tt ∧
  next_autonomy_rung (pr_current_rung r) = Some (pr_requested_rung r) ∧
  (∀ at_, effective_rung_at g at_ = Ok (rung_at r at_)) ∧
  (∀ at_, expiration_rollback g at_ = Ok None ↔ at_ < pr_expires_at r) ∧
  (∀ at_ digest, digest_canonical g = Ok digest → pr_expires_at r ≤ at_ →
     expiration_rollback g at_ = Ok (Some (mkDemotionDecision
       (rep_segment (report_content (pr_report r))) (pr_requested_rung r) (rung_at r at_) at_
       (DemotionCause.PromotionExpired digest)))).
Proof.
  intros Ho Hun He Hg. destruct (decide_granted _ _ Hg) as (a & pd & bd & Ha & Hpd & Hbd & ->).
  pose proof (grant_valid _ _ _ _ _ _ _ _ _ _ _ _ _ Ho He Ha Hpd Hbd) as Hv.
  split; [apply (report_clean _ _ _ _ _ _ _ Hun He), Ha|]. split; [done|].
  split; [apply Ha|]. split; [|split].
  - intros at_. unfold effective_rung_at, rung_at. rewrite Hv. simpl.
    case_bool_decide as E.
    + by rewrite (proj2 (Z.leb_le _ _)), (proj2 (Z.ltb_lt _ _)) by lia.
    + destruct ((_ <=? _) && _) eqn:E'; [|done]. reflect. lia.
  - intros at_. unfold expiration_rollback. rewrite Hv. simpl.
    destruct (_ <? _) eqn:E; reflect; [done|]. split; [|lia].
    intros H. by apply bind_ok in H as (d & _ & ?).
  - intros at_ digest Hd He'. unfold expiration_rollback, PromotionGrant_digest, rung_at.
    rewrite Hv, Hd. simpl. rewrite (proj2 (Z.ltb_ge _ _) He').
    by rewrite bool_decide_eq_false_2 by lia.
Qed.

(** ** Immediate safety *)

Lemma elem_of_insert_if {A} `{Ord A} b (x y : A) s :
  y ∈ insert_if b x s ↔ (b = true ∧ y = x) ∨ y ∈ s.
Proof. destruct b; simpl; rewrite ?elem_of_bs_insert; naive_solver. Qed.

(** A loop that rejects bad items and collects what each item adds. *)
Lemma try_fold_collects {A B} `{Ord B} (body : BTreeSet B → A → res (BTreeSet B))
    (ok : A → Prop) (adds : A → B → Prop) :
  (∀ s x, match body s x with
          | Ok s' => ok x ∧ ∀ y, y ∈ s' ↔ adds x y ∨ y ∈ s
          | Err _ => ¬ ok x
          | Panic => False
          end) →
  ∀ l s, match try_fold l s body with
         | Ok s' => Forall ok l ∧ ∀ y, y ∈ s' ↔ (∃ x, x ∈ l ∧ adds x y) ∨ y ∈ s
         | Err _ => ¬ Forall ok l
         | Panic => False
         end.
Proof.
  intros Hb. induction l as [|x l IH]; intros s; simpl.
  - split; [constructor|]. intros y. split; [by right|].
    intros [(x & Hx & _)|]; [by apply elem_of_nil in Hx|done].
  - specialize (Hb s x). destruct (body s x) as [s1| |]; simpl;
      [|rewrite Forall_cons; tauto|done].
    specialize (IH s1). destruct (try_fold l s1 body) as [s2| |];
      [|rewrite Forall_cons; tauto|done].
    destruct Hb as [Hx Hs1], IH as [Hl Hs2]. split; [by constructor|]. intros y.
    rewrite Hs2, Hs1. split.
    + intros [(z & Hz & Ha)|[Ha|Hy]]; [left; exists z|left; exists x|by right];
        (split; [by constructor|done]).
    + intros [(z & Hz & Ha)|Hy]; [|by right; right].
      apply elem_of_cons in Hz as [->|Hz]; [by right; left|left; by exists z].
Qed.

(** What the safety decision is made from. *)
Record safety_input (segment : EvaluationSegment) (observed_at : DateTime)
    (samples : list EvaluationSample) (incidents : list EvaluationIncident) : Prop := {
  si_segment : EvaluationSegment_validate segment = Ok tt;
  si_samples_bound : Z.of_nat (length samples) ≤ MAX_EVALUATION_SAMPLES;
  si_incidents_bound : Z.of_nat (length incidents) ≤ MAX_INCIDENT_SNAPSHOTS;
  si_samples : Forall (λ s, sample_segment s = segment ∧ sample_evaluated_at s ≤ observed_at)
    samples;
  si_incidents : Forall (λ i, EvaluationIncident_validate i observed_at = Ok tt ∧
    inc_segment i = segment) incidents
}.

(** The reasons to lower autonomy at once. *)
Inductive sample_violation (s : EvaluationSample) : ImmediateDemotionReason → Prop :=
| SVInvalid : EvaluationSample_verify s ≠ Ok tt →
    sample_violation s (ImmediateDemotionReason.InvalidSample (sample_id s))
| SVFalseGreen : EvaluationSample_verify s = Ok tt → qm_false_green (measurements s) = true →
    sample_violation s (ImmediateDemotionReason.FalseGreen (sample_id s))
| SVSecurity : EvaluationSample_verify s = Ok tt →
    qm_security (measurements s) ≠ SecurityAssessment.Clean →
    sample_violation s (ImmediateDemotionReason.SecurityViolation (sample_id s))
| SVSevere : EvaluationSample_verify s = Ok tt → is_Some (qm_severe_violation (measurements s)) →
    sample_violation s (ImmediateDemotionReason.SevereViolation (sample_id s)).

Inductive incident_violation (observed_at : DateTime) (i : EvaluationIncident)
  : ImmediateDemotionReason → Prop :=
| IVSafety : inc_kind i ≠ IncidentKind.Quality →
    incident_violation observed_at i (ImmediateDemotionReason.SafetyIncident (inc_incident_id i))
| IVUnresolved : is_high_severity (inc_severity i) = true →
    (∀ t, inc_resolved_at i = Some t → observed_at < t) →
    incident_violation observed_at i
      (ImmediateDemotionReason.UnresolvedHighSeverityIncident (inc_incident_id i)).

Definition safety_violation (segment : EvaluationSegment) (current_rung : AutonomyLevel)
    (observed_at : DateTime) (samples : list EvaluationSample)
    (incidents : list EvaluationIncident) (reason : ImmediateDemotionReason) : Prop :=
  (∃ s, s ∈ samples ∧ sample_violation s reason) ∨
  (∃ i, i ∈ incidents ∧ incident_violation observed_at i reason) ∨
  (reason = ImmediateDemotionReason.HighRiskGuardedMerge ∧
   high_or_critical (seg_risk_class segment) = true ∧
   current_rung = AutonomyLevel.GuardedMergeEnabled).

Lemma safety_sample_spec segment t s x :
  match safety_sample segment t s x with
  | Ok s' => (sample_segment x = segment ∧ sample_evaluated_at x ≤ t) ∧
             ∀ y, y ∈ s' ↔ sample_violation x y ∨ y ∈ s
  | Err _ => ¬ (sample_segment x = segment ∧ sample_evaluated_at x ≤ t)
  | Panic => False
  end.
Proof.
  unfold safety_sample. destruct (_ || _) eqn:E; simpl.
  - apply orb_true_iff in E. rewrite negb_true_iff, bool_decide_eq_false, Z.ltb_lt in E.
    intros [? ?]. destruct E; [done|lia].
  - apply orb_false_iff in E. rewrite negb_false_iff, bool_decide_eq_true, Z.ltb_ge in E.
    split; [done|]. intros y.
    destruct (is_err (EvaluationSample_verify x)) eqn:Ev.
    + rewrite elem_of_bs_insert. assert (EvaluationSample_verify x ≠ Ok tt) as Hv
        by (intros H; by rewrite H in Ev).
      split; [|by intros [[]|]; auto]. intros [->|]; [left; by constructor|by right].
    + apply (is_err_false_unit _ (EvaluationSample_verify_not_panic x)) in Ev.
      rewrite !elem_of_insert_if, is_some_true. split.
      * intros [[? ->]|[[Hc ->]|[[? ->]|]]]; [left; by constructor| |left; by constructor|by right].
        left. constructor; [done|]. intros Hq. by rewrite Hq in Hc.
      * intros [[|? ?|? Hq|? ?]|]; [done|by auto 6| |by auto 6|by auto 6].
        right; left. split; [by destruct (qm_security _)|done].
Qed.

Lemma safety_incident_spec segment t s x :
  match safety_incident segment t s x with
  | Ok s' => (EvaluationIncident_validate x t = Ok tt ∧ inc_segment x = segment) ∧
             ∀ y, y ∈ s' ↔ incident_violation t x y ∨ y ∈ s
  | Err _ => ¬ (EvaluationIncident_validate x t = Ok tt ∧ inc_segment x = segment)
  | Panic => False
  end.
Proof.
  unfold safety_incident. pose proof (EvaluationIncident_validate_not_panic x t) as Hp.
  destruct (EvaluationIncident_validate x t) as [[]| |]; simpl; [|by intros [? _]|done].
  case_bool_decide as E; simpl; [|by intros [_ ?]].
  split; [done|]. intros y. rewrite !elem_of_insert_if, andb_true_iff.
  assert (unresolved_at x t = true ↔ ∀ u, inc_resolved_at x = Some u → t < u) as ->.
  { unfold unresolved_at. destruct (inc_resolved_at x); [rewrite Z.ltb_lt|]; naive_solver. }
  assert (is_safety_incident x = true ↔ inc_kind x ≠ IncidentKind.Quality) as ->.
  { unfold is_safety_incident. by destruct (inc_kind x). }
  split; [|by intros [[]|]; auto].
  intros [[[? ?] ->]|[[? ->]|]]; [left; by constructor|left; by constructor|by right].
Qed.

(** The immediate safety decision is exact and total: on inputs of the
    segment it always decides, and on others it fails; autonomy is retained
    exactly when there is no violation, and otherwise it goes down exactly one
    rung, effective at the observation, with precisely the violations found as
    its reasons; only the lowest rung is frozen instead. *)
Lemma immediate_safety_exact segment rung t samples incidents :
  match immediate_safety_decision segment rung t samples incidents with
  | Ok d => safety_input segment t samples incidents ∧
      ∃ reasons : list ImmediateDemotionReason,
        (∀ x, x ∈ reasons ↔ safety_violation segment rung t samples incidents x) ∧
        match d with
        | ImmediateSafetyDecision.Retain => reasons = []
        | ImmediateSafetyDecision.FrozenAtObserve rs =>
            rs = reasons ∧ reasons ≠ [] ∧ rung = AutonomyLevel.Observe
        | ImmediateSafetyDecision.Demote dd =>
            reasons ≠ [] ∧ next_autonomy_rung (dd_to_rung dd) = Some rung ∧
            dd = mkDemotionDecision segment rung (dd_to_rung dd) t
                   (DemotionCause.AutomaticSafety reasons)
        end
  | Err _ => ¬ safety_input segment t samples incidents
  | Panic => False
  end.
Proof.
  unfold immediate_safety_decision.
  assert (EvaluationSegment_validate segment ≠ Panic) as Hnp
    by (unfold EvaluationSegment_validate, validate_work_class; no_panic).
  destruct (EvaluationSegment_validate segment) as [[]| |] eqn:Hseg; simpl;
    [|intros []; congruence|done].
  destruct (_ || _) eqn:Hlen; simpl.
  { intros []. apply orb_true_iff in Hlen. rewrite !Z.ltb_lt in Hlen. lia. }
  apply orb_false_iff in Hlen as [Hl1 Hl2]. apply Z.ltb_ge in Hl1, Hl2.
  pose proof (try_fold_collects _ _ _ (safety_sample_spec segment t) samples bs_empty) as H1.
  destruct (try_fold samples _ _) as [s1| |]; simpl; [|by intros []|done].
  pose proof (try_fold_collects _ _ _ (safety_incident_spec segment t) incidents s1) as H2.
  destruct (try_fold incidents _ _) as [s2| |]; simpl; [|by intros []|done].
  destruct H1 as [F1 E1], H2 as [F2 E2].
  match goal with |- context [insert_if ?b ?x s2] => set (s3 := insert_if b x s2) end.
  assert (∀ x, x ∈ elems s3 ↔ safety_violation segment rung t samples incidents x) as E3.
  { intros x. unfold s3. change (x ∈ elems ?s) with (x ∈ s).
    rewrite elem_of_insert_if, E2, E1, elem_of_bs_empty, andb_true_iff, bool_decide_eq_true.
    unfold safety_violation. naive_solver. }
  assert (safety_input segment t samples incidents) as Hin by by constructor.
  destruct (bs_is_empty s3) eqn:Ee.
  - split; [done|]. exists (elems s3). split; [done|]. by apply bs_is_empty_elems.
  - assert (elems s3 ≠ []) by (intros Hn; apply bs_is_empty_elems in Hn; congruence).
    destruct (previous_autonomy_rung rung) as [to|] eqn:Hr; (split; [done|]);
      exists (elems s3); (split; [done|]); split_and!; try done; by destruct rung; simplify_eq/=.
Qed.
End decisions.

(** ** A concrete promotion *)

Section concrete.
#[local] Existing Instance sample_hashing.
#[local] Existing Instance sample_ed25519.
#[local] Instance concrete_sample_jcs : Canonical EvaluationSampleContent :=
  {| to_jcs c := inr [Z.of_N (esc_sample_id c)] |}.
#[local] Instance concrete_policy_jcs : Canonical PromotionThresholdPolicy :=
  {| to_jcs p := inr [min_samples (policy_thresholds p)] |}.
#[local] Instance concrete_incident_jcs : Canonical EvaluationIncident :=
  {| to_jcs i := inr [Z.of_N (inc_incident_id i)] |}.
#[local] Instance concrete_report_jcs : Canonical EvaluationReportContent :=
  {| to_jcs r := inr [Z.of_nat (length (rep_samples r))] |}.
#[local] Instance concrete_binding_jcs : Canonical PromotionApprovalBinding :=
  {| to_jcs b := inr [pab_expires_at b] |}.
#[local] Instance concrete_grant_jcs : Canonical PromotionGrant :=
  {| to_jcs g := inr [pg_expires_at g] |}.

Definition concrete_segment : EvaluationSegment :=
  mkEvaluationSegment 7%N (mkWorkClass "docs") RiskClass.Low ClosureTarget.PullRequest.
Definition concrete_window : EvaluationWindow := mkEvaluationWindow 0 (hours 24).
Definition concrete_policy : PromotionThresholdPolicy :=
  mkPromotionThresholdPolicy POLICY_SCHEMA
    {| min_samples := 2; max_samples := 10; min_correctness_bps := 9000;
       min_acceptance_criteria_bps := 9000; min_scope_bps := 10000;
       min_verification_bps := 10000; min_reviewer_independence_bps := 10000;
       max_human_rework_bps := 500; min_refusal_or_escalation_observations := 1;
       min_refusal_or_escalation_bps := 10000; min_recovery_observations := 1;
       min_recovery_bps := 10000; min_security_clean_bps := 10000;
       max_mean_cycle_time_seconds := 3600; max_mean_cost_microunits := 1000;
       max_evaluation_age_seconds := 86400; max_promotion_seconds := 604800 |}.
Definition concrete_measurements (cost : Z) : QualityMeasurements :=
  {| qm_correct := true; qm_acceptance_criteria_met := true; qm_scope_respected := true;
     qm_verification_correct := true; qm_false_green := false; qm_reviewer_independent := true;
     qm_human_rework_required := false;
     qm_refusal_or_escalation := ApplicabilityOutcome.Pass;
     qm_recovery := ApplicabilityOutcome.Pass;
     qm_security := SecurityAssessment.Clean; qm_severe_violation := None;
     qm_cycle_time_seconds := 60; qm_cost_microunits := cost |}.
Definition concrete_sample (id : Uuid) (cost : Z) : EvaluationSample :=
  mkEvaluationSample
    (mkEvaluationSampleContent SAMPLE_SCHEMA id concrete_segment 3%N None (hours 1)
       (concrete_measurements cost)) (sha256_digest [Z.of_N id]).
Definition concrete_incident (id : Uuid) : EvaluationIncident :=
  mkEvaluationIncident id concrete_segment IncidentKind.Quality IncidentSeverity.High (hours 2)
    (Some (hours 3)).
Definition concrete_samples : list EvaluationSample :=
  [concrete_sample 12%N 500; concrete_sample 11%N 1400].
Definition concrete_report : EvaluationReport :=
  match evaluate concrete_segment concrete_window (hours 24) concrete_policy concrete_samples
          [concrete_incident 5%N; concrete_incident 4%N] with
  | Ok r => r
  | _ => mkEvaluationReport (mkEvaluationReportContent "" concrete_segment concrete_window 0 ""
           [] [] (mkEvaluationAggregate 0 None None None None None None None None None 0 0 0
             None None) []) ""
  end.
Definition concrete_owner : TrustedRepositoryOwner :=
  mkTrustedRepositoryOwner _ "owner" "owner-key" tt.
Definition concrete_request (approval : option RepositoryOwnerApproval) : PromotionRequest :=
  {| pr_report := concrete_report; pr_policy := concrete_policy;
     pr_current_rung := AutonomyLevel.SupervisedPullRequest;
     pr_requested_rung := AutonomyLevel.AutomaticVerifiedPullRequest;
     pr_effective_from := hours 25; pr_expires_at := hours 73; pr_decided_at := hours 26;
     pr_approval := approval; pr_trusted_owner := concrete_owner |}.
Definition concrete_approval : option RepositoryOwnerApproval :=
  match approval_binding (concrete_request None) ≫= (λ b,
          RepositoryOwnerApproval_sign b (mkSigner _ "owner-key" tt)) with
  | Ok a => Some a
  | _ => None
  end.

Lemma concrete_evaluation :
  evaluate concrete_segment concrete_window (hours 24) concrete_policy concrete_samples
    [concrete_incident 5%N; concrete_incident 4%N] = Ok concrete_report.
Proof.
  assert (is_ok (evaluate concrete_segment concrete_window (hours 24) concrete_policy
    concrete_samples [concrete_incident 5%N; concrete_incident 4%N]) = true) as H
    by (vm_compute; reflexivity).
  unfold concrete_report. by destruct (evaluate _ _ _ _ _ _).
Qed.

Definition granted (d : res PromotionDecision) : bool :=
  match d with Ok (PromotionDecision.Granted _) => true | _ => false end.

Lemma evaluation_order_independent_witness :
  evaluate concrete_segment concrete_window (hours 24) concrete_policy
    [concrete_sample 11%N 1400; concrete_sample 12%N 500]
    [concrete_incident 4%N; concrete_incident 5%N] = Ok concrete_report.
Proof.
  apply (evaluation_order_independent concrete_segment concrete_window (hours 24)
    concrete_policy concrete_samples _ [concrete_incident 5%N; concrete_incident 4%N]).
  - apply Permutation_swap.
  - apply Permutation_swap.
  - intros i j Hi Hj E _. rewrite !elem_of_cons, elem_of_nil in Hi, Hj.
    destruct Hi as [->|[->|[]]], Hj as [->|[->|[]]]; done.
  - exact concrete_evaluation.
Defined.

Lemma granted_autonomy_is_earned_witness :
  evidence_clean concrete_segment concrete_window (hours 24) concrete_policy concrete_samples
    [concrete_incident 5%N; concrete_incident 4%N].
Proof.
  destruct (decide_promotion (concrete_request concrete_approval)) as [[g|]| |] eqn:E.
  2-4: exfalso; assert (granted (decide_promotion (concrete_request concrete_approval)) = true)
    as H by (vm_compute; reflexivity); by rewrite E in H.
  refine (proj1 (granted_autonomy_is_earned (concrete_request concrete_approval) g
    "owner" "owner-key" tt concrete_segment concrete_window (hours 24) concrete_policy
    concrete_samples [concrete_incident 5%N; concrete_incident 4%N] _ _ _ E)).
  - reflexivity.
  - split; [vm_compute; discriminate|]. intros s Hs. unfold concrete_samples in Hs.
    rewrite !elem_of_cons, elem_of_nil in Hs.
    destruct Hs as [->|[->|[]]]; split; vm_compute; discriminate.
  - exact concrete_evaluation.
Defined.

Lemma promotion_granted_exact_witness :
  ∃ a, promotion_admissible (concrete_request concrete_approval) a.
Proof.
  apply (proj1 (promotion_granted_exact (concrete_request concrete_approval))).
  destruct (decide_promotion (concrete_request concrete_approval)) as [[g|]| |] eqn:E.
  1: by exists g.
  all: exfalso; assert (granted (decide_promotion (concrete_request concrete_approval)) = true)
    as H by (vm_compute; reflexivity); by rewrite E in H.
Defined.

Lemma immediate_safety_exact_witness :
  safety_input concrete_segment (hours 24) concrete_samples [concrete_incident 5%N].
Proof.
  pose proof (immediate_safety_exact concrete_segment AutonomyLevel.SupervisedPullRequest
    (hours 24) concrete_samples [concrete_incident 5%N]) as H.
  destruct (immediate_safety_decision _ _ _ _ _) as [d| |] eqn:E.
  1: exact (proj1 H).
  all: exfalso; assert (is_ok (immediate_safety_decision concrete_segment
    AutonomyLevel.SupervisedPullRequest (hours 24) concrete_samples [concrete_incident 5%N]) = true)
    as H' by (vm_compute; reflexivity); by rewrite E in H'.
Defined.
End concrete.
