(* ===== verification/Reconciliation.v ===== *)
(** The global reconciler, [src/src/application/reconciliation.rs]: an audit of a
    snapshot of work items, attempts, reservations and accountability anchors
    against the invariants of the whole system. *)

From Stdlib Require Import ZArith Lia Sorting.
From stdpp Require Import base tactics option list strings gmap pretty.
From S2P Require Import Prelude RustStr RustOrd Ids WorkItem Governance Workflow.

Record ReconciliationSnapshot := mkReconciliationSnapshot {
  rs_work_items : list WorkItem;
  rs_attempts : list Attempt;
  rs_work_order_attempts : BTreeSet AttemptId;
  rs_authoritative_run_attempts : BTreeSet AttemptId;
  rs_accountability : gmap WorkItemId AccountabilityAnchor;
  rs_live_repository_reservations : list (RepositoryId * AttemptId);
  rs_stale_worker_attempts : BTreeSet AttemptId;
  rs_closure_evidence_items : BTreeSet WorkItemId
}.

Module InvariantCode.
Inductive InvariantCode :=
| MissingAccountability | MultipleActiveAttempts | RepositoryWipExceeded
| ActiveAttemptMissingWorkOrder | ActiveAttemptMissingRun | StaleWorkerGeneration
| ClosedWithoutEvidence | ActiveAttemptNotLinked.
End InvariantCode.
Abbreviation InvariantCode := InvariantCode.InvariantCode.

(** [#[derive(Ord)]]: the position of the variant. *)
Definition InvariantCode_index (c : InvariantCode) : Z :=
  match c with
  | InvariantCode.MissingAccountability => 0 | InvariantCode.MultipleActiveAttempts => 1
  | InvariantCode.RepositoryWipExceeded => 2
  | InvariantCode.ActiveAttemptMissingWorkOrder => 3
  | InvariantCode.ActiveAttemptMissingRun => 4 | InvariantCode.StaleWorkerGeneration => 5
  | InvariantCode.ClosedWithoutEvidence => 6 | InvariantCode.ActiveAttemptNotLinked => 7
  end.

Lemma InvariantCode_index_inj : Inj (=) (=) InvariantCode_index.
Proof. intros [] []; done. Qed.

#[global] Instance InvariantCode_ord : Ord InvariantCode :=
  ord_via InvariantCode_index InvariantCode_index_inj.

Record InvariantViolation := mkInvariantViolation {
  iv_code : InvariantCode;
  iv_work_item_id : option WorkItemId;
  iv_attempt_id : option AttemptId;
  iv_repository_id : option RepositoryId;
  iv_detail : string;
  iv_quarantine_required : bool
}.

Definition attempt_violation (code : InvariantCode) (attempt : Attempt) (detail : string)
  : InvariantViolation :=
  {| iv_code := code;
     iv_work_item_id := Some (at_work_item_id attempt);
     iv_attempt_id := Some (at_id attempt);
     iv_repository_id := None;
     iv_detail := detail;
     iv_quarantine_required := true |}.

Definition item_violation (code : InvariantCode) (item : WorkItem) (attempt : option AttemptId)
    (detail : string) : InvariantViolation :=
  {| iv_code := code;
     iv_work_item_id := Some (wi_id item);
     iv_attempt_id := attempt;
     iv_repository_id := wi_repository_id item;
     iv_detail := detail;
     iv_quarantine_required := true |}.

(** ** [BTreeMap::entry(key).or_default().push(value)] in a loop *)

Definition group_by {A B} (key : A → N) (value : A → B) (l : list A) : gmap N (list B) :=
  foldl (λ m x, <[key x := default [] (m !! key x) ++ [value x]]> m) ∅ l.

(** The entries of a [BTreeMap], in key order. *)
Definition entries {B} (m : gmap N B) : list (N * B) := sort_by_key fst (map_to_list m).

(** ** The audit *)

(** The first loop over the work items. *)
Definition accountability_violations (s : ReconciliationSnapshot) (item : WorkItem)
  : list InvariantViolation :=
  flagged
    [ (is_err (validate_accountability (wi_state item) (wi_accepted_at item)
                 (rs_accountability s !! wi_id item)),
       item_violation InvariantCode.MissingAccountability item (wi_active_attempt_id item)
         "accepted item has no live progress, timer, retry, approval, escalation, or verified closure");
      (bool_decide (wi_state item = WorkItemState.Closed)
       && negb (bs_contains (wi_id item) (rs_closure_evidence_items s)),
       item_violation InvariantCode.ClosedWithoutEvidence item (wi_active_attempt_id item)
         "closed item has no independently valid target evidence") ].

(** [matches!(state, Running | Verifying)]. *)
Definition needs_run (s : AttemptState) : bool :=
  match s with AttemptState.Running | AttemptState.Verifying => true | _ => false end.

(** The loop over the attempts. *)
Definition attempt_violations (s : ReconciliationSnapshot) (attempt : Attempt)
  : list InvariantViolation :=
  if AttemptState_active (at_state attempt) then
    flagged
      [ (negb (bs_contains (at_id attempt) (rs_work_order_attempts s)),
         attempt_violation InvariantCode.ActiveAttemptMissingWorkOrder attempt
           "active attempt has no immutable Work Order");
        (needs_run (at_state attempt)
         && negb (bs_contains (at_id attempt) (rs_authoritative_run_attempts s)),
         attempt_violation InvariantCode.ActiveAttemptMissingRun attempt
           "running attempt has no authoritative Runmill run");
        (bs_contains (at_id attempt) (rs_stale_worker_attempts s),
         attempt_violation InvariantCode.StaleWorkerGeneration attempt
           "attempt is bound to a stale worker generation") ]
  else [].

(** The loop over the active attempts of each item. *)
Definition multiple_attempt_violations {A} (e : WorkItemId * list A) : list InvariantViolation :=
  let '(work_item_id, attempts) := e in
  if 1 <? Z.of_nat (length attempts) then
    [{| iv_code := InvariantCode.MultipleActiveAttempts;
        iv_work_item_id := Some work_item_id;
        iv_attempt_id := None;
        iv_repository_id := None;
        iv_detail := pretty (length attempts) +:+ " active attempts found";
        iv_quarantine_required := true |}]
  else [].

(** The loop over the reservations of each repository. *)
Definition wip_violations {A} (e : RepositoryId * list A) : list InvariantViolation :=
  let '(repository_id, attempts) := e in
  if 1 <? Z.of_nat (length attempts) then
    [{| iv_code := InvariantCode.RepositoryWipExceeded;
        iv_work_item_id := None;
        iv_attempt_id := None;
        iv_repository_id := Some repository_id;
        iv_detail := pretty (length attempts) +:+ " live repository reservations found";
        iv_quarantine_required := true |}]
  else [].

(** The last loop over the work items. *)
Definition link_violations (s : ReconciliationSnapshot) (item : WorkItem)
  : list InvariantViolation :=
  match wi_active_attempt_id item with
  | Some active =>
    if existsb (λ a, bool_decide (at_id a = active)
                     && bool_decide (at_work_item_id a = wi_id item)) (rs_attempts s)
    then []
    else [item_violation InvariantCode.ActiveAttemptNotLinked item (Some active)
            "work item points to a missing or foreign attempt"]
  | None => []
  end.

Definition violation_key (v : InvariantViolation)
  : InvariantCode * option WorkItemId * option AttemptId * option RepositoryId :=
  (iv_code v, iv_work_item_id v, iv_attempt_id v, iv_repository_id v).

Definition active_attempts (s : ReconciliationSnapshot) : list Attempt :=
  List.filter (λ a, AttemptState_active (at_state a)) (rs_attempts s).

Definition audit (s : ReconciliationSnapshot) : list InvariantViolation :=
  sort_by_key violation_key
    ((rs_work_items s ≫= accountability_violations s)
     ++ (rs_attempts s ≫= attempt_violations s)
     ++ (entries (group_by at_work_item_id (λ a, a) (active_attempts s)) ≫= multiple_attempt_violations)
     ++ (entries (group_by fst snd (rs_live_repository_reservations s)) ≫= wip_violations)
     ++ (rs_work_items s ≫= link_violations s)).

(** ** Grouping *)

(** The values grouped under a key. *)
Definition values_at {A B} (key : A → N) (value : A → B) (k : N) (l : list A) : list B :=
  value <$> List.filter (λ x, bool_decide (key x = k)) l.

Lemma group_by_lookup {A B} (key : A → N) (value : A → B) l k :
  group_by key value l !! k
  = match values_at key value k l with [] => None | vs => Some vs end.
Proof.
  enough (∀ m : gmap N (list B), (∀ j, m !! j ≠ Some []) →
    foldl (λ m x, <[key x := default [] (m !! key x) ++ [value x]]> m) m l !! k
    = match default [] (m !! k) ++ values_at key value k l with [] => None | vs => Some vs end)
    as H.
  { unfold group_by. rewrite H by (intros; by rewrite lookup_empty). by rewrite lookup_empty. }
  unfold values_at. induction l as [|x l IH]; intros m Hm; simpl.
  - rewrite app_nil_r. pose proof (Hm k). destruct (m !! k) as [[]|]; done.
  - rewrite IH.
    + destruct (decide (key x = k)) as [->|Hne].
      * rewrite lookup_insert_eq, bool_decide_eq_true_2 by done. simpl.
        by rewrite <- app_assoc.
      * by rewrite lookup_insert_ne, bool_decide_eq_false_2 by done.
    + intros j. destruct (decide (key x = j)) as [->|Hne].
      * rewrite lookup_insert_eq. by destruct (default [] (m !! j)).
      * by rewrite lookup_insert_ne.
Qed.

Lemma elem_of_entries {A B} (key : A → N) (value : A → B) l k vs :
  (k, vs) ∈ entries (group_by key value l) ↔ vs = values_at key value k l ∧ vs ≠ [].
Proof.
  unfold entries. rewrite elem_of_sort_by_key, elem_of_map_to_list, group_by_lookup.
  destruct (values_at key value k l); naive_solver.
Qed.

(** At most one element of a list satisfies [p], by position. *)
Definition at_most_one {A} (p : A → Prop) (l : list A) : Prop :=
  ∀ i j x y, l !! i = Some x → l !! j = Some y → p x → p y → i = j.

Lemma at_most_one_cons {A} (p : A → Prop) x l :
  at_most_one p (x :: l) ↔ at_most_one p l ∧ (p x → Forall (λ y, ¬ p y) l).
Proof.
  split.
  - intros H. split.
    + intros i j y z Hi Hj Hy Hz. by injection (H (S i) (S j) y z Hi Hj Hy Hz).
    + intros Hx. apply Forall_forall. intros y Hy Hpy. apply list_elem_of_lookup in Hy as [i Hi].
      by specialize (H 0%nat (S i) x y eq_refl Hi Hx Hpy).
  - intros [H Hx] [|i] [|j] y z Hi Hj Hy Hz; simpl in *; simplify_eq; [done| | |].
    + apply list_elem_of_lookup_2 in Hj. rewrite Forall_forall in Hx. by destruct (Hx Hy z).
    + apply list_elem_of_lookup_2 in Hi. rewrite Forall_forall in Hx. by destruct (Hx Hz y).
    + f_equal. by apply (H i j y z).
Qed.

Lemma filter_at_most_one {A} (p : A → bool) l :
  (length (List.filter p l) ≤ 1)%nat ↔ at_most_one (λ x, p x = true) l.
Proof.
  induction l as [|x l IH]; simpl.
  - split; [intros _ ? ? ? ? H; by rewrite lookup_nil in H|simpl; lia].
  - rewrite at_most_one_cons, <- IH. destruct (p x) eqn:E; simpl.
    + assert (Forall (λ y, ¬ p y = true) l ↔ length (List.filter p l) = 0%nat) as ->.
      { rewrite length_zero_iff_nil. clear. induction l as [|x l IH]; simpl; [done|].
        rewrite Forall_cons, IH. destruct (p x); naive_solver. }
      split; [|lia]. intros H. split; [lia|intros _; lia].
    + naive_solver.
Qed.

Lemma values_length {A B} (key : A → N) (value : A → B) k l :
  1 < Z.of_nat (length (values_at key value k l)) ↔ ¬ at_most_one (λ x, key x = k) l.
Proof.
  unfold values_at. rewrite length_fmap.
  assert (at_most_one (λ x, key x = k) l ↔
    at_most_one (λ x, bool_decide (key x = k) = true) l) as ->.
  { unfold at_most_one. by setoid_rewrite bool_decide_eq_true. }
  rewrite <- filter_at_most_one. lia.
Qed.

Lemma at_most_one_filter {A} (f : A → bool) (p : A → Prop) `{∀ x, Decision (p x)} l :
  at_most_one p (List.filter f l) ↔ at_most_one (λ x, f x = true ∧ p x) l.
Proof.
  transitivity (at_most_one (λ x, bool_decide (p x) = true) (List.filter f l)).
  { unfold at_most_one. by setoid_rewrite bool_decide_eq_true. }
  transitivity (at_most_one (λ x, f x && bool_decide (p x) = true) l).
  { rewrite <- !filter_at_most_one.
    assert (List.filter (λ x, bool_decide (p x)) (List.filter f l)
      = List.filter (λ x, f x && bool_decide (p x)) l) as ->; [|done].
    induction l as [|x l IH]; simpl; [done|].
    destruct (f x); simpl; [|done]. by rewrite IH. }
  unfold at_most_one. setoid_rewrite andb_true_iff. by setoid_rewrite bool_decide_eq_true.
Qed.

(** ** What the audit reports *)

(** The violations of a snapshot, one constructor per invariant. *)
Inductive violated (s : ReconciliationSnapshot) : InvariantViolation → Prop :=
| Unaccountable w :
    w ∈ rs_work_items s → is_Some (wi_accepted_at w) →
    (∀ a, rs_accountability s !! wi_id w = Some a → ¬ accountable (wi_state w) a) →
    violated s (item_violation InvariantCode.MissingAccountability w (wi_active_attempt_id w)
      "accepted item has no live progress, timer, retry, approval, escalation, or verified closure")
| Unproven w :
    w ∈ rs_work_items s → wi_state w = WorkItemState.Closed →
    ¬ wi_id w ∈ rs_closure_evidence_items s →
    violated s (item_violation InvariantCode.ClosedWithoutEvidence w (wi_active_attempt_id w)
      "closed item has no independently valid target evidence")
| Unordered a :
    a ∈ active_attempts s → ¬ at_id a ∈ rs_work_order_attempts s →
    violated s (attempt_violation InvariantCode.ActiveAttemptMissingWorkOrder a
      "active attempt has no immutable Work Order")
| Unwatched a :
    a ∈ active_attempts s →
    at_state a = AttemptState.Running ∨ at_state a = AttemptState.Verifying →
    ¬ at_id a ∈ rs_authoritative_run_attempts s →
    violated s (attempt_violation InvariantCode.ActiveAttemptMissingRun a
      "running attempt has no authoritative Runmill run")
| Stale a :
    a ∈ active_attempts s → at_id a ∈ rs_stale_worker_attempts s →
    violated s (attempt_violation InvariantCode.StaleWorkerGeneration a
      "attempt is bound to a stale worker generation")
| Doubled id n :
    n = length (values_at at_work_item_id (λ a, a) id (active_attempts s)) →
    ¬ at_most_one (λ a, at_work_item_id a = id) (active_attempts s) →
    violated s (mkInvariantViolation InvariantCode.MultipleActiveAttempts (Some id) None None
      (pretty n +:+ " active attempts found") true)
| Overcommitted id n :
    n = length (values_at fst snd id (rs_live_repository_reservations s)) →
    ¬ at_most_one (λ r, r.1 = id) (rs_live_repository_reservations s) →
    violated s (mkInvariantViolation InvariantCode.RepositoryWipExceeded None None (Some id)
      (pretty n +:+ " live repository reservations found") true)
| Unlinked w id :
    w ∈ rs_work_items s → wi_active_attempt_id w = Some id →
    (∀ a, a ∈ rs_attempts s → at_id a = id → at_work_item_id a ≠ wi_id w) →
    violated s (item_violation InvariantCode.ActiveAttemptNotLinked w (Some id)
      "work item points to a missing or foreign attempt").

Lemma accountability_violations_spec s w v :
  v ∈ accountability_violations s w ↔
  (is_Some (wi_accepted_at w) ∧
   (∀ a, rs_accountability s !! wi_id w = Some a → ¬ accountable (wi_state w) a) ∧
   v = item_violation InvariantCode.MissingAccountability w (wi_active_attempt_id w)
      "accepted item has no live progress, timer, retry, approval, escalation, or verified closure") ∨
  (wi_state w = WorkItemState.Closed ∧ ¬ wi_id w ∈ rs_closure_evidence_items s ∧
   v = item_violation InvariantCode.ClosedWithoutEvidence w (wi_active_attempt_id w)
      "closed item has no independently valid target evidence").
Proof.
  unfold accountability_violations. rewrite elem_of_flagged, !elem_of_cons, elem_of_nil.
  assert (true = is_err (validate_accountability (wi_state w) (wi_accepted_at w)
    (rs_accountability s !! wi_id w)) ↔ is_Some (wi_accepted_at w) ∧
    (∀ a, rs_accountability s !! wi_id w = Some a → ¬ accountable (wi_state w) a)) as Ha.
  { pose proof (validate_accountability_ok (wi_state w) (wi_accepted_at w)
      (rs_accountability s !! wi_id w)) as Hok.
    pose proof (validate_accountability_not_panic (wi_state w) (wi_accepted_at w)
      (rs_accountability s !! wi_id w)).
    destruct (validate_accountability _ _ _) as [[]|e|]; simpl; [| |done].
    - split; [done|]. intros [[t Ht] Hn]. destruct Hok as [[?|(a & ? & ?)] _]; [done|congruence|].
      by destruct (Hn a).
    - split; [|done]. intros _. destruct Hok as [_ Hok]. split.
      + destruct (wi_accepted_at w); [done|]. by discriminate Hok; left.
      + intros a Hl Hacc. by discriminate Hok; right; exists a. }
  assert (true = bool_decide (wi_state w = WorkItemState.Closed)
    && negb (bs_contains (wi_id w) (rs_closure_evidence_items s)) ↔
    wi_state w = WorkItemState.Closed ∧ ¬ wi_id w ∈ rs_closure_evidence_items s) as Hb.
  { rewrite <- bs_contains_true. split.
    - intros H. symmetry in H. reflect. destruct H as [? Hc]. split; [done|]. congruence.
    - intros [Hc Hn]. symmetry. apply not_true_is_false in Hn. rewrite Hn.
      by rewrite bool_decide_eq_true_2. }
  split.
  - intros [[= H ->]|[[= H ->]|[]]]; [left|right]; naive_solver.
  - intros [(H1 & H2 & ->)|(H1 & H2 & ->)]; [left|right; left]; f_equal;
      [by apply Ha|by apply Hb].
Qed.

Lemma not_contains {A} `{Ord A} (x : A) s : negb (bs_contains x s) = true ↔ ¬ x ∈ s.
Proof. rewrite negb_true_iff, <- bs_contains_true. by destruct (bs_contains x s). Qed.

Lemma needs_run_true st :
  needs_run st = true ↔ st = AttemptState.Running ∨ st = AttemptState.Verifying.
Proof. destruct st; naive_solver. Qed.

Lemma attempt_violations_spec s a v :
  v ∈ attempt_violations s a ↔ AttemptState_active (at_state a) = true ∧
  ((¬ at_id a ∈ rs_work_order_attempts s ∧
    v = attempt_violation InvariantCode.ActiveAttemptMissingWorkOrder a
      "active attempt has no immutable Work Order") ∨
   ((at_state a = AttemptState.Running ∨ at_state a = AttemptState.Verifying) ∧
    ¬ at_id a ∈ rs_authoritative_run_attempts s ∧
    v = attempt_violation InvariantCode.ActiveAttemptMissingRun a
      "running attempt has no authoritative Runmill run") ∨
   (at_id a ∈ rs_stale_worker_attempts s ∧
    v = attempt_violation InvariantCode.StaleWorkerGeneration a
      "attempt is bound to a stale worker generation")).
Proof.
  unfold attempt_violations. destruct (AttemptState_active _); [|by rewrite elem_of_nil; naive_solver].
  rewrite elem_of_flagged, !elem_of_cons, elem_of_nil, <- needs_run_true, <- !not_contains,
    <- bs_contains_true.
  destruct (negb (bs_contains (at_id a) (rs_work_order_attempts s))),
    (needs_run (at_state a)), (negb (bs_contains (at_id a) (rs_authoritative_run_attempts s))),
    (bs_contains (at_id a) (rs_stale_worker_attempts s)); naive_solver.
Qed.

Lemma link_violations_spec s w v :
  v ∈ link_violations s w ↔ ∃ id, wi_active_attempt_id w = Some id ∧
  (∀ a, a ∈ rs_attempts s → at_id a = id → at_work_item_id a ≠ wi_id w) ∧
  v = item_violation InvariantCode.ActiveAttemptNotLinked w (Some id)
        "work item points to a missing or foreign attempt".
Proof.
  unfold link_violations. destruct (wi_active_attempt_id w) as [id|];
    [|rewrite elem_of_nil; naive_solver].
  destruct (existsb _ _) eqn:E.
  - apply existsb_true in E as (a & Ha & E). reflect. rewrite elem_of_nil.
    split; [done|]. intros (? & [= <-] & Hn & _). destruct E as [E1 E2]. by destruct (Hn a).
  - rewrite list_elem_of_singleton. apply existsb_false in E. rewrite Forall_forall in E.
    split; [|naive_solver]. intros ->. exists id. split_and!; [done| |done].
    intros a Ha E1 E2. specialize (E a Ha). reflect. naive_solver.
Qed.

(** The two loops over groups. *)
Lemma group_violations {A B} (key : A → N) (value : A → B) (f : N * list B → list InvariantViolation)
    (mk : N → nat → InvariantViolation) l v :
  (∀ k vs, f (k, vs) = if 1 <? Z.of_nat (length vs) then [mk k (length vs)] else []) →
  v ∈ (entries (group_by key value l) ≫= f) ↔
  ∃ k, ¬ at_most_one (λ x, key x = k) l ∧ v = mk k (length (values_at key value k l)).
Proof.
  intros Hf. rewrite list_elem_of_bind. split.
  - intros ([k vs] & Hv & He). apply elem_of_entries in He as [-> _]. rewrite Hf in Hv.
    destruct (1 <? _) eqn:E; [|by apply elem_of_nil in Hv].
    apply list_elem_of_singleton in Hv as ->. apply Z.ltb_lt, values_length in E. eauto.
  - intros (k & Hk & ->). apply (values_length key value) in Hk.
    exists (k, values_at key value k l). rewrite Hf, (proj2 (Z.ltb_lt _ _) Hk).
    split; [by apply list_elem_of_singleton|]. apply elem_of_entries. split; [done|].
    intros E. rewrite E in Hk. simpl in Hk. lia.
Qed.

Lemma elem_of_audit s v : v ∈ audit s ↔ violated s v.
Proof.
  unfold audit. rewrite elem_of_sort_by_key, !elem_of_app.
  rewrite (group_violations at_work_item_id (λ a, a) multiple_attempt_violations (λ id n,
    mkInvariantViolation InvariantCode.MultipleActiveAttempts (Some id) None None
      (pretty n +:+ " active attempts found") true)) by done.
  rewrite (group_violations fst snd wip_violations (λ id n,
    mkInvariantViolation InvariantCode.RepositoryWipExceeded None None (Some id)
      (pretty n +:+ " live repository reservations found") true)) by done.
  rewrite !list_elem_of_bind.
  setoid_rewrite accountability_violations_spec. setoid_rewrite attempt_violations_spec.
  setoid_rewrite link_violations_spec.
  assert (∀ a, a ∈ active_attempts s ↔
    a ∈ rs_attempts s ∧ AttemptState_active (at_state a) = true) as Hact
    by (intros a; unfold active_attempts; by rewrite elem_of_filter_bool).
  split.
  - intros [(w & [(? & ? & ->)|(? & ? & ->)] & ?)|[(a & (Hs & H) & ?)|[(k & ? & ->)|
      [(k & ? & ->)|(w & (id & ? & ? & ->) & ?)]]]].
    + by constructor.
    + by constructor.
    + assert (a ∈ active_attempts s) by (by apply Hact).
      destruct H as [(? & ->)|[(? & ? & ->)|(? & ->)]]; by constructor.
    + by constructor.
    + by constructor.
    + by constructor.
  - intros [w|w|a Ha|a Ha|a Ha|k n ->|k n ->|w id].
    + left. exists w. naive_solver.
    + left. exists w. naive_solver.
    + right; left. exists a. apply Hact in Ha as [? ?]. naive_solver.
    + right; left. exists a. apply Hact in Ha as [? ?]. naive_solver.
    + right; left. exists a. apply Hact in Ha as [? ?]. naive_solver.
    + right; right; left. eauto.
    + right; right; right; left. eauto.
    + right; right; right; right. exists w. naive_solver.
Qed.

(** A snapshot in which every invariant of the system holds. *)
Record consistent (s : ReconciliationSnapshot) : Prop := {
  con_accountable : ∀ w, w ∈ rs_work_items s → is_Some (wi_accepted_at w) →
    ∃ a, rs_accountability s !! wi_id w = Some a ∧ accountable (wi_state w) a;
  con_evidence : ∀ w, w ∈ rs_work_items s → wi_state w = WorkItemState.Closed →
    wi_id w ∈ rs_closure_evidence_items s;
  con_ordered : ∀ a, a ∈ active_attempts s → at_id a ∈ rs_work_order_attempts s;
  con_watched : ∀ a, a ∈ active_attempts s →
    at_state a = AttemptState.Running ∨ at_state a = AttemptState.Verifying →
    at_id a ∈ rs_authoritative_run_attempts s;
  con_fresh : ∀ a, a ∈ active_attempts s → ¬ at_id a ∈ rs_stale_worker_attempts s;
  con_single : ∀ id, at_most_one (λ a, AttemptState_active (at_state a) = true ∧
    at_work_item_id a = id) (rs_attempts s);
  con_wip : ∀ id, at_most_one (λ r, r.1 = id) (rs_live_repository_reservations s);
  con_linked : ∀ w id, w ∈ rs_work_items s → wi_active_attempt_id w = Some id →
    ∃ a, a ∈ rs_attempts s ∧ at_id a = id ∧ at_work_item_id a = wi_id w
}.

#[local] Instance accountable_dec st a : Decision (accountable st a).
Proof. unfold accountable. apply _. Defined.

#[local] Instance bs_elem_dec {A} `{Ord A} (x : A) (s : BTreeSet A) : Decision (x ∈ s).
Proof. unfold elem_of, bs_elem_of. apply _. Defined.

Lemma at_most_one_stable {A} (p : A → Prop) `{∀ x, Decision (p x)} l :
  ¬ ¬ at_most_one p l → at_most_one p l.
Proof.
  assert (at_most_one p l ↔ at_most_one (λ x, bool_decide (p x) = true) l) as ->.
  { unfold at_most_one. by setoid_rewrite bool_decide_eq_true. }
  rewrite <- filter_at_most_one. lia.
Qed.

Lemma not_violated_consistent s : (∀ v, ¬ violated s v) → consistent s.
Proof.
  intros Hn. constructor.
  - intros w Hw Hacc. destruct (rs_accountability s !! wi_id w) as [a|] eqn:E.
    + destruct (decide (accountable (wi_state w) a)); [eauto|]. exfalso.
      eapply Hn, (Unaccountable s w Hw Hacc). naive_solver.
    + exfalso. eapply Hn, (Unaccountable s w Hw Hacc). naive_solver.
  - intros w Hw Hc. apply dec_stable. intros Hi. by eapply Hn, (Unproven s w).
  - intros a Ha. apply dec_stable. intros Hi. by eapply Hn, (Unordered s a).
  - intros a Ha Hr. apply dec_stable. intros Hi. by eapply Hn, (Unwatched s a).
  - intros a Ha Hi. by eapply Hn, (Stale s a).
  - intros id. rewrite <- at_most_one_filter by apply _. apply at_most_one_stable; [apply _|].
    intros Hi. by eapply Hn, (Doubled s id).
  - intros id. apply at_most_one_stable; [apply _|]. intros Hi. by eapply Hn, (Overcommitted s id).
  - intros w id Hw Hid.
    destruct (existsb (λ a, bool_decide (at_id a = id)
      && bool_decide (at_work_item_id a = wi_id w)) (rs_attempts s)) eqn:E.
    + apply existsb_true in E as (a & Ha & E). reflect. naive_solver.
    + exfalso. eapply Hn, (Unlinked s w id Hw Hid). intros a Ha E1 E2.
      apply existsb_false in E. rewrite Forall_forall in E. specialize (E a Ha). reflect.
      naive_solver.
Qed.

Lemma consistent_not_violated s v : consistent s → ¬ violated s v.
Proof.
  intros [] H. destruct H as [w Hw Hacc Hn|w Hw Hc Hn|a Ha Hn|a Ha Hr Hn|a Ha Hs|k n _ Hn|
    k n _ Hn|w id Hw Hid Hn]; eauto.
  - destruct (con_accountable0 w Hw Hacc) as (a & Hl & Ha). by apply (Hn a).
  - by apply (con_fresh0 a).
  - apply Hn, at_most_one_filter; [apply _|]. apply con_single0.
  - destruct (con_linked0 w id Hw Hid) as (a & Ha & E1 & E2). by apply (Hn a).
Qed.

(** The audit is exact: it reports precisely the violations of the
    snapshot (unaccountable accepted work, closure without evidence, active
    attempts without Work Order or run or on a stale worker, several active
    attempts of one item, several reservations of one repository, dangling
    attempt links), sorted by code and identifiers, each requiring quarantine;
    and it is silent exactly when every invariant of the system holds. *)
Lemma reconciliation_exact s :
  (∀ v, v ∈ audit s ↔ violated s v) ∧
  StronglySorted (λ v w, ole (violation_key v) (violation_key w)) (audit s) ∧
  Forall (λ v, iv_quarantine_required v = true) (audit s) ∧
  (audit s = [] ↔ consistent s).
Proof.
  split_and!.
  - apply elem_of_audit.
  - apply sort_by_key_sorted.
  - apply Forall_forall. intros v Hv. apply elem_of_audit in Hv. by destruct Hv.
  - split.
    + intros E. apply not_violated_consistent. intros v Hv. apply elem_of_audit in Hv.
      rewrite E in Hv. by apply elem_of_nil in Hv.
    + intros Hc. destruct (audit s) as [|v l] eqn:E; [done|]. exfalso.
      apply (consistent_not_violated s v Hc). apply elem_of_audit. rewrite E. left.
Qed.

(** ** The workflow reducer keeps the audit quiet *)

(** The lifecycle of an item ends only with its workflow. *)
Definition lifecycle_agrees (w : WorkItem) (s : WorkflowState) : Prop :=
  (wi_state w = WorkItemState.Closed → ws_stage s = WorkflowStage.Closed) ∧
  (wi_state w = WorkItemState.Cancelled → ws_stage s = WorkflowStage.Cancelled).

(** The anchor of an accepted item is the one its workflow left. *)
Definition workflow_anchored `{Chrono, UuidText} (snap : ReconciliationSnapshot)
    (w : WorkItem) : Prop :=
  ∃ r t0 facts s es, run r (WorkflowState_accepted (wi_id w) t0) facts = Ok (s, es) ∧
    digests_visible (facts.*1) ∧ lifecycle_agrees w s ∧
    rs_accountability snap !! wi_id w = Some (ws_accountability s).

Lemma run_accountable `{Chrono, UuidText} r id t0 facts s es w :
  run r (WorkflowState_accepted id t0) facts = Ok (s, es) → digests_visible (facts.*1) →
  lifecycle_agrees w s → accountable (wi_state w) (ws_accountability s).
Proof.
  intros Hr Hd [Hc Hx]. split; [by eapply run_reference_visible|].
  pose proof (wo_kind _ _ _ (run_keeps_ok _ _ _ _ _ _ Hr)) as Hk.
  split; intros E; [rewrite (Hc E) in Hk|rewrite (Hx E) in Hk];
    by apply list_elem_of_singleton in Hk.
Qed.

(** The reducer and the reconciler agree: when the anchor recorded for
    each accepted item is the one a run of the workflow reducer left, under any
    facts in any order, and items are closed or cancelled only with their
    workflow, the audit never reports unaccountable work. *)
Lemma workflow_anchors_pass_audit `{Chrono, UuidText} snap :
  (∀ w, w ∈ rs_work_items snap → is_Some (wi_accepted_at w) → workflow_anchored snap w) →
  ∀ v, v ∈ audit snap → iv_code v ≠ InvariantCode.MissingAccountability.
Proof.
  intros Hall v Hv. apply elem_of_audit in Hv. destruct Hv as [w Hw Hacc Hn| | | | | | | ]; try done.
  destruct (Hall w Hw Hacc) as (r & t0 & facts & s & es & Hr & Hd & Hl & Ha).
  intros _. apply (Hn _ Ha). by eapply run_accountable.
Qed.

Definition reconciled_item : WorkItem :=
  set_wi_accepted_at (set_wi_state (WorkItem_discovered 1%N 2%N 3%N 50 0) WorkItemState.Closed) 0.

Definition reconciled_snapshot : ReconciliationSnapshot :=
  {| rs_work_items := [reconciled_item]; rs_attempts := [];
     rs_work_order_attempts := bs_empty; rs_authoritative_run_attempts := bs_empty;
     rs_accountability :=
       match sample_run with Ok (s, _) => {[ 1%N := ws_accountability s ]} | _ => ∅ end;
     rs_live_repository_reservations := []; rs_stale_worker_attempts := bs_empty;
     rs_closure_evidence_items := bs_empty |}.

Lemma workflow_anchors_pass_audit_witness :
  Forall (λ v, iv_code v ≠ InvariantCode.MissingAccountability) (audit reconciled_snapshot).
Proof.
  apply Forall_forall.
  apply (@workflow_anchors_pass_audit sample_chrono sample_uuids reconciled_snapshot).
  intros w Hw _. apply list_elem_of_singleton in Hw as ->.
  destruct sample_run as [[s es]| |] eqn:E; [|by vm_compute in E..].
  exists WorkflowReducer_default, 0, sample_facts, s, es. split_and!.
  - exact E.
  - intros d Hd. cbn [sample_facts fmap list_fmap fst] in Hd.
    rewrite !elem_of_cons, elem_of_nil in Hd.
    repeat (destruct Hd as [Hd|Hd];
      [first [discriminate Hd|injection Hd as ->; vm_compute; reflexivity]|]).
    destruct Hd.
  - split; [intros _|done]. vm_compute in E. injection E as <- _. reflexivity.
  - unfold reconciled_snapshot. cbn [rs_accountability]. rewrite E. reflexivity.
Defined.
