(* ===== verification/Attention.v ===== *)
(** The operator-attention queue, [src/src/application/attention.rs]: decoding of
    persisted records into complete attention items, and their order. *)

From Stdlib Require Import ZArith Lia Sorting.
From stdpp Require Import base tactics option list strings.
From S2P Require Import Prelude RustStr RustOrd Ids Governance Security.

Module AttentionItemKind.
Inductive AttentionItemKind := Escalation | OperationalIncident.
End AttentionItemKind.
Abbreviation AttentionItemKind := AttentionItemKind.AttentionItemKind.

Module AttentionSeverity.
Inductive AttentionSeverity := Info | Low | Medium | High | Critical.
End AttentionSeverity.
Abbreviation AttentionSeverity := AttentionSeverity.AttentionSeverity.

Module AttentionOwnerKind.
Inductive AttentionOwnerKind := Person | Team | OnCall.
End AttentionOwnerKind.
Abbreviation AttentionOwnerKind := AttentionOwnerKind.AttentionOwnerKind.

Module AttentionObligationKind.
Inductive AttentionObligationKind :=
| OpenEscalation | OpenOperationalIncident | PendingApproval | WorkNeedsSpec
| WorkWaitingDependency | WorkWaitingApproval | WorkBlockedExternal | WorkBudgetExhausted
| WorkQuarantined | WorkEscalated | DeadWorkflowJob.
End AttentionObligationKind.
Abbreviation AttentionObligationKind := AttentionObligationKind.AttentionObligationKind.

Inductive AttentionProjectionError :=
| UnknownSeverity (value : string)
| UnknownItemKind (value : string)
| UnknownObligationKind (value : string)
| MissingCoveringEscalation (kind : AttentionObligationKind) (source_id : Uuid)
    (work_item_id : option WorkItemId)
| InvalidAttentionField (attention_id : Uuid) (field : string).

(** [Result<T, AttentionProjectionError>]. *)
Definition projected (A : Type) : Type := AttentionProjectionError + A.

#[global] Instance projected_bind : MBind projected := λ A B f m,
  match m with inl e => inl e | inr a => f a end.

(** [if cond { return Err(e) }] and [ok_or(e)?]. *)
Definition refuse_if (cond : bool) (e : AttentionProjectionError) : projected unit :=
  if cond then inl e else inr tt.
Definition some_or {A} (o : option A) (e : AttentionProjectionError) : projected A :=
  match o with Some a => inr a | None => inl e end.

(** ** Persisted names *)

Definition AttentionItemKind_from_persisted (value : string) : projected AttentionItemKind :=
  if String.eqb value "ESCALATION" then inr AttentionItemKind.Escalation
  else if String.eqb value "OPERATIONAL_INCIDENT" then inr AttentionItemKind.OperationalIncident
  else inl (UnknownItemKind value).

Definition AttentionSeverity_from_persisted (value : string) : projected AttentionSeverity :=
  if String.eqb value "INFO" then inr AttentionSeverity.Info
  else if String.eqb value "LOW" then inr AttentionSeverity.Low
  else if String.eqb value "MEDIUM" then inr AttentionSeverity.Medium
  else if String.eqb value "HIGH" then inr AttentionSeverity.High
  else if String.eqb value "CRITICAL" then inr AttentionSeverity.Critical
  else inl (UnknownSeverity value).

Definition rank (s : AttentionSeverity) : Z :=
  match s with
  | AttentionSeverity.Info => 1 | AttentionSeverity.Low => 2 | AttentionSeverity.Medium => 3
  | AttentionSeverity.High => 4 | AttentionSeverity.Critical => 5
  end.

Definition as_persisted (s : AttentionSeverity) : string :=
  match s with
  | AttentionSeverity.Info => "INFO" | AttentionSeverity.Low => "LOW"
  | AttentionSeverity.Medium => "MEDIUM" | AttentionSeverity.High => "HIGH"
  | AttentionSeverity.Critical => "CRITICAL"
  end.

Definition AttentionOwnerKind_from_persisted (value : string) : option AttentionOwnerKind :=
  if String.eqb value "PERSON" then Some AttentionOwnerKind.Person
  else if String.eqb value "TEAM" then Some AttentionOwnerKind.Team
  else if String.eqb value "ON_CALL" then Some AttentionOwnerKind.OnCall
  else None.

Definition AttentionObligationKind_from_persisted (value : string)
  : projected AttentionObligationKind :=
  if String.eqb value "OPEN_ESCALATION" then inr AttentionObligationKind.OpenEscalation
  else if String.eqb value "OPEN_OPERATIONAL_INCIDENT" then
    inr AttentionObligationKind.OpenOperationalIncident
  else if String.eqb value "PENDING_APPROVAL" then inr AttentionObligationKind.PendingApproval
  else if String.eqb value "WORK_NEEDS_SPEC" then inr AttentionObligationKind.WorkNeedsSpec
  else if String.eqb value "WORK_WAITING_DEPENDENCY" then
    inr AttentionObligationKind.WorkWaitingDependency
  else if String.eqb value "WORK_WAITING_APPROVAL" then
    inr AttentionObligationKind.WorkWaitingApproval
  else if String.eqb value "WORK_BLOCKED_EXTERNAL" then
    inr AttentionObligationKind.WorkBlockedExternal
  else if String.eqb value "WORK_BUDGET_EXHAUSTED" then
    inr AttentionObligationKind.WorkBudgetExhausted
  else if String.eqb value "WORK_QUARANTINED" then inr AttentionObligationKind.WorkQuarantined
  else if String.eqb value "WORK_ESCALATED" then inr AttentionObligationKind.WorkEscalated
  else if String.eqb value "DEAD_WORKFLOW_JOB" then inr AttentionObligationKind.DeadWorkflowJob
  else inl (UnknownObligationKind value).

(** ** Items *)

Record AttentionOwner := mkAttentionOwner {
  ao_kind : AttentionOwnerKind;
  ao_id : string
}.

Record UncoveredAttentionObligation := mkUncovered {
  uo_kind : AttentionObligationKind;
  uo_source_id : Uuid;
  uo_work_item_id : option WorkItemId
}.

Definition into_error (o : UncoveredAttentionObligation) : AttentionProjectionError :=
  MissingCoveringEscalation (uo_kind o) (uo_source_id o) (uo_work_item_id o).

Record PersistedAttentionItem := mkPersistedAttentionItem {
  pi_kind : AttentionItemKind;
  pi_id : Uuid;
  pi_work_item_id : option WorkItemId;
  pi_workflow_job_id : option Uuid;
  pi_category : EscalationCategory;
  pi_severity : string;
  pi_owner_kind : string;
  pi_owner_id : string;
  pi_required_action : string;
  pi_evidence_references : Value;
  pi_deadline : DateTime;
  pi_opened_at : DateTime;
  pi_retry_policy : Value;
  pi_authority_or_effect_active : bool
}.

Record AttentionItem := mkAttentionItem {
  ai_kind : AttentionItemKind;
  ai_id : Uuid;
  ai_work_item_id : option WorkItemId;
  ai_workflow_job_id : option Uuid;
  ai_category : EscalationCategory;
  ai_severity : AttentionSeverity;
  ai_owner : AttentionOwner;
  ai_required_action : string;
  ai_evidence_references : list string;
  ai_deadline : DateTime;
  ai_retry_policy : RetryPolicy;
  ai_authority_or_effect_active : bool
}.

Definition compare_attention_items (left right : AttentionItem) : comparison :=
  then_with (then_with
    (cmp (rank (ai_severity right)) (rank (ai_severity left)))
    (cmp (ai_deadline left) (ai_deadline right)))
    (cmp (ai_id left) (ai_id right)).

(** [serde_json::from_value] at the two types the projection decodes; the
    error is discarded by the source. *)
Class AttentionJson := {
  references_from_value : Value → option (list string);
  retry_policy_from_value : Value → option RetryPolicy
}.

(** The [match (kind, work_item_id, workflow_job_id)]. *)
Definition associated (p : PersistedAttentionItem) : bool :=
  match pi_kind p, pi_work_item_id p, pi_workflow_job_id p with
  | AttentionItemKind.Escalation, Some _, None
  | AttentionItemKind.OperationalIncident, None, Some _ => true
  | _, _, _ => false
  end.

Definition AttentionItem_try_from `{AttentionJson} (value : PersistedAttentionItem)
  : projected AttentionItem :=
  let invalid := InvalidAttentionField (pi_id value) in
  refuse_if (negb (associated value)) (invalid "kind/association") ;;
  severity ← AttentionSeverity_from_persisted (pi_severity value);
  owner_kind ← some_or (AttentionOwnerKind_from_persisted (pi_owner_kind value))
    (invalid "owner_type");
  refuse_if (blank (pi_owner_id value)) (invalid "owner_id") ;;
  refuse_if (blank (pi_required_action value)) (invalid "required_action") ;;
  refuse_if (pi_deadline value <=? pi_opened_at value) (invalid "deadline") ;;
  evidence_references ← some_or (references_from_value (pi_evidence_references value))
    (invalid "evidence_references");
  refuse_if (match evidence_references with [] => true | _ => false end
             || existsb blank evidence_references) (invalid "evidence_references") ;;
  retry_policy ← some_or (retry_policy_from_value (pi_retry_policy value))
    (invalid "retry_policy");
  refuse_if (existsb blank (rp_prerequisites retry_policy)) (invalid "retry_policy") ;;
  inr {| ai_kind := pi_kind value;
         ai_id := pi_id value;
         ai_work_item_id := pi_work_item_id value;
         ai_workflow_job_id := pi_workflow_job_id value;
         ai_category := pi_category value;
         ai_severity := severity;
         ai_owner := mkAttentionOwner owner_kind (pi_owner_id value);
         ai_required_action := pi_required_action value;
         ai_evidence_references := evidence_references;
         ai_deadline := pi_deadline value;
         ai_retry_policy := retry_policy;
         ai_authority_or_effect_active := pi_authority_or_effect_active value |}.

(** ** Order *)

(** Severities are compared by rank and named injectively. *)
Lemma rank_inj : Inj (=) (=) rank.
Proof. intros [] []; done. Qed.

Lemma severity_round_trip s : AttentionSeverity_from_persisted (as_persisted s) = inr s.
Proof. by destruct s. Qed.

Lemma severity_from_persisted_ok v s :
  AttentionSeverity_from_persisted v = inr s ↔ v = as_persisted s.
Proof.
  split; [|intros ->; apply severity_round_trip].
  unfold AttentionSeverity_from_persisted.
  repeat match goal with |- context [String.eqb v ?w] =>
    destruct (String.eqb_spec v w) as [->|]; [by intros [= <-]|] end.
  done.
Qed.

Lemma severity_from_persisted_err v e :
  AttentionSeverity_from_persisted v = inl e → e = UnknownSeverity v.
Proof.
  unfold AttentionSeverity_from_persisted.
  repeat (destruct (String.eqb _ _); [done|]). by intros [= <-].
Qed.

(** The queue order is that of the key: most severe first, then the earliest
    deadline, then the identity. *)
Definition attention_key (i : AttentionItem) : Z * Z * N :=
  (- rank (ai_severity i), ai_deadline i, ai_id i).

Lemma compare_attention_items_key l r :
  compare_attention_items l r = cmp (attention_key l) (attention_key r).
Proof.
  unfold compare_attention_items, attention_key. cbn -[rank].
  rewrite Z.compare_opp. by destruct (rank (ai_severity r) ?= rank (ai_severity l)).
Qed.

(** With distinct identities the queue is the same for every order of loading. *)
Lemma attention_queue_unique l k :
  NoDup (ai_id <$> l) → Permutation l k →
  sort_by compare_attention_items l = sort_by compare_attention_items k.
Proof.
  intros Hn Hp.
  assert (∀ q, sort_by compare_attention_items q = sort_by_key attention_key q) as E.
  { intros q. apply sort_by_ext, compare_attention_items_key. }
  rewrite !E. apply sort_by_key_permutation_invariant; [|done].
  intros x y Hx Hy [= _ _ Ei]. apply list_elem_of_lookup in Hx as [i Hi].
  apply list_elem_of_lookup in Hy as [j Hj].
  assert (i = j) as ->; [|congruence].
  eapply (NoDup_lookup (ai_id <$> l)); [done| |].
  - by rewrite list_lookup_fmap, Hi.
  - rewrite list_lookup_fmap, Hj. simpl. by rewrite Ei.
Qed.

(** ** Projection *)

Section projection.
  Context {json : AttentionJson}.

(** A record that can be shown to an operator as it is. *)
Record presentable (p : PersistedAttentionItem) (i : AttentionItem) : Prop := {
  pre_association : match pi_kind p with
    | AttentionItemKind.Escalation => is_Some (pi_work_item_id p) ∧ pi_workflow_job_id p = None
    | AttentionItemKind.OperationalIncident =>
        pi_work_item_id p = None ∧ is_Some (pi_workflow_job_id p)
    end;
  pre_severity : pi_severity p = as_persisted (ai_severity i);
  pre_owner : AttentionOwnerKind_from_persisted (pi_owner_kind p) = Some (ao_kind (ai_owner i)) ∧
    ao_id (ai_owner i) = pi_owner_id p ∧ blank (pi_owner_id p) = false;
  pre_action : ai_required_action i = pi_required_action p ∧ blank (pi_required_action p) = false;
  pre_deadline : ai_deadline i = pi_deadline p ∧ pi_opened_at p < pi_deadline p;
  pre_evidence : references_from_value (pi_evidence_references p)
      = Some (ai_evidence_references i) ∧
    ai_evidence_references i ≠ [] ∧ Forall (λ r, blank r = false) (ai_evidence_references i);
  pre_retry : retry_policy_from_value (pi_retry_policy p) = Some (ai_retry_policy i) ∧
    Forall (λ r, blank r = false) (rp_prerequisites (ai_retry_policy i));
  pre_copied : (ai_kind i, ai_id i, ai_work_item_id i, ai_workflow_job_id i, ai_category i,
                ai_authority_or_effect_active i)
    = (pi_kind p, pi_id p, pi_work_item_id p, pi_workflow_job_id p, pi_category p,
       pi_authority_or_effect_active p)
}.

Lemma refuse_if_bind {A} b e (f : unit → projected A) a :
  refuse_if b e ≫= f = inr a ↔ b = false ∧ f tt = inr a.
Proof. destruct b; simpl; naive_solver. Qed.

Lemma some_or_bind {A B} (o : option A) e (f : A → projected B) b :
  some_or o e ≫= f = inr b ↔ ∃ a, o = Some a ∧ f a = inr b.
Proof. destruct o; simpl; naive_solver. Qed.

Lemma projected_bind_inr {A B} (m : projected A) (f : A → projected B) b :
  m ≫= f = inr b ↔ ∃ a, m = inr a ∧ f a = inr b.
Proof. destruct m; simpl; naive_solver. Qed.

Lemma associated_true p :
  associated p = true ↔ match pi_kind p with
    | AttentionItemKind.Escalation => is_Some (pi_work_item_id p) ∧ pi_workflow_job_id p = None
    | AttentionItemKind.OperationalIncident =>
        pi_work_item_id p = None ∧ is_Some (pi_workflow_job_id p)
    end.
Proof.
  unfold associated, is_Some.
  destruct (pi_kind p), (pi_work_item_id p), (pi_workflow_job_id p); naive_solver.
Qed.

Lemma try_from_ok p i : AttentionItem_try_from p = inr i ↔ presentable p i.
Proof.
  unfold AttentionItem_try_from. rewrite refuse_if_bind, projected_bind_inr, negb_false_iff.
  split.
  - intros (Ha & sev & Hs & H). apply some_or_bind in H as (ok & Ho & H).
    apply refuse_if_bind in H as [Hi H]. apply refuse_if_bind in H as [Hr H].
    apply refuse_if_bind in H as [Hd H]. apply some_or_bind in H as (refs & He & H).
    apply refuse_if_bind in H as [Hne H]. apply some_or_bind in H as (rp & Hp & H).
    apply refuse_if_bind in H as [Hq [= <-]]. apply orb_false_iff in Hne as [Hne Hb].
    apply severity_from_persisted_ok in Hs. apply associated_true in Ha.
    apply existsb_false in Hb, Hq. apply Z.leb_gt in Hd.
    constructor; simpl; try done. split_and!; [done| |done]. by destruct refs.
  - intros [Ha Hs (Ho & Hoi & Hi) [Hr1 Hr] [Hd1 Hd] (He & Hne & Hb) [Hp Hq] Hc].
    apply associated_true in Ha. split; [done|]. exists (ai_severity i).
    split; [by apply severity_from_persisted_ok|]. apply existsb_false in Hb, Hq.
    apply Z.leb_gt in Hd. rewrite Ho, Hi, Hr, Hd, He, Hp. simpl. rewrite Hb, Hq.
    destruct i as [? ? ? ? ? ? [] ? ? ? ? ?]. simpl in *. simplify_eq.
    by destruct ai_evidence_references0.
Qed.

(** Projection of a persisted attention record is exact and lossless: it
    succeeds, with one item, exactly when the record belongs to a work item or
    to a workflow job as its kind says, has a known severity and owner kind, a
    visible owner and action, a deadline after its opening, and at least one
    visible evidence reference and visible retry prerequisites; the item
    carries the record's own values, and a refusal names either the unknown
    severity or the record and its field. *)
Lemma attention_projection_exact p :
  (∀ i, AttentionItem_try_from p = inr i ↔ presentable p i) ∧
  (∀ e, AttentionItem_try_from p = inl e →
     e = UnknownSeverity (pi_severity p) ∨
     ∃ field, e = InvalidAttentionField (pi_id p) field ∧
       field ∈ ["kind/association"; "owner_type"; "owner_id"; "required_action"; "deadline";
                "evidence_references"; "retry_policy"]).
Proof.
  split; [apply try_from_ok|]. intros e. unfold AttentionItem_try_from.
  destruct (negb _); simpl; [intros [= <-]; right; eexists; split; [done|left]|].
  destruct (AttentionSeverity_from_persisted _) as [e'|] eqn:Es; simpl.
  { intros [= <-]. left. by apply severity_from_persisted_err. }
  repeat (match goal with |- context [some_or ?o _] => destruct o; simpl
                        | |- context [refuse_if ?b _] => destruct b; simpl end;
    try (intros [= <-]; right; eexists; split; [done|rewrite !elem_of_cons; by auto 9])).
  done.
Qed.
End projection.

(** ** A concrete record *)

Definition text_of (v : Value) : option string :=
  match v with VString s => Some s | _ => None end.

Definition sample_attention_json : AttentionJson :=
  {| references_from_value v := match v with Array l => mapM text_of l | _ => None end;
     retry_policy_from_value v :=
       match v with Object [] => Some (mkRetryPolicy false 0 60 ["worker restored"]) | _ => None end |}.

Definition sample_record : PersistedAttentionItem :=
  {| pi_kind := AttentionItemKind.Escalation; pi_id := 9%N; pi_work_item_id := Some 4%N;
     pi_workflow_job_id := None; pi_category := EscalationCategory.WorkerUnavailable;
     pi_severity := "HIGH"; pi_owner_kind := "ON_CALL"; pi_owner_id := "platform";
     pi_required_action := "restore the worker";
     pi_evidence_references := Array [VString "run:1"; VString "run:2"];
     pi_deadline := 20; pi_opened_at := 10; pi_retry_policy := Object [];
     pi_authority_or_effect_active := true |}.

Lemma attention_projection_exact_witness :
  ∃ i, @presentable sample_attention_json sample_record i ∧
       ai_evidence_references i = ["run:1"; "run:2"].
Proof.
  eexists. split; [|cycle 1].
  - apply (proj1 (@attention_projection_exact sample_attention_json sample_record)).
    vm_compute. reflexivity.
  - reflexivity.
Defined.
