(* ===== verification/Evidence.v ===== *)
(** Signed run evidence, [src/src/contracts/evidence.rs]: the bundle a worker
    signs at the end of a run, its shape, the check that it stayed inside the
    Work Order it embeds, and its verification against what ASF expects. *)

From Stdlib Require Import ZArith Lia.
From stdpp Require Import base tactics option list strings sets.
From S2P Require Import Prelude RustStr RustOrd Ids Authority Identity WorkItem Crypto Governance Security WorkOrder.

Definition EVIDENCE_SCHEMA_V1 : string := "runmill.evidence/v1".
Definition EVIDENCE_ENVELOPE_SCHEMA_V1 : string := "runmill.evidence-envelope/v1".
Definition EVIDENCE_SIGNATURE_DOMAIN : string := "runmill.evidence-envelope/v1".

(** ** Data *)

Module CheckConclusion.
Inductive CheckConclusion := Passed | Failed | Skipped.
End CheckConclusion.
Abbreviation CheckConclusion := CheckConclusion.CheckConclusion.

#[global] Instance CheckConclusion_eq_dec : EqDecision CheckConclusion.
Proof. solve_decision. Defined.

Record CheckEvidence := mkCheckEvidence {
  ce_check_id : string;
  ce_candidate_sha : string;
  ce_conclusion : CheckConclusion;
  ce_artifact_digest : option string
}.

Record ReviewEvidence := mkReviewEvidence {
  rv_reviewer_profile : string;
  rv_reviewer_principal : string;
  rv_candidate_sha : string;
  rv_independent : bool;
  rv_approved : bool;
  rv_report_digest : string
}.

Record PullRequestEvidence := mkPullRequestEvidence {
  pre_repository : string;
  pre_number : Z;
  pre_url : string;
  pre_base_sha : string;
  pre_head_sha : string;
  pre_required_ci_contexts : BTreeSet string;
  pre_successful_ci_contexts : BTreeSet string
}.

#[global] Instance PullRequestEvidence_eq_dec : EqDecision PullRequestEvidence.
Proof. solve_decision. Defined.

Record UsageEvidence := mkUsageEvidence {
  ue_cost_microunits : Z;
  ue_input_tokens : Z;
  ue_output_tokens : Z;
  ue_implementer_invocations : Z;
  ue_reviewer_invocations : Z;
  ue_fix_iterations : Z;
  ue_wall_time_seconds : Z
}.

Record RoleIdentityEvidence := mkRoleIdentityEvidence {
  ri_role : IdentityRole;
  ri_provider : string;
  ri_profile_ref : CtxlaneProfileRef;
  ri_principal_ref : string;
  ri_lease_id : string;
  ri_model : string;
  ri_isolation : string
}.

Record RuntimeDigestEvidence := mkRuntimeDigestEvidence {
  rd_harness : string;
  rd_tool_policy : string;
  rd_sandbox : string;
  rd_dependencies : string;
  rd_runtime : string
}.

Module RoleOutcomeConclusion.
Inductive RoleOutcomeConclusion := Completed | Refused | Failed.
End RoleOutcomeConclusion.
Abbreviation RoleOutcomeConclusion := RoleOutcomeConclusion.RoleOutcomeConclusion.

#[global] Instance RoleOutcomeConclusion_eq_dec : EqDecision RoleOutcomeConclusion.
Proof. solve_decision. Defined.

Record RoleOutcomeEvidence := mkRoleOutcomeEvidence {
  ro_role : IdentityRole;
  ro_candidate_sha : option string;
  ro_conclusion : RoleOutcomeConclusion;
  ro_summary_digest : string
}.

Record FindingEvidence := mkFindingEvidence {
  fe_stable_code : string;
  fe_severity : string;
  fe_candidate_sha : string;
  fe_disposition : string;
  fe_report_digest : string
}.

Module SideEffectStatus.
Inductive SideEffectStatus := Confirmed | Reconciled | Ambiguous | Failed.
End SideEffectStatus.
Abbreviation SideEffectStatus := SideEffectStatus.SideEffectStatus.

Record SideEffectEvidence := mkSideEffectEvidence {
  se_effect_type : string;
  se_idempotency_key : string;
  se_intent_digest : string;
  se_status : SideEffectStatus;
  se_observation_digest : option string;
  se_candidate_sha : option string
}.

Record ApprovalEvidenceRecord := mkApprovalEvidenceRecord {
  ap_approval_type : string;
  ap_decision : string;
  ap_binding_digest : string;
  ap_candidate_sha : option string;
  ap_approver_subject : string
}.

Record ArtifactManifestEntry := mkArtifactManifestEntry {
  ame_digest : string;
  ame_media_type : string;
  ame_size : Z;
  ame_retention_class : string;
  ame_location : string
}.

(** [policy_input_digests] is a [BTreeMap]: its entries in the order of the keys. *)
Record EvidenceBundleV1 := mkEvidenceBundleV1 {
  eb_schema : string;
  eb_evidence_id : EvidenceId;
  eb_work_item_id : WorkItemId;
  eb_attempt_id : AttemptId;
  eb_run_id : RunId;
  eb_worker_id : WorkerId;
  eb_worker_generation : Z;
  eb_work_order_digest : string;
  eb_work_order : SignedWorkOrder;
  eb_work_order_signature_verified_by_worker : bool;
  eb_source_snapshot_digest : string;
  eb_policy_input_digests : list (string * string);
  eb_repository : string;
  eb_base_ref : string;
  eb_base_sha : string;
  eb_candidate_sha : string;
  eb_remote_head_sha : string;
  eb_merge_sha : option string;
  eb_changed_paths : BTreeSet string;
  eb_diff_digest : string;
  eb_identity_attribution : list RoleIdentityEvidence;
  eb_runtime_digests : RuntimeDigestEvidence;
  eb_role_outcomes : list RoleOutcomeEvidence;
  eb_findings : list FindingEvidence;
  eb_requested_target : ClosureTarget;
  eb_target_satisfied : bool;
  eb_checks : list CheckEvidence;
  eb_review : ReviewEvidence;
  eb_pull_request : option PullRequestEvidence;
  eb_side_effects : list SideEffectEvidence;
  eb_approvals : list ApprovalEvidenceRecord;
  eb_cancellation : option string;
  eb_artifacts : list ArtifactManifestEntry;
  eb_usage : UsageEvidence;
  eb_stop_reason : string;
  eb_produced_at : DateTime
}.

Record SignedEvidenceBundle := mkSignedEvidenceBundle {
  sb_envelope_schema : string;
  sb_algorithm : string;
  sb_key_id : string;
  sb_payload_digest : string;
  sb_payload : EvidenceBundleV1;
  sb_signature : string
}.

(** [ProtectedEvidence]: what the signature covers. *)
Record ProtectedEvidence := mkProtectedEvidence {
  pv_schema : string;
  pv_algorithm : string;
  pv_key_id : string;
  pv_payload_digest : string;
  pv_payload : EvidenceBundleV1
}.

Record EvidenceExpectation `{Ed25519} := mkEvidenceExpectation {
  ex_asf_work_order_key : VerifyingKey;
  ex_asf_work_order_key_id : string;
  ex_worker_key_id : string;
  ex_work_item_id : WorkItemId;
  ex_attempt_id : AttemptId;
  ex_run_id : RunId;
  ex_worker_id : WorkerId;
  ex_work_order_digest : string;
  ex_repository : string;
  ex_base_sha : string;
  ex_candidate_sha : string;
  ex_target : ClosureTarget;
  ex_required_local_checks : BTreeSet string;
  ex_required_ci_contexts : BTreeSet string;
  ex_current_worker_generation : Z;
  ex_independently_observed_pull_request : option PullRequestEvidence
}.

(** ** Shape *)

(** The digests the loop of [validate_payload_shape] visits, in its order. *)
Definition provenance_digests (e : EvidenceBundleV1) : list string :=
  (snd <$> eb_policy_input_digests e)
  ++ [ rd_harness (eb_runtime_digests e); rd_tool_policy (eb_runtime_digests e);
       rd_sandbox (eb_runtime_digests e); rd_dependencies (eb_runtime_digests e);
       rd_runtime (eb_runtime_digests e); rv_report_digest (eb_review e) ]
  ++ (ame_digest <$> eb_artifacts e)
  ++ (ro_summary_digest <$> eb_role_outcomes e)
  ++ (fe_report_digest <$> eb_findings e)
  ++ omap ce_artifact_digest (eb_checks e)
  ++ (eb_side_effects e ≫= λ effect,
        se_intent_digest effect :: option_list (se_observation_digest effect))
  ++ (ap_binding_digest <$> eb_approvals e).

Definition unsafe_changed_path (path : string) : bool :=
  str_is_empty path || starts_with "/" path || contains ".." path
  || contains_char (Ascii.ascii_of_nat 0) path.

Definition all_roles : BTreeSet IdentityRole :=
  bs_of_list [IdentityRole.Implementer; IdentityRole.LocalReviewer; IdentityRole.PrReviewer].

Definition incomplete_identity (i : RoleIdentityEvidence) : bool :=
  negb (bool_decide (ri_provider i
          = CtxlaneProvider_to_string (CtxlaneProfileRef_provider (ri_profile_ref i))))
  || blank (ri_principal_ref i) || blank (ri_lease_id i) || blank (ri_model i)
  || negb (bool_decide (ri_isolation i = "credential-isolated")).

Definition validate_payload_shape (e : EvidenceBundleV1) : res unit :=
  bail_if (negb (bool_decide (eb_schema e = EVIDENCE_SCHEMA_V1))
           || (eb_worker_generation e =? 0)
           || blank (eb_repository e) || blank (eb_base_ref e) || blank (eb_stop_reason e)
           || negb (is_git_sha (eb_base_sha e))
           || negb (is_git_sha (eb_candidate_sha e))
           || negb (is_sha256_digest (eb_work_order_digest e))
           || negb (is_sha256_digest (eb_source_snapshot_digest e))
           || negb (is_sha256_digest (eb_diff_digest e)))
    (Validation [Lit "evidence is missing required versioned provenance fields"]) ;;
  try_for (provenance_digests e) (λ digest,
    bail_if (negb (is_sha256_digest digest))
      (Validation [Lit "evidence provenance digests must use lowercase sha256"])) ;;
  bail_if (existsb unsafe_changed_path (elems (eb_changed_paths e)))
    (Validation [Lit "evidence contains an unsafe changed path"]) ;;
  let roles := bs_of_list (ri_role <$> eb_identity_attribution e) in
  bail_if (negb (Nat.eqb (length (eb_identity_attribution e)) 3)
           || negb (bool_decide (roles = all_roles)))
    (Validation [Lit "evidence must attribute all three identity roles"]) ;;
  try_for (eb_identity_attribution e) (λ identity,
    bail_if (incomplete_identity identity)
      (Validation [Lit "identity attribution is incomplete, mismatched, or not credential-isolated"])) ;;
  let implementer :=
    ri_principal_ref <$>
      find (λ i, bool_decide (ri_role i = IdentityRole.Implementer)) (eb_identity_attribution e) in
  bail_if (is_none implementer
           || existsb (λ i, negb (bool_decide (ri_role i = IdentityRole.Implementer))
                            && bool_decide (Some (ri_principal_ref i) = implementer))
                (eb_identity_attribution e))
    (Validation [Lit "evidence does not prove reviewer principal independence"]) ;;
  let outcome_roles := bs_of_list (ro_role <$> eb_role_outcomes e) in
  bail_if (negb (Nat.eqb (length (eb_role_outcomes e)) 3)
           || negb (bool_decide (outcome_roles = roles))
           || existsb (λ o, negb (bool_decide (ro_conclusion o = RoleOutcomeConclusion.Completed))
                            || negb (bool_decide (ro_candidate_sha o = Some (eb_candidate_sha e))))
                (eb_role_outcomes e))
    (Validation [Lit "successful evidence requires exact-candidate outcomes for all three roles"]) ;;
  bail_if (existsb (λ f, negb (bool_decide (fe_candidate_sha f = eb_candidate_sha e)))
             (eb_findings e))
    (Validation [Lit "evidence findings are not bound to the exact candidate"]).

Definition identity_for (e : EvidenceBundleV1) (role : IdentityRole) : res RoleIdentityEvidence :=
  ok_or (find (λ i, bool_decide (ri_role i = role)) (eb_identity_attribution e))
    (Validation [Lit "evidence is missing "; Disp (IdentityRole_to_string role);
                 Lit " attribution"]).

(** ** The signed authority *)

Definition effect_permitted (e : EvidenceBundleV1) (effect : SideEffectEvidence) : bool :=
  let effects := xa_effects (wo_authority (sw_payload (eb_work_order e))) in
  let kind t := bool_decide (se_effect_type effect = t) in
  if kind "pull_request.create" || kind "pull_request.update" then
    negb (bool_decide (ea_delivery effects = DeliveryPermission.None_))
    && bool_decide (se_candidate_sha effect = Some (eb_candidate_sha e))
  else if kind "comment.create" || kind "comment.update" then ea_may_comment effects
  else if kind "check.create" || kind "check.update" then ea_may_update_checks effects
  else false.

(** [matches!(status, Confirmed | Reconciled)]. *)
Definition settled (s : SideEffectStatus) : bool :=
  match s with
  | SideEffectStatus.Confirmed | SideEffectStatus.Reconciled => true
  | _ => false
  end.

(** [matches!(status, Ambiguous | Failed)]. *)
Definition unresolved (s : SideEffectStatus) : bool :=
  match s with
  | SideEffectStatus.Ambiguous | SideEffectStatus.Failed => true
  | _ => false
  end.

(** The budget comparison: [external_effects] is the number of effects,
    [u32::MAX] when it is not a [u32]. *)
Definition over_budget (usage : UsageEvidence) (effects : list SideEffectEvidence)
    (budget : BudgetLimits) : bool :=
  let external_effects := default u32_max (try_from u32_max (Z.of_nat (length effects))) in
  (max_cost_microunits budget <? ue_cost_microunits usage)
  || (max_input_tokens budget <? ue_input_tokens usage)
  || (max_output_tokens budget <? ue_output_tokens usage)
  || (max_implementer_invocations budget <? ue_implementer_invocations usage)
  || (max_reviewer_invocations budget <? ue_reviewer_invocations usage)
  || (max_fix_iterations budget <? ue_fix_iterations usage)
  || (max_wall_time_seconds budget <? ue_wall_time_seconds usage)
  || (max_external_api_calls budget <? external_effects).

Definition validate_frozen_authority (e : EvidenceBundleV1) : res unit :=
  let order := sw_payload (eb_work_order e) in
  try_for [IdentityRole.Implementer; IdentityRole.LocalReviewer; IdentityRole.PrReviewer]
    (λ role, identity ← identity_for e role;
       bail_if (negb (bool_decide (ri_profile_ref identity = profile_for (wo_identities order) role)))
         (Validation [Disp (IdentityRole_to_string role);
                      Lit " evidence used a profile outside the signed Work Order"])) ;;
  outside ← try_any (λ path, negb <$> PathAuthority_allows_path (xa_paths (wo_authority order)) path)
    (elems (eb_changed_paths e));
  bail_if outside
    (Validation [Lit "evidence contains a changed path outside signed authority"]) ;;
  bail_if (negb (bool_decide (rd_harness (eb_runtime_digests e) = cd_harness (wo_digests order)))
           || negb (mem (cd_policy (wo_digests order)) (snd <$> eb_policy_input_digests e))
           || negb (mem (cd_repository_policy (wo_digests order))
                      (snd <$> eb_policy_input_digests e)))
    (Validation [Lit "evidence runtime and policy inputs do not match the signed Work Order"]) ;;
  bail_if (over_budget (eb_usage e) (eb_side_effects e) (xa_budgets (wo_authority order)))
    (Validation [Lit "evidence usage exceeds the signed Work Order budget"]) ;;
  try_for (eb_side_effects e) (λ effect,
    bail_if (negb (effect_permitted e effect)
             || blank (se_idempotency_key effect)
             || settled (se_status effect) && is_none (se_observation_digest effect))
      (Validation [Lit "evidence contains an unrecognized, unbound, or unauthorized side effect"])).

(** ** The envelope *)

(** [envelope.signature = signature]. *)
Definition set_sb_signature (b : SignedEvidenceBundle) (signature : string)
  : SignedEvidenceBundle :=
  let 'mkSignedEvidenceBundle sc al ke di pa _ := b in
  mkSignedEvidenceBundle sc al ke di pa signature.

Section bundle.
  Context {url : UrlCrate} {hashing : Hashing} {ed : Ed25519}.
  Context {order_jcs : Canonical WorkOrderV1} {envelope_jcs : Canonical ProtectedEnvelope}.
  Context {bundle_jcs : Canonical EvidenceBundleV1} {protected_jcs : Canonical ProtectedEvidence}.
  Context {bundle_value : ToValue EvidenceBundleV1}.

Definition evidence_protected_bytes (b : SignedEvidenceBundle) : res (list Z) :=
  canonical_json
    {| pv_schema := sb_envelope_schema b; pv_algorithm := sb_algorithm b;
       pv_key_id := sb_key_id b; pv_payload_digest := sb_payload_digest b;
       pv_payload := sb_payload b |}.

Definition SignedEvidenceBundle_sign (payload : EvidenceBundleV1) (signer : Ed25519Signer)
  : res SignedEvidenceBundle :=
  validate_payload_shape payload ;;
  bytes ← canonical_json payload;
  let envelope :=
    {| sb_envelope_schema := EVIDENCE_ENVELOPE_SCHEMA_V1; sb_algorithm := "EdDSA";
       sb_key_id := signer_key_id signer; sb_payload_digest := sha256_digest bytes;
       sb_payload := payload; sb_signature := "" |} in
  protected ← evidence_protected_bytes envelope;
  Ok (set_sb_signature envelope (sign_domain signer EVIDENCE_SIGNATURE_DOMAIN protected)).

(** Lines of [verify] up to the shape of the payload: the envelope itself. *)
Definition verify_envelope (b : SignedEvidenceBundle) (key : VerifyingKey) : res unit :=
  bail_if (negb (bool_decide (sb_envelope_schema b = EVIDENCE_ENVELOPE_SCHEMA_V1))
           || negb (bool_decide (sb_algorithm b = "EdDSA"))
           || negb (bool_decide (eb_schema (sb_payload b) = EVIDENCE_SCHEMA_V1)))
    (Crypto [Lit "unsupported evidence envelope"]) ;;
  bytes ← canonical_json (sb_payload b);
  bail_if (negb (bool_decide (sha256_digest bytes = sb_payload_digest b)))
    (Crypto [Lit "evidence payload digest mismatch"]) ;;
  protected ← evidence_protected_bytes b;
  verify_domain_signature key EVIDENCE_SIGNATURE_DOMAIN protected (sb_signature b).

(** The comparison with the expected run. *)
Definition verify_binding (e : EvidenceBundleV1) (x : EvidenceExpectation) : res unit :=
  bail_if (negb (bool_decide (eb_work_item_id e = ex_work_item_id x))
           || negb (bool_decide (eb_attempt_id e = ex_attempt_id x))
           || negb (bool_decide (eb_run_id e = ex_run_id x))
           || negb (bool_decide (eb_worker_id e = ex_worker_id x))
           || negb (bool_decide (eb_work_order_digest e = ex_work_order_digest x))
           || negb (bool_decide (eb_repository e = ex_repository x))
           || negb (bool_decide (eb_base_sha e = ex_base_sha x))
           || negb (bool_decide (eb_candidate_sha e = ex_candidate_sha x))
           || negb (bool_decide (eb_requested_target e = ex_target x)))
    (Validation [Lit "evidence is not bound to the expected Work Order target"]).

(** The embedded Work Order. *)
Definition verify_embedded_order (e : EvidenceBundleV1) (x : EvidenceExpectation) : res unit :=
  let order := sw_payload (eb_work_order e) in
  verify_integrity (eb_work_order e) (ex_asf_work_order_key x) ;;
  bail_if (negb (bool_decide (sw_key_id (eb_work_order e) = ex_asf_work_order_key_id x))
           || negb (bool_decide (sw_payload_digest (eb_work_order e) = eb_work_order_digest e))
           || negb (bool_decide (wo_work_item_id order = eb_work_item_id e))
           || negb (bool_decide (wo_attempt_id order = eb_attempt_id e))
           || negb (bool_decide (wo_source_snapshot_digest order = eb_source_snapshot_digest e))
           || negb (bool_decide (rt_base_sha (wo_repository order) = eb_base_sha e))
           || negb (bool_decide (rt_base_ref (wo_repository order) = eb_base_ref e))
           || negb (bool_decide (wo_closure_target order = eb_requested_target e))
           || negb (eb_work_order_signature_verified_by_worker e))
    (Validation [Lit "evidence does not faithfully embed the authorized Work Order"]).

Definition passed_checks (e : EvidenceBundleV1) : BTreeSet string :=
  bs_of_list (ce_check_id <$>
    List.filter (λ c, bool_decide (ce_conclusion c = CheckConclusion.Passed)
                      && bool_decide (ce_candidate_sha c = eb_candidate_sha e)) (eb_checks e)).

(** The candidate: satisfied, its effects, checks and review. *)
Definition verify_candidate (e : EvidenceBundleV1) (x : EvidenceExpectation) : res unit :=
  bail_if (negb (eb_target_satisfied e)
           || negb (is_git_sha (eb_candidate_sha e))
           || negb (bool_decide (eb_remote_head_sha e = eb_candidate_sha e)))
    (Validation [Lit "evidence does not assert a concrete satisfied candidate"]) ;;
  bail_if (existsb (λ effect, unresolved (se_status effect)) (eb_side_effects e))
    (Validation [Lit "evidence contains an unresolved blocking external effect"]) ;;
  bail_if (negb (forallb (λ required, bs_contains required (passed_checks e))
                   (elems (ex_required_local_checks x))))
    (Validation [Lit "not every required local check passed on the exact candidate"]) ;;
  bail_if (negb (rv_independent (eb_review e))
           || negb (rv_approved (eb_review e))
           || negb (bool_decide (rv_candidate_sha (eb_review e) = eb_candidate_sha e)))
    (Validation [Lit "independent review did not approve the exact candidate"]) ;;
  pr_reviewer ← identity_for e IdentityRole.PrReviewer;
  bail_if (negb (bool_decide (rv_reviewer_profile (eb_review e)
                              = profile_str (ri_profile_ref pr_reviewer)))
           || negb (bool_decide (rv_reviewer_principal (eb_review e)
                                 = ri_principal_ref pr_reviewer)))
    (Validation [Lit "independent review is not bound to the authorized PR reviewer identity"]).

(** The pull request, when that is the target. *)
Definition verify_pull_request (e : EvidenceBundleV1) (x : EvidenceExpectation) : res unit :=
  if bool_decide (ex_target x = ClosureTarget.PullRequest) then
    pull_request ← ok_or (eb_pull_request e)
      (Validation [Lit "pull-request target requires pull-request evidence"]);
    bail_if (negb (bool_decide (pre_head_sha pull_request = eb_candidate_sha e))
             || negb (bool_decide (pre_base_sha pull_request = eb_base_sha e))
             || negb (bs_is_subset (ex_required_ci_contexts x)
                        (pre_successful_ci_contexts pull_request)))
      (Validation [Lit "pull request does not prove the exact candidate and required CI"]) ;;
    bail_if (negb (bool_decide (ex_independently_observed_pull_request x = Some pull_request)))
      (Validation [Lit "worker pull-request evidence does not match ASF's independent forge observation"])
  else Ok tt.

Definition SignedEvidenceBundle_verify (b : SignedEvidenceBundle) (key : VerifyingKey)
    (x : EvidenceExpectation) : res unit :=
  verify_envelope b key ;;
  bail_if (negb (bool_decide (sb_key_id b = ex_worker_key_id x)))
    (Validation [Lit "evidence signing key is not the authoritative worker key"]) ;;
  validate_payload_shape (sb_payload b) ;;
  value ← map_err (to_value (sb_payload b)) (λ error, Serialization [Disp error]);
  reject_sensitive_fields value ;;
  let evidence := sb_payload b in
  verify_binding evidence x ;;
  verify_embedded_order evidence x ;;
  bail_if (negb (eb_worker_generation evidence =? ex_current_worker_generation x))
    (Validation [Lit "stale worker generation"]) ;;
  validate_frozen_authority evidence ;;
  verify_candidate evidence x ;;
  verify_pull_request evidence x.
End bundle.

(** ** What verified evidence proves *)

(** Exactly one entry of [l] plays [role]. *)
Definition sole {A} (role_of : A → IdentityRole) (l : list A) (role : IdentityRole) : Prop :=
  ∃ x, List.filter (λ y, bool_decide (role_of y = role)) l = [x].

(** The shape of an acceptable payload. *)
Record shape_sound (e : EvidenceBundleV1) : Prop := {
  sh_schema : eb_schema e = EVIDENCE_SCHEMA_V1 ∧ eb_worker_generation e ≠ 0;
  sh_text : blank (eb_repository e) = false ∧ blank (eb_base_ref e) = false ∧
    blank (eb_stop_reason e) = false;
  sh_commits : is_git_sha (eb_base_sha e) = true ∧ is_git_sha (eb_candidate_sha e) = true;
  sh_digests d : d ∈ eb_work_order_digest e :: eb_source_snapshot_digest e
    :: eb_diff_digest e :: provenance_digests e → is_sha256_digest d = true;
  sh_paths p : p ∈ eb_changed_paths e → unsafe_changed_path p = false;
  sh_roles role : sole ri_role (eb_identity_attribution e) role;
  sh_identities i : i ∈ eb_identity_attribution e → incomplete_identity i = false;
  sh_independent i r : i ∈ eb_identity_attribution e → r ∈ eb_identity_attribution e →
    ri_role i = IdentityRole.Implementer → ri_role r ≠ IdentityRole.Implementer →
    ri_principal_ref r ≠ ri_principal_ref i;
  sh_outcomes role : sole ro_role (eb_role_outcomes e) role;
  sh_completed o : o ∈ eb_role_outcomes e →
    ro_conclusion o = RoleOutcomeConclusion.Completed ∧
    ro_candidate_sha o = Some (eb_candidate_sha e);
  sh_findings f : f ∈ eb_findings e → fe_candidate_sha f = eb_candidate_sha e
}.

(** An effect the signed order covers. *)
Record effect_sound (e : EvidenceBundleV1) (effect : SideEffectEvidence) : Prop := {
  es_permitted : effect_permitted e effect = true;
  es_key : blank (se_idempotency_key effect) = false;
  es_observed : settled (se_status effect) = true → is_Some (se_observation_digest effect)
}.

(** Consumption within a budget. *)
Record within_budget (u : UsageEvidence) (effects : list SideEffectEvidence)
    (b : BudgetLimits) : Prop := {
  wb_cost : ue_cost_microunits u ≤ max_cost_microunits b;
  wb_input : ue_input_tokens u ≤ max_input_tokens b;
  wb_output : ue_output_tokens u ≤ max_output_tokens b;
  wb_implementer : ue_implementer_invocations u ≤ max_implementer_invocations b;
  wb_reviewer : ue_reviewer_invocations u ≤ max_reviewer_invocations b;
  wb_fixes : ue_fix_iterations u ≤ max_fix_iterations b;
  wb_time : ue_wall_time_seconds u ≤ max_wall_time_seconds b;
  wb_effects : Z.min u32_max (Z.of_nat (length effects)) ≤ max_external_api_calls b
}.

(** A run inside the authority of the order it embeds. *)
Record frozen (e : EvidenceBundleV1) : Prop := {
  fr_profiles i : i ∈ eb_identity_attribution e →
    ri_profile_ref i = profile_for (wo_identities (sw_payload (eb_work_order e))) (ri_role i);
  fr_paths p : p ∈ eb_changed_paths e →
    permits (xa_paths (wo_authority (sw_payload (eb_work_order e)))) p;
  fr_harness : rd_harness (eb_runtime_digests e)
    = cd_harness (wo_digests (sw_payload (eb_work_order e)));
  fr_policy : cd_policy (wo_digests (sw_payload (eb_work_order e)))
    ∈ (eb_policy_input_digests e).*2;
  fr_repository_policy : cd_repository_policy (wo_digests (sw_payload (eb_work_order e)))
    ∈ (eb_policy_input_digests e).*2;
  fr_budget : within_budget (eb_usage e) (eb_side_effects e)
    (xa_budgets (wo_authority (sw_payload (eb_work_order e))));
  fr_effects s : s ∈ eb_side_effects e → effect_sound e s
}.

Section roles.
  Context {A : Type} (role_of : A → IdentityRole).
  Implicit Types l : list A.

Local Definition role_count l role : nat :=
  length (List.filter (λ y, bool_decide (role_of y = role)) l).

Lemma role_counts l :
  length l = (role_count l IdentityRole.Implementer + role_count l IdentityRole.LocalReviewer
              + role_count l IdentityRole.PrReviewer)%nat.
Proof.
  unfold role_count. induction l as [|x l IH]; simpl; [done|].
  destruct (role_of x); simpl; lia.
Qed.

Lemma sole_count l role : sole role_of l role ↔ role_count l role = 1%nat.
Proof.
  unfold sole, role_count. split; [by intros [x ->]|].
  destruct (List.filter _ l) as [|x [|]]; [done|eauto|done].
Qed.

Lemma role_count_pos l role :
  role ∈ bs_of_list (role_of <$> l) ↔ (0 < role_count l role)%nat.
Proof.
  rewrite elem_of_bs_of_list, list_elem_of_fmap. unfold role_count.
  destruct (List.filter _ l) as [|x k] eqn:E; simpl.
  - split; [|lia]. intros (x & -> & Hx).
    assert (x ∈ List.filter (λ y, bool_decide (role_of y = role_of x)) l) as Hf
      by (apply elem_of_filter_bool; by rewrite bool_decide_true).
    rewrite E in Hf. by apply elem_of_nil in Hf.
  - split; [lia|]. intros _. exists x.
    assert (x ∈ List.filter (λ y, bool_decide (role_of y = role)) l) as Hf
      by (rewrite E; left).
    apply elem_of_filter_bool in Hf as [? ?%bool_decide_eq_true]. done.
Qed.

Lemma elem_of_all_roles role : role ∈ all_roles.
Proof.
  unfold all_roles. rewrite elem_of_bs_of_list, !elem_of_cons. destruct role; auto.
Qed.

(** Three entries that together play all roles play each role once. *)
Lemma three_roles l :
  length l = 3%nat ∧ bs_of_list (role_of <$> l) = all_roles ↔ ∀ role, sole role_of l role.
Proof.
  setoid_rewrite sole_count. split.
  - intros [Hlen Hset]. rewrite role_counts in Hlen.
    assert (∀ role, (0 < role_count l role)%nat) as Hpos
      by (intros role; rewrite <- role_count_pos, Hset; apply elem_of_all_roles).
    pose proof (Hpos IdentityRole.Implementer). pose proof (Hpos IdentityRole.LocalReviewer).
    pose proof (Hpos IdentityRole.PrReviewer). intros []; lia.
  - intros Hone. split; [by rewrite role_counts, !Hone|]. apply bs_ext. intros role.
    rewrite role_count_pos, Hone. split; [|lia]. intros _. apply elem_of_all_roles.
Qed.

Lemma sole_find l role :
  sole role_of l role →
  ∃ x, find (λ y, bool_decide (role_of y = role)) l = Some x ∧ role_of x = role ∧ x ∈ l ∧
       ∀ y, y ∈ l → role_of y = role → y = x.
Proof.
  intros [x E]. exists x. rewrite find_head_filter, E.
  assert (∀ y, y ∈ l ∧ role_of y = role ↔ y = x) as Hx.
  { intros y. rewrite <- (list_elem_of_singleton y x), <- E, elem_of_filter_bool, bool_decide_eq_true.
    done. }
  destruct (proj2 (Hx x) eq_refl). naive_solver.
Qed.
End roles.

Lemma over_budget_false u l b : over_budget u l b = false ↔ within_budget u l b.
Proof.
  unfold over_budget, try_from.
  assert (default u32_max (if (0 <=? Z.of_nat (length l)) && (Z.of_nat (length l) <=? u32_max)
    then Some (Z.of_nat (length l)) else None) = Z.min u32_max (Z.of_nat (length l))) as ->.
  { destruct ((0 <=? _) && _) eqn:E; reflect; simpl; lia. }
  rewrite !orb_false_iff, !Z.ltb_ge. split; [intros; destruct_and!; by constructor|].
  intros []. done.
Qed.

Lemma independence_ok e :
  (∀ role, sole ri_role (eb_identity_attribution e) role) →
  (let implementer := ri_principal_ref <$>
     find (λ i, bool_decide (ri_role i = IdentityRole.Implementer)) (eb_identity_attribution e) in
   is_none implementer
   || existsb (λ i, negb (bool_decide (ri_role i = IdentityRole.Implementer))
                    && bool_decide (Some (ri_principal_ref i) = implementer))
        (eb_identity_attribution e) = false) ↔
  ∀ i r, i ∈ eb_identity_attribution e → r ∈ eb_identity_attribution e →
    ri_role i = IdentityRole.Implementer → ri_role r ≠ IdentityRole.Implementer →
    ri_principal_ref r ≠ ri_principal_ref i.
Proof.
  intros Hs. destruct (sole_find _ _ _ (Hs IdentityRole.Implementer)) as (x & -> & Hx & Hin & Hu).
  simpl. rewrite existsb_false, Forall_forall.
  setoid_rewrite andb_false_iff. setoid_rewrite negb_false_iff.
  setoid_rewrite bool_decide_eq_true. setoid_rewrite bool_decide_eq_false.
  split.
  - intros H i r Hi Hr Ei Er. rewrite (Hu i Hi Ei). destruct (H r Hr) as [|Hn]; [done|].
    intros E. apply Hn. by rewrite E.
  - intros H r Hr. destruct (decide (ri_role r = IdentityRole.Implementer)); [by left|right].
    intros [= E]. by destruct (H x r Hin Hr Hx).
Qed.

Lemma validate_payload_shape_ok e : validate_payload_shape e = Ok tt ↔ shape_sound e.
Proof.
  unfold validate_payload_shape. rewrite !bind_unit_ok, !try_for_ok, !bail_if_ok.
  rewrite (orb_false_iff (negb (Nat.eqb (length (eb_identity_attribution e)) 3))).
  rewrite (orb_false_iff (_ || _) (existsb _ (eb_role_outcomes e))).
  rewrite (orb_false_iff (negb (Nat.eqb (length (eb_role_outcomes e)) 3))).
  rewrite !existsb_false, !Forall_forall, !negb_false_iff, !Nat.eqb_eq, !bool_decide_eq_true.
  split.
  - intros (H1 & Hd & Hp & Hr & Hi & Hn & (Ho & Hc) & Hf).
    pose proof (proj1 (three_roles _ _) Hr) as Hs. rewrite (proj2 Hr) in Ho.
    pose proof (proj1 (three_roles ro_role _) Ho) as Ho2.
    pose proof (proj1 (independence_ok e Hs) Hn) as Hn2. clear Hn. reflect. destruct_and!. constructor; try done.
    + intros d. rewrite !elem_of_cons. intros [->|[->|[->|Hd']]]; try done.
      specialize (Hd d Hd'). by reflect.
    + intros i Hin. specialize (Hi i Hin). by reflect.
    + intros o Ho'. specialize (Hc o Ho'). by reflect.
    + intros f Hf'. specialize (Hf f Hf'). by reflect.
  - intros [[? ?] (? & ? & ?) [? ?] Hd Hp Hr Hi Hn Ho Hc Hf].
    pose proof (proj2 (three_roles _ _) Hr) as [Hl Hset].
    split_and!; try done.
    + reflect. repeat match goal with |- _ ∧ _ => split end; try done; apply Hd;
        rewrite !elem_of_cons; auto.
    + intros d Hin. reflect. apply Hd. by do 3 right.
    + intros i Hin. reflect. auto.
    + by apply independence_ok.
    + by apply (proj2 (three_roles ro_role _) Ho).
    + rewrite Hset. by apply (proj2 (three_roles ro_role _) Ho).
    + intros o Hin. reflect. auto.
    + intros f Hin. reflect. auto.
Qed.

Lemma identity_for_sole e role :
  sole ri_role (eb_identity_attribution e) role →
  ∃ x, identity_for e role = Ok x ∧ ri_role x = role ∧ x ∈ eb_identity_attribution e ∧
       ∀ y, y ∈ eb_identity_attribution e → ri_role y = role → y = x.
Proof.
  intros Hs. destruct (sole_find _ _ _ Hs) as (x & E & Hx). exists x.
  unfold identity_for. by rewrite E.
Qed.

Lemma profiles_ok e :
  (∀ role, sole ri_role (eb_identity_attribution e) role) →
  try_for [IdentityRole.Implementer; IdentityRole.LocalReviewer; IdentityRole.PrReviewer]
    (λ role, identity ← identity_for e role;
       bail_if (negb (bool_decide (ri_profile_ref identity
                  = profile_for (wo_identities (sw_payload (eb_work_order e))) role)))
         (Validation [Disp (IdentityRole_to_string role);
                      Lit " evidence used a profile outside the signed Work Order"])) = Ok tt ↔
  ∀ i, i ∈ eb_identity_attribution e →
    ri_profile_ref i = profile_for (wo_identities (sw_payload (eb_work_order e))) (ri_role i).
Proof.
  intros Hs. rewrite try_for_ok, Forall_forall.
  assert (∀ role, role ∈ [IdentityRole.Implementer; IdentityRole.LocalReviewer;
    IdentityRole.PrReviewer]) as Hall
    by (intros role; rewrite !elem_of_cons; destruct role; auto).
  split; intros H.
  - intros i Hi. specialize (H (ri_role i) (Hall _)).
    destruct (identity_for_sole e _ (Hs (ri_role i))) as (x & E & _ & _ & Hu).
    rewrite E in H. simpl in H. rewrite (Hu i Hi eq_refl) in *. by reflect.
  - intros role _. destruct (identity_for_sole e _ (Hs role)) as (x & -> & <- & Hin & _).
    simpl. reflect. auto.
Qed.

Lemma paths_ok (a : PathAuthority) (l : list string) (e : Error) :
  (outside ← try_any (λ path, negb <$> PathAuthority_allows_path a path) l;
   bail_if outside e) = Ok tt ↔ Forall (permits a) l.
Proof.
  rewrite bind_ok. setoid_rewrite bail_if_ok.
  transitivity (try_any (λ path, negb <$> PathAuthority_allows_path a path) l = Ok false);
    [naive_solver|]. rewrite try_any_false. apply Forall_proper; [|done]. intros p.
  destruct (allows_path_spec a p) as (b & -> & <-). simpl. destruct b; naive_solver.
Qed.

Lemma validate_frozen_authority_ok e :
  (∀ role, sole ri_role (eb_identity_attribution e) role) →
  validate_frozen_authority e = Ok tt ↔ frozen e.
Proof.
  intros Hs. unfold validate_frozen_authority. rewrite bind_unit_ok, (profiles_ok e Hs).
  match goal with |- context [mbind ?f (try_any ?g ?l)] =>
    assert (mbind f (try_any g l) = Ok tt ↔
      Forall (permits (xa_paths (wo_authority (sw_payload (eb_work_order e))))) l ∧
      f false = Ok tt) as -> end.
  { rewrite <- paths_ok with (e := Validation [Lit "evidence contains a changed path outside signed authority"]).
    destruct (try_any _ _) as [[]| |]; simpl; naive_solver. }
  rewrite !bind_unit_ok, try_for_ok, !bail_if_ok, over_budget_false, !Forall_forall.
  rewrite !orb_false_iff, !negb_false_iff, !mem_true, bool_decide_eq_true.
  split.
  - intros (H1 & H2 & _ & H3 & H4 & H5). destruct_and!. constructor; try done.
    intros s Hin. specialize (H5 s Hin). reflect. destruct H5 as [[? ?] Ho].
    constructor; try done. intros Hst. destruct Ho as [|Ho]; [congruence|done].
  - intros []. split_and!; try done. intros s Hin. destruct (fr_effects0 s Hin) as [? ? Ho].
    reflect. split; [done|]. destruct (settled (se_status s)); [right; by apply Ho|by left].
Qed.

Lemma validate_payload_shape_not_panic e : validate_payload_shape e ≠ Panic.
Proof. unfold validate_payload_shape. no_panic; intros; apply try_for_not_panic; no_panic. Qed.

Lemma identity_for_not_panic e role : identity_for e role ≠ Panic.
Proof. unfold identity_for. by destruct (find _ _). Qed.

#[export] Hint Resolve validate_payload_shape_not_panic identity_for_not_panic : no_panic.

Lemma validate_frozen_authority_not_panic e : validate_frozen_authority e ≠ Panic.
Proof.
  unfold validate_frozen_authority. no_panic.
  - apply try_for_not_panic. no_panic.
  - apply try_any_not_panic. intros p.
    destruct (allows_path_spec (xa_paths (wo_authority (sw_payload (eb_work_order e)))) p)
      as (b & -> & _). done.
  - intros. apply try_for_not_panic. no_panic.
Qed.

Section verification.
  Context {url : UrlCrate} {hashing : Hashing} {ed : Ed25519}.
  Context {order_jcs : Canonical WorkOrderV1} {envelope_jcs : Canonical ProtectedEnvelope}.
  Context {bundle_jcs : Canonical EvidenceBundleV1} {protected_jcs : Canonical ProtectedEvidence}.
  Context {bundle_value : ToValue EvidenceBundleV1}.

(** An authentic envelope: it names its payload's digest and is signed. *)
Record authentic (b : SignedEvidenceBundle) (key : VerifyingKey) : Prop := {
  au_schema : sb_envelope_schema b = EVIDENCE_ENVELOPE_SCHEMA_V1 ∧ sb_algorithm b = "EdDSA" ∧
    eb_schema (sb_payload b) = EVIDENCE_SCHEMA_V1;
  au_digest : digest_canonical (sb_payload b) = Ok (sb_payload_digest b);
  au_signature : ∃ bytes, evidence_protected_bytes b = Ok bytes ∧
    verify_domain_signature key EVIDENCE_SIGNATURE_DOMAIN bytes (sb_signature b) = Ok tt
}.

(** Evidence that answers exactly the expectation [x]. *)
Record evidence_sound (e : EvidenceBundleV1) (x : EvidenceExpectation) : Prop := {
  ev_shape : shape_sound e;
  ev_screened : ∃ v, to_value e = inr v ∧ ∀ error, ¬ leak "$" v error;
  ev_run : eb_work_item_id e = ex_work_item_id x ∧ eb_attempt_id e = ex_attempt_id x ∧
    eb_run_id e = ex_run_id x ∧ eb_worker_id e = ex_worker_id x ∧
    eb_worker_generation e = ex_current_worker_generation x;
  ev_code : eb_repository e = ex_repository x ∧ eb_base_sha e = ex_base_sha x ∧
    eb_candidate_sha e = ex_candidate_sha x ∧ eb_remote_head_sha e = ex_candidate_sha x;
  ev_target : eb_requested_target e = ex_target x ∧ eb_target_satisfied e = true;
  ev_order : envelope_sound (eb_work_order e) (ex_asf_work_order_key x) ∧
    sw_key_id (eb_work_order e) = ex_asf_work_order_key_id x ∧
    sw_payload_digest (eb_work_order e) = ex_work_order_digest x ∧
    eb_work_order_digest e = ex_work_order_digest x ∧
    eb_work_order_signature_verified_by_worker e = true;
  ev_embedded : let order := sw_payload (eb_work_order e) in
    wo_work_item_id order = ex_work_item_id x ∧ wo_attempt_id order = ex_attempt_id x ∧
    wo_source_snapshot_digest order = eb_source_snapshot_digest e ∧
    rt_base_sha (wo_repository order) = ex_base_sha x ∧
    rt_base_ref (wo_repository order) = eb_base_ref e ∧ wo_closure_target order = ex_target x;
  ev_frozen : frozen e;
  ev_effects s : s ∈ eb_side_effects e → unresolved (se_status s) = false;
  ev_checks c : c ∈ ex_required_local_checks x → ∃ check, check ∈ eb_checks e ∧
    ce_check_id check = c ∧ ce_conclusion check = CheckConclusion.Passed ∧
    ce_candidate_sha check = ex_candidate_sha x;
  ev_review : rv_independent (eb_review e) = true ∧ rv_approved (eb_review e) = true ∧
    rv_candidate_sha (eb_review e) = ex_candidate_sha x;
  ev_reviewer i : i ∈ eb_identity_attribution e → ri_role i = IdentityRole.PrReviewer →
    rv_reviewer_profile (eb_review e) = profile_str (ri_profile_ref i) ∧
    rv_reviewer_principal (eb_review e) = ri_principal_ref i;
  ev_pull_request : ex_target x = ClosureTarget.PullRequest → ∃ pr,
    eb_pull_request e = Some pr ∧ ex_independently_observed_pull_request x = Some pr ∧
    pre_head_sha pr = ex_candidate_sha x ∧ pre_base_sha pr = ex_base_sha x ∧
    ∀ c, c ∈ ex_required_ci_contexts x → c ∈ pre_successful_ci_contexts pr
}.

Lemma verify_envelope_ok b key : verify_envelope b key = Ok tt ↔ authentic b key.
Proof.
  unfold verify_envelope. rewrite bind_unit_ok, bind_ok. split.
  - intros (Hs & p & Hp & Hi). rewrite bind_unit_ok, bind_ok in Hi. destruct Hi as [Hd Hsig].
    reflect. constructor; [tauto| |done].
    unfold digest_canonical. rewrite Hp. simpl. by rewrite Hd.
  - intros [Hs Hd Hsig]. unfold digest_canonical in Hd. apply bind_ok in Hd as (p & Hp & [= Hd]).
    split; [reflect; tauto|]. exists p. rewrite bind_unit_ok, bind_ok. by reflect.
Qed.

Lemma elem_of_passed_checks e c :
  c ∈ passed_checks e ↔ ∃ check, check ∈ eb_checks e ∧ ce_check_id check = c ∧
    ce_conclusion check = CheckConclusion.Passed ∧ ce_candidate_sha check = eb_candidate_sha e.
Proof.
  unfold passed_checks. rewrite elem_of_bs_of_list, list_elem_of_fmap.
  setoid_rewrite elem_of_filter_bool. setoid_rewrite andb_true_iff.
  setoid_rewrite bool_decide_eq_true. naive_solver.
Qed.

Lemma verify_candidate_ok e x :
  (∀ role, sole ri_role (eb_identity_attribution e) role) →
  verify_candidate e x = Ok tt ↔
  (eb_target_satisfied e = true ∧ is_git_sha (eb_candidate_sha e) = true ∧
   eb_remote_head_sha e = eb_candidate_sha e) ∧
  (∀ s, s ∈ eb_side_effects e → unresolved (se_status s) = false) ∧
  (∀ c, c ∈ ex_required_local_checks x → c ∈ passed_checks e) ∧
  (rv_independent (eb_review e) = true ∧ rv_approved (eb_review e) = true ∧
   rv_candidate_sha (eb_review e) = eb_candidate_sha e) ∧
  (∀ i, i ∈ eb_identity_attribution e → ri_role i = IdentityRole.PrReviewer →
    rv_reviewer_profile (eb_review e) = profile_str (ri_profile_ref i) ∧
    rv_reviewer_principal (eb_review e) = ri_principal_ref i).
Proof.
  intros Hs. unfold verify_candidate.
  destruct (identity_for_sole e _ (Hs IdentityRole.PrReviewer)) as (r & -> & Hr & Hin & Hu).
  simpl. rewrite !bind_unit_ok, !bail_if_ok, existsb_false, Forall_forall.
  change (forallb (λ required, bs_contains required (passed_checks e))
    (elems (ex_required_local_checks x)))
    with (bs_is_subset (ex_required_local_checks x) (passed_checks e)).
  rewrite !orb_false_iff, !negb_false_iff, bs_is_subset_true, !bool_decide_eq_true.
  split; [intros H|intros (H1 & H2 & H3 & H4 & H5); specialize (H5 r Hin Hr)];
    destruct_and!; split_and!; try done.
  intros i Hi Ei. by rewrite (Hu i Hi Ei).
Qed.

Lemma verify_pull_request_ok e x :
  verify_pull_request e x = Ok tt ↔
  (ex_target x = ClosureTarget.PullRequest → ∃ pr,
    eb_pull_request e = Some pr ∧ ex_independently_observed_pull_request x = Some pr ∧
    pre_head_sha pr = eb_candidate_sha e ∧ pre_base_sha pr = eb_base_sha e ∧
    ∀ c, c ∈ ex_required_ci_contexts x → c ∈ pre_successful_ci_contexts pr).
Proof.
  unfold verify_pull_request. case_bool_decide as E; [|naive_solver].
  destruct (eb_pull_request e) as [pr|]; simpl; [|naive_solver].
  rewrite bind_unit_ok, !bail_if_ok, !orb_false_iff, !negb_false_iff, bs_is_subset_true,
    !bool_decide_eq_true. naive_solver.
Qed.

Lemma bundle_verify_ok b key x :
  SignedEvidenceBundle_verify b key x = Ok tt ↔
  authentic b key ∧ sb_key_id b = ex_worker_key_id x ∧ evidence_sound (sb_payload b) x.
Proof.
  unfold SignedEvidenceBundle_verify, verify_binding, verify_embedded_order.
  rewrite !bind_unit_ok, verify_envelope_ok, validate_payload_shape_ok, bind_ok.
  split.
  - intros (Ha & Hk & Hsh & v & Hv & Hrest). rewrite !bind_unit_ok in Hrest.
    destruct Hrest as (Hr & Hb & (Hi & Hem) & Hg & Hf & Hc & Hp).
    pose proof (sh_roles _ Hsh) as Hs.
    apply (validate_frozen_authority_ok _ Hs) in Hf.
    apply (proj1 (verify_candidate_ok _ _ Hs)) in Hc as (Ht & He & Hck & Hrv & Hwho).
    pose proof (proj1 (verify_pull_request_ok _ _) Hp) as Hpr. clear Hp.
    apply verify_integrity_ok in Hi. unfold map_err in Hv.
    destruct (to_value (sb_payload b)) as [|v'] eqn:Ev; [done|]. injection Hv as ->.
    pose proof (proj1 (reject_sensitive_ok v) Hr) as Hl. reflect. destruct_and!.
    split_and!; [done..|]. constructor; try done; try (split_and!; congruence).
    + by exists v.
    + intros c Hin. apply Hck, elem_of_passed_checks in Hin. naive_solver congruence.
    + intros Et. destruct (Hpr Et) as (pr & ? & ? & ? & ? & ?). exists pr.
      split_and!; congruence || done.
  - intros (Ha & Hk & []). destruct ev_screened0 as (v & Ev & Hl).
    pose proof (sh_roles _ ev_shape0) as Hs. split_and!; [done|by reflect|done|].
    exists v. unfold map_err. rewrite Ev. split; [done|]. rewrite !bind_unit_ok.
    rewrite (validate_frozen_authority_ok _ Hs), (verify_candidate_ok _ _ Hs),
      verify_pull_request_ok, verify_integrity_ok, reject_sensitive_ok.
    pose proof (sh_commits _ ev_shape0) as [_ Hsha]. simpl in ev_embedded0. destruct_and!.
    setoid_rewrite elem_of_passed_checks. reflect.
    split_and!; try done; try congruence.
    + intros c Hin. destruct (ev_checks0 c Hin) as (k & ? & ? & ? & ?). exists k.
      split_and!; congruence || done.
    + intros Et. destruct (ev_pull_request0 Et) as (pr & ? & ? & ? & ? & ?). exists pr.
      split_and!; congruence || done.
Qed.

Lemma bundle_sign_ok p signer b :
  SignedEvidenceBundle_sign p signer = Ok b →
  sb_payload b = p ∧ sb_key_id b = signer_key_id signer ∧ shape_sound p ∧
  authentic b (verifying_key_of (signer_key signer)).
Proof.
  unfold SignedEvidenceBundle_sign. rewrite bind_unit_ok, validate_payload_shape_ok.
  intros (Hs & Hb). apply bind_ok in Hb as (m & Hm & Hb).
  apply bind_ok in Hb as (q & Hq & [= <-]). split_and!; [done..|].
  constructor; simpl; [by destruct (sh_schema _ Hs)| |].
  - unfold digest_canonical. by rewrite Hm.
  - exists q. split; [done|]. apply sign_verifies.
Qed.
End verification.

(** ** Theorems *)

(** C4. Evidence is accepted exactly when it should be: a bundle verifies iff
    its envelope is authentic under the worker's key and its payload is complete
    and free of credentials, describes exactly the expected run, candidate and
    target, embeds the expected Work Order with ASF's own signature, stayed
    inside that order, left no effect unresolved, passed every required check
    and the review by the authorized reviewer on the exact candidate, and, for a
    pull request, agrees with what ASF observed itself; and a bundle that a
    worker signed is authentic, so that only the expectation is left to meet. *)
Theorem evidence_verification_exact `{UrlCrate, Hashing, Ed25519, Canonical WorkOrderV1,
    Canonical ProtectedEnvelope, Canonical EvidenceBundleV1, Canonical ProtectedEvidence,
    ToValue EvidenceBundleV1} :
  (∀ b key x, SignedEvidenceBundle_verify b key x = Ok tt ↔
     authentic b key ∧ sb_key_id b = ex_worker_key_id x ∧ evidence_sound (sb_payload b) x) ∧
  (∀ p signer b x, SignedEvidenceBundle_sign p signer = Ok b →
     sb_payload b = p ∧
     (SignedEvidenceBundle_verify b (verifying_key_of (signer_key signer)) x = Ok tt ↔
      signer_key_id signer = ex_worker_key_id x ∧ evidence_sound p x)).
Proof.
  split; [apply bundle_verify_ok|]. intros p signer b x Hs.
  apply bundle_sign_ok in Hs as (Hp & Hk & _ & Ha). rewrite bundle_verify_ok, Hp, Hk. tauto.
Qed.

(** Verified evidence stays inside the authority of the order ASF signed:
    the order is valid; every changed path is one the order permits; each role
    was played once, by the profile the order names, and the review was given by
    a principal and a profile other than the implementer's; every effect is of a
    kind the order allows, is settled and was observed, and their number and the
    consumption are within the budget; and there is a pull request from the
    order's base to the candidate that ASF saw itself, with the required CI
    contexts successful. *)
Lemma verified_evidence_within_authority `{UrlCrate, Hashing, Ed25519,
    Canonical WorkOrderV1, Canonical ProtectedEnvelope, Canonical EvidenceBundleV1,
    Canonical ProtectedEvidence, ToValue EvidenceBundleV1} b key x :
  SignedEvidenceBundle_verify b key x = Ok tt →
  let e := sb_payload b in
  let order := sw_payload (eb_work_order e) in
  order_valid order ∧
  (∀ path, path ∈ eb_changed_paths e → permits (xa_paths (wo_authority order)) path) ∧
  (∀ role, ∃ i, identity_for e role = Ok i ∧ ri_profile_ref i = profile_for (wo_identities order) role) ∧
  (∃ i, identity_for e IdentityRole.Implementer = Ok i ∧
     rv_reviewer_principal (eb_review e) ≠ ri_principal_ref i ∧
     rv_reviewer_profile (eb_review e) ≠ profile_str (ri_profile_ref i)) ∧
  (∀ effect, effect ∈ eb_side_effects e →
     effect_permitted e effect = true ∧ settled (se_status effect) = true ∧
     is_Some (se_observation_digest effect)) ∧
  within_budget (eb_usage e) (eb_side_effects e) (xa_budgets (wo_authority order)) ∧
  (∃ pr, ex_independently_observed_pull_request x = Some pr ∧ eb_pull_request e = Some pr ∧
     pre_head_sha pr = eb_candidate_sha e ∧
     pre_base_sha pr = rt_base_sha (wo_repository order) ∧
     ∀ c, c ∈ ex_required_ci_contexts x → c ∈ pre_successful_ci_contexts pr).
Proof.
  intros (_ & _ & He)%bundle_verify_ok e order. subst e order.
  pose proof (ev_shape _ _ He) as Hsh. pose proof (ev_frozen _ _ He) as Hf.
  destruct (ev_order _ _ He) as (Ho & _). pose proof (es_payload _ _ Ho) as Hv.
  assert (∀ role, ∃ i, identity_for (sb_payload b) role = Ok i ∧ ri_role i = role ∧
    i ∈ eb_identity_attribution (sb_payload b) ∧ ri_profile_ref i
      = profile_for (wo_identities (sw_payload (eb_work_order (sb_payload b)))) role) as Hid.
  { intros role. destruct (identity_for_sole _ _ (sh_roles _ Hsh role)) as (i & E & <- & Hi & _).
    exists i. split_and!; try done. by apply (fr_profiles _ Hf). }
  split_and!; [done|apply (fr_paths _ Hf)|naive_solver| | |apply (fr_budget _ Hf)|].
  - destruct (Hid IdentityRole.Implementer) as (i & Ei & Ri & Hi & Pi).
    destruct (Hid IdentityRole.PrReviewer) as (r & _ & Rr & Hr & Pr). exists i. split; [done|].
    destruct (ev_reviewer _ _ He r Hr Rr) as [-> ->]. split.
    + apply (sh_independent _ Hsh i r Hi Hr Ri). by rewrite Rr.
    + destruct (ov_separation _ Hv) as [_ Hne]. rewrite Pi, Pr. simpl. intros E. apply Hne.
      by destruct (woi_implementer _), (woi_pr_reviewer _); simplify_eq/=.
  - intros s Hin. destruct (fr_effects _ Hf s Hin) as [Hp _ Hobs].
    pose proof (ev_effects _ _ He s Hin) as Hu.
    assert (settled (se_status s) = true) as Hst by (by destruct (se_status s)). auto.
  - destruct (ev_embedded _ _ He) as (_ & _ & _ & Eb & _ & Et).
    destruct (ev_code _ _ He) as (_ & _ & Ec & _).
    destruct (ev_pull_request _ _ He) as (pr & ? & ? & ? & ? & ?).
    { rewrite <- Et. apply (ov_target _ Hv). }
    exists pr. split_and!; congruence || done.
Qed.

(** ** A run that verifies *)

Definition sample_sha : string := "1111111111111111111111111111111111111111".

Definition sample_identity (role : IdentityRole) (provider profile principal : string)
  : RoleIdentityEvidence :=
  mkRoleIdentityEvidence role provider (mkProfileRef profile) principal "lease" "model"
    "credential-isolated".

Definition sample_outcome (role : IdentityRole) : RoleOutcomeEvidence :=
  mkRoleOutcomeEvidence role (Some sample_sha) RoleOutcomeConclusion.Completed sample_digest.

Definition sample_pull_request : PullRequestEvidence :=
  mkPullRequestEvidence "owner/name" 7 "https://github.com/owner/name/pull/7"
    "0000000000000000000000000000000000000000" sample_sha (bs_of_list ["ci"]) (bs_of_list ["ci"]).

Definition sample_evidence (order : SignedWorkOrder) : EvidenceBundleV1 :=
  {| eb_schema := EVIDENCE_SCHEMA_V1; eb_evidence_id := 1%N; eb_work_item_id := 3%N;
     eb_attempt_id := 4%N; eb_run_id := 5%N; eb_worker_id := 6%N; eb_worker_generation := 1;
     eb_work_order_digest := sw_payload_digest order; eb_work_order := order;
     eb_work_order_signature_verified_by_worker := true;
     eb_source_snapshot_digest := sample_digest;
     eb_policy_input_digests := [("policy", sample_digest)];
     eb_repository := "owner/name"; eb_base_ref := "main";
     eb_base_sha := "0000000000000000000000000000000000000000";
     eb_candidate_sha := sample_sha; eb_remote_head_sha := sample_sha; eb_merge_sha := None;
     eb_changed_paths := bs_of_list ["src/lib.rs"]; eb_diff_digest := sample_digest;
     eb_identity_attribution :=
       [ sample_identity IdentityRole.Implementer "claude" "claude:a" "p1";
         sample_identity IdentityRole.LocalReviewer "codex" "codex:b" "p2";
         sample_identity IdentityRole.PrReviewer "codex" "codex:b" "p2" ];
     eb_runtime_digests := mkRuntimeDigestEvidence sample_digest sample_digest sample_digest
       sample_digest sample_digest;
     eb_role_outcomes := sample_outcome <$> elems all_roles; eb_findings := [];
     eb_requested_target := ClosureTarget.PullRequest; eb_target_satisfied := true;
     eb_checks := [mkCheckEvidence "cargo test" sample_sha CheckConclusion.Passed None];
     eb_review := mkReviewEvidence "codex:b" "p2" sample_sha true true sample_digest;
     eb_pull_request := Some sample_pull_request;
     eb_side_effects := [mkSideEffectEvidence "pull_request.create" "k" sample_digest
       SideEffectStatus.Confirmed (Some sample_digest) (Some sample_sha)];
     eb_approvals := []; eb_cancellation := None; eb_artifacts := [];
     eb_usage := mkUsageEvidence 1 1 1 1 1 1 1; eb_stop_reason := "done"; eb_produced_at := 15 |}.

Definition sample_expectation (order : SignedWorkOrder) : @EvidenceExpectation sample_ed25519 :=
  @mkEvidenceExpectation sample_ed25519 tt "k" "w" 3%N 4%N 5%N 6%N (sw_payload_digest order)
    "owner/name" "0000000000000000000000000000000000000000" sample_sha
    ClosureTarget.PullRequest (bs_of_list ["cargo test"]) (bs_of_list ["ci"]) 1
    (Some sample_pull_request).

Definition sample_bundle_jcs : Canonical EvidenceBundleV1 :=
  {| to_jcs e := inr [eb_produced_at e] |}.
Definition sample_protected_jcs : Canonical ProtectedEvidence :=
  {| to_jcs e := inr [eb_produced_at (pv_payload e)] |}.
Definition sample_to_value : ToValue EvidenceBundleV1 :=
  {| to_value e := inr (Object [("repository", VString (eb_repository e))]) |}.

(** The order signed by ASF, and the evidence signed by the worker. *)
Definition sample_run : res (SignedWorkOrder * SignedEvidenceBundle) :=
  order ← @SignedWorkOrder_sign sample_url sample_hashing sample_ed25519 sample_order_jcs
    sample_envelope_jcs sample_order (@mkSigner sample_ed25519 "k" tt);
  bundle ← @SignedEvidenceBundle_sign sample_hashing sample_ed25519 sample_bundle_jcs
    sample_protected_jcs (sample_evidence order) (@mkSigner sample_ed25519 "w" tt);
  Ok (order, bundle).

Definition sample_verify (order : SignedWorkOrder) (b : SignedEvidenceBundle) : res unit :=
  @SignedEvidenceBundle_verify sample_url sample_hashing sample_ed25519 sample_order_jcs
    sample_envelope_jcs sample_bundle_jcs sample_protected_jcs sample_to_value b tt
    (sample_expectation order).

Lemma sample_run_verifies : ∃ order b, sample_run = Ok (order, b) ∧ sample_verify order b = Ok tt.
Proof.
  assert (is_ok ('(order, b) ← sample_run; sample_verify order b) = true) as Hok
    by (vm_compute; reflexivity).
  destruct sample_run as [[order b]| |]; [|done|done]. simpl in Hok.
  exists order, b. split; [done|]. by apply is_ok_unit.
Qed.

Lemma evidence_verification_exact_witness :
  ∃ order b, sample_verify order b = Ok tt ∧
    @evidence_sound sample_url sample_hashing sample_ed25519 sample_order_jcs
      sample_envelope_jcs sample_to_value (sb_payload b) (sample_expectation order).
Proof.
  destruct sample_run_verifies as (order & b & _ & Hv). exists order, b. split; [done|].
  apply (proj1 (proj1 (@evidence_verification_exact sample_url sample_hashing sample_ed25519
    sample_order_jcs sample_envelope_jcs sample_bundle_jcs sample_protected_jcs sample_to_value)
    b tt (sample_expectation order)) Hv).
Defined.

Lemma verified_evidence_within_authority_witness :
  ∃ order b, sample_verify order b = Ok tt ∧
    within_budget (eb_usage (sb_payload b)) (eb_side_effects (sb_payload b))
      (xa_budgets (wo_authority (sw_payload (eb_work_order (sb_payload b))))).
Proof.
  destruct sample_run_verifies as (order & b & _ & Hv). exists order, b. split; [done|].
  apply (@verified_evidence_within_authority sample_url sample_hashing sample_ed25519
    sample_order_jcs sample_envelope_jcs sample_bundle_jcs sample_protected_jcs sample_to_value
    _ _ _ Hv).
Defined.
