(* ===== verification/Receipt.v ===== *)
(** The receipt of ASF's own verification,
    [src/src/contracts/evidence_verification.rs], and the event records of
    [src/src/contracts/event.rs]. *)

From Stdlib Require Import ZArith Lia Ascii.
From stdpp Require Import base tactics option list strings.
From S2P Require Import Prelude RustStr RustOrd Ids Authority WorkItem Crypto Security WorkOrder Evidence.

Definition EVIDENCE_VERIFICATION_RECEIPT_SCHEMA_V1 : string :=
  "asf.evidence-verification-receipt.v1".

Record EvidenceVerificationReceiptV1 := mkReceipt {
  er_schema : string;
  er_evidence_id : EvidenceId;
  er_work_item_id : WorkItemId;
  er_attempt_id : AttemptId;
  er_run_id : RunId;
  er_evidence_digest : string;
  er_work_order_digest : string;
  er_expectation_digest : string;
  er_verification_job_id : Uuid;
  er_verification_job_fence_token : Z;
  er_verification_job_completed_by : string;
  er_verifier : string;
  er_pull_request : PullRequestEvidence;
  er_provider_revision : string;
  er_observed_at : DateTime
}.

Record ProductEvent := mkProductEvent {
  pe_event_schema : string;
  pe_event_id : EventId;
  pe_tenant_id : TenantId;
  pe_work_item_id : option WorkItemId;
  pe_attempt_id : option AttemptId;
  pe_work_order_digest : option string;
  pe_run_id : option RunId;
  pe_aggregate_version : Z;
  pe_occurred_at : DateTime;
  pe_ingested_at : DateTime;
  pe_actor : string;
  pe_event_type : string;
  pe_event_payload : Value;
  pe_policy_digest : option string;
  pe_trace_id : string;
  pe_correlation_id : string
}.

Record RunEventCursor := mkRunEventCursor {
  rec_run_id : string;
  rec_after : option string
}.

Definition valid_public_text (value : string) (max_bytes : Z) : bool :=
  negb (str_is_empty value)
  && (len value <=? max_bytes)
  && negb (trim_differs value)
  && negb (has_control value).

(** [byte.is_ascii_alphanumeric() || matches!(byte, b'.' | b'_' | b'-')]. *)
Definition repository_byte (b : Z) : bool :=
  is_ascii_alphanumeric b || (b =? 46) || (b =? 95) || (b =? 45).

(** [unwrap_or_default] of the first two parts, and whether a third exists. *)
Definition valid_repository (value : string) : bool :=
  let parts := split_on "/"%char value in
  let owner := default "" (parts !! 0%nat) in
  let repository := default "" (parts !! 1%nat) in
  negb (str_is_empty owner)
  && negb (str_is_empty repository)
  && is_none (parts !! 2%nat)
  && forallb (λ part, (len part <=? 100) && forallb repository_byte (bytes part))
       [owner; repository].

(** [byte.is_ascii_digit() || (b'a'..=b'f').contains(&byte)]. *)
Definition valid_git_sha (value : string) : bool :=
  (len value =? 40)
  && forallb (λ b, is_ascii_digit b || ((97 <=? b) && (b <=? 102))) (bytes value).

Definition valid_https_url `{UrlCrate} (value : string) : bool :=
  match url_parse value with
  | inl _ => false
  | inr url =>
      bool_decide (url_scheme url = "https")
      && is_some (url_host url)
      && str_is_empty (url_username url)
      && is_none (url_password url)
      && is_none (url_query url)
      && is_none (url_fragment url)
  end.

Definition Receipt_validate `{UrlCrate, ToValue EvidenceVerificationReceiptV1}
    (r : EvidenceVerificationReceiptV1) : res unit :=
  bail_if (negb (bool_decide (er_schema r = EVIDENCE_VERIFICATION_RECEIPT_SCHEMA_V1)))
    (Validation [Lit "unsupported evidence-verification receipt schema"]) ;;
  bail_if (is_nil (er_evidence_id r) || is_nil (er_work_item_id r)
           || is_nil (er_attempt_id r) || is_nil (er_run_id r)
           || negb (is_sha256_digest (er_evidence_digest r))
           || negb (is_sha256_digest (er_work_order_digest r))
           || negb (is_sha256_digest (er_expectation_digest r))
           || is_nil (er_verification_job_id r)
           || (er_verification_job_fence_token r <=? 0)
           || negb (valid_public_text (er_verification_job_completed_by r) 512)
           || negb (valid_public_text (er_verifier r) 256)
           || negb (valid_public_text (er_provider_revision r) 1024))
    (Validation [Lit "evidence-verification receipt has invalid immutable coordinates"]) ;;
  let pull_request := er_pull_request r in
  bail_if (negb (valid_repository (pre_repository pull_request))
           || (pre_number pull_request =? 0)
           || negb (valid_https_url (pre_url pull_request))
           || negb (valid_git_sha (pre_base_sha pull_request))
           || negb (valid_git_sha (pre_head_sha pull_request))
           || existsb (λ context, negb (valid_public_text context 512))
                (elems (pre_required_ci_contexts pull_request)
                 ++ elems (pre_successful_ci_contexts pull_request))
           || negb (bs_is_subset (pre_required_ci_contexts pull_request)
                      (pre_successful_ci_contexts pull_request)))
    (Validation [Lit "evidence-verification receipt has incomplete exact-candidate pull-request evidence"]) ;;
  value ← map_err (to_value r) (λ error, Serialization [Disp error]);
  reject_sensitive_fields value.

Definition Receipt_digest `{UrlCrate, Hashing, ToValue EvidenceVerificationReceiptV1,
    Canonical EvidenceVerificationReceiptV1} (r : EvidenceVerificationReceiptV1) : res string :=
  Receipt_validate r ;;
  bytes ← canonical_json r;
  Ok (sha256_digest bytes).

(** ** What a receipt proves *)

(** A GitHub slug: two non-empty parts of at most 100 safe bytes. *)
Definition repository_part (s : string) : Prop :=
  s ≠ "" ∧ len s ≤ 100 ∧ Forall (λ b, repository_byte b = true) (bytes s).

Definition repository_slug (value : string) : Prop :=
  ∃ owner name, value = owner +:+ String "/" name ∧
    repository_part owner ∧ repository_part name.

Lemma split_on_free c s : contains_char c s = false → split_on c s = [s].
Proof.
  induction s as [|d s IH]; simpl; [done|]. rewrite orb_false_iff. intros [Hd Hs].
  rewrite Hd, IH; done.
Qed.

Lemma split_on_cons c l r :
  contains_char c l = false → split_on c (l +:+ String c r) = l :: split_on c r.
Proof.
  induction l as [|d l IH]; simpl; [by rewrite bool_decide_true|].
  rewrite orb_false_iff. intros [Hd Hl]. by rewrite Hd, IH.
Qed.

Lemma split_on_nonempty c s : split_on c s ≠ [].
Proof. by destruct s; simpl; repeat case_match. Qed.

Lemma split_on_singleton c s w : split_on c s = [w] → s = w ∧ contains_char c w = false.
Proof.
  revert w. induction s as [|d s IH]; simpl; intros w; [by intros [= <-]|].
  case_bool_decide as E; subst.
  - intros [= _ Es]. by apply split_on_nonempty in Es.
  - destruct (split_on c s) as [|w0 ws] eqn:Es; [by apply split_on_nonempty in Es|].
    intros [= <- ->]. destruct (IH w0 eq_refl) as [-> Hc]. simpl.
    by rewrite bool_decide_false, Hc.
Qed.

Lemma split_on_pair c s l r :
  split_on c s = [l; r] ↔
  s = l +:+ String c r ∧ contains_char c l = false ∧ contains_char c r = false.
Proof.
  split; [|by intros (-> & Hl & Hr); rewrite split_on_cons, split_on_free].
  revert l. induction s as [|d s IH]; simpl; intros l; [done|].
  case_bool_decide as E; subst.
  - intros [= <- H]. by apply split_on_singleton in H as [-> ?].
  - destruct (split_on c s) as [|w0 ws] eqn:Es; [done|]. intros [= <- ->].
    destruct (IH w0 eq_refl) as (-> & Hl & Hr). simpl. by rewrite bool_decide_false, Hl.
Qed.

Lemma repository_byte_no_slash s :
  Forall (λ b, repository_byte b = true) (bytes s) → contains_char "/" s = false.
Proof.
  induction s as [|c s IH]; simpl; [done|]. rewrite Forall_cons. intros [Hc Hs].
  rewrite IH, orb_false_r by done. apply bool_decide_eq_false. by intros <-.
Qed.

Lemma valid_repository_ok value : valid_repository value = true ↔ repository_slug value.
Proof.
  unfold valid_repository, repository_slug, repository_part. split.
  - destruct (split_on "/" value) as [|o [|n [|]]] eqn:E; simpl; try done;
      [by rewrite andb_false_r| |by destruct (negb _), (negb _)].
    rewrite !andb_true_iff, !forallb_true, !negb_true_iff, !Z.leb_le.
    apply split_on_pair in E as (-> & _). intros H. exists o, n. destruct_and!.
    split_and!; try done; by intros ->.
  - intros (o & n & -> & (Ho & Lo & Fo) & (Hn & Ln & Fn)).
    rewrite (proj2 (split_on_pair "/" _ o n))
      by (split_and!; [done|by apply repository_byte_no_slash..]). simpl.
    rewrite !andb_true_iff, !forallb_true, !negb_true_iff, !Z.leb_le.
    split_and!; try done; [by destruct o|by destruct n].
Qed.

(** The contents of a receipt that stands for a verification. *)
Record receipt_sound `{UrlCrate, ToValue EvidenceVerificationReceiptV1}
    (r : EvidenceVerificationReceiptV1) : Prop := {
  rs_schema : er_schema r = EVIDENCE_VERIFICATION_RECEIPT_SCHEMA_V1;
  rs_ids : Forall (λ u, is_nil u = false)
    [er_evidence_id r; er_work_item_id r; er_attempt_id r; er_run_id r; er_verification_job_id r];
  rs_digests : Forall (λ d, is_sha256_digest d = true)
    [er_evidence_digest r; er_work_order_digest r; er_expectation_digest r];
  rs_fence : 0 < er_verification_job_fence_token r;
  rs_texts : valid_public_text (er_verification_job_completed_by r) 512 = true ∧
    valid_public_text (er_verifier r) 256 = true ∧
    valid_public_text (er_provider_revision r) 1024 = true;
  rs_repository : repository_slug (pre_repository (er_pull_request r));
  rs_number : pre_number (er_pull_request r) ≠ 0;
  rs_url : valid_https_url (pre_url (er_pull_request r)) = true;
  rs_commits : valid_git_sha (pre_base_sha (er_pull_request r)) = true ∧
    valid_git_sha (pre_head_sha (er_pull_request r)) = true;
  rs_contexts c : c ∈ pre_successful_ci_contexts (er_pull_request r) →
    valid_public_text c 512 = true;
  rs_ci c : c ∈ pre_required_ci_contexts (er_pull_request r) →
    c ∈ pre_successful_ci_contexts (er_pull_request r);
  rs_screened : ∃ v, to_value r = inr v ∧ ∀ error, ¬ leak "$" v error
}.

Lemma Receipt_validate_ok `{UrlCrate, ToValue EvidenceVerificationReceiptV1} r :
  Receipt_validate r = Ok tt ↔ receipt_sound r.
Proof.
  unfold Receipt_validate. rewrite !bind_unit_ok, bind_ok, !bail_if_ok.
  rewrite !orb_false_iff, !negb_false_iff, bs_is_subset_true, existsb_false, Forall_app,
    !Forall_forall, !bool_decide_eq_true, valid_repository_ok, Z.leb_gt, Z.eqb_neq.
  setoid_rewrite negb_false_iff. unfold map_err. split.
  - intros (H1 & H2 & H3 & v & Hv & Hr). destruct_and!.
    pose proof (proj1 (reject_sensitive_ok v) Hr) as Hl.
    destruct (to_value r) as [|v'] eqn:Ev; [done|]. injection Hv as ->.
    constructor; try done; [by repeat constructor..|by exists v].
  - intros []. rewrite !Forall_cons in rs_ids0. rewrite !Forall_cons in rs_digests0.
    destruct rs_screened0 as (v & Ev & Hl). destruct_and!. split_and!; try done; [by auto|].
    exists v. by rewrite Ev, reject_sensitive_ok.
Qed.

(** ** Theorems *)

(** A receipt has a digest, under which it is recorded, exactly when it is
    complete: it names an existing run, evidence, order and expectation, the
    fenced job that produced it, and a pull request with a repository slug, an
    https URL without credentials, exact commits and all required CI contexts
    among the successful ones; and it carries no credential. *)
Lemma receipt_exact `{UrlCrate, Hashing, ToValue EvidenceVerificationReceiptV1,
    Canonical EvidenceVerificationReceiptV1} r d :
  Receipt_digest r = Ok d ↔ receipt_sound r ∧ digest_canonical r = Ok d.
Proof.
  unfold Receipt_digest, digest_canonical. by rewrite bind_unit_ok, Receipt_validate_ok.
Qed.

(** The Work Order and the evidence contracts admit 64-digit commits; what
    they let through in that case has no receipt. *)
Lemma long_commits_have_no_receipt `{UrlCrate, Hashing, Ed25519, Canonical WorkOrderV1,
    Canonical ProtectedEnvelope, Canonical EvidenceBundleV1, Canonical ProtectedEvidence,
    ToValue EvidenceBundleV1, ToValue EvidenceVerificationReceiptV1} b key x r :
  SignedEvidenceBundle_verify b key x = Ok tt →
  len (ex_candidate_sha x) = 64 →
  ex_target x = ClosureTarget.PullRequest →
  ex_independently_observed_pull_request x = Some (er_pull_request r) →
  Receipt_validate r ≠ Ok tt.
Proof.
  intros Hv Hlen Ht Hpr Hr. apply bundle_verify_ok in Hv as (_ & _ & He).
  destruct (ev_pull_request _ _ He Ht) as (pr & _ & Epr & Eh & _).
  apply Receipt_validate_ok in Hr. destruct (rs_commits _ Hr) as [_ Hc].
  unfold valid_git_sha in Hc. reflect. destruct Hc as [Hc _].
  rewrite Hpr in Epr. injection Epr as <-. rewrite Eh in Hc. lia.
Qed.

Definition sample_receipt : EvidenceVerificationReceiptV1 :=
  {| er_schema := EVIDENCE_VERIFICATION_RECEIPT_SCHEMA_V1; er_evidence_id := 1%N;
     er_work_item_id := 3%N; er_attempt_id := 4%N; er_run_id := 5%N;
     er_evidence_digest := sample_digest; er_work_order_digest := sample_digest;
     er_expectation_digest := sample_digest; er_verification_job_id := 9%N;
     er_verification_job_fence_token := 1; er_verification_job_completed_by := "reactor";
     er_verifier := "asf"; er_pull_request := sample_pull_request;
     er_provider_revision := "r1"; er_observed_at := 20 |}.

Definition sample_https : UrlCrate :=
  {| url_parse s := inr (mkUrl "https" (Some s) "" None None None) |}.
Definition sample_receipt_value : ToValue EvidenceVerificationReceiptV1 :=
  {| to_value r := inr (Object [("verifier", VString (er_verifier r))]) |}.
Definition sample_receipt_jcs : Canonical EvidenceVerificationReceiptV1 :=
  {| to_jcs r := inr (bytes (er_verifier r)) |}.

Lemma receipt_exact_witness :
  ∃ d, @Receipt_digest sample_https sample_hashing sample_receipt_value sample_receipt_jcs
         sample_receipt = Ok d ∧
    @receipt_sound sample_https sample_receipt_value sample_receipt.
Proof.
  assert (is_ok (@Receipt_digest sample_https sample_hashing sample_receipt_value
    sample_receipt_jcs sample_receipt) = true) as Hok by (vm_compute; reflexivity).
  destruct (Receipt_digest _) as [d| |] eqn:E; [|done|done]. exists d. split; [done|].
  apply (proj1 (@receipt_exact sample_https sample_hashing sample_receipt_value
    sample_receipt_jcs sample_receipt d) E).
Defined.
