(* ===== verification/Outcome.v ===== *)
(** Results of the ports, whose error types are their own, and calls on
    shared state.

    [outcome E A] is [Result<A, E>] plus the possibility of a panic, for an
    error type [E] of a port.  [call S E A] is a method that locks the state
    [S], may change it and returns an outcome; what a call changed before it
    failed stays changed, as it does behind a mutex. *)

From Stdlib Require Import ZArith Lia.
From stdpp Require Import base tactics option list strings pretty numbers.
From S2P Require Import Prelude RustStr RustOrd.

Inductive outcome (E A : Type) :=
| Success (a : A)
| Failure (e : E)
| Crash.
Arguments Success {E A} _.
Arguments Failure {E A} _.
Arguments Crash {E A}.

#[global] Instance outcome_ret {E} : MRet (outcome E) := λ A a, Success a.
#[global] Instance outcome_bind {E} : MBind (outcome E) := λ A B f m,
  match m with Success a => f a | Failure e => Failure e | Crash => Crash end.

(** [if cond { return Err(e) }]. *)
Definition refuse_if {E} (cond : bool) (e : E) : outcome E unit :=
  if cond then Failure e else Success tt.

(** [option.ok_or(e)]. *)
Definition or_fail {E A} (o : option A) (e : E) : outcome E A :=
  match o with Some a => Success a | None => Failure e end.

(** [result.map_err(f)] from a result of the crate. *)
Definition of_res {E A} (r : res A) (f : Error → E) : outcome E A :=
  match r with Ok a => Success a | Err e => Failure (f e) | Panic => Crash end.

Definition succeeds {E A} (m : outcome E A) : bool :=
  match m with Success _ => true | _ => false end.

(** [impl Display for Error], [src/src/error.rs]. *)
Definition Error_to_message (e : Error) : message :=
  match e with
  | Validation m => Lit "validation failed: " :: m
  | InvalidTransition from to =>
      Lit "invalid state transition from " :: from ++ Lit " to " :: to
  | Conflict m => Lit "conflict: " :: m
  | NotFound m => Lit "not found: " :: m
  | Unauthenticated => [Lit "authentication failed"]
  | Forbidden m => Lit "permission denied: " :: m
  | Crypto m => Lit "cryptographic verification failed: " :: m
  | ExternalUnavailable m => Lit "external system unavailable: " :: m
  | AmbiguousEffect m => Lit "ambiguous external effect: " :: m
  | Persistence m => Lit "persistence error: " :: m
  | Serialization m => Lit "serialization error: " :: m
  end.

(** ** Calls on shared state *)

Definition call (S E A : Type) := S → S * outcome E A.

#[global] Instance call_ret {S E} : MRet (call S E) := λ A a s, (s, Success a).
#[global] Instance call_bind {S E} : MBind (call S E) := λ A B f m s,
  match m s with
  | (s', Success a) => f a s'
  | (s', Failure e) => (s', Failure e)
  | (s', Crash) => (s', Crash)
  end.

(** A computation that does not touch the state. *)
Definition pure_call {S E A} (m : outcome E A) : call S E A := λ s, (s, m).
Definition gets {S E A} (f : S → A) : call S E A := λ s, (s, Success (f s)).
Definition modify {S E} (f : S → S) : call S E unit := λ s, (f s, Success tt).

(** ** Facts *)

Section facts.
  Context {E : Type}.

Lemma obind_success {A B} (m : outcome E A) (f : A → outcome E B) b :
  m ≫= f = Success b ↔ ∃ a, m = Success a ∧ f a = Success b.
Proof. destruct m; simpl; naive_solver. Qed.

Lemma refuse_if_success b (e : E) u : refuse_if b e = Success u ↔ b = false.
Proof. destruct b, u; simpl; naive_solver. Qed.

Lemma obind_unit_success {A} (m : outcome E unit) (f : unit → outcome E A) a :
  m ≫= f = Success a ↔ m = Success tt ∧ f tt = Success a.
Proof. destruct m as [[]| |]; simpl; naive_solver. Qed.

Lemma or_fail_success {A} (o : option A) (e : E) a : or_fail o e = Success a ↔ o = Some a.
Proof. destruct o; simpl; naive_solver. Qed.

Lemma of_res_success {A} (r : res A) (f : Error → E) a : of_res r f = Success a ↔ r = Ok a.
Proof. destruct r; simpl; naive_solver. Qed.

Lemma obind_not_crash {A B} (m : outcome E A) (f : A → outcome E B) :
  m ≠ Crash → (∀ a, m = Success a → f a ≠ Crash) → m ≫= f ≠ Crash.
Proof. destruct m; simpl; naive_solver. Qed.

Lemma refuse_if_not_crash b (e : E) : refuse_if b e ≠ Crash.
Proof. by destruct b. Qed.

Lemma or_fail_not_crash {A} (o : option A) (e : E) : or_fail o e ≠ Crash.
Proof. by destruct o. Qed.
End facts.

#[export] Hint Rewrite @obind_unit_success @refuse_if_success @or_fail_success
  @of_res_success : reflect_db.
#[export] Hint Resolve refuse_if_not_crash or_fail_not_crash : no_panic.

(** ** Calls that only read *)

Definition reads_only {S E A} (m : call S E A) : Prop := ∀ s, (m s).1 = s.

Lemma reads_pure {S E A} (o : outcome E A) : reads_only (S:=S) (pure_call o).
Proof. done. Qed.
Lemma reads_gets {S E A} (f : S → A) : reads_only (E:=E) (gets f).
Proof. done. Qed.
Lemma reads_ret {S E A} (a : A) : reads_only (S:=S) (E:=E) (mret a).
Proof. done. Qed.
Lemma reads_bind {S E A B} (m : call S E A) (f : A → call S E B) :
  reads_only m → (∀ a, reads_only (f a)) → reads_only (m ≫= f).
Proof.
  intros Hm Hf s. specialize (Hm s). unfold mbind, call_bind.
  destruct (m s) as [s' [a| |]]; simpl in *; subst; [apply Hf|done|done].
Qed.

Create HintDb reads discriminated.
#[export] Hint Resolve reads_pure reads_gets reads_ret reads_bind : reads.

Ltac reads := repeat first [ solve [auto with reads] | apply reads_bind; intros | case_match ].

(** ** Decimal numbers *)

(** The digits of an unsigned integer, [impl Display]: [pretty] of the library. *)
Fixpoint decimal_value (acc : N) (s : string) : option N :=
  match s with
  | EmptyString => Some acc
  | String c s =>
      if is_ascii_digit (byte_of c)
      then decimal_value (acc * 10 + Z.to_N (byte_of c - 48)) s
      else None
  end.

(** [str::parse] for an unsigned integer type with maximum [max]: an optional
    plus sign, at least one digit, and a value in range. *)
Definition parse_unsigned (max : Z) (s : string) : option Z :=
  let digits := default s (strip_prefix "+" s) in
  if str_is_empty digits then None
  else n ← decimal_value 0 digits; try_from max (Z.of_N n).

Lemma pretty_digit n : (n < 10)%N →
  is_ascii_digit (byte_of (pretty_N_char n)) = true ∧
  Z.to_N (byte_of (pretty_N_char n) - 48) = n.
Proof.
  intros Hn.
  assert (n ∈ [0; 1; 2; 3; 4; 5; 6; 7; 8; 9]%N) as Hin.
  { rewrite !elem_of_cons. lia. }
  repeat (apply elem_of_cons in Hin as [->|Hin]; [by vm_compute|]). by apply elem_of_nil in Hin.
Qed.

Lemma decimal_value_go x s : decimal_value 0 (pretty_N_go x s) = decimal_value x s.
Proof.
  revert s. induction (N.lt_wf_0 x) as [x _ IH]. intros s.
  destruct (decide (x = 0%N)) as [->|Hx]; [by rewrite pretty_N_go_0|].
  rewrite pretty_N_go_step by lia. rewrite IH by (apply N.div_lt; lia). simpl.
  destruct (pretty_digit (x `mod` 10)%N) as [-> ->]; [apply N.mod_lt; lia|].
  f_equal. rewrite (N.mul_comm _ 10). symmetry. apply N.div_mod. lia.
Qed.

Lemma decimal_value_pretty n : decimal_value 0 (pretty n) = Some n.
Proof.
  unfold pretty, pretty_N. case_decide as E; [by subst|]. by rewrite decimal_value_go.
Qed.

Lemma parse_pretty max n : Z.of_N n ≤ max → parse_unsigned max (pretty n) = Some (Z.of_N n).
Proof.
  intros Hn. pose proof (decimal_value_pretty n) as Hd. unfold parse_unsigned.
  destruct (strip_prefix "+" (pretty n)) as [r|] eqn:Es.
  { apply strip_prefix_spec in Es. by rewrite Es in Hd. }
  simpl. destruct (str_is_empty (pretty n)) eqn:Ee.
  { destruct (pretty n) eqn:Ep; [|done]. simpl in Hd. injection Hd as <-. by vm_compute in Ep. }
  rewrite Hd. simpl. apply try_from_some. unfold fits. lia.
Qed.
