(* ===== verification/RunmillPort.v ===== *)
(** The contract with a Runmill worker, [src/src/ports/runmill.rs]: requests,
    receipts, snapshots and cursors with their validation, capability
    negotiation, and the gateway as an interface over any state. *)

From Stdlib Require Import ZArith Lia Ascii.
From stdpp Require Import base tactics option list strings.
From S2P Require Import Prelude RustStr RustOrd Ids Authority Crypto WorkOrder Evidence Receipt Outcome.

Definition RUNMILL_GATEWAY_SCHEMA_V1 : string := "asf.runmill-gateway.v1".
Definition RUNMILL_CAPABILITY_REQUEST_SCHEMA_V1 : string := "asf.runmill-capability-request.v1".
Definition RUNMILL_CAPABILITIES_SCHEMA_V1 : string := "asf.runmill-capabilities.v1".
Definition SUBMIT_WORK_ORDER_REQUEST_SCHEMA_V1 : string :=
  "asf.runmill-submit-work-order-request.v1".
Definition SUBMIT_WORK_ORDER_RECEIPT_SCHEMA_V1 : string :=
  "asf.runmill-submit-work-order-receipt.v1".
Definition GET_RUN_REQUEST_SCHEMA_V1 : string := "asf.runmill-get-run-request.v1".
Definition GET_RUN_RECEIPT_SCHEMA_V1 : string := "asf.runmill-get-run-receipt.v1".
Definition RUN_SNAPSHOT_SCHEMA_V1 : string := "asf.runmill-run-snapshot.v1".
Definition GET_RUN_EVENTS_REQUEST_SCHEMA_V1 : string := "asf.runmill-get-run-events-request.v1".
Definition RUN_EVENT_PAGE_SCHEMA_V1 : string := "asf.runmill-run-event-page.v1".
Definition CANCEL_RUN_REQUEST_SCHEMA_V1 : string := "asf.runmill-cancel-run-request.v1".
Definition CANCEL_RUN_RECEIPT_SCHEMA_V1 : string := "asf.runmill-cancel-run-receipt.v1".
Definition GET_EVIDENCE_REQUEST_SCHEMA_V1 : string := "asf.runmill-get-evidence-request.v1".
Definition GET_EVIDENCE_RECEIPT_SCHEMA_V1 : string := "asf.runmill-get-evidence-receipt.v1".
Definition ACKNOWLEDGE_OUTCOME_REQUEST_SCHEMA_V1 : string :=
  "asf.runmill-acknowledge-outcome-request.v1".
Definition ACKNOWLEDGE_OUTCOME_RECEIPT_SCHEMA_V1 : string :=
  "asf.runmill-acknowledge-outcome-receipt.v1".
Definition PRODUCT_EVENT_SCHEMA_V1 : string := "asf.product-event.v1".
Definition RUNMILL_CAPABILITY_REQUEST_SCHEMA_V2 : string := "asf.runmill-capability-request.v2".
Definition RUNMILL_CAPABILITIES_SCHEMA_V2 : string := "asf.runmill-capabilities.v2".
Definition LOOKUP_QUALIFIED_SUBMISSION_REQUEST_SCHEMA_V1 : string :=
  "asf.runmill-lookup-qualified-submission-request.v1".
Definition LOOKUP_QUALIFIED_SUBMISSION_RECEIPT_SCHEMA_V1 : string :=
  "asf.runmill-lookup-qualified-submission-receipt.v1".

Inductive RunmillGatewayError :=
| UnsupportedContract (detail : message)
| IdempotencyConflict (idempotency_key existing_digest submitted_digest : string)
| InvalidRequest (m : message)
| InvalidCursor (m : message)
| RunNotFound (run_id : RunId)
| EvidenceUnavailable (m : message)
| TransportUnavailable (m : message).

Abbreviation RunmillResult := (outcome RunmillGatewayError).

(** ** Capabilities *)

Module RunmillOperation.
Inductive RunmillOperation :=
| SubmitWorkOrder | GetRun | GetRunEvents | CancelRun | GetEvidence | AcknowledgeOutcome.
End RunmillOperation.
Abbreviation RunmillOperation := RunmillOperation.RunmillOperation.

Definition RunmillOperation_all : list RunmillOperation :=
  [ RunmillOperation.SubmitWorkOrder; RunmillOperation.GetRun; RunmillOperation.GetRunEvents;
    RunmillOperation.CancelRun; RunmillOperation.GetEvidence;
    RunmillOperation.AcknowledgeOutcome ].

(** [#[derive(Ord)]]. *)
Definition RunmillOperation_index (o : RunmillOperation) : Z :=
  match o with
  | RunmillOperation.SubmitWorkOrder => 0 | RunmillOperation.GetRun => 1
  | RunmillOperation.GetRunEvents => 2 | RunmillOperation.CancelRun => 3
  | RunmillOperation.GetEvidence => 4 | RunmillOperation.AcknowledgeOutcome => 5
  end.

Lemma RunmillOperation_index_inj : Inj (=) (=) RunmillOperation_index.
Proof. by intros [] []. Qed.

#[global] Instance RunmillOperation_ord : Ord RunmillOperation :=
  ord_via RunmillOperation_index RunmillOperation_index_inj.

Record CapabilityNegotiationRequest := mkCapabilityNegotiationRequest {
  nr_schema : string;
  nr_gateway_schema : string;
  nr_accepted_work_order_schemas : BTreeSet string;
  nr_accepted_event_schemas : BTreeSet string;
  nr_accepted_evidence_schemas : BTreeSet string;
  nr_required_operations : BTreeSet RunmillOperation;
  nr_require_durable_async_runs : bool;
  nr_require_idempotent_submission : bool;
  nr_require_cursor_events : bool;
  nr_require_signed_evidence : bool;
  nr_require_disconnect_survival : bool;
  nr_require_asf_source_ownership : bool
}.

Definition asf_v1 : CapabilityNegotiationRequest :=
  {| nr_schema := RUNMILL_CAPABILITY_REQUEST_SCHEMA_V1;
     nr_gateway_schema := RUNMILL_GATEWAY_SCHEMA_V1;
     nr_accepted_work_order_schemas := bs_of_list [WORK_ORDER_SCHEMA_V1];
     nr_accepted_event_schemas := bs_of_list [PRODUCT_EVENT_SCHEMA_V1];
     nr_accepted_evidence_schemas := bs_of_list [EVIDENCE_SCHEMA_V1];
     nr_required_operations := bs_of_list RunmillOperation_all;
     nr_require_durable_async_runs := true;
     nr_require_idempotent_submission := true;
     nr_require_cursor_events := true;
     nr_require_signed_evidence := true;
     nr_require_disconnect_survival := true;
     nr_require_asf_source_ownership := true |}.

Definition CapabilityNegotiationRequest_validate (r : CapabilityNegotiationRequest)
  : RunmillResult unit :=
  refuse_if (negb (bool_decide (nr_schema r = RUNMILL_CAPABILITY_REQUEST_SCHEMA_V1))
             || negb (bool_decide (nr_gateway_schema r = RUNMILL_GATEWAY_SCHEMA_V1)))
    (InvalidRequest [Lit "unsupported capability negotiation schema"]) ;;
  refuse_if (bs_is_empty (nr_accepted_work_order_schemas r)
             || bs_is_empty (nr_accepted_event_schemas r)
             || bs_is_empty (nr_accepted_evidence_schemas r)
             || bs_is_empty (nr_required_operations r))
    (InvalidRequest [Lit "capability negotiation must name every required schema and operation"]).

Record RunmillCapabilities := mkRunmillCapabilities {
  rc_schema : string;
  rc_gateway_schema : string;
  rc_worker_id : WorkerId;
  rc_worker_generation : Z;
  rc_accepted_work_order_schemas : BTreeSet string;
  rc_emitted_event_schemas : BTreeSet string;
  rc_emitted_evidence_schemas : BTreeSet string;
  rc_operations : BTreeSet RunmillOperation;
  rc_durable_async_runs : bool;
  rc_idempotent_submission : bool;
  rc_cursor_events : bool;
  rc_signed_evidence : bool;
  rc_survives_control_disconnect : bool;
  rc_asf_owns_source_mutations : bool;
  rc_max_event_page_size : Z
}.

Definition prospective_v1 (worker_id : WorkerId) (worker_generation : Z) : RunmillCapabilities :=
  {| rc_schema := RUNMILL_CAPABILITIES_SCHEMA_V1;
     rc_gateway_schema := RUNMILL_GATEWAY_SCHEMA_V1;
     rc_worker_id := worker_id;
     rc_worker_generation := worker_generation;
     rc_accepted_work_order_schemas := bs_of_list [WORK_ORDER_SCHEMA_V1];
     rc_emitted_event_schemas := bs_of_list [PRODUCT_EVENT_SCHEMA_V1];
     rc_emitted_evidence_schemas := bs_of_list [EVIDENCE_SCHEMA_V1];
     rc_operations := bs_of_list RunmillOperation_all;
     rc_durable_async_runs := true;
     rc_idempotent_submission := true;
     rc_cursor_events := true;
     rc_signed_evidence := true;
     rc_survives_control_disconnect := true;
     rc_asf_owns_source_mutations := true;
     rc_max_event_page_size := 1000 |}.

(** [!a.is_disjoint(&b)]. *)
Definition overlap {A} `{Ord A} (a b : BTreeSet A) : bool := negb (bs_is_empty (bs_inter a b)).

Definition RunmillCapabilities_satisfy (c : RunmillCapabilities)
    (r : CapabilityNegotiationRequest) : RunmillResult unit :=
  CapabilityNegotiationRequest_validate r ;;
  let schemas_match :=
    bool_decide (rc_schema c = RUNMILL_CAPABILITIES_SCHEMA_V1)
    && bool_decide (rc_gateway_schema c = nr_gateway_schema r)
    && overlap (rc_accepted_work_order_schemas c) (nr_accepted_work_order_schemas r)
    && overlap (rc_emitted_event_schemas c) (nr_accepted_event_schemas r)
    && overlap (rc_emitted_evidence_schemas c) (nr_accepted_evidence_schemas r) in
  let operations_match := bs_is_subset (nr_required_operations r) (rc_operations c) in
  let guarantees_match :=
    (negb (nr_require_durable_async_runs r) || rc_durable_async_runs c)
    && (negb (nr_require_idempotent_submission r) || rc_idempotent_submission c)
    && (negb (nr_require_cursor_events r) || rc_cursor_events c)
    && (negb (nr_require_signed_evidence r) || rc_signed_evidence c)
    && (negb (nr_require_disconnect_survival r) || rc_survives_control_disconnect c)
    && (negb (nr_require_asf_source_ownership r) || rc_asf_owns_source_mutations c)
    && (0 <? rc_max_event_page_size c) in
  if schemas_match && operations_match && guarantees_match then Success tt
  else Failure (UnsupportedContract
    [Lit "worker does not satisfy ASF's required schemas, operations, and durability guarantees"]).

Module RunmillOperationV2.
Inductive RunmillOperationV2 := LookupQualifiedSubmissionV1.
End RunmillOperationV2.
Abbreviation RunmillOperationV2 := RunmillOperationV2.RunmillOperationV2.

Lemma RunmillOperationV2_inj : Inj (=) (=) (λ _ : RunmillOperationV2, 0).
Proof. by intros [] []. Qed.

#[global] Instance RunmillOperationV2_ord : Ord RunmillOperationV2 :=
  ord_via (λ _, 0) RunmillOperationV2_inj.

Record CapabilityNegotiationRequestV2 := mkCapabilityNegotiationRequestV2 {
  n2_schema : string;
  n2_gateway_schema : string;
  n2_supported_lookup_schemas : BTreeSet string;
  n2_accepted_work_order_schemas : BTreeSet string;
  n2_accepted_event_schemas : BTreeSet string;
  n2_accepted_evidence_schemas : BTreeSet string;
  n2_required_operations : BTreeSet RunmillOperationV2
}.

Definition lookup_schemas : BTreeSet string :=
  bs_of_list [LOOKUP_QUALIFIED_SUBMISSION_REQUEST_SCHEMA_V1;
              LOOKUP_QUALIFIED_SUBMISSION_RECEIPT_SCHEMA_V1].

Definition asf_v2 : CapabilityNegotiationRequestV2 :=
  {| n2_schema := RUNMILL_CAPABILITY_REQUEST_SCHEMA_V2;
     n2_gateway_schema := RUNMILL_GATEWAY_SCHEMA_V1;
     n2_supported_lookup_schemas := lookup_schemas;
     n2_accepted_work_order_schemas := bs_of_list [WORK_ORDER_SCHEMA_V1];
     n2_accepted_event_schemas := bs_of_list [PRODUCT_EVENT_SCHEMA_V1];
     n2_accepted_evidence_schemas := bs_of_list [EVIDENCE_SCHEMA_V1];
     n2_required_operations := bs_of_list [RunmillOperationV2.LookupQualifiedSubmissionV1] |}.

Definition CapabilityNegotiationRequestV2_validate (r : CapabilityNegotiationRequestV2)
  : RunmillResult unit :=
  refuse_if (negb (bool_decide (n2_schema r = RUNMILL_CAPABILITY_REQUEST_SCHEMA_V2))
             || negb (bool_decide (n2_gateway_schema r = RUNMILL_GATEWAY_SCHEMA_V1)))
    (InvalidRequest [Lit "unsupported capability negotiation schema"]) ;;
  refuse_if (negb (bs_contains LOOKUP_QUALIFIED_SUBMISSION_REQUEST_SCHEMA_V1
                     (n2_supported_lookup_schemas r))
             || negb (bs_contains LOOKUP_QUALIFIED_SUBMISSION_RECEIPT_SCHEMA_V1
                        (n2_supported_lookup_schemas r)))
    (InvalidRequest [Lit "capability negotiation must include both lookup request and receipt schemas"]) ;;
  refuse_if (bs_is_empty (n2_accepted_work_order_schemas r)
             || bs_is_empty (n2_accepted_event_schemas r)
             || bs_is_empty (n2_accepted_evidence_schemas r)
             || bs_is_empty (n2_required_operations r))
    (InvalidRequest [Lit "capability negotiation must name every required schema and operation"]).

Record RunmillCapabilitiesV2 := mkRunmillCapabilitiesV2 {
  c2_schema : string;
  c2_gateway_schema : string;
  c2_supported_lookup_schemas : BTreeSet string;
  c2_worker_id : WorkerId;
  c2_worker_generation : Z;
  c2_accepted_work_order_schemas : BTreeSet string;
  c2_emitted_event_schemas : BTreeSet string;
  c2_emitted_evidence_schemas : BTreeSet string;
  c2_operations : BTreeSet RunmillOperationV2
}.

Definition prospective_v2 (worker_id : WorkerId) (worker_generation : Z) : RunmillCapabilitiesV2 :=
  {| c2_schema := RUNMILL_CAPABILITIES_SCHEMA_V2;
     c2_gateway_schema := RUNMILL_GATEWAY_SCHEMA_V1;
     c2_supported_lookup_schemas := lookup_schemas;
     c2_worker_id := worker_id;
     c2_worker_generation := worker_generation;
     c2_accepted_work_order_schemas := bs_of_list [WORK_ORDER_SCHEMA_V1];
     c2_emitted_event_schemas := bs_of_list [PRODUCT_EVENT_SCHEMA_V1];
     c2_emitted_evidence_schemas := bs_of_list [EVIDENCE_SCHEMA_V1];
     c2_operations := bs_of_list [RunmillOperationV2.LookupQualifiedSubmissionV1] |}.

Definition RunmillCapabilitiesV2_validate (c : RunmillCapabilitiesV2) : RunmillResult unit :=
  refuse_if (negb (bool_decide (c2_schema c = RUNMILL_CAPABILITIES_SCHEMA_V2))
             || negb (bool_decide (c2_gateway_schema c = RUNMILL_GATEWAY_SCHEMA_V1)))
    (InvalidRequest [Lit "unsupported capabilities schema"]) ;;
  refuse_if (negb (bs_contains LOOKUP_QUALIFIED_SUBMISSION_REQUEST_SCHEMA_V1
                     (c2_supported_lookup_schemas c))
             || negb (bs_contains LOOKUP_QUALIFIED_SUBMISSION_RECEIPT_SCHEMA_V1
                        (c2_supported_lookup_schemas c)))
    (InvalidRequest [Lit "capabilities must include both lookup request and receipt schemas"]).

Definition RunmillCapabilitiesV2_satisfy (c : RunmillCapabilitiesV2)
    (r : CapabilityNegotiationRequestV2) : RunmillResult unit :=
  CapabilityNegotiationRequestV2_validate r ;;
  RunmillCapabilitiesV2_validate c ;;
  let schemas_match :=
    bool_decide (c2_schema c = RUNMILL_CAPABILITIES_SCHEMA_V2)
    && bool_decide (c2_gateway_schema c = n2_gateway_schema r)
    && overlap (c2_accepted_work_order_schemas c) (n2_accepted_work_order_schemas r)
    && overlap (c2_emitted_event_schemas c) (n2_accepted_event_schemas r)
    && overlap (c2_emitted_evidence_schemas c) (n2_accepted_evidence_schemas r)
    && overlap (c2_supported_lookup_schemas c) (n2_supported_lookup_schemas r) in
  let operations_match := bs_is_subset (n2_required_operations r) (c2_operations c) in
  if schemas_match && operations_match then Success tt
  else Failure (UnsupportedContract
    [Lit "worker does not satisfy ASF's required schemas and operations"]).

(** ** Submission *)

Module SubmissionDisposition.
Inductive SubmissionDisposition := Accepted | Adopted.
End SubmissionDisposition.
Abbreviation SubmissionDisposition := SubmissionDisposition.SubmissionDisposition.

Record SubmitWorkOrderRequest := mkSubmitWorkOrderRequest {
  sr_schema : string;
  sr_idempotency_key : string;
  sr_work_order_digest : string;
  sr_work_order : SignedWorkOrder
}.

Record SubmitWorkOrderReceipt := mkSubmitWorkOrderReceipt {
  sre_schema : string;
  sre_run_id : RunId;
  sre_attempt_id : AttemptId;
  sre_idempotency_key : string;
  sre_work_order_digest : string;
  sre_disposition : SubmissionDisposition;
  sre_accepted_at : DateTime
}.

(** [RunmillGatewayError::InvalidRequest(format!("invalid Work Order: {error}"))]. *)
Definition invalid_order (e : Error) : RunmillGatewayError :=
  InvalidRequest (Lit "invalid Work Order: " :: Error_to_message e).

Section submission.
  Context {url : UrlCrate} {hashing : Hashing} {order_jcs : Canonical WorkOrderV1}.
  Context {signed_jcs : Canonical SignedWorkOrder}.

Definition SubmitWorkOrderRequest_validate (r : SubmitWorkOrderRequest) : RunmillResult unit :=
  refuse_if (negb (bool_decide (sr_schema r = SUBMIT_WORK_ORDER_REQUEST_SCHEMA_V1)))
    (InvalidRequest [Lit "unsupported work-order submission request schema"]) ;;
  refuse_if (blank (sr_idempotency_key r))
    (InvalidRequest [Lit "submission idempotency key is required"]) ;;
  of_res (WorkOrderV1_validate (sw_payload (sr_work_order r))) invalid_order ;;
  digest ← of_res (WorkOrderV1_digest (sw_payload (sr_work_order r))) invalid_order;
  refuse_if (negb (bool_decide (sr_idempotency_key r
                                = wo_idempotency_key (sw_payload (sr_work_order r))))
             || negb (bool_decide (sr_work_order_digest r = digest))
             || negb (bool_decide (sw_payload_digest (sr_work_order r) = digest)))
    (InvalidRequest [Lit "submission identity or digest does not match the signed Work Order"]) ;;
  refuse_if (negb (bool_decide (sw_envelope_schema (sr_work_order r) = "asf.work-order-envelope/v1"))
             || negb (bool_decide (sw_algorithm (sr_work_order r) = "EdDSA"))
             || blank (sw_key_id (sr_work_order r))
             || blank (sw_signature (sr_work_order r)))
    (InvalidRequest [Lit "signed Work Order envelope is incomplete or unsupported"]).

Definition SubmitWorkOrderRequest_new (work_order : SignedWorkOrder)
  : RunmillResult SubmitWorkOrderRequest :=
  let idempotency_key := wo_idempotency_key (sw_payload work_order) in
  work_order_digest ← of_res (WorkOrderV1_digest (sw_payload work_order)) invalid_order;
  let request :=
    mkSubmitWorkOrderRequest SUBMIT_WORK_ORDER_REQUEST_SCHEMA_V1 idempotency_key
      work_order_digest work_order in
  SubmitWorkOrderRequest_validate request ;;
  Success request.

Record QualifiedSubmissionIdentityV1 := mkQualifiedSubmissionIdentityV1 {
  qs_tenant_id : TenantId;
  qs_work_order_id : WorkOrderId;
  qs_work_item_id : WorkItemId;
  qs_attempt_id : AttemptId;
  qs_idempotency_key : string;
  qs_work_order_digest : string;
  qs_request_digest : string
}.

Definition QualifiedSubmissionIdentityV1_validate (q : QualifiedSubmissionIdentityV1)
  : RunmillResult unit :=
  refuse_if (is_nil (qs_tenant_id q)) (InvalidRequest [Lit "tenant_id cannot be nil"]) ;;
  refuse_if (is_nil (qs_work_order_id q)) (InvalidRequest [Lit "work_order_id cannot be nil"]) ;;
  refuse_if (is_nil (qs_work_item_id q)) (InvalidRequest [Lit "work_item_id cannot be nil"]) ;;
  refuse_if (is_nil (qs_attempt_id q)) (InvalidRequest [Lit "attempt_id cannot be nil"]) ;;
  refuse_if (blank (qs_idempotency_key q)) (InvalidRequest [Lit "idempotency key is required"]) ;;
  refuse_if (negb (is_sha256_digest (qs_work_order_digest q)))
    (InvalidRequest [Lit "work_order_digest must be a valid SHA256 digest"]) ;;
  refuse_if (negb (is_sha256_digest (qs_request_digest q)))
    (InvalidRequest [Lit "request_digest must be a valid SHA256 digest"]).

Definition from_submit_work_order_request (r : SubmitWorkOrderRequest)
  : RunmillResult QualifiedSubmissionIdentityV1 :=
  SubmitWorkOrderRequest_validate r ;;
  request_digest ← of_res (digest_canonical (sr_work_order r))
    (λ error, InvalidRequest (Lit "invalid signed Work Order envelope: " :: Error_to_message error));
  let payload := sw_payload (sr_work_order r) in
  let identity :=
    {| qs_tenant_id := wo_tenant_id payload; qs_work_order_id := wo_work_order_id payload;
       qs_work_item_id := wo_work_item_id payload; qs_attempt_id := wo_attempt_id payload;
       qs_idempotency_key := sr_idempotency_key r; qs_work_order_digest := sr_work_order_digest r;
       qs_request_digest := request_digest |} in
  QualifiedSubmissionIdentityV1_validate identity ;;
  Success identity.
End submission.

#[global] Instance QualifiedSubmissionIdentityV1_eq_dec :
  EqDecision QualifiedSubmissionIdentityV1.
Proof. solve_decision. Defined.

(** ** Runs *)

Inductive RunLookup :=
| RunLookup_RunId (run_id : RunId)
| RunLookup_AttemptId (attempt_id : AttemptId)
| RunLookup_IdempotencyKey (key : string).

Record GetRunRequest := mkGetRunRequest {
  gr_schema : string;
  gr_lookup : RunLookup
}.

Definition by_run_id (run_id : RunId) : GetRunRequest :=
  mkGetRunRequest GET_RUN_REQUEST_SCHEMA_V1 (RunLookup_RunId run_id).
Definition by_attempt_id (attempt_id : AttemptId) : GetRunRequest :=
  mkGetRunRequest GET_RUN_REQUEST_SCHEMA_V1 (RunLookup_AttemptId attempt_id).
Definition by_idempotency_key (key : string) : GetRunRequest :=
  mkGetRunRequest GET_RUN_REQUEST_SCHEMA_V1 (RunLookup_IdempotencyKey key).

Definition GetRunRequest_validate (r : GetRunRequest) : RunmillResult unit :=
  refuse_if (negb (bool_decide (gr_schema r = GET_RUN_REQUEST_SCHEMA_V1)))
    (InvalidRequest [Lit "unsupported get-run request schema"]) ;;
  refuse_if (match gr_lookup r with RunLookup_IdempotencyKey key => blank key | _ => false end)
    (InvalidRequest [Lit "run lookup idempotency key is required"]).

Module RunmillRunState.
Inductive RunmillRunState :=
| Accepted | Queued | Running | WaitingApproval | NeedsHuman | BlockedExternal
| CancelRequested | Cancelled | TargetReached | Failed | Quarantined.
End RunmillRunState.
Abbreviation RunmillRunState := RunmillRunState.RunmillRunState.

Definition RunmillRunState_is_terminal (s : RunmillRunState) : bool :=
  match s with
  | RunmillRunState.Cancelled | RunmillRunState.TargetReached | RunmillRunState.Failed
  | RunmillRunState.Quarantined => true
  | _ => false
  end.

(** An opaque position after a delivered event. *)
Record EventCursor := mkEventCursor { cursor_str : string }.

Definition EventCursor_from_opaque (value : string) : RunmillResult EventCursor :=
  refuse_if (blank value) (InvalidCursor [Lit "event cursor cannot be empty"]) ;;
  Success (mkEventCursor value).

Record RunSnapshot := mkRunSnapshot {
  rn_schema : string;
  rn_run_id : RunId;
  rn_attempt_id : AttemptId;
  rn_idempotency_key : string;
  rn_work_order_digest : string;
  rn_worker_id : WorkerId;
  rn_worker_generation : Z;
  rn_state : RunmillRunState;
  rn_aggregate_version : Z;
  rn_last_event_cursor : option EventCursor;
  rn_evidence_digest : option string;
  rn_outcome_acknowledged : bool;
  rn_accepted_at : DateTime;
  rn_updated_at : DateTime
}.

Record GetRunReceipt := mkGetRunReceipt {
  gre_schema : string;
  gre_run : option RunSnapshot
}.

(** ** Events, cancellation, evidence and acknowledgement *)

Record GetRunEventsRequest := mkGetRunEventsRequest {
  ge_schema : string;
  ge_run_id : RunId;
  ge_after : option EventCursor;
  ge_limit : Z
}.

Definition first_page (run_id : RunId) (limit : Z) : GetRunEventsRequest :=
  mkGetRunEventsRequest GET_RUN_EVENTS_REQUEST_SCHEMA_V1 run_id None limit.

Definition GetRunEventsRequest_validate (r : GetRunEventsRequest) (max_page_size : Z)
  : RunmillResult unit :=
  refuse_if (negb (bool_decide (ge_schema r = GET_RUN_EVENTS_REQUEST_SCHEMA_V1)))
    (InvalidRequest [Lit "unsupported run-event request schema"]) ;;
  refuse_if ((ge_limit r =? 0) || (max_page_size <? ge_limit r))
    (InvalidRequest [Lit "event page limit must be within 1..="; FmtNum max_page_size]).

Record RunEventPage := mkRunEventPage {
  ep_schema : string;
  ep_run_id : RunId;
  ep_after : option EventCursor;
  ep_events : list ProductEvent;
  ep_next_cursor : option EventCursor;
  ep_has_more : bool;
  ep_snapshot : RunSnapshot
}.

Record CancelRunRequest := mkCancelRunRequest {
  cr_schema : string;
  cr_run_id : RunId;
  cr_idempotency_key : string;
  cr_reason : string;
  cr_requested_at : DateTime
}.

#[global] Instance CancelRunRequest_eq_dec : EqDecision CancelRunRequest.
Proof. solve_decision. Defined.

Definition CancelRunRequest_validate (r : CancelRunRequest) : RunmillResult unit :=
  refuse_if (negb (bool_decide (cr_schema r = CANCEL_RUN_REQUEST_SCHEMA_V1)))
    (InvalidRequest [Lit "unsupported cancel-run request schema"]) ;;
  refuse_if (blank (cr_idempotency_key r) || blank (cr_reason r))
    (InvalidRequest [Lit "cancellation idempotency key and reason are required"]).

Module CancellationDisposition.
Inductive CancellationDisposition := Requested | Adopted | AlreadyTerminal.
End CancellationDisposition.
Abbreviation CancellationDisposition := CancellationDisposition.CancellationDisposition.

Record CancelRunReceipt := mkCancelRunReceipt {
  cre_schema : string;
  cre_run_id : RunId;
  cre_idempotency_key : string;
  cre_disposition : CancellationDisposition;
  cre_state : RunmillRunState;
  cre_aggregate_version : Z;
  cre_recorded_at : DateTime
}.

Record GetEvidenceRequest := mkGetEvidenceRequest {
  gv_schema : string;
  gv_run_id : RunId
}.

Definition for_run (run_id : RunId) : GetEvidenceRequest :=
  mkGetEvidenceRequest GET_EVIDENCE_REQUEST_SCHEMA_V1 run_id.

Definition GetEvidenceRequest_validate (r : GetEvidenceRequest) : RunmillResult unit :=
  refuse_if (negb (bool_decide (gv_schema r = GET_EVIDENCE_REQUEST_SCHEMA_V1)))
    (InvalidRequest [Lit "unsupported get-evidence request schema"]).

Record GetEvidenceReceipt := mkGetEvidenceReceipt {
  gve_schema : string;
  gve_run_id : RunId;
  gve_evidence : option SignedEvidenceBundle
}.

Record AcknowledgeOutcomeRequest := mkAcknowledgeOutcomeRequest {
  ak_schema : string;
  ak_run_id : RunId;
  ak_idempotency_key : string;
  ak_evidence_digest : string;
  ak_acknowledged_at : DateTime
}.

#[global] Instance AcknowledgeOutcomeRequest_eq_dec : EqDecision AcknowledgeOutcomeRequest.
Proof. solve_decision. Defined.

Definition AcknowledgeOutcomeRequest_validate (r : AcknowledgeOutcomeRequest)
  : RunmillResult unit :=
  refuse_if (negb (bool_decide (ak_schema r = ACKNOWLEDGE_OUTCOME_REQUEST_SCHEMA_V1)))
    (InvalidRequest [Lit "unsupported outcome-acknowledgement request schema"]) ;;
  refuse_if (blank (ak_idempotency_key r) || blank (ak_evidence_digest r))
    (InvalidRequest [Lit "acknowledgement idempotency key and evidence digest are required"]).

Module AcknowledgementDisposition.
Inductive AcknowledgementDisposition := Recorded | Adopted.
End AcknowledgementDisposition.
Abbreviation AcknowledgementDisposition := AcknowledgementDisposition.AcknowledgementDisposition.

Record AcknowledgeOutcomeReceipt := mkAcknowledgeOutcomeReceipt {
  ake_schema : string;
  ake_run_id : RunId;
  ake_idempotency_key : string;
  ake_evidence_digest : string;
  ake_disposition : AcknowledgementDisposition;
  ake_aggregate_version : Z;
  ake_recorded_at : DateTime
}.

(** ** Qualified lookup *)

Record LookupQualifiedSubmissionRequest := mkLookupQualifiedSubmissionRequest {
  lq_schema : string;
  lq_qualification : QualifiedSubmissionIdentityV1
}.

Definition LookupQualifiedSubmissionRequest_validate (r : LookupQualifiedSubmissionRequest)
  : RunmillResult unit :=
  refuse_if (negb (bool_decide (lq_schema r = LOOKUP_QUALIFIED_SUBMISSION_REQUEST_SCHEMA_V1)))
    (InvalidRequest [Lit "unsupported lookup-qualified-submission request schema"]) ;;
  QualifiedSubmissionIdentityV1_validate (lq_qualification r) ;;
  Success tt.

Definition LookupQualifiedSubmissionRequest_new (qualification : QualifiedSubmissionIdentityV1)
  : RunmillResult LookupQualifiedSubmissionRequest :=
  let request := mkLookupQualifiedSubmissionRequest
    LOOKUP_QUALIFIED_SUBMISSION_REQUEST_SCHEMA_V1 qualification in
  LookupQualifiedSubmissionRequest_validate request ;;
  Success request.

Record QualifiedSubmissionAdmissionWorkerV1 := mkAdmissionWorker {
  aw_worker_id : WorkerId;
  aw_worker_generation : Z
}.

Definition AdmissionWorker_validate (w : QualifiedSubmissionAdmissionWorkerV1)
  : RunmillResult unit :=
  refuse_if (is_nil (aw_worker_id w)) (InvalidRequest [Lit "worker_id cannot be nil"]) ;;
  refuse_if (aw_worker_generation w =? 0)
    (InvalidRequest [Lit "worker_generation must be greater than 0"]).

Record QualifiedSubmissionFound := mkQualifiedSubmissionFound {
  qf_qualification : QualifiedSubmissionIdentityV1;
  qf_run : RunSnapshot;
  qf_admission_worker : QualifiedSubmissionAdmissionWorkerV1
}.

Inductive LookupQualifiedSubmissionOutcome :=
| LookupFound (found : QualifiedSubmissionFound)
| LookupNotFound.

Record LookupQualifiedSubmissionReceipt := mkLookupQualifiedSubmissionReceipt {
  lqr_schema : string;
  lqr_outcome : LookupQualifiedSubmissionOutcome
}.

Definition validate_against (receipt : LookupQualifiedSubmissionReceipt)
    (r : LookupQualifiedSubmissionRequest) : RunmillResult unit :=
  refuse_if (negb (bool_decide (lqr_schema receipt = LOOKUP_QUALIFIED_SUBMISSION_RECEIPT_SCHEMA_V1)))
    (InvalidRequest [Lit "unsupported lookup-qualified-submission receipt schema"]) ;;
  match lqr_outcome receipt with
  | LookupFound found =>
      refuse_if (negb (bool_decide (qf_qualification found = lq_qualification r)))
        (InvalidRequest [Lit "receipt qualification does not match request qualification"]) ;;
      refuse_if (negb (bool_decide (rn_attempt_id (qf_run found)
                                    = qs_attempt_id (lq_qualification r)))
                 || negb (bool_decide (rn_idempotency_key (qf_run found)
                                       = qs_idempotency_key (lq_qualification r)))
                 || negb (bool_decide (rn_work_order_digest (qf_run found)
                                       = qs_work_order_digest (lq_qualification r))))
        (InvalidRequest [Lit "receipt run does not match request qualification"]) ;;
      AdmissionWorker_validate (qf_admission_worker found) ;;
      refuse_if (negb (bool_decide (aw_worker_id (qf_admission_worker found)
                                    = rn_worker_id (qf_run found))))
        (InvalidRequest [Lit "receipt admission worker ID does not match run worker ID"]) ;;
      refuse_if (negb (aw_worker_generation (qf_admission_worker found)
                       =? rn_worker_generation (qf_run found)))
        (InvalidRequest [Lit "receipt admission worker generation does not match run worker generation"]) ;;
      Success tt
  | LookupNotFound => Success tt
  end.

(** ** The gateway *)

(** What the environment gives one call: the identifier of [RunId::new], the
    reading of [Utc::now] stored in the snapshot, and the one stored in the
    receipt of a cancellation or acknowledgement. *)
Record Environment := mkEnvironment {
  env_run_id : RunId;
  env_now : DateTime;
  env_later : DateTime
}.

(** [trait RunmillGateway]: the operations of a gateway with shared state [S].
    The two methods of the second version have default bodies in the source,
    [unsupported_negotiation] and [unsupported_lookup] below. *)
Class RunmillGateway (S : Type) := {
  negotiate : CapabilityNegotiationRequest → call S RunmillGatewayError RunmillCapabilities;
  submit_work_order :
    Environment → SubmitWorkOrderRequest → call S RunmillGatewayError SubmitWorkOrderReceipt;
  get_run : GetRunRequest → call S RunmillGatewayError GetRunReceipt;
  get_run_events : GetRunEventsRequest → call S RunmillGatewayError RunEventPage;
  cancel_run : Environment → CancelRunRequest → call S RunmillGatewayError CancelRunReceipt;
  get_evidence : GetEvidenceRequest → call S RunmillGatewayError GetEvidenceReceipt;
  acknowledge_outcome :
    Environment → AcknowledgeOutcomeRequest → call S RunmillGatewayError AcknowledgeOutcomeReceipt;
  negotiate_v2 :
    CapabilityNegotiationRequestV2 → call S RunmillGatewayError RunmillCapabilitiesV2;
  lookup_qualified_submission :
    LookupQualifiedSubmissionRequest → call S RunmillGatewayError LookupQualifiedSubmissionReceipt
}.

Definition unsupported_negotiation {S} (r : CapabilityNegotiationRequestV2)
  : call S RunmillGatewayError RunmillCapabilitiesV2 :=
  pure_call (CapabilityNegotiationRequestV2_validate r ;;
    Failure (UnsupportedContract [Lit "V2 capability negotiation is not supported"])).

Definition unsupported_lookup {S} (r : LookupQualifiedSubmissionRequest)
  : call S RunmillGatewayError LookupQualifiedSubmissionReceipt :=
  pure_call (LookupQualifiedSubmissionRequest_validate r ;;
    Failure (UnsupportedContract [Lit "qualified submission lookup is not supported"])).

(** What a gateway promises its clients: queries do not change the state, and
    an accepted submission is adopted when it is repeated. *)
Class GatewayContract (S : Type) `{RunmillGateway S} := {
  reads_are_pure (s : S) :
    (∀ r, (negotiate r s).1 = s) ∧ (∀ r, (get_run r s).1 = s) ∧
    (∀ r, (get_run_events r s).1 = s) ∧ (∀ r, (get_evidence r s).1 = s) ∧
    (∀ r, (negotiate_v2 r s).1 = s) ∧ (∀ r, (lookup_qualified_submission r s).1 = s);
  submission_adopted env r s s' receipt :
    submit_work_order env r s = (s', Success receipt) →
    ∀ env', submit_work_order env' r s'
      = (s', Success {| sre_schema := sre_schema receipt; sre_run_id := sre_run_id receipt;
                        sre_attempt_id := sre_attempt_id receipt;
                        sre_idempotency_key := sre_idempotency_key receipt;
                        sre_work_order_digest := sre_work_order_digest receipt;
                        sre_disposition := SubmissionDisposition.Adopted;
                        sre_accepted_at := sre_accepted_at receipt |});
  submission_refused_atomic env r s s' e :
    submit_work_order env r s = (s', Failure e) → s' = s
}.

(** A client that repeats a submission, as after a lost reply. *)
Fixpoint resubmit {S} `{RunmillGateway S} (envs : list Environment)
    (r : SubmitWorkOrderRequest) (s : S)
  : S * list (RunmillResult SubmitWorkOrderReceipt) :=
  match envs with
  | [] => (s, [])
  | env :: envs =>
      let (s', o) := submit_work_order env r s in
      let (s'', os) := resubmit envs r s' in
      (s'', o :: os)
  end.

Lemma resubmit_adopts {S} `{GatewayContract S} env envs r (s s' : S) receipt :
  submit_work_order env r s = (s', Success receipt) →
  (resubmit envs r s').1 = s' ∧
  Forall (λ o, ∃ again, o = Success again ∧ sre_run_id again = sre_run_id receipt)
    (resubmit envs r s').2.
Proof.
  intros Hs. induction envs as [|env' envs IH]; simpl; [done|].
  rewrite (submission_adopted _ _ _ _ _ Hs env'). destruct (resubmit envs r s') as [s2 os].
  simpl in *. destruct IH as [-> IH]. split; [done|]. constructor; [by eexists|done].
Qed.
