(* ===== verification/RunmillGateway.v ===== *)
(** The gateways of [src/src/adapters/runmill.rs]: the MCP adapter, which fails
    closed, and the in-memory gateway that fixes the behaviour of the contract.

    [FakeState] is the state behind the mutex.  An operation is a [call]: its
    steps change the state in the order of the source, so a call that fails
    half-way leaves what it wrote.  [RunId::new] and [Utc::now] come from the
    [Environment] of the call. *)

From Stdlib Require Import ZArith Lia Ascii Sorted.
From stdpp Require Import base tactics option list strings gmap pretty.
From S2P Require Import Prelude RustStr RustOrd Ids Authority Crypto WorkOrder Evidence Receipt Outcome RunmillPort.

(** ** The MCP adapter *)

Definition UNAVAILABLE_CONTRACT : string :=
  "the installed Runmill has not published compatible MCP schemas or semantic operation bindings".

(** [#[derive(Debug)]]. *)
Definition RunmillOperation_debug (o : RunmillOperation) : string :=
  match o with
  | RunmillOperation.SubmitWorkOrder => "SubmitWorkOrder"
  | RunmillOperation.GetRun => "GetRun"
  | RunmillOperation.GetRunEvents => "GetRunEvents"
  | RunmillOperation.CancelRun => "CancelRun"
  | RunmillOperation.GetEvidence => "GetEvidence"
  | RunmillOperation.AcknowledgeOutcome => "AcknowledgeOutcome"
  end.

Definition unsupported (o : RunmillOperation) : RunmillGatewayError :=
  UnsupportedContract [Disp (RunmillOperation_debug o); Lit ": "; Lit UNAVAILABLE_CONTRACT].

Definition unavailable : RunmillGatewayError := UnsupportedContract [Lit UNAVAILABLE_CONTRACT].

Record RunmillMcpAdapter := mkRunmillMcpAdapter {}.

Definition mcp_gateway `{UrlCrate, Hashing, Canonical WorkOrderV1}
  : RunmillGateway RunmillMcpAdapter :=
  {| negotiate r := pure_call (CapabilityNegotiationRequest_validate r ;; Failure unavailable);
     submit_work_order _ r := pure_call (SubmitWorkOrderRequest_validate r ;;
       Failure (unsupported RunmillOperation.SubmitWorkOrder));
     get_run r := pure_call (GetRunRequest_validate r ;;
       Failure (unsupported RunmillOperation.GetRun));
     get_run_events _ := pure_call (Failure (unsupported RunmillOperation.GetRunEvents));
     cancel_run _ r := pure_call (CancelRunRequest_validate r ;;
       Failure (unsupported RunmillOperation.CancelRun));
     get_evidence r := pure_call (GetEvidenceRequest_validate r ;;
       Failure (unsupported RunmillOperation.GetEvidence));
     acknowledge_outcome _ r := pure_call (AcknowledgeOutcomeRequest_validate r ;;
       Failure (unsupported RunmillOperation.AcknowledgeOutcome));
     negotiate_v2 r := pure_call (CapabilityNegotiationRequestV2_validate r ;;
       Failure unavailable);
     lookup_qualified_submission r := pure_call (LookupQualifiedSubmissionRequest_validate r ;;
       Failure unavailable) |}.

(** ** State *)

Record SubmissionRecord := mkSubmissionRecord {
  sbr_receipt : SubmitWorkOrderReceipt;
  sbr_qualification : QualifiedSubmissionIdentityV1
}.

Record CancellationRecord := mkCancellationRecord {
  cnr_request : CancelRunRequest;
  cnr_receipt : CancelRunReceipt
}.

Record AcknowledgementRecord := mkAcknowledgementRecord {
  akr_request : AcknowledgeOutcomeRequest;
  akr_receipt : AcknowledgeOutcomeReceipt
}.

Record FakeRunRecord := mkFakeRunRecord {
  fr_snapshot : RunSnapshot;
  fr_events : list ProductEvent;
  fr_evidence : option SignedEvidenceBundle
}.

Record FakeState := mkFakeState {
  fs_submissions : gmap string SubmissionRecord;
  fs_runs : gmap RunId FakeRunRecord;
  fs_run_by_attempt : gmap AttemptId RunId;
  fs_event_ids : gset EventId;
  fs_cancellations : gmap (RunId * string) CancellationRecord;
  fs_acknowledgements : gmap (RunId * string) AcknowledgementRecord
}.

(** [FakeState::default]. *)
Definition FakeState_default : FakeState := mkFakeState ∅ ∅ ∅ ∅ ∅ ∅.

(** The immutable part of [InMemoryRunmillGateway]. *)
Record InMemoryRunmillGateway := mkInMemoryRunmillGateway {
  im_capabilities : RunmillCapabilities;
  im_capabilities_v2 : RunmillCapabilitiesV2
}.

Definition InMemoryRunmillGateway_new (worker_id : WorkerId) (worker_generation : Z)
  : InMemoryRunmillGateway :=
  mkInMemoryRunmillGateway (prospective_v1 worker_id worker_generation)
    (prospective_v2 worker_id worker_generation).

(** Assignments to the fields of a snapshot. *)
Definition set_rn_state (v : RunmillRunState) (s : RunSnapshot) : RunSnapshot :=
  let 'mkRunSnapshot a b c d e f g _ i j k l m n := s in mkRunSnapshot a b c d e f g v i j k l m n.
Definition set_rn_version (v : Z) (s : RunSnapshot) : RunSnapshot :=
  let 'mkRunSnapshot a b c d e f g h _ j k l m n := s in mkRunSnapshot a b c d e f g h v j k l m n.
Definition set_rn_cursor (v : option EventCursor) (s : RunSnapshot) : RunSnapshot :=
  let 'mkRunSnapshot a b c d e f g h i _ k l m n := s in mkRunSnapshot a b c d e f g h i v k l m n.
Definition set_rn_evidence_digest (v : option string) (s : RunSnapshot) : RunSnapshot :=
  let 'mkRunSnapshot a b c d e f g h i j _ l m n := s in mkRunSnapshot a b c d e f g h i j v l m n.
Definition set_rn_acknowledged (v : bool) (s : RunSnapshot) : RunSnapshot :=
  let 'mkRunSnapshot a b c d e f g h i j k _ m n := s in mkRunSnapshot a b c d e f g h i j k v m n.
Definition set_rn_updated_at (v : DateTime) (s : RunSnapshot) : RunSnapshot :=
  let 'mkRunSnapshot a b c d e f g h i j k l m _ := s in mkRunSnapshot a b c d e f g h i j k l m v.

Definition on_snapshot (f : RunSnapshot → RunSnapshot) (r : FakeRunRecord) : FakeRunRecord :=
  mkFakeRunRecord (f (fr_snapshot r)) (fr_events r) (fr_evidence r).
Definition push_event (e : ProductEvent) (r : FakeRunRecord) : FakeRunRecord :=
  mkFakeRunRecord (fr_snapshot r) (fr_events r ++ [e]) (fr_evidence r).
Definition set_fr_evidence (v : option SignedEvidenceBundle) (r : FakeRunRecord) : FakeRunRecord :=
  mkFakeRunRecord (fr_snapshot r) (fr_events r) v.

Definition set_submissions (f : gmap string SubmissionRecord → gmap string SubmissionRecord)
    (s : FakeState) : FakeState :=
  let 'mkFakeState a b c d e g := s in mkFakeState (f a) b c d e g.
Definition set_runs (f : gmap RunId FakeRunRecord → gmap RunId FakeRunRecord)
    (s : FakeState) : FakeState :=
  let 'mkFakeState a b c d e g := s in mkFakeState a (f b) c d e g.
Definition set_run_by_attempt (f : gmap AttemptId RunId → gmap AttemptId RunId)
    (s : FakeState) : FakeState :=
  let 'mkFakeState a b c d e g := s in mkFakeState a b (f c) d e g.
Definition set_event_ids (f : gset EventId → gset EventId) (s : FakeState) : FakeState :=
  let 'mkFakeState a b c d e g := s in mkFakeState a b c (f d) e g.
Definition set_cancellations
    (f : gmap (RunId * string) CancellationRecord → gmap (RunId * string) CancellationRecord)
    (s : FakeState) : FakeState :=
  let 'mkFakeState a b c d e g := s in mkFakeState a b c d (f e) g.
Definition set_acknowledgements
    (f : gmap (RunId * string) AcknowledgementRecord → gmap (RunId * string) AcknowledgementRecord)
    (s : FakeState) : FakeState :=
  let 'mkFakeState a b c d e g := s in mkFakeState a b c d e (f g).

Abbreviation gcall := (call FakeState RunmillGatewayError).

(** [state.runs.get(&run_id).ok_or(RunNotFound(run_id))?]. *)
Definition find_run (run_id : RunId) : gcall FakeRunRecord :=
  λ s, (s, or_fail (fs_runs s !! run_id) (RunNotFound run_id)).

(** A write through [state.runs.get_mut(&run_id)]. *)
Definition update_run (run_id : RunId) (f : FakeRunRecord → FakeRunRecord) : gcall unit :=
  modify (set_runs (alter f run_id)).

(** [record.snapshot.aggregate_version = ….checked_add(1).ok_or_else(…)?]. *)
Definition bump_version (run_id : RunId) : gcall unit :=
  record ← find_run run_id;
  v ← pure_call (or_fail (checked_add u64_max (rn_aggregate_version (fr_snapshot record)) 1)
        (InvalidRequest [Lit "run aggregate version overflowed"]));
  update_run run_id (on_snapshot (set_rn_version v)).

Section gateway.
  Context {url : UrlCrate} {hashing : Hashing} {uuids : UuidText}.
  Context {order_jcs : Canonical WorkOrderV1} {signed_jcs : Canonical SignedWorkOrder}.
  Context {bundle_jcs : Canonical EvidenceBundleV1}.
  Context {cancel_jcs : Canonical CancelRunRequest} {ack_jcs : Canonical AcknowledgeOutcomeRequest}.
  Context (gw : InMemoryRunmillGateway).

(** ** Cursors *)

Definition cursor_prefix (run_id : RunId) : string :=
  "v1:" +:+ uuid_to_string run_id +:+ ":".

Definition cursor_for (run_id : RunId) (offset : nat) : RunmillResult EventCursor :=
  match EventCursor_from_opaque (cursor_prefix run_id +:+ pretty (N.of_nat offset)) with
  | Success cursor => Success cursor
  | _ => Crash
  end.

Definition parse_cursor (cursor : EventCursor) (run_id : RunId) (event_count : nat)
  : RunmillResult nat :=
  rest ← or_fail (strip_prefix (cursor_prefix run_id) (cursor_str cursor))
    (InvalidCursor [Lit "cursor belongs to another run or schema"]);
  offset ← or_fail (parse_unsigned u64_max rest)
    (InvalidCursor [Lit "cursor position is malformed"]);
  refuse_if (Z.of_nat event_count <? offset)
    (InvalidCursor [Lit "cursor is ahead of the durable event stream"]) ;;
  Success (Z.to_nat offset).

Definition idempotency_conflict {T} `{Canonical T} (key : string) (existing submitted : T)
  : RunmillGatewayError :=
  let digest value :=
    match to_jcs value with inl _ => "unserializable" | inr bytes => sha256_digest bytes end in
  IdempotencyConflict key (digest existing) (digest submitted).

(** ** Worker side *)

Definition append_event (env : Environment) (run_id : RunId) (event : ProductEvent)
  : gcall EventCursor :=
  seen ← gets (λ s, bool_decide (pe_event_id event ∈ fs_event_ids s));
  pure_call (refuse_if seen
    (InvalidRequest [Lit "duplicate event ID "; FmtUuid (pe_event_id event)])) ;;
  record ← find_run run_id;
  pure_call (refuse_if (negb (bool_decide (pe_run_id event = Some run_id)))
    (InvalidRequest [Lit "event is not bound to the requested run"])) ;;
  expected_version ← pure_call
    (or_fail (checked_add u64_max (rn_aggregate_version (fr_snapshot record)) 1)
       (InvalidRequest [Lit "run aggregate version overflowed"]));
  pure_call (refuse_if (negb (pe_aggregate_version event =? expected_version))
    (InvalidRequest [Lit "event aggregate version must be "; FmtNum expected_version;
                     Lit ", got "; FmtNum (pe_aggregate_version event)])) ;;
  modify (set_event_ids (λ ids, {[ pe_event_id event ]} ∪ ids)) ;;
  update_run run_id (push_event event) ;;
  cursor ← pure_call (cursor_for run_id (length (fr_events record ++ [event])));
  update_run run_id (on_snapshot (set_rn_version expected_version)) ;;
  update_run run_id (on_snapshot (set_rn_cursor (Some cursor))) ;;
  update_run run_id (on_snapshot (set_rn_updated_at (env_now env))) ;;
  mret cursor.

Definition attach_evidence (env : Environment) (run_id : RunId) (evidence : SignedEvidenceBundle)
  : gcall unit :=
  pure_call (refuse_if (negb (bool_decide (sb_envelope_schema evidence = EVIDENCE_ENVELOPE_SCHEMA_V1))
                        || negb (bool_decide (sb_algorithm evidence = "EdDSA"))
                        || blank (sb_key_id evidence) || blank (sb_signature evidence))
    (InvalidRequest [Lit "evidence envelope is incomplete or unsupported"])) ;;
  digest ← pure_call (of_res (digest_canonical (sb_payload evidence))
    (λ error, InvalidRequest (Lit "invalid evidence payload: " :: Error_to_message error)));
  pure_call (refuse_if (negb (bool_decide (digest = sb_payload_digest evidence)))
    (InvalidRequest [Lit "evidence payload digest mismatch"])) ;;
  record ← find_run run_id;
  let payload := sb_payload evidence in
  let snapshot := fr_snapshot record in
  pure_call (refuse_if (negb (bool_decide (eb_run_id payload = run_id))
                        || negb (bool_decide (eb_attempt_id payload = rn_attempt_id snapshot))
                        || negb (bool_decide (eb_work_order_digest payload
                                              = rn_work_order_digest snapshot))
                        || negb (bool_decide (eb_worker_id payload = rn_worker_id snapshot))
                        || negb (eb_worker_generation payload =? rn_worker_generation snapshot))
    (InvalidRequest [Lit "evidence is not bound to the adopted run and worker generation"])) ;;
  update_run run_id (on_snapshot (set_rn_evidence_digest (Some digest))) ;;
  (if eb_target_satisfied payload
   then update_run run_id (on_snapshot (set_rn_state RunmillRunState.TargetReached))
   else mret tt) ;;
  bump_version run_id ;;
  update_run run_id (on_snapshot (set_rn_updated_at (env_now env))) ;;
  update_run run_id (set_fr_evidence (Some evidence)).

(** ** Control side *)

Definition fake_negotiate (r : CapabilityNegotiationRequest) : gcall RunmillCapabilities :=
  pure_call (RunmillCapabilities_satisfy (im_capabilities gw) r) ;;
  mret (im_capabilities gw).

Definition adopt_submission (receipt : SubmitWorkOrderReceipt) : SubmitWorkOrderReceipt :=
  let 'mkSubmitWorkOrderReceipt a b c d e _ g := receipt in
  mkSubmitWorkOrderReceipt a b c d e SubmissionDisposition.Adopted g.

Definition fake_submit (env : Environment) (r : SubmitWorkOrderRequest)
  : gcall SubmitWorkOrderReceipt :=
  pure_call (SubmitWorkOrderRequest_validate r) ;;
  existing ← gets (λ s, fs_submissions s !! sr_idempotency_key r);
  match existing with
  | Some existing =>
      pure_call (refuse_if (negb (bool_decide (qs_work_order_digest (sbr_qualification existing)
                                               = sr_work_order_digest r)))
        (IdempotencyConflict (sr_idempotency_key r)
           (qs_work_order_digest (sbr_qualification existing)) (sr_work_order_digest r))) ;;
      mret (adopt_submission (sbr_receipt existing))
  | None =>
      let attempt_id := wo_attempt_id (sw_payload (sr_work_order r)) in
      adopted ← gets (λ s, fs_run_by_attempt s !! attempt_id);
      match adopted with
      | Some existing_run_id =>
          pure_call (Failure (InvalidRequest
            [Lit "attempt "; FmtUuid attempt_id; Lit " is already adopted by run ";
             FmtUuid existing_run_id]))
      | None =>
          let run_id := env_run_id env in
          let now := env_now env in
          let receipt :=
            {| sre_schema := SUBMIT_WORK_ORDER_RECEIPT_SCHEMA_V1; sre_run_id := run_id;
               sre_attempt_id := attempt_id; sre_idempotency_key := sr_idempotency_key r;
               sre_work_order_digest := sr_work_order_digest r;
               sre_disposition := SubmissionDisposition.Accepted; sre_accepted_at := now |} in
          let snapshot :=
            {| rn_schema := RUN_SNAPSHOT_SCHEMA_V1; rn_run_id := run_id;
               rn_attempt_id := attempt_id; rn_idempotency_key := sr_idempotency_key r;
               rn_work_order_digest := sr_work_order_digest r;
               rn_worker_id := rc_worker_id (im_capabilities gw);
               rn_worker_generation := rc_worker_generation (im_capabilities gw);
               rn_state := RunmillRunState.Accepted; rn_aggregate_version := 1;
               rn_last_event_cursor := None; rn_evidence_digest := None;
               rn_outcome_acknowledged := false; rn_accepted_at := now;
               rn_updated_at := now |} in
          qualification ← pure_call (from_submit_work_order_request r);
          modify (set_run_by_attempt <[attempt_id := run_id]>) ;;
          modify (set_runs <[run_id := mkFakeRunRecord snapshot [] None]>) ;;
          modify (set_submissions
            <[sr_idempotency_key r := mkSubmissionRecord receipt qualification]>) ;;
          mret receipt
      end
  end.

Definition fake_get_run (r : GetRunRequest) : gcall GetRunReceipt :=
  pure_call (GetRunRequest_validate r) ;;
  run ← gets (λ s,
    let run_id :=
      match gr_lookup r with
      | RunLookup_RunId run_id => Some run_id
      | RunLookup_AttemptId attempt_id => fs_run_by_attempt s !! attempt_id
      | RunLookup_IdempotencyKey key => (λ sub, sre_run_id (sbr_receipt sub)) <$> fs_submissions s !! key
      end in
    run_id ≫= λ run_id, fr_snapshot <$> fs_runs s !! run_id);
  mret (mkGetRunReceipt GET_RUN_RECEIPT_SCHEMA_V1 run).

Definition fake_get_run_events (r : GetRunEventsRequest) : gcall RunEventPage :=
  pure_call (GetRunEventsRequest_validate r (rc_max_event_page_size (im_capabilities gw))) ;;
  record ← find_run (ge_run_id r);
  offset ← pure_call (match ge_after r with
    | None => Success 0%nat
    | Some cursor => parse_cursor cursor (ge_run_id r) (length (fr_events record))
    end);
  let limit := Z.to_nat (ge_limit r) in
  let end_ := Nat.min (offset + limit) (length (fr_events record)) in
  next_cursor ← pure_call (if (0 <? end_)%nat
    then cursor ← cursor_for (ge_run_id r) end_; Success (Some cursor)
    else Success None);
  mret {| ep_schema := RUN_EVENT_PAGE_SCHEMA_V1; ep_run_id := ge_run_id r;
          ep_after := ge_after r;
          ep_events := take (end_ - offset) (drop offset (fr_events record));
          ep_next_cursor := next_cursor;
          ep_has_more := (end_ <? length (fr_events record))%nat;
          ep_snapshot := fr_snapshot record |}.

Definition adopt_cancellation (receipt : CancelRunReceipt) : CancelRunReceipt :=
  let 'mkCancelRunReceipt a b c _ e f g := receipt in
  mkCancelRunReceipt a b c CancellationDisposition.Adopted e f g.

Definition fake_cancel (env : Environment) (r : CancelRunRequest) : gcall CancelRunReceipt :=
  pure_call (CancelRunRequest_validate r) ;;
  let key := (cr_run_id r, cr_idempotency_key r) in
  existing ← gets (λ s, fs_cancellations s !! key);
  match existing with
  | Some existing =>
      pure_call (refuse_if (negb (bool_decide (cnr_request existing = r)))
        (idempotency_conflict (cr_idempotency_key r) (cnr_request existing) r)) ;;
      mret (adopt_cancellation (cnr_receipt existing))
  | None =>
      record ← find_run (cr_run_id r);
      disposition ←
        (if RunmillRunState_is_terminal (rn_state (fr_snapshot record))
         then mret CancellationDisposition.AlreadyTerminal
         else
           update_run (cr_run_id r) (on_snapshot (set_rn_state RunmillRunState.CancelRequested)) ;;
           bump_version (cr_run_id r) ;;
           update_run (cr_run_id r) (on_snapshot (set_rn_updated_at (env_now env))) ;;
           mret CancellationDisposition.Requested);
      record ← find_run (cr_run_id r);
      let receipt :=
        {| cre_schema := CANCEL_RUN_RECEIPT_SCHEMA_V1; cre_run_id := cr_run_id r;
           cre_idempotency_key := cr_idempotency_key r; cre_disposition := disposition;
           cre_state := rn_state (fr_snapshot record);
           cre_aggregate_version := rn_aggregate_version (fr_snapshot record);
           cre_recorded_at := env_later env |} in
      modify (set_cancellations <[key := mkCancellationRecord r receipt]>) ;;
      mret receipt
  end.

Definition fake_get_evidence (r : GetEvidenceRequest) : gcall GetEvidenceReceipt :=
  pure_call (GetEvidenceRequest_validate r) ;;
  record ← find_run (gv_run_id r);
  mret (mkGetEvidenceReceipt GET_EVIDENCE_RECEIPT_SCHEMA_V1 (gv_run_id r) (fr_evidence record)).

Definition adopt_acknowledgement (receipt : AcknowledgeOutcomeReceipt)
  : AcknowledgeOutcomeReceipt :=
  let 'mkAcknowledgeOutcomeReceipt a b c d _ f g := receipt in
  mkAcknowledgeOutcomeReceipt a b c d AcknowledgementDisposition.Adopted f g.

Definition fake_acknowledge (env : Environment) (r : AcknowledgeOutcomeRequest)
  : gcall AcknowledgeOutcomeReceipt :=
  pure_call (AcknowledgeOutcomeRequest_validate r) ;;
  let key := (ak_run_id r, ak_idempotency_key r) in
  existing ← gets (λ s, fs_acknowledgements s !! key);
  match existing with
  | Some existing =>
      pure_call (refuse_if (negb (bool_decide (akr_request existing = r)))
        (idempotency_conflict (ak_idempotency_key r) (akr_request existing) r)) ;;
      mret (adopt_acknowledgement (akr_receipt existing))
  | None =>
      record ← find_run (ak_run_id r);
      evidence ← pure_call (or_fail (fr_evidence record)
        (EvidenceUnavailable [Lit "run "; FmtUuid (ak_run_id r);
                              Lit " has not produced evidence"]));
      pure_call (refuse_if (negb (bool_decide (sb_payload_digest evidence = ak_evidence_digest r)))
        (EvidenceUnavailable [Lit "acknowledgement digest does not match the run evidence"])) ;;
      update_run (ak_run_id r) (on_snapshot (set_rn_acknowledged true)) ;;
      bump_version (ak_run_id r) ;;
      update_run (ak_run_id r) (on_snapshot (set_rn_updated_at (env_now env))) ;;
      record ← find_run (ak_run_id r);
      let receipt :=
        {| ake_schema := ACKNOWLEDGE_OUTCOME_RECEIPT_SCHEMA_V1; ake_run_id := ak_run_id r;
           ake_idempotency_key := ak_idempotency_key r;
           ake_evidence_digest := ak_evidence_digest r;
           ake_disposition := AcknowledgementDisposition.Recorded;
           ake_aggregate_version := rn_aggregate_version (fr_snapshot record);
           ake_recorded_at := env_later env |} in
      modify (set_acknowledgements <[key := mkAcknowledgementRecord r receipt]>) ;;
      mret receipt
  end.

Definition fake_negotiate_v2 (r : CapabilityNegotiationRequestV2) : gcall RunmillCapabilitiesV2 :=
  pure_call (RunmillCapabilitiesV2_satisfy (im_capabilities_v2 gw) r) ;;
  mret (im_capabilities_v2 gw).

(** The record an [if let] chain selects. *)
Definition qualified_run (q : QualifiedSubmissionIdentityV1) (s : FakeState)
  : option FakeRunRecord :=
  submission ← fs_submissions s !! qs_idempotency_key q;
  if bool_decide (sbr_qualification submission = q) then
    run_id ← fs_run_by_attempt s !! qs_attempt_id q;
    fs_runs s !! run_id
  else None.

Definition fake_lookup (r : LookupQualifiedSubmissionRequest)
  : gcall LookupQualifiedSubmissionReceipt :=
  pure_call (LookupQualifiedSubmissionRequest_validate r) ;;
  found ← gets (qualified_run (lq_qualification r));
  match found with
  | Some record =>
      let snapshot := fr_snapshot record in
      let admission_worker := mkAdmissionWorker (rn_worker_id snapshot) (rn_worker_generation snapshot) in
      let receipt := mkLookupQualifiedSubmissionReceipt
        LOOKUP_QUALIFIED_SUBMISSION_RECEIPT_SCHEMA_V1
        (LookupFound (mkQualifiedSubmissionFound (lq_qualification r) snapshot admission_worker)) in
      pure_call (validate_against receipt r) ;;
      mret receipt
  | None =>
      mret (mkLookupQualifiedSubmissionReceipt LOOKUP_QUALIFIED_SUBMISSION_RECEIPT_SCHEMA_V1
              LookupNotFound)
  end.

Definition run_count (s : FakeState) : nat := size (fs_runs s).

Definition in_memory_gateway : RunmillGateway FakeState :=
  {| negotiate := fake_negotiate; submit_work_order := fake_submit; get_run := fake_get_run;
     get_run_events := fake_get_run_events; cancel_run := fake_cancel;
     get_evidence := fake_get_evidence; acknowledge_outcome := fake_acknowledge;
     negotiate_v2 := fake_negotiate_v2; lookup_qualified_submission := fake_lookup |}.
End gateway.
