(* ===== verification/GatewayFacts.v ===== *)
(** What the in-memory gateway of [RunmillGateway] guarantees: the outcome of
    every operation, the invariant of its state, idempotency, and lossless
    delivery of events through cursors. *)

From Stdlib Require Import ZArith Lia Ascii Sorted.
From stdpp Require Import base tactics option list strings gmap pretty.
From S2P Require Import Prelude RustStr RustOrd Ids Authority Crypto WorkOrder Evidence Receipt Outcome RunmillPort RunmillGateway.

(** ** Steps of a call *)

(** Binding a step whose result is known. *)
Lemma call_bind_eq {S E A B} (m : call S E A) (f : A → call S E B) s :
  (m ≫= f) s = match m s with
               | (s', Success a) => f a s'
               | (s', Failure e) => (s', Failure e)
               | (s', Crash) => (s', Crash)
               end.
Proof. done. Qed.

Definition put_run (run_id : RunId) (r : FakeRunRecord) (s : FakeState) : FakeState :=
  set_runs <[run_id := r]> s.

Lemma runs_put_run run_id r s : fs_runs (put_run run_id r s) !! run_id = Some r.
Proof. destruct s. simpl. apply lookup_insert_eq. Qed.

Lemma put_run_twice run_id r r' s : put_run run_id r (put_run run_id r' s) = put_run run_id r s.
Proof. destruct s. unfold put_run. simpl. by rewrite insert_insert_eq. Qed.

Lemma update_run_spec run_id f r s :
  fs_runs s !! run_id = Some r →
  update_run run_id f s = (put_run run_id (f r) s, Success tt).
Proof.
  intros Hr. unfold update_run, modify, put_run. destruct s. simpl in *.
  by rewrite (alter_alt_Some _ _ _ _ Hr).
Qed.

Lemma update_put run_id f r s :
  update_run run_id f (put_run run_id r s) = (put_run run_id (f r) s, Success tt).
Proof. erewrite update_run_spec by apply runs_put_run. by rewrite put_run_twice. Qed.

Lemma find_run_spec run_id s :
  find_run run_id s = (s, or_fail (fs_runs s !! run_id) (RunNotFound run_id)).
Proof. done. Qed.

Lemma find_put run_id r s :
  find_run run_id (put_run run_id r s) = (put_run run_id r s, Success r).
Proof. unfold find_run. by rewrite runs_put_run. Qed.

Definition overflowed : RunmillGatewayError :=
  InvalidRequest [Lit "run aggregate version overflowed"].

Lemma bump_put run_id r s :
  bump_version run_id (put_run run_id r s) =
  match checked_add u64_max (rn_aggregate_version (fr_snapshot r)) 1 with
  | Some v => (put_run run_id (on_snapshot (set_rn_version v) r) s, Success tt)
  | None => (put_run run_id r s, Failure overflowed)
  end.
Proof.
  unfold bump_version. rewrite call_bind_eq, find_put, call_bind_eq. unfold pure_call.
  destruct (checked_add _ _ _); simpl or_fail; cbn iota; [apply update_put|done].
Qed.

Ltac call_step :=
  rewrite call_bind_eq;
  repeat first [ rewrite update_put | rewrite find_put | rewrite bump_put
               | progress (unfold pure_call, gets, modify, mret, call_ret) ];
  cbn beta iota.

(** Looking up a run only reads. *)
Lemma reads_find run_id : reads_only (find_run run_id).
Proof. done. Qed.
#[local] Hint Resolve reads_find : reads.

Section specs.
  Context {url : UrlCrate} {hashing : Hashing} {uuids : UuidText}.
  Context {order_jcs : Canonical WorkOrderV1} {signed_jcs : Canonical SignedWorkOrder}.
  Context {bundle_jcs : Canonical EvidenceBundleV1}.
  Context {cancel_jcs : Canonical CancelRunRequest} {ack_jcs : Canonical AcknowledgeOutcomeRequest}.
  Context (gw : InMemoryRunmillGateway).

(** The text of the cursor after [offset] events. *)
Definition cursor_at (run_id : RunId) (offset : nat) : EventCursor :=
  mkEventCursor (cursor_prefix run_id +:+ pretty (N.of_nat offset)).

Lemma cursor_for_ok run_id offset : cursor_for run_id offset = Success (cursor_at run_id offset).
Proof.
  unfold cursor_for, EventCursor_from_opaque.
  assert (blank (cursor_prefix run_id +:+ pretty (N.of_nat offset)) = false) as ->; [|done].
  by apply blank_head.
Qed.

Lemma string_app_assoc (a b c : string) : ((a +:+ b) +:+ c) = (a +:+ (b +:+ c)).
Proof. induction a as [|x a IH]; simpl; [done|]. by rewrite <- IH. Qed.

(** A cursor that the gateway issued leads back to its position. *)
Lemma parse_cursor_at run_id offset count :
  (offset ≤ count)%nat → Z.of_nat count ≤ u64_max →
  parse_cursor (cursor_at run_id offset) run_id count = Success offset.
Proof.
  intros Ho Hc. unfold parse_cursor, cursor_at, cursor_str.
  rewrite (proj2 (strip_prefix_spec (cursor_prefix run_id) _ _) eq_refl). simpl.
  rewrite parse_pretty by lia. simpl. rewrite (proj2 (Z.ltb_ge _ _)) by lia. simpl.
  f_equal. lia.
Qed.

(** A cursor of another run is refused. *)
Lemma parse_cursor_foreign `{!UuidHyphenated} run_id other offset count :
  other ≠ run_id →
  parse_cursor (cursor_at other offset) run_id count
  = Failure (InvalidCursor [Lit "cursor belongs to another run or schema"]).
Proof.
  intros Hne. unfold parse_cursor, cursor_at, cursor_prefix, cursor_str.
  destruct (strip_prefix _ _) as [rest|] eqn:E; [|done]. exfalso.
  apply strip_prefix_spec in E. rewrite !string_app_assoc in E. simpl in E. injection E as E.
  change (":" +:+ ?s) with (String ":"%char s) in E.
  assert (split_once ":"%char (uuid_to_string other +:+ String ":"%char (pretty (N.of_nat offset)))
    = Some (uuid_to_string run_id, rest)) as E2.
  { apply split_once_spec. split; [done|apply uuid_to_string_no_colon]. }
  rewrite (proj2 (split_once_spec _ _ _ _)
    (conj eq_refl (uuid_to_string_no_colon other))) in E2.
  injection E2 as E2 _. by apply uuid_to_string_inj in E2.
Qed.

(** ** Outcomes of the operations *)

Definition appended (env : Environment) (run_id : RunId) (e : ProductEvent) (r : FakeRunRecord)
  : FakeRunRecord :=
  on_snapshot (set_rn_updated_at (env_now env))
    (on_snapshot (set_rn_cursor (Some (cursor_at run_id (S (length (fr_events r))))))
      (on_snapshot (set_rn_version (rn_aggregate_version (fr_snapshot r) + 1))
        (push_event e r))).

Lemma append_event_spec env run_id e s :
  (∃ err, append_event env run_id e s = (s, Failure err)) ∨
  (∃ r, fs_runs s !! run_id = Some r ∧ (pe_event_id e ∉ fs_event_ids s) ∧
     pe_run_id e = Some run_id ∧
     rn_aggregate_version (fr_snapshot r) + 1 ≤ u64_max ∧
     pe_aggregate_version e = rn_aggregate_version (fr_snapshot r) + 1 ∧
     append_event env run_id e s =
       (put_run run_id (appended env run_id e r)
          (set_event_ids (λ ids, {[ pe_event_id e ]} ∪ ids) s),
        Success (cursor_at run_id (S (length (fr_events r)))))).
Proof.
  unfold append_event. do 2 call_step. case_bool_decide as Hid; [by left; eexists|].
  simpl refuse_if. cbn iota. rewrite call_bind_eq, find_run_spec.
  destruct (fs_runs s !! run_id) as [r|] eqn:Hr; [|by left; eexists].
  simpl or_fail. cbn iota. call_step.
  case_bool_decide as Hrun; [|by left; eexists]. simpl. call_step.
  destruct (checked_add _ _ _) as [v|] eqn:Hv; [|by left; eexists]. simpl. call_step.
  apply checked_add_some in Hv as [Hv ->].
  destruct (pe_aggregate_version e =? _) eqn:Hver; [|by left; eexists]. simpl. call_step.
  apply Z.eqb_eq in Hver. right. exists r. split_and!; try done.
  rewrite call_bind_eq, (update_run_spec _ _ r) by (by destruct s). cbn beta iota.
  rewrite call_bind_eq, cursor_for_ok. cbn iota.
  do 3 call_step. unfold appended, push_event. by rewrite length_app, Nat.add_1_r.
Qed.

(** The evidence belongs to the run. *)
Definition bound_evidence (run_id : RunId) (snapshot : RunSnapshot) (b : SignedEvidenceBundle)
  : Prop :=
  eb_run_id (sb_payload b) = run_id ∧ eb_attempt_id (sb_payload b) = rn_attempt_id snapshot ∧
  eb_work_order_digest (sb_payload b) = rn_work_order_digest snapshot ∧
  eb_worker_id (sb_payload b) = rn_worker_id snapshot ∧
  eb_worker_generation (sb_payload b) = rn_worker_generation snapshot ∧
  digest_canonical (sb_payload b) = Ok (sb_payload_digest b).

(** What [attach_evidence] writes before it counts the version. *)
Definition marked (b : SignedEvidenceBundle) (r : FakeRunRecord) : FakeRunRecord :=
  let r' := on_snapshot (set_rn_evidence_digest (Some (sb_payload_digest b))) r in
  if eb_target_satisfied (sb_payload b)
  then on_snapshot (set_rn_state RunmillRunState.TargetReached) r' else r'.

Definition attached (env : Environment) (b : SignedEvidenceBundle) (r : FakeRunRecord)
  : FakeRunRecord :=
  set_fr_evidence (Some b)
    (on_snapshot (set_rn_updated_at (env_now env))
      (on_snapshot (set_rn_version (rn_aggregate_version (fr_snapshot r) + 1)) (marked b r))).

Lemma marked_version b r :
  rn_aggregate_version (fr_snapshot (marked b r)) = rn_aggregate_version (fr_snapshot r).
Proof. unfold marked. destruct (eb_target_satisfied _), r as [[] ? ?]; done. Qed.

Lemma attach_evidence_spec env run_id b s :
  (∃ err, attach_evidence env run_id b s = (s, Failure err)) ∨
  (attach_evidence env run_id b s = (s, Crash)) ∨
  (∃ r, fs_runs s !! run_id = Some r ∧ bound_evidence run_id (fr_snapshot r) b ∧
     (u64_max < rn_aggregate_version (fr_snapshot r) + 1 ∧
      attach_evidence env run_id b s = (put_run run_id (marked b r) s, Failure overflowed) ∨
      rn_aggregate_version (fr_snapshot r) + 1 ≤ u64_max ∧
      attach_evidence env run_id b s = (put_run run_id (attached env b r) s, Success tt))).
Proof.
  unfold attach_evidence. call_step.
  destruct (refuse_if _ _) as [[]| |]; [|by left; eexists|by right; left]. cbn iota. call_step.
  destruct (digest_canonical (sb_payload b)) as [d| |] eqn:Hd; simpl of_res; cbn iota;
    [|by left; eexists|by right; left]. call_step.
  case_bool_decide as Ed; [|by left; eexists]. simpl refuse_if. cbn iota.
  rewrite call_bind_eq, find_run_spec.
  destruct (fs_runs s !! run_id) as [r|] eqn:Hr; [|by left; eexists].
  simpl or_fail. cbn iota zeta. call_step.
  destruct (_ || negb (eb_worker_generation _ =? _)) eqn:Hb; [by left; eexists|].
  simpl refuse_if. cbn iota. reflect. right. right. exists r. split; [done|].
  split; [unfold bound_evidence; subst; tauto|].
  rewrite call_bind_eq, (update_run_spec _ _ r) by done. cbn beta iota. subst d.
  assert (∀ k : unit → call FakeState RunmillGatewayError unit,
    ((if eb_target_satisfied (sb_payload b)
      then update_run run_id (on_snapshot (set_rn_state RunmillRunState.TargetReached))
      else mret tt) ≫= k)
      (put_run run_id (on_snapshot (set_rn_evidence_digest (Some (sb_payload_digest b))) r) s)
    = k tt (put_run run_id (marked b r) s)) as ->.
  { intros k. rewrite call_bind_eq. unfold marked.
    destruct (eb_target_satisfied (sb_payload b)); [by rewrite update_put|done]. }
  call_step. rewrite marked_version.
  destruct (checked_add _ _ _) as [v|] eqn:Hv.
  - apply checked_add_some in Hv as [Hv ->]. right. split; [done|]. cbn iota. call_step.
    by rewrite ?update_put.
  - apply checked_add_none in Hv. by left.
Qed.

Definition cancel_marked (r : FakeRunRecord) : FakeRunRecord :=
  on_snapshot (set_rn_state RunmillRunState.CancelRequested) r.

Definition cancelled (env : Environment) (r : FakeRunRecord) : FakeRunRecord :=
  on_snapshot (set_rn_updated_at (env_now env))
    (on_snapshot (set_rn_version (rn_aggregate_version (fr_snapshot r) + 1)) (cancel_marked r)).

Definition cancel_receipt (env : Environment) (q : CancelRunRequest)
    (d : CancellationDisposition) (r : FakeRunRecord) : CancelRunReceipt :=
  {| cre_schema := CANCEL_RUN_RECEIPT_SCHEMA_V1; cre_run_id := cr_run_id q;
     cre_idempotency_key := cr_idempotency_key q; cre_disposition := d;
     cre_state := rn_state (fr_snapshot r);
     cre_aggregate_version := rn_aggregate_version (fr_snapshot r);
     cre_recorded_at := env_later env |}.

Definition record_cancellation (q : CancelRunRequest) (receipt : CancelRunReceipt)
  : FakeState → FakeState :=
  set_cancellations <[(cr_run_id q, cr_idempotency_key q) := mkCancellationRecord q receipt]>.

Lemma cancel_spec env q s :
  (∃ err, fake_cancel env q s = (s, Failure err)) ∨
  (∃ existing, fs_cancellations s !! (cr_run_id q, cr_idempotency_key q) = Some existing ∧
     cnr_request existing = q ∧
     fake_cancel env q s = (s, Success (adopt_cancellation (cnr_receipt existing)))) ∨
  (fs_cancellations s !! (cr_run_id q, cr_idempotency_key q) = None ∧
   ∃ r, fs_runs s !! cr_run_id q = Some r ∧
    (RunmillRunState_is_terminal (rn_state (fr_snapshot r)) = true ∧
      (let receipt := cancel_receipt env q CancellationDisposition.AlreadyTerminal r in
       fake_cancel env q s = (record_cancellation q receipt s, Success receipt)) ∨
     RunmillRunState_is_terminal (rn_state (fr_snapshot r)) = false ∧
     u64_max < rn_aggregate_version (fr_snapshot r) + 1 ∧
      fake_cancel env q s = (put_run (cr_run_id q) (cancel_marked r) s, Failure overflowed) ∨
     RunmillRunState_is_terminal (rn_state (fr_snapshot r)) = false ∧
     rn_aggregate_version (fr_snapshot r) + 1 ≤ u64_max ∧
      (let receipt := cancel_receipt env q CancellationDisposition.Requested (cancelled env r) in
       fake_cancel env q s
       = (record_cancellation q receipt (put_run (cr_run_id q) (cancelled env r) s),
          Success receipt)))).
Proof.
  unfold fake_cancel. call_step.
  destruct (CancelRunRequest_validate q) as [[]| |] eqn:Hq; cbn iota; [|by left; eexists|].
  2: { exfalso. revert Hq. unfold CancelRunRequest_validate.
       apply obind_not_crash; auto with no_panic. }
  call_step.
  destruct (fs_cancellations s !! _) as [existing|] eqn:Hc.
  { call_step. case_bool_decide as E; [|by left; eexists]. right; left. by exists existing. }
  rewrite call_bind_eq, find_run_spec.
  destruct (fs_runs s !! cr_run_id q) as [r|] eqn:Hr; [|by left; eexists].
  simpl or_fail. cbn iota. right; right. split; [done|]. exists r. split; [done|].
  destruct (RunmillRunState_is_terminal _) eqn:Ht; [left|right].
  { split; [done|]. call_step. by rewrite call_bind_eq, find_run_spec, Hr. }
  rewrite call_bind_eq, call_bind_eq, (update_run_spec _ _ r) by done. cbn beta iota. call_step.
  destruct (checked_add _ _ _) as [v|] eqn:Hv.
  - replace (rn_aggregate_version (fr_snapshot (on_snapshot _ r)))
      with (rn_aggregate_version (fr_snapshot r)) in Hv by (by destruct r as [[] ? ?]).
    apply checked_add_some in Hv as [Hv ->]. right. split_and!; [done..|]. cbn iota.
    call_step. rewrite call_bind_eq, find_put. done.
  - replace (rn_aggregate_version (fr_snapshot (on_snapshot _ r)))
      with (rn_aggregate_version (fr_snapshot r)) in Hv by (by destruct r as [[] ? ?]).
    apply checked_add_none in Hv. left. split_and!; done.
Qed.
Definition ack_marked (r : FakeRunRecord) : FakeRunRecord :=
  on_snapshot (set_rn_acknowledged true) r.

Definition acknowledged (env : Environment) (r : FakeRunRecord) : FakeRunRecord :=
  on_snapshot (set_rn_updated_at (env_now env))
    (on_snapshot (set_rn_version (rn_aggregate_version (fr_snapshot r) + 1)) (ack_marked r)).

Definition ack_receipt (env : Environment) (q : AcknowledgeOutcomeRequest) (r : FakeRunRecord)
  : AcknowledgeOutcomeReceipt :=
  {| ake_schema := ACKNOWLEDGE_OUTCOME_RECEIPT_SCHEMA_V1; ake_run_id := ak_run_id q;
     ake_idempotency_key := ak_idempotency_key q; ake_evidence_digest := ak_evidence_digest q;
     ake_disposition := AcknowledgementDisposition.Recorded;
     ake_aggregate_version := rn_aggregate_version (fr_snapshot r);
     ake_recorded_at := env_later env |}.

Definition record_acknowledgement (q : AcknowledgeOutcomeRequest)
    (receipt : AcknowledgeOutcomeReceipt) : FakeState → FakeState :=
  set_acknowledgements <[(ak_run_id q, ak_idempotency_key q) := mkAcknowledgementRecord q receipt]>.

Lemma acknowledge_spec env q s :
  (∃ err, fake_acknowledge env q s = (s, Failure err)) ∨
  (∃ existing, fs_acknowledgements s !! (ak_run_id q, ak_idempotency_key q) = Some existing ∧
     akr_request existing = q ∧
     fake_acknowledge env q s = (s, Success (adopt_acknowledgement (akr_receipt existing)))) ∨
  (fs_acknowledgements s !! (ak_run_id q, ak_idempotency_key q) = None ∧
   ∃ r b, fs_runs s !! ak_run_id q = Some r ∧ fr_evidence r = Some b ∧
     sb_payload_digest b = ak_evidence_digest q ∧
    (u64_max < rn_aggregate_version (fr_snapshot r) + 1 ∧
      fake_acknowledge env q s = (put_run (ak_run_id q) (ack_marked r) s, Failure overflowed) ∨
     rn_aggregate_version (fr_snapshot r) + 1 ≤ u64_max ∧
      (let receipt := ack_receipt env q (acknowledged env r) in
       fake_acknowledge env q s
       = (record_acknowledgement q receipt (put_run (ak_run_id q) (acknowledged env r) s),
          Success receipt)))).
Proof.
  unfold fake_acknowledge. call_step.
  destruct (AcknowledgeOutcomeRequest_validate q) as [[]| |] eqn:Hq; cbn iota; [|by left; eexists|].
  2: { exfalso. revert Hq. unfold AcknowledgeOutcomeRequest_validate.
       apply obind_not_crash; auto with no_panic. }
  call_step.
  destruct (fs_acknowledgements s !! _) as [existing|] eqn:Hc.
  { call_step. case_bool_decide as E; [|by left; eexists]. right; left. by exists existing. }
  rewrite call_bind_eq, find_run_spec.
  destruct (fs_runs s !! ak_run_id q) as [r|] eqn:Hr; [|by left; eexists].
  simpl or_fail. cbn iota. call_step.
  destruct (fr_evidence r) as [b|] eqn:Hb; [|by left; eexists]. simpl or_fail. cbn iota. call_step.
  case_bool_decide as Ed; [|by left; eexists]. simpl refuse_if. cbn iota.
  right; right. split; [done|]. exists r, b. split_and!; [done..|].
  rewrite call_bind_eq, (update_run_spec _ _ r) by done. cbn beta iota. call_step.
  destruct (checked_add _ _ _) as [v|] eqn:Hv;
    replace (rn_aggregate_version (fr_snapshot (on_snapshot _ r)))
      with (rn_aggregate_version (fr_snapshot r)) in Hv by (by destruct r as [[] ? ?]).
  - apply checked_add_some in Hv as [Hv ->]. right. split; [done|]. cbn iota.
    call_step. rewrite call_bind_eq, find_put. done.
  - apply checked_add_none in Hv. by left.
Qed.

(** ** Submission *)

Definition new_receipt (env : Environment) (q : SubmitWorkOrderRequest) : SubmitWorkOrderReceipt :=
  {| sre_schema := SUBMIT_WORK_ORDER_RECEIPT_SCHEMA_V1; sre_run_id := env_run_id env;
     sre_attempt_id := wo_attempt_id (sw_payload (sr_work_order q));
     sre_idempotency_key := sr_idempotency_key q;
     sre_work_order_digest := sr_work_order_digest q;
     sre_disposition := SubmissionDisposition.Accepted; sre_accepted_at := env_now env |}.

Definition new_run (env : Environment) (q : SubmitWorkOrderRequest) : FakeRunRecord :=
  mkFakeRunRecord
    {| rn_schema := RUN_SNAPSHOT_SCHEMA_V1; rn_run_id := env_run_id env;
       rn_attempt_id := wo_attempt_id (sw_payload (sr_work_order q));
       rn_idempotency_key := sr_idempotency_key q;
       rn_work_order_digest := sr_work_order_digest q;
       rn_worker_id := rc_worker_id (im_capabilities gw);
       rn_worker_generation := rc_worker_generation (im_capabilities gw);
       rn_state := RunmillRunState.Accepted; rn_aggregate_version := 1;
       rn_last_event_cursor := None; rn_evidence_digest := None;
       rn_outcome_acknowledged := false; rn_accepted_at := env_now env;
       rn_updated_at := env_now env |} [] None.

Definition admit_run (env : Environment) (q : SubmitWorkOrderRequest)
    (qualification : QualifiedSubmissionIdentityV1) (s : FakeState) : FakeState :=
  set_submissions <[sr_idempotency_key q := mkSubmissionRecord (new_receipt env q) qualification]>
    (put_run (env_run_id env) (new_run env q)
      (set_run_by_attempt <[wo_attempt_id (sw_payload (sr_work_order q)) := env_run_id env]> s)).

Lemma submit_spec env q s :
  (∃ err, fake_submit gw env q s = (s, Failure err)) ∨
  (fake_submit gw env q s = (s, Crash)) ∨
  (∃ existing, fs_submissions s !! sr_idempotency_key q = Some existing ∧
     SubmitWorkOrderRequest_validate q = Success tt ∧
     qs_work_order_digest (sbr_qualification existing) = sr_work_order_digest q ∧
     fake_submit gw env q s = (s, Success (adopt_submission (sbr_receipt existing)))) ∨
  (∃ qualification, fs_submissions s !! sr_idempotency_key q = None ∧
     fs_run_by_attempt s !! wo_attempt_id (sw_payload (sr_work_order q)) = None ∧
     from_submit_work_order_request q = Success qualification ∧
     fake_submit gw env q s = (admit_run env q qualification s, Success (new_receipt env q))).
Proof.
  unfold fake_submit. call_step.
  destruct (SubmitWorkOrderRequest_validate q) as [[]| |] eqn:Hq; cbn iota;
    [|by left; eexists|by right; left].
  call_step. destruct (fs_submissions s !! _) as [existing|] eqn:Hs.
  { call_step. case_bool_decide as E; [|by left; eexists]. right; right; left. by exists existing. }
  call_step. destruct (fs_run_by_attempt s !! _) as [other|] eqn:Ha; [by left; eexists|].
  call_step. destruct (from_submit_work_order_request q) as [x| |] eqn:Hx; cbn iota;
    [|by left; eexists|by right; left].
  right; right; right. by exists x.
Qed.

Lemma qualification_fields q x :
  from_submit_work_order_request q = Success x →
  SubmitWorkOrderRequest_validate q = Success tt ∧
  qs_idempotency_key x = sr_idempotency_key q ∧
  qs_work_order_digest x = sr_work_order_digest q ∧
  qs_attempt_id x = wo_attempt_id (sw_payload (sr_work_order q)) ∧
  QualifiedSubmissionIdentityV1_validate x = Success tt.
Proof.
  unfold from_submit_work_order_request. rewrite obind_unit_success. intros [Hv H].
  apply obind_success in H as (d & _ & H). cbn zeta in H.
  apply obind_unit_success in H as [Hi [= <-]]. done.
Qed.

(** ** The invariant *)

(** A run record that belongs to [run_id]: events bound to the run with
    increasing versions up to the run's own, the cursor after the last of them,
    evidence bound to the run and named by its digest, acknowledged only when
    there is evidence.  The digest is written before the version is counted, so
    it is only claimed below the last version. *)
Record run_ok (run_id : RunId) (r : FakeRunRecord) : Prop := {
  rk_id : rn_run_id (fr_snapshot r) = run_id;
  rk_worker : rn_worker_id (fr_snapshot r) = rc_worker_id (im_capabilities gw) ∧
    rn_worker_generation (fr_snapshot r) = rc_worker_generation (im_capabilities gw);
  rk_version : 1 ≤ rn_aggregate_version (fr_snapshot r) ≤ u64_max;
  rk_bound : Forall (λ e, pe_run_id e = Some run_id) (fr_events r);
  rk_versions : Forall (λ e, 1 < pe_aggregate_version e ≤ rn_aggregate_version (fr_snapshot r))
    (fr_events r);
  rk_sorted : StronglySorted Z.lt (pe_aggregate_version <$> fr_events r);
  rk_cursor : rn_last_event_cursor (fr_snapshot r) =
    match fr_events r with [] => None | l => Some (cursor_at run_id (length l)) end;
  rk_evidence b : fr_evidence r = Some b → bound_evidence run_id (fr_snapshot r) b;
  rk_digest : rn_aggregate_version (fr_snapshot r) < u64_max →
    rn_evidence_digest (fr_snapshot r) = sb_payload_digest <$> fr_evidence r;
  rk_acknowledged : rn_outcome_acknowledged (fr_snapshot r) = true → is_Some (fr_evidence r)
}.

(** Where an event is stored. *)
Definition event_at (s : FakeState) (run_id : RunId) (i : nat) (e : ProductEvent) : Prop :=
  ∃ r, fs_runs s !! run_id = Some r ∧ fr_events r !! i = Some e.

(** The tables refer to each other: every run is found under its attempt and its
    submission, and nothing else is. *)
Record links_ok (s : FakeState) : Prop := {
  gk_runs run_id r : fs_runs s !! run_id = Some r → run_ok run_id r ∧
    fs_run_by_attempt s !! rn_attempt_id (fr_snapshot r) = Some run_id ∧
    ∃ sub, fs_submissions s !! rn_idempotency_key (fr_snapshot r) = Some sub ∧
      sre_run_id (sbr_receipt sub) = run_id;
  gk_attempts a run_id : fs_run_by_attempt s !! a = Some run_id →
    ∃ r, fs_runs s !! run_id = Some r ∧ rn_attempt_id (fr_snapshot r) = a;
  gk_submissions k sub : fs_submissions s !! k = Some sub →
    ∃ r, fs_runs s !! sre_run_id (sbr_receipt sub) = Some r ∧
      rn_idempotency_key (fr_snapshot r) = k ∧
      rn_attempt_id (fr_snapshot r) = qs_attempt_id (sbr_qualification sub) ∧
      rn_work_order_digest (fr_snapshot r) = qs_work_order_digest (sbr_qualification sub) ∧
      qs_idempotency_key (sbr_qualification sub) = k;
  gk_cancellations run_id k c : fs_cancellations s !! (run_id, k) = Some c →
    cr_run_id (cnr_request c) = run_id ∧ cr_idempotency_key (cnr_request c) = k ∧
    ∃ r, fs_runs s !! run_id = Some r ∧
      cre_aggregate_version (cnr_receipt c) ≤ rn_aggregate_version (fr_snapshot r);
  gk_acknowledgements run_id k c : fs_acknowledgements s !! (run_id, k) = Some c →
    ak_run_id (akr_request c) = run_id ∧ ak_idempotency_key (akr_request c) = k ∧
    ∃ r, fs_runs s !! run_id = Some r ∧ rn_outcome_acknowledged (fr_snapshot r) = true ∧
      ake_aggregate_version (akr_receipt c) ≤ rn_aggregate_version (fr_snapshot r)
}.

(** Event identifiers are those of the stored events, each stored once. *)
Record events_ok (s : FakeState) : Prop := {
  gk_event_ids id : id ∈ fs_event_ids s ↔ ∃ run_id i e, event_at s run_id i e ∧ pe_event_id e = id;
  gk_event_unique r1 i1 e1 r2 i2 e2 : event_at s r1 i1 e1 → event_at s r2 i2 e2 →
    pe_event_id e1 = pe_event_id e2 → r1 = r2 ∧ i1 = i2
}.

Definition gateway_ok (s : FakeState) : Prop := links_ok s ∧ events_ok s.

(** The part of a record no operation changes, and what only grows. *)
Record run_extends (r r' : FakeRunRecord) : Prop := {
  rx_identity : rn_attempt_id (fr_snapshot r') = rn_attempt_id (fr_snapshot r) ∧
    rn_idempotency_key (fr_snapshot r') = rn_idempotency_key (fr_snapshot r) ∧
    rn_work_order_digest (fr_snapshot r') = rn_work_order_digest (fr_snapshot r);
  rx_version : rn_aggregate_version (fr_snapshot r) ≤ rn_aggregate_version (fr_snapshot r');
  rx_events : fr_events r `prefix_of` fr_events r';
  rx_acknowledged : rn_outcome_acknowledged (fr_snapshot r) = true →
    rn_outcome_acknowledged (fr_snapshot r') = true;
  rx_id : rn_run_id (fr_snapshot r') = rn_run_id (fr_snapshot r)
}.

Lemma lookup_put run_id r s j :
  fs_runs (put_run run_id r s) !! j = if decide (run_id = j) then Some r else fs_runs s !! j.
Proof. destruct s. simpl. apply lookup_insert. Qed.

(** Replacing a record that keeps its events keeps the stored events. *)
Lemma event_at_put run_id r r' s j i e :
  fs_runs s !! run_id = Some r → fr_events r' = fr_events r →
  event_at (put_run run_id r' s) j i e ↔ event_at s j i e.
Proof.
  intros Hr He. unfold event_at. setoid_rewrite lookup_put. case_decide as Ej; [|done].
  subst j. rewrite Hr. split; intros (x & [= <-] & Hx); eexists; (split; [done|]); congruence.
Qed.

Lemma extends_put s run_id r r' j x :
  fs_runs s !! run_id = Some r → run_extends r r' → fs_runs s !! j = Some x →
  ∃ y, fs_runs (put_run run_id r' s) !! j = Some y ∧ run_extends x y.
Proof.
  intros Hr Hx Hj. rewrite lookup_put. case_decide as Ej; [|exists x; by split].
  subst j. rewrite Hr in Hj. injection Hj as <-. eauto.
Qed.

Lemma links_ok_put s run_id r r' :
  links_ok s → fs_runs s !! run_id = Some r → run_ok run_id r' → run_extends r r' →
  links_ok (put_run run_id r' s).
Proof.
  intros [H1 H2 H3 H6 H7] Hr Hok Hx.
  pose proof (λ j x, extends_put s run_id r r' j x Hr Hx) as Hnew.
  constructor.
  - intros j x. rewrite lookup_put. case_decide as Ej.
    + intros [= <-]. subst j. destruct (H1 run_id r Hr) as (_ & Ha & sub & Hs & Es).
      split; [done|]. destruct (rx_identity _ _ Hx) as (-> & -> & _). destruct s. eauto.
    + intros Hj. destruct (H1 j x Hj) as (? & ? & ?). by destruct s.
  - intros a j Ha. destruct (H2 a j) as (x & Hj & Ex); [by destruct s|].
    destruct (Hnew j x Hj) as (y & Hy & [(E1 & _) _ _ _ _]). exists y. split; [done|congruence].
  - intros k sub Hk. destruct (H3 k sub) as (x & Hj & E); [by destruct s|].
    destruct (Hnew _ x Hj) as (y & Hy & [(E1 & E2 & E3) _ _ _ _]). exists y.
    rewrite E1, E2, E3. done.
  - intros j k c Hc. destruct (H6 j k c) as (? & ? & x & Hj & Hle); [by destruct s|].
    split_and!; try done. destruct (Hnew j x Hj) as (y & Hy & [_ Hge _ _ _]).
    exists y. split; [done|lia].
  - intros j k c Hc. destruct (H7 j k c) as (? & ? & x & Hj & Hk & Hle); [by destruct s|].
    split_and!; try done. destruct (Hnew j x Hj) as (y & Hy & [_ Hge _ Hack' _]).
    exists y. split_and!; [done|auto|lia].
Qed.

Lemma gateway_ok_put s run_id r r' :
  gateway_ok s → fs_runs s !! run_id = Some r → run_ok run_id r' → run_extends r r' →
  fr_events r' = fr_events r → gateway_ok (put_run run_id r' s).
Proof.
  intros [Hl [H4 H5]] Hr Hok Hx He. split; [by eapply links_ok_put|].
  pose proof (λ j i e, event_at_put run_id r r' s j i e Hr He) as Hev. constructor.
  - intros id. setoid_rewrite Hev. rewrite <- H4. by destruct s.
  - intros r1 i1 e1 r2 i2 e2. rewrite !Hev. apply H5.
Qed.

(** ** Every operation keeps the invariant *)

Lemma event_at_append env run_id e r s j i x :
  fs_runs s !! run_id = Some r →
  event_at (put_run run_id (appended env run_id e r) s) j i x ↔
  event_at s j i x ∨ (j = run_id ∧ i = length (fr_events r) ∧ x = e).
Proof.
  intros Hr. unfold event_at. setoid_rewrite lookup_put. case_decide as Ej.
  - subst j. rewrite Hr. split.
    + intros (y & [= <-] & Hy). unfold appended, push_event in Hy. simpl in Hy.
      apply lookup_app_Some in Hy as [Hy|[Hi Hy]]; [left; eauto|]. right.
      destruct (i - length (fr_events r))%nat as [|n] eqn:En; simpl in Hy; [|done].
      injection Hy as <-. split_and!; [done|lia|done].
    + intros [(y & [= <-] & Hy)|(_ & -> & ->)]; eexists; (split; [done|]); simpl.
      * by apply lookup_app_l_Some.
      * by rewrite lookup_app_r, Nat.sub_diag.
  - split; [by left|]. intros [?|(-> & _)]; done.
Qed.

Lemma run_ok_append env run_id e r :
  run_ok run_id r → pe_run_id e = Some run_id →
  rn_aggregate_version (fr_snapshot r) + 1 ≤ u64_max →
  pe_aggregate_version e = rn_aggregate_version (fr_snapshot r) + 1 →
  run_ok run_id (appended env run_id e r) ∧ run_extends r (appended env run_id e r).
Proof.
  intros [] He Hv Ev. unfold appended. destruct r as [[] evs ev]. simpl in *.
  split; constructor; simpl; try done; try lia.
  - rewrite Forall_app. by repeat constructor.
  - rewrite Forall_app. split; [|by repeat constructor; lia].
    eapply Forall_impl; [exact rk_versions0|]. simpl. lia.
  - rewrite fmap_app. simpl. clear - rk_sorted0 rk_versions0 Ev.
    induction evs as [|y evs IH]; simpl in *; [by repeat constructor|].
    apply StronglySorted_inv in rk_sorted0 as [Hs Hf]. apply Forall_cons in rk_versions0 as [Hy Hl].
    constructor; [by apply IH|]. rewrite Forall_app. split; [done|]. repeat constructor. lia.
  - destruct evs; simpl; by rewrite ?length_app, ?Nat.add_1_r.
  - intros Hlt. apply rk_digest0. lia.
  - by exists [e].
Qed.

Lemma gateway_ok_append env run_id e s :
  gateway_ok s → gateway_ok (append_event env run_id e s).1.
Proof.
  intros [Hl [H4 H5]]. destruct (append_event_spec env run_id e s)
    as [(err & ->)|(r & Hr & Hid & He & Hv & Ev & ->)]; [done|]. simpl.
  pose proof (λ j i x, event_at_append env run_id e r s j i x Hr) as Hev.
  destruct (gk_runs _ Hl run_id r Hr) as (Hrk & _).
  destruct (run_ok_append env run_id e r Hrk He Hv Ev) as [Hok Hx].
  split; [pose proof (links_ok_put _ _ _ _ Hl Hr Hok Hx) as []; by destruct s|].
  assert (∀ j i x, event_at (put_run run_id (appended env run_id e r)
    (set_event_ids (λ ids, {[ pe_event_id e ]} ∪ ids) s)) j i x ↔
    event_at s j i x ∨ (j = run_id ∧ i = length (fr_events r) ∧ x = e)) as Hev'
    by (intros; rewrite <- Hev; by destruct s).
  constructor.
  - intros id. setoid_rewrite Hev'.
    assert (id ∈ fs_event_ids (put_run run_id (appended env run_id e r)
      (set_event_ids (λ ids, {[ pe_event_id e ]} ∪ ids) s)) ↔
      id = pe_event_id e ∨ id ∈ fs_event_ids s) as ->
      by (destruct s; simpl; by rewrite elem_of_union, elem_of_singleton).
    rewrite H4. split.
    + intros [->|(j & i & x & Hat & <-)]; [exists run_id, (length (fr_events r)), e|]; eauto 8.
    + intros (j & i & x & [Hat|(-> & -> & ->)] & <-); eauto 8.
  - intros r1 i1 e1 r2 i2 e2. rewrite !Hev'.
    intros [Hat1|(-> & -> & ->)] [Hat2|(-> & -> & ->)] Eid; try done.
    + by apply (H5 _ _ _ _ _ _ Hat1 Hat2).
    + destruct Hid. apply H4. eauto 8.
    + destruct Hid. apply H4. eauto 8.
Qed.

(** The writes of the other operations keep a record in order. *)
Ltac run_ok_tac :=
  intros []; intros; split; constructor; simpl in *; try done; try lia; eauto.

Lemma run_ok_marked run_id b r :
  run_ok run_id r → u64_max < rn_aggregate_version (fr_snapshot r) + 1 →
  run_ok run_id (marked b r) ∧ run_extends r (marked b r).
Proof.
  unfold marked. destruct r as [[] evs ev], (eb_target_satisfied _); run_ok_tac.
Qed.

Lemma run_ok_attached env run_id b r :
  run_ok run_id r → bound_evidence run_id (fr_snapshot r) b →
  rn_aggregate_version (fr_snapshot r) + 1 ≤ u64_max →
  run_ok run_id (attached env b r) ∧ run_extends r (attached env b r).
Proof.
  unfold attached, marked. destruct r as [[] evs ev], (eb_target_satisfied _); run_ok_tac;
    try (by eapply Forall_impl; [eassumption|]; simpl; lia); intros ? [= <-]; done.
Qed.

Lemma run_ok_cancel_marked run_id r :
  run_ok run_id r → run_ok run_id (cancel_marked r) ∧ run_extends r (cancel_marked r).
Proof. unfold cancel_marked. destruct r as [[] evs ev]. run_ok_tac. Qed.

Lemma run_ok_cancelled env run_id r :
  run_ok run_id r → rn_aggregate_version (fr_snapshot r) + 1 ≤ u64_max →
  run_ok run_id (cancelled env r) ∧ run_extends r (cancelled env r).
Proof.
  unfold cancelled, cancel_marked. destruct r as [[] evs ev]. run_ok_tac.
  - by eapply Forall_impl; [eassumption|]; simpl; lia.
  - intros. apply rk_digest0. lia.
Qed.

Lemma run_ok_ack_marked run_id r :
  run_ok run_id r → is_Some (fr_evidence r) →
  run_ok run_id (ack_marked r) ∧ run_extends r (ack_marked r).
Proof. unfold ack_marked. destruct r as [[] evs ev]. run_ok_tac. Qed.

Lemma run_ok_acknowledged env run_id r :
  run_ok run_id r → is_Some (fr_evidence r) → rn_aggregate_version (fr_snapshot r) + 1 ≤ u64_max →
  run_ok run_id (acknowledged env r) ∧ run_extends r (acknowledged env r).
Proof.
  unfold acknowledged, ack_marked. destruct r as [[] evs ev]. run_ok_tac.
  - by eapply Forall_impl; [eassumption|]; simpl; lia.
  - intros. apply rk_digest0. lia.
Qed.

Lemma gateway_ok_attach env run_id b s :
  gateway_ok s → gateway_ok (attach_evidence env run_id b s).1.
Proof.
  intros Hs. destruct (attach_evidence_spec env run_id b s)
    as [(err & ->)|[->|(r & Hr & Hb & [[Hv ->]|[Hv ->]])]]; [done|done| |]; simpl;
    destruct (gk_runs _ (proj1 Hs) run_id r Hr) as (Hrk & _).
  - destruct (run_ok_marked run_id b r Hrk Hv). eapply gateway_ok_put; try done.
    unfold marked. by destruct (eb_target_satisfied _).
  - destruct (run_ok_attached env run_id b r Hrk Hb Hv). eapply gateway_ok_put; try done.
    unfold attached, marked. by destruct (eb_target_satisfied _).
Qed.

Lemma gateway_ok_record_cancellation q receipt r s :
  gateway_ok s → fs_runs s !! cr_run_id q = Some r →
  cre_aggregate_version receipt ≤ rn_aggregate_version (fr_snapshot r) →
  gateway_ok (record_cancellation q receipt s).
Proof.
  intros [[] []] Hr Hv. destruct s. simpl in *. split; constructor; simpl; try done.
  intros run_id k c. rewrite lookup_insert. case_decide as E; [|eauto].
  intros [= <-]. simplify_eq. eauto 10.
Qed.

Lemma gateway_ok_cancel env q s : gateway_ok s → gateway_ok (fake_cancel env q s).1.
Proof.
  intros Hs. destruct (cancel_spec env q s)
    as [(err & ->)|[(x & _ & _ & ->)|(_ & r & Hr & [[_ ->]|[(_ & _ & ->)|(_ & Hv & ->)]])]];
    try done; simpl; destruct (gk_runs _ (proj1 Hs) _ r Hr) as (Hrk & _).
  - by eapply gateway_ok_record_cancellation.
  - destruct (run_ok_cancel_marked _ r Hrk). by eapply gateway_ok_put.
  - destruct (run_ok_cancelled env _ r Hrk Hv).
    eapply gateway_ok_record_cancellation; [by eapply gateway_ok_put|apply runs_put_run|done].
Qed.

Lemma gateway_ok_record_acknowledgement q receipt r s :
  gateway_ok s → fs_runs s !! ak_run_id q = Some r →
  rn_outcome_acknowledged (fr_snapshot r) = true →
  ake_aggregate_version receipt ≤ rn_aggregate_version (fr_snapshot r) →
  gateway_ok (record_acknowledgement q receipt s).
Proof.
  intros [[] []] Hr Ha Hv. destruct s. simpl in *. split; constructor; simpl; try done.
  intros run_id k c. rewrite lookup_insert. case_decide as E; [|eauto].
  intros [= <-]. simplify_eq. eauto 10.
Qed.

Lemma gateway_ok_acknowledge env q s : gateway_ok s → gateway_ok (fake_acknowledge env q s).1.
Proof.
  intros Hs. destruct (acknowledge_spec env q s)
    as [(err & ->)|[(x & _ & _ & ->)|(_ & r & b & Hr & Hb & _ & [(_ & ->)|(Hv & ->)])]];
    try done; simpl; destruct (gk_runs _ (proj1 Hs) _ r Hr) as (Hrk & _);
    assert (is_Some (fr_evidence r)) as Hev by (by exists b).
  - destruct (run_ok_ack_marked _ r Hrk Hev). by eapply gateway_ok_put.
  - destruct (run_ok_acknowledged env _ r Hrk Hev Hv).
    eapply gateway_ok_record_acknowledgement; [by eapply gateway_ok_put|apply runs_put_run| |done].
    by destruct r as [[] ? ?].
Qed.

Lemma gateway_ok_submit env q s :
  gateway_ok s → fs_runs s !! env_run_id env = None → gateway_ok (fake_submit gw env q s).1.
Proof.
  intros Hs Hfresh. destruct (submit_spec env q s)
    as [(err & ->)|[->|[(x & _ & _ & _ & ->)|(x & Hk & Ha & Hx & ->)]]]; try done. simpl.
  apply qualification_fields in Hx as (_ & Ek & Ed & Ea & _).
  destruct Hs as [[H1 H2 H3 H6 H7] [H4 H5]]. unfold admit_run.
  destruct s as [subs runs rba ids can ack]. simpl in *.
  assert (∀ j i e, event_at (mkFakeState (<[sr_idempotency_key q :=
      mkSubmissionRecord (new_receipt env q) x]> subs)
      (<[env_run_id env := new_run env q]> runs)
      (<[wo_attempt_id (sw_payload (sr_work_order q)) := env_run_id env]> rba) ids can ack) j i e ↔
    event_at (mkFakeState subs runs rba ids can ack) j i e) as Hev.
  { intros j i e. unfold event_at. simpl. setoid_rewrite lookup_insert.
    case_decide as Ej; [|done]. subst j. rewrite Hfresh. naive_solver. }
  split; constructor; simpl.
  - intros j r. rewrite lookup_insert. case_decide as Ej.
    + intros [= <-]. subst j. simpl. split.
      { constructor; simpl; try done. constructor. }
      rewrite !lookup_insert_eq. eauto.
    + intros Hj. destruct (H1 j r Hj) as (? & Hat & sub & Hsub & Es). split; [done|].
      rewrite !lookup_insert_ne by (intros E; congruence). eauto.
  - intros a j. rewrite lookup_insert. case_decide as E.
    + intros [= <-]. exists (new_run env q). by rewrite lookup_insert_eq.
    + intros Hj. destruct (H2 a j Hj) as (r & Hr & Er). exists r.
      rewrite lookup_insert_ne by congruence. done.
  - intros k sub. rewrite lookup_insert. case_decide as E.
    + intros [= <-]. exists (new_run env q). simpl. rewrite lookup_insert_eq.
      split_and!; try done; congruence.
    + intros Hj. destruct (H3 k sub Hj) as (r & Hr & Er). exists r.
      rewrite lookup_insert_ne by congruence. done.
  - intros j k c Hc. destruct (H6 j k c Hc) as (? & ? & r & Hr & Er). split_and!; try done.
    exists r. rewrite lookup_insert_ne by congruence. done.
  - intros j k c Hc. destruct (H7 j k c Hc) as (? & ? & r & Hr & Er). split_and!; try done.
    exists r. rewrite lookup_insert_ne by congruence. done.
  - intros id. setoid_rewrite Hev. apply H4.
  - intros r1 i1 e1 r2 i2 e2. rewrite !Hev. apply H5.
Qed.

(** ** Histories *)

(** One operation of the gateway or of the worker; queries change nothing.
    [RunId::new] yields an identifier that is not in use. *)
Inductive gateway_step : FakeState → FakeState → Prop :=
| step_submit env q s :
    fs_runs s !! env_run_id env = None → gateway_step s (fake_submit gw env q s).1
| step_append env run_id e s : gateway_step s (append_event env run_id e s).1
| step_attach env run_id b s : gateway_step s (attach_evidence env run_id b s).1
| step_cancel env q s : gateway_step s (fake_cancel env q s).1
| step_acknowledge env q s : gateway_step s (fake_acknowledge env q s).1.

Definition reachable (s : FakeState) : Prop := star gateway_step FakeState_default s.

Lemma gateway_ok_step s s' : gateway_ok s → gateway_step s s' → gateway_ok s'.
Proof.
  intros Hs Hstep. destruct Hstep; [by apply gateway_ok_submit|by apply gateway_ok_append|
    by apply gateway_ok_attach|by apply gateway_ok_cancel|by apply gateway_ok_acknowledge].
Qed.

Lemma gateway_ok_default : gateway_ok FakeState_default.
Proof.
  split; constructor; simpl; try (intros *; by rewrite lookup_empty).
  - intros id. split; [by intros ?%elem_of_empty|].
    intros (j & i & e & (r & Hr & _) & _). simpl in Hr. by rewrite lookup_empty in Hr.
  - intros * (r & Hr & _). simpl in Hr. by rewrite lookup_empty in Hr.
Qed.

Lemma reachable_ok s : reachable s → gateway_ok s.
Proof. apply star_invariant; [apply gateway_ok_default|apply gateway_ok_step]. Qed.

(** What a later state keeps of an earlier one. *)
Record extends (s s' : FakeState) : Prop := {
  xt_runs j r : fs_runs s !! j = Some r → ∃ r', fs_runs s' !! j = Some r' ∧ run_extends r r';
  xt_submissions : fs_submissions s ⊆ fs_submissions s';
  xt_attempts : fs_run_by_attempt s ⊆ fs_run_by_attempt s';
  xt_event_ids : fs_event_ids s ⊆ fs_event_ids s';
  xt_cancellations : fs_cancellations s ⊆ fs_cancellations s';
  xt_acknowledgements : fs_acknowledgements s ⊆ fs_acknowledgements s'
}.

#[export] Instance run_extends_preorder : PreOrder run_extends.
Proof.
  split; [intros r; constructor; [done|lia|done|done|done]|]. intros r1 r2 r3 [] []. destruct_and!.
  split; [split_and!; congruence|lia|by etrans|auto|congruence].
Qed.

#[export] Instance extends_preorder : PreOrder extends.
Proof.
  split.
  - intros s. split; try done. intros j r Hr. exists r. by split.
  - intros s1 s2 s3 [] []. split; try (by etrans). intros j r Hr.
    destruct (xt_runs0 j r Hr) as (r2 & Hr2 & ?). destruct (xt_runs1 j r2 Hr2) as (r3 & Hr3 & ?).
    exists r3. split; [done|by etrans].
Qed.

Lemma extends_put_state s run_id r r' :
  fs_runs s !! run_id = Some r → run_extends r r' → extends s (put_run run_id r' s).
Proof.
  intros Hr Hx. pose proof (λ j x, extends_put s run_id r r' j x Hr Hx) as Hnew.
  split; [done|by destruct s..].
Qed.

Lemma step_extends s s' : gateway_ok s → gateway_step s s' → extends s s'.
Proof.
  intros Hs Hstep. pose proof (λ j r Hr, proj1 (gk_runs _ (proj1 Hs) j r Hr)) as Hok.
  destruct Hstep as [env q s Hfresh|env run_id e s|env run_id b s|env q s|env q s].
  - destruct (submit_spec env q s)
      as [(err & ->)|[->|[(x & _ & _ & _ & ->)|(x & Hk & Ha & Hx & ->)]]]; try done.
    destruct s as [subs runs rba ids can ack]. simpl in *. split; simpl; try done.
    + intros j r Hr. exists r. rewrite lookup_insert_ne by congruence. done.
    + by apply insert_subseteq.
    + by apply insert_subseteq.
  - destruct (append_event_spec env run_id e s) as [(err & ->)|(r & Hr & _ & He & Hv & Ev & ->)]; [done|].
    destruct (run_ok_append env run_id e r (Hok _ _ Hr) He Hv Ev) as [_ Hx].
    pose proof (extends_put_state s run_id r _ Hr Hx) as []. destruct s. simpl in *.
    split; try done. set_solver.
  - destruct (attach_evidence_spec env run_id b s)
      as [(err & ->)|[->|(r & Hr & Hb & [[Hv ->]|[Hv ->]])]]; [done|done| |];
      (eapply extends_put_state; [exact Hr|]).
    + apply (run_ok_marked run_id); [by apply Hok|done].
    + apply (run_ok_attached env run_id); [by apply Hok|done|done].
  - destruct (cancel_spec env q s)
      as [(err & ->)|[(x & _ & _ & ->)|(Hc & r & Hr & [[_ ->]|[(_ & _ & ->)|(_ & Hv & ->)]])]];
      try done; simpl.
    + destruct s. split; simpl in *; try done; [by intros j x Hx; exists x|by apply insert_subseteq].
    + eapply extends_put_state; [done|]. by apply (run_ok_cancel_marked (cr_run_id q)), Hok.
    + destruct (run_ok_cancelled env _ r (Hok _ _ Hr) Hv) as [_ Hx].
      pose proof (extends_put_state s _ r _ Hr Hx) as []. destruct s. simpl in *.
      split; simpl; try done. by apply insert_subseteq.
  - destruct (acknowledge_spec env q s)
      as [(err & ->)|[(x & _ & _ & ->)|(Hc & r & b & Hr & Hb & _ & [(_ & ->)|(Hv & ->)])]];
      try done; simpl; assert (is_Some (fr_evidence r)) as Hev by (by exists b).
    + eapply extends_put_state; [done|]. by apply (run_ok_ack_marked (ak_run_id q)); [apply Hok|].
    + destruct (run_ok_acknowledged env _ r (Hok _ _ Hr) Hev Hv) as [_ Hx].
      pose proof (extends_put_state s _ r _ Hr Hx) as []. destruct s. simpl in *.
      split; simpl; try done. by apply insert_subseteq.
Qed.

Lemma star_extends s s' : gateway_ok s → star gateway_step s s' → gateway_ok s' ∧ extends s s'.
Proof.
  intros Hs H. induction H as [|s s1 s2 _ IH Hstep]; [done|]. destruct (IH Hs) as [H1 Hx].
  split; [by eapply gateway_ok_step|]. etrans; [done|by apply step_extends].
Qed.

(** ** Pages *)

Lemma sorted_length (l : list Z) lo hi :
  StronglySorted Z.lt l → Forall (λ v, lo < v ≤ hi) l → Z.of_nat (length l) ≤ Z.max 0 (hi - lo).
Proof.
  revert lo. induction l as [|x l IH]; intros lo Hs Hf; simpl; [lia|].
  apply StronglySorted_inv in Hs as [Hs Hx]. apply Forall_cons in Hf as [H0 Hf].
  assert (Z.of_nat (length l) ≤ Z.max 0 (hi - x)); [|lia]. apply IH; [done|].
  rewrite Forall_forall in *. intros v Hv. specialize (Hx v Hv). specialize (Hf v Hv). lia.
Qed.

(** A run has fewer events than versions, so positions are machine words. *)
Lemma events_fit run_id r : run_ok run_id r → Z.of_nat (length (fr_events r)) ≤ u64_max.
Proof.
  intros []. rewrite <- (length_fmap pe_aggregate_version).
  assert (Z.of_nat (length (pe_aggregate_version <$> fr_events r)) ≤ Z.max 0 (u64_max - 1)) as H.
  { apply sorted_length; [done|]. rewrite Forall_fmap. eapply Forall_impl; [exact rk_versions0|].
    simpl. lia. }
  pose proof (eq_refl : u64_max = 18446744073709551615). lia.
Qed.

(** The cursor that stands for [n] delivered events. *)
Definition position (run_id : RunId) (n : nat) : option EventCursor :=
  match n with O => None | S _ => Some (cursor_at run_id n) end.

Definition page_request (run_id : RunId) (after : option EventCursor) (limit : Z)
  : GetRunEventsRequest :=
  mkGetRunEventsRequest GET_RUN_EVENTS_REQUEST_SCHEMA_V1 run_id after limit.

(** The page after [n] delivered events holds the next [limit] of them. *)
Lemma page_spec s run_id r n limit :
  gateway_ok s → fs_runs s !! run_id = Some r → (n ≤ length (fr_events r))%nat →
  0 < limit ≤ rc_max_event_page_size (im_capabilities gw) →
  let next := Nat.min (n + Z.to_nat limit) (length (fr_events r)) in
  fake_get_run_events gw (page_request run_id (position run_id n) limit) s =
  (s, Success {| ep_schema := RUN_EVENT_PAGE_SCHEMA_V1; ep_run_id := run_id;
                 ep_after := position run_id n;
                 ep_events := take (next - n) (drop n (fr_events r));
                 ep_next_cursor := position run_id next;
                 ep_has_more := (next <? length (fr_events r))%nat;
                 ep_snapshot := fr_snapshot r |}).
Proof.
  intros Hs Hr Hn Hlim next. unfold fake_get_run_events. call_step.
  assert (GetRunEventsRequest_validate (page_request run_id (position run_id n) limit)
    (rc_max_event_page_size (im_capabilities gw)) = Success tt) as ->.
  { unfold GetRunEventsRequest_validate. reflect. simpl. split_and!; [done|lia|lia]. }
  cbn iota. rewrite call_bind_eq, find_run_spec. simpl ge_run_id. rewrite Hr.
  simpl or_fail. cbn iota. call_step. simpl ge_after. simpl ge_limit.
  assert (match position run_id n with
    | Some cursor => parse_cursor cursor run_id (length (fr_events r))
    | None => Success 0%nat end = Success n) as ->.
  { destruct n as [|n]; simpl; [done|]. apply parse_cursor_at; [done|].
    apply (events_fit run_id), (gk_runs _ (proj1 Hs)), Hr. }
  cbn iota zeta. call_step. fold next.
  assert ((if (0 <? next)%nat then cursor ← cursor_for run_id next; Success (Some cursor)
    else Success None) = Success (position run_id next)) as ->.
  { rewrite cursor_for_ok. by destruct next. }
  done.
Qed.

(** A client that follows one run: it asks for pages with the cursor of the
    last one, while other operations happen in between. *)
Inductive follows (run_id : RunId)
  : FakeState → option EventCursor → list ProductEvent → Prop :=
| follows_start s : reachable s → follows run_id s None []
| follows_wait s s' c l :
    follows run_id s c l → gateway_step s s' → follows run_id s' c l
| follows_page s s' c l limit page :
    follows run_id s c l → 0 ≤ limit →
    fake_get_run_events gw (page_request run_id c limit) s = (s', Success page) →
    follows run_id s' (ep_next_cursor page) (l ++ ep_events page).

Lemma page_request_ok s s' run_id c limit page :
  fake_get_run_events gw (page_request run_id c limit) s = (s', Success page) →
  0 ≤ limit → is_Some (fs_runs s !! run_id) ∧
  0 < limit ≤ rc_max_event_page_size (im_capabilities gw).
Proof.
  unfold fake_get_run_events. intros H Hlim. rewrite call_bind_eq in H. unfold pure_call in H.
  destruct (GetRunEventsRequest_validate _ _) as [[]| |] eqn:Hv; [|done|done].
  unfold GetRunEventsRequest_validate in Hv. reflect. simpl in Hv. destruct Hv as [_ Hv].
  rewrite call_bind_eq, find_run_spec in H. simpl ge_run_id in H.
  destruct (fs_runs s !! run_id); [|done]. split; [by eexists|lia].
Qed.

Lemma drop_take_step {A} (l : list A) n m :
  (n ≤ m)%nat → take n l ++ take (m - n) (drop n l) = take m l.
Proof.
  intros Hnm. rewrite <- (take_drop n (take m l)), take_take, skipn_firstn_comm, Nat.min_l by done.
  done.
Qed.

Lemma get_run_events_reads r : reads_only (fake_get_run_events gw r).
Proof. unfold fake_get_run_events. reads. Qed.

Lemma follows_state run_id s c l : follows run_id s c l → reachable s.
Proof.
  intros H. induction H as [|s s' c l _ IH Hstep|s s' c l limit page _ IH _ Hp]; [done| |].
  - by eapply star_snoc.
  - pose proof (get_run_events_reads (page_request run_id c limit) s) as E. rewrite Hp in E.
    simpl in E. by subst.
Qed.

Lemma follows_prefix run_id s c l :
  follows run_id s c l →
  c = position run_id (length l) ∧
  match fs_runs s !! run_id with
  | Some r => l `prefix_of` fr_events r
  | None => l = []
  end.
Proof.
  intros H. induction H as [s _|s s' c l Hf [Hc Hl] Hstep|s s' c l limit page Hf [Hc Hl] Hlim Hp].
  - split; [done|]. destruct (fs_runs s !! run_id); [apply prefix_nil|done].
  - split; [done|]. pose proof (follows_state _ _ _ _ Hf) as Hr.
    pose proof (step_extends _ _ (reachable_ok _ Hr) Hstep) as Hx.
    destruct (fs_runs s !! run_id) as [r|] eqn:Er.
    + destruct (xt_runs _ _ Hx run_id r Er) as (r' & -> & Hrr). etrans; [done|apply Hrr].
    + subst l. destruct (fs_runs s' !! run_id); [apply prefix_nil|done].
  - pose proof (follows_state _ _ _ _ Hf) as Hr.
    destruct (page_request_ok _ _ _ _ _ _ Hp Hlim) as [[r Er] Hl2]. rewrite Er in Hl.
    destruct Hl as [k Hk]. subst c.
    rewrite (page_spec s run_id r (length l) limit) in Hp; [|by apply reachable_ok|done| |done].
    2: { rewrite Hk, length_app. lia. }
    injection Hp as <- <-. rewrite Er. cbn [ep_next_cursor ep_events].
    set (next := Nat.min _ _).
    assert (length l ≤ next ≤ length (fr_events r))%nat as Hnext.
    { unfold next. rewrite Hk, length_app. lia. }
    assert (l ++ take (next - length l) (drop (length l) (fr_events r)) = take next (fr_events r))
      as ->.
    { rewrite <- (drop_take_step _ (length l) next) by lia. f_equal. by rewrite Hk, take_app_length. }
    split; [|apply prefix_take].
    by rewrite length_take, Nat.min_l by lia.
Qed.

(** Reading a run to its end: pages until one says that there is no more. *)
Fixpoint drain (fuel : nat) (run_id : RunId) (after : option EventCursor) (limit : Z)
    (s : FakeState) : option (list ProductEvent) :=
  match fuel with
  | O => None
  | S fuel =>
      match (fake_get_run_events gw (page_request run_id after limit) s).2 with
      | Success page =>
          if ep_has_more page
          then app (ep_events page) <$> drain fuel run_id (ep_next_cursor page) limit s
          else Some (ep_events page)
      | _ => None
      end
  end.

Lemma drain_from s run_id r limit fuel n :
  gateway_ok s → fs_runs s !! run_id = Some r →
  0 < limit ≤ rc_max_event_page_size (im_capabilities gw) →
  (n ≤ length (fr_events r))%nat →
  (0 < fuel)%nat → (length (fr_events r) - n ≤ fuel * Z.to_nat limit)%nat →
  drain fuel run_id (position run_id n) limit s = Some (drop n (fr_events r)).
Proof.
  intros Hs Hr Hlim. revert n. induction fuel as [|fuel IH]; intros n Hn Hf Hm; [lia|].
  cbn [drain]. rewrite (page_spec s run_id r n limit) by done. cbn [snd ep_has_more].
  set (next := Nat.min _ _). destruct (next <? length (fr_events r))%nat eqn:E.
  - apply Nat.ltb_lt in E.
    assert (next = (n + Z.to_nat limit)%nat) as Hnext by lia. cbn [ep_next_cursor ep_events].
    rewrite IH by lia. simpl. f_equal.
    rewrite <- (take_drop (next - n) (drop n (fr_events r))) at 2. f_equal.
    rewrite drop_drop. f_equal. lia.
  - apply Nat.ltb_ge in E. assert (next = length (fr_events r)) as -> by lia.
    cbn [ep_events]. f_equal. rewrite take_ge; [done|]. rewrite length_drop. lia.
Qed.

(** ** Idempotency *)

Lemma submit_again env q s sub :
  SubmitWorkOrderRequest_validate q = Success tt →
  fs_submissions s !! sr_idempotency_key q = Some sub →
  fake_submit gw env q s =
  if bool_decide (qs_work_order_digest (sbr_qualification sub) = sr_work_order_digest q)
  then (s, Success (adopt_submission (sbr_receipt sub)))
  else (s, Failure (IdempotencyConflict (sr_idempotency_key q)
         (qs_work_order_digest (sbr_qualification sub)) (sr_work_order_digest q))).
Proof.
  intros Hv Hs. unfold fake_submit. call_step. rewrite Hv. cbn iota. call_step. rewrite Hs.
  call_step. by case_bool_decide.
Qed.

(** What an accepted or adopted submission leaves behind. *)
Lemma submit_recorded env q s s' receipt :
  fake_submit gw env q s = (s', Success receipt) →
  SubmitWorkOrderRequest_validate q = Success tt ∧
  ∃ sub, fs_submissions s' !! sr_idempotency_key q = Some sub ∧
    qs_work_order_digest (sbr_qualification sub) = sr_work_order_digest q ∧
    adopt_submission (sbr_receipt sub) = adopt_submission receipt.
Proof.
  intros H. destruct (submit_spec env q s)
    as [(err & E)|[E|[(x & Hk & Hv & Hd & E)|(x & Hk & Ha & Hx & E)]]];
    rewrite E in H; simplify_eq.
  - split; [done|]. exists x. split_and!; try done. by destruct (sbr_receipt x).
  - apply qualification_fields in Hx as (Hv & _ & Hd & _). split; [done|].
    exists (mkSubmissionRecord (new_receipt env q) x). split_and!; try done.
    destruct s. apply lookup_insert_eq.
Qed.

Lemma cancel_again env q s c :
  CancelRunRequest_validate q = Success tt →
  fs_cancellations s !! (cr_run_id q, cr_idempotency_key q) = Some c → cnr_request c = q →
  fake_cancel env q s = (s, Success (adopt_cancellation (cnr_receipt c))).
Proof.
  intros Hv Hs Hq. unfold fake_cancel. call_step. rewrite Hv. cbn iota. call_step. rewrite Hs.
  call_step. by rewrite bool_decide_true.
Qed.

Lemma cancel_recorded env q s s' receipt :
  fake_cancel env q s = (s', Success receipt) →
  CancelRunRequest_validate q = Success tt ∧
  ∃ c, fs_cancellations s' !! (cr_run_id q, cr_idempotency_key q) = Some c ∧ cnr_request c = q ∧
    adopt_cancellation (cnr_receipt c) = adopt_cancellation receipt.
Proof.
  intros H. split.
  { unfold fake_cancel in H. rewrite call_bind_eq in H. unfold pure_call in H.
    by destruct (CancelRunRequest_validate q) as [[]| |]. }
  destruct (cancel_spec env q s) as [(err & E)|[(c & Hc & Hq & E)|(_ & r & Hr & H3)]].
  - by rewrite E in H.
  - rewrite E in H. simplify_eq. exists c. split_and!; try done. by destruct (cnr_receipt c).
  - destruct H3 as [[_ E]|[(_ & _ & E)|(_ & Hv & E)]]; rewrite E in H; simplify_eq;
      eexists; (split; [destruct s; apply lookup_insert_eq|done]).
Qed.

Lemma acknowledge_again env q s c :
  AcknowledgeOutcomeRequest_validate q = Success tt →
  fs_acknowledgements s !! (ak_run_id q, ak_idempotency_key q) = Some c → akr_request c = q →
  fake_acknowledge env q s = (s, Success (adopt_acknowledgement (akr_receipt c))).
Proof.
  intros Hv Hs Hq. unfold fake_acknowledge. call_step. rewrite Hv. cbn iota. call_step. rewrite Hs.
  call_step. by rewrite bool_decide_true.
Qed.

Lemma acknowledge_recorded env q s s' receipt :
  fake_acknowledge env q s = (s', Success receipt) →
  AcknowledgeOutcomeRequest_validate q = Success tt ∧
  ∃ c, fs_acknowledgements s' !! (ak_run_id q, ak_idempotency_key q) = Some c ∧
    akr_request c = q ∧ adopt_acknowledgement (akr_receipt c) = adopt_acknowledgement receipt.
Proof.
  intros H. split.
  { unfold fake_acknowledge in H. rewrite call_bind_eq in H. unfold pure_call in H.
    by destruct (AcknowledgeOutcomeRequest_validate q) as [[]| |]. }
  destruct (acknowledge_spec env q s) as [(err & E)|[(c & Hc & Hq & E)|(_ & r & b & Hr & _ & _ & H3)]].
  - by rewrite E in H.
  - rewrite E in H. simplify_eq. exists c. split_and!; try done. by destruct (akr_receipt c).
  - destruct H3 as [[_ E]|[Hv E]]; rewrite E in H; simplify_eq;
      eexists; (split; [destruct s; apply lookup_insert_eq|done]).
Qed.

(** ** Qualified lookup *)

Lemma lookup_spec s q :
  gateway_ok s →
  is_nil (rc_worker_id (im_capabilities gw)) = false →
  rc_worker_generation (im_capabilities gw) ≠ 0 →
  LookupQualifiedSubmissionRequest_validate q = Success tt →
  fake_lookup q s =
  (s, Success (mkLookupQualifiedSubmissionReceipt LOOKUP_QUALIFIED_SUBMISSION_RECEIPT_SCHEMA_V1
    match qualified_run (lq_qualification q) s with
    | Some r => LookupFound (mkQualifiedSubmissionFound (lq_qualification q) (fr_snapshot r)
        (mkAdmissionWorker (rn_worker_id (fr_snapshot r)) (rn_worker_generation (fr_snapshot r))))
    | None => LookupNotFound
    end)).
Proof.
  intros [Hs _] Hid Hgen Hv. unfold fake_lookup. call_step. rewrite Hv. cbn iota. call_step.
  destruct (qualified_run (lq_qualification q) s) as [r|] eqn:Hr; [|done]. call_step.
  unfold qualified_run in Hr. apply bind_Some in Hr as (sub & Hsub & Hr).
  case_bool_decide as Eq; [|done]. apply bind_Some in Hr as (run_id & Ha & Hr).
  destruct (gk_submissions _ Hs _ _ Hsub) as (r2 & Hr2 & Ek & Ea & Ed & _).
  destruct (gk_runs _ Hs _ _ Hr2) as (_ & Ha2 & _).
  assert (run_id = sre_run_id (sbr_receipt sub)) as -> by (rewrite Ea, Eq in Ha2; congruence).
  rewrite Hr in Hr2. injection Hr2 as ->.
  destruct (gk_runs _ Hs _ _ Hr) as ([? [Ew Eg]] & _ & _).
  unfold validate_against, AdmissionWorker_validate. cbn -[bool_decide is_nil Z.eqb].
  rewrite Ek, Ea, Ed, Eq, Ew, Eg, Hid, !bool_decide_true, Z.eqb_refl by done.
  by rewrite (proj2 (Z.eqb_neq _ _)).
Qed.

Lemma qualified_run_recorded s q x env s' receipt :
  from_submit_work_order_request q = Success x →
  fs_submissions s !! sr_idempotency_key q = None →
  fake_submit gw env q s = (s', Success receipt) →
  qualified_run x s' = Some (new_run env q) ∧ sre_run_id receipt = env_run_id env.
Proof.
  intros Hx Hk H. destruct (submit_spec env q s)
    as [(err & E)|[E|[(y & Hk' & _)|(y & _ & Ha & Hy & E)]]]; try congruence.
  rewrite E in H. injection H as <- <-. rewrite Hx in Hy. injection Hy as <-.
  apply qualification_fields in Hx as (_ & Ek & _ & Ea & _).
  unfold qualified_run, admit_run. destruct s. simpl. rewrite Ek, lookup_insert_eq. simpl.
  rewrite bool_decide_true by done. rewrite Ea, lookup_insert_eq. simpl.
  by rewrite lookup_insert_eq.
Qed.

Lemma qualified_run_extends x s s' r :
  extends s s' → qualified_run x s = Some r →
  ∃ r', qualified_run x s' = Some r' ∧ run_extends r r'.
Proof.
  intros Hx Hr. unfold qualified_run in *. apply bind_Some in Hr as (sub & Hsub & Hr).
  case_bool_decide as E; [|done]. apply bind_Some in Hr as (run_id & Ha & Hr).
  rewrite (lookup_weaken _ _ _ _ Hsub (xt_submissions _ _ Hx)). simpl.
  rewrite bool_decide_true by done.
  rewrite (lookup_weaken _ _ _ _ Ha (xt_attempts _ _ Hx)). simpl.
  by apply (xt_runs _ _ Hx).
Qed.

End specs.

(** ** The contract *)

Section contract.
  Context {url : UrlCrate} {hashing : Hashing} {uuids : UuidText}.
  Context {order_jcs : Canonical WorkOrderV1} {signed_jcs : Canonical SignedWorkOrder}.
  Context {cancel_jcs : Canonical CancelRunRequest} {ack_jcs : Canonical AcknowledgeOutcomeRequest}.
  Context (gw : InMemoryRunmillGateway).

Lemma in_memory_contract : @GatewayContract FakeState (in_memory_gateway gw).
Proof.
  constructor; simpl.
  - intros s. split_and!; intros r; revert s;
      [change (reads_only (fake_negotiate gw r)); unfold fake_negotiate
      |change (reads_only (fake_get_run r)); unfold fake_get_run
      |apply get_run_events_reads
      |change (reads_only (fake_get_evidence r)); unfold fake_get_evidence
      |change (reads_only (fake_negotiate_v2 gw r)); unfold fake_negotiate_v2
      |change (reads_only (fake_lookup r)); unfold fake_lookup]; reads.
  - intros env r s s' receipt H env'. apply submit_recorded in H as (Hv & sub & Hs & Hd & Ha).
    rewrite (submit_again gw env' r s' sub Hv Hs), bool_decide_true, Ha by done.
    by destruct receipt.
  - intros env r s s' e H. destruct (submit_spec gw env r s)
      as [(err & E)|[E|[(x & _ & _ & _ & E)|(x & _ & _ & _ & E)]]]; congruence.
Qed.

Lemma mcp_contract : @GatewayContract RunmillMcpAdapter mcp_gateway.
Proof.
  constructor; simpl; [done| |].
  - intros env r s s' receipt H. unfold pure_call in H.
    by destruct (SubmitWorkOrderRequest_validate r) as [[]| |]; simpl in H.
  - intros env r [] []. done.
Qed.
End contract.

(** ** Theorems *)

(** C31. Whatever sequence of submissions, events, evidence, cancellations and
    acknowledgements the gateway has seen, its state is in order: runs,
    attempts, submissions, cancellations and acknowledgements refer to each
    other; each event identifier belongs to one stored event; the events of a
    run are bound to it with increasing versions that do not exceed the run's;
    evidence is the run's own, and only runs with evidence are acknowledged. In
    particular an attempt or a submission key has one run. *)
Theorem gateway_invariant `{UrlCrate, Hashing, UuidText, Canonical WorkOrderV1,
    Canonical SignedWorkOrder, Canonical EvidenceBundleV1, Canonical CancelRunRequest,
    Canonical AcknowledgeOutcomeRequest} gw s :
  reachable gw s →
  gateway_ok gw s ∧
  ∀ i r j r', fs_runs s !! i = Some r → fs_runs s !! j = Some r' →
    rn_attempt_id (fr_snapshot r) = rn_attempt_id (fr_snapshot r') ∨
    rn_idempotency_key (fr_snapshot r) = rn_idempotency_key (fr_snapshot r') → i = j.
Proof.
  intros Hs. pose proof (reachable_ok _ _ Hs) as Hok. split; [done|].
  intros i r j r' Hi Hj. destruct Hok as [Hl _].
  destruct (gk_runs _ _ Hl i r Hi) as (_ & Ai & si & Si & Ei).
  destruct (gk_runs _ _ Hl j r' Hj) as (_ & Aj & sj & Sj & Ej).
  intros [E|E]; rewrite E in *; congruence.
Qed.

(** Repeating an operation is harmless, however much happened in between: a
    request that was answered once is answered again with the same receipt,
    marked as adopted, and changes nothing; and a submission under a used key
    with another digest is refused as a conflict naming both digests. *)
Lemma gateway_idempotent `{UrlCrate, Hashing, UuidText, Canonical WorkOrderV1,
    Canonical SignedWorkOrder, Canonical EvidenceBundleV1, Canonical CancelRunRequest,
    Canonical AcknowledgeOutcomeRequest} gw s s1 s2 :
  reachable gw s → star (gateway_step gw) s1 s2 →
  (∀ env q receipt, fs_runs s !! env_run_id env = None →
     fake_submit gw env q s = (s1, Success receipt) →
     ∀ env', fake_submit gw env' q s2 = (s2, Success (adopt_submission receipt)) ∧
       ∀ q', SubmitWorkOrderRequest_validate q' = Success tt →
         sr_idempotency_key q' = sr_idempotency_key q →
         sr_work_order_digest q' ≠ sr_work_order_digest q →
         fake_submit gw env' q' s2 = (s2, Failure (IdempotencyConflict (sr_idempotency_key q)
           (sr_work_order_digest q) (sr_work_order_digest q')))) ∧
  (∀ env q receipt, fake_cancel env q s = (s1, Success receipt) →
     ∀ env', fake_cancel env' q s2 = (s2, Success (adopt_cancellation receipt))) ∧
  (∀ env q receipt, fake_acknowledge env q s = (s1, Success receipt) →
     ∀ env', fake_acknowledge env' q s2 = (s2, Success (adopt_acknowledgement receipt))).
Proof.
  intros Hs Hstar. pose proof (reachable_ok _ _ Hs) as Hok.
  assert (gateway_step gw s s1 → extends s1 s2) as Hx.
  { intros Hstep. apply (star_extends gw); [|done]. by eapply gateway_ok_step. }
  split_and!.
  - intros env q receipt Hfresh Hq env'.
    pose proof (step_submit gw env q s Hfresh) as Hstep. rewrite Hq in Hstep. specialize (Hx Hstep).
    destruct (submit_recorded _ _ _ _ _ _ Hq) as (Hv & sub & Hsub & Hd & Ha).
    pose proof (lookup_weaken _ _ _ _ Hsub (xt_submissions _ _ Hx)) as Hsub2.
    split.
    + by rewrite (submit_again gw env' q s2 sub Hv Hsub2), bool_decide_true, Ha.
    + intros q' Hv' Ek Hne. rewrite <- Ek in Hsub2.
      rewrite (submit_again gw env' q' s2 sub Hv' Hsub2), bool_decide_false by congruence.
      by rewrite Hd, Ek.
  - intros env q receipt Hq env'.
    pose proof (step_cancel gw env q s) as Hstep. rewrite Hq in Hstep. specialize (Hx Hstep).
    destruct (cancel_recorded _ _ _ _ _ Hq) as (Hv & c & Hc & Ec & Ea). rewrite <- Ea.
    apply cancel_again; [done|by apply (lookup_weaken _ _ _ _ Hc (xt_cancellations _ _ Hx))|done].
  - intros env q receipt Hq env'.
    pose proof (step_acknowledge gw env q s) as Hstep. rewrite Hq in Hstep. specialize (Hx Hstep).
    destruct (acknowledge_recorded _ _ _ _ _ Hq) as (Hv & c & Hc & Ec & Ea). rewrite <- Ea.
    apply acknowledge_again;
      [done|by apply (lookup_weaken _ _ _ _ Hc (xt_acknowledgements _ _ Hx))|done].
Qed.

(** Delivery through cursors is lossless: a client that starts without a
    cursor and asks for each page with the cursor of the page before, with any
    operations in between, has at every moment received exactly a prefix of the
    run's events, in order, without gap or repetition; and after a page that
    announces no more events it has received all of them. *)
Lemma cursor_delivery_lossless `{UrlCrate, Hashing, UuidText, Canonical WorkOrderV1,
    Canonical SignedWorkOrder, Canonical EvidenceBundleV1, Canonical CancelRunRequest,
    Canonical AcknowledgeOutcomeRequest} gw run_id s c l r :
  follows gw run_id s c l → fs_runs s !! run_id = Some r →
  l `prefix_of` fr_events r ∧
  ∀ limit, 0 < limit ≤ rc_max_event_page_size (im_capabilities gw) →
    ∃ page, fake_get_run_events gw (page_request run_id c limit) s = (s, Success page) ∧
      (ep_has_more page = false ↔ l ++ ep_events page = fr_events r).
Proof.
  intros Hf Hr. destruct (follows_prefix _ _ _ _ _ Hf) as [-> Hl]. rewrite Hr in Hl.
  split; [done|]. intros limit Hlim. destruct Hl as [k Hk].
  pose proof (reachable_ok _ _ (follows_state _ _ _ _ _ Hf)) as Hok.
  assert (length l ≤ length (fr_events r))%nat as Hlen by (rewrite Hk, length_app; lia).
  rewrite (page_spec gw s run_id r (length l) limit) by done. eexists. split; [done|].
  cbn [ep_has_more ep_events]. set (next := Nat.min _ _). rewrite Nat.ltb_ge.
  assert (drop (length l) (fr_events r) = k) as -> by (by rewrite Hk, drop_app_length).
  assert (length (fr_events r) = length l + length k)%nat as Hlk by (by rewrite Hk, length_app).
  split.
  - intros H'. rewrite Hk. f_equal. apply take_ge. unfold next in *. lia.
  - intros H'. rewrite Hk in H'. apply app_inv_head, (f_equal length) in H'.
    rewrite length_take in H'. unfold next in *. lia.
Qed.

(** Reading a run to its end terminates: from the first page, with any
    admissible page size, the loop that follows the cursors until no more
    events are announced returns all events of the run, within one request per
    full page of them (and at least one request). *)
Lemma paging_terminates `{UrlCrate, Hashing, UuidText, Canonical WorkOrderV1,
    Canonical SignedWorkOrder, Canonical EvidenceBundleV1, Canonical CancelRunRequest,
    Canonical AcknowledgeOutcomeRequest} gw s run_id r limit fuel :
  reachable gw s → fs_runs s !! run_id = Some r →
  0 < limit ≤ rc_max_event_page_size (im_capabilities gw) →
  (0 < fuel)%nat → (length (fr_events r) ≤ fuel * Z.to_nat limit)%nat →
  drain gw fuel run_id None limit s = Some (fr_events r).
Proof.
  intros Hs Hr Hlim Hf Hm. apply reachable_ok in Hs.
  rewrite (drain_from gw s run_id r limit fuel 0); try done; lia.
Qed.

(** A submission whose reply was lost is found again: once a request was
    accepted, the lookup under its qualification (tenant, order, item, attempt,
    key and both digests) finds the run at any later time, with the run's
    attempt, key and digest and the worker that admitted it; a lookup under a
    qualification that was never submitted answers that nothing was found. *)
Lemma qualified_lookup_recovers `{UrlCrate, Hashing, UuidText, Canonical WorkOrderV1,
    Canonical SignedWorkOrder, Canonical EvidenceBundleV1, Canonical CancelRunRequest,
    Canonical AcknowledgeOutcomeRequest} gw s :
  reachable gw s →
  is_nil (rc_worker_id (im_capabilities gw)) = false →
  rc_worker_generation (im_capabilities gw) ≠ 0 →
  (∀ env q x s1 s2 receipt, from_submit_work_order_request q = Success x →
     fs_submissions s !! sr_idempotency_key q = None → fs_runs s !! env_run_id env = None →
     fake_submit gw env q s = (s1, Success receipt) → star (gateway_step gw) s1 s2 →
     ∃ request found, LookupQualifiedSubmissionRequest_new x = Success request ∧
       fake_lookup request s2 = (s2, Success (mkLookupQualifiedSubmissionReceipt
         LOOKUP_QUALIFIED_SUBMISSION_RECEIPT_SCHEMA_V1 (LookupFound found))) ∧
       rn_run_id (qf_run found) = sre_run_id receipt ∧ qf_qualification found = x ∧
       rn_attempt_id (qf_run found) = qs_attempt_id x ∧
       rn_work_order_digest (qf_run found) = qs_work_order_digest x) ∧
  (∀ request, LookupQualifiedSubmissionRequest_validate request = Success tt →
     (∀ sub, fs_submissions s !! qs_idempotency_key (lq_qualification request) = Some sub →
        sbr_qualification sub ≠ lq_qualification request) →
     fake_lookup request s = (s, Success (mkLookupQualifiedSubmissionReceipt
       LOOKUP_QUALIFIED_SUBMISSION_RECEIPT_SCHEMA_V1 LookupNotFound))).
Proof.
  intros Hs Hid Hgen. pose proof (reachable_ok _ _ Hs) as Hok. split.
  - intros env q x s1 s2 receipt Hx Hk Hfresh Hq Hstar.
    pose proof (step_submit gw env q s Hfresh) as Hstep. rewrite Hq in Hstep. simpl in Hstep.
    pose proof (gateway_ok_step gw _ _ Hok Hstep) as Hok1.
    destruct (star_extends gw _ _ Hok1 Hstar) as [Hok2 Hx2].
    destruct (qualified_run_recorded gw s q x env s1 receipt Hx Hk Hq) as [Hq1 Er].
    destruct (qualified_run_extends x s1 s2 _ Hx2 Hq1) as (r & Hr & Hrr).
    assert (LookupQualifiedSubmissionRequest_validate (mkLookupQualifiedSubmissionRequest
      LOOKUP_QUALIFIED_SUBMISSION_REQUEST_SCHEMA_V1 x) = Success tt) as Hval.
    { unfold LookupQualifiedSubmissionRequest_validate. simpl.
      apply qualification_fields in Hx as (_ & _ & _ & _ & ->). done. }
    unfold LookupQualifiedSubmissionRequest_new. rewrite Hval.
    eexists _, _. split; [done|]. rewrite (lookup_spec gw s2) by done. cbn [lq_qualification].
    rewrite Hr. split; [done|]. cbn [qf_run qf_qualification].
    apply qualification_fields in Hx as (_ & _ & Ed & Ea & _).
    destruct (rx_identity _ _ Hrr) as (-> & _ & ->). rewrite Ed, Ea, Er.
    split_and!; try done.
    by rewrite (rx_id _ _ Hrr).
  - intros request Hval Hno. rewrite (lookup_spec gw s) by done.
    unfold qualified_run. destruct (fs_submissions s !! _) as [sub|] eqn:Hsub; [|done].
    simpl. by rewrite bool_decide_false by (by apply Hno).
Qed.

(** A lost reply may be answered by repeating the submission, at any gateway
    that keeps the contract. *)
Lemma resubmission_harmless `{UrlCrate, Hashing, UuidText, Canonical WorkOrderV1,
    Canonical SignedWorkOrder, Canonical CancelRunRequest,
    Canonical AcknowledgeOutcomeRequest} gw env envs q s s' receipt :
  fake_submit gw env q s = (s', Success receipt) →
  run_count (@resubmit _ (in_memory_gateway gw) envs q s').1 = run_count s'.
Proof.
  intros Hs. by rewrite (proj1 (@resubmit_adopts _ (in_memory_gateway gw) (in_memory_contract gw)
    env envs q s s' receipt Hs)).
Qed.

Definition never_succeeds {S E A} (m : call S E A) : Prop := ∀ s, succeeds (m s).2 = false.

Lemma never_succeeds_failure {S E A} (o : outcome E unit) (e : E) :
  never_succeeds (S:=S) (A:=A) (pure_call (o ;; Failure e)).
Proof. intros s. by destruct o as [[]| |]. Qed.

(** The MCP adapter fails closed: while no compatible Runmill contract is
    published, none of its operations succeeds, whatever the request. *)
Lemma mcp_fails_closed `{UrlCrate, Hashing, Canonical WorkOrderV1} :
  let gateway := mcp_gateway in
  (∀ r, never_succeeds (negotiate r)) ∧ (∀ env r, never_succeeds (submit_work_order env r)) ∧
  (∀ r, never_succeeds (get_run r)) ∧ (∀ r, never_succeeds (get_run_events r)) ∧
  (∀ env r, never_succeeds (cancel_run env r)) ∧ (∀ r, never_succeeds (get_evidence r)) ∧
  (∀ env r, never_succeeds (acknowledge_outcome env r)) ∧
  (∀ r, never_succeeds (negotiate_v2 r)) ∧ (∀ r, never_succeeds (lookup_qualified_submission r)).
Proof.
  intros gateway. split_and!; intros *; first [exact (never_succeeds_failure _ _)|by intros s].
Qed.

(** ** A concrete history *)

Module Sample.
Definition uuids : UuidText :=
  {| uuid_to_string u := "u" +:+ pos_text (N.succ_pos u);
     uuid_to_string_visible u := blank_head "u"%char _ (conj eq_refl eq_refl) |}.
Definition signed_jcs : Canonical SignedWorkOrder := {| to_jcs o := inr [sw_issued_at o] |}.
Definition cancel_jcs : Canonical CancelRunRequest := {| to_jcs r := inr [cr_requested_at r] |}.
Definition ack_jcs : Canonical AcknowledgeOutcomeRequest :=
  {| to_jcs r := inr [ak_acknowledged_at r] |}.
#[local] Existing Instances sample_url sample_hashing uuids sample_order_jcs sample_bundle_jcs
  signed_jcs cancel_jcs ack_jcs.

Definition gw : InMemoryRunmillGateway := InMemoryRunmillGateway_new 6%N 1.
Definition env : Environment := mkEnvironment 5%N 100 101.

(** The signed order of [Evidence.sample_run]. *)
Definition order : SignedWorkOrder :=
  match sample_run with
  | Ok (order, _) => order
  | _ => mkSignedWorkOrder "" "" "" 0 0 0 "" sample_order ""
  end.

Definition request : SubmitWorkOrderRequest :=
  mkSubmitWorkOrderRequest SUBMIT_WORK_ORDER_REQUEST_SCHEMA_V1
    (wo_idempotency_key (sw_payload order)) (sw_payload_digest order) order.

Definition event : ProductEvent :=
  {| pe_event_schema := PRODUCT_EVENT_SCHEMA_V1; pe_event_id := 9%N; pe_tenant_id := 2%N;
     pe_work_item_id := None; pe_attempt_id := None; pe_work_order_digest := None;
     pe_run_id := Some 5%N; pe_aggregate_version := 2; pe_occurred_at := 100;
     pe_ingested_at := 100; pe_actor := "worker"; pe_event_type := "started";
     pe_event_payload := Security.Null; pe_policy_digest := None; pe_trace_id := "t";
     pe_correlation_id := "c" |}.

Definition s1 : FakeState := (fake_submit gw env request FakeState_default).1.
Definition s2 : FakeState := (append_event env 5%N event s1).1.

Lemma s1_reachable : reachable gw s1.
Proof. eapply star_snoc; [apply star_nil|]. by apply step_submit. Qed.

Lemma s2_reachable : reachable gw s2.
Proof. eapply star_snoc; [apply s1_reachable|]. apply step_append. Qed.

Lemma s2_has_event :
  ∃ r, fs_runs s2 !! 5%N = Some r ∧ length (fr_events r) = 1%nat.
Proof.
  assert ((length ∘ fr_events) <$> fs_runs s2 !! 5%N = Some 1%nat) as E
    by (vm_compute; reflexivity).
  destruct (fs_runs s2 !! 5%N) as [r|]; [|done]. exists r. split; [done|]. by injection E.
Qed.

Lemma submitted : ∃ receipt, fake_submit gw env request FakeState_default = (s1, Success receipt).
Proof.
  assert (succeeds (fake_submit gw env request FakeState_default).2 = true) as E
    by (vm_compute; reflexivity).
  unfold s1. destruct (fake_submit gw env request FakeState_default) as [s [receipt| |]]; try done.
  by exists receipt.
Qed.

Lemma page_size limit :
  (0 <? limit) = true → (limit <=? 1000) = true →
  0 < limit ≤ rc_max_event_page_size (im_capabilities gw).
Proof. intros ?%Z.ltb_lt ?%Z.leb_le. simpl. lia. Qed.

Lemma gateway_invariant_witness : gateway_ok gw s2 ∧ is_Some (fs_runs s2 !! 5%N).
Proof.
  split; [apply (gateway_invariant gw s2 s2_reachable)|].
  destruct s2_has_event as (r & Hr & _). by exists r.
Defined.

Lemma gateway_idempotent_witness :
  ∃ receipt, fake_submit gw env request s2 = (s2, Success (adopt_submission receipt)).
Proof.
  destruct submitted as [receipt Hs]. exists receipt.
  apply (proj1 (gateway_idempotent gw FakeState_default s1 s2 (star_nil _ _)
    (star_snoc _ _ _ _ (star_nil _ _) (step_append gw env 5%N event s1)))
    env request receipt eq_refl Hs env).
Defined.

Lemma cursor_delivery_lossless_witness :
  ∃ r page, fs_runs s2 !! 5%N = Some r ∧
    fake_get_run_events gw (page_request 5%N None 1) s2 = (s2, Success page) ∧
    (ep_has_more page = false ↔ [] ++ ep_events page = fr_events r).
Proof.
  destruct s2_has_event as (r & Hr & _).
  destruct (cursor_delivery_lossless gw 5%N s2 None [] r
    (follows_start gw 5%N s2 s2_reachable) Hr) as [_ Hp].
  destruct (Hp 1 (page_size 1 eq_refl eq_refl)) as (page & Hpage).
  exists r, page. split; [exact Hr|exact Hpage].
Defined.

Lemma paging_terminates_witness :
  ∃ r, fs_runs s2 !! 5%N = Some r ∧ drain gw 1 5%N None 10 s2 = Some (fr_events r).
Proof.
  destruct s2_has_event as (r & Hr & Hlen). exists r. split; [done|].
  apply (paging_terminates gw s2 5%N r 10 1 s2_reachable Hr (page_size 10 eq_refl eq_refl)); [lia|].
  rewrite Hlen. change (Z.to_nat 10) with 10%nat. lia.
Defined.

Lemma qualified_lookup_recovers_witness :
  ∃ x receipt q found, from_submit_work_order_request request = Success x ∧
    fake_submit gw env request FakeState_default = (s1, Success receipt) ∧
    fake_lookup q s1 = (s1, Success (mkLookupQualifiedSubmissionReceipt
      LOOKUP_QUALIFIED_SUBMISSION_RECEIPT_SCHEMA_V1 (LookupFound found))).
Proof.
  assert (succeeds (from_submit_work_order_request request) = true) as E
    by (vm_compute; reflexivity).
  destruct (from_submit_work_order_request request) as [x| |] eqn:Hx;
    [|discriminate E|discriminate E].
  destruct submitted as [receipt Hs].
  destruct (proj1 (qualified_lookup_recovers gw FakeState_default (star_nil _ _) eq_refl
    ltac:(done)) env request x s1 s1 receipt Hx eq_refl eq_refl Hs (star_nil _ _))
    as (q & found & _ & Hl & _). exists x, receipt, q, found.
  split; [reflexivity|]. split; [exact Hs|exact Hl].
Defined.
End Sample.
