(* ===== verification/RunEvents.v ===== *)
(** Ingestion of worker events, [src/src/ledger/run_events.rs]: events are
    retained under the fence of a live worker session and projected onto the run
    in the order of their sequence numbers.

    The tables that the statements of that file read and write are lists of rows
    ([Ledger]), with the unique constraints of the migrations that [ON CONFLICT]
    refers to; each statement is a definition.  A call runs in the caller's
    transaction: when it fails nothing is committed, so an operation is a
    function to [res] of the new tables.  [PgColumns] is what PostgreSQL returns
    for a stored value (instants are kept to the microsecond, documents as
    [jsonb]).  Failures of the connection and the column [last_observed_at] are
    left out. *)

From Stdlib Require Import ZArith Lia.
From stdpp Require Import base tactics option list strings gmap.
From S2P Require Import Prelude RustStr RustOrd Ids Security Receipt Outcome RunmillPort.

(** [impl PartialEq for Value]: objects are compared as maps. *)
Fixpoint value_eqb (v w : Value) {struct v} : bool :=
  match v, w with
  | Null, Null => true
  | Bool a, Bool b => Bool.eqb a b
  | Number a, Number b => bool_decide (a = b)
  | VString a, VString b => bool_decide (a = b)
  | Array l, Array k =>
      (fix go (l k : list Value) : bool :=
         match l, k with
         | [], [] => true
         | x :: l, y :: k => value_eqb x y && go l k
         | _, _ => false
         end) l k
  | Object l, Object k =>
      Nat.eqb (length l) (length k)
      && (fix go (l : list (string * Value)) : bool :=
            match l with
            | [] => true
            | (key, x) :: l =>
                match find (λ p, bool_decide (p.1 = key)) k with
                | Some (_, y) => value_eqb x y
                | None => false
                end && go l
            end) l
  | _, _ => false
  end.

(** ** Requests *)

Record WorkerSessionFence := mkWorkerSessionFence {
  wf_tenant_id : Uuid;
  wf_session_id : Uuid;
  wf_worker_id : Uuid;
  wf_generation : Z
}.

Definition WorkerSessionFence_validate (f : WorkerSessionFence) : res unit :=
  bail_if (is_nil (wf_tenant_id f) || is_nil (wf_session_id f) || is_nil (wf_worker_id f)
           || (wf_generation f <=? 0))
    (Validation [Lit "worker session requires non-nil tenant/session/worker IDs and a positive generation"]).

Record IncomingRunEvent := mkIncomingRunEvent {
  in_id : Uuid;
  in_run_id : Uuid;
  in_external_event_id : string;
  in_cursor : string;
  in_sequence : Z;
  in_aggregate_version : Z;
  in_schema_version : string;
  in_event_type : string;
  in_occurred_at : DateTime;
  in_raw_event : Value
}.

(** [value.is_object()]. *)
Definition is_object (v : Value) : bool := match v with Object _ => true | _ => false end.

Definition IncomingRunEvent_validate (e : IncomingRunEvent) : res unit :=
  bail_if (is_nil (in_id e) || is_nil (in_run_id e)
           || blank (in_external_event_id e) || blank (in_cursor e)
           || blank (in_schema_version e) || blank (in_event_type e)
           || negb (is_object (in_raw_event e)))
    (Validation [Lit "raw run event has missing identity, cursor, schema, type, or object payload"]) ;;
  bail_if ((in_sequence e <=? 0) || (in_aggregate_version e <=? 0))
    (Validation [Lit "run event sequence and aggregate version must be positive"]).

Inductive RunEventProjectionBlock :=
| SequenceGap (expected : Z)
| AggregateVersionGap (expected received : Z)
| UnsupportedSchema (schema_version : string)
| UnsupportedEventType (event_type : string)
| InvalidKnownEnvelope (reason : message)
| InvalidStateTransition (from to : string).

Inductive RunEventIngestionDisposition :=
| Applied
| DuplicateApplied
| RetainedUnapplied (block : RunEventProjectionBlock).

Record RunEventIngestionOutcome := mkRunEventIngestionOutcome {
  io_event_id : Uuid;
  io_inserted : bool;
  io_applied_event_count : Z;
  io_disposition : RunEventIngestionDisposition;
  io_last_event_cursor : option string;
  io_last_event_sequence : Z;
  io_run_aggregate_version : Z
}.

Record LockedRun := mkLockedRun {
  lr_work_item_id : Uuid;
  lr_attempt_id : Uuid;
  lr_work_order_digest : string;
  lr_state : string;
  lr_last_event_cursor : option string;
  lr_last_event_sequence : Z;
  lr_aggregate_version : Z
}.

Record DrainOutcome := mkDrainOutcome {
  do_applied_count : Z;
  do_block : option RunEventProjectionBlock
}.

Record DecodedProjection := mkDecodedProjection {
  dp_state : string;
  dp_snapshot : Value;
  dp_aggregate_version : Z
}.

(** ** Tables *)

(** A row of [LOCK_WORKER_SESSION_SQL]: a session joined with its worker, and
    whether it is live at the clock of the database. *)
Record SessionRow := mkSessionRow {
  ss_tenant_id : Uuid;
  ss_id : Uuid;
  ss_worker_id : Uuid;
  ss_worker_generation : Z;
  ss_status : string;
  ss_is_live : bool;
  ss_current_worker_generation : Z
}.

(** A row of [runs] joined with the digest of its Work Order. *)
Record RunRow := mkRunRow {
  rr_worker_id : Uuid;
  rr_worker_generation : Z;
  rr_worker_session_id : Uuid;
  rr_work_item_id : Uuid;
  rr_attempt_id : Uuid;
  rr_work_order_digest : string;
  rr_authoritative : bool;
  rr_state : string;
  rr_last_event_cursor : option string;
  rr_last_event_sequence : Z;
  rr_snapshot : option Value;
  rr_aggregate_version : Z;
  rr_terminal_at : option DateTime
}.

Record RawEventRow := mkRawEventRow {
  re_id : Uuid;
  re_tenant_id : Uuid;
  re_run_id : Uuid;
  re_worker_session_id : Uuid;
  re_worker_id : Uuid;
  re_worker_generation : Z;
  re_external_event_id : string;
  re_cursor : string;
  re_sequence : Z;
  re_run_aggregate_version : Z;
  re_schema_version : string;
  re_event_type : string;
  re_occurred_at : DateTime;
  re_payload : Value
}.

Record ApplicationRow := mkApplicationRow {
  ap_tenant_id : Uuid;
  ap_run_event_id : Uuid;
  ap_run_id : Uuid;
  ap_run_aggregate_version : Z
}.

Record Ledger := mkLedger {
  lg_runs : gmap (Uuid * Uuid) RunRow;
  lg_raw_events : list RawEventRow;
  lg_applications : list ApplicationRow
}.

(** What comes back for a stored instant and a stored document. *)
Class PgColumns := {
  stored_at : DateTime → DateTime;
  stored_value : Value → Value;
  stored_value_object v : is_object (stored_value v) = is_object v
}.

(** [serde_json::from_value::<ProductEvent>]. *)
Class ProductEventJson := { product_event_from_value : Value → string + ProductEvent }.

(** ** Statements *)

(** [LOCK_WORKER_SESSION_SQL]. *)
Definition select_session (sessions : list SessionRow) (f : WorkerSessionFence)
  : option SessionRow :=
  find (λ s, bool_decide (ss_tenant_id s = wf_tenant_id f)
             && bool_decide (ss_id s = wf_session_id f)
             && bool_decide (ss_worker_id s = wf_worker_id f)) sessions.

(** The unique constraints of [raw_run_events]: the identifier, and within a run
    the external identifier, the cursor and the sequence. *)
Definition raw_conflict (a b : RawEventRow) : bool :=
  bool_decide (re_id a = re_id b)
  || bool_decide (re_tenant_id a = re_tenant_id b) && bool_decide (re_run_id a = re_run_id b)
     && (bool_decide (re_external_event_id a = re_external_event_id b)
         || bool_decide (re_cursor a = re_cursor b)
         || bool_decide (re_sequence a = re_sequence b)).

(** [INSERT_RAW_EVENT_SQL] with [ON CONFLICT DO NOTHING]. *)
Definition insert_raw_event (row : RawEventRow) (l : Ledger) : option Ledger :=
  if existsb (raw_conflict row) (lg_raw_events l) then None
  else Some (mkLedger (lg_runs l) (lg_raw_events l ++ [row]) (lg_applications l)).

(** The rows that share an identity with the incoming event. *)
Definition select_collisions (f : WorkerSessionFence) (e : IncomingRunEvent) (l : Ledger)
  : list RawEventRow :=
  List.filter (λ row, bool_decide (re_tenant_id row = wf_tenant_id f)
                      && bool_decide (re_run_id row = in_run_id e)
                      && (bool_decide (re_external_event_id row = in_external_event_id e)
                          || bool_decide (re_cursor row = in_cursor e)
                          || bool_decide (re_sequence row = in_sequence e))) (lg_raw_events l).

(** [NEXT_RAW_EVENT_SQL]: the event at a sequence, with its application. *)
Definition select_next (tenant_id run_id : Uuid) (sequence : Z) (l : Ledger)
  : option (RawEventRow * option ApplicationRow) :=
  row ← find (λ row, bool_decide (re_tenant_id row = tenant_id)
                     && bool_decide (re_run_id row = run_id)
                     && (re_sequence row =? sequence)) (lg_raw_events l);
  Some (row, find (λ a, bool_decide (ap_tenant_id a = re_tenant_id row)
                        && bool_decide (ap_run_event_id a = re_id row)) (lg_applications l)).

(** [$10 IN ('SUCCEEDED', …)]. *)
Definition terminal_state (s : string) : bool :=
  mem s ["SUCCEEDED"; "FAILED"; "REFUSED"; "CANCELLED"; "QUARANTINED"].

(** The assignments of [UPDATE_RUN_PROJECTION_SQL]. *)
Definition projected_row (row : RunRow) (expected : Z) (cursor : string) (d : DecodedProjection)
    (occurred_at : DateTime) : RunRow :=
  {| rr_worker_id := rr_worker_id row; rr_worker_generation := rr_worker_generation row;
     rr_worker_session_id := rr_worker_session_id row;
     rr_work_item_id := rr_work_item_id row; rr_attempt_id := rr_attempt_id row;
     rr_work_order_digest := rr_work_order_digest row;
     rr_authoritative := rr_authoritative row;
     rr_state := dp_state d; rr_last_event_cursor := Some cursor;
     rr_last_event_sequence := expected; rr_snapshot := Some (dp_snapshot d);
     rr_aggregate_version := dp_aggregate_version d;
     rr_terminal_at := if terminal_state (dp_state d)
       then Some (default occurred_at (rr_terminal_at row)) else rr_terminal_at row |}.

(** [UPDATE_RUN_PROJECTION_SQL]. *)
Definition update_projection (f : WorkerSessionFence) (run_id : Uuid)
    (sequence version expected : Z) (cursor : string) (d : DecodedProjection)
    (occurred_at : DateTime) (l : Ledger) : option (Ledger * RunRow) :=
  row ← lg_runs l !! (wf_tenant_id f, run_id);
  if bool_decide (rr_worker_session_id row = wf_session_id f)
     && bool_decide (rr_worker_id row = wf_worker_id f)
     && (rr_worker_generation row =? wf_generation f)
     && rr_authoritative row
     && (rr_last_event_sequence row =? sequence)
     && (rr_aggregate_version row =? version)
  then
    let row' := projected_row row expected cursor d occurred_at in
    Some (mkLedger (<[(wf_tenant_id f, run_id) := row']> (lg_runs l)) (lg_raw_events l)
            (lg_applications l), row')
  else None.

(** [INSERT_EVENT_APPLICATION_SQL]: nothing is inserted when the event already
    has an application; a second event for a version violates the other unique
    constraint, which is an error of the statement. *)
Definition insert_application (a : ApplicationRow) (l : Ledger) : res (option Ledger) :=
  if existsb (λ b, bool_decide (ap_tenant_id b = ap_tenant_id a)
                   && bool_decide (ap_run_event_id b = ap_run_event_id a)) (lg_applications l)
  then Ok None
  else if existsb (λ b, bool_decide (ap_tenant_id b = ap_tenant_id a)
                        && bool_decide (ap_run_id b = ap_run_id a)
                        && (ap_run_aggregate_version b =? ap_run_aggregate_version a))
            (lg_applications l)
  then Err (Persistence [Lit "record run event application"])
  else Ok (Some (mkLedger (lg_runs l) (lg_raw_events l) (lg_applications l ++ [a]))).

Definition event_is_applied (tenant_id run_id event_id : Uuid) (l : Ledger) : bool :=
  existsb (λ a, bool_decide (ap_tenant_id a = tenant_id) && bool_decide (ap_run_id a = run_id)
                && bool_decide (ap_run_event_id a = event_id)) (lg_applications l).

(** ** Projection *)

Definition valid_run_transition (current target : string) : bool :=
  if bool_decide (current = target) then true
  else if bool_decide (current = "ADOPTED") then
    mem target ["RUNNING"; "WAITING_APPROVAL"; "VERIFYING"; "SUCCEEDED"; "FAILED"; "REFUSED";
                "CANCEL_REQUESTED"; "CANCELLED"; "QUARANTINED"]
  else if bool_decide (current = "RUNNING") then
    mem target ["WAITING_APPROVAL"; "VERIFYING"; "SUCCEEDED"; "FAILED"; "REFUSED";
                "CANCEL_REQUESTED"; "CANCELLED"; "QUARANTINED"]
  else if bool_decide (current = "WAITING_APPROVAL") then
    mem target ["RUNNING"; "VERIFYING"; "SUCCEEDED"; "FAILED"; "REFUSED";
                "CANCEL_REQUESTED"; "CANCELLED"; "QUARANTINED"]
  else if bool_decide (current = "VERIFYING") then
    mem target ["WAITING_APPROVAL"; "SUCCEEDED"; "FAILED"; "REFUSED";
                "CANCEL_REQUESTED"; "CANCELLED"; "QUARANTINED"]
  else if bool_decide (current = "CANCEL_REQUESTED") then
    mem target ["CANCELLED"; "FAILED"; "QUARANTINED"]
  else false.

(** The target named by an event type, [None] when it is unknown. *)
Definition event_target (current event_type : string) : option string :=
  let is_one types := mem event_type types in
  if is_one ["run.accepted"; "run.adopted"] then Some "ADOPTED"
  else if is_one ["run.started"; "run.running"] then Some "RUNNING"
  else if is_one ["run.progressed"] then Some current
  else if is_one ["run.waiting_approval"] then Some "WAITING_APPROVAL"
  else if is_one ["run.verifying"] then Some "VERIFYING"
  else if is_one ["run.succeeded"; "run.target_reached"] then Some "SUCCEEDED"
  else if is_one ["run.failed"] then Some "FAILED"
  else if is_one ["run.refused"] then Some "REFUSED"
  else if is_one ["run.cancel_requested"] then Some "CANCEL_REQUESTED"
  else if is_one ["run.cancelled"] then Some "CANCELLED"
  else if is_one ["run.quarantined"] then Some "QUARANTINED"
  else None.

Definition project_state (current event_type : string)
  : outcome RunEventProjectionBlock string :=
  target ← or_fail (event_target current event_type) (UnsupportedEventType event_type);
  if valid_run_transition current target then Success target
  else Failure (InvalidStateTransition current target).

Section ingestion.
  Context {pg : PgColumns} {json : ProductEventJson} {uuids : UuidText}.

Definition decode_projection (row : RawEventRow) (f : WorkerSessionFence) (run_id : Uuid)
    (run : LockedRun) : outcome RunEventProjectionBlock DecodedProjection :=
  refuse_if (negb (bool_decide (re_schema_version row = PRODUCT_EVENT_SCHEMA_V1)))
    (UnsupportedSchema (re_schema_version row)) ;;
  refuse_if (negb (bool_decide (re_worker_session_id row = wf_session_id f))
             || negb (bool_decide (re_worker_id row = wf_worker_id f))
             || negb (re_worker_generation row =? wf_generation f))
    (InvalidKnownEnvelope [Lit "stored event belongs to a different worker session generation"]) ;;
  event ← match product_event_from_value (re_payload row) with
    | inr event => Success event
    | inl error => Failure (InvalidKnownEnvelope [Lit "invalid product event: "; Disp error])
    end;
  let aggregate_matches :=
    match try_from i64_max (pe_aggregate_version event) with
    | Some version => version =? re_run_aggregate_version row
    | None => false
    end in
  let bindings_match :=
    bool_decide (pe_event_schema event = re_schema_version row)
    && bool_decide (uuid_to_string (pe_event_id event) = re_external_event_id row)
    && bool_decide (pe_tenant_id event = wf_tenant_id f)
    && bool_decide (pe_work_item_id event = Some (lr_work_item_id run))
    && bool_decide (pe_attempt_id event = Some (lr_attempt_id run))
    && bool_decide (pe_work_order_digest event = Some (lr_work_order_digest run))
    && bool_decide (pe_run_id event = Some run_id)
    && bool_decide (pe_event_type event = re_event_type row)
    && (pe_occurred_at event =? re_occurred_at row)
    && aggregate_matches in
  refuse_if (negb bindings_match)
    (InvalidKnownEnvelope [Lit "product event does not match its tenant, run, attempt, Work Order, metadata, or aggregate binding"]) ;;
  projected_state ← project_state (lr_state run) (re_event_type row);
  Success (mkDecodedProjection projected_state (re_payload row) (re_run_aggregate_version row)).

(** ** Ingestion *)

Definition stale_generation_error (worker_id : Uuid) (supplied current : Z) : Error :=
  Conflict [Lit "worker "; FmtUuid worker_id; Lit " generation "; FmtNum supplied;
            Lit " is stale; current generation is "; FmtNum current].

(** The columns of the locked row that the ingestion keeps. *)
Definition locked_run (row : RunRow) : LockedRun :=
  {| lr_work_item_id := rr_work_item_id row; lr_attempt_id := rr_attempt_id row;
     lr_work_order_digest := rr_work_order_digest row; lr_state := rr_state row;
     lr_last_event_cursor := rr_last_event_cursor row;
     lr_last_event_sequence := rr_last_event_sequence row;
     lr_aggregate_version := rr_aggregate_version row |}.

Definition lock_worker_and_run (sessions : list SessionRow) (f : WorkerSessionFence)
    (run_id : Uuid) (l : Ledger) : res LockedRun :=
  session ← ok_or (select_session sessions f)
    (NotFound [Lit "worker session "; FmtUuid (wf_session_id f)]);
  bail_if (negb (ss_worker_generation session =? wf_generation f)
           || negb (ss_current_worker_generation session =? wf_generation f))
    (stale_generation_error (wf_worker_id f) (wf_generation f)
       (ss_current_worker_generation session)) ;;
  bail_if (negb (bool_decide (ss_status session = "ACTIVE")) || negb (ss_is_live session))
    (Conflict [Lit "worker session "; FmtUuid (wf_session_id f);
               Lit " is closed, revoked, or expired"]) ;;
  row ← ok_or (lg_runs l !! (wf_tenant_id f, run_id)) (NotFound [Lit "run "; FmtUuid run_id]);
  bail_if (negb (bool_decide (rr_worker_id row = wf_worker_id f))
           || negb (rr_worker_generation row =? wf_generation f)
           || negb (bool_decide (rr_worker_session_id row = wf_session_id f)))
    (Conflict [Lit "run "; FmtUuid run_id; Lit " is not bound to worker session ";
               FmtUuid (wf_session_id f); Lit " generation "; FmtNum (wf_generation f)]) ;;
  bail_if (negb (rr_authoritative row))
    (Conflict [Lit "run "; FmtUuid run_id; Lit " is not the authoritative run for its attempt"]) ;;
  Ok (locked_run row).

(** The row that [INSERT_RAW_EVENT_SQL] binds, as it is stored. *)
Definition raw_row (f : WorkerSessionFence) (e : IncomingRunEvent) : RawEventRow :=
  {| re_id := in_id e; re_tenant_id := wf_tenant_id f; re_run_id := in_run_id e;
     re_worker_session_id := wf_session_id f; re_worker_id := wf_worker_id f;
     re_worker_generation := wf_generation f; re_external_event_id := in_external_event_id e;
     re_cursor := in_cursor e; re_sequence := in_sequence e;
     re_run_aggregate_version := in_aggregate_version e;
     re_schema_version := in_schema_version e; re_event_type := in_event_type e;
     re_occurred_at := stored_at (in_occurred_at e);
     re_payload := stored_value (in_raw_event e) |}.

(** The comparison of a stored row with a repeated delivery. *)
Definition same_semantics (row : RawEventRow) (f : WorkerSessionFence) (e : IncomingRunEvent)
  : bool :=
  bool_decide (re_worker_session_id row = wf_session_id f)
  && bool_decide (re_worker_id row = wf_worker_id f)
  && (re_worker_generation row =? wf_generation f)
  && bool_decide (re_external_event_id row = in_external_event_id e)
  && bool_decide (re_cursor row = in_cursor e)
  && (re_sequence row =? in_sequence e)
  && (re_run_aggregate_version row =? in_aggregate_version e)
  && bool_decide (re_schema_version row = in_schema_version e)
  && bool_decide (re_event_type row = in_event_type e)
  && (re_occurred_at row =? in_occurred_at e)
  && value_eqb (re_payload row) (in_raw_event e).

Definition store_raw_event (f : WorkerSessionFence) (e : IncomingRunEvent) (l : Ledger)
  : res (Ledger * (Uuid * bool)) :=
  match insert_raw_event (raw_row f e) l with
  | Some l' => Ok (l', (in_id e, true))
  | None =>
      match select_collisions f e l with
      | [row] =>
          bail_if (negb (same_semantics row f e))
            (Conflict [Lit "run event identity "; Disp (in_external_event_id e);
                       Lit " was reused for different semantics"]) ;;
          Ok (l, (re_id row, false))
      | _ =>
          Err (Conflict [Lit "run event "; Disp (in_external_event_id e);
                         Lit " collides with multiple event identities"])
      end
  end.

(** One round of the loop of [drain_contiguous_events]: either the loop ends, or
    it goes on with the run after one more event. *)
Inductive round :=
| Stop (block : RunEventProjectionBlock)
| Continue (l : Ledger) (run : LockedRun).

Definition drain_round (f : WorkerSessionFence) (run_id : Uuid) (l : Ledger) (run : LockedRun)
  : res round :=
  expected_sequence ← ok_or (checked_add i64_max (lr_last_event_sequence run) 1)
    (Conflict [Lit "run event sequence overflowed"]);
  match select_next (wf_tenant_id f) run_id expected_sequence l with
  | None => Ok (Stop (SequenceGap expected_sequence))
  | Some (row, Some application) =>
      Err (Persistence [Lit "event sequence "; FmtNum expected_sequence;
        Lit " is already applied to run "; FmtUuid (ap_run_id application); Lit " at version Some(";
        FmtNum (ap_run_aggregate_version application); Lit "), but the run cursor did not advance"])
  | Some (row, None) =>
      match decode_projection row f run_id run with
      | Failure block => Ok (Stop block)
      | Crash => Panic
      | Success decoded =>
          expected_aggregate ← ok_or (checked_add i64_max (lr_aggregate_version run) 1)
            (Conflict [Lit "run aggregate version overflowed"]);
          if negb (dp_aggregate_version decoded =? expected_aggregate)
          then Ok (Stop (AggregateVersionGap expected_aggregate (dp_aggregate_version decoded)))
          else
            '(l1, updated) ← ok_or
              (update_projection f run_id (lr_last_event_sequence run) (lr_aggregate_version run)
                 expected_sequence (re_cursor row) decoded (re_occurred_at row) l)
              (Conflict [Lit "run "; FmtUuid run_id;
                 Lit " cursor, version, authority, or worker generation changed"]);
            inserted ← insert_application
              (mkApplicationRow (wf_tenant_id f) (re_id row) run_id (dp_aggregate_version decoded)) l1;
            l2 ← ok_or inserted (Conflict [Lit "raw run event "; FmtUuid (re_id row);
              Lit " was concurrently applied"]);
            Ok (Continue l2
              {| lr_work_item_id := lr_work_item_id run; lr_attempt_id := lr_attempt_id run;
                 lr_work_order_digest := lr_work_order_digest run; lr_state := rr_state updated;
                 lr_last_event_cursor := rr_last_event_cursor updated;
                 lr_last_event_sequence := rr_last_event_sequence updated;
                 lr_aggregate_version := rr_aggregate_version updated |})
      end
  end.

(** The loop.  [Panic] stands for an exhausted bound; one round more than there
    are stored events is enough, see [drain_spec]. *)
Fixpoint drain_contiguous_events (fuel : nat) (f : WorkerSessionFence) (run_id : Uuid)
    (applied_count : Z) (l : Ledger) (run : LockedRun) : res (Ledger * LockedRun * DrainOutcome) :=
  match fuel with
  | O => Panic
  | S fuel =>
      r ← drain_round f run_id l run;
      match r with
      | Stop block => Ok (l, run, mkDrainOutcome applied_count (Some block))
      | Continue l' run' =>
          applied_count ← ok_or (checked_add u32_max applied_count 1)
            (Conflict [Lit "applied run event count overflowed"]);
          drain_contiguous_events fuel f run_id applied_count l' run'
      end
  end.

Definition ingest_run_event (sessions : list SessionRow) (f : WorkerSessionFence)
    (e : IncomingRunEvent) (l : Ledger) : res (Ledger * RunEventIngestionOutcome) :=
  WorkerSessionFence_validate f ;;
  IncomingRunEvent_validate e ;;
  run ← lock_worker_and_run sessions f (in_run_id e) l;
  '(l1, (stored_event_id, inserted)) ← store_raw_event f e l;
  '(l2, run, drain) ← drain_contiguous_events (S (length (lg_raw_events l1))) f (in_run_id e) 0 l1 run;
  let target_applied := event_is_applied (wf_tenant_id f) (in_run_id e) stored_event_id l2 in
  disposition ←
    (if target_applied then Ok (if inserted : bool then Applied else DuplicateApplied)
     else
       block ← match do_block drain with
         | Some block => Ok block
         | None =>
             expected ← ok_or (checked_add i64_max (lr_last_event_sequence run) 1)
               (Conflict [Lit "run event sequence overflowed"]);
             Ok (SequenceGap expected)
         end;
       Ok (RetainedUnapplied block));
  Ok (l2, {| io_event_id := stored_event_id; io_inserted := inserted;
             io_applied_event_count := do_applied_count drain; io_disposition := disposition;
             io_last_event_cursor := lr_last_event_cursor run;
             io_last_event_sequence := lr_last_event_sequence run;
             io_run_aggregate_version := lr_aggregate_version run |}).
End ingestion.
