(* ===== verification/RunEventFacts.v ===== *)
(** What ingestion guarantees ([RunEvents]): the projection of a run is always
    the contiguous prefix of its stored events, it does not depend on the order
    of delivery, and runs do not leave a terminal state. *)

From Stdlib Require Import ZArith Lia Ascii.
From stdpp Require Import base tactics option list strings gmap.
From S2P Require Import Prelude RustStr RustOrd Ids Crypto Security Receipt Outcome RunmillPort RunEvents.

(** ** The projection of a run *)

Section facts.
  Context {pg : PgColumns} {json : ProductEventJson} {uuids : UuidText}.

(** The stored events of a run. *)
Definition belongs (tenant_id run_id : Uuid) (ev : RawEventRow) : Prop :=
  re_tenant_id ev = tenant_id ∧ re_run_id ev = run_id.

(** The stored event at a sequence, found as [NEXT_RAW_EVENT_SQL] does. *)
Definition event_number (tenant_id run_id : Uuid) (sequence : Z) (raw : list RawEventRow)
  : option RawEventRow :=
  find (λ row, bool_decide (re_tenant_id row = tenant_id)
               && bool_decide (re_run_id row = run_id) && (re_sequence row =? sequence)) raw.

(** One event further: what a round of the drain does to the row of the run. *)
Definition advance (f : WorkerSessionFence) (run_id : Uuid) (raw : list RawEventRow)
    (row : RunRow) : option RunRow :=
  ev ← event_number (wf_tenant_id f) run_id (rr_last_event_sequence row + 1) raw;
  match decode_projection ev f run_id (locked_run row) with
  | Success d =>
      if dp_aggregate_version d =? rr_aggregate_version row + 1
      then Some (projected_row row (rr_last_event_sequence row + 1) (re_cursor ev) d
                   (re_occurred_at ev))
      else None
  | _ => None
  end.

Definition raw_unique (raw : list RawEventRow) : Prop :=
  ∀ i j a b, raw !! i = Some a → raw !! j = Some b → raw_conflict a b = true → i = j.

Lemma raw_conflict_sym a b : raw_conflict a b = raw_conflict b a.
Proof.
  unfold raw_conflict.
  rewrite !(bool_decide_ext (re_id a = re_id b) (re_id b = re_id a)),
    (bool_decide_ext (re_tenant_id a = re_tenant_id b) (re_tenant_id b = re_tenant_id a)),
    (bool_decide_ext (re_run_id a = re_run_id b) (re_run_id b = re_run_id a)),
    (bool_decide_ext (re_external_event_id a = re_external_event_id b)
       (re_external_event_id b = re_external_event_id a)),
    (bool_decide_ext (re_cursor a = re_cursor b) (re_cursor b = re_cursor a)),
    (bool_decide_ext (re_sequence a = re_sequence b) (re_sequence b = re_sequence a)) by done.
  done.
Qed.

Lemma raw_unique_eq raw a b :
  raw_unique raw → a ∈ raw → b ∈ raw → raw_conflict a b = true → a = b.
Proof.
  intros Hu [i Hi]%list_elem_of_lookup [j Hj]%list_elem_of_lookup Hc.
  assert (i = j) as -> by by eapply Hu. congruence.
Qed.

Lemma same_sequence_conflict t r a b :
  belongs t r a → belongs t r b → re_sequence a = re_sequence b → raw_conflict a b = true.
Proof.
  intros [? ?] [? ?] ?. unfold raw_conflict.
  rewrite !orb_true_iff, !andb_true_iff, !orb_true_iff, !bool_decide_eq_true.
  right. split_and!; [congruence..|by right].
Qed.

Lemma same_id_conflict a b : re_id a = re_id b → raw_conflict a b = true.
Proof. intros ?. unfold raw_conflict. by rewrite bool_decide_true. Qed.

Lemma event_number_some t r n raw ev :
  raw_unique raw →
  event_number t r n raw = Some ev ↔ ev ∈ raw ∧ belongs t r ev ∧ re_sequence ev = n.
Proof.
  intros Hu. unfold event_number, belongs. split.
  - intros [Hin Hp]%find_some. apply list_elem_of_In in Hin. reflect. tauto.
  - intros (Hin & [Ht Hr] & Hn). destruct (find _ raw) as [ev'|] eqn:E.
    + apply find_some in E as [Hin' Hp]. apply list_elem_of_In in Hin'. reflect. f_equal.
      apply (raw_unique_eq raw); try done. apply (same_sequence_conflict t r); [|done|lia].
      unfold belongs. tauto.
    + exfalso. apply list_elem_of_In in Hin. pose proof (find_none _ _ E ev Hin) as Hf. simpl in Hf.
      rewrite !bool_decide_true in Hf by done. simpl in Hf. lia.
Qed.

(** Events never change what came before them. *)
Lemma advance_mono f run_id raw raw' row row' :
  raw_unique raw → raw_unique raw' → raw ⊆ raw' →
  advance f run_id raw row = Some row' → advance f run_id raw' row = Some row'.
Proof.
  intros Hu Hu' Hsub H. unfold advance in *. apply bind_Some in H as (ev & Hev & H).
  apply event_number_some in Hev as (Hin & Hb & Hn); [|done].
  assert (event_number (wf_tenant_id f) run_id (rr_last_event_sequence row + 1) raw' = Some ev) as ->.
  { apply event_number_some; [done|]. split_and!; try done. by apply Hsub. }
  done.
Qed.

(** ** The invariant *)

Definition applied (l : Ledger) (ev : RawEventRow) : Prop :=
  ∃ a, a ∈ lg_applications l ∧ ap_tenant_id a = re_tenant_id ev ∧ ap_run_event_id a = re_id ev.

(** The projection of a run is the contiguous prefix of its events: those up to
    its sequence number are stored and applied, no others are, and its cursor
    and snapshot are those of the last. *)
Record run_projected (l : Ledger) (t r : Uuid) (row : RunRow) : Prop := {
  rp_sequence : 0 ≤ rr_last_event_sequence row;
  rp_stored n : 0 < n ≤ rr_last_event_sequence row →
    ∃ ev, ev ∈ lg_raw_events l ∧ belongs t r ev ∧ re_sequence ev = n;
  rp_applied ev : ev ∈ lg_raw_events l → belongs t r ev →
    (applied l ev ↔ re_sequence ev ≤ rr_last_event_sequence row);
  rp_versions a : a ∈ lg_applications l → ap_tenant_id a = t → ap_run_id a = r →
    ap_run_aggregate_version a ≤ rr_aggregate_version row;
  rp_last ev : ev ∈ lg_raw_events l → belongs t r ev →
    re_sequence ev = rr_last_event_sequence row →
    rr_last_event_cursor row = Some (re_cursor ev) ∧ rr_snapshot row = Some (re_payload ev) ∧
    rr_aggregate_version row = re_run_aggregate_version ev
}.

Record ledger_ok (l : Ledger) : Prop := {
  lk_unique : raw_unique (lg_raw_events l);
  lk_positive ev : ev ∈ lg_raw_events l → 0 < re_sequence ev;
  lk_applications a : a ∈ lg_applications l → ∃ ev, ev ∈ lg_raw_events l ∧
    ap_run_event_id a = re_id ev ∧ ap_tenant_id a = re_tenant_id ev ∧ ap_run_id a = re_run_id ev;
  lk_runs t r row : lg_runs l !! (t, r) = Some row → run_projected l t r row
}.
(** ** A round of the drain *)

Lemma decode_not_crash ev f run_id run : decode_projection ev f run_id run ≠ Crash.
Proof.
  unfold decode_projection, project_state. repeat (apply obind_not_crash; intros; auto with no_panic).
  - by destruct (product_event_from_value _).
  - by destruct (valid_run_transition _ _).
Qed.

Lemma decode_version ev f run_id run d :
  decode_projection ev f run_id run = Success d →
  dp_aggregate_version d = re_run_aggregate_version ev ∧ dp_snapshot d = re_payload ev.
Proof.
  unfold decode_projection. rewrite !obind_unit_success. intros (_ & _ & H).
  apply obind_success in H as (x & _ & H). apply obind_unit_success in H as (_ & H).
  apply obind_success in H as (st & _ & [= <-]). done.
Qed.

(** The ledger after one more event of a run. *)
Definition project_event (f : WorkerSessionFence) (run_id : Uuid) (ev : RawEventRow)
    (row' : RunRow) (l : Ledger) : Ledger :=
  mkLedger (<[(wf_tenant_id f, run_id) := row']> (lg_runs l)) (lg_raw_events l)
    (lg_applications l
     ++ [mkApplicationRow (wf_tenant_id f) (re_id ev) run_id (rr_aggregate_version row')]).

(** The run belongs to the fence. *)
Definition fenced (f : WorkerSessionFence) (row : RunRow) : Prop :=
  rr_worker_session_id row = wf_session_id f ∧ rr_worker_id row = wf_worker_id f ∧
  rr_worker_generation row = wf_generation f ∧ rr_authoritative row = true.

Lemma advance_shape f run_id raw row row' :
  raw_unique raw → advance f run_id raw row = Some row' →
  ∃ ev d, ev ∈ raw ∧ belongs (wf_tenant_id f) run_id ev ∧
    re_sequence ev = rr_last_event_sequence row + 1 ∧
    re_run_aggregate_version ev = rr_aggregate_version row + 1 ∧
    decode_projection ev f run_id (locked_run row) = Success d ∧
    row' = projected_row row (rr_last_event_sequence row + 1) (re_cursor ev) d (re_occurred_at ev) ∧
    rr_aggregate_version row' = rr_aggregate_version row + 1 ∧
    rr_snapshot row' = Some (re_payload ev).
Proof.
  intros Hu H. unfold advance in H. apply bind_Some in H as (ev & Hev & H).
  apply event_number_some in Hev as (Hin & Hb & Hn); [|done].
  destruct (decode_projection _ _ _ _) as [d| |] eqn:Hd; [|done|done].
  destruct (dp_aggregate_version d =? _) eqn:Ev; [|done]. apply Z.eqb_eq in Ev.
  injection H as <-. destruct (decode_version _ _ _ _ _ Hd) as [E1 E2].
  exists ev, d. unfold projected_row. simpl. rewrite E2. split_and!; try done; congruence.
Qed.

Lemma project_event_ok f run_id ev row row' l :
  ledger_ok l → lg_runs l !! (wf_tenant_id f, run_id) = Some row →
  ev ∈ lg_raw_events l → belongs (wf_tenant_id f) run_id ev →
  re_sequence ev = rr_last_event_sequence row + 1 →
  rr_last_event_sequence row' = rr_last_event_sequence row + 1 →
  rr_aggregate_version row' = rr_aggregate_version row + 1 →
  rr_aggregate_version row' = re_run_aggregate_version ev →
  rr_last_event_cursor row' = Some (re_cursor ev) → rr_snapshot row' = Some (re_payload ev) →
  ledger_ok (project_event f run_id ev row' l).
Proof.
  intros [Hu Hp Ha Hr] Hrow Hin Hb Hseq Eseq Ever Ever2 Ecur Esnap.
  assert (∀ x, applied (project_event f run_id ev row' l) x ↔
    applied l x ∨ (re_tenant_id x = wf_tenant_id f ∧ re_id x = re_id ev)) as Happ.
  { intros x. unfold applied. simpl. setoid_rewrite elem_of_app.
    setoid_rewrite list_elem_of_singleton. split.
    - intros (a & [Hl| ->] & E1 & E2); [left; eauto|right; by simpl in *].
    - intros [(a & Hl & E)|(E1 & E2)]; [exists a; tauto|]. eexists. split; [by right|]. by simpl. }
  assert (∀ x, x ∈ lg_raw_events l → re_id x = re_id ev → x = ev) as Hid.
  { intros x Hx E. apply (raw_unique_eq (lg_raw_events l)); try done. by apply same_id_conflict. }
  assert (∀ x, x ∈ lg_raw_events l → belongs (wf_tenant_id f) run_id x →
    re_sequence x = re_sequence ev → x = ev) as Hsq.
  { intros x Hx Hbx E. apply (raw_unique_eq (lg_raw_events l)); try done.
    by apply (same_sequence_conflict (wf_tenant_id f) run_id). }
  destruct (Hr _ _ _ Hrow) as [S1 S2 S3 S4 S5]. constructor; simpl; try done.
  - intros a. rewrite elem_of_app, list_elem_of_singleton. intros [Hl| ->]; [auto|].
    destruct Hb. exists ev. by simpl.
  - intros t r x. destruct (decide ((wf_tenant_id f, run_id) = (t, r))) as [E|E].
    + injection E as <- <-. rewrite lookup_insert_eq. intros [= <-]. constructor.
      * lia.
      * intros n Hn. rewrite Eseq in Hn. destruct (decide (n = rr_last_event_sequence row + 1)) as [->|].
        -- by exists ev.
        -- destruct (S2 n) as (y & ?); [lia|]. by exists y.
      * intros y Hy Hby. rewrite Happ, (S3 y Hy Hby), Eseq. split.
        -- intros [?|[_ E]]; [lia|]. rewrite (Hid y Hy E). lia.
        -- intros Hle. destruct (decide (re_sequence y = rr_last_event_sequence row + 1)) as [Es|];
             [right|left; lia].
           rewrite (Hsq y Hy Hby) by congruence. by destruct Hb.
      * simpl. intros a. rewrite elem_of_app, list_elem_of_singleton.
        intros [Hl| ->] ? ?; [|done]. specialize (S4 a Hl). lia.
      * intros y Hy Hby Es. by rewrite (Hsq y Hy Hby) by congruence.
    + rewrite lookup_insert_ne by done. intros Hx. destruct (Hr t r x Hx) as [T1 T2 T3 T4 T5].
      constructor; try done.
      * intros y Hy Hby. rewrite Happ, (T3 y Hy Hby). split; [|tauto]. intros [?|[_ Ey]]; [done|].
        exfalso. rewrite (Hid y Hy Ey) in Hby. destruct Hb, Hby. congruence.
      * simpl. intros a. rewrite elem_of_app, list_elem_of_singleton.
        intros [Hl| ->] E1 E2; [auto|]. simpl in *. congruence.
Qed.

Lemma not_applied_lookup l ev :
  ¬ applied l ev →
  find (λ a, bool_decide (ap_tenant_id a = re_tenant_id ev)
             && bool_decide (ap_run_event_id a = re_id ev)) (lg_applications l) = None.
Proof.
  intros Hn. destruct (find _ _) as [a|] eqn:E; [|done]. exfalso.
  apply find_some in E as [Hin Hp]. apply list_elem_of_In in Hin. reflect.
  apply Hn. exists a. tauto.
Qed.

Lemma insert_application_new f run_id ev v l :
  ¬ applied l ev → re_tenant_id ev = wf_tenant_id f →
  (∀ a, a ∈ lg_applications l → ap_tenant_id a = wf_tenant_id f → ap_run_id a = run_id →
     ap_run_aggregate_version a < v) →
  insert_application (mkApplicationRow (wf_tenant_id f) (re_id ev) run_id v) l =
  Ok (Some (mkLedger (lg_runs l) (lg_raw_events l)
    (lg_applications l ++ [mkApplicationRow (wf_tenant_id f) (re_id ev) run_id v]))).
Proof.
  intros Hn Ht Hv. unfold insert_application. simpl.
  destruct (existsb _ _) eqn:E.
  { exfalso. apply existsb_true in E as (a & Hin & Hp). reflect. apply Hn. exists a.
    destruct Hp. split_and!; congruence. }
  destruct (existsb (λ b, _ && _ && _) _) eqn:E2; [|done].
  exfalso. apply existsb_true in E2 as (a & Hin & Hp). reflect. destruct Hp as [[Hp1 Hp2] Hp3].
  specialize (Hv a Hin Hp1 Hp2). lia.
Qed.

(** A round advances the run by one event when it can, and stops otherwise; it
    fails only at the end of the machine integers. *)
Lemma drain_round_spec f run_id l row :
  ledger_ok l → lg_runs l !! (wf_tenant_id f, run_id) = Some row → fenced f row →
  (∃ err, drain_round f run_id l (locked_run row) = Err err ∧
     (i64_max ≤ rr_last_event_sequence row ∨ i64_max ≤ rr_aggregate_version row)) ∨
  match advance f run_id (lg_raw_events l) row with
  | Some row' => ∃ ev,
      drain_round f run_id l (locked_run row)
        = Ok (Continue (project_event f run_id ev row' l) (locked_run row')) ∧
      ledger_ok (project_event f run_id ev row' l) ∧ fenced f row'
  | None => ∃ block, drain_round f run_id l (locked_run row) = Ok (Stop block)
  end.
Proof.
  intros Hok Hrow (F1 & F2 & F3 & F4). unfold drain_round. cbn [lr_last_event_sequence locked_run].
  destruct (checked_add i64_max (rr_last_event_sequence row) 1) as [n|] eqn:Hn; simpl.
  2: { left. apply checked_add_none in Hn. eexists. split; [done|]. left. lia. }
  apply checked_add_some in Hn as [Hn ->]. unfold select_next.
  fold (event_number (wf_tenant_id f) run_id (rr_last_event_sequence row + 1) (lg_raw_events l)).
  unfold advance.
  destruct (event_number _ _ _ _) as [ev|] eqn:Hev; simpl; [|right; eauto].
  apply event_number_some in Hev as (Hin & Hb & Hseq); [|apply Hok].
  destruct (lk_runs _ Hok _ _ _ Hrow) as [S1 S2 S3 S4 S5].
  assert (¬ applied l ev) as Hna by (rewrite (S3 ev Hin Hb); lia).
  rewrite (not_applied_lookup _ _ Hna).
  destruct (decode_projection ev f run_id (locked_run row)) as [d| |] eqn:Hd; [|right; eauto|].
  2: { by apply decode_not_crash in Hd. }
  destruct (decode_version _ _ _ _ _ Hd) as [E1 E2].
  destruct (checked_add i64_max (rr_aggregate_version row) 1) as [v|] eqn:Hv; simpl.
  2: { left. apply checked_add_none in Hv. eexists. split; [done|]. right. lia. }
  apply checked_add_some in Hv as [Hv ->]. right.
  destruct (dp_aggregate_version d =? rr_aggregate_version row + 1) eqn:Ev; simpl; [|eauto].
  apply Z.eqb_eq in Ev. exists ev. unfold update_projection. rewrite Hrow. simpl.
  rewrite F1, F2, F3, F4, !bool_decide_true, !Z.eqb_refl by done. simpl.
  rewrite (insert_application_new f run_id ev); simpl.
  - split_and!; try done. eapply project_event_ok; try done; simpl; congruence.
  - done.
  - by destruct Hb.
  - intros a Ha Hat Har. specialize (S4 a Ha Hat Har). lia.
Qed.

(** ** The drain *)

(** The events of a run that lie ahead of it. *)
Definition ahead (f : WorkerSessionFence) (run_id : Uuid) (raw : list RawEventRow) (row : RunRow)
  : nat :=
  length (List.filter (λ ev, bool_decide (re_tenant_id ev = wf_tenant_id f)
    && bool_decide (re_run_id ev = run_id) && (rr_last_event_sequence row <? re_sequence ev)) raw).

Lemma filter_length_lt {A} (p q : A → bool) l x :
  (∀ y, p y = true → q y = true) → x ∈ l → q x = true → p x = false →
  (length (List.filter p l) < length (List.filter q l))%nat.
Proof.
  intros Hpq. induction l as [|y l IH]; intros Hx Hq Hp; [by apply elem_of_nil in Hx|].
  assert (∀ k, (length (List.filter p k) ≤ length (List.filter q k))%nat) as Hle.
  { induction k as [|z k IHk]; simpl; [done|]. specialize (Hpq z).
    destruct (p z), (q z); simpl; try lia; by specialize (Hpq eq_refl). }
  apply elem_of_cons in Hx as [->|Hx]; simpl.
  - rewrite Hq, Hp. specialize (Hle l). simpl. lia.
  - specialize (IH Hx Hq Hp). specialize (Hpq y). destruct (p y), (q y); simpl; try lia;
      by specialize (Hpq eq_refl).
Qed.

Lemma advance_ahead f run_id raw row row' :
  raw_unique raw → advance f run_id raw row = Some row' →
  (ahead f run_id raw row' < ahead f run_id raw row)%nat.
Proof.
  intros Hu H. destruct (advance_shape _ _ _ _ _ Hu H)
    as (ev & d & Hin & [Ht Hr] & Hs & _ & _ & -> & _). unfold ahead.
  apply (filter_length_lt _ _ _ ev); [| done | |].
  - intros y. cbn [rr_last_event_sequence projected_row].
    rewrite !andb_true_iff, !Z.ltb_lt. intuition lia.
  - rewrite !bool_decide_true by done. simpl. lia.
  - cbn [rr_last_event_sequence projected_row]. rewrite !bool_decide_true by done. simpl. lia.
Qed.

Lemma ahead_le f run_id raw row : (ahead f run_id raw row ≤ length raw)%nat.
Proof. apply filter_length_le. Qed.

(** The drain ends within one round per event ahead, with the run advanced as
    far as its events allow. *)
Lemma drain_spec fuel f run_id count l row :
  ledger_ok l → lg_runs l !! (wf_tenant_id f, run_id) = Some row → fenced f row →
  (ahead f run_id (lg_raw_events l) row < fuel)%nat →
  (∃ err, drain_contiguous_events fuel f run_id count l (locked_run row) = Err err) ∨
  ∃ l' row' outcome,
    drain_contiguous_events fuel f run_id count l (locked_run row)
      = Ok (l', locked_run row', outcome) ∧
    is_Some (do_block outcome) ∧
    ledger_ok l' ∧ fenced f row' ∧ lg_raw_events l' = lg_raw_events l ∧
    lg_runs l' = <[(wf_tenant_id f, run_id) := row']> (lg_runs l) ∧
    star (λ a b, advance f run_id (lg_raw_events l) a = Some b) row row' ∧
    advance f run_id (lg_raw_events l) row' = None.
Proof.
  revert count l row. induction fuel as [|fuel IH]; intros count l row Hok Hrow Hf Hm; [lia|].
  simpl. destruct (drain_round_spec f run_id l row Hok Hrow Hf) as [(err & -> & _)|H]; [left; eauto|].
  destruct (advance f run_id (lg_raw_events l) row) as [row1|] eqn:Hadv.
  - destruct H as (ev & -> & Hok1 & Hf1). simpl.
    destruct (checked_add u32_max count 1) as [count'|]; simpl; [|left; eauto].
    destruct (IH count' (project_event f run_id ev row1 l) row1)
      as [?|(l' & row' & out & -> & Hb & Hok' & Hf' & Hraw & Hruns & Hstar & Hnone)];
      [done|apply lookup_insert_eq|done| |by left|].
    { simpl. pose proof (advance_ahead _ _ _ _ _ (lk_unique _ Hok) Hadv). lia. }
    right. exists l', row', out. simpl in *. split_and!; try done.
    + by rewrite Hruns, insert_insert_eq.
    + by eapply star_cons.
  - destruct H as (block & ->). right. simpl. eexists l, row, _. split; [done|].
    split; [by eexists|]. split_and!; try done; [|apply star_nil].
    symmetry. by apply insert_id.
Qed.

(** ** Storing *)

Lemma raw_unique_snoc raw row :
  raw_unique raw → existsb (raw_conflict row) raw = false → raw_unique (raw ++ [row]).
Proof.
  intros Hu Hn. rewrite existsb_false, Forall_forall in Hn.
  assert (∀ i a, (raw ++ [row]) !! i = Some a →
    raw !! i = Some a ∨ i = length raw ∧ a = row) as Hl.
  { intros i a H. apply lookup_app_Some in H as [H|[Hi H]]; [by left|right].
    destruct (i - length raw)%nat eqn:E; simpl in H; [|done]. injection H as <-. split; [lia|done]. }
  intros i j a b Hi Hj Hc. apply Hl in Hi as [Hi|[-> ->]], Hj as [Hj|[-> ->]].
  - by eapply Hu.
  - apply list_elem_of_lookup_2 in Hi. specialize (Hn a Hi).
    rewrite raw_conflict_sym in Hc. congruence.
  - apply list_elem_of_lookup_2 in Hj. specialize (Hn b Hj). congruence.
  - done.
Qed.

Lemma store_ok l row :
  ledger_ok l → 0 < re_sequence row → existsb (raw_conflict row) (lg_raw_events l) = false →
  ledger_ok (mkLedger (lg_runs l) (lg_raw_events l ++ [row]) (lg_applications l)).
Proof.
  intros [Hu Hp Ha Hr] Hpos Hn. pose proof Hn as Hn'. rewrite existsb_false, Forall_forall in Hn'.
  constructor; simpl.
  - by apply raw_unique_snoc.
  - intros ev. rewrite elem_of_app, list_elem_of_singleton. intros [?| ->]; auto.
  - intros a Hl. destruct (Ha a Hl) as (ev & Hin & E). exists ev.
    rewrite elem_of_app. auto.
  - intros t r x Hx. destruct (Hr t r x Hx) as [S1 S2 S3 S4 S5].
    assert (∀ n, n = re_sequence row → belongs t r row → rr_last_event_sequence x < n) as Hnew.
    { intros n -> Hb. destruct (decide (rr_last_event_sequence x < re_sequence row)); [done|exfalso].
      destruct (S2 (re_sequence row)) as (ev & Hin & Hbe & Es); [lia|].
      specialize (Hn' ev Hin). rewrite (same_sequence_conflict t r) in Hn'; done. }
    constructor; simpl; try done.
    + intros n Hle. destruct (S2 n Hle) as (ev & Hin & ?). exists ev. rewrite elem_of_app. auto.
    + intros ev. rewrite elem_of_app, list_elem_of_singleton. intros [Hin| ->] Hb; [by apply S3|].
      specialize (Hnew _ eq_refl Hb). split; [|lia]. intros (a & Hin & _ & Ea).
      destruct (Ha a Hin) as (ev & Hev & Eid & _). specialize (Hn' ev Hev).
      rewrite same_id_conflict in Hn'; [done|]. simpl in *. congruence.
    + intros ev. rewrite elem_of_app, list_elem_of_singleton.
      intros [Hin| ->] Hb Es; [by apply S5|]. specialize (Hnew _ eq_refl Hb). lia.
Qed.

(** A stored or recognized event. *)
Definition stored (f : WorkerSessionFence) (e : IncomingRunEvent) (l l1 : Ledger) (id : Uuid)
    (inserted : bool) : Prop :=
  (inserted = true ∧ id = in_id e ∧ existsb (raw_conflict (raw_row f e)) (lg_raw_events l) = false ∧
   l1 = mkLedger (lg_runs l) (lg_raw_events l ++ [raw_row f e]) (lg_applications l)) ∨
  (inserted = false ∧ l1 = l ∧ ∃ row, row ∈ lg_raw_events l ∧ re_id row = id ∧
     belongs (wf_tenant_id f) (in_run_id e) row ∧ same_semantics row f e = true).

Lemma store_raw_event_spec f e l :
  (∃ err, store_raw_event f e l = Err err) ∨
  ∃ l1 id inserted, store_raw_event f e l = Ok (l1, (id, inserted)) ∧ stored f e l l1 id inserted.
Proof.
  unfold store_raw_event, insert_raw_event, stored.
  destruct (existsb _ _) eqn:E; [|right; eexists _, _, _; split; [done|by left]].
  destruct (select_collisions f e l) as [|row [|]] eqn:Ec; [left; eauto| |left; eauto].
  destruct (same_semantics row f e) eqn:Es; simpl; [|left; eauto].
  right. eexists _, _, _. split; [done|]. right. split_and!; try done. exists row.
  assert (row ∈ select_collisions f e l) as Hin by (rewrite Ec; left).
  unfold select_collisions in Hin. apply elem_of_filter_bool in Hin as [Hin Hp]. reflect.
  unfold belongs. tauto.
Qed.

(** ** Ingestion *)

(** Pass the next guard of a function, its failure being an error. *)
Ltac pass_guard E :=
  match goal with |- (∃ _, mbind _ (bail_if ?b _) = _) ∨ _ => destruct b eqn:E end;
  simpl; [left; eauto|].

Lemma lock_spec sessions f run_id l :
  (∃ err, lock_worker_and_run sessions f run_id l = Err err) ∨
  ∃ row session, lock_worker_and_run sessions f run_id l = Ok (locked_run row) ∧
    lg_runs l !! (wf_tenant_id f, run_id) = Some row ∧ fenced f row ∧
    select_session sessions f = Some session ∧ ss_is_live session = true ∧
    ss_status session = "ACTIVE" ∧ ss_current_worker_generation session = wf_generation f.
Proof.
  unfold lock_worker_and_run.
  destruct (select_session sessions f) as [session|]; simpl; [|left; eauto].
  pass_guard E1. pass_guard E2. destruct (lg_runs l !! _) as [row|]; simpl; [|left; eauto].
  pass_guard E3. pass_guard E4.
  right. exists row, session. unfold fenced. reflect. tauto.
Qed.

(** Everything a successful ingestion did. *)
Record ingested (f : WorkerSessionFence) (e : IncomingRunEvent) (l l2 : Ledger)
    (out : RunEventIngestionOutcome) (row row' : RunRow) : Prop := {
  ig_row : lg_runs l !! (wf_tenant_id f, in_run_id e) = Some row;
  ig_fenced : fenced f row;
  ig_raw : lg_raw_events l2 = if io_inserted out then lg_raw_events l ++ [raw_row f e]
                              else lg_raw_events l;
  ig_known : io_inserted out = false → ∃ ev, ev ∈ lg_raw_events l ∧
    belongs (wf_tenant_id f) (in_run_id e) ev ∧ same_semantics ev f e = true;
  ig_runs : lg_runs l2 = <[(wf_tenant_id f, in_run_id e) := row']> (lg_runs l);
  ig_star : star (λ a b, advance f (in_run_id e) (lg_raw_events l2) a = Some b) row row';
  ig_settled : advance f (in_run_id e) (lg_raw_events l2) row' = None;
  ig_outcome : io_last_event_sequence out = rr_last_event_sequence row' ∧
    io_run_aggregate_version out = rr_aggregate_version row' ∧
    io_last_event_cursor out = rr_last_event_cursor row';
  ig_disposition : match io_disposition out with
    | RetainedUnapplied _ => rr_last_event_sequence row' < in_sequence e
    | Applied => io_inserted out = true ∧ in_sequence e ≤ rr_last_event_sequence row'
    | DuplicateApplied => io_inserted out = false ∧ in_sequence e ≤ rr_last_event_sequence row'
    end
}.

Lemma event_is_applied_true t r ev l :
  ledger_ok l → ev ∈ lg_raw_events l → belongs t r ev →
  event_is_applied t r (re_id ev) l = true ↔ applied l ev.
Proof.
  intros Hok Hin [Ht Hr]. unfold event_is_applied, applied. rewrite existsb_true. split.
  - intros (a & Ha & Hp). exists a. reflect. split_and!; try tauto. destruct_and!. congruence.
  - intros (a & Ha & Et & Ei). exists a. split; [done|].
    destruct (lk_applications _ Hok a Ha) as (ev' & Hin' & E1 & E2 & E3).
    assert (ev' = ev) as ->.
    { apply (raw_unique_eq (lg_raw_events l)); try done; [apply Hok|].
      apply same_id_conflict. congruence. }
    rewrite !bool_decide_true by congruence. done.
Qed.

#[local] Arguments drain_contiguous_events : simpl never.

Lemma ingest_spec sessions f e l :
  ledger_ok l →
  (∃ err, ingest_run_event sessions f e l = Err err) ∨
  ∃ l2 out row row', ingest_run_event sessions f e l = Ok (l2, out) ∧
    ledger_ok l2 ∧ ingested f e l l2 out row row'.
Proof.
  intros Hok. unfold ingest_run_event.
  destruct (WorkerSessionFence_validate f) as [[]| |] eqn:Hv1; simpl; [|left; eauto|].
  2: { exfalso. revert Hv1. apply bail_if_not_panic. }
  destruct (IncomingRunEvent_validate e) as [[]| |] eqn:Hv2; simpl; [|left; eauto|].
  2: { exfalso. revert Hv2. unfold IncomingRunEvent_validate. unfold not. apply bind_not_panic; auto with no_panic. }
  assert (0 < in_sequence e) as Hpos.
  { unfold IncomingRunEvent_validate in Hv2. rewrite bind_unit_ok in Hv2. reflect. tauto. }
  destruct (lock_spec sessions f (in_run_id e) l)
    as [(err & ->)|(row & session & -> & Hrow & Hf & _)]; simpl; [left; eauto|].
  destruct (store_raw_event_spec f e l) as [(err & ->)|(l1 & id & ins & -> & Hst)];
    simpl; [left; eauto|].
  assert (ledger_ok l1 ∧ lg_runs l1 = lg_runs l) as [Hok1 Hruns1].
  { destruct Hst as [(_ & _ & Hn & ->)|(_ & -> & _)]; [|done]. split; [|done]. by apply store_ok. }
  destruct (drain_spec (S (length (lg_raw_events l1))) f (in_run_id e) 0 l1 row)
    as [(err & ->)|(l2 & row' & drain & -> & [block Hblock] & Hok2 & Hf' & Hraw & Hruns & Hstar & Hnone)];
    [done|by rewrite Hruns1|done|apply Nat.lt_succ_r, ahead_le|left; eauto|].
  simpl. rewrite Hblock. right.
  assert (lg_runs l2 !! (wf_tenant_id f, in_run_id e) = Some row') as Hrow'
    by (rewrite Hruns; apply lookup_insert_eq).
  assert (∃ ev, ev ∈ lg_raw_events l2 ∧ re_id ev = id ∧ belongs (wf_tenant_id f) (in_run_id e) ev ∧
    re_sequence ev = in_sequence e) as (ev & Hev & Eid & Hb & Es).
  { rewrite Hraw. destruct Hst as [(_ & -> & _ & ->)|(_ & -> & ev & Hin & Eid & Hb & Hs)].
    - exists (raw_row f e). simpl. rewrite elem_of_app, list_elem_of_singleton.
      unfold belongs. simpl. by split_and!; [right|..].
    - exists ev. split_and!; try done. unfold same_semantics in Hs. reflect. tauto. }
  pose proof (event_is_applied_true _ _ _ _ Hok2 Hev Hb) as Happ.
  rewrite (rp_applied _ _ _ _ (lk_runs _ Hok2 _ _ _ Hrow') ev Hev Hb), Eid, Es in Happ.
  destruct (event_is_applied _ _ _ _) eqn:Ea; simpl.
  - eexists l2, _, row, row'. split; [done|]. split; [done|]. split; try done; simpl.
    + rewrite Hraw. by destruct Hst as [(-> & _ & _ & ->)|(-> & -> & _)].
    + intros ->. destruct Hst as [(? & _)|(_ & -> & x & Hin & _ & ? & ?)]; [done|]. by exists x.
    + by rewrite Hruns, Hruns1.
    + by rewrite Hraw.
    + by rewrite Hraw.
    + destruct ins; (split; [done|]); by apply Happ.
  - eexists l2, _, row, row'. split; [done|]. split; [done|]. split; try done; simpl.
    + rewrite Hraw. by destruct Hst as [(-> & _ & _ & ->)|(-> & -> & _)].
    + intros ->. destruct Hst as [(? & _)|(_ & -> & x & Hin & _ & ? & ?)]; [done|]. by exists x.
    + by rewrite Hruns, Hruns1.
    + by rewrite Hraw.
    + by rewrite Hraw.
    + destruct (decide (rr_last_event_sequence row' < in_sequence e)); [done|].
      assert (false = true) by (apply Happ; lia). done.
Qed.

(** ** Sequences of deliveries *)

(** A call: the sessions at the time, the fence and the event. *)
Record Delivery := mkDelivery {
  dl_sessions : list SessionRow;
  dl_fence : WorkerSessionFence;
  dl_event : IncomingRunEvent
}.

Definition deliver (d : Delivery) (l : Ledger) : res (Ledger * RunEventIngestionOutcome) :=
  ingest_run_event (dl_sessions d) (dl_fence d) (dl_event d) l.

(** The committed tables after a call: those before it when it fails. *)
Definition delivered (l : Ledger) (d : Delivery) : Ledger :=
  match deliver d l with Ok (l', _) => l' | _ => l end.

(** No event was received yet. *)
Record fresh (l : Ledger) : Prop := {
  fr_raw : lg_raw_events l = [];
  fr_applications : lg_applications l = [];
  fr_runs k row : lg_runs l !! k = Some row → rr_last_event_sequence row = 0
}.

Lemma fresh_ok l : fresh l → ledger_ok l.
Proof.
  intros [Hr Ha Hs]. constructor; rewrite ?Hr, ?Ha.
  - by intros i j a b Hi.
  - by intros ev []%elem_of_nil.
  - by intros a []%elem_of_nil.
  - intros t r row Hrow. apply Hs in Hrow. constructor; rewrite ?Hr, ?Ha, ?Hrow.
    + done.
    + intros n Hn. lia.
    + by intros ev []%elem_of_nil.
    + by intros a []%elem_of_nil.
    + by intros ev []%elem_of_nil.
Qed.

Lemma delivered_ok l d : ledger_ok l → ledger_ok (delivered l d).
Proof.
  intros Hok. unfold delivered, deliver.
  destruct (ingest_spec (dl_sessions d) (dl_fence d) (dl_event d) l Hok)
    as [(err & ->)|(l2 & out & row & row' & -> & ? & _)]; done.
Qed.

Lemma deliveries_ok ds l : ledger_ok l → ledger_ok (foldl delivered l ds).
Proof. revert l. induction ds as [|d ds IH]; intros l Hok; [done|]. by apply IH, delivered_ok. Qed.

(** ** The life of a run *)

(** One event projected under some fence of the tenant. *)
Definition projects (t r : Uuid) (raw : list RawEventRow) (row row' : RunRow) : Prop :=
  ∃ f, wf_tenant_id f = t ∧ fenced f row ∧ advance f r raw row = Some row'.

(** The product event of a stored row names the run, its Work Order and the
    state it moves to. *)
Definition attests (t r : Uuid) (row : RunRow) (state : string) (ev : RawEventRow) : Prop :=
  re_schema_version ev = PRODUCT_EVENT_SCHEMA_V1 ∧
  ∃ event current, product_event_from_value (re_payload ev) = inr event ∧
    pe_tenant_id event = t ∧ pe_run_id event = Some r ∧
    pe_work_item_id event = Some (rr_work_item_id row) ∧
    pe_attempt_id event = Some (rr_attempt_id row) ∧
    pe_work_order_digest event = Some (rr_work_order_digest row) ∧
    event_target current (pe_event_type event) = Some state.

Record evolved (t r : Uuid) (raw : list RawEventRow) (row row' : RunRow) : Prop := {
  el_binding : rr_work_item_id row' = rr_work_item_id row ∧ rr_attempt_id row' = rr_attempt_id row ∧
    rr_work_order_digest row' = rr_work_order_digest row ∧ rr_worker_id row' = rr_worker_id row ∧
    rr_worker_session_id row' = rr_worker_session_id row;
  el_sequence : rr_last_event_sequence row ≤ rr_last_event_sequence row';
  el_version : rr_aggregate_version row' - rr_aggregate_version row
    = rr_last_event_sequence row' - rr_last_event_sequence row;
  el_states : star (λ a b, valid_run_transition a b = true) (rr_state row) (rr_state row');
  el_terminal : terminal_state (rr_state row) = true → rr_state row' = rr_state row;
  el_terminal_at at_ : rr_terminal_at row = Some at_ → rr_terminal_at row' = Some at_;
  el_attested : rr_state row' ≠ rr_state row →
    ∃ ev, ev ∈ raw ∧ belongs t r ev ∧ attests t r row (rr_state row') ev
}.

Lemma terminal_absorbing s s' :
  terminal_state s = true → valid_run_transition s s' = true → s' = s.
Proof.
  unfold terminal_state, valid_run_transition. intros Hs H.
  apply mem_true in Hs. case_bool_decide as E; [by symmetry|].
  repeat (apply elem_of_cons in Hs as [->|Hs]; [vm_compute in H; discriminate|]).
  by apply elem_of_nil in Hs.
Qed.

Lemma decode_attests ev f run_id row d :
  belongs (wf_tenant_id f) run_id ev → decode_projection ev f run_id (locked_run row) = Success d →
  valid_run_transition (rr_state row) (dp_state d) = true ∧
  attests (wf_tenant_id f) run_id row (dp_state d) ev.
Proof.
  intros Hb H. unfold decode_projection in H. rewrite !obind_unit_success in H.
  destruct H as (H1 & _ & H). apply obind_success in H as (event & He & H).
  apply obind_unit_success in H as (H2 & H). apply obind_success in H as (st & Hs & [= <-]).
  destruct (product_event_from_value (re_payload ev)) as [|event'] eqn:Hp; [done|].
  injection He as ->. simpl. unfold project_state in Hs.
  apply obind_success in Hs as (target & Ht & Hs).
  destruct (valid_run_transition _ _) eqn:Hv; [|done]. injection Hs as ->. split; [done|].
  reflect. split; [done|]. exists event, (rr_state row). destruct_and!. simpl in *.
  split_and!; congruence.
Qed.

Lemma projects_evolved t r raw row row' :
  raw_unique raw → projects t r raw row row' → evolved t r raw row row'.
Proof.
  intros Hu (f & <- & _ & H).
  destruct (advance_shape _ _ _ _ _ Hu H) as (ev & d & Hin & Hb & Hs & Hv & Hd & -> & Hver & _).
  destruct (decode_attests _ _ _ _ _ Hb Hd) as [Hval Hatt].
  constructor; try done; simpl in *; try lia.
  - by eapply star_cons, star_nil.
  - intros Ht. by apply terminal_absorbing.
  - intros at_ ->. by destruct (terminal_state _).
  - intros _. exists ev. by split_and!.
Qed.

Lemma evolved_refl t r raw row : evolved t r raw row row.
Proof. constructor; try done; try lia. apply star_nil. Qed.

Lemma evolved_trans t r raw row row1 row2 :
  evolved t r raw row row1 → evolved t r raw row1 row2 → evolved t r raw row row2.
Proof.
  intros [(A1 & A2 & A3 & A4 & A5) A6 A7 A8 A9 A10 A11]
    [(B1 & B2 & B3 & B4 & B5) B6 B7 B8 B9 B10 B11].
  constructor; try lia.
  - split_and!; congruence.
  - by eapply star_trans.
  - intros Ht. rewrite B9 by (rewrite A9; done). auto.
  - auto.
  - intros Hne. destruct (decide (rr_state row2 = rr_state row1)) as [E|E].
    + rewrite E in *. auto.
    + destruct (B11 E) as (ev & Hin & Hb & Ha). exists ev. split_and!; try done.
      unfold attests in *. by rewrite <- A1, <- A2, <- A3.
Qed.

Lemma projects_star t r raw row row' :
  raw_unique raw → star (projects t r raw) row row' → evolved t r raw row row'.
Proof.
  intros Hu. induction 1 as [|a b c _ IH Hbc]; [apply evolved_refl|].
  eapply evolved_trans; [done|by apply projects_evolved].
Qed.

Lemma advance_fenced f r raw row row' :
  fenced f row → advance f r raw row = Some row' → fenced f row'.
Proof.
  intros Hf H. unfold advance in H. apply bind_Some in H as (ev & _ & H).
  destruct (decode_projection _ _ _ _); [|done..]. destruct (_ =? _); [|done].
  by injection H as <-.
Qed.

Lemma ingested_projects f e l l2 out row row' :
  ingested f e l l2 out row row' →
  star (projects (wf_tenant_id f) (in_run_id e) (lg_raw_events l2)) row row'.
Proof.
  intros Hi. pose proof (ig_fenced _ _ _ _ _ _ _ Hi) as Hf.
  pose proof (ig_star _ _ _ _ _ _ _ Hi) as Hs. clear Hi.
  revert row Hs Hf. refine (star_ind_l _ _ _ _ _); [intros _; apply star_nil|].
  intros a b Hab _ IH Hf. eapply star_cons; [by exists f|]. by eapply IH, advance_fenced.
Qed.

Lemma ingested_raw f e l l2 out row row' :
  ingested f e l l2 out row row' → lg_raw_events l ⊆ lg_raw_events l2.
Proof.
  intros Hi. rewrite (ig_raw _ _ _ _ _ _ _ Hi). destruct (io_inserted out); [|done].
  intros x Hx. rewrite elem_of_app. by left.
Qed.

Lemma evolved_mono t r raw raw' row row' :
  raw ⊆ raw' → evolved t r raw row row' → evolved t r raw' row row'.
Proof.
  intros Hs [? ? ? ? ? ? Ha]. constructor; try done.
  intros Hne. destruct (Ha Hne) as (ev & Hin & ?). exists ev. split; [by apply Hs|done].
Qed.

Lemma delivered_evolved l d t r row :
  ledger_ok l → lg_runs l !! (t, r) = Some row →
  lg_raw_events l ⊆ lg_raw_events (delivered l d) ∧
  ∃ row', lg_runs (delivered l d) !! (t, r) = Some row' ∧
    evolved t r (lg_raw_events (delivered l d)) row row'.
Proof.
  intros Hok Hrow. unfold delivered, deliver.
  destruct (ingest_spec (dl_sessions d) (dl_fence d) (dl_event d) l Hok)
    as [(err & ->)|(l2 & out & row0 & row' & -> & Hok2 & Hi)].
  { split; [done|]. exists row. split; [done|apply evolved_refl]. }
  split; [by eapply ingested_raw|]. rewrite (ig_runs _ _ _ _ _ _ _ Hi).
  destruct (decide ((wf_tenant_id (dl_fence d), in_run_id (dl_event d)) = (t, r))) as [E|E].
  - rewrite E, lookup_insert_eq. exists row'. split; [done|].
    pose proof (ig_row _ _ _ _ _ _ _ Hi) as Hrow0. rewrite E in Hrow0.
    injection E as <- <-. assert (row0 = row) as -> by congruence.
    apply projects_star; [apply Hok2|]. by eapply ingested_projects.
  - rewrite lookup_insert_ne by done. exists row. split; [done|apply evolved_refl].
Qed.

Lemma deliveries_evolved ds l t r row :
  ledger_ok l → lg_runs l !! (t, r) = Some row →
  lg_raw_events l ⊆ lg_raw_events (foldl delivered l ds) ∧
  ∃ row', lg_runs (foldl delivered l ds) !! (t, r) = Some row' ∧
    evolved t r (lg_raw_events (foldl delivered l ds)) row row'.
Proof.
  revert l row. induction ds as [|d ds IH]; intros l row Hok Hrow; simpl.
  { split; [done|]. exists row. split; [done|apply evolved_refl]. }
  destruct (delivered_evolved l d t r row Hok Hrow) as (Hsub & row1 & Hrow1 & He1).
  destruct (IH (delivered l d) row1) as (Hsub2 & row2 & Hrow2 & He2); [by apply delivered_ok|done|].
  split; [by etrans|]. exists row2. split; [done|].
  eapply evolved_trans; [by eapply evolved_mono|done].
Qed.

(** ** Any order of delivery *)

Lemma event_number_ext t r n raw raw' :
  raw_unique raw → raw_unique raw' → (∀ ev, ev ∈ raw ↔ ev ∈ raw') →
  event_number t r n raw = event_number t r n raw'.
Proof.
  intros Hu Hu' He. apply option_eq. intros ev.
  rewrite (event_number_some t r n raw) by done. rewrite (event_number_some t r n raw') by done.
  by rewrite He.
Qed.

Lemma advance_ext f r raw raw' row :
  raw_unique raw → raw_unique raw' → (∀ ev, ev ∈ raw ↔ ev ∈ raw') →
  advance f r raw row = advance f r raw' row.
Proof. intros Hu Hu' He. unfold advance. by rewrite (event_number_ext _ _ _ raw raw') by done. Qed.

(** Events of other runs do not matter. *)
Lemma advance_other f r raw ev row :
  re_run_id ev ≠ r → advance f r (raw ++ [ev]) row = advance f r raw row.
Proof.
  intros Hne. unfold advance, event_number.
  assert (∀ p : RawEventRow → bool, p ev = false → find p (raw ++ [ev]) = find p raw) as ->; [|done|].
  - intros p Hp. induction raw as [|x raw IH]; simpl; [by rewrite Hp|]. by destruct (p x).
  - by rewrite (bool_decide_false (re_run_id ev = r)), andb_false_r.
Qed.

(** No integer of the events or of the runs is at the end of its range. *)
Record in_range (l : Ledger) : Prop := {
  nr_events ev : ev ∈ lg_raw_events l →
    re_sequence ev < i64_max ∧ re_run_aggregate_version ev < i64_max;
  nr_runs k row : lg_runs l !! k = Some row → rr_aggregate_version row < i64_max
}.

Lemma projected_in_range f r ev row' l :
  in_range l → ev ∈ lg_raw_events l → rr_aggregate_version row' = re_run_aggregate_version ev →
  in_range (project_event f r ev row' l).
Proof.
  intros [He Hr] Hin Hv. constructor; [done|]. simpl. intros k x.
  destruct (decide ((wf_tenant_id f, r) = k)) as [<-|].
  - rewrite lookup_insert_eq. intros [= <-]. rewrite Hv. by apply He.
  - rewrite lookup_insert_ne by done. apply Hr.
Qed.

Lemma sequence_in_range l t r row :
  ledger_ok l → in_range l → lg_runs l !! (t, r) = Some row → rr_last_event_sequence row < i64_max.
Proof.
  intros Hok [He _] Hrow. destruct (lk_runs _ Hok _ _ _ Hrow) as [S1 S2 _ _ _].
  destruct (decide (rr_last_event_sequence row = 0)) as [->|]; [done|].
  destruct (S2 (rr_last_event_sequence row)) as (ev & Hin & _ & <-); [lia|]. by apply He.
Qed.

(** Within the range the drain cannot fail. *)
Lemma drain_total fuel f r count l row :
  ledger_ok l → in_range l → lg_runs l !! (wf_tenant_id f, r) = Some row → fenced f row →
  (ahead f r (lg_raw_events l) row < fuel)%nat → 0 ≤ count →
  count + Z.of_nat (ahead f r (lg_raw_events l) row) ≤ u32_max →
  ∃ l' run out, drain_contiguous_events fuel f r count l (locked_run row) = Ok (l', run, out) ∧
    in_range l'.
Proof.
  revert count l row. induction fuel as [|fuel IH]; intros count l row Hok Hr Hrow Hf Hm Hc Hu; [lia|].
  unfold drain_contiguous_events. fold drain_contiguous_events.
  destruct (drain_round_spec f r l row Hok Hrow Hf) as [(err & _ & Hmax)|H].
  { pose proof (sequence_in_range _ _ _ _ Hok Hr Hrow). pose proof (nr_runs _ Hr _ _ Hrow). lia. }
  destruct (advance f r (lg_raw_events l) row) as [row1|] eqn:Hadv.
  - pose proof (advance_ahead _ _ _ _ _ (lk_unique _ Hok) Hadv) as Hlt.
    destruct (advance_shape _ _ _ _ _ (lk_unique _ Hok) Hadv)
      as (ev0 & d & Hin & Hb & Hs & Hv & _ & E & Hv1 & _).
    destruct H as (ev & -> & Hok1 & Hf1). simpl.
    assert (∀ k x, lg_runs (project_event f r ev row1 l) !! k = Some x →
      rr_aggregate_version x < i64_max) as Hr1.
    { apply (projected_in_range f r ev0 row1 l); [done|done|congruence]. }
    rewrite (proj2 (checked_add_some u32_max count 1 _)) by (split; [lia|reflexivity]). simpl.
    apply (IH (count + 1) (project_event f r ev row1 l) row1); try done;
      [|apply lookup_insert_eq| |lia|]; simpl.
    + constructor; [apply Hr|done].
    + lia.
    + lia.
  - destruct H as (block & ->). simpl. eauto.
Qed.

Lemma store_new f e l :
  existsb (raw_conflict (raw_row f e)) (lg_raw_events l) = false →
  store_raw_event f e l =
  Ok (mkLedger (lg_runs l) (lg_raw_events l ++ [raw_row f e]) (lg_applications l), (in_id e, true)).
Proof. intros H. unfold store_raw_event, insert_raw_event. by rewrite H. Qed.

(** What PostgreSQL returns for the event is what was delivered. *)
Definition kept_exactly (e : IncomingRunEvent) : Prop :=
  stored_at (in_occurred_at e) = in_occurred_at e ∧
  value_eqb (stored_value (in_raw_event e)) (in_raw_event e) = true.

Lemma filter_unique raw (p : RawEventRow → bool) x :
  raw_unique raw → x ∈ raw → p x = true →
  (∀ y, y ∈ raw → p y = true → raw_conflict x y = true) → List.filter p raw = [x].
Proof.
  induction raw as [|z raw IH]; intros Hu Hx Hp Hall; [by apply elem_of_nil in Hx|].
  assert (raw_unique raw) as Hu'.
  { intros i j a b Hi Hj Hc. pose proof (Hu (S i) (S j) a b Hi Hj Hc). lia. }
  assert (∀ y, y ∈ raw → raw_conflict z y = true → False) as Hz.
  { intros y [i Hi]%list_elem_of_lookup Hc. by pose proof (Hu 0%nat (S i) z y eq_refl Hi Hc). }
  apply elem_of_cons in Hx as [->|Hx]; simpl.
  - rewrite Hp. f_equal. destruct (List.filter p raw) as [|y k] eqn:E; [done|exfalso].
    assert (y ∈ List.filter p raw) as [Hy Hpy]%elem_of_filter_bool by (rewrite E; left).
    apply (Hz y Hy). apply Hall; [by right|done].
  - destruct (p z) eqn:Hpz.
    + exfalso. apply (Hz x Hx). rewrite raw_conflict_sym. apply Hall; [left|done].
    + apply IH; try done. intros y Hy. apply Hall. by right.
Qed.

Lemma store_again f e l :
  raw_unique (lg_raw_events l) → kept_exactly e → raw_row f e ∈ lg_raw_events l →
  store_raw_event f e l = Ok (l, (in_id e, false)).
Proof.
  intros Hu [Ha Hv] Hin. unfold store_raw_event, insert_raw_event.
  assert (existsb (raw_conflict (raw_row f e)) (lg_raw_events l) = true) as ->.
  { apply existsb_true. exists (raw_row f e). split; [done|]. by apply same_id_conflict. }
  unfold select_collisions. rewrite (filter_unique (lg_raw_events l) _ (raw_row f e)); try done.
  - assert (same_semantics (raw_row f e) f e = true) as ->; [|done].
    unfold same_semantics. simpl. rewrite Ha, Hv, !bool_decide_true, !Z.eqb_refl by done. done.
  - simpl. by rewrite !bool_decide_true by done.
  - intros y _ Hp. reflect. destruct Hp as [[Ht Hr] Hp]. unfold raw_conflict. simpl.
    rewrite orb_true_iff, !andb_true_iff, !orb_true_iff, !bool_decide_eq_true.
    right. intuition congruence.
Qed.

(** The calls for a list of events under one fence, up to the first failure. *)
Fixpoint ingest_all (sessions : list SessionRow) (f : WorkerSessionFence)
    (es : list IncomingRunEvent) (l : Ledger) : res Ledger :=
  match es with
  | [] => Ok l
  | e :: es => '(l', _) ← ingest_run_event sessions f e l; ingest_all sessions f es l'
  end.

(** A well-formed batch: valid events for runs of the fence, stored exactly,
    that share no identity with another event. *)
Record deliverable (sessions : list SessionRow) (f : WorkerSessionFence) (l : Ledger)
    (es : list IncomingRunEvent) : Prop := {
  dv_fence : WorkerSessionFence_validate f = Ok ();
  dv_events e : e ∈ es → IncomingRunEvent_validate e = Ok () ∧ kept_exactly e ∧
    in_sequence e < i64_max ∧ in_aggregate_version e < i64_max;
  dv_locked e : e ∈ es → ∃ run, lock_worker_and_run sessions f (in_run_id e) l = Ok run;
  dv_new e : e ∈ es → existsb (raw_conflict (raw_row f e)) (lg_raw_events l) = false;
  dv_distinct e e' : e ∈ es → e' ∈ es →
    raw_conflict (raw_row f e) (raw_row f e') = true → e = e';
  dv_range : in_range l;
  dv_size : Z.of_nat (length (lg_raw_events l) + length es) ≤ u32_max
}.

(** The state between two deliveries of a batch: the events of [past] are stored
    and their runs projected as far as they go. *)
Record midway (sessions : list SessionRow) (f : WorkerSessionFence) (l : Ledger)
    (past : list IncomingRunEvent) (l' : Ledger) : Prop := {
  mw_ok : ledger_ok l';
  mw_range : in_range l';
  mw_raw ev : ev ∈ lg_raw_events l' ↔
    ev ∈ lg_raw_events l ∨ ∃ e, e ∈ past ∧ ev = raw_row f e;
  mw_size : (length (lg_raw_events l') ≤ length (lg_raw_events l) + length past)%nat;
  mw_other t r : (∀ e, e ∈ past → (wf_tenant_id f, in_run_id e) ≠ (t, r)) →
    lg_runs l' !! (t, r) = lg_runs l !! (t, r);
  mw_fenced r row : lg_runs l !! (wf_tenant_id f, r) = Some row → fenced f row →
    ∃ row', lg_runs l' !! (wf_tenant_id f, r) = Some row' ∧ fenced f row' ∧
      star (λ a b, advance f r (lg_raw_events l') a = Some b) row row' ∧
      (∀ e, e ∈ past → in_run_id e = r → advance f r (lg_raw_events l') row' = None)
}.

Lemma lock_ok sessions f r l run :
  lock_worker_and_run sessions f r l = Ok run →
  ∃ row, lg_runs l !! (wf_tenant_id f, r) = Some row ∧ fenced f row ∧
    ∀ l' row', lg_runs l' !! (wf_tenant_id f, r) = Some row' → fenced f row' →
      lock_worker_and_run sessions f r l' = Ok (locked_run row').
Proof.
  intros H. destruct (lock_spec sessions f r l) as [(err & E)|(row & s & E & Hrow & Hf & _)]; [congruence|].
  exists row. split_and!; try done. intros l' row' Hrow' (F1 & F2 & F3 & F4). clear E.
  unfold lock_worker_and_run in *. destruct (select_session sessions f) as [session|]; simpl in *; [|done].
  rewrite !bind_unit_ok in H. destruct H as (-> & -> & _). simpl. rewrite Hrow'. simpl.
  rewrite F1, F2, F3, F4, !bool_decide_true, !Z.eqb_refl by done. done.
Qed.

Lemma ingest_total sessions f e l row l1 id ins :
  ledger_ok l → WorkerSessionFence_validate f = Ok () → IncomingRunEvent_validate e = Ok () →
  lock_worker_and_run sessions f (in_run_id e) l = Ok (locked_run row) →
  lg_runs l !! (wf_tenant_id f, in_run_id e) = Some row → fenced f row →
  store_raw_event f e l = Ok (l1, (id, ins)) → ledger_ok l1 → lg_runs l1 = lg_runs l →
  in_range l1 → Z.of_nat (length (lg_raw_events l1)) ≤ u32_max →
  ∃ l2 out, ingest_run_event sessions f e l = Ok (l2, out) ∧ in_range l2.
Proof.
  intros Hok Hvf Hve Hlock Hrow Hf Hst Hok1 Hruns Hr Hsz. unfold ingest_run_event.
  rewrite Hvf, Hve, Hlock, Hst. simpl.
  pose proof (ahead_le f (in_run_id e) (lg_raw_events l1) row) as Hle.
  destruct (drain_total (S (length (lg_raw_events l1))) f (in_run_id e) 0 l1 row)
    as (l2 & run & out & E & Hr2); try done; [by rewrite Hruns|lia|lia|].
  destruct (drain_spec (S (length (lg_raw_events l1))) f (in_run_id e) 0 l1 row)
    as [(err & E')|(l2' & row' & out' & E' & [block Hb] & _)]; try done;
    [by rewrite Hruns|lia|congruence|].
  rewrite E in E'. injection E' as -> -> ->. rewrite E. simpl. rewrite Hb.
  destruct (event_is_applied _ _ _ _); simpl; eauto.
Qed.

Section batch.
  Context (sessions : list SessionRow) (f : WorkerSessionFence) (l : Ledger)
    (es : list IncomingRunEvent) (batch : deliverable sessions f l es).

Lemma conflict_is_repeat past l' e x :
  midway sessions f l past l' → past ⊆ es → e ∈ es →
  x ∈ lg_raw_events l' → raw_conflict (raw_row f e) x = true → e ∈ past ∧ x = raw_row f e.
Proof.
  intros Hm Hp He Hx Hc. apply (mw_raw _ _ _ _ _ Hm) in Hx as [Hx|(e' & He' & ->)].
  - pose proof (dv_new _ _ _ _ batch e He) as Hn. rewrite existsb_false, Forall_forall in Hn.
    rewrite (Hn x Hx) in Hc. done.
  - assert (e = e') as <- by (eapply (dv_distinct _ _ _ _ batch); auto). done.
Qed.

Lemma midway_ingest past l' e :
  midway sessions f l past l' → past ⊆ es → e ∈ es → (length past < length es)%nat →
  ∃ l2 out, ingest_run_event sessions f e l' = Ok (l2, out) ∧ in_range l2.
Proof.
  intros Hm Hp He Hlen. destruct (dv_events _ _ _ _ batch e He) as (Hv & Hk & Hseq & Hver).
  destruct (dv_locked _ _ _ _ batch e He) as [run Hrun].
  destruct (lock_ok _ _ _ _ _ Hrun) as (row0 & Hrow0 & Hf0 & Hlock).
  destruct (mw_fenced _ _ _ _ _ Hm _ _ Hrow0 Hf0) as (row1 & Hrow1 & Hf1 & _).
  pose proof (dv_size _ _ _ _ batch) as Hsz. pose proof (mw_size _ _ _ _ _ Hm) as Hsz'.
  destruct (existsb (raw_conflict (raw_row f e)) (lg_raw_events l')) eqn:Hc.
  - apply existsb_true in Hc as (x & Hx & Hc).
    destruct (conflict_is_repeat past l' e x) as [_ ->]; try done.
    assert (store_raw_event f e l' = Ok (l', (in_id e, false))) as Hst
      by (apply store_again; [apply Hm|done|done]).
    eapply (ingest_total _ _ _ _ row1); [apply Hm|apply batch|done|by apply Hlock|done|done|exact Hst|..];
      [apply Hm|done|apply Hm|lia].
  - eapply (ingest_total _ _ _ _ row1);
      [apply Hm|apply batch|done|by apply Hlock|done|done|by apply store_new|..]; simpl; try done.
    + apply store_ok; [apply Hm| |done]. simpl. unfold IncomingRunEvent_validate in Hv.
      rewrite bind_unit_ok in Hv. reflect. tauto.
    + constructor; [|apply Hm]. simpl. intros ev. rewrite elem_of_app, list_elem_of_singleton.
      intros [?| ->]; [by apply Hm|done].
    + rewrite length_app. simpl. lia.
Qed.

Lemma midway_step past l' e :
  midway sessions f l past l' → past ⊆ es → e ∈ es → (length past < length es)%nat →
  ∃ l2 out, ingest_run_event sessions f e l' = Ok (l2, out) ∧ midway sessions f l (past ++ [e]) l2.
Proof.
  intros Hm Hp He Hlen. destruct (midway_ingest past l' e) as (l2 & out & E & Hr2); try done.
  exists l2, out. split; [done|].
  destruct (ingest_spec sessions f e l' (mw_ok _ _ _ _ _ Hm))
    as [(? & ?)|(l2' & out' & row1 & row' & E' & Hok2 & Hi)]; [congruence|].
  rewrite E in E'. injection E' as <- <-.
  assert (lg_raw_events l2 = lg_raw_events l' ++ [raw_row f e] ∨
    lg_raw_events l2 = lg_raw_events l' ∧ e ∈ past) as Hraw.
  { pose proof (ig_raw _ _ _ _ _ _ _ Hi) as Hraw. destruct (io_inserted out) eqn:Ei; [by left|right].
    split; [done|]. destruct (ig_known _ _ _ _ _ _ _ Hi Ei) as (ev & Hev & Hb & Hs).
    apply (conflict_is_repeat past l' e ev); try done.
    apply (same_sequence_conflict (wf_tenant_id f) (in_run_id e)); [done|done|].
    unfold same_semantics in Hs. reflect. simpl. destruct_and!. congruence. }
  assert (lg_raw_events l' ⊆ lg_raw_events l2) as Hsub by by eapply ingested_raw.
  assert (∀ r, r ≠ in_run_id e → ∀ row,
    advance f r (lg_raw_events l2) row = advance f r (lg_raw_events l') row) as Hoth.
  { intros r Hr row. destruct Hraw as [->|[-> _]]; [|done]. apply advance_other. simpl. congruence. }
  constructor; try done.
  - intros ev. destruct Hraw as [->|[-> Hpast]]; rewrite ?elem_of_app, ?list_elem_of_singleton;
      rewrite (mw_raw _ _ _ _ _ Hm); setoid_rewrite elem_of_app; setoid_rewrite list_elem_of_singleton.
    + split; [intros [[?|(x & ? & ?)]| ->]; eauto 6|]. intros [?|(x & [?| ->] & ->)]; eauto.
    + split; [intros [?|(x & ? & ?)]; eauto 6|]. intros [?|(x & [?| ->] & ->)]; eauto.
  - pose proof (mw_size _ _ _ _ _ Hm). rewrite length_app. simpl.
    destruct Hraw as [->|[-> _]]; rewrite ?length_app; simpl; lia.
  - intros t r Hall. rewrite (ig_runs _ _ _ _ _ _ _ Hi), lookup_insert_ne.
    + apply (mw_other _ _ _ _ _ Hm). intros x Hx. apply Hall. rewrite elem_of_app. by left.
    + apply Hall. rewrite elem_of_app, list_elem_of_singleton. by right.
  - intros r row Hrow Hf. rewrite (ig_runs _ _ _ _ _ _ _ Hi).
    destruct (mw_fenced _ _ _ _ _ Hm _ _ Hrow Hf) as (x & Hx & Hfx & Hstar & Hset).
    assert (star (λ a b, advance f r (lg_raw_events l2) a = Some b) row x) as Hstar2.
    { eapply star_mono; [|done]. intros a b. apply advance_mono; [apply Hm|apply Hok2|done]. }
    destruct (decide (r = in_run_id e)) as [->|Hne].
    + rewrite lookup_insert_eq. exists row'. pose proof (ig_row _ _ _ _ _ _ _ Hi) as Hrow1.
      assert (x = row1) as -> by congruence. pose proof (ig_star _ _ _ _ _ _ _ Hi) as Hs.
      split_and!; try done.
      * revert Hs. apply star_invariant; [done|]. intros a b Ha. by apply advance_fenced.
      * by eapply star_trans.
      * intros _ _ _. by apply Hi.
    + rewrite lookup_insert_ne by congruence. exists x. split_and!; try done.
      intros e' He' Er. rewrite Hoth by done. apply elem_of_app in He' as [He'|He'].
      * by eapply Hset.
      * apply list_elem_of_singleton in He' as ->. congruence.
Qed.

Lemma midway_start : ledger_ok l → midway sessions f l [] l.
Proof.
  intros Hok. constructor; try done.
  - apply batch.
  - intros ev. split; [auto|]. intros [?|(e & []%elem_of_nil & _)]; done.
  - simpl. lia.
  - intros r row Hrow Hf. exists row. split_and!; try done; [apply star_nil|].
    by intros e []%elem_of_nil.
Qed.

Lemma midway_all rest past l' :
  midway sessions f l past l' → es = past ++ rest →
  ∃ l2, ingest_all sessions f rest l' = Ok l2 ∧ midway sessions f l es l2.
Proof.
  revert past l'. induction rest as [|e rest IH]; intros past l' Hm E; simpl.
  { rewrite app_nil_r in E. subst past. eauto. }
  destruct (midway_step past l' e) as (l2 & out & -> & Hm2); try done.
  - intros x Hx. rewrite E, elem_of_app. by left.
  - rewrite E, elem_of_app. right. left.
  - rewrite E, length_app. simpl. lia.
  - simpl. apply (IH (past ++ [e])); [done|]. by rewrite <- app_assoc.
Qed.
End batch.

Lemma batch_done sessions f l es :
  ledger_ok l → deliverable sessions f l es →
  ∃ l', ingest_all sessions f es l = Ok l' ∧ midway sessions f l es l'.
Proof. intros Hok Hd. by eapply midway_all; [|eapply midway_start|]. Qed.

Lemma midway_runs sessions f l es es' l1 l2 :
  (∀ e, e ∈ es ↔ e ∈ es') → (∀ e, e ∈ es → ∃ row,
    lg_runs l !! (wf_tenant_id f, in_run_id e) = Some row ∧ fenced f row) →
  midway sessions f l es l1 → midway sessions f l es' l2 → lg_runs l1 = lg_runs l2.
Proof.
  intros Heq Hrows H1 H2. apply map_eq. intros [t r].
  destruct (decide (Exists (λ e, (wf_tenant_id f, in_run_id e) = (t, r)) es)) as [Hex|Hno].
  - apply Exists_exists in Hex as (e & He & [= <- <-]). destruct (Hrows e He) as (row & Hrow & Hf).
    destruct (mw_fenced _ _ _ _ _ H1 _ _ Hrow Hf) as (a & -> & _ & Sa & Na).
    destruct (mw_fenced _ _ _ _ _ H2 _ _ Hrow Hf) as (b & -> & _ & Sb & Nb). f_equal.
    assert (∀ x, advance f (in_run_id e) (lg_raw_events l1) x
                 = advance f (in_run_id e) (lg_raw_events l2) x) as Hx.
    { intros x. apply advance_ext; [apply H1|apply H2|]. intros ev.
      rewrite (mw_raw _ _ _ _ _ H1), (mw_raw _ _ _ _ _ H2). by setoid_rewrite Heq. }
    apply (star_normal_form (advance f (in_run_id e) (lg_raw_events l1)) row); [done|by eapply Na| |].
    + eapply star_mono; [|done]. intros u v. simpl. by rewrite Hx.
    + rewrite Hx. eapply Nb; [by apply Heq|done].
  - rewrite Exists_exists in Hno. rewrite (mw_other _ _ _ _ _ H1), (mw_other _ _ _ _ _ H2); [done|..];
      intros e He E; apply Hno; exists e; [by rewrite Heq|done].
Qed.

(** An instant that the table does not keep exactly is not the instant of the
    product event any more: such an event is retained and never projected. *)
Lemma imprecise_instant_never_projects f e run event d :
  product_event_from_value (stored_value (in_raw_event e)) = inr event →
  pe_occurred_at event = in_occurred_at e → stored_at (in_occurred_at e) ≠ in_occurred_at e →
  decode_projection (raw_row f e) f (in_run_id e) run ≠ Success d.
Proof.
  intros Hp Ho Hne H. unfold decode_projection in H. simpl in H. rewrite !obind_unit_success in H.
  destruct H as (_ & _ & H). rewrite Hp in H. simpl in H. apply obind_unit_success in H as (H & _).
  reflect. destruct_and!. congruence.
Qed.

(** ** Main theorems *)

(** C7. Whatever calls arrive, in whatever order, under whatever fences, from the
    first event of the ledger on: every run stands at the contiguous prefix of
    its stored events ([ledger_ok]: those up to its sequence number are stored
    and applied, no other is applied, cursor, snapshot and version are those of
    the last one), every call terminates without exhausting the rounds of the
    drain, and a successful call reports what it did: whether the event was new,
    where the run stands now, and whether the event is part of the prefix. *)
Theorem ingestion_invariant l ds d :
  fresh l →
  ledger_ok (foldl delivered l ds) ∧
  deliver d (foldl delivered l ds) ≠ Panic ∧
  ∀ l2 out, deliver d (foldl delivered l ds) = Ok (l2, out) →
    ∃ row row', ingested (dl_fence d) (dl_event d) (foldl delivered l ds) l2 out row row'.
Proof.
  intros Hfr. assert (ledger_ok (foldl delivered l ds)) as Hok by by apply deliveries_ok, fresh_ok.
  split; [done|]. unfold deliver.
  destruct (ingest_spec (dl_sessions d) (dl_fence d) (dl_event d) _ Hok)
    as [(err & ->)|(l2 & out & row & row' & -> & _ & Hi)]; (split; [done|]); [done|].
  intros ? ? [= <- <-]. eauto.
Qed.

(** Over any sequence of calls a run keeps its Work Order and its worker
    session, its sequence number never falls and its version moves in step with
    it, its state follows [valid_run_transition], a terminal state and the
    instant it was reached are final, and a state it was moved to was named by a
    stored event of the supported schema whose product event is bound to the
    tenant, the run, its work item, its attempt and its Work Order. *)
Lemma runs_only_advance l ds t r row :
  ledger_ok l → lg_runs l !! (t, r) = Some row →
  ∃ row', lg_runs (foldl delivered l ds) !! (t, r) = Some row' ∧
    evolved t r (lg_raw_events (foldl delivered l ds)) row row'.
Proof. intros Hok Hrow. by apply deliveries_evolved. Qed.

End facts.

(** ** A run of two events *)

Module Sample.
#[local] Instance uuids : UuidText :=
  {| uuid_to_string u := "u" +:+ pos_text (N.succ_pos u);
     uuid_to_string_visible u := blank_head "u"%char _ (conj eq_refl eq_refl) |}.
#[local] Instance columns : PgColumns :=
  {| stored_at t := t; stored_value v := v; stored_value_object v := eq_refl |}.

Definition product_event (event_type : string) (id : Uuid) (version : Z) : ProductEvent :=
  {| pe_event_schema := PRODUCT_EVENT_SCHEMA_V1; pe_event_id := id; pe_tenant_id := 1%N;
     pe_work_item_id := Some 6%N; pe_attempt_id := Some 7%N; pe_work_order_digest := Some "d";
     pe_run_id := Some 5%N; pe_aggregate_version := version; pe_occurred_at := 100;
     pe_ingested_at := 100; pe_actor := "worker"; pe_event_type := event_type;
     pe_event_payload := Security.Null; pe_policy_digest := None; pe_trace_id := "t";
     pe_correlation_id := "c" |}.

#[local] Instance json : ProductEventJson :=
  {| product_event_from_value v :=
       match v with
       | Object [(_, VString t)] =>
           inr (if bool_decide (t = "run.started") then product_event t 11%N 2
                else product_event t 12%N 3)
       | _ => inl "missing field"
       end |}.

Definition incoming (event_type : string) (id : Uuid) (sequence : Z) : IncomingRunEvent :=
  {| in_id := id; in_run_id := 5%N; in_external_event_id := uuid_to_string id;
     in_cursor := uuid_to_string id; in_sequence := sequence; in_aggregate_version := sequence + 1;
     in_schema_version := PRODUCT_EVENT_SCHEMA_V1; in_event_type := event_type;
     in_occurred_at := 100; in_raw_event := Object [("event_type", VString event_type)] |}.

Definition started : IncomingRunEvent := incoming "run.started" 11%N 1.
Definition succeeded : IncomingRunEvent := incoming "run.succeeded" 12%N 2.
Definition fence : WorkerSessionFence := mkWorkerSessionFence 1%N 2%N 3%N 1.
Definition sessions : list SessionRow := [mkSessionRow 1%N 2%N 3%N 1 "ACTIVE" true 1].
Definition row : RunRow :=
  mkRunRow 3%N 1 2%N 6%N 7%N "d" true "ADOPTED" None 0 None 1 None.
Definition ledger : Ledger := mkLedger {[ (1%N, 5%N) := row ]} [] [].

Lemma ledger_fresh : fresh ledger.
Proof.
  constructor; [done|done|]. intros k x. unfold ledger. simpl. by intros [_ <-]%lookup_singleton_Some.
Qed.

Lemma batch_ok es :
  es ⊆ [started; succeeded] → (length es ≤ 10)%nat → deliverable sessions fence ledger es.
Proof.
  intros Hs Hl.
  assert (∀ P : IncomingRunEvent → Prop, P started → P succeeded → ∀ e, e ∈ es → P e) as Hall.
  { intros P H1 H2 e He. specialize (Hs e He).
    repeat (apply elem_of_cons in Hs as [->|Hs]; [done|]). by apply elem_of_nil in Hs. }
  constructor.
  - reflexivity.
  - apply Hall; (split; [reflexivity|]); repeat split.
  - apply Hall; eexists; vm_compute; reflexivity.
  - apply Hall; reflexivity.
  - intros e e' He He'. revert e' He'. revert e He.
    apply (Hall (λ e, ∀ e', e' ∈ es → raw_conflict (raw_row fence e) (raw_row fence e') = true → e = e'));
      (refine (Hall (λ e', _ → _ = e') _ _); simpl;
       first [intros _; reflexivity | vm_compute; discriminate]).
  - constructor; [by intros ev []%elem_of_nil|]. intros k x. unfold ledger. simpl. by intros [_ <-]%lookup_singleton_Some.
  - simpl. unfold u32_max. lia.
Qed.

Definition states (r : res Ledger) : option string :=
  match r with Ok l => rr_state <$> lg_runs l !! (1%N, 5%N) | _ => None end.


Definition calls : list Delivery := [mkDelivery sessions fence succeeded; mkDelivery sessions fence started].

Lemma ingestion_invariant_witness :
  ledger_ok (foldl delivered ledger calls) ∧
  deliver (mkDelivery sessions fence started) (foldl delivered ledger calls) ≠ Panic.
Proof.
  destruct (ingestion_invariant ledger calls (mkDelivery sessions fence started) ledger_fresh)
    as (? & ? & _). split; assumption.
Defined.

Lemma runs_only_advance_witness :
  ∃ row', lg_runs (foldl delivered ledger calls) !! (1%N, 5%N) = Some row' ∧
    evolved 1%N 5%N (lg_raw_events (foldl delivered ledger calls)) row row'.
Proof.
  apply runs_only_advance; [apply fresh_ok, ledger_fresh|vm_compute; reflexivity].
Defined.
End Sample.
