(* ===== verification/JobQueue.v ===== *)
(** The durable queue of workflow jobs, [src/src/ledger/jobs.rs]: enqueueing,
    claims with leases and fence tokens, completion and failure.

    The tables [workflow_jobs] and [effect_intents] are finite maps from the
    primary key to the other columns ([Queue]); each SQL statement is atomic and
    is a definition that takes the clock of the database.  Calls that send a
    second statement take the tables that it finds as an argument, since other
    workers may run in between.  The order of the rows that a claim returns is
    not fixed by SQL; here it is the order of the candidates.  [updated_at],
    foreign keys to other tables and connection failures are left out. *)

From Stdlib Require Import ZArith Lia Ascii.
From stdpp Require Import base tactics option list strings gmap.
From S2P Require Import Prelude RustStr RustOrd Ids Security RunEvents.

Definition MAX_JOB_ERROR_CHARACTERS : nat := Z.to_nat 8192.
Definition MAX_CLAIM_BATCH : Z := 1000.
Definition MAX_JOB_LEASE_DURATION : Duration := hours 24.

(** [value.chars().take(n).collect()], also SQL's [left]: a byte [10xxxxxx]
    continues the character before it. *)
Fixpoint take_chars (n : nat) (s : string) : string :=
  match s with
  | EmptyString => EmptyString
  | String c s =>
      if Z.land (byte_of c) 192 =? 128 then String c (take_chars n s)
      else match n with O => EmptyString | S n => String c (take_chars n s) end
  end.

Definition summarize_error (value : string) : string := take_chars MAX_JOB_ERROR_CHARACTERS value.

(** ** Requests *)

(** The loop over the bytes, with its flag. *)
Fixpoint contract_id_bytes (previous_was_separator : bool) (bs : list Z) : bool :=
  match bs with
  | [] => negb previous_was_separator
  | b :: bs =>
      if is_ascii_lowercase b || is_ascii_digit b then contract_id_bytes false bs
      else if (b =? 46) || (b =? 47) || (b =? 45) then
        if previous_was_separator then false else contract_id_bytes true bs
      else false
  end.

Definition is_valid_activity_contract_id (candidate : string) : bool :=
  if str_is_empty candidate || (128 <? len candidate) then false
  else contract_id_bytes true (bytes candidate).

Record NewWorkflowJob := mkNewWorkflowJob {
  nj_id : Uuid;
  nj_tenant_id : Uuid;
  nj_workflow_instance_id : option Uuid;
  nj_work_item_id : option Uuid;
  nj_attempt_id : option Uuid;
  nj_job_type : string;
  nj_activity_contract_id : string;
  nj_payload : Value;
  nj_idempotency_key : string;
  nj_priority : Z;
  nj_available_at : DateTime;
  nj_max_attempts : Z
}.

Definition nil_binding (o : option Uuid) : bool :=
  match o with Some id => is_nil id | None => false end.

Definition NewWorkflowJob_validate (j : NewWorkflowJob) : res unit :=
  bail_if (is_nil (nj_id j) || is_nil (nj_tenant_id j))
    (Validation [Lit "workflow job and tenant IDs must be non-nil"]) ;;
  bail_if (nil_binding (nj_workflow_instance_id j) || nil_binding (nj_work_item_id j)
           || nil_binding (nj_attempt_id j))
    (Validation [Lit "workflow job bindings must use non-nil IDs"]) ;;
  bail_if (negb (Bool.eqb (is_some (nj_workflow_instance_id j)) (is_some (nj_work_item_id j))))
    (Validation [Lit "workflow jobs must be either tenant-scoped or bind both a workflow and work item"]) ;;
  bail_if (is_some (nj_attempt_id j) && is_none (nj_work_item_id j))
    (Validation [Lit "an attempt-bound job must name its work item"]) ;;
  bail_if (blank (nj_job_type j)) (Validation [Lit "workflow job type must be non-empty"]) ;;
  bail_if (negb (is_valid_activity_contract_id (nj_activity_contract_id j)))
    (Validation [Lit "workflow job activity contract id "; Dbg (nj_activity_contract_id j);
                 Lit " is invalid"]) ;;
  bail_if (negb (is_object (nj_payload j)))
    (Validation [Lit "workflow job payload must be a JSON object"]) ;;
  bail_if (blank (nj_idempotency_key j))
    (Validation [Lit "workflow job idempotency key must be non-empty"]) ;;
  bail_if (nj_max_attempts j <=? 0)
    (Validation [Lit "workflow job max_attempts must be positive"]).

Record EnqueueJobOutcome := mkEnqueueJobOutcome { eo_job_id : Uuid; eo_inserted : bool }.

Record ClaimedWorkflowJob := mkClaimedWorkflowJob {
  cj_id : Uuid;
  cj_tenant_id : Uuid;
  cj_workflow_instance_id : option Uuid;
  cj_work_item_id : option Uuid;
  cj_attempt_id : option Uuid;
  cj_job_type : string;
  cj_activity_contract_id : string;
  cj_payload : Value;
  cj_idempotency_key : string;
  cj_priority : Z;
  cj_attempt_count : Z;
  cj_max_attempts : Z;
  cj_fence_token : Z;
  cj_lease_owner : string;
  cj_lease_expires_at : DateTime;
  cj_created_at : DateTime
}.

Inductive CompleteJobOutcome := Completed | AlreadyCompleted.

Inductive FailureDisposition := RetryScheduled | Dead.

Record FailJobOutcome := mkFailJobOutcome {
  fo_disposition : FailureDisposition;
  fo_newly_recorded : bool
}.

(** ** Tables *)

(** Columns that are null together, [lease_owner] and [lease_expires_at], the
    completion columns and the failure columns, are one option. *)
Record JobRow := mkJobRow {
  jb_tenant_id : Uuid;
  jb_workflow_instance_id : option Uuid;
  jb_work_item_id : option Uuid;
  jb_attempt_id : option Uuid;
  jb_job_type : string;
  jb_activity_contract_id : string;
  jb_payload : Value;
  jb_idempotency_key : string;
  jb_priority : Z;
  jb_available_at : DateTime;
  jb_max_attempts : Z;
  jb_status : string;
  jb_attempt_count : Z;
  jb_fence_token : Z;
  jb_lease : option (string * DateTime);
  jb_result : option Value;
  jb_completion : option (string * Z * DateTime);
  jb_failure : option (string * Z * DateTime * string);
  jb_created_at : DateTime
}.

Record EffectRow := mkEffectRow {
  ef_tenant_id : Uuid;
  ef_provider : string;
  ef_effect_type : string;
  ef_status : string;
  ef_owning_workflow_job_id : option Uuid;
  ef_fence_token : Z;
  ef_lease : option (string * DateTime);
  ef_last_error : option string
}.

Record Queue := mkQueue {
  q_jobs : gmap Uuid JobRow;
  q_effects : gmap Uuid EffectRow
}.

(** Equality of [jsonb] values. *)
Class Jsonb := {
  jsonb_eqb : Value → Value → bool;
  jsonb_eqb_refl v : jsonb_eqb v v = true
}.

Section queue.
  Context {pg : PgColumns} {jsonb : Jsonb}.

(** ** Enqueueing *)

Definition new_row (now : DateTime) (j : NewWorkflowJob) : JobRow :=
  {| jb_tenant_id := nj_tenant_id j; jb_workflow_instance_id := nj_workflow_instance_id j;
     jb_work_item_id := nj_work_item_id j; jb_attempt_id := nj_attempt_id j;
     jb_job_type := nj_job_type j; jb_activity_contract_id := nj_activity_contract_id j;
     jb_payload := nj_payload j; jb_idempotency_key := nj_idempotency_key j;
     jb_priority := nj_priority j; jb_available_at := stored_at (nj_available_at j);
     jb_max_attempts := nj_max_attempts j; jb_status := "PENDING"; jb_attempt_count := 0;
     jb_fence_token := 0; jb_lease := None; jb_result := None; jb_completion := None;
     jb_failure := None; jb_created_at := now |}.

(** The row with an idempotency key. *)
Definition keyed (tenant_id : Uuid) (key : string) (p : Uuid * JobRow) : bool :=
  bool_decide (jb_tenant_id p.2 = tenant_id) && bool_decide (jb_idempotency_key p.2 = key).

Definition row_by_key (tenant_id : Uuid) (key : string) (q : Queue) : option (Uuid * JobRow) :=
  find (keyed tenant_id key) (map_to_list (q_jobs q)).

(** [INSERT_JOB_SQL]: a used key inserts nothing, a used identifier violates the
    primary key. *)
Definition insert_job (now : DateTime) (j : NewWorkflowJob) (q : Queue) : res (Queue * bool) :=
  match row_by_key (nj_tenant_id j) (nj_idempotency_key j) q with
  | Some _ => Ok (q, false)
  | None =>
      match q_jobs q !! nj_id j with
      | Some _ => Err (Persistence [Lit "enqueue workflow job"])
      | None => Ok (mkQueue (<[nj_id j := new_row now j]> (q_jobs q)) (q_effects q), true)
      end
  end.

(** [request_matches] of [LOAD_IDEMPOTENT_JOB_SQL]. *)
Definition request_matches (row : JobRow) (j : NewWorkflowJob) : bool :=
  bool_decide (jb_workflow_instance_id row = nj_workflow_instance_id j)
  && bool_decide (jb_work_item_id row = nj_work_item_id j)
  && bool_decide (jb_attempt_id row = nj_attempt_id j)
  && bool_decide (jb_job_type row = nj_job_type j)
  && bool_decide (jb_activity_contract_id row = nj_activity_contract_id j)
  && jsonb_eqb (jb_payload row) (nj_payload j)
  && (jb_priority row =? nj_priority j)
  && (jb_available_at row =? stored_at (nj_available_at j))
  && (jb_max_attempts row =? nj_max_attempts j).

Definition load_idempotent_job (j : NewWorkflowJob) (q : Queue) : res (Uuid * bool) :=
  '(id, row) ← ok_or (row_by_key (nj_tenant_id j) (nj_idempotency_key j) q)
    (Persistence [Lit "workflow job conflict was observed but the existing row was not visible"]);
  Ok (id, request_matches row j).

Definition validate_idempotent_job (existing : Uuid * bool) (j : NewWorkflowJob) : res Uuid :=
  if existing.2 then Ok existing.1
  else Err (Conflict [Lit "workflow job idempotency key "; Disp (nj_idempotency_key j);
                      Lit " was reused for a different request"]).

(** [found] are the tables that the second statement finds. *)
Definition enqueue_job (now : DateTime) (j : NewWorkflowJob) (q found : Queue)
  : res (Queue * EnqueueJobOutcome) :=
  NewWorkflowJob_validate j ;;
  '(q', inserted) ← insert_job now j q;
  if inserted : bool then Ok (q', mkEnqueueJobOutcome (nj_id j) true)
  else
    existing ← load_idempotent_job j found;
    id ← validate_idempotent_job existing j;
    Ok (found, mkEnqueueJobOutcome id false).

(** ** Claims *)

Definition validate_claim_request (lease_owner : string) (limit : Z) (lease_duration : Duration)
  : res unit :=
  bail_if (blank lease_owner) (Validation [Lit "job lease owner must be non-empty"]) ;;
  bail_if ((limit =? 0) || (MAX_CLAIM_BATCH <? limit))
    (Validation [Lit "job claim limit must be in 1..="; FmtNum MAX_CLAIM_BATCH]) ;;
  bail_if ((lease_duration =? 0) || (MAX_JOB_LEASE_DURATION <? lease_duration))
    (Validation [Lit "job lease duration must be positive and at most 24 hours"]).

Definition validate_job_mutation (lease_owner : string) (fence_token : Z) : res unit :=
  bail_if (blank lease_owner) (Validation [Lit "job lease owner must be non-empty"]) ;;
  bail_if (fence_token <=? 0) (Validation [Lit "job fence token must be positive"]).

Definition fenced_claim_error (job_id : Uuid) : Error :=
  Conflict [Lit "workflow job "; FmtUuid job_id;
            Lit " claim is expired, completed, or superseded by a newer fence"].

(** [Duration::as_millis], and back in the interval of the statement. *)
Definition as_millis (d : Duration) : Z := d / 1000000.
Definition milliseconds (n : Z) : Duration := n * 1000000.

(** [i64::try_from(lease_duration.as_millis())]. *)
Definition lease_milliseconds (lease_duration : Duration) : res Z :=
  ok_or (try_from i64_max (as_millis lease_duration))
    (Validation [Lit "workflow job lease duration is too large"]).

Definition lease_expired (now : DateTime) (row : JobRow) : bool :=
  match jb_lease row with Some (_, expires_at) => expires_at <=? now | None => false end.

(** The [WHERE] clause of the candidates. *)
Definition claimable (tenant_id : Uuid) (now : DateTime) (row : JobRow) : bool :=
  bool_decide (jb_tenant_id row = tenant_id)
  && (jb_attempt_count row <? jb_max_attempts row)
  && (mem (jb_status row) ["PENDING"; "RETRY"] && (jb_available_at row <=? now)
      || bool_decide (jb_status row = "RUNNING") && lease_expired now row).

(** [ORDER BY job.priority DESC, job.available_at, job.id]. *)
Definition claim_key (p : Uuid * JobRow) : Z * (Z * N) :=
  (- jb_priority p.2, (jb_available_at p.2, p.1)).

(** The candidates; rows locked by another transaction are skipped. *)
Definition candidates (tenant_id : Uuid) (limit : Z) (now : DateTime) (locked : Uuid → bool)
    (jobs : gmap Uuid JobRow) : list (Uuid * JobRow) :=
  take (Z.to_nat limit) (sort_by_key claim_key
    (List.filter (λ p, claimable tenant_id now p.2 && negb (locked p.1)) (map_to_list jobs))).

(** The effects whose job may be claimed again. *)
Definition external_mutation (e : EffectRow) : bool :=
  bool_decide (ef_provider e = "runmill")
  && mem (ef_effect_type e) ["request_cancellation"; "submit_work_order"]
  || bool_decide (ef_provider e = "linear") && bool_decide (ef_effect_type e = "close_source").

Definition expiry_note : string :=
  "owning workflow-job lease expired; exact external-effect reconciliation required".

(** The assignments of [released_external_effects]. *)
Definition released_effect (e : EffectRow) : EffectRow :=
  {| ef_tenant_id := ef_tenant_id e; ef_provider := ef_provider e;
     ef_effect_type := ef_effect_type e; ef_status := "AMBIGUOUS";
     ef_owning_workflow_job_id := None; ef_fence_token := ef_fence_token e; ef_lease := None;
     ef_last_error := Some (take_chars (Z.to_nat 8192)
       match ef_last_error e with
       | None | Some EmptyString => expiry_note
       | Some last => last +:+ "; " +:+ expiry_note
       end) |}.

(** [released_external_effects]. *)
Definition release_effects (tenant_id : Uuid) (ids : list Uuid) (effects : gmap Uuid EffectRow)
  : gmap Uuid EffectRow :=
  (λ e,
    if bool_decide (ef_tenant_id e = tenant_id)
       && match ef_owning_workflow_job_id e with Some id => mem id ids | None => false end
       && bool_decide (ef_status e = "IN_FLIGHT") && external_mutation e
    then released_effect e else e) <$> effects.

(** The assignments of the claim. *)
Definition claimed_row (lease_owner : string) (expires_at : DateTime) (row : JobRow) : JobRow :=
  {| jb_tenant_id := jb_tenant_id row; jb_workflow_instance_id := jb_workflow_instance_id row;
     jb_work_item_id := jb_work_item_id row; jb_attempt_id := jb_attempt_id row;
     jb_job_type := jb_job_type row; jb_activity_contract_id := jb_activity_contract_id row;
     jb_payload := jb_payload row; jb_idempotency_key := jb_idempotency_key row;
     jb_priority := jb_priority row; jb_available_at := jb_available_at row;
     jb_max_attempts := jb_max_attempts row; jb_status := "RUNNING";
     jb_attempt_count := jb_attempt_count row + 1; jb_fence_token := jb_fence_token row + 1;
     jb_lease := Some (lease_owner, expires_at); jb_result := jb_result row;
     jb_completion := jb_completion row; jb_failure := jb_failure row;
     jb_created_at := jb_created_at row |}.

Definition claimed_job_from_row (id : Uuid) (row : JobRow) (lease_owner : string)
    (expires_at : DateTime) : ClaimedWorkflowJob :=
  {| cj_id := id; cj_tenant_id := jb_tenant_id row;
     cj_workflow_instance_id := jb_workflow_instance_id row;
     cj_work_item_id := jb_work_item_id row; cj_attempt_id := jb_attempt_id row;
     cj_job_type := jb_job_type row; cj_activity_contract_id := jb_activity_contract_id row;
     cj_payload := stored_value (jb_payload row); cj_idempotency_key := jb_idempotency_key row;
     cj_priority := jb_priority row; cj_attempt_count := jb_attempt_count row;
     cj_max_attempts := jb_max_attempts row; cj_fence_token := jb_fence_token row;
     cj_lease_owner := lease_owner; cj_lease_expires_at := expires_at;
     cj_created_at := jb_created_at row |}.

(** An effect refers to the claim of the job, so that the claim cannot change
    ([effect_intents_exact_workflow_job_claim_fk]). *)
Definition claim_referenced (id : Uuid) (effects : gmap Uuid EffectRow) : bool :=
  existsb (λ p, bool_decide (ef_owning_workflow_job_id p.2 = Some id)) (map_to_list effects).

(** [CLAIM_JOBS_SQL]. *)
Definition claim_statement (tenant_id : Uuid) (lease_owner : string) (limit lease : Z)
    (now : DateTime) (locked : Uuid → bool) (q : Queue) : res (Queue * list ClaimedWorkflowJob) :=
  let chosen := candidates tenant_id limit now locked (q_jobs q) in
  let ids := chosen.*1 in
  let expires_at := now + milliseconds lease in
  let effects := release_effects tenant_id ids (q_effects q) in
  bail_if (existsb (λ id, claim_referenced id effects) ids)
    (Persistence [Lit "claim workflow jobs"]) ;;
  Ok (mkQueue (map_imap (λ id row, Some (if mem id ids then claimed_row lease_owner expires_at row
                                         else row)) (q_jobs q)) effects,
      (λ p, claimed_job_from_row p.1 (claimed_row lease_owner expires_at p.2) lease_owner expires_at)
        <$> chosen).

Definition claim_jobs (tenant_id : Uuid) (lease_owner : string) (limit : Z)
    (lease_duration : Duration) (now : DateTime) (locked : Uuid → bool) (q : Queue)
  : res (Queue * list ClaimedWorkflowJob) :=
  validate_claim_request lease_owner limit lease_duration ;;
  lease ← lease_milliseconds lease_duration;
  claim_statement tenant_id lease_owner limit lease now locked q.

(** ** Mutations under a claim *)

(** The claim named by an owner and a fence token, while its lease runs. *)
Definition live_claim (tenant_id : Uuid) (lease_owner : string) (fence_token : Z)
    (now : DateTime) (row : JobRow) : bool :=
  bool_decide (jb_tenant_id row = tenant_id)
  && bool_decide (jb_status row = "RUNNING")
  && match jb_lease row with
     | Some (owner, expires_at) => bool_decide (owner = lease_owner) && (now <? expires_at)
     | None => false
     end
  && (jb_fence_token row =? fence_token).

(** [UPDATE workflow_jobs … WHERE id = $1 AND …]. *)
Definition update_job (id : Uuid) (guard : JobRow → bool) (assign : JobRow → JobRow) (q : Queue)
  : option (Queue * JobRow) :=
  row ← q_jobs q !! id;
  if guard row then Some (mkQueue (<[id := assign row]> (q_jobs q)) (q_effects q), assign row)
  else None.

(** The same when the claim changes, which no effect may refer to. *)
Definition update_claim (context : string) (id : Uuid) (guard : JobRow → bool)
    (assign : JobRow → JobRow) (q : Queue) : res (option Queue) :=
  match update_job id guard assign q with
  | None => Ok None
  | Some (q', _) =>
      bail_if (claim_referenced id (q_effects q)) (Persistence [Lit context]) ;; Ok (Some q')
  end.

Definition renewed_row (expires_at : DateTime) (row : JobRow) : JobRow :=
  {| jb_tenant_id := jb_tenant_id row; jb_workflow_instance_id := jb_workflow_instance_id row;
     jb_work_item_id := jb_work_item_id row; jb_attempt_id := jb_attempt_id row;
     jb_job_type := jb_job_type row; jb_activity_contract_id := jb_activity_contract_id row;
     jb_payload := jb_payload row; jb_idempotency_key := jb_idempotency_key row;
     jb_priority := jb_priority row; jb_available_at := jb_available_at row;
     jb_max_attempts := jb_max_attempts row; jb_status := jb_status row;
     jb_attempt_count := jb_attempt_count row; jb_fence_token := jb_fence_token row;
     jb_lease := (λ l, (l.1, expires_at)) <$> jb_lease row; jb_result := jb_result row;
     jb_completion := jb_completion row; jb_failure := jb_failure row;
     jb_created_at := jb_created_at row |}.

Definition renew_job_lease (tenant_id job_id : Uuid) (lease_owner : string) (fence_token : Z)
    (lease_duration : Duration) (now : DateTime) (q : Queue) : res (Queue * DateTime) :=
  validate_claim_request lease_owner 1 lease_duration ;;
  bail_if (fence_token <=? 0) (Validation [Lit "job fence token must be positive"]) ;;
  lease ← lease_milliseconds lease_duration;
  let expires_at := now + milliseconds lease in
  '(q', _) ← ok_or (update_job job_id (live_claim tenant_id lease_owner fence_token now)
                      (renewed_row expires_at) q)
    (fenced_claim_error job_id);
  Ok (q', expires_at).

Definition completed_row (lease_owner : string) (fence_token : Z) (result : option Value)
    (now : DateTime) (row : JobRow) : JobRow :=
  {| jb_tenant_id := jb_tenant_id row; jb_workflow_instance_id := jb_workflow_instance_id row;
     jb_work_item_id := jb_work_item_id row; jb_attempt_id := jb_attempt_id row;
     jb_job_type := jb_job_type row; jb_activity_contract_id := jb_activity_contract_id row;
     jb_payload := jb_payload row; jb_idempotency_key := jb_idempotency_key row;
     jb_priority := jb_priority row; jb_available_at := jb_available_at row;
     jb_max_attempts := jb_max_attempts row; jb_status := "COMPLETED";
     jb_attempt_count := jb_attempt_count row; jb_fence_token := jb_fence_token row;
     jb_lease := None; jb_result := result;
     jb_completion := Some (lease_owner, fence_token, now); jb_failure := jb_failure row;
     jb_created_at := jb_created_at row |}.

Definition complete_statement (tenant_id job_id : Uuid) (lease_owner : string) (fence_token : Z)
    (result : option Value) (now : DateTime) (q : Queue) : res (option Queue) :=
  update_claim "complete workflow job" job_id (live_claim tenant_id lease_owner fence_token now)
    (completed_row lease_owner fence_token result now) q.

(** [result IS NOT DISTINCT FROM $3::jsonb]. *)
Definition result_matches (stored requested : option Value) : bool :=
  match stored, requested with
  | Some v, Some w => jsonb_eqb v w
  | None, None => true
  | _, _ => false
  end.

(** A row of the tenant. *)
Definition load_job (tenant_id job_id : Uuid) (q : Queue) : res JobRow :=
  ok_or (row ← q_jobs q !! job_id;
         if bool_decide (jb_tenant_id row = tenant_id) then Some row else None)
    (NotFound [Lit "workflow job "; FmtUuid job_id]).

(** The part of [complete_job] after an update of no row. *)
Definition completion_state (tenant_id job_id : Uuid) (lease_owner : string) (fence_token : Z)
    (result : option Value) (found : Queue) : res CompleteJobOutcome :=
  row ← load_job tenant_id job_id found;
  if bool_decide (jb_status row = "COMPLETED")
     && bool_decide (((λ c, c.1.1) <$> jb_completion row) = Some lease_owner)
     && bool_decide (((λ c, c.1.2) <$> jb_completion row) = Some fence_token)
  then
    bail_if (negb (result_matches (jb_result row) result))
      (Conflict [Lit "workflow job "; FmtUuid job_id;
                 Lit " completion was retried with a different result"]) ;;
    Ok AlreadyCompleted
  else Err (fenced_claim_error job_id).

(** [found] are the tables that the second statement finds. *)
Definition complete_job (tenant_id job_id : Uuid) (lease_owner : string) (fence_token : Z)
    (result : option Value) (now : DateTime) (q found : Queue) : res (Queue * CompleteJobOutcome) :=
  validate_job_mutation lease_owner fence_token ;;
  updated ← complete_statement tenant_id job_id lease_owner fence_token result now q;
  match updated with
  | Some q' => Ok (q', Completed)
  | None =>
      outcome ← completion_state tenant_id job_id lease_owner fence_token result found;
      Ok (found, outcome)
  end.

Definition failed_row (lease_owner : string) (fence_token : Z) (error_summary : string)
    (retry_at now : DateTime) (row : JobRow) : JobRow :=
  {| jb_tenant_id := jb_tenant_id row; jb_workflow_instance_id := jb_workflow_instance_id row;
     jb_work_item_id := jb_work_item_id row; jb_attempt_id := jb_attempt_id row;
     jb_job_type := jb_job_type row; jb_activity_contract_id := jb_activity_contract_id row;
     jb_payload := jb_payload row; jb_idempotency_key := jb_idempotency_key row;
     jb_priority := jb_priority row; jb_available_at := Z.max (stored_at retry_at) now;
     jb_max_attempts := jb_max_attempts row; jb_status := "RETRY";
     jb_attempt_count := jb_attempt_count row; jb_fence_token := jb_fence_token row;
     jb_lease := None; jb_result := jb_result row; jb_completion := jb_completion row;
     jb_failure := Some (lease_owner, fence_token, stored_at retry_at, error_summary);
     jb_created_at := jb_created_at row |}.

Definition fail_statement (tenant_id job_id : Uuid) (lease_owner : string) (fence_token : Z)
    (error_summary : string) (retry_at now : DateTime) (q : Queue) : res (option Queue) :=
  update_claim "fail workflow job" job_id
    (λ row, live_claim tenant_id lease_owner fence_token now row
            && (jb_attempt_count row <? jb_max_attempts row))
    (failed_row lease_owner fence_token error_summary retry_at now) q.

Definition failure_disposition (status : string) : res FailureDisposition :=
  if bool_decide (status = "RETRY") then Ok RetryScheduled
  else if bool_decide (status = "DEAD") then Ok Dead
  else Err (Persistence [Lit "unexpected workflow job failure status "; Disp status]).

(** The part of [fail_job] after an update of no row. *)
Definition failure_state (tenant_id job_id : Uuid) (lease_owner : string) (fence_token : Z)
    (error_summary : string) (retry_at now : DateTime) (found : Queue) : res FailJobOutcome :=
  row ← load_job tenant_id job_id found;
  bail_if (live_claim tenant_id lease_owner fence_token now row
           && (jb_max_attempts row <=? jb_attempt_count row))
    (Conflict [Lit "workflow job "; FmtUuid job_id;
               Lit " exhausted its attempts; use fail_workflow_step with an owned escalation"]) ;;
  match jb_failure row with
  | Some (failed_by, failure_fence, failed_retry_at, stored_error) =>
      if bool_decide (failed_by = lease_owner) && (failure_fence =? fence_token) then
        bail_if (negb (bool_decide (stored_error = error_summary))
                 || negb (failed_retry_at =? stored_at retry_at))
          (Conflict [Lit "workflow job "; FmtUuid job_id;
                     Lit " failure was retried with different details"]) ;;
        Ok (mkFailJobOutcome
              (if bool_decide (jb_status row = "DEAD") then Dead else RetryScheduled) false)
      else Err (fenced_claim_error job_id)
  | None => Err (fenced_claim_error job_id)
  end.

(** [found] and [later] are the tables and the clock of the second statement. *)
Definition fail_job (tenant_id job_id : Uuid) (lease_owner : string) (fence_token : Z)
    (error_summary : string) (retry_at now later : DateTime) (q found : Queue)
  : res (Queue * FailJobOutcome) :=
  validate_job_mutation lease_owner fence_token ;;
  let error_summary := summarize_error error_summary in
  updated ← fail_statement tenant_id job_id lease_owner fence_token error_summary retry_at now q;
  match updated with
  | Some q' =>
      disposition ← failure_disposition "RETRY";
      Ok (q', mkFailJobOutcome disposition true)
  | None =>
      outcome ← failure_state tenant_id job_id lease_owner fence_token error_summary retry_at later found;
      Ok (found, outcome)
  end.
End queue.
