(* ===== verification/JobQueueFacts.v ===== *)
(** What the job queue guarantees ([JobQueue]): every job follows the protocol of
    fenced leases, claims take the best due jobs, a completion is final and can
    be asked for again, and no external effect outlives the claim it was sent
    under. *)

From Stdlib Require Import ZArith Lia Ascii Sorting.
From stdpp Require Import base tactics option list strings gmap.
From S2P Require Import Prelude RustStr RustOrd Ids Security RunEvents JobQueue.

(** ** Identifiers of activity contracts *)

Section contract_ids.

Definition segment_byte (b : Z) : Prop := is_ascii_lowercase b || is_ascii_digit b = true.
Definition separator (b : Z) : Prop := b = 46 ∨ b = 47 ∨ b = 45.

(** [segment([./-]segment)*] over non-empty segments. *)
Inductive contract_id : list Z → Prop :=
| one_segment s : s ≠ [] → Forall segment_byte s → contract_id s
| more_segments s b rest : s ≠ [] → Forall segment_byte s → separator b → contract_id rest →
    contract_id (s ++ b :: rest).

Lemma segment_not_separator b : segment_byte b → (b =? 46) || (b =? 47) || (b =? 45) = false.
Proof.
  unfold segment_byte, is_ascii_lowercase, is_ascii_digit.
  rewrite !orb_true_iff, !andb_true_iff, !orb_false_iff. lia.
Qed.

Lemma contract_id_bytes_segment s flag rest :
  s ≠ [] → Forall segment_byte s →
  contract_id_bytes flag (s ++ rest) = contract_id_bytes false rest.
Proof.
  intros Hne Hs. revert flag Hne. induction Hs as [|b s Hb Hs IH]; intros flag Hne; [done|]. simpl.
  rewrite Hb. destruct s as [|c s]; [done|]. by apply IH.
Qed.

(** After a segment: the end, or a separator and a whole identifier. *)
Lemma contract_id_bytes_spec flag bs :
  contract_id_bytes flag bs = true ↔
  contract_id bs ∨
  flag = false ∧ (bs = [] ∨ ∃ b rest, bs = b :: rest ∧ separator b ∧ contract_id rest).
Proof.
  revert flag. induction bs as [|b bs IH]; intros flag; simpl.
  { rewrite negb_true_iff. split; [intros ->; by right; split; [|left]|].
    intros [H|[-> _]]; [|done]. inversion H as [|[|] ? ? Hne]; simplify_eq. }
  destruct (is_ascii_lowercase b || is_ascii_digit b) eqn:Eb.
  - rewrite IH. split.
    + intros [H|[_ [->|(c & rest & -> & Hc & H)]]]; left.
      * inversion H as [s Hne Hs|s c rest Hne Hs Hc Hr]; subst.
        -- apply one_segment; [done|by constructor].
        -- apply (more_segments (b :: s)); [done|by constructor|done|done].
      * apply one_segment; [done|by repeat constructor].
      * apply (more_segments [b]); [done|by repeat constructor|done|done].
    + intros [H|[_ [[=]|(c & rest & [= <- <-] & Hc & H)]]].
      * inversion H as [s Hne Hs|s c rest Hne Hs Hc Hr E]; subst.
        -- inversion Hs; subst. destruct bs as [|c bs]; [by right; split; [|left]|].
           left. by apply one_segment.
        -- destruct s as [|c' s]; [done|]. injection E as -> <-. inversion Hs; subst.
           destruct s as [|d s]; simpl; [right; split; [done|right; by exists c, rest]|].
           left. by apply (more_segments (d :: s)).
      * exfalso. pose proof (segment_not_separator b Eb). unfold separator in Hc.
        rewrite !orb_false_iff in *. lia.
  - assert (¬ contract_id (b :: bs)) as Hno.
    { intros H. inversion H as [s Hne Hs|s c rest Hne Hs Hc Hr E]; subst.
      - inversion Hs; subst. unfold segment_byte in *. congruence.
      - destruct s as [|c' s]; [done|]. injection E as -> <-. inversion Hs; subst.
        unfold segment_byte in *. congruence. }
    destruct ((b =? 46) || (b =? 47) || (b =? 45)) eqn:Es.
    + assert (separator b) as Hsep by (unfold separator; rewrite !orb_true_iff in Es; lia).
      destruct flag.
      * split; [done|]. intros [?|[[=] _]]. done.
      * rewrite IH. split.
        -- intros [H|[[=] _]]. right. split; [done|]. right. by exists b, bs.
        -- intros [?|[_ [[=]|(c & rest & [= <- <-] & _ & H)]]]; [done|by left].
    + split; [done|]. intros [?|[_ [[=]|(c & rest & [= <- <-] & Hc & _)]]]; [done|].
      unfold separator in Hc. rewrite !orb_false_iff in Es. lia.
Qed.

(** The scan accepts exactly the identifiers of the pattern in the migration. *)
Lemma is_valid_activity_contract_id_exact s :
  is_valid_activity_contract_id s = true ↔ len s ≤ 128 ∧ contract_id (bytes s).
Proof.
  unfold is_valid_activity_contract_id. destruct s as [|c s].
  { simpl. split; [done|]. intros [_ H]. inversion H as [|[|] ? ? Hne]; simplify_eq. }
  simpl str_is_empty. simpl orb. destruct (128 <? len (String c s)) eqn:E.
  - split; [done|]. lia.
  - rewrite contract_id_bytes_spec. split; [intros [?|[[=] _]]; split; [lia|done]|].
    intros [_ ?]. by left.
Qed.
End contract_ids.

(** ** The protocol of one job *)

(** What happens to a job, with the clock and the new end of the lease. *)
Inductive label :=
| Enqueued
| Claim (owner : string) (fence : Z) (now expires_at : DateTime)
| Renewal (owner : string) (fence : Z) (now expires_at : DateTime)
| Completion (owner : string) (fence : Z) (now : DateTime)
| Failed (owner : string) (fence : Z) (now : DateTime).

(** A job waits after so many claims, is held under the last one until its lease
    ends, or is finished. *)
Inductive phase :=
| Absent
| Waiting (claims : Z)
| Held (owner : string) (fence : Z) (expires_at : DateTime)
| Finished (owner : string) (fence : Z).

(** The events a job with [limit] attempts allows in each phase. *)
Definition protocol (limit : Z) (p : phase) (e : label) : option phase :=
  match p, e with
  | Absent, Enqueued => Some (Waiting 0)
  | Waiting n, Claim owner fence now expires_at =>
      if (fence =? n + 1) && (fence <=? limit) then Some (Held owner fence expires_at) else None
  | Held _ n ends, Claim owner fence now expires_at =>
      if (ends <=? now) && (fence =? n + 1) && (fence <=? limit)
      then Some (Held owner fence expires_at) else None
  | Held holder n ends, Renewal owner fence now expires_at =>
      if bool_decide (owner = holder) && (fence =? n) && (now <? ends)
      then Some (Held owner fence expires_at) else None
  | Held holder n ends, Completion owner fence now =>
      if bool_decide (owner = holder) && (fence =? n) && (now <? ends)
      then Some (Finished owner fence) else None
  | Held holder n ends, Failed owner fence now =>
      if bool_decide (owner = holder) && (fence =? n) && (now <? ends) && (n <? limit)
      then Some (Waiting n) else None
  | _, _ => None
  end.

Fixpoint follow (limit : Z) (p : phase) (events : list label) : option phase :=
  match events with
  | [] => Some p
  | e :: events => p ← protocol limit p e; follow limit p events
  end.

Lemma follow_app limit p es es' :
  follow limit p (es ++ es') = (p ← follow limit p es; follow limit p es').
Proof. revert p. induction es as [|e es IH]; intros p; simpl; [done|].
  destruct (protocol _ _ _); simpl; [apply IH|done].
Qed.

Definition is_claim (e : label) : bool := match e with Claim _ _ _ _ => true | _ => false end.
Definition is_completion (e : label) : bool :=
  match e with Completion _ _ _ => true | _ => false end.
Definition count (p : label → bool) (es : list label) : Z := Z.of_nat (length (List.filter p es)).

(** The claims made so far. *)
Definition phase_claims (p : phase) : Z :=
  match p with Absent => 0 | Waiting n | Held _ n _ | Finished _ n => n end.
Definition phase_done (p : phase) : Z := match p with Finished _ _ => 1 | _ => 0 end.

Lemma protocol_counts limit p e p' :
  protocol limit p e = Some p' → phase_claims p ≤ Z.max 0 limit →
  phase_claims p' = phase_claims p + count is_claim [e] ∧
  phase_done p' = phase_done p + count is_completion [e] ∧ phase_claims p' ≤ Z.max 0 limit.
Proof.
  unfold count. destruct p, e; simpl; intros H Hle; repeat case_match; simplify_eq/=;
    rewrite ?andb_true_iff, ?bool_decide_eq_true in *; lia.
Qed.

Lemma follow_counts limit p es p' :
  follow limit p es = Some p' → phase_claims p ≤ Z.max 0 limit →
  phase_claims p' = phase_claims p + count is_claim es ∧
  phase_done p' = phase_done p + count is_completion es ∧ phase_claims p' ≤ Z.max 0 limit.
Proof.
  revert p. induction es as [|e es IH]; intros p H Hle; simpl in H.
  { injection H as ->. unfold count. simpl. lia. }
  apply bind_Some in H as (p1 & H1 & H). destruct (protocol_counts _ _ _ _ H1 Hle) as (E1 & E2 & Hle1).
  destruct (IH p1 H Hle1) as (E3 & E4 & Hle2). unfold count in *. simpl in *.
  destruct (is_claim e), (is_completion e); simpl in *; lia.
Qed.

(** ** One job under the statements *)

Section facts.
  Context {pg : PgColumns} {jsonb : Jsonb}.

Record job_ok (row : JobRow) : Prop := {
  jo_status : jb_status row ∈ ["PENDING"; "RUNNING"; "RETRY"; "COMPLETED"];
  jo_lease : is_Some (jb_lease row) ↔ jb_status row = "RUNNING";
  jo_attempts : jb_attempt_count row = jb_fence_token row;
  jo_fence : 0 ≤ jb_fence_token row ≤ jb_max_attempts row;
  jo_pending : jb_status row = "PENDING" → jb_fence_token row = 0;
  jo_running : jb_status row = "RUNNING" → 0 < jb_fence_token row;
  jo_completed : jb_status row = "COMPLETED" → ∃ owner at_,
    jb_completion row = Some (owner, jb_fence_token row, at_);
  jo_retry : jb_status row = "RETRY" → ∃ owner at_ error,
    jb_failure row = Some (owner, jb_fence_token row, at_, error) ∧
    jb_fence_token row < jb_max_attempts row;
  jo_valid : 0 < jb_max_attempts row ∧ is_valid_activity_contract_id (jb_activity_contract_id row) = true
    ∧ is_object (jb_payload row) = true
}.

(** The phase a row stands for. *)
Definition phase_of (row : JobRow) : phase :=
  match jb_lease row with
  | Some (owner, expires_at) => Held owner (jb_fence_token row) expires_at
  | None =>
      match jb_completion row with
      | Some (owner, fence, _) =>
          if bool_decide (jb_status row = "COMPLETED") then Finished owner fence
          else Waiting (jb_fence_token row)
      | None => Waiting (jb_fence_token row)
      end
  end.

(** What one statement does to one job. *)
Inductive job_step (id : Uuid) : option JobRow → list label → option JobRow → Prop :=
| JS_none o : job_step id o [] o
| JS_enqueue now j : NewWorkflowJob_validate j = Ok () →
    job_step id None [Enqueued] (Some (new_row now j))
| JS_claim tenant_id owner now expires_at row : claimable tenant_id now row = true →
    job_step id (Some row) [Claim owner (jb_fence_token row + 1) now expires_at]
      (Some (claimed_row owner expires_at row))
| JS_renew tenant_id owner fence now expires_at row :
    live_claim tenant_id owner fence now row = true →
    job_step id (Some row) [Renewal owner fence now expires_at] (Some (renewed_row expires_at row))
| JS_complete tenant_id owner fence result now row :
    live_claim tenant_id owner fence now row = true →
    job_step id (Some row) [Completion owner fence now]
      (Some (completed_row owner fence result now row))
| JS_fail tenant_id owner fence error retry_at now row :
    live_claim tenant_id owner fence now row = true →
    jb_attempt_count row < jb_max_attempts row →
    job_step id (Some row) [Failed owner fence now]
      (Some (failed_row owner fence error retry_at now row)).

Lemma claimable_spec tenant_id now row :
  claimable tenant_id now row = true ↔
  jb_tenant_id row = tenant_id ∧ jb_attempt_count row < jb_max_attempts row ∧
  (jb_status row ∈ ["PENDING"; "RETRY"] ∧ jb_available_at row ≤ now ∨
   jb_status row = "RUNNING" ∧ ∃ owner expires_at, jb_lease row = Some (owner, expires_at) ∧
     expires_at ≤ now).
Proof.
  unfold claimable, lease_expired.
  rewrite !andb_true_iff, orb_true_iff, !andb_true_iff, !bool_decide_eq_true, mem_true, Z.ltb_lt, Z.leb_le.
  destruct (jb_lease row) as [[owner ends]|]; [rewrite Z.leb_le|]; naive_solver.
Qed.

Lemma live_claim_spec tenant_id owner fence now row :
  live_claim tenant_id owner fence now row = true ↔
  jb_tenant_id row = tenant_id ∧ jb_status row = "RUNNING" ∧ jb_fence_token row = fence ∧
  ∃ expires_at, jb_lease row = Some (owner, expires_at) ∧ now < expires_at.
Proof.
  unfold live_claim. rewrite !andb_true_iff, !bool_decide_eq_true, Z.eqb_eq.
  destruct (jb_lease row) as [[holder ends]|].
  - rewrite andb_true_iff, bool_decide_eq_true, Z.ltb_lt. naive_solver.
  - naive_solver.
Qed.

Lemma job_step_ok id o es o' :
  job_step id o es o' → (∀ row, o = Some row → job_ok row) → ∀ row', o' = Some row' → job_ok row'.
Proof.
  destruct 1 as [o|now j Hv|t owner now ends row Hc|t owner fence now ends row Hl
    |t owner fence result now row Hl|t owner fence error retry_at now row Hl Ha];
    intros Hok row' E; [by apply Hok| |injection E as <-..].
  - injection E as <-. unfold NewWorkflowJob_validate in Hv. rewrite !bind_unit_ok in Hv. reflect.
    destruct_and!. constructor; simpl; try done; try lia. set_solver.
  - destruct (Hok row eq_refl) as [J1 J2 J3 J4 J5 J6 J7 J8 J9].
    apply claimable_spec in Hc as (_ & Hlt & _).
    constructor; simpl; try done; try lia. set_solver.
  - destruct (Hok row eq_refl) as [J1 J2 J3 J4 J5 J6 J7 J8 J9]. constructor; simpl; try done.
    rewrite fmap_is_Some. done.
  - destruct (Hok row eq_refl) as [J1 J2 J3 J4 J5 J6 J7 J8 J9].
    apply live_claim_spec in Hl as (_ & Hs & Hf & _).
    constructor; simpl; try done; try lia; [set_solver|rewrite Hf; eauto].
  - destruct (Hok row eq_refl) as [J1 J2 J3 J4 J5 J6 J7 J8 J9].
    apply live_claim_spec in Hl as (_ & Hs & Hf & _).
    constructor; simpl; try done; try lia; [set_solver|].
    intros _. rewrite Hf. eexists _, _, _. split; [done|]. lia.
Qed.

(** A statement moves a job along the protocol. *)
Lemma job_step_protocol id o es row' :
  job_step id o es (Some row') → (∀ row, o = Some row → job_ok row) →
  follow (jb_max_attempts row') (from_option phase_of Absent o) es = Some (phase_of row') ∧
  ∀ row, o = Some row → jb_max_attempts row' = jb_max_attempts row.
Proof.
  intros H Hok. inversion H as [o1|now j Hv|t owner now ends row Hc|t owner fence now ends row Hl
    |t owner fence result now row Hl|t owner fence error retry_at now row Hl Ha]; subst; simpl.
  - split; [done|]. by intros row [= <-].
  - done.
  - split; [|by intros ? [= <-]]. destruct (Hok row eq_refl) as [J1 J2 J3 J4 J5 J6 J7 J8 J9].
    apply claimable_spec in Hc as (_ & Hlt & Hc). unfold phase_of at 1.
    rewrite J3 in Hlt. destruct Hc as [[Hs _]|(Hs & holder & e & -> & He)].
    + assert (jb_lease row = None) as ->.
      { destruct (jb_lease row) eqn:E; [|done]. assert (jb_status row = "RUNNING") as Hr by (apply J2; eauto).
        rewrite Hr, <- mem_true in Hs. discriminate Hs. }
      assert (bool_decide (jb_status row = "COMPLETED") = false) as ->.
      { apply bool_decide_eq_false. intros E. rewrite E, <- mem_true in Hs. discriminate Hs. }
      assert (∀ p : option (string * Z * DateTime), match p with
        | Some (o, f, _) => Waiting (jb_fence_token row) | None => Waiting (jb_fence_token row) end
        = Waiting (jb_fence_token row)) as -> by by intros [[[? ?] ?]|].
      simpl. rewrite Z.eqb_refl, (proj2 (Z.leb_le _ _)) by lia. done.
    + simpl. rewrite Z.eqb_refl, !(proj2 (Z.leb_le _ _)) by lia. done.
  - split; [|by intros ? [= <-]]. apply live_claim_spec in Hl as (_ & Hs & Hf & e & Hl & He).
    unfold phase_of. simpl. rewrite Hl. simpl. rewrite bool_decide_true, Hf, Z.eqb_refl by done.
    simpl. rewrite (proj2 (Z.ltb_lt _ _)) by lia. done.
  - split; [|by intros ? [= <-]]. apply live_claim_spec in Hl as (_ & Hs & Hf & e & Hl & He).
    unfold phase_of. simpl. rewrite Hl. simpl. rewrite bool_decide_true, Hf, Z.eqb_refl by done.
    simpl. rewrite (proj2 (Z.ltb_lt _ _)) by lia. done.
  - split; [|by intros ? [= <-]]. destruct (Hok row eq_refl) as [J1 J2 J3 J4 J5 J6 J7 J8 J9].
    apply live_claim_spec in Hl as (_ & Hs & Hf & e & Hl & He).
    unfold phase_of. simpl. rewrite Hl. simpl. rewrite bool_decide_true, Hf, Z.eqb_refl by done.
    simpl. rewrite !(proj2 (Z.ltb_lt _ _)) by lia. simpl.
    by destruct (jb_completion row) as [[[? ?] ?]|].
Qed.
(** ** The queue under any statements *)

(** An effect is sent under a live claim; the triggers on [effect_intents] refuse
    anything else. *)
Definition begin_effect (now : DateTime) (effect_id : Uuid) (e : EffectRow) (q : Queue) : Queue :=
  match id ← ef_owning_workflow_job_id e; row ← q_jobs q !! id; lease ← ef_lease e;
        Some (row, lease.1) with
  | Some (row, owner) =>
      if live_claim (ef_tenant_id e) owner (ef_fence_token e) now row
         && bool_decide (ef_status e = "IN_FLIGHT") && external_mutation e
      then mkQueue (q_jobs q) (<[effect_id := e]> (q_effects q)) else q
  | None => q
  end.

(** An effect that is no longer in flight belongs to no job. *)
Definition settle_effect (effect_id : Uuid) (status : string) (q : Queue) : Queue :=
  mkQueue (q_jobs q) (alter (λ e,
    {| ef_tenant_id := ef_tenant_id e; ef_provider := ef_provider e;
       ef_effect_type := ef_effect_type e; ef_status := status;
       ef_owning_workflow_job_id := None; ef_fence_token := ef_fence_token e; ef_lease := None;
       ef_last_error := ef_last_error e |}) effect_id (q_effects q)).

Inductive statement :=
| DoEnqueue (now : DateTime) (j : NewWorkflowJob)
| DoClaim (tenant_id : Uuid) (owner : string) (limit : Z) (lease : Duration) (now : DateTime)
    (locked : Uuid → bool)
| DoRenew (tenant_id id : Uuid) (owner : string) (fence : Z) (lease : Duration) (now : DateTime)
| DoComplete (tenant_id id : Uuid) (owner : string) (fence : Z) (result : option Value)
    (now : DateTime)
| DoFail (tenant_id id : Uuid) (owner : string) (fence : Z) (error : string)
    (retry_at now : DateTime)
| DoBegin (now : DateTime) (effect_id : Uuid) (e : EffectRow)
| DoSettle (effect_id : Uuid) (status : string).

(** The tables afterwards and what happened to which job; a failed call and the
    second statement of a call change nothing. *)
Definition run_statement (st : statement) (q : Queue) : Queue * list (Uuid * label) :=
  match st with
  | DoEnqueue now j =>
      match enqueue_job now j q q with
      | Ok (q', o) => (q', if eo_inserted o then [(eo_job_id o, Enqueued)] else [])
      | _ => (q, [])
      end
  | DoClaim tenant_id owner limit lease now locked =>
      match claim_jobs tenant_id owner limit lease now locked q with
      | Ok (q', claimed) =>
          (q', (λ c, (cj_id c, Claim (cj_lease_owner c) (cj_fence_token c) now
                                 (cj_lease_expires_at c))) <$> claimed)
      | _ => (q, [])
      end
  | DoRenew tenant_id id owner fence lease now =>
      match renew_job_lease tenant_id id owner fence lease now q with
      | Ok (q', expires_at) => (q', [(id, Renewal owner fence now expires_at)])
      | _ => (q, [])
      end
  | DoComplete tenant_id id owner fence result now =>
      match complete_job tenant_id id owner fence result now q q with
      | Ok (q', Completed) => (q', [(id, Completion owner fence now)])
      | _ => (q, [])
      end
  | DoFail tenant_id id owner fence error retry_at now =>
      match fail_job tenant_id id owner fence error retry_at now now q q with
      | Ok (q', o) => if fo_newly_recorded o then (q', [(id, Failed owner fence now)]) else (q, [])
      | _ => (q, [])
      end
  | DoBegin now effect_id e => (begin_effect now effect_id e q, [])
  | DoSettle effect_id status => (settle_effect effect_id status q, [])
  end.

(** A run with its history. *)
Definition run_all (sts : list statement) (s : Queue * list (Uuid * label))
  : Queue * list (Uuid * label) :=
  foldl (λ s st, let '(q', es) := run_statement st s.1 in (q', s.2 ++ es)) s sts.

Definition history (id : Uuid) (es : list (Uuid * label)) : list label :=
  snd <$> List.filter (λ p, bool_decide (p.1 = id)) es.

Lemma history_app id es es' : history id (es ++ es') = history id es ++ history id es'.
Proof. unfold history. by rewrite List.filter_app, fmap_app. Qed.

(** The claim an effect was sent under is the current claim of its job. *)
Definition effects_fenced (q : Queue) : Prop :=
  ∀ effect_id e id, q_effects q !! effect_id = Some e → ef_owning_workflow_job_id e = Some id →
    ef_status e = "IN_FLIGHT" ∧ external_mutation e = true ∧
    ∃ row owner ends, q_jobs q !! id = Some row ∧ jb_tenant_id row = ef_tenant_id e ∧
      jb_lease row = Some (owner, ends) ∧ fst <$> ef_lease e = Some owner ∧
      jb_fence_token row = ef_fence_token e.

Record queue_ok (q : Queue) : Prop := {
  qo_jobs id row : q_jobs q !! id = Some row → job_ok row;
  qo_keys id id' row row' : q_jobs q !! id = Some row → q_jobs q !! id' = Some row' →
    jb_tenant_id row = jb_tenant_id row' → jb_idempotency_key row = jb_idempotency_key row' → id = id';
  qo_effects : effects_fenced q
}.

(** *** Claims *)

Lemma elem_of_candidates tenant_id limit now locked jobs id row :
  (id, row) ∈ candidates tenant_id limit now locked jobs →
  jobs !! id = Some row ∧ claimable tenant_id now row = true ∧ locked id = false.
Proof.
  unfold candidates. intros H. apply elem_of_take in H as (i & H & _).
  apply list_elem_of_lookup_2 in H. rewrite elem_of_sort_by_key, elem_of_filter_bool in H.
  destruct H as [H Hp]. apply elem_of_map_to_list in H. simpl in Hp. reflect. tauto.
Qed.

(** A selection names each row once. *)
Lemma selection_nodup {B K} `{Ord K} (key : Uuid * B → K) (p : Uuid * B → bool) n
    (rows : gmap Uuid B) :
  NoDup (take n (sort_by_key key (List.filter p (map_to_list rows)))).*1.
Proof.
  rewrite fmap_take. eapply sublist_NoDup; [|apply sublist_take].
  rewrite (fmap_Permutation fst _ _ (sort_by_key_perm key _)).
  pose proof (NoDup_fst_map_to_list rows) as Hn.
  induction (map_to_list rows) as [|x l IH]; simpl in *; [done|].
  apply NoDup_cons in Hn as [Hx Hn]. destruct (p x); simpl; [|by apply IH].
  apply NoDup_cons. split; [|by apply IH]. intros Hin. apply Hx.
  apply list_elem_of_fmap in Hin as (y & -> & Hy). apply elem_of_filter_bool in Hy as [Hy _].
  by apply list_elem_of_fmap_2.
Qed.

Lemma candidates_nodup tenant_id limit now locked jobs :
  NoDup (candidates tenant_id limit now locked jobs).*1.
Proof. apply selection_nodup. Qed.

Lemma history_unique {X} (f : Uuid * X → label) (l : list (Uuid * X)) id :
  NoDup l.*1 →
  history id ((λ p, (p.1, f p)) <$> l) = match find (λ p, bool_decide (p.1 = id)) l with
                                         | Some p => [f p] | None => [] end.
Proof.
  unfold history. induction l as [|[i x] l IH]; simpl; intros Hn; [done|].
  apply NoDup_cons in Hn as [Hi Hn]. case_bool_decide as E; simpl; [|by apply IH].
  subst. f_equal. etrans; [by apply IH|]. destruct (find _ l) as [[i' x']|] eqn:Ef; [|done].
  exfalso. apply find_some in Ef as [Hin Hp]. apply list_elem_of_In in Hin. simpl in Hp. reflect. subst.
  apply Hi. apply list_elem_of_fmap. by exists (id, x').
Qed.

Lemma find_candidate tenant_id limit now locked jobs id :
  match find (λ p, bool_decide (p.1 = id)) (candidates tenant_id limit now locked jobs) with
  | Some p => p.1 = id ∧ mem id (candidates tenant_id limit now locked jobs).*1 = true ∧
      jobs !! id = Some p.2 ∧ claimable tenant_id now p.2 = true
  | None => mem id (candidates tenant_id limit now locked jobs).*1 = false
  end.
Proof.
  destruct (find _ _) as [[i row]|] eqn:E.
  - apply find_some in E as [Hin Hp]. apply list_elem_of_In in Hin. simpl in Hp. reflect. subst i.
    destruct (elem_of_candidates _ _ _ _ _ _ _ Hin) as (? & ? & _). split_and!; try done.
    apply mem_true. apply list_elem_of_fmap. by exists (id, row).
  - apply not_true_iff_false. rewrite mem_true. intros Hin.
    apply list_elem_of_fmap in Hin as ([i row] & -> & Hin). apply list_elem_of_In in Hin.
    pose proof (find_none _ _ E _ Hin) as Hp. simpl in Hp. by rewrite bool_decide_true in Hp.
Qed.

Lemma update_job_some id guard assign q q' row' :
  update_job id guard assign q = Some (q', row') →
  ∃ row, q_jobs q !! id = Some row ∧ guard row = true ∧ row' = assign row ∧
    q' = mkQueue (<[id := row']> (q_jobs q)) (q_effects q).
Proof.
  unfold update_job. intros H. apply bind_Some in H as (row & Hrow & H).
  destruct (guard row) eqn:E; [|done]. injection H as <- <-. eauto.
Qed.

Lemma update_claim_some context id guard assign q q' :
  update_claim context id guard assign q = Ok (Some q') →
  ∃ row, q_jobs q !! id = Some row ∧ guard row = true ∧ claim_referenced id (q_effects q) = false ∧
    q' = mkQueue (<[id := assign row]> (q_jobs q)) (q_effects q).
Proof.
  unfold update_claim. destruct (update_job _ _ _ _) as [[q1 row1]|] eqn:E; [|done].
  intros H. apply bind_unit_ok in H as [Hr [= <-]]. reflect.
  apply update_job_some in E as (row & ? & ? & -> & ->). eauto.
Qed.

Lemma row_by_key_none tenant_id key q :
  row_by_key tenant_id key q = None → ∀ id row, q_jobs q !! id = Some row →
  jb_tenant_id row = tenant_id → jb_idempotency_key row = key → False.
Proof.
  unfold row_by_key. intros E id row Hrow Ht Hk. apply elem_of_map_to_list, list_elem_of_In in Hrow.
  pose proof (find_none _ _ E _ Hrow) as Hf. unfold keyed in Hf. simpl in Hf.
  by rewrite !bool_decide_true in Hf by done.
Qed.

Lemma insert_job_ok now j q q' inserted :
  insert_job now j q = Ok (q', inserted) →
  (inserted = false ∧ q' = q) ∨
  (inserted = true ∧ row_by_key (nj_tenant_id j) (nj_idempotency_key j) q = None ∧
   q_jobs q !! nj_id j = None ∧
   q' = mkQueue (<[nj_id j := new_row now j]> (q_jobs q)) (q_effects q)).
Proof.
  unfold insert_job. destruct (row_by_key _ _ q) eqn:E1; [intros [= <- <-]; by left|].
  destruct (q_jobs q !! nj_id j) eqn:E2; [done|]. intros [= <- <-]. by right.
Qed.

(** What a call does to the tables. *)
Inductive queue_effect (q : Queue) : Queue → list (Uuid * label) → Prop :=
| QE_none : queue_effect q q []
| QE_insert now j : NewWorkflowJob_validate j = Ok () →
    row_by_key (nj_tenant_id j) (nj_idempotency_key j) q = None → q_jobs q !! nj_id j = None →
    queue_effect q (mkQueue (<[nj_id j := new_row now j]> (q_jobs q)) (q_effects q))
      [(nj_id j, Enqueued)]
| QE_claim tenant_id owner limit lease now locked q' claimed :
    claim_statement tenant_id owner limit lease now locked q = Ok (q', claimed) →
    queue_effect q q' ((λ c, (cj_id c, Claim (cj_lease_owner c) (cj_fence_token c) now
                                         (cj_lease_expires_at c))) <$> claimed)
| QE_update id row row' e : q_jobs q !! id = Some row → job_step id (Some row) [e] (Some row') →
    is_claim e = false → jb_tenant_id row' = jb_tenant_id row →
    jb_idempotency_key row' = jb_idempotency_key row →
    (fst <$> jb_lease row' = fst <$> jb_lease row ∧ jb_fence_token row' = jb_fence_token row ∨
     claim_referenced id (q_effects q) = false) →
    queue_effect q (mkQueue (<[id := row']> (q_jobs q)) (q_effects q)) [(id, e)]
| QE_begin now effect_id e : queue_effect q (begin_effect now effect_id e q) []
| QE_settle effect_id status : queue_effect q (settle_effect effect_id status q) [].

Lemma run_statement_effect st q :
  queue_effect q (run_statement st q).1 (run_statement st q).2.
Proof.
  destruct st as [now j|t o lim d now locked|t id o f d now|t id o f r now|t id o f er ra now
    |now eid e|eid st]; simpl; [| | | | |constructor|constructor].
  - destruct (enqueue_job now j q q) as [[q' out]| |] eqn:E; simpl; [|constructor..].
    unfold enqueue_job in E. apply bind_unit_ok in E as [Hv E].
    apply bind_ok in E as ([q1 ins] & Hi & E). apply insert_job_ok in Hi as [[-> ->]|(-> & Hk & Hn & ->)].
    + apply bind_ok in E as (x & _ & E). apply bind_ok in E as (y & _ & [= <- <-]). constructor.
    + injection E as <- <-. by constructor.
  - destruct (claim_jobs t o lim d now locked q) as [[q' cs]| |] eqn:E; simpl; [|constructor..].
    unfold claim_jobs in E. apply bind_unit_ok in E as [_ E]. apply bind_ok in E as (lease & _ & E).
    by econstructor.
  - destruct (renew_job_lease t id o f d now q) as [[q' ends]| |] eqn:E; simpl; [|constructor..].
    unfold renew_job_lease in E. rewrite !bind_unit_ok in E. destruct E as (_ & _ & E).
    apply bind_ok in E as (lease & _ & E). apply bind_ok in E as ([q1 row'] & Hu & [= <- <-]).
    apply ok_or_ok in Hu. apply update_job_some in Hu as (row & Hrow & Hg & -> & ->).
    eapply QE_update; try done; [by econstructor|]. left. simpl. by destruct (jb_lease row).
  - destruct (complete_job t id o f r now q q) as [[q' [|]]| |] eqn:E; simpl; [|constructor..].
    unfold complete_job in E. apply bind_unit_ok in E as [_ E]. apply bind_ok in E as (u & Hu & E).
    destruct u as [q1|]; [|by apply bind_ok in E as (x & Hx & [= _ ->]); exfalso; revert Hx;
      unfold completion_state; intros Hx; apply bind_ok in Hx as (row & _ & Hx);
      destruct (_ && _ && _); [apply bind_unit_ok in Hx as [_ Hx]|]].
    injection E as <-. apply update_claim_some in Hu as (row & Hrow & Hg & Href & ->).
    eapply QE_update; try done; [by econstructor|by right].
  - destruct (fail_job t id o f er ra now now q q) as [[q' out]| |] eqn:E; simpl; [|constructor..].
    unfold fail_job in E. apply bind_unit_ok in E as [_ E]. apply bind_ok in E as (u & Hu & E).
    destruct u as [q1|].
    + injection E as <- <-. simpl. apply update_claim_some in Hu as (row & Hrow & Hg & Href & ->).
      apply andb_true_iff in Hg as [Hg Ha]. apply Z.ltb_lt in Ha.
      eapply QE_update; try done; [by econstructor|by right].
    + apply bind_ok in E as (x & Hx & [= <- <-]).
      assert (fo_newly_recorded x = false) as ->; [|constructor].
      unfold failure_state in Hx. apply bind_ok in Hx as (row & _ & Hx).
      apply bind_unit_ok in Hx as [_ Hx]. destruct (jb_failure row) as [[[[? ?] ?] ?]|]; [|done].
      destruct (_ && _); [|done]. by apply bind_unit_ok in Hx as [_ [= <-]].
Qed.

Lemma claim_statement_ok tenant_id owner limit lease now locked q q' claimed :
  claim_statement tenant_id owner limit lease now locked q = Ok (q', claimed) →
  let chosen := candidates tenant_id limit now locked (q_jobs q) in
  let ends := now + milliseconds lease in
  claimed = (λ p, claimed_job_from_row p.1 (claimed_row owner ends p.2) owner ends) <$> chosen ∧
  q_effects q' = release_effects tenant_id chosen.*1 (q_effects q) ∧
  ∀ id, q_jobs q' !! id
        = (λ row, if mem id chosen.*1 then claimed_row owner ends row else row) <$> q_jobs q !! id.
Proof.
  unfold claim_statement. intros H. apply bind_unit_ok in H as [_ [= <- <-]].
  split_and!; [done..|]. intros id. simpl. rewrite map_lookup_imap. by destruct (q_jobs q !! id).
Qed.

Lemma history_one id i e : history id [(i, e)] = if bool_decide (i = id) then [e] else [].
Proof. unfold history. simpl. by case_bool_decide. Qed.

Lemma begin_effect_cases now effect_id e q :
  begin_effect now effect_id e q = q ∨
  (begin_effect now effect_id e q = mkQueue (q_jobs q) (<[effect_id := e]> (q_effects q)) ∧
   ef_status e = "IN_FLIGHT" ∧ external_mutation e = true ∧
   ∃ id row owner ends, ef_owning_workflow_job_id e = Some id ∧ q_jobs q !! id = Some row ∧
     jb_tenant_id row = ef_tenant_id e ∧ jb_lease row = Some (owner, ends) ∧
     fst <$> ef_lease e = Some owner ∧ jb_fence_token row = ef_fence_token e).
Proof.
  unfold begin_effect. destruct (ef_owning_workflow_job_id e) as [id|] eqn:Eo; simpl; [|by left].
  destruct (q_jobs q !! id) as [row|] eqn:Er; simpl; [|by left].
  destruct (ef_lease e) as [[owner x]|]; simpl; [|by left].
  destruct (_ && _ && _) eqn:Eg; [right|by left]. reflect. destruct Eg as [[Hl Hs] Hx].
  apply live_claim_spec in Hl as (Ht & _ & Hf & ends & Hl & _). split_and!; try done.
  exists id, row, owner, ends. by split_and!.
Qed.

Lemma effect_job_step q q' es id :
  queue_effect q q' es → job_step id (q_jobs q !! id) (history id es) (q_jobs q' !! id).
Proof.
  destruct 1 as [|now j Hv Hk Hn|t o lim lease now locked q' claimed Hc|i row row' e Hrow Hst _ _ _ _
    |now eid e|eid st].
  - constructor.
  - rewrite history_one. simpl. case_bool_decide as E.
    + subst. rewrite lookup_insert_eq, Hn. by constructor.
    + rewrite lookup_insert_ne by done. constructor.
  - destruct (claim_statement_ok _ _ _ _ _ _ _ _ _ Hc) as (-> & _ & Hj). rewrite Hj.
    rewrite <- list_fmap_compose. unfold compose. simpl.
    rewrite (history_unique (λ p, Claim o (jb_fence_token p.2 + 1) now (now + milliseconds lease)))
      by apply candidates_nodup.
    pose proof (find_candidate t lim now locked (q_jobs q) id) as Hf.
    destruct (find _ _) as [[i row]|]; simpl in *.
    + destruct Hf as (-> & -> & -> & Hcl). simpl. by econstructor.
    + rewrite Hf. replace ((λ row, row) <$> q_jobs q !! id) with (q_jobs q !! id)
        by by destruct (q_jobs q !! id). constructor.
  - rewrite history_one. simpl. case_bool_decide as E.
    + subst. rewrite lookup_insert_eq, Hrow. inversion Hst; subst; by econstructor.
    + rewrite lookup_insert_ne by done. constructor.
  - destruct (begin_effect_cases now eid e q) as [->|[-> _]]; constructor.
  - constructor.
Qed.

Lemma job_step_identity id o es row' :
  job_step id o es (Some row') → ∀ row, o = Some row →
  jb_tenant_id row' = jb_tenant_id row ∧ jb_idempotency_key row' = jb_idempotency_key row.
Proof. intros H row E. subst. inversion H; subst; done. Qed.

Lemma not_referenced id effects effect_id e :
  claim_referenced id effects = false → effects !! effect_id = Some e →
  ef_owning_workflow_job_id e ≠ Some id.
Proof.
  unfold claim_referenced. rewrite existsb_false, Forall_forall. intros H He Ho.
  apply elem_of_map_to_list in He. specialize (H _ He). simpl in H. by rewrite bool_decide_true in H.
Qed.

(** A claim takes the effects of the jobs it claims away from them. *)
Lemma claim_effects tenant_id owner limit lease now locked q q' claimed :
  queue_ok q → claim_statement tenant_id owner limit lease now locked q = Ok (q', claimed) →
  effects_fenced q'.
Proof.
  intros Hok Hc. destruct (claim_statement_ok _ _ _ _ _ _ _ _ _ Hc) as (_ & He & Hj).
  intros eid e id. rewrite He. unfold release_effects. rewrite lookup_fmap, fmap_Some.
  intros (e0 & He0 & ->) Ho. destruct (_ && _ && _ && _) eqn:Eg; [done|].
  destruct (qo_effects _ Hok _ _ _ He0 Ho) as (Hs & Hx & row & o & ends & Hrow & Ht & Hl & Hle & Hf).
  split_and!; [done|done|]. exists row, o, ends. split_and!; try done. rewrite Hj, Hrow. simpl.
  pose proof (find_candidate tenant_id limit now locked (q_jobs q) id) as Hfc.
  destruct (find _ _) as [[i row1]|]; [|by rewrite Hfc]. exfalso.
  destruct Hfc as (_ & Hm & Hrow1 & Hcl). apply claimable_spec in Hcl as (Htn & _). simpl in *.
  rewrite Ho, Hm, Hs, Hx in Eg. assert (row1 = row) as -> by congruence.
  rewrite !bool_decide_true in Eg by congruence. done.
Qed.

(** Keys stay unique. *)
Lemma effect_keys q q' es id id' row row' :
  queue_ok q → queue_effect q q' es → q_jobs q' !! id = Some row → q_jobs q' !! id' = Some row' →
  jb_tenant_id row = jb_tenant_id row' → jb_idempotency_key row = jb_idempotency_key row' → id = id'.
Proof.
  intros Hok He. revert id id' row row'. destruct He as [|now j Hv Hk Hn|t o lim lease now locked q' claimed Hc
    |i row row' e Hrow Hs Hcl Ht Hkey Href|now eid e|eid st].
  - apply Hok.
  - intros id id' row row'. simpl. destruct (decide (nj_id j = id)) as [<-|N1], (decide (nj_id j = id')) as [<-|N2];
      rewrite ?lookup_insert_eq, ?lookup_insert_ne by done; [done|..].
    + intros [= <-] H2 Et Ek. exfalso. by eapply row_by_key_none.
    + intros H1 [= <-] Et Ek. exfalso. by eapply row_by_key_none.
    + apply Hok.
  - destruct (claim_statement_ok _ _ _ _ _ _ _ _ _ Hc) as (_ & _ & Hj).
    intros id id' r r'. rewrite !Hj, !fmap_Some. intros (a & Ha & ->) (b & Hb & ->).
    repeat case_match; simpl; by apply Hok.
  - intros id id' r r'. simpl. destruct (decide (i = id)) as [<-|N1], (decide (i = id')) as [<-|N2];
      rewrite ?lookup_insert_eq, ?lookup_insert_ne by done; [done|..].
    + intros [= <-] H2. rewrite Ht, Hkey. by apply Hok.
    + intros H1 [= <-]. rewrite Ht, Hkey. by apply Hok.
    + apply Hok.
  - destruct (begin_effect_cases now eid e q) as [->|[-> _]]; apply Hok.
  - apply Hok.
Qed.

Lemma effect_effects q q' es : queue_ok q → queue_effect q q' es → effects_fenced q'.
Proof.
  intros Hok He. destruct He as [|now j Hv Hk Hn|t o lim lease now locked q' claimed Hc
    |i row row' e Hrow Hs Hcl Ht Hkey Href|now eid e|eid st].
  - apply Hok.
  - intros eid e id He Ho. destruct (qo_effects _ Hok _ _ _ He Ho) as (? & ? & row & o & ends & Hr & ?).
    split_and!; [done|done|]. exists row, o, ends. simpl. rewrite lookup_insert_ne; [done|]. congruence.
  - by eapply claim_effects.
  - intros eid e0 id He Ho. simpl in He.
    destruct (qo_effects _ Hok _ _ _ He Ho) as (? & ? & r & o & ends & Hr & T & L & F & N).
    split_and!; [done|done|]. simpl. destruct (decide (i = id)) as [<-|Hne].
    + destruct Href as [[El Ef]|Href]; [|by eapply not_referenced in Href].
      rewrite lookup_insert_eq. assert (r = row) as -> by congruence. rewrite L in El.
      destruct (jb_lease row') as [[o' ends']|] eqn:L'; [|done]. injection El as ->.
      exists row', o, ends'. split_and!; congruence.
    + rewrite lookup_insert_ne by done. by exists r, o, ends.
  - destruct (begin_effect_cases now eid e q) as [->|(-> & Hs & Hx & id & row & o & ends & Ho & Hr & T & L & F & N)];
      [apply Hok|]. intros eid' e' id'. simpl. destruct (decide (eid = eid')) as [<-|].
    + rewrite lookup_insert_eq. intros [= <-] Ho'. assert (id' = id) as -> by congruence.
      split_and!; [done|done|]. by exists row, o, ends.
    + rewrite lookup_insert_ne by done. apply Hok.
  - intros eid' e' id'. simpl. destruct (decide (eid = eid')) as [<-|].
    + rewrite lookup_alter_eq, fmap_Some. intros (e0 & _ & ->). done.
    + rewrite lookup_alter_ne by done. apply Hok.
Qed.

Lemma effect_ok q q' es : queue_ok q → queue_effect q q' es → queue_ok q'.
Proof.
  intros Hok He. constructor.
  - intros id row Hrow. pose proof (effect_job_step _ _ _ id He) as Hst. rewrite Hrow in Hst.
    eapply job_step_ok; [done| |done]. intros r. apply (qo_jobs _ Hok).
  - intros id id' row row'. by eapply effect_keys.
  - by eapply effect_effects.
Qed.

(** *** Runs *)

Lemma run_all_snoc sts st s :
  run_all (sts ++ [st]) s =
  ((run_statement st (run_all sts s).1).1,
   (run_all sts s).2 ++ (run_statement st (run_all sts s).1).2).
Proof. unfold run_all. rewrite foldl_app. simpl. by destruct (run_statement _ _). Qed.

Lemma run_all_ok sts s : queue_ok s.1 → queue_ok (run_all sts s).1.
Proof.
  intros Hok. induction sts as [|st sts IH] using rev_ind; [done|].
  rewrite run_all_snoc. eapply effect_ok; [exact IH|apply run_statement_effect].
Qed.

Definition empty_queue : Queue := mkQueue ∅ ∅.

Lemma empty_queue_ok : queue_ok empty_queue.
Proof. by constructor. Qed.

Lemma job_step_present id o es o' : job_step id o es o' → is_Some o → is_Some o'.
Proof. destruct 1; by eauto. Qed.

Lemma job_step_absent id o es : job_step id o es None → o = None ∧ es = [].
Proof. by inversion 1. Qed.

(** The history of a job so far leads from its absence to the phase of its row. *)
Definition tracked (id : Uuid) (s : Queue * list (Uuid * label)) : Prop :=
  match q_jobs s.1 !! id with
  | None => history id s.2 = []
  | Some row => follow (jb_max_attempts row) Absent (history id s.2) = Some (phase_of row)
  end.

Lemma tracked_step id q h q' es :
  queue_ok q → queue_effect q q' es → tracked id (q, h) → tracked id (q', h ++ es).
Proof.
  intros Hok He Ht. pose proof (effect_job_step _ _ _ id He) as Hst. unfold tracked in *. simpl in *.
  rewrite history_app. destruct (q_jobs q' !! id) as [row'|].
  - destruct (job_step_protocol _ _ _ _ Hst) as [Hf Hm]; [intros r; apply (qo_jobs _ Hok)|].
    destruct (q_jobs q !! id) as [row|]; simpl in *.
    + rewrite (Hm row eq_refl) in *. by rewrite follow_app, Ht.
    + by rewrite Ht.
  - apply job_step_absent in Hst as [E ->]. rewrite E in Ht. by rewrite Ht.
Qed.

Lemma run_all_tracked id sts : tracked id (run_all sts (empty_queue, [])).
Proof.
  induction sts as [|st sts IH] using rev_ind; [done|]. rewrite run_all_snoc.
  apply (tracked_step id (run_all sts (empty_queue, [])).1).
  - apply run_all_ok, empty_queue_ok.
  - apply run_statement_effect.
  - by destruct (run_all sts _).
Qed.

(** *** Claims succeed and take the best *)

Lemma claim_total tenant_id owner limit lease now locked q :
  queue_ok q → ∃ q' claimed, claim_statement tenant_id owner limit lease now locked q = Ok (q', claimed).
Proof.
  intros Hok. unfold claim_statement. destruct (existsb _ _) eqn:E; simpl; [exfalso|eauto].
  apply existsb_true in E as (id & Hid & Href). unfold claim_referenced in Href.
  apply existsb_true in Href as ([eid e'] & He & Ho). reflect. simpl in Ho.
  apply elem_of_map_to_list in He. unfold release_effects in He. rewrite lookup_fmap, fmap_Some in He.
  destruct He as (e & He & ->). destruct (_ && _ && _ && _) eqn:Eg; [done|].
  destruct (qo_effects _ Hok _ _ _ He Ho) as (Hs & Hx & row & o & ends & Hrow & Ht & _).
  pose proof (find_candidate tenant_id limit now locked (q_jobs q) id) as Hfc.
  apply mem_true in Hid. destruct (find _ _) as [[i row1]|]; [|congruence].
  destruct Hfc as (_ & _ & Hrow1 & Hcl). apply claimable_spec in Hcl as (Htn & _). simpl in *.
  assert (row1 = row) as -> by congruence.
  rewrite Ho, Hid, Hs, Hx, !bool_decide_true in Eg by congruence. done.
Qed.

Lemma claim_request_ok tenant_id owner limit lease now locked q :
  queue_ok q → validate_claim_request owner limit lease = Ok () → 0 ≤ lease →
  ∃ q' claimed, claim_jobs tenant_id owner limit lease now locked q = Ok (q', claimed).
Proof.
  intros Hok Hv Hd. unfold claim_jobs. rewrite Hv. simpl. unfold lease_milliseconds.
  assert (fits i64_max (as_millis lease)) as Hfit.
  { unfold validate_claim_request in Hv. rewrite !bind_unit_ok in Hv. reflect.
    destruct Hv as (_ & _ & _ & Hmax). unfold fits, as_millis, MAX_JOB_LEASE_DURATION, hours, seconds, nanos, i64_max in *.
    split; [apply Z.div_pos; lia|]. apply Z.div_le_upper_bound; lia. }
  rewrite (proj2 (try_from_some i64_max (as_millis lease) (as_millis lease))) by done. simpl.
  by apply claim_total.
Qed.

(** The jobs a claim chooses from. *)
Definition due (tenant_id : Uuid) (now : DateTime) (locked : Uuid → bool) (q : Queue)
  : list (Uuid * JobRow) :=
  List.filter (λ p, claimable tenant_id now p.2 && negb (locked p.1)) (map_to_list (q_jobs q)).

Lemma elem_of_due tenant_id now locked q id row :
  (id, row) ∈ due tenant_id now locked q ↔
  q_jobs q !! id = Some row ∧ claimable tenant_id now row = true ∧ locked id = false.
Proof.
  unfold due. rewrite elem_of_filter_bool, elem_of_map_to_list. simpl.
  by rewrite andb_true_iff, negb_true_iff.
Qed.

Lemma sorted_take_drop {A} (R : A → A → Prop) n l x y :
  StronglySorted R l → x ∈ take n l → y ∈ drop n l → R x y.
Proof.
  rewrite <- (take_drop n l) at 1. intros Hs Hx Hy. revert Hx. revert Hs.
  induction (take n l) as [|z k IH]; intros Hs Hx; [by apply elem_of_nil in Hx|].
  inversion Hs as [|? ? Hs' Hz]; subst. apply elem_of_cons in Hx as [->|Hx]; [|by apply IH].
  rewrite Forall_forall in Hz. apply Hz. rewrite elem_of_app. by right.
Qed.

Lemma candidates_best tenant_id limit now locked q id row best :
  (id, row) ∈ due tenant_id now locked q →
  (id, row) ∈ candidates tenant_id limit now locked (q_jobs q) ∨
  (best ∈ candidates tenant_id limit now locked (q_jobs q) → ole (claim_key best) (claim_key (id, row))).
Proof.
  unfold candidates. intros Hd. fold (due tenant_id now locked q).
  rewrite <- (elem_of_sort_by_key claim_key) in Hd.
  rewrite <- (take_drop (Z.to_nat limit) (sort_by_key _ _)), elem_of_app in Hd.
  destruct Hd as [Hd|Hd]; [by left|right]. intros Hb.
  apply (sorted_take_drop (λ x y, ole (claim_key x) (claim_key y)) (Z.to_nat limit)
           (sort_by_key claim_key (due tenant_id now locked q))); [|done|done].
  apply sort_by_key_sorted.
Qed.

Lemma candidates_length tenant_id limit now locked q :
  length (candidates tenant_id limit now locked (q_jobs q))
  = Nat.min (Z.to_nat limit) (length (due tenant_id now locked q)).
Proof.
  unfold candidates. fold (due tenant_id now locked q). rewrite length_take.
  by rewrite (sort_by_key_perm claim_key).
Qed.

(** *** Finished jobs *)

Lemma finished_step id row es o' :
  job_ok row → jb_status row = "COMPLETED" → job_step id (Some row) es o' → es = [] ∧ o' = Some row.
Proof.
  intros Hok Hs H. inversion H as [| |? ? ? ? ? Hc|? ? ? ? ? ? Hl|? ? ? ? ? ? Hl|? ? ? ? ? ? ? Hl]; subst.
  - done.
  - apply claimable_spec in Hc as (_ & _ & [[Hc _]|[Hc _]]); [|congruence].
    rewrite Hs, <- mem_true in Hc. discriminate Hc.
  - apply live_claim_spec in Hl as (_ & Hr & _). congruence.
  - apply live_claim_spec in Hl as (_ & Hr & _). congruence.
  - apply live_claim_spec in Hl as (_ & Hr & _). congruence.
Qed.

Lemma finished_forever id row sts s :
  queue_ok s.1 → q_jobs s.1 !! id = Some row → jb_status row = "COMPLETED" →
  q_jobs (run_all sts s).1 !! id = Some row ∧ history id (run_all sts s).2 = history id s.2.
Proof.
  intros Hok Hrow Hs. induction sts as [|st sts [IH1 IH2]] using rev_ind; [done|].
  rewrite run_all_snoc. simpl. pose proof (run_all_ok sts s Hok) as Hok1.
  pose proof (effect_job_step _ _ _ id (run_statement_effect st (run_all sts s).1)) as Hst.
  rewrite IH1 in Hst. destruct (finished_step _ _ _ _ (qo_jobs _ Hok1 _ _ IH1) Hs Hst) as [E ->].
  split; [done|]. by rewrite history_app, E, app_nil_r.
Qed.

Lemma complete_job_completed tenant_id id owner fence result now q found q1 :
  complete_job tenant_id id owner fence result now q found = Ok (q1, Completed) →
  ∃ row, q_jobs q !! id = Some row ∧ live_claim tenant_id owner fence now row = true ∧
    q1 = mkQueue (<[id := completed_row owner fence result now row]> (q_jobs q)) (q_effects q) ∧
    validate_job_mutation owner fence = Ok () ∧ queue_effect q q1 [(id, Completion owner fence now)].
Proof.
  intros H. unfold complete_job in H. apply bind_unit_ok in H as [Hv H].
  apply bind_ok in H as (u & Hu & H). destruct u as [q'|].
  - injection H as <-. apply update_claim_some in Hu as (row & Hrow & Hg & Href & ->).
    exists row. split_and!; try done. eapply QE_update; try done; [by econstructor|by right].
  - apply bind_ok in H as (x & Hx & [= _ ->]). exfalso. revert Hx. unfold completion_state.
    intros Hx. apply bind_ok in Hx as (row & _ & Hx).
    destruct (_ && _ && _); [apply bind_unit_ok in Hx as [_ Hx]|]; done.
Qed.

Lemma complete_again tenant_id id owner fence result result' now now' row q found :
  q_jobs q !! id = Some row → q_jobs found !! id = Some row → jb_tenant_id row = tenant_id →
  validate_job_mutation owner fence = Ok () → jb_status row = "COMPLETED" →
  jb_completion row = Some (owner, fence, now) → jb_result row = result →
  complete_job tenant_id id owner fence result' now' q found =
  if result_matches result result' then Ok (found, AlreadyCompleted)
  else Err (Conflict [Lit "workflow job "; FmtUuid id;
                      Lit " completion was retried with a different result"]).
Proof.
  intros Hq Hf Ht Hv Hs Hc Hr. unfold complete_job, complete_statement, update_claim, update_job.
  rewrite Hv, Hq. simpl.
  assert (live_claim tenant_id owner fence now' row = false) as ->.
  { apply not_true_iff_false. intros (_ & ? & _)%live_claim_spec. congruence. }
  unfold completion_state, load_job. rewrite Hf. simpl. rewrite bool_decide_true by done. simpl.
  rewrite Hs, Hc, !bool_decide_true by done. simpl. rewrite Hr. by destruct (result_matches _ _).
Qed.

(** ** Main theorems *)

(** C12. Whatever workers do, from the empty queue on: every job is well formed
    (one lease exactly while running, fence token and attempts equal and within
    the limit, the columns of completion and failure as the status says), a key
    names one job of the tenant, every effect in flight was sent under the
    current claim of its job, and a valid claim request is never refused. *)
Theorem queue_invariant sts :
  let q := (run_all sts (empty_queue, [])).1 in
  queue_ok q ∧
  ∀ tenant_id owner limit lease now locked,
    validate_claim_request owner limit lease = Ok () → 0 ≤ lease →
    ∃ q' claimed, claim_jobs tenant_id owner limit lease now locked q = Ok (q', claimed).
Proof.
  simpl. assert (queue_ok (run_all sts (empty_queue, [])).1) as Hok
    by apply run_all_ok, empty_queue_ok.
  split; [done|]. intros. by apply claim_request_ok.
Qed.

(** C11. The queue implements leases with fencing: whatever workers do, the history
    of each job is one that [protocol] allows, and its row is where the protocol
    stands.  So claims carry the tokens 1, 2, 3, … up to the limit, a claim takes
    over only after the lease before it ended, only the holder of the last claim
    renews, completes or fails the job and only while its lease runs, a job is
    completed at most once, and nothing happens to it afterwards. *)
Theorem queue_refines_protocol sts id :
  let '(q, h) := run_all sts (empty_queue, []) in
  match q_jobs q !! id with
  | None => history id h = []
  | Some row =>
      follow (jb_max_attempts row) Absent (history id h) = Some (phase_of row) ∧
      count is_claim (history id h) = jb_attempt_count row ∧
      jb_attempt_count row ≤ jb_max_attempts row ∧
      count is_completion (history id h) ≤ 1
  end.
Proof.
  pose proof (run_all_tracked id sts) as Ht.
  pose proof (run_all_ok sts (empty_queue, []) empty_queue_ok) as Hok.
  destruct (run_all sts (empty_queue, [])) as [q h]. unfold tracked in Ht. simpl in *.
  destruct (q_jobs q !! id) as [row|] eqn:Hrow; [|done]. split; [done|].
  destruct (qo_jobs _ Hok _ _ Hrow) as [_ Jl Ja Jf _ _ Jc _ _].
  destruct (follow_counts _ _ _ _ Ht) as (E1 & E2 & _); [simpl; lia|]. simpl in *.
  assert (phase_claims (phase_of row) = jb_fence_token row ∧ phase_done (phase_of row) ≤ 1) as [E3 E4].
  { unfold phase_of. destruct (jb_lease row) as [[? ?]|]; [done|].
    destruct (jb_completion row) as [[[o f] a]|]; [|done]. case_bool_decide as Es; [|done].
    destruct (Jc Es) as (? & ? & [= _ -> _]). done. }
  lia.
Qed.

(** A claim takes the best due jobs: it returns as many of the due and
    unlocked jobs as the limit allows, none that is left out comes before one
    that is taken in the order of priority, availability and identifier, each
    taken job runs under its next fence token and the requested lease, and no
    other job changes. *)
Lemma claims_take_best tenant_id owner limit lease now locked q q' claimed :
  claim_jobs tenant_id owner limit lease now locked q = Ok (q', claimed) →
  length claimed = Nat.min (Z.to_nat limit) (length (due tenant_id now locked q)) ∧
  (∀ c, c ∈ claimed → ∃ row, (cj_id c, row) ∈ due tenant_id now locked q ∧
     q_jobs q' !! cj_id c = Some (claimed_row owner (cj_lease_expires_at c) row) ∧
     cj_fence_token c = jb_fence_token row + 1 ∧
     cj_lease_expires_at c = now + milliseconds (as_millis lease) ∧
     ∀ id other, (id, other) ∈ due tenant_id now locked q → id ∉ cj_id <$> claimed →
       ole (claim_key (cj_id c, row)) (claim_key (id, other))) ∧
  (∀ id, id ∉ cj_id <$> claimed → q_jobs q' !! id = q_jobs q !! id).
Proof.
  intros H. unfold claim_jobs in H. apply bind_unit_ok in H as [_ H].
  apply bind_ok in H as (ms & Hms & H). apply ok_or_ok, try_from_some in Hms as [_ ->].
  destruct (claim_statement_ok _ _ _ _ _ _ _ _ _ H) as (-> & _ & Hj).
  set (chosen := candidates tenant_id limit now locked (q_jobs q)) in *.
  assert (cj_id <$> ((λ p, claimed_job_from_row p.1 (claimed_row owner (now + milliseconds (as_millis lease)) p.2)
    owner (now + milliseconds (as_millis lease))) <$> chosen) = chosen.*1) as Hids
    by by rewrite <- list_fmap_compose.
  split_and!.
  - rewrite length_fmap. apply candidates_length.
  - intros c Hc. apply list_elem_of_fmap in Hc as ([id row] & -> & Hin). exists row. simpl.
    pose proof (elem_of_candidates _ _ _ _ _ _ _ Hin) as (Hrow & Hcl & Hlk).
    split_and!; try done.
    + by apply elem_of_due.
    + rewrite Hj, Hrow. simpl. rewrite (proj2 (mem_true id _)); [done|].
      apply list_elem_of_fmap. by exists (id, row).
    + intros id' other Hd Hno. rewrite Hids in Hno.
      destruct (candidates_best tenant_id limit now locked q id' other (id, row) Hd) as [Hin'|Hb];
        [|by apply Hb]. exfalso. apply Hno. apply list_elem_of_fmap. by exists (id', other).
  - intros id Hno. rewrite Hids in Hno. rewrite Hj, (proj2 (mem_false id _)) by done.
    by destruct (q_jobs q !! id).
Qed.

(** A completion is final and can be asked for again: whatever happens after
    it, before and between the statements of the repeated call, the call with
    the same claim and an equal result answers [AlreadyCompleted], with another
    result it is a conflict, and nothing more happens to the job. *)
Lemma completion_recoverable tenant_id id owner fence result now q found q1 sts sts' :
  queue_ok q → complete_job tenant_id id owner fence result now q found = Ok (q1, Completed) →
  let '(q2, h) := run_all sts (q1, []) in
  let '(q3, h') := run_all sts' (q2, h) in
  history id h' = [] ∧ q_jobs q3 !! id = q_jobs q1 !! id ∧
  ∀ result' now', complete_job tenant_id id owner fence result' now' q2 q3 =
    if result_matches result result' then Ok (q3, AlreadyCompleted)
    else Err (Conflict [Lit "workflow job "; FmtUuid id;
                        Lit " completion was retried with a different result"]).
Proof.
  intros Hok Hc. destruct (complete_job_completed _ _ _ _ _ _ _ _ _ Hc)
    as (row & Hrow & Hl & -> & Hv & He). pose proof (effect_ok _ _ _ Hok He) as Hok1.
  set (row1 := completed_row owner fence result now row) in *.
  set (q1 := mkQueue _ _) in *.
  assert (q_jobs q1 !! id = Some row1) as Hrow1 by apply lookup_insert_eq.
  destruct (finished_forever id row1 sts (q1, []) Hok1 Hrow1 eq_refl) as [Hr2 Hh2].
  pose proof (run_all_ok sts (q1, []) Hok1) as Hok2.
  destruct (run_all sts (q1, [])) as [q2 h]. simpl in *.
  destruct (finished_forever id row1 sts' (q2, h) Hok2 Hr2 eq_refl) as [Hr3 Hh3].
  destruct (run_all sts' (q2, h)) as [q3 h']. simpl in *. split_and!; [by rewrite Hh3, Hh2|by rewrite Hr3|].
  intros result' now'. eapply complete_again; try done.
  apply live_claim_spec in Hl as (Ht & _). exact Ht.
Qed.

(** C13. No job is forgotten: a job in the queue is completed, or is held under its
    last attempt, or from some instant on every claim of its tenant that has
    room for the due jobs and finds its row unlocked takes it. *)
Theorem no_job_forgotten sts id row :
  let q := (run_all sts (empty_queue, [])).1 in
  q_jobs q !! id = Some row →
  jb_status row = "COMPLETED" ∨
  (jb_status row = "RUNNING" ∧ jb_attempt_count row = jb_max_attempts row) ∨
  ∃ from, ∀ owner limit lease now locked,
    from ≤ now → validate_claim_request owner limit lease = Ok () → 0 ≤ lease → locked id = false →
    Z.of_nat (length (due (jb_tenant_id row) now locked q)) ≤ limit →
    ∃ q' claimed, claim_jobs (jb_tenant_id row) owner limit lease now locked q = Ok (q', claimed) ∧
      id ∈ cj_id <$> claimed.
Proof.
  simpl. intros Hrow. pose proof (run_all_ok sts (empty_queue, []) empty_queue_ok) as Hok.
  set (q := (run_all sts (empty_queue, [])).1) in *.
  destruct (qo_jobs _ Hok _ _ Hrow) as [Js Jl Ja Jf Jp _ Jc Jr [Jv _]].
  assert (jb_status row = "COMPLETED" ∨
    (jb_status row = "RUNNING" ∧ jb_attempt_count row = jb_max_attempts row) ∨
    ∃ from, ∀ now, from ≤ now → claimable (jb_tenant_id row) now row = true) as [H|[H|[from H]]].
  { destruct (decide (jb_status row = "COMPLETED")) as [|Nc]; [by left|right].
    destruct (decide (jb_status row = "RUNNING")) as [Er|Nr].
    - destruct (decide (jb_attempt_count row = jb_max_attempts row)) as [|Na]; [by left|right].
      destruct (proj2 Jl Er) as [[o ends] El]. exists ends. intros now Hn.
      apply claimable_spec. split_and!; [done|lia|]. right. eauto.
    - right. exists (jb_available_at row). intros now Hn. apply claimable_spec.
      assert (jb_status row = "PENDING" ∨ jb_status row = "RETRY") as Hs by set_solver.
      split_and!; [done| |left; split; [set_solver|done]].
      destruct Hs as [Hs|Hs]; [rewrite Ja, (Jp Hs); lia|]. destruct (Jr Hs) as (? & ? & ? & _ & ?). lia. }
  - by left.
  - right. by left.
  - right. right. exists from. intros owner limit lease now locked Hn Hv Hd Hlk Hroom.
    destruct (claim_request_ok (jb_tenant_id row) owner limit lease now locked q Hok Hv Hd)
      as (q' & claimed & Hcl). exists q', claimed. split; [done|].
    unfold claim_jobs in Hcl. apply bind_unit_ok in Hcl as [_ Hcl].
    apply bind_ok in Hcl as (ms & _ & Hcl). destruct (claim_statement_ok _ _ _ _ _ _ _ _ _ Hcl) as (-> & _).
    rewrite <- list_fmap_compose. apply list_elem_of_fmap. exists (id, row). split; [done|].
    unfold candidates. fold (due (jb_tenant_id row) now locked q).
    rewrite take_ge by (rewrite (sort_by_key_perm claim_key); lia).
    apply elem_of_sort_by_key, elem_of_due. auto.
Qed.
End facts.

(** ** A queue of two jobs *)

Module Sample.
#[local] Instance columns : PgColumns :=
  {| stored_at t := t; stored_value v := v; stored_value_object v := eq_refl |}.

(** Enough of [jsonb] equality for the results below. *)
Definition text_eqb (v w : Value) : bool :=
  match v, w with
  | VString a, VString b => String.eqb a b
  | VString _, _ | _, VString _ => false
  | _, _ => true
  end.

Lemma text_eqb_refl v : text_eqb v v = true.
Proof. destruct v; try reflexivity. apply String.eqb_refl. Qed.

#[local] Instance equality : Jsonb := {| jsonb_eqb := text_eqb; jsonb_eqb_refl := text_eqb_refl |}.

Definition job (id : Uuid) (key : string) (priority : Z) : NewWorkflowJob :=
  mkNewWorkflowJob id 1%N None None None "SWEEP" "asf.sweep/v1" (Object []) key priority 0 2.

Definition minute : Duration := minutes 1.
Definition at_ (n : Z) : DateTime := minutes n.
Definition free (_ : Uuid) : bool := false.

(** Two jobs are enqueued; the first is claimed, its lease runs out and another
    worker claims and completes it. *)
Definition calls : list statement :=
  [DoEnqueue 0 (job 11%N "a" 5); DoEnqueue 0 (job 12%N "b" 1);
   DoClaim 1%N "w1" 1 minute (at_ 1) free; DoClaim 1%N "w2" 1 minute (at_ 2) free;
   DoComplete 1%N 11%N "w1" 1 None (at_ 2); DoComplete 1%N 11%N "w2" 2 None (at_ 2)].

Definition queue : Queue := (run_all (take 4 calls) (empty_queue, [])).1.

Example takeover :
  history 11%N (run_all calls (empty_queue, [])).2
  = [Enqueued; Claim "w1" 1 (at_ 1) (at_ 2); Claim "w2" 2 (at_ 2) (at_ 3);
     Completion "w2" 2 (at_ 2)].
Proof. vm_compute. reflexivity. Qed.

Lemma queue_invariant_witness :
  ∃ q' claimed, claim_jobs 1%N "w3" 5 minute (at_ 3) free queue = Ok (q', claimed).
Proof.
  destruct (queue_invariant (take 4 calls)) as [_ H]. apply H; [reflexivity|].
  vm_compute. discriminate.
Defined.

Lemma claims_take_best_witness :
  ∃ q' claimed, claim_jobs 1%N "w3" 5 minute (at_ 3) free queue = Ok (q', claimed) ∧
    length claimed = Nat.min (Z.to_nat 5) (length (due 1%N (at_ 3) free queue)) ∧
    ∀ id, id ∉ cj_id <$> claimed → q_jobs q' !! id = q_jobs queue !! id.
Proof.
  destruct (claim_jobs 1%N "w3" 5 minute (at_ 3) free queue) as [[q' claimed]| |] eqn:E;
    [|vm_compute in E; discriminate E..].
  exists q', claimed.
  destruct (claims_take_best 1%N "w3" 5 minute (at_ 3) free queue q' claimed E) as (H1 & _ & H3).
  split; [reflexivity|]. split; assumption.
Defined.

Lemma completion_recoverable_witness :
  ∃ q1, complete_job 1%N 11%N "w2" 2 (Some (VString "ok")) (at_ 2) queue queue = Ok (q1, Completed) ∧
    complete_job 1%N 11%N "w2" 2 (Some (VString "ok")) (at_ 9) q1 q1 = Ok (q1, AlreadyCompleted).
Proof.
  destruct (complete_job 1%N 11%N "w2" 2 (Some (VString "ok")) (at_ 2) queue queue) as [[q1 [|]]| |] eqn:E;
    [|vm_compute in E; discriminate E..].
  exists q1. split; [reflexivity|].
  destruct (completion_recoverable 1%N 11%N "w2" 2 (Some (VString "ok")) (at_ 2) queue queue q1 [] []
    (run_all_ok (take 4 calls) (empty_queue, []) empty_queue_ok) E) as (_ & _ & H).
  exact (H (Some (VString "ok")) (at_ 9)).
Defined.

Lemma no_job_forgotten_witness :
  ∃ row, q_jobs queue !! 12%N = Some row ∧ jb_status row = "PENDING" ∧
    ∃ from, ∀ owner limit lease now locked,
      from ≤ now → validate_claim_request owner limit lease = Ok () → 0 ≤ lease →
      locked 12%N = false → Z.of_nat (length (due (jb_tenant_id row) now locked queue)) ≤ limit →
      ∃ q' claimed, claim_jobs (jb_tenant_id row) owner limit lease now locked queue = Ok (q', claimed) ∧
        12%N ∈ cj_id <$> claimed.
Proof.
  destruct (q_jobs queue !! 12%N) as [row|] eqn:E; [|vm_compute in E; discriminate E].
  exists row. assert (jb_status row = "PENDING") as Hs.
  { vm_compute in E. injection E as <-. reflexivity. }
  split; [reflexivity|]. split; [exact Hs|].
  destruct (no_job_forgotten (take 4 calls) 12%N row E) as [H|[[H _]|H]]; [congruence|congruence|].
  exact H.
Defined.

(** Asking again for a job that failed once is refused, since the failure moved
    its availability, although nothing in the request differs. *)
Example reenqueue_after_failure_conflicts :
  let sts := [DoEnqueue 0 (job 11%N "a" 5); DoClaim 1%N "w1" 1 minute (at_ 1) free;
              DoFail 1%N 11%N "w1" 1 "boom" (at_ 5) (at_ 1)] in
  let before := (run_all (take 1 sts) (empty_queue, [])).1 in
  let q := (run_all sts (empty_queue, [])).1 in
  enqueue_job 0 (job 11%N "a" 5) before before = Ok (before, mkEnqueueJobOutcome 11%N false) ∧
  enqueue_job 0 (job 11%N "a" 5) q q
  = Err (Conflict [Lit "workflow job idempotency key "; Disp "a";
                   Lit " was reused for a different request"]).
Proof. split; vm_compute; reflexivity. Qed.

(** A lease shorter than a millisecond is accepted and ends at once. *)
Example short_lease_is_over :
  validate_claim_request "w1" 1 999999 = Ok () ∧
  milliseconds (as_millis 999999) = 0.
Proof. split; vm_compute; reflexivity. Qed.
End Sample.
