(* ===== verification/RunmillOrder.v ===== *)
(** The Work Order as the Runmill service reads it,
    [src/src/contracts/runmill_work_order.rs]: the payload, its validation and the
    signed envelope.

    The signature covers the canonical envelope itself, without a domain prefix.
    [Base64Url] adds what validation relies on of the signature text: its
    alphabet, and that a signature has one. *)

From Stdlib Require Import ZArith Lia Ascii.
From stdpp Require Import base tactics option list strings.
From S2P Require Import Prelude RustStr RustOrd Crypto Security WorkOrder.

Definition RUNMILL_WORK_ORDER_SCHEMA_V1 : string := "asf.work-order/v1".
Definition RUNMILL_WORK_ORDER_ENVELOPE_SCHEMA_V1 : string := "asf.work-order-envelope/v1".
Definition SIGNATURE_PREFIX : string := "base64url:".
Definition MAX_IDENTIFIER_BYTES : Z := 256.
Definition MAX_IDEMPOTENCY_KEY_BYTES : Z := 768.

(** ** Payload *)

Record RunmillWorkOrderSourceV1 := mkRunmillSource {
  rs_system : string;
  rs_external_id : string;
  rs_snapshot_digest : string
}.

Record RunmillRepositoryTargetV1 := mkRunmillRepository {
  rp_forge : string;
  rp_repository : string;
  rp_base_ref : string;
  rp_base_sha : string
}.

Record RunmillObjectiveV1 := mkRunmillObjective {
  ro_title : string;
  ro_description : string;
  ro_acceptance_criteria : list string;
  ro_non_goals : list string
}.

Module RunmillRiskClass.
Inductive RunmillRiskClass := Low | Medium | High | Critical.
End RunmillRiskClass.
Abbreviation RunmillRiskClass := RunmillRiskClass.RunmillRiskClass.

Record RunmillWorkScopeV1 := mkRunmillScope {
  rsc_allowed_paths : list string;
  rsc_forbidden_paths : list string;
  rsc_risk_class : RunmillRiskClass
}.

Record RunmillVerificationRequirementsV1 := mkRunmillVerification {
  rvr_required_local_check_ids : list string;
  rvr_required_remote_checks : list string;
  rvr_policy_snapshot_digest : string
}.

Record RunmillIdentityRequirementsV1 := mkRunmillIdentities {
  rir_implementer : string;
  rir_local_reviewer : string;
  rir_pr_reviewer : string
}.

Record RunmillRuntimePolicyV1 := mkRunmillRuntime {
  rrp_sandbox_profile : string;
  rrp_tool_policy : string;
  rrp_network_policy : string
}.

(** [f64] as far as the sources look: a finite number with its sign, an infinity
    or a NaN. *)
Inductive f64 :=
| Finite (negative : bool) (mantissa exponent : Z)
| Infinite (negative : bool)
| NaN (negative : bool).

Definition is_finite (x : f64) : bool := match x with Finite _ _ _ => true | _ => false end.
Definition is_sign_negative (x : f64) : bool :=
  match x with Finite s _ _ | Infinite s | NaN s => s end.

Record RunmillBudgetLimitsV1 := mkRunmillBudgets {
  rbl_wall_seconds : Z;
  rbl_max_cost_usd : f64;
  rbl_max_agent_invocations : Z;
  rbl_max_fix_iterations : Z
}.

Module RunmillWorkOrderClosureTarget.
Inductive RunmillWorkOrderClosureTarget := Pr | Merge | Deploy | Observe.
#[export] Instance eq_dec : EqDecision RunmillWorkOrderClosureTarget.
Proof. solve_decision. Defined.
End RunmillWorkOrderClosureTarget.
Abbreviation RunmillWorkOrderClosureTarget := RunmillWorkOrderClosureTarget.RunmillWorkOrderClosureTarget.
Export (hints) RunmillWorkOrderClosureTarget.

Record RunmillDeliveryAuthorityV1 := mkRunmillDelivery {
  rda_closure_target : RunmillWorkOrderClosureTarget;
  rda_draft_pr : bool;
  rda_merge_policy_ref : option string
}.

Record RunmillWorkOrderV1 := mkRunmillWorkOrder {
  rw_schema : string;
  rw_work_order_id : string;
  rw_tenant_id : string;
  rw_work_item_id : string;
  rw_attempt_id : string;
  rw_idempotency_key : string;
  rw_source : RunmillWorkOrderSourceV1;
  rw_repository : RunmillRepositoryTargetV1;
  rw_objective : RunmillObjectiveV1;
  rw_scope : RunmillWorkScopeV1;
  rw_verification : RunmillVerificationRequirementsV1;
  rw_identities : RunmillIdentityRequirementsV1;
  rw_runtime : RunmillRuntimePolicyV1;
  rw_budgets : RunmillBudgetLimitsV1;
  rw_delivery : RunmillDeliveryAuthorityV1;
  rw_policy_digest : string;
  rw_harness_digest : string
}.

(** ** Texts *)

(** [value.as_bytes()[0].is_ascii_alphanumeric()] on a non-empty text. *)
Definition starts_alphanumeric (value : string) : bool :=
  match bytes value with b :: _ => is_ascii_alphanumeric b | [] => false end.

Definition identifier_byte (allow_colon : bool) (b : Z) : bool :=
  is_ascii_alphanumeric b || (b =? 46) || (b =? 95) || (b =? 45) || allow_colon && (b =? 58).

Definition valid_identifier (value : string) (allow_colon : bool) : bool :=
  negb (str_is_empty value) && (len value <=? MAX_IDENTIFIER_BYTES)
  && starts_alphanumeric value && forallb (identifier_byte allow_colon) (bytes value).

Definition idempotency_key_byte (b : Z) : bool :=
  is_ascii_alphanumeric b || (b =? 46) || (b =? 95) || (b =? 47) || (b =? 45).

Definition valid_idempotency_key (value : string) : bool :=
  negb (str_is_empty value) && (len value <=? MAX_IDEMPOTENCY_KEY_BYTES)
  && starts_alphanumeric value && forallb idempotency_key_byte (bytes value).

(** A component of a repository name. *)
Definition repository_component (component : string) : bool :=
  negb (str_is_empty component) && negb (has_whitespace component).

Definition valid_repository (value : string) : bool :=
  match split_on "/"%char value with
  | [owner; name] => repository_component owner && repository_component name
  | _ => false
  end.

Definition forbidden_ref_byte (b : Z) : bool :=
  (b <=? 32) || (b =? 127) || (b =? 126) || (b =? 94) || (b =? 58) || (b =? 63) || (b =? 42)
  || (b =? 91) || (b =? 92).

Definition valid_base_ref (value : string) : bool :=
  match strip_prefix "refs/heads/" value with
  | None => false
  | Some branch =>
      negb (str_is_empty branch) && negb (contains ".." branch) && negb (contains "@{" branch)
      && negb (contains "//" branch)
      && negb (ends_with_char "/"%char branch || ends_with_char "."%char branch)
      && negb (existsb forbidden_ref_byte (bytes branch))
      && forallb (λ component, negb (str_is_empty component) && negb (starts_with "." component)
                               && negb (ends_with ".lock" component))
           (split_on "/"%char branch)
  end.

Definition valid_git_sha (value : string) : bool :=
  (len value =? 40) && forallb is_ascii_hexdigit (bytes value).

Definition valid_remote_check (value : string) : bool :=
  negb (str_is_empty value) && (len value <=? 512) && negb (trim_differs value)
  && negb (has_control value).

Definition validate_window (issued_at not_before expires_at : DateTime) : res unit :=
  bail_if ((not_before <? issued_at) || (expires_at <=? not_before))
    (Validation [Lit "Runmill Work Order requires issued_at <= not_before < expires_at"]).

(** ** Validation *)

Section contract.
  Context {hashing : Hashing} {ed : Ed25519}.

(** What [canonical_json] is applied to: [ProtectedEnvelope]. *)
Record RunmillProtected := mkRunmillProtected {
  rpe_schema : string;
  rpe_key_id : string;
  rpe_algorithm : string;
  rpe_issued_at : DateTime;
  rpe_not_before : DateTime;
  rpe_expires_at : DateTime;
  rpe_payload : RunmillWorkOrderV1
}.

Record RunmillSignedWorkOrderV1 := mkRunmillSigned {
  rso_schema : string;
  rso_key_id : string;
  rso_algorithm : string;
  rso_issued_at : DateTime;
  rso_not_before : DateTime;
  rso_expires_at : DateTime;
  rso_payload : RunmillWorkOrderV1;
  rso_signature : string
}.

  Context {order_jcs : Canonical RunmillWorkOrderV1} {protected_jcs : Canonical RunmillProtected}.
  Context {envelope_jcs : Canonical RunmillSignedWorkOrderV1}.
  Context {order_value : ToValue RunmillWorkOrderV1}.

(** The key that binds an order to its tenant, work item and attempt. *)
Definition expected_key (o : RunmillWorkOrderV1) : string :=
  rw_tenant_id o +:+ "/" +:+ rw_work_item_id o +:+ "/" +:+ rw_attempt_id o.

Definition RunmillWorkOrderV1_validate (o : RunmillWorkOrderV1) : res unit :=
  bail_if (negb (bool_decide (rw_schema o = RUNMILL_WORK_ORDER_SCHEMA_V1)))
    (Validation [Lit "unsupported Runmill Work Order schema"]) ;;
  try_for [ ("work-order ID", rw_work_order_id o); ("tenant ID", rw_tenant_id o);
            ("work-item ID", rw_work_item_id o); ("attempt ID", rw_attempt_id o);
            ("source system", rs_system (rw_source o));
            ("source external ID", rs_external_id (rw_source o));
            ("forge", rp_forge (rw_repository o));
            ("sandbox profile", rrp_sandbox_profile (rw_runtime o));
            ("tool policy", rrp_tool_policy (rw_runtime o));
            ("network policy", rrp_network_policy (rw_runtime o)) ]
    (λ '(label, value), bail_if (negb (valid_identifier value false))
       (Validation [Lit "Runmill "; Disp label; Lit " is not a valid identifier"])) ;;
  try_for [ ("implementer identity", rir_implementer (rw_identities o));
            ("local-reviewer identity", rir_local_reviewer (rw_identities o));
            ("PR-reviewer identity", rir_pr_reviewer (rw_identities o)) ]
    (λ '(label, value), bail_if (negb (valid_identifier value true))
       (Validation [Lit "Runmill "; Disp label; Lit " is not a valid identity"])) ;;
  bail_if (negb (bool_decide (rw_idempotency_key o = expected_key o))
           || negb (valid_idempotency_key (rw_idempotency_key o)))
    (Validation [Lit "Runmill idempotency key must exactly bind tenant, work item, and attempt"]) ;;
  bail_if (negb (is_sha256_digest (rs_snapshot_digest (rw_source o)))
           || negb (is_sha256_digest (rvr_policy_snapshot_digest (rw_verification o)))
           || negb (is_sha256_digest (rw_policy_digest o))
           || negb (is_sha256_digest (rw_harness_digest o)))
    (Validation [Lit "Runmill Work Order digests must be tagged lowercase SHA-256 values"]) ;;
  bail_if (negb (valid_repository (rp_repository (rw_repository o)))
           || negb (valid_base_ref (rp_base_ref (rw_repository o)))
           || negb (valid_git_sha (rp_base_sha (rw_repository o))))
    (Validation [Lit "Runmill repository target is malformed or not bound to an exact branch SHA"]) ;;
  bail_if (str_is_empty (ro_title (rw_objective o))
           || (1024 <? len (ro_title (rw_objective o)))
           || str_is_empty (ro_description (rw_objective o))
           || list_is_empty (ro_acceptance_criteria (rw_objective o))
           || existsb str_is_empty (ro_acceptance_criteria (rw_objective o)
                                    ++ ro_non_goals (rw_objective o)))
    (Validation [Lit "Runmill objective and acceptance criteria must be complete"]) ;;
  bail_if (list_is_empty (rsc_allowed_paths (rw_scope o))
           || existsb (λ path, str_is_empty path || (1024 <? len path))
                (rsc_allowed_paths (rw_scope o) ++ rsc_forbidden_paths (rw_scope o)))
    (Validation [Lit "Runmill path scope must have bounded non-empty allow patterns"]) ;;
  bail_if (existsb (λ check, negb (valid_identifier check false))
             (rvr_required_local_check_ids (rw_verification o))
           || existsb (λ check, negb (valid_remote_check check))
                (rvr_required_remote_checks (rw_verification o)))
    (Validation [Lit "Runmill verification requirements contain an invalid check"]) ;;
  bail_if ((rbl_wall_seconds (rw_budgets o) =? 0)
           || negb (is_finite (rbl_max_cost_usd (rw_budgets o)))
           || is_sign_negative (rbl_max_cost_usd (rw_budgets o))
           || (rbl_max_agent_invocations (rw_budgets o) =? 0))
    (Validation [Lit "Runmill budgets require positive wall/invocation limits and finite nonnegative cost"]) ;;
  bail_if (bool_decide (rda_closure_target (rw_delivery o) = RunmillWorkOrderClosureTarget.Pr)
           && is_some (rda_merge_policy_ref (rw_delivery o)))
    (Validation [Lit "a PR-only Runmill Work Order cannot carry merge authority"]) ;;
  bail_if match rda_merge_policy_ref (rw_delivery o) with
          | Some value => str_is_empty value || (512 <? len value)
          | None => false
          end
    (Validation [Lit "Runmill merge-policy reference is invalid"]) ;;
  value ← map_err (to_value o) (λ error,
    Serialization [Lit "serialize Runmill Work Order for safety scan: "; Disp error]);
  reject_sensitive_fields value.

Definition RunmillWorkOrderV1_canonical_bytes (o : RunmillWorkOrderV1) : res (list Z) :=
  RunmillWorkOrderV1_validate o ;; canonical_json o.

Definition RunmillWorkOrderV1_digest (o : RunmillWorkOrderV1) : res string :=
  bytes ← RunmillWorkOrderV1_canonical_bytes o; Ok (sha256_digest bytes).

(** ** The envelope *)

Definition signing_bytes (e : RunmillSignedWorkOrderV1) : res (list Z) :=
  canonical_json
    {| rpe_schema := rso_schema e; rpe_key_id := rso_key_id e; rpe_algorithm := rso_algorithm e;
       rpe_issued_at := rso_issued_at e; rpe_not_before := rso_not_before e;
       rpe_expires_at := rso_expires_at e; rpe_payload := rso_payload e |}.

Definition signature_byte (b : Z) : bool := is_ascii_alphanumeric b || (b =? 95) || (b =? 45).

Definition validate_envelope (e : RunmillSignedWorkOrderV1) : res unit :=
  bail_if (negb (bool_decide (rso_schema e = RUNMILL_WORK_ORDER_ENVELOPE_SCHEMA_V1))
           || negb (bool_decide (rso_algorithm e = "EdDSA"))
           || negb (valid_identifier (rso_key_id e) false))
    (Validation [Lit "Runmill Work Order envelope is unsupported or malformed"]) ;;
  validate_window (rso_issued_at e) (rso_not_before e) (rso_expires_at e) ;;
  RunmillWorkOrderV1_validate (rso_payload e) ;;
  signature ← ok_or (strip_prefix SIGNATURE_PREFIX (rso_signature e))
    (Validation [Lit "Runmill Work Order signature must use base64url prefix"]);
  bail_if (str_is_empty signature || negb (forallb signature_byte (bytes signature)))
    (Validation [Lit "Runmill Work Order signature is not canonical base64url"]).

(** [envelope.signature = …]. *)
Definition set_rso_signature (e : RunmillSignedWorkOrderV1) (signature : string)
  : RunmillSignedWorkOrderV1 :=
  let 'mkRunmillSigned sc ke al ia nb ex pa _ := e in
  mkRunmillSigned sc ke al ia nb ex pa signature.

Definition RunmillSignedWorkOrderV1_sign (payload : RunmillWorkOrderV1) (signer : Ed25519Signer)
    (issued_at not_before expires_at : DateTime) : res RunmillSignedWorkOrderV1 :=
  RunmillWorkOrderV1_validate payload ;;
  validate_window issued_at not_before expires_at ;;
  bail_if (negb (valid_identifier (signer_key_id signer) false))
    (Validation [Lit "Runmill Work Order signing key ID is invalid"]) ;;
  let envelope :=
    {| rso_schema := RUNMILL_WORK_ORDER_ENVELOPE_SCHEMA_V1; rso_key_id := signer_key_id signer;
       rso_algorithm := "EdDSA"; rso_issued_at := issued_at; rso_not_before := not_before;
       rso_expires_at := expires_at; rso_payload := payload; rso_signature := "" |} in
  message ← signing_bytes envelope;
  Ok (set_rso_signature envelope (SIGNATURE_PREFIX +:+ sign signer message)).

Definition RunmillSignedWorkOrderV1_verify_integrity (e : RunmillSignedWorkOrderV1)
    (key : VerifyingKey) : res unit :=
  validate_envelope e ;;
  signature ← ok_or (strip_prefix SIGNATURE_PREFIX (rso_signature e))
    (Crypto [Lit "Runmill Work Order signature lacks base64url prefix"]);
  bail_if (str_is_empty signature) (Crypto [Lit "Runmill Work Order signature is empty"]) ;;
  message ← signing_bytes e;
  verify_signature key message signature.

Definition RunmillSignedWorkOrderV1_verify (e : RunmillSignedWorkOrderV1) (key : VerifyingKey)
    (now : DateTime) : res unit :=
  RunmillSignedWorkOrderV1_verify_integrity e key ;;
  bail_if (now <? rso_not_before e) (Validation [Lit "Runmill Work Order is not active yet"]) ;;
  bail_if (rso_expires_at e <=? now) (Validation [Lit "Runmill Work Order has expired"]).

Definition RunmillSignedWorkOrderV1_canonical_bytes (e : RunmillSignedWorkOrderV1)
  : res (list Z) :=
  validate_envelope e ;; canonical_json e.

Definition envelope_digest (e : RunmillSignedWorkOrderV1) : res string :=
  bytes ← RunmillSignedWorkOrderV1_canonical_bytes e; Ok (sha256_digest bytes).

Definition payload_digest (e : RunmillSignedWorkOrderV1) : res string :=
  RunmillWorkOrderV1_digest (rso_payload e).
End contract.

(** [base64]'s URL-safe alphabet without padding, and the 64 bytes of a
    signature. *)
Class Base64Url `{Ed25519} := {
  base64_alphabet m : forallb signature_byte (bytes (base64_encode m)) = true;
  base64_nonempty m : m ≠ [] → str_is_empty (base64_encode m) = false;
  signature_nonempty k m : signature_to_bytes (sign_bytes k m) ≠ []
}.

(** ** Facts *)

Section facts.
  Context {hashing : Hashing} {ed : Ed25519}.
  Context {order_jcs : Canonical RunmillWorkOrderV1} {protected_jcs : Canonical RunmillProtected}.
  Context {envelope_jcs : Canonical RunmillSignedWorkOrderV1}.
  Context {order_value : ToValue RunmillWorkOrderV1}.

(** What later steps use of a valid order. *)
Record runmill_order_valid (o : RunmillWorkOrderV1) : Prop := {
  rv_schema : rw_schema o = RUNMILL_WORK_ORDER_SCHEMA_V1;
  rv_ids : Forall (λ id, valid_identifier id false = true)
    [rw_work_order_id o; rw_tenant_id o; rw_work_item_id o; rw_attempt_id o];
  rv_key : rw_idempotency_key o = expected_key o ∧ len (rw_idempotency_key o) ≤ 768;
  rv_digests : Forall (λ d, is_sha256_digest d = true)
    [rs_snapshot_digest (rw_source o); rvr_policy_snapshot_digest (rw_verification o);
     rw_policy_digest o; rw_harness_digest o];
  rv_base : valid_base_ref (rp_base_ref (rw_repository o)) = true ∧
    valid_git_sha (rp_base_sha (rw_repository o)) = true;
  rv_criteria : ro_acceptance_criteria (rw_objective o) ≠ [];
  rv_scope : rsc_allowed_paths (rw_scope o) ≠ [];
  rv_cost : ∃ mantissa exponent, rbl_max_cost_usd (rw_budgets o) = Finite false mantissa exponent;
  rv_no_merge : rda_closure_target (rw_delivery o) = RunmillWorkOrderClosureTarget.Pr →
    rda_merge_policy_ref (rw_delivery o) = None;
  rv_clean : ∃ v, to_value o = inr v ∧ reject_sensitive_fields v = Ok ()
}.

Lemma nonnegative_cost c :
  is_finite c = true → is_sign_negative c = false → ∃ m e, c = Finite false m e.
Proof. destruct c as [[] m e|[]|[]]; try done. eauto. Qed.

Lemma map_err_ok {A} (r : string + A) e a : map_err r e = Ok a ↔ r = inr a.
Proof. destruct r; simpl; naive_solver. Qed.

Lemma identifiers_ok labelled (message : string → Error) :
  try_for labelled (λ '(label, value), bail_if (negb (valid_identifier value false)) (message label))
    = Ok () → Forall (λ id, valid_identifier id false = true) labelled.*2.
Proof.
  rewrite try_for_ok, Forall_fmap. intros H. eapply Forall_impl; [exact H|].
  intros [label value]. simpl. by rewrite bail_if_ok, negb_false_iff.
Qed.

Lemma RunmillWorkOrderV1_validate_valid o :
  RunmillWorkOrderV1_validate o = Ok () → runmill_order_valid o.
Proof.
  unfold RunmillWorkOrderV1_validate. rewrite !bind_unit_ok, bind_ok.
  intros (H0 & H1 & _ & H3 & H4 & H5 & H6 & H7 & _ & H9 & H10 & _ & v & Hv & Hr).
  rewrite !bail_if_ok in *. apply map_err_ok in Hv.
  apply (identifiers_ok _ (λ label, Validation [Lit "Runmill "; Disp label; Lit " is not a valid identifier"])) in H1.
  rewrite !orb_false_iff, ?negb_false_iff, ?list_is_empty_false in *. constructor.
  - by apply bool_decide_eq_true in H0.
  - simpl in H1. rewrite !Forall_cons in *. destruct_and!. by split_and!.
  - destruct H3 as [H3 Hk]. apply bool_decide_eq_true in H3. unfold valid_idempotency_key in Hk.
    rewrite !andb_true_iff, Z.leb_le in Hk. split; [done|]. apply Hk.
  - rewrite !Forall_cons. destruct_and!. by split_and!.
  - tauto.
  - tauto.
  - tauto.
  - apply nonnegative_cost; tauto.
  - intros E. rewrite bool_decide_true in H10 by done. by apply is_some_false.
  - eauto.
Qed.

(** Splitting at the first separator is unambiguous. *)
Lemma separated_inj (x : Z) l k m n :
  x ∉ l → x ∉ k → l ++ x :: m = k ++ x :: n → l = k ∧ m = n.
Proof.
  revert k. induction l as [|a l IH]; intros [|b k] Hl Hk E; simpl in E; simplify_eq/=; try done.
  - by rewrite not_elem_of_cons in Hk; destruct Hk.
  - by rewrite not_elem_of_cons in Hl; destruct Hl.
  - rewrite not_elem_of_cons in Hl, Hk. destruct (IH k) as [-> ->]; naive_solver.
Qed.

Lemma identifier_no_slash s : valid_identifier s false = true → 47 ∉ bytes s.
Proof.
  unfold valid_identifier. rewrite !andb_true_iff, forallb_forall. intros [_ H] Hin.
  apply list_elem_of_In in Hin. by specialize (H _ Hin).
Qed.

(** The key determines what it binds. *)
Lemma idempotency_key_binds o o' :
  runmill_order_valid o → runmill_order_valid o' → rw_idempotency_key o = rw_idempotency_key o' →
  rw_tenant_id o = rw_tenant_id o' ∧ rw_work_item_id o = rw_work_item_id o' ∧
  rw_attempt_id o = rw_attempt_id o'.
Proof.
  intros [_ Hi [Hk _] _ _ _ _ _ _ _] [_ Hi' [Hk' _] _ _ _ _ _ _ _] E. rewrite Hk, Hk' in E.
  unfold expected_key in E. apply (f_equal bytes) in E. rewrite !bytes_app in E.
  rewrite !Forall_cons in Hi, Hi'. destruct_and!. simpl in E.
  apply separated_inj in E as [E1 E]; [|by apply identifier_no_slash..].
  apply separated_inj in E as [E2 E3]; [|by apply identifier_no_slash..].
  by split_and!; apply bytes_inj.
Qed.

(** What an envelope proves once its integrity is verified. *)
Record runmill_envelope_sound (e : RunmillSignedWorkOrderV1) (key : VerifyingKey) : Prop := {
  rn_envelope : validate_envelope e = Ok ();
  rn_order : runmill_order_valid (rso_payload e);
  rn_window : rso_issued_at e ≤ rso_not_before e < rso_expires_at e;
  rn_signature : ∃ signature message, rso_signature e = SIGNATURE_PREFIX +:+ signature ∧
    signing_bytes e = Ok message ∧ verify_signature key message signature = Ok ()
}.

Lemma validate_envelope_ok e :
  validate_envelope e = Ok () →
  runmill_order_valid (rso_payload e) ∧ rso_issued_at e ≤ rso_not_before e < rso_expires_at e ∧
  ∃ signature, rso_signature e = SIGNATURE_PREFIX +:+ signature ∧ str_is_empty signature = false.
Proof.
  unfold validate_envelope, validate_window. rewrite !bind_unit_ok, bind_ok.
  intros (_ & Hw & Hv & signature & Hs & Hb). apply ok_or_ok, strip_prefix_spec in Hs.
  apply RunmillWorkOrderV1_validate_valid in Hv. reflect. split_and!; try done; try lia.
  exists signature. tauto.
Qed.

Lemma runmill_verify_integrity_ok e key :
  RunmillSignedWorkOrderV1_verify_integrity e key = Ok () ↔ runmill_envelope_sound e key.
Proof.
  unfold RunmillSignedWorkOrderV1_verify_integrity. rewrite bind_unit_ok, bind_ok. split.
  - intros (He & signature & Hs & Hi). rewrite bind_unit_ok, bind_ok in Hi.
    destruct Hi as (_ & message & Hm & Hv). apply ok_or_ok, strip_prefix_spec in Hs.
    destruct (validate_envelope_ok _ He) as (? & ? & _). constructor; try done. eauto.
  - intros [He _ _ (signature & message & Hs & Hm & Hv)]. split; [done|]. exists signature.
    destruct (validate_envelope_ok _ He) as (_ & _ & s & Hs' & Hne).
    assert (s = signature) as ->.
    { rewrite Hs in Hs'. unfold SIGNATURE_PREFIX in Hs'. simpl in Hs'. by simplify_eq. }
    rewrite bind_unit_ok, bind_ok. split; [|split; [by apply bail_if_ok|eauto]].
    by apply ok_or_ok, strip_prefix_spec.
Qed.

Lemma validate_envelope_intro e signature :
  rso_schema e = RUNMILL_WORK_ORDER_ENVELOPE_SCHEMA_V1 → rso_algorithm e = "EdDSA" →
  valid_identifier (rso_key_id e) false = true →
  validate_window (rso_issued_at e) (rso_not_before e) (rso_expires_at e) = Ok () →
  RunmillWorkOrderV1_validate (rso_payload e) = Ok () →
  rso_signature e = SIGNATURE_PREFIX +:+ signature → str_is_empty signature = false →
  forallb signature_byte (bytes signature) = true → validate_envelope e = Ok ().
Proof.
  intros H1 H2 H3 H4 H5 H6 H7 H8. unfold validate_envelope.
  rewrite !bind_unit_ok, bind_ok, !bail_if_ok, !orb_false_iff, !negb_false_iff, !bool_decide_eq_true.
  split_and!; try assumption. exists signature.
  rewrite bail_if_ok, orb_false_iff, negb_false_iff, ok_or_ok, strip_prefix_spec. by split_and!.
Qed.

Lemma runmill_sign_sound `{!Base64Url} o signer issued_at not_before expires_at e :
  RunmillSignedWorkOrderV1_sign o signer issued_at not_before expires_at = Ok e →
  rso_payload e = o ∧ rso_not_before e = not_before ∧ rso_expires_at e = expires_at ∧
  rso_key_id e = signer_key_id signer ∧
  runmill_envelope_sound e (verifying_key_of (signer_key signer)).
Proof.
  unfold RunmillSignedWorkOrderV1_sign. rewrite !bind_unit_ok, bind_ok.
  intros (Hv & Hw & Hk & message & Hm & [= <-]). split_and!; [reflexivity..|].
  apply bail_if_ok, negb_false_iff in Hk.
  match goal with |- runmill_envelope_sound ?x _ => set (e := x) end.
  assert (validate_envelope e = Ok ()) as He.
  { eapply validate_envelope_intro; [reflexivity|reflexivity|exact Hk|exact Hw|exact Hv|reflexivity|..].
    - apply base64_nonempty, signature_nonempty.
    - apply base64_alphabet. }
  destruct (validate_envelope_ok _ He) as (? & ? & _). constructor; [done..|].
  eexists _, message. split; [reflexivity|]. split; [exact Hm|].
  unfold verify_signature, sign. rewrite base64_round_trip. simpl.
  rewrite signature_round_trip. simpl. by rewrite verify_signed.
Qed.

(** Work Orders for Runmill: a signed order verifies under the signer's key
    exactly in the window it was signed for; an envelope that verifies carries a
    valid order (without merge authority for a pull request, with a bound key and
    pinned digests) and a signature of that key over all of it; and orders that
    verify under any keys and share an idempotency key are for the same tenant,
    work item and attempt. *)
Lemma runmill_order_exact `{!Base64Url} :
  (∀ o signer issued_at not_before expires_at e,
     RunmillSignedWorkOrderV1_sign o signer issued_at not_before expires_at = Ok e →
     rso_payload e = o ∧
     ∀ now, RunmillSignedWorkOrderV1_verify e (verifying_key_of (signer_key signer)) now = Ok () ↔
            not_before ≤ now < expires_at) ∧
  (∀ e key now, RunmillSignedWorkOrderV1_verify e key now = Ok () ↔
     runmill_envelope_sound e key ∧ rso_not_before e ≤ now < rso_expires_at e) ∧
  (∀ e e' key key' now now', RunmillSignedWorkOrderV1_verify e key now = Ok () →
     RunmillSignedWorkOrderV1_verify e' key' now' = Ok () →
     rw_idempotency_key (rso_payload e) = rw_idempotency_key (rso_payload e') →
     rw_tenant_id (rso_payload e) = rw_tenant_id (rso_payload e') ∧
     rw_work_item_id (rso_payload e) = rw_work_item_id (rso_payload e') ∧
     rw_attempt_id (rso_payload e) = rw_attempt_id (rso_payload e')).
Proof.
  assert (∀ e key now, RunmillSignedWorkOrderV1_verify e key now = Ok () ↔
     runmill_envelope_sound e key ∧ rso_not_before e ≤ now < rso_expires_at e) as Hv.
  { intros e key now. unfold RunmillSignedWorkOrderV1_verify.
    rewrite !bind_unit_ok, runmill_verify_integrity_ok. reflect. tauto. }
  split_and!; [|done|].
  - intros o signer ia nb ex e Hs. apply runmill_sign_sound in Hs as (? & E1 & E2 & _ & Hs).
    split; [done|]. intros now. rewrite Hv, E1, E2. tauto.
  - intros e e' key key' now now' [[_ Ho _ _] _]%Hv [[_ Ho' _ _] _]%Hv. by apply idempotency_key_binds.
Qed.
End facts.

(** ** A signed order *)

Module Sample.
Definition digest : string :=
  "sha256:0000000000000000000000000000000000000000000000000000000000000000".

Definition order : RunmillWorkOrderV1 :=
  {| rw_schema := RUNMILL_WORK_ORDER_SCHEMA_V1; rw_work_order_id := "wo-1"; rw_tenant_id := "t1";
     rw_work_item_id := "w1"; rw_attempt_id := "a1"; rw_idempotency_key := "t1/w1/a1";
     rw_source := mkRunmillSource "linear" "X-1" digest;
     rw_repository := mkRunmillRepository "github" "owner/name" "refs/heads/main"
       "0000000000000000000000000000000000000000";
     rw_objective := mkRunmillObjective "fix" "fix it" ["done"] [];
     rw_scope := mkRunmillScope ["src/**"] [] RunmillRiskClass.Low;
     rw_verification := mkRunmillVerification ["cargo-test"] ["ci / build"] digest;
     rw_identities := mkRunmillIdentities "claude:a" "codex:b" "codex:b";
     rw_runtime := mkRunmillRuntime "linux-v1" "default" "none";
     rw_budgets := mkRunmillBudgets 60 (Finite false 5 0) 3 1;
     rw_delivery := mkRunmillDelivery RunmillWorkOrderClosureTarget.Pr true None;
     rw_policy_digest := digest; rw_harness_digest := digest |}.

#[local] Instance order_jcs : Canonical RunmillWorkOrderV1 :=
  {| to_jcs o := inr (bytes (rw_idempotency_key o)) |}.
#[local] Instance protected_jcs : Canonical RunmillProtected :=
  {| to_jcs e := inr [rpe_issued_at e; rpe_expires_at e] |}.
#[local] Instance order_value : ToValue RunmillWorkOrderV1 := {| to_value o := inr (Object []) |}.
#[local] Existing Instances sample_hashing sample_ed25519.

Lemma digits_alphabet p : forallb signature_byte (bytes (pos_text p)) = true.
Proof. induction p as [p IH|p IH|]; simpl; by rewrite ?IH. Qed.

Lemma digits_nonempty (m : list Z) : m ≠ [] → str_is_empty (pos_text (countable.encode m)) = false.
Proof.
  intros Hm. destruct (countable.encode m) as [p|p|] eqn:E; [done|done|]. exfalso. apply Hm.
  apply (inj countable.encode). by rewrite E.
Qed.

#[local] Instance base64 : Base64Url :=
  {| base64_alphabet m := digits_alphabet _; base64_nonempty m := digits_nonempty m;
     signature_nonempty k m := λ E, match E with eq_refl => I end |}.

Definition key : Ed25519Signer := mkSigner _ "key-1" ().

Lemma runmill_order_exact_witness :
  ∃ e, RunmillSignedWorkOrderV1_sign order key 0 10 20 = Ok e ∧
    RunmillSignedWorkOrderV1_verify e (verifying_key_of (signer_key key)) 15 = Ok () ∧
    RunmillSignedWorkOrderV1_verify e (verifying_key_of (signer_key key)) 20 ≠ Ok ().
Proof.
  destruct (RunmillSignedWorkOrderV1_sign order key 0 10 20) as [e| |] eqn:E;
    [|vm_compute in E; discriminate E..].
  exists e. split; [reflexivity|].
  destruct (proj1 runmill_order_exact order key 0 10 20 e E) as [_ Hw].
  split; [apply Hw; lia|]. intros F. apply Hw in F. lia.
Defined.
End Sample.
