(* ===== verification/Steps.v ===== *)
(** Workflow steps, [src/src/ledger/steps.rs]: all rows that a reduced workflow
    fact produces are written in one transaction, under the claim of the job and
    the expected versions of the aggregates.

    [StepTables] holds the tables as far as the statements use them; the job
    table and the claims of effects are those of [JobQueue].  A transaction that
    fails commits nothing, so a step is a function to [res] of the new tables.
    Rows come back as PostgreSQL keeps them ([PgColumns]).  The triggers of the
    migrations and [updated_at] are left out; the failure of a step is
    [DeadLetter]. *)

From Stdlib Require Import ZArith Lia.
From stdpp Require Import base tactics option list strings gmap.
From S2P Require Import Prelude RustStr RustOrd Ids Crypto Security AuditChain RunEvents JobQueue RunmillOrder.

(** ** The write set *)

Record WorkflowStepFence := mkWorkflowStepFence {
  sf_tenant_id : Uuid;
  sf_job_id : Uuid;
  sf_workflow_instance_id : Uuid;
  sf_work_item_id : Uuid;
  sf_lease_owner : string;
  sf_job_fence_token : Z;
  sf_expected_work_item_version : Z;
  sf_expected_workflow_version : Z;
  sf_expected_workflow_fence_token : Z;
  sf_expected_anchor_generation : Z
}.

Definition WorkflowStepFence_validate (f : WorkflowStepFence) : res unit :=
  bail_if (is_nil (sf_tenant_id f) || is_nil (sf_job_id f) || is_nil (sf_workflow_instance_id f)
           || is_nil (sf_work_item_id f))
    (Validation [Lit "workflow-step IDs must be non-nil"]) ;;
  bail_if (blank (sf_lease_owner f)) (Validation [Lit "workflow-step lease owner must be non-empty"]) ;;
  bail_if ((sf_job_fence_token f <=? 0) || (sf_expected_work_item_version f <=? 0)
           || (sf_expected_workflow_version f <=? 0) || (sf_expected_workflow_fence_token f <? 0)
           || (sf_expected_anchor_generation f <? 0))
    (Validation [Lit "workflow-step fences and aggregate versions are invalid"]).

Module LedgerAccountabilityKind.
Inductive LedgerAccountabilityKind := Workflow | Run | Timer | Retry | Approval | Escalation | Closure | Cancellation.
#[export] Instance eq_dec : EqDecision LedgerAccountabilityKind.
Proof. solve_decision. Defined.
End LedgerAccountabilityKind.
Abbreviation LedgerAccountabilityKind := LedgerAccountabilityKind.LedgerAccountabilityKind.
Export (hints) LedgerAccountabilityKind.

Definition as_sql (k : LedgerAccountabilityKind) : string :=
  match k with
  | LedgerAccountabilityKind.Workflow => "WORKFLOW"
  | LedgerAccountabilityKind.Run => "RUN"
  | LedgerAccountabilityKind.Timer => "TIMER"
  | LedgerAccountabilityKind.Retry => "RETRY"
  | LedgerAccountabilityKind.Approval => "APPROVAL"
  | LedgerAccountabilityKind.Escalation => "ESCALATION"
  | LedgerAccountabilityKind.Closure => "CLOSURE"
  | LedgerAccountabilityKind.Cancellation => "CANCELLATION"
  end.

Definition requires_deadline (k : LedgerAccountabilityKind) : bool :=
  match k with
  | LedgerAccountabilityKind.Timer | LedgerAccountabilityKind.Retry
  | LedgerAccountabilityKind.Approval | LedgerAccountabilityKind.Escalation => true
  | _ => false
  end.

Record AccountabilityReplacement := mkAccountabilityReplacement {
  ar_kind : LedgerAccountabilityKind;
  ar_reference_id : Uuid;
  ar_wake_or_deadline_at : option DateTime;
  ar_authority_or_effect_active : bool
}.

Definition AccountabilityReplacement_validate (a : AccountabilityReplacement) : res unit :=
  bail_if (is_nil (ar_reference_id a))
    (Validation [Lit "accountability reference ID must be non-nil"]) ;;
  bail_if (negb (Bool.eqb (requires_deadline (ar_kind a)) (is_some (ar_wake_or_deadline_at a))))
    (Validation [Lit "accountability deadline does not match its anchor kind"]).

Record StepWorkflowJob := mkStepWorkflowJob {
  sj_id : Uuid;
  sj_attempt_id : option Uuid;
  sj_job_type : string;
  sj_activity_contract_id : string;
  sj_payload : Value;
  sj_idempotency_key : string;
  sj_priority : Z;
  sj_available_at : DateTime;
  sj_max_attempts : Z
}.

Record StepWorkflowTimer := mkStepWorkflowTimer {
  tm_id : Uuid;
  tm_attempt_id : option Uuid;
  tm_workflow_key : string;
  tm_timer_key : string;
  tm_timer_type : string;
  tm_activity_contract_id : string;
  tm_due_at : DateTime;
  tm_payload : Value;
  tm_generation : Z
}.

Record RunmillSubmissionEffectBinding := mkRunmillSubmissionEffectBinding {
  sb_work_order_id : Uuid;
  sb_work_order_digest : string
}.

Record StepEffectIntent := mkStepEffectIntent {
  sei_id : Uuid;
  sei_attempt_id : option Uuid;
  sei_provider : string;
  sei_effect_type : string;
  sei_idempotency_key : string;
  sei_correlation_marker : option string;
  sei_request_digest : string;
  sei_request_payload : Value;
  sei_runmill_submission : option RunmillSubmissionEffectBinding;
  sei_next_attempt_at : DateTime
}.

Record StepOutboxMessage := mkStepOutboxMessage {
  om_id : Uuid;
  om_topic : string;
  om_message_key : string;
  om_event_type : string;
  om_payload : Value;
  om_headers : Value;
  om_idempotency_key : string;
  om_available_at : DateTime
}.

Record StepAuditEvent := mkStepAuditEvent {
  sa_id : Uuid;
  sa_attempt_id : option Uuid;
  sa_actor_type : string;
  sa_actor_id : string;
  sa_action : string;
  sa_subject_type : string;
  sa_subject_id : string;
  sa_correlation_id : string;
  sa_trace_id : option string;
  sa_policy_digest : option string;
  sa_before_digest : option string;
  sa_after_digest : option string;
  sa_details : Value;
  sa_occurred_at : DateTime
}.

Record WorkflowStepCommit := mkWorkflowStepCommit {
  wc_fence : WorkflowStepFence;
  wc_commit_digest : string;
  wc_job_result : option Value;
  wc_work_item_state : string;
  wc_workflow_state : string;
  wc_workflow_event_cursor : Z;
  wc_accountability : AccountabilityReplacement;
  wc_jobs : list StepWorkflowJob;
  wc_timers : list StepWorkflowTimer;
  wc_effects : list StepEffectIntent;
  wc_outbox : list StepOutboxMessage;
  wc_audit_events : list StepAuditEvent
}.

(** [json!({"workflow_step_commit_digest": …, "result": …})]. *)
Definition stored_result (c : WorkflowStepCommit) : Value :=
  Object [("workflow_step_commit_digest", VString (wc_commit_digest c));
          ("result", default Null (wc_job_result c))].

Inductive WorkflowStepCommitOutcome :=
| StepApplied (work_item_version workflow_version workflow_fence_token anchor_generation : Z)
| AlreadyApplied.

(** ** Validation *)

(** A lowercase digest, as [validate_digest] reads it byte by byte. *)
Definition validate_digest (value label : string) : res unit :=
  let valid := (len value =? 71) && starts_with "sha256:" value
    && forallb (λ b, is_ascii_digit b || ((97 <=? b) && (b <=? 102))) (drop 7 (bytes value)) in
  bail_if (negb valid) (Validation [Disp label; Lit " must be a lowercase sha256 digest"]).

Definition validate_job (j : StepWorkflowJob) : res unit :=
  bail_if (is_nil (sj_id j) || nil_binding (sj_attempt_id j) || blank (sj_job_type j)
           || blank (sj_idempotency_key j) || negb (is_object (sj_payload j))
           || (sj_max_attempts j <=? 0))
    (Validation [Lit "workflow-step child job is invalid"]) ;;
  bail_if (negb (is_valid_activity_contract_id (sj_activity_contract_id j)))
    (Validation [Lit "workflow-step child job activity contract id ";
                 Dbg (sj_activity_contract_id j); Lit " is invalid"]).

Definition validate_timer (t : StepWorkflowTimer) : res unit :=
  bail_if (is_nil (tm_id t) || nil_binding (tm_attempt_id t) || blank (tm_workflow_key t)
           || blank (tm_timer_key t) || blank (tm_timer_type t) || negb (is_object (tm_payload t))
           || (tm_generation t <=? 0))
    (Validation [Lit "workflow-step timer is invalid"]) ;;
  bail_if (negb (is_valid_activity_contract_id (tm_activity_contract_id t)))
    (Validation [Lit "workflow-step timer activity contract id "; Dbg (tm_activity_contract_id t);
                 Lit " is invalid"]).

Definition validate_outbox (m : StepOutboxMessage) : res unit :=
  bail_if (is_nil (om_id m) || blank (om_topic m) || blank (om_message_key m)
           || blank (om_event_type m) || blank (om_idempotency_key m)
           || negb (is_object (om_headers m)))
    (Validation [Lit "workflow-step outbox message is invalid"]).

Definition validate_audit (a : StepAuditEvent) : res unit :=
  bail_if (is_nil (sa_id a) || nil_binding (sa_attempt_id a) || blank (sa_actor_type a)
           || blank (sa_actor_id a) || blank (sa_action a) || blank (sa_subject_type a)
           || blank (sa_subject_id a) || blank (sa_correlation_id a)
           || negb (is_object (sa_details a)))
    (Validation [Lit "workflow-step audit event is invalid"]) ;;
  try_for [ (sa_policy_digest a, "audit policy digest"); (sa_before_digest a, "audit before digest");
            (sa_after_digest a, "audit after digest") ]
    (λ '(value, label), match value with
       | Some value => validate_digest value label
       | None => Ok tt
       end).

Definition WORK_ITEM_STATES : list string :=
  [ "DISCOVERED"; "READINESS_PENDING"; "NEEDS_SPEC"; "READY"; "ACCEPTED"; "PLANNED"; "SCHEDULED";
    "DISPATCHING"; "RUNNING"; "VERIFYING_OUTCOME"; "TARGET_REACHED"; "CLOSING_SOURCE"; "CLOSED";
    "WAITING_DEPENDENCY"; "WAITING_APPROVAL"; "RETRY_SCHEDULED"; "BLOCKED_EXTERNAL";
    "BUDGET_EXHAUSTED"; "REFUSED"; "QUARANTINED"; "CANCEL_REQUESTED"; "CANCELLED"; "ESCALATED" ].

Definition validate_work_item_state (state : string) : res unit :=
  bail_if (negb (mem state WORK_ITEM_STATES))
    (Validation [Lit "unsupported work-item state "; Disp state]).

Definition validate_workflow_state (state : string) : res unit :=
  bail_if (negb (mem state ["ACTIVE"; "WAITING"; "COMPLETED"; "FAILED"; "CANCELLED"]))
    (Validation [Lit "unsupported workflow state "; Disp state]).

Definition anchor_compatible (state : string) (kind : LedgerAccountabilityKind) : bool :=
  if bool_decide (state = "CLOSED") then bool_decide (kind = LedgerAccountabilityKind.Closure)
  else if bool_decide (state = "CANCELLED") then bool_decide (kind = LedgerAccountabilityKind.Cancellation)
  else if bool_decide (state = "WAITING_APPROVAL") then bool_decide (kind = LedgerAccountabilityKind.Approval)
  else if bool_decide (state = "RETRY_SCHEDULED") then bool_decide (kind = LedgerAccountabilityKind.Retry)
  else if bool_decide (state = "ESCALATED") then bool_decide (kind = LedgerAccountabilityKind.Escalation)
  else true.

Definition validate_anchor_state_compatibility (state : string) (kind : LedgerAccountabilityKind)
  : res unit :=
  bail_if (negb (anchor_compatible state kind))
    (Validation [Lit "work-item state "; Disp state; Lit " is incompatible with ";
                 Disp (as_sql kind); Lit " accountability"]).

(** ** Tables *)

Record WorkItemRow := mkWorkItemRow {
  wi_row_state : string;
  wi_row_version : Z;
  wi_row_closed_at : option DateTime
}.

Record WorkflowRow := mkWorkflowRow {
  wf_row_work_item_id : Uuid;
  wf_row_state : string;
  wf_row_event_cursor : Z;
  wf_row_fence_token : Z;
  wf_row_version : Z;
  wf_row_terminal_at : option DateTime
}.

Record AnchorRow := mkAnchorRow {
  an_anchor_type : string;
  an_reference_id : Uuid;
  an_wake_or_deadline_at : option DateTime;
  an_authority_or_effect_active : bool;
  an_generation : Z
}.

(** Rows of [workflow_timers], of the request columns of [effect_intents] and of
    [outbox], with the columns that a step adds to its own. *)
Record TimerRow := mkTimerRow {
  tr_tenant_id : Uuid;
  tr_workflow_instance_id : Uuid;
  tr_work_item_id : Uuid;
  tr_timer : StepWorkflowTimer
}.

Record IntentRow := mkIntentRow {
  ir_tenant_id : Uuid;
  ir_work_item_id : Uuid;
  ir_intent : StepEffectIntent
}.

Record OutboxRow := mkOutboxRow {
  or_tenant_id : Uuid;
  or_message : StepOutboxMessage
}.

Record StepTables := mkStepTables {
  sx_queue : Queue;
  sx_work_items : gmap (Uuid * Uuid) WorkItemRow;
  sx_workflows : gmap (Uuid * Uuid) WorkflowRow;
  sx_anchors : gmap (Uuid * Uuid) AnchorRow;
  sx_timers : list TimerRow;
  sx_intents : list IntentRow;
  sx_outbox : list OutboxRow;
  sx_audit : list HashedAuditEvent
}.

Definition set_queue (q : Queue) (s : StepTables) : StepTables :=
  mkStepTables q (sx_work_items s) (sx_workflows s) (sx_anchors s) (sx_timers s) (sx_intents s)
    (sx_outbox s) (sx_audit s).
Definition set_work_items m (s : StepTables) : StepTables :=
  mkStepTables (sx_queue s) m (sx_workflows s) (sx_anchors s) (sx_timers s) (sx_intents s)
    (sx_outbox s) (sx_audit s).
Definition set_workflows m (s : StepTables) : StepTables :=
  mkStepTables (sx_queue s) (sx_work_items s) m (sx_anchors s) (sx_timers s) (sx_intents s)
    (sx_outbox s) (sx_audit s).
Definition set_anchors m (s : StepTables) : StepTables :=
  mkStepTables (sx_queue s) (sx_work_items s) (sx_workflows s) m (sx_timers s) (sx_intents s)
    (sx_outbox s) (sx_audit s).
Definition set_timers l (s : StepTables) : StepTables :=
  mkStepTables (sx_queue s) (sx_work_items s) (sx_workflows s) (sx_anchors s) l (sx_intents s)
    (sx_outbox s) (sx_audit s).
Definition set_intents l (s : StepTables) : StepTables :=
  mkStepTables (sx_queue s) (sx_work_items s) (sx_workflows s) (sx_anchors s) (sx_timers s) l
    (sx_outbox s) (sx_audit s).
Definition set_outbox l (s : StepTables) : StepTables :=
  mkStepTables (sx_queue s) (sx_work_items s) (sx_workflows s) (sx_anchors s) (sx_timers s)
    (sx_intents s) l (sx_audit s).
Definition set_audit l (s : StepTables) : StepTables :=
  mkStepTables (sx_queue s) (sx_work_items s) (sx_workflows s) (sx_anchors s) (sx_timers s)
    (sx_intents s) (sx_outbox s) l.

(** [INSERT … ON CONFLICT (key) DO UPDATE SET id = id WHERE <same row>
    RETURNING id]: the rows afterwards, [None] when the key is taken by another
    request.  A new row whose identifier is taken violates the primary key. *)
Definition insert_same {A} (context : string) (key id same : A → bool) (row : A) (rows : list A)
  : res (option (list A)) :=
  match find key rows with
  | Some existing => Ok (if id existing && same existing then Some rows else None)
  | None =>
      bail_if (existsb id rows) (Persistence [Lit context]) ;; Ok (Some (rows ++ [row]))
  end.

Definition stale_step_error (job_id : Uuid) : Error :=
  Conflict [Lit "workflow job "; FmtUuid job_id;
            Lit " lease, owner, fence, or aggregate binding is stale"].

Definition idempotency_conflict (kind key : string) : Error :=
  Conflict [Disp kind; Lit " idempotency key "; Disp key;
            Lit " was reused for different semantics"].

(** [serde_json::from_value::<RunmillSignedWorkOrderV1>]. *)
Class RunmillOrderJson := { signed_order_from_value : Value → string + RunmillSignedWorkOrderV1 }.

Section steps.
  Context {pg : PgColumns} {jsonb : Jsonb} {uuids : UuidText} {hashing : Hashing}.
  Context {audit_jcs : Canonical AuditEventContent}.
  Context {order_jcs : Canonical RunmillWorkOrderV1}.
  Context {envelope_jcs : Canonical RunmillSignedWorkOrderV1}.
  Context {order_value : ToValue RunmillWorkOrderV1} {order_json : RunmillOrderJson}.

(** The part of [validate_effect] about a submission. *)
Definition validate_submission (e : StepEffectIntent) (binding : RunmillSubmissionEffectBinding)
    (tenant_id work_item_id : Uuid) : res unit :=
  bail_if (is_nil (sb_work_order_id binding) || is_none (sei_attempt_id e))
    (Validation [Lit "Runmill submission effect requires a non-nil Work Order and attempt"]) ;;
  validate_digest (sb_work_order_digest binding) "Runmill submission Work Order digest" ;;
  envelope ← map_err (signed_order_from_value (sei_request_payload e)) (λ error,
    Validation [Lit "Runmill submission request is not an exact signed Work Order envelope: ";
                Disp error]);
  canonical_envelope ← RunmillSignedWorkOrderV1_canonical_bytes envelope;
  attempt_id ← match sei_attempt_id e with Some id => Ok id | None => Panic end;
  let contradiction :=
    Validation [Lit "Runmill submission request contradicts its immutable Work Order binding"] in
  bail_if (negb (bool_decide (rw_work_order_id (rso_payload envelope)
                              = uuid_to_string (sb_work_order_id binding)))
           || negb (bool_decide (rw_tenant_id (rso_payload envelope) = uuid_to_string tenant_id))
           || negb (bool_decide (rw_work_item_id (rso_payload envelope)
                                 = uuid_to_string work_item_id))
           || negb (bool_decide (rw_attempt_id (rso_payload envelope) = uuid_to_string attempt_id)))
    contradiction ;;
  digest ← payload_digest envelope;
  bail_if (negb (bool_decide (digest = sb_work_order_digest binding))
           || negb (bool_decide (sha256_digest canonical_envelope = sei_request_digest e)))
    contradiction.

Definition is_runmill_submission (e : StepEffectIntent) : bool :=
  bool_decide (sei_provider e = "runmill") && bool_decide (sei_effect_type e = "submit_work_order").

Definition validate_effect (e : StepEffectIntent) (tenant_id work_item_id : Uuid) : res unit :=
  bail_if (is_nil (sei_id e) || nil_binding (sei_attempt_id e) || blank (sei_provider e)
           || blank (sei_effect_type e) || blank (sei_idempotency_key e)
           || negb (is_object (sei_request_payload e)))
    (Validation [Lit "workflow-step effect intent is invalid"]) ;;
  validate_digest (sei_request_digest e) "effect request digest" ;;
  bail_if (negb (Bool.eqb (is_runmill_submission e) (is_some (sei_runmill_submission e))))
    (Validation [Lit "only a Runmill submission effect must carry an immutable Work Order binding"]) ;;
  match sei_runmill_submission e with
  | Some binding => validate_submission e binding tenant_id work_item_id
  | None => Ok tt
  end.

Definition WorkflowStepCommit_validate (c : WorkflowStepCommit) : res unit :=
  WorkflowStepFence_validate (wc_fence c) ;;
  AccountabilityReplacement_validate (wc_accountability c) ;;
  validate_digest (wc_commit_digest c) "workflow-step commit digest" ;;
  validate_work_item_state (wc_work_item_state c) ;;
  validate_workflow_state (wc_workflow_state c) ;;
  bail_if (wc_workflow_event_cursor c <? 0)
    (Validation [Lit "workflow event cursor cannot be negative"]) ;;
  bail_if match wc_audit_events c with [] => true | _ => false end
    (Validation [Lit "a workflow-step commit must contain an audit event"]) ;;
  try_for (wc_jobs c) validate_job ;;
  try_for (wc_timers c) validate_timer ;;
  try_for (wc_effects c) (λ effect, validate_effect effect (sf_tenant_id (wc_fence c))
                                      (sf_work_item_id (wc_fence c))) ;;
  try_for (wc_outbox c) validate_outbox ;;
  try_for (wc_audit_events c) validate_audit ;;
  validate_anchor_state_compatibility (wc_work_item_state c) (ar_kind (wc_accountability c)).

(** ** The claim *)

Definition lock_step_job (f : WorkflowStepFence) (s : StepTables) : res JobRow :=
  load_job (sf_tenant_id f) (sf_job_id f) (sx_queue s).

Definition require_step_binding (job : JobRow) (f : WorkflowStepFence) : res unit :=
  bail_if (negb (bool_decide (jb_workflow_instance_id job = Some (sf_workflow_instance_id f))
                 && bool_decide (jb_work_item_id job = Some (sf_work_item_id f))))
    (stale_step_error (sf_job_id f)).

Definition completed_step_matches (job : JobRow) (f : WorkflowStepFence) (result : Value)
  : res bool :=
  if negb (bool_decide (jb_status job = "COMPLETED")) then Ok false
  else if bool_decide (((λ c, c.1.1) <$> jb_completion job) = Some (sf_lease_owner f))
          && bool_decide (((λ c, c.1.2) <$> jb_completion job) = Some (sf_job_fence_token f))
  then
    if match jb_result job with Some v => value_eqb (stored_value v) result | None => false end
    then Ok true
    else Err (Conflict [Lit "workflow job "; FmtUuid (sf_job_id f);
                        Lit " was completed with a different semantic commit"])
  else Err (stale_step_error (sf_job_id f)).

(** Status, owner and fence of the claim. *)
Definition owned_claim (f : WorkflowStepFence) (job : JobRow) : bool :=
  bool_decide (jb_status job = "RUNNING")
  && bool_decide ((fst <$> jb_lease job) = Some (sf_lease_owner f))
  && (jb_fence_token job =? sf_job_fence_token f).

Definition require_owned_claim (job : JobRow) (f : WorkflowStepFence) : res unit :=
  bail_if (negb (owned_claim f job)) (stale_step_error (sf_job_id f)).

Definition require_live_claim (job : JobRow) (f : WorkflowStepFence) (now : DateTime) : res unit :=
  require_owned_claim job f ;;
  bail_if (negb match jb_lease job with Some (_, ends) => now <? ends | None => false end)
    (stale_step_error (sf_job_id f)).

(** ** The statements of a commit *)

Definition stale_work_item (f : WorkflowStepFence) : Error :=
  Conflict [Lit "work item "; FmtUuid (sf_work_item_id f); Lit " aggregate version is stale"].
Definition stale_workflow (f : WorkflowStepFence) : Error :=
  Conflict [Lit "workflow "; FmtUuid (sf_workflow_instance_id f);
            Lit " aggregate version or fence is stale"].

(** The expected rows of the aggregates. *)
Definition select_work_item (f : WorkflowStepFence) (s : StepTables) : option WorkItemRow :=
  row ← sx_work_items s !! (sf_tenant_id f, sf_work_item_id f);
  if wi_row_version row =? sf_expected_work_item_version f then Some row else None.

Definition select_workflow (f : WorkflowStepFence) (s : StepTables) : option WorkflowRow :=
  row ← sx_workflows s !! (sf_tenant_id f, sf_workflow_instance_id f);
  if bool_decide (wf_row_work_item_id row = sf_work_item_id f)
     && (wf_row_version row =? sf_expected_workflow_version f)
     && (wf_row_fence_token row =? sf_expected_workflow_fence_token f)
  then Some row else None.

Definition lock_step_aggregates (f : WorkflowStepFence) (s : StepTables) : res unit :=
  bail_if (is_none (select_work_item f s)) (stale_work_item f) ;;
  bail_if (is_none (select_workflow f s)) (stale_workflow f).

(** The row that [INSERT_STEP_JOB_SQL] binds. *)
Definition child_job (f : WorkflowStepFence) (j : StepWorkflowJob) : NewWorkflowJob :=
  {| nj_id := sj_id j; nj_tenant_id := sf_tenant_id f;
     nj_workflow_instance_id := Some (sf_workflow_instance_id f);
     nj_work_item_id := Some (sf_work_item_id f); nj_attempt_id := sj_attempt_id j;
     nj_job_type := sj_job_type j; nj_activity_contract_id := sj_activity_contract_id j;
     nj_payload := sj_payload j; nj_idempotency_key := sj_idempotency_key j;
     nj_priority := sj_priority j; nj_available_at := sj_available_at j;
     nj_max_attempts := sj_max_attempts j |}.

Definition insert_workflow_job (f : WorkflowStepFence) (now : DateTime) (s : StepTables)
    (j : StepWorkflowJob) : res StepTables :=
  let child := child_job f j in
  match row_by_key (sf_tenant_id f) (sj_idempotency_key j) (sx_queue s) with
  | Some (id, row) =>
      bail_if (negb (bool_decide (id = sj_id j) && request_matches row child))
        (idempotency_conflict "workflow job" (sj_idempotency_key j)) ;; Ok s
  | None =>
      bail_if (is_some (q_jobs (sx_queue s) !! sj_id j))
        (Persistence [Lit "insert workflow-step job"]) ;;
      Ok (set_queue (mkQueue (<[sj_id j := new_row now child]> (q_jobs (sx_queue s)))
                       (q_effects (sx_queue s))) s)
  end.

(** [row.is_none()] is a conflict. *)
Definition require_inserted {A} (inserted : res (option (list A))) (kind key : string)
    (store : list A → StepTables) : res StepTables :=
  rows ← inserted; rows ← ok_or rows (idempotency_conflict kind key); Ok (store rows).

Definition insert_workflow_timer (f : WorkflowStepFence) (s : StepTables) (t : StepWorkflowTimer)
  : res StepTables :=
  require_inserted
    (insert_same "insert workflow-step timer"
       (λ r, bool_decide (tr_tenant_id r = sf_tenant_id f)
             && bool_decide (tm_workflow_key (tr_timer r) = tm_workflow_key t)
             && bool_decide (tm_timer_key (tr_timer r) = tm_timer_key t))
       (λ r, bool_decide (tm_id (tr_timer r) = tm_id t))
       (λ r, bool_decide (tr_workflow_instance_id r = sf_workflow_instance_id f)
             && bool_decide (tr_work_item_id r = sf_work_item_id f)
             && bool_decide (tm_attempt_id (tr_timer r) = tm_attempt_id t)
             && bool_decide (tm_timer_type (tr_timer r) = tm_timer_type t)
             && bool_decide (tm_activity_contract_id (tr_timer r) = tm_activity_contract_id t)
             && (stored_at (tm_due_at (tr_timer r)) =? stored_at (tm_due_at t))
             && jsonb_eqb (tm_payload (tr_timer r)) (tm_payload t)
             && (tm_generation (tr_timer r) =? tm_generation t))
       (mkTimerRow (sf_tenant_id f) (sf_workflow_instance_id f) (sf_work_item_id f) t) (sx_timers s))
    "workflow timer" (tm_workflow_key t +:+ ":" +:+ tm_timer_key t) (λ rows, set_timers rows s).

Definition insert_effect_intent (f : WorkflowStepFence) (s : StepTables) (e : StepEffectIntent)
  : res StepTables :=
  require_inserted
    (insert_same "insert workflow-step effect intent"
       (λ r, bool_decide (ir_tenant_id r = sf_tenant_id f)
             && bool_decide (sei_idempotency_key (ir_intent r) = sei_idempotency_key e))
       (λ r, bool_decide (sei_id (ir_intent r) = sei_id e))
       (λ r, bool_decide (ir_work_item_id r = sf_work_item_id f)
             && bool_decide (sei_attempt_id (ir_intent r) = sei_attempt_id e)
             && bool_decide (sei_provider (ir_intent r) = sei_provider e)
             && bool_decide (sei_effect_type (ir_intent r) = sei_effect_type e)
             && bool_decide (sei_correlation_marker (ir_intent r) = sei_correlation_marker e)
             && bool_decide (sei_request_digest (ir_intent r) = sei_request_digest e)
             && jsonb_eqb (sei_request_payload (ir_intent r)) (sei_request_payload e)
             && bool_decide ((sb_work_order_id <$> sei_runmill_submission (ir_intent r))
                             = (sb_work_order_id <$> sei_runmill_submission e))
             && bool_decide ((sb_work_order_digest <$> sei_runmill_submission (ir_intent r))
                             = (sb_work_order_digest <$> sei_runmill_submission e))
             && (stored_at (sei_next_attempt_at (ir_intent r)) =? stored_at (sei_next_attempt_at e)))
       (mkIntentRow (sf_tenant_id f) (sf_work_item_id f) e) (sx_intents s))
    "effect intent" (sei_idempotency_key e) (λ rows, set_intents rows s).

Definition insert_outbox_message (tenant_id : Uuid) (s : StepTables) (m : StepOutboxMessage)
  : res StepTables :=
  require_inserted
    (insert_same "insert workflow-step outbox message"
       (λ r, bool_decide (or_tenant_id r = tenant_id)
             && bool_decide (om_idempotency_key (or_message r) = om_idempotency_key m))
       (λ r, bool_decide (om_id (or_message r) = om_id m))
       (λ r, bool_decide (om_topic (or_message r) = om_topic m)
             && bool_decide (om_message_key (or_message r) = om_message_key m)
             && bool_decide (om_event_type (or_message r) = om_event_type m)
             && jsonb_eqb (om_payload (or_message r)) (om_payload m)
             && jsonb_eqb (om_headers (or_message r)) (om_headers m)
             && (stored_at (om_available_at (or_message r)) =? stored_at (om_available_at m)))
       (mkOutboxRow tenant_id m) (sx_outbox s))
    "outbox message" (om_idempotency_key m) (λ rows, set_outbox rows s).

(** [LOAD_AUDIT_CHAIN_HEAD_SQL]: an event of the tenant that no other follows. *)
Definition audit_head (tenant_id : Uuid) (events : list HashedAuditEvent) : option string :=
  he_event_hash <$> find (λ e,
    bool_decide (ae_tenant_id (he_content e) = tenant_id)
    && negb (existsb (λ successor,
         bool_decide (ae_tenant_id (he_content successor) = tenant_id)
         && bool_decide (ae_previous_event_hash (he_content successor) = Some (he_event_hash e)))
       events)) events.

Definition canonical_step_audit_event (f : WorkflowStepFence) (a : StepAuditEvent)
    (previous_event_hash : option string) : res HashedAuditEvent :=
  HashedAuditEvent_create
    {| ae_id := sa_id a; ae_tenant_id := sf_tenant_id f; ae_work_item_id := Some (sf_work_item_id f);
       ae_attempt_id := sa_attempt_id a; ae_actor_type := sa_actor_type a;
       ae_actor_id := sa_actor_id a; ae_action := sa_action a; ae_subject_type := sa_subject_type a;
       ae_subject_id := sa_subject_id a; ae_correlation_id := sa_correlation_id a;
       ae_trace_id := sa_trace_id a; ae_policy_digest := sa_policy_digest a;
       ae_before_digest := sa_before_digest a; ae_after_digest := sa_after_digest a;
       ae_previous_event_hash := previous_event_hash; ae_details := sa_details a;
       ae_occurred_at := sa_occurred_at a |}.

(** The row as it is read back. *)
Definition stored_event (e : HashedAuditEvent) : HashedAuditEvent :=
  let c := he_content e in
  mkHashedAuditEvent
    {| ae_id := ae_id c; ae_tenant_id := ae_tenant_id c; ae_work_item_id := ae_work_item_id c;
       ae_attempt_id := ae_attempt_id c; ae_actor_type := ae_actor_type c;
       ae_actor_id := ae_actor_id c; ae_action := ae_action c;
       ae_subject_type := ae_subject_type c; ae_subject_id := ae_subject_id c;
       ae_correlation_id := ae_correlation_id c; ae_trace_id := ae_trace_id c;
       ae_policy_digest := ae_policy_digest c; ae_before_digest := ae_before_digest c;
       ae_after_digest := ae_after_digest c; ae_previous_event_hash := ae_previous_event_hash c;
       ae_details := stored_value (ae_details c); ae_occurred_at := stored_at (ae_occurred_at c) |}
    (he_event_hash e).

Definition insert_audit_event (f : WorkflowStepFence) (s : StepTables) (a : StepAuditEvent)
  : res StepTables :=
  event ← canonical_step_audit_event f a (audit_head (sf_tenant_id f) (sx_audit s));
  HashedAuditEvent_verify event ;;
  bail_if (existsb (λ e, bool_decide (ae_tenant_id (he_content e) = sf_tenant_id f)
                         && bool_decide (he_event_hash e = he_event_hash event)) (sx_audit s))
    (idempotency_conflict "audit event" (he_event_hash event)) ;;
  bail_if (existsb (λ e, bool_decide (ae_id (he_content e) = sa_id a)) (sx_audit s))
    (Persistence [Lit "insert workflow-step audit event"]) ;;
  Ok (set_audit (sx_audit s ++ [stored_event event]) s).

(** [aggregate_version + 1] of a [bigint] column. *)
Definition next_version (context : string) (version : Z) : res Z :=
  ok_or (checked_add i64_max version 1) (Persistence [Lit context]).

Definition update_work_item (f : WorkflowStepFence) (state : string) (now : DateTime)
    (s : StepTables) : res (StepTables * Z) :=
  row ← ok_or (select_work_item f s) (stale_work_item f);
  version ← next_version "advance workflow-step work item" (wi_row_version row);
  let row' := mkWorkItemRow state version
    (if bool_decide (state = "CLOSED") then Some (default now (wi_row_closed_at row))
     else wi_row_closed_at row) in
  Ok (set_work_items (<[(sf_tenant_id f, sf_work_item_id f) := row']> (sx_work_items s)) s, version).

Definition update_workflow (f : WorkflowStepFence) (state : string) (event_cursor : Z)
    (now : DateTime) (s : StepTables) : res (StepTables * (Z * Z)) :=
  row ← ok_or (select_workflow f s) (stale_workflow f);
  fence ← next_version "advance workflow-step instance" (wf_row_fence_token row);
  version ← next_version "advance workflow-step instance" (wf_row_version row);
  let row' := mkWorkflowRow (wf_row_work_item_id row) state event_cursor fence version
    (if mem state ["COMPLETED"; "FAILED"; "CANCELLED"]
     then Some (default now (wf_row_terminal_at row)) else None) in
  Ok (set_workflows (<[(sf_tenant_id f, sf_workflow_instance_id f) := row']> (sx_workflows s)) s,
      (version, fence)).

(** [REPLACE_ACCOUNTABILITY_SQL]: the expected generation is that of the current
    anchor, or zero when there is none. *)
Definition replace_accountability (f : WorkflowStepFence) (a : AccountabilityReplacement)
    (s : StepTables) : res (StepTables * Z) :=
  new_generation ← ok_or (checked_add i64_max (sf_expected_anchor_generation f) 1)
    (Conflict [Lit "accountability generation overflowed"]);
  let matches_ := match sx_anchors s !! (sf_tenant_id f, sf_work_item_id f) with
    | Some current => an_generation current =? sf_expected_anchor_generation f
    | None => sf_expected_anchor_generation f =? 0
    end in
  bail_if (negb matches_)
    (Conflict [Lit "work item "; FmtUuid (sf_work_item_id f);
               Lit " accountability generation is stale"]) ;;
  let row := mkAnchorRow (as_sql (ar_kind a)) (ar_reference_id a) (stored_at <$> ar_wake_or_deadline_at a)
    (ar_authority_or_effect_active a) new_generation in
  Ok (set_anchors (<[(sf_tenant_id f, sf_work_item_id f) := row]> (sx_anchors s)) s, new_generation).

(** [COMPLETE_STEP_JOB_SQL]. *)
Definition complete_step_job (f : WorkflowStepFence) (result : Value) (now : DateTime)
    (s : StepTables) : res StepTables :=
  updated ← update_claim "complete fenced workflow step" (sf_job_id f)
    (λ row, bool_decide (jb_tenant_id row = sf_tenant_id f) && owned_claim f row)
    (completed_row (sf_lease_owner f) (sf_job_fence_token f) (Some result) now) (sx_queue s);
  q ← ok_or updated (stale_step_error (sf_job_id f));
  Ok (set_queue q s).

(** [for row in rows { insert(row)? }]. *)
Definition insert_all {A} (insert : StepTables → A → res StepTables) (rows : list A)
    (s : StepTables) : res StepTables := try_fold rows s insert.

(** The writes of a commit, once the claim is checked. *)
Definition write_step (c : WorkflowStepCommit) (now : DateTime) (s : StepTables)
  : res (StepTables * WorkflowStepCommitOutcome) :=
  let f := wc_fence c in
  lock_step_aggregates f s ;;
  s ← insert_all (insert_workflow_job f now) (wc_jobs c) s;
  s ← insert_all (insert_workflow_timer f) (wc_timers c) s;
  s ← insert_all (insert_effect_intent f) (wc_effects c) s;
  s ← insert_all (insert_outbox_message (sf_tenant_id f)) (wc_outbox c) s;
  s ← insert_all (insert_audit_event f) (wc_audit_events c) s;
  '(s, work_item_version) ← update_work_item f (wc_work_item_state c) now s;
  '(s, (workflow_version, workflow_fence_token)) ←
    update_workflow f (wc_workflow_state c) (wc_workflow_event_cursor c) now s;
  '(s, anchor_generation) ← replace_accountability f (wc_accountability c) s;
  s ← complete_step_job f (stored_result c) now s;
  Ok (s, StepApplied work_item_version workflow_version workflow_fence_token anchor_generation).

Definition commit_workflow_step_inner (claim_was_prelocked_live : bool) (c : WorkflowStepCommit)
    (now : DateTime) (s : StepTables) : res (StepTables * WorkflowStepCommitOutcome) :=
  WorkflowStepCommit_validate c ;;
  job ← lock_step_job (wc_fence c) s;
  require_step_binding job (wc_fence c) ;;
  matches_ ← completed_step_matches job (wc_fence c) (stored_result c);
  if matches_ : bool then Ok (s, AlreadyApplied)
  else
    (if claim_was_prelocked_live then require_owned_claim job (wc_fence c)
     else require_live_claim job (wc_fence c) now) ;;
    write_step c now s.

Definition commit_workflow_step := commit_workflow_step_inner false.
Definition commit_workflow_step_with_prelocked_claim := commit_workflow_step_inner true.
End steps.
