(* ===== verification/StepFacts.v ===== *)
(** What a workflow step guarantees ([Steps]): it writes everything or nothing,
    once per claim and per version of its aggregates, and it extends the audit
    chain of its tenant, which keeps verifying. *)

From Stdlib Require Import ZArith Lia.
From stdpp Require Import base tactics option list strings gmap.
From S2P Require Import Prelude RustStr RustOrd Ids Crypto Security AuditChain RunEvents JobQueue JobQueueFacts RunmillOrder Steps.

(** ** Loops over the rows of a step *)

Section loops.
  Context {A S : Type} (body : S → A → res S).

Lemma try_fold_rel (R : S → S → Prop) l s s' :
  (∀ s, R s s) → (∀ a b c, R a b → R b c → R a c) →
  (∀ s x s', x ∈ l → body s x = Ok s' → R s s') → try_fold l s body = Ok s' → R s s'.
Proof.
  intros Hr Ht. revert s. induction l as [|x l IH]; intros s Hb H; simpl in H.
  - injection H as <-. apply Hr.
  - apply bind_ok in H as (s1 & H1 & H). eapply Ht; [eapply Hb; [left|done]|].
    apply IH; [|done]. intros a y b Hy. apply Hb. by right.
Qed.

Lemma try_fold_each (P : A → S → Prop) l s s' :
  (∀ s x s', body s x = Ok s' → P x s') →
  (∀ s x s' y, body s x = Ok s' → P y s → P y s') →
  try_fold l s body = Ok s' → ∀ x, x ∈ l → P x s'.
Proof.
  intros Hp Hk. assert (∀ l s s' y, try_fold l s body = Ok s' → P y s → P y s') as Hall.
  { clear l s s'. intros l. induction l as [|x l IH]; intros s s' y H Hy; simpl in H.
    - by injection H as <-.
    - apply bind_ok in H as (s1 & H1 & H). eapply IH; [done|]. by eapply Hk. }
  revert s. induction l as [|x l IH]; intros s H y Hy; simpl in H; [by apply elem_of_nil in Hy|].
  apply bind_ok in H as (s1 & H1 & H). apply elem_of_cons in Hy as [->|Hy].
  - eapply Hall; [done|]. by eapply Hp.
  - by eapply IH.
Qed.
End loops.

(** ** Frames *)

Section facts.
  Context {pg : PgColumns} {jsonb : Jsonb} {uuids : UuidText} {hashing : Hashing}.
  Context {audit_jcs : Canonical AuditEventContent}.
  Context {order_jcs : Canonical RunmillWorkOrderV1}.
  Context {envelope_jcs : Canonical RunmillSignedWorkOrderV1}.
  Context {order_value : ToValue RunmillWorkOrderV1} {order_json : RunmillOrderJson}.

(** Inserting rows changes none of the aggregates, keeps every row there is and
    touches the claims of no effect. *)
Record extends (s s' : StepTables) : Prop := {
  xt_work_items : sx_work_items s' = sx_work_items s;
  xt_workflows : sx_workflows s' = sx_workflows s;
  xt_anchors : sx_anchors s' = sx_anchors s;
  xt_effects : q_effects (sx_queue s') = q_effects (sx_queue s);
  xt_jobs id row : q_jobs (sx_queue s) !! id = Some row → q_jobs (sx_queue s') !! id = Some row;
  xt_timers : sx_timers s `prefix_of` sx_timers s';
  xt_intents : sx_intents s `prefix_of` sx_intents s';
  xt_outbox : sx_outbox s `prefix_of` sx_outbox s';
  xt_audit : sx_audit s `prefix_of` sx_audit s'
}.

Lemma extends_refl s : extends s s.
Proof. by constructor. Qed.

Lemma extends_trans s1 s2 s3 : extends s1 s2 → extends s2 s3 → extends s1 s3.
Proof.
  intros [A1 A2 A3 A4 A5 A6 A7 A8 A9] [B1 B2 B3 B4 B5 B6 B7 B8 B9].
  constructor; try congruence; try (by etrans). auto.
Qed.

Lemma insert_same_ok {A} context key id same (row : A) rows rows' :
  insert_same context key id same row rows = Ok (Some rows') →
  rows `prefix_of` rows' ∧ (rows' = rows ++ [row] ∨
    ∃ r, r ∈ rows' ∧ key r = true ∧ id r = true ∧ same r = true).
Proof.
  unfold insert_same. destruct (find key rows) as [r|] eqn:E.
  - intros [= H]. destruct (id r && same r) eqn:Es; [|done]. injection H as <-. split; [done|].
    right. apply find_some in E as [Hin Hk]. apply list_elem_of_In in Hin.
    apply andb_true_iff in Es as [? ?]. eauto.
  - intros H. apply bind_unit_ok in H as [_ [= <-]]. split; [by apply prefix_app_r|]. by left.
Qed.

Lemma require_inserted_ok {A} inserted kind key (store : list A → StepTables) s' :
  require_inserted inserted kind key store = Ok s' →
  ∃ rows, inserted = Ok (Some rows) ∧ s' = store rows.
Proof.
  unfold require_inserted. rewrite bind_ok. intros ([rows|] & -> & H); simpl in H; [|done].
  injection H as <-. eauto.
Qed.

Lemma insert_timer_ok f s t s' :
  insert_workflow_timer f s t = Ok s' → extends s s' ∧
  ∃ r, r ∈ sx_timers s' ∧ tr_tenant_id r = sf_tenant_id f ∧
    tr_workflow_instance_id r = sf_workflow_instance_id f ∧ tr_work_item_id r = sf_work_item_id f ∧
    tm_id (tr_timer r) = tm_id t ∧ tm_workflow_key (tr_timer r) = tm_workflow_key t ∧
    tm_timer_key (tr_timer r) = tm_timer_key t ∧ tm_timer_type (tr_timer r) = tm_timer_type t ∧
    stored_at (tm_due_at (tr_timer r)) = stored_at (tm_due_at t).
Proof.
  intros H. apply require_inserted_ok in H as (rows & H & ->).
  apply insert_same_ok in H as [Hp H]. split; [by constructor|]. simpl.
  destruct H as [->|(r & Hin & Hk & Hi & Hs)].
  - eexists. rewrite elem_of_app, list_elem_of_singleton. split; [by right|]. by simpl.
  - exists r. reflect. tauto.
Qed.

Lemma insert_intent_ok f s e s' :
  insert_effect_intent f s e = Ok s' → extends s s' ∧
  ∃ r, r ∈ sx_intents s' ∧ ir_tenant_id r = sf_tenant_id f ∧ ir_work_item_id r = sf_work_item_id f ∧
    sei_id (ir_intent r) = sei_id e ∧ sei_idempotency_key (ir_intent r) = sei_idempotency_key e ∧
    sei_provider (ir_intent r) = sei_provider e ∧ sei_effect_type (ir_intent r) = sei_effect_type e ∧
    sei_request_digest (ir_intent r) = sei_request_digest e.
Proof.
  intros H. apply require_inserted_ok in H as (rows & H & ->).
  apply insert_same_ok in H as [Hp H]. split; [by constructor|]. simpl.
  destruct H as [->|(r & Hin & Hk & Hi & Hs)].
  - eexists. rewrite elem_of_app, list_elem_of_singleton. split; [by right|]. by simpl.
  - exists r. reflect. tauto.
Qed.

Lemma insert_outbox_ok t s m s' :
  insert_outbox_message t s m = Ok s' → extends s s' ∧
  ∃ r, r ∈ sx_outbox s' ∧ or_tenant_id r = t ∧ om_id (or_message r) = om_id m ∧
    om_idempotency_key (or_message r) = om_idempotency_key m ∧ om_topic (or_message r) = om_topic m ∧
    om_event_type (or_message r) = om_event_type m ∧
    jsonb_eqb (om_payload (or_message r)) (om_payload m) = true.
Proof.
  intros H. apply require_inserted_ok in H as (rows & H & ->).
  apply insert_same_ok in H as [Hp H]. split; [by constructor|]. simpl.
  destruct H as [->|(r & Hin & Hk & Hi & Hs)].
  - eexists. rewrite elem_of_app, list_elem_of_singleton. split; [by right|]. simpl.
    split_and!; try done. apply jsonb_eqb_refl.
  - exists r. reflect. tauto.
Qed.

(** The job a step asked for. *)
Definition child_present (f : WorkflowStepFence) (j : StepWorkflowJob) (q : Queue) : Prop :=
  ∃ row, q_jobs q !! sj_id j = Some row ∧ jb_tenant_id row = sf_tenant_id f ∧
    jb_idempotency_key row = sj_idempotency_key j ∧ request_matches row (child_job f j) = true.

Lemma new_row_matches now j : request_matches (new_row now j) j = true.
Proof.
  unfold request_matches, new_row. simpl. by rewrite !bool_decide_true, jsonb_eqb_refl, !Z.eqb_refl by done.
Qed.

Lemma insert_child_ok f now s j s' :
  insert_workflow_job f now s j = Ok s' →
  extends s s' ∧ child_present f j (sx_queue s') ∧
  (s' = s ∨ row_by_key (sf_tenant_id f) (sj_idempotency_key j) (sx_queue s) = None ∧
            q_jobs (sx_queue s) !! sj_id j = None ∧
            sx_queue s' = mkQueue (<[sj_id j := new_row now (child_job f j)]> (q_jobs (sx_queue s)))
                            (q_effects (sx_queue s))).
Proof.
  unfold insert_workflow_job. destruct (row_by_key _ _ _) as [[id row]|] eqn:E; intros H.
  - apply bind_unit_ok in H as [Hg [= <-]]. split; [apply extends_refl|]. split; [|by left].
    unfold row_by_key in E. apply find_some in E as [Hin Hk]. apply list_elem_of_In in Hin.
    apply elem_of_map_to_list in Hin. unfold keyed in Hk. simpl in Hk. reflect.
    destruct Hg as [-> Hm]. exists row. tauto.
  - apply bind_unit_ok in H as [Hn [= <-]]. apply bail_if_ok, is_some_false in Hn.
    split; [|split; [|by right]].
    + constructor; simpl; try done. intros id row Hrow. rewrite lookup_insert_ne; congruence.
    + eexists. simpl. rewrite lookup_insert_eq. split; [done|]. split; [done|]. split; [done|].
      apply new_row_matches.
Qed.

(** ** The audit chain *)

(** The events of a tenant, in the order of insertion. *)
Definition mine (t : Uuid) (events : list HashedAuditEvent) : list HashedAuditEvent :=
  List.filter (λ e, bool_decide (ae_tenant_id (he_content e) = t)) events.

Lemma elem_of_mine t e events : e ∈ mine t events ↔ e ∈ events ∧ ae_tenant_id (he_content e) = t.
Proof. unfold mine. by rewrite elem_of_filter_bool, bool_decide_eq_true. Qed.

Lemma mine_app t l k : mine t (l ++ k) = mine t l ++ mine t k.
Proof. apply List.filter_app. Qed.

(** In a chain exactly the last event has no successor. *)
Lemma chain_successor t l i e :
  chain_ok t l → l !! i = Some e →
  (∃ x, x ∈ l ∧ ae_previous_event_hash (he_content x) = Some (he_event_hash e)) ↔
  (S i < length l)%nat.
Proof.
  intros [_ _ Hh Hl _] Hi. split.
  - intros (x & [j Hj]%list_elem_of_lookup & Hp). rewrite (linked_lookup _ _ _ _ Hl Hj) in Hp.
    destruct j as [|j]; [done|]. apply fmap_Some in Hp as (y & Hy & E).
    assert (i = j) as ->.
    { eapply (NoDup_lookup (he_event_hash <$> l)); [done|..]; rewrite list_lookup_fmap.
      - by rewrite Hi.
      - rewrite Hy. simpl. congruence. }
    apply lookup_lt_Some in Hj. lia.
  - intros Hlt. destruct (lookup_lt_is_Some_2 l (S i)) as [x Hx]; [lia|]. exists x.
    split; [by eapply list_elem_of_lookup_2|]. rewrite (linked_lookup _ _ _ _ Hl Hx). simpl.
    by rewrite Hi.
Qed.

Lemma audit_head_last t events :
  chain_ok t (mine t events) → audit_head t events = he_event_hash <$> last (mine t events).
Proof.
  intros Hc. unfold audit_head. f_equal.
  assert (∀ e, e ∈ events →
    (bool_decide (ae_tenant_id (he_content e) = t)
     && negb (existsb (λ x, bool_decide (ae_tenant_id (he_content x) = t)
          && bool_decide (ae_previous_event_hash (he_content x) = Some (he_event_hash e))) events)) = true
    ↔ last (mine t events) = Some e) as Hp.
  { intros e He. rewrite andb_true_iff, bool_decide_eq_true, negb_true_iff, <- not_true_iff_false,
      existsb_true. setoid_rewrite andb_true_iff. setoid_rewrite bool_decide_eq_true. split.
    - intros [Ht Hn]. assert (e ∈ mine t events) as [i Hi]%list_elem_of_lookup by by apply elem_of_mine.
      rewrite last_lookup. pose proof (lookup_lt_Some _ _ _ Hi).
      destruct (decide (S i < length (mine t events))%nat) as [Hlt|Hge].
      + exfalso. apply Hn. apply (chain_successor _ _ _ _ Hc Hi) in Hlt as (x & Hx & E).
        apply elem_of_mine in Hx. exists x. tauto.
      + by replace (pred (length (mine t events))) with i by lia.
    - intros Hl. rewrite last_lookup in Hl. pose proof (list_elem_of_lookup_2 _ _ _ Hl) as Hin.
      apply elem_of_mine in Hin as [_ Ht]. split; [done|]. intros (x & Hx & Htx & E).
      pose proof (lookup_lt_Some _ _ _ Hl).
      assert (S (pred (length (mine t events))) < length (mine t events))%nat; [|lia].
      apply (chain_successor _ _ _ _ Hc Hl). exists x. by rewrite elem_of_mine. }
  destruct (find _ events) as [e|] eqn:E.
  - apply find_some in E as [Hin Ht]. apply list_elem_of_In in Hin. by apply Hp in Ht.
  - destruct (last (mine t events)) as [e|] eqn:Hl; [|done]. exfalso.
    assert (e ∈ events) as Hin.
    { rewrite last_lookup in Hl. apply list_elem_of_lookup_2, elem_of_mine in Hl. tauto. }
    pose proof (proj2 (Hp e Hin) eq_refl) as Ht. apply list_elem_of_In in Hin.
    rewrite (find_none _ _ E e Hin) in Ht. done.
Qed.

(** PostgreSQL keeps the event exactly. *)
Definition audit_kept (a : StepAuditEvent) : Prop :=
  stored_at (sa_occurred_at a) = sa_occurred_at a ∧ stored_value (sa_details a) = sa_details a.

(** Every chain of the table verifies. *)
Definition audit_ok (events : list HashedAuditEvent) : Prop :=
  (∀ t, chain_ok t (mine t events)) ∧ NoDup ((λ e, ae_id (he_content e)) <$> events).

(** The event that stands for a requested one. *)
Definition records (f : WorkflowStepFence) (a : StepAuditEvent) (e : HashedAuditEvent) : Prop :=
  ae_id (he_content e) = sa_id a ∧ ae_tenant_id (he_content e) = sf_tenant_id f ∧
  ae_work_item_id (he_content e) = Some (sf_work_item_id f) ∧
  ae_actor_id (he_content e) = sa_actor_id a ∧ ae_action (he_content e) = sa_action a ∧
  ae_subject_type (he_content e) = sa_subject_type a ∧
  ae_subject_id (he_content e) = sa_subject_id a ∧
  ae_details (he_content e) = stored_value (sa_details a).

Lemma insert_audit_shape f s a s' :
  insert_audit_event f s a = Ok s' → ∃ e,
    s' = set_audit (sx_audit s ++ [stored_event e]) s ∧ records f a (stored_event e) ∧
    event_ok (sf_tenant_id f) e ∧
    ae_previous_event_hash (he_content e) = audit_head (sf_tenant_id f) (sx_audit s) ∧
    (audit_kept a → stored_event e = e) ∧
    (∀ x, x ∈ sx_audit s → ae_id (he_content x) ≠ sa_id a) ∧
    (∀ x, x ∈ sx_audit s → ae_tenant_id (he_content x) = sf_tenant_id f →
       he_event_hash x ≠ he_event_hash e).
Proof.
  unfold insert_audit_event, canonical_step_audit_event, HashedAuditEvent_create.
  rewrite bind_ok. intros (e & He & H). rewrite bind_unit_ok, bind_ok in He.
  destruct He as (Hv & b & Hb & [= <-]). rewrite !bind_unit_ok in H.
  destruct H as (Hver & Hh & Hi & [= <-]). apply bail_if_ok, existsb_false in Hh.
  apply bail_if_ok, existsb_false in Hi. rewrite Forall_forall in Hh, Hi.
  eexists. split; [reflexivity|]. split; [done|]. split; [by apply HashedAuditEvent_verify_ok|].
  split; [done|]. split; [intros [E1 E2]; unfold stored_event; simpl; by rewrite E1, E2|].
  split.
  - intros x Hx. specialize (Hi x Hx). by apply bool_decide_eq_false in Hi.
  - intros x Hx Ht. specialize (Hh x Hx). simpl in *. rewrite bool_decide_true in Hh by done.
    by apply bool_decide_eq_false in Hh.
Qed.

Lemma insert_audit_ok f s a s' :
  insert_audit_event f s a = Ok s' → audit_kept a → audit_ok (sx_audit s) →
  Z.of_nat (length (sx_audit s')) ≤ u64_max → audit_ok (sx_audit s').
Proof.
  intros H Hk [Hc Hn] Hlen.
  destruct (insert_audit_shape _ _ _ _ H) as (e & -> & [Hid _] & He & Hp & Hst & Hni & Hnh).
  rewrite (Hst Hk) in *. simpl in *. split.
  - intros t. rewrite mine_app. unfold mine at 2. simpl.
    case_bool_decide as Et; [|rewrite app_nil_r; apply Hc].
    rewrite (eo_tenant _ _ He) in Et. subst t. pose proof (Hc (sf_tenant_id f)) as Hcf.
    rewrite (audit_head_last _ _ Hcf) in Hp. destruct Hcf as [C1 C2 C3 C4 C5]. constructor.
    + rewrite Forall_app. split; [done|]. by constructor.
    + rewrite fmap_app. apply NoDup_app. split_and!; [done| |apply NoDup_singleton].
      intros x Hx. apply list_elem_of_fmap in Hx as (y & -> & [Hy _]%elem_of_mine).
      simpl. rewrite list_elem_of_singleton. specialize (Hni y Hy). congruence.
    + rewrite fmap_app. apply NoDup_app. split_and!; [done| |apply NoDup_singleton].
      intros x Hx. apply list_elem_of_fmap in Hx as (y & -> & [Hy Ht]%elem_of_mine).
      simpl. rewrite list_elem_of_singleton. by apply Hnh.
    + apply linked_app. split; [done|]. simpl. split; [|done].
      rewrite Hp. by destruct (last _).
    + rewrite length_app in *. simpl in *.
      pose proof (filter_length_le (λ e, bool_decide (ae_tenant_id (he_content e) = sf_tenant_id f)) (sx_audit s)).
      unfold mine. lia.
  - rewrite fmap_app. apply NoDup_app. split_and!; [done| |apply NoDup_singleton].
    intros x Hx. apply list_elem_of_fmap in Hx as (y & -> & Hy).
    simpl. rewrite list_elem_of_singleton. specialize (Hni y Hy). congruence.
Qed.

(** ** One commit *)

(** What an applied commit did. *)
Record step_written (c : WorkflowStepCommit) (now : DateTime) (s s' : StepTables)
    (job : JobRow) (item : WorkItemRow) (flow : WorkflowRow) : Prop := {
  sw_job : q_jobs (sx_queue s) !! sf_job_id (wc_fence c) = Some job;
  sw_completed : q_jobs (sx_queue s') !! sf_job_id (wc_fence c)
    = Some (completed_row (sf_lease_owner (wc_fence c)) (sf_job_fence_token (wc_fence c))
              (Some (stored_result c)) now job);
  sw_other_jobs id row : q_jobs (sx_queue s) !! id = Some row → id ≠ sf_job_id (wc_fence c) →
    q_jobs (sx_queue s') !! id = Some row;
  sw_children j : j ∈ wc_jobs c → child_present (wc_fence c) j (sx_queue s');
  sw_timers t : t ∈ wc_timers c → ∃ r, r ∈ sx_timers s' ∧ tm_id (tr_timer r) = tm_id t ∧
    tm_timer_key (tr_timer r) = tm_timer_key t;
  sw_intents e : e ∈ wc_effects c → ∃ r, r ∈ sx_intents s' ∧ sei_id (ir_intent r) = sei_id e ∧
    sei_request_digest (ir_intent r) = sei_request_digest e;
  sw_outbox m : m ∈ wc_outbox c → ∃ r, r ∈ sx_outbox s' ∧ om_id (or_message r) = om_id m ∧
    jsonb_eqb (om_payload (or_message r)) (om_payload m) = true;
  sw_kept : sx_timers s `prefix_of` sx_timers s' ∧ sx_intents s `prefix_of` sx_intents s' ∧
    sx_outbox s `prefix_of` sx_outbox s';
  sw_audit : ∃ events, sx_audit s' = sx_audit s ++ events ∧
    Forall2 (records (wc_fence c)) (wc_audit_events c) events;
  sw_item : select_work_item (wc_fence c) s = Some item ∧
    ∃ closed_at, sx_work_items s' = <[(sf_tenant_id (wc_fence c), sf_work_item_id (wc_fence c)) :=
      mkWorkItemRow (wc_work_item_state c) (wi_row_version item + 1) closed_at]> (sx_work_items s);
  sw_flow : select_workflow (wc_fence c) s = Some flow ∧
    ∃ terminal_at, sx_workflows s' =
      <[(sf_tenant_id (wc_fence c), sf_workflow_instance_id (wc_fence c)) :=
        mkWorkflowRow (sf_work_item_id (wc_fence c)) (wc_workflow_state c) (wc_workflow_event_cursor c)
          (wf_row_fence_token flow + 1) (wf_row_version flow + 1) terminal_at]> (sx_workflows s);
  sw_anchor :
    (∀ a, sx_anchors s !! (sf_tenant_id (wc_fence c), sf_work_item_id (wc_fence c)) = Some a →
       an_generation a = sf_expected_anchor_generation (wc_fence c)) ∧
    sx_anchors s' = <[(sf_tenant_id (wc_fence c), sf_work_item_id (wc_fence c)) :=
      mkAnchorRow (as_sql (ar_kind (wc_accountability c))) (ar_reference_id (wc_accountability c))
        (stored_at <$> ar_wake_or_deadline_at (wc_accountability c))
        (ar_authority_or_effect_active (wc_accountability c))
        (sf_expected_anchor_generation (wc_fence c) + 1)]> (sx_anchors s)
}.

Lemma insert_audits f rows s s' :
  insert_all (insert_audit_event f) rows s = Ok s' →
  ∃ events, s' = set_audit (sx_audit s ++ events) s ∧ Forall2 (records f) rows events.
Proof.
  unfold insert_all. revert s. induction rows as [|a rows IH]; intros s H; simpl in H.
  - injection H as <-. exists []. rewrite app_nil_r. by destruct s.
  - apply bind_ok in H as (s1 & H1 & H).
    apply insert_audit_shape in H1 as (e & -> & Hr & _).
    apply IH in H as (events & -> & Hall). exists (stored_event e :: events). simpl.
    rewrite <- app_assoc. split; [done|]. by constructor.
Qed.

Lemma update_work_item_ok f state now s s' v :
  update_work_item f state now s = Ok (s', v) → ∃ row closed_at,
    select_work_item f s = Some row ∧ v = wi_row_version row + 1 ∧
    s' = set_work_items (<[(sf_tenant_id f, sf_work_item_id f) :=
           mkWorkItemRow state v closed_at]> (sx_work_items s)) s.
Proof.
  unfold update_work_item, next_version. rewrite bind_ok. intros (row & Hrow & H).
  apply bind_ok in H as (v' & Hv & [= <- <-]). apply ok_or_ok in Hrow.
  apply ok_or_ok, checked_add_some in Hv as [_ ->]. eauto.
Qed.

Lemma select_workflow_item f s row :
  select_workflow f s = Some row → wf_row_work_item_id row = sf_work_item_id f.
Proof.
  unfold select_workflow. intros H. apply bind_Some in H as (x & _ & H).
  destruct (_ && _ && _) eqn:E; [|done]. injection H as ->. reflect. tauto.
Qed.

Lemma select_workflow_expected f s row :
  select_workflow f s = Some row → wf_row_version row = sf_expected_workflow_version f ∧
  wf_row_fence_token row = sf_expected_workflow_fence_token f.
Proof.
  unfold select_workflow. intros H. apply bind_Some in H as (x & _ & H).
  destruct (_ && _ && _) eqn:E; [|done]. injection H as ->. reflect. tauto.
Qed.

Lemma update_workflow_ok f state cursor now s s' v w :
  update_workflow f state cursor now s = Ok (s', (v, w)) → ∃ row terminal_at,
    select_workflow f s = Some row ∧ v = wf_row_version row + 1 ∧ w = wf_row_fence_token row + 1 ∧
    s' = set_workflows (<[(sf_tenant_id f, sf_workflow_instance_id f) :=
           mkWorkflowRow (sf_work_item_id f) state cursor w v terminal_at]> (sx_workflows s)) s.
Proof.
  unfold update_workflow, next_version. rewrite bind_ok. intros (row & Hrow & H).
  apply ok_or_ok in Hrow. pose proof (select_workflow_item _ _ _ Hrow) as E. rewrite E in H.
  apply bind_ok in H as (w' & Hw & H). apply bind_ok in H as (v' & Hv & [= <- <- <-]).
  apply ok_or_ok, checked_add_some in Hw as [_ ->].
  apply ok_or_ok, checked_add_some in Hv as [_ ->]. eauto 10.
Qed.

Lemma replace_accountability_ok f a s s' g :
  replace_accountability f a s = Ok (s', g) →
  g = sf_expected_anchor_generation f + 1 ∧
  (∀ x, sx_anchors s !! (sf_tenant_id f, sf_work_item_id f) = Some x →
     an_generation x = sf_expected_anchor_generation f) ∧
  s' = set_anchors (<[(sf_tenant_id f, sf_work_item_id f) :=
    mkAnchorRow (as_sql (ar_kind a)) (ar_reference_id a) (stored_at <$> ar_wake_or_deadline_at a)
      (ar_authority_or_effect_active a) g]> (sx_anchors s)) s.
Proof.
  unfold replace_accountability. rewrite bind_ok. intros (g' & Hg & H).
  apply ok_or_ok, checked_add_some in Hg as [_ ->]. apply bind_unit_ok in H as [Hm [= <- <-]].
  split_and!; try done. intros x Hx. rewrite Hx in Hm. reflect. done.
Qed.

Lemma complete_step_job_ok f result now s s' :
  complete_step_job f result now s = Ok s' → ∃ job,
    q_jobs (sx_queue s) !! sf_job_id f = Some job ∧ jb_tenant_id job = sf_tenant_id f ∧
    owned_claim f job = true ∧ claim_referenced (sf_job_id f) (q_effects (sx_queue s)) = false ∧
    s' = set_queue (mkQueue (<[sf_job_id f :=
           completed_row (sf_lease_owner f) (sf_job_fence_token f) (Some result) now job]>
             (q_jobs (sx_queue s))) (q_effects (sx_queue s))) s.
Proof.
  unfold complete_step_job. rewrite bind_ok. intros (u & Hu & H).
  apply bind_ok in H as (q & Hq & [= <-]). apply ok_or_ok in Hq as ->.
  apply update_claim_some in Hu as (job & Hj & Hg & Hr & ->). reflect. exists job. tauto.
Qed.

Lemma completed_matches owner fence result now row j :
  request_matches (completed_row owner fence result now row) j = request_matches row j.
Proof. done. Qed.

(** The rows of a commit, while they are inserted. *)
Definition child_in f j s : Prop := child_present f j (sx_queue s).
Definition timer_in (t : StepWorkflowTimer) (s : StepTables) : Prop :=
  ∃ r, r ∈ sx_timers s ∧ tm_id (tr_timer r) = tm_id t ∧ tm_timer_key (tr_timer r) = tm_timer_key t.
Definition intent_in (e : StepEffectIntent) (s : StepTables) : Prop :=
  ∃ r, r ∈ sx_intents s ∧ sei_id (ir_intent r) = sei_id e ∧
    sei_request_digest (ir_intent r) = sei_request_digest e.
Definition message_in (m : StepOutboxMessage) (s : StepTables) : Prop :=
  ∃ r, r ∈ sx_outbox s ∧ om_id (or_message r) = om_id m ∧
    jsonb_eqb (om_payload (or_message r)) (om_payload m) = true.

Lemma elem_of_prefix_of {A} (x : A) l k : l `prefix_of` k → x ∈ l → x ∈ k.
Proof. intros [z ->] Hx. rewrite elem_of_app. by left. Qed.

Lemma child_in_extends f j s s' : extends s s' → child_in f j s → child_in f j s'.
Proof. intros He (row & Hrow & ?). exists row. split; [by apply He|done]. Qed.
Lemma timer_in_extends t s s' : extends s s' → timer_in t s → timer_in t s'.
Proof. intros He (r & Hr & ?). exists r. split; [by eapply elem_of_prefix_of; [apply He|]|done]. Qed.
Lemma intent_in_extends e s s' : extends s s' → intent_in e s → intent_in e s'.
Proof. intros He (r & Hr & ?). exists r. split; [by eapply elem_of_prefix_of; [apply He|]|done]. Qed.
Lemma message_in_extends m s s' : extends s s' → message_in m s → message_in m s'.
Proof. intros He (r & Hr & ?). exists r. split; [by eapply elem_of_prefix_of; [apply He|]|done]. Qed.

(** A loop of inserts extends the tables and leaves every row of it in them. *)
Lemma insert_all_ok {A} (insert : StepTables → A → res StepTables) (P : A → StepTables → Prop) rows s s' :
  (∀ s x s', insert s x = Ok s' → extends s s' ∧ P x s') →
  (∀ x s s', extends s s' → P x s → P x s') →
  insert_all insert rows s = Ok s' → extends s s' ∧ ∀ x, x ∈ rows → P x s'.
Proof.
  intros Hi Hp H. split.
  - eapply (try_fold_rel _ extends); [apply extends_refl|apply extends_trans| |exact H].
    intros a x b _ Hb. by apply Hi in Hb as [? _].
  - eapply (try_fold_each insert P); [| |exact H].
    + intros a x b Hb. by apply Hi in Hb as [_ ?].
    + intros a x b y Hb. apply Hp. by apply Hi in Hb as [? _].
Qed.

Lemma insert_audits_extend s events : extends s (set_audit (sx_audit s ++ events) s).
Proof. constructor; simpl; try done. by apply prefix_app_r. Qed.

(** The five loops. *)
Definition insert_rows (c : WorkflowStepCommit) (now : DateTime) (s : StepTables) : res StepTables :=
  s ← insert_all (insert_workflow_job (wc_fence c) now) (wc_jobs c) s;
  s ← insert_all (insert_workflow_timer (wc_fence c)) (wc_timers c) s;
  s ← insert_all (insert_effect_intent (wc_fence c)) (wc_effects c) s;
  s ← insert_all (insert_outbox_message (sf_tenant_id (wc_fence c))) (wc_outbox c) s;
  insert_all (insert_audit_event (wc_fence c)) (wc_audit_events c) s.

(** The loops over timers, intents and messages leave the queue and the chain. *)
Definition same_queue_audit (s s' : StepTables) : Prop :=
  sx_queue s' = sx_queue s ∧ sx_audit s' = sx_audit s.

Lemma insert_all_frame {A} (insert : StepTables → A → res StepTables) rows s s' :
  (∀ s x s', insert s x = Ok s' → same_queue_audit s s') →
  insert_all insert rows s = Ok s' → same_queue_audit s s'.
Proof.
  intros Hi H. eapply (try_fold_rel _ same_queue_audit); [done| | |exact H].
  - intros a b c [??] [??]. split; congruence.
  - intros a x b _. apply Hi.
Qed.

Lemma insert_jobs_frame f now rows s s' :
  insert_all (insert_workflow_job f now) rows s = Ok s' → sx_audit s' = sx_audit s.
Proof.
  intros H. eapply (try_fold_rel _ (λ s s', sx_audit s' = sx_audit s)); [done|congruence| |exact H].
  intros a x b _. unfold insert_workflow_job.
  destruct (row_by_key _ _ _) as [[id row]|]; intros E; apply bind_unit_ok in E as [_ [= <-]]; done.
Qed.

Lemma insert_rows_ok c now s s' :
  insert_rows c now s = Ok s' →
  extends s s' ∧ (∀ j, j ∈ wc_jobs c → child_in (wc_fence c) j s') ∧
  (∀ t, t ∈ wc_timers c → timer_in t s') ∧ (∀ e, e ∈ wc_effects c → intent_in e s') ∧
  (∀ m, m ∈ wc_outbox c → message_in m s') ∧
  ∃ s1 events, insert_all (insert_workflow_job (wc_fence c) now) (wc_jobs c) s = Ok s1 ∧
    sx_queue s' = sx_queue s1 ∧ sx_audit s' = sx_audit s ++ events ∧
    Forall2 (records (wc_fence c)) (wc_audit_events c) events.
Proof.
  unfold insert_rows. intros H. apply bind_ok in H as (s1 & H1 & H).
  apply bind_ok in H as (s2 & H2 & H). apply bind_ok in H as (s3 & H3 & H).
  apply bind_ok in H as (s4 & H4 & H5).
  pose proof (insert_jobs_frame _ _ _ _ _ H1) as A1.
  eapply (insert_all_ok _ (child_in (wc_fence c))) in H1 as Hc; [|..|apply child_in_extends];
    [destruct Hc as [E1 P1]|intros a x b Hb; apply insert_child_ok in Hb; tauto].
  apply insert_all_frame in H2 as F2;
    [|intros a x b Hb; by apply require_inserted_ok in Hb as (? & _ & ->)].
  eapply (insert_all_ok _ timer_in) in H2 as [E2 P2]; [|..|apply timer_in_extends];
    [|intros a x b Hb; apply insert_timer_ok in Hb as [? (r & Hr & Hx)]; split; [done|];
      exists r; tauto].
  apply insert_all_frame in H3 as F3;
    [|intros a x b Hb; by apply require_inserted_ok in Hb as (? & _ & ->)].
  eapply (insert_all_ok _ intent_in) in H3 as [E3 P3]; [|..|apply intent_in_extends];
    [|intros a x b Hb; apply insert_intent_ok in Hb as [? (r & Hr & Hx)]; split; [done|];
      exists r; tauto].
  apply insert_all_frame in H4 as F4;
    [|intros a x b Hb; by apply require_inserted_ok in Hb as (? & _ & ->)].
  eapply (insert_all_ok _ message_in) in H4 as [E4 P4]; [|..|apply message_in_extends];
    [|intros a x b Hb; apply insert_outbox_ok in Hb as [? (r & Hr & Hx)]; split; [done|];
      exists r; tauto].
  apply insert_audits in H5 as (events & -> & Hall).
  pose proof (insert_audits_extend s4 events) as E5.
  assert (extends s2 (set_audit (sx_audit s4 ++ events) s4)) as E25 by eauto using extends_trans.
  destruct F2 as [Q2 A2], F3 as [Q3 A3], F4 as [Q4 A4].
  split_and!.
  - eauto using extends_trans.
  - intros j Hj. eapply child_in_extends; [|by apply P1]. eauto using extends_trans.
  - intros t Ht. eapply timer_in_extends; [|by apply P2]. done.
  - intros e He. eapply intent_in_extends; [|by apply P3]. eauto using extends_trans.
  - intros m Hm. eapply message_in_extends; [|by apply P4]. done.
  - exists s1, events. simpl. split_and!; try done; congruence.
Qed.

(** ** The whole commit *)

(** The claim a commit runs under. *)
Record claim_held (prelocked : bool) (f : WorkflowStepFence) (now : DateTime) (job : JobRow) : Prop := {
  ch_tenant : jb_tenant_id job = sf_tenant_id f;
  ch_flow : jb_workflow_instance_id job = Some (sf_workflow_instance_id f);
  ch_item : jb_work_item_id job = Some (sf_work_item_id f);
  ch_running : jb_status job = "RUNNING";
  ch_fence : jb_fence_token job = sf_job_fence_token f;
  ch_lease : ∃ ends, jb_lease job = Some (sf_lease_owner f, ends) ∧ (prelocked = false → now < ends)
}.

Lemma select_work_item_extends f s s' :
  sx_work_items s' = sx_work_items s → select_work_item f s' = select_work_item f s.
Proof. unfold select_work_item. by intros ->. Qed.

Lemma select_workflow_extends f s s' :
  sx_workflows s' = sx_workflows s → select_workflow f s' = select_workflow f s.
Proof. unfold select_workflow. by intros ->. Qed.

Lemma child_completed f j f' result now job q effects id :
  q_jobs q !! id = Some job → child_present f j q →
  child_present f j (mkQueue (<[id := completed_row (sf_lease_owner f') (sf_job_fence_token f') result now job]>
    (q_jobs q)) effects).
Proof.
  intros Hj (row & Hrow & Ht & Hk & Hm). unfold child_present. simpl.
  destruct (decide (sj_id j = id)) as [E|Hne].
  - rewrite E in *. assert (row = job) as -> by congruence. rewrite lookup_insert_eq. eexists. split; [done|].
    split_and!; [done..|]. by rewrite completed_matches.
  - rewrite lookup_insert_ne by done. eauto.
Qed.

Lemma write_step_ok c now s s' outcome job :
  q_jobs (sx_queue s) !! sf_job_id (wc_fence c) = Some job →
  write_step c now s = Ok (s', outcome) → ∃ item flow mid,
    step_written c now s s' job item flow ∧
    owned_claim (wc_fence c) job = true ∧
    claim_referenced (sf_job_id (wc_fence c)) (q_effects (sx_queue s)) = false ∧
    insert_all (insert_workflow_job (wc_fence c) now) (wc_jobs c) s = Ok mid ∧
    sx_queue s' = mkQueue (<[sf_job_id (wc_fence c) :=
      completed_row (sf_lease_owner (wc_fence c)) (sf_job_fence_token (wc_fence c))
        (Some (stored_result c)) now job]> (q_jobs (sx_queue mid))) (q_effects (sx_queue s)) ∧
    outcome = StepApplied (wi_row_version item + 1) (wf_row_version flow + 1)
      (wf_row_fence_token flow + 1) (sf_expected_anchor_generation (wc_fence c) + 1).
Proof.
  intros Hjob0. unfold write_step. intros H. apply bind_unit_ok in H as [Hl H].
  assert (∃ s5, insert_rows c now s = Ok s5 ∧
    ('(s, work_item_version) ← update_work_item (wc_fence c) (wc_work_item_state c) now s5;
     '(s, (workflow_version, workflow_fence_token)) ←
       update_workflow (wc_fence c) (wc_workflow_state c) (wc_workflow_event_cursor c) now s;
     '(s, anchor_generation) ← replace_accountability (wc_fence c) (wc_accountability c) s;
     s ← complete_step_job (wc_fence c) (stored_result c) now s;
     Ok (s, StepApplied work_item_version workflow_version workflow_fence_token anchor_generation))
    = Ok (s', outcome)) as (s5 & Hr & Hw).
  { apply bind_ok in H as (s1 & H1 & H). apply bind_ok in H as (s2 & H2 & H).
    apply bind_ok in H as (s3 & H3 & H). apply bind_ok in H as (s4 & H4 & H).
    apply bind_ok in H as (s5 & H5 & H). exists s5. split; [|done]. unfold insert_rows.
    rewrite bind_ok. exists s1. split; [done|]. rewrite bind_ok. exists s2. split; [done|].
    rewrite bind_ok. exists s3. split; [done|]. rewrite bind_ok. by exists s4. }
  clear H. apply bind_ok in Hw as ([s6 v] & H6 & Hw).
  apply update_work_item_ok in H6 as (item & closed & Hitem & -> & ->).
  apply bind_ok in Hw as ([s7 [v1 w1]] & H7 & Hw).
  apply update_workflow_ok in H7 as (flow & terminal & Hflow & -> & -> & ->).
  apply bind_ok in Hw as ([s8 g] & H8 & Hw).
  apply replace_accountability_ok in H8 as (-> & Hgen & ->).
  apply bind_ok in Hw as (s9 & H9 & [= <- <-]).
  apply complete_step_job_ok in H9 as (job' & Hjob & Ht & Ho & Href & ->). simpl in *.
  apply insert_rows_ok in Hr as (Hx & Pj & Pt & Pe & Pm & s1 & events & H1 & Hq & Ha & Hall).
  destruct Hx as [X1 X2 X3 X4 X5 X6 X7 X8 X9].
  assert (job' = job) as -> by (apply X5 in Hjob0; congruence).
  exists item, flow, s1. split_and!; try done; [|congruence|congruence].
  constructor; simpl; rewrite ?X1, ?X2, ?X3; try done.
  - by rewrite lookup_insert_eq.
  - intros id row Hrow Hne. rewrite lookup_insert_ne by done. by apply X5.
  - intros j Hj. apply child_completed; [done|]. by apply Pj.
  - eauto.
  - rewrite <- (select_work_item_extends _ _ _ X1). split; [done|]. eauto.
  - rewrite <- (select_workflow_extends _ _ _ X2). split; [done|]. eauto.
  - split; [|done]. intros a Hl'. apply Hgen. by rewrite X3.
Qed.

Lemma commit_cases prelocked c now s s' outcome :
  commit_workflow_step_inner prelocked c now s = Ok (s', outcome) →
  WorkflowStepCommit_validate c = Ok () ∧ ∃ job,
  q_jobs (sx_queue s) !! sf_job_id (wc_fence c) = Some job ∧
  (jb_status job = "COMPLETED" ∧ s' = s ∧ outcome = AlreadyApplied ∨
   claim_held prelocked (wc_fence c) now job ∧ write_step c now s = Ok (s', outcome)).
Proof.
  unfold commit_workflow_step_inner, lock_step_job, load_job. rewrite bind_unit_ok.
  intros [Hv H]. split; [done|]. apply bind_ok in H as (job & Hj & H). apply ok_or_ok in Hj.
  apply bind_Some in Hj as (row & Hrow & Hj). case_bool_decide as Ht; [|done]. injection Hj as ->.
  exists job. split; [done|]. apply bind_unit_ok in H as [Hb H]. apply bind_ok in H as (m & Hm & H).
  unfold require_step_binding in Hb. reflect. destruct Hb as [Hb1 Hb2]. destruct m.
  - left. injection H as <- <-. split_and!; try done. unfold completed_step_matches in Hm.
    case_bool_decide; [done|]. done.
  - right. apply bind_unit_ok in H as [Hc H]. split; [|done].
    assert (owned_claim (wc_fence c) job = true ∧ ∃ o ends, jb_lease job = Some (o, ends) ∧
      (prelocked = false → now < ends)) as [Ho (o & ends & Hl & Hlt)].
    { destruct prelocked.
      - unfold require_owned_claim in Hc. apply bail_if_ok, negb_false_iff in Hc. split; [done|].
        unfold owned_claim in Hc. destruct (jb_lease job) as [[o ends]|]; [by exists o, ends|].
        simpl in Hc. reflect. by destruct Hc as [[_ ?] _].
      - apply bind_unit_ok in Hc as [Hc Hl]. apply bail_if_ok, negb_false_iff in Hc, Hl.
        split; [done|]. destruct (jb_lease job) as [[o ends]|]; [|done]. apply Z.ltb_lt in Hl. eauto. }
    unfold owned_claim in Ho. rewrite Hl in Ho. simpl in Ho. reflect.
    constructor; try tauto. exists ends. split; [|done]. rewrite Hl. intuition congruence.
Qed.

Lemma commit_applied prelocked c now s s' outcome :
  commit_workflow_step_inner prelocked c now s = Ok (s', outcome) →
  s' = s ∧ outcome = AlreadyApplied ∨
  WorkflowStepCommit_validate c = Ok () ∧ ∃ job item flow mid,
    claim_held prelocked (wc_fence c) now job ∧ step_written c now s s' job item flow ∧
    claim_referenced (sf_job_id (wc_fence c)) (q_effects (sx_queue s)) = false ∧
    insert_all (insert_workflow_job (wc_fence c) now) (wc_jobs c) s = Ok mid ∧
    sx_queue s' = mkQueue (<[sf_job_id (wc_fence c) :=
      completed_row (sf_lease_owner (wc_fence c)) (sf_job_fence_token (wc_fence c))
        (Some (stored_result c)) now job]> (q_jobs (sx_queue mid))) (q_effects (sx_queue s)) ∧
    outcome = StepApplied (wi_row_version item + 1) (wf_row_version flow + 1)
      (wf_row_fence_token flow + 1) (sf_expected_anchor_generation (wc_fence c) + 1).
Proof.
  intros H. apply commit_cases in H as (Hv & job & Hjob & [(_ & -> & ->)|[Hc Hw]]); [by left|].
  right. split; [done|]. destruct (write_step_ok _ _ _ _ _ _ Hjob Hw) as (item & flow & mid & H).
  exists job, item, flow, mid. tauto.
Qed.

(** ** The queue under steps *)

Lemma child_valid f j :
  WorkflowStepFence_validate f = Ok () → validate_job j = Ok () →
  NewWorkflowJob_validate (child_job f j) = Ok ().
Proof.
  unfold WorkflowStepFence_validate, validate_job, NewWorkflowJob_validate. intros Hf Hj.
  simpl. reflect. simpl. unfold nil_binding in *. split_and!; try tauto.
Qed.

Lemma insert_children_ok f now rows s s' :
  WorkflowStepFence_validate f = Ok () → (∀ j, j ∈ rows → validate_job j = Ok ()) →
  insert_all (insert_workflow_job f now) rows s = Ok s' → queue_ok (sx_queue s) →
  queue_ok (sx_queue s').
Proof.
  intros Hf Hv H. eapply (try_fold_rel _ (λ s s', queue_ok (sx_queue s) → queue_ok (sx_queue s')));
    [done|by auto| |exact H].
  intros a j b Hj Hb Hok. apply insert_child_ok in Hb as (_ & _ & [->|(Hk & Hid & ->)]); [done|].
  eapply effect_ok; [done|]. apply (QE_insert _ now (child_job f j)); [|done..].
  apply child_valid; [done|]. by apply Hv.
Qed.

Lemma validate_commit_parts c :
  WorkflowStepCommit_validate c = Ok () →
  WorkflowStepFence_validate (wc_fence c) = Ok () ∧ ∀ j, j ∈ wc_jobs c → validate_job j = Ok ().
Proof.
  unfold WorkflowStepCommit_validate. intros H.
  apply bind_unit_ok in H as [Hf H]. split; [done|].
  do 6 apply bind_unit_ok in H as [_ H]. apply bind_unit_ok in H as [H _].
  apply try_for_unit in H. by rewrite Forall_forall in H.
Qed.

Lemma commit_queue_ok c now s s' outcome :
  commit_workflow_step c now s = Ok (s', outcome) → queue_ok (sx_queue s) → queue_ok (sx_queue s').
Proof.
  intros H Hok. apply commit_applied in H as [[-> _]|(Hv & job & item & flow & mid & Hc & Hw & Hr & Hi & -> & _)];
    [done|].
  apply validate_commit_parts in Hv as [Hf Hv].
  pose proof (insert_children_ok _ _ _ _ _ Hf Hv Hi Hok) as Hok1.
  assert (extends s mid) as Hx.
  { eapply (try_fold_rel _ extends); [apply extends_refl|apply extends_trans| |exact Hi].
    intros a x b _ Hb. by apply insert_child_ok in Hb as [? _]. }
  pose proof (xt_jobs _ _ Hx _ _ (sw_job _ _ _ _ _ _ _ Hw)) as Hjob.
  destruct Hc as [C1 C2 C3 C4 C5 (ends & C6 & C7)].
  eapply effect_ok; [exact Hok1|]. rewrite <- (xt_effects _ _ Hx) in *.
  eapply (QE_update _ _ _ _ (Completion (sf_lease_owner (wc_fence c))
    (sf_job_fence_token (wc_fence c)) now)); [exact Hjob| |done..|by right].
  apply (JS_complete _ (sf_tenant_id (wc_fence c))). apply live_claim_spec.
  split_and!; eauto.
Qed.

(** ** Sequences of statements and steps *)

Inductive action :=
| OnQueue (st : statement)
| OnStep (c : WorkflowStepCommit) (now : DateTime).

Definition act (s : StepTables) (a : action) : StepTables :=
  match a with
  | OnQueue st => set_queue (run_statement st (sx_queue s)).1 s
  | OnStep c now =>
      match commit_workflow_step c now s with Ok (s', _) => s' | Err _ | Panic => s end
  end.

Definition acts (l : list action) (s : StepTables) : StepTables := foldl act s l.

Lemma acts_rel (R : StepTables → StepTables → Prop) l s :
  (∀ s, R s s) → (∀ a b c, R a b → R b c → R a c) →
  (∀ st s, R s (set_queue (run_statement st (sx_queue s)).1 s)) →
  (∀ c now s s' out, OnStep c now ∈ l → commit_workflow_step c now s = Ok (s', out) → R s s') →
  R s (acts l s).
Proof.
  intros Hr Ht Hq Hs. revert s. unfold acts. induction l as [|a l IH]; intros s; simpl; [apply Hr|].
  eapply Ht; [|apply IH; intros; eapply Hs; [by right|done]]. destruct a as [st|c now]; simpl.
  - apply Hq.
  - destruct (commit_workflow_step c now s) as [[s' out]| |] eqn:E; [|apply Hr..].
    eapply Hs; [by left|done].
Qed.

Lemma set_queue_queue q s : sx_queue (set_queue q s) = q.
Proof. done. Qed.

Lemma acts_queue_ok l s : queue_ok (sx_queue s) → queue_ok (sx_queue (acts l s)).
Proof.
  apply (acts_rel (λ s s', queue_ok (sx_queue s) → queue_ok (sx_queue s'))); [done|by auto|..].
  - intros st a Hok. rewrite set_queue_queue.
    eapply effect_ok; [done|apply run_statement_effect].
  - intros c now a b out _ H. by eapply commit_queue_ok.
Qed.

(** A completed job stays as it is. *)
Lemma acts_finished id row l s :
  queue_ok (sx_queue s) → q_jobs (sx_queue s) !! id = Some row → jb_status row = "COMPLETED" →
  q_jobs (sx_queue (acts l s)) !! id = Some row.
Proof.
  intros Hok Hrow Hs.
  assert (queue_ok (sx_queue (acts l s)) ∧ q_jobs (sx_queue (acts l s)) !! id = Some row) as [_ ?];
    [|done].
  apply (acts_rel (λ s s', queue_ok (sx_queue s) ∧ q_jobs (sx_queue s) !! id = Some row →
    queue_ok (sx_queue s') ∧ q_jobs (sx_queue s') !! id = Some row)); [done|by auto|..|done].
  - intros st a [Ha Hr]. rewrite set_queue_queue.
    pose proof (finished_forever id row [st] (sx_queue a, []) Ha Hr Hs) as [Hf _].
    pose proof (run_all_ok [st] (sx_queue a, []) Ha) as Hk.
    unfold run_all in Hf, Hk. simpl in Hf, Hk. by destruct (run_statement st (sx_queue a)).
  - intros c now a b out _ H [Ha Hr]. split; [by eapply commit_queue_ok|].
    apply commit_applied in H as [[-> _]|(_ & job & item & flow & mid & Hc & Hw & _)]; [done|].
    apply (sw_other_jobs _ _ _ _ _ _ _ Hw); [done|]. intros ->.
    rewrite (sw_job _ _ _ _ _ _ _ Hw) in Hr. injection Hr as ->.
    rewrite (ch_running _ _ _ _ Hc) in Hs. done.
Qed.

(** Versions of work items only grow. *)
Definition versions_grow (s s' : StepTables) : Prop :=
  ∀ k row, sx_work_items s !! k = Some row →
    ∃ row', sx_work_items s' !! k = Some row' ∧ wi_row_version row ≤ wi_row_version row'.

Lemma select_work_item_some f s row :
  select_work_item f s = Some row →
  sx_work_items s !! (sf_tenant_id f, sf_work_item_id f) = Some row ∧
  wi_row_version row = sf_expected_work_item_version f.
Proof.
  unfold select_work_item. intros H. apply bind_Some in H as (x & Hx & H).
  destruct (_ =? _) eqn:E; [|done]. injection H as ->. by apply Z.eqb_eq in E.
Qed.

Lemma acts_versions l s : versions_grow s (acts l s).
Proof.
  apply acts_rel.
  - intros a k row Hrow. exists row. split; [done|lia].
  - intros a b c Hab Hbc k row Hrow. apply Hab in Hrow as (r1 & Hr1 & ?).
    apply Hbc in Hr1 as (r2 & Hr2 & ?). exists r2. split; [done|lia].
  - intros st a k row Hrow. exists row. split; [done|lia].
  - intros c now a b out _ H k row Hrow.
    apply commit_applied in H as [[-> _]|(_ & job & item & flow & mid & Hc & Hw & _)];
      [exists row; split; [done|lia]|].
    destruct (sw_item _ _ _ _ _ _ _ Hw) as [Hi (closed & ->)].
    apply select_work_item_some in Hi as [Hi _].
    destruct (decide (k = (sf_tenant_id (wc_fence c), sf_work_item_id (wc_fence c)))) as [->|Hne].
    + rewrite Hi in Hrow. injection Hrow as ->. rewrite lookup_insert_eq. eexists. split; [done|].
      simpl. lia.
    + rewrite lookup_insert_ne by done. exists row. split; [done|lia].
Qed.

(** ** The chain under steps *)

Definition chain_extends (s s' : StepTables) : Prop :=
  sx_audit s `prefix_of` sx_audit s' ∧
  (Z.of_nat (length (sx_audit s')) ≤ u64_max → audit_ok (sx_audit s) → audit_ok (sx_audit s')).

Lemma chain_extends_refl s s' : sx_audit s' = sx_audit s → chain_extends s s'.
Proof. unfold chain_extends. by intros ->. Qed.

Lemma chain_extends_trans a b c : chain_extends a b → chain_extends b c → chain_extends a c.
Proof.
  intros [P1 H1] [P2 H2]. split; [by etrans|]. intros Hlen Ha. apply H2; [done|]. apply H1; [|done].
  apply prefix_length in P2. lia.
Qed.

Lemma insert_audits_chain f rows s s' :
  (∀ a, a ∈ rows → audit_kept a) → insert_all (insert_audit_event f) rows s = Ok s' →
  chain_extends s s'.
Proof.
  intros Hk. apply try_fold_rel; [by intros; apply chain_extends_refl|apply chain_extends_trans|].
  intros a x b Hx Hb. split.
  - apply insert_audit_shape in Hb as (e & -> & _). simpl. by apply prefix_app_r.
  - intros Hlen Ha. eapply insert_audit_ok; eauto.
Qed.

(** The writes after the audit events leave the chain. *)
Lemma write_step_chain c now s s' outcome :
  (∀ a, a ∈ wc_audit_events c → audit_kept a) →
  write_step c now s = Ok (s', outcome) → chain_extends s s'.
Proof.
  intros Hk H. unfold write_step in H. apply bind_unit_ok in H as [_ H].
  apply bind_ok in H as (s1 & H1 & H). apply bind_ok in H as (s2 & H2 & H).
  apply bind_ok in H as (s3 & H3 & H). apply bind_ok in H as (s4 & H4 & H).
  apply bind_ok in H as (s5 & H5 & H).
  apply bind_ok in H as ([s6 v] & (? & ? & _ & _ & ->)%update_work_item_ok & H).
  apply bind_ok in H as ([s7 [? ?]] & (? & ? & _ & _ & _ & ->)%update_workflow_ok & H).
  apply bind_ok in H as ([s8 ?] & (_ & _ & ->)%replace_accountability_ok & H).
  apply bind_ok in H as (s9 & (job & _ & _ & _ & _ & ->)%complete_step_job_ok & [= <- <-]).
  apply insert_jobs_frame in H1.
  apply insert_all_frame in H2 as [_ F2];
    [|intros ??? Hb; by apply require_inserted_ok in Hb as (? & _ & ->)].
  apply insert_all_frame in H3 as [_ F3];
    [|intros ??? Hb; by apply require_inserted_ok in Hb as (? & _ & ->)].
  apply insert_all_frame in H4 as [_ F4];
    [|intros ??? Hb; by apply require_inserted_ok in Hb as (? & _ & ->)].
  apply (chain_extends_trans _ s4); [apply chain_extends_refl; congruence|].
  eapply chain_extends_trans; [by eapply insert_audits_chain|]. by apply chain_extends_refl.
Qed.

Lemma acts_chain l s :
  (∀ c now a, OnStep c now ∈ l → a ∈ wc_audit_events c → audit_kept a) → chain_extends s (acts l s).
Proof.
  intros Hk. apply acts_rel; [by intros; apply chain_extends_refl|apply chain_extends_trans|..].
  - intros st a. by apply chain_extends_refl.
  - intros c now a b out Hl H.
    apply commit_cases in H as (_ & job & _ & [(_ & -> & _)|[_ Hw]]); [by apply chain_extends_refl|].
    eapply write_step_chain; [|done]. intros e He. by eapply Hk.
Qed.

(** A row that PostgreSQL rounds verifies no more, short of two contents with
    the same digest. *)
Lemma inexact_audit_row_fails t e :
  event_ok t e → stored_event e ≠ e → HashedAuditEvent_verify (stored_event e) = Ok () →
  he_content (stored_event e) ≠ he_content e ∧
  digest_canonical (he_content (stored_event e)) = digest_canonical (he_content e).
Proof.
  intros He Hne Hv. assert (event_ok t (stored_event e)) as Hs.
  { apply HashedAuditEvent_verify_ok. split; [done|]. by apply He. }
  split.
  - intros E. apply Hne. destruct e as [c h]. by exact (f_equal (λ x, mkHashedAuditEvent x h) E).
  - rewrite (eo_hash _ _ He), (eo_hash _ _ Hs). done.
Qed.

(** ** Main theorems *)

(** A step is one transaction: when it is applied, its job was running under
    the fence token and an unexpired lease of the caller and bound to the
    workflow and the work item, the aggregates and the anchor were at the
    expected versions, and the new tables hold all of it: the job completed with
    the result, every child job, timer, effect intent and message with its
    identity, one audit event per requested one appended, the aggregates at the
    next version and the anchor replaced at the next generation.  No other job
    changes and no row is lost; any other outcome writes nothing. *)
Lemma step_commit_atomic c now s s' outcome :
  commit_workflow_step c now s = Ok (s', outcome) →
  outcome = AlreadyApplied ∧ s' = s ∨
  ∃ job item flow, claim_held false (wc_fence c) now job ∧ step_written c now s s' job item flow ∧
    outcome = StepApplied (sf_expected_work_item_version (wc_fence c) + 1)
      (sf_expected_workflow_version (wc_fence c) + 1)
      (sf_expected_workflow_fence_token (wc_fence c) + 1)
      (sf_expected_anchor_generation (wc_fence c) + 1).
Proof.
  intros H. apply commit_applied in H as [[-> ->]|(_ & job & item & flow & mid & Hc & Hw & _ & _ & _ & ->)];
    [by left|]. right. exists job, item, flow. split; [done|]. split; [done|].
  destruct (sw_item _ _ _ _ _ _ _ Hw) as [Hi _]. apply select_work_item_some in Hi as [_ ->].
  destruct (sw_flow _ _ _ _ _ _ _ Hw) as [Hf _]. apply select_workflow_expected in Hf as [-> ->]. done.
Qed.

(** C14. A step happens once.  After it was applied, and whatever statements and
    other steps follow, the queue keeps its invariant, asking for the same
    commit answers that it is applied already (its result being one that JSONB
    keeps) and changes nothing, no commit under the claimed job is ever applied
    again, and neither is a commit of any other job that expects the work item
    at the version this one replaced. *)
Theorem step_commit_exactly_once c now s s' v w f g later :
  queue_ok (sx_queue s) → commit_workflow_step c now s = Ok (s', StepApplied v w f g) →
  let s2 := acts later s' in
  queue_ok (sx_queue s2) ∧
  (∀ now', value_eqb (stored_value (stored_result c)) (stored_result c) = true →
     commit_workflow_step c now' s2 = Ok (s2, AlreadyApplied)) ∧
  (∀ c' now' s3 out, commit_workflow_step c' now' s2 = Ok (s3, out) →
     sf_job_id (wc_fence c') = sf_job_id (wc_fence c) ∨
     sf_tenant_id (wc_fence c') = sf_tenant_id (wc_fence c) ∧
     sf_work_item_id (wc_fence c') = sf_work_item_id (wc_fence c) ∧
     sf_expected_work_item_version (wc_fence c') = sf_expected_work_item_version (wc_fence c) →
     out = AlreadyApplied ∧ s3 = s2).
Proof.
  intros Hok H s2. pose proof (commit_queue_ok _ _ _ _ _ H Hok) as Hok'.
  apply commit_applied in H as [[_ ?]|(Hv & job & item & flow & mid & Hc & Hw & _)]; [done|].
  pose proof (acts_finished _ _ later s' Hok' (sw_completed _ _ _ _ _ _ _ Hw) eq_refl) as Hrow.
  split; [by apply acts_queue_ok|]. split.
  - intros now' He. unfold commit_workflow_step, commit_workflow_step_inner.
    rewrite Hv. simpl. unfold lock_step_job, load_job. fold s2 in Hrow. rewrite Hrow. simpl.
    destruct Hc as [C1 C2 C3 C4 C5 C6].
    rewrite bool_decide_true by done. simpl. unfold require_step_binding. simpl.
    rewrite C2, C3, !bool_decide_true by done. simpl.
    unfold completed_step_matches. simpl. rewrite !bool_decide_true by done. simpl. by rewrite He.
  - intros c' now' s3 out Hcom Hsame.
    apply commit_applied in Hcom as [[-> ->]|(_ & job' & item' & flow' & mid' & Hc' & Hw' & _)];
      [done|]. exfalso. destruct Hsame as [E|(Et & Ei & Ev)].
    + pose proof (sw_job _ _ _ _ _ _ _ Hw') as Hj. fold s2 in Hrow. rewrite E, Hrow in Hj.
      injection Hj as <-. pose proof (ch_running _ _ _ _ Hc') as Hr. done.
    + destruct (sw_item _ _ _ _ _ _ _ Hw) as [Hi (closed & Hs')].
      apply select_work_item_some in Hi as [_ Hver].
      destruct (sw_item _ _ _ _ _ _ _ Hw') as [[Hl' Hver']%select_work_item_some _].
      destruct (acts_versions later s' (sf_tenant_id (wc_fence c), sf_work_item_id (wc_fence c))
        (mkWorkItemRow (wc_work_item_state c) (wi_row_version item + 1) closed)) as (row' & Hrow' & Hle);
        [by rewrite Hs', lookup_insert_eq|].
      fold s2 in Hrow'. rewrite Et, Ei, Hrow' in Hl'. injection Hl' as ->. simpl in Hle. lia.
Qed.

(** The audit chain survives: from tables whose chains verify, and whatever
    statements and steps run, the events there were stay where they are, and the
    chain of every tenant verifies, as long as PostgreSQL keeps the requested
    events exactly and a [u64] counts them. *)
Lemma audit_chain_extended l s :
  audit_ok (sx_audit s) →
  (∀ c now a, OnStep c now ∈ l → a ∈ wc_audit_events c → audit_kept a) →
  Z.of_nat (length (sx_audit (acts l s))) ≤ u64_max →
  sx_audit s `prefix_of` sx_audit (acts l s) ∧ audit_ok (sx_audit (acts l s)) ∧
  ∀ t, ∃ v, verify_audit_chain t (mine t (sx_audit (acts l s))) = Ok v.
Proof.
  intros Hok Hk Hlen. destruct (acts_chain l s Hk) as [Hp Ha]. specialize (Ha Hlen Hok).
  split; [done|]. split; [done|]. intros t. eexists. apply verify_audit_chain_ok.
  split; [by apply Ha|done].
Qed.
End facts.

(** ** A step *)

Module Sample.
#[local] Instance columns : PgColumns :=
  {| stored_at t := t; stored_value v := v; stored_value_object v := eq_refl |}.
#[local] Instance equality : Jsonb :=
  {| jsonb_eqb := JobQueueFacts.Sample.text_eqb; jsonb_eqb_refl := JobQueueFacts.Sample.text_eqb_refl |}.
#[local] Instance uuids : UuidText := {| uuid_to_string _ := "u"; uuid_to_string_visible _ := eq_refl |}.
#[local] Existing Instances sample_hashing sample_jcs.
#[local] Instance order_jcs : Canonical RunmillWorkOrderV1 := {| to_jcs o := inr [] |}.
#[local] Instance envelope_jcs : Canonical RunmillSignedWorkOrderV1 := {| to_jcs o := inr [] |}.
#[local] Instance order_value : ToValue RunmillWorkOrderV1 := {| to_value o := inr (Object []) |}.
#[local] Instance order_json : RunmillOrderJson := {| signed_order_from_value _ := inl "unused" |}.

Definition job : NewWorkflowJob :=
  mkNewWorkflowJob 11%N 1%N (Some 21%N) (Some 31%N) None "REDUCE" "asf.reduce/v1" (Object []) "a" 5 0 2.

(** The job is claimed by [w1] for a minute. *)
Definition queue : Queue :=
  (run_all [DoEnqueue 0 job; DoClaim 1%N "w1" 1 (minutes 1) 0 (λ _, false)] (empty_queue, [])).1.

Definition tables : StepTables :=
  mkStepTables queue {[(1%N, 31%N) := mkWorkItemRow "READY" 4 None]}
    {[(1%N, 21%N) := mkWorkflowRow 31%N "ACTIVE" 2 3 7 None]} ∅ [] [] [] [].

Definition digest : string :=
  "sha256:00000000000000000000000000000000000000000000000000000000000000aa".

Definition commit : WorkflowStepCommit :=
  {| wc_fence := mkWorkflowStepFence 1%N 11%N 21%N 31%N "w1" 1 4 7 3 0;
     wc_commit_digest := digest; wc_job_result := None; wc_work_item_state := "ACCEPTED";
     wc_workflow_state := "ACTIVE"; wc_workflow_event_cursor := 3;
     wc_accountability := mkAccountabilityReplacement LedgerAccountabilityKind.Workflow 21%N None false;
     wc_jobs := [mkStepWorkflowJob 12%N None "PLAN" "asf.plan/v1" (Object []) "b" 1 0 3];
     wc_timers := []; wc_effects := []; wc_outbox := [];
     wc_audit_events := [mkStepAuditEvent 41%N None "worker" "w1" "accept" "work_item" "31" "c"
                           None None None None (Object []) 0] |}.

Definition after : StepTables := acts [OnStep commit 1] tables.

Example applied : commit_workflow_step commit 1 tables = Ok (after, StepApplied 5 8 4 1).
Proof. vm_compute. reflexivity. Qed.

Lemma step_commit_atomic_witness :
  ∃ job, claim_held false (wc_fence commit) 1 job ∧
    q_jobs (sx_queue tables) !! sf_job_id (wc_fence commit) = Some job.
Proof.
  destruct (step_commit_atomic commit 1 tables after (StepApplied 5 8 4 1) applied)
    as [[H _]|(job & item & flow & Hc & Hw & _)]; [discriminate H|].
  exists job. split; [exact Hc|]. exact (sw_job _ _ _ _ _ _ _ Hw).
Defined.

Lemma step_commit_exactly_once_witness :
  let later := [OnQueue (DoClaim 1%N "w2" 5 (minutes 1) (minutes 9) (λ _, false))] in
  commit_workflow_step commit (minutes 9) (acts later after) = Ok (acts later after, AlreadyApplied).
Proof.
  intros later.
  destruct (step_commit_exactly_once commit 1 tables after 5 8 4 1 later
    (run_all_ok [DoEnqueue 0 job; DoClaim 1%N "w1" 1 (minutes 1) 0 (λ _, false)] (empty_queue, [])
       empty_queue_ok) applied) as (_ & H & _).
  apply H. vm_compute. reflexivity.
Defined.

Lemma audit_chain_extended_witness :
  length (sx_audit after) = 1%nat ∧ ∃ v, verify_audit_chain 1%N (mine 1%N (sx_audit after)) = Ok v.
Proof.
  split; [vm_compute; reflexivity|].
  apply (audit_chain_extended [OnStep commit 1] tables).
  - split; [|apply NoDup_nil_2]. intros t. constructor; try apply NoDup_nil_2; [constructor|exact I|].
    vm_compute. discriminate.
  - intros c now a Hl Ha. rewrite list_elem_of_singleton in Hl. injection Hl as -> _.
    split; reflexivity.
  - vm_compute. discriminate.
Defined.
End Sample.
