(* ===== verification/Reservations.v ===== *)
(** Admission reservations, [src/src/ledger/reservations.rs]: before an attempt
    may run, one transaction takes a repository slot, a worker slot, identity
    capacity and a budget in eight dimensions, and gives them back together.

    [Directory] holds the tables the transactions only read, [ReservationTables]
    those they write.  A transaction that fails commits nothing, and the advisory
    locks order those that touch the same capacity, so an operation is a function
    to [res] of the new tables.  Each statement reads its own instant, and new
    identifiers are arguments.  Unique indexes are modelled; the CHECK
    constraints and triggers of the migrations are not. *)

From Stdlib Require Import ZArith Lia.
From stdpp Require Import base tactics option list strings gmap pretty numbers.
From S2P Require Import Prelude RustStr RustOrd Ids Authority Identity Crypto Security RunEvents.

Definition MAX_SAFE_TEXT_BYTES : Z := 512.
Definition MAX_EXPIRY_SWEEP_BATCH_SIZE : Z := 1000.
Definition ACQUISITION_REASON : string := "atomic admission acquired".
Definition EXPIRY_SWEEP_REASON : string := "reservation TTL elapsed".
Definition INTERNAL_IDEMPOTENCY_NAMESPACE_PREFIX : string := "asf-internal:".
Definition EXPIRY_SWEEP_IDEMPOTENCY_PREFIX : string := "asf-internal:reservation-expiry:v1:".
Definition WORK_CLOSURE_IDEMPOTENCY_PREFIX : string := "work-closure:v1:".
Definition RUNMILL_CANCELLATION_IDEMPOTENCY_PREFIX : string := "runmill-cancellation:v1:".

(** ** Requests and receipts *)

Module ReservationBudgetDimension.
Inductive ReservationBudgetDimension :=
| CostMicrounits | InputTokens | OutputTokens | ImplementerInvocations | ReviewerInvocations
| FixIterations | WallTimeSeconds | ExternalApiCalls.
#[export] Instance eq_dec : EqDecision ReservationBudgetDimension.
Proof. solve_decision. Defined.

Definition ALL : list ReservationBudgetDimension :=
  [ CostMicrounits; InputTokens; OutputTokens; ImplementerInvocations; ReviewerInvocations;
    FixIterations; WallTimeSeconds; ExternalApiCalls ].

Definition database_value (d : ReservationBudgetDimension) : string :=
  match d with
  | CostMicrounits => "COST_MICROUNITS"
  | InputTokens => "INPUT_TOKENS"
  | OutputTokens => "OUTPUT_TOKENS"
  | ImplementerInvocations => "IMPLEMENTER_INVOCATIONS"
  | ReviewerInvocations => "REVIEWER_INVOCATIONS"
  | FixIterations => "FIX_ITERATIONS"
  | WallTimeSeconds => "WALL_TIME_SECONDS"
  | ExternalApiCalls => "EXTERNAL_API_CALLS"
  end.

Definition unit_name (d : ReservationBudgetDimension) : string :=
  match d with
  | CostMicrounits => "microunits"
  | InputTokens | OutputTokens => "tokens"
  | ImplementerInvocations | ReviewerInvocations => "invocations"
  | FixIterations => "iterations"
  | WallTimeSeconds => "seconds"
  | ExternalApiCalls => "calls"
  end.
End ReservationBudgetDimension.
Abbreviation ReservationBudgetDimension := ReservationBudgetDimension.ReservationBudgetDimension.
Export (hints) ReservationBudgetDimension.
Abbreviation Dimension := ReservationBudgetDimension.
Abbreviation database_value := ReservationBudgetDimension.database_value.

Record BudgetReservationAmounts := mkBudgetReservationAmounts {
  ba_cost_microunits : Z;
  ba_input_tokens : Z;
  ba_output_tokens : Z;
  ba_implementer_invocations : Z;
  ba_reviewer_invocations : Z;
  ba_fix_iterations : Z;
  ba_wall_time_seconds : Z;
  ba_external_api_calls : Z
}.

Definition amount (b : BudgetReservationAmounts) (d : Dimension) : Z :=
  match d with
  | ReservationBudgetDimension.CostMicrounits => ba_cost_microunits b
  | ReservationBudgetDimension.InputTokens => ba_input_tokens b
  | ReservationBudgetDimension.OutputTokens => ba_output_tokens b
  | ReservationBudgetDimension.ImplementerInvocations => ba_implementer_invocations b
  | ReservationBudgetDimension.ReviewerInvocations => ba_reviewer_invocations b
  | ReservationBudgetDimension.FixIterations => ba_fix_iterations b
  | ReservationBudgetDimension.WallTimeSeconds => ba_wall_time_seconds b
  | ReservationBudgetDimension.ExternalApiCalls => ba_external_api_calls b
  end.

Definition BudgetReservationAmounts_validate (b : BudgetReservationAmounts) : res unit :=
  try_for ReservationBudgetDimension.ALL (λ d,
    ok_or (try_from i64_max (amount b d))
      (Validation [Lit "budget reservation for "; Disp (database_value d);
                   Lit " exceeds PostgreSQL bigint capacity"]) ;; Ok tt).

Record IdentityCapacityRequest := mkIdentityCapacityRequest {
  ic_profile_ref : CtxlaneProfileRef;
  ic_units : Z;
  ic_expected_generation : Z
}.

Record AdmissionReservationRequest := mkAdmissionReservationRequest {
  aq_reservation_set_id : Uuid;
  aq_tenant_id : Uuid;
  aq_work_item_id : Uuid;
  aq_attempt_id : Uuid;
  aq_repository_id : Uuid;
  aq_expected_repository_generation : Z;
  aq_worker_id : Uuid;
  aq_worker_session_id : Uuid;
  aq_expected_worker_generation : Z;
  aq_identities : list IdentityCapacityRequest;
  aq_budget : BudgetReservationAmounts;
  aq_expires_at : DateTime;
  aq_actor_id : string;
  aq_idempotency_key : string
}.

Module AdmissionDisposition.
Inductive AdmissionDisposition := Acquired | Adopted.
End AdmissionDisposition.
Abbreviation AdmissionDisposition := AdmissionDisposition.AdmissionDisposition.

Module ReservationKind.
Inductive ReservationKind := RepositoryWip | WorkerSlot | IdentityCapacity | Budget.
#[export] Instance eq_dec : EqDecision ReservationKind.
Proof. solve_decision. Defined.
End ReservationKind.
Abbreviation ReservationKind := ReservationKind.ReservationKind.
Export (hints) ReservationKind.

Record ReservedResource := mkReservedResource {
  rs_id : Uuid;
  rs_kind : ReservationKind;
  rs_resource_key : string;
  rs_budget_dimension : option Dimension;
  rs_units : Z;
  rs_resource_generation : Z
}.

Record AdmissionReservationReceipt := mkAdmissionReservationReceipt {
  ac_reservation_set_id : Uuid;
  ac_disposition : AdmissionDisposition;
  ac_request_digest : string;
  ac_fence_token : Z;
  ac_acquired_at : DateTime;
  ac_expires_at : DateTime;
  ac_acquisition_event_id : Uuid;
  ac_resources : list ReservedResource
}.

Record ReservationTransitionRequest := mkReservationTransitionRequest {
  tq_tenant_id : Uuid;
  tq_reservation_set_id : Uuid;
  tq_expected_fence_token : Z;
  tq_actor_id : string;
  tq_reason : string;
  tq_idempotency_key : string
}.

Module ReservationTerminalState.
Inductive ReservationTerminalState := Released | Expired.
#[export] Instance eq_dec : EqDecision ReservationTerminalState.
Proof. solve_decision. Defined.
End ReservationTerminalState.
Abbreviation ReservationTerminalState := ReservationTerminalState.ReservationTerminalState.
Export (hints) ReservationTerminalState.

Module AttemptReservationReleaseNamespace.
Inductive AttemptReservationReleaseNamespace := WorkClosure | RunmillCancellation (terminal_receipt_id : Uuid).

Definition prefix (n : AttemptReservationReleaseNamespace) : string :=
  match n with WorkClosure => "work-closure" | RunmillCancellation _ => "runmill-cancellation" end.

Definition cancellation_terminal_receipt_id (n : AttemptReservationReleaseNamespace) : option Uuid :=
  match n with WorkClosure => None | RunmillCancellation id => Some id end.
End AttemptReservationReleaseNamespace.
Abbreviation AttemptReservationReleaseNamespace := AttemptReservationReleaseNamespace.AttemptReservationReleaseNamespace.

Module ReservationTransitionDisposition.
Inductive ReservationTransitionDisposition := Applied | Adopted.
End ReservationTransitionDisposition.
Abbreviation ReservationTransitionDisposition := ReservationTransitionDisposition.ReservationTransitionDisposition.

Record ReservationTransitionReceipt := mkReservationTransitionReceipt {
  tc_reservation_set_id : Uuid;
  tc_state : ReservationTerminalState;
  tc_disposition : ReservationTransitionDisposition;
  tc_previous_fence_token : Z;
  tc_fence_token : Z;
  tc_actor_id : string;
  tc_reason : string;
  tc_idempotency_key : string;
  tc_event_id : Uuid;
  tc_occurred_at : DateTime
}.

Record AdmissionSemantics := mkAdmissionSemantics {
  as_tenant_id : Uuid;
  as_work_item_id : Uuid;
  as_attempt_id : Uuid;
  as_repository_id : Uuid;
  as_expected_repository_generation : Z;
  as_worker_id : Uuid;
  as_worker_session_id : Uuid;
  as_expected_worker_generation : Z;
  as_identities : list IdentityCapacityRequest;
  as_budget : BudgetReservationAmounts;
  as_expires_at : DateTime;
  as_actor_id : string
}.

(** ** Small conversions *)

Definition reservation_kind_value (k : ReservationKind) : string :=
  match k with
  | ReservationKind.RepositoryWip => "REPOSITORY_WIP"
  | ReservationKind.WorkerSlot => "WORKER_SLOT"
  | ReservationKind.IdentityCapacity => "IDENTITY_CAPACITY"
  | ReservationKind.Budget => "BUDGET"
  end.

Definition parse_reservation_kind (value : string) : res ReservationKind :=
  if bool_decide (value = "REPOSITORY_WIP") then Ok ReservationKind.RepositoryWip
  else if bool_decide (value = "WORKER_SLOT") then Ok ReservationKind.WorkerSlot
  else if bool_decide (value = "IDENTITY_CAPACITY") then Ok ReservationKind.IdentityCapacity
  else if bool_decide (value = "BUDGET") then Ok ReservationKind.Budget
  else Err (Persistence [Lit "unknown persisted reservation kind "; Disp value]).

Definition parse_budget_dimension (value : string) : res Dimension :=
  ok_or (find (λ d, bool_decide (database_value d = value)) ReservationBudgetDimension.ALL)
    (Persistence [Lit "unknown persisted budget dimension "; Disp value]).

Definition terminal_state_value (s : ReservationTerminalState) : string :=
  match s with
  | ReservationTerminalState.Released => "RELEASED"
  | ReservationTerminalState.Expired => "EXPIRED"
  end.

Definition json_metadata (admission_idempotency_key : string) : Value :=
  Object [("admission_idempotency_key", VString admission_idempotency_key)].

(** [value.parse::<u64>()] of the text of a sum. *)
Definition parse_u64 (value : Z) (context : string) : res Z :=
  ok_or (try_from u64_max value)
    (Persistence [Lit "decode "; Disp context; Lit ": ";
                  Lit (if value <? 0 then "invalid digit found in string"
                       else "number too large to fit in target type")]).

Definition positive_u64 (value : Z) : res Z :=
  value ← ok_or (try_from u64_max value)
    (Persistence [Lit "persisted positive value was negative"]);
  bail_if (value =? 0) (Persistence [Lit "persisted positive value was zero"]) ;; Ok value.

Definition nonnegative_u64 (value : Z) : res Z :=
  ok_or (try_from u64_max value) (Persistence [Lit "persisted nonnegative value was negative"]).

Definition validate_safe_text (label value : string) : res unit :=
  bail_if (str_is_empty value || (MAX_SAFE_TEXT_BYTES <? len value) || trim_differs value
           || has_control value)
    (Validation [Disp label;
       Lit " must be non-empty, bounded, trimmed, and contain no control characters"]).

Definition validate_external_idempotency_key (label value : string) : res unit :=
  validate_safe_text label value ;;
  bail_if (existsb (λ prefix, starts_with prefix value)
             [ INTERNAL_IDEMPOTENCY_NAMESPACE_PREFIX; WORK_CLOSURE_IDEMPOTENCY_PREFIX;
               RUNMILL_CANCELLATION_IDEMPOTENCY_PREFIX ])
    (Validation [Disp label; Lit " uses the reserved ASF internal namespace"]).

Definition budget_limit (l : BudgetLimits) (d : Dimension) : Z :=
  match d with
  | ReservationBudgetDimension.CostMicrounits => max_cost_microunits l
  | ReservationBudgetDimension.InputTokens => max_input_tokens l
  | ReservationBudgetDimension.OutputTokens => max_output_tokens l
  | ReservationBudgetDimension.ImplementerInvocations => max_implementer_invocations l
  | ReservationBudgetDimension.ReviewerInvocations => max_reviewer_invocations l
  | ReservationBudgetDimension.FixIterations => max_fix_iterations l
  | ReservationBudgetDimension.WallTimeSeconds => max_wall_time_seconds l
  | ReservationBudgetDimension.ExternalApiCalls => max_external_api_calls l
  end.

(** ** Tables *)

Record WorkItemAdmission := mkWorkItemAdmission {
  wa_repository_id : option Uuid;
  wa_budget_limits : Value;
  wa_identity_requirements : Value;
  wa_current_attempt_id : option Uuid;
  wa_accepted_at : option DateTime
}.

Record AttemptAdmission := mkAttemptAdmission {
  aa_work_item_id : Uuid;
  aa_state : string;
  aa_aggregate_version : Z
}.

Record RepositoryCapacity := mkRepositoryCapacity {
  rc_active : bool;
  rc_wip_limit : Z;
  rc_aggregate_version : Z
}.

Record WorkerCapacity := mkWorkerCapacity {
  wk_status : string;
  wk_max_concurrency : Z;
  wk_generation : Z
}.

Record WorkerSession := mkWorkerSession {
  wn_worker_id : Uuid;
  wn_worker_generation : Z;
  wn_status : string;
  wn_expires_at : DateTime
}.

Record IdentityCapacityRow := mkIdentityCapacityRow {
  il_capacity : Z;
  il_generation : Z;
  il_enabled : bool
}.

(** The tables that an admission reads, by tenant. *)
Record Directory := mkDirectory {
  dir_tenants : gmap Uuid string;
  dir_work_items : gmap (Uuid * Uuid) WorkItemAdmission;
  dir_attempts : gmap (Uuid * Uuid) AttemptAdmission;
  dir_repositories : gmap (Uuid * Uuid) RepositoryCapacity;
  dir_workers : gmap (Uuid * Uuid) WorkerCapacity;
  dir_sessions : gmap (Uuid * Uuid) WorkerSession;
  dir_identities : gmap (Uuid * string) IdentityCapacityRow
}.

(** The columns that a transition writes. *)
Record Transition := mkTransition {
  tn_released_at : DateTime;
  tn_released_by : string;
  tn_release_reason : string;
  tn_idempotency_key : string;
  tn_cancellation_terminal_receipt_id : option Uuid
}.

(** A row of [reservation_sets]. *)
Record SetRow := mkSetRow {
  st_tenant_id : Uuid;
  st_work_item_id : Uuid;
  st_attempt_id : Uuid;
  st_repository_id : Uuid;
  st_worker_id : Uuid;
  st_worker_session_id : option Uuid;
  st_worker_generation : option Z;
  st_request_digest : string;
  st_idempotency_key : string;
  st_state : string;
  st_fence_token : Z;
  st_acquired_by : string;
  st_acquired_at : DateTime;
  st_expires_at : DateTime;
  st_transition : option Transition
}.

(** A row of [reservations]. *)
Record ResourceRow := mkResourceRow {
  rr_id : Uuid;
  rr_tenant_id : Uuid;
  rr_set_id : Uuid;
  rr_kind : string;
  rr_resource_key : string;
  rr_budget_dimension : option string;
  rr_units : Z;
  rr_idempotency_key : string;
  rr_resource_generation : Z
}.

(** A row of [budget_ledger], whose other writers are outside this module. *)
Record BudgetEntry := mkBudgetEntry {
  be_tenant_id : Uuid;
  be_work_item_id : option Uuid;
  be_attempt_id : option Uuid;
  be_reservation_id : option Uuid;
  be_scope_id : string;
  be_dimension : string;
  be_entry_type : string;
  be_amount : Z;
  be_unit : string;
  be_idempotency_key : string;
  be_metadata : Value;
  be_occurred_at : DateTime
}.

(** A row of [reservation_set_events]. *)
Record SetEvent := mkSetEvent {
  sv_id : Uuid;
  sv_tenant_id : Uuid;
  sv_set_id : Uuid;
  sv_event_type : string;
  sv_previous_fence_token : Z;
  sv_fence_token : Z;
  sv_actor_id : string;
  sv_reason : string;
  sv_idempotency_key : string;
  sv_occurred_at : DateTime
}.

Record ReservationTables := mkReservationTables {
  rt_sets : gmap Uuid SetRow;
  rt_resources : list ResourceRow;
  rt_ledger : list BudgetEntry;
  rt_events : list SetEvent
}.

Definition set_sets m (s : ReservationTables) : ReservationTables :=
  mkReservationTables m (rt_resources s) (rt_ledger s) (rt_events s).
Definition set_resources l (s : ReservationTables) : ReservationTables :=
  mkReservationTables (rt_sets s) l (rt_ledger s) (rt_events s).
Definition set_ledger l (s : ReservationTables) : ReservationTables :=
  mkReservationTables (rt_sets s) (rt_resources s) l (rt_events s).
Definition set_events l (s : ReservationTables) : ReservationTables :=
  mkReservationTables (rt_sets s) (rt_resources s) (rt_ledger s) l.

(** [serde_json::from_value] of the two persisted documents. *)
Class AdmissionJson := {
  budget_limits_from_value : Value → string + BudgetLimits;
  identities_from_value : Value → string + WorkOrderIdentities
}.

(** PostgreSQL orders text by the key its collation gives it, and texts of the
    same key by their bytes. *)
Class Collation := { collation_key : string → string }.

Definition text_order `{Collation} (s : string) : string * string := (collation_key s, s).

(** The instants that the statements of an admission read. *)
Record AdmissionClock := mkAdmissionClock {
  ck_adopted : DateTime;
  ck_started : DateTime;
  ck_session : DateTime;
  ck_summed : string → string → DateTime;
  ck_acquired : DateTime
}.

Section reservations.
  Context {pg : PgColumns} {uuids : UuidText} {hashing : Hashing}.
  Context {semantics_jcs : Canonical AdmissionSemantics} {json : AdmissionJson}.
  Context {collation : Collation}.

(** ** Validation *)

(** One identity of the sorted list, with those seen before. *)
Definition check_identity (seen : list CtxlaneProfileRef) (i : IdentityCapacityRequest)
  : res (list CtxlaneProfileRef) :=
  bail_if ((ic_units i =? 0) || (ic_expected_generation i =? 0))
    (Validation [Lit "identity reservation units and generation must be positive"]) ;;
  bail_if (bool_decide (ic_profile_ref i ∈ seen))
    (Validation [Lit "identity profile "; Disp (profile_str (ic_profile_ref i));
                 Lit " occurs more than once in admission"]) ;;
  Ok (ic_profile_ref i :: seen).

Definition AdmissionReservationRequest_validate (r : AdmissionReservationRequest)
  : res (list IdentityCapacityRequest) :=
  try_for [ ("reservation set", aq_reservation_set_id r); ("tenant", aq_tenant_id r);
            ("work item", aq_work_item_id r); ("attempt", aq_attempt_id r);
            ("repository", aq_repository_id r); ("worker", aq_worker_id r);
            ("worker session", aq_worker_session_id r) ]
    (λ '(label, id), bail_if (is_nil id)
       (Validation [Lit "admission reservation "; Disp label; Lit " ID must be non-nil"])) ;;
  bail_if ((aq_expected_repository_generation r =? 0) || (aq_expected_worker_generation r =? 0))
    (Validation [Lit "admission resource generations must be positive"]) ;;
  validate_safe_text "admission actor" (aq_actor_id r) ;;
  validate_external_idempotency_key "admission idempotency key" (aq_idempotency_key r) ;;
  BudgetReservationAmounts_validate (aq_budget r) ;;
  bail_if match aq_identities r with [] => true | _ => false end
    (Validation [Lit "admission must reserve every required identity profile"]) ;;
  let identities := sort_by_key (λ i, profile_str (ic_profile_ref i)) (aq_identities r) in
  try_fold identities [] check_identity ≫= λ _, Ok identities.

Definition request_digest (r : AdmissionReservationRequest)
    (identities : list IdentityCapacityRequest) : res string :=
  bytes ← canonical_json
    {| as_tenant_id := aq_tenant_id r; as_work_item_id := aq_work_item_id r;
       as_attempt_id := aq_attempt_id r; as_repository_id := aq_repository_id r;
       as_expected_repository_generation := aq_expected_repository_generation r;
       as_worker_id := aq_worker_id r; as_worker_session_id := aq_worker_session_id r;
       as_expected_worker_generation := aq_expected_worker_generation r;
       as_identities := identities; as_budget := aq_budget r; as_expires_at := aq_expires_at r;
       as_actor_id := aq_actor_id r |};
  Ok (sha256_digest bytes).

Definition ReservationTransitionRequest_validate (r : ReservationTransitionRequest) : res unit :=
  bail_if (is_nil (tq_tenant_id r) || is_nil (tq_reservation_set_id r))
    (Validation [Lit "reservation transition IDs must be non-nil"]) ;;
  bail_if (tq_expected_fence_token r =? 0)
    (Validation [Lit "reservation transition fence must be positive"]) ;;
  validate_safe_text "reservation transition actor" (tq_actor_id r) ;;
  validate_safe_text "reservation transition reason" (tq_reason r) ;;
  validate_external_idempotency_key "reservation transition idempotency key" (tq_idempotency_key r).

(** ** Keys *)

Definition repository_resource_key (repository_id : Uuid) : string :=
  "repository:" +:+ uuid_to_string repository_id.
Definition worker_resource_key (worker_id : Uuid) : string := "worker:" +:+ uuid_to_string worker_id.
Definition identity_resource_key (profile_ref : CtxlaneProfileRef) : string :=
  "identity:" +:+ profile_str profile_ref.
Definition budget_resource_key (work_item_id : Uuid) (d : Dimension) : string :=
  "budget:work-item:" +:+ uuid_to_string work_item_id +:+ ":" +:+ database_value d.

Definition expiry_sweep_idempotency_key (set_id : Uuid) (current_fence : Z) : string :=
  EXPIRY_SWEEP_IDEMPOTENCY_PREFIX +:+ uuid_to_string set_id +:+ ":fence:" +:+ pretty current_fence.

Definition release_idempotency_key (n : AttemptReservationReleaseNamespace)
    (work_item_id attempt_id set_id : Uuid) (current_fence : Z) : string :=
  AttemptReservationReleaseNamespace.prefix n +:+ ":v1:" +:+ uuid_to_string work_item_id +:+ ":"
  +:+ uuid_to_string attempt_id +:+ ":" +:+ uuid_to_string set_id +:+ ":fence:" +:+ pretty current_fence.

(** [keys.dedup()] of a sorted vector. *)
Fixpoint dedup (l : list string) : list string :=
  match l with
  | x :: ((y :: _) as rest) => if bool_decide (x = y) then dedup rest else x :: dedup rest
  | _ => l
  end.

(** The advisory locks of an admission, in the order they are taken. *)
Definition admission_lock_keys (r : AdmissionReservationRequest)
    (identities : list IdentityCapacityRequest) : list string :=
  let key kind name :=
    "admission:" +:+ uuid_to_string (aq_tenant_id r) +:+ ":" +:+ kind +:+ ":" +:+ name in
  dedup (sort_by_key id (
    [ key "attempt" (uuid_to_string (aq_attempt_id r));
      key "budget" (uuid_to_string (aq_work_item_id r));
      key "repository" (uuid_to_string (aq_repository_id r));
      key "worker" (uuid_to_string (aq_worker_id r)) ]
    ++ ((λ i, key "identity" (profile_str (ic_profile_ref i))) <$> identities))).

(** ** The context of an admission *)

Record AdmissionContext := mkAdmissionContext {
  cx_repository_generation : Z;
  cx_repository_capacity : Z;
  cx_worker_generation : Z;
  cx_worker_capacity : Z;
  cx_attempt_generation : Z;
  cx_budget_limits : BudgetLimits;
  cx_identity_capacities : gmap string (Z * Z)
}.

(** [*units = units.checked_add(1)?] for each of the three roles. *)
Definition count_role (expected : gmap string Z) (profile : CtxlaneProfileRef)
  : res (gmap string Z) :=
  units ← ok_or (checked_add u32_max (default 0 (expected !! profile_str profile)) 1)
    (Validation [Lit "identity role count overflowed"]);
  Ok (<[profile_str profile := units]> expected).

Definition validate_requested_identities (requested : list IdentityCapacityRequest)
    (required : WorkOrderIdentities) : res unit :=
  expected ← try_fold [woi_implementer required; woi_local_reviewer required; woi_pr_reviewer required]
    ∅ count_role;
  let actual := foldl (λ m i, <[profile_str (ic_profile_ref i) := ic_units i]> m)
    (∅ : gmap string Z) requested in
  bail_if (negb (bool_decide (actual = expected)))
    (Conflict [Lit "identity reservations do not exactly cover the accepted role requirements"]).

Definition work_item_context (r : AdmissionReservationRequest)
    (identities : list IdentityCapacityRequest) (d : Directory) : res BudgetLimits :=
  item ← ok_or (dir_work_items d !! (aq_tenant_id r, aq_work_item_id r))
    (NotFound [Lit "work item "; FmtUuid (aq_work_item_id r)]);
  bail_if (is_none (wa_accepted_at item)
           || negb (bool_decide (wa_repository_id item = Some (aq_repository_id r)))
           || negb (bool_decide (wa_current_attempt_id item = Some (aq_attempt_id r))))
    (Conflict [Lit "admission is not bound to the accepted work item's current attempt and repository"]) ;;
  limits ← map_err (budget_limits_from_value (wa_budget_limits item))
    (λ error, Persistence [Lit "decode persisted budget limits: "; Disp error]);
  BudgetLimits_validate limits ;;
  required ← map_err (identities_from_value (wa_identity_requirements item))
    (λ error, Persistence [Lit "decode persisted identity requirements: "; Disp error]);
  WorkOrderIdentities_validate required ;;
  validate_requested_identities identities required ;;
  Ok limits.

Definition attempt_context (r : AdmissionReservationRequest) (d : Directory) : res Z :=
  attempt ← ok_or (a ← dir_attempts d !! (aq_tenant_id r, aq_attempt_id r);
                   if bool_decide (aa_work_item_id a = aq_work_item_id r) then Some a else None)
    (NotFound [Lit "attempt "; FmtUuid (aq_attempt_id r)]);
  bail_if (negb (mem (aa_state attempt) ["CREATED"; "AUTHORIZED"]))
    (Conflict [Lit "attempt "; FmtUuid (aq_attempt_id r); Lit " is "; Disp (aa_state attempt);
               Lit ", not admissible"]) ;;
  positive_u64 (aa_aggregate_version attempt).

(** Capacity and generation. *)
Definition repository_context (r : AdmissionReservationRequest) (d : Directory) : res (Z * Z) :=
  repository ← ok_or (dir_repositories d !! (aq_tenant_id r, aq_repository_id r))
    (NotFound [Lit "repository "; FmtUuid (aq_repository_id r)]);
  capacity ← positive_u64 (rc_wip_limit repository);
  generation ← positive_u64 (rc_aggregate_version repository);
  bail_if (negb (rc_active repository)
           || negb (generation =? aq_expected_repository_generation r))
    (Conflict [Lit "repository is disabled or its generation changed before admission"]) ;;
  Ok (capacity, generation).

Definition worker_context (r : AdmissionReservationRequest) (d : Directory) : res (Z * Z) :=
  worker ← ok_or (dir_workers d !! (aq_tenant_id r, aq_worker_id r))
    (NotFound [Lit "worker "; FmtUuid (aq_worker_id r)]);
  capacity ← positive_u64 (wk_max_concurrency worker);
  generation ← positive_u64 (wk_generation worker);
  bail_if (negb (bool_decide (wk_status worker = "READY"))
           || negb (generation =? aq_expected_worker_generation r))
    (Conflict [Lit "worker is not ready or its generation changed before admission"]) ;;
  Ok (capacity, generation).

Definition session_context (r : AdmissionReservationRequest) (now : DateTime) (d : Directory)
  : res unit :=
  session ← ok_or (dir_sessions d !! (aq_tenant_id r, aq_worker_session_id r))
    (NotFound [Lit "worker session "; FmtUuid (aq_worker_session_id r)]);
  generation ← positive_u64 (wn_worker_generation session);
  bail_if (negb (bool_decide (wn_worker_id session = aq_worker_id r))
           || negb (generation =? aq_expected_worker_generation r)
           || negb (bool_decide (wn_status session = "ACTIVE"))
           || (wn_expires_at session <=? now)
           || (wn_expires_at session <? aq_expires_at r))
    (Conflict [Lit "worker session is not active, is expired, is shorter than the reservation, or does not exactly bind the requested worker generation"]).

Definition identity_context (r : AdmissionReservationRequest) (d : Directory)
    (capacities : gmap string (Z * Z)) (i : IdentityCapacityRequest) : res (gmap string (Z * Z)) :=
  row ← ok_or (dir_identities d !! (aq_tenant_id r, profile_str (ic_profile_ref i)))
    (NotFound [Lit "identity capacity for "; Disp (profile_str (ic_profile_ref i))]);
  capacity ← positive_u64 (il_capacity row);
  generation ← positive_u64 (il_generation row);
  bail_if (negb (il_enabled row) || negb (generation =? ic_expected_generation i))
    (Conflict [Lit "identity capacity for "; Disp (profile_str (ic_profile_ref i));
               Lit " is disabled or changed generation"]) ;;
  Ok (<[profile_str (ic_profile_ref i) := (capacity, generation)]> capacities).

Definition load_and_validate_context (r : AdmissionReservationRequest)
    (identities : list IdentityCapacityRequest) (now : DateTime) (d : Directory)
  : res AdmissionContext :=
  status ← ok_or (dir_tenants d !! aq_tenant_id r) (NotFound [Lit "tenant "; FmtUuid (aq_tenant_id r)]);
  bail_if (negb (bool_decide (status = "ACTIVE")))
    (Conflict [Lit "tenant "; FmtUuid (aq_tenant_id r); Lit " is "; Disp status;
               Lit "; new admission is disabled"]) ;;
  limits ← work_item_context r identities d;
  attempt_generation ← attempt_context r d;
  '(repository_capacity, repository_generation) ← repository_context r d;
  '(worker_capacity, worker_generation) ← worker_context r d;
  session_context r now d ;;
  identity_capacities ← try_fold identities ∅ (identity_context r d);
  Ok {| cx_repository_generation := repository_generation;
        cx_repository_capacity := repository_capacity;
        cx_worker_generation := worker_generation; cx_worker_capacity := worker_capacity;
        cx_attempt_generation := attempt_generation; cx_budget_limits := limits;
        cx_identity_capacities := identity_capacities |}.

(** ** Capacity *)

(** The set of a reservation counts at [now]. *)
Definition counts_at (now : DateTime) (s : ReservationTables) (row : ResourceRow) : bool :=
  match rt_sets s !! rr_set_id row with
  | Some set => bool_decide (st_tenant_id set = rr_tenant_id row)
                && bool_decide (st_state set = "ACTIVE") && (now <? st_expires_at set)
  | None => false
  end.

Definition holds (tenant_id : Uuid) (kind resource_key : string) (row : ResourceRow) : bool :=
  bool_decide (rr_tenant_id row = tenant_id) && bool_decide (rr_kind row = kind)
  && bool_decide (rr_resource_key row = resource_key).

Definition sum_units (rows : list ResourceRow) : Z := foldr (λ row n, rr_units row + n) 0 rows.

(** [SUM(reservation.units)] of the join. *)
Definition units_at (now : DateTime) (tenant_id : Uuid) (kind resource_key : string)
    (s : ReservationTables) : Z :=
  sum_units (List.filter (λ row, holds tenant_id kind resource_key row && counts_at now s row)
               (rt_resources s)).

Definition active_reserved_units (now : DateTime) (tenant_id : Uuid) (kind resource_key : string)
    (s : ReservationTables) : res Z :=
  parse_u64 (units_at now tenant_id kind resource_key s) "active reservation capacity".

Definition consumed (tenant_id work_item_id : Uuid) (d : Dimension) (s : ReservationTables) : Z :=
  foldr (λ e n, be_amount e + n) 0 (List.filter (λ e,
    bool_decide (be_tenant_id e = tenant_id) && bool_decide (be_work_item_id e = Some work_item_id)
    && bool_decide (be_dimension e = database_value d)
    && mem (be_entry_type e) ["CONSUME"; "ADJUST"]) (rt_ledger s)).

Definition consumed_budget (tenant_id work_item_id : Uuid) (d : Dimension) (s : ReservationTables)
  : res Z := parse_u64 (consumed tenant_id work_item_id d s) "consumed budget".

Definition require_capacity (now : DateTime) (tenant_id : Uuid) (kind resource_key : string)
    (requested capacity : Z) (s : ReservationTables) : res unit :=
  active ← active_reserved_units now tenant_id kind resource_key s;
  bail_if match checked_add u64_max active requested with
          | Some total => capacity <? total
          | None => true
          end
    (Conflict [Disp kind; Lit " capacity is exhausted for "; Disp resource_key]).

(** One dimension of the budget. *)
Definition require_budget (r : AdmissionReservationRequest) (limits : BudgetLimits)
    (summed : string → string → DateTime) (s : ReservationTables) (d : Dimension) : res unit :=
  let requested := amount (aq_budget r) d in
  let limit := budget_limit limits d in
  let resource_key := budget_resource_key (aq_work_item_id r) d in
  active ← active_reserved_units (summed "BUDGET" resource_key) (aq_tenant_id r) "BUDGET"
    resource_key s;
  used ← consumed_budget (aq_tenant_id r) (aq_work_item_id r) d s;
  committed ← ok_or (sum ← checked_add u64_max used active; checked_add u64_max sum requested)
    (Conflict [Lit "budget capacity arithmetic overflowed"]);
  bail_if (limit <? committed)
    (Conflict [Disp (database_value d); Lit " budget is exhausted: consumed "; FmtNum used;
               Lit ", active reservations "; FmtNum active; Lit ", requested "; FmtNum requested;
               Lit ", limit "; FmtNum limit]).

Definition enforce_capacity (r : AdmissionReservationRequest)
    (identities : list IdentityCapacityRequest) (cx : AdmissionContext)
    (summed : string → string → DateTime) (s : ReservationTables) : res unit :=
  let require kind key requested capacity :=
    require_capacity (summed kind key) (aq_tenant_id r) kind key requested capacity s in
  require "REPOSITORY_WIP" (repository_resource_key (aq_repository_id r)) 1
    (cx_repository_capacity cx) ;;
  require "WORKER_SLOT" (worker_resource_key (aq_worker_id r)) 1 (cx_worker_capacity cx) ;;
  try_for identities (λ i,
    capacity ← ok_or (fst <$> cx_identity_capacities cx !! profile_str (ic_profile_ref i))
      (Persistence [Lit "locked identity capacity disappeared"]);
    require "IDENTITY_CAPACITY" (identity_resource_key (ic_profile_ref i)) (ic_units i) capacity) ;;
  try_for ReservationBudgetDimension.ALL (require_budget r (cx_budget_limits cx) summed s).

(** ** Inserts *)

Definition reject_existing_attempt_reservation (r : AdmissionReservationRequest)
    (s : ReservationTables) : res unit :=
  match find (λ p, bool_decide (st_tenant_id p.2 = aq_tenant_id r)
                   && bool_decide (st_attempt_id p.2 = aq_attempt_id r)
                   && bool_decide (st_state p.2 = "ACTIVE")) (map_to_list (rt_sets s)) with
  | Some (set_id, _) =>
      Err (Conflict [Lit "attempt "; FmtUuid (aq_attempt_id r); Lit " already has active reservation set ";
                     FmtUuid set_id; Lit "; adopt its idempotency key or transition it first"])
  | None => Ok tt
  end.

Definition keyed_set (tenant_id : Uuid) (key : string) (p : Uuid * SetRow) : bool :=
  bool_decide (st_tenant_id p.2 = tenant_id) && bool_decide (st_idempotency_key p.2 = key).

Definition load_set_by_idempotency_key (tenant_id : Uuid) (key : string) (s : ReservationTables)
  : option (Uuid * SetRow) :=
  find (keyed_set tenant_id key) (map_to_list (rt_sets s)).

(** The row that the statement stores, with the defaults of the table. *)
Definition admitted_row (r : AdmissionReservationRequest) (digest : string) (acquired_at : DateTime)
  : SetRow :=
  {| st_tenant_id := aq_tenant_id r; st_work_item_id := aq_work_item_id r;
     st_attempt_id := aq_attempt_id r; st_repository_id := aq_repository_id r;
     st_worker_id := aq_worker_id r; st_worker_session_id := Some (aq_worker_session_id r);
     st_worker_generation := Some (aq_expected_worker_generation r);
     st_request_digest := digest; st_idempotency_key := aq_idempotency_key r;
     st_state := "ACTIVE"; st_fence_token := 1; st_acquired_by := aq_actor_id r;
     st_acquired_at := acquired_at; st_expires_at := stored_at (aq_expires_at r);
     st_transition := None |}.

(** The generation is bound before the statement runs.  The identifier, the key
    and the active attempt are unique. *)
Definition insert_reservation_set (r : AdmissionReservationRequest) (digest : string)
    (acquired_at : DateTime) (s : ReservationTables) : res ReservationTables :=
  ok_or (try_from i64_max (aq_expected_worker_generation r))
    (Validation [Lit "worker generation exceeds PostgreSQL bigint capacity"]) ;;
  bail_if (is_some (rt_sets s !! aq_reservation_set_id r)
           || is_some (load_set_by_idempotency_key (aq_tenant_id r) (aq_idempotency_key r) s)
           || existsb (λ p, bool_decide (st_tenant_id p.2 = aq_tenant_id r)
                            && bool_decide (st_attempt_id p.2 = aq_attempt_id r)
                            && bool_decide (st_state p.2 = "ACTIVE")) (map_to_list (rt_sets s)))
    (Persistence [Lit "insert reservation set"]) ;;
  Ok (set_sets (<[aq_reservation_set_id r := admitted_row r digest acquired_at]> (rt_sets s)) s).

Definition insert_resource (r : AdmissionReservationRequest) (id : Uuid) (kind : ReservationKind)
    (resource_key : string) (budget_dimension : option Dimension) (units resource_generation : Z)
    (s : ReservationTables) : res ReservationTables :=
  units ← ok_or (try_from i64_max units)
    (Validation [Lit "reservation units exceed PostgreSQL bigint"]);
  resource_generation ← ok_or (try_from i64_max resource_generation)
    (Validation [Lit "resource generation exceeds PostgreSQL bigint"]);
  let row :=
    {| rr_id := id; rr_tenant_id := aq_tenant_id r; rr_set_id := aq_reservation_set_id r;
       rr_kind := reservation_kind_value kind; rr_resource_key := resource_key;
       rr_budget_dimension := database_value <$> budget_dimension; rr_units := units;
       rr_idempotency_key := aq_idempotency_key r +:+ ":" +:+ reservation_kind_value kind
                             +:+ ":" +:+ resource_key;
       rr_resource_generation := resource_generation |} in
  bail_if (existsb (λ x,
      bool_decide (rr_id x = id)
      || (bool_decide (rr_tenant_id x = rr_tenant_id row)
          && bool_decide (rr_idempotency_key x = rr_idempotency_key row))
      || (bool_decide (rr_set_id x = rr_set_id row) && holds (rr_tenant_id row) (rr_kind row) resource_key x))
      (rt_resources s))
    (Persistence [Lit "insert capacity reservation"]) ;;
  Ok (set_resources (rt_resources s ++ [row]) s).

Definition insert_budget_entry (tenant_id work_item_id attempt_id reservation_id : Uuid)
    (d : Dimension) (entry_type : string) (amount : Z) (idempotency_key : string)
    (metadata : Value) (occurred_at : DateTime) (s : ReservationTables) : res ReservationTables :=
  amount ← ok_or (try_from i64_max amount)
    (Validation [Lit "budget amount exceeds PostgreSQL bigint"]);
  let row :=
    {| be_tenant_id := tenant_id; be_work_item_id := Some work_item_id;
       be_attempt_id := Some attempt_id; be_reservation_id := Some reservation_id;
       be_scope_id := uuid_to_string attempt_id; be_dimension := database_value d;
       be_entry_type := entry_type; be_amount := amount;
       be_unit := ReservationBudgetDimension.unit_name d; be_idempotency_key := idempotency_key;
       be_metadata := metadata; be_occurred_at := occurred_at |} in
  bail_if (existsb (λ x,
      bool_decide (be_tenant_id x = tenant_id)
      && (bool_decide (be_idempotency_key x = idempotency_key)
          || (bool_decide (be_reservation_id x = Some reservation_id)
              && bool_decide (be_entry_type x = entry_type)
              && mem entry_type ["RESERVE"; "RELEASE"]))) (rt_ledger s))
    (Persistence [Lit "insert reservation budget entry"]) ;;
  Ok (set_ledger (rt_ledger s ++ [row]) s).

Definition insert_set_event (id tenant_id set_id : Uuid) (event_type : string)
    (previous_fence_token fence_token : Z) (actor_id reason idempotency_key : string)
    (occurred_at : DateTime) (s : ReservationTables) : res ReservationTables :=
  bail_if (existsb (λ x, bool_decide (sv_id x = id)
             || (bool_decide (sv_tenant_id x = tenant_id)
                 && bool_decide (sv_idempotency_key x = idempotency_key))) (rt_events s))
    (Persistence [Lit "insert reservation set event"]) ;;
  Ok (set_events (rt_events s ++ [mkSetEvent id tenant_id set_id event_type previous_fence_token
                                   fence_token actor_id reason idempotency_key occurred_at]) s).

(** The identifiers [Uuid::now_v7()] of the rows of an admission. *)
Definition NewIds := ReservationKind → string → Uuid.

Definition insert_identity (r : AdmissionReservationRequest) (cx : AdmissionContext) (new_id : NewIds)
    (s : ReservationTables) (i : IdentityCapacityRequest) : res ReservationTables :=
  generation ← ok_or (snd <$> cx_identity_capacities cx !! profile_str (ic_profile_ref i))
    (Persistence [Lit "locked identity capacity disappeared"]);
  let key := identity_resource_key (ic_profile_ref i) in
  insert_resource r (new_id ReservationKind.IdentityCapacity key) ReservationKind.IdentityCapacity key
    None (ic_units i) generation s.

Definition insert_budget (r : AdmissionReservationRequest) (cx : AdmissionContext) (new_id : NewIds)
    (occurred_at : DateTime) (s : ReservationTables) (d : Dimension) : res ReservationTables :=
  let units := amount (aq_budget r) d in
  let key := budget_resource_key (aq_work_item_id r) d in
  let id := new_id ReservationKind.Budget key in
  s ← insert_resource r id ReservationKind.Budget key (Some d) units (cx_attempt_generation cx) s;
  insert_budget_entry (aq_tenant_id r) (aq_work_item_id r) (aq_attempt_id r) id d "RESERVE" units
    (aq_idempotency_key r +:+ ":budget-reserve:" +:+ database_value d)
    (json_metadata (aq_idempotency_key r)) occurred_at s.

Definition insert_resources_and_budget_ledger (r : AdmissionReservationRequest)
    (identities : list IdentityCapacityRequest) (cx : AdmissionContext) (new_id : NewIds)
    (occurred_at : DateTime) (s : ReservationTables) : res ReservationTables :=
  let repository_key := repository_resource_key (aq_repository_id r) in
  s ← insert_resource r (new_id ReservationKind.RepositoryWip repository_key)
        ReservationKind.RepositoryWip repository_key None 1 (cx_repository_generation cx) s;
  let worker_key := worker_resource_key (aq_worker_id r) in
  s ← insert_resource r (new_id ReservationKind.WorkerSlot worker_key) ReservationKind.WorkerSlot
        worker_key None 1 (cx_worker_generation cx) s;
  s ← try_fold identities s (insert_identity r cx new_id);
  try_fold ReservationBudgetDimension.ALL s (insert_budget r cx new_id occurred_at).

(** ** Admission *)

Definition resource_from_row (row : ResourceRow) : res ReservedResource :=
  kind ← parse_reservation_kind (rr_kind row);
  dimension ← match rr_budget_dimension row with
              | Some value => d ← parse_budget_dimension value; Ok (Some d)
              | None => Ok None
              end;
  units ← nonnegative_u64 (rr_units row);
  generation ← positive_u64 (rr_resource_generation row);
  Ok (mkReservedResource (rr_id row) kind (rr_resource_key row) dimension units generation).

(** [rows.iter().map(f).collect::<Result<Vec<_>>>()]. *)
Fixpoint collect {A B} (f : A → res B) (l : list A) : res (list B) :=
  match l with
  | [] => Ok []
  | x :: l => y ← f x; ys ← collect f l; Ok (y :: ys)
  end.

Definition of_set (tenant_id set_id : Uuid) (row : ResourceRow) : bool :=
  bool_decide (rr_tenant_id row = tenant_id) && bool_decide (rr_set_id row = set_id).

Definition load_resources (tenant_id set_id : Uuid) (s : ReservationTables)
  : res (list ReservedResource) :=
  collect resource_from_row
    (sort_by_key (λ row, (text_order (rr_kind row), text_order (rr_resource_key row)))
       (List.filter (of_set tenant_id set_id) (rt_resources s))).

Definition adopt_existing_set (r : AdmissionReservationRequest) (digest : string)
    (existing : Uuid * SetRow) (now : DateTime) (d : Directory) (s : ReservationTables)
  : res AdmissionReservationReceipt :=
  let '(set_id, set) := existing in
  expected_generation ← ok_or (try_from i64_max (aq_expected_worker_generation r))
    (Validation [Lit "worker generation exceeds PostgreSQL bigint capacity"]);
  bail_if (negb (bool_decide (st_worker_session_id set = Some (aq_worker_session_id r)))
           || negb (bool_decide (st_worker_generation set = Some expected_generation))
           || negb (bool_decide (st_request_digest set = digest)))
    (Conflict [Lit "reservation idempotency key "; Disp (aq_idempotency_key r);
               Lit " was reused with different admission semantics"]) ;;
  bail_if (negb (bool_decide (st_state set = "ACTIVE")) || (st_expires_at set <=? now))
    (Conflict [Lit "reservation idempotency key "; Disp (aq_idempotency_key r);
               Lit " names a reservation that is no longer active"]) ;;
  '(session, worker) ← ok_or
    (session ← dir_sessions d !! (aq_tenant_id r, aq_worker_session_id r);
     worker ← dir_workers d !! (aq_tenant_id r, wn_worker_id session);
     if bool_decide (wn_worker_id session = aq_worker_id r)
        && (wn_worker_generation session =? expected_generation)
     then Some (session, worker) else None)
    (Conflict [Lit "adopted reservation no longer has its exact worker-session authority"]);
  bail_if (negb (bool_decide (wn_status session = "ACTIVE")) || (wn_expires_at session <=? now)
           || (wn_expires_at session <? st_expires_at set)
           || bool_decide (wk_status worker = "QUARANTINED")
           || negb (wk_generation worker =? expected_generation))
    (Conflict [Lit "adopted reservation's worker-session authority is no longer live"]) ;;
  event ← ok_or (find (λ e, bool_decide (sv_tenant_id e = aq_tenant_id r)
                            && bool_decide (sv_set_id e = set_id)
                            && bool_decide (sv_event_type e = "ACQUIRED")
                            && bool_decide (sv_idempotency_key e = aq_idempotency_key r)) (rt_events s))
    (Persistence [Lit "active reservation has no acquisition event"]);
  fence_token ← positive_u64 (st_fence_token set);
  resources ← load_resources (aq_tenant_id r) set_id s;
  Ok {| ac_reservation_set_id := set_id; ac_disposition := AdmissionDisposition.Adopted;
        ac_request_digest := st_request_digest set; ac_fence_token := fence_token;
        ac_acquired_at := st_acquired_at set; ac_expires_at := st_expires_at set;
        ac_acquisition_event_id := sv_id event; ac_resources := resources |}.

Definition acquire_admission_reservations (r : AdmissionReservationRequest) (clock : AdmissionClock)
    (new_id : NewIds) (event_id : Uuid) (d : Directory) (s : ReservationTables)
  : res (ReservationTables * AdmissionReservationReceipt) :=
  identities ← AdmissionReservationRequest_validate r;
  digest ← request_digest r identities;
  match load_set_by_idempotency_key (aq_tenant_id r) (aq_idempotency_key r) s with
  | Some existing =>
      receipt ← adopt_existing_set r digest existing (ck_adopted clock) d s;
      Ok (s, receipt)
  | None =>
      bail_if (aq_expires_at r <=? ck_started clock)
        (Validation [Lit "admission reservation expiry must be in the future"]) ;;
      cx ← load_and_validate_context r identities (ck_session clock) d;
      reject_existing_attempt_reservation r s ;;
      enforce_capacity r identities cx (ck_summed clock) s ;;
      let acquired_at := ck_acquired clock in
      s ← insert_reservation_set r digest acquired_at s;
      s ← insert_resources_and_budget_ledger r identities cx new_id acquired_at s;
      s ← insert_set_event event_id (aq_tenant_id r) (aq_reservation_set_id r) "ACQUIRED" 0 1
            (aq_actor_id r) ACQUISITION_REASON (aq_idempotency_key r) acquired_at s;
      resources ← load_resources (aq_tenant_id r) (aq_reservation_set_id r) s;
      Ok (s, {| ac_reservation_set_id := aq_reservation_set_id r;
                ac_disposition := AdmissionDisposition.Acquired; ac_request_digest := digest;
                ac_fence_token := 1; ac_acquired_at := acquired_at;
                ac_expires_at := aq_expires_at r; ac_acquisition_event_id := event_id;
                ac_resources := resources |})
  end.

(** ** Transitions *)

(** The row after the update of a set. *)
Definition transitioned_row (r : ReservationTransitionRequest) (target : string) (fence : Z)
    (released_at : DateTime) (terminal_receipt_id : option Uuid) (set : SetRow) : SetRow :=
  {| st_tenant_id := st_tenant_id set; st_work_item_id := st_work_item_id set;
     st_attempt_id := st_attempt_id set; st_repository_id := st_repository_id set;
     st_worker_id := st_worker_id set; st_worker_session_id := st_worker_session_id set;
     st_worker_generation := st_worker_generation set;
     st_request_digest := st_request_digest set; st_idempotency_key := st_idempotency_key set;
     st_state := target; st_fence_token := fence; st_acquired_by := st_acquired_by set;
     st_acquired_at := st_acquired_at set; st_expires_at := st_expires_at set;
     st_transition := Some (mkTransition released_at (tq_actor_id r) (tq_reason r)
                              (tq_idempotency_key r) terminal_receipt_id) |}.

(** [UPDATE reservation_sets …]: the key of a transition is unique. *)
Definition update_set (r : ReservationTransitionRequest) (target : string) (expected_fence fence : Z)
    (released_at : DateTime) (terminal_receipt_id : option Uuid) (s : ReservationTables)
  : res ReservationTables :=
  set ← ok_or (set ← rt_sets s !! tq_reservation_set_id r;
               if bool_decide (st_tenant_id set = tq_tenant_id r)
                  && bool_decide (st_state set = "ACTIVE") && (st_fence_token set =? expected_fence)
               then Some set else None)
    (Conflict [Lit "reservation transition lost its fence"]);
  bail_if (existsb (λ p, bool_decide (st_tenant_id p.2 = tq_tenant_id r)
             && bool_decide ((tn_idempotency_key <$> st_transition p.2) = Some (tq_idempotency_key r)))
             (map_to_list (rt_sets s)))
    (Persistence [Lit "transition reservation set"]) ;;
  Ok (set_sets (<[tq_reservation_set_id r :=
        transitioned_row r target fence released_at terminal_receipt_id set]> (rt_sets s)) s).

(** The [RELEASE] entry of one budget reservation.  The table requires a dimension
    of a budget row; without one both the decoding and the parsing fail. *)
Definition release_budget (r : ReservationTransitionRequest) (work_item_id attempt_id : Uuid)
    (occurred_at : DateTime) (s : ReservationTables) (row : ResourceRow) : res ReservationTables :=
  d ← parse_budget_dimension (default "" (rr_budget_dimension row));
  units ← nonnegative_u64 (rr_units row);
  insert_budget_entry (tq_tenant_id r) work_item_id attempt_id (rr_id row) d "RELEASE" units
    (tq_idempotency_key r +:+ ":budget-release:" +:+ database_value d)
    (json_metadata (tq_idempotency_key r)) occurred_at s.

Definition budget_rows (tenant_id set_id : Uuid) (s : ReservationTables) : list ResourceRow :=
  sort_by_key (λ row, text_order (default "" (rr_budget_dimension row)))
    (List.filter (λ row, of_set tenant_id set_id row && bool_decide (rr_kind row = "BUDGET"))
       (rt_resources s)).

Definition apply_active_reservation_transition (r : ReservationTransitionRequest)
    (target : ReservationTerminalState) (current_fence : Z) (work_item_id attempt_id : Uuid)
    (terminal_receipt_id : option Uuid) (released_at : DateTime) (event_id : Uuid)
    (s : ReservationTables) : res (ReservationTables * ReservationTransitionReceipt) :=
  next_fence ← ok_or (checked_add i64_max current_fence 1)
    (Conflict [Lit "reservation fence overflowed"]);
  expected_fence ← ok_or (try_from i64_max (tq_expected_fence_token r))
    (Validation [Lit "reservation transition fence is too large"]);
  let target_value := terminal_state_value target in
  s ← update_set r target_value expected_fence next_fence released_at terminal_receipt_id s;
  s ← try_fold (budget_rows (tq_tenant_id r) (tq_reservation_set_id r) s) s
        (release_budget r work_item_id attempt_id released_at);
  s ← insert_set_event event_id (tq_tenant_id r) (tq_reservation_set_id r) target_value
        current_fence next_fence (tq_actor_id r) (tq_reason r) (tq_idempotency_key r) released_at s;
  fence_token ← positive_u64 next_fence;
  Ok (s, {| tc_reservation_set_id := tq_reservation_set_id r; tc_state := target;
            tc_disposition := ReservationTransitionDisposition.Applied;
            tc_previous_fence_token := tq_expected_fence_token r; tc_fence_token := fence_token;
            tc_actor_id := tq_actor_id r; tc_reason := tq_reason r;
            tc_idempotency_key := tq_idempotency_key r; tc_event_id := event_id;
            tc_occurred_at := released_at |}).

Definition load_transition_receipt (r : ReservationTransitionRequest)
    (target : ReservationTerminalState) (s : ReservationTables) : res ReservationTransitionReceipt :=
  event ← ok_or (find (λ e, bool_decide (sv_tenant_id e = tq_tenant_id r)
                            && bool_decide (sv_idempotency_key e = tq_idempotency_key r)) (rt_events s))
    (Conflict [Lit "terminal reservation cannot be adopted without the exact transition event"]);
  bail_if (negb (bool_decide (sv_set_id event = tq_reservation_set_id r))
           || negb (bool_decide (sv_event_type event = terminal_state_value target))
           || negb (sv_previous_fence_token event
                    =? default i64_max (try_from i64_max (tq_expected_fence_token r)))
           || negb (bool_decide (sv_actor_id event = tq_actor_id r))
           || negb (bool_decide (sv_reason event = tq_reason r)))
    (Conflict [Lit "reservation transition idempotency key was reused with different semantics"]) ;;
  previous ← positive_u64 (sv_previous_fence_token event);
  fence ← positive_u64 (sv_fence_token event);
  Ok {| tc_reservation_set_id := sv_set_id event; tc_state := target;
        tc_disposition := ReservationTransitionDisposition.Adopted;
        tc_previous_fence_token := previous; tc_fence_token := fence;
        tc_actor_id := sv_actor_id event; tc_reason := sv_reason event;
        tc_idempotency_key := sv_idempotency_key event; tc_event_id := sv_id event;
        tc_occurred_at := sv_occurred_at event |}.

Definition transition_reservation_set (r : ReservationTransitionRequest)
    (target : ReservationTerminalState) (now released_at : DateTime) (event_id : Uuid)
    (s : ReservationTables) : res (ReservationTables * ReservationTransitionReceipt) :=
  ReservationTransitionRequest_validate r ;;
  expected_fence ← ok_or (try_from i64_max (tq_expected_fence_token r))
    (Validation [Lit "reservation transition fence is too large"]);
  set ← ok_or (set ← rt_sets s !! tq_reservation_set_id r;
               if bool_decide (st_tenant_id set = tq_tenant_id r) then Some set else None)
    (NotFound [Lit "reservation set "; FmtUuid (tq_reservation_set_id r)]);
  if negb (bool_decide (st_state set = "ACTIVE")) then
    bail_if (negb (bool_decide (st_state set = terminal_state_value target))
             || negb (st_fence_token set =? saturating_add i64_max expected_fence 1))
      (Conflict [Lit "reservation set "; FmtUuid (tq_reservation_set_id r); Lit " is already ";
                 Disp (st_state set); Lit " at fence "; FmtNum (st_fence_token set)]) ;;
    receipt ← load_transition_receipt r target s;
    Ok (s, receipt)
  else
    bail_if (negb (st_fence_token set =? expected_fence))
      (Conflict [Lit "reservation set "; FmtUuid (tq_reservation_set_id r); Lit " fence is ";
                 FmtNum (st_fence_token set); Lit ", expected "; FmtNum expected_fence]) ;;
    bail_if (bool_decide (target = ReservationTerminalState.Expired) && (now <? st_expires_at set))
      (Conflict [Lit "reservation set "; FmtUuid (tq_reservation_set_id r); Lit " has not expired"]) ;;
    apply_active_reservation_transition r target (st_fence_token set) (st_work_item_id set)
      (st_attempt_id set) None released_at event_id s.

Definition release_reservation_set r := transition_reservation_set r ReservationTerminalState.Released.
Definition expire_reservation_set r := transition_reservation_set r ReservationTerminalState.Expired.

(** ** Batches *)

(** The instant and the event identifier of each transition of a batch. *)
Record BatchStamps := mkBatchStamps {
  bt_released_at : Uuid → DateTime;
  bt_event_id : Uuid → Uuid
}.

Definition is_elapsed (tenant_id : Uuid) (now : DateTime) (p : Uuid * SetRow) : bool :=
  bool_decide (st_tenant_id p.2 = tenant_id) && bool_decide (st_state p.2 = "ACTIVE")
  && (st_expires_at p.2 <=? now).

(** [ORDER BY expires_at, id]. *)
Definition by_expiry (l : list (Uuid * SetRow)) : list (Uuid * SetRow) :=
  sort_by_key (λ p, (st_expires_at p.2, p.1)) l.

Definition sweep_candidates (tenant_id : Uuid) (limit : Z) (now : DateTime) (s : ReservationTables)
  : list (Uuid * SetRow) :=
  take (Z.to_nat limit) (by_expiry (List.filter (is_elapsed tenant_id now) (map_to_list (rt_sets s)))).

Definition expire_one (tenant_id : Uuid) (actor_id : string) (stamps : BatchStamps)
    (state : ReservationTables * list ReservationTransitionReceipt) (p : Uuid * SetRow)
  : res (ReservationTables * list ReservationTransitionReceipt) :=
  let '(s, receipts) := state in
  let '(set_id, set) := p in
  expected ← positive_u64 (st_fence_token set);
  '(s, receipt) ← apply_active_reservation_transition
    (mkReservationTransitionRequest tenant_id set_id expected actor_id EXPIRY_SWEEP_REASON
       (expiry_sweep_idempotency_key set_id (st_fence_token set)))
    ReservationTerminalState.Expired (st_fence_token set) (st_work_item_id set) (st_attempt_id set)
    None (bt_released_at stamps set_id) (bt_event_id stamps set_id) s;
  Ok (s, receipts ++ [receipt]).

(** [selected] is the instant of the first query and [now] that of the second,
    which skips the rows that others have [locked]. *)
Definition expire_elapsed_reservation_sets (tenant_id : Uuid) (actor_id : string) (limit : Z)
    (selected now : DateTime) (locked : Uuid → bool) (stamps : BatchStamps) (s : ReservationTables)
  : res (ReservationTables * list ReservationTransitionReceipt) :=
  bail_if (is_nil tenant_id)
    (Validation [Lit "reservation expiry sweep tenant ID must be non-nil"]) ;;
  validate_safe_text "reservation expiry sweep actor" actor_id ;;
  bail_if (negb ((1 <=? limit) && (limit <=? MAX_EXPIRY_SWEEP_BATCH_SIZE)))
    (Validation [Lit "reservation expiry sweep limit must be in 1..="; FmtNum MAX_EXPIRY_SWEEP_BATCH_SIZE]) ;;
  let ids := (sweep_candidates tenant_id limit selected s).*1 in
  let rows := by_expiry (List.filter (λ p, bool_decide (p.1 ∈ ids) && is_elapsed tenant_id now p
                                           && negb (locked p.1)) (map_to_list (rt_sets s))) in
  try_fold rows (s, []) (expire_one tenant_id actor_id stamps).

Definition release_worker_set (tenant_id : Uuid) (actor_id reason : string) (stamps : BatchStamps)
    (state : ReservationTables * Z) (p : Uuid * SetRow) : res (ReservationTables * Z) :=
  let '(s, released) := state in
  let '(set_id, set) := p in
  let session := from_option uuid_to_string "legacy" (st_worker_session_id set) in
  expected ← positive_u64 (st_fence_token set);
  '(s, _) ← apply_active_reservation_transition
    (mkReservationTransitionRequest tenant_id set_id expected actor_id reason
       ("worker-session-revocation:v1:" +:+ session +:+ ":" +:+ uuid_to_string set_id +:+ ":fence:"
        +:+ pretty (st_fence_token set)))
    ReservationTerminalState.Released (st_fence_token set) (st_work_item_id set) (st_attempt_id set)
    None (bt_released_at stamps set_id) (bt_event_id stamps set_id) s;
  released ← ok_or (checked_add u64_max released 1)
    (Conflict [Lit "released reservation count overflowed"]);
  Ok (s, released).

Definition release_active_worker_reservations (tenant_id worker_id : Uuid) (actor_id reason : string)
    (stamps : BatchStamps) (s : ReservationTables) : res (ReservationTables * Z) :=
  let rows := sort_by_key (λ p, (st_work_item_id p.2, p.1))
    (List.filter (λ p, bool_decide (st_tenant_id p.2 = tenant_id)
                       && bool_decide (st_worker_id p.2 = worker_id)
                       && bool_decide (st_state p.2 = "ACTIVE")) (map_to_list (rt_sets s))) in
  try_fold rows (s, 0) (release_worker_set tenant_id actor_id reason stamps).

Definition release_attempt_set (tenant_id work_item_id attempt_id : Uuid)
    (namespace : AttemptReservationReleaseNamespace) (actor_id reason : string)
    (stamps : BatchStamps) (state : ReservationTables * Z) (p : Uuid * SetRow)
  : res (ReservationTables * Z) :=
  let '(s, released) := state in
  let '(set_id, set) := p in
  expected ← positive_u64 (st_fence_token set);
  '(s, _) ← apply_active_reservation_transition
    (mkReservationTransitionRequest tenant_id set_id expected actor_id reason
       (release_idempotency_key namespace work_item_id attempt_id set_id (st_fence_token set)))
    ReservationTerminalState.Released (st_fence_token set) work_item_id attempt_id
    (AttemptReservationReleaseNamespace.cancellation_terminal_receipt_id namespace)
    (bt_released_at stamps set_id) (bt_event_id stamps set_id) s;
  released ← ok_or (checked_add u64_max released 1)
    (Conflict [Lit "released reservation count overflowed"]);
  Ok (s, released).

Definition release_active_attempt_reservations (tenant_id work_item_id attempt_id expected_worker_id : Uuid)
    (namespace : AttemptReservationReleaseNamespace) (actor_id reason : string)
    (stamps : BatchStamps) (s : ReservationTables) : res (ReservationTables * Z) :=
  bail_if (is_nil expected_worker_id)
    (Validation [Lit "terminal attempt reservation worker ID must be non-nil"]) ;;
  let rows := sort_by_key fst
    (List.filter (λ p, bool_decide (st_tenant_id p.2 = tenant_id)
                       && bool_decide (st_work_item_id p.2 = work_item_id)
                       && bool_decide (st_attempt_id p.2 = attempt_id)
                       && bool_decide (st_state p.2 = "ACTIVE")) (map_to_list (rt_sets s))) in
  try_for rows (λ p, bail_if (negb (bool_decide (st_worker_id p.2 = expected_worker_id)))
    (Conflict [Lit "terminal attempt reservation "; FmtUuid p.1; Lit " belongs to worker ";
               FmtUuid (st_worker_id p.2); Lit ", not authoritative worker ";
               FmtUuid expected_worker_id])) ;;
  try_fold rows (s, 0)
    (release_attempt_set tenant_id work_item_id attempt_id namespace actor_id reason stamps).
End reservations.
