(* ===== verification/ReservationFacts.v ===== *)
(** What admission reservations guarantee ([Reservations]): the configured
    capacities and budgets are never exceeded, every set is settled at most once
    with its budget given back in full, and retries are adopted. *)

From Stdlib Require Import ZArith Lia Ascii.
From stdpp Require Import base tactics option strings pretty numbers list gmap.
From S2P Require Import Prelude RustStr RustOrd Ids Authority Identity Crypto Security RunEvents Reservations.

Section facts.
  Context {pg : PgColumns} {uuids : UuidText} {hashing : Hashing}.
  Context {semantics_jcs : Canonical AdmissionSemantics} {json : AdmissionJson}.
  Context {collation : Collation}.
  Implicit Types (r : AdmissionReservationRequest) (q : ReservationTransitionRequest).
  Implicit Types (s : ReservationTables) (d : Directory) (t : Uuid).

(** ** What the inserts write *)

Definition resource_row r (id : Uuid) (kind : ReservationKind) (key : string)
    (dimension : option Dimension) (units generation : Z) : ResourceRow :=
  {| rr_id := id; rr_tenant_id := aq_tenant_id r; rr_set_id := aq_reservation_set_id r;
     rr_kind := reservation_kind_value kind; rr_resource_key := key;
     rr_budget_dimension := database_value <$> dimension; rr_units := units;
     rr_idempotency_key := aq_idempotency_key r +:+ ":" +:+ reservation_kind_value kind
                           +:+ ":" +:+ key;
     rr_resource_generation := generation |}.

Lemma insert_resource_ok r id kind key dim units generation s s' :
  insert_resource r id kind key dim units generation s = Ok s' →
  s' = set_resources (rt_resources s ++ [resource_row r id kind key dim units generation]) s ∧
  0 ≤ units ∧ ∀ x, x ∈ rt_resources s → rr_id x ≠ id.
Proof.
  unfold insert_resource. rewrite bind_ok. intros (u & Hu & H). apply bind_ok in H as (g & Hg & H).
  apply ok_or_ok, try_from_some in Hu as [Hu ->]. apply ok_or_ok, try_from_some in Hg as [Hg ->].
  apply bind_unit_ok in H as [Hf [= <-]]. split; [done|]. split; [apply Hu|].
  apply bail_if_ok, existsb_false in Hf. rewrite Forall_forall in Hf. intros x Hx.
  specialize (Hf x Hx). rewrite !orb_false_iff, bool_decide_eq_false in Hf. tauto.
Qed.

Definition budget_entry t (item attempt reservation : Uuid) (dim : Dimension)
    (entry_type : string) (amount : Z) (key : string) (metadata : Value) (at_ : DateTime)
  : BudgetEntry :=
  {| be_tenant_id := t; be_work_item_id := Some item; be_attempt_id := Some attempt;
     be_reservation_id := Some reservation; be_scope_id := uuid_to_string attempt;
     be_dimension := database_value dim; be_entry_type := entry_type; be_amount := amount;
     be_unit := ReservationBudgetDimension.unit_name dim; be_idempotency_key := key;
     be_metadata := metadata; be_occurred_at := at_ |}.

Lemma insert_budget_entry_ok t item attempt reservation dim ty amount key metadata at_ s s' :
  insert_budget_entry t item attempt reservation dim ty amount key metadata at_ s = Ok s' →
  s' = set_ledger (rt_ledger s ++
         [budget_entry t item attempt reservation dim ty amount key metadata at_]) s ∧
  (mem ty ["RESERVE"; "RELEASE"] = true → ∀ x, x ∈ rt_ledger s → be_tenant_id x = t →
     be_entry_type x = ty → be_reservation_id x ≠ Some reservation).
Proof.
  unfold insert_budget_entry. rewrite bind_ok. intros (u & Hu & H).
  apply ok_or_ok, try_from_some in Hu as [Hu ->]. apply bind_unit_ok in H as [Hf [= <-]].
  split; [done|]. apply bail_if_ok, existsb_false in Hf. rewrite Forall_forall in Hf.
  intros Hm x Hx Ht Hty E. specialize (Hf x Hx). cbv beta in Hf. rewrite Hm in Hf.
  rewrite (bool_decide_true (be_tenant_id x = t)) in Hf by done.
  apply orb_false_iff in Hf as [_ Hf]. by rewrite !bool_decide_true in Hf by done.
Qed.

(** The rows of an admission. *)
Definition identity_row r (cx : AdmissionContext) (new_id : NewIds) (i : IdentityCapacityRequest)
  : ResourceRow :=
  let key := identity_resource_key (ic_profile_ref i) in
  resource_row r (new_id ReservationKind.IdentityCapacity key) ReservationKind.IdentityCapacity key
    None (ic_units i) (default 0 (snd <$> cx_identity_capacities cx !! profile_str (ic_profile_ref i))).

Definition budget_id r (new_id : NewIds) (dim : Dimension) : Uuid :=
  new_id ReservationKind.Budget (budget_resource_key (aq_work_item_id r) dim).

Definition budget_row r (cx : AdmissionContext) (new_id : NewIds) (dim : Dimension) : ResourceRow :=
  resource_row r (budget_id r new_id dim) ReservationKind.Budget
    (budget_resource_key (aq_work_item_id r) dim) (Some dim) (amount (aq_budget r) dim)
    (cx_attempt_generation cx).

Definition reserve_entry r (new_id : NewIds) (at_ : DateTime) (dim : Dimension) : BudgetEntry :=
  budget_entry (aq_tenant_id r) (aq_work_item_id r) (aq_attempt_id r) (budget_id r new_id dim) dim
    "RESERVE" (amount (aq_budget r) dim)
    (aq_idempotency_key r +:+ ":budget-reserve:" +:+ database_value dim)
    (json_metadata (aq_idempotency_key r)) at_.

Definition admission_rows r (identities : list IdentityCapacityRequest) (cx : AdmissionContext)
    (new_id : NewIds) : list ResourceRow :=
  let repository_key := repository_resource_key (aq_repository_id r) in
  let worker_key := worker_resource_key (aq_worker_id r) in
  [ resource_row r (new_id ReservationKind.RepositoryWip repository_key)
      ReservationKind.RepositoryWip repository_key None 1 (cx_repository_generation cx);
    resource_row r (new_id ReservationKind.WorkerSlot worker_key) ReservationKind.WorkerSlot
      worker_key None 1 (cx_worker_generation cx) ]
  ++ (identity_row r cx new_id <$> identities)
  ++ (budget_row r cx new_id <$> ReservationBudgetDimension.ALL).

Lemma insert_identities_ok r cx new_id identities s s' :
  try_fold identities s (insert_identity r cx new_id) = Ok s' →
  s' = set_resources (rt_resources s ++ (identity_row r cx new_id <$> identities)) s ∧
  Forall (λ x, 0 ≤ rr_units x) (identity_row r cx new_id <$> identities) ∧
  (NoDup (rr_id <$> rt_resources s) → NoDup (rr_id <$> rt_resources s')).
Proof.
  revert s. induction identities as [|i l IH]; intros s H; simpl in H.
  - injection H as <-. rewrite app_nil_r. by destruct s.
  - apply bind_ok in H as (s1 & H1 & H). unfold insert_identity in H1.
    apply bind_ok in H1 as (g & Hg & H1). apply ok_or_ok in Hg.
    apply insert_resource_ok in H1 as (-> & Hu & Hnew). apply IH in H as (-> & Hall & Hnd).
    simpl. unfold identity_row at 2 4. rewrite Hg. simpl. rewrite <- app_assoc. split; [done|].
    split; [by constructor|]. simpl in Hnd. intros Hs. rewrite <- app_assoc in Hnd. apply Hnd.
    rewrite fmap_app. apply NoDup_app. split_and!; [done| |apply NoDup_singleton].
    intros x Hx. apply list_elem_of_fmap in Hx as (y & -> & Hy). simpl.
    rewrite list_elem_of_singleton. by apply Hnew.
Qed.

Lemma NoDup_snoc {A} (l : list A) x : NoDup l → (∀ y, y ∈ l → y ≠ x) → NoDup (l ++ [x]).
Proof.
  intros Hl Hx. apply NoDup_app. split_and!; [done| |apply NoDup_singleton].
  intros y Hy. rewrite list_elem_of_singleton. by apply Hx.
Qed.

Lemma NoDup_ids_snoc (l : list ResourceRow) x :
  NoDup (rr_id <$> l) → (∀ y, y ∈ l → rr_id y ≠ rr_id x) → NoDup (rr_id <$> (l ++ [x])).
Proof.
  intros Hl Hx. rewrite fmap_app. apply NoDup_snoc; [done|].
  intros y Hy. apply list_elem_of_fmap in Hy as (z & -> & Hz). by apply Hx.
Qed.

(** One [RESERVE] and at most one [RELEASE] entry per reservation. *)
Definition moves (t reservation : Uuid) (ty : string) (e : BudgetEntry) : bool :=
  bool_decide (be_tenant_id e = t) && bool_decide (be_reservation_id e = Some reservation)
  && bool_decide (be_entry_type e = ty).

Lemma insert_budgets_ok r cx new_id at_ dims s s' :
  try_fold dims s (insert_budget r cx new_id at_) = Ok s' →
  rt_sets s' = rt_sets s ∧ rt_events s' = rt_events s ∧
  rt_resources s' = rt_resources s ++ (budget_row r cx new_id <$> dims) ∧
  rt_ledger s' = rt_ledger s ++ (reserve_entry r new_id at_ <$> dims) ∧
  Forall (λ x, 0 ≤ rr_units x) (budget_row r cx new_id <$> dims) ∧
  (NoDup (rr_id <$> rt_resources s) → NoDup (rr_id <$> rt_resources s')).
Proof.
  revert s. induction dims as [|dim l IH]; intros s H; simpl in H.
  - injection H as <-. rewrite !app_nil_r. by split_and!.
  - apply bind_ok in H as (s2 & H2 & H). unfold insert_budget in H2.
    apply bind_ok in H2 as (s1 & H1 & H2).
    apply insert_resource_ok in H1 as (-> & Hu & Hnew).
    apply insert_budget_entry_ok in H2 as [-> _]. apply IH in H as (-> & -> & -> & -> & Hall & Hnd).
    simpl in *. rewrite <- !app_assoc in *. split_and!; try done; [by constructor|].
    intros Hs. apply Hnd. by apply NoDup_ids_snoc.
Qed.

Lemma insert_resources_ok r identities cx new_id at_ s s' :
  insert_resources_and_budget_ledger r identities cx new_id at_ s = Ok s' →
  rt_sets s' = rt_sets s ∧ rt_events s' = rt_events s ∧
  rt_resources s' = rt_resources s ++ admission_rows r identities cx new_id ∧
  rt_ledger s' = rt_ledger s ++ (reserve_entry r new_id at_ <$> ReservationBudgetDimension.ALL) ∧
  Forall (λ x, 0 ≤ rr_units x) (admission_rows r identities cx new_id) ∧
  (NoDup (rr_id <$> rt_resources s) → NoDup (rr_id <$> rt_resources s')).
Proof.
  unfold insert_resources_and_budget_ledger. intros H. apply bind_ok in H as (s1 & H1 & H).
  apply bind_ok in H as (s2 & H2 & H). apply bind_ok in H as (s3 & H3 & H).
  apply insert_resource_ok in H1 as (-> & Hu1 & Hn1). apply insert_resource_ok in H2 as (-> & Hu2 & Hn2).
  apply insert_identities_ok in H3 as (-> & Hall3 & Hn3).
  apply insert_budgets_ok in H as (-> & -> & -> & -> & Hall & Hn4). simpl in *.
  unfold admission_rows. simpl. rewrite <- !app_assoc in *. simpl in *.
  split_and!; try done.
  - rewrite !Forall_cons, Forall_app. simpl. split_and!; try done; lia.
  - intros Hs. apply Hn4, Hn3. rewrite cons_middle, app_assoc.
    apply NoDup_ids_snoc; [|done]. by apply NoDup_ids_snoc.
Qed.

Lemma insert_set_event_ok id t set_id ty p f actor reason key at_ s s' :
  insert_set_event id t set_id ty p f actor reason key at_ s = Ok s' →
  s' = set_events (rt_events s ++ [mkSetEvent id t set_id ty p f actor reason key at_]) s ∧
  ∀ e, e ∈ rt_events s → sv_tenant_id e = t → sv_idempotency_key e ≠ key.
Proof.
  unfold insert_set_event. rewrite bind_unit_ok. intros [H [= <-]]. split; [done|].
  apply bail_if_ok, existsb_false in H. rewrite Forall_forall in H. intros e He Ht E.
  specialize (H e He). cbv beta in H. apply orb_false_iff in H as [_ H].
  by rewrite !bool_decide_true in H by done.
Qed.

(** A new admission, step by step. *)
Record admitted r (clock : AdmissionClock) (new_id : NewIds) (event_id : Uuid) d s s'
    (identities : list IdentityCapacityRequest) (digest : string) (cx : AdmissionContext) : Prop := {
  am_valid : AdmissionReservationRequest_validate r = Ok identities;
  am_digest : request_digest r identities = Ok digest;
  am_future : ck_started clock < aq_expires_at r;
  am_context : load_and_validate_context r identities (ck_session clock) d = Ok cx;
  am_capacity : enforce_capacity r identities cx (ck_summed clock) s = Ok ();
  am_attempt : reject_existing_attempt_reservation r s = Ok ();
  am_generation : fits i64_max (aq_expected_worker_generation r);
  am_id : rt_sets s !! aq_reservation_set_id r = None;
  am_key : load_set_by_idempotency_key (aq_tenant_id r) (aq_idempotency_key r) s = None;
  am_sets : rt_sets s' = <[aq_reservation_set_id r := admitted_row r digest (ck_acquired clock)]> (rt_sets s);
  am_resources : rt_resources s' = rt_resources s ++ admission_rows r identities cx new_id;
  am_units : Forall (λ x, 0 ≤ rr_units x) (admission_rows r identities cx new_id);
  am_ids : NoDup (rr_id <$> rt_resources s) → NoDup (rr_id <$> rt_resources s');
  am_ledger : rt_ledger s' = rt_ledger s ++
    (reserve_entry r new_id (ck_acquired clock) <$> ReservationBudgetDimension.ALL);
  am_events : rt_events s' = rt_events s ++
    [mkSetEvent event_id (aq_tenant_id r) (aq_reservation_set_id r) "ACQUIRED" 0 1 (aq_actor_id r)
       ACQUISITION_REASON (aq_idempotency_key r) (ck_acquired clock)];
  am_event_key e : e ∈ rt_events s → sv_tenant_id e = aq_tenant_id r →
    sv_idempotency_key e ≠ aq_idempotency_key r
}.

Lemma acquire_cases r clock new_id event_id d s s' receipt :
  acquire_admission_reservations r clock new_id event_id d s = Ok (s', receipt) →
  s' = s ∧ ac_disposition receipt = AdmissionDisposition.Adopted ∨
  ac_disposition receipt = AdmissionDisposition.Acquired ∧
  ∃ identities digest cx, admitted r clock new_id event_id d s s' identities digest cx ∧
    load_resources (aq_tenant_id r) (aq_reservation_set_id r) s' = Ok (ac_resources receipt) ∧
    receipt = {| ac_reservation_set_id := aq_reservation_set_id r;
                 ac_disposition := AdmissionDisposition.Acquired; ac_request_digest := digest;
                 ac_fence_token := 1; ac_acquired_at := ck_acquired clock;
                 ac_expires_at := aq_expires_at r; ac_acquisition_event_id := event_id;
                 ac_resources := ac_resources receipt |}.
Proof.
  unfold acquire_admission_reservations. rewrite bind_ok. intros (identities & Hv & H).
  apply bind_ok in H as (digest & Hd & H).
  destruct (load_set_by_idempotency_key _ _ s) as [existing|] eqn:Hk.
  - apply bind_ok in H as (x & Hx & [= <- <-]). left. split; [done|].
    destruct existing as [set_id set]. unfold adopt_existing_set in Hx.
    apply bind_ok in Hx as (g & _ & Hx). do 2 apply bind_unit_ok in Hx as [_ Hx].
    apply bind_ok in Hx as ([sess wk] & _ & Hx). apply bind_unit_ok in Hx as [_ Hx].
    apply bind_ok in Hx as (? & _ & Hx). apply bind_ok in Hx as (? & _ & Hx).
    by apply bind_ok in Hx as (? & _ & [= <-]).
  - right. apply bind_unit_ok in H as [Hf H]. apply bind_ok in H as (cx & Hcx & H).
    apply bind_unit_ok in H as [Ha H]. apply bind_unit_ok in H as [Hc H].
    apply bind_ok in H as (s1 & H1 & H). apply bind_ok in H as (s2 & H2 & H).
    apply bind_ok in H as (s3 & H3 & H). apply bind_ok in H as (resources & Hr & [= <- <-]).
    simpl. split; [done|]. exists identities, digest, cx. split; [|done].
    unfold insert_reservation_set in H1. apply bind_ok in H1 as (g & Hg & H1).
    apply ok_or_ok, try_from_some in Hg as [Hg _]. apply bind_unit_ok in H1 as [Hu [= <-]].
    apply bail_if_ok in Hu. rewrite !orb_false_iff, !is_some_false in Hu.
    apply insert_resources_ok in H2 as (E1 & E2 & E3 & E4 & Hall & Hn). simpl in *.
    apply insert_set_event_ok in H3 as [-> He]. simpl in *. rewrite E2 in *.
    constructor; simpl; try done; try congruence; try tauto. by apply bail_if_ok, Z.leb_gt in Hf.
Qed.

(** ** What a transition writes *)

(** The [RELEASE] entry of a budget reservation. *)
Definition gives_back q (item attempt : Uuid) (at_ : DateTime) (row : ResourceRow) (e : BudgetEntry)
  : Prop :=
  ∃ dim, parse_budget_dimension (default "" (rr_budget_dimension row)) = Ok dim ∧
    e = budget_entry (tq_tenant_id q) item attempt (rr_id row) dim "RELEASE" (rr_units row)
          (tq_idempotency_key q +:+ ":budget-release:" +:+ database_value dim)
          (json_metadata (tq_idempotency_key q)) at_.

Lemma release_budgets_ok q item attempt at_ rows s s' :
  try_fold rows s (release_budget q item attempt at_) = Ok s' →
  ∃ entries, s' = set_ledger (rt_ledger s ++ entries) s ∧
    Forall2 (gives_back q item attempt at_) rows entries ∧
    (∀ row, row ∈ rows → ∀ e, e ∈ rt_ledger s → be_tenant_id e = tq_tenant_id q →
       be_entry_type e = "RELEASE" → be_reservation_id e ≠ Some (rr_id row)).
Proof.
  revert s. induction rows as [|row rows IH]; intros s H; simpl in H.
  - injection H as <-. exists []. rewrite app_nil_r. split_and!; [by destruct s|constructor|].
    intros row Hr. by apply elem_of_nil in Hr.
  - apply bind_ok in H as (s1 & H1 & H). unfold release_budget in H1.
    apply bind_ok in H1 as (dim & Hd & H1). apply bind_ok in H1 as (u & Hu & H1).
    apply ok_or_ok, try_from_some in Hu as [_ ->].
    apply insert_budget_entry_ok in H1 as [-> Hn]. apply IH in H as (entries & -> & Hall & Hold).
    simpl in *. eexists (_ :: entries). rewrite <- app_assoc. split; [done|]. split.
    + constructor; [|done]. exists dim. done.
    + intros x [->|Hx]%elem_of_cons e He Ht Hty.
      * by apply Hn.
      * eapply Hold; [done| |done..]. rewrite elem_of_app. by left.
Qed.

Record settled q (target : ReservationTerminalState) (receipt_id : option Uuid)
    (at_ : DateTime) (event_id : Uuid) s s' (set : SetRow) (fence : Z) (item attempt : Uuid) : Prop := {
  se_set : rt_sets s !! tq_reservation_set_id q = Some set;
  se_tenant : st_tenant_id set = tq_tenant_id q;
  se_active : st_state set = "ACTIVE";
  se_fence : st_fence_token set = tq_expected_fence_token q;
  se_sets : rt_sets s' = <[tq_reservation_set_id q :=
    transitioned_row q (terminal_state_value target) (fence + 1) at_ receipt_id set]> (rt_sets s);
  se_resources : rt_resources s' = rt_resources s;
  se_ledger : ∃ entries, rt_ledger s' = rt_ledger s ++ entries ∧
    Forall2 (gives_back q item attempt at_)
      (budget_rows (tq_tenant_id q) (tq_reservation_set_id q) s) entries;
  se_events : rt_events s' = rt_events s ++
    [mkSetEvent event_id (tq_tenant_id q) (tq_reservation_set_id q) (terminal_state_value target)
       fence (fence + 1) (tq_actor_id q) (tq_reason q) (tq_idempotency_key q) at_];
  se_event_key e : e ∈ rt_events s → sv_tenant_id e = tq_tenant_id q →
    sv_idempotency_key e ≠ tq_idempotency_key q
}.

Lemma apply_transition_ok q target fence item attempt receipt_id at_ event_id s s' receipt :
  apply_active_reservation_transition q target fence item attempt receipt_id at_ event_id s
  = Ok (s', receipt) →
  ∃ set, settled q target receipt_id at_ event_id s s' set fence item attempt ∧
    receipt = {| tc_reservation_set_id := tq_reservation_set_id q; tc_state := target;
                 tc_disposition := ReservationTransitionDisposition.Applied;
                 tc_previous_fence_token := tq_expected_fence_token q; tc_fence_token := fence + 1;
                 tc_actor_id := tq_actor_id q; tc_reason := tq_reason q;
                 tc_idempotency_key := tq_idempotency_key q; tc_event_id := event_id;
                 tc_occurred_at := at_ |}.
Proof.
  unfold apply_active_reservation_transition. rewrite bind_ok. intros (nf & Hn & H).
  apply ok_or_ok, checked_add_some in Hn as [_ ->].
  apply bind_ok in H as (ef & He & H). apply ok_or_ok, try_from_some in He as [_ ->].
  apply bind_ok in H as (s1 & H1 & H). apply bind_ok in H as (s2 & H2 & H).
  apply bind_ok in H as (s3 & H3 & H). apply bind_ok in H as (f & Hf & [= <- <-]).
  unfold update_set in H1. apply bind_ok in H1 as (set & Hset & H1). apply ok_or_ok in Hset.
  apply bind_Some in Hset as (set' & Hs & Hset). destruct (_ && _ && _) eqn:E; [|done].
  injection Hset as ->. apply bind_unit_ok in H1 as [_ [= <-]].
  apply release_budgets_ok in H2 as (entries & -> & Hall & _).
  apply insert_set_event_ok in H3 as [-> Hev].
  unfold positive_u64 in Hf. apply bind_ok in Hf as (v & Hv & Hf).
  apply ok_or_ok, try_from_some in Hv as [_ ->]. apply bind_unit_ok in Hf as [_ [= <-]].
  reflect. exists set. split; [|done]. constructor; simpl in *; try tauto.
  exists entries. split; [done|]. exact Hall.
Qed.

(** ** Operations *)

Inductive operation :=
| Admit r (clock : AdmissionClock) (new_id : NewIds) (event_id : Uuid) d
| Settle q (target : ReservationTerminalState) (now released_at : DateTime) (event_id : Uuid)
| Sweep t (actor_id : string) (limit : Z) (selected now : DateTime) (locked : Uuid → bool)
    (stamps : BatchStamps)
| RevokeWorker t (worker_id : Uuid) (actor_id reason : string) (stamps : BatchStamps)
| EndAttempt t (work_item_id attempt_id worker_id : Uuid)
    (namespace : AttemptReservationReleaseNamespace) (actor_id reason : string)
    (stamps : BatchStamps).

(** A failed operation commits nothing. *)
Definition committed {A} s (result : res (ReservationTables * A)) : ReservationTables :=
  match result with Ok (s', _) => s' | Err _ | Panic => s end.

Definition operate s (o : operation) : ReservationTables :=
  match o with
  | Admit r clock new_id event_id d =>
      committed s (acquire_admission_reservations r clock new_id event_id d s)
  | Settle q target now at_ event_id =>
      committed s (transition_reservation_set q target now at_ event_id s)
  | Sweep t actor limit selected now locked stamps =>
      committed s (expire_elapsed_reservation_sets t actor limit selected now locked stamps s)
  | RevokeWorker t worker actor reason stamps =>
      committed s (release_active_worker_reservations t worker actor reason stamps s)
  | EndAttempt t item attempt worker namespace actor reason stamps =>
      committed s (release_active_attempt_reservations t item attempt worker namespace actor reason
                     stamps s)
  end.

Definition operate_all (l : list operation) s : ReservationTables := foldl operate s l.

(** Every operation is a sequence of admissions and settlements; [Q] describes
    the admissions. *)
Inductive change (Q : AdmissionReservationRequest → AdmissionClock → Directory → Prop)
  : ReservationTables → ReservationTables → Prop :=
| Admits_one r clock new_id event_id d s s' identities digest cx :
    Q r clock d → admitted r clock new_id event_id d s s' identities digest cx → change Q s s'
| Settles_one q target receipt_id at_ event_id s s' set fence item attempt :
    fence = st_fence_token set → item = st_work_item_id set → attempt = st_attempt_id set →
    settled q target receipt_id at_ event_id s s' set fence item attempt → change Q s s'.

Definition admits (Q : AdmissionReservationRequest → AdmissionClock → Directory → Prop)
    (o : operation) : Prop :=
  match o with Admit r clock _ _ d => Q r clock d | _ => True end.

(** One settlement per selected set, read before the batch. *)
Lemma batch_changes {X} Q (body : ReservationTables * X → Uuid * SetRow → res (ReservationTables * X))
    rows s x s' x' :
  (∀ s x p s' x', p ∈ rows → body (s, x) p = Ok (s', x') → ∃ q target receipt_id at_ event_id set,
     tq_reservation_set_id q = p.1 ∧
     settled q target receipt_id at_ event_id s s' set (st_fence_token p.2) (st_work_item_id p.2)
       (st_attempt_id p.2)) →
  NoDup rows.*1 → (∀ p, p ∈ rows → rt_sets s !! p.1 = Some p.2) →
  try_fold rows (s, x) body = Ok (s', x') → star (change Q) s s'.
Proof.
  intros Hb. revert s x. induction rows as [|p rows IH]; intros s x Hnd Hrows H; simpl in H.
  - injection H as <- <-. apply star_nil.
  - apply bind_ok in H as ([s1 x1] & H1 & H). apply NoDup_cons in Hnd as [Hp Hnd].
    apply Hb in H1 as (q & target & rid & at_ & ev & set & Eq & Hs); [|by left].
    pose proof (se_set _ _ _ _ _ _ _ _ _ _ _ Hs) as Hset. rewrite Eq, Hrows in Hset by by left.
    injection Hset as <-. eapply star_cons; [by eapply Settles_one|].
    eapply IH; [|done| |done].
    + intros a y b a' y' Hin. apply Hb. by right.
    + intros o Ho. rewrite (se_sets _ _ _ _ _ _ _ _ _ _ _ Hs), Eq.
      rewrite lookup_insert_ne; [apply Hrows; by right|]. intros E. apply Hp.
      rewrite E. apply list_elem_of_fmap. eauto.
Qed.

(** The rows of a batch are selected from the table. *)
Lemma selected_rows {K} `{Ord K} (key : Uuid * SetRow → K) (p : Uuid * SetRow → bool) s :
  let rows := sort_by_key key (List.filter p (map_to_list (rt_sets s))) in
  NoDup rows.*1 ∧ ∀ x, x ∈ rows → rt_sets s !! x.1 = Some x.2 ∧ p x = true.
Proof.
  simpl. split.
  - rewrite (fmap_Permutation fst _ _ (sort_by_key_perm key _)).
    assert (NoDup (map_to_list (rt_sets s)).*1) as Hn by apply NoDup_fst_map_to_list.
    induction (map_to_list (rt_sets s)) as [|x l IH]; simpl; [constructor|].
    apply NoDup_cons in Hn as [Hx Hn]. destruct (p x); [|by apply IH]. simpl. constructor; [|by apply IH].
    intros Hin. apply Hx. apply list_elem_of_fmap in Hin as (y & -> & Hy).
    apply elem_of_filter_bool in Hy as [Hy _]. apply list_elem_of_fmap. eauto.
  - intros x Hx. apply elem_of_sort_by_key, elem_of_filter_bool in Hx as [Hx Hp].
    split; [|done]. destruct x. by apply elem_of_map_to_list in Hx.
Qed.

Lemma operate_changes Q s o : admits Q o → star (change Q) s (operate s o).
Proof.
  destruct o as [r clock new_id ev d|q target now at_ ev|t actor limit sel now locked st
    |t worker actor reason st|t item attempt worker ns actor reason st]; simpl; intros HQ.
  - destruct (acquire_admission_reservations _ _ _ _ _ s) as [[s' receipt]| |] eqn:E; simpl;
      [|apply star_nil..].
    apply acquire_cases in E as [[-> _]|[_ (ids & dg & cx & Ha & _)]]; [apply star_nil|].
    eapply star_cons; [by eapply Admits_one|apply star_nil].
  - destruct (transition_reservation_set _ _ _ _ _ s) as [[s' receipt]| |] eqn:E; simpl;
      [|apply star_nil..].
    unfold transition_reservation_set in E. apply bind_unit_ok in E as [_ E].
    apply bind_ok in E as (ef & _ & E). apply bind_ok in E as (set & Hset & E). apply ok_or_ok in Hset.
    apply bind_Some in Hset as (set' & Hs & Hset). destruct (bool_decide (st_tenant_id set' = _)); [|done]. injection Hset as ->.
    destruct (negb _).
    + apply bind_unit_ok in E as [_ E]. apply bind_ok in E as (? & _ & [= <- _]). apply star_nil.
    + do 2 apply bind_unit_ok in E as [_ E]. apply apply_transition_ok in E as (set' & Hs' & _).
      pose proof (se_set _ _ _ _ _ _ _ _ _ _ _ Hs') as E. rewrite Hs in E. injection E as ->.
      eapply star_cons; [by eapply Settles_one|apply star_nil].
  - destruct (expire_elapsed_reservation_sets _ _ _ _ _ _ _ s) as [[s' receipts]| |] eqn:E; simpl;
      [|apply star_nil..].
    unfold expire_elapsed_reservation_sets in E. do 3 apply bind_unit_ok in E as [_ E].
    unfold by_expiry in E at 1. revert E. apply batch_changes; [|apply selected_rows|].
    + intros a x [id set] b y _ Hb. unfold expire_one in Hb.
      apply bind_ok in Hb as (f & _ & Hb). apply bind_ok in Hb as ([a1 rc] & Hb & [= <- <-]).
      apply apply_transition_ok in Hb as (set' & Hs & _). eexists _, _, _, _, _, _. split; [|exact Hs]. done.
    + intros p Hp. by apply selected_rows in Hp as [? _].
  - destruct (release_active_worker_reservations _ _ _ _ _ s) as [[s' n]| |] eqn:E; simpl;
      [|apply star_nil..].
    unfold release_active_worker_reservations in E.
    revert E. apply batch_changes; [|apply selected_rows|].
    + intros a x [id set] b y _ Hb. unfold release_worker_set in Hb.
      apply bind_ok in Hb as (f & _ & Hb). apply bind_ok in Hb as ([a1 rc] & Hb & Hx).
      apply bind_ok in Hx as (? & _ & [= <- <-]).
      apply apply_transition_ok in Hb as (set' & Hs & _). eexists _, _, _, _, _, _. split; [|exact Hs]. done.
    + intros p Hp. by apply selected_rows in Hp as [? _].
  - destruct (release_active_attempt_reservations _ _ _ _ _ _ _ _ s) as [[s' n]| |] eqn:E; simpl;
      [|apply star_nil..].
    unfold release_active_attempt_reservations in E. do 2 apply bind_unit_ok in E as [_ E].
    revert E. apply batch_changes; [|apply selected_rows|].
    + intros a x [id set] b y Hin Hb. unfold release_attempt_set in Hb.
      apply bind_ok in Hb as (f & _ & Hb). apply bind_ok in Hb as ([a1 rc] & Hb & Hx).
      apply bind_ok in Hx as (? & _ & [= <- <-]).
      apply selected_rows in Hin as [_ Hin]. simpl in Hin. reflect. destruct Hin as [[[_ Hi] Ha] _].
      apply apply_transition_ok in Hb as (set' & Hs & _). rewrite <- Hi, <- Ha in Hs.
      eexists _, _, _, _, _, _. split; [|exact Hs]. done.
    + intros p Hp. by apply selected_rows in Hp as [? _].
Qed.

Lemma operate_all_changes Q l s : Forall (admits Q) l → star (change Q) s (operate_all l s).
Proof.
  unfold operate_all. revert s. induction l as [|o l IH]; intros s Hl; simpl; [apply star_nil|].
  apply Forall_cons in Hl as [Ho Hl]. eapply star_trans; [by apply operate_changes|by apply IH].
Qed.

(** ** The invariant *)

Definition is_active (set : SetRow) : Prop := st_state set = "ACTIVE".

(** A set is active at its first fence or settled at its second. *)
Definition set_ok (set : SetRow) : Prop :=
  is_active set ∧ st_fence_token set = 1 ∧ st_transition set = None ∨
  (st_state set = "RELEASED" ∨ st_state set = "EXPIRED") ∧ st_fence_token set = 2 ∧
  is_Some (st_transition set).

(** The entries of a reservation. *)
Definition movements (ty : string) (x : ResourceRow) s : list BudgetEntry :=
  List.filter (moves (rr_tenant_id x) (rr_id x) ty) (rt_ledger s).

(** The budget of a reservation is reserved once, and given back once when its
    set is settled. *)
Definition balanced s (set : SetRow) (x : ResourceRow) : Prop :=
  ∃ dim e, rr_budget_dimension x = Some (database_value dim) ∧
    movements "RESERVE" x s = [e] ∧ be_amount e = rr_units x ∧
    be_work_item_id e = Some (st_work_item_id set) ∧ be_dimension e = database_value dim ∧
    (is_active set ∧ movements "RELEASE" x s = [] ∨
     ¬ is_active set ∧ ∃ e', movements "RELEASE" x s = [e'] ∧ be_amount e' = rr_units x ∧
       be_work_item_id e' = Some (st_work_item_id set) ∧ be_dimension e' = database_value dim).

Record tables_ok s : Prop := {
  to_sets id set : rt_sets s !! id = Some set → set_ok set;
  to_rows x : x ∈ rt_resources s →
    0 ≤ rr_units x ∧ ∃ set, rt_sets s !! rr_set_id x = Some set ∧ st_tenant_id set = rr_tenant_id x ∧
      (rr_kind x = "BUDGET" → balanced s set x);
  to_ids : NoDup (rr_id <$> rt_resources s);
  to_linked e id : e ∈ rt_ledger s → be_entry_type e ∈ ["RESERVE"; "RELEASE"] →
    be_reservation_id e = Some id → ∃ x, x ∈ rt_resources s ∧ rr_id x = id;
  to_attempts id id' set set' : rt_sets s !! id = Some set → rt_sets s !! id' = Some set' →
    is_active set → is_active set' → st_tenant_id set = st_tenant_id set' →
    st_attempt_id set = st_attempt_id set' → id = id';
  to_keys id id' set set' : rt_sets s !! id = Some set → rt_sets s !! id' = Some set' →
    st_tenant_id set = st_tenant_id set' → st_idempotency_key set = st_idempotency_key set' → id = id'
}.

Lemma filter_keyed {A B} `{EqDecision B} (f : A → B) (p : A → bool) x l :
  NoDup (f <$> l) → x ∈ l → (∀ y, y ∈ l → p y = bool_decide (f y = f x)) → List.filter p l = [x].
Proof.
  induction l as [|y l IH]; intros Hn Hx Hp; [by apply elem_of_nil in Hx|].
  apply NoDup_cons in Hn as [Hy Hn]. simpl. rewrite Hp by by left.
  assert (∀ z, z ∈ l → p z = bool_decide (f z = f x)) as Hp' by (intros; apply Hp; by right).
  apply elem_of_cons in Hx as [->|Hx].
  - rewrite bool_decide_true by done. f_equal. clear IH Hp. induction l as [|z l IH]; [done|]. simpl.
    rewrite Hp' by by left. rewrite bool_decide_false.
    + apply IH; [intros Hz; apply Hy; by right|by apply NoDup_cons in Hn as [_ ?]|].
      intros; apply Hp'; by right.
    + intros E. apply Hy. rewrite <- E. by left.
  - rewrite bool_decide_false; [by apply IH|]. intros E. apply Hy. rewrite E.
    apply list_elem_of_fmap. eauto.
Qed.

Lemma filter_none {A} (p : A → bool) l : (∀ y, y ∈ l → p y = false) → List.filter p l = [].
Proof.
  induction l as [|y l IH]; intros Hp; [done|]. simpl. rewrite Hp by by left. apply IH.
  intros; apply Hp; by right.
Qed.

Lemma moves_true t id ty e :
  moves t id ty e = true ↔ be_tenant_id e = t ∧ be_reservation_id e = Some id ∧ be_entry_type e = ty.
Proof. unfold moves. rewrite !andb_true_iff, !bool_decide_eq_true. tauto. Qed.

(** Entries for other reservations, or of another type, do not move a budget. *)
Lemma movements_app ty x s entries l :
  rt_ledger s = l ++ entries →
  movements ty x s = List.filter (moves (rr_tenant_id x) (rr_id x) ty) l
    ++ List.filter (moves (rr_tenant_id x) (rr_id x) ty) entries.
Proof. unfold movements. intros ->. apply List.filter_app. Qed.

Lemma no_movements ty x entries :
  (∀ e, e ∈ entries → be_reservation_id e ≠ Some (rr_id x) ∨ be_entry_type e ≠ ty) →
  List.filter (moves (rr_tenant_id x) (rr_id x) ty) entries = [].
Proof.
  intros H. apply filter_none. intros e He. apply not_true_iff_false.
  intros (_ & E1 & E2)%moves_true. destruct (H e He); congruence.
Qed.

Lemma balanced_frame s s' set set' x entries :
  rt_ledger s' = rt_ledger s ++ entries →
  (∀ e, e ∈ entries → be_reservation_id e ≠ Some (rr_id x)) →
  st_work_item_id set' = st_work_item_id set → (is_active set' ↔ is_active set) →
  balanced s set x → balanced s' set' x.
Proof.
  intros Hl He Hw Ha (dim & e & Hd & Hr & H). exists dim, e. rewrite Hw, Ha.
  rewrite !(movements_app _ _ _ _ _ Hl), (no_movements "RESERVE" x entries),
    (no_movements "RELEASE" x entries), !app_nil_r by auto. tauto.
Qed.

Lemma elem_of_dims dim : dim ∈ ReservationBudgetDimension.ALL.
Proof. unfold ReservationBudgetDimension.ALL. rewrite !elem_of_cons. destruct dim; tauto. Qed.

Lemma admission_row_set r identities cx new_id x :
  x ∈ admission_rows r identities cx new_id →
  rr_set_id x = aq_reservation_set_id r ∧ rr_tenant_id x = aq_tenant_id r ∧
  (rr_kind x = "BUDGET" → ∃ dim, x = budget_row r cx new_id dim).
Proof.
  unfold admission_rows. rewrite elem_of_app, !elem_of_cons, elem_of_nil, elem_of_app, !list_elem_of_fmap.
  intros [[->|[->|[]]]|[(i & -> & _)|(dim & -> & _)]]; simpl; split_and!; try done. eauto.
Qed.

(** A new budget reservation is reserved and not given back. *)
Lemma new_budget_balanced r clock new_id ev d s s' identities digest cx dim :
  tables_ok s → admitted r clock new_id ev d s s' identities digest cx →
  balanced s' (admitted_row r digest (ck_acquired clock)) (budget_row r cx new_id dim).
Proof.
  intros Hok Ha. pose proof (am_ids _ _ _ _ _ _ _ _ _ _ Ha (to_ids _ Hok)) as Hn.
  rewrite (am_resources _ _ _ _ _ _ _ _ _ _ Ha), fmap_app in Hn. apply NoDup_app in Hn as (_ & Hold & Hn).
  unfold admission_rows in Hn, Hold. rewrite !fmap_app, <- !list_fmap_compose in Hn.
  apply NoDup_app in Hn as (_ & _ & Hn). apply NoDup_app in Hn as (_ & _ & Hn).
  set (x := budget_row r cx new_id dim).
  assert (∀ ty, mem ty ["RESERVE"; "RELEASE"] = true →
    List.filter (moves (rr_tenant_id x) (rr_id x) ty) (rt_ledger s) = []) as Hnone.
  { intros ty Hty. apply no_movements. intros e He. destruct (decide (be_entry_type e = ty)) as [E|]; [|by right].
    left. intros Er. destruct (to_linked _ Hok e (rr_id x) He) as (y & Hy & Ey).
    - rewrite E. by apply mem_true.
    - done.
    - apply (Hold (rr_id y)); [apply list_elem_of_fmap; eauto|]. rewrite Ey.
      rewrite !fmap_app, !elem_of_app. right. right. apply list_elem_of_fmap. exists x.
      split; [done|]. apply list_elem_of_fmap. exists dim. split; [done|apply elem_of_dims]. }
  pose proof (am_ledger _ _ _ _ _ _ _ _ _ _ Ha) as Hl.
  exists dim, (reserve_entry r new_id (ck_acquired clock) dim).
  rewrite !(movements_app _ _ _ _ _ Hl), !Hnone, !app_nil_l by done. split_and!; try done.
  - apply (filter_keyed (λ e, be_reservation_id e)).
    + rewrite <- list_fmap_compose. apply (NoDup_fmap_2 Some) in Hn. by rewrite <- list_fmap_compose in Hn.
    + apply list_elem_of_fmap. exists dim. split; [done|apply elem_of_dims].
    + intros y Hy. apply list_elem_of_fmap in Hy as (dim' & -> & _). unfold moves. simpl.
      rewrite (bool_decide_true (_ = _)) by done. simpl. rewrite andb_true_r. done.
  - left. split; [done|]. apply no_movements. intros e He.
    apply list_elem_of_fmap in He as (dim' & -> & _). by right.
Qed.

Lemma admitted_ok r clock new_id ev d s s' identities digest cx :
  admitted r clock new_id ev d s s' identities digest cx → tables_ok s → tables_ok s'.
Proof.
  intros Ha Hok. pose proof (am_ids _ _ _ _ _ _ _ _ _ _ Ha (to_ids _ Hok)) as Hids.
  pose proof (am_sets _ _ _ _ _ _ _ _ _ _ Ha) as Hsets. pose proof (am_id _ _ _ _ _ _ _ _ _ _ Ha) as Hid.
  constructor; [| |done|..].
  - intros id set. rewrite Hsets, lookup_insert_Some. intros [[<- <-]|[_ H]]; [by left|].
    by eapply to_sets.
  - intros x Hx. rewrite (am_resources _ _ _ _ _ _ _ _ _ _ Ha), elem_of_app in Hx. destruct Hx as [Hx|Hx].
    + destruct (to_rows _ Hok x Hx) as (Hu & set & Hs & Ht & Hb). split; [done|]. exists set.
      rewrite Hsets, lookup_insert_ne by congruence. split_and!; [done..|].
      intros Hk. eapply balanced_frame; [apply (am_ledger _ _ _ _ _ _ _ _ _ _ Ha)| |done|done|by apply Hb].
      intros e He. apply list_elem_of_fmap in He as (dim & -> & _). simpl. intros [= E].
      rewrite (am_resources _ _ _ _ _ _ _ _ _ _ Ha), fmap_app in Hids.
      apply NoDup_app in Hids as (_ & Hd & _). apply (Hd (rr_id x)); [apply list_elem_of_fmap; eauto|].
      rewrite <- E. apply list_elem_of_fmap. exists (budget_row r cx new_id dim). split; [done|].
      unfold admission_rows. rewrite !elem_of_app. right. right. apply list_elem_of_fmap.
      exists dim. split; [done|apply elem_of_dims].
    + pose proof (am_units _ _ _ _ _ _ _ _ _ _ Ha) as Hu. rewrite Forall_forall in Hu.
      split; [by apply Hu|]. apply admission_row_set in Hx as (-> & -> & Hb).
      eexists. rewrite Hsets, lookup_insert_eq. split_and!; [done..|].
      intros Hk. destruct (Hb Hk) as [dim ->]. by eapply new_budget_balanced.
  - intros e id He Hty Hr. rewrite (am_ledger _ _ _ _ _ _ _ _ _ _ Ha), elem_of_app in He.
    rewrite (am_resources _ _ _ _ _ _ _ _ _ _ Ha). setoid_rewrite elem_of_app. destruct He as [He|He].
    + destruct (to_linked _ Hok e id He Hty Hr) as (x & Hx & <-). exists x. tauto.
    + apply list_elem_of_fmap in He as (dim & -> & _). injection Hr as <-.
      exists (budget_row r cx new_id dim). split; [|done]. right. unfold admission_rows.
      rewrite !elem_of_app. right. right. apply list_elem_of_fmap. exists dim. split; [done|apply elem_of_dims].
  - assert (∀ id set, rt_sets s !! id = Some set → is_active set → st_tenant_id set = aq_tenant_id r →
      st_attempt_id set ≠ aq_attempt_id r) as Hno.
    { intros id set Hs Hact Ht E. pose proof (am_attempt _ _ _ _ _ _ _ _ _ _ Ha) as H.
      unfold reject_existing_attempt_reservation in H. destruct (find _ _) as [[? ?]|] eqn:Ef; [done|].
      apply (find_none _ _) with (x := (id, set)) in Ef; [|by apply list_elem_of_In, elem_of_map_to_list].
      simpl in Ef. by rewrite !bool_decide_true in Ef by done. }
    intros id id' set set'. rewrite Hsets, !lookup_insert_Some.
    intros [[<- <-]|[H1 Hs]] [[<- <-]|[H2 Hs']] A1 A2 Et Eat; [done|..]; simpl in *.
    + by edestruct (Hno id' set').
    + by edestruct (Hno id set).
    + by eapply to_attempts.
  - assert (∀ id set, rt_sets s !! id = Some set → st_tenant_id set = aq_tenant_id r →
      st_idempotency_key set ≠ aq_idempotency_key r) as Hno.
    { intros id set Hs Ht E. pose proof (am_key _ _ _ _ _ _ _ _ _ _ Ha) as Ef.
      apply (find_none _ _) with (x := (id, set)) in Ef; [|by apply list_elem_of_In, elem_of_map_to_list].
      unfold keyed_set in Ef. simpl in Ef. by rewrite !bool_decide_true in Ef by done. }
    intros id id' set set'. rewrite Hsets, !lookup_insert_Some.
    intros [[<- <-]|[H1 Hs]] [[<- <-]|[H2 Hs']] Et Ek; [done|..]; simpl in *.
    + by edestruct (Hno id' set').
    + by edestruct (Hno id set).
    + by eapply to_keys.
Qed.

Lemma parse_budget_dimension_ok value dim :
  parse_budget_dimension value = Ok dim → database_value dim = value.
Proof.
  unfold parse_budget_dimension. intros H. apply ok_or_ok, find_some in H as [_ H].
  by apply bool_decide_eq_true in H.
Qed.

Lemma gives_back_reservations q item attempt at_ rows entries :
  Forall2 (gives_back q item attempt at_) rows entries →
  be_reservation_id <$> entries = Some <$> (rr_id <$> rows).
Proof. induction 1 as [|row e rows entries (dim & _ & ->) _ IH]; [done|]. by rewrite !fmap_cons, IH. Qed.

Lemma gives_back_unique q item attempt at_ rows entries x :
  Forall2 (gives_back q item attempt at_) rows entries → NoDup (rr_id <$> rows) → x ∈ rows →
  rr_tenant_id x = tq_tenant_id q →
  ∃ e, gives_back q item attempt at_ x e ∧
    List.filter (moves (rr_tenant_id x) (rr_id x) "RELEASE") entries = [e].
Proof.
  intros Hall Hn Hx Ht. apply list_elem_of_lookup in Hx as [i Hi].
  destruct (Forall2_lookup_l _ _ _ _ _ Hall Hi) as (e & He & Hg). exists e. split; [done|].
  apply (filter_keyed be_reservation_id).
  - rewrite (gives_back_reservations _ _ _ _ _ _ Hall). by apply NoDup_fmap_2; [apply _|].
  - by eapply list_elem_of_lookup_2.
  - intros y Hy. apply list_elem_of_lookup in Hy as [j Hj].
    destruct (Forall2_lookup_r _ _ _ _ _ Hall Hj) as (row & _ & dim & _ & ->).
    destruct Hg as (dim' & _ & ->). unfold moves. simpl.
    rewrite Ht, (bool_decide_true (_ = _)) by done. simpl. by rewrite andb_true_r.
Qed.

Lemma elem_of_budget_rows t id s x :
  x ∈ budget_rows t id s ↔
  x ∈ rt_resources s ∧ rr_tenant_id x = t ∧ rr_set_id x = id ∧ rr_kind x = "BUDGET".
Proof.
  unfold budget_rows, of_set. rewrite elem_of_sort_by_key, elem_of_filter_bool, !andb_true_iff,
    !bool_decide_eq_true. tauto.
Qed.

Lemma NoDup_filter_ids (p : ResourceRow → bool) l :
  NoDup (rr_id <$> l) → NoDup (rr_id <$> List.filter p l).
Proof.
  induction l as [|x l IH]; [done|]. simpl. intros [Hx Hn]%NoDup_cons.
  destruct (p x); [|by apply IH]. simpl. constructor; [|by apply IH]. intros Hin. apply Hx.
  apply list_elem_of_fmap in Hin as (y & -> & Hy). apply elem_of_filter_bool in Hy as [Hy _].
  apply list_elem_of_fmap. eauto.
Qed.

Lemma budget_rows_ids t id s :
  NoDup (rr_id <$> rt_resources s) → NoDup (rr_id <$> budget_rows t id s).
Proof.
  intros Hn. unfold budget_rows. rewrite (fmap_Permutation rr_id _ _ (sort_by_key_perm _ _)).
  by apply NoDup_filter_ids.
Qed.

Lemma terminal_not_active target : terminal_state_value target ≠ "ACTIVE".
Proof. by destruct target. Qed.

(** The budget of a settled set is given back. *)
Lemma settled_balanced q target rid at_ ev s s' set x :
  settled q target rid at_ ev s s' set (st_fence_token set) (st_work_item_id set) (st_attempt_id set) →
  tables_ok s → x ∈ rt_resources s → rr_set_id x = tq_reservation_set_id q →
  rr_tenant_id x = tq_tenant_id q → rr_kind x = "BUDGET" → balanced s set x →
  balanced s' (transitioned_row q (terminal_state_value target) (st_fence_token set + 1) at_ rid set) x.
Proof.
  intros Hs Hok Hx Hset Ht Hk (dim & e & Hd & Hr & H1 & H2 & H3 & [[Ha Hn]|[Ha _]]);
    [|by destruct Ha; apply (se_active _ _ _ _ _ _ _ _ _ _ _ Hs)].
  destruct (se_ledger _ _ _ _ _ _ _ _ _ _ _ Hs) as (entries & Hl & Hall).
  destruct (gives_back_unique _ _ _ _ _ _ x Hall) as (e' & (dim' & Hp & ->) & Hf); [| |done|].
  { apply budget_rows_ids, to_ids, Hok. }
  { by apply elem_of_budget_rows. }
  rewrite Hd in Hp. apply parse_budget_dimension_ok in Hp. simpl in Hp.
  exists dim, e. rewrite !(movements_app _ _ _ _ _ Hl). unfold movements in Hr, Hn.
  rewrite Hr, Hn, Hf, (no_movements "RESERVE"), app_nil_r.
  - split_and!; try done. right. split; [apply terminal_not_active|].
    eexists. split; [done|]. simpl. by rewrite Hp.
  - intros y Hy. apply list_elem_of_lookup in Hy as [j Hj].
    destruct (Forall2_lookup_r _ _ _ _ _ Hall Hj) as (row & _ & dim2 & _ & ->). by right.
Qed.

Lemma settled_ok q target rid at_ ev s s' set :
  settled q target rid at_ ev s s' set (st_fence_token set) (st_work_item_id set) (st_attempt_id set) →
  tables_ok s → tables_ok s'.
Proof.
  intros Hs Hok. pose proof (se_sets _ _ _ _ _ _ _ _ _ _ _ Hs) as Hsets.
  pose proof (se_set _ _ _ _ _ _ _ _ _ _ _ Hs) as Hset.
  pose proof (se_resources _ _ _ _ _ _ _ _ _ _ _ Hs) as Hres.
  destruct (se_ledger _ _ _ _ _ _ _ _ _ _ _ Hs) as (entries & Hl & Hall).
  assert (∀ e, e ∈ entries → ∃ x, x ∈ budget_rows (tq_tenant_id q) (tq_reservation_set_id q) s ∧
    be_reservation_id e = Some (rr_id x)) as Hent.
  { intros e He. apply list_elem_of_lookup in He as [j Hj].
    destruct (Forall2_lookup_r _ _ _ _ _ Hall Hj) as (row & Hrow & dim & _ & ->). exists row.
    split; [by eapply list_elem_of_lookup_2|done]. }
  constructor.
  - intros id x. rewrite Hsets, lookup_insert_Some. intros [[<- <-]|[_ H]]; [|by eapply to_sets].
    right. simpl. destruct (to_sets _ Hok _ _ Hset) as [(_ & -> & _)|(Ht & _)].
    + split_and!; [destruct target; simpl; tauto|lia|done].
    + pose proof (se_active _ _ _ _ _ _ _ _ _ _ _ Hs) as E. rewrite E in Ht. by destruct Ht.
  - intros x. rewrite Hres. intros Hx. destruct (to_rows _ Hok x Hx) as (Hu & set1 & Hs1 & Ht & Hb).
    split; [done|]. rewrite Hsets. destruct (decide (rr_set_id x = tq_reservation_set_id q)) as [E|Hne].
    + rewrite E in *. rewrite Hset in Hs1. injection Hs1 as <-. rewrite lookup_insert_eq.
      eexists. split; [done|]. split; [done|]. intros Hk. eapply settled_balanced; try done; [|by apply Hb].
      rewrite <- Ht. apply (se_tenant _ _ _ _ _ _ _ _ _ _ _ Hs).
    + rewrite lookup_insert_ne by done. exists set1. split_and!; [done..|]. intros Hk.
      eapply balanced_frame; [exact Hl| |done|done|by apply Hb].
      intros e He. destruct (Hent e He) as (y & Hy & ->). apply elem_of_budget_rows in Hy as (Hy & _ & Hsy & _).
      intros [= E]. apply Hne. rewrite <- Hsy. f_equal.
      apply list_elem_of_lookup in Hx as [i Hi]. apply list_elem_of_lookup in Hy as [j Hj].
      assert (i = j) as ->; [|congruence].
      eapply (NoDup_lookup (rr_id <$> rt_resources s)); [apply to_ids, Hok|..]; rewrite list_lookup_fmap.
      * by rewrite Hi.
      * rewrite Hj. simpl. by rewrite E.
  - rewrite Hres. apply to_ids, Hok.
  - intros e id He Hty Hr. rewrite Hl, elem_of_app in He. rewrite Hres. destruct He as [He|He].
    + by eapply to_linked.
    + destruct (Hent e He) as (y & Hy & E). apply elem_of_budget_rows in Hy as (Hy & _).
      exists y. split; [done|]. congruence.
  - intros id id' x x'. rewrite Hsets, !lookup_insert_Some.
    intros [[<- <-]|[H1 Hx]] [[<- <-]|[H2 Hx']] A1 A2; try done;
      [by destruct (terminal_not_active target)..|]. by eapply to_attempts.
  - intros id id' x x'. rewrite Hsets, !lookup_insert_Some.
    intros [[<- <-]|[H1 Hx]] [[<- <-]|[H2 Hx']]; try done; simpl; intros; by eapply to_keys.
Qed.

Lemma operate_all_ok l s : tables_ok s → tables_ok (operate_all l s).
Proof.
  intros Hok. eapply (star_invariant (change (λ _ _ _, True)) tables_ok); [exact Hok| |].
  - intros x y Hx Hc. revert Hx.
    destruct Hc as [r clock new_id ev d a b ids dg cx _ Ha|q target rid at_ ev a b set f i at1 -> -> -> Hs];
      intros Hx.
    + exact (admitted_ok _ _ _ _ _ _ _ _ _ _ Ha Hx).
    + exact (settled_ok _ _ _ _ _ _ _ _ Hs Hx).
  - apply operate_all_changes. apply Forall_forall. intros o _. by destruct o.
Qed.

Definition empty_tables : ReservationTables := mkReservationTables ∅ [] [] [].

Lemma empty_tables_ok : tables_ok empty_tables.
Proof.
  constructor; simpl; try done; try (intros * Hx; by apply elem_of_nil in Hx). constructor.
Qed.

(** ** Capacity *)

(** What is configured. *)
Record Limits := mkLimits {
  lm_repository : Uuid → Uuid → Z;
  lm_worker : Uuid → Uuid → Z;
  lm_identity : Uuid → CtxlaneProfileRef → Z;
  lm_budget : Uuid → Uuid → Dimension → Z
}.

(** The directory configures no more than the limits. *)
Record configured (L : Limits) d : Prop := {
  cf_repository t id row : dir_repositories d !! (t, id) = Some row → rc_wip_limit row ≤ lm_repository L t id;
  cf_worker t id row : dir_workers d !! (t, id) = Some row → wk_max_concurrency row ≤ lm_worker L t id;
  cf_identity t p row : dir_identities d !! (t, profile_str p) = Some row → il_capacity row ≤ lm_identity L t p;
  cf_budget t id row limits dim : dir_work_items d !! (t, id) = Some row →
    budget_limits_from_value (wa_budget_limits row) = inr limits →
    budget_limit limits dim ≤ lm_budget L t id dim
}.

(** From [now] on, the reservations that count stay within the limits. *)
Record within (L : Limits) (now : DateTime) s : Prop := {
  wn_repository t id at_ : now ≤ at_ →
    units_at at_ t "REPOSITORY_WIP" (repository_resource_key id) s ≤ lm_repository L t id;
  wn_worker t id at_ : now ≤ at_ →
    units_at at_ t "WORKER_SLOT" (worker_resource_key id) s ≤ lm_worker L t id;
  wn_identity t p at_ : now ≤ at_ →
    units_at at_ t "IDENTITY_CAPACITY" (identity_resource_key p) s ≤ lm_identity L t p;
  wn_budget t id dim at_ : now ≤ at_ →
    consumed t id dim s + units_at at_ t "BUDGET" (budget_resource_key id dim) s ≤ lm_budget L t id dim
}.

Lemma sum_units_app l k : sum_units (l ++ k) = sum_units l + sum_units k.
Proof. unfold sum_units. induction l as [|x l IH]; simpl; [done|]. rewrite IH. lia. Qed.

Lemma sum_units_filter_le (p p' : ResourceRow → bool) l :
  (∀ x, x ∈ l → 0 ≤ rr_units x) → (∀ x, x ∈ l → p x = true → p' x = true) →
  sum_units (List.filter p l) ≤ sum_units (List.filter p' l).
Proof.
  unfold sum_units. induction l as [|x l IH]; intros Hu Hp; simpl; [lia|].
  assert (0 ≤ rr_units x) by (apply Hu; by left).
  assert (p x = true → p' x = true) by (apply Hp; by left).
  assert (foldr (λ row n, rr_units row + n) 0 (List.filter p l)
    ≤ foldr (λ row n, rr_units row + n) 0 (List.filter p' l)).
  { apply IH; intros; [apply Hu|apply Hp; [|done]]; by right. }
  destruct (p x), (p' x); simpl; try lia; naive_solver lia.
Qed.

Lemma rows_nonnegative s x : tables_ok s → x ∈ rt_resources s → 0 ≤ rr_units x.
Proof. intros Hok Hx. by apply (to_rows _ Hok). Qed.

Lemma units_at_antitone a b t kind key s :
  tables_ok s → a ≤ b → units_at b t kind key s ≤ units_at a t kind key s.
Proof.
  intros Hok Hab. apply sum_units_filter_le; [by intros; eapply rows_nonnegative|].
  intros x _. rewrite !andb_true_iff. intros [Hh Hc]. split; [done|]. unfold counts_at in *.
  destruct (rt_sets s !! rr_set_id x) as [set|]; [|done]. rewrite !andb_true_iff in *.
  destruct Hc as [Hc Hlt]. split; [done|]. apply Z.ltb_lt in Hlt. apply Z.ltb_lt. lia.
Qed.

Lemma units_at_settled q target rid at_ ev s s' set f i a now t kind key :
  settled q target rid at_ ev s s' set f i a → tables_ok s →
  units_at now t kind key s' ≤ units_at now t kind key s.
Proof.
  intros Hs Hok. unfold units_at. rewrite (se_resources _ _ _ _ _ _ _ _ _ _ _ Hs).
  apply sum_units_filter_le; [by intros; eapply rows_nonnegative|].
  intros x _. rewrite !andb_true_iff. intros [Hh Hc]. split; [done|]. unfold counts_at in *.
  rewrite (se_sets _ _ _ _ _ _ _ _ _ _ _ Hs) in Hc.
  destruct (decide (rr_set_id x = tq_reservation_set_id q)) as [E|Hne].
  - rewrite E, lookup_insert_eq in Hc. simpl in Hc. rewrite !andb_true_iff, !bool_decide_eq_true in Hc.
    destruct (terminal_not_active target). tauto.
  - by rewrite lookup_insert_ne in Hc.
Qed.

Lemma consumed_app t id dim s s' entries :
  rt_ledger s' = rt_ledger s ++ entries →
  (∀ e, e ∈ entries → be_entry_type e ∈ ["RESERVE"; "RELEASE"]) →
  consumed t id dim s' = consumed t id dim s.
Proof.
  unfold consumed. intros -> He. rewrite List.filter_app, (filter_none _ entries), app_nil_r; [done|].
  intros e Hin. specialize (He e Hin). rewrite !elem_of_cons in He.
  destruct He as [->|[->|He]]; [by rewrite andb_false_r..|by apply elem_of_nil in He].
Qed.

Lemma consumed_settled q target rid at_ ev s s' set f i a t id dim :
  settled q target rid at_ ev s s' set f i a → consumed t id dim s' = consumed t id dim s.
Proof.
  intros Hs. destruct (se_ledger _ _ _ _ _ _ _ _ _ _ _ Hs) as (entries & Hl & Hall).
  eapply consumed_app; [exact Hl|]. intros e He. apply list_elem_of_lookup in He as [j Hj].
  destruct (Forall2_lookup_r _ _ _ _ _ Hall Hj) as (row & _ & dim' & _ & ->). right. by left.
Qed.

Lemma units_at_admitted r clock new_id ev d s s' identities digest cx now t kind key :
  admitted r clock new_id ev d s s' identities digest cx → tables_ok s →
  units_at now t kind key s' ≤ units_at now t kind key s
    + sum_units (List.filter (holds t kind key) (admission_rows r identities cx new_id)).
Proof.
  intros Ha Hok. unfold units_at. rewrite (am_resources _ _ _ _ _ _ _ _ _ _ Ha), List.filter_app, sum_units_app.
  apply Z.add_le_mono.
  - apply sum_units_filter_le; [by intros; eapply rows_nonnegative|].
    intros x Hx. rewrite !andb_true_iff. intros [Hh Hc]. split; [done|]. unfold counts_at in *.
    destruct (to_rows _ Hok x Hx) as (_ & set & Hset & _).
    rewrite (am_sets _ _ _ _ _ _ _ _ _ _ Ha), lookup_insert_ne in Hc; [done|].
    intros E. pose proof (am_id _ _ _ _ _ _ _ _ _ _ Ha). congruence.
  - pose proof (am_units _ _ _ _ _ _ _ _ _ _ Ha) as Hu. rewrite Forall_forall in Hu.
    apply sum_units_filter_le; [done|]. by intros x _ [? _]%andb_true_iff.
Qed.

Lemma consumed_admitted r clock new_id ev d s s' identities digest cx t id dim :
  admitted r clock new_id ev d s s' identities digest cx → consumed t id dim s' = consumed t id dim s.
Proof.
  intros Ha. eapply consumed_app; [apply (am_ledger _ _ _ _ _ _ _ _ _ _ Ha)|].
  intros e He. apply list_elem_of_fmap in He as (dim' & -> & _). by left.
Qed.

(** *** What the checks of an admission establish *)

Lemma positive_u64_ok v w : positive_u64 v = Ok w → w = v.
Proof.
  unfold positive_u64. intros H. apply bind_ok in H as (x & Hx & H).
  apply ok_or_ok, try_from_some in Hx as [_ ->]. by apply bind_unit_ok in H as [_ [= <-]].
Qed.

Lemma parse_u64_ok v context w : parse_u64 v context = Ok w → w = v.
Proof. unfold parse_u64. intros H. by apply ok_or_ok, try_from_some in H as [_ ->]. Qed.

Lemma require_capacity_ok now t kind key requested capacity s :
  require_capacity now t kind key requested capacity s = Ok () →
  units_at now t kind key s + requested ≤ capacity.
Proof.
  unfold require_capacity, active_reserved_units. intros H. apply bind_ok in H as (a & Ha & H).
  apply parse_u64_ok in Ha as ->. apply bail_if_ok in H.
  destruct (checked_add _ _ _) as [total|] eqn:E; [|done]. apply checked_add_some in E as [_ ->].
  apply Z.ltb_ge in H. lia.
Qed.

Lemma require_budget_ok r limits summed s dim :
  require_budget r limits summed s dim = Ok () →
  consumed (aq_tenant_id r) (aq_work_item_id r) dim s
  + units_at (summed "BUDGET" (budget_resource_key (aq_work_item_id r) dim)) (aq_tenant_id r) "BUDGET"
      (budget_resource_key (aq_work_item_id r) dim) s
  + amount (aq_budget r) dim ≤ budget_limit limits dim.
Proof.
  unfold require_budget, active_reserved_units, consumed_budget. intros H.
  apply bind_ok in H as (a & Ha & H). apply parse_u64_ok in Ha as ->.
  apply bind_ok in H as (u & Hu & H). apply parse_u64_ok in Hu as ->.
  apply bind_ok in H as (c & Hc & H). apply ok_or_ok in Hc. apply bind_Some in Hc as (x & Hx & Hc).
  apply checked_add_some in Hx as [_ ->]. apply checked_add_some in Hc as [_ ->].
  apply bail_if_ok, Z.ltb_ge in H. lia.
Qed.

Lemma identity_contexts_ok r d identities m m' :
  try_fold identities m (identity_context r d) = Ok m' →
  (∀ p c g, m !! p = Some (c, g) → ∃ row, dir_identities d !! (aq_tenant_id r, p) = Some row ∧ c = il_capacity row) →
  ∀ p c g, m' !! p = Some (c, g) → ∃ row, dir_identities d !! (aq_tenant_id r, p) = Some row ∧ c = il_capacity row.
Proof.
  revert m. induction identities as [|i l IH]; intros m H Hm; simpl in H; [by injection H as <-|].
  apply bind_ok in H as (m1 & H1 & H). eapply IH; [exact H|]. unfold identity_context in H1.
  apply bind_ok in H1 as (row & Hr & H1). apply ok_or_ok in Hr. apply bind_ok in H1 as (c & Hc & H1).
  apply positive_u64_ok in Hc as ->. apply bind_ok in H1 as (g & Hg & H1).
  apply bind_unit_ok in H1 as [_ [= <-]]. intros p c g'. rewrite lookup_insert_Some.
  intros [[<- [= <- <-]]|[_ Hp]]; [by exists row|by eapply Hm].
Qed.

Lemma context_limits r identities now d cx L :
  load_and_validate_context r identities now d = Ok cx → configured L d →
  cx_repository_capacity cx ≤ lm_repository L (aq_tenant_id r) (aq_repository_id r) ∧
  cx_worker_capacity cx ≤ lm_worker L (aq_tenant_id r) (aq_worker_id r) ∧
  (∀ p c g, cx_identity_capacities cx !! profile_str p = Some (c, g) → c ≤ lm_identity L (aq_tenant_id r) p) ∧
  ∀ dim, budget_limit (cx_budget_limits cx) dim ≤ lm_budget L (aq_tenant_id r) (aq_work_item_id r) dim.
Proof.
  intros H HL. unfold load_and_validate_context in H. apply bind_ok in H as (status & _ & H).
  apply bind_unit_ok in H as [_ H]. apply bind_ok in H as (limits & Hl & H).
  apply bind_ok in H as (ag & _ & H). apply bind_ok in H as ([rc rg] & Hr & H).
  apply bind_ok in H as ([wc wg] & Hw & H). apply bind_unit_ok in H as [_ H].
  apply bind_ok in H as (ids & Hi & [= <-]). simpl. split_and!.
  - unfold repository_context in Hr. apply bind_ok in Hr as (row & Hrow & Hr). apply ok_or_ok in Hrow.
    apply bind_ok in Hr as (c & Hc & Hr). apply positive_u64_ok in Hc as ->.
    apply bind_ok in Hr as (g & _ & Hr). apply bind_unit_ok in Hr as [_ [= <- _]].
    by eapply cf_repository.
  - unfold worker_context in Hw. apply bind_ok in Hw as (row & Hrow & Hw). apply ok_or_ok in Hrow.
    apply bind_ok in Hw as (c & Hc & Hw). apply positive_u64_ok in Hc as ->.
    apply bind_ok in Hw as (g & _ & Hw). apply bind_unit_ok in Hw as [_ [= <- _]].
    by eapply cf_worker.
  - intros p c g Hp. destruct (identity_contexts_ok _ _ _ _ _ Hi ltac:(done) _ _ _ Hp) as (row & Hrow & ->).
    by eapply cf_identity.
  - intros dim. unfold work_item_context in Hl. apply bind_ok in Hl as (row & Hrow & Hl).
    apply ok_or_ok in Hrow. apply bind_unit_ok in Hl as [_ Hl]. apply bind_ok in Hl as (x & Hx & Hl).
    apply bind_unit_ok in Hl as [_ Hl]. apply bind_ok in Hl as (y & _ & Hl).
    do 2 apply bind_unit_ok in Hl as [_ Hl]. injection Hl as ->.
    eapply cf_budget; [done..|]. unfold map_err in Hx. destruct (budget_limits_from_value _); [done|].
    by injection Hx as ->.
Qed.

Lemma check_identities_ok identities seen seen' :
  try_fold identities seen check_identity = Ok seen' →
  NoDup (ic_profile_ref <$> identities) ∧ ∀ i, i ∈ identities → ic_profile_ref i ∉ seen.
Proof.
  revert seen. induction identities as [|i l IH]; intros seen H; simpl in H.
  - split; [constructor|]. intros i Hi. by apply elem_of_nil in Hi.
  - apply bind_ok in H as (s1 & H1 & H). unfold check_identity in H1. apply bind_unit_ok in H1 as [_ H1].
    apply bind_unit_ok in H1 as [Hn [= <-]]. apply bail_if_ok, bool_decide_eq_false in Hn.
    apply IH in H as [Hnd Hs]. split.
    + simpl. constructor; [|done]. intros Hin. apply list_elem_of_fmap in Hin as (j & E & Hj).
      apply (Hs j Hj). rewrite <- E. by left.
    + intros j [->|Hj]%elem_of_cons; [done|]. intros Hin. apply (Hs j Hj). by right.
Qed.

Lemma validated_identities r identities :
  AdmissionReservationRequest_validate r = Ok identities → NoDup (ic_profile_ref <$> identities).
Proof.
  unfold AdmissionReservationRequest_validate. intros H. do 6 apply bind_unit_ok in H as [_ H].
  apply bind_ok in H as (seen & H & [= <-]). by apply check_identities_ok in H as [? _].
Qed.

(** *** What an admission asks for *)

Context {hyphenated : UuidHyphenated}.

Lemma holds_other t kind key x : rr_kind x ≠ kind → holds t kind key x = false.
Proof. intros H. unfold holds. rewrite (bool_decide_false (_ = kind)) by done. by rewrite andb_false_r. Qed.

Lemma holds_kind t kind key l :
  (∀ x, x ∈ l → rr_kind x ≠ kind) → List.filter (holds t kind key) l = [].
Proof. intros H. apply filter_none. intros x Hx. apply holds_other. by apply H. Qed.

Lemma identity_kinds r cx new_id (identities : list IdentityCapacityRequest) x :
  x ∈ identity_row r cx new_id <$> identities → rr_kind x = "IDENTITY_CAPACITY".
Proof. intros Hx. by apply list_elem_of_fmap in Hx as (i & -> & _). Qed.

Lemma budget_kinds r cx new_id (dims : list Dimension) x :
  x ∈ budget_row r cx new_id <$> dims → rr_kind x = "BUDGET".
Proof. intros Hx. by apply list_elem_of_fmap in Hx as (i & -> & _). Qed.

Lemma str_app_inj a b c : a +:+ b = a +:+ c → b = c.
Proof. induction a as [|x a IH]; [done|]. intros [= H]. auto. Qed.

Lemma repository_key_inj id id' : repository_resource_key id = repository_resource_key id' → id = id'.
Proof. unfold repository_resource_key. intros H. by apply str_app_inj, uuid_to_string_inj in H. Qed.

Lemma worker_key_inj id id' : worker_resource_key id = worker_resource_key id' → id = id'.
Proof. unfold worker_resource_key. intros H. by apply str_app_inj, uuid_to_string_inj in H. Qed.

Lemma identity_key_inj p p' : identity_resource_key p = identity_resource_key p' → p = p'.
Proof. unfold identity_resource_key. intros H. apply str_app_inj in H. destruct p, p'. simpl in H. by subst. Qed.

Lemma database_value_inj dim dim' : database_value dim = database_value dim' → dim = dim'.
Proof. by destruct dim, dim'. Qed.

Lemma budget_key_inj id id' dim dim' :
  budget_resource_key id dim = budget_resource_key id' dim' → id = id' ∧ dim = dim'.
Proof.
  unfold budget_resource_key. intros H. apply str_app_inj in H.
  apply uuid_colon_inj in H as [-> H]. split; [done|by apply database_value_inj].
Qed.

(** At most one row of an admission is for a given resource. *)
Lemma asks_repository r identities cx new_id t id :
  sum_units (List.filter (holds t "REPOSITORY_WIP" (repository_resource_key id))
    (admission_rows r identities cx new_id)) = 0 ∨
  t = aq_tenant_id r ∧ id = aq_repository_id r ∧
  sum_units (List.filter (holds t "REPOSITORY_WIP" (repository_resource_key id))
    (admission_rows r identities cx new_id)) = 1.
Proof.
  unfold admission_rows. rewrite !List.filter_app, (holds_kind _ _ _ (identity_row _ _ _ <$> _)),
    (holds_kind _ _ _ (budget_row _ _ _ <$> _)), !app_nil_r;
    [|by intros x Hx%budget_kinds; rewrite Hx|by intros x Hx%identity_kinds; rewrite Hx].
  simpl. rewrite (holds_other t _ _ (resource_row r _ ReservationKind.WorkerSlot _ _ _ _)) by done.
  destruct (holds t _ _ _) eqn:E; [|by left].
  right. unfold holds in E. simpl in E. reflect. destruct E as [[-> _] E].
  apply repository_key_inj in E as <-. by split_and!.
Qed.

Lemma asks_worker r identities cx new_id t id :
  sum_units (List.filter (holds t "WORKER_SLOT" (worker_resource_key id))
    (admission_rows r identities cx new_id)) = 0 ∨
  t = aq_tenant_id r ∧ id = aq_worker_id r ∧
  sum_units (List.filter (holds t "WORKER_SLOT" (worker_resource_key id))
    (admission_rows r identities cx new_id)) = 1.
Proof.
  unfold admission_rows. rewrite !List.filter_app, (holds_kind _ _ _ (identity_row _ _ _ <$> _)),
    (holds_kind _ _ _ (budget_row _ _ _ <$> _)), !app_nil_r;
    [|by intros x Hx%budget_kinds; rewrite Hx|by intros x Hx%identity_kinds; rewrite Hx].
  simpl. rewrite (holds_other t _ _ (resource_row r _ ReservationKind.RepositoryWip _ _ _ _)) by done.
  destruct (holds t _ _ _) eqn:E; [|by left].
  right. unfold holds in E. simpl in E. reflect. destruct E as [[-> _] E].
  apply worker_key_inj in E as <-. by split_and!.
Qed.

Lemma asks_identity r identities cx new_id t p :
  NoDup (ic_profile_ref <$> identities) →
  sum_units (List.filter (holds t "IDENTITY_CAPACITY" (identity_resource_key p))
    (admission_rows r identities cx new_id)) = 0 ∨
  ∃ i, i ∈ identities ∧ t = aq_tenant_id r ∧ p = ic_profile_ref i ∧
  sum_units (List.filter (holds t "IDENTITY_CAPACITY" (identity_resource_key p))
    (admission_rows r identities cx new_id)) = ic_units i.
Proof.
  intros Hn. unfold admission_rows. rewrite !List.filter_app, (holds_kind _ _ _ (budget_row _ _ _ <$> _)),
    !app_nil_r, (holds_kind _ _ _ [_; _]), app_nil_l;
    [|by intros x [->|[->|[]%elem_of_nil]%elem_of_cons]%elem_of_cons|by intros x Hx%budget_kinds; rewrite Hx].
  destruct (decide (t = aq_tenant_id r)) as [->|Hne].
  - destruct (decide (p ∈ ic_profile_ref <$> identities)) as [Hp|Hp].
    + right. apply list_elem_of_fmap in Hp as (i & -> & Hi). exists i. split_and!; try done.
      rewrite (filter_keyed rr_resource_key _ (identity_row r cx new_id i)); [simpl; lia|..].
      * rewrite <- list_fmap_compose.
        assert (rr_resource_key ∘ identity_row r cx new_id <$> identities
          = identity_resource_key <$> (ic_profile_ref <$> identities)) as ->.
        { by rewrite <- list_fmap_compose. }
        apply NoDup_fmap_2; [|done]. intros ??. apply identity_key_inj.
      * apply list_elem_of_fmap. eauto.
      * intros y Hy. apply list_elem_of_fmap in Hy as (j & -> & _). unfold holds. simpl.
        by rewrite bool_decide_true by done.
    + left. rewrite filter_none; [done|]. intros y Hy. apply list_elem_of_fmap in Hy as (j & -> & Hj).
      apply not_true_iff_false. unfold holds. simpl. rewrite !andb_true_iff, !bool_decide_eq_true.
      intros [_ E%identity_key_inj]. apply Hp. rewrite <- E. apply list_elem_of_fmap. eauto.
  - left. rewrite filter_none; [done|]. intros y Hy. apply list_elem_of_fmap in Hy as (j & -> & Hj).
    unfold holds. simpl. by rewrite bool_decide_false by done.
Qed.

Lemma asks_budget r identities cx new_id t id dim :
  sum_units (List.filter (holds t "BUDGET" (budget_resource_key id dim))
    (admission_rows r identities cx new_id)) = 0 ∨
  t = aq_tenant_id r ∧ id = aq_work_item_id r ∧
  sum_units (List.filter (holds t "BUDGET" (budget_resource_key id dim))
    (admission_rows r identities cx new_id)) = amount (aq_budget r) dim.
Proof.
  unfold admission_rows. rewrite !List.filter_app, (holds_kind _ _ _ (identity_row _ _ _ <$> _)),
    (holds_kind _ _ _ [_; _]), !app_nil_l;
    [|by intros x [->|[->|[]%elem_of_nil]%elem_of_cons]%elem_of_cons|by intros x Hx%identity_kinds; rewrite Hx].
  destruct (decide (t = aq_tenant_id r ∧ id = aq_work_item_id r)) as [[-> ->]|Hne].
  - right. split_and!; try done.
    rewrite (filter_keyed rr_budget_dimension _ (budget_row r cx new_id dim)); [simpl; lia|..].
    + apply (bool_decide_unpack _). vm_compute. done.
    + apply list_elem_of_fmap. exists dim. split; [done|apply elem_of_dims].
    + intros y Hy. apply list_elem_of_fmap in Hy as (dim' & -> & _). unfold holds.
      rewrite (bool_decide_true (rr_tenant_id _ = _)), (bool_decide_true (rr_kind _ = _)) by done.
      rewrite !andb_true_l. apply bool_decide_ext. split.
      * by intros [_ ->]%budget_key_inj.
      * by intros [= ->%database_value_inj].
  - left. rewrite filter_none; [done|]. intros y Hy. apply list_elem_of_fmap in Hy as (dim' & -> & _).
    apply not_true_iff_false. unfold holds. rewrite !andb_true_iff, !bool_decide_eq_true.
    intros [[E _] [<- _]%budget_key_inj]. by apply Hne.
Qed.

(** The sums of an admission were taken by [now], in a directory within the
    limits. *)
Definition measured (L : Limits) (now : DateTime) (_ : AdmissionReservationRequest)
    (clock : AdmissionClock) d : Prop :=
  configured L d ∧ ∀ kind key, ck_summed clock kind key ≤ now.

(** A resource that an admission asks for was checked to have room. *)
Lemma room_at now summed t kind key s s' asked limit capacity :
  tables_ok s → summed ≤ now →
  units_at now t kind key s' ≤ units_at now t kind key s + asked →
  units_at summed t kind key s + asked ≤ capacity → capacity ≤ limit →
  units_at now t kind key s' ≤ limit.
Proof.
  intros Hok Hle H1 H2 H3. pose proof (units_at_antitone summed now t kind key s Hok Hle). lia.
Qed.

Lemma admitted_within L now r clock new_id ev d s s' identities digest cx :
  measured L now r clock d → tables_ok s →
  admitted r clock new_id ev d s s' identities digest cx → within L now s → within L now s'.
Proof.
  intros [HL Hnow] Hok Ha [W1 W2 W3 W4].
  pose proof (am_capacity _ _ _ _ _ _ _ _ _ _ Ha) as Hc. unfold enforce_capacity in Hc.
  apply bind_unit_ok in Hc as [C1 Hc]. apply bind_unit_ok in Hc as [C2 Hc].
  apply bind_unit_ok in Hc as [C3 C4]. apply require_capacity_ok in C1, C2.
  apply try_for_unit in C3. apply try_for_unit in C4. rewrite Forall_forall in C3. rewrite Forall_forall in C4.
  destruct (context_limits _ _ _ _ _ _ (am_context _ _ _ _ _ _ _ _ _ _ Ha) HL) as (L1 & L2 & L3 & L4).
  pose proof (λ at_ t kind key, units_at_admitted _ _ _ _ _ _ _ _ _ _ at_ t kind key Ha Hok) as U.
  constructor.
  - intros t id at_ Hat. specialize (U at_ t "REPOSITORY_WIP" (repository_resource_key id)).
    destruct (asks_repository r identities cx new_id t id) as [E|(-> & -> & E)]; rewrite E in U.
    + specialize (W1 t id at_ Hat). lia.
    + eapply room_at; [exact Hok| |exact U|exact C1|exact L1]. etrans; [apply Hnow|done].
  - intros t id at_ Hat. specialize (U at_ t "WORKER_SLOT" (worker_resource_key id)).
    destruct (asks_worker r identities cx new_id t id) as [E|(-> & -> & E)]; rewrite E in U.
    + specialize (W2 t id at_ Hat). lia.
    + eapply room_at; [exact Hok| |exact U|exact C2|exact L2]. etrans; [apply Hnow|done].
  - intros t p at_ Hat. specialize (U at_ t "IDENTITY_CAPACITY" (identity_resource_key p)).
    pose proof (validated_identities _ _ (am_valid _ _ _ _ _ _ _ _ _ _ Ha)) as Hn.
    destruct (asks_identity r identities cx new_id t p Hn) as [E|(i & Hi & -> & -> & E)]; rewrite E in U.
    + specialize (W3 t p at_ Hat). lia.
    + specialize (C3 i Hi). apply bind_ok in C3 as (c & Hcap & C3). apply ok_or_ok in Hcap.
      apply fmap_Some in Hcap as ([c' g] & Hcap & ->). apply require_capacity_ok in C3.
      eapply room_at; [exact Hok| |exact U|exact C3|by eapply L3]. etrans; [apply Hnow|done].
  - intros t id dim at_ Hat. specialize (U at_ t "BUDGET" (budget_resource_key id dim)).
    rewrite (consumed_admitted _ _ _ _ _ _ _ _ _ _ _ _ _ Ha).
    destruct (asks_budget r identities cx new_id t id dim) as [E|(-> & -> & E)]; rewrite E in U.
    + specialize (W4 t id dim at_ Hat). lia.
    + specialize (C4 dim (elem_of_dims dim)). apply require_budget_ok in C4. specialize (L4 dim).
      pose proof (units_at_antitone (ck_summed clock "BUDGET" (budget_resource_key (aq_work_item_id r) dim))
        at_ (aq_tenant_id r) "BUDGET" (budget_resource_key (aq_work_item_id r) dim) s Hok
        ltac:(etrans; [apply Hnow|done])). lia.
Qed.

Lemma settled_within L now q target rid at_ ev s s' set f i a :
  tables_ok s → settled q target rid at_ ev s s' set f i a → within L now s → within L now s'.
Proof.
  intros Hok Hs [W1 W2 W3 W4]. constructor; intros.
  - etrans; [by eapply units_at_settled|auto].
  - etrans; [by eapply units_at_settled|auto].
  - etrans; [by eapply units_at_settled|auto].
  - rewrite (consumed_settled _ _ _ _ _ _ _ _ _ _ _ _ _ _ Hs).
    pose proof (units_at_settled _ _ _ _ _ _ _ _ _ _ _ at_0 t "BUDGET" (budget_resource_key id dim) Hs Hok).
    specialize (W4 t id dim at_0 H). lia.
Qed.

(** ** Retries *)

(** What later operations keep: the events, the reservations of a set, settled
    sets as they are and active sets until they are settled. *)
Record keeps s s' : Prop := {
  kp_events : rt_events s `prefix_of` rt_events s';
  kp_resources t id set : rt_sets s !! id = Some set →
    List.filter (of_set t id) (rt_resources s') = List.filter (of_set t id) (rt_resources s);
  kp_sets id set : rt_sets s !! id = Some set →
    rt_sets s' !! id = Some set ∨
    is_active set ∧ ∃ set', rt_sets s' !! id = Some set' ∧ ¬ is_active set'
}.

Lemma keeps_refl s : keeps s s.
Proof. constructor; [done|done|by left]. Qed.

Lemma keeps_trans a b c : keeps a b → keeps b c → keeps a c.
Proof.
  intros [A1 A2 A3] [B1 B2 B3]. constructor; [by etrans|..].
  - intros t id set H. rewrite <- (A2 _ _ _ H).
    destruct (A3 _ _ H) as [H'|(_ & x & Hx & _)]; by eapply B2.
  - intros id set H. destruct (A3 _ _ H) as [H'|(Ha & x & Hx & Hn)]; [by apply B3|].
    right. split; [done|]. destruct (B3 _ _ Hx) as [H'|(Hx' & _)]; [by eauto|done].
Qed.

Lemma change_keeps Q s s' : change Q s s' → keeps s s'.
Proof.
  intros [r clock new_id ev d a b ids dg cx _ Ha|q target rid at_ ev a b set f i at1 _ _ _ Hs].
  - pose proof (am_id _ _ _ _ _ _ _ _ _ _ Ha) as Hid. constructor.
    + rewrite (am_events _ _ _ _ _ _ _ _ _ _ Ha). by apply prefix_app_r.
    + intros t id set H. rewrite (am_resources _ _ _ _ _ _ _ _ _ _ Ha), List.filter_app.
      rewrite (filter_none _ (admission_rows _ _ _ _)); [by rewrite app_nil_r|].
      intros x Hx. apply admission_row_set in Hx as (E & _). unfold of_set.
      rewrite (bool_decide_false (_ = id)); [by rewrite andb_false_r|]. congruence.
    + intros id set H. left. rewrite (am_sets _ _ _ _ _ _ _ _ _ _ Ha), lookup_insert_ne; congruence.
  - constructor.
    + rewrite (se_events _ _ _ _ _ _ _ _ _ _ _ Hs). by apply prefix_app_r.
    + intros t id x _. by rewrite (se_resources _ _ _ _ _ _ _ _ _ _ _ Hs).
    + intros id x H. rewrite (se_sets _ _ _ _ _ _ _ _ _ _ _ Hs).
      destruct (decide (id = tq_reservation_set_id q)) as [->|Hne].
      * rewrite (se_set _ _ _ _ _ _ _ _ _ _ _ Hs) in H. injection H as <-. right.
        split; [apply (se_active _ _ _ _ _ _ _ _ _ _ _ Hs)|]. rewrite lookup_insert_eq.
        eexists. split; [done|apply terminal_not_active].
      * left. by rewrite lookup_insert_ne.
Qed.

Lemma operate_all_keeps l s : keeps s (operate_all l s).
Proof.
  assert (star (change (λ _ _ _, True)) s (operate_all l s)) as H.
  { apply operate_all_changes. apply Forall_forall. intros o _. by destruct o. }
  induction H as [|a b c _ IH Hc]; [apply keeps_refl|].
  eapply keeps_trans; [exact IH|by eapply change_keeps].
Qed.

Lemma find_prefix {A} (p : A → bool) l k x : l `prefix_of` k → find p l = Some x → find p k = Some x.
Proof.
  intros [z ->] H. induction l as [|y l IH]; [done|]. simpl in *. destruct (p y); [done|]. by apply IH.
Qed.

Lemma find_last {A} (p : A → bool) l x :
  p x = true → (∀ y, y ∈ l → p y = false) → find p (l ++ [x]) = Some x.
Proof.
  intros Hx Hl. induction l as [|y l IH]; simpl; [by rewrite Hx|].
  rewrite Hl by by left. apply IH. intros z Hz. apply Hl. by right.
Qed.

Lemma load_resources_keeps s s' t id set :
  keeps s s' → rt_sets s !! id = Some set → load_resources t id s' = load_resources t id s.
Proof. intros Hk H. unfold load_resources. by rewrite (kp_resources _ _ Hk _ _ _ H). Qed.

Lemma find_keyed_set t key id set s :
  tables_ok s → rt_sets s !! id = Some set → st_tenant_id set = t → st_idempotency_key set = key →
  load_set_by_idempotency_key t key s = Some (id, set).
Proof.
  intros Hok H Ht Hk. unfold load_set_by_idempotency_key.
  destruct (find _ _) as [[id' set']|] eqn:E.
  - apply find_some in E as [Hin Hx]. apply list_elem_of_In, elem_of_map_to_list in Hin.
    unfold keyed_set in Hx. simpl in Hx. reflect. destruct Hx as [Ht' Hk'].
    assert (id' = id) as -> by (eapply (to_keys _ Hok); [exact Hin|exact H|congruence..]). congruence.
  - apply (find_none _ _) with (x := (id, set)) in E; [|by apply list_elem_of_In, elem_of_map_to_list].
    unfold keyed_set in E. simpl in E. by rewrite !bool_decide_true in E by done.
Qed.

(** The worker session of a request is still good for a reservation. *)
Definition session_live r (now expires_at : DateTime) d : Prop :=
  ∃ session worker, dir_sessions d !! (aq_tenant_id r, aq_worker_session_id r) = Some session ∧
    wn_worker_id session = aq_worker_id r ∧
    wn_worker_generation session = aq_expected_worker_generation r ∧
    wn_status session = "ACTIVE" ∧ now < wn_expires_at session ∧ expires_at ≤ wn_expires_at session ∧
    dir_workers d !! (aq_tenant_id r, aq_worker_id r) = Some worker ∧
    wk_status worker ≠ "QUARANTINED" ∧ wk_generation worker = aq_expected_worker_generation r.

(** An adopted receipt. *)
Definition adopted (receipt : AdmissionReservationReceipt) (expires_at : DateTime)
  : AdmissionReservationReceipt :=
  {| ac_reservation_set_id := ac_reservation_set_id receipt;
     ac_disposition := AdmissionDisposition.Adopted; ac_request_digest := ac_request_digest receipt;
     ac_fence_token := ac_fence_token receipt; ac_acquired_at := ac_acquired_at receipt;
     ac_expires_at := expires_at; ac_acquisition_event_id := ac_acquisition_event_id receipt;
     ac_resources := ac_resources receipt |}.

Lemma adopt_existing r clock new_id ev d s s1 identities digest cx d' now receipt s2 :
  admitted r clock new_id ev d s s1 identities digest cx → keeps s1 s2 →
  load_resources (aq_tenant_id r) (aq_reservation_set_id r) s1 = Ok (ac_resources receipt) →
  receipt = {| ac_reservation_set_id := aq_reservation_set_id r;
               ac_disposition := AdmissionDisposition.Acquired; ac_request_digest := digest;
               ac_fence_token := 1; ac_acquired_at := ck_acquired clock;
               ac_expires_at := aq_expires_at r; ac_acquisition_event_id := ev;
               ac_resources := ac_resources receipt |} →
  now < stored_at (aq_expires_at r) → session_live r now (stored_at (aq_expires_at r)) d' →
  adopt_existing_set r digest (aq_reservation_set_id r, admitted_row r digest (ck_acquired clock)) now d' s2
  = Ok (adopted receipt (stored_at (aq_expires_at r))).
Proof.
  intros Ha Hk Hres -> Hnow (session & worker & H1 & H2 & H3 & H4 & H5 & H6 & H7 & H8 & H9).
  unfold adopt_existing_set. rewrite (proj2 (try_from_some _ _ _) (conj (am_generation _ _ _ _ _ _ _ _ _ _ Ha) eq_refl)).
  simpl. rewrite !bool_decide_true by done. simpl. rewrite (proj2 (Z.leb_gt _ _)) by lia. simpl.
  rewrite H1. simpl. rewrite H2, H7. simpl. rewrite bool_decide_true, H3, Z.eqb_refl by done. simpl.
  rewrite H4, bool_decide_true, (proj2 (Z.leb_gt _ _)), (proj2 (Z.ltb_ge _ _)), bool_decide_false,
    H9, Z.eqb_refl by done. simpl.
  rewrite (find_prefix _ (rt_events s1) _
    (mkSetEvent ev (aq_tenant_id r) (aq_reservation_set_id r) "ACQUIRED" 0 1 (aq_actor_id r)
       ACQUISITION_REASON (aq_idempotency_key r) (ck_acquired clock))); [|apply (kp_events _ _ Hk)|].
  - simpl. rewrite (load_resources_keeps s1 s2 _ _ (admitted_row r digest (ck_acquired clock)) Hk).
    + rewrite Hres. done.
    + by rewrite (am_sets _ _ _ _ _ _ _ _ _ _ Ha), lookup_insert_eq.
  - rewrite (am_events _ _ _ _ _ _ _ _ _ _ Ha). apply find_last.
    + simpl. by rewrite !bool_decide_true by done.
    + intros e He. apply not_true_iff_false. rewrite !andb_true_iff, !bool_decide_eq_true.
      intros [[[Et _] _] Ek]. by apply (am_event_key _ _ _ _ _ _ _ _ _ _ Ha e).
Qed.

Lemma transition_applied q target now at_ ev s s' receipt :
  transition_reservation_set q target now at_ ev s = Ok (s', receipt) →
  tc_disposition receipt = ReservationTransitionDisposition.Applied →
  ReservationTransitionRequest_validate q = Ok () ∧ fits i64_max (tq_expected_fence_token q) ∧
  ∃ set, settled q target None at_ ev s s' set (st_fence_token set) (st_work_item_id set) (st_attempt_id set) ∧
    (target = ReservationTerminalState.Expired → st_expires_at set ≤ now) ∧
    receipt = {| tc_reservation_set_id := tq_reservation_set_id q; tc_state := target;
                 tc_disposition := ReservationTransitionDisposition.Applied;
                 tc_previous_fence_token := tq_expected_fence_token q;
                 tc_fence_token := st_fence_token set + 1;
                 tc_actor_id := tq_actor_id q; tc_reason := tq_reason q;
                 tc_idempotency_key := tq_idempotency_key q; tc_event_id := ev; tc_occurred_at := at_ |}.
Proof.
  unfold transition_reservation_set. intros E Hd. apply bind_unit_ok in E as [Hv E].
  apply bind_ok in E as (ef & Hf & E). apply ok_or_ok, try_from_some in Hf as [Hf ->].
  apply bind_ok in E as (set & Hset & E). apply ok_or_ok in Hset.
  apply bind_Some in Hset as (set' & Hs & Hset). destruct (bool_decide (st_tenant_id set' = _)); [|done].
  injection Hset as ->. destruct (negb _).
  - apply bind_unit_ok in E as [_ E]. apply bind_ok in E as (x & Hx & [= _ <-]).
    unfold load_transition_receipt in Hx. apply bind_ok in Hx as (e & _ & Hx).
    apply bind_unit_ok in Hx as [_ Hx]. apply bind_ok in Hx as (? & _ & Hx).
    by apply bind_ok in Hx as (? & _ & [= <-]).
  - split; [done|]. split; [done|]. apply bind_unit_ok in E as [_ E]. apply bind_unit_ok in E as [He E].
    apply apply_transition_ok in E as (set' & Hs' & ->).
    pose proof (se_set _ _ _ _ _ _ _ _ _ _ _ Hs') as E. rewrite Hs in E. injection E as <-.
    exists set. split; [exact Hs'|]. split; [|done]. intros ->. apply bail_if_ok in He.
    rewrite bool_decide_true in He by done. simpl in He. by apply Z.ltb_ge in He.
Qed.

(** An adopted receipt of a transition. *)
Definition adopted_transition (receipt : ReservationTransitionReceipt) : ReservationTransitionReceipt :=
  let 'mkReservationTransitionReceipt a b _ d e f g h i j := receipt in
  mkReservationTransitionReceipt a b ReservationTransitionDisposition.Adopted d e f g h i j.

Lemma transition_again q target at_ ev s s' set s2 now2 at2 ev2 :
  tables_ok s → ReservationTransitionRequest_validate q = Ok () →
  fits i64_max (tq_expected_fence_token q) →
  settled q target None at_ ev s s' set (st_fence_token set) (st_work_item_id set) (st_attempt_id set) →
  keeps s' s2 →
  transition_reservation_set q target now2 at2 ev2 s2 = Ok (s2,
    mkReservationTransitionReceipt (tq_reservation_set_id q) target
      ReservationTransitionDisposition.Adopted (tq_expected_fence_token q) (st_fence_token set + 1)
      (tq_actor_id q) (tq_reason q) (tq_idempotency_key q) ev at_).
Proof.
  intros Hok Hv Hf Hs Hk. unfold transition_reservation_set. rewrite Hv. simpl.
  rewrite (proj2 (try_from_some _ _ _) (conj Hf eq_refl)). simpl.
  destruct (kp_sets _ _ Hk (tq_reservation_set_id q) (transitioned_row q (terminal_state_value target)
    (st_fence_token set + 1) at_ None set)) as [H2|[Ha _]];
    [by rewrite (se_sets _ _ _ _ _ _ _ _ _ _ _ Hs), lookup_insert_eq| |by destruct (terminal_not_active target)].
  rewrite H2. simpl. rewrite (bool_decide_true (_ = tq_tenant_id q))
    by apply (se_tenant _ _ _ _ _ _ _ _ _ _ _ Hs). simpl.
  rewrite (bool_decide_false (_ = "ACTIVE")) by apply terminal_not_active. simpl.
  assert (st_fence_token set = 1) as E1.
  { destruct (to_sets _ Hok _ _ (se_set _ _ _ _ _ _ _ _ _ _ _ Hs)) as [(_ & ? & _)|([?|?] & _)]; [done|..];
      pose proof (se_active _ _ _ _ _ _ _ _ _ _ _ Hs); congruence. }
  pose proof (se_fence _ _ _ _ _ _ _ _ _ _ _ Hs) as Ef. rewrite E1 in Ef.
  rewrite (bool_decide_true (_ = terminal_state_value target)) by done. rewrite <- Ef, E1. simpl.
  unfold load_transition_receipt.
  rewrite (find_prefix _ (rt_events s') _
    (mkSetEvent ev (tq_tenant_id q) (tq_reservation_set_id q) (terminal_state_value target) 1 (1 + 1)
       (tq_actor_id q) (tq_reason q) (tq_idempotency_key q) at_)); [|apply (kp_events _ _ Hk)|].
  - simpl. rewrite <- Ef, !bool_decide_true by done. done.
  - rewrite (se_events _ _ _ _ _ _ _ _ _ _ _ Hs), E1. apply find_last.
    + simpl. by rewrite !bool_decide_true by done.
    + intros e He. apply not_true_iff_false. rewrite !andb_true_iff, !bool_decide_eq_true.
      intros [Et Ek]. by apply (se_event_key _ _ _ _ _ _ _ _ _ _ _ Hs e).
Qed.


(** The admission of a set is never rewritten. *)
Lemma operate_all_identity l s id set :
  rt_sets s !! id = Some set → ∃ set', rt_sets (operate_all l s) !! id = Some set' ∧
    st_tenant_id set' = st_tenant_id set ∧ st_idempotency_key set' = st_idempotency_key set ∧
    st_request_digest set' = st_request_digest set.
Proof.
  intros H. assert (star (change (λ _ _ _, True)) s (operate_all l s)) as Hst.
  { apply operate_all_changes. apply Forall_forall. intros o _. by destruct o. }
  induction Hst as [|a b c _ IH Hc]; [by eauto|]. destruct (IH H) as (x & Hx & E). clear IH.
  destruct Hc as [r clock new_id ev d a' b' ids dg cx _ Ha|q target rid at_ ev a' b' y f i at1 _ _ _ Hs].
  - exists x. rewrite (am_sets _ _ _ _ _ _ _ _ _ _ Ha), lookup_insert_ne; [done|].
    pose proof (am_id _ _ _ _ _ _ _ _ _ _ Ha). congruence.
  - rewrite (se_sets _ _ _ _ _ _ _ _ _ _ _ Hs).
    destruct (decide (id = tq_reservation_set_id q)) as [->|Hne].
    + rewrite (se_set _ _ _ _ _ _ _ _ _ _ _ Hs) in Hx. injection Hx as ->.
      rewrite lookup_insert_eq. eauto.
    + rewrite lookup_insert_ne by done. eauto.
Qed.

(** ** Main theorems *)

(** C8. Capacity is never exceeded: whatever admissions, releases, expiries,
    sweeps, worker revocations and terminal attempts run, as long as the
    directory configures at most [L] and the sums were read by [now], from [now]
    on the reservations that count stay within the work-in-progress limit of
    every repository, the slots of every worker and the capacity of every
    identity, and consumption and reservations together within the budget of
    every work item in every dimension. *)
Theorem capacity_never_exceeded L now l s :
  tables_ok s → within L now s → Forall (admits (measured L now)) l → within L now (operate_all l s).
Proof.
  intros Hok HW Hl.
  assert (tables_ok (operate_all l s) ∧ within L now (operate_all l s)) as [_ ?]; [|done].
  eapply (star_invariant (change (measured L now)) (λ s, tables_ok s ∧ within L now s));
    [done| |by apply operate_all_changes].
  intros x y Hx Hc. revert Hx.
  destruct Hc as [r clock new_id ev d a b ids dg cx HQ Ha|q target rid at_ ev a b set f i at1 -> -> -> Hs];
    intros [Hx HWx].
  - split; [exact (admitted_ok _ _ _ _ _ _ _ _ _ _ Ha Hx)|by eapply admitted_within].
  - split; [exact (settled_ok _ _ _ _ _ _ _ _ Hs Hx)|by eapply settled_within].
Qed.

(** C9. Every set is settled at most once and its budget balances: over any
    operations a set is active at fence 1 or settled at fence 2, an attempt has
    at most one active set, a key names one set of the tenant, and each budget
    reservation has exactly one [RESERVE] entry and, exactly when its set is
    settled, exactly one [RELEASE] entry of the same amount. *)
Theorem reservations_balanced l s : tables_ok s → tables_ok (operate_all l s).
Proof. apply operate_all_ok. Qed.

(** Retries are adopted.  After an admission, whatever operations follow, the
    same request while the set is active and its worker session is good answers
    with the same set, resources, fence and event and changes nothing, and a
    request that reuses the key with another digest is a conflict.  After a
    release or an expiry the same request answers with the same event at any
    later time. *)
Lemma reservation_retries s l :
  tables_ok s →
  (∀ r clock new_id ev d s' receipt, acquire_admission_reservations r clock new_id ev d s = Ok (s', receipt) →
     ac_disposition receipt = AdmissionDisposition.Acquired →
     let s2 := operate_all l s' in
     (∀ set, rt_sets s2 !! aq_reservation_set_id r = Some set → is_active set →
        ∀ clock' new_id' ev' d', ck_adopted clock' < st_expires_at set →
        session_live r (ck_adopted clock') (st_expires_at set) d' →
        acquire_admission_reservations r clock' new_id' ev' d' s2
        = Ok (s2, adopted receipt (st_expires_at set))) ∧
     (∀ r' ids digest clock' new_id' ev' d', aq_tenant_id r' = aq_tenant_id r →
        aq_idempotency_key r' = aq_idempotency_key r → fits i64_max (aq_expected_worker_generation r') →
        AdmissionReservationRequest_validate r' = Ok ids → request_digest r' ids = Ok digest →
        digest ≠ ac_request_digest receipt →
        ∃ m, acquire_admission_reservations r' clock' new_id' ev' d' s2 = Err (Conflict m))) ∧
  (∀ q target now at_ ev s' receipt, transition_reservation_set q target now at_ ev s = Ok (s', receipt) →
     tc_disposition receipt = ReservationTransitionDisposition.Applied →
     ∀ now' at' ev', transition_reservation_set q target now' at' ev' (operate_all l s')
     = Ok (operate_all l s', adopted_transition receipt)).
Proof.
  intros Hok. split.
  - intros r clock new_id ev d s' receipt H Hd s2.
    apply acquire_cases in H as [[_ E]|[_ (ids & dg & cx & Ha & Hres & Hrc)]]; [by rewrite E in Hd|].
    pose proof (operate_all_keeps l s') as Hk. fold s2 in Hk.
    pose proof (operate_all_ok l s' (admitted_ok _ _ _ _ _ _ _ _ _ _ Ha Hok)) as Hok2. fold s2 in Hok2.
    assert (rt_sets s' !! aq_reservation_set_id r = Some (admitted_row r dg (ck_acquired clock))) as Hs'
      by by rewrite (am_sets _ _ _ _ _ _ _ _ _ _ Ha), lookup_insert_eq. split.
    + intros set Hset Hact clock' new_id' ev' d' Hnow Hlive.
      destruct (kp_sets _ _ Hk _ _ Hs') as [E|(_ & x & Hx & Hn)]; [|congruence].
      rewrite Hset in E. injection E as ->. unfold acquire_admission_reservations.
      rewrite (am_valid _ _ _ _ _ _ _ _ _ _ Ha). simpl. rewrite (am_digest _ _ _ _ _ _ _ _ _ _ Ha). simpl.
      rewrite (find_keyed_set _ _ _ _ s2 Hok2 Hset) by done.
      by rewrite (adopt_existing _ _ _ _ _ _ _ _ _ _ _ _ receipt s2 Ha Hk Hres Hrc) by done.
    + intros r' ids' digest clock' new_id' ev' d' Et Ek Hg Hv Hdg Hne.
      unfold acquire_admission_reservations. rewrite Hv. simpl. rewrite Hdg. simpl.
      destruct (operate_all_identity l s' _ _ Hs') as (set & Hset & E1 & E2 & E3). fold s2 in Hset.
      simpl in E1, E2, E3.
      rewrite (find_keyed_set _ _ _ _ s2 Hok2 Hset) by congruence. simpl.
      rewrite (proj2 (try_from_some _ _ _) (conj Hg eq_refl)). simpl.
      rewrite (bool_decide_false (st_request_digest set = digest))
        by (apply (f_equal ac_request_digest) in Hrc; simpl in Hrc; congruence).
      rewrite orb_true_r. simpl. eauto.
  - intros q target now at_ ev s' receipt H Hd now' at' ev'.
    destruct (transition_applied _ _ _ _ _ _ _ _ H Hd) as (Hv & Hf & set & Hs & _ & ->). simpl.
    eapply transition_again; try done. apply operate_all_keeps.
Qed.

(** ** Locks *)

(** Admissions of a tenant that touch the same attempt, work item, repository,
    worker or identity take a common advisory lock, so one waits for the other. *)
Lemma elem_of_dedup k l : k ∈ dedup l ↔ k ∈ l.
Proof.
  induction l as [|x [|y l] IH]; [done..|]. simpl dedup. case_bool_decide as E.
  - rewrite IH, !elem_of_cons. subst. tauto.
  - rewrite elem_of_cons, IH, !elem_of_cons. done.
Qed.

Lemma conflicting_admissions_share_lock r r' ids ids' :
  aq_tenant_id r = aq_tenant_id r' →
  aq_attempt_id r = aq_attempt_id r' ∨ aq_work_item_id r = aq_work_item_id r' ∨
  aq_repository_id r = aq_repository_id r' ∨ aq_worker_id r = aq_worker_id r' ∨
  (∃ i i', i ∈ ids ∧ i' ∈ ids' ∧ ic_profile_ref i = ic_profile_ref i') →
  ∃ k, k ∈ admission_lock_keys r ids ∧ k ∈ admission_lock_keys r' ids'.
Proof.
  intros Ht H. unfold admission_lock_keys. setoid_rewrite elem_of_dedup.
  setoid_rewrite elem_of_sort_by_key. setoid_rewrite elem_of_app. setoid_rewrite list_elem_of_fmap.
  rewrite Ht. destruct H as [E|[E|[E|[E|(i & i' & Hi & Hi' & E)]]]]; [rewrite E..|].
  - eexists; split; left; apply elem_of_cons; by left.
  - eexists; split; left; rewrite !elem_of_cons; right; by left.
  - eexists; split; left; rewrite !elem_of_cons; do 2 right; by left.
  - eexists; split; left; rewrite !elem_of_cons; do 3 right; by left.
  - eexists. split; right; [exists i|exists i']; (split; [|done]); [done|by rewrite E].
Qed.
End facts.

(** ** A tenant with two sets *)

Module Sample.
#[local] Instance columns : PgColumns :=
  {| stored_at t := t; stored_value v := v; stored_value_object v := eq_refl |}.
#[local] Instance uuids : UuidText :=
  {| uuid_to_string u := "u" +:+ pos_text (N.succ_pos u);
     uuid_to_string_visible u := blank_head "u"%char _ (conj eq_refl eq_refl) |}.

Lemma uuids_inj u v : uuid_to_string u = uuid_to_string v → u = v.
Proof.
  intros H. injection H as H. apply (f_equal text_pos) in H. rewrite !text_pos_text in H. lia.
Qed.

Lemma uuids_no_colon u : contains_char ":"%char (uuid_to_string u) = false.
Proof. change (contains_char ":" (pos_text (N.succ_pos u)) = false). by induction (N.succ_pos u). Qed.

#[local] Instance hyphenated : UuidHyphenated :=
  {| uuid_to_string_inj := uuids_inj; uuid_to_string_no_colon := uuids_no_colon |}.
#[local] Existing Instance sample_hashing.
#[local] Instance semantics : Canonical AdmissionSemantics :=
  {| to_jcs a := inr [Z.of_N (as_attempt_id a)] |}.
#[local] Instance collation : Collation := {| collation_key s := s |}.

Definition author : CtxlaneProfileRef := mkProfileRef "claude:a".
Definition reviewer : CtxlaneProfileRef := mkProfileRef "codex:b".
#[local] Instance json : AdmissionJson :=
  {| budget_limits_from_value _ := inr (mkBudgetLimits 10 10 10 10 10 10 10 10);
     identities_from_value _ := inr (mkWorkOrderIdentities author reviewer reviewer) |}.

(** Tenant 1 with two work items 2 and 12, attempts 3 and 13, one repository, one
    worker and its session. *)
Definition directory : Directory :=
  let item attempt := mkWorkItemAdmission (Some 4%N) Null Null (Some attempt) (Some 0) in
  {| dir_tenants := {[1%N := "ACTIVE"]};
     dir_work_items := {[(1%N, 2%N) := item 3%N; (1%N, 12%N) := item 13%N]};
     dir_attempts := {[(1%N, 3%N) := mkAttemptAdmission 2%N "CREATED" 1;
                       (1%N, 13%N) := mkAttemptAdmission 12%N "CREATED" 1]};
     dir_repositories := {[(1%N, 4%N) := mkRepositoryCapacity true 2 1]};
     dir_workers := {[(1%N, 5%N) := mkWorkerCapacity "READY" 2 1]};
     dir_sessions := {[(1%N, 6%N) := mkWorkerSession 5%N 1 "ACTIVE" 100]};
     dir_identities := {[(1%N, "claude:a") := mkIdentityCapacityRow 2 1 true;
                         (1%N, "codex:b") := mkIdentityCapacityRow 4 1 true]} |}.

Definition limits : Limits :=
  mkLimits (λ _ _, 2) (λ _ _, 2) (λ _ p, if bool_decide (p = author) then 2 else 4) (λ _ _ _, 10).

Definition request (set_id item attempt : Uuid) (key : string) : AdmissionReservationRequest :=
  {| aq_reservation_set_id := set_id; aq_tenant_id := 1%N; aq_work_item_id := item;
     aq_attempt_id := attempt; aq_repository_id := 4%N; aq_expected_repository_generation := 1;
     aq_worker_id := 5%N; aq_worker_session_id := 6%N; aq_expected_worker_generation := 1;
     aq_identities := [mkIdentityCapacityRequest reviewer 2 1; mkIdentityCapacityRequest author 1 1];
     aq_budget := mkBudgetReservationAmounts 7 7 7 7 7 7 7 7; aq_expires_at := 50;
     aq_actor_id := "scheduler"; aq_idempotency_key := key |}.

Definition clock : AdmissionClock := mkAdmissionClock 1 1 1 (λ _ _, 1) 1.

(** New identifiers from the text of the resource. *)
Definition ids (base : N) : NewIds :=
  λ kind key, (base + 2 * Npos (countable.encode (reservation_kind_value kind +:+ key)))%N.

Definition admit_first : operation := Admit (request 7%N 2%N 3%N "first") clock (ids 0) 70%N directory.
Definition admit_second : operation := Admit (request 8%N 12%N 13%N "second") clock (ids 1) 80%N directory.

Definition both : ReservationTables := operate_all [admit_first; admit_second] empty_tables.

Example both_admitted :
  (st_state <$> rt_sets both !! 7%N) = Some "ACTIVE" ∧ (st_state <$> rt_sets both !! 8%N) = Some "ACTIVE".
Proof. vm_compute. split; reflexivity. Qed.

Lemma directory_configured : configured limits directory.
Proof.
  constructor; simpl; intros *; rewrite ?lookup_singleton_Some, ?lookup_insert_Some.
  - intros [_ <-]. done.
  - intros [_ <-]. done.
  - intros [[[=] <-]|[_ [[=] <-]%lookup_singleton_Some]]; unfold limits; simpl.
    + rewrite bool_decide_true; [done|]. destruct p. by simplify_eq/=.
    + rewrite bool_decide_false; [done|]. intros ->. by simplify_eq/=.
  - intros _ [=<-]. by destruct dim.
Qed.

Lemma empty_within : within limits 1 empty_tables.
Proof. constructor; intros; cbn; try done. by case_bool_decide. Qed.

Lemma capacity_never_exceeded_witness :
  within limits 1 both ∧ units_at 1 1%N "IDENTITY_CAPACITY" (identity_resource_key reviewer) both = 4.
Proof.
  split; [|vm_compute; reflexivity]. apply (capacity_never_exceeded limits 1 [admit_first; admit_second] empty_tables).
  - exact empty_tables_ok.
  - exact empty_within.
  - do 2 (constructor; [split; [exact directory_configured|done]|]). constructor.
Defined.

Lemma reservations_balanced_witness : tables_ok both ∧ rt_sets both ≠ ∅.
Proof.
  split; [apply (reservations_balanced [admit_first; admit_second] empty_tables), empty_tables_ok|].
  intros E. pose proof (proj1 both_admitted) as H. rewrite E in H. discriminate H.
Defined.

Definition release (set_id : Uuid) (key : string) : ReservationTransitionRequest :=
  mkReservationTransitionRequest 1%N set_id 1 "operator" "done" key.

Lemma released_first : ∃ s receipt,
  transition_reservation_set (release 7%N "stop") ReservationTerminalState.Released 2 2 71%N both = Ok (s, receipt) ∧
  tc_disposition receipt = ReservationTransitionDisposition.Applied.
Proof. vm_compute. do 2 eexists. split; reflexivity. Qed.

Lemma first_ok : tables_ok (operate_all [admit_first] empty_tables).
Proof. apply operate_all_ok, empty_tables_ok. Qed.

Lemma second_admitted : ∃ receipt,
  acquire_admission_reservations (request 8%N 12%N 13%N "second") clock (ids 1) 80%N directory
    (operate_all [admit_first] empty_tables) = Ok (both, receipt) ∧
  ac_disposition receipt = AdmissionDisposition.Acquired.
Proof. vm_compute. eexists. split; reflexivity. Qed.

Lemma second_row : ∃ set, rt_sets both !! 8%N = Some set ∧ is_active set ∧ st_expires_at set = 50.
Proof. vm_compute. eexists. repeat split; reflexivity. Qed.

Lemma session_good : session_live (request 8%N 12%N 13%N "second") 1 50 directory.
Proof. unfold session_live. vm_compute. do 2 eexists. repeat split; try reflexivity; discriminate. Qed.

(** Set 7 is released once and set 8 admitted once, the retries change nothing. *)
Lemma reservation_retries_witness :
  (∃ s receipt,
    transition_reservation_set (release 7%N "stop") ReservationTerminalState.Released 2 2 71%N both = Ok (s, receipt) ∧
    transition_reservation_set (release 7%N "stop") ReservationTerminalState.Released 3 3 72%N s
    = Ok (s, adopted_transition receipt)) ∧
  (∃ receipt,
    acquire_admission_reservations (request 8%N 12%N 13%N "second") clock (ids 5) 81%N directory both
    = Ok (both, adopted receipt 50)).
Proof.
  destruct (reservation_retries both []) as [_ Hr]; [apply operate_all_ok, empty_tables_ok|].
  destruct (reservation_retries (operate_all [admit_first] empty_tables) [] first_ok) as [Ha _]. split.
  - destruct released_first as (s & receipt & H & Hd). exists s, receipt. split; [done|].
    apply (Hr _ _ _ _ _ _ _ H Hd).
  - destruct second_admitted as (receipt & H & Hd). exists receipt.
    destruct (Ha _ _ _ _ _ _ _ H Hd) as [Hs _]. cbv zeta in Hs.
    change (operate_all [] both) with both in Hs.
    destruct second_row as (set & Hset & Hact & E). rewrite <- E.
    apply (Hs set Hset Hact); rewrite E; [done|exact session_good].
Defined.

(** ** An occupied revocation key *)

(** The key under which the revocation of worker 5 releases set 7. *)
Definition revocation_key : string :=
  "worker-session-revocation:v1:" +:+ uuid_to_string 6%N +:+ ":" +:+ uuid_to_string 7%N +:+ ":fence:1".

(** A caller may release set 8 under that key, after which revoking the worker
    fails on the unique transition key and no reservation of it is released. *)
Example revocation_key_occupied :
  let s := operate both (Settle (release 8%N revocation_key) ReservationTerminalState.Released 2 2 82%N) in
  (st_state <$> rt_sets s !! 8%N) = Some "RELEASED" ∧
  release_active_worker_reservations 1%N 5%N "reactor" "revoked" (mkBatchStamps (λ _, 3) (λ id, 90 + id)%N) s
  = Err (Persistence [Lit "transition reservation set"]) ∧
  (∃ s' n, release_active_worker_reservations 1%N 5%N "reactor" "revoked"
             (mkBatchStamps (λ _, 3) (λ id, 90 + id)%N) both = Ok (s', n)).
Proof. vm_compute. do 2 (split; [reflexivity|]). do 2 eexists. reflexivity. Qed.
End Sample.
