(* ===== verification/SourceGateway.v ===== *)
(** The port to the system a work item comes from, [src/src/ports/source.rs], and
    its in-memory Linear gateway, [src/src/adapters/source.rs].

    [LinearFakeState] is the state behind the mutex and every method is a [call]
    on it: what a call wrote before it failed stays written, which is how a close
    is applied and its reply lost.  [SourceSnapshotId::new] is an argument of the
    close.  The promises of the port to its clients are the class
    [SourceContract]. *)

From Stdlib Require Import ZArith Lia Ascii.
From stdpp Require Import base tactics option strings pretty numbers list gmap.
From S2P Require Import Prelude RustStr RustOrd Ids Authority WorkItem Crypto Governance Evidence Outcome.

(** ** Requests and receipts *)

Definition SOURCE_GATEWAY_SCHEMA_V1 : string := "asf.source-gateway.v1".
Definition SOURCE_INTAKE_REQUEST_SCHEMA_V1 : string := "asf.source-intake-request.v1".
Definition SOURCE_INTAKE_PAGE_SCHEMA_V1 : string := "asf.source-intake-page.v1".
Definition OBSERVE_SOURCE_REQUEST_SCHEMA_V1 : string := "asf.observe-source-request.v1".
Definition SOURCE_OBSERVATION_SCHEMA_V1 : string := "asf.source-observation.v1".
Definition SOURCE_CLOSE_EFFECT_SCHEMA_V1 : string := "asf.source-close-effect.v1".
Definition CLOSE_SOURCE_REQUEST_SCHEMA_V1 : string := "asf.close-source-request.v1".
Definition SOURCE_CLOSE_RECEIPT_SCHEMA_V1 : string := "asf.source-close-receipt.v1".
Definition RECONCILE_SOURCE_CLOSE_REQUEST_SCHEMA_V1 : string :=
  "asf.reconcile-source-close-request.v1".
Definition SOURCE_CLOSE_RECONCILIATION_SCHEMA_V1 : string := "asf.source-close-reconciliation.v1".
Definition MAX_SOURCE_INTAKE_PAGE_SIZE : Z := 1000.

Module SourceGatewayError.
Inductive SourceGatewayError :=
| UnsupportedContract (detail : message)
| InvalidRequest (detail : message)
| InvalidCursor (detail : message)
| ItemNotFound
| SourceStateConflict
| IdempotencyConflict (idempotency_key existing_digest submitted_digest : string)
| AmbiguousEffect (idempotency_key effect_digest : string)
| TransportUnavailable
| ProviderRejected (code : string)
| InvalidProviderResponse
| ResponseTooLarge.
End SourceGatewayError.
Abbreviation SourceGatewayError := SourceGatewayError.SourceGatewayError.
Abbreviation SourceError := SourceGatewayError.
Abbreviation SourceResult := (outcome SourceError).

Definition invalid_request (text : string) : SourceError :=
  SourceGatewayError.InvalidRequest [Lit text].

#[global] Instance SourceSystem_eq_dec : EqDecision SourceSystem.
Proof. solve_decision. Defined.

Record SourceItemRef := mkSourceItemRef {
  si_tenant_id : TenantId;
  si_source : SourceSystem;
  si_external_id : string
}.

#[global] Instance SourceItemRef_eq_dec : EqDecision SourceItemRef.
Proof. solve_decision. Defined.

Definition SourceItemRef_validate (i : SourceItemRef) : SourceResult unit :=
  refuse_if (blank (si_external_id i)) (invalid_request "source external ID is required").

Record SourceCursor := mkSourceCursor { source_cursor_str : string }.

Definition SourceCursor_from_opaque (value : string) : SourceResult SourceCursor :=
  refuse_if (blank value)
    (SourceGatewayError.InvalidCursor [Lit "source cursor cannot be empty"]) ;;
  Success (mkSourceCursor value).

Record SourceIntakeRequest := mkSourceIntakeRequest {
  iq_schema : string;
  iq_tenant_id : TenantId;
  iq_opt_in_label : string;
  iq_after : option SourceCursor;
  iq_limit : Z
}.

Definition SourceIntakeRequest_first_page (tenant_id : TenantId) (opt_in_label : string) (limit : Z)
  : SourceIntakeRequest :=
  mkSourceIntakeRequest SOURCE_INTAKE_REQUEST_SCHEMA_V1 tenant_id opt_in_label None limit.

Definition SourceIntakeRequest_validate (r : SourceIntakeRequest) : SourceResult unit :=
  refuse_if (negb (bool_decide (iq_schema r = SOURCE_INTAKE_REQUEST_SCHEMA_V1)))
    (invalid_request "unsupported source-intake request schema") ;;
  refuse_if (blank (iq_opt_in_label r)) (invalid_request "source opt-in label is required") ;;
  refuse_if ((iq_limit r =? 0) || (MAX_SOURCE_INTAKE_PAGE_SIZE <? iq_limit r))
    (SourceGatewayError.InvalidRequest [Lit "source page limit must be within 1..=";
                                        FmtNum MAX_SOURCE_INTAKE_PAGE_SIZE]).

Record SourceIntakePage := mkSourceIntakePage {
  ip_schema : string;
  ip_snapshots : list SourceSnapshot;
  ip_next_cursor : option SourceCursor;
  ip_has_more : bool
}.

Record ObserveSourceRequest := mkObserveSourceRequest {
  oq_schema : string;
  oq_item : SourceItemRef
}.

Definition ObserveSourceRequest_new (item : SourceItemRef) : ObserveSourceRequest :=
  mkObserveSourceRequest OBSERVE_SOURCE_REQUEST_SCHEMA_V1 item.

Definition ObserveSourceRequest_validate (r : ObserveSourceRequest) : SourceResult unit :=
  refuse_if (negb (bool_decide (oq_schema r = OBSERVE_SOURCE_REQUEST_SCHEMA_V1)))
    (invalid_request "unsupported source-observation request schema") ;;
  SourceItemRef_validate (oq_item r).

Module SourceLifecycle.
Inductive SourceLifecycle := Active | Completed | Canceled | Deleted.
End SourceLifecycle.
Abbreviation SourceLifecycle := SourceLifecycle.SourceLifecycle.
#[global] Instance SourceLifecycle_eq_dec : EqDecision SourceLifecycle.
Proof. solve_decision. Defined.

Record SourceClosure := mkSourceClosure {
  sl_work_item_id : WorkItemId;
  sl_target : ClosureTarget;
  sl_pull_request : option PullRequestEvidence;
  sl_evidence_id : EvidenceId;
  sl_evidence_digest : string;
  sl_final_outcome_summary : string;
  sl_cost_microunits : option Z;
  sl_wall_time_seconds : option Z
}.

Definition SourceClosure_validate (c : SourceClosure) : SourceResult unit :=
  refuse_if (negb (production_supported_v1 (sl_target c)))
    (invalid_request "only pull-request source closure is supported in V1") ;;
  refuse_if (blank (sl_evidence_digest c) || blank (sl_final_outcome_summary c))
    (invalid_request "source closure requires evidence and a final outcome summary") ;;
  pull_request ← or_fail (sl_pull_request c)
    (invalid_request "pull-request source closure requires a pull-request reference");
  refuse_if (blank (pre_repository pull_request) || (pre_number pull_request =? 0)
             || blank (pre_url pull_request) || blank (pre_base_sha pull_request)
             || blank (pre_head_sha pull_request)
             || negb (bs_is_subset (pre_required_ci_contexts pull_request)
                        (pre_successful_ci_contexts pull_request)))
    (invalid_request
       "pull-request closure reference is incomplete or required CI is not successful").

Record SourceCloseEffect := mkSourceCloseEffect {
  sx_schema : string;
  sx_item : SourceItemRef;
  sx_expected_source_revision : string;
  sx_expected_snapshot_digest : string;
  sx_correlation_marker : string;
  sx_closure : SourceClosure
}.

#[global] Instance SourceClosure_eq_dec : EqDecision SourceClosure.
Proof. solve_decision. Defined.
#[global] Instance SourceCloseEffect_eq_dec : EqDecision SourceCloseEffect.
Proof. solve_decision. Defined.

Definition SourceCloseEffect_validate (e : SourceCloseEffect) : SourceResult unit :=
  refuse_if (negb (bool_decide (sx_schema e = SOURCE_CLOSE_EFFECT_SCHEMA_V1)))
    (invalid_request "unsupported source-close effect schema") ;;
  SourceItemRef_validate (sx_item e) ;;
  refuse_if (blank (sx_expected_source_revision e) || blank (sx_expected_snapshot_digest e)
             || blank (sx_correlation_marker e))
    (invalid_request
       "source close requires expected revision, snapshot digest, and correlation marker") ;;
  SourceClosure_validate (sx_closure e).

Definition SourceCloseEffect_new (item : SourceItemRef)
    (expected_source_revision expected_snapshot_digest correlation_marker : string)
    (closure : SourceClosure) : SourceResult SourceCloseEffect :=
  let effect := mkSourceCloseEffect SOURCE_CLOSE_EFFECT_SCHEMA_V1 item expected_source_revision
                  expected_snapshot_digest correlation_marker closure in
  SourceCloseEffect_validate effect ;; Success effect.

Record CloseSourceRequest := mkCloseSourceRequest {
  xq_schema : string;
  xq_idempotency_key : string;
  xq_effect_digest : string;
  xq_effect : SourceCloseEffect;
  xq_requested_at : DateTime
}.

Module SourceCloseDisposition.
Inductive SourceCloseDisposition := Applied | Adopted | Reconciled.
End SourceCloseDisposition.
Abbreviation SourceCloseDisposition := SourceCloseDisposition.SourceCloseDisposition.

Record SourceCloseReceipt := mkSourceCloseReceipt {
  sr_schema : string;
  sr_item : SourceItemRef;
  sr_idempotency_key : string;
  sr_effect_digest : string;
  sr_correlation_marker : string;
  sr_disposition : SourceCloseDisposition;
  sr_provider_revision : string;
  sr_recorded_at : DateTime
}.

Definition with_disposition (d : SourceCloseDisposition) (r : SourceCloseReceipt)
  : SourceCloseReceipt :=
  let 'mkSourceCloseReceipt a b c e f _ g h := r in mkSourceCloseReceipt a b c e f d g h.

Record SourceObservation := mkSourceObservation {
  so_schema : string;
  so_item : SourceItemRef;
  so_lifecycle : SourceLifecycle;
  so_current_snapshot : option SourceSnapshot;
  so_applied_closure : option SourceCloseReceipt;
  so_observed_at : DateTime
}.

Record ReconcileSourceCloseRequest := mkReconcileSourceCloseRequest {
  rq_schema : string;
  rq_item : SourceItemRef;
  rq_idempotency_key : string;
  rq_effect_digest : string;
  rq_correlation_marker : string
}.

Definition from_close (r : CloseSourceRequest) : ReconcileSourceCloseRequest :=
  mkReconcileSourceCloseRequest RECONCILE_SOURCE_CLOSE_REQUEST_SCHEMA_V1 (sx_item (xq_effect r))
    (xq_idempotency_key r) (xq_effect_digest r) (sx_correlation_marker (xq_effect r)).

Definition ReconcileSourceCloseRequest_validate (r : ReconcileSourceCloseRequest)
  : SourceResult unit :=
  refuse_if (negb (bool_decide (rq_schema r = RECONCILE_SOURCE_CLOSE_REQUEST_SCHEMA_V1)))
    (invalid_request "unsupported source-close reconciliation schema") ;;
  SourceItemRef_validate (rq_item r) ;;
  refuse_if (blank (rq_idempotency_key r) || blank (rq_effect_digest r)
             || blank (rq_correlation_marker r))
    (invalid_request "source-close reconciliation identity is incomplete").

Module SourceCloseReconciliation.
Inductive SourceCloseReconciliation := Applied (receipt : SourceCloseReceipt) | NotObserved.
End SourceCloseReconciliation.
Abbreviation SourceCloseReconciliation := SourceCloseReconciliation.SourceCloseReconciliation.

(** [trait SourceGateway]; the close draws the identifier of a new snapshot. *)
Class SourceGateway (S : Type) := {
  intake : SourceIntakeRequest → call S SourceError SourceIntakePage;
  observe_source : ObserveSourceRequest → call S SourceError SourceObservation;
  close_source : SourceSnapshotId → CloseSourceRequest → call S SourceError SourceCloseReceipt;
  reconcile_source_close :
    ReconcileSourceCloseRequest → call S SourceError SourceCloseReconciliation
}.

(** What the port promises: reads change nothing, an applied close is adopted
    when it is repeated, and a close whose outcome was ambiguous was applied and
    is found again by its identity. *)
Class SourceContract (S : Type) `{SourceGateway S} := {
  source_reads_pure (s : S) :
    (∀ r, (intake r s).1 = s) ∧ (∀ r, (observe_source r s).1 = s) ∧
    (∀ r, (reconcile_source_close r s).1 = s);
  close_adopted id r (s s' : S) receipt :
    close_source id r s = (s', Success receipt) →
    ∀ id', close_source id' r s' = (s', Success (with_disposition SourceCloseDisposition.Adopted receipt));
  ambiguous_close_recovered id r (s s' : S) key digest :
    close_source id r s = (s', Failure (SourceGatewayError.AmbiguousEffect key digest)) →
    ∃ receipt, (reconcile_source_close (from_close r) s').2
               = Success (SourceCloseReconciliation.Applied receipt) ∧
      ∀ id', close_source id' r s'
             = (s', Success (with_disposition SourceCloseDisposition.Adopted receipt));
  refused_close_atomic id r (s s' : S) e :
    close_source id r s = (s', Failure e) →
    (∃ key digest, e = SourceGatewayError.AmbiguousEffect key digest) ∨ s' = s
}.

Section digests.
  Context {hashing : Hashing} {effect_jcs : Canonical SourceCloseEffect}.

Definition SourceCloseEffect_digest (e : SourceCloseEffect) : SourceResult string :=
  SourceCloseEffect_validate e ;;
  canonical ← of_res (canonical_json e)
    (λ error, SourceGatewayError.InvalidRequest (Error_to_message error));
  Success (sha256_digest canonical).

Definition CloseSourceRequest_validate (r : CloseSourceRequest) : SourceResult unit :=
  refuse_if (negb (bool_decide (xq_schema r = CLOSE_SOURCE_REQUEST_SCHEMA_V1)))
    (invalid_request "unsupported close-source request schema") ;;
  refuse_if (blank (xq_idempotency_key r))
    (invalid_request "source-close idempotency key is required") ;;
  expected_digest ← SourceCloseEffect_digest (xq_effect r);
  refuse_if (negb (bool_decide (xq_effect_digest r = expected_digest)))
    (invalid_request "source-close effect digest mismatch").

Definition CloseSourceRequest_new (idempotency_key : string) (effect : SourceCloseEffect)
    (requested_at : DateTime) : SourceResult CloseSourceRequest :=
  effect_digest ← SourceCloseEffect_digest effect;
  let request := mkCloseSourceRequest CLOSE_SOURCE_REQUEST_SCHEMA_V1 idempotency_key effect_digest
                   effect requested_at in
  CloseSourceRequest_validate request ;; Success request.
End digests.

(** ** The in-memory Linear gateway *)

Record LinearItemRecord := mkLinearItemRecord {
  li_history : list SourceSnapshot;
  li_current : SourceSnapshot;
  li_lifecycle : SourceLifecycle;
  li_applied_closure : option SourceCloseReceipt
}.

Record CloseRecord := mkCloseRecord {
  cr_effect : SourceCloseEffect;
  cr_receipt : SourceCloseReceipt
}.

Record LinearFakeState := mkLinearFakeState {
  lf_items : gmap (TenantId * string) LinearItemRecord;
  lf_closes : gmap string CloseRecord;
  lf_key_by_marker : gmap string string;
  lf_logical_close_effects : gmap (TenantId * string) Z;
  lf_lose_next_close_response : bool
}.

(** [InMemoryLinearGateway::new]. *)
Definition LinearFakeState_default : LinearFakeState := mkLinearFakeState ∅ ∅ ∅ ∅ false.

Definition set_items m (s : LinearFakeState) : LinearFakeState :=
  let 'mkLinearFakeState _ b c d e := s in mkLinearFakeState m b c d e.
Definition set_closes m (s : LinearFakeState) : LinearFakeState :=
  let 'mkLinearFakeState a _ c d e := s in mkLinearFakeState a m c d e.
Definition set_key_by_marker m (s : LinearFakeState) : LinearFakeState :=
  let 'mkLinearFakeState a b _ d e := s in mkLinearFakeState a b m d e.
Definition set_logical_close_effects m (s : LinearFakeState) : LinearFakeState :=
  let 'mkLinearFakeState a b c _ e := s in mkLinearFakeState a b c m e.
Definition set_lose_next (v : bool) (s : LinearFakeState) : LinearFakeState :=
  let 'mkLinearFakeState a b c d _ := s in mkLinearFakeState a b c d v.

Abbreviation lcall := (call LinearFakeState SourceError).

Definition item_key (i : SourceItemRef) : TenantId * string := (si_tenant_id i, si_external_id i).

Definition snapshot_key (s : SourceSnapshot) : TenantId * string :=
  (ss_tenant_id s, sc_external_id (ss_content s)).

Definition require_linear (i : SourceItemRef) : SourceResult unit :=
  refuse_if (negb (bool_decide (si_source i = SourceSystem.Linear)))
    (invalid_request "Linear adapter accepts only Linear source items").

(** An address other than a plain web address. *)
Definition unsafe_url (url : Url) : bool :=
  negb (mem (url_scheme url) ["http"; "https"]) || is_none (url_host url)
  || negb (str_is_empty (url_username url)) || is_some (url_password url).

Fixpoint take_hexdigits (n : nat) (s : string) : string :=
  match n, s with
  | O, _ | _, EmptyString => ""
  | S n', String c s =>
      if is_ascii_hexdigit (byte_of c) then String c (take_hexdigits n' s) else take_hexdigits n s
  end.

Definition closed_revision (source_revision effect_digest : string) : string :=
  source_revision +:+ "+asf-close-" +:+ take_hexdigits 16 effect_digest.

Definition source_conflict (idempotency_key existing_digest submitted_digest : string)
  : SourceError :=
  SourceGatewayError.IdempotencyConflict idempotency_key existing_digest submitted_digest.

Section gateway.
  Context {hashing : Hashing} {uuids : UuidText}.
  Context {content_jcs : Canonical SourceSnapshotContent} {effect_jcs : Canonical SourceCloseEffect}.

Definition validate_linear_snapshot (s : SourceSnapshot) : SourceResult unit :=
  of_res (SourceSnapshotContent_validate (ss_content s))
    (λ _, invalid_request "normalized source snapshot is invalid") ;;
  let unsafe := invalid_request "snapshot is not a safe normalized Linear snapshot" in
  refuse_if (negb (bool_decide (sc_source (ss_content s) = SourceSystem.Linear))
             || blank (ss_connector_identity s)) unsafe ;;
  digest ← of_res (SourceSnapshotContent_digest (ss_content s))
    (λ _, invalid_request "source snapshot digest cannot be computed");
  refuse_if (negb (bool_decide (digest = ss_content_digest s))
             || match sc_source_url (ss_content s) with
                | Some url => unsafe_url url
                | None => false
                end) unsafe.

Definition upsert_snapshot (snapshot : SourceSnapshot) : lcall unit :=
  pure_call (validate_linear_snapshot snapshot) ;;
  let key := snapshot_key snapshot in
  items ← gets lf_items;
  match items !! key with
  | None =>
      modify (set_items (<[key := mkLinearItemRecord [] snapshot SourceLifecycle.Active None]> items))
  | Some record =>
      if bool_decide (sc_source_revision (ss_content (li_current record))
                      = sc_source_revision (ss_content snapshot))
      then pure_call (refuse_if (negb (bool_decide (ss_content_digest (li_current record)
                                                    = ss_content_digest snapshot)))
                        SourceGatewayError.SourceStateConflict)
      else
        pure_call (refuse_if (is_some (li_applied_closure record))
                     SourceGatewayError.SourceStateConflict) ;;
        modify (set_items (<[key := mkLinearItemRecord (li_history record ++ [li_current record])
                                      snapshot SourceLifecycle.Active (li_applied_closure record)]> items))
  end.

Definition lose_next_close_response : lcall unit := modify (set_lose_next true).

Definition logical_close_effect_count (item : SourceItemRef) (s : LinearFakeState) : Z :=
  default 0 (lf_logical_close_effects s !! item_key item).

Definition snapshot_history (item : SourceItemRef) (s : LinearFakeState) : list SourceSnapshot :=
  match lf_items s !! item_key item with
  | Some record => li_history record ++ [li_current record]
  | None => []
  end.

(** ** Intake *)

Definition source_cursor_prefix (tenant_id : TenantId) : string :=
  "linear:v1:" +:+ uuid_to_string tenant_id +:+ ":".

Definition source_cursor (tenant_id : TenantId) (offset : nat) : SourceResult SourceCursor :=
  SourceCursor_from_opaque (source_cursor_prefix tenant_id +:+ pretty (N.of_nat offset)).

Definition parse_intake_cursor (cursor : SourceCursor) (tenant_id : TenantId) (item_count : nat)
  : SourceResult nat :=
  rest ← or_fail (strip_prefix (source_cursor_prefix tenant_id) (source_cursor_str cursor))
    (SourceGatewayError.InvalidCursor [Lit "cursor belongs to another tenant or connector"]);
  offset ← or_fail (parse_unsigned u64_max rest)
    (SourceGatewayError.InvalidCursor [Lit "cursor position is malformed"]);
  refuse_if (Z.of_nat item_count <? offset)
    (SourceGatewayError.InvalidCursor
       [Lit "cursor is ahead of the current normalized result set"]) ;;
  Success (Z.to_nat offset).

(** An open item of the tenant with the label. *)
Definition opted_in (tenant_id : TenantId) (opt_in_label : string)
    (p : TenantId * string * LinearItemRecord) : bool :=
  bool_decide (p.1.1 = tenant_id) && bool_decide (li_lifecycle p.2 = SourceLifecycle.Active)
  && bs_contains opt_in_label (sc_labels (ss_content (li_current p.2))).

(** The items in the order of the tree map. *)
Definition intake_snapshots (tenant_id : TenantId) (opt_in_label : string) (s : LinearFakeState)
  : list SourceSnapshot :=
  (λ p, li_current p.2)
    <$> List.filter (opted_in tenant_id opt_in_label) (sort_by_key fst (map_to_list (lf_items s))).

Definition linear_intake (r : SourceIntakeRequest) : lcall SourceIntakePage :=
  pure_call (SourceIntakeRequest_validate r) ;;
  snapshots ← gets (intake_snapshots (iq_tenant_id r) (iq_opt_in_label r));
  offset ← pure_call (match iq_after r with
    | None => Success 0%nat
    | Some cursor => parse_intake_cursor cursor (iq_tenant_id r) (length snapshots)
    end);
  let limit := Z.to_nat (iq_limit r) in
  let end_ := Nat.min (offset + limit) (length snapshots) in
  let has_more := (end_ <? length snapshots)%nat in
  next_cursor ← pure_call (if has_more
    then cursor ← source_cursor (iq_tenant_id r) end_; Success (Some cursor)
    else Success None);
  mret (mkSourceIntakePage SOURCE_INTAKE_PAGE_SCHEMA_V1
          (take (end_ - offset) (drop offset snapshots)) next_cursor has_more).

Definition linear_observe_source (r : ObserveSourceRequest) : lcall SourceObservation :=
  pure_call (ObserveSourceRequest_validate r) ;;
  pure_call (require_linear (oq_item r)) ;;
  items ← gets lf_items;
  record ← pure_call (or_fail (items !! item_key (oq_item r)) SourceGatewayError.ItemNotFound);
  mret {| so_schema := SOURCE_OBSERVATION_SCHEMA_V1; so_item := oq_item r;
          so_lifecycle := li_lifecycle record; so_current_snapshot := Some (li_current record);
          so_applied_closure := li_applied_closure record;
          so_observed_at := match li_applied_closure record with
                            | Some closure => sr_recorded_at closure
                            | None => ss_captured_at (li_current record)
                            end |}.

(** ** Closing *)

(** The content of the item once it is closed. *)
Definition closed_content (provider_revision : string) (requested_at : DateTime)
    (c : SourceSnapshotContent) : SourceSnapshotContent :=
  let 'mkSourceSnapshotContent a b _ d e f g h i j _ l m _ := c in
  mkSourceSnapshotContent a b provider_revision d e f g h i j "completed" l m requested_at.

(** The idempotency record of an earlier close under the same key. *)
Definition adopt_close (r : CloseSourceRequest) (existing : CloseRecord)
  : SourceResult SourceCloseReceipt :=
  refuse_if (negb (bool_decide (sr_effect_digest (cr_receipt existing) = xq_effect_digest r)))
    (source_conflict (xq_idempotency_key r) (sr_effect_digest (cr_receipt existing))
       (xq_effect_digest r)) ;;
  refuse_if (negb (bool_decide (cr_effect existing = xq_effect r)))
    SourceGatewayError.SourceStateConflict ;;
  Success (with_disposition SourceCloseDisposition.Adopted (cr_receipt existing)).

Definition count_close (key : TenantId * string) : lcall unit :=
  counts ← gets lf_logical_close_effects;
  match counts !! key with
  | None => modify (set_logical_close_effects (<[key := 1]> counts))
  | Some count =>
      match checked_add u64_max count 1 with
      | Some count => modify (set_logical_close_effects (<[key := count]> counts))
      | None => pure_call Crash
      end
  end.

(** The close of an item that is still as the effect expects it. *)
Definition apply_close (id : SourceSnapshotId) (r : CloseSourceRequest) : lcall SourceCloseReceipt :=
  let effect := xq_effect r in
  let key := item_key (sx_item effect) in
  items ← gets lf_items;
  record ← pure_call (or_fail (items !! key) SourceGatewayError.ItemNotFound);
  let current := li_current record in
  pure_call (refuse_if
    (negb (bool_decide (li_lifecycle record = SourceLifecycle.Active))
     || negb (bool_decide (sc_source_revision (ss_content current)
                           = sx_expected_source_revision effect))
     || negb (bool_decide (ss_content_digest current = sx_expected_snapshot_digest effect)))
    SourceGatewayError.SourceStateConflict) ;;
  let provider_revision :=
    closed_revision (sc_source_revision (ss_content current)) (xq_effect_digest r) in
  closed_snapshot ← pure_call (of_res
    (SourceSnapshot_create id (ss_tenant_id current) (ss_repository_id current)
       (closed_content provider_revision (xq_requested_at r) (ss_content current))
       (ss_connector_identity current) (xq_requested_at r))
    (λ _, invalid_request "normalized closed source snapshot could not be constructed"));
  let receipt :=
    {| sr_schema := SOURCE_CLOSE_RECEIPT_SCHEMA_V1; sr_item := sx_item effect;
       sr_idempotency_key := xq_idempotency_key r; sr_effect_digest := xq_effect_digest r;
       sr_correlation_marker := sx_correlation_marker effect;
       sr_disposition := SourceCloseDisposition.Applied;
       sr_provider_revision := provider_revision; sr_recorded_at := xq_requested_at r |} in
  modify (set_items (<[key := mkLinearItemRecord (li_history record ++ [current]) closed_snapshot
                                SourceLifecycle.Completed (Some receipt)]> items)) ;;
  count_close key ;;
  modify (λ s, set_key_by_marker
    (<[sx_correlation_marker effect := xq_idempotency_key r]> (lf_key_by_marker s)) s) ;;
  modify (λ s, set_closes
    (<[xq_idempotency_key r := mkCloseRecord effect receipt]> (lf_closes s)) s) ;;
  lost ← gets lf_lose_next_close_response;
  if (lost : bool) then
    modify (set_lose_next false) ;;
    pure_call (Failure (SourceGatewayError.AmbiguousEffect (xq_idempotency_key r) (xq_effect_digest r)))
  else mret receipt.

Definition linear_close_source (id : SourceSnapshotId) (r : CloseSourceRequest)
  : lcall SourceCloseReceipt :=
  pure_call (CloseSourceRequest_validate r) ;;
  pure_call (require_linear (sx_item (xq_effect r))) ;;
  closes ← gets lf_closes;
  match closes !! xq_idempotency_key r with
  | Some existing => pure_call (adopt_close r existing)
  | None =>
      markers ← gets lf_key_by_marker;
      match markers !! sx_correlation_marker (xq_effect r) with
      | Some existing_key =>
          pure_call (Failure (source_conflict (xq_idempotency_key r)
            (match closes !! existing_key with
             | Some record => sr_effect_digest (cr_receipt record)
             | None => "unknown"
             end) (xq_effect_digest r)))
      | None => apply_close id r
      end
  end.

Definition linear_reconcile_source_close (r : ReconcileSourceCloseRequest)
  : lcall SourceCloseReconciliation :=
  pure_call (ReconcileSourceCloseRequest_validate r) ;;
  pure_call (require_linear (rq_item r)) ;;
  s ← gets id;
  pure_call (match lf_closes s !! rq_idempotency_key r with
    | None =>
        refuse_if (is_some (lf_key_by_marker s !! rq_correlation_marker r))
          SourceGatewayError.SourceStateConflict ;;
        Success SourceCloseReconciliation.NotObserved
    | Some existing =>
        let receipt := cr_receipt existing in
        refuse_if (negb (bool_decide (sr_item receipt = rq_item r))
                   || negb (bool_decide (sr_effect_digest receipt = rq_effect_digest r))
                   || negb (bool_decide (sr_correlation_marker receipt = rq_correlation_marker r)))
          (source_conflict (rq_idempotency_key r) (sr_effect_digest receipt) (rq_effect_digest r)) ;;
        Success (SourceCloseReconciliation.Applied
          (with_disposition SourceCloseDisposition.Reconciled receipt))
    end).

#[global] Instance linear_gateway : SourceGateway LinearFakeState :=
  {| intake := linear_intake; observe_source := linear_observe_source;
     close_source := linear_close_source; reconcile_source_close := linear_reconcile_source_close |}.
End gateway.
