(* ===== verification/SourceFacts.v ===== *)
(** Facts about the source gateway of [SourceGateway.v]: the in-memory Linear
    gateway keeps its promises to the clients of the port, an item is closed at
    most once and stays closed, an applied close is found again whatever happens
    after it, and intake delivers every opted-in item once. *)

From Stdlib Require Import ZArith Lia Ascii Sorted.
From stdpp Require Import base tactics option strings pretty numbers list gmap.
From S2P Require Import Prelude RustStr RustOrd Ids Authority WorkItem Crypto Governance Evidence Outcome SourceGateway.

Section facts.
  Context {hashing : Hashing} {uuids : UuidText}.
  Context {content_jcs : Canonical SourceSnapshotContent} {effect_jcs : Canonical SourceCloseEffect}.

Implicit Types (s : LinearFakeState) (r : CloseSourceRequest).

(** ** One close *)

(** The receipt of a close that is applied. *)
Definition applied_receipt r (revision : string) : SourceCloseReceipt :=
  {| sr_schema := SOURCE_CLOSE_RECEIPT_SCHEMA_V1; sr_item := sx_item (xq_effect r);
     sr_idempotency_key := xq_idempotency_key r; sr_effect_digest := xq_effect_digest r;
     sr_correlation_marker := sx_correlation_marker (xq_effect r);
     sr_disposition := SourceCloseDisposition.Applied;
     sr_provider_revision := closed_revision revision (xq_effect_digest r);
     sr_recorded_at := xq_requested_at r |}.

(** A close that changes the provider. *)
Record applies (id : SourceSnapshotId) r s s' (record : LinearItemRecord) (snapshot : SourceSnapshot)
  : Prop := {
  ap_valid : CloseSourceRequest_validate r = Success tt;
  ap_linear : require_linear (sx_item (xq_effect r)) = Success tt;
  ap_key_fresh : lf_closes s !! xq_idempotency_key r = None;
  ap_marker_fresh : lf_key_by_marker s !! sx_correlation_marker (xq_effect r) = None;
  ap_record : lf_items s !! item_key (sx_item (xq_effect r)) = Some record;
  ap_active : li_lifecycle record = SourceLifecycle.Active;
  ap_revision : sc_source_revision (ss_content (li_current record))
                = sx_expected_source_revision (xq_effect r);
  ap_digest : ss_content_digest (li_current record) = sx_expected_snapshot_digest (xq_effect r);
  ap_snapshot : SourceSnapshot_create id (ss_tenant_id (li_current record))
      (ss_repository_id (li_current record))
      (closed_content (closed_revision (sx_expected_source_revision (xq_effect r)) (xq_effect_digest r))
         (xq_requested_at r) (ss_content (li_current record)))
      (ss_connector_identity (li_current record)) (xq_requested_at r) = Ok snapshot;
  ap_items : lf_items s' = <[item_key (sx_item (xq_effect r)) :=
      mkLinearItemRecord (li_history record ++ [li_current record]) snapshot SourceLifecycle.Completed
        (Some (applied_receipt r (sx_expected_source_revision (xq_effect r))))]> (lf_items s);
  ap_count : ∃ count, lf_logical_close_effects s'
      = <[item_key (sx_item (xq_effect r)) := count]> (lf_logical_close_effects s) ∧
      count = match lf_logical_close_effects s !! item_key (sx_item (xq_effect r)) with
              | Some n => n + 1 | None => 1 end;
  ap_markers : lf_key_by_marker s'
      = <[sx_correlation_marker (xq_effect r) := xq_idempotency_key r]> (lf_key_by_marker s);
  ap_closes : lf_closes s' = <[xq_idempotency_key r :=
      mkCloseRecord (xq_effect r) (applied_receipt r (sx_expected_source_revision (xq_effect r)))]>
      (lf_closes s)
}.

Lemma call_pure {S E A B} (m : outcome E A) (f : A → call S E B) (s : S) :
  (pure_call m ≫= f) s = match m with
                         | Success a => f a s | Failure e => (s, Failure e) | Crash => (s, Crash)
                         end.
Proof. by destruct m. Qed.

Lemma create_not_panic id t repository content connector at_ :
  SourceSnapshot_create id t repository content connector at_ ≠ Panic.
Proof.
  unfold SourceSnapshot_create, SourceSnapshotContent_validate, SourceSnapshotContent_digest.
  destruct (to_jcs content);
    repeat first [apply bail_if_not_panic|apply bind_not_panic; [|intros ??]|done].
Qed.

(** A result that is no crash and no ambiguous effect. *)
Definition plain {A} (m : SourceResult A) : Prop :=
  match m with
  | Success _ => True
  | Failure e => ∀ k d, e ≠ SourceGatewayError.AmbiguousEffect k d
  | Crash => False
  end.

Lemma plain_bind {A B} (m : SourceResult A) (f : A → SourceResult B) :
  plain m → (∀ a, plain (f a)) → plain (m ≫= f).
Proof. destruct m; simpl; auto. Qed.

Lemma plain_refuse b e : plain (Failure (A := ()) e) → plain (refuse_if b e).
Proof. by destruct b. Qed.

Lemma plain_or_fail {A} (x : option A) e : plain (Failure (A := ()) e) → plain (or_fail x e).
Proof. by destruct x. Qed.

Lemma plain_effect e : plain (SourceCloseEffect_validate e).
Proof.
  repeat first [apply plain_bind; [|intros ?]|by apply plain_refuse|by apply plain_or_fail].
Qed.

Lemma plain_close r : plain (CloseSourceRequest_validate r).
Proof.
  repeat first [apply plain_effect|by apply plain_refuse|apply plain_bind; [|intros ?]].
  all: try done. unfold canonical_json. by destruct (to_jcs (xq_effect r)).
Qed.

(** A close adopts an earlier one, is refused with nothing changed, is applied,
    or overflows the counter. *)
Lemma apply_close_cases id r s s' o :
  CloseSourceRequest_validate r = Success tt → require_linear (sx_item (xq_effect r)) = Success tt →
  lf_closes s !! xq_idempotency_key r = None →
  lf_key_by_marker s !! sx_correlation_marker (xq_effect r) = None →
  apply_close id r s = (s', o) →
  (s' = s ∧ ∃ e, o = Failure e ∧ ∀ k d, e ≠ SourceGatewayError.AmbiguousEffect k d) ∨
  (o = Crash ∧ ∃ n, lf_logical_close_effects s !! item_key (sx_item (xq_effect r)) = Some n ∧
     checked_add u64_max n 1 = None) ∨
  ∃ record snapshot, applies id r s s' record snapshot ∧
    o = if lf_lose_next_close_response s
        then Failure (SourceGatewayError.AmbiguousEffect (xq_idempotency_key r) (xq_effect_digest r))
        else Success (applied_receipt r (sx_expected_source_revision (xq_effect r))).
Proof.
  intros Hv Hl Hk Hm. unfold apply_close. destruct s as [items closes markers counts lost].
  simpl in Hk, Hm |- *. unfold mbind, call_bind, gets, pure_call, modify. simpl.
  destruct (items !! item_key (sx_item (xq_effect r))) as [record|] eqn:Hr; simpl; [|naive_solver].
  destruct (bool_decide (li_lifecycle record = SourceLifecycle.Active)) eqn:E1; simpl; [|naive_solver].
  destruct (bool_decide (sc_source_revision _ = _)) eqn:E2; simpl; [|naive_solver].
  destruct (bool_decide (ss_content_digest _ = _)) eqn:E3; simpl; [|naive_solver].
  apply bool_decide_eq_true in E1, E2, E3. rewrite E2.
  destruct (SourceSnapshot_create _ _ _ _ _ _) as [snapshot| |] eqn:Hc; simpl;
    [|naive_solver|by apply create_not_panic in Hc].
  unfold count_close, mbind, call_bind, gets, modify, pure_call. simpl.
  destruct (counts !! item_key (sx_item (xq_effect r))) as [n|] eqn:Hn; simpl.
  - destruct (checked_add u64_max n 1) as [n'|] eqn:Ha; simpl; [|intros [= <- <-]; right; left; eauto].
    apply checked_add_some in Ha as [_ ->].
    destruct lost; simpl; intros [= <- <-]; right; right; exists record, snapshot;
      (split; [|done]); split; simpl; try done; eexists; rewrite Hn; done.
  - destruct lost; simpl; intros [= <- <-]; right; right; exists record, snapshot;
      (split; [|done]); split; simpl; try done; eexists; rewrite Hn; done.
Qed.

Lemma close_cases id r s s' o :
  linear_close_source id r s = (s', o) →
  (s' = s ∧ ∃ e, o = Failure e ∧ ∀ k d, e ≠ SourceGatewayError.AmbiguousEffect k d) ∨
  (s' = s ∧ CloseSourceRequest_validate r = Success tt ∧
     require_linear (sx_item (xq_effect r)) = Success tt ∧
     ∃ receipt, lf_closes s !! xq_idempotency_key r = Some (mkCloseRecord (xq_effect r) receipt) ∧
       sr_effect_digest receipt = xq_effect_digest r ∧
       o = Success (with_disposition SourceCloseDisposition.Adopted receipt)) ∨
  (o = Crash ∧ ∃ n, lf_logical_close_effects s !! item_key (sx_item (xq_effect r)) = Some n ∧
     checked_add u64_max n 1 = None) ∨
  ∃ record snapshot, applies id r s s' record snapshot ∧
    o = if lf_lose_next_close_response s
        then Failure (SourceGatewayError.AmbiguousEffect (xq_idempotency_key r) (xq_effect_digest r))
        else Success (applied_receipt r (sx_expected_source_revision (xq_effect r))).
Proof.
  unfold linear_close_source. rewrite call_pure. pose proof (plain_close r) as Hp.
  destruct (CloseSourceRequest_validate r) as [[]|e|] eqn:Hv; simpl in Hp; [|intros [= <- <-]; left; eauto|done].
  rewrite call_pure. assert (plain (require_linear (sx_item (xq_effect r)))) as Hq by by apply plain_refuse.
  destruct (require_linear _) as [[]|e|] eqn:Hl; simpl in Hq; [|intros [= <- <-]; left; eauto|done]. clear Hp Hq.
  unfold mbind at 1, call_bind at 1, gets at 1. simpl.
  destruct (lf_closes s !! xq_idempotency_key r) as [[effect receipt]|] eqn:Hk; simpl.
  - unfold adopt_close, pure_call. simpl.
    destruct (bool_decide (sr_effect_digest _ = _)) eqn:E1; simpl; [|intros [= <- <-]; left; eauto].
    destruct (bool_decide (effect = _)) eqn:E2; simpl; [|intros [= <- <-]; left; eauto].
    apply bool_decide_eq_true in E1, E2. subst effect. intros [= <- <-]. right. left. do 3 (split; [done|]). eauto.
  - unfold mbind at 1, call_bind at 1, gets at 1. simpl.
    destruct (lf_key_by_marker s !! _) as [key|] eqn:Hm; simpl; [intros [= <- <-]; left; eauto|].
    intros H. destruct (apply_close_cases _ _ _ _ _ Hv Hl Hk Hm H) as [?|[?|?]]; eauto.
Qed.

(** ** The promises of the port *)

Lemma close_valid r : CloseSourceRequest_validate r = Success tt →
  xq_schema r = CLOSE_SOURCE_REQUEST_SCHEMA_V1 ∧ blank (xq_idempotency_key r) = false ∧
  SourceCloseEffect_digest (xq_effect r) = Success (xq_effect_digest r).
Proof.
  unfold CloseSourceRequest_validate. rewrite !obind_unit_success, !refuse_if_success, !negb_false_iff,
    bool_decide_eq_true. intros (? & ? & (digest & Hd & He)%obind_success).
  rewrite refuse_if_success, negb_false_iff, bool_decide_eq_true in He. by subst.
Qed.

Lemma effect_digest_valid e digest : SourceCloseEffect_digest e = Success digest →
  SourceCloseEffect_validate e = Success tt ∧ blank digest = false.
Proof.
  unfold SourceCloseEffect_digest. rewrite obind_unit_success.
  intros (Hv & (bytes & _ & [= <-])%obind_success). split; [done|by apply blank_head].
Qed.

(** The reconciliation request of a valid close is valid. *)
Lemma from_close_valid r : CloseSourceRequest_validate r = Success tt →
  ReconcileSourceCloseRequest_validate (from_close r) = Success tt.
Proof.
  intros (_ & Hk & Hd)%close_valid. apply effect_digest_valid in Hd as [Hv Hb].
  unfold SourceCloseEffect_validate in Hv.
  rewrite !obind_unit_success, !refuse_if_success, !orb_false_iff in Hv.
  destruct Hv as (_ & Hi & (_ & Hm) & _). unfold ReconcileSourceCloseRequest_validate. simpl.
  rewrite Hi. simpl. by rewrite Hk, Hb, Hm.
Qed.

(** A stored close is adopted by the request that made it and found by its
    reconciliation. *)
Lemma stored_close_adopted id r s receipt :
  CloseSourceRequest_validate r = Success tt → require_linear (sx_item (xq_effect r)) = Success tt →
  lf_closes s !! xq_idempotency_key r = Some (mkCloseRecord (xq_effect r) receipt) →
  sr_effect_digest receipt = xq_effect_digest r →
  linear_close_source id r s = (s, Success (with_disposition SourceCloseDisposition.Adopted receipt)).
Proof.
  intros Hv Hl Hk Hd. unfold linear_close_source. rewrite call_pure, Hv, call_pure, Hl.
  unfold mbind at 1, call_bind at 1, gets at 1. simpl. rewrite Hk. unfold adopt_close, pure_call. simpl.
  by rewrite Hd, !bool_decide_true.
Qed.

Lemma stored_close_found r s receipt :
  CloseSourceRequest_validate r = Success tt → require_linear (sx_item (xq_effect r)) = Success tt →
  lf_closes s !! xq_idempotency_key r = Some (mkCloseRecord (xq_effect r) receipt) →
  sr_item receipt = sx_item (xq_effect r) → sr_effect_digest receipt = xq_effect_digest r →
  sr_correlation_marker receipt = sx_correlation_marker (xq_effect r) →
  linear_reconcile_source_close (from_close r) s
  = (s, Success (SourceCloseReconciliation.Applied
                   (with_disposition SourceCloseDisposition.Reconciled receipt))).
Proof.
  intros Hv Hl Hk Hi Hd Hm. unfold linear_reconcile_source_close.
  rewrite call_pure, (from_close_valid r Hv), call_pure. simpl. rewrite Hl.
  unfold mbind, call_bind, gets, pure_call. simpl. rewrite Hk. simpl.
  by rewrite Hi, Hd, Hm, !bool_decide_true.
Qed.

(** Intake, observation and reconciliation only read. *)
Lemma reads_intake q : reads_only (linear_intake q).
Proof. unfold linear_intake. reads. Qed.

Lemma reads_observe q : reads_only (linear_observe_source q).
Proof. unfold linear_observe_source. reads. Qed.

Lemma reads_reconcile q : reads_only (linear_reconcile_source_close q).
Proof. unfold linear_reconcile_source_close. reads. Qed.

#[global] Instance linear_contract : SourceContract LinearFakeState.
Proof.
  split.
  - intros s. split; [|split]; intros r; simpl.
    + apply reads_intake.
    + apply reads_observe.
    + apply reads_reconcile.
  - intros id r s s' receipt [[_ (e & ? & _)]|[(-> & Hv & Hl & x & Hk & Hd & [= ->])|[[? _]|(record & snap & Ha & Ho)]]]%close_cases id';
      [done| |done|]; simpl.
    + by rewrite (stored_close_adopted _ _ _ _ Hv Hl Hk Hd); destruct x.
    + destruct (lf_lose_next_close_response s); [done|]. injection Ho as ->.
      rewrite (stored_close_adopted _ _ _ (applied_receipt r (sx_expected_source_revision (xq_effect r))));
        [done|apply Ha|apply Ha| |done].
      by rewrite (ap_closes _ _ _ _ _ _ Ha), lookup_insert_eq.
  - intros id r s s' key digest [[_ (e & [= <-] & He)]|[(_ & _ & _ & x & _ & _ & ?)|[[? _]|(record & snap & Ha & Ho)]]]%close_cases;
      [by destruct (He key digest)|done|done|]; simpl.
    assert (lf_closes s' !! xq_idempotency_key r = Some (mkCloseRecord (xq_effect r)
      (applied_receipt r (sx_expected_source_revision (xq_effect r))))) as Hk
      by by rewrite (ap_closes _ _ _ _ _ _ Ha), lookup_insert_eq.
    eexists. split; [rewrite (stored_close_found _ _ _ (ap_valid _ _ _ _ _ _ Ha) (ap_linear _ _ _ _ _ _ Ha) Hk) by done; done|].
    intros id'. by rewrite (stored_close_adopted _ _ _ _ (ap_valid _ _ _ _ _ _ Ha) (ap_linear _ _ _ _ _ _ Ha) Hk).
  - intros id r s s' e [[-> _]|[(_ & _ & _ & x & _ & _ & ?)|[[? _]|(record & snap & Ha & Ho)]]]%close_cases;
      [by right|done|done|].
    left. destruct (lf_lose_next_close_response s); [|done]. injection Ho as ->. eauto.
Qed.

(** ** Sequences of calls *)

(** The calls that may change the state. *)
Inductive source_call :=
| Upsert (snapshot : SourceSnapshot)
| LoseReply
| Close (id : SourceSnapshotId) (r : CloseSourceRequest).

Definition perform s (c : source_call) : LinearFakeState :=
  match c with
  | Upsert snapshot => (upsert_snapshot snapshot s).1
  | LoseReply => (lose_next_close_response s).1
  | Close id r => (close_source id r s).1
  end.

Definition perform_all (l : list source_call) s : LinearFakeState := foldl perform s l.

(** What holds of one item: its snapshots are safe Linear snapshots of the item,
    and it is open, or closed by the close that its receipt names. *)
Record item_ok s (key : TenantId * string) (record : LinearItemRecord) : Prop := {
  io_snapshots : Forall (λ x, validate_linear_snapshot x = Success tt ∧ snapshot_key x = key)
                   (li_history record ++ [li_current record]);
  io_closure : match li_applied_closure record with
    | None => li_lifecycle record = SourceLifecycle.Active ∧ lf_logical_close_effects s !! key = None
    | Some receipt =>
        li_lifecycle record = SourceLifecycle.Completed ∧ lf_logical_close_effects s !! key = Some 1 ∧
        sc_source_revision (ss_content (li_current record)) = sr_provider_revision receipt ∧
        ∃ effect, lf_closes s !! sr_idempotency_key receipt = Some (mkCloseRecord effect receipt) ∧
          item_key (sx_item effect) = key
    end
}.

(** What holds of one idempotency record. *)
Record close_ok s (key : string) (c : CloseRecord) : Prop := {
  co_key : sr_idempotency_key (cr_receipt c) = key;
  co_item : sr_item (cr_receipt c) = sx_item (cr_effect c);
  co_digest : SourceCloseEffect_digest (cr_effect c) = Success (sr_effect_digest (cr_receipt c));
  co_marker : sr_correlation_marker (cr_receipt c) = sx_correlation_marker (cr_effect c);
  co_found : lf_key_by_marker s !! sx_correlation_marker (cr_effect c) = Some key;
  co_applied : ∃ record, lf_items s !! item_key (sx_item (cr_effect c)) = Some record ∧
    li_applied_closure record = Some (cr_receipt c)
}.

Record linear_ok s : Prop := {
  lo_items key record : lf_items s !! key = Some record → item_ok s key record;
  lo_closes key c : lf_closes s !! key = Some c → close_ok s key c;
  lo_markers marker key : lf_key_by_marker s !! marker = Some key → ∃ c,
    lf_closes s !! key = Some c ∧ sx_correlation_marker (cr_effect c) = marker;
  lo_counts key : lf_items s !! key = None → lf_logical_close_effects s !! key = None
}.

Lemma default_ok : linear_ok LinearFakeState_default.
Proof. split; simpl; intros *; rewrite ?lookup_empty; done. Qed.

(** Nothing that is closed changes. *)
Record stays s s' : Prop := {
  sy_closes key c : lf_closes s !! key = Some c → lf_closes s' !! key = Some c;
  sy_items key record : lf_items s !! key = Some record → is_Some (li_applied_closure record) →
    lf_items s' !! key = Some record
}.

#[local] Instance stays_preorder : PreOrder stays.
Proof. split; [by split|]. intros x y z [] []; split; eauto. Qed.

(** The snapshot of a closed item is as safe as the one it replaces. *)
Lemma closed_snapshot_ok id x revision at_ y :
  validate_linear_snapshot x = Success tt →
  SourceSnapshot_create id (ss_tenant_id x) (ss_repository_id x) (closed_content revision at_ (ss_content x))
    (ss_connector_identity x) at_ = Ok y →
  validate_linear_snapshot y = Success tt ∧ snapshot_key y = snapshot_key x ∧
  sc_source_revision (ss_content y) = revision.
Proof.
  intros Hx. unfold SourceSnapshot_create. rewrite !bind_unit_ok, bail_if_ok.
  intros (Hv & Hb & (digest & Hd & [= <-])%bind_ok).
  unfold validate_linear_snapshot in *. rewrite !obind_unit_success, refuse_if_success in Hx.
  destruct Hx as (_ & Hs & (d & _ & Hx)%obind_success). rewrite refuse_if_success in Hx.
  apply orb_false_iff in Hx as [_ Hu]. simpl. rewrite Hv, Hd. simpl.
  destruct x as [i t repo [? ? ? ? ? ? ? ? ? ? ? ? ? ?] dg cap con]. simpl in *.
  rewrite Hs. simpl. rewrite bool_decide_true by done. simpl. by rewrite Hu.
Qed.

(** A new revision of an open item. *)
Lemma upsert_cases x s :
  (upsert_snapshot x s).1 = s ∨
  validate_linear_snapshot x = Success tt ∧
  (lf_items s !! snapshot_key x = None ∨ ∃ record, lf_items s !! snapshot_key x = Some record ∧
     li_applied_closure record = None) ∧
  (upsert_snapshot x s).1 = set_items (<[snapshot_key x := mkLinearItemRecord
     (match lf_items s !! snapshot_key x with
      | Some record => li_history record ++ [li_current record] | None => [] end)
     x SourceLifecycle.Active None]> (lf_items s)) s.
Proof.
  unfold upsert_snapshot. rewrite call_pure.
  destruct (validate_linear_snapshot x) as [[]| |]; [|by left..].
  unfold mbind, call_bind, gets, modify, pure_call. simpl.
  destruct (lf_items s !! snapshot_key x) as [record|] eqn:Hr; simpl; [|by right; split; [|split; [left|]]].
  destruct (bool_decide (sc_source_revision _ = _)); simpl; [by left|].
  destruct (li_applied_closure record) eqn:Hc; simpl; [by left|]. right. split; [done|]. split; [by right; eauto|done].
Qed.

Lemma upsert_ok x s : linear_ok s → linear_ok (upsert_snapshot x s).1 ∧ stays s (upsert_snapshot x s).1.
Proof.
  intros Hok. destruct (upsert_cases x s) as [->|(Hv & Hopen & ->)]; [done|].
  assert (∀ key record, lf_items s !! key = Some record → is_Some (li_applied_closure record) →
    key ≠ snapshot_key x) as Hne.
  { intros key record Hr [? Hc] ->. destruct Hopen as [?|(? & ? & ?)]; congruence. }
  set (new := mkLinearItemRecord _ x _ None). destruct s as [items closes markers counts lost].
  simpl in *. split; [split|split]; simpl; [|intros key c Hc..| |done|].
  - intros key record. rewrite lookup_insert_Some. intros [[<- <-]|[Hk Hr]].
    + split; simpl.
      * apply Forall_app. split; [|by repeat constructor].
        destruct (items !! snapshot_key x) eqn:Hr; [|constructor].
        apply (lo_items _ Hok _ _ Hr).
      * split; [done|]. destruct Hopen as [Hn|(record & Hr & Hc)]; [by apply (lo_counts _ Hok)|].
        pose proof (io_closure _ _ _ (lo_items _ Hok _ _ Hr)) as Hi. rewrite Hc in Hi. apply Hi.
    + destruct (lo_items _ Hok _ _ Hr) as [H1 H2]. split; [done|]. simpl in H2 |- *. exact H2.
  - destruct (lo_closes _ Hok _ _ Hc) as [? ? ? ? ? (record & Hr & Ha)]. split; try done.
    exists record. split; [|done]. simpl in *. rewrite lookup_insert_ne; [done|].
    intros E. by apply (Hne _ _ Hr); [rewrite Ha; eauto|].
  - by apply (lo_markers _ Hok).
  - intros key. rewrite lookup_insert_None. intros [Hk _]. by apply (lo_counts _ Hok).
  - intros key record Hr Hc. rewrite lookup_insert_ne; [done|]. intros E. by apply (Hne _ _ Hr).
Qed.

Lemma open_item s key record : linear_ok s → lf_items s !! key = Some record →
  li_lifecycle record = SourceLifecycle.Active →
  li_applied_closure record = None ∧ lf_logical_close_effects s !! key = None.
Proof.
  intros Hok Hr Ha. pose proof (io_closure _ _ _ (lo_items _ Hok _ _ Hr)) as Hi.
  destruct (li_applied_closure record); [|by destruct Hi]. destruct Hi as [Hi _]. congruence.
Qed.

(** An applied close keeps the state consistent and everything closed before. *)
Lemma applies_stays id r s s' record snapshot :
  applies id r s s' record snapshot → linear_ok s → stays s s'.
Proof.
  intros Ha Hok. destruct (open_item _ _ _ Hok (ap_record _ _ _ _ _ _ Ha) (ap_active _ _ _ _ _ _ Ha)) as [Hc _].
  split.
  - intros key c Hk. rewrite (ap_closes _ _ _ _ _ _ Ha), lookup_insert_ne; [done|]. intros <-.
    pose proof (ap_key_fresh _ _ _ _ _ _ Ha). congruence.
  - intros key x Hx [y Hy]. rewrite (ap_items _ _ _ _ _ _ Ha), lookup_insert_ne; [done|]. intros <-.
    rewrite (ap_record _ _ _ _ _ _ Ha) in Hx. congruence.
Qed.

Lemma applies_item id r s s' record snapshot :
  applies id r s s' record snapshot → linear_ok s →
  item_ok s' (item_key (sx_item (xq_effect r)))
    (mkLinearItemRecord (li_history record ++ [li_current record]) snapshot SourceLifecycle.Completed
       (Some (applied_receipt r (sx_expected_source_revision (xq_effect r))))).
Proof.
  intros Ha Hok. pose proof (lo_items _ Hok _ _ (ap_record _ _ _ _ _ _ Ha)) as [Hs _].
  destruct (open_item _ _ _ Hok (ap_record _ _ _ _ _ _ Ha) (ap_active _ _ _ _ _ _ Ha)) as [_ Hn].
  assert (validate_linear_snapshot (li_current record) = Success tt ∧
    snapshot_key (li_current record) = item_key (sx_item (xq_effect r))) as [Hv Hk].
  { apply Forall_app in Hs as [_ Hs]. by inversion Hs. }
  destruct (closed_snapshot_ok _ _ _ _ _ Hv (ap_snapshot _ _ _ _ _ _ Ha)) as (Hv' & Hk' & Hr').
  split; simpl.
  - apply Forall_app. split; [done|]. constructor; [split; congruence|constructor].
  - destruct (ap_count _ _ _ _ _ _ Ha) as (n & -> & ->). rewrite Hn, lookup_insert_eq.
    do 3 (split; [done|]). exists (xq_effect r). split; [|done].
    by rewrite (ap_closes _ _ _ _ _ _ Ha), lookup_insert_eq.
Qed.

Lemma applies_ok id r s s' record snapshot :
  applies id r s s' record snapshot → linear_ok s → linear_ok s'.
Proof.
  intros Ha Hok. pose proof (applies_stays _ _ _ _ _ _ Ha Hok) as Hstay.
  pose proof (applies_item _ _ _ _ _ _ Ha Hok) as Hitem. split.
  - intros key x. rewrite (ap_items _ _ _ _ _ _ Ha), lookup_insert_Some.
    intros [[<- <-]|[Hne Hx]]; [done|]. destruct (lo_items _ Hok _ _ Hx) as [H1 H2]. split; [done|].
    destruct (ap_count _ _ _ _ _ _ Ha) as (n & -> & _). rewrite lookup_insert_ne by done.
    destruct (li_applied_closure x) as [receipt|]; [|done].
    destruct H2 as (? & ? & ? & effect & Hc & ?). do 3 (split; [done|]). exists effect.
    split; [by apply Hstay|done].
  - intros key c. rewrite (ap_closes _ _ _ _ _ _ Ha), lookup_insert_Some. intros [[<- <-]|[Hne Hc]].
    + split; simpl; try done; [apply close_valid, Ha| |].
      * by rewrite (ap_markers _ _ _ _ _ _ Ha), lookup_insert_eq.
      * rewrite (ap_items _ _ _ _ _ _ Ha), lookup_insert_eq. by eexists.
    + destruct (lo_closes _ Hok _ _ Hc) as [? ? ? ? Hm (x & Hx & Hxc)]. split; try done.
      * rewrite (ap_markers _ _ _ _ _ _ Ha), lookup_insert_ne; [done|]. intros E.
        pose proof (ap_marker_fresh _ _ _ _ _ _ Ha). rewrite E in *. congruence.
      * exists x. split; [|done]. apply (sy_items _ _ Hstay); [done|by rewrite Hxc].
  - intros marker key. rewrite (ap_markers _ _ _ _ _ _ Ha), lookup_insert_Some. intros [[<- <-]|[Hne Hm]].
    + rewrite (ap_closes _ _ _ _ _ _ Ha), lookup_insert_eq. by eexists.
    + destruct (lo_markers _ Hok _ _ Hm) as (c & Hc & ?). exists c. split; [by apply Hstay|done].
  - intros key. rewrite (ap_items _ _ _ _ _ _ Ha), lookup_insert_None. intros [Hn Hne].
    destruct (ap_count _ _ _ _ _ _ Ha) as (n & -> & _). rewrite lookup_insert_ne by done.
    by apply (lo_counts _ Hok).
Qed.

(** No call crashes and every call keeps what is closed. *)
Lemma close_ok_step id r s : linear_ok s →
  linear_ok (linear_close_source id r s).1 ∧ stays s (linear_close_source id r s).1 ∧
  (linear_close_source id r s).2 ≠ Crash.
Proof.
  intros Hok. destruct (linear_close_source id r s) as [s' o] eqn:H. simpl.
  apply close_cases in H as [[-> (e & -> & _)]|[(-> & _ & _ & x & _ & _ & ->)|[[-> (n & Hn & Ho)]|(record & snap & Ha & ->)]]].
  - done.
  - done.
  - exfalso. destruct (lf_items s !! item_key (sx_item (xq_effect r))) as [record|] eqn:Hr.
    + pose proof (io_closure _ _ _ (lo_items _ Hok _ _ Hr)) as Hi.
      destruct (li_applied_closure record); destruct Hi as [_ Hi]; [destruct Hi as [Hi _]|];
        rewrite Hi in Hn; by simplify_eq.
    + rewrite (lo_counts _ Hok _ Hr) in Hn. done.
  - split; [by eapply applies_ok|]. split; [by eapply applies_stays|]. by destruct (lf_lose_next_close_response s).
Qed.

Lemma perform_ok s c : linear_ok s → linear_ok (perform s c) ∧ stays s (perform s c).
Proof.
  intros Hok. destruct c as [x| |id r]; simpl.
  - by apply upsert_ok.
  - destruct s. split; [|by split]. destruct Hok as [H1 H2 H3 H4]. split; simpl in *; try done.
    + intros key record Hr. destruct (H1 _ _ Hr). by split.
    + intros key c Hc. destruct (H2 _ _ Hc). by split.
  - destruct (close_ok_step id r s Hok) as (? & ? & _). done.
Qed.

Lemma perform_all_ok l s : linear_ok s → linear_ok (perform_all l s) ∧ stays s (perform_all l s).
Proof.
  unfold perform_all. revert s. induction l as [|c l IH]; intros s Hok; simpl; [done|].
  destruct (perform_ok s c Hok) as [H1 H2]. destruct (IH _ H1) as [H3 H4]. split; [done|by etrans].
Qed.

(** C29. An item is closed at most once.  After any calls on a new gateway an item
    has been closed never or once; once exactly when it is completed by an applied
    close whose receipt carries the current revision; from then on, whatever is
    called, the item keeps its snapshots, its state and its receipt; and no close
    ever crashes. *)
Theorem source_closed_once l item :
  let s := perform_all l LinearFakeState_default in
  (logical_close_effect_count item s = 0 ∨ logical_close_effect_count item s = 1) ∧
  (logical_close_effect_count item s = 1 ↔ ∃ record receipt, lf_items s !! item_key item = Some record ∧
     li_applied_closure record = Some receipt ∧ li_lifecycle record = SourceLifecycle.Completed ∧
     sc_source_revision (ss_content (li_current record)) = sr_provider_revision receipt) ∧
  (logical_close_effect_count item s = 1 → ∀ more,
     lf_items (perform_all more s) !! item_key item = lf_items s !! item_key item ∧
     logical_close_effect_count item (perform_all more s) = 1) ∧
  (∀ id r, (close_source id r s).2 ≠ Crash).
Proof.
  intros s. destruct (perform_all_ok l _ default_ok) as [Hok _]. fold s in Hok.
  assert (∀ s, linear_ok s → ∀ record, lf_items s !! item_key item = Some record →
    logical_close_effect_count item s = match li_applied_closure record with Some _ => 1 | None => 0 end) as Hcount.
  { intros s' Hok' record Hr. unfold logical_close_effect_count.
    pose proof (io_closure _ _ _ (lo_items _ Hok' _ _ Hr)) as Hi.
    destruct (li_applied_closure record); [destruct Hi as (_ & -> & _)|destruct Hi as [_ ->]]; done. }
  split; [|split; [|split]]; [| | |by intros; apply (close_ok_step _ _ _ Hok)].
  1-2: destruct (lf_items s !! item_key item) as [record|] eqn:Hr;
    [|unfold logical_close_effect_count; rewrite (lo_counts _ Hok _ Hr); simpl; naive_solver].
  - rewrite (Hcount _ Hok _ Hr). destruct (li_applied_closure record); auto.
  - rewrite (Hcount _ Hok _ Hr). pose proof (io_closure _ _ _ (lo_items _ Hok _ _ Hr)) as Hi.
    destruct (li_applied_closure record) as [receipt|] eqn:Hc; [|naive_solver].
    split; [|done]. intros _. exists record, receipt. naive_solver.
  - intros H more. destruct (perform_all_ok more _ Hok) as [Hok' Hstay].
    destruct (lf_items s !! item_key item) as [record|] eqn:Hr;
      [|unfold logical_close_effect_count in H; by rewrite (lo_counts _ Hok _ Hr) in H].
    rewrite (Hcount _ Hok _ Hr) in H. destruct (li_applied_closure record) as [receipt|] eqn:Hc; [|done].
    assert (lf_items (perform_all more s) !! item_key item = Some record) as Hr'
      by (apply (sy_items _ _ Hstay); [done|by rewrite Hc]).
    split; [done|]. by rewrite (Hcount _ Hok' _ Hr'), Hc.
Qed.

(** The close of [r] is found again in [s] with its receipt. *)
Definition recovered r (receipt : SourceCloseReceipt) s : Prop :=
  (∀ id, close_source id r s = (s, Success (with_disposition SourceCloseDisposition.Adopted receipt))) ∧
  reconcile_source_close (from_close r) s
  = (s, Success (SourceCloseReconciliation.Applied
                   (with_disposition SourceCloseDisposition.Reconciled receipt))) ∧
  (∀ id r', xq_idempotency_key r' = xq_idempotency_key r → xq_effect r' ≠ xq_effect r →
     ∃ e, close_source id r' s = (s, Failure e)).

Lemma stored_close_recovered r receipt s :
  linear_ok s → CloseSourceRequest_validate r = Success tt →
  require_linear (sx_item (xq_effect r)) = Success tt →
  lf_closes s !! xq_idempotency_key r = Some (mkCloseRecord (xq_effect r) receipt) →
  sr_effect_digest receipt = xq_effect_digest r → recovered r receipt s.
Proof.
  intros Hok Hv Hl Hk Hd. destruct (lo_closes _ Hok _ _ Hk) as [_ Hi _ Hm _ _]. simpl in Hi, Hm.
  split; [|split].
  - intros id. by apply stored_close_adopted.
  - by apply stored_close_found.
  - intros id r' Ek Ee. simpl. destruct (close_ok_step id r' s Hok) as (_ & _ & Hc).
    destruct (linear_close_source id r' s) as [s' o] eqn:H.
    apply close_cases in H as [[-> (e & -> & _)]|[(_ & _ & _ & x & Hx & _)|[[-> _]|(rec & snap & Ha & _)]]].
    + by eexists.
    + rewrite Ek, Hk in Hx. congruence.
    + done.
    + pose proof (ap_key_fresh _ _ _ _ _ _ Ha) as Hf. rewrite Ek in Hf. congruence.
Qed.

(** A close is never lost.  On a gateway after any calls, a close that reports
    success or an ambiguous effect is applied: after any later calls the same
    request adopts its receipt without changing anything, reconciliation finds the
    receipt, and a request that reuses the key for another effect is refused.  A
    close that fails otherwise changed nothing. *)
Lemma source_close_recoverable l id r s' o :
  close_source id r (perform_all l LinearFakeState_default) = (s', o) →
  match o with
  | Success _ | Failure (SourceGatewayError.AmbiguousEffect _ _) =>
      ∃ receipt, sr_item receipt = sx_item (xq_effect r) ∧
        sr_idempotency_key receipt = xq_idempotency_key r ∧
        sr_effect_digest receipt = xq_effect_digest r ∧
        ∀ more, recovered r receipt (perform_all more s')
  | Failure _ => s' = perform_all l LinearFakeState_default
  | Crash => False
  end.
Proof.
  destruct (perform_all_ok l _ default_ok) as [Hok _].
  generalize dependent (perform_all l LinearFakeState_default). intros s Hok H. simpl in H.
  destruct (close_ok_step id r s Hok) as (Hok' & _ & Hcrash). rewrite H in Hok', Hcrash. simpl in Hok', Hcrash.
  assert (∀ receipt, CloseSourceRequest_validate r = Success tt →
    require_linear (sx_item (xq_effect r)) = Success tt →
    lf_closes s' !! xq_idempotency_key r = Some (mkCloseRecord (xq_effect r) receipt) →
    sr_effect_digest receipt = xq_effect_digest r →
    ∃ receipt, sr_item receipt = sx_item (xq_effect r) ∧ sr_idempotency_key receipt = xq_idempotency_key r ∧
        sr_effect_digest receipt = xq_effect_digest r ∧ ∀ more, recovered r receipt (perform_all more s')) as Hstored.
  { intros receipt Hv Hl Hk Hd. destruct (lo_closes _ Hok' _ _ Hk) as [H1 H2 _ _ _ _]. simpl in *.
    exists receipt. do 3 (split; [done|]). intros more.
    destruct (perform_all_ok more s' Hok') as [Hok2 Hstay].
    apply stored_close_recovered; try done. by apply (sy_closes _ _ Hstay). }
  apply close_cases in H as [[-> (e & -> & He)]|[(-> & Hv & Hl & x & Hk & Hd & ->)|[[-> _]|(record & snap & Ha & ->)]]].
  - destruct e as [| | | | | |k d| | | |]; try done. by destruct (He k d).
  - by apply (Hstored x).
  - done.
  - assert (lf_closes s' !! xq_idempotency_key r = Some (mkCloseRecord (xq_effect r)
      (applied_receipt r (sx_expected_source_revision (xq_effect r))))) as Hk
      by by rewrite (ap_closes _ _ _ _ _ _ Ha), lookup_insert_eq.
    destruct (lf_lose_next_close_response s); (eapply Hstored; [apply Ha|apply Ha|exact Hk|done]).
Qed.

(** ** Intake *)

Definition source_cursor_at (tenant_id : TenantId) (offset : nat) : SourceCursor :=
  mkSourceCursor (source_cursor_prefix tenant_id +:+ pretty (N.of_nat offset)).

Lemma source_cursor_spec t offset : source_cursor t offset = Success (source_cursor_at t offset).
Proof.
  unfold source_cursor, SourceCursor_from_opaque, source_cursor_prefix. simpl.
  by rewrite blank_head by done.
Qed.

Lemma parse_source_cursor t offset count :
  (offset ≤ count)%nat → Z.of_nat count ≤ u64_max →
  parse_intake_cursor (source_cursor_at t offset) t count = Success offset.
Proof.
  intros Ho Hc. unfold parse_intake_cursor, source_cursor_at, source_cursor_str.
  rewrite (proj2 (strip_prefix_spec (source_cursor_prefix t) _ _) eq_refl). simpl.
  rewrite parse_pretty by lia. simpl. rewrite (proj2 (Z.ltb_ge _ _)) by lia. simpl. f_equal. lia.
Qed.

(** A client that asks for pages until there are no more; [None] when a page is
    refused or the fuel does not suffice. *)
Fixpoint intake_all (fuel : nat) (q : SourceIntakeRequest) s : option (list SourceSnapshot) :=
  match fuel with
  | O => None
  | S fuel =>
      match intake q s with
      | (s', Success page) =>
          if ip_has_more page
          then rest ← intake_all fuel
                 (mkSourceIntakeRequest (iq_schema q) (iq_tenant_id q) (iq_opt_in_label q)
                    (ip_next_cursor page) (iq_limit q)) s';
               Some (ip_snapshots page ++ rest)
          else Some (ip_snapshots page)
      | _ => None
      end
  end.

(** One page from a cursor position. *)
Lemma intake_page q s offset :
  let all := intake_snapshots (iq_tenant_id q) (iq_opt_in_label q) s in
  let end_ := Nat.min (offset + Z.to_nat (iq_limit q)) (length all) in
  SourceIntakeRequest_validate q = Success tt → Z.of_nat (length all) ≤ u64_max →
  (iq_after q = None ∧ offset = 0%nat ∨ iq_after q = Some (source_cursor_at (iq_tenant_id q) offset)) →
  (offset ≤ length all)%nat →
  intake q s = (s, Success (mkSourceIntakePage SOURCE_INTAKE_PAGE_SCHEMA_V1
    (take (end_ - offset) (drop offset all))
    (if (end_ <? length all)%nat then Some (source_cursor_at (iq_tenant_id q) end_) else None)
    (end_ <? length all)%nat)).
Proof.
  intros all end_ Hv Hl Ha Ho. simpl. unfold linear_intake. rewrite call_pure, Hv.
  unfold mbind at 1, call_bind at 1, gets at 1. fold all. rewrite call_pure.
  assert (match iq_after q with
    | Some cursor => parse_intake_cursor cursor (iq_tenant_id q) (length all)
    | None => Success 0%nat end = Success offset) as ->.
  { destruct Ha as [[-> ->]| ->]; [done|by apply parse_source_cursor]. }
  fold end_. rewrite call_pure. destruct (end_ <? length all)%nat; [|done].
  by rewrite source_cursor_spec.
Qed.

Lemma intake_all_from q s offset fuel :
  let all := intake_snapshots (iq_tenant_id q) (iq_opt_in_label q) s in
  SourceIntakeRequest_validate q = Success tt → 0 < iq_limit q → Z.of_nat (length all) ≤ u64_max →
  (iq_after q = None ∧ offset = 0%nat ∨ iq_after q = Some (source_cursor_at (iq_tenant_id q) offset)) →
  (offset ≤ length all)%nat → (length all - offset < fuel)%nat →
  intake_all fuel q s = Some (drop offset all).
Proof.
  revert q offset. induction fuel as [|fuel IH]; intros q offset all Hv Hp Hl Ha Ho Hf; [lia|].
  cbn [intake_all]. rewrite (intake_page q s offset Hv Hl Ha Ho). fold all. cbn [ip_has_more ip_snapshots ip_next_cursor].
  set (end_ := Nat.min _ _). destruct (Nat.ltb_spec end_ (length all)) as [He|He].
  - assert (offset < end_)%nat by (unfold end_ in *; lia).
    rewrite (IH _ end_); simpl; fold all; try done; [|by right|lia|lia]. simpl. fold all. f_equal.
    rewrite <- (take_drop (end_ - offset) (drop offset all)) at 2. f_equal. rewrite drop_drop.
    f_equal. lia.
  - f_equal. apply take_ge. rewrite length_drop. lia.
Qed.

Lemma filter_sublist {A} (p : A → bool) (l : list A) : sublist (List.filter p l) l.
Proof. induction l as [|x l IH]; simpl; [constructor|]. destruct (p x); by constructor. Qed.

Lemma intake_snapshots_spec s t label : linear_ok s →
  NoDup (snapshot_key <$> intake_snapshots t label s) ∧
  (length (intake_snapshots t label s) ≤ size (lf_items s))%nat ∧
  ∀ x, x ∈ intake_snapshots t label s ↔ ∃ record, lf_items s !! snapshot_key x = Some record ∧
    li_current record = x ∧ ss_tenant_id x = t ∧ li_lifecycle record = SourceLifecycle.Active ∧
    label ∈ sc_labels (ss_content x).
Proof.
  intros Hok. unfold intake_snapshots. set (l := sort_by_key fst (map_to_list (lf_items s))).
  assert (∀ p, p ∈ l ↔ lf_items s !! p.1 = Some p.2) as Hl.
  { intros [k record]. unfold l. by rewrite elem_of_sort_by_key, elem_of_map_to_list. }
  assert (∀ p, p ∈ l → snapshot_key (li_current p.2) = p.1) as Hkey.
  { intros p Hp. apply Hl in Hp. pose proof (io_snapshots _ _ _ (lo_items _ Hok _ _ Hp)) as Hx.
    apply Forall_app in Hx as [_ Hx]. inversion Hx. naive_solver. }
  split; [|split].
  - rewrite <- list_fmap_compose.
    rewrite (list_fmap_ext _ fst); [|intros i p Hp; apply Hkey].
    + eapply sublist_NoDup; [|apply fmap_sublist, (filter_sublist _ l)].
      unfold l. rewrite sort_by_key_perm. apply NoDup_fst_map_to_list.
    + eapply elem_of_sublist; [eapply list_elem_of_lookup_2; exact Hp|apply filter_sublist].
  - rewrite length_fmap. etrans; [apply sublist_length, filter_sublist|].
    unfold l. by rewrite sort_by_key_perm, length_map_to_list.
  - intros x. rewrite list_elem_of_fmap. split.
    + intros (p & -> & [Hp Hf]%elem_of_filter_bool). exists p.2. rewrite (Hkey p Hp). apply Hl in Hp.
      unfold opted_in in Hf. rewrite !andb_true_iff, !bool_decide_eq_true in Hf.
      destruct Hf as [[Ht Ha] Hb]. split; [done|]. split; [done|].
      rewrite <- (Hkey p) in Ht by by apply Hl. split; [done|]. split; [done|]. by apply bs_contains_true.
    + intros (record & Hr & <- & Ht & Ha & Hb). exists (snapshot_key (li_current record), record).
      split; [done|]. apply elem_of_filter_bool. split; [by apply Hl|].
      unfold opted_in. simpl. rewrite !bool_decide_true by done. by apply bs_contains_true.
Qed.

(** C30. Intake is complete.  On a gateway after any calls, a client that follows
    the cursors from the first page, with any page size, gets exactly the current
    snapshots of the open items of the tenant that carry the label, each once; one
    page more than there are items is enough. *)
Theorem intake_complete l t label limit fuel :
  let s := perform_all l LinearFakeState_default in
  blank label = false → 0 < limit ≤ MAX_SOURCE_INTAKE_PAGE_SIZE →
  Z.of_nat (size (lf_items s)) ≤ u64_max → (size (lf_items s) < fuel)%nat →
  ∃ snapshots, intake_all fuel (SourceIntakeRequest_first_page t label limit) s = Some snapshots ∧
    NoDup (snapshot_key <$> snapshots) ∧
    ∀ x, x ∈ snapshots ↔ ∃ record, lf_items s !! snapshot_key x = Some record ∧
      li_current record = x ∧ ss_tenant_id x = t ∧ li_lifecycle record = SourceLifecycle.Active ∧
      label ∈ sc_labels (ss_content x).
Proof.
  intros s Hlabel Hlimit Hsize Hfuel. destruct (perform_all_ok l _ default_ok) as [Hok _]. fold s in Hok.
  destruct (intake_snapshots_spec s t label Hok) as (Hn & Hlen & Hx).
  exists (intake_snapshots t label s). split; [|done].
  rewrite (intake_all_from (SourceIntakeRequest_first_page t label limit) s 0); simpl; try done; try lia;
    [|by left].
  unfold SourceIntakeRequest_validate. simpl. rewrite Hlabel. simpl.
  by rewrite (proj2 (Z.eqb_neq _ _)), (proj2 (Z.ltb_ge _ _)) by lia.
Qed.
End facts.

(** ** A closed issue *)

Module Sample.
#[local] Existing Instance sample_hashing.
#[local] Instance uuids : UuidText :=
  {| uuid_to_string u := "u" +:+ pos_text (N.succ_pos u);
     uuid_to_string_visible u := blank_head "u"%char _ (conj eq_refl eq_refl) |}.
#[local] Instance content_jcs : Canonical SourceSnapshotContent :=
  {| to_jcs c := inr (bytes (sc_external_id c +:+ sc_source_revision c)) |}.
#[local] Instance effect_jcs : Canonical SourceCloseEffect :=
  {| to_jcs e := inr (bytes (sx_correlation_marker e)) |}.

Definition content (external_id : string) : SourceSnapshotContent :=
  mkSourceSnapshotContent SourceSystem.Linear external_id "r1" None "Fix" "Fix it" [] []
    (bs_of_list ["asf"]) 50 "started" None None 5.

Definition digest_of (c : SourceSnapshotContent) : string :=
  match SourceSnapshotContent_digest c with Ok d => d | Err _ | Panic => "" end.

Definition snapshot (id : N) (external_id : string) : SourceSnapshot :=
  mkSourceSnapshot id 1%N None (content external_id) (digest_of (content external_id)) 6 "linear-app".

Definition issue : SourceItemRef := mkSourceItemRef 1%N SourceSystem.Linear "ENG-1".

Definition effect (marker : string) : SourceCloseEffect :=
  mkSourceCloseEffect SOURCE_CLOSE_EFFECT_SCHEMA_V1 issue "r1" (digest_of (content "ENG-1")) marker
    (mkSourceClosure 2%N ClosureTarget.PullRequest
       (Some (mkPullRequestEvidence "a/b" 3 "https://a/b/pull/3" "base" "head" (bs_of_list ["ci"])
                (bs_of_list ["ci"]))) 4%N "sha256:e" "done" None None).

Definition close (key marker : string) : CloseSourceRequest :=
  mkCloseSourceRequest CLOSE_SOURCE_REQUEST_SCHEMA_V1 key
    (match SourceCloseEffect_digest (effect marker) with Success d => d | Failure _ | Crash => "" end)
    (effect marker) 9.

(** Three issues, and the reply of the close of the first is lost. *)
Definition calls : list source_call :=
  [Upsert (snapshot 10%N "ENG-1"); Upsert (snapshot 11%N "ENG-2"); Upsert (snapshot 12%N "ENG-3"); LoseReply].

Definition is_ambiguous {A} (o : SourceResult A) : bool :=
  match o with Failure (SourceGatewayError.AmbiguousEffect _ _) => true | _ => false end.

Lemma close_lost :
  is_ambiguous (close_source 20%N (close "close-1" "m1") (perform_all calls LinearFakeState_default)).2 = true.
Proof. vm_compute. reflexivity. Qed.

Lemma source_closed_once_witness :
  let s := perform_all (calls ++ [Close 20%N (close "close-1" "m1")]) LinearFakeState_default in
  logical_close_effect_count issue s = 1 ∧
  logical_close_effect_count issue (perform_all [Close 21%N (close "close-2" "m2"); Upsert (snapshot 13%N "ENG-1")] s) = 1.
Proof.
  intros s. assert (logical_close_effect_count issue s = 1) as H by (vm_compute; reflexivity).
  split; [exact H|]. apply (source_closed_once (calls ++ [Close 20%N (close "close-1" "m1")]) issue). exact H.
Defined.

Lemma source_close_recoverable_witness : ∃ s key digest receipt,
  close_source 20%N (close "close-1" "m1") (perform_all calls LinearFakeState_default)
  = (s, Failure (SourceGatewayError.AmbiguousEffect key digest)) ∧
  ∀ more, recovered (close "close-1" "m1") receipt (perform_all more s).
Proof.
  pose proof close_lost as Hl.
  destruct (close_source 20%N (close "close-1" "m1") (perform_all calls LinearFakeState_default)) as [s o] eqn:H.
  destruct o as [|[| | | | | |key digest| | | |]|]; try discriminate Hl.
  destruct (source_close_recoverable calls 20%N (close "close-1" "m1") _ _ H) as (receipt & _ & _ & _ & Hr).
  exists s, key, digest, receipt. split; [reflexivity|exact Hr].
Defined.

(** Three issues in pages of two. *)
Lemma intake_complete_witness : ∃ snapshots,
  intake_all 4 (SourceIntakeRequest_first_page 1%N "asf" 2) (perform_all calls LinearFakeState_default)
  = Some snapshots ∧ NoDup (snapshot_key <$> snapshots).
Proof.
  destruct (intake_complete calls 1%N "asf" 2 4) as (snapshots & H1 & H2 & _).
  - reflexivity.
  - split; reflexivity || discriminate.
  - vm_compute. discriminate.
  - vm_compute. lia.
  - exists snapshots. split; [exact H1|exact H2].
Defined.

(** A position counts the open items: when an item of an earlier page is closed
    between two pages, the next page skips an item. *)
Example intake_skips_after_close :
  let s := perform_all calls LinearFakeState_default in
  let first := SourceIntakeRequest_first_page 1%N "asf" 2 in
  let next := mkSourceIntakeRequest SOURCE_INTAKE_REQUEST_SCHEMA_V1 1%N "asf" (Some (source_cursor_at 1%N 2)) 2 in
  let keys page := (snapshot_key <$> ip_snapshots page, ip_has_more page) in
  match (intake first s).2, (intake next (perform s (Close 20%N (close "close-1" "m1")))).2 with
  | Success page, Success page' =>
      keys page = ([(1%N, "ENG-1"); (1%N, "ENG-2")], true) ∧
      ip_next_cursor page = Some (source_cursor_at 1%N 2) ∧ keys page' = ([], false)
  | _, _ => False
  end.
Proof. vm_compute. repeat split; reflexivity. Qed.
End Sample.
