(* ===== verification/ForgeGateway.v ===== *)
(** The read-only port to the forge, [src/src/ports/forge.rs], and the in-memory
    GitHub gateway of [src/src/adapters/forge.rs].

    Observations of branches and pull requests are records with their validation;
    [assess_exact_candidate] sorts the required checks of a candidate commit and
    [exact_candidate_evidence] turns an observation into the evidence that the
    bundle contract and the source closure use.  [GitHubFakeState] is the state
    behind the mutex of the in-memory gateway, whose methods are [call]s. *)

From Stdlib Require Import ZArith Lia Ascii.
From stdpp Require Import base tactics option strings pretty numbers list gmap.
From S2P Require Import Prelude RustStr RustOrd Ids Authority WorkItem Crypto Evidence Receipt Outcome.

Definition FORGE_GATEWAY_SCHEMA_V1 : string := "asf.forge-gateway.v1".
Definition RESOLVE_BASE_REF_SCHEMA_V1 : string := "asf.resolve-base-ref.v1".
Definition BASE_REF_OBSERVATION_SCHEMA_V1 : string := "asf.base-ref-observation.v1".
Definition OBSERVE_PULL_REQUEST_SCHEMA_V1 : string := "asf.observe-pull-request.v1".
Definition PULL_REQUEST_OBSERVATION_SCHEMA_V1 : string := "asf.pull-request-observation.v1".

(** ** Text *)

Definition valid_revision (value : string) : bool := negb (blank value) && negb (has_whitespace value).

Definition valid_repository_component (value : string) : bool :=
  negb (str_is_empty value) && (len value <=? 100) && negb (mem value ["."; ".."])
  && forallb repository_byte (bytes value).

Definition valid_repository (value : string) : bool :=
  if str_is_empty value || (256 <? len value) || trim_differs value then false
  else match split_on "/"%char value with
       | [owner; name] => valid_repository_component owner && valid_repository_component name
       | _ => false
       end.

Definition valid_git_sha (value : string) : bool :=
  (len value =? 40)
  && forallb (λ b, is_ascii_digit b || ((97 <=? b) && (b <=? 102))) (bytes value).

(** A byte no branch name contains. *)
Definition forbidden_ref_byte (b : Z) : bool :=
  (b <=? 32) || (b =? 127) || mem b [126; 94; 58; 63; 42; 91; 92].

Definition valid_base_ref (value : string) : bool :=
  if 1024 <? len value then false
  else match strip_prefix "refs/heads/" value with
       | None => false
       | Some branch =>
           negb (str_is_empty branch) && negb (bool_decide (branch = "@"))
           && negb (contains ".." branch) && negb (contains "@{" branch)
           && negb (contains "//" branch)
           && negb (ends_with_char "/"%char branch || ends_with_char "."%char branch)
           && negb (existsb forbidden_ref_byte (bytes branch))
           && forallb (λ component, negb (str_is_empty component) && negb (starts_with "." component)
                                    && negb (ends_with ".lock" component))
                (split_on "/"%char branch)
       end.

Definition valid_provider_revision (value : string) : bool :=
  negb (str_is_empty value) && (len value <=? 1024) && negb (trim_differs value)
  && negb (existsb (λ c, is_control c || is_whitespace c) (chars value)).

Definition safe_http_url `{UrlCrate} (value : string) : bool :=
  match url_parse value with
  | inl _ => false
  | inr url => mem (url_scheme url) ["http"; "https"] && is_some (url_host url)
               && str_is_empty (url_username url) && is_none (url_password url)
  end.

(** ** Requests and observations *)

Record ResolveBaseRefRequest := mkResolveBaseRefRequest {
  bq_schema : string;
  bq_repository : string;
  bq_base_ref : string
}.

Definition ResolveBaseRefRequest_new (repository base_ref : string) : ResolveBaseRefRequest :=
  mkResolveBaseRefRequest RESOLVE_BASE_REF_SCHEMA_V1 repository base_ref.

Record BaseRefObservation := mkBaseRefObservation {
  bo_schema : string;
  bo_repository : string;
  bo_base_ref : string;
  bo_base_sha : string;
  bo_provider_revision : string;
  bo_observed_at : DateTime
}.

Record PullRequestRef := mkPullRequestRef {
  pf_repository : string;
  pf_number : Z
}.

#[global] Instance PullRequestRef_eq_dec : EqDecision PullRequestRef.
Proof. solve_decision. Defined.
#[global, program] Instance PullRequestRef_countable : Countable PullRequestRef :=
  inj_countable' (λ p, (pf_repository p, pf_number p)) (λ p, mkPullRequestRef p.1 p.2) _.
Next Obligation. by intros []. Qed.

Record ObservePullRequestRequest := mkObservePullRequestRequest {
  pq_schema : string;
  pq_pull_request : PullRequestRef;
  pq_expected_base_sha : string;
  pq_expected_candidate_sha : string;
  pq_required_ci_contexts : BTreeSet string
}.

Definition ObservePullRequestRequest_new (pull_request : PullRequestRef)
    (expected_base_sha expected_candidate_sha : string) (required_ci_contexts : BTreeSet string)
  : ObservePullRequestRequest :=
  mkObservePullRequestRequest OBSERVE_PULL_REQUEST_SCHEMA_V1 pull_request expected_base_sha
    expected_candidate_sha required_ci_contexts.

Module PullRequestState.
Inductive PullRequestState := Open | Closed | Merged.
End PullRequestState.
Abbreviation PullRequestState := PullRequestState.PullRequestState.
#[global] Instance PullRequestState_eq_dec : EqDecision PullRequestState.
Proof. solve_decision. Defined.

Definition usable_for_pr_closure (s : PullRequestState) : bool :=
  match s with
  | PullRequestState.Open | PullRequestState.Merged => true
  | PullRequestState.Closed => false
  end.

Module RemoteCiState.
Inductive RemoteCiState := Queued | InProgress | Success | Failure | Cancelled | Skipped | Neutral.
End RemoteCiState.
Abbreviation RemoteCiState := RemoteCiState.RemoteCiState.
#[global] Instance RemoteCiState_eq_dec : EqDecision RemoteCiState.
Proof. solve_decision. Defined.

Definition is_pending (s : RemoteCiState) : bool :=
  match s with RemoteCiState.Queued | RemoteCiState.InProgress => true | _ => false end.
Definition is_success (s : RemoteCiState) : bool :=
  match s with RemoteCiState.Success => true | _ => false end.

Record RemoteCiObservation := mkRemoteCiObservation {
  ci_candidate_sha : string;
  ci_state : RemoteCiState
}.

#[global] Instance RemoteCiObservation_eq_dec : EqDecision RemoteCiObservation.
Proof. solve_decision. Defined.

Record PullRequestObservation := mkPullRequestObservation {
  po_schema : string;
  po_pull_request : PullRequestRef;
  po_url : string;
  po_state : PullRequestState;
  po_base_sha : string;
  po_head_sha : string;
  po_merge_sha : option string;
  po_ci : gmap string RemoteCiObservation;
  po_provider_revision : string;
  po_observed_at : DateTime
}.

#[global] Instance PullRequestObservation_eq_dec : EqDecision PullRequestObservation.
Proof. solve_decision. Defined.

Record ExactCandidateAssessment := mkExactCandidateAssessment {
  as_pull_request_usable : bool;
  as_base_matches : bool;
  as_head_matches : bool;
  as_missing_contexts : BTreeSet string;
  as_stale_contexts : BTreeSet string;
  as_pending_contexts : BTreeSet string;
  as_unsuccessful_contexts : BTreeSet string
}.

Definition satisfied (a : ExactCandidateAssessment) : bool :=
  as_pull_request_usable a && as_base_matches a && as_head_matches a
  && bs_is_empty (as_missing_contexts a) && bs_is_empty (as_stale_contexts a)
  && bs_is_empty (as_pending_contexts a) && bs_is_empty (as_unsuccessful_contexts a).

Module ForgeGatewayError.
Inductive ForgeGatewayError :=
| UnsupportedContract (detail : message)
| InvalidRequest (detail : message)
| InvalidObservation (detail : message)
| PullRequestNotFound
| BaseRefNotFound
| ProviderRejected (status : Z)
| ExactCandidateNotSatisfied (assessment : ExactCandidateAssessment)
| IdempotencyConflict (idempotency_key existing_digest submitted_digest : string)
| AmbiguousEffect (idempotency_key effect_digest : string)
| EffectConflict
| TransportUnavailable.
End ForgeGatewayError.
Abbreviation ForgeGatewayError := ForgeGatewayError.ForgeGatewayError.
Abbreviation ForgeError := ForgeGatewayError.
Abbreviation ForgeResult := (outcome ForgeError).

Definition invalid_forge_request (text : string) : ForgeError :=
  ForgeGatewayError.InvalidRequest [Lit text].
Definition invalid_observation (text : string) : ForgeError :=
  ForgeGatewayError.InvalidObservation [Lit text].

Definition ResolveBaseRefRequest_validate (r : ResolveBaseRefRequest) : ForgeResult unit :=
  refuse_if (negb (bool_decide (bq_schema r = RESOLVE_BASE_REF_SCHEMA_V1)))
    (invalid_forge_request "unsupported base-ref resolution schema") ;;
  refuse_if (negb (valid_repository (bq_repository r)))
    (invalid_forge_request "base-ref resolution requires a canonical owner/name repository") ;;
  refuse_if (negb (valid_base_ref (bq_base_ref r)))
    (invalid_forge_request "base-ref resolution requires an exact refs/heads/... reference").

Definition BaseRefObservation_validate (o : BaseRefObservation) : ForgeResult unit :=
  refuse_if (negb (bool_decide (bo_schema o = BASE_REF_OBSERVATION_SCHEMA_V1)))
    (invalid_observation "unsupported base-ref observation schema") ;;
  refuse_if (negb (valid_repository (bo_repository o)) || negb (valid_base_ref (bo_base_ref o))
             || negb (valid_git_sha (bo_base_sha o))
             || negb (valid_provider_revision (bo_provider_revision o)))
    (invalid_observation "base-ref observation is incomplete or malformed").

Definition validate_for (o : BaseRefObservation) (r : ResolveBaseRefRequest) : ForgeResult unit :=
  ResolveBaseRefRequest_validate r ;;
  BaseRefObservation_validate o ;;
  refuse_if (negb (bool_decide (bo_repository o = bq_repository r))
             || negb (bool_decide (bo_base_ref o = bq_base_ref r)))
    (invalid_observation "provider returned a different repository or base ref than requested").

Definition PullRequestRef_validate (p : PullRequestRef) : ForgeResult unit :=
  let segments := split_on "/"%char (pf_repository p) in
  let owner := default "" (segments !! 0%nat) in
  let name := default "" (segments !! 1%nat) in
  refuse_if (blank owner || blank name || trim_differs owner || trim_differs name
             || has_whitespace owner || has_whitespace name || is_some (segments !! 2%nat)
             || (pf_number p =? 0))
    (invalid_forge_request
       "pull-request reference requires an owner/name repository and non-zero number").

Definition ObservePullRequestRequest_validate (r : ObservePullRequestRequest) : ForgeResult unit :=
  refuse_if (negb (bool_decide (pq_schema r = OBSERVE_PULL_REQUEST_SCHEMA_V1)))
    (invalid_forge_request "unsupported pull-request observation schema") ;;
  PullRequestRef_validate (pq_pull_request r) ;;
  refuse_if (negb (valid_revision (pq_expected_base_sha r))
             || negb (valid_revision (pq_expected_candidate_sha r)))
    (invalid_forge_request "exact base and candidate revisions are required") ;;
  refuse_if (existsb blank (elems (pq_required_ci_contexts r)))
    (invalid_forge_request "required CI context names cannot be empty").

Section observations.
  Context {url : UrlCrate}.

Definition PullRequestObservation_validate (o : PullRequestObservation) : ForgeResult unit :=
  refuse_if (negb (bool_decide (po_schema o = PULL_REQUEST_OBSERVATION_SCHEMA_V1)))
    (invalid_observation "unsupported pull-request observation schema") ;;
  PullRequestRef_validate (po_pull_request o) ;;
  refuse_if (negb (safe_http_url (po_url o)) || negb (valid_revision (po_base_sha o))
             || negb (valid_revision (po_head_sha o))
             || match po_merge_sha o with Some revision => negb (valid_revision revision) | None => false end
             || blank (po_provider_revision o)
             || existsb (λ '(context, observation),
                  blank context || negb (valid_revision (ci_candidate_sha observation)))
                (map_to_list (po_ci o)))
    (invalid_observation "pull-request observation is incomplete or unsafe") ;;
  refuse_if (negb (Bool.eqb (bool_decide (po_state o = PullRequestState.Merged))
                     (is_some (po_merge_sha o))))
    (invalid_observation "merged state and merge revision must agree").

(** What the loop over the required contexts finds for one of them. *)
Inductive context_verdict := Missing | Stale | Pending | Unsuccessful | Passed.

#[global] Instance context_verdict_eq_dec : EqDecision context_verdict.
Proof. solve_decision. Defined.

Definition judge_context (o : PullRequestObservation) (candidate_sha context : string)
  : context_verdict :=
  match po_ci o !! context with
  | None => Missing
  | Some observation =>
      if negb (bool_decide (ci_candidate_sha observation = candidate_sha)) then Stale
      else if is_pending (ci_state observation) then Pending
      else if negb (is_success (ci_state observation)) then Unsuccessful
      else Passed
  end.

Definition contexts_judged (o : PullRequestObservation) (r : ObservePullRequestRequest)
    (v : context_verdict) : BTreeSet string :=
  bs_of_list (List.filter (λ context,
    bool_decide (judge_context o (pq_expected_candidate_sha r) context = v))
    (elems (pq_required_ci_contexts r))).

Definition assess_exact_candidate (o : PullRequestObservation) (r : ObservePullRequestRequest)
  : ForgeResult ExactCandidateAssessment :=
  PullRequestObservation_validate o ;;
  ObservePullRequestRequest_validate r ;;
  refuse_if (negb (bool_decide (po_pull_request o = pq_pull_request r)))
    (invalid_observation "provider returned a different pull request than requested") ;;
  Success {| as_pull_request_usable := usable_for_pr_closure (po_state o);
             as_base_matches := bool_decide (po_base_sha o = pq_expected_base_sha r);
             as_head_matches := bool_decide (po_head_sha o = pq_expected_candidate_sha r);
             as_missing_contexts := contexts_judged o r Missing;
             as_stale_contexts := contexts_judged o r Stale;
             as_pending_contexts := contexts_judged o r Pending;
             as_unsuccessful_contexts := contexts_judged o r Unsuccessful |}.

Definition exact_candidate_evidence (o : PullRequestObservation) (r : ObservePullRequestRequest)
  : ForgeResult PullRequestEvidence :=
  assessment ← assess_exact_candidate o r;
  refuse_if (negb (satisfied assessment))
    (ForgeGatewayError.ExactCandidateNotSatisfied assessment) ;;
  Success {| pre_repository := pf_repository (po_pull_request o);
             pre_number := pf_number (po_pull_request o); pre_url := po_url o;
             pre_base_sha := po_base_sha o; pre_head_sha := po_head_sha o;
             pre_required_ci_contexts := pq_required_ci_contexts r;
             pre_successful_ci_contexts := pq_required_ci_contexts r |}.
End observations.

(** ** The port and the in-memory gateway *)

(** [trait ForgeGateway]. *)
Class ForgeGateway (S : Type) := {
  resolve_base_ref : ResolveBaseRefRequest → call S ForgeError BaseRefObservation;
  observe_pull_request : ObservePullRequestRequest → call S ForgeError PullRequestObservation
}.

Definition SIMULATED_GITHUB_PULL_REQUEST_EFFECT_SCHEMA_V1 : string :=
  "asf.test.github-pull-request-effect.v1".
Definition SIMULATED_GITHUB_PULL_REQUEST_RECEIPT_SCHEMA_V1 : string :=
  "asf.test.github-pull-request-receipt.v1".

Record SimulatedGitHubPullRequestEffect := mkSimulatedGitHubPullRequestEffect {
  ge_schema : string;
  ge_idempotency_key : string;
  ge_effect_digest : string;
  ge_observation_after_apply : PullRequestObservation
}.

#[global] Instance SimulatedGitHubPullRequestEffect_eq_dec :
  EqDecision SimulatedGitHubPullRequestEffect.
Proof. solve_decision. Defined.

Module SimulatedGitHubEffectDisposition.
Inductive SimulatedGitHubEffectDisposition := Applied | Adopted.
End SimulatedGitHubEffectDisposition.
Abbreviation SimulatedGitHubEffectDisposition := SimulatedGitHubEffectDisposition.SimulatedGitHubEffectDisposition.

Record SimulatedGitHubPullRequestReceipt := mkSimulatedGitHubPullRequestReceipt {
  gt_schema : string;
  gt_idempotency_key : string;
  gt_effect_digest : string;
  gt_pull_request : PullRequestRef;
  gt_disposition : SimulatedGitHubEffectDisposition;
  gt_recorded_at : DateTime
}.

Definition adopted_effect (r : SimulatedGitHubPullRequestReceipt) : SimulatedGitHubPullRequestReceipt :=
  let 'mkSimulatedGitHubPullRequestReceipt a b c d _ f := r in
  mkSimulatedGitHubPullRequestReceipt a b c d SimulatedGitHubEffectDisposition.Adopted f.

Record GitHubEffectRecord := mkGitHubEffectRecord {
  gr_effect : SimulatedGitHubPullRequestEffect;
  gr_receipt : SimulatedGitHubPullRequestReceipt
}.

Record GitHubFakeState := mkGitHubFakeState {
  gh_base_refs : gmap (string * string) BaseRefObservation;
  gh_pull_requests : gmap PullRequestRef PullRequestObservation;
  gh_effects : gmap string GitHubEffectRecord;
  gh_key_by_pull_request : gmap PullRequestRef string;
  gh_logical_effects : gmap PullRequestRef Z;
  gh_lose_next_effect_response : bool
}.

(** [InMemoryGitHubGateway::new]. *)
Definition GitHubFakeState_default : GitHubFakeState := mkGitHubFakeState ∅ ∅ ∅ ∅ ∅ false.

Definition set_base_refs m (s : GitHubFakeState) : GitHubFakeState :=
  let 'mkGitHubFakeState _ b c d e f := s in mkGitHubFakeState m b c d e f.
Definition set_pull_requests m (s : GitHubFakeState) : GitHubFakeState :=
  let 'mkGitHubFakeState a _ c d e f := s in mkGitHubFakeState a m c d e f.
Definition set_gh_effects m (s : GitHubFakeState) : GitHubFakeState :=
  let 'mkGitHubFakeState a b _ d e f := s in mkGitHubFakeState a b m d e f.
Definition set_key_by_pull_request m (s : GitHubFakeState) : GitHubFakeState :=
  let 'mkGitHubFakeState a b c _ e f := s in mkGitHubFakeState a b c m e f.
Definition set_logical_effects m (s : GitHubFakeState) : GitHubFakeState :=
  let 'mkGitHubFakeState a b c d _ f := s in mkGitHubFakeState a b c d m f.
Definition set_lose_next_effect (v : bool) (s : GitHubFakeState) : GitHubFakeState :=
  let 'mkGitHubFakeState a b c d e _ := s in mkGitHubFakeState a b c d e v.

Abbreviation hcall := (call GitHubFakeState ForgeError).

Section gateway.
  Context {url : UrlCrate} {hashing : Hashing} {observation_jcs : Canonical PullRequestObservation}.

Definition digest_observation (o : PullRequestObservation) : ForgeResult string :=
  canonical ← of_res (canonical_json o)
    (λ error, ForgeGatewayError.InvalidRequest (Error_to_message error));
  Success (sha256_digest canonical).

Definition Effect_validate (e : SimulatedGitHubPullRequestEffect) : ForgeResult unit :=
  refuse_if (negb (bool_decide (ge_schema e = SIMULATED_GITHUB_PULL_REQUEST_EFFECT_SCHEMA_V1)))
    (invalid_forge_request "unsupported simulated GitHub effect schema") ;;
  refuse_if (blank (ge_idempotency_key e))
    (invalid_forge_request "simulated GitHub effect requires an idempotency key") ;;
  PullRequestObservation_validate (ge_observation_after_apply e) ;;
  digest ← digest_observation (ge_observation_after_apply e);
  refuse_if (negb (bool_decide (ge_effect_digest e = digest)))
    (invalid_forge_request "simulated GitHub effect digest mismatch").

Definition Effect_new (idempotency_key : string) (observation_after_apply : PullRequestObservation)
  : ForgeResult SimulatedGitHubPullRequestEffect :=
  PullRequestObservation_validate observation_after_apply ;;
  effect_digest ← digest_observation observation_after_apply;
  let effect := mkSimulatedGitHubPullRequestEffect SIMULATED_GITHUB_PULL_REQUEST_EFFECT_SCHEMA_V1
                  idempotency_key effect_digest observation_after_apply in
  Effect_validate effect ;; Success effect.

Definition set_base_ref_observation (o : BaseRefObservation) : hcall unit :=
  pure_call (BaseRefObservation_validate o) ;;
  modify (λ s, set_base_refs (<[(bo_repository o, bo_base_ref o) := o]> (gh_base_refs s)) s).

Definition set_observation (o : PullRequestObservation) : hcall unit :=
  pure_call (PullRequestObservation_validate o) ;;
  modify (λ s, set_pull_requests (<[po_pull_request o := o]> (gh_pull_requests s)) s).

Definition lose_next_effect_response : hcall unit := modify (set_lose_next_effect true).

Definition count_effect (key : PullRequestRef) : hcall unit :=
  counts ← gets gh_logical_effects;
  match counts !! key with
  | None => modify (set_logical_effects (<[key := 1]> counts))
  | Some count =>
      match checked_add u64_max count 1 with
      | Some count => modify (set_logical_effects (<[key := count]> counts))
      | None => pure_call Crash
      end
  end.

Definition adopt_effect (effect : SimulatedGitHubPullRequestEffect) (existing : GitHubEffectRecord)
  : ForgeResult SimulatedGitHubPullRequestReceipt :=
  refuse_if (negb (bool_decide (ge_effect_digest (gr_effect existing) = ge_effect_digest effect)))
    (ForgeGatewayError.IdempotencyConflict (ge_idempotency_key effect)
       (ge_effect_digest (gr_effect existing)) (ge_effect_digest effect)) ;;
  refuse_if (negb (bool_decide (gr_effect existing = effect))) ForgeGatewayError.EffectConflict ;;
  Success (adopted_effect (gr_receipt existing)).

Definition apply_pull_request_effect (effect : SimulatedGitHubPullRequestEffect)
  : hcall SimulatedGitHubPullRequestReceipt :=
  pure_call (Effect_validate effect) ;;
  effects ← gets gh_effects;
  match effects !! ge_idempotency_key effect with
  | Some existing => pure_call (adopt_effect effect existing)
  | None =>
      let pull_request := po_pull_request (ge_observation_after_apply effect) in
      keys ← gets gh_key_by_pull_request;
      pure_call (refuse_if (is_some (keys !! pull_request)) ForgeGatewayError.EffectConflict) ;;
      let receipt :=
        {| gt_schema := SIMULATED_GITHUB_PULL_REQUEST_RECEIPT_SCHEMA_V1;
           gt_idempotency_key := ge_idempotency_key effect;
           gt_effect_digest := ge_effect_digest effect; gt_pull_request := pull_request;
           gt_disposition := SimulatedGitHubEffectDisposition.Applied;
           gt_recorded_at := po_observed_at (ge_observation_after_apply effect) |} in
      modify (λ s, set_pull_requests
        (<[pull_request := ge_observation_after_apply effect]> (gh_pull_requests s)) s) ;;
      count_effect pull_request ;;
      modify (λ s, set_key_by_pull_request
        (<[pull_request := ge_idempotency_key effect]> (gh_key_by_pull_request s)) s) ;;
      modify (λ s, set_gh_effects
        (<[ge_idempotency_key effect := mkGitHubEffectRecord effect receipt]> (gh_effects s)) s) ;;
      lost ← gets gh_lose_next_effect_response;
      if (lost : bool) then
        modify (set_lose_next_effect false) ;;
        pure_call (Failure (ForgeGatewayError.AmbiguousEffect (ge_idempotency_key effect)
                              (ge_effect_digest effect)))
      else mret receipt
  end.

Definition logical_pull_request_effect_count (p : PullRequestRef) (s : GitHubFakeState) : Z :=
  default 0 (gh_logical_effects s !! p).

Definition github_resolve_base_ref (r : ResolveBaseRefRequest) : hcall BaseRefObservation :=
  pure_call (ResolveBaseRefRequest_validate r) ;;
  refs ← gets gh_base_refs;
  observation ← pure_call (or_fail (refs !! (bq_repository r, bq_base_ref r))
                             ForgeGatewayError.BaseRefNotFound);
  pure_call (validate_for observation r) ;;
  mret observation.

Definition github_observe_pull_request (r : ObservePullRequestRequest) : hcall PullRequestObservation :=
  pure_call (ObservePullRequestRequest_validate r) ;;
  pulls ← gets gh_pull_requests;
  observation ← pure_call (or_fail (pulls !! pq_pull_request r) ForgeGatewayError.PullRequestNotFound);
  pure_call (PullRequestObservation_validate observation) ;;
  mret observation.

#[global] Instance github_gateway : ForgeGateway GitHubFakeState :=
  {| resolve_base_ref := github_resolve_base_ref; observe_pull_request := github_observe_pull_request |}.
End gateway.
