(* ===== verification/ForgeFacts.v ===== *)
(** Facts about the forge port of [ForgeGateway.v]: evidence is made exactly from
    an observation that shows every required check passed on the exact candidate,
    that evidence is what the evidence bundle and the source closure ask for, and
    the in-memory gateway applies an effect at most once. *)

From Stdlib Require Import ZArith Lia Ascii.
From stdpp Require Import base tactics option strings pretty numbers list gmap.
From S2P Require Import Prelude RustStr RustOrd Ids Authority WorkItem Crypto Governance Evidence Outcome SourceGateway ForgeGateway.

Section facts.
  Context {url : UrlCrate}.
  Implicit Types (o : PullRequestObservation) (r : ObservePullRequestRequest).

(** ** The exact candidate *)

(** The provider answered the request, and both sides are well formed. *)
Record answers o r : Prop := {
  aw_observation : PullRequestObservation_validate o = Success tt;
  aw_request : ObservePullRequestRequest_validate r = Success tt;
  aw_same : po_pull_request o = pq_pull_request r
}.

(** A check that succeeded on the candidate itself. *)
Definition passed_on o (candidate_sha context : string) : Prop :=
  po_ci o !! context = Some (mkRemoteCiObservation candidate_sha RemoteCiState.Success).

(** The pull request is the candidate on its base, open or merged, and all
    required checks passed on it. *)
Record delivers o r : Prop := {
  dl_usable : po_state o ≠ PullRequestState.Closed;
  dl_base : po_base_sha o = pq_expected_base_sha r;
  dl_head : po_head_sha o = pq_expected_candidate_sha r;
  dl_checks context : context ∈ pq_required_ci_contexts r →
    passed_on o (pq_expected_candidate_sha r) context
}.

Definition evidence_of o r : PullRequestEvidence :=
  mkPullRequestEvidence (pf_repository (po_pull_request o)) (pf_number (po_pull_request o)) (po_url o)
    (po_base_sha o) (po_head_sha o) (pq_required_ci_contexts r) (pq_required_ci_contexts r).

Lemma judged_passed o sha context : judge_context o sha context = Passed ↔ passed_on o sha context.
Proof.
  unfold judge_context, passed_on. destruct (po_ci o !! context) as [[sha' state]|]; [|done]. simpl.
  case_bool_decide as E; simpl; [|naive_solver]. subst. destruct state; naive_solver.
Qed.

Lemma elem_of_judged o r v context :
  context ∈ contexts_judged o r v ↔ context ∈ pq_required_ci_contexts r ∧
    judge_context o (pq_expected_candidate_sha r) context = v.
Proof.
  unfold contexts_judged. rewrite elem_of_bs_of_list, elem_of_filter_bool, bool_decide_eq_true. done.
Qed.

Lemma judged_empty o r v :
  bs_is_empty (contexts_judged o r v) = true ↔ ∀ context, context ∈ pq_required_ci_contexts r →
    judge_context o (pq_expected_candidate_sha r) context ≠ v.
Proof.
  rewrite bs_is_empty_true. setoid_rewrite elem_of_judged. naive_solver.
Qed.

Lemma assess_answers o r a :
  assess_exact_candidate o r = Success a ↔ answers o r ∧
  a = {| as_pull_request_usable := usable_for_pr_closure (po_state o);
         as_base_matches := bool_decide (po_base_sha o = pq_expected_base_sha r);
         as_head_matches := bool_decide (po_head_sha o = pq_expected_candidate_sha r);
         as_missing_contexts := contexts_judged o r Missing;
         as_stale_contexts := contexts_judged o r Stale;
         as_pending_contexts := contexts_judged o r Pending;
         as_unsuccessful_contexts := contexts_judged o r Unsuccessful |}.
Proof.
  unfold assess_exact_candidate. rewrite !obind_unit_success, refuse_if_success, negb_false_iff, bool_decide_eq_true.
  split; [intros (? & ? & ? & [= <-]); done|intros [[] ->]; done].
Qed.

Lemma satisfied_delivers o r a : assess_exact_candidate o r = Success a → satisfied a = true ↔ delivers o r.
Proof.
  intros [_ ->]%assess_answers. unfold satisfied. cbn -[contexts_judged].
  rewrite !andb_true_iff, !bool_decide_eq_true, !judged_empty. split.
  - intros [[[[[[Hu Hb] Hh] Hm] Hs] Hp] Hf]. split; [by destruct (po_state o)|done..|].
    intros context Hc. apply judged_passed.
    specialize (Hm _ Hc). specialize (Hs _ Hc). specialize (Hp _ Hc). specialize (Hf _ Hc).
    by destruct (judge_context _ _ _).
  - intros [Hu Hb Hh Hc]. repeat split; try done; [by destruct (po_state o)|..];
      intros context Hin; rewrite (proj2 (judged_passed _ _ _) (Hc _ Hin)); done.
Qed.

(** What each verdict says of the check. *)
Lemma judged_reason o sha context v :
  judge_context o sha context = v ↔
  match v with
  | Missing => po_ci o !! context = None
  | Stale => ∃ x, po_ci o !! context = Some x ∧ ci_candidate_sha x ≠ sha
  | Pending => ∃ x, po_ci o !! context = Some x ∧ ci_candidate_sha x = sha ∧
      (ci_state x = RemoteCiState.Queued ∨ ci_state x = RemoteCiState.InProgress)
  | Unsuccessful => ∃ x, po_ci o !! context = Some x ∧ ci_candidate_sha x = sha ∧
      ci_state x ∈ [RemoteCiState.Failure; RemoteCiState.Cancelled; RemoteCiState.Skipped; RemoteCiState.Neutral]
  | Passed => passed_on o sha context
  end.
Proof.
  destruct v; [..|apply judged_passed]; unfold judge_context;
    (destruct (po_ci o !! context) as [[sha' state]|]; simpl; [|naive_solver]);
    (case_bool_decide as E; simpl; [destruct state; simpl|]);
    setoid_rewrite elem_of_cons || idtac; split; try naive_solver.
  all: try (intros _; eexists; split; [done|]; split; [done|]; set_solver).
  all: intros (x & [= <-] & _ & H); set_solver.
Qed.

Lemma exact_candidate_success o r e :
  exact_candidate_evidence o r = Success e ↔ answers o r ∧ delivers o r ∧ e = evidence_of o r.
Proof.
  unfold exact_candidate_evidence. split.
  - intros (a & Ha & H)%obind_success. apply obind_unit_success in H as [Hs [= <-]].
    rewrite refuse_if_success, negb_false_iff in Hs. apply (satisfied_delivers _ _ _ Ha) in Hs.
    by apply assess_answers in Ha as [? _].
  - intros (Haw & Hd & ->). pose proof (proj2 (assess_answers o r _) (conj Haw eq_refl)) as Ha.
    rewrite Ha. simpl. by rewrite (proj2 (satisfied_delivers _ _ _ Ha) Hd).
Qed.

(** Evidence of a pull request is made exactly from an observation that
    answers the request and shows the exact candidate on its base, open or merged,
    with every required check passed on that commit; when the observation answers
    but does not show it, the refusal lists each required check that did not pass
    under exactly one reason, and nothing else. *)
Lemma exact_candidate_exact o r :
  (∀ e, exact_candidate_evidence o r = Success e ↔ answers o r ∧ delivers o r ∧ e = evidence_of o r) ∧
  (answers o r → ¬ delivers o r → ∃ a,
     exact_candidate_evidence o r = Failure (ForgeGatewayError.ExactCandidateNotSatisfied a) ∧
     (∀ c, c ∈ as_missing_contexts a ↔ c ∈ pq_required_ci_contexts r ∧ po_ci o !! c = None) ∧
     (∀ c, c ∈ as_stale_contexts a ↔ c ∈ pq_required_ci_contexts r ∧ ∃ x, po_ci o !! c = Some x ∧
        ci_candidate_sha x ≠ pq_expected_candidate_sha r) ∧
     (∀ c, c ∈ as_pending_contexts a ↔ c ∈ pq_required_ci_contexts r ∧ ∃ x, po_ci o !! c = Some x ∧
        ci_candidate_sha x = pq_expected_candidate_sha r ∧
        (ci_state x = RemoteCiState.Queued ∨ ci_state x = RemoteCiState.InProgress)) ∧
     (∀ c, c ∈ as_unsuccessful_contexts a ↔ c ∈ pq_required_ci_contexts r ∧ ∃ x, po_ci o !! c = Some x ∧
        ci_candidate_sha x = pq_expected_candidate_sha r ∧
        ci_state x ∈ [RemoteCiState.Failure; RemoteCiState.Cancelled; RemoteCiState.Skipped; RemoteCiState.Neutral])).
Proof.
  split; [intros e; apply exact_candidate_success|].
  unfold exact_candidate_evidence.
  intros Haw Hd. pose proof (proj2 (assess_answers o r _) (conj Haw eq_refl)) as Ha.
  eexists. split.
  { rewrite Ha. simpl. destruct (satisfied _) eqn:Hs; [|done]. by apply (satisfied_delivers _ _ _ Ha) in Hs. }
  cbn -[contexts_judged]. repeat split_and!; intros c; rewrite elem_of_judged, judged_reason; done.
Qed.

(** The observation closes the chain from the forge to the source: evidence
    that ASF makes from its own observation of the expected candidate passes the
    pull-request check of the evidence bundle for the same commits and checks, and
    a pull-request closure that carries it, with an evidence digest and a summary,
    is a valid closure of the source. *)
Lemma forge_evidence_accepted `{Ed25519} o r e :
  (∀ s, blank s = true → ∃ error, url_parse s = inl error) →
  exact_candidate_evidence o r = Success e → blank (pf_repository (pq_pull_request r)) = false →
  (∀ bundle x, eb_pull_request bundle = Some e → ex_independently_observed_pull_request x = Some e →
     eb_candidate_sha bundle = pq_expected_candidate_sha r → eb_base_sha bundle = pq_expected_base_sha r →
     (∀ c : string, c ∈ ex_required_ci_contexts x → c ∈ pq_required_ci_contexts r) →
     verify_pull_request bundle x = Ok tt) ∧
  (∀ closure, sl_target closure = ClosureTarget.PullRequest → sl_pull_request closure = Some e →
     blank (sl_evidence_digest closure) = false → blank (sl_final_outcome_summary closure) = false →
     SourceClosure_validate closure = Success tt).
Proof.
  intros Hurl He Hrepo. apply exact_candidate_success in He as (Haw & Hd & ->). split.
  - intros bundle x Hb Hx Hc Hbase Hci. unfold verify_pull_request.
    case_bool_decide; [|done]. rewrite Hb. simpl.
    rewrite (bool_decide_true (po_head_sha o = _)) by (rewrite Hc; apply Hd).
    rewrite (bool_decide_true (po_base_sha o = _)) by (rewrite Hbase; apply Hd).
    rewrite (proj2 (bs_is_subset_true _ _) Hci). simpl. by rewrite bool_decide_true.
  - intros closure Ht Hp Hdg Hsum. unfold SourceClosure_validate. rewrite Ht, Hdg, Hsum, Hp. simpl.
    destruct Haw as [Hv _ Hsame]. unfold PullRequestObservation_validate in Hv.
    rewrite !obind_unit_success, !refuse_if_success, !orb_false_iff, !negb_false_iff in Hv.
    destruct Hv as (_ & Href & [[[[[Hu Hbase] Hhead] _] _] _] & _).
    unfold PullRequestRef_validate in Href. rewrite refuse_if_success, !orb_false_iff in Href.
    destruct Href as [_ Hn]. unfold valid_revision in Hbase, Hhead.
    rewrite andb_true_iff, !negb_true_iff in Hbase, Hhead. rewrite Hsame in Hn |- *.
    rewrite Hrepo, Hn, (proj1 Hbase), (proj1 Hhead), (proj2 (bs_is_subset_true _ _)) by done. simpl.
    destruct (blank (po_url o)) eqn:Hb; [|done]. destruct (Hurl _ Hb) as [error He].
    unfold safe_http_url in Hu. by rewrite He in Hu.
Qed.
End facts.

(** ** Effects on the in-memory gateway *)

Section effects.
  Context {url : UrlCrate} {hashing : Hashing} {observation_jcs : Canonical PullRequestObservation}.
  Implicit Types (s : GitHubFakeState) (e : SimulatedGitHubPullRequestEffect).

(** The calls that may change the state. *)
Inductive forge_call :=
| SetBaseRef (o : BaseRefObservation)
| SetObservation (o : PullRequestObservation)
| LoseEffectReply
| ApplyEffect (e : SimulatedGitHubPullRequestEffect).

Definition perform_forge s (c : forge_call) : GitHubFakeState :=
  match c with
  | SetBaseRef o => (set_base_ref_observation o s).1
  | SetObservation o => (set_observation o s).1
  | LoseEffectReply => (lose_next_effect_response s).1
  | ApplyEffect e => (apply_pull_request_effect e s).1
  end.

Definition perform_forge_all (l : list forge_call) s : GitHubFakeState := foldl perform_forge s l.

(** The observations are well formed and stored under their own coordinates, and
    each pull request with an effect has exactly the one its key names. *)
Record forge_ok s : Prop := {
  fk_refs key o : gh_base_refs s !! key = Some o →
    BaseRefObservation_validate o = Success tt ∧ key = (bo_repository o, bo_base_ref o);
  fk_pulls p o : gh_pull_requests s !! p = Some o →
    PullRequestObservation_validate o = Success tt ∧ p = po_pull_request o;
  fk_effects key x : gh_effects s !! key = Some x → ge_idempotency_key (gr_effect x) = key ∧
    gt_pull_request (gr_receipt x) = po_pull_request (ge_observation_after_apply (gr_effect x)) ∧
    gh_key_by_pull_request s !! po_pull_request (ge_observation_after_apply (gr_effect x)) = Some key;
  fk_keys p key : gh_key_by_pull_request s !! p = Some key → ∃ x, gh_effects s !! key = Some x ∧
    po_pull_request (ge_observation_after_apply (gr_effect x)) = p;
  fk_counts p : gh_logical_effects s !! p = (λ _, 1) <$> gh_key_by_pull_request s !! p
}.

Lemma forge_default_ok : forge_ok GitHubFakeState_default.
Proof. split; simpl; intros *; rewrite ?lookup_empty; done. Qed.

Definition applied_effect_receipt e : SimulatedGitHubPullRequestReceipt :=
  {| gt_schema := SIMULATED_GITHUB_PULL_REQUEST_RECEIPT_SCHEMA_V1;
     gt_idempotency_key := ge_idempotency_key e; gt_effect_digest := ge_effect_digest e;
     gt_pull_request := po_pull_request (ge_observation_after_apply e);
     gt_disposition := SimulatedGitHubEffectDisposition.Applied;
     gt_recorded_at := po_observed_at (ge_observation_after_apply e) |}.

(** The state after an effect was applied. *)
Definition with_effect e s : GitHubFakeState :=
  let p := po_pull_request (ge_observation_after_apply e) in
  mkGitHubFakeState (gh_base_refs s) (<[p := ge_observation_after_apply e]> (gh_pull_requests s))
    (<[ge_idempotency_key e := mkGitHubEffectRecord e (applied_effect_receipt e)]> (gh_effects s))
    (<[p := ge_idempotency_key e]> (gh_key_by_pull_request s)) (<[p := 1]> (gh_logical_effects s)) false.

(** A result that is no crash and no ambiguous effect. *)
Definition settled_result {A} (m : ForgeResult A) : Prop :=
  match m with
  | Success _ => True
  | Failure error => ∀ k d, error ≠ ForgeGatewayError.AmbiguousEffect k d
  | Crash => False
  end.

Lemma settled_bind {A B} (m : ForgeResult A) (f : A → ForgeResult B) :
  settled_result m → (∀ a, settled_result (f a)) → settled_result (m ≫= f).
Proof. destruct m; simpl; auto. Qed.

Lemma settled_refuse b error :
  settled_result (Failure (A := ()) error) → settled_result (refuse_if b error).
Proof. by destruct b. Qed.

Lemma effect_validate_settled e : settled_result (Effect_validate e).
Proof.
  unfold Effect_validate, PullRequestObservation_validate, PullRequestRef_validate, digest_observation,
    canonical_json.
  repeat first [by apply settled_refuse|apply settled_bind; [|intros ?]].
  all: try done. by destruct (to_jcs _).
Qed.

(** An effect is refused, adopted or applied. *)
Lemma effect_cases e s s' o : forge_ok s →
  apply_pull_request_effect e s = (s', o) →
  (s' = s ∧ ∃ error, o = Failure error ∧ ∀ k d, error ≠ ForgeGatewayError.AmbiguousEffect k d) ∨
  (s' = s ∧ Effect_validate e = Success tt ∧ ∃ receipt,
     gh_effects s !! ge_idempotency_key e = Some (mkGitHubEffectRecord e receipt) ∧
     o = Success (adopted_effect receipt)) ∨
  (s' = with_effect e s ∧ Effect_validate e = Success tt ∧
     gh_effects s !! ge_idempotency_key e = None ∧
     gh_key_by_pull_request s !! po_pull_request (ge_observation_after_apply e) = None ∧
     o = if gh_lose_next_effect_response s
         then Failure (ForgeGatewayError.AmbiguousEffect (ge_idempotency_key e) (ge_effect_digest e))
         else Success (applied_effect_receipt e)).
Proof.
  intros Hok. unfold apply_pull_request_effect, mbind at 1, call_bind at 1, pure_call at 1.
  destruct (Effect_validate e) as [[]|error|] eqn:Hv;
    pose proof (effect_validate_settled e) as Hs; rewrite Hv in Hs; simpl in Hs;
    [|intros [= <- <-]; left; eauto|done].
  unfold mbind at 1, call_bind at 1, gets at 1.
  destruct (gh_effects s !! ge_idempotency_key e) as [[e' receipt]|] eqn:Hk.
  - unfold adopt_effect, pure_call. simpl.
    destruct (bool_decide (ge_effect_digest e' = _)); simpl; [|intros [= <- <-]; left; eauto].
    destruct (bool_decide (e' = e)) eqn:E; simpl; [|intros [= <- <-]; left; eauto].
    apply bool_decide_eq_true in E as ->. intros [= <- <-]. right. left. eauto.
  - unfold mbind, call_bind, gets, pure_call, modify, count_effect. simpl.
    destruct (gh_key_by_pull_request s !! _) as [key|] eqn:Hp; simpl; [intros [= <- <-]; left; eauto|].
    pose proof (fk_counts _ Hok (po_pull_request (ge_observation_after_apply e))) as Hc.
    rewrite Hp in Hc. destruct s as [refs pulls effects keys counts lost]. simpl in *.
    unfold mbind, call_bind, gets, modify. simpl. rewrite Hc. simpl.
    destruct lost; simpl; intros [= <- <-]; right; right; done.
Qed.

Lemma stored_effect_adopted e s receipt : Effect_validate e = Success tt →
  gh_effects s !! ge_idempotency_key e = Some (mkGitHubEffectRecord e receipt) →
  apply_pull_request_effect e s = (s, Success (adopted_effect receipt)).
Proof.
  intros Hv Hk. unfold apply_pull_request_effect, mbind, call_bind, pure_call, gets. rewrite Hv, Hk.
  unfold adopt_effect. simpl. by rewrite !bool_decide_true.
Qed.

Lemma with_effect_ok e s : forge_ok s → Effect_validate e = Success tt →
  gh_effects s !! ge_idempotency_key e = None →
  gh_key_by_pull_request s !! po_pull_request (ge_observation_after_apply e) = None →
  forge_ok (with_effect e s).
Proof.
  intros Hok Hv Hk Hp. split; simpl.
  - apply (fk_refs _ Hok).
  - intros p o. rewrite lookup_insert_Some. intros [[<- <-]|[_ Ho]]; [|by apply (fk_pulls _ Hok)].
    unfold Effect_validate in Hv. rewrite !obind_unit_success in Hv. split; [apply Hv|done].
  - intros key x. rewrite lookup_insert_Some. intros [[<- <-]|[Hne Hx]]; simpl; [by rewrite lookup_insert_eq|].
    destruct (fk_effects _ Hok _ _ Hx) as (? & ? & Hkey). do 2 (split; [done|]).
    rewrite lookup_insert_ne; [done|]. intros E. rewrite <- E in Hkey. congruence.
  - intros p key. rewrite lookup_insert_Some. intros [[<- <-]|[Hne Hx]]; [rewrite lookup_insert_eq; by eexists|].
    destruct (fk_keys _ Hok _ _ Hx) as (x & Hx' & ?). exists x. split; [|done].
    rewrite lookup_insert_ne; [done|]. intros E. rewrite E in Hk. congruence.
  - intros p. destruct (decide (p = po_pull_request (ge_observation_after_apply e))) as [->|Hne].
    + by rewrite !lookup_insert_eq.
    + rewrite !lookup_insert_ne by done. apply (fk_counts _ Hok).
Qed.

Lemma perform_forge_ok c s : forge_ok s → forge_ok (perform_forge s c) ∧
  ∀ key x, gh_effects s !! key = Some x → gh_effects (perform_forge s c) !! key = Some x.
Proof.
  intros Hok. destruct c as [o|o| |e]; simpl.
  - unfold set_base_ref_observation, mbind, call_bind, pure_call, modify.
    destruct (BaseRefObservation_validate o) as [[]| |] eqn:Hv; [|done..]. destruct s; simpl. split; [|done].
    destruct Hok as [H1 H2 H3 H4 H5]. split; simpl in *; try done.
    intros key x. rewrite lookup_insert_Some. intros [[<- <-]|[_ ?]]; [done|by apply H1].
  - unfold set_observation, mbind, call_bind, pure_call, modify.
    destruct (PullRequestObservation_validate o) as [[]| |] eqn:Hv; [|done..]. destruct s; simpl. split; [|done].
    destruct Hok as [H1 H2 H3 H4 H5]. split; simpl in *; try done.
    intros p x. rewrite lookup_insert_Some. intros [[<- <-]|[_ ?]]; [done|by apply H2].
  - destruct s. split; [|done]. by destruct Hok; split.
  - destruct (apply_pull_request_effect e s) as [s' o] eqn:H. simpl.
    apply (effect_cases _ _ _ _ Hok) in H as [[-> _]|[(-> & _)|(-> & Hv & Hk & Hp & _)]]; [done..|].
    split; [by apply with_effect_ok|]. intros key x Hx. simpl. rewrite lookup_insert_ne; [done|].
    intros E. rewrite E in Hk. congruence.
Qed.

Lemma perform_forge_all_ok l s : forge_ok s → forge_ok (perform_forge_all l s) ∧
  ∀ key x, gh_effects s !! key = Some x → gh_effects (perform_forge_all l s) !! key = Some x.
Proof.
  unfold perform_forge_all. revert s. induction l as [|c l IH]; intros s Hok; simpl; [done|].
  destruct (perform_forge_ok c s Hok) as [H1 H2]. destruct (IH _ H1) as [H3 H4]. eauto.
Qed.

(** The in-memory GitHub gateway, after any calls: a pull request has had no
    effect or one; an effect that succeeded or whose reply was lost is adopted,
    with nothing changed, by the same request after any further calls; another
    failure changed nothing; and a branch or pull request that is observed is a
    well formed observation of exactly what was asked for. *)
Lemma forge_effect_once l e s' o :
  let s := perform_forge_all l GitHubFakeState_default in
  apply_pull_request_effect e s = (s', o) →
  (∀ p, logical_pull_request_effect_count p s = 0 ∨ logical_pull_request_effect_count p s = 1) ∧
  match o with
  | Success _ | Failure (ForgeGatewayError.AmbiguousEffect _ _) => ∃ receipt, ∀ more,
      let s2 := perform_forge_all more s' in
      apply_pull_request_effect e s2 = (s2, Success (adopted_effect receipt)) ∧
      gt_pull_request receipt = po_pull_request (ge_observation_after_apply e)
  | Failure _ => s' = s
  | Crash => False
  end ∧
  (∀ q x, (observe_pull_request q s).2 = Success x →
     PullRequestObservation_validate x = Success tt ∧ po_pull_request x = pq_pull_request q) ∧
  (∀ q x, (resolve_base_ref q s).2 = Success x → validate_for x q = Success tt).
Proof.
  intros s H. destruct (perform_forge_all_ok l _ forge_default_ok) as [Hok _]. fold s in Hok.
  split; [|split; [|split]].
  - intros p. unfold logical_pull_request_effect_count. rewrite (fk_counts _ Hok).
    destruct (gh_key_by_pull_request s !! p); auto.
  - assert (∀ receipt, forge_ok s' → Effect_validate e = Success tt →
      gh_effects s' !! ge_idempotency_key e = Some (mkGitHubEffectRecord e receipt) →
      ∃ receipt, ∀ more, let s2 := perform_forge_all more s' in
        apply_pull_request_effect e s2 = (s2, Success (adopted_effect receipt)) ∧
        gt_pull_request receipt = po_pull_request (ge_observation_after_apply e)) as Hstored.
    { intros receipt Hok' Hv Hk. exists receipt. intros more s2.
      destruct (perform_forge_all_ok more s' Hok') as [Hok2 Hkeep]. fold s2 in Hok2, Hkeep.
      apply Hkeep in Hk. split; [by apply stored_effect_adopted|].
      by destruct (fk_effects _ Hok2 _ _ Hk) as (_ & ? & _). }
    apply (effect_cases _ _ _ _ Hok) in H as [[-> (error & -> & Hne)]|[(-> & Hv & receipt & Hk & ->)|(-> & Hv & Hk & Hp & ->)]].
    + destruct error as [| | | | | | | |k d| |]; try done. by destruct (Hne k d).
    + by eapply Hstored.
    + pose proof (with_effect_ok _ _ Hok Hv Hk Hp) as Hok'.
      assert (gh_effects (with_effect e s) !! ge_idempotency_key e
        = Some (mkGitHubEffectRecord e (applied_effect_receipt e))) as Hk' by (simpl; by rewrite lookup_insert_eq).
      destruct (gh_lose_next_effect_response s); by eapply Hstored.
  - intros q x. simpl. unfold github_observe_pull_request, mbind, call_bind, pure_call, gets.
    destruct (ObservePullRequestRequest_validate q) as [[]| |]; [|done..].
    destruct (gh_pull_requests s !! pq_pull_request q) as [y|] eqn:Hy; [|done].
    destruct (fk_pulls _ Hok _ _ Hy) as [Hv E]. simpl. rewrite Hv. simpl. intros [= <-]. done.
  - intros q x. simpl. unfold github_resolve_base_ref, mbind, call_bind, pure_call, gets.
    destruct (ResolveBaseRefRequest_validate q) as [[]| |]; [|done..].
    destruct (gh_base_refs s !! _) as [y|]; [|done]. simpl.
    destruct (validate_for y q) as [[]| |] eqn:Hv; [|done..]. by intros [= <-].
Qed.
End effects.

(** ** A pull request *)

Module Sample.
#[local] Existing Instance sample_hashing.
#[local] Existing Instance sample_ed25519.

(** A web address with a host, or nothing. *)
#[local] Instance url : UrlCrate :=
  {| url_parse s := if starts_with "https://" s then inr (mkUrl "https" (Some "host") "" None None None)
                    else inl "relative URL without a base" |}.
#[local] Instance observation_jcs : Canonical PullRequestObservation :=
  {| to_jcs o := inr (bytes (po_provider_revision o)) |}.

Lemma blank_is_no_url s : blank s = true → ∃ error, url_parse s = inl error.
Proof.
  intros Hb. simpl. destruct s as [|c s]; [by eexists|]. unfold starts_with. cbn [String.prefix].
  destruct (ascii_dec _ c) as [<-|Hn]; [by rewrite blank_head in Hb|by eexists].
Qed.

Definition pull : PullRequestRef := mkPullRequestRef "acme/app" 7.

Definition observation : PullRequestObservation :=
  {| po_schema := PULL_REQUEST_OBSERVATION_SCHEMA_V1; po_pull_request := pull;
     po_url := "https://github.test/acme/app/pull/7"; po_state := PullRequestState.Open;
     po_base_sha := "base-sha"; po_head_sha := "candidate-sha"; po_merge_sha := None;
     po_ci := {[ "build" := mkRemoteCiObservation "candidate-sha" RemoteCiState.Success ]};
     po_provider_revision := "github:pr-7:v1"; po_observed_at := 5 |}.

Definition request : ObservePullRequestRequest :=
  ObservePullRequestRequest_new pull "base-sha" "candidate-sha" (bs_of_list ["build"]).

Definition evidence : PullRequestEvidence :=
  mkPullRequestEvidence "acme/app" 7 "https://github.test/acme/app/pull/7" "base-sha" "candidate-sha"
    (bs_of_list ["build"]) (bs_of_list ["build"]).

Lemma evidence_made : exact_candidate_evidence observation request = Success evidence.
Proof. vm_compute. reflexivity. Qed.

Definition closure : SourceClosure :=
  mkSourceClosure 2%N ClosureTarget.PullRequest (Some evidence) 4%N "sha256:e" "delivered" None None.

Lemma forge_evidence_accepted_witness : SourceClosure_validate closure = Success tt.
Proof.
  destruct (forge_evidence_accepted observation request evidence blank_is_no_url evidence_made) as [_ H].
  - reflexivity.
  - apply H; reflexivity.
Defined.

Definition effect : SimulatedGitHubPullRequestEffect :=
  match Effect_new "open-7" observation with
  | Success e => e
  | Failure _ | Crash => mkSimulatedGitHubPullRequestEffect "" "" "" observation
  end.

(** The reply of the effect is lost and the same request finds it. *)
Lemma forge_effect_once_witness : ∃ s o receipt,
  apply_pull_request_effect effect (perform_forge_all [LoseEffectReply] GitHubFakeState_default) = (s, o) ∧
  (∃ key digest, o = Failure (ForgeGatewayError.AmbiguousEffect key digest)) ∧
  apply_pull_request_effect effect s = (s, Success (adopted_effect receipt)).
Proof.
  assert (match (apply_pull_request_effect effect
      (perform_forge_all [LoseEffectReply] GitHubFakeState_default)).2 with
    | Failure (ForgeGatewayError.AmbiguousEffect _ _) => true | _ => false end = true) as Hl
    by (vm_compute; reflexivity).
  destruct (apply_pull_request_effect effect (perform_forge_all [LoseEffectReply] GitHubFakeState_default))
    as [s o] eqn:H.
  destruct (forge_effect_once [LoseEffectReply] effect s o H) as (_ & Ho & _).
  destruct o as [|[| | | | | | | |key digest| |]|]; try discriminate Hl.
  destruct Ho as [receipt Ho]. exists s. eexists. exists receipt.
  split; [reflexivity|]. split; [eauto|]. apply (Ho []).
Defined.

(** Names that Git refuses. *)
Example base_refs :
  valid_base_ref "refs/heads/release/1.0" = true ∧ valid_base_ref "main" = false ∧
  valid_base_ref "refs/heads/a..b" = false ∧ valid_base_ref "refs/heads/x.lock" = false ∧
  valid_base_ref "refs/heads/feature/" = false ∧ valid_base_ref "refs/heads/.hidden" = false.
Proof. vm_compute. repeat split; reflexivity. Qed.
End Sample.
