(* ===== verification/DeadLetter.v ===== *)
(** The failure of a workflow step, [src/src/ledger/steps.rs]: a failure is written
    under the claim of the job, and the failure that uses the last attempt also
    opens or merges an escalation with an owner, moves the work item and the
    workflow, replaces the anchor and appends an outbox message and an audit
    event, all in one transaction.

    [DeadLetterTables] adds to the tables of [Steps] the escalations and the
    column of the job table that only this path writes.  A row is kept as it is
    read back.  [between] are escalations that other transactions commit between
    the lookup and the insert, which is the race that the code handles.  Foreign
    keys and the triggers of later migrations are left out. *)

From Stdlib Require Import ZArith Lia Ascii.
From stdpp Require Import base tactics option strings pretty numbers list gmap.
From S2P Require Import Prelude RustStr RustOrd Ids Crypto Security AuditChain RunEvents JobQueue RunmillOrder Steps.

(** ** JSON *)

(** [value.get(key)] and [value -> 'key']. *)
Definition field (key : string) (v : Value) : option Value :=
  match v with
  | Object fields => snd <$> find (λ f, bool_decide (f.1 = key)) fields
  | _ => None
  end.

Definition is_array (v : Value) : bool := match v with Array _ => true | _ => false end.

(** [Map::insert] of a map that keeps its insertion order. *)
Fixpoint map_insert (key : string) (value : Value) (fields : list (string * Value))
  : list (string * Value) :=
  match fields with
  | [] => [(key, value)]
  | (k, v) :: rest =>
      if bool_decide (k = key) then (k, value) :: rest else (k, v) :: map_insert key value rest
  end.

Definition insert_all_fields (new : list (string * Value)) (fields : list (string * Value))
  : list (string * Value) := foldl (λ acc f, map_insert f.1 f.2 acc) fields new.

(** What [->>] gives for a value, and the serialized form of a time. *)
Class JsonbText := {
  jsonb_text : Value → option string;
  jsonb_text_string s : jsonb_text (VString s) = Some s
}.
Class DateTimeText := { datetime_to_string : DateTime → string }.

Definition newline : string := String "010"%char EmptyString.

(** ** Records *)

Record DeadLetterEscalation := mkDeadLetterEscalation {
  de_id : Uuid;
  de_run_id : option Uuid;
  de_category : string;
  de_severity : string;
  de_reason : string;
  de_owner_type : string;
  de_owner_id : string;
  de_required_action : string;
  de_evidence_references : Value;
  de_deadline : DateTime;
  de_escalation_path : Value;
  de_retry_policy : Value;
  de_prerequisites : Value;
  de_authority_or_effect_active : bool;
  de_idempotency_key : string;
  de_opened_at : DateTime;
  de_audit_event : StepAuditEvent;
  de_outbox_message : StepOutboxMessage
}.

Definition validate_escalation_category (category : string) : res unit :=
  bail_if (negb (mem category
    [ "NEEDS_SPEC"; "NEEDS_APPROVAL"; "BLOCKED_DEPENDENCY"; "BLOCKED_EXTERNAL";
      "IDENTITY_UNAVAILABLE"; "WORKER_UNAVAILABLE"; "VERIFICATION_FAILED"; "REVIEW_BLOCKED";
      "CI_FAILED"; "REMOTE_EFFECT_AMBIGUOUS"; "BUDGET_EXHAUSTED"; "PROVIDER_REFUSED";
      "POLICY_REFUSED"; "WORKFLOW_JOB_EXHAUSTED"; "QUARANTINED"; "SECURITY_INCIDENT" ]))
    (Validation [Lit "unsupported escalation category "; Disp category]).

Definition validate_escalation_severity (severity : string) : res unit :=
  bail_if (negb (mem severity ["INFO"; "LOW"; "MEDIUM"; "HIGH"; "CRITICAL"]))
    (Validation [Lit "unsupported escalation severity "; Disp severity]).

Definition validate_owner_type (owner_type : string) : res unit :=
  bail_if (negb (mem owner_type ["PERSON"; "TEAM"; "ON_CALL"]))
    (Validation [Lit "unsupported escalation owner type "; Disp owner_type]).

Definition DeadLetterEscalation_validate (e : DeadLetterEscalation) : res unit :=
  bail_if (is_nil (de_id e) || blank (de_reason e) || blank (de_owner_id e)
           || blank (de_required_action e) || blank (de_idempotency_key e))
    (Validation [Lit "dead-letter escalation requires an ID, reason, owner, action, and idempotency key"]) ;;
  validate_escalation_category (de_category e) ;;
  bail_if (negb (bool_decide (de_category e = "WORKFLOW_JOB_EXHAUSTED")))
    (Validation [Lit "dead-letter escalation category must be WORKFLOW_JOB_EXHAUSTED"]) ;;
  validate_escalation_severity (de_severity e) ;;
  validate_owner_type (de_owner_type e) ;;
  bail_if (negb (is_array (de_evidence_references e)) || negb (is_array (de_escalation_path e))
           || negb (is_object (de_retry_policy e)) || negb (is_array (de_prerequisites e)))
    (Validation [Lit "dead-letter escalation JSON fields have invalid shapes"]) ;;
  bail_if (de_deadline e <=? de_opened_at e)
    (Validation [Lit "dead-letter escalation deadline must follow its opening time"]) ;;
  validate_audit (de_audit_event e) ;;
  validate_outbox (de_outbox_message e).

Record WorkflowStepFailure := mkWorkflowStepFailure {
  sl_fence : WorkflowStepFence;
  sl_error_summary : string;
  sl_retry_at : DateTime;
  sl_dead_letter : DeadLetterEscalation
}.

Definition WorkflowStepFailure_validate (f : WorkflowStepFailure) : res unit :=
  WorkflowStepFence_validate (sl_fence f) ;;
  bail_if (blank (sl_error_summary f))
    (Validation [Lit "workflow-step failure summary must be non-empty"]) ;;
  DeadLetterEscalation_validate (sl_dead_letter f).

Module WorkflowStepFailureDisposition.
Inductive WorkflowStepFailureDisposition := RetryScheduled | Escalated.
#[export] Instance eq_dec : EqDecision WorkflowStepFailureDisposition.
Proof. solve_decision. Defined.
End WorkflowStepFailureDisposition.
Abbreviation WorkflowStepFailureDisposition := WorkflowStepFailureDisposition.WorkflowStepFailureDisposition.
Export (hints) WorkflowStepFailureDisposition.

Record WorkflowStepFailureOutcome := mkWorkflowStepFailureOutcome {
  fo_disposition : WorkflowStepFailureDisposition;
  fo_newly_recorded : bool;
  fo_dead_letter_escalation_id : option Uuid
}.

(** A row of [escalations]. *)
Record EscalationRow := mkEscalationRow {
  es_id : Uuid;
  es_tenant_id : Uuid;
  es_work_item_id : Uuid;
  es_attempt_id : option Uuid;
  es_run_id : option Uuid;
  es_category : string;
  es_status : string;
  es_severity : string;
  es_reason : string;
  es_owner_type : string;
  es_owner_id : string;
  es_required_action : string;
  es_evidence_references : Value;
  es_deadline : DateTime;
  es_escalation_path : Value;
  es_retry_policy : Value;
  es_prerequisites : Value;
  es_authority_or_effect_active : bool;
  es_idempotency_key : string;
  es_aggregate_version : Z;
  es_opened_at : DateTime;
  es_acknowledged_at : option DateTime;
  es_closed_at : option DateTime
}.

Record EffectiveDeadLetterEscalation := mkEffectiveDeadLetterEscalation {
  ee_tenant_id : Uuid;
  ee_work_item_id : Uuid;
  ee_attempt_id : option Uuid;
  ee_status : string;
  ee_aggregate_version : Z;
  ee_acknowledged_at : option DateTime;
  ee_closed_at : option DateTime;
  ee_record : DeadLetterEscalation
}.

Module DeadLetterMutationDisposition.
Inductive DeadLetterMutationDisposition := Opened | AdoptedActive.
Definition as_str (d : DeadLetterMutationDisposition) : string := match d with Opened => "OPENED" | AdoptedActive => "ADOPTED_ACTIVE" end.
End DeadLetterMutationDisposition.
Abbreviation DeadLetterMutationDisposition := DeadLetterMutationDisposition.DeadLetterMutationDisposition.

Record DeadLetterMutation := mkDeadLetterMutation {
  dm_disposition : DeadLetterMutationDisposition;
  dm_before : option EffectiveDeadLetterEscalation;
  dm_after : EffectiveDeadLetterEscalation
}.

Record DeadLetterTables := mkDeadLetterTables {
  dt_steps : StepTables;
  dt_escalations : list EscalationRow;
  dt_dead_letters : gmap Uuid Uuid
}.

Definition is_active_escalation (e : EscalationRow) : bool := mem (es_status e) ["OPEN"; "ACKNOWLEDGED"].

(** [LOAD_ACTIVE_ESCALATION_SQL]. *)
Definition load_active_dead_letter (tenant_id work_item_id : Uuid) (attempt_id : option Uuid)
    (category : string) (rows : list EscalationRow) : option EscalationRow :=
  find (λ e, bool_decide (es_tenant_id e = tenant_id) && bool_decide (es_work_item_id e = work_item_id)
             && bool_decide (es_attempt_id e = attempt_id) && bool_decide (es_category e = category)
             && is_active_escalation e) rows.

(** The [RETURNING] row over the proposed escalation. *)
Definition effective_dead_letter_from_row (row : EscalationRow) (escalation : DeadLetterEscalation)
  : EffectiveDeadLetterEscalation :=
  {| ee_tenant_id := es_tenant_id row; ee_work_item_id := es_work_item_id row;
     ee_attempt_id := es_attempt_id row; ee_status := es_status row;
     ee_aggregate_version := es_aggregate_version row;
     ee_acknowledged_at := es_acknowledged_at row; ee_closed_at := es_closed_at row;
     ee_record :=
       {| de_id := es_id row; de_run_id := es_run_id row; de_category := es_category row;
          de_severity := es_severity row; de_reason := es_reason row;
          de_owner_type := es_owner_type row; de_owner_id := es_owner_id row;
          de_required_action := es_required_action row;
          de_evidence_references := es_evidence_references row; de_deadline := es_deadline row;
          de_escalation_path := es_escalation_path row; de_retry_policy := es_retry_policy row;
          de_prerequisites := es_prerequisites row;
          de_authority_or_effect_active := es_authority_or_effect_active row;
          de_idempotency_key := es_idempotency_key row; de_opened_at := es_opened_at row;
          de_audit_event := de_audit_event escalation;
          de_outbox_message := de_outbox_message escalation |} |}.

Section dead_letters.
  Context {pg : PgColumns} {jsonb : Jsonb} {uuids : UuidText} {hashing : Hashing}.
  Context {audit_jcs : Canonical AuditEventContent} {value_jcs : Canonical Value}.
  Context {jsonb_texts : JsonbText} {times : DateTimeText}.

(** ** The escalation *)

Definition job_marker (job_id : Uuid) : string := "[workflow-job:" +:+ uuid_to_string job_id +:+ "]".

Definition reason_fact (job_id : Uuid) (job_type error_digest : string) : string :=
  job_marker job_id +:+ " activity " +:+ job_type +:+ " exhausted with error digest "
  +:+ error_digest +:+ ".".

Definition action_fact (job_id : Uuid) (job_type error_digest : string) : string :=
  job_marker job_id +:+ " reconcile activity " +:+ job_type +:+ " and error digest " +:+ error_digest
  +:+ " before explicit retry, replacement, or cancellation.".

Definition exact_evidence (job_id : Uuid) (job_type error_digest : string) : list string :=
  [ "workflow-job:" +:+ uuid_to_string job_id;
    "workflow-job-type:" +:+ uuid_to_string job_id +:+ ":" +:+ job_type;
    "workflow-job-error:" +:+ uuid_to_string job_id +:+ ":" +:+ error_digest ].

(** [value.as_str() == Some(reference)]. *)
Definition is_string (reference : string) (v : Value) : bool :=
  match v with VString s => bool_decide (s = reference) | _ => false end.

Definition push_reference (evidence : list Value) (reference : string) : list Value :=
  if existsb (is_string reference) evidence then evidence else evidence ++ [VString reference].

(** [value.as_str().is_none_or(|value| value.trim().is_empty())]. *)
Definition bad_reference (v : Value) : bool := match v with VString s => blank s | _ => true end.

Definition no_retry (prerequisites : Value) : Value :=
  Object [("automatic", Bool false); ("max_additional_attempts", Number "0");
          ("backoff_seconds", Number "0"); ("prerequisites", prerequisites)].

Definition normalized_dead_letter (proposed : DeadLetterEscalation) (job_id : Uuid)
    (job_type error_digest : string) : res (DeadLetterEscalation * string * string) :=
  validate_digest error_digest "workflow-job error digest" ;;
  let marker := job_marker job_id in
  let reason := reason_fact job_id job_type error_digest in
  let action := action_fact job_id job_type error_digest in
  match de_evidence_references proposed with
  | Array evidence =>
      let evidence := foldl push_reference evidence (exact_evidence job_id job_type error_digest) in
      bail_if (existsb bad_reference evidence)
        (Validation [Lit "dead-letter evidence references must be non-empty strings"]) ;;
      let retry_prerequisites :=
        match field "prerequisites" (de_retry_policy proposed) with
        | Some (Array l) => Array l
        | _ => Array []
        end in
      Ok ({| de_id := de_id proposed; de_run_id := de_run_id proposed;
             de_category := de_category proposed;
             de_severity := if bool_decide (de_severity proposed = "CRITICAL") then "CRITICAL" else "HIGH";
             de_reason := if contains marker (de_reason proposed) then de_reason proposed
                          else de_reason proposed +:+ newline +:+ reason;
             de_owner_type := de_owner_type proposed; de_owner_id := de_owner_id proposed;
             de_required_action := if contains marker (de_required_action proposed)
                                   then de_required_action proposed
                                   else de_required_action proposed +:+ newline +:+ action;
             de_evidence_references := Array evidence; de_deadline := de_deadline proposed;
             de_escalation_path := de_escalation_path proposed;
             de_retry_policy := no_retry retry_prerequisites;
             de_prerequisites := de_prerequisites proposed; de_authority_or_effect_active := true;
             de_idempotency_key := de_idempotency_key proposed;
             de_opened_at := de_opened_at proposed; de_audit_event := de_audit_event proposed;
             de_outbox_message := de_outbox_message proposed |}, reason, action)
  | _ => Err (Validation [Lit "dead-letter evidence must be an array"])
  end.

(** The row of [INSERT_ESCALATION_SQL]. *)
Definition opened_row (tenant_id work_item_id : Uuid) (attempt_id : option Uuid)
    (e : DeadLetterEscalation) : EscalationRow :=
  {| es_id := de_id e; es_tenant_id := tenant_id; es_work_item_id := work_item_id;
     es_attempt_id := attempt_id; es_run_id := de_run_id e; es_category := de_category e;
     es_status := "OPEN"; es_severity := de_severity e; es_reason := de_reason e;
     es_owner_type := de_owner_type e; es_owner_id := de_owner_id e;
     es_required_action := de_required_action e;
     es_evidence_references := stored_value (de_evidence_references e);
     es_deadline := stored_at (de_deadline e);
     es_escalation_path := stored_value (de_escalation_path e);
     es_retry_policy := stored_value (de_retry_policy e);
     es_prerequisites := stored_value (de_prerequisites e);
     es_authority_or_effect_active := de_authority_or_effect_active e;
     es_idempotency_key := de_idempotency_key e; es_aggregate_version := 1;
     es_opened_at := stored_at (de_opened_at e); es_acknowledged_at := None; es_closed_at := None |}.

(** The constraints of the table on one row. *)
Definition escalation_checks (e : EscalationRow) : bool :=
  is_array (es_evidence_references e) && is_array (es_escalation_path e)
  && is_object (es_retry_policy e) && is_array (es_prerequisites e)
  && (es_opened_at e <? es_deadline e)
  && (is_none (es_run_id e) || is_some (es_attempt_id e)).

(** The unique index over active escalations, in which no attempt counts as the
    nil identifier. *)
Definition same_active (e x : EscalationRow) : bool :=
  bool_decide (es_tenant_id x = es_tenant_id e) && bool_decide (es_work_item_id x = es_work_item_id e)
  && bool_decide (default 0%N (es_attempt_id x) = default 0%N (es_attempt_id e))
  && bool_decide (es_category x = es_category e) && is_active_escalation x.

Definition insert_escalation (e : EscalationRow) (rows : list EscalationRow)
  : res (option (list EscalationRow)) :=
  let failed := Persistence [Lit "insert workflow dead-letter escalation"] in
  bail_if (negb (escalation_checks e)) failed ;;
  if existsb (same_active e) rows then Ok None
  else
    bail_if (existsb (λ x, bool_decide (es_id x = es_id e)
                           || (bool_decide (es_tenant_id x = es_tenant_id e)
                               && bool_decide (es_idempotency_key x = es_idempotency_key e))) rows)
      failed ;;
    Ok (Some (rows ++ [e])).

(** The references of [new] that the array does not contain. *)
Definition missing_references (new old : list Value) : list Value :=
  List.filter (λ v, negb (existsb (jsonb_eqb v) old)) new.

(** The row of [MERGE_ACTIVE_ESCALATION_SQL]. *)
Definition merged_row (proposed : DeadLetterEscalation) (reason action : string) (version : Z)
    (e : EscalationRow) : EscalationRow :=
  {| es_id := es_id e; es_tenant_id := es_tenant_id e; es_work_item_id := es_work_item_id e;
     es_attempt_id := es_attempt_id e; es_run_id := es_run_id e; es_category := es_category e;
     es_status := es_status e;
     es_severity := if bool_decide (es_severity e = "CRITICAL")
                       || bool_decide (de_severity proposed = "CRITICAL") then "CRITICAL" else "HIGH";
     es_reason := if contains reason (es_reason e) then es_reason e
                  else es_reason e +:+ newline +:+ reason;
     es_owner_type := es_owner_type e; es_owner_id := es_owner_id e;
     es_required_action := if contains action (es_required_action e) then es_required_action e
                           else es_required_action e +:+ newline +:+ action;
     es_evidence_references :=
       match es_evidence_references e, de_evidence_references proposed with
       | Array old, Array new => Array (old ++ missing_references new old)
       | v, _ => v
       end;
     es_deadline := Z.min (es_deadline e) (stored_at (de_deadline proposed));
     es_escalation_path := es_escalation_path e;
     es_retry_policy := no_retry
       (match field "prerequisites" (es_retry_policy e) with
        | Some (Array l) => Array l
        | _ => default Null (field "prerequisites" (de_retry_policy proposed))
        end);
     es_prerequisites := es_prerequisites e; es_authority_or_effect_active := true;
     es_idempotency_key := es_idempotency_key e; es_aggregate_version := version;
     es_opened_at := es_opened_at e; es_acknowledged_at := es_acknowledged_at e;
     es_closed_at := es_closed_at e |}.

Definition replace_escalation (e : EscalationRow) (rows : list EscalationRow) : list EscalationRow :=
  (λ x, if bool_decide (es_tenant_id x = es_tenant_id e) && bool_decide (es_id x = es_id e)
        then e else x) <$> rows.

Definition merge_active_dead_letter (row : EscalationRow) (proposed : DeadLetterEscalation)
    (reason action : string) (rows : list EscalationRow)
  : res (list EscalationRow * EffectiveDeadLetterEscalation) :=
  let failed := Persistence [Lit "merge active workflow dead-letter escalation"] in
  current ← ok_or (find (λ x, bool_decide (es_tenant_id x = es_tenant_id row)
                              && bool_decide (es_id x = es_id row) && is_active_escalation x) rows)
    (Conflict [Lit "active exhaustion escalation "; FmtUuid (es_id row);
               Lit " advanced during adoption"]);
  version ← ok_or (checked_add i64_max (es_aggregate_version current) 1) failed;
  let merged := merged_row proposed reason action version current in
  bail_if (negb (escalation_checks merged)) failed ;;
  Ok (replace_escalation merged rows, effective_dead_letter_from_row merged proposed).

(** The lookup, the insert that a concurrent one may beat, and the merge. *)
Definition insert_dead_letter_escalation (failure : WorkflowStepFailure) (attempt_id : option Uuid)
    (job_type error_digest : string) (between : list EscalationRow) (rows : list EscalationRow)
  : res (list EscalationRow * DeadLetterMutation) :=
  let f := sl_fence failure in
  '(escalation, reason, action) ←
    normalized_dead_letter (sl_dead_letter failure) (sf_job_id f) job_type error_digest;
  let load rows := load_active_dead_letter (sf_tenant_id f) (sf_work_item_id f) attempt_id
                     (de_category escalation) rows in
  let adopt row rows :=
    '(rows, after) ← merge_active_dead_letter row escalation reason action rows;
    Ok (rows, mkDeadLetterMutation DeadLetterMutationDisposition.AdoptedActive
                (Some (effective_dead_letter_from_row row escalation)) after) in
  match load rows with
  | Some row => adopt row rows
  | None =>
      let rows := rows ++ between in
      let row := opened_row (sf_tenant_id f) (sf_work_item_id f) attempt_id escalation in
      inserted ← insert_escalation row rows;
      match inserted with
      | Some rows =>
          Ok (rows, mkDeadLetterMutation DeadLetterMutationDisposition.Opened None
                      (effective_dead_letter_from_row row escalation))
      | None =>
          row ← ok_or (load rows)
            (Conflict [Lit "active exhaustion escalation for workflow job "; FmtUuid (sf_job_id f);
                       Lit " changed during adoption"]);
          adopt row rows
      end
  end.

(** ** Its record in the audit chain and the outbox *)

Definition uuid_value (u : Uuid) : Value := VString (uuid_to_string u).
Definition time_value (t : DateTime) : Value := VString (datetime_to_string t).
Definition option_value {A} (f : A → Value) (o : option A) : Value := from_option f Null o.

Definition dead_letter_escalation_fact (e : EffectiveDeadLetterEscalation) : Value :=
  let record := ee_record e in
  Object
    [ ("tenant_id", uuid_value (ee_tenant_id e)); ("work_item_id", uuid_value (ee_work_item_id e));
      ("attempt_id", option_value uuid_value (ee_attempt_id e)); ("id", uuid_value (de_id record));
      ("run_id", option_value uuid_value (de_run_id record)); ("category", VString (de_category record));
      ("status", VString (ee_status e)); ("severity", VString (de_severity record));
      ("reason", VString (de_reason record)); ("owner_type", VString (de_owner_type record));
      ("owner_id", VString (de_owner_id record));
      ("required_action", VString (de_required_action record));
      ("evidence_references", de_evidence_references record);
      ("deadline", time_value (de_deadline record)); ("escalation_path", de_escalation_path record);
      ("retry_policy", de_retry_policy record); ("prerequisites", de_prerequisites record);
      ("authority_or_effect_active", Bool (de_authority_or_effect_active record));
      ("idempotency_key", VString (de_idempotency_key record));
      ("aggregate_version", Number (pretty (ee_aggregate_version e)));
      ("opened_at", time_value (de_opened_at record));
      ("acknowledged_at", option_value time_value (ee_acknowledged_at e));
      ("closed_at", option_value time_value (ee_closed_at e)) ].

Definition dead_letter_mutation_fact (m : DeadLetterMutation) : Value :=
  Object [ ("disposition", VString (DeadLetterMutationDisposition.as_str (dm_disposition m)));
           ("before", option_value dead_letter_escalation_fact (dm_before m));
           ("after", dead_letter_escalation_fact (dm_after m)) ].

Definition fact_digest (fact : Value) : res string :=
  bytes ← canonical_json fact; Ok (sha256_digest bytes).

(** The fields that both records carry. *)
Definition dead_letter_fields (failure : WorkflowStepFailure) (m : DeadLetterMutation)
    (job_type error_digest : string) : list (string * Value) :=
  [ ("workflow_job_id", uuid_value (sf_job_id (sl_fence failure))); ("job_type", VString job_type);
    ("error_digest", VString error_digest); ("escalation_id", uuid_value (de_id (ee_record (dm_after m))));
    ("escalation", dead_letter_escalation_fact (dm_after m));
    ("escalation_mutation", dead_letter_mutation_fact m) ].

Definition effective_dead_letter_audit (failure : WorkflowStepFailure) (m : DeadLetterMutation)
    (job_type error_digest : string) : res StepAuditEvent :=
  let escalation := ee_record (dm_after m) in
  let audit := de_audit_event (sl_dead_letter failure) in
  match sa_details audit with
  | Object details =>
      let details := insert_all_fields
        (dead_letter_fields failure m job_type error_digest ++
         [ ("deadline", time_value (de_deadline escalation));
           ("owner_type", VString (de_owner_type escalation));
           ("owner_id", VString (de_owner_id escalation));
           ("required_action", VString (de_required_action escalation)) ]) details in
      before_digest ← match dm_before m with
        | Some before => digest ← fact_digest (dead_letter_escalation_fact before); Ok (Some digest)
        | None => Ok None
        end;
      after_digest ← fact_digest (dead_letter_escalation_fact (dm_after m));
      let audit :=
        {| sa_id := sa_id audit; sa_attempt_id := sa_attempt_id audit;
           sa_actor_type := sa_actor_type audit; sa_actor_id := sa_actor_id audit;
           sa_action := sa_action audit; sa_subject_type := "WORKFLOW_JOB";
           sa_subject_id := uuid_to_string (sf_job_id (sl_fence failure));
           sa_correlation_id := sa_correlation_id audit; sa_trace_id := sa_trace_id audit;
           sa_policy_digest := sa_policy_digest audit; sa_before_digest := before_digest;
           sa_after_digest := Some after_digest; sa_details := Object details;
           sa_occurred_at := sa_occurred_at audit |} in
      validate_audit audit ;; Ok audit
  | _ => Err (Validation [Lit "dead-letter audit details must be a JSON object"])
  end.

Definition effective_dead_letter_outbox (failure : WorkflowStepFailure) (m : DeadLetterMutation)
    (job_type error_digest : string) : res StepOutboxMessage :=
  let escalation := ee_record (dm_after m) in
  let outbox := de_outbox_message (sl_dead_letter failure) in
  match om_payload outbox with
  | Object payload =>
      let payload := insert_all_fields
        ([ ("work_item_id", uuid_value (sf_work_item_id (sl_fence failure))) ] ++
         dead_letter_fields failure m job_type error_digest ++
         [ ("category", VString (de_category escalation));
           ("severity", VString (de_severity escalation)); ("status", VString (ee_status (dm_after m)));
           ("deadline", time_value (de_deadline escalation));
           ("owner_type", VString (de_owner_type escalation));
           ("owner_id", VString (de_owner_id escalation));
           ("required_action", VString (de_required_action escalation));
           ("evidence_references", de_evidence_references escalation) ]) payload in
      let outbox := mkStepOutboxMessage (om_id outbox) (om_topic outbox) (om_message_key outbox)
        (om_event_type outbox) (Object payload) (om_headers outbox) (om_idempotency_key outbox)
        (om_available_at outbox) in
      validate_outbox outbox ;; Ok outbox
  | _ => Err (Validation [Lit "dead-letter outbox payload must be a JSON object"])
  end.

(** ** The failure *)

(** [value ->> 'key']. *)
Definition text_at (key : string) (v : Value) : option string := field key v ≫= jsonb_text.

(** Equality of two fields, which is not true when one is missing. *)
Definition same_field (key : string) (v w : Value) : bool :=
  match field key v, field key w with Some x, Some y => jsonb_eqb x y | _, _ => false end.

(** The audit event of a dead job. *)
Definition names_dead_letter (job_id escalation_id : Uuid) (job_type error_digest : string)
    (result v : Value) : bool :=
  bool_decide (text_at "workflow_job_id" v = Some (uuid_to_string job_id))
  && bool_decide (text_at "job_type" v = Some job_type)
  && bool_decide (text_at "error_digest" v = Some error_digest)
  && bool_decide (text_at "escalation_id" v = Some (uuid_to_string escalation_id))
  && same_field "escalation" v result && same_field "escalation_mutation" v result.

(** The rows that the query of [verify_dead_letter_exists] joins. *)
Definition dead_letter_exists (failure : WorkflowStepFailure) (escalation_id : Uuid)
    (job_type error_digest : string) (s : DeadLetterTables) : bool :=
  let f := sl_fence failure in
  match q_jobs (sx_queue (dt_steps s)) !! sf_job_id f with
  | Some job =>
      let result := default Null (jb_result job) in
      bool_decide (jb_tenant_id job = sf_tenant_id f) && bool_decide (jb_status job = "DEAD")
      && bool_decide (dt_dead_letters s !! sf_job_id f = Some escalation_id)
      && existsb (λ e, bool_decide (es_tenant_id e = jb_tenant_id job)
                       && bool_decide (es_id e = escalation_id)
                       && bool_decide (Some (es_work_item_id e) = jb_work_item_id job)
                       && bool_decide (es_attempt_id e = jb_attempt_id job)
                       && bool_decide (es_work_item_id e = sf_work_item_id f)) (dt_escalations s)
      && bool_decide (text_at "workflow_job_id" result = Some (uuid_to_string (sf_job_id f)))
      && bool_decide (text_at "job_type" result = Some job_type)
      && bool_decide (text_at "error_digest" result = Some error_digest)
      && bool_decide ((field "escalation" result ≫= text_at "id") = Some (uuid_to_string escalation_id))
      && existsb (λ a, let c := he_content a in
           bool_decide (ae_tenant_id c = jb_tenant_id job)
           && bool_decide (Some (uuid_to_string (ae_id c)) = text_at "audit_event_id" result)
           && bool_decide (ae_subject_type c = "WORKFLOW_JOB")
           && bool_decide (ae_subject_id c = uuid_to_string (sf_job_id f))
           && bool_decide (ae_action c = "WORKFLOW_JOB_EXHAUSTED")
           && names_dead_letter (sf_job_id f) escalation_id job_type error_digest result (ae_details c))
           (sx_audit (dt_steps s))
      && existsb (λ o, let m := or_message o in
           bool_decide (or_tenant_id o = jb_tenant_id job)
           && bool_decide (Some (uuid_to_string (om_id m)) = text_at "outbox_id" result)
           && bool_decide (om_event_type m = "workflow_job.exhausted")
           && names_dead_letter (sf_job_id f) escalation_id job_type error_digest result (om_payload m))
           (sx_outbox (dt_steps s))
  | None => false
  end.

Definition verify_dead_letter_exists (failure : WorkflowStepFailure) (escalation_id : Uuid)
    (job_type error_digest : string) (s : DeadLetterTables) : res unit :=
  bail_if (negb (dead_letter_exists failure escalation_id job_type error_digest s))
    (Conflict [Lit "dead workflow job "; FmtUuid (sf_job_id (sl_fence failure));
               Lit " has no matching owned escalation anchor"]).

Definition repeated_failure_outcome (job : JobRow) (dead_letter_id : option Uuid)
    (failure : WorkflowStepFailure) (error_summary : string)
  : res (option WorkflowStepFailureOutcome) :=
  let f := sl_fence failure in
  let dead := bool_decide (jb_status job = "DEAD") in
  if negb (bool_decide (jb_status job = "RETRY")) && negb dead then Ok None
  else
    bail_if (negb (bool_decide (((λ x, x.1.1.1) <$> jb_failure job) = Some (sf_lease_owner f)))
             || negb (bool_decide (((λ x, x.1.1.2) <$> jb_failure job) = Some (sf_job_fence_token f))))
      (stale_step_error (sf_job_id f)) ;;
    bail_if (negb (bool_decide (((λ x, x.1.2) <$> jb_failure job) = Some (sl_retry_at failure)))
             || negb (bool_decide ((snd <$> jb_failure job) = Some error_summary)))
      (Conflict [Lit "workflow job "; FmtUuid (sf_job_id f);
                 Lit " failure was retried with different details"]) ;;
    bail_if (dead && is_none dead_letter_id)
      (Persistence [Lit "workflow job "; FmtUuid (sf_job_id f);
                    Lit " is DEAD without a linked escalation"]) ;;
    Ok (Some (mkWorkflowStepFailureOutcome
      (if dead then WorkflowStepFailureDisposition.Escalated
       else WorkflowStepFailureDisposition.RetryScheduled) false dead_letter_id)).

Definition current_workflow_cursor (f : WorkflowStepFence) (s : StepTables) : res Z :=
  row ← ok_or (select_workflow f s) (stale_workflow f); Ok (wf_row_event_cursor row).

(** The row of [FAIL_STEP_JOB_SQL]. *)
Definition failed_step_row (f : WorkflowStepFence) (error_summary : string) (retry_at : DateTime)
    (result : option Value) (terminal : bool) (now : DateTime) (row : JobRow) : JobRow :=
  {| jb_tenant_id := jb_tenant_id row; jb_workflow_instance_id := jb_workflow_instance_id row;
     jb_work_item_id := jb_work_item_id row; jb_attempt_id := jb_attempt_id row;
     jb_job_type := jb_job_type row; jb_activity_contract_id := jb_activity_contract_id row;
     jb_payload := jb_payload row; jb_idempotency_key := jb_idempotency_key row;
     jb_priority := jb_priority row;
     jb_available_at := if terminal then jb_available_at row else Z.max (stored_at retry_at) now;
     jb_max_attempts := jb_max_attempts row; jb_status := if terminal then "DEAD" else "RETRY";
     jb_attempt_count := jb_attempt_count row; jb_fence_token := jb_fence_token row;
     jb_lease := None; jb_result := if terminal then result else None;
     jb_completion := jb_completion row;
     jb_failure := Some (sf_lease_owner f, sf_job_fence_token f, stored_at retry_at, error_summary);
     jb_created_at := jb_created_at row |}.

(** The new tables and the status of the job. *)
Definition fail_step_job (f : WorkflowStepFence) (error_summary : string) (retry_at : DateTime)
    (escalation_id : Uuid) (result : option Value) (force_terminal : bool) (now : DateTime)
    (s : DeadLetterTables) : res (DeadLetterTables * string) :=
  let queue := sx_queue (dt_steps s) in
  let dead row := force_terminal || (jb_max_attempts row <=? jb_attempt_count row) in
  updated ← update_claim "fail fenced workflow step" (sf_job_id f)
    (λ row, bool_decide (jb_tenant_id row = sf_tenant_id f) && owned_claim f row)
    (λ row, failed_step_row f error_summary retry_at result (dead row) now row) queue;
  q ← ok_or updated (stale_step_error (sf_job_id f));
  let status := from_option jb_status "" (q_jobs q !! sf_job_id f) in
  let letters := if bool_decide (status = "DEAD")
                 then <[sf_job_id f := escalation_id]> (dt_dead_letters s)
                 else delete (sf_job_id f) (dt_dead_letters s) in
  Ok (mkDeadLetterTables (set_queue q (dt_steps s)) (dt_escalations s) letters, status).

Definition dead_letter_result (failure : WorkflowStepFailure) (m : DeadLetterMutation)
    (audit : StepAuditEvent) (outbox : StepOutboxMessage) (job_type error_digest : string) : Value :=
  Object [ ("schema", VString "asf.workflow-job-dead-letter-result/v1");
           ("workflow_job_id", uuid_value (sf_job_id (sl_fence failure)));
           ("job_type", VString job_type); ("error_digest", VString error_digest);
           ("disposition", VString (DeadLetterMutationDisposition.as_str (dm_disposition m)));
           ("escalation", dead_letter_escalation_fact (dm_after m));
           ("escalation_mutation", dead_letter_mutation_fact m);
           ("audit_event_id", uuid_value (sa_id audit)); ("outbox_id", uuid_value (om_id outbox)) ].

(** The writes of a terminal failure before the job row. *)
Definition write_dead_letter (failure : WorkflowStepFailure) (job : JobRow) (error_digest : string)
    (between : list EscalationRow) (now : DateTime) (s : DeadLetterTables)
  : res (DeadLetterTables * (Uuid * Value)) :=
  let f := sl_fence failure in
  lock_step_aggregates f (dt_steps s) ;;
  '(rows, m) ← insert_dead_letter_escalation failure (jb_attempt_id job) (jb_job_type job) error_digest
                 between (dt_escalations s);
  let escalation := ee_record (dm_after m) in
  audit ← effective_dead_letter_audit failure m (jb_job_type job) error_digest;
  outbox ← effective_dead_letter_outbox failure m (jb_job_type job) error_digest;
  t ← insert_outbox_message (sf_tenant_id f) (dt_steps s) outbox;
  t ← insert_audit_event f t audit;
  '(t, _) ← update_work_item f "ESCALATED" now t;
  cursor ← current_workflow_cursor f t;
  '(t, _) ← update_workflow f "WAITING" cursor now t;
  '(t, _) ← replace_accountability f
    (mkAccountabilityReplacement LedgerAccountabilityKind.Escalation (de_id escalation)
       (Some (de_deadline escalation)) (de_authority_or_effect_active escalation)) t;
  Ok (mkDeadLetterTables t rows (dt_dead_letters s),
      (de_id escalation, dead_letter_result failure m audit outbox (jb_job_type job) error_digest)).

Definition fail_workflow_step_inner (claim_was_prelocked_live force_terminal : bool)
    (failure : WorkflowStepFailure) (between : list EscalationRow) (now : DateTime)
    (s : DeadLetterTables) : res (DeadLetterTables * WorkflowStepFailureOutcome) :=
  WorkflowStepFailure_validate failure ;;
  let f := sl_fence failure in
  let error_summary := summarize_error (sl_error_summary failure) in
  job ← lock_step_job f (dt_steps s);
  require_step_binding job f ;;
  let error_digest := sha256_digest (bytes (sl_error_summary failure)) in
  repeated ← repeated_failure_outcome job (dt_dead_letters s !! sf_job_id f) failure error_summary;
  match repeated with
  | Some outcome =>
      (if bool_decide (fo_disposition outcome = WorkflowStepFailureDisposition.Escalated) then
         escalation_id ← ok_or (fo_dead_letter_escalation_id outcome)
           (Persistence [Lit "dead job has no effective escalation identity"]);
         verify_dead_letter_exists failure escalation_id (jb_job_type job) error_digest s
       else Ok tt) ;;
      Ok (s, outcome)
  | None =>
      (if claim_was_prelocked_live then require_owned_claim job f else require_live_claim job f now) ;;
      let is_terminal := force_terminal || (jb_max_attempts job <=? jb_attempt_count job) in
      '(s, written) ← (if is_terminal then
          '(s, w) ← write_dead_letter failure job error_digest between now s; Ok (s, Some w)
        else Ok (s, None));
      '(s, status) ← fail_step_job f error_summary (sl_retry_at failure)
        (default (de_id (sl_dead_letter failure)) (fst <$> written)) (snd <$> written) force_terminal
        now s;
      disposition ← (if bool_decide (status = "RETRY") && negb is_terminal
        then Ok WorkflowStepFailureDisposition.RetryScheduled
        else if bool_decide (status = "DEAD") && is_terminal
        then Ok WorkflowStepFailureDisposition.Escalated
        else Err (Persistence [Lit "workflow job "; FmtUuid (sf_job_id f);
                               Lit " returned inconsistent failure status "; Disp status]));
      Ok (s, mkWorkflowStepFailureOutcome disposition true (fst <$> written))
  end.

Definition fail_workflow_step := fail_workflow_step_inner false false.
Definition fail_workflow_step_with_prelocked_claim_force_terminal := fail_workflow_step_inner true true.
End dead_letters.
