(* ===== verification/DeadLetterFacts.v ===== *)
(** What the failure of a workflow step guarantees ([DeadLetter]): a job is dead
    only together with an active escalation that owns the work, an escalation is
    only ever strengthened, and the same failure reported again changes nothing. *)

From Stdlib Require Import ZArith Lia Ascii.
From stdpp Require Import base tactics option strings pretty numbers list gmap.
From S2P Require Import Prelude RustStr RustOrd Ids Crypto Security AuditChain RunEvents JobQueue JobQueueFacts RunmillOrder Steps StepFacts DeadLetter.

(** What a [jsonb] column gives back: the same text, elements and fields, and a
    value equal to the one that was written. *)
Class StoredJson `{PgColumns, Jsonb} := {
  stored_string s : stored_value (VString s) = VString s;
  stored_array l : stored_value (Array l) = Array (stored_value <$> l);
  stored_field key v : field key (stored_value v) = stored_value <$> field key v;
  stored_equal v : jsonb_eqb (stored_value v) v = true
}.

Section facts.
  Context {pg : PgColumns} {jsonb : Jsonb} {uuids : UuidText} {hashing : Hashing}.
  Context {audit_jcs : Canonical AuditEventContent} {value_jcs : Canonical Value}.
  Context {jsonb_texts : JsonbText} {times : DateTimeText} {stored : StoredJson}.
  Implicit Types (e : EscalationRow) (rows : list EscalationRow) (m : DeadLetterMutation).

(** ** Escalations *)

(** Identifiers are unique. *)
Definition ids_unique rows : Prop := NoDup (es_id <$> rows).

(** [e'] is [e] or a stronger form of it. *)
Record strengthens e e' : Prop := {
  sg_id : es_id e' = es_id e;
  sg_tenant : es_tenant_id e' = es_tenant_id e;
  sg_item : es_work_item_id e' = es_work_item_id e;
  sg_attempt : es_attempt_id e' = es_attempt_id e;
  sg_category : es_category e' = es_category e;
  sg_status : es_status e' = es_status e;
  sg_owner : es_owner_type e' = es_owner_type e ∧ es_owner_id e' = es_owner_id e;
  sg_opened : es_opened_at e' = es_opened_at e ∧ es_acknowledged_at e' = es_acknowledged_at e;
  sg_deadline : es_deadline e' ≤ es_deadline e;
  sg_severity : es_severity e = "CRITICAL" → es_severity e' = "CRITICAL";
  sg_authority : es_authority_or_effect_active e = true → es_authority_or_effect_active e' = true;
  sg_reason : ∃ more, es_reason e' = es_reason e +:+ more;
  sg_action : ∃ more, es_required_action e' = es_required_action e +:+ more;
  sg_evidence : es_evidence_references e' = es_evidence_references e ∨ ∃ old more,
    es_evidence_references e = Array old ∧ es_evidence_references e' = Array (old ++ more);
  sg_version : es_aggregate_version e ≤ es_aggregate_version e'
}.

Lemma string_app_nil (s : string) : s = s +:+ "".
Proof. induction s; simpl; [done|]. by f_equal. Qed.

Lemma strengthens_refl e : strengthens e e.
Proof. split; try done; [exists ""; apply string_app_nil..|by left]. Qed.

Lemma merged_strengthens proposed reason action e :
  strengthens e (merged_row proposed reason action (es_aggregate_version e + 1) e).
Proof.
  split; simpl; try done; try lia.
  - by intros ->.
  - destruct (contains _ _); [exists ""; apply string_app_nil|by eexists].
  - destruct (contains _ _); [exists ""; apply string_app_nil|by eexists].
  - destruct (es_evidence_references e); try by left. destruct (de_evidence_references proposed); try by left.
    right. eauto.
Qed.

(** The escalation that owns a dead job. *)
Record owns (failure : WorkflowStepFailure) (job : JobRow) (error_digest : string)
    (escalation : DeadLetterEscalation) e : Prop := {
  ow_tenant : es_tenant_id e = sf_tenant_id (sl_fence failure);
  ow_item : es_work_item_id e = sf_work_item_id (sl_fence failure);
  ow_attempt : es_attempt_id e = jb_attempt_id job;
  ow_category : es_category e = "WORKFLOW_JOB_EXHAUSTED";
  ow_active : is_active_escalation e = true;
  ow_severity : es_severity e = "HIGH" ∨ es_severity e = "CRITICAL";
  ow_authority : es_authority_or_effect_active e = true;
  ow_deadline : es_opened_at e < es_deadline e ∧
    es_deadline e ≤ stored_at (de_deadline (sl_dead_letter failure));
  ow_evidence reference :
    reference ∈ exact_evidence (sf_job_id (sl_fence failure)) (jb_job_type job) error_digest →
    ∃ l v, es_evidence_references e = Array l ∧ v ∈ l ∧ jsonb_eqb (VString reference) v = true;
  ow_record : de_id escalation = es_id e ∧ de_deadline escalation = es_deadline e ∧
    de_authority_or_effect_active escalation = es_authority_or_effect_active e
}.

Lemma push_keeps l references v : v ∈ l → v ∈ foldl push_reference l references.
Proof.
  revert l. induction references as [|x references IH]; intros l Hv; simpl; [done|].
  apply IH. unfold push_reference. destruct (existsb _ _); [done|]. rewrite elem_of_app. by left.
Qed.

Lemma push_adds l references reference :
  reference ∈ references → VString reference ∈ foldl push_reference l references.
Proof.
  revert l. induction references as [|x references IH]; intros l Hr; [by apply elem_of_nil in Hr|]. simpl.
  apply elem_of_cons in Hr as [<-|Hr]; [|by apply IH]. apply push_keeps. unfold push_reference.
  destruct (existsb (is_string reference) l) eqn:E.
  - apply existsb_true in E as (v & Hv & E). destruct v; simpl in E; try done.
    apply bool_decide_eq_true in E. by subst.
  - rewrite elem_of_app, list_elem_of_singleton. by right.
Qed.

(** What the normalized escalation is. *)
Lemma normalized_ok proposed job_id job_type error_digest escalation reason action :
  normalized_dead_letter proposed job_id job_type error_digest = Ok (escalation, reason, action) →
  ∃ evidence, de_evidence_references escalation = Array evidence ∧
    (∀ r, r ∈ exact_evidence job_id job_type error_digest → VString r ∈ evidence) ∧
    de_category escalation = de_category proposed ∧ de_id escalation = de_id proposed ∧
    de_deadline escalation = de_deadline proposed ∧ de_authority_or_effect_active escalation = true ∧
    (de_severity escalation = "HIGH" ∨ de_severity escalation = "CRITICAL").
Proof.
  unfold normalized_dead_letter. rewrite bind_unit_ok. intros [_ H].
  destruct (de_evidence_references proposed) as [| | | |evidence|] eqn:E; try done.
  apply bind_unit_ok in H as [_ [= <- <- <-]].
  exists (foldl push_reference evidence (exact_evidence job_id job_type error_digest)).
  split; [done|]. split; [intros r Hr; by apply push_adds|].
  do 4 (split; [done|]). cbn [de_severity]. case_bool_decide; auto.
Qed.

(** Looking up the row again by its identifier finds it. *)
Lemma find_unique rows e (p : EscalationRow → bool) :
  ids_unique rows → e ∈ rows → p e = true → (∀ x, p x = true → es_id x = es_id e) → find p rows = Some e.
Proof.
  intros Hu He Hp Hx. destruct (find p rows) as [x|] eqn:E.
  - apply find_some in E as [Hin Hpx]. f_equal. apply list_elem_of_In in Hin.
    apply list_elem_of_lookup in Hin as [i Hi]. apply list_elem_of_lookup in He as [j Hj].
    assert (i = j) as <-; [|congruence].
    eapply (NoDup_lookup (es_id <$> rows) i j (es_id e)); [done|..]; rewrite list_lookup_fmap.
    + rewrite Hi. simpl. by rewrite (Hx x Hpx).
    + by rewrite Hj.
  - eapply find_none in E; [|by apply list_elem_of_In]. congruence.
Qed.

Lemma load_active_some t item attempt category rows e :
  load_active_dead_letter t item attempt category rows = Some e →
  e ∈ rows ∧ es_tenant_id e = t ∧ es_work_item_id e = item ∧ es_attempt_id e = attempt ∧
  es_category e = category ∧ is_active_escalation e = true.
Proof.
  intros [Hin H]%find_some. apply list_elem_of_In in Hin. rewrite !andb_true_iff, !bool_decide_eq_true in H.
  tauto.
Qed.

Lemma replace_unique rows e e' :
  ids_unique rows → e ∈ rows → es_id e' = es_id e → es_tenant_id e' = es_tenant_id e →
  ids_unique (replace_escalation e' rows) ∧ e' ∈ replace_escalation e' rows ∧
  (∀ x, x ∈ rows → x = e ∧ e' ∈ replace_escalation e' rows ∨ x ≠ e ∧ x ∈ replace_escalation e' rows) ∧
  (∀ x, x ∈ replace_escalation e' rows → x = e' ∨ x ∈ rows).
Proof.
  intros Hu He Hid Ht. unfold replace_escalation, ids_unique.
  assert (∀ x, x ∈ rows → es_id x = es_id e → x = e) as Hsame.
  { intros x Hx E. apply list_elem_of_lookup in Hx as [i Hi]. apply list_elem_of_lookup in He as [j Hj].
    assert (i = j) as <-; [|congruence].
    eapply (NoDup_lookup (es_id <$> rows) i j (es_id e)); [done|..]; rewrite list_lookup_fmap.
    - rewrite Hi. simpl. by rewrite E.
    - by rewrite Hj. }
  set (swap x := if bool_decide (es_tenant_id x = es_tenant_id e') && bool_decide (es_id x = es_id e')
                 then e' else x).
  assert (swap e = e') as Hswap by (unfold swap; by rewrite !bool_decide_true).
  assert (∀ x, x ∈ rows → x ≠ e → swap x = x) as Hkeep.
  { intros x Hx Hne. unfold swap. rewrite (bool_decide_false (es_id x = es_id e')), andb_false_r; [done|].
    intros E. apply Hne, Hsame; [done|congruence]. }
  split; [|split; [|split]].
  - rewrite <- list_fmap_compose, (list_fmap_ext _ es_id); [done|].
    intros i x _. simpl. unfold swap. case_bool_decide; simpl; [|done]. case_bool_decide; simpl; [|done]. congruence.
  - apply list_elem_of_fmap. eauto.
  - intros x Hx. destruct (decide (es_id x = es_id e)) as [E|Hne].
    + left. split; [by apply Hsame|]. apply list_elem_of_fmap. eauto.
    + right. assert (x ≠ e) by congruence. split; [done|]. apply list_elem_of_fmap. exists x.
      by rewrite Hkeep.
  - intros x (y & -> & Hy)%list_elem_of_fmap. unfold swap. case_match; auto.
Qed.

(** One merge: the row is strengthened and owns the dead job. *)
Lemma merge_ok row escalation reason action rows rows' after :
  ids_unique rows → row ∈ rows → is_active_escalation row = true →
  merge_active_dead_letter row escalation reason action rows = Ok (rows', after) →
  ∃ merged, merged = merged_row escalation reason action (es_aggregate_version row + 1) row ∧
    escalation_checks merged = true ∧ after = effective_dead_letter_from_row merged escalation ∧
    rows' = replace_escalation merged rows.
Proof.
  intros Hu Hin Ha. unfold merge_active_dead_letter. rewrite bind_ok. intros (current & Hc & H).
  apply ok_or_ok in Hc. rewrite (find_unique rows row) in Hc; try done.
  - injection Hc as <-. apply bind_ok in H as (v & Hv & H). apply ok_or_ok, checked_add_some in Hv as [_ ->].
    apply bind_unit_ok in H as [Hchk [= <- <-]]. eexists. split; [done|].
    apply bail_if_ok, negb_false_iff in Hchk. done.
  - by rewrite !bool_decide_true, Ha.
  - intros x Hx. rewrite !andb_true_iff, !bool_decide_eq_true in Hx. tauto.
Qed.

Lemma missing_covers new old v : v ∈ new →
  ∃ w, w ∈ old ++ missing_references new old ∧ jsonb_eqb v w = true.
Proof.
  intros Hv. destruct (existsb (jsonb_eqb v) old) eqn:E.
  - apply existsb_true in E as (w & Hw & E). exists w. rewrite elem_of_app. eauto.
  - exists v. split; [|apply jsonb_eqb_refl]. rewrite elem_of_app. right.
    apply elem_of_filter_bool. by rewrite E.
Qed.

(** The transaction ends with exactly one escalation for the job; the others stay
    as they are and the one that is merged only gets stronger. *)
Record lettered (failure : WorkflowStepFailure) (job : JobRow) (error_digest : string)
    (all rows' : list EscalationRow) m : Prop := {
  lt_unique : ids_unique rows';
  lt_kept x : x ∈ all → ∃ x', x' ∈ rows' ∧ strengthens x x';
  lt_new x' : x' ∈ rows' → x' ∈ all ∨ es_id x' = de_id (ee_record (dm_after m));
  lt_owner : ∃ e, e ∈ rows' ∧ owns failure job error_digest (ee_record (dm_after m)) e ∧
    ee_status (dm_after m) = es_status e
}.

Lemma adopt_lettered failure job error_digest escalation reason action rows row rows' after before :
  ids_unique rows → row ∈ rows → is_active_escalation row = true →
  es_tenant_id row = sf_tenant_id (sl_fence failure) →
  es_work_item_id row = sf_work_item_id (sl_fence failure) → es_attempt_id row = jb_attempt_id job →
  es_category row = "WORKFLOW_JOB_EXHAUSTED" →
  normalized_dead_letter (sl_dead_letter failure) (sf_job_id (sl_fence failure)) (jb_job_type job) error_digest
    = Ok (escalation, reason, action) →
  merge_active_dead_letter row escalation reason action rows = Ok (rows', after) →
  lettered failure job error_digest rows rows'
    (mkDeadLetterMutation DeadLetterMutationDisposition.AdoptedActive before after).
Proof.
  intros Hu Hin Ha Ht Hi Hat Hcat Hn H.
  destruct (merge_ok _ _ _ _ _ _ _ Hu Hin Ha H) as (merged & Em & Hchk & -> & ->).
  assert (strengthens row merged) as Hs by (rewrite Em; apply merged_strengthens).
  destruct (replace_unique rows row merged Hu Hin (sg_id _ _ Hs) (sg_tenant _ _ Hs)) as (H1 & H2 & H3 & H4).
  destruct (normalized_ok _ _ _ _ _ _ _ Hn) as (evidence & Hev & Hrefs & _ & _ & Hdl & _ & _).
  split; simpl.
  - done.
  - intros x Hx. destruct (H3 x Hx) as [[-> ?]|[_ ?]]; [by exists merged|].
    exists x. split; [done|apply strengthens_refl].
  - intros x' [->|Hx]%H4; auto.
  - exists merged. split; [done|]. split; [|done].
    unfold escalation_checks in Hchk. rewrite !andb_true_iff in Hchk.
    destruct Hchk as [[[[[Harr _] _] _] Hdeadline] _]. apply Z.ltb_lt in Hdeadline.
    assert (∃ old, es_evidence_references row = Array old) as [old Hold].
    { rewrite Em in Harr. simpl in Harr. destruct (es_evidence_references row); eauto; done. }
    split; try (rewrite Em; simpl; done).
    + rewrite Em. simpl. destruct (_ || _); auto.
    + split; [done|]. rewrite Em. simpl. rewrite <- Hdl. lia.
    + intros reference Hr. destruct (missing_covers evidence old (VString reference)) as (v & Hv & Heq); [auto|].
      exists (old ++ missing_references evidence old), v. split; [|done]. rewrite Em. simpl. by rewrite Hold, Hev.
Qed.

Lemma insert_dead_letter_ok failure job error_digest between rows rows' m :
  WorkflowStepFailure_validate failure = Ok tt → ids_unique (rows ++ between) →
  insert_dead_letter_escalation failure (jb_attempt_id job) (jb_job_type job) error_digest between rows
    = Ok (rows', m) →
  ∃ all, (all = rows ∨ all = rows ++ between) ∧ lettered failure job error_digest all rows' m.
Proof.
  intros Hval Hu H. unfold insert_dead_letter_escalation in H. apply bind_ok in H as ([[escalation reason] action] & Hn & H).
  destruct (normalized_ok _ _ _ _ _ _ _ Hn) as (evidence & Hev & Hrefs & Hcat & Hid & Hdl & Hauth & Hsev).
  assert (de_category escalation = "WORKFLOW_JOB_EXHAUSTED") as Hcategory.
  { rewrite Hcat. unfold WorkflowStepFailure_validate, DeadLetterEscalation_validate in Hval.
    rewrite !bind_unit_ok in Hval. destruct Hval as (_ & _ & _ & _ & Hc & _).
    by apply bail_if_ok, negb_false_iff, bool_decide_eq_true in Hc. }
  rewrite Hcategory in H.
  destruct (load_active_dead_letter _ _ _ _ rows) as [row|] eqn:Hload.
  - apply load_active_some in Hload as (Hin & Ht & Hi & Hat & Hc & Ha).
    apply bind_ok in H as ([rows1 after] & Hm & [= <- <-]). exists rows. split; [by left|].
    eapply adopt_lettered; try done. unfold ids_unique in *. rewrite fmap_app in Hu. by apply NoDup_app in Hu as [? _].
  - apply bind_ok in H as (inserted & Hins & H). destruct inserted as [rows1|].
    + injection H as <- <-. unfold insert_escalation in Hins. apply bind_unit_ok in Hins as [Hchk Hins].
      apply bail_if_ok, negb_false_iff in Hchk.
      destruct (existsb (same_active _) _); [done|]. apply bind_unit_ok in Hins as [Hfresh [= <-]].
      apply bail_if_ok, existsb_false in Hfresh. rewrite Forall_forall in Hfresh.
      set (row := opened_row _ _ _ _) in *. exists (rows ++ between). split; [by right|]. split; simpl.
      * unfold ids_unique in *. rewrite fmap_app. apply NoDup_app. split; [done|]. split; [|apply NoDup_singleton].
        intros id (x & -> & Hx)%list_elem_of_fmap E. apply list_elem_of_singleton in E.
        specialize (Hfresh x Hx). apply orb_false_iff in Hfresh as [Hf _]. apply bool_decide_eq_false in Hf. done.
      * intros x Hx. exists x. rewrite elem_of_app. split; [by left|apply strengthens_refl].
      * intros x' [?|Hx]%elem_of_app; [by left|]. apply list_elem_of_singleton in Hx as ->. by right.
      * exists row. split; [apply elem_of_app; right; by left|]. split; [|done].
        unfold escalation_checks in Hchk. rewrite !andb_true_iff in Hchk.
        destruct Hchk as [[[[_ _] _] Hdeadline] _]. apply Z.ltb_lt in Hdeadline.
        split; try done.
        -- split; [done|]. simpl. by rewrite Hdl.
        -- intros reference Hr. exists (stored_value <$> evidence), (VString reference). simpl.
           rewrite Hev, stored_array. split; [done|]. split; [|apply jsonb_eqb_refl].
           apply list_elem_of_fmap. exists (VString reference). rewrite stored_string. auto.
    + apply bind_ok in H as (row & Hload2 & H). apply ok_or_ok, load_active_some in Hload2 as (Hin & Ht & Hi & Hat & Hc & Ha).
      apply bind_ok in H as ([rows1 after] & Hm & [= <- <-]). exists (rows ++ between). split; [by right|].
      by eapply adopt_lettered.
Qed.

(** ** The writes of a terminal failure *)

(** The step tables after a dead letter, before the job row. *)
Record dead_lettered (failure : WorkflowStepFailure) (job : JobRow) (error_digest : string) m
    (audit : StepAuditEvent) (outbox : StepOutboxMessage) (t t' : StepTables) : Prop := {
  dl_queue : sx_queue t' = sx_queue t;
  dl_timers : sx_timers t' = sx_timers t;
  dl_intents : sx_intents t' = sx_intents t;
  dl_outbox_kept : sx_outbox t' = sx_outbox t ∨
    sx_outbox t' = sx_outbox t ++ [mkOutboxRow (sf_tenant_id (sl_fence failure)) outbox];
  dl_audit_made : effective_dead_letter_audit failure m (jb_job_type job) error_digest = Ok audit;
  dl_outbox_made : effective_dead_letter_outbox failure m (jb_job_type job) error_digest = Ok outbox;
  dl_audit : ∃ event, sx_audit t' = sx_audit t ++ [event] ∧ records (sl_fence failure) audit event;
  dl_outbox : ∃ r, r ∈ sx_outbox t' ∧ or_tenant_id r = sf_tenant_id (sl_fence failure) ∧
    om_id (or_message r) = om_id outbox ∧ om_event_type (or_message r) = om_event_type outbox ∧
    jsonb_eqb (om_payload (or_message r)) (om_payload outbox) = true;
  dl_outbox_fresh : (∀ r, r ∈ sx_outbox t → om_id (or_message r) ≠ om_id outbox) →
    sx_outbox t' = sx_outbox t ++ [mkOutboxRow (sf_tenant_id (sl_fence failure)) outbox];
  dl_item : ∃ row closed_at, select_work_item (sl_fence failure) t = Some row ∧
    sx_work_items t' = <[(sf_tenant_id (sl_fence failure), sf_work_item_id (sl_fence failure)) :=
      mkWorkItemRow "ESCALATED" (wi_row_version row + 1) closed_at]> (sx_work_items t);
  dl_flow : ∃ row terminal_at, select_workflow (sl_fence failure) t = Some row ∧
    sx_workflows t' = <[(sf_tenant_id (sl_fence failure), sf_workflow_instance_id (sl_fence failure)) :=
      mkWorkflowRow (sf_work_item_id (sl_fence failure)) "WAITING" (wf_row_event_cursor row)
        (wf_row_fence_token row + 1) (wf_row_version row + 1) terminal_at]> (sx_workflows t);
  dl_anchor : sx_anchors t' = <[(sf_tenant_id (sl_fence failure), sf_work_item_id (sl_fence failure)) :=
      mkAnchorRow "ESCALATION" (de_id (ee_record (dm_after m)))
        (Some (stored_at (de_deadline (ee_record (dm_after m)))))
        (de_authority_or_effect_active (ee_record (dm_after m)))
        (sf_expected_anchor_generation (sl_fence failure) + 1)]> (sx_anchors t)
}.

Lemma insert_outbox_shape t s x s' : insert_outbox_message t s x = Ok s' →
  ∃ outs, s' = set_outbox outs s ∧ (outs = sx_outbox s ∨ outs = sx_outbox s ++ [mkOutboxRow t x]) ∧
    ((∀ r, r ∈ sx_outbox s → om_id (or_message r) ≠ om_id x) → outs = sx_outbox s ++ [mkOutboxRow t x]).
Proof.
  intros (outs & H & ->)%require_inserted_ok. exists outs. split; [done|].
  unfold insert_same in H. destruct (find _ _) as [y|] eqn:E.
  - split; [left; by repeat (case_match; simplify_eq/=)|]. intros Hfresh.
    apply find_some in E as [Hin _]. apply list_elem_of_In in Hin. specialize (Hfresh y Hin).
    rewrite bool_decide_false in H by done. done.
  - apply bind_unit_ok in H as [_ [= <-]]. split; [by right|done].
Qed.

Lemma write_dead_letter_ok failure job error_digest between now s s' id result :
  WorkflowStepFailure_validate failure = Ok tt → ids_unique (dt_escalations s ++ between) →
  write_dead_letter failure job error_digest between now s = Ok (s', (id, result)) →
  ∃ all m audit outbox,
    (all = dt_escalations s ∨ all = dt_escalations s ++ between) ∧
    lettered failure job error_digest all (dt_escalations s') m ∧
    dead_lettered failure job error_digest m audit outbox (dt_steps s) (dt_steps s') ∧
    dt_dead_letters s' = dt_dead_letters s ∧ id = de_id (ee_record (dm_after m)) ∧
    result = dead_letter_result failure m audit outbox (jb_job_type job) error_digest.
Proof.
  intros Hv Hu H. unfold write_dead_letter in H. apply bind_unit_ok in H as [_ H].
  apply bind_ok in H as ([rows m] & Hrows & H).
  apply bind_ok in H as (audit & Haudit & H). apply bind_ok in H as (outbox & Houtbox & H).
  apply bind_ok in H as (t1 & H1 & H). apply bind_ok in H as (t2 & H2 & H).
  apply bind_ok in H as ([t3 v3] & H3 & H). apply bind_ok in H as (cursor & Hcursor & H).
  apply bind_ok in H as ([t4 [v4 w4]] & H4 & H). apply bind_ok in H as ([t5 g5] & H5 & [= <- <- <-]).
  destruct (insert_dead_letter_ok _ _ _ _ _ _ _ Hv Hu Hrows) as (all & Hall & Hl).
  exists all, m, audit, outbox. do 2 (split; [done|]). split; [|done]. cbn [dt_steps].
  pose proof (insert_outbox_ok _ _ _ _ H1) as (Hext & r & Hr & Hrt & Hrid & _ & _ & Hre & Hrp).
  apply insert_outbox_shape in H1 as (outs & -> & Hkept & Hfresh).
  apply insert_audit_shape in H2 as (event & -> & Hrec & _).
  apply update_work_item_ok in H3 as (item & closed_at & Hitem & -> & ->).
  unfold current_workflow_cursor in Hcursor. apply bind_ok in Hcursor as (flow & Hflow & [= <-]).
  apply ok_or_ok in Hflow.
  apply update_workflow_ok in H4 as (flow' & terminal_at & Hflow' & -> & -> & ->).
  rewrite Hflow in Hflow'. injection Hflow' as <-.
  apply replace_accountability_ok in H5 as (-> & _ & ->). destruct s as [t rows0 letters]. simpl in *. split; simpl.
  - done.
  - done.
  - done.
  - done.
  - done.
  - done.
  - eauto.
  - exists r. done.
  - done.
  - exists item, closed_at. done.
  - exists flow, terminal_at. done.
  - done.
Qed.

(** The job row of a failure. *)
Lemma fail_step_job_ok f summary retry_at id result force now s s' status :
  fail_step_job f summary retry_at id result force now s = Ok (s', status) → ∃ job,
    q_jobs (sx_queue (dt_steps s)) !! sf_job_id f = Some job ∧ jb_tenant_id job = sf_tenant_id f ∧
    owned_claim f job = true ∧
    let dead := force || (jb_max_attempts job <=? jb_attempt_count job) in
    status = (if dead then "DEAD" else "RETRY") ∧
    s' = mkDeadLetterTables
           (set_queue (mkQueue (<[sf_job_id f := failed_step_row f summary retry_at result dead now job]>
                                  (q_jobs (sx_queue (dt_steps s)))) (q_effects (sx_queue (dt_steps s))))
              (dt_steps s)) (dt_escalations s)
           (if dead then <[sf_job_id f := id]> (dt_dead_letters s)
            else delete (sf_job_id f) (dt_dead_letters s)).
Proof.
  unfold fail_step_job. rewrite bind_ok. intros (u & Hu & H). apply bind_ok in H as (q & Hq & H).
  apply ok_or_ok in Hq as ->. apply update_claim_some in Hu as (job & Hj & Hg & _ & ->).
  apply andb_true_iff in Hg as [Ht Ho]. apply bool_decide_eq_true in Ht. exists job. do 3 (split; [done|]).
  injection H as <- <-. cbn [q_jobs]. rewrite lookup_insert_eq. cbn [from_option jb_status failed_step_row].
  destruct (force || _); simpl; split; try done.
Qed.

(** ** Failures *)

(** Only the job row changes. *)
Record retried (failure : WorkflowStepFailure) (now : DateTime) (s s' : DeadLetterTables) (job : JobRow)
  : Prop := {
  re_attempts : jb_attempt_count job < jb_max_attempts job;
  re_tables : s' = mkDeadLetterTables
    (set_queue (mkQueue (<[sf_job_id (sl_fence failure) :=
         failed_step_row (sl_fence failure) (summarize_error (sl_error_summary failure))
           (sl_retry_at failure) None false now job]> (q_jobs (sx_queue (dt_steps s))))
       (q_effects (sx_queue (dt_steps s)))) (dt_steps s))
    (dt_escalations s) (delete (sf_job_id (sl_fence failure)) (dt_dead_letters s))
}.

(** The job is dead and everything that comes with it is written. *)
Record escalated (failure : WorkflowStepFailure) (between : list EscalationRow) (now : DateTime)
    (s s' : DeadLetterTables) (job : JobRow) m (audit : StepAuditEvent) (outbox : StepOutboxMessage)
    (t : StepTables) : Prop := {
  el_letter : ∃ all, (all = dt_escalations s ∨ all = dt_escalations s ++ between) ∧
    lettered failure job (sha256_digest (bytes (sl_error_summary failure))) all (dt_escalations s') m;
  el_steps : dead_lettered failure job (sha256_digest (bytes (sl_error_summary failure))) m audit outbox
    (dt_steps s) t;
  el_job : dt_steps s' = set_queue (mkQueue (<[sf_job_id (sl_fence failure) :=
      failed_step_row (sl_fence failure) (summarize_error (sl_error_summary failure)) (sl_retry_at failure)
        (Some (dead_letter_result failure m audit outbox (jb_job_type job)
                 (sha256_digest (bytes (sl_error_summary failure))))) true now job]>
        (q_jobs (sx_queue (dt_steps s)))) (q_effects (sx_queue (dt_steps s)))) t;
  el_link : dt_dead_letters s' = <[sf_job_id (sl_fence failure) := de_id (ee_record (dm_after m))]>
    (dt_dead_letters s)
}.

Lemma load_job_some t id q job : load_job t id q = Ok job → q_jobs q !! id = Some job ∧ jb_tenant_id job = t.
Proof.
  unfold load_job. destruct (q_jobs q !! id) as [row|]; [|done]. simpl.
  case_bool_decide; [by intros [= <-]|done].
Qed.

Lemma failure_cases prelocked force failure between now s s' outcome :
  ids_unique (dt_escalations s ++ between) →
  fail_workflow_step_inner prelocked force failure between now s = Ok (s', outcome) →
  WorkflowStepFailure_validate failure = Ok tt ∧ ∃ job,
  q_jobs (sx_queue (dt_steps s)) !! sf_job_id (sl_fence failure) = Some job ∧
  jb_tenant_id job = sf_tenant_id (sl_fence failure) ∧
  require_step_binding job (sl_fence failure) = Ok tt ∧
  (s' = s ∧ fo_newly_recorded outcome = false ∨
   owned_claim (sl_fence failure) job = true ∧
   (retried failure now s s' job ∧ force = false ∧
      outcome = mkWorkflowStepFailureOutcome WorkflowStepFailureDisposition.RetryScheduled true None ∨
    ∃ m audit outbox t, escalated failure between now s s' job m audit outbox t ∧
      force || (jb_max_attempts job <=? jb_attempt_count job) = true ∧ outcome = mkWorkflowStepFailureOutcome WorkflowStepFailureDisposition.Escalated true
                  (Some (de_id (ee_record (dm_after m)))))).
Proof.
  intros Hu H. unfold fail_workflow_step_inner in H. apply bind_unit_ok in H as [Hv H].
  apply bind_ok in H as (job & Hjob & H). split; [done|]. exists job.
  apply bind_unit_ok in H as [Hbind H]. apply bind_ok in H as (repeated & Hrep & H).
  unfold lock_step_job in Hjob. apply load_job_some in Hjob as [Hjob Ht].
  do 3 (split; [done|]). destruct repeated as [o|].
  - left. apply bind_unit_ok in H as [_ [= <- <-]]. split; [done|].
    unfold repeated_failure_outcome in Hrep. destruct (_ && _) in Hrep; [done|].
    rewrite !bind_unit_ok in Hrep. destruct Hrep as (_ & _ & _ & [= <-]). done.
  - right. apply bind_unit_ok in H as [Hclaim H].
    assert (owned_claim (sl_fence failure) job = true) as Hown.
    { destruct prelocked; unfold require_live_claim, require_owned_claim in Hclaim.
      - by apply bail_if_ok, negb_false_iff in Hclaim.
      - apply bind_unit_ok in Hclaim as [Hclaim _]. by apply bail_if_ok, negb_false_iff in Hclaim. }
    split; [done|]. clear Hclaim Hrep.
    destruct (force || (jb_max_attempts job <=? jb_attempt_count job)) eqn:Hterm; simpl in H.
    + right. apply bind_ok in H as ([s1 written] & Hw & H).
      apply bind_ok in Hw as ([s2 [id result]] & Hw & [= <- <-]). simpl in H.
      apply bind_ok in H as ([s3 status] & Hf & H).
      apply (write_dead_letter_ok _ _ _ _ _ _ _ _ _ Hv Hu) in Hw as (all & m & audit & outbox & Hall & Hl & Hd & Hlet & -> & ->).
      apply fail_step_job_ok in Hf as (job' & Hj' & _ & _ & -> & ->). rewrite (dl_queue _ _ _ _ _ _ _ _ Hd) in *.
      rewrite Hjob in Hj'. injection Hj' as <-. rewrite Hterm in *. injection H as <- <-.
      exists m, audit, outbox, (dt_steps s2). split; [|done]. split; simpl; try done; [eauto|by rewrite Hlet].
    + left. apply bind_ok in H as ([s3 status] & Hf & H).
      apply fail_step_job_ok in Hf as (job' & Hj' & _ & _ & -> & ->).
      rewrite Hjob in Hj'. injection Hj' as <-. rewrite Hterm in *. injection H as <- <-.
      apply orb_false_iff in Hterm as [-> Hn]. apply Z.leb_gt in Hn. done.
Qed.

(** A failure leaves its job unclaimed, with the failure recorded, and keeps what the
    job is, its attempts and its fence. *)
Record job_failed (failure : WorkflowStepFailure) (job job' : JobRow) : Prop := {
  jf_identity : jb_tenant_id job' = jb_tenant_id job ∧
    jb_workflow_instance_id job' = jb_workflow_instance_id job ∧
    jb_work_item_id job' = jb_work_item_id job ∧ jb_attempt_id job' = jb_attempt_id job ∧
    jb_job_type job' = jb_job_type job ∧ jb_activity_contract_id job' = jb_activity_contract_id job ∧
    jb_payload job' = jb_payload job ∧ jb_idempotency_key job' = jb_idempotency_key job ∧
    jb_priority job' = jb_priority job ∧ jb_created_at job' = jb_created_at job;
  jf_attempts : jb_max_attempts job' = jb_max_attempts job ∧ jb_attempt_count job' = jb_attempt_count job ∧
    jb_fence_token job' = jb_fence_token job ∧ jb_completion job' = jb_completion job;
  jf_lease : jb_lease job' = None;
  jf_failure : jb_failure job' = Some (sf_lease_owner (sl_fence failure), sf_job_fence_token (sl_fence failure),
    stored_at (sl_retry_at failure), summarize_error (sl_error_summary failure))
}.

(** Nothing but the rows of the failure changes: no other job, work item, workflow,
    anchor or dead-letter link, and no effect, timer or intent; an outbox message or
    audit event that is there stays there. *)
Record only_this_failure (failure : WorkflowStepFailure) (s s' : DeadLetterTables) : Prop := {
  fr_jobs id : id ≠ sf_job_id (sl_fence failure) →
    q_jobs (sx_queue (dt_steps s')) !! id = q_jobs (sx_queue (dt_steps s)) !! id;
  fr_effects : q_effects (sx_queue (dt_steps s')) = q_effects (sx_queue (dt_steps s));
  fr_letters id : id ≠ sf_job_id (sl_fence failure) → dt_dead_letters s' !! id = dt_dead_letters s !! id;
  fr_timers : sx_timers (dt_steps s') = sx_timers (dt_steps s);
  fr_intents : sx_intents (dt_steps s') = sx_intents (dt_steps s);
  fr_items k : k ≠ (sf_tenant_id (sl_fence failure), sf_work_item_id (sl_fence failure)) →
    sx_work_items (dt_steps s') !! k = sx_work_items (dt_steps s) !! k;
  fr_flows k : k ≠ (sf_tenant_id (sl_fence failure), sf_workflow_instance_id (sl_fence failure)) →
    sx_workflows (dt_steps s') !! k = sx_workflows (dt_steps s) !! k;
  fr_anchors k : k ≠ (sf_tenant_id (sl_fence failure), sf_work_item_id (sl_fence failure)) →
    sx_anchors (dt_steps s') !! k = sx_anchors (dt_steps s) !! k;
  fr_outbox : ∃ more, sx_outbox (dt_steps s') = sx_outbox (dt_steps s) ++ more ∧ (length more ≤ 1)%nat;
  fr_audit : ∃ more, sx_audit (dt_steps s') = sx_audit (dt_steps s) ++ more
}.

(** A failure that is written either leaves the job to be retried and touches
    nothing else, or makes it dead together with everything that owns the work. *)
Inductive disposed (force : bool) (failure : WorkflowStepFailure) (s s' : DeadLetterTables)
    (job job' : JobRow) : option Uuid → Prop :=
  | disposed_retry :
      force = false → jb_attempt_count job < jb_max_attempts job → jb_status job' = "RETRY" →
      stored_at (sl_retry_at failure) ≤ jb_available_at job' →
      dt_escalations s' = dt_escalations s →
      dt_dead_letters s' !! sf_job_id (sl_fence failure) = None →
      sx_work_items (dt_steps s') = sx_work_items (dt_steps s) →
      sx_workflows (dt_steps s') = sx_workflows (dt_steps s) →
      sx_anchors (dt_steps s') = sx_anchors (dt_steps s) →
      sx_audit (dt_steps s') = sx_audit (dt_steps s) →
      sx_outbox (dt_steps s') = sx_outbox (dt_steps s) →
      disposed force failure s s' job job' None
  | disposed_dead e item flow event :
      force = true ∨ jb_max_attempts job ≤ jb_attempt_count job → jb_status job' = "DEAD" →
      e ∈ dt_escalations s' →
      (∃ record, owns failure job (sha256_digest (bytes (sl_error_summary failure))) record e) →
      dt_dead_letters s' !! sf_job_id (sl_fence failure) = Some (es_id e) →
      sx_work_items (dt_steps s') !! (sf_tenant_id (sl_fence failure), sf_work_item_id (sl_fence failure))
        = Some item → wi_row_state item = "ESCALATED" →
      wi_row_version item = sf_expected_work_item_version (sl_fence failure) + 1 →
      sx_workflows (dt_steps s') !! (sf_tenant_id (sl_fence failure), sf_workflow_instance_id (sl_fence failure))
        = Some flow → wf_row_state flow = "WAITING" →
      sx_anchors (dt_steps s') !! (sf_tenant_id (sl_fence failure), sf_work_item_id (sl_fence failure))
        = Some (mkAnchorRow "ESCALATION" (es_id e) (Some (stored_at (es_deadline e))) true
                  (sf_expected_anchor_generation (sl_fence failure) + 1)) →
      sx_audit (dt_steps s') = sx_audit (dt_steps s) ++ [event] →
      ae_subject_id (he_content event) = uuid_to_string (sf_job_id (sl_fence failure)) →
      (∃ r, r ∈ sx_outbox (dt_steps s') ∧ or_tenant_id r = sf_tenant_id (sl_fence failure) ∧
         om_id (or_message r) = om_id (de_outbox_message (sl_dead_letter failure))) →
      disposed force failure s s' job job' (Some (es_id e)).

Lemma retried_disposed failure now s s' job :
  retried failure now s s' job → ∃ job',
    q_jobs (sx_queue (dt_steps s')) !! sf_job_id (sl_fence failure) = Some job' ∧
    disposed false failure s s' job job' None.
Proof.
  intros [Ha ->]. eexists. split; [apply lookup_insert_eq|].
  constructor; try done; simpl; [lia|apply lookup_delete_eq].
Qed.

Lemma retried_frame failure now s s' job : retried failure now s s' job →
  only_this_failure failure s s' ∧
  ∀ job', q_jobs (sx_queue (dt_steps s')) !! sf_job_id (sl_fence failure) = Some job' → job_failed failure job job'.
Proof.
  intros [_ ->]. split; [split; simpl; try done|].
  - intros id Hne. by rewrite lookup_insert_ne.
  - intros id Hne. by rewrite lookup_delete_ne.
  - exists []. rewrite app_nil_r. split; [done|simpl; lia].
  - exists []. by rewrite app_nil_r.
  - intros job'. simpl. rewrite lookup_insert_eq. intros [= <-]. by split.
Qed.

Lemma escalated_frame failure between now s s' job m audit outbox t :
  escalated failure between now s s' job m audit outbox t →
  only_this_failure failure s s' ∧
  ∀ job', q_jobs (sx_queue (dt_steps s')) !! sf_job_id (sl_fence failure) = Some job' → job_failed failure job job'.
Proof.
  intros [_ Hd Hj Hlink]. rewrite Hj. split; [split; rewrite ?Hj; simpl|].
  - intros id Hne. by rewrite lookup_insert_ne.
  - done.
  - intros id Hne. by rewrite Hlink, lookup_insert_ne.
  - apply Hd.
  - apply Hd.
  - intros k Hne. destruct (dl_item _ _ _ _ _ _ _ _ Hd) as (row & c & _ & ->). by rewrite lookup_insert_ne.
  - intros k Hne. destruct (dl_flow _ _ _ _ _ _ _ _ Hd) as (row & c & _ & ->). by rewrite lookup_insert_ne.
  - intros k Hne. rewrite (dl_anchor _ _ _ _ _ _ _ _ Hd). by rewrite lookup_insert_ne.
  - destruct (dl_outbox_kept _ _ _ _ _ _ _ _ Hd) as [->| ->];
      [exists []; rewrite app_nil_r; split; [done|simpl; lia]|eexists; split; [done|simpl; lia]].
  - destruct (dl_audit _ _ _ _ _ _ _ _ Hd) as (event & -> & _). by eexists.
  - intros job'. simpl. rewrite lookup_insert_eq. intros [= <-]. by split.
Qed.

Lemma audit_made failure m job_type error_digest audit :
  effective_dead_letter_audit failure m job_type error_digest = Ok audit →
  sa_id audit = sa_id (de_audit_event (sl_dead_letter failure)) ∧
  sa_action audit = sa_action (de_audit_event (sl_dead_letter failure)) ∧
  sa_subject_type audit = "WORKFLOW_JOB" ∧
  sa_subject_id audit = uuid_to_string (sf_job_id (sl_fence failure)) ∧
  ∃ details rest, sa_details audit =
    Object (insert_all_fields (dead_letter_fields failure m job_type error_digest ++ rest) details) ∧
    rest.*1 = ["deadline"; "owner_type"; "owner_id"; "required_action"].
Proof.
  unfold effective_dead_letter_audit. destruct (sa_details _) as [| | | | |details]; try done.
  intros (b & _ & H)%bind_ok. apply bind_ok in H as (a & _ & H). apply bind_unit_ok in H as [_ H].
  match type of H with ?ok ?x = _ => assert (audit = x) as -> by congruence end. clear H.
  do 4 (split; [done|]). cbn [sa_details]. eexists details, _. split; [reflexivity|done].
Qed.

Lemma outbox_made failure m job_type error_digest outbox :
  effective_dead_letter_outbox failure m job_type error_digest = Ok outbox →
  om_id outbox = om_id (de_outbox_message (sl_dead_letter failure)) ∧
  om_event_type outbox = om_event_type (de_outbox_message (sl_dead_letter failure)) ∧
  ∃ payload item rest, om_payload outbox =
    Object (insert_all_fields ([item] ++ dead_letter_fields failure m job_type error_digest ++ rest) payload) ∧
    item.1 = "work_item_id" ∧
    rest.*1 = ["category"; "severity"; "status"; "deadline"; "owner_type"; "owner_id"; "required_action";
               "evidence_references"].
Proof.
  unfold effective_dead_letter_outbox. destruct (om_payload _) as [| | | | |payload]; try done.
  intros [_ H]%bind_unit_ok.
  match type of H with ?ok ?x = _ => assert (outbox = x) as -> by congruence end. clear H.
  do 2 (split; [done|]). cbn [om_payload]. eexists payload, (_, _), _. split; [reflexivity|done].
Qed.

Lemma select_work_item_version f t row :
  select_work_item f t = Some row → wi_row_version row = sf_expected_work_item_version f.
Proof.
  unfold select_work_item. destruct (sx_work_items t !! _) as [x|]; simpl; [|done].
  destruct (Z.eqb_spec (wi_row_version x) (sf_expected_work_item_version f)); [|done]. by intros [= <-].
Qed.

Lemma escalated_disposed force failure between now s s' job m audit outbox t :
  force || (jb_max_attempts job <=? jb_attempt_count job) = true →
  escalated failure between now s s' job m audit outbox t → ∃ job',
    q_jobs (sx_queue (dt_steps s')) !! sf_job_id (sl_fence failure) = Some job' ∧
    disposed force failure s s' job job' (Some (de_id (ee_record (dm_after m)))).
Proof.
  intros Hf [(all & _ & Hl) Hd Hj Hlink]. destruct (lt_owner _ _ _ _ _ _ Hl) as (e & He & Ho & _).
  destruct (ow_record _ _ _ _ _ Ho) as (Hid & Hdl & Hauth).
  destruct (dl_audit _ _ _ _ _ _ _ _ Hd) as (event & Haudit & Hr).
  destruct (audit_made _ _ _ _ _ (dl_audit_made _ _ _ _ _ _ _ _ Hd)) as (_ & _ & _ & Hsub & _).
  destruct (outbox_made _ _ _ _ _ (dl_outbox_made _ _ _ _ _ _ _ _ Hd)) as (Hoid & _).
  destruct (dl_item _ _ _ _ _ _ _ _ Hd) as (item & closed_at & Hitem & Hitems).
  destruct (dl_flow _ _ _ _ _ _ _ _ Hd) as (flow & terminal_at & Hflow & Hflows).
  destruct (dl_outbox _ _ _ _ _ _ _ _ Hd) as (r & Hrin & Hrt & Hrid & _).
  apply select_work_item_version in Hitem as Hver.
  eexists. rewrite Hj. split; [apply lookup_insert_eq|]. rewrite Hid.
  eapply (disposed_dead _ _ _ _ _ _ e (mkWorkItemRow _ _ closed_at) (mkWorkflowRow _ _ _ _ _ terminal_at) event);
    try done; rewrite ?Hj; cbn.
  - apply orb_true_iff in Hf as [->|Hf]; [by left|right; by apply Z.leb_le].
  - eauto.
  - rewrite Hlink, Hid. apply lookup_insert_eq.
  - rewrite Hitems, <- Hver. apply lookup_insert_eq.
  - rewrite Hflows. apply lookup_insert_eq.
  - rewrite (dl_anchor _ _ _ _ _ _ _ _ Hd), Hid, Hdl, Hauth, (ow_authority _ _ _ _ _ Ho). apply lookup_insert_eq.
  - done.
  - destruct Hr as (_ & _ & _ & _ & _ & _ & Hsubject & _). cbn in Hsubject |- *. congruence.
  - exists r. rewrite Hrid, Hoid. done.
Qed.

(** Reporting a failure never weakens or loses an escalation: every escalation
    of the table is still there afterwards with its owner, status and opening time,
    a deadline and severity that are at least as strict, and its reason, action and
    evidence extended at the end only; and the only row the transaction adds or
    changes is the one the failure reports. *)
Lemma escalations_only_strengthen prelocked force failure between now s s' outcome :
  ids_unique (dt_escalations s ++ between) →
  fail_workflow_step_inner prelocked force failure between now s = Ok (s', outcome) →
  (∀ e, e ∈ dt_escalations s → ∃ e', e' ∈ dt_escalations s' ∧ strengthens e e') ∧
  (∀ e', e' ∈ dt_escalations s' → e' ∈ dt_escalations s ++ between ∨
     fo_dead_letter_escalation_id outcome = Some (es_id e')).
Proof.
  intros Hu H. apply (failure_cases _ _ _ _ _ _ _ _ Hu) in H as (_ & job & _ & _ & _ & H).
  assert (∀ rows : list EscalationRow, (∀ e, e ∈ rows → ∃ e', e' ∈ rows ∧ strengthens e e')) as Hsame.
  { intros rows e He. exists e. split; [done|apply strengthens_refl]. }
  destruct H as [[-> _]|[_ [([_ ->] & _ & _)|(m & audit & outbox & t & He & _ & ->)]]].
  - split; [apply Hsame|]. intros e He. rewrite elem_of_app. auto.
  - split; [apply Hsame|]. intros e He. rewrite elem_of_app. auto.
  - destruct (el_letter _ _ _ _ _ _ _ _ _ _ He) as (all & Hall & Hl). simpl. split.
    + intros e Hin. apply (lt_kept _ _ _ _ _ _ Hl). destruct Hall as [->| ->]; [done|]. rewrite elem_of_app. by left.
    + intros e' [Hin|Hid]%(lt_new _ _ _ _ _ _ Hl); [left|right; by rewrite Hid].
      destruct Hall as [->| ->]; [|done]. rewrite elem_of_app. by left.
Qed.

(** C15. A recorded failure never leaves a dead job without an owner, and touches
    nothing but its own rows.  The job of a failure that is newly written loses its
    lease, keeps its identity, attempts and fence, and no other job, work item,
    workflow, anchor or dead-letter link and no effect, timer or intent changes; every
    escalation stays, at least as strict as it was, and only the owning one is added or
    changed.  The job is either put to RETRY with attempts left, its own old dead-letter link
    removed and no other table changed, or it is DEAD and, in the same transaction, linked to an
    active escalation of at least HIGH severity that names the job and the error as
    evidence, has a deadline no later than the proposed one and anchors the
    escalated work item, with one audit event and an outbox message.  This holds
    also when another transaction opens the escalation first. *)
Theorem failure_recorded prelocked force failure between now s s' outcome :
  ids_unique (dt_escalations s ++ between) →
  fail_workflow_step_inner prelocked force failure between now s = Ok (s', outcome) →
  fo_newly_recorded outcome = true →
  ∃ job job', q_jobs (sx_queue (dt_steps s)) !! sf_job_id (sl_fence failure) = Some job ∧
    owned_claim (sl_fence failure) job = true ∧
    q_jobs (sx_queue (dt_steps s')) !! sf_job_id (sl_fence failure) = Some job' ∧
    disposed force failure s s' job job' (fo_dead_letter_escalation_id outcome) ∧
    job_failed failure job job' ∧ only_this_failure failure s s' ∧
    (∀ e, e ∈ dt_escalations s → ∃ e', e' ∈ dt_escalations s' ∧ strengthens e e') ∧
    (∀ e', e' ∈ dt_escalations s' → e' ∈ dt_escalations s ++ between ∨
       fo_dead_letter_escalation_id outcome = Some (es_id e')).
Proof.
  intros Hu H Hnew. destruct (escalations_only_strengthen _ _ _ _ _ _ _ _ Hu H) as [Hkept Hadded]. apply (failure_cases _ _ _ _ _ _ _ _ Hu) in H as (_ & job & Hj & _ & _ & H).
  destruct H as [[_ E]|[Ho H]]; [congruence|]. exists job.
  destruct H as [(Hr & -> & ->)|(m & audit & outbox & t & He & Hf & ->)].
  - destruct (retried_disposed _ _ _ _ _ Hr) as (job' & ? & ?).
    destruct (retried_frame _ _ _ _ _ Hr) as [? Hk]. exists job'. auto 10.
  - destruct (escalated_disposed _ _ _ _ _ _ _ _ _ _ _ Hf He) as (job' & ? & ?).
    destruct (escalated_frame _ _ _ _ _ _ _ _ _ _ He) as [? Hk]. exists job'. auto 10.
Qed.

(** ** The same failure again *)

Lemma field_map_insert key key' value l :
  field key (Object (map_insert key' value l)) =
    (if bool_decide (key = key') then Some value else field key (Object l)).
Proof.
  induction l as [|[k v] l IH]; simpl.
  - repeat case_bool_decide; simpl; congruence.
  - destruct (decide (k = key')) as [->|Hne].
    + rewrite (bool_decide_true (key' = key')) by done. simpl. repeat case_bool_decide; simpl; congruence.
    + rewrite (bool_decide_false (k = key')) by done. simpl in *.
      destruct (decide (k = key)) as [->|]; [by rewrite !bool_decide_true, bool_decide_false by done|].
      by rewrite !(bool_decide_false (k = key)) by done.
Qed.

Lemma field_insert_all new l key value :
  NoDup new.*1 → (key, value) ∈ new → field key (Object (insert_all_fields new l)) = Some value.
Proof.
  unfold insert_all_fields. revert l.
  assert (∀ new l, key ∉ new.*1 →
    field key (Object (foldl (λ acc f, map_insert f.1 f.2 acc) l new)) = field key (Object l)) as Hrest.
  { clear. intros new. induction new as [|[k v] new IH]; intros l Hk; [done|]. cbn -[field].
    rewrite fmap_cons, not_elem_of_cons in Hk. destruct Hk as [Hne Hk].
    by rewrite IH, field_map_insert, bool_decide_false by done. }
  induction new as [|[k v] new IH]; intros l Hnd Hin; [by apply elem_of_nil in Hin|]. cbn -[field].
  apply NoDup_cons in Hnd as [Hk Hnd]. apply elem_of_cons in Hin as [[= -> ->]|Hin]; [|by apply IH].
  by rewrite Hrest, field_map_insert, bool_decide_true by done.
Qed.

(** An object with the fields of a dead letter, as they are or as they are stored,
    names it. *)
Lemma names_fields failure m job_type error_digest result v (g : Value → Value) :
  (∀ s, g (VString s) = VString s) → (∀ x, jsonb_eqb (g x) x = true) →
  (∀ key x, (key, x) ∈ dead_letter_fields failure m job_type error_digest → field key v = Some (g x)) →
  field "escalation" result = Some (dead_letter_escalation_fact (dm_after m)) →
  field "escalation_mutation" result = Some (dead_letter_mutation_fact m) →
  names_dead_letter (sf_job_id (sl_fence failure)) (de_id (ee_record (dm_after m))) job_type error_digest
    result v = true.
Proof.
  intros Hs Heq Hf He Hm. unfold names_dead_letter, same_field, text_at. rewrite He, Hm.
  assert (Forall (λ f, field f.1 v = Some (g f.2)) (dead_letter_fields failure m job_type error_digest)) as H.
  { apply Forall_forall. intros [key x]. apply Hf. }
  unfold dead_letter_fields in H. rewrite !Forall_cons in H. cbn [fst snd] in H.
  destruct H as (H1 & H2 & H3 & H4 & H5 & H6 & _). rewrite H1, H2, H3, H4, H5, H6. simpl.
  unfold uuid_value. rewrite !Hs, !jsonb_text_string, !Heq. simpl. by rewrite !bool_decide_true.
Qed.

Lemma fields_unique failure m job_type error_digest (before after : list (string * Value)) keys :
  before.*1 ++ ["workflow_job_id"; "job_type"; "error_digest"; "escalation_id"; "escalation";
                "escalation_mutation"] ++ after.*1 = keys →
  NoDup keys → NoDup (before ++ dead_letter_fields failure m job_type error_digest ++ after).*1.
Proof. intros <-. by rewrite !fmap_app. Qed.

(** The dead job and its records say the same. *)
Lemma escalated_exists failure between now s s' job m audit outbox t :
  sa_action (de_audit_event (sl_dead_letter failure)) = "WORKFLOW_JOB_EXHAUSTED" →
  om_event_type (de_outbox_message (sl_dead_letter failure)) = "workflow_job.exhausted" →
  (∀ r, r ∈ sx_outbox (dt_steps s) → om_id (or_message r) ≠ om_id (de_outbox_message (sl_dead_letter failure))) →
  jb_tenant_id job = sf_tenant_id (sl_fence failure) → require_step_binding job (sl_fence failure) = Ok tt →
  escalated failure between now s s' job m audit outbox t →
  dead_letter_exists failure (de_id (ee_record (dm_after m))) (jb_job_type job)
    (sha256_digest (bytes (sl_error_summary failure))) s' = true.
Proof.
  intros Haction Hevent Hfresh Htenant Hbind [(all & _ & Hl) Hd Hj Hlink].
  destruct (lt_owner _ _ _ _ _ _ Hl) as (e & He & Ho & _).
  destruct (ow_record _ _ _ _ _ Ho) as (Hid & _ & _).
  destruct (dl_audit _ _ _ _ _ _ _ _ Hd) as (event & Haudit & Hr).
  destruct (audit_made _ _ _ _ _ (dl_audit_made _ _ _ _ _ _ _ _ Hd)) as (Haid & Haact & Hst & Hsub & details & rest & Hdet & Hrest).
  destruct (outbox_made _ _ _ _ _ (dl_outbox_made _ _ _ _ _ _ _ _ Hd)) as (Hoid & Hoet & payload & item & rest' & Hpay & Hitem & Hrest').
  pose proof (dl_outbox_fresh _ _ _ _ _ _ _ _ Hd) as Hout.
  apply bail_if_ok, negb_false_iff in Hbind. rewrite andb_true_iff, !bool_decide_eq_true in Hbind.
  destruct Hbind as [_ Hwi]. destruct Hr as (Hr1 & Hr2 & _ & _ & Hr3 & Hr4 & Hr5 & Hr6).
  unfold dead_letter_exists. rewrite Hj. cbn [set_queue sx_queue q_jobs]. rewrite lookup_insert_eq.
  cbn [failed_step_row jb_result jb_tenant_id jb_status jb_work_item_id jb_attempt_id default from_option id].
  set (result := dead_letter_result _ _ _ _ _ _).
  rewrite !andb_true_iff, !bool_decide_eq_true. repeat split; try done.
  - by rewrite Hlink, lookup_insert_eq.
  - apply existsb_exists. exists e. split; [by apply list_elem_of_In|].
    rewrite !andb_true_iff, !bool_decide_eq_true, Hwi, (ow_item _ _ _ _ _ Ho), (ow_attempt _ _ _ _ _ Ho),
      (ow_tenant _ _ _ _ _ Ho). done.
  - unfold result, text_at. simpl. apply jsonb_text_string.
  - unfold result, text_at. simpl. apply jsonb_text_string.
  - unfold result, text_at. simpl. apply jsonb_text_string.
  - unfold result, text_at. simpl. apply jsonb_text_string.
  - apply existsb_exists. exists event. cbn. rewrite Haudit. split; [apply list_elem_of_In, elem_of_app; right; by left|].
    rewrite Hr1, Hr2, Hr3, Hr4, Hr5, Hr6, Hst, Hsub, Haact, Haction, Htenant.
    rewrite !andb_true_iff, !bool_decide_eq_true. repeat split; try done.
    + unfold text_at. simpl. symmetry. apply jsonb_text_string.
    + apply (names_fields _ _ _ _ _ _ stored_value); try done; [apply stored_string|apply stored_equal|].
      intros key x Hin. rewrite stored_field, Hdet, (field_insert_all _ _ key x); [done| |].
      * apply (fields_unique _ _ _ _ [] _ _ eq_refl). rewrite Hrest. apply (bool_decide_unpack _). by vm_compute.
      * rewrite elem_of_app. by left.
  - apply existsb_exists. exists (mkOutboxRow (sf_tenant_id (sl_fence failure)) outbox). cbn.
    rewrite Hout by (intros r Hrr; rewrite Hoid; auto).
    split; [apply list_elem_of_In, elem_of_app; right; by left|].
    rewrite Hoet, Hevent, Htenant. rewrite !andb_true_iff, !bool_decide_eq_true. repeat split; try done.
    + unfold text_at. simpl. symmetry. apply jsonb_text_string.
    + apply (names_fields _ _ _ _ _ _ (λ v, v)); try done; [apply jsonb_eqb_refl|].
      intros key x Hin. rewrite Hpay, (field_insert_all _ _ key x); [done| |].
      * apply (fields_unique _ _ _ _ [item] _ _ eq_refl). rewrite Hrest'. simpl. rewrite Hitem. apply (bool_decide_unpack _). by vm_compute.
      * rewrite !elem_of_app. auto.
Qed.

(** A failure is recorded once: reporting it again after it was written, at any
    later time, under either kind of claim and whatever other transactions commit,
    returns the same disposition and escalation as a repetition and changes
    nothing.  The audit action and the outbox event type have to be the ones that
    the lookup of the existing dead letter asks for, and the times have to be
    representable in the database. *)
Lemma failure_recorded_once prelocked prelocked' force force' failure between between' now now' s s' outcome :
  ids_unique (dt_escalations s ++ between) →
  sa_action (de_audit_event (sl_dead_letter failure)) = "WORKFLOW_JOB_EXHAUSTED" →
  om_event_type (de_outbox_message (sl_dead_letter failure)) = "workflow_job.exhausted" →
  (∀ r, r ∈ sx_outbox (dt_steps s) → om_id (or_message r) ≠ om_id (de_outbox_message (sl_dead_letter failure))) →
  stored_at (sl_retry_at failure) = sl_retry_at failure →
  fail_workflow_step_inner prelocked force failure between now s = Ok (s', outcome) →
  fo_newly_recorded outcome = true →
  fail_workflow_step_inner prelocked' force' failure between' now' s' =
    Ok (s', mkWorkflowStepFailureOutcome (fo_disposition outcome) false (fo_dead_letter_escalation_id outcome)).
Proof.
  intros Hu Haction Hevent Hfresh Hretry H Hnew.
  apply (failure_cases _ _ _ _ _ _ _ _ Hu) in H as (Hv & job & Hj & Ht & Hbind & H).
  destruct H as [[_ E]|[_ H]]; [congruence|]. unfold fail_workflow_step_inner, lock_step_job, load_job.
  rewrite Hv. cbn -[verify_dead_letter_exists sha256_digest].
  destruct H as [([_ ->] & _ & ->)|(m & audit & outbox & t & He & _ & ->)].
  - cbn -[verify_dead_letter_exists sha256_digest]. rewrite lookup_insert_eq. cbn -[verify_dead_letter_exists sha256_digest]. rewrite bool_decide_true by done. cbn -[verify_dead_letter_exists sha256_digest].
    unfold require_step_binding in *. cbn -[verify_dead_letter_exists sha256_digest]. rewrite Hbind. cbn -[verify_dead_letter_exists sha256_digest].
    unfold repeated_failure_outcome. cbn. rewrite lookup_delete_eq, Hretry, !(bool_decide_true (Some _ = Some _)) by done. done.
  - pose proof (escalated_exists _ _ _ _ _ _ _ _ _ _ Haction Hevent Hfresh Ht Hbind He) as Hex.
    destruct He as [_ Hd Hjob Hlink]. rewrite Hlink, lookup_insert_eq, Hjob. cbn -[verify_dead_letter_exists sha256_digest]. rewrite lookup_insert_eq. cbn -[verify_dead_letter_exists sha256_digest].
    rewrite bool_decide_true by done. cbn -[verify_dead_letter_exists sha256_digest].
    unfold require_step_binding in *. cbn -[verify_dead_letter_exists sha256_digest]. rewrite Hbind. cbn -[verify_dead_letter_exists sha256_digest].
    unfold repeated_failure_outcome. cbn -[verify_dead_letter_exists sha256_digest].
    rewrite Hretry, !(bool_decide_true (Some _ = Some _)) by done. cbn -[verify_dead_letter_exists sha256_digest].
    rewrite !(bool_decide_true ("DEAD" = "DEAD")), andb_false_r by done. cbn -[verify_dead_letter_exists sha256_digest].
    rewrite (bool_decide_true (_ = WorkflowStepFailureDisposition.Escalated)) by done.
    cbn -[verify_dead_letter_exists sha256_digest]. unfold verify_dead_letter_exists. by rewrite Hex.
Qed.
End facts.

Module Sample.
#[local] Instance columns : PgColumns :=
  {| stored_at t := t; stored_value v := v; stored_value_object v := eq_refl |}.
#[local] Instance equality : Jsonb :=
  {| jsonb_eqb := JobQueueFacts.Sample.text_eqb; jsonb_eqb_refl := JobQueueFacts.Sample.text_eqb_refl |}.
#[local] Instance uuids : UuidText := {| uuid_to_string _ := "u"; uuid_to_string_visible _ := eq_refl |}.
#[local] Existing Instances sample_hashing sample_jcs.
#[local] Instance value_jcs : Canonical Value := {| to_jcs _ := inr [] |}.
#[local] Instance texts : JsonbText :=
  {| jsonb_text v := match v with VString s => Some s | _ => None end; jsonb_text_string s := eq_refl |}.
#[local] Instance times : DateTimeText := {| datetime_to_string _ := "t" |}.

Lemma fmap_same {A} (l : list A) : l = (λ x, x) <$> l.
Proof. symmetry. apply list_fmap_id. Qed.

Lemma field_same key v : field key v = (λ x, x) <$> field key v.
Proof. by destruct (field key v). Qed.

#[local] Instance stored : StoredJson :=
  {| stored_string s := eq_refl; stored_array l := f_equal Array (fmap_same l); stored_field := field_same;
     stored_equal := JobQueueFacts.Sample.text_eqb_refl |}.

(** A step of [StepFacts.Sample] fails. *)
Definition failure : WorkflowStepFailure :=
  {| sl_fence := wc_fence StepFacts.Sample.commit; sl_error_summary := "provider timed out";
     sl_retry_at := minutes 1;
     sl_dead_letter :=
       {| de_id := 51%N; de_run_id := None; de_category := "WORKFLOW_JOB_EXHAUSTED"; de_severity := "LOW";
          de_reason := "exhausted"; de_owner_type := "TEAM"; de_owner_id := "factory";
          de_required_action := "inspect"; de_evidence_references := Array [VString "log"];
          de_deadline := minutes 60; de_escalation_path := Array []; de_retry_policy := Object [];
          de_prerequisites := Array []; de_authority_or_effect_active := false;
          de_idempotency_key := "dead:11"; de_opened_at := 0;
          de_audit_event := mkStepAuditEvent 61%N None "worker" "w1" "WORKFLOW_JOB_EXHAUSTED" "job" "11" "c"
                              None None None None (Object []) 0;
          de_outbox_message := mkStepOutboxMessage 71%N "jobs" "11" "workflow_job.exhausted" (Object [])
                                 (Object []) "dead:11" 0 |} |}.

(** An escalation of the same work item that another transaction opened. *)
Definition open_row : EscalationRow :=
  {| es_id := 52%N; es_tenant_id := 1%N; es_work_item_id := 31%N; es_attempt_id := None; es_run_id := None;
     es_category := "WORKFLOW_JOB_EXHAUSTED"; es_status := "ACKNOWLEDGED"; es_severity := "CRITICAL";
     es_reason := "earlier"; es_owner_type := "PERSON"; es_owner_id := "ada"; es_required_action := "call";
     es_evidence_references := Array []; es_deadline := minutes 90; es_escalation_path := Array [];
     es_retry_policy := Object []; es_prerequisites := Array []; es_authority_or_effect_active := false;
     es_idempotency_key := "earlier"; es_aggregate_version := 3; es_opened_at := 0;
     es_acknowledged_at := Some 1; es_closed_at := None |}.

Definition tables : DeadLetterTables := mkDeadLetterTables StepFacts.Sample.tables [] ∅.

Definition force_failure := fail_workflow_step_inner true true failure.

Definition dead : res (DeadLetterTables * WorkflowStepFailureOutcome) := force_failure [open_row] 1 tables.

Lemma escalated_adopts : snd <$> dead =
  Ok (mkWorkflowStepFailureOutcome WorkflowStepFailureDisposition.Escalated true (Some 52%N)).
Proof. vm_compute. reflexivity. Qed.

Lemma unique : ids_unique (dt_escalations tables ++ [open_row]).
Proof. apply NoDup_singleton. Qed.

Lemma no_outbox : sx_outbox (dt_steps tables) = [].
Proof. vm_compute. reflexivity. Qed.

Lemma failure_recorded_witness :
  ∃ s' job job', q_jobs (sx_queue (dt_steps tables)) !! 11%N = Some job ∧
    disposed true failure tables s' job job' (Some 52%N).
Proof.
  pose proof escalated_adopts as H. destruct dead as [[s' outcome]| |] eqn:E; [|discriminate H..].
  injection H as ->.
  destruct (failure_recorded true true failure [open_row] 1 tables s' _ unique E eq_refl)
    as (job & job' & Hj & _ & _ & Hd & _).
  exists s', job, job'. split; [exact Hj|exact Hd].
Defined.

Lemma escalations_only_strengthen_witness :
  ∃ s', (∀ e, e ∈ dt_escalations s' → e = open_row ∨ es_id e = 52%N).
Proof.
  pose proof escalated_adopts as H. destruct dead as [[s' outcome]| |] eqn:E; [|discriminate H..].
  injection H as ->.
  destruct (escalations_only_strengthen true true failure [open_row] 1 tables s' _ unique E) as [_ Hn].
  exists s'. intros e He. destruct (Hn e He) as [Hin|Hid].
  - left. by apply list_elem_of_singleton in Hin.
  - right. injection Hid as <-. reflexivity.
Defined.

Lemma failure_recorded_once_witness :
  ∃ s', fail_workflow_step failure [] (minutes 9) s' =
    Ok (s', mkWorkflowStepFailureOutcome WorkflowStepFailureDisposition.Escalated false (Some 52%N)).
Proof.
  pose proof escalated_adopts as H. destruct dead as [[s' outcome]| |] eqn:E; [|discriminate H..].
  injection H as ->. exists s'.
  refine (failure_recorded_once true false true false failure [open_row] [] 1 (minutes 9) tables s' _
    unique eq_refl eq_refl _ eq_refl E eq_refl).
  intros r Hr. rewrite no_outbox in Hr. inversion Hr.
Defined.
End Sample.
