(* ===== verification/RunmillEvidence.v ===== *)
(** The evidence that Runmill signs, [src/src/contracts/runmill_evidence.rs]: an
    in-toto statement about one candidate, its shape, the signature, the manifest
    of artifacts and the comparison with what ASF expects of the run.

    The signature covers the canonical envelope without a domain prefix.  A time
    keeps the text that was signed; [Rfc3339] stands for chrono's parser. *)

From Stdlib Require Import ZArith Lia Ascii.
From stdpp Require Import base tactics option strings pretty numbers list gmap.
From S2P Require Import Prelude RustStr RustOrd Ids Authority Crypto Governance Security WorkOrder Evidence RunmillOrder.

Definition RUNMILL_SIGNED_EVIDENCE_SCHEMA_V1 : string := "asf.signed-evidence/v1".
Definition RUNMILL_EVIDENCE_PREDICATE_SCHEMA_V1 : string := "asf.evidence-bundle/v1".
Definition IN_TOTO_STATEMENT_V1 : string := "https://in-toto.io/Statement/v1".
Definition RUNMILL_EVIDENCE_PREDICATE_TYPE_V1 : string :=
  "https://runmill.dev/attestations/asf-evidence/v1".

Definition MAX_IDENTIFIER_BYTES : Z := 256.
Definition MAX_REFERENCE_BYTES : Z := 512.
Definition MAX_REPOSITORY_BYTES : Z := 512.
Definition MAX_BRANCH_REF_BYTES : Z := 512.
Definition MAX_PATH_BYTES : Z := 1024.
Definition MAX_SORTED_STRINGS : Z := 2048.
Definition MAX_PROVIDERS : Z := 3.
Definition MAX_ROLE_OUTCOMES : Z := 3.
Definition MAX_LOCAL_CHECKS : Z := 256.
Definition MAX_CI_CONTEXTS : Z := 256.
Definition MAX_REVIEWS : Z := 16.
Definition MAX_SIDE_EFFECTS : Z := 1024.
Definition MAX_APPROVALS : Z := 256.
Definition MAX_ARTIFACTS : Z := 2048.
Definition MAX_ARTIFACT_BYTES : Z := 1073741824.
Definition MAX_SAFE_JSON_INTEGER : Z := 9007199254740991.

(** [DateTime::parse_from_rfc3339]: the instant or the text of the failure. *)
Class Rfc3339 := { parse_from_rfc3339 : string → string + DateTime }.

Definition count {A} (l : list A) : Z := Z.of_nat (length l).

(** [a || b?] for a condition that may fail. *)
Definition or_else (a : bool) (b : res bool) : res bool := if a then Ok true else b.

(** ** Text *)

Definition identifier_text (value : string) : bool :=
  negb (str_is_empty value) && (len value <=? MAX_IDENTIFIER_BYTES)
  && match bytes value with b :: _ => is_ascii_alphanumeric b | [] => false end
  && forallb (λ b, is_ascii_alphanumeric b || mem b [46; 95; 58; 45]) (bytes value).

Definition validate_identifier (value label : string) : res unit :=
  bail_if (negb (identifier_text value))
    (Validation [Disp label; Lit " is not a Runmill identifier"]).

Definition reference_text (value : string) : bool :=
  negb (str_is_empty value) && (len value <=? MAX_REFERENCE_BYTES)
  && match bytes value with b :: _ => is_ascii_alphanumeric b | [] => false end
  && forallb (λ b, is_ascii_alphanumeric b || mem b [46; 95; 58; 47; 64; 43; 45]) (bytes value).

Definition validate_reference (value label : string) : res unit :=
  bail_if (negb (reference_text value))
    (Validation [Disp label; Lit " is not a Runmill reference"]).

Definition valid_part (part : string) : bool :=
  negb (str_is_empty part)
  && forallb (λ b, is_ascii_alphanumeric b || mem b [95; 46; 45]) (bytes part).

Definition validate_repository (value : string) : res unit :=
  bail_if ((len value <? 3) || (MAX_REPOSITORY_BYTES <? len value))
    (Validation [Lit "Runmill repository slug is out of bounds"]) ;;
  bail_if (negb match split_on "/" value with
                | [owner; name] => valid_part owner && valid_part name
                | _ => false
                end)
    (Validation [Lit "Runmill repository must be an owner/name slug"]).

Definition validate_branch_ref (value label : string) : res unit :=
  branch ← ok_or (strip_prefix "refs/heads/" value)
    (Validation [Disp label; Lit " is not a branch ref"]);
  bail_if ((len value <? 12) || (MAX_BRANCH_REF_BYTES <? len value) || str_is_empty branch
           || negb match bytes branch with b :: _ => is_ascii_alphanumeric b | [] => false end
           || negb (forallb (λ b, is_ascii_alphanumeric b || mem b [46; 95; 47; 45]) (bytes branch)))
    (Validation [Disp label; Lit " is not a safe branch ref"]).

Definition is_ascii_control (b : Z) : bool := (b <=? 31) || (b =? 127).

Definition unsafe_path (value : string) : bool :=
  str_is_empty value || (MAX_PATH_BYTES <? len value) || starts_with "/" value
  || contains_char "\" value || existsb (λ part, bool_decide (part = "..")) (split_on "/" value)
  || existsb (λ b, is_ascii_control b || (b =? 127)) (bytes value).

Definition validate_path (value : string) : res unit :=
  bail_if (unsafe_path value)
    (Validation [Lit "Runmill changed path is not normalized and repository-relative"]).

(** [values.windows(2).any(|pair| pair[0] >= pair[1])]. *)
Definition validate_lexically_sorted_unique (values : list string) (label : string) : res unit :=
  bail_if (negb (increasing values))
    (Validation [Lit "Runmill "; Disp label; Lit " must be unique and lexically sorted"]).

Definition validate_sorted_references (values : list string) (label : string) : res unit :=
  bail_if (MAX_SORTED_STRINGS <? count values)
    (Validation [Disp label; Lit " exceeds the Runmill bound"]) ;;
  try_for values (λ value, validate_reference value label) ;;
  validate_lexically_sorted_unique values label.

Definition validate_sorted_paths (values : list string) : res unit :=
  bail_if (MAX_SORTED_STRINGS <? count values)
    (Validation [Lit "Runmill changed paths exceed the manifest bound"]) ;;
  try_for values validate_path ;;
  validate_lexically_sorted_unique values "changed paths".

Definition validate_digest (value label : string) : res unit :=
  bail_if (negb (is_sha256_digest value))
    (Validation [Lit "Runmill "; Disp label; Lit " must be a lowercase sha256 digest"]).

Definition git_sha_text (value : string) : bool :=
  (len value =? 40) && forallb lower_hex (bytes value).

Definition validate_git_sha (value label : string) : res unit :=
  bail_if (negb (git_sha_text value))
    (Validation [Lit "Runmill "; Disp label; Lit " must be a lowercase 40-hex Git SHA"]).

Definition validate_subject_name (value : string) : res unit :=
  '(forge, repository) ← ok_or (split_once ":" value)
    (Validation [Lit "Runmill statement subject is malformed"]);
  bail_if (str_is_empty forge
           || negb (forallb (λ b, is_ascii_alphanumeric b || mem b [46; 95; 45]) (bytes forge)))
    (Validation [Lit "Runmill statement forge is malformed"]) ;;
  validate_repository repository.

Definition media_part (part : string) : bool :=
  negb (str_is_empty part)
  && match bytes part with b :: _ => is_ascii_lowercase b | [] => false end
  && forallb (λ b, is_ascii_lowercase b || is_ascii_digit b || mem b [33; 35; 36; 38; 94; 95; 46; 43; 45])
       (bytes part).

Definition validate_media_type (value : string) : res unit :=
  let malformed := Validation [Lit "Runmill artifact media type is malformed"] in
  '(kind, subtype) ← ok_or (split_once "/" value) malformed;
  bail_if ((len value <? 3) || (MAX_IDENTIFIER_BYTES <? len value) || negb (media_part kind)
           || negb (media_part subtype)) malformed.

Definition validate_public_https_url `{UrlCrate} (value : string) : res unit :=
  match url_parse value with
  | inl _ => Err (Validation [Lit "Runmill pull-request URL is malformed"])
  | inr url =>
      bail_if (negb (bool_decide (url_scheme url = "https")) || is_none (url_host url)
               || negb (str_is_empty (url_username url)) || is_some (url_password url)
               || is_some (url_query url) || is_some (url_fragment url))
        (Validation [Lit "Runmill pull-request URL must be public HTTPS without credentials, query, or fragment"])
  end.

Definition validate_cas_location (value : string) : res unit :=
  digest ← ok_or (strip_prefix "cas://sha256/" value)
    (Validation [Lit "Runmill artifact location is not CAS"]);
  bail_if (negb (len digest =? 64) || negb (forallb lower_hex (bytes digest)))
    (Validation [Lit "Runmill artifact CAS location is malformed"]).

Definition validate_signature_encoding `{Ed25519} (value : string) : res unit :=
  encoded ← ok_or (strip_prefix "base64url:" value)
    (Validation [Lit "Runmill signature must have the base64url prefix"]);
  decoded ← map_err (base64_decode encoded)
    (λ _, Validation [Lit "Runmill signature is not base64url"]);
  bail_if (negb (count decoded =? 64) || negb (bool_decide (base64_encode decoded = encoded)))
    (Validation [Lit "Runmill signature is not canonical 64-byte Ed25519 base64url"]).

(** ** The statement *)

Record RunmillExternalRunId := mkRunmillExternalRunId { external_run_id : string }.
#[export] Instance RunmillExternalRunId_eq_dec : EqDecision RunmillExternalRunId.
Proof. solve_decision. Defined.

Definition RunmillExternalRunId_validate (id : RunmillExternalRunId) : res unit :=
  validate_identifier (external_run_id id) "Runmill run id".

Definition RunmillExternalRunId_new (value : string) : res RunmillExternalRunId :=
  validate_identifier value "Runmill run id" ;; Ok (mkRunmillExternalRunId value).

Record RunmillEvidenceTimestamp := mkTimestamp { timestamp_text : string }.

Definition to_utc `{Rfc3339} (t : RunmillEvidenceTimestamp) : res DateTime :=
  bail_if ((64 <? len (timestamp_text t)) || negb (contains_char "T" (timestamp_text t)))
    (Validation [Lit "Runmill evidence timestamp is not bounded RFC 3339"]) ;;
  map_err (parse_from_rfc3339 (timestamp_text t))
    (λ _, Validation [Lit "Runmill evidence timestamp is not RFC 3339"]).

Definition RunmillEvidenceTimestamp_new `{Rfc3339} (value : string) : res RunmillEvidenceTimestamp :=
  to_utc (mkTimestamp value) ≫= λ _, Ok (mkTimestamp value).

Record RunmillEvidenceRun := mkEvidenceRun {
  eu_run_id : RunmillExternalRunId;
  eu_attempt_id : AttemptId;
  eu_work_order_id : WorkOrderId;
  eu_completed_at : RunmillEvidenceTimestamp
}.

Inductive RunmillEvidenceAlgorithm := EdDSA.

Record RunmillVerifiedWorkOrderSignature := mkVerifiedSignature {
  ws_key_id : string;
  ws_algorithm : RunmillEvidenceAlgorithm;
  ws_verified : bool
}.

Record RunmillEvidenceWorkOrder := mkEvidenceWorkOrder {
  ew_envelope_digest : string;
  ew_payload_digest : string;
  ew_envelope_artifact_digest : string;
  ew_signature : RunmillVerifiedWorkOrderSignature
}.

Record RunmillPolicyInputs := mkPolicyInputs {
  pi_operator_policy_digest : string;
  pi_work_order_policy_digest : string;
  pi_repository_policy_digest : string;
  pi_forge_policy_digest : string
}.

Record RunmillEffectivePolicyEvidence := mkEffectivePolicy {
  ep_effective_policy_digest : string;
  ep_effective_policy_artifact_digest : string;
  ep_inputs : RunmillPolicyInputs;
  ep_required_local_checks : list string;
  ep_required_ci_contexts : list string;
  ep_require_local_review : bool;
  ep_require_pull_request_review : bool
}.

Record RunmillSourceEvidence := mkSourceEvidence {
  ev_forge : string;
  ev_repository : string;
  ev_base_ref : string;
  ev_base_sha : string;
  ev_candidate_sha : string;
  ev_remote_head_sha : string;
  ev_merge_sha : option string;
  ev_tree_digest : string;
  ev_normalized_diff_digest : string;
  ev_normalized_diff_artifact_digest : string;
  ev_changed_paths : list string
}.

Module RunmillProviderRole.
Inductive RunmillProviderRole := Implementer | LocalReviewer | PullRequestReviewer.
#[export] Instance eq_dec : EqDecision RunmillProviderRole.
Proof. solve_decision. Defined.
Definition code (r : RunmillProviderRole) : nat :=
  match r with Implementer => 0 | LocalReviewer => 1 | PullRequestReviewer => 2 end.
Definition of_code (n : nat) : RunmillProviderRole :=
  match n with 0%nat => Implementer | 1%nat => LocalReviewer | _ => PullRequestReviewer end.
#[export] Instance countable : Countable RunmillProviderRole.
Proof. apply (inj_countable' code of_code). by intros []. Defined.
Definition debug (r : RunmillProviderRole) : string :=
  match r with
  | Implementer => "Implementer" | LocalReviewer => "LocalReviewer"
  | PullRequestReviewer => "PullRequestReviewer"
  end.
End RunmillProviderRole.
Abbreviation RunmillProviderRole := RunmillProviderRole.RunmillProviderRole.
Export (hints) RunmillProviderRole.

Record RunmillProviderAttribution := mkProvider {
  pa_role : RunmillProviderRole;
  pa_provider : string;
  pa_model : string;
  pa_principal_id : string;
  pa_lease_id : string
}.

Record RunmillRuntimeEvidence := mkRuntimeEvidence {
  ru_harness_digest : string;
  ru_tool_policy_digest : string;
  ru_sandbox_profile_digest : string;
  ru_dependency_digest : string;
  ru_runtime_digest : string;
  ru_runtime_manifest_digest : string;
  ru_providers : list RunmillProviderAttribution
}.

Module RunmillRoleOutcomeConclusion.
Inductive RunmillRoleOutcomeConclusion := Completed | Passed | Stopped.
#[export] Instance eq_dec : EqDecision RunmillRoleOutcomeConclusion.
Proof. solve_decision. Defined.
End RunmillRoleOutcomeConclusion.
Abbreviation RunmillRoleOutcomeConclusion := RunmillRoleOutcomeConclusion.RunmillRoleOutcomeConclusion.
Export (hints) RunmillRoleOutcomeConclusion.

Record RunmillRoleOutcome := mkRoleOutcome {
  rc_role : RunmillProviderRole;
  rc_outcome : RunmillRoleOutcomeConclusion;
  rc_candidate_sha : string;
  rc_evidence_digest : string
}.

Module RunmillLocalCheckConclusion.
Inductive RunmillLocalCheckConclusion := Success | Failure | Error.
#[export] Instance eq_dec : EqDecision RunmillLocalCheckConclusion.
Proof. solve_decision. Defined.
End RunmillLocalCheckConclusion.
Abbreviation RunmillLocalCheckConclusion := RunmillLocalCheckConclusion.RunmillLocalCheckConclusion.
Export (hints) RunmillLocalCheckConclusion.

Module RunmillCheckCoverage.
Inductive RunmillCheckCoverage := Complete | Partial | Unknown.
#[export] Instance eq_dec : EqDecision RunmillCheckCoverage.
Proof. solve_decision. Defined.
End RunmillCheckCoverage.
Abbreviation RunmillCheckCoverage := RunmillCheckCoverage.RunmillCheckCoverage.
Export (hints) RunmillCheckCoverage.

Record RunmillLocalCheckEvidence := mkLocalCheck {
  lc_check_id : string;
  lc_candidate_sha : string;
  lc_tree_digest : string;
  lc_command_digest : string;
  lc_executor_id : string;
  lc_toolchain_digest : string;
  lc_sandbox_profile_digest : string;
  lc_started_at : RunmillEvidenceTimestamp;
  lc_completed_at : RunmillEvidenceTimestamp;
  lc_conclusion : RunmillLocalCheckConclusion;
  lc_coverage : RunmillCheckCoverage;
  lc_evidence_digest : string
}.

Module RunmillCiConclusion.
Inductive RunmillCiConclusion := Success | Failure | Pending | Cancelled | Skipped | Neutral | Unknown.
#[export] Instance eq_dec : EqDecision RunmillCiConclusion.
Proof. solve_decision. Defined.
End RunmillCiConclusion.
Abbreviation RunmillCiConclusion := RunmillCiConclusion.RunmillCiConclusion.
Export (hints) RunmillCiConclusion.

Record RunmillCiContextEvidence := mkCiContext {
  cx_context : string;
  cx_candidate_sha : string;
  cx_conclusion : RunmillCiConclusion;
  cx_observed_at : RunmillEvidenceTimestamp;
  cx_evidence_digest : string
}.

Record RunmillVerificationEvidence := mkVerificationEvidence {
  ve_local_checks : list RunmillLocalCheckEvidence;
  ve_ci_contexts : list RunmillCiContextEvidence
}.

Module RunmillReviewStage.
Inductive RunmillReviewStage := Local | PullRequest.
#[export] Instance eq_dec : EqDecision RunmillReviewStage.
Proof. solve_decision. Defined.
End RunmillReviewStage.
Abbreviation RunmillReviewStage := RunmillReviewStage.RunmillReviewStage.
Export (hints) RunmillReviewStage.

Module RunmillReviewVerdict.
Inductive RunmillReviewVerdict := Pass | Fail | Unknown.
#[export] Instance eq_dec : EqDecision RunmillReviewVerdict.
Proof. solve_decision. Defined.
End RunmillReviewVerdict.
Abbreviation RunmillReviewVerdict := RunmillReviewVerdict.RunmillReviewVerdict.
Export (hints) RunmillReviewVerdict.

Record RunmillReviewEvidence := mkReview {
  vw_review_id : string;
  vw_stage : RunmillReviewStage;
  vw_reviewer_principal : string;
  vw_reviewer_profile : string;
  vw_independent : bool;
  vw_candidate_sha : string;
  vw_policy_digest : string;
  vw_verdict : RunmillReviewVerdict;
  vw_findings_digest : string;
  vw_evidence_digest : string
}.

Module RunmillSideEffectKind.
Inductive RunmillSideEffectKind :=
  BranchPush | PullRequestCreate | PullRequestUpdate | PullRequestObserve | CiObserve | ReviewObserve.
#[export] Instance eq_dec : EqDecision RunmillSideEffectKind.
Proof. solve_decision. Defined.
End RunmillSideEffectKind.
Abbreviation RunmillSideEffectKind := RunmillSideEffectKind.RunmillSideEffectKind.
Export (hints) RunmillSideEffectKind.

Inductive RunmillConfirmedStatus := Confirmed.

Record RunmillSideEffectEvidence := mkSideEffect {
  fx_effect_key : string;
  fx_kind : RunmillSideEffectKind;
  fx_candidate_sha : string;
  fx_intent_digest : string;
  fx_observation_digest : string;
  fx_reconciliation_digest : option string;
  fx_confirmation_digest : string;
  fx_status : RunmillConfirmedStatus;
  fx_evidence_digest : string
}.

Record RunmillApprovalEvidence := mkApprovalEvidence {
  av_approval_id : string;
  av_decision_type : string;
  av_requested_effect : string;
  av_approver_subject : string;
  av_authority_digest : string;
  av_work_order_digest : string;
  av_candidate_sha : string;
  av_policy_digest : string;
  av_issued_at : RunmillEvidenceTimestamp;
  av_expires_at : RunmillEvidenceTimestamp;
  av_signature_digest : string;
  av_evidence_digest : string
}.

Record RunmillCancellationEvidence := mkCancellationEvidence {
  cn_requester_subject : string;
  cn_reason_code : string;
  cn_requested_at : RunmillEvidenceTimestamp;
  cn_evidence_digest : string
}.

Inductive RunmillStopReason := PullRequestDelivered.

Record RunmillBudgetEvidence := mkBudgetEvidence {
  bg_cost_usd : f64;
  bg_agent_invocations : Z;
  bg_fix_iterations : Z;
  bg_elapsed_ms : Z;
  bg_stop_reason : RunmillStopReason
}.

Record RunmillPullRequestDeliveryEvidence := mkDeliveredPullRequest {
  dp_forge : string;
  dp_repository : string;
  dp_number : Z;
  dp_url : string;
  dp_head_ref : string;
  dp_base_ref : string;
  dp_head_sha : string;
  dp_observed_at : RunmillEvidenceTimestamp;
  dp_evidence_digest : string
}.

Inductive RunmillClosureTarget := ClosurePr.

Record RunmillDeliveryEvidence := mkDeliveryEvidence {
  dv_closure_target : RunmillClosureTarget;
  dv_satisfied : bool;
  dv_pull_request : RunmillPullRequestDeliveryEvidence
}.

Module RunmillArtifactKind.
Inductive RunmillArtifactKind :=
  WorkOrderEnvelope | EffectivePolicy | NormalizedDiff | AgentOutcome | Verification | CiObservation
  | Review | SideEffect | Approval | RuntimeManifest.
#[export] Instance eq_dec : EqDecision RunmillArtifactKind.
Proof. solve_decision. Defined.
End RunmillArtifactKind.
Abbreviation RunmillArtifactKind := RunmillArtifactKind.RunmillArtifactKind.
Export (hints) RunmillArtifactKind.

Module RunmillRetentionClass.
Inductive RunmillRetentionClass := Portable | Protected | Restricted.
End RunmillRetentionClass.
Abbreviation RunmillRetentionClass := RunmillRetentionClass.RunmillRetentionClass.

Record RunmillEvidenceArtifact := mkArtifact {
  ar_artifact_id : string;
  ar_kind : RunmillArtifactKind;
  ar_size_bytes : Z;
  ar_media_type : string;
  ar_digest : string;
  ar_retention_class : RunmillRetentionClass;
  ar_location_ref : string
}.

Record RunmillEvidencePredicate := mkPredicate {
  pd_schema : string;
  pd_run : RunmillEvidenceRun;
  pd_work_order : RunmillEvidenceWorkOrder;
  pd_policy : RunmillEffectivePolicyEvidence;
  pd_source : RunmillSourceEvidence;
  pd_runtime : RunmillRuntimeEvidence;
  pd_role_outcomes : list RunmillRoleOutcome;
  pd_verification : RunmillVerificationEvidence;
  pd_reviews : list RunmillReviewEvidence;
  pd_side_effects : list RunmillSideEffectEvidence;
  pd_approvals : list RunmillApprovalEvidence;
  pd_cancellation : option RunmillCancellationEvidence;
  pd_budget : RunmillBudgetEvidence;
  pd_delivery : RunmillDeliveryEvidence;
  pd_artifacts : list RunmillEvidenceArtifact
}.

Record RunmillSubjectDigest := mkSubjectDigest { sd_sha1 : string }.
Record RunmillEvidenceSubject := mkSubject { sj_name : string; sj_digest : RunmillSubjectDigest }.

Record RunmillEvidenceStatement := mkStatement {
  st_statement_type : string;
  st_subject : list RunmillEvidenceSubject;
  st_predicate_type : string;
  st_predicate : RunmillEvidencePredicate
}.

Record SignedRunmillEvidenceBundle := mkSignedBundle {
  sb_schema : string;
  sb_key_id : string;
  sb_algorithm : RunmillEvidenceAlgorithm;
  sb_issued_at : RunmillEvidenceTimestamp;
  sb_bundle_digest : string;
  sb_statement : RunmillEvidenceStatement;
  sb_signature : string
}.

Record UnsignedRunmillEvidenceBundle := mkUnsignedBundle {
  ub_schema : string;
  ub_key_id : string;
  ub_algorithm : RunmillEvidenceAlgorithm;
  ub_issued_at : RunmillEvidenceTimestamp;
  ub_bundle_digest : string;
  ub_statement : RunmillEvidenceStatement
}.

(** ** What ASF expects *)

Record TrustedRunmillEvidenceSigner `{Ed25519} := mkTrustedSigner {
  ts_key_id : string;
  ts_verifying_key : VerifyingKey;
  ts_valid_from : DateTime;
  ts_valid_until : DateTime;
  ts_revoked : bool
}.

Record AuthorizedRunmillReviewer := mkAuthorizedReviewer {
  au_principal_id : string;
  au_profile_id : string
}.

Record RunmillEvidenceExpectation `{Ed25519} := mkExpectation {
  xp_trusted_signer : TrustedRunmillEvidenceSigner;
  xp_observed_at : DateTime;
  xp_run_id : RunmillExternalRunId;
  xp_attempt_id : AttemptId;
  xp_work_order_id : WorkOrderId;
  xp_work_order_key_id : string;
  xp_work_order_envelope_digest : string;
  xp_work_order_payload_digest : string;
  xp_effective_policy_digest : string;
  xp_forge : string;
  xp_repository : string;
  xp_base_ref : string;
  xp_base_sha : string;
  xp_candidate_sha : string;
  xp_tree_digest : string;
  xp_normalized_diff_digest : string;
  xp_changed_paths : BTreeSet string;
  xp_required_local_checks : BTreeSet string;
  xp_required_ci_contexts : BTreeSet string;
  xp_local_reviewer : option AuthorizedRunmillReviewer;
  xp_pull_request_reviewer : option AuthorizedRunmillReviewer;
  xp_pull_request_head_ref : string;
  xp_independently_observed_pull_request : PullRequestEvidence
}.

Record ValidatedRunmillEvidence := mkValidatedEvidence {
  vd_bundle_digest : string;
  vd_run_id : RunmillExternalRunId;
  vd_candidate_sha : string;
  vd_worker_key_id : string
}.

(** ** Shape *)

Section evidence.
  Context {url : UrlCrate} {hashing : Hashing} {ed : Ed25519} {rfc3339 : Rfc3339}.
  Context {statement_jcs : Canonical RunmillEvidenceStatement}.
  Context {unsigned_jcs : Canonical UnsignedRunmillEvidenceBundle}.
  Context {bundle_value : ToValue SignedRunmillEvidenceBundle}.

(** [for (label, digest) in [..] { validate_digest(digest, label)?; }]. *)
Definition validate_digests (labelled : list (string * string)) : res unit :=
  try_for labelled (λ '(label, digest), validate_digest digest label).

(** [to_utc()?] for its error only. *)
Definition check_utc (t : RunmillEvidenceTimestamp) : res unit := to_utc t ≫= λ _, Ok tt.

Definition validate_runtime_shape (r : RunmillRuntimeEvidence) : res unit :=
  bail_if (MAX_PROVIDERS <? count (ru_providers r))
    (Validation [Lit "too many Runmill provider attributions"]) ;;
  try_for (ru_providers r) (λ p,
    validate_identifier (pa_provider p) "provider" ;;
    validate_reference (pa_model p) "provider model" ;;
    validate_identifier (pa_principal_id p) "provider principal" ;;
    validate_identifier (pa_lease_id p) "provider lease").

Definition validate_role_outcomes_shape (outcomes : list RunmillRoleOutcome) : res unit :=
  bail_if (MAX_ROLE_OUTCOMES <? count outcomes)
    (Validation [Lit "too many Runmill role outcomes"]) ;;
  try_for outcomes (λ o,
    validate_git_sha (rc_candidate_sha o) "role outcome candidate" ;;
    validate_digest (rc_evidence_digest o) "role outcome evidence").

Definition validate_verification_shape (v : RunmillVerificationEvidence) : res unit :=
  bail_if ((MAX_LOCAL_CHECKS <? count (ve_local_checks v))
           || (MAX_CI_CONTEXTS <? count (ve_ci_contexts v)))
    (Validation [Lit "too many Runmill verification records"]) ;;
  try_for (ve_local_checks v) (λ c,
    validate_reference (lc_check_id c) "local check id" ;;
    validate_git_sha (lc_candidate_sha c) "local check candidate" ;;
    validate_digests [ ("local check tree", lc_tree_digest c);
      ("local check command", lc_command_digest c); ("local check toolchain", lc_toolchain_digest c);
      ("local check sandbox", lc_sandbox_profile_digest c);
      ("local check evidence", lc_evidence_digest c) ] ;;
    validate_identifier (lc_executor_id c) "local check executor" ;;
    check_utc (lc_started_at c) ;;
    check_utc (lc_completed_at c)) ;;
  try_for (ve_ci_contexts v) (λ c,
    validate_reference (cx_context c) "CI context" ;;
    validate_git_sha (cx_candidate_sha c) "CI candidate" ;;
    check_utc (cx_observed_at c) ;;
    validate_digest (cx_evidence_digest c) "CI evidence").

Definition validate_reviews_shape (reviews : list RunmillReviewEvidence) : res unit :=
  bail_if (MAX_REVIEWS <? count reviews) (Validation [Lit "too many Runmill review records"]) ;;
  try_for reviews (λ r,
    validate_identifier (vw_review_id r) "review id" ;;
    validate_identifier (vw_reviewer_principal r) "reviewer principal" ;;
    validate_identifier (vw_reviewer_profile r) "reviewer profile" ;;
    bail_if (negb (vw_independent r))
      (Validation [Lit "Runmill review evidence must assert independence"]) ;;
    validate_git_sha (vw_candidate_sha r) "review candidate" ;;
    validate_digest (vw_policy_digest r) "review policy" ;;
    validate_digest (vw_findings_digest r) "review findings" ;;
    validate_digest (vw_evidence_digest r) "review evidence").

Definition validate_side_effects_shape (effects : list RunmillSideEffectEvidence) : res unit :=
  bail_if (MAX_SIDE_EFFECTS <? count effects) (Validation [Lit "too many Runmill side effects"]) ;;
  try_for effects (λ e,
    validate_digest (fx_effect_key e) "side-effect key" ;;
    validate_git_sha (fx_candidate_sha e) "side-effect candidate" ;;
    validate_digests [ ("side-effect intent", fx_intent_digest e);
      ("side-effect observation", fx_observation_digest e);
      ("side-effect confirmation", fx_confirmation_digest e);
      ("side-effect evidence", fx_evidence_digest e) ] ;;
    match fx_reconciliation_digest e with
    | Some digest => validate_digest digest "side-effect reconciliation"
    | None => Ok tt
    end).

Definition validate_approvals_shape (approvals : list RunmillApprovalEvidence) : res unit :=
  bail_if (MAX_APPROVALS <? count approvals) (Validation [Lit "too many Runmill approvals"]) ;;
  try_for approvals (λ a,
    try_for [ ("approval id", av_approval_id a); ("approval decision", av_decision_type a);
              ("approval requested effect", av_requested_effect a);
              ("approval subject", av_approver_subject a) ]
      (λ '(label, value), validate_identifier value label) ;;
    validate_digests [ ("approval authority", av_authority_digest a);
      ("approval Work Order", av_work_order_digest a); ("approval policy", av_policy_digest a);
      ("approval signature", av_signature_digest a); ("approval evidence", av_evidence_digest a) ] ;;
    validate_git_sha (av_candidate_sha a) "approval candidate" ;;
    check_utc (av_issued_at a) ;;
    check_utc (av_expires_at a)).

(** [x < 0.0]: negative zero is not less. *)
Definition below_zero (x : f64) : bool :=
  match x with
  | Finite negative mantissa _ => negative && negb (mantissa =? 0)
  | Infinite negative => negative
  | NaN _ => false
  end.

Definition validate_budget_shape (b : RunmillBudgetEvidence) : res unit :=
  bail_if (negb (is_finite (bg_cost_usd b)) || below_zero (bg_cost_usd b)
           || existsb (λ value, MAX_SAFE_JSON_INTEGER <? value)
                [bg_agent_invocations b; bg_fix_iterations b; bg_elapsed_ms b])
    (Validation [Lit "Runmill budget evidence is out of bounds"]).

Definition validate_delivery_shape (d : RunmillDeliveryEvidence) : res unit :=
  bail_if (negb (dv_satisfied d))
    (Validation [Lit "Runmill PR delivery evidence is not satisfied"]) ;;
  let pr := dv_pull_request d in
  validate_identifier (dp_forge pr) "pull-request forge" ;;
  validate_repository (dp_repository pr) ;;
  bail_if ((dp_number pr =? 0) || (MAX_SAFE_JSON_INTEGER <? dp_number pr))
    (Validation [Lit "pull-request number is out of bounds"]) ;;
  validate_public_https_url (dp_url pr) ;;
  validate_branch_ref (dp_head_ref pr) "pull-request head ref" ;;
  validate_branch_ref (dp_base_ref pr) "pull-request base ref" ;;
  validate_git_sha (dp_head_sha pr) "pull-request head SHA" ;;
  check_utc (dp_observed_at pr) ;;
  validate_digest (dp_evidence_digest pr) "pull-request evidence".

Definition validate_artifacts_shape (artifacts : list RunmillEvidenceArtifact) : res unit :=
  bail_if (MAX_ARTIFACTS <? count artifacts)
    (Validation [Lit "too many Runmill evidence artifacts"]) ;;
  try_for artifacts (λ a,
    validate_identifier (ar_artifact_id a) "artifact id" ;;
    bail_if (MAX_ARTIFACT_BYTES <? ar_size_bytes a)
      (Validation [Lit "Runmill artifact is too large"]) ;;
    validate_media_type (ar_media_type a) ;;
    validate_digest (ar_digest a) "artifact digest" ;;
    validate_cas_location (ar_location_ref a)).

Definition predicate_digests (p : RunmillEvidencePredicate) : list (string * string) :=
  let inputs := ep_inputs (pd_policy p) in
  [ ("Work Order envelope", ew_envelope_digest (pd_work_order p));
    ("Work Order payload", ew_payload_digest (pd_work_order p));
    ("Work Order envelope artifact", ew_envelope_artifact_digest (pd_work_order p));
    ("effective policy", ep_effective_policy_digest (pd_policy p));
    ("effective policy artifact", ep_effective_policy_artifact_digest (pd_policy p));
    ("operator policy", pi_operator_policy_digest inputs);
    ("Work Order policy", pi_work_order_policy_digest inputs);
    ("repository policy", pi_repository_policy_digest inputs);
    ("forge policy", pi_forge_policy_digest inputs);
    ("candidate tree", ev_tree_digest (pd_source p));
    ("normalized diff", ev_normalized_diff_digest (pd_source p));
    ("normalized diff artifact", ev_normalized_diff_artifact_digest (pd_source p));
    ("harness", ru_harness_digest (pd_runtime p));
    ("tool policy", ru_tool_policy_digest (pd_runtime p));
    ("sandbox profile", ru_sandbox_profile_digest (pd_runtime p));
    ("dependencies", ru_dependency_digest (pd_runtime p));
    ("runtime", ru_runtime_digest (pd_runtime p));
    ("runtime manifest", ru_runtime_manifest_digest (pd_runtime p)) ].

Definition validate_predicate_shape (p : RunmillEvidencePredicate) : res unit :=
  bail_if (negb (bool_decide (pd_schema p = RUNMILL_EVIDENCE_PREDICATE_SCHEMA_V1)))
    (Validation [Lit "unsupported Runmill evidence predicate schema"]) ;;
  RunmillExternalRunId_validate (eu_run_id (pd_run p)) ;;
  check_utc (eu_completed_at (pd_run p)) ;;
  validate_digests (predicate_digests p) ;;
  validate_identifier (ws_key_id (ew_signature (pd_work_order p))) "Work Order signature key id" ;;
  bail_if (negb (ws_verified (ew_signature (pd_work_order p))))
    (Validation [Lit "Runmill did not verify the Work Order signature"]) ;;
  validate_sorted_references (ep_required_local_checks (pd_policy p)) "required local checks" ;;
  validate_sorted_references (ep_required_ci_contexts (pd_policy p)) "required CI contexts" ;;
  let source := pd_source p in
  validate_identifier (ev_forge source) "source forge" ;;
  validate_repository (ev_repository source) ;;
  validate_branch_ref (ev_base_ref source) "source base ref" ;;
  validate_git_sha (ev_base_sha source) "source base SHA" ;;
  validate_git_sha (ev_candidate_sha source) "source candidate SHA" ;;
  validate_git_sha (ev_remote_head_sha source) "source remote head SHA" ;;
  match ev_merge_sha source with
  | Some merge_sha => validate_git_sha merge_sha "source merge SHA"
  | None => Ok tt
  end ;;
  validate_sorted_paths (ev_changed_paths source) ;;
  validate_runtime_shape (pd_runtime p) ;;
  validate_role_outcomes_shape (pd_role_outcomes p) ;;
  validate_verification_shape (pd_verification p) ;;
  validate_reviews_shape (pd_reviews p) ;;
  validate_side_effects_shape (pd_side_effects p) ;;
  validate_approvals_shape (pd_approvals p) ;;
  match pd_cancellation p with
  | Some c =>
      validate_identifier (cn_requester_subject c) "cancellation requester" ;;
      validate_identifier (cn_reason_code c) "cancellation reason code" ;;
      check_utc (cn_requested_at c) ;;
      validate_digest (cn_evidence_digest c) "cancellation evidence"
  | None => Ok tt
  end ;;
  validate_budget_shape (pd_budget p) ;;
  validate_delivery_shape (pd_delivery p) ;;
  validate_artifacts_shape (pd_artifacts p).

Definition validate_statement_shape (s : RunmillEvidenceStatement) : res unit :=
  bail_if (negb (bool_decide (st_statement_type s = IN_TOTO_STATEMENT_V1))
           || negb (bool_decide (st_predicate_type s = RUNMILL_EVIDENCE_PREDICATE_TYPE_V1))
           || negb (count (st_subject s) =? 1))
    (Validation [Lit "Runmill evidence is not an in-toto Statement v1 with one subject"]) ;;
  subject ← expect (st_subject s !! 0%nat);
  validate_subject_name (sj_name subject) ;;
  validate_git_sha (sd_sha1 (sj_digest subject)) "statement subject SHA" ;;
  validate_predicate_shape (st_predicate s).

Definition screened (b : SignedRunmillEvidenceBundle) : res unit :=
  value ← map_err (to_value b) (λ error, Serialization [Disp error]); reject_sensitive_fields value.

Definition validate_shape (b : SignedRunmillEvidenceBundle) : res unit :=
  bail_if (negb (bool_decide (sb_schema b = RUNMILL_SIGNED_EVIDENCE_SCHEMA_V1)))
    (Validation [Lit "unsupported Runmill signed-evidence schema"]) ;;
  validate_identifier (sb_key_id b) "evidence signer key id" ;;
  check_utc (sb_issued_at b) ;;
  validate_digest (sb_bundle_digest b) "bundle digest" ;;
  validate_statement_shape (sb_statement b) ;;
  validate_signature_encoding (sb_signature b) ;;
  screened b.

Definition unsigned_canonical_bytes (b : SignedRunmillEvidenceBundle) : res (list Z) :=
  canonical_json
    (mkUnsignedBundle (sb_schema b) (sb_key_id b) (sb_algorithm b) (sb_issued_at b)
       (sb_bundle_digest b) (sb_statement b)).

Definition SignedRunmillEvidenceBundle_sign (statement : RunmillEvidenceStatement)
    (issued_at : RunmillEvidenceTimestamp) (signer : Ed25519Signer)
  : res SignedRunmillEvidenceBundle :=
  validate_statement_shape statement ;;
  validate_identifier (signer_key_id signer) "evidence signer key id" ;;
  check_utc issued_at ;;
  bytes ← canonical_json statement;
  let bundle signature :=
    mkSignedBundle RUNMILL_SIGNED_EVIDENCE_SCHEMA_V1 (signer_key_id signer) EdDSA issued_at
      (sha256_digest bytes) statement signature in
  screened (bundle "") ;;
  message ← unsigned_canonical_bytes (bundle "");
  Ok (bundle ("base64url:" +:+ sign signer message)).

(** ** Integrity *)

Definition verify_trusted_signature (b : SignedRunmillEvidenceBundle)
    (trusted : TrustedRunmillEvidenceSigner) (observed_at : DateTime) : res unit :=
  bail_if (ts_revoked trusted || negb (bool_decide (ts_key_id trusted = sb_key_id b))
           || (ts_valid_until trusted <=? ts_valid_from trusted))
    (Crypto [Lit "Runmill evidence signer is unknown, revoked, or contradictory"]) ;;
  issued_at ← to_utc (sb_issued_at b);
  bail_if ((issued_at <? ts_valid_from trusted) || (ts_valid_until trusted <=? issued_at)
           || (observed_at <? issued_at))
    (Crypto [Lit "Runmill evidence signer was not trusted at bundle issuance"]) ;;
  encoded ← ok_or (strip_prefix "base64url:" (sb_signature b))
    (Crypto [Lit "Runmill evidence signature prefix is invalid"]);
  message ← unsigned_canonical_bytes b;
  verify_signature (ts_verifying_key trusted) message encoded.

(** [if !set.insert(key) { return Err(e) }]. *)
Definition insert_new {K A} `{Countable K} (key : K) (value : A) (e : Error) (m : gmap K A)
  : res (gmap K A) :=
  match m !! key with Some _ => Err e | None => Ok (<[key := value]> m) end.

(** The manifest: the identifiers and the digests seen so far. *)
Definition check_artifact (seen : gmap string unit * gmap string unit) (a : RunmillEvidenceArtifact)
  : res (gmap string unit * gmap string unit) :=
  ids ← insert_new (ar_artifact_id a) tt
    (Validation [Lit "Runmill artifact manifest contains a duplicate id"]) seen.1;
  digest ← expect (strip_prefix "sha256:" (ar_digest a));
  bail_if (negb (bool_decide (ar_location_ref a = "cas://sha256/" +:+ digest)))
    (Validation [Lit "Runmill artifact location is not bound to its digest"]) ;;
  digests ← insert_new (ar_digest a) tt
    (Validation [Lit "Runmill artifact manifest contains a duplicate digest"]) seen.2;
  Ok (ids, digests).

Definition references (p : RunmillEvidencePredicate) : list string :=
  [ ew_envelope_artifact_digest (pd_work_order p); ep_effective_policy_artifact_digest (pd_policy p);
    ev_normalized_diff_artifact_digest (pd_source p); ru_runtime_manifest_digest (pd_runtime p);
    dp_evidence_digest (dv_pull_request (pd_delivery p)) ]
  ++ (rc_evidence_digest <$> pd_role_outcomes p)
  ++ (lc_evidence_digest <$> ve_local_checks (pd_verification p))
  ++ (cx_evidence_digest <$> ve_ci_contexts (pd_verification p))
  ++ (pd_reviews p ≫= λ r, [vw_findings_digest r; vw_evidence_digest r])
  ++ (fx_evidence_digest <$> pd_side_effects p)
  ++ (av_evidence_digest <$> pd_approvals p)
  ++ match pd_cancellation p with Some c => [cn_evidence_digest c] | None => [] end.

Definition has_kind (p : RunmillEvidencePredicate) (digest : string) (kind : RunmillArtifactKind)
  : bool :=
  existsb (λ a, bool_decide (ar_digest a = digest) && bool_decide (ar_kind a = kind)) (pd_artifacts p).

Definition verify_artifact_references (p : RunmillEvidencePredicate) : res unit :=
  seen ← try_fold (pd_artifacts p) (∅, ∅) check_artifact;
  bail_if (existsb (λ reference, is_none (seen.2 !! reference)) (references p))
    (Validation [Lit "Runmill evidence references an artifact absent from its manifest"]) ;;
  let lacks digest kind := negb (has_kind p digest kind) in
  bail_if (lacks (ew_envelope_artifact_digest (pd_work_order p)) RunmillArtifactKind.WorkOrderEnvelope
           || lacks (ep_effective_policy_artifact_digest (pd_policy p)) RunmillArtifactKind.EffectivePolicy
           || lacks (ev_normalized_diff_artifact_digest (pd_source p)) RunmillArtifactKind.NormalizedDiff
           || lacks (ru_runtime_manifest_digest (pd_runtime p)) RunmillArtifactKind.RuntimeManifest
           || lacks (dp_evidence_digest (dv_pull_request (pd_delivery p))) RunmillArtifactKind.SideEffect
           || existsb (λ o, lacks (rc_evidence_digest o) RunmillArtifactKind.AgentOutcome)
                (pd_role_outcomes p)
           || existsb (λ c, lacks (lc_evidence_digest c) RunmillArtifactKind.Verification)
                (ve_local_checks (pd_verification p))
           || existsb (λ c, lacks (cx_evidence_digest c) RunmillArtifactKind.CiObservation)
                (ve_ci_contexts (pd_verification p))
           || existsb (λ r, lacks (vw_findings_digest r) RunmillArtifactKind.Review
                            || lacks (vw_evidence_digest r) RunmillArtifactKind.Review) (pd_reviews p)
           || existsb (λ e, lacks (fx_evidence_digest e) RunmillArtifactKind.SideEffect)
                (pd_side_effects p)
           || existsb (λ a, lacks (av_evidence_digest a) RunmillArtifactKind.Approval) (pd_approvals p))
    (Validation [Lit "Runmill evidence artifact kinds do not match their signed semantic references"]).

Definition verify_signed_integrity (b : SignedRunmillEvidenceBundle)
    (trusted : TrustedRunmillEvidenceSigner) (observed_at : DateTime) : res unit :=
  validate_shape b ;;
  validate_identifier (ts_key_id trusted) "trusted worker key id" ;;
  bytes ← canonical_json (sb_statement b);
  bail_if (negb (bool_decide (sha256_digest bytes = sb_bundle_digest b)))
    (Crypto [Lit "Runmill evidence bundle digest does not match its JCS statement"]) ;;
  verify_trusted_signature b trusted observed_at ;;
  verify_artifact_references (st_predicate (sb_statement b)).

(** ** Bindings *)

Definition same_values (actual : list string) (expected : BTreeSet string) : bool :=
  (count actual =? count (elems expected)) && forallb (λ value, bs_contains value expected) actual.

Definition unique_provider_roles (providers : list RunmillProviderAttribution)
  : res (gmap RunmillProviderRole RunmillProviderAttribution) :=
  try_fold providers ∅ (λ values p,
    insert_new (pa_role p) p (Validation [Lit "Runmill providers contain a duplicate role"]) values).

Definition reviewer_provider (providers : gmap RunmillProviderRole RunmillProviderAttribution)
    (implementer : RunmillProviderAttribution)
    (entry : RunmillProviderRole * option AuthorizedRunmillReviewer) : res unit :=
  match entry.2 with
  | Some reviewer =>
      provider ← expect (providers !! entry.1);
      bail_if (negb (bool_decide (pa_principal_id provider = au_principal_id reviewer))
               || bool_decide (pa_principal_id provider = pa_principal_id implementer))
        (Validation [Lit "Runmill reviewer provider is not the independent authorized principal"])
  | None => Ok tt
  end.

Definition concluded (outcomes : gmap RunmillProviderRole RunmillRoleOutcome)
    (role : RunmillProviderRole) (conclusion : RunmillRoleOutcomeConclusion) : bool :=
  match outcomes !! role with Some o => bool_decide (rc_outcome o = conclusion) | None => false end.

Definition verify_providers_and_outcomes (p : RunmillEvidencePredicate)
    (x : RunmillEvidenceExpectation) : res unit :=
  providers ← unique_provider_roles (ru_providers (pd_runtime p));
  try_for [ RunmillProviderRole.Implementer; RunmillProviderRole.LocalReviewer;
            RunmillProviderRole.PullRequestReviewer ]
    (λ role, bail_if (is_none (providers !! role))
       (Validation [Lit "Runmill evidence is missing "; Disp (RunmillProviderRole.debug role);
                    Lit " provider attribution"])) ;;
  implementer ← expect (providers !! RunmillProviderRole.Implementer);
  try_for [ (RunmillProviderRole.LocalReviewer, xp_local_reviewer x);
            (RunmillProviderRole.PullRequestReviewer, xp_pull_request_reviewer x) ]
    (reviewer_provider providers implementer) ;;
  outcomes ← try_fold (pd_role_outcomes p) ∅ (λ outcomes o,
    outcomes ← insert_new (rc_role o) o
      (Validation [Lit "Runmill role outcomes contain a duplicate role"]) outcomes;
    bail_if (negb (bool_decide (rc_candidate_sha o = xp_candidate_sha x)))
      (Validation [Lit "Runmill role outcome names a different candidate"]) ;;
    Ok outcomes);
  bail_if (negb (concluded outcomes RunmillProviderRole.Implementer RunmillRoleOutcomeConclusion.Completed)
           || (is_some (xp_local_reviewer x)
               && negb (concluded outcomes RunmillProviderRole.LocalReviewer RunmillRoleOutcomeConclusion.Passed))
           || (is_some (xp_pull_request_reviewer x)
               && negb (concluded outcomes RunmillProviderRole.PullRequestReviewer
                          RunmillRoleOutcomeConclusion.Passed)))
    (Validation [Lit "Runmill role outcomes do not prove completed implementation and required reviews"]).

Definition check_local_check (x : RunmillEvidenceExpectation) (c : RunmillLocalCheckEvidence) : res unit :=
  bad ← or_else (negb (bool_decide (lc_candidate_sha c = xp_candidate_sha x))
                 || negb (bool_decide (lc_tree_digest c = xp_tree_digest x))
                 || negb (bool_decide (lc_conclusion c = RunmillLocalCheckConclusion.Success))
                 || negb (bool_decide (lc_coverage c = RunmillCheckCoverage.Complete)))
          (started_at ← to_utc (lc_started_at c); completed_at ← to_utc (lc_completed_at c);
           Ok (completed_at <? started_at));
  bail_if bad
    (Validation [Lit "Runmill local check is not a complete success on the exact candidate tree"]).

Definition verify_local_checks (p : RunmillEvidencePredicate) (x : RunmillEvidenceExpectation)
  : res unit :=
  checks ← try_fold (ve_local_checks (pd_verification p)) ∅ (λ checks c,
    checks ← insert_new (lc_check_id c) c
      (Validation [Lit "Runmill local checks contain a duplicate id"]) checks;
    check_local_check x c ;; Ok checks);
  bail_if (negb (forallb (λ required, is_some (checks !! required)) (elems (xp_required_local_checks x))))
    (Validation [Lit "Runmill evidence is missing a required local check"]).

Definition check_ci_context (x : RunmillEvidenceExpectation) (c : RunmillCiContextEvidence) : res unit :=
  bail_if (negb (bool_decide (cx_candidate_sha c = xp_candidate_sha x))
           || negb (bool_decide (cx_conclusion c = RunmillCiConclusion.Success)))
    (Validation [Lit "Runmill CI context is not a non-skipped success on the exact candidate"]).

Definition verify_ci_contexts (p : RunmillEvidencePredicate) (x : RunmillEvidenceExpectation)
  : res unit :=
  contexts ← try_fold (ve_ci_contexts (pd_verification p)) ∅ (λ contexts c,
    contexts ← insert_new (cx_context c) c
      (Validation [Lit "Runmill CI evidence contains a duplicate context"]) contexts;
    check_ci_context x c ;; Ok contexts);
  bail_if (negb (forallb (λ required, is_some (contexts !! required)) (elems (xp_required_ci_contexts x))))
    (Validation [Lit "Runmill evidence is missing a required CI context"]).

Definition authorized_reviewer (x : RunmillEvidenceExpectation) (stage : RunmillReviewStage)
  : option AuthorizedRunmillReviewer :=
  match stage with
  | RunmillReviewStage.Local => xp_local_reviewer x
  | RunmillReviewStage.PullRequest => xp_pull_request_reviewer x
  end.

Definition stage_role (stage : RunmillReviewStage) : RunmillProviderRole :=
  match stage with
  | RunmillReviewStage.Local => RunmillProviderRole.LocalReviewer
  | RunmillReviewStage.PullRequest => RunmillProviderRole.PullRequestReviewer
  end.

Definition check_review (x : RunmillEvidenceExpectation)
    (providers : gmap RunmillProviderRole RunmillProviderAttribution) (r : RunmillReviewEvidence)
  : res unit :=
  authorized ← ok_or (authorized_reviewer x (vw_stage r))
    (Validation [Lit "Runmill evidence contains an unauthorized review"]);
  provider ← expect (providers !! stage_role (vw_stage r));
  bail_if (negb (vw_independent r)
           || negb (bool_decide (vw_reviewer_principal r = au_principal_id authorized))
           || negb (bool_decide (vw_reviewer_profile r = au_profile_id authorized))
           || negb (bool_decide (pa_principal_id provider = vw_reviewer_principal r))
           || negb (bool_decide (vw_candidate_sha r = xp_candidate_sha x))
           || negb (bool_decide (vw_policy_digest r = xp_effective_policy_digest x))
           || negb (bool_decide (vw_verdict r = RunmillReviewVerdict.Pass)))
    (Validation [Lit "Runmill review is not an independent authorized pass on exact policy and candidate"]).

Definition verify_reviews (p : RunmillEvidencePredicate) (x : RunmillEvidenceExpectation) : res unit :=
  providers ← unique_provider_roles (ru_providers (pd_runtime p));
  try_fold (pd_reviews p) ∅ (λ ids r,
    ids ← insert_new (vw_review_id r) tt (Validation [Lit "Runmill reviews contain a duplicate id"]) ids;
    check_review x providers r ;; Ok (ids : gmap string unit)) ≫= λ _,
  try_for [ (RunmillReviewStage.Local, is_some (xp_local_reviewer x));
            (RunmillReviewStage.PullRequest, is_some (xp_pull_request_reviewer x)) ]
    (λ '(stage, required),
       bail_if (required && negb (existsb (λ r, bool_decide (vw_stage r = stage)) (pd_reviews p)))
         (Validation [Lit "Runmill evidence is missing an authorized required review"])).

Definition verify_side_effects (p : RunmillEvidencePredicate) (x : RunmillEvidenceExpectation)
  : res unit :=
  let duplicate := Validation [Lit "Runmill side effect is duplicate or names a different candidate"] in
  try_fold (pd_side_effects p) ∅ (λ keys e,
    keys ← insert_new (fx_effect_key e) tt duplicate keys;
    bail_if (negb (bool_decide (fx_candidate_sha e = xp_candidate_sha x))) duplicate ;;
    Ok (keys : gmap string unit)) ≫= λ _,
  try_for [RunmillSideEffectKind.BranchPush; RunmillSideEffectKind.PullRequestCreate] (λ required,
    bail_if (negb (existsb (λ e, bool_decide (fx_kind e = required)) (pd_side_effects p)))
      (Validation [Lit "Runmill evidence is missing a required confirmed delivery effect"])).

Definition check_approval (x : RunmillEvidenceExpectation) (a : RunmillApprovalEvidence) : res unit :=
  bad ← or_else (negb (bool_decide (av_work_order_digest a = xp_work_order_payload_digest x))
                 || negb (bool_decide (av_candidate_sha a = xp_candidate_sha x))
                 || negb (bool_decide (av_policy_digest a = xp_effective_policy_digest x)))
          (issued_at ← to_utc (av_issued_at a); expires_at ← to_utc (av_expires_at a);
           or_else (expires_at <=? issued_at)
             (expires_at ← to_utc (av_expires_at a); Ok (expires_at <=? xp_observed_at x)));
  bail_if bad
    (Validation [Lit "Runmill approval is duplicate, stale, expired, or incorrectly bound"]).

Definition verify_approvals (p : RunmillEvidencePredicate) (x : RunmillEvidenceExpectation) : res unit :=
  try_fold (pd_approvals p) ∅ (λ ids a,
    ids ← insert_new (av_approval_id a) tt
      (Validation [Lit "Runmill approval is duplicate, stale, expired, or incorrectly bound"]) ids;
    check_approval x a ;; Ok (ids : gmap string unit)) ≫= λ _, Ok tt.

Definition verify_pull_request (p : RunmillEvidencePredicate) (x : RunmillEvidenceExpectation)
  : res unit :=
  let delivery := dv_pull_request (pd_delivery p) in
  let observed := xp_independently_observed_pull_request x in
  bail_if (negb (bool_decide (dp_forge delivery = xp_forge x))
           || negb (bool_decide (dp_repository delivery = xp_repository x))
           || negb (bool_decide (dp_repository delivery = pre_repository observed))
           || negb (dp_number delivery =? pre_number observed)
           || negb (bool_decide (dp_url delivery = pre_url observed))
           || negb (bool_decide (dp_head_ref delivery = xp_pull_request_head_ref x))
           || negb (bool_decide (dp_base_ref delivery = xp_base_ref x))
           || negb (bool_decide (dp_head_sha delivery = xp_candidate_sha x))
           || negb (bool_decide (pre_base_sha observed = xp_base_sha x))
           || negb (bool_decide (pre_head_sha observed = xp_candidate_sha x))
           || negb (bool_decide (pre_required_ci_contexts observed = xp_required_ci_contexts x))
           || negb (bs_is_subset (xp_required_ci_contexts x) (pre_successful_ci_contexts observed)))
    (Validation [Lit "Runmill PR delivery does not match ASF's independent exact-candidate observation"]).

Definition bound (p : RunmillEvidencePredicate) (x : RunmillEvidenceExpectation) : bool :=
  let source := pd_source p in
  bool_decide (eu_run_id (pd_run p) = xp_run_id x)
  && bool_decide (eu_attempt_id (pd_run p) = xp_attempt_id x)
  && bool_decide (eu_work_order_id (pd_run p) = xp_work_order_id x)
  && bool_decide (ws_key_id (ew_signature (pd_work_order p)) = xp_work_order_key_id x)
  && bool_decide (ew_envelope_digest (pd_work_order p) = xp_work_order_envelope_digest x)
  && bool_decide (ew_payload_digest (pd_work_order p) = xp_work_order_payload_digest x)
  && bool_decide (ep_effective_policy_digest (pd_policy p) = xp_effective_policy_digest x)
  && bool_decide (ev_forge source = xp_forge x)
  && bool_decide (ev_repository source = xp_repository x)
  && bool_decide (ev_base_ref source = xp_base_ref x)
  && bool_decide (ev_base_sha source = xp_base_sha x)
  && bool_decide (ev_candidate_sha source = xp_candidate_sha x)
  && bool_decide (ev_remote_head_sha source = xp_candidate_sha x)
  && bool_decide (ev_tree_digest source = xp_tree_digest x)
  && bool_decide (ev_normalized_diff_digest source = xp_normalized_diff_digest x)
  && is_none (ev_merge_sha source).

Definition verify_bindings (b : SignedRunmillEvidenceBundle) (x : RunmillEvidenceExpectation)
  : res unit :=
  let statement := sb_statement b in
  let p := st_predicate statement in
  bail_if (negb (bound p x))
    (Validation [Lit "Runmill evidence is not bound to the expected run, Work Order, policy, and candidate"]) ;;
  subject ← expect (st_subject statement !! 0%nat);
  bail_if (negb (bool_decide (sj_name subject = xp_forge x +:+ ":" +:+ xp_repository x))
           || negb (bool_decide (sd_sha1 (sj_digest subject) = xp_candidate_sha x)))
    (Validation [Lit "in-toto subject is not the exact expected candidate"]) ;;
  bail_if (negb (same_values (ev_changed_paths (pd_source p)) (xp_changed_paths x))
           || negb (same_values (ep_required_local_checks (pd_policy p)) (xp_required_local_checks x))
           || negb (same_values (ep_required_ci_contexts (pd_policy p)) (xp_required_ci_contexts x))
           || negb (Bool.eqb (ep_require_local_review (pd_policy p)) (is_some (xp_local_reviewer x)))
           || negb (Bool.eqb (ep_require_pull_request_review (pd_policy p))
                      (is_some (xp_pull_request_reviewer x))))
    (Validation [Lit "Runmill evidence requirements do not match authoritative policy"]) ;;
  bail_if (is_some (pd_cancellation p))
    (Validation [Lit "cancelled Runmill evidence cannot satisfy PR delivery"]) ;;
  verify_providers_and_outcomes p x ;;
  verify_local_checks p x ;;
  verify_ci_contexts p x ;;
  verify_reviews p x ;;
  verify_side_effects p x ;;
  verify_approvals p x ;;
  verify_pull_request p x ;;
  issued_at ← to_utc (sb_issued_at b);
  completed_at ← to_utc (eu_completed_at (pd_run p));
  bail_if (issued_at <? completed_at)
    (Validation [Lit "Runmill evidence bundle predates run completion"]).

Definition validate_expectation (x : RunmillEvidenceExpectation) : res unit :=
  RunmillExternalRunId_validate (xp_run_id x) ;;
  validate_identifier (ts_key_id (xp_trusted_signer x)) "trusted worker key id" ;;
  validate_identifier (xp_work_order_key_id x) "trusted Work Order key id" ;;
  validate_digests [ ("expected Work Order envelope", xp_work_order_envelope_digest x);
    ("expected Work Order payload", xp_work_order_payload_digest x);
    ("expected effective policy", xp_effective_policy_digest x);
    ("expected tree", xp_tree_digest x); ("expected normalized diff", xp_normalized_diff_digest x) ] ;;
  validate_identifier (xp_forge x) "expected forge" ;;
  validate_repository (xp_repository x) ;;
  validate_branch_ref (xp_base_ref x) "expected base ref" ;;
  validate_branch_ref (xp_pull_request_head_ref x) "expected PR head ref" ;;
  validate_git_sha (xp_base_sha x) "expected base SHA" ;;
  validate_git_sha (xp_candidate_sha x) "expected candidate SHA" ;;
  try_for (elems (xp_changed_paths x)) validate_path ;;
  try_for (elems (xp_required_local_checks x) ++ elems (xp_required_ci_contexts x))
    (λ value, validate_reference value "expected check requirement") ;;
  try_for (omap (λ r, r) [xp_local_reviewer x; xp_pull_request_reviewer x]) (λ reviewer,
    validate_identifier (au_principal_id reviewer) "authorized reviewer principal" ;;
    validate_identifier (au_profile_id reviewer) "authorized reviewer profile").

Definition SignedRunmillEvidenceBundle_verify (b : SignedRunmillEvidenceBundle)
    (x : RunmillEvidenceExpectation) : res ValidatedRunmillEvidence :=
  validate_expectation x ;;
  verify_signed_integrity b (xp_trusted_signer x) (xp_observed_at x) ;;
  verify_bindings b x ;;
  Ok (mkValidatedEvidence (sb_bundle_digest b) (eu_run_id (pd_run (st_predicate (sb_statement b))))
        (ev_candidate_sha (pd_source (st_predicate (sb_statement b)))) (sb_key_id b)).
End evidence.

(** [serde_json::from_slice::<SignedRunmillEvidenceBundle>]. *)
Class RunmillBundleJson := { bundle_from_slice : list Z → string + SignedRunmillEvidenceBundle }.

Definition SignedRunmillEvidenceBundle_from_json `{UrlCrate, Ed25519, Rfc3339, RunmillBundleJson}
    `{ToValue SignedRunmillEvidenceBundle} (document : list Z) : res SignedRunmillEvidenceBundle :=
  bundle ← map_err (bundle_from_slice document)
    (λ error, Serialization [Lit "decode Runmill evidence: "; Disp error]);
  validate_shape bundle ;; Ok bundle.
