(* ===== verification/RunmillEvidenceFacts.v ===== *)
(** What accepting Runmill's evidence means ([RunmillEvidence]): verification never
    panics, accepts exactly the bundles that answer the expectation in every
    respect, and what was signed verifies under the signer's key. *)

From Stdlib Require Import ZArith Lia Ascii.
From stdpp Require Import base tactics option strings pretty numbers list gmap.
From S2P Require Import Prelude RustStr RustOrd Ids Authority Crypto Governance Security WorkOrder Evidence RunmillOrder RunmillEvidence.

(** A signature of [ed25519_dalek] has 64 bytes. *)
Class SignatureBytes `{Ed25519} := {
  signature_bytes_length s : length (signature_to_bytes s) = 64%nat
}.

(** ** Loops that collect keys *)

Section collecting.
  Context {K A V : Type} `{Countable K} (key : A → K) (value : A → V).
  Implicit Types (m : gmap K V) (l : list A).

Definition collected l m : gmap K V := foldl (λ m a, <[key a := value a]> m) m l.

Lemma collected_lookup l k v :
  NoDup (key <$> l) → collected l ∅ !! k = Some v ↔ ∃ a, a ∈ l ∧ key a = k ∧ value a = v.
Proof.
  intros Hn. unfold collected.
  assert (∀ m, foldl (λ m a, <[key a := value a]> m) m l !! k = Some v ↔
    (∃ a, a ∈ l ∧ key a = k ∧ value a = v) ∨ (k ∉ key <$> l) ∧ m !! k = Some v) as Hg.
  { induction l as [|a l IH]; intros m; simpl; [set_solver|].
    rewrite fmap_cons, NoDup_cons in Hn. destruct Hn as [Ha Hn]. rewrite (IH Hn).
    setoid_rewrite elem_of_cons. destruct (decide (key a = k)) as [<-|Hne].
    - rewrite lookup_insert_eq. split.
      + intros [(b & Hb & E & Ev)|[_ [= <-]]]; left; eauto.
      + intros [(b & [->|Hb] & E & Ev)|[Hk _]]; [right; by rewrite Ev|left; eauto|].
        destruct Hk. by left.
    - rewrite lookup_insert_ne by done. change (list_fmap A K key l) with (key <$> l). naive_solver. }
  rewrite Hg, lookup_empty. naive_solver.
Qed.

(** Only the keys matter. *)
Lemma collected_some l k :
  NoDup (key <$> l) → is_some (collected l ∅ !! k) = true ↔ ∃ a, a ∈ l ∧ key a = k.
Proof.
  intros Hn. pose proof (λ v, collected_lookup l k v Hn) as Hl.
  destruct (collected l ∅ !! k) as [v|]; simpl; split; try done.
  - intros _. destruct (proj1 (Hl v) eq_refl) as (a & ? & ? & _). eauto.
  - intros (a & Ha & Hk). discriminate (proj2 (Hl (value a)) (ex_intro _ a (conj Ha (conj Hk eq_refl)))).
Qed.

  Context (duplicate : Error) (check : A → res unit).

Definition collect_step m (a : A) : res (gmap K V) :=
  m ← insert_new (key a) (value a) duplicate m; check a ;; Ok m.

Lemma collect_ok l m m' :
  try_fold l m collect_step = Ok m' ↔
  NoDup (key <$> l) ∧ Forall (λ a, m !! key a = None) l ∧ Forall (λ a, check a = Ok tt) l ∧
  m' = collected l m.
Proof.
  revert m. induction l as [|a l IH]; intros m; simpl.
  { rewrite !Forall_nil, NoDup_nil. naive_solver. }
  rewrite bind_ok, !Forall_cons, NoDup_cons. unfold collect_step at 1, insert_new. split.
  - intros (m1 & Hm & Hl). destruct (m !! key a) eqn:Ha; [done|]. simpl in Hm.
    apply bind_unit_ok in Hm as [Hc [= <-]]. apply IH in Hl as (Hn & Hf & Hall & ->).
    rewrite Forall_forall in Hf. split_and!; try done.
    + intros (b & E & Hb)%list_elem_of_fmap. specialize (Hf b Hb). by rewrite <- E, lookup_insert_eq in Hf.
    + apply Forall_forall. intros b Hb. specialize (Hf b Hb).
      destruct (decide (key a = key b)) as [E|E]; [by rewrite E, lookup_insert_eq in Hf|].
      by rewrite lookup_insert_ne in Hf.
  - intros ([Ha Hn] & [Hm Hf] & [Hc Hall] & ->). eexists. rewrite Hm. simpl. rewrite Hc. split; [done|].
    apply IH. split_and!; try done. rewrite Forall_forall in *. intros b Hb.
    rewrite lookup_insert_ne; [by apply Hf|]. intros E. apply Ha, list_elem_of_fmap. eauto.
Qed.

Lemma collect_not_panic l m :
  (∀ a, a ∈ l → check a ≠ Panic) → try_fold l m collect_step ≠ Panic.
Proof.
  revert m. induction l as [|a l IH]; intros m Hc; simpl; [done|]. apply bind_not_panic.
  - unfold collect_step, insert_new. apply bind_not_panic; [by destruct (m !! key a)|].
    intros m1 _. apply bind_not_panic; [apply Hc; left|done].
  - intros m' _. apply IH. intros b Hb. apply Hc. by right.
Qed.
End collecting.

Lemma same_values_exact l s : increasing l = true → same_values l s = true ↔ l = elems s.
Proof.
  intros Hl. unfold same_values, count. rewrite andb_true_iff, Z.eqb_eq, forallb_true, Forall_forall. split.
  - intros [Hlen Hin]. apply increasing_ext; [done|by destruct s|].
    assert (∀ k : list string, increasing k = true → NoDup k) as Hnd.
    { induction k as [|x k IH]; intros Hk; [constructor|]. apply increasing_cons in Hk as [Hx Hk].
      constructor; [|by apply IH]. intros Hin'. rewrite Forall_forall in Hx.
      by apply (cmp_lt_irrefl x), Hx. }
    assert (l ⊆+ elems s) as Hsub.
    { apply NoDup_submseteq; [by apply Hnd|]. intros x Hx. apply bs_contains_true. by apply Hin. }
    apply submseteq_length_Permutation in Hsub; [|lia]. intros x. by rewrite Hsub.
  - intros ->. split; [done|]. intros x Hx. by apply bs_contains_true.
Qed.

(** ** The expectation, part by part *)

Section facts.
  Context {url : UrlCrate} {hashing : Hashing} {ed : Ed25519} {rfc3339 : Rfc3339}.
  Context {statement_jcs : Canonical RunmillEvidenceStatement}.
  Context {unsigned_jcs : Canonical UnsignedRunmillEvidenceBundle}.
  Context {bundle_value : ToValue SignedRunmillEvidenceBundle}.
  Implicit Types (p : RunmillEvidencePredicate) (x : RunmillEvidenceExpectation).
  Implicit Types (b : SignedRunmillEvidenceBundle).

(** Records with unique keys, all passing a check, that cover the required keys. *)
Lemma required_records_ok {A} (key : A → string) (check : A → res unit) (ok : A → Prop) e e'
    (l : list A) (required : BTreeSet string) :
  (∀ a, check a = Ok tt ↔ ok a) →
  (m ← try_fold l ∅ (collect_step key (λ a, a) e check);
   bail_if (negb (forallb (λ k, is_some (m !! k)) (elems required))) e') = Ok tt ↔
  NoDup (key <$> l) ∧ Forall ok l ∧ ∀ k, k ∈ required → ∃ a, a ∈ l ∧ key a = k.
Proof.
  intros Hck. rewrite bind_ok. split.
  - intros (m & (Hn & _ & Hc & ->)%collect_ok & Hr). apply bail_if_ok, negb_false_iff, forallb_true in Hr.
    rewrite Forall_forall in Hr. split; [done|]. split.
    + eapply Forall_impl; [exact Hc|]. intros a. apply Hck.
    + intros k Hk. by apply (collected_some _ (λ a, a) _ _ Hn), Hr.
  - intros (Hn & Hc & Hr). exists (collected key (λ a, a) l ∅). split.
    + apply collect_ok. split_and!; try done; [by apply Forall_true|].
      eapply Forall_impl; [exact Hc|]. intros a. apply Hck.
    + apply bail_if_ok, negb_false_iff, forallb_true, Forall_forall. intros k Hk.
      by apply (collected_some _ (λ a, a) _ _ Hn), Hr.
Qed.

(** A local check succeeded completely on the candidate tree. *)
Record local_check_passed x (c : RunmillLocalCheckEvidence) : Prop := {
  lp_candidate : lc_candidate_sha c = xp_candidate_sha x;
  lp_tree : lc_tree_digest c = xp_tree_digest x;
  lp_success : lc_conclusion c = RunmillLocalCheckConclusion.Success;
  lp_complete : lc_coverage c = RunmillCheckCoverage.Complete;
  lp_times : ∃ started completed, to_utc (lc_started_at c) = Ok started ∧
    to_utc (lc_completed_at c) = Ok completed ∧ started ≤ completed
}.

Lemma or_else_false a r : or_else a r = Ok false ↔ a = false ∧ r = Ok false.
Proof. destruct a; simpl; naive_solver. Qed.

Lemma bail_res_ok (r : res bool) e :
  r ≫= (λ bad, bail_if bad e) = Ok tt ↔ r = Ok false.
Proof. destruct r as [[]| |]; simpl; naive_solver. Qed.

Lemma times_ordered s t : (started ← to_utc s; completed ← to_utc t; Ok (completed <? started)) = Ok false ↔
  ∃ started completed, to_utc s = Ok started ∧ to_utc t = Ok completed ∧ started ≤ completed.
Proof.
  destruct (to_utc s) as [a| |], (to_utc t) as [c| |]; simpl; try naive_solver. split.
  - intros [= H]. apply Z.ltb_ge in H. eauto.
  - intros (? & ? & [= <-] & [= <-] & H). f_equal. by apply Z.ltb_ge.
Qed.

Lemma check_local_check_ok x c : check_local_check x c = Ok tt ↔ local_check_passed x c.
Proof.
  unfold check_local_check. rewrite bail_res_ok, or_else_false, times_ordered. reflect. split.
  - intros H. destruct_and!. by split.
  - intros [? ? ? ? ?]. tauto.
Qed.

Lemma verify_local_checks_ok p x :
  verify_local_checks p x = Ok tt ↔
  NoDup (lc_check_id <$> ve_local_checks (pd_verification p)) ∧
  Forall (local_check_passed x) (ve_local_checks (pd_verification p)) ∧
  ∀ id, id ∈ xp_required_local_checks x → ∃ c, c ∈ ve_local_checks (pd_verification p) ∧ lc_check_id c = id.
Proof. apply required_records_ok, check_local_check_ok. Qed.

Lemma verify_ci_contexts_ok p x :
  verify_ci_contexts p x = Ok tt ↔
  NoDup (cx_context <$> ve_ci_contexts (pd_verification p)) ∧
  Forall (λ c, cx_candidate_sha c = xp_candidate_sha x ∧ cx_conclusion c = RunmillCiConclusion.Success)
    (ve_ci_contexts (pd_verification p)) ∧
  ∀ id, id ∈ xp_required_ci_contexts x → ∃ c, c ∈ ve_ci_contexts (pd_verification p) ∧ cx_context c = id.
Proof. apply required_records_ok. intros c. unfold check_ci_context. reflect. tauto. Qed.

(** [a] is the provider attributed to [role]. *)
Definition provider_of p (role : RunmillProviderRole) (a : RunmillProviderAttribution) : Prop :=
  a ∈ ru_providers (pd_runtime p) ∧ pa_role a = role.

(** Every role has exactly one provider, the authorized reviewers are theirs and
    are not the implementer, each role has at most one outcome on the candidate,
    the implementation is complete and the required reviews passed. *)
Record roles_fulfilled p x : Prop := {
  rf_unique : NoDup (pa_role <$> ru_providers (pd_runtime p));
  rf_present role : ∃ a, provider_of p role a;
  rf_reviewers stage reviewer : authorized_reviewer x stage = Some reviewer →
    ∃ a i, provider_of p (stage_role stage) a ∧ provider_of p RunmillProviderRole.Implementer i ∧
      pa_principal_id a = au_principal_id reviewer ∧ pa_principal_id a ≠ pa_principal_id i;
  rf_outcomes : NoDup (rc_role <$> pd_role_outcomes p);
  rf_candidate o : o ∈ pd_role_outcomes p → rc_candidate_sha o = xp_candidate_sha x;
  rf_completed : ∃ o, o ∈ pd_role_outcomes p ∧ rc_role o = RunmillProviderRole.Implementer ∧
    rc_outcome o = RunmillRoleOutcomeConclusion.Completed;
  rf_passed stage reviewer : authorized_reviewer x stage = Some reviewer →
    ∃ o, o ∈ pd_role_outcomes p ∧ rc_role o = stage_role stage ∧
      rc_outcome o = RunmillRoleOutcomeConclusion.Passed
}.

Definition providers_of p : gmap RunmillProviderRole RunmillProviderAttribution :=
  collected pa_role (λ a, a) (ru_providers (pd_runtime p)) ∅.

Lemma collect_unchecked {K A V} `{Countable K} (key : A → K) (value : A → V) e l (m : gmap K V) :
  try_fold l m (λ m a, insert_new (key a) (value a) e m) =
  try_fold l m (collect_step key value e (λ _, Ok tt)).
Proof.
  revert m. induction l as [|a l IH]; intros m; simpl; [done|].
  assert (collect_step key value e (λ _, Ok tt) m a = insert_new (key a) (value a) e m) as ->.
  { unfold collect_step. by destruct (insert_new _ _ _ m). }
  destruct (insert_new _ _ _ m); simpl; [apply IH|done..].
Qed.

Lemma unique_provider_roles_ok p m :
  unique_provider_roles (ru_providers (pd_runtime p)) = Ok m ↔
  NoDup (pa_role <$> ru_providers (pd_runtime p)) ∧ m = providers_of p.
Proof.
  unfold unique_provider_roles. rewrite collect_unchecked, collect_ok. split; [naive_solver|].
  intros [? ->]. split_and!; try done; by apply Forall_true.
Qed.

Lemma providers_lookup p role a :
  NoDup (pa_role <$> ru_providers (pd_runtime p)) → providers_of p !! role = Some a ↔ provider_of p role a.
Proof.
  intros Hn. unfold providers_of, provider_of. rewrite collected_lookup by done. naive_solver.
Qed.

Lemma concluded_ok (l : list RunmillRoleOutcome) role conclusion :
  NoDup (rc_role <$> l) →
  concluded (collected rc_role (λ o, o) l ∅) role conclusion = true ↔
  ∃ o, o ∈ l ∧ rc_role o = role ∧ rc_outcome o = conclusion.
Proof.
  intros Hn. unfold concluded. pose proof (λ o, collected_lookup rc_role (λ o, o) l role o Hn) as Hl.
  destruct (_ !! role) as [o|].
  - destruct (proj1 (Hl o) eq_refl) as (o' & Ho & Hr & ->). rewrite bool_decide_eq_true. split; [eauto|].
    intros (o' & Ho' & Hr' & Hc). assert (Some o = Some o') as [= ->]; [|done]. apply Hl. eauto.
  - split; [done|]. intros (o & Ho & Hr & _). discriminate (proj2 (Hl o) (ex_intro _ o (conj Ho (conj Hr eq_refl)))).
Qed.

Lemma reviewer_provider_ok p x stage i :
  NoDup (pa_role <$> ru_providers (pd_runtime p)) →
  provider_of p RunmillProviderRole.Implementer i →
  reviewer_provider (providers_of p) i (stage_role stage, authorized_reviewer x stage) = Ok tt ↔
  ∀ reviewer, authorized_reviewer x stage = Some reviewer →
    ∃ a, provider_of p (stage_role stage) a ∧ pa_principal_id a = au_principal_id reviewer ∧
      pa_principal_id a ≠ pa_principal_id i.
Proof.
  intros Hn Hi. unfold reviewer_provider. cbn [fst snd].
  destruct (authorized_reviewer x stage) as [reviewer|]; [|naive_solver].
  pose proof (λ a, providers_lookup p (stage_role stage) a Hn) as Hl.
  destruct (providers_of p !! stage_role stage) as [a|]; cbn [expect mbind res_bind].
  - rewrite bail_if_ok. reflect. split.
    + intros [Hp Hne] r [= <-]. exists a. split; [by apply Hl|done].
    + intros H. destruct (H reviewer eq_refl) as (a' & Ha & Hp & Hne). apply Hl in Ha as [= ->]. done.
  - split; [done|]. intros H. destruct (H reviewer eq_refl) as (a' & Ha & _). by apply Hl in Ha.
Qed.

Lemma stages_ok x (test : RunmillReviewStage → bool) :
  is_some (xp_local_reviewer x) && negb (test RunmillReviewStage.Local) = false →
  is_some (xp_pull_request_reviewer x) && negb (test RunmillReviewStage.PullRequest) = false →
  ∀ stage reviewer, authorized_reviewer x stage = Some reviewer → test stage = true.
Proof.
  intros Hl Hp [] reviewer; simpl; intros E; rewrite E in *; simpl in *; by apply negb_false_iff.
Qed.

Lemma verify_providers_sound p x : verify_providers_and_outcomes p x = Ok tt → roles_fulfilled p x.
Proof.
  unfold verify_providers_and_outcomes. rewrite bind_ok.
  intros (m & [Hn ->]%unique_provider_roles_ok & H). apply bind_unit_ok in H as [Hall H].
  apply bind_ok in H as (i & Hi & H). apply bind_unit_ok in H as [Hrev H].
  apply bind_ok in H as (outcomes & Ho & H).
  apply (collect_ok rc_role (λ o, o) _ (λ o, bail_if (negb (bool_decide (rc_candidate_sha o = xp_candidate_sha x))) _))
    in Ho as (Hno & _ & Hcand & ->).
  assert (provider_of p RunmillProviderRole.Implementer i) as Hip.
  { apply providers_lookup; [done|]. by destruct (providers_of p !! _); [injection Hi as ->|]. }
  apply try_for_unit in Hall. apply try_for_unit in Hrev. rewrite !Forall_cons in Hall. rewrite !Forall_cons in Hrev. destruct Hrev as (Hr1 & Hr2 & _).
  pose proof (proj1 (reviewer_provider_ok p x RunmillReviewStage.Local i Hn Hip) Hr1) as Hr1'.
  pose proof (proj1 (reviewer_provider_ok p x RunmillReviewStage.PullRequest i Hn Hip) Hr2) as Hr2'.
  apply bail_if_ok in H. rewrite !orb_false_iff, negb_false_iff in H. destruct H as [[Hc Hl] Hp].
  pose proof (stages_ok x (λ stage, concluded (collected rc_role (λ o, o) (pd_role_outcomes p) ∅)
    (stage_role stage) RunmillRoleOutcomeConclusion.Passed) Hl Hp) as Hpass.
  split; try done.
  - intros role. destruct (providers_of p !! role) as [a|] eqn:E; [exists a; by apply providers_lookup|].
    exfalso. destruct Hall as (H1 & H2 & H3 & _). destruct role; rewrite E in *; done.
  - intros stage reviewer Hst. destruct stage; [destruct (Hr1' reviewer Hst)|destruct (Hr2' reviewer Hst)]; naive_solver.
  - intros o Hin. rewrite Forall_forall in Hcand. specialize (Hcand o Hin).
    by apply bail_if_ok, negb_false_iff, bool_decide_eq_true in Hcand.
  - by apply concluded_ok.
  - intros stage reviewer Hst. apply concluded_ok; [done|]. by apply (Hpass stage reviewer).
Qed.

Lemma verify_providers_complete p x : roles_fulfilled p x → verify_providers_and_outcomes p x = Ok tt.
Proof.
  unfold verify_providers_and_outcomes. rewrite bind_ok.
  intros [Hn Hall Hrev Hno Hcand Hc Hpass]. exists (providers_of p).
  split; [by apply unique_provider_roles_ok|].
  destruct (Hall RunmillProviderRole.Implementer) as [i Hi].
  assert (∀ stage, reviewer_provider (providers_of p) i (stage_role stage, authorized_reviewer x stage) = Ok tt) as Hr.
  { intros stage. apply (reviewer_provider_ok p x stage i Hn Hi). intros reviewer Hst.
    destruct (Hrev stage reviewer Hst) as (a & i' & Ha & Hi' & Hp & Hne). exists a. split; [done|].
    split; [done|]. assert (Some i = Some i') as [= ->]; [|done].
    rewrite <- (proj2 (providers_lookup p _ i Hn) Hi). by apply providers_lookup. }
  apply bind_unit_ok. split.
  { apply try_for_ok. repeat constructor; apply bail_if_ok, is_none_false.
    all: match goal with |- ¬ (_ !! ?r = None) => destruct (Hall r) as [a Ha]
         | |- is_Some (_ !! ?r) => destruct (Hall r) as [a Ha] | |- _ !! ?r ≠ None => destruct (Hall r) as [a Ha] end.
    all: apply (providers_lookup p _ a Hn) in Ha; rewrite Ha; done. }
  apply bind_ok. exists i. split; [by rewrite (proj2 (providers_lookup p _ i Hn) Hi)|].
  apply bind_unit_ok. split; [apply try_for_ok; repeat constructor; [apply (Hr RunmillReviewStage.Local)|apply (Hr RunmillReviewStage.PullRequest)]|].
  apply bind_ok. exists (collected rc_role (λ o, o) (pd_role_outcomes p) ∅). split.
  - apply (collect_ok rc_role (λ o, o) _ (λ o, bail_if (negb (bool_decide (rc_candidate_sha o = xp_candidate_sha x))) _)).
    split_and!; try done; [by apply Forall_true|]. apply Forall_forall. intros o Ho.
    apply bail_if_ok, negb_false_iff, bool_decide_eq_true. by apply Hcand.
  - apply bail_if_ok. rewrite !orb_false_iff, !andb_false_iff, !negb_false_iff, !concluded_ok by done.
    split_and!; [done|..].
    + destruct (xp_local_reviewer x) as [r|] eqn:E; [right|by left]. by apply (Hpass RunmillReviewStage.Local r).
    + destruct (xp_pull_request_reviewer x) as [r|] eqn:E; [right|by left].
      by apply (Hpass RunmillReviewStage.PullRequest r).
Qed.

Lemma verify_providers_ok p x : verify_providers_and_outcomes p x = Ok tt ↔ roles_fulfilled p x.
Proof. split; [apply verify_providers_sound|apply verify_providers_complete]. Qed.

(** A review by the authorized reviewer of its stage that passed the candidate
    under the effective policy. *)
Record review_passed p x (r : RunmillReviewEvidence) : Prop := {
  rp_independent : vw_independent r = true;
  rp_authorized : ∃ reviewer, authorized_reviewer x (vw_stage r) = Some reviewer ∧
    vw_reviewer_principal r = au_principal_id reviewer ∧ vw_reviewer_profile r = au_profile_id reviewer;
  rp_provider : ∃ a, provider_of p (stage_role (vw_stage r)) a ∧
    pa_principal_id a = vw_reviewer_principal r;
  rp_candidate : vw_candidate_sha r = xp_candidate_sha x;
  rp_policy : vw_policy_digest r = xp_effective_policy_digest x;
  rp_pass : vw_verdict r = RunmillReviewVerdict.Pass
}.

Lemma check_review_ok p x r :
  NoDup (pa_role <$> ru_providers (pd_runtime p)) →
  check_review x (providers_of p) r = Ok tt ↔ review_passed p x r.
Proof.
  intros Hn. unfold check_review. pose proof (λ a, providers_lookup p (stage_role (vw_stage r)) a Hn) as Hl.
  destruct (authorized_reviewer x (vw_stage r)) as [reviewer|] eqn:Ha; cbn [ok_or mbind res_bind].
  2:{ split; [done|]. intros [_ (? & ? & _) _ _ _ _]. congruence. }
  destruct (providers_of p !! _) as [a|] eqn:Hp; cbn [expect mbind res_bind].
  2:{ split; [done|]. intros [_ _ (a & Hpa & _) _ _ _]. by apply Hl in Hpa. }
  rewrite bail_if_ok. reflect. split.
  - intros H. destruct_and!. split; try done; [eauto|]. exists a. split; [by apply Hl|done].
  - intros [? (r' & Hr' & ? & ?) (a' & Ha' & ?) ? ? ?]. apply Hl in Ha' as [= <-].
    rewrite Ha in Hr'. injection Hr' as <-. tauto.
Qed.

Record reviews_passed p x : Prop := {
  rw_unique : NoDup (vw_review_id <$> pd_reviews p);
  rw_all : Forall (review_passed p x) (pd_reviews p);
  rw_required stage reviewer : authorized_reviewer x stage = Some reviewer →
    ∃ r, r ∈ pd_reviews p ∧ vw_stage r = stage
}.

Lemma collect_keys_ok {A} (key : A → string) e check (ok : A → Prop) (l : list A) (k : res unit) :
  (∀ a, check a = Ok tt ↔ ok a) →
  (try_fold l ∅ (collect_step key (λ _, tt) e check) ≫= λ _, k) = Ok tt ↔
  NoDup (key <$> l) ∧ Forall ok l ∧ k = Ok tt.
Proof.
  intros Hck. rewrite bind_ok. split.
  - intros (m & (Hn & _ & Hc & ->)%collect_ok & Hk). split_and!; try done.
    eapply Forall_impl; [exact Hc|]. intros a. apply Hck.
  - intros (Hn & Hc & Hk). exists (collected key (λ _, tt) l ∅). split; [|done].
    apply collect_ok. split_and!; try done; [by apply Forall_true|].
    eapply Forall_impl; [exact Hc|]. intros a. apply Hck.
Qed.

Lemma verify_reviews_ok p x :
  NoDup (pa_role <$> ru_providers (pd_runtime p)) → verify_reviews p x = Ok tt ↔ reviews_passed p x.
Proof.
  intros Hn. unfold verify_reviews. rewrite bind_ok.
  set (required := try_for _ _).
  assert (required = Ok tt ↔ ∀ stage reviewer, authorized_reviewer x stage = Some reviewer →
    ∃ r, r ∈ pd_reviews p ∧ vw_stage r = stage) as Hreq.
  { unfold required. rewrite try_for_ok, !Forall_cons, !bail_if_ok, Forall_nil.
    assert (∀ stage, existsb (λ r, bool_decide (vw_stage r = stage)) (pd_reviews p) = true ↔
      ∃ r, r ∈ pd_reviews p ∧ vw_stage r = stage) as He.
    { intros stage. rewrite existsb_true. setoid_rewrite bool_decide_eq_true. done. }
    split.
    - intros (H1 & H2 & _) stage reviewer Hs. apply He.
      exact (stages_ok x (λ stage, existsb (λ r, bool_decide (vw_stage r = stage)) (pd_reviews p)) H1 H2 stage reviewer Hs).
    - intros H. rewrite !andb_false_iff, !negb_false_iff, !He. split_and!; [..|done].
      + destruct (xp_local_reviewer x) eqn:E; [right; by eapply (H RunmillReviewStage.Local)|by left].
      + destruct (xp_pull_request_reviewer x) eqn:E; [right; by eapply (H RunmillReviewStage.PullRequest)|by left]. }
  split.
  - intros (m & [_ ->]%unique_provider_roles_ok & H).
    apply (collect_keys_ok _ _ _ (review_passed p x)) in H as (? & ? & H); [|intros r; by apply check_review_ok].
    split; [done|done|by apply Hreq].
  - intros [H1 H2 H3]. exists (providers_of p). split; [by apply unique_provider_roles_ok|].
    apply (collect_keys_ok _ _ _ (review_passed p x)); [intros r; by apply check_review_ok|].
    split_and!; [done|done|by apply Hreq].
Qed.

(** The effects of the delivery, on the candidate only. *)
Record effects_delivered p x : Prop := {
  ed_unique : NoDup (fx_effect_key <$> pd_side_effects p);
  ed_candidate : Forall (λ e, fx_candidate_sha e = xp_candidate_sha x) (pd_side_effects p);
  ed_pushed : ∃ e, e ∈ pd_side_effects p ∧ fx_kind e = RunmillSideEffectKind.BranchPush;
  ed_opened : ∃ e, e ∈ pd_side_effects p ∧ fx_kind e = RunmillSideEffectKind.PullRequestCreate
}.

Lemma verify_side_effects_ok p x : verify_side_effects p x = Ok tt ↔ effects_delivered p x.
Proof.
  unfold verify_side_effects. etrans.
  - apply (collect_keys_ok fx_effect_key _
      (λ e, bail_if (negb (bool_decide (fx_candidate_sha e = xp_candidate_sha x))) _)
      (λ e, fx_candidate_sha e = xp_candidate_sha x)).
    intros e. reflect. done.
  - rewrite try_for_ok, !Forall_cons, !bail_if_ok, !negb_false_iff, !existsb_true.
    setoid_rewrite bool_decide_eq_true. rewrite Forall_nil. split; [|intros [? ? ? ?]; tauto].
    intros H. destruct_and!. by split.
Qed.

(** An approval of the candidate under the policy that has not expired. *)
Record approval_effective x (a : RunmillApprovalEvidence) : Prop := {
  ap_work_order : av_work_order_digest a = xp_work_order_payload_digest x;
  ap_candidate : av_candidate_sha a = xp_candidate_sha x;
  ap_policy : av_policy_digest a = xp_effective_policy_digest x;
  ap_times : ∃ issued expires, to_utc (av_issued_at a) = Ok issued ∧
    to_utc (av_expires_at a) = Ok expires ∧ issued < expires ∧ xp_observed_at x < expires
}.

Lemma check_approval_ok x a : check_approval x a = Ok tt ↔ approval_effective x a.
Proof.
  unfold check_approval. rewrite bail_res_ok, or_else_false. reflect.
  assert (∀ r, (issued_at ← to_utc (av_issued_at a); expires_at ← to_utc (av_expires_at a);
                or_else (expires_at <=? issued_at) (expires_at ← to_utc (av_expires_at a); Ok (expires_at <=? r)))
               = Ok false ↔ ∃ issued expires, to_utc (av_issued_at a) = Ok issued ∧
                 to_utc (av_expires_at a) = Ok expires ∧ issued < expires ∧ r < expires) as Ht.
  { intros r. destruct (to_utc (av_issued_at a)) as [i| |], (to_utc (av_expires_at a)) as [ex| |]; simpl;
      try naive_solver. rewrite or_else_false, Z.leb_gt. split.
    - intros [H [= H']]. apply Z.leb_gt in H'. eauto 6.
    - intros (? & ? & [= <-] & [= <-] & H & H'). split; [done|]. f_equal. by apply Z.leb_gt. }
  rewrite Ht. split; [|intros [? ? ? ?]; tauto]. intros H. destruct_and!. by split.
Qed.

Lemma verify_approvals_ok p x :
  verify_approvals p x = Ok tt ↔
  NoDup (av_approval_id <$> pd_approvals p) ∧ Forall (approval_effective x) (pd_approvals p).
Proof.
  unfold verify_approvals. etrans; [apply (collect_keys_ok _ _ _ _ _ _ (check_approval_ok x))|]. tauto.
Qed.

(** ** The manifest *)

(** The artifacts a statement refers to, with the kind it needs of them. *)
Definition semantic_references p : list (string * RunmillArtifactKind) :=
  [ (ew_envelope_artifact_digest (pd_work_order p), RunmillArtifactKind.WorkOrderEnvelope);
    (ep_effective_policy_artifact_digest (pd_policy p), RunmillArtifactKind.EffectivePolicy);
    (ev_normalized_diff_artifact_digest (pd_source p), RunmillArtifactKind.NormalizedDiff);
    (ru_runtime_manifest_digest (pd_runtime p), RunmillArtifactKind.RuntimeManifest);
    (dp_evidence_digest (dv_pull_request (pd_delivery p)), RunmillArtifactKind.SideEffect) ]
  ++ ((λ o, (rc_evidence_digest o, RunmillArtifactKind.AgentOutcome)) <$> pd_role_outcomes p)
  ++ ((λ c, (lc_evidence_digest c, RunmillArtifactKind.Verification)) <$> ve_local_checks (pd_verification p))
  ++ ((λ c, (cx_evidence_digest c, RunmillArtifactKind.CiObservation)) <$> ve_ci_contexts (pd_verification p))
  ++ (pd_reviews p ≫= λ r, [(vw_findings_digest r, RunmillArtifactKind.Review);
                            (vw_evidence_digest r, RunmillArtifactKind.Review)])
  ++ ((λ e, (fx_evidence_digest e, RunmillArtifactKind.SideEffect)) <$> pd_side_effects p)
  ++ ((λ a, (av_evidence_digest a, RunmillArtifactKind.Approval)) <$> pd_approvals p).

Definition located (a : RunmillEvidenceArtifact) : Prop :=
  ∃ hex, ar_digest a = "sha256:" +:+ hex ∧ ar_location_ref a = "cas://sha256/" +:+ hex.

(** Every artifact is stored once under its digest, and everything the statement
    refers to is there with its kind. *)
Record manifest_complete p : Prop := {
  mf_ids : NoDup (ar_artifact_id <$> pd_artifacts p);
  mf_digests : NoDup (ar_digest <$> pd_artifacts p);
  mf_located : Forall located (pd_artifacts p);
  mf_kinds : Forall (λ reference, ∃ a, a ∈ pd_artifacts p ∧ ar_digest a = reference.1 ∧
    ar_kind a = reference.2) (semantic_references p);
  mf_cancellation c : pd_cancellation p = Some c →
    ∃ a, a ∈ pd_artifacts p ∧ ar_digest a = cn_evidence_digest c
}.

Lemma check_artifact_ok seen a seen' :
  check_artifact seen a = Ok seen' ↔
  seen.1 !! ar_artifact_id a = None ∧ seen.2 !! ar_digest a = None ∧ located a ∧
  seen' = (<[ar_artifact_id a := tt]> seen.1, <[ar_digest a := tt]> seen.2).
Proof.
  unfold check_artifact, insert_new, located.
  destruct (seen.1 !! ar_artifact_id a); cbn [mbind res_bind]; [naive_solver|].
  destruct (strip_prefix "sha256:" (ar_digest a)) as [hex|] eqn:Hs.
  - apply strip_prefix_spec in Hs. cbn [expect mbind res_bind].
    rewrite bind_unit_ok, bail_if_ok, negb_false_iff, bool_decide_eq_true.
    destruct (seen.2 !! ar_digest a); cbn [mbind res_bind]; [naive_solver|]. split.
    + intros [Hl [= <-]]. split_and!; try done. by exists hex.
    + intros (_ & _ & (hex' & E & Hl) & ->). split; [|done]. rewrite Hs in E.
      simpl in E. injection E as <-. done.
  - split; [done|]. intros (_ & _ & (hex & E & _) & _). apply strip_prefix_spec in E. congruence.
Qed.

Lemma check_artifacts_ok l seen seen' :
  try_fold l seen check_artifact = Ok seen' ↔
  NoDup (ar_artifact_id <$> l) ∧ NoDup (ar_digest <$> l) ∧
  Forall (λ a, seen.1 !! ar_artifact_id a = None) l ∧ Forall (λ a, seen.2 !! ar_digest a = None) l ∧
  Forall located l ∧
  seen' = (collected ar_artifact_id (λ _, tt) l seen.1, collected ar_digest (λ _, tt) l seen.2).
Proof.
  assert (∀ (key : RunmillEvidenceArtifact → string) k (m : gmap string unit) l,
    Forall (λ y, <[k := tt]> m !! key y = None) l ↔ (k ∉ key <$> l) ∧ Forall (λ y, m !! key y = None) l) as Hins.
  { intros key k m l'. rewrite !Forall_forall. split.
    - intros H. split.
      + intros (b & -> & Hb)%list_elem_of_fmap. specialize (H b Hb). by rewrite lookup_insert_eq in H.
      + intros b Hb. specialize (H b Hb). by apply lookup_insert_None in H as [? _].
    - intros [Hk H] b Hb. apply lookup_insert_None. split; [by apply H|].
      intros ->. apply Hk, list_elem_of_fmap. eauto. }
  revert seen. induction l as [|a l IH]; intros seen; simpl.
  { destruct seen. rewrite !Forall_nil, !NoDup_nil. naive_solver. }
  rewrite bind_ok, !Forall_cons, !NoDup_cons. setoid_rewrite check_artifact_ok. split.
  - intros (s1 & (H1 & H2 & H3 & ->) & (H4 & H5 & H6 & H7 & H8 & ->)%IH). simpl in *.
    apply Hins in H6 as [? ?], H7 as [? ?]. tauto.
  - intros ([? ?] & [? ?] & [? ?] & [? ?] & [? ?] & ->). eexists. split; [done|]. apply IH. simpl.
    rewrite !Hins. tauto.
Qed.

Lemma review_references (l : list RunmillReviewEvidence) (kind : RunmillArtifactKind) :
  (l ≫= λ r, [(vw_findings_digest r, kind); (vw_evidence_digest r, kind)]).*1 =
  (l ≫= λ r, [vw_findings_digest r; vw_evidence_digest r]).
Proof. induction l as [|r l IH]; [done|]. cbn. do 2 f_equal. apply IH. Qed.

Lemma references_semantic p :
  references p = (semantic_references p).*1 ++
    match pd_cancellation p with Some c => [cn_evidence_digest c] | None => [] end.
Proof.
  unfold references, semantic_references.
  rewrite !fmap_app, review_references, <- !list_fmap_compose, <- !app_assoc. done.
Qed.

Lemma has_kind_true p digest kind :
  has_kind p digest kind = true ↔ ∃ a, a ∈ pd_artifacts p ∧ ar_digest a = digest ∧ ar_kind a = kind.
Proof. unfold has_kind. rewrite existsb_true. setoid_rewrite andb_true_iff. by setoid_rewrite bool_decide_eq_true. Qed.

Lemma existsb_negb {A} (q : A → bool) l : existsb (λ y, negb (q y)) l = false ↔ Forall (λ y, q y = true) l.
Proof.
  induction l as [|y l IH]; simpl; [by rewrite Forall_nil|]. by rewrite Forall_cons, orb_false_iff, negb_false_iff, IH.
Qed.

Lemma existsb_negb2 {A} (q r : A → bool) l :
  existsb (λ y, negb (q y) || negb (r y)) l = false ↔ Forall (λ y, q y = true ∧ r y = true) l.
Proof.
  induction l as [|y l IH]; simpl; [by rewrite Forall_nil|].
  by rewrite Forall_cons, !orb_false_iff, !negb_false_iff, IH.
Qed.

Lemma Forall_pairs {A B} (P : B → Prop) (f g : A → B) l :
  Forall P (l ≫= λ y, [f y; g y]) ↔ Forall (λ y, P (f y) ∧ P (g y)) l.
Proof. induction l as [|y l IH]; [by rewrite !Forall_nil|]. cbn. rewrite !Forall_cons. rewrite <- IH. tauto. Qed.

Lemma verify_artifact_references_ok p :
  verify_artifact_references p = Ok tt ↔ manifest_complete p.
Proof.
  unfold verify_artifact_references.
  set (bad_kinds := bail_if _ (Validation [Lit "Runmill evidence artifact kinds do not match their signed semantic references"])).
  assert (bad_kinds = Ok tt ↔ Forall (λ reference, has_kind p reference.1 reference.2 = true) (semantic_references p)) as Hk.
  { unfold bad_kinds, semantic_references. rewrite bail_if_ok, !orb_false_iff, !negb_false_iff, existsb_negb2, !existsb_negb.
    rewrite !Forall_app, !Forall_cons, Forall_nil, !Forall_fmap, Forall_pairs. cbn [fst snd]. unfold compose. cbn [fst snd]. tauto. }
  clearbody bad_kinds. rewrite bind_ok. split.
  - intros (seen & (H1 & H2 & _ & _ & H5 & ->)%check_artifacts_ok & H). apply bind_unit_ok in H as [Hr H].
    apply Hk in H. apply bail_if_ok, existsb_false in Hr. split; try done.
    + eapply Forall_impl; [exact H|]. intros reference. by rewrite has_kind_true.
    + intros c Hc. rewrite Forall_forall in Hr. specialize (Hr (cn_evidence_digest c)).
      rewrite references_semantic, Hc in Hr. apply is_none_false in Hr; [|rewrite elem_of_app; right; by left].
      apply (collected_some ar_digest (λ _, tt)); [done|]. by apply is_some_true.
  - intros [H1 H2 H3 H4 H5]. eexists. split; [apply check_artifacts_ok; split_and!; try done; by apply Forall_true|].
    apply bind_unit_ok. split.
    + apply bail_if_ok, existsb_false, Forall_forall. intros reference Hr. apply is_none_false, is_some_true.
      apply (collected_some ar_digest (λ _, tt)); [done|]. rewrite references_semantic in Hr.
      apply elem_of_app in Hr as [(r & -> & Hr)%list_elem_of_fmap|Hr].
      * rewrite Forall_forall in H4. destruct (H4 r Hr) as (a & ? & ? & _). eauto.
      * destruct (pd_cancellation p) as [c|]; [|by apply elem_of_nil in Hr].
        apply list_elem_of_singleton in Hr as ->. by apply H5.
    + apply Hk. eapply Forall_impl; [exact H4|]. intros reference. by rewrite has_kind_true.
Qed.

(** ** The signature *)

(** The signature is the trusted signer's, over the whole envelope, made while
    the key was valid and not after the observation. *)
Record signature_trusted b (trusted : TrustedRunmillEvidenceSigner) (observed_at : DateTime) : Prop := {
  gt_revoked : ts_revoked trusted = false;
  gt_key : ts_key_id trusted = sb_key_id b;
  gt_issued : ∃ issued, to_utc (sb_issued_at b) = Ok issued ∧
    ts_valid_from trusted ≤ issued < ts_valid_until trusted ∧ issued ≤ observed_at;
  gt_signature : ∃ encoded message, sb_signature b = "base64url:" +:+ encoded ∧
    unsigned_canonical_bytes b = Ok message ∧
    verify_signature (ts_verifying_key trusted) message encoded = Ok tt
}.

Lemma verify_trusted_signature_ok b trusted observed_at :
  verify_trusted_signature b trusted observed_at = Ok tt ↔ signature_trusted b trusted observed_at.
Proof.
  unfold verify_trusted_signature. rewrite bind_unit_ok, bail_if_ok. reflect. rewrite bind_ok. split.
  - intros [[[Hr Hk] Hw] (issued & Hi & H)]. apply bind_unit_ok in H as [Hb H]. apply bail_if_ok in Hb. reflect.
    apply bind_ok in H as (encoded & He & H).
    apply ok_or_ok, strip_prefix_spec in He. apply bind_ok in H as (message & Hm & H).
    split; try done; [exists issued; split_and!; [done|lia..]|eauto].
  - intros [Hr Hk (issued & Hi & Hw & Ho) (encoded & message & He & Hm & Hv)].
    split; [split_and!; [done|done|lia]|]. exists issued. split; [done|]. apply bind_unit_ok. split.
    + apply bail_if_ok. rewrite !orb_false_iff, !Z.ltb_ge, Z.leb_gt. lia.
    + apply bind_ok. exists encoded. split; [by apply ok_or_ok, strip_prefix_spec|]. apply bind_ok. eauto.
Qed.

(** ** The whole bundle *)

(** What the comparison uses of a well-formed statement. *)
Lemma shape_sorted b :
  validate_shape b = Ok tt →
  (∃ subject, st_subject (sb_statement b) = [subject]) ∧
  increasing (ep_required_local_checks (pd_policy (st_predicate (sb_statement b)))) = true ∧
  increasing (ep_required_ci_contexts (pd_policy (st_predicate (sb_statement b)))) = true ∧
  increasing (ev_changed_paths (pd_source (st_predicate (sb_statement b)))) = true.
Proof.
  unfold validate_shape. rewrite !bind_unit_ok. intros (_ & _ & _ & _ & H & _ & _).
  unfold validate_statement_shape in H. apply bind_unit_ok in H as [Hs H].
  apply bind_ok in H as (subject & Hsub & H). apply bind_unit_ok in H as [_ H]. apply bind_unit_ok in H as [_ H].
  split.
  { apply bail_if_ok in Hs. rewrite !orb_false_iff, !negb_false_iff, Z.eqb_eq in Hs. destruct Hs as [_ Hs].
    unfold count in Hs. destruct (st_subject (sb_statement b)) as [|s [|]]; simpl in Hs; try lia. eauto. }
  unfold validate_predicate_shape in H. rewrite !bind_unit_ok in H.
  destruct H as (_ & _ & _ & _ & _ & _ & Hl & Hc & _ & _ & _ & _ & _ & _ & _ & Hp & _).
  assert (∀ l label, validate_sorted_references l label = Ok tt → increasing l = true) as Hr.
  { intros l label. unfold validate_sorted_references, validate_lexically_sorted_unique.
    rewrite !bind_unit_ok, !bail_if_ok, negb_false_iff. tauto. }
  unfold validate_sorted_paths, validate_lexically_sorted_unique in Hp.
  rewrite !bind_unit_ok, !bail_if_ok, negb_false_iff in Hp. split; [by eapply Hr|]. split; [by eapply Hr|tauto].
Qed.

(** The bundle answers the expectation in every respect. *)
Record evidence_answers b x : Prop := {
  ea_run : let r := pd_run (st_predicate (sb_statement b)) in
    eu_run_id r = xp_run_id x ∧ eu_attempt_id r = xp_attempt_id x ∧ eu_work_order_id r = xp_work_order_id x;
  ea_work_order : let w := pd_work_order (st_predicate (sb_statement b)) in
    ws_key_id (ew_signature w) = xp_work_order_key_id x ∧
    ew_envelope_digest w = xp_work_order_envelope_digest x ∧
    ew_payload_digest w = xp_work_order_payload_digest x ∧
    ep_effective_policy_digest (pd_policy (st_predicate (sb_statement b))) = xp_effective_policy_digest x;
  ea_source : let s := pd_source (st_predicate (sb_statement b)) in
    ev_forge s = xp_forge x ∧ ev_repository s = xp_repository x ∧ ev_base_ref s = xp_base_ref x ∧
    ev_base_sha s = xp_base_sha x ∧ ev_candidate_sha s = xp_candidate_sha x ∧
    ev_remote_head_sha s = xp_candidate_sha x ∧ ev_tree_digest s = xp_tree_digest x ∧
    ev_normalized_diff_digest s = xp_normalized_diff_digest x ∧ ev_merge_sha s = None;
  ea_subject : st_subject (sb_statement b) =
    [mkSubject (xp_forge x +:+ ":" +:+ xp_repository x) (mkSubjectDigest (xp_candidate_sha x))];
  ea_requirements : let q := pd_policy (st_predicate (sb_statement b)) in
    ev_changed_paths (pd_source (st_predicate (sb_statement b))) = elems (xp_changed_paths x) ∧
    ep_required_local_checks q = elems (xp_required_local_checks x) ∧
    ep_required_ci_contexts q = elems (xp_required_ci_contexts x) ∧
    ep_require_local_review q = is_some (xp_local_reviewer x) ∧
    ep_require_pull_request_review q = is_some (xp_pull_request_reviewer x);
  ea_not_cancelled : pd_cancellation (st_predicate (sb_statement b)) = None;
  ea_roles : roles_fulfilled (st_predicate (sb_statement b)) x;
  ea_checks : let l := ve_local_checks (pd_verification (st_predicate (sb_statement b))) in
    NoDup (lc_check_id <$> l) ∧ Forall (local_check_passed x) l ∧
    ∀ id, id ∈ xp_required_local_checks x → ∃ c, c ∈ l ∧ lc_check_id c = id;
  ea_contexts : let l := ve_ci_contexts (pd_verification (st_predicate (sb_statement b))) in
    NoDup (cx_context <$> l) ∧
    Forall (λ c, cx_candidate_sha c = xp_candidate_sha x ∧ cx_conclusion c = RunmillCiConclusion.Success) l ∧
    ∀ id, id ∈ xp_required_ci_contexts x → ∃ c, c ∈ l ∧ cx_context c = id;
  ea_reviews : reviews_passed (st_predicate (sb_statement b)) x;
  ea_effects : effects_delivered (st_predicate (sb_statement b)) x;
  ea_approvals : let l := pd_approvals (st_predicate (sb_statement b)) in
    NoDup (av_approval_id <$> l) ∧ Forall (approval_effective x) l;
  ea_pull_request : let d := dv_pull_request (pd_delivery (st_predicate (sb_statement b))) in
    let o := xp_independently_observed_pull_request x in
    dp_forge d = xp_forge x ∧ dp_repository d = xp_repository x ∧ dp_repository d = pre_repository o ∧
    dp_number d = pre_number o ∧ dp_url d = pre_url o ∧ dp_head_ref d = xp_pull_request_head_ref x ∧
    dp_base_ref d = xp_base_ref x ∧ dp_head_sha d = xp_candidate_sha x ∧ pre_base_sha o = xp_base_sha x ∧
    pre_head_sha o = xp_candidate_sha x ∧ pre_required_ci_contexts o = xp_required_ci_contexts x ∧
    ∀ c, c ∈ xp_required_ci_contexts x → c ∈ pre_successful_ci_contexts o;
  ea_order : ∃ completed issued, to_utc (eu_completed_at (pd_run (st_predicate (sb_statement b)))) = Ok completed ∧
    to_utc (sb_issued_at b) = Ok issued ∧ completed ≤ issued
}.

Lemma delivered_pull_request_ok p x :
  verify_pull_request p x = Ok tt ↔
  let d := dv_pull_request (pd_delivery p) in let o := xp_independently_observed_pull_request x in
  dp_forge d = xp_forge x ∧ dp_repository d = xp_repository x ∧ dp_repository d = pre_repository o ∧
  dp_number d = pre_number o ∧ dp_url d = pre_url o ∧ dp_head_ref d = xp_pull_request_head_ref x ∧
  dp_base_ref d = xp_base_ref x ∧ dp_head_sha d = xp_candidate_sha x ∧ pre_base_sha o = xp_base_sha x ∧
  pre_head_sha o = xp_candidate_sha x ∧ pre_required_ci_contexts o = xp_required_ci_contexts x ∧
  ∀ c, c ∈ xp_required_ci_contexts x → c ∈ pre_successful_ci_contexts o.
Proof.
  unfold verify_pull_request. rewrite bail_if_ok, !orb_false_iff, !negb_false_iff, !bool_decide_eq_true, Z.eqb_eq, bs_is_subset_true.
  cbn zeta. tauto.
Qed.

Lemma bound_true p x : bound p x = true ↔
  (eu_run_id (pd_run p) = xp_run_id x ∧ eu_attempt_id (pd_run p) = xp_attempt_id x ∧
   eu_work_order_id (pd_run p) = xp_work_order_id x) ∧
  (ws_key_id (ew_signature (pd_work_order p)) = xp_work_order_key_id x ∧
   ew_envelope_digest (pd_work_order p) = xp_work_order_envelope_digest x ∧
   ew_payload_digest (pd_work_order p) = xp_work_order_payload_digest x ∧
   ep_effective_policy_digest (pd_policy p) = xp_effective_policy_digest x) ∧
  (ev_forge (pd_source p) = xp_forge x ∧ ev_repository (pd_source p) = xp_repository x ∧
   ev_base_ref (pd_source p) = xp_base_ref x ∧ ev_base_sha (pd_source p) = xp_base_sha x ∧
   ev_candidate_sha (pd_source p) = xp_candidate_sha x ∧ ev_remote_head_sha (pd_source p) = xp_candidate_sha x ∧
   ev_tree_digest (pd_source p) = xp_tree_digest x ∧
   ev_normalized_diff_digest (pd_source p) = xp_normalized_diff_digest x ∧ ev_merge_sha (pd_source p) = None).
Proof. unfold bound. rewrite !andb_true_iff, !bool_decide_eq_true, is_none_true. tauto. Qed.

Lemma issued_after (t : res DateTime) (c : res DateTime) e :
  (issued ← t; completed ← c; bail_if (issued <? completed) e) = Ok tt ↔
  ∃ completed issued, c = Ok completed ∧ t = Ok issued ∧ completed ≤ issued.
Proof.
  destruct t as [i| |], c as [d| |]; simpl; try naive_solver. rewrite bail_if_ok, Z.ltb_ge. naive_solver.
Qed.

Lemma verify_bindings_ok b x :
  validate_shape b = Ok tt → verify_bindings b x = Ok tt ↔ evidence_answers b x.
Proof.
  intros Hshape. destruct (shape_sorted b Hshape) as ([subject Hsub] & Hl & Hc & Hp).
  unfold verify_bindings. rewrite Hsub. cbn [lookup list_lookup expect mbind res_bind].
  rewrite !bind_unit_ok, issued_after, delivered_pull_request_ok, verify_approvals_ok, verify_side_effects_ok,
    verify_ci_contexts_ok, verify_local_checks_ok, verify_providers_ok, !bail_if_ok, !orb_false_iff,
    !negb_false_iff, bound_true, !same_values_exact, !bool_decide_eq_true, !eqb_true_iff, is_some_false by done.
  assert (sj_name subject = xp_forge x +:+ ":" +:+ xp_repository x ∧
          sd_sha1 (sj_digest subject) = xp_candidate_sha x ↔
          [subject] = [mkSubject (xp_forge x +:+ ":" +:+ xp_repository x) (mkSubjectDigest (xp_candidate_sha x))]) as ->.
  { destruct subject as [n [d]]. simpl. naive_solver. }
  split.
  - intros H. destruct H as (Hb & Hs & Hq & Hn & Hr & Hlc & Hci & Hrev & He & Ha & Hpr & Ho).
    apply verify_reviews_ok in Hrev; [|by apply (rf_unique _ _ Hr)]. rewrite <- Hsub in Hs.
    cbn zeta in *. split; cbn zeta; tauto.
  - intros [H1 H2 H3 H4 H5 H6 H7 H8 H9 H10 H11 H12 H13 H14]. rewrite Hsub in H4.
    rewrite verify_reviews_ok by apply (rf_unique _ _ H7). cbn zeta in *. tauto.
Qed.

(** ** No panic *)

(** One step through the binds, loops and conditions of a validation. *)
Ltac calm_step :=
  intros;
  lazymatch goal with
  | |- (_ ≫= _) ≠ Panic => apply bind_not_panic
  | |- try_for _ _ ≠ Panic => apply try_for_not_panic
  | |- bail_if _ _ ≠ Panic => apply bail_if_not_panic
  | |- Ok _ ≠ Panic => discriminate
  | |- Err _ ≠ Panic => discriminate
  | |- ok_or ?o _ ≠ Panic => destruct o; discriminate
  | |- map_err ?r _ ≠ Panic => destruct r; discriminate
  | |- canonical_json _ ≠ Panic => apply canonical_json_not_panic
  | |- reject_sensitive_fields _ ≠ Panic => apply reject_sensitive_not_panic
  | |- (let '(_, _) := ?q in _) ≠ Panic => destruct q
  | |- (match ?q with _ => _ end) ≠ Panic => destruct q
  end.
Ltac calm := repeat calm_step.

Lemma to_utc_not_panic t : to_utc t ≠ Panic.
Proof. unfold to_utc. calm. Qed.

Lemma check_utc_not_panic t : check_utc t ≠ Panic.
Proof. unfold check_utc. apply bind_not_panic; [apply to_utc_not_panic|done]. Qed.

Lemma validate_digests_not_panic l : validate_digests l ≠ Panic.
Proof. unfold validate_digests, validate_digest. calm. Qed.

Ltac calm_shape :=
  unfold RunmillExternalRunId_validate, validate_identifier, validate_reference, validate_digest, validate_git_sha, validate_repository,
    validate_branch_ref, validate_media_type, validate_cas_location, validate_path, validate_subject_name,
    validate_public_https_url, validate_lexically_sorted_unique;
  repeat (intros; first [ apply check_utc_not_panic | apply validate_digests_not_panic | apply to_utc_not_panic | calm_step ]).

Lemma validate_predicate_shape_not_panic p : validate_predicate_shape p ≠ Panic.
Proof.
  unfold validate_predicate_shape, validate_sorted_references, validate_sorted_paths, validate_runtime_shape,
    validate_role_outcomes_shape, validate_verification_shape, validate_reviews_shape,
    validate_side_effects_shape, validate_approvals_shape, validate_budget_shape, validate_delivery_shape,
    validate_artifacts_shape.
  calm_shape.
Qed.

Lemma validate_statement_shape_not_panic s : validate_statement_shape s ≠ Panic.
Proof.
  unfold validate_statement_shape. apply bind_not_panic; [apply bail_if_not_panic|].
  intros [] Hs. apply bail_if_ok in Hs. rewrite !orb_false_iff, !negb_false_iff, Z.eqb_eq in Hs.
  destruct Hs as [_ Hs]. unfold count in Hs.
  destruct (st_subject s) as [|subject [|]]; simpl in Hs; try lia. simpl. unfold validate_subject_name.
  repeat (intros; first [apply validate_predicate_shape_not_panic | progress calm_shape]).
Qed.

Lemma validate_shape_not_panic b : validate_shape b ≠ Panic.
Proof.
  unfold validate_shape, screened, validate_signature_encoding.
  repeat (intros; first [apply validate_statement_shape_not_panic | progress calm_shape]).
Qed.

Lemma verify_artifact_references_not_panic p :
  validate_predicate_shape p = Ok tt → verify_artifact_references p ≠ Panic.
Proof.
  intros Hs. unfold validate_predicate_shape, validate_artifacts_shape in Hs. rewrite !bind_unit_ok in Hs.
  destruct_and!. match goal with H : try_for (pd_artifacts p) _ = Ok tt |- _ => apply try_for_ok in H; rename H into Ha end.
  unfold verify_artifact_references. apply bind_not_panic; [|intros; calm]. clear -Ha.
  generalize (∅ : gmap string unit, ∅ : gmap string unit) as seen.
  induction Ha as [|a l Ha Hl IH]; intros seen; simpl; [done|].
  apply bind_not_panic; [|intros seen1 _; apply IH]. rewrite !bind_unit_ok in Ha.
  destruct Ha as (_ & _ & _ & Hd & _). apply bail_if_ok, negb_false_iff in Hd. unfold is_sha256_digest in Hd.
  unfold check_artifact, insert_new. destruct (seen.1 !! _); cbn [mbind res_bind]; [done|].
  destruct (strip_prefix "sha256:" (ar_digest a)); [|done]. cbn [expect mbind res_bind].
  apply bind_not_panic; [apply bail_if_not_panic|intros; by destruct (seen.2 !! _)].
Qed.

Lemma providers_present p x : verify_providers_and_outcomes p x = Ok tt →
  NoDup (pa_role <$> ru_providers (pd_runtime p)) ∧ ∀ role, is_Some (providers_of p !! role).
Proof.
  intros [Hn Hall _ _ _ _ _]%verify_providers_ok. split; [done|]. intros role.
  destruct (Hall role) as [a Ha]. exists a. by apply providers_lookup.
Qed.

Lemma verify_providers_not_panic p x : verify_providers_and_outcomes p x ≠ Panic.
Proof.
  unfold verify_providers_and_outcomes. apply bind_not_panic.
  { unfold unique_provider_roles. rewrite collect_unchecked. apply collect_not_panic. done. }
  intros providers _. apply bind_not_panic; [calm|]. intros [] Hall. apply try_for_ok in Hall.
  assert (∀ role, is_Some (providers !! role)) as Hp.
  { rewrite Forall_forall in Hall. intros role. specialize (Hall role).
    rewrite bail_if_ok, is_none_false in Hall. apply Hall. rewrite !elem_of_cons. destruct role; auto. }
  destruct (Hp RunmillProviderRole.Implementer) as [i Hi]. rewrite Hi. cbn [expect mbind res_bind].
  apply bind_not_panic.
  { apply try_for_not_panic. intros [role [reviewer|]] _; unfold reviewer_provider; simpl; [|done].
    destruct (Hp role) as [a ->]. simpl. apply bail_if_not_panic. }
  intros [] _. apply bind_not_panic; [|intros; apply bail_if_not_panic].
  apply (collect_not_panic rc_role (λ o, o) _ (λ o, bail_if (negb (bool_decide (rc_candidate_sha o = xp_candidate_sha x))) _)).
  intros o _. apply bail_if_not_panic.
Qed.

Lemma verify_reviews_not_panic p x :
  verify_providers_and_outcomes p x = Ok tt → verify_reviews p x ≠ Panic.
Proof.
  intros [Hn Hp]%providers_present. unfold verify_reviews.
  rewrite (proj2 (unique_provider_roles_ok p _) (conj Hn eq_refl)). cbn [mbind res_bind].
  apply bind_not_panic; [|intros; apply try_for_not_panic; intros [] _; apply bail_if_not_panic].
  apply (collect_not_panic vw_review_id (λ _, tt)). intros r _. unfold check_review.
  apply bind_not_panic; [by destruct (authorized_reviewer _ _)|]. intros reviewer _.
  destruct (Hp (stage_role (vw_stage r))) as [a ->]. simpl. apply bail_if_not_panic.
Qed.

Lemma verify_bindings_not_panic b x : validate_shape b = Ok tt → verify_bindings b x ≠ Panic.
Proof.
  intros Hshape. destruct (shape_sorted b Hshape) as ([subject Hsub] & _).
  unfold verify_bindings. apply bind_not_panic; [apply bail_if_not_panic|]. intros _ _.
  rewrite Hsub. cbn [lookup list_lookup expect mbind res_bind].
  do 3 (apply bind_not_panic; [apply bail_if_not_panic|intros _ _]).
  apply bind_not_panic; [apply verify_providers_not_panic|]. intros [] Hp.
  apply bind_not_panic; [|intros _ _; apply bind_not_panic; [|intros _ _; apply bind_not_panic; [by apply verify_reviews_not_panic|intros _ _]]].
  - unfold verify_local_checks. apply bind_not_panic; [|intros; apply bail_if_not_panic].
    apply (collect_not_panic lc_check_id (λ c, c) _ (check_local_check x)). intros c _.
    unfold check_local_check, or_else. repeat (intros; first [apply to_utc_not_panic | calm_step]).
  - unfold verify_ci_contexts. apply bind_not_panic; [|intros; apply bail_if_not_panic].
    apply (collect_not_panic cx_context (λ c, c) _ (check_ci_context x)). intros c _. apply bail_if_not_panic.
  - apply bind_not_panic; [|intros _ _; apply bind_not_panic; [|intros _ _; apply bind_not_panic; [apply bail_if_not_panic|]]].
    + unfold verify_side_effects. apply bind_not_panic; [|intros; calm].
      apply (collect_not_panic fx_effect_key (λ _, tt) _
        (λ e, bail_if (negb (bool_decide (fx_candidate_sha e = xp_candidate_sha x))) _)).
      intros e _. apply bail_if_not_panic.
    + unfold verify_approvals. apply bind_not_panic; [|done].
      apply (collect_not_panic av_approval_id (λ _, tt) _ (check_approval x)). intros a _.
      unfold check_approval, or_else. repeat (intros; first [apply to_utc_not_panic | calm_step]).
    + intros. repeat (intros; first [apply to_utc_not_panic | calm_step]).
Qed.

(** ** Accepting evidence *)

Lemma integrity_ok b trusted observed_at :
  verify_signed_integrity b trusted observed_at = Ok tt ↔
  validate_shape b = Ok tt ∧ identifier_text (ts_key_id trusted) = true ∧
  (∃ m, canonical_json (sb_statement b) = Ok m ∧ sb_bundle_digest b = sha256_digest m) ∧
  signature_trusted b trusted observed_at ∧ manifest_complete (st_predicate (sb_statement b)).
Proof.
  unfold verify_signed_integrity, validate_identifier.
  rewrite !bind_unit_ok, bail_if_ok, negb_false_iff, bind_ok. split.
  - intros (H1 & H2 & m & Hm & H). rewrite !bind_unit_ok, bail_if_ok, negb_false_iff, bool_decide_eq_true in H.
    destruct H as (Hd & Hs & Ha). apply verify_trusted_signature_ok in Hs. apply verify_artifact_references_ok in Ha.
    split_and!; try done. by exists m.
  - intros (H1 & H2 & (m & Hm & Hd) & Hs & Ha). split_and!; try done. exists m. split; [done|].
    rewrite !bind_unit_ok, bail_if_ok, negb_false_iff, bool_decide_eq_true.
    rewrite verify_trusted_signature_ok, verify_artifact_references_ok. done.
Qed.

Lemma shape_predicate b : validate_shape b = Ok tt → validate_predicate_shape (st_predicate (sb_statement b)) = Ok tt.
Proof.
  unfold validate_shape. rewrite !bind_unit_ok. intros (_ & _ & _ & _ & H & _ & _).
  unfold validate_statement_shape in H. apply bind_unit_ok in H as [_ H].
  apply bind_ok in H as (subject & _ & H). by rewrite !bind_unit_ok in H; destruct H as (_ & _ & ?).
Qed.

Lemma verify_not_panic b x : SignedRunmillEvidenceBundle_verify b x ≠ Panic.
Proof.
  unfold SignedRunmillEvidenceBundle_verify. apply bind_not_panic.
  { unfold validate_expectation. calm_shape. }
  intros _ _. apply bind_not_panic.
  - unfold verify_signed_integrity, validate_identifier. apply bind_not_panic; [apply validate_shape_not_panic|].
    intros [] Hs%shape_predicate. unfold verify_trusted_signature, unsigned_canonical_bytes, verify_signature.
    repeat (intros; first [apply to_utc_not_panic | by apply verify_artifact_references_not_panic | calm_step]).
  - intros [] (Hs & _)%integrity_ok. apply bind_not_panic; [by apply verify_bindings_not_panic|done].
Qed.

(** C5. Evidence from Runmill is accepted exactly when it deserves it: the
    expectation and the document are well formed, the digest is of the statement,
    the signature is the trusted key's from its validity period, every artifact
    is stored under its own digest and every reference has one of the right kind,
    and the statement answers the expectation in every respect: one run, Work
    Order, policy and candidate throughout, exactly the changed paths and required
    checks, each check once, complete and successful, reviews by the authorized
    reviewers who are not the implementer, unexpired approvals, the delivery that
    ASF observed itself.  What is returned names that run and candidate, and no
    input makes verification panic. *)
Theorem runmill_evidence_exact b x :
  (∀ v, SignedRunmillEvidenceBundle_verify b x = Ok v ↔
     validate_expectation x = Ok tt ∧ validate_shape b = Ok tt ∧
     (∃ m, canonical_json (sb_statement b) = Ok m ∧ sb_bundle_digest b = sha256_digest m) ∧
     signature_trusted b (xp_trusted_signer x) (xp_observed_at x) ∧
     manifest_complete (st_predicate (sb_statement b)) ∧ evidence_answers b x ∧
     v = mkValidatedEvidence (sb_bundle_digest b) (xp_run_id x) (xp_candidate_sha x)
           (ts_key_id (xp_trusted_signer x))) ∧
  SignedRunmillEvidenceBundle_verify b x ≠ Panic.
Proof.
  split; [|apply verify_not_panic]. intros v. unfold SignedRunmillEvidenceBundle_verify.
  rewrite !bind_unit_ok, integrity_ok. split.
  - intros (He & (Hs & _ & Hd & Hg & Hm) & Hb & [= <-]). apply verify_bindings_ok in Hb; [|done].
    split_and!; try done. destruct (ea_run _ _ Hb) as (-> & _). destruct (ea_source _ _ Hb) as (_ & _ & _ & _ & -> & _).
    by rewrite (gt_key _ _ _ Hg).
  - intros (He & Hs & Hd & Hg & Hm & Hb & ->).
    assert (identifier_text (ts_key_id (xp_trusted_signer x)) = true) as Hid.
    { unfold validate_expectation, validate_identifier in He. rewrite !bind_unit_ok, bail_if_ok, negb_false_iff in He. tauto. }
    split_and!; try done; [by apply verify_bindings_ok|].
    destruct (ea_run _ _ Hb) as (-> & _). destruct (ea_source _ _ Hb) as (_ & _ & _ & _ & -> & _).
    by rewrite (gt_key _ _ _ Hg).
Qed.

Lemma sign_shape `{!SignatureBytes} statement issued_at signer b :
  SignedRunmillEvidenceBundle_sign statement issued_at signer = Ok b →
  ∃ m message, canonical_json statement = Ok m ∧ unsigned_canonical_bytes b = Ok message ∧
    b = mkSignedBundle RUNMILL_SIGNED_EVIDENCE_SCHEMA_V1 (signer_key_id signer) EdDSA issued_at
          (sha256_digest m) statement ("base64url:" +:+ sign signer message) ∧
    identifier_text (signer_key_id signer) = true ∧
    (screened b = Ok tt → validate_shape b = Ok tt).
Proof.
  unfold SignedRunmillEvidenceBundle_sign. rewrite !bind_unit_ok, bind_ok.
  intros (Hs & Hk & Hi & m & Hm & Hb). apply bind_unit_ok in Hb as [_ Hb]. apply bind_ok in Hb as (message & Hmsg & Hb).
  match type of Hb with ?ok ?v = _ => assert (b = v) as -> by congruence end. clear Hb.
  exists m, message. split_and!; try done.
  - by apply bail_if_ok, negb_false_iff in Hk.
  - intros Hscreen. unfold validate_shape. cbn [sb_schema sb_key_id sb_issued_at sb_bundle_digest sb_statement sb_signature].
    rewrite !bind_unit_ok. split_and!; try done.
    + unfold validate_digest. by rewrite sha256_digest_shape.
    + unfold validate_signature_encoding.
      assert (∀ text, strip_prefix "base64url:" ("base64url:" +:+ text) = Some text) as Hstrip by done.
      rewrite Hstrip. cbn [ok_or mbind res_bind]. unfold sign.
      rewrite base64_round_trip. cbn [map_err mbind res_bind]. unfold count.
      rewrite signature_bytes_length, bool_decide_true by done. done.
Qed.

(** What was signed verifies: a signed bundle carries the statement it was made
    of, and its integrity holds under the signer's key exactly when that key is
    trusted at the time of issue, the observation is not earlier, and the manifest
    is complete. *)
Lemma runmill_evidence_signed `{!SignatureBytes} statement issued_at signer b :
  SignedRunmillEvidenceBundle_sign statement issued_at signer = Ok b → screened b = Ok tt →
  sb_statement b = statement ∧
  ∀ trusted observed_at, ts_verifying_key trusted = verifying_key_of (signer_key signer) →
    verify_signed_integrity b trusted observed_at = Ok tt ↔
    ts_revoked trusted = false ∧ ts_key_id trusted = signer_key_id signer ∧
    (∃ issued, to_utc issued_at = Ok issued ∧
       ts_valid_from trusted ≤ issued < ts_valid_until trusted ∧ issued ≤ observed_at) ∧
    manifest_complete (st_predicate statement).
Proof.
  intros (m & message & Hm & Hmsg & Hb & Hid & Hshape)%sign_shape Hscreen. specialize (Hshape Hscreen).
  split; [by rewrite Hb|]. intros trusted observed_at Hkey. rewrite integrity_ok. split.
  - intros (_ & _ & _ & [Hr Hk Hw _] & Hman). rewrite Hb in Hk, Hw, Hman. done.
  - intros (Hr & Hk & Hw & Hman). split_and!; try done.
    + by rewrite Hk.
    + exists m. by rewrite Hb.
    + split; try done; [by rewrite Hb|by rewrite Hb|]. exists (sign signer message), message.
      split; [by rewrite Hb|]. split; [done|]. rewrite Hkey. unfold verify_signature, sign.
      rewrite base64_round_trip. cbn [map_err mbind res_bind]. rewrite signature_round_trip. cbn [map_err mbind res_bind].
      by rewrite verify_signed.
    + by rewrite Hb.
Qed.
End facts.

(** ** An accepted bundle *)

Module Sample.
#[local] Instance url : UrlCrate :=
  {| url_parse s := inr (mkUrl "https" (Some "github.com") "" None None None) |}.
#[local] Instance rfc3339 : Rfc3339 := {| parse_from_rfc3339 s := inr (len s) |}.
#[local] Existing Instance sample_hashing.
#[local] Instance statement_jcs : Canonical RunmillEvidenceStatement :=
  {| to_jcs s := inr (bytes (ev_candidate_sha (pd_source (st_predicate s)))) |}.
#[local] Instance unsigned_jcs : Canonical UnsignedRunmillEvidenceBundle :=
  {| to_jcs u := inr (bytes (ub_bundle_digest u)) |}.
#[local] Instance bundle_value : ToValue SignedRunmillEvidenceBundle :=
  {| to_value b := inr (Object [("key_id", VString (sb_key_id b))]) |}.

(** Signatures of 64 bytes. *)
#[local] Instance ed : Ed25519 :=
  {| SigningKey := unit; VerifyingKey := unit; Signature := unit;
     verifying_key_of k := k; sign_bytes k m := tt; signature_to_bytes s := replicate 64 0;
     signature_from_slice m := inr tt; verify_bytes k m s := true; signing_key_from_bytes m := tt;
     base64_encode m := pos_text (countable.encode m); base64_decode := text_decode; seed_decoders := [];
     base64_round_trip := text_round_trip; signature_round_trip s := match s with tt => eq_refl end;
     verify_signed k m := eq_refl |}.
#[local] Instance signatures : SignatureBytes := {| signature_bytes_length s := eq_refl |}.

Definition hex (c : string) : string := String.concat "" (replicate 64 c).
Definition digest (c : string) : string := "sha256:" +:+ hex c.
Definition sha (c : string) : string := String.concat "" (replicate 40 c).

Definition artifact (id : string) (kind : RunmillArtifactKind) (c : string) : RunmillEvidenceArtifact :=
  mkArtifact id kind 10 "application/json" (digest c) RunmillRetentionClass.Portable
    ("cas://sha256/" +:+ hex c).

Definition at_ : RunmillEvidenceTimestamp := mkTimestamp "2026-01-01T00:00:00Z".

Definition provider (role : RunmillProviderRole) (principal : string) : RunmillProviderAttribution :=
  mkProvider role "codex" "model/a" principal "lease-1".

Definition predicate : RunmillEvidencePredicate :=
  {| pd_schema := RUNMILL_EVIDENCE_PREDICATE_SCHEMA_V1;
     pd_run := mkEvidenceRun (mkRunmillExternalRunId "run-1") 1%N 2%N at_;
     pd_work_order := mkEvidenceWorkOrder (digest "a") (digest "b") (digest "1")
       (mkVerifiedSignature "order-key" EdDSA true);
     pd_policy := mkEffectivePolicy (digest "c") (digest "2")
       (mkPolicyInputs (digest "a") (digest "a") (digest "a") (digest "a")) ["fmt"; "test"] ["ci/build"] true false;
     pd_source := mkSourceEvidence "github" "acme/app" "refs/heads/main" (sha "a") (sha "b") (sha "b") None
       (digest "d") (digest "e") (digest "3") ["src/lib.rs"];
     pd_runtime := mkRuntimeEvidence (digest "a") (digest "a") (digest "a") (digest "a") (digest "a") (digest "4")
       [provider RunmillProviderRole.Implementer "p1"; provider RunmillProviderRole.LocalReviewer "p2";
        provider RunmillProviderRole.PullRequestReviewer "p3"];
     pd_role_outcomes :=
       [mkRoleOutcome RunmillProviderRole.Implementer RunmillRoleOutcomeConclusion.Completed (sha "b") (digest "6");
        mkRoleOutcome RunmillProviderRole.LocalReviewer RunmillRoleOutcomeConclusion.Passed (sha "b") (digest "6")];
     pd_verification := mkVerificationEvidence
       ((λ id, mkLocalCheck id (sha "b") (digest "d") (digest "a") "worker" (digest "a") (digest "a") at_ at_
                 RunmillLocalCheckConclusion.Success RunmillCheckCoverage.Complete (digest "7")) <$> ["fmt"; "test"])
       [mkCiContext "ci/build" (sha "b") RunmillCiConclusion.Success at_ (digest "8")];
     pd_reviews := [mkReview "review-1" RunmillReviewStage.Local "p2" "profile" true (sha "b") (digest "c")
                      RunmillReviewVerdict.Pass (digest "9") (digest "9")];
     pd_side_effects :=
       [mkSideEffect (digest "a") RunmillSideEffectKind.BranchPush (sha "b") (digest "a") (digest "a") None
          (digest "a") Confirmed (digest "5");
        mkSideEffect (digest "b") RunmillSideEffectKind.PullRequestCreate (sha "b") (digest "a") (digest "a") None
          (digest "a") Confirmed (digest "5")];
     pd_approvals := []; pd_cancellation := None;
     pd_budget := mkBudgetEvidence (Finite false 5 0) 1 1 1 PullRequestDelivered;
     pd_delivery := mkDeliveryEvidence ClosurePr true
       (mkDeliveredPullRequest "github" "acme/app" 7 "https://github.com/acme/app/pull/7" "refs/heads/fix"
          "refs/heads/main" (sha "b") at_ (digest "5"));
     pd_artifacts :=
       [artifact "a1" RunmillArtifactKind.WorkOrderEnvelope "1"; artifact "a2" RunmillArtifactKind.EffectivePolicy "2";
        artifact "a3" RunmillArtifactKind.NormalizedDiff "3"; artifact "a4" RunmillArtifactKind.RuntimeManifest "4";
        artifact "a5" RunmillArtifactKind.SideEffect "5"; artifact "a6" RunmillArtifactKind.AgentOutcome "6";
        artifact "a7" RunmillArtifactKind.Verification "7"; artifact "a8" RunmillArtifactKind.CiObservation "8";
        artifact "a9" RunmillArtifactKind.Review "9"] |}.

Definition statement : RunmillEvidenceStatement :=
  mkStatement IN_TOTO_STATEMENT_V1 [mkSubject "github:acme/app" (mkSubjectDigest (sha "b"))]
    RUNMILL_EVIDENCE_PREDICATE_TYPE_V1 predicate.

Definition signer : Ed25519Signer := mkSigner _ "worker-key" tt.

Definition trusted : TrustedRunmillEvidenceSigner := mkTrustedSigner _ "worker-key" tt 0 100 false.

(** The same key, trusted for a shorter time. *)
Definition expired : TrustedRunmillEvidenceSigner := mkTrustedSigner _ "worker-key" tt 0 20 false.

Definition expectation : RunmillEvidenceExpectation :=
  {| xp_trusted_signer := trusted; xp_observed_at := 50; xp_run_id := mkRunmillExternalRunId "run-1";
     xp_attempt_id := 1%N; xp_work_order_id := 2%N; xp_work_order_key_id := "order-key";
     xp_work_order_envelope_digest := digest "a"; xp_work_order_payload_digest := digest "b";
     xp_effective_policy_digest := digest "c"; xp_forge := "github"; xp_repository := "acme/app";
     xp_base_ref := "refs/heads/main"; xp_base_sha := sha "a"; xp_candidate_sha := sha "b";
     xp_tree_digest := digest "d"; xp_normalized_diff_digest := digest "e";
     xp_changed_paths := bs_of_list ["src/lib.rs"]; xp_required_local_checks := bs_of_list ["test"; "fmt"];
     xp_required_ci_contexts := bs_of_list ["ci/build"];
     xp_local_reviewer := Some (mkAuthorizedReviewer "p2" "profile"); xp_pull_request_reviewer := None;
     xp_pull_request_head_ref := "refs/heads/fix";
     xp_independently_observed_pull_request :=
       {| pre_repository := "acme/app"; pre_number := 7; pre_url := "https://github.com/acme/app/pull/7";
          pre_base_sha := sha "a"; pre_head_sha := sha "b"; pre_required_ci_contexts := bs_of_list ["ci/build"];
          pre_successful_ci_contexts := bs_of_list ["ci/build"] |} |}.

Definition signed : res SignedRunmillEvidenceBundle := SignedRunmillEvidenceBundle_sign statement at_ signer.

(** The bundle is accepted; with the implementer as the reviewer it is not. *)
Definition accepted (x : RunmillEvidenceExpectation) : bool :=
  is_ok (b ← signed; SignedRunmillEvidenceBundle_verify b x).

Lemma sample_accepted : accepted expectation = true.
Proof. vm_compute. reflexivity. Qed.

Lemma observation_early : is_ok (b ← signed; verify_signed_integrity b trusted 5) = false.
Proof. vm_compute. reflexivity. Qed.

Lemma runmill_evidence_signed_witness :
  ∃ b, signed = Ok b ∧ manifest_complete (st_predicate statement) ∧
    verify_signed_integrity b expired 50 ≠ Ok tt.
Proof.
  assert (is_ok (b ← signed; screened b ;; verify_signed_integrity b trusted 50) = true) as Hok by (vm_compute; reflexivity).
  destruct signed as [b| |] eqn:E; [|discriminate Hok..]. cbn [mbind res_bind] in Hok.
  destruct (screened b) as [[]| |] eqn:Es; [|discriminate Hok..]. cbn [mbind res_bind] in Hok.
  destruct (runmill_evidence_signed statement at_ signer b E Es) as [_ Hv].
  exists b. split; [reflexivity|]. split.
  - apply is_ok_unit in Hok. apply (Hv trusted 50 eq_refl) in Hok as (_ & _ & _ & Hm). exact Hm.
  - intros F. apply (Hv expired 50 eq_refl) in F as (_ & _ & (t & Ht & Hw & _) & _).
    vm_compute in Ht. injection Ht as <-. simpl in Hw. lia.
Defined.
End Sample.
