(* ===== verification/TerminalEvidence.v ===== *)
(** The evidence of how a run ended, [src/src/contracts/asf_terminal_evidence.rs]:
    an in-toto statement that Runmill signs for every terminal phase, its parser
    with the checks inside the document, the integrity of the wire form and the
    comparison with what ASF expects of the run.

    [TerminalBundleJson] and [ToValue] stand for serde.  [preceding_event_count + 1]
    is computed on 64 bits; what it does at the largest count depends on the build
    ([Build]): with overflow checks, as in [cargo build] and [cargo test], it panics;
    without, as in the release build of the [Dockerfile], it wraps to 0. *)

From Stdlib Require Import ZArith Lia Ascii.
From stdpp Require Import base tactics option strings pretty numbers list gmap.
From S2P Require Import Prelude RustStr RustOrd Ids Crypto Security RunmillOrder RunmillEvidence.

Definition ASF_TERMINAL_EVIDENCE_PREDICATE_SCHEMA : string := "asf.terminal-evidence/v1".
Definition ASF_SIGNED_TERMINAL_EVIDENCE_SCHEMA : string := "asf.signed-terminal-evidence/v1".
Definition ASF_TERMINAL_EVIDENCE_PREDICATE_TYPE : string :=
  "https://runmill.dev/attestations/asf-terminal-evidence/v1".
Definition ASF_TERMINAL_IN_TOTO_STATEMENT_V1 : string := "https://in-toto.io/Statement/v1".

Record AsfTerminalEvidenceRun := mkTerminalRun {
  tn_run_id : string;
  tn_work_order_id : string;
  tn_attempt_id : string;
  tn_terminal_phase : string;
  tn_terminal_event_seq : Z
}.

Record AsfTerminalEvidenceSignatureVerification := mkTerminalVerification {
  tv_verified : bool;
  tv_key_id : string;
  tv_algorithm : string
}.

Record AsfTerminalEvidenceAdmission := mkTerminalAdmission {
  ta_work_order_envelope_digest : string;
  ta_work_order_payload_digest : string;
  ta_effective_policy_digest : string;
  ta_work_order_envelope : Value;
  ta_signature_verification : AsfTerminalEvidenceSignatureVerification;
  ta_effective_policy : Value
}.

Record AsfTerminalEvidenceSource := mkTerminalSource {
  tc_repository : string;
  tc_base_sha : string;
  tc_candidate_sha : option string;
  tc_subject_kind : string;
  tc_subject_sha : string
}.

Record AsfTerminalStopEvidence := mkTerminalStop {
  tp_code : string;
  tp_summary : string;
  tp_interrupted_phase : string;
  tp_retry_disposition : string;
  tp_required_actor : string;
  tp_required_action : string;
  tp_evidence_refs : list string
}.

Record AsfTerminalEvidenceBudget := mkTerminalBudget {
  tb_wall_seconds_limit : Z;
  tb_max_cost_usd : f64;
  tb_max_agent_invocations : Z;
  tb_max_fix_iterations : Z;
  tb_observed_fix_iterations : Z;
  tb_evidence_refs : list string;
  tb_provider_usage : Value
}.

Record AsfTerminalEvidenceTiming := mkTerminalTiming {
  tt_admitted_at : string;
  tt_terminal_evidence_at : string;
  tt_elapsed_ms : Z
}.

Record AsfTerminalEvidenceCleanup := mkTerminalCleanup {
  tl_intent_id : string;
  tl_intent_digest : string;
  tl_observation_digest : string;
  tl_identity_leases : string;
  tl_repository_lease : string;
  tl_workspace : string;
  tl_unresolved_effects : Z
}.

Record AsfTerminalEvidenceEvidence := mkTerminalRecords {
  te_preceding_event_count : Z;
  te_preceding_event_chain_digest : string;
  te_observations : list Value;
  te_events : list Value;
  te_delivery_bundle_digest : option string
}.

Record AsfTerminalEvidenceCancellation := mkTerminalCancellation {
  tx_request_id : string;
  tx_event_type : string;
  tx_requester_subject : string;
  tx_reason_digest : string;
  tx_mode : string;
  tx_grace_seconds : Z;
  tx_requested_at : string;
  tx_event_digest : string
}.

Record AsfTerminalEvidencePredicate := mkTerminalPredicate {
  tq_schema : string;
  tq_run : AsfTerminalEvidenceRun;
  tq_admission : AsfTerminalEvidenceAdmission;
  tq_source : AsfTerminalEvidenceSource;
  tq_stop : AsfTerminalStopEvidence;
  tq_cancellation : option AsfTerminalEvidenceCancellation;
  tq_budget : AsfTerminalEvidenceBudget;
  tq_side_effects : Value;
  tq_timing : AsfTerminalEvidenceTiming;
  tq_cleanup : AsfTerminalEvidenceCleanup;
  tq_evidence : AsfTerminalEvidenceEvidence
}.

Record AsfTerminalEvidenceSubject := mkTerminalSubject {
  tj_name : string;
  tj_digest : list (string * Value)
}.

Record AsfTerminalEvidenceStatement := mkTerminalStatement {
  tz_type_field : string;
  tz_subject : list AsfTerminalEvidenceSubject;
  tz_predicate_type : string;
  tz_predicate : AsfTerminalEvidencePredicate
}.

Record SignedAsfTerminalEvidenceBundle := mkTerminalBundle {
  tg_schema : string;
  tg_key_id : string;
  tg_algorithm : string;
  tg_issued_at : string;
  tg_bundle_digest : string;
  tg_statement : AsfTerminalEvidenceStatement;
  tg_signature : string
}.

Record UnsignedAsfTerminalEvidenceView := mkTerminalView {
  tu_schema : string;
  tu_key_id : string;
  tu_algorithm : string;
  tu_issued_at : string;
  tu_bundle_digest : string;
  tu_statement : AsfTerminalEvidenceStatement
}.

Record AsfTerminalEvidenceExpectation := mkTerminalExpectation {
  ty_run_id : string;
  ty_work_order_id : string;
  ty_attempt_id : string;
  ty_terminal_phase : string;
  ty_terminal_event_seq : Z;
  ty_work_order_envelope_digest : string;
  ty_work_order_payload_digest : string;
  ty_effective_policy_digest : string;
  ty_admission_key_id : string;
  ty_source_repository : string;
  ty_source_base_sha : string;
  ty_source_candidate_sha : option string;
  ty_cleanup_observation_digest : string;
  ty_delivery_bundle_digest : option string
}.

(** [serde_json::from_value::<SignedAsfTerminalEvidenceBundle>]. *)
Class TerminalBundleJson := {
  terminal_bundle_from_value : Value → string + SignedAsfTerminalEvidenceBundle
}.

(** [expected '..', got '..']. *)
Definition got (what expected actual : string) : message :=
  [Lit what; Lit ": expected '"; Disp expected; Lit "', got '"; Disp actual; Lit "'"].

(** The message and the comparison of two texts. *)
Definition must_equal (what expected actual : string) : res unit :=
  bail_if (negb (bool_decide (actual = expected))) (Validation (got what expected actual)).

Definition option_text (o : option string) : string := default "None" o.

Section terminal.
  Context {hashing : Hashing} {ed : Ed25519} {keys : VerifyingKeyBytes} {rfc3339 : Rfc3339}.
  Context {bundle_json : TerminalBundleJson} {value_jcs : Canonical Value}.
  Context {statement_value : ToValue AsfTerminalEvidenceStatement}.
  Context {view_value : ToValue UnsignedAsfTerminalEvidenceView}.

(** ** Inside the document *)

(** The document says in its subject what it says in its source. *)
Definition check_subject (s : AsfTerminalEvidenceSource) : res unit :=
  let expected_subject_kind := if is_none (tc_candidate_sha s) then "base" else "candidate" in
  let expected_subject_sha := default (tc_base_sha s) (tc_candidate_sha s) in
  must_equal "subject kind mismatch" expected_subject_kind (tc_subject_kind s) ;;
  must_equal "subject sha mismatch" expected_subject_sha (tc_subject_sha s).

Definition check_cleanup (c : AsfTerminalEvidenceCleanup) : res unit :=
  bail_if (negb (bool_decide (tl_identity_leases c = "released")))
    (Validation [Lit "cleanup identity_leases must be 'released'"]) ;;
  bail_if (negb (bool_decide (tl_repository_lease c = "released")))
    (Validation [Lit "cleanup repository_lease must be 'released'"]) ;;
  bail_if (negb (bool_decide (tl_workspace c = "removed")))
    (Validation [Lit "cleanup workspace must be 'removed'"]) ;;
  bail_if (negb (tl_unresolved_effects c =? 0))
    (Validation [Lit "cleanup unresolved_effects must be 0"]).

(** [num_milliseconds] of a difference in nanoseconds. *)
Definition num_milliseconds (d : Duration) : Z := Z.quot d 1000000.

Definition check_timing (issued_at : string) (t : AsfTerminalEvidenceTiming) : res unit :=
  bail_if (negb (bool_decide (issued_at = tt_terminal_evidence_at t)))
    (Validation [Lit "issued_at must equal timing.terminal_evidence_at: '"; Disp issued_at;
                 Lit "' vs '"; Disp (tt_terminal_evidence_at t); Lit "'"]) ;;
  admitted_at ← map_err (parse_from_rfc3339 (tt_admitted_at t))
    (λ e, Validation [Lit "invalid admitted_at timestamp: "; Disp e]);
  terminal_at ← map_err (parse_from_rfc3339 (tt_terminal_evidence_at t))
    (λ e, Validation [Lit "invalid terminal_evidence_at timestamp: "; Disp e]);
  let elapsed_millis := num_milliseconds (signed_duration_since terminal_at admitted_at) in
  bail_if ((elapsed_millis <? 0) || negb (elapsed_millis =? tt_elapsed_ms t))
    (Validation [Lit "elapsed_ms mismatch: expected "; FmtNum (tt_elapsed_ms t);
                 Lit ", calculated "; FmtNum elapsed_millis]).

(** [debug-assertions] and [overflow-checks] of the profile: on in [dev] and [test],
    off in [release]. *)
Class Build := { overflow_checks : bool }.

(** [a + b] on [u64]. *)
Definition u64_add `{Build} (a b : Z) : res Z :=
  if (a + b <=? u64_max) || negb overflow_checks then Ok ((a + b) mod 2 ^ 64) else Panic.

Definition check_bundle `{Build} (b : SignedAsfTerminalEvidenceBundle) : res unit :=
  let statement := tg_statement b in
  let p := tz_predicate statement in
  map_err (parse_from_rfc3339 (tg_issued_at b))
    (λ e, Validation [Lit "invalid issued_at RFC3339 timestamp: "; Disp e]) ≫= λ _,
  must_equal "invalid bundle schema" ASF_SIGNED_TERMINAL_EVIDENCE_SCHEMA (tg_schema b) ;;
  must_equal "invalid statement type" ASF_TERMINAL_IN_TOTO_STATEMENT_V1 (tz_type_field statement) ;;
  must_equal "invalid predicate type" ASF_TERMINAL_EVIDENCE_PREDICATE_TYPE (tz_predicate_type statement) ;;
  must_equal "invalid predicate schema" ASF_TERMINAL_EVIDENCE_PREDICATE_SCHEMA (tq_schema p) ;;
  bail_if (negb (count (tz_subject statement) =? 1))
    (Validation [Lit "statement must have exactly one subject, got ";
                 FmtNum (count (tz_subject statement))]) ;;
  subject ← expect (tz_subject statement !! 0%nat);
  bail_if (negb (starts_with "asf-run:" (tj_name subject)))
    (Validation [Lit "subject name must start with 'asf-run:'"]) ;;
  bail_if (negb (existsb (λ f, bool_decide (f.1 = "sha1")) (tj_digest subject)))
    (Validation [Lit "subject digest must contain sha1 field"]) ;;
  expected_seq ← u64_add (te_preceding_event_count (tq_evidence p)) 1;
  bail_if (negb (expected_seq =? tn_terminal_event_seq (tq_run p)))
    (Validation [Lit "event count mismatch: preceding_event_count + 1 ("; FmtNum expected_seq;
                 Lit ") must equal terminal_event_seq ("; FmtNum (tn_terminal_event_seq (tq_run p));
                 Lit ")"]) ;;
  check_subject (tq_source p) ;;
  bail_if (bool_decide (tn_terminal_phase (tq_run p) = "CANCELLED") && is_none (tq_cancellation p))
    (Validation [Lit "cancellation evidence is required for CANCELLED phase"]) ;;
  bail_if (bool_decide (tn_terminal_phase (tq_run p) = "COMPLETED")
           && is_none (te_delivery_bundle_digest (tq_evidence p)))
    (Validation [Lit "delivery_bundle_digest is required for COMPLETED phase"]) ;;
  check_cleanup (tq_cleanup p) ;;
  check_timing (tg_issued_at b) (tq_timing p).

Definition terminal_from_json `{Build} (value : Value) : res SignedAsfTerminalEvidenceBundle :=
  reject_sensitive_fields value ;;
  bundle ← map_err (terminal_bundle_from_value value)
    (λ e, Validation [Lit "failed to parse terminal evidence bundle: "; Disp e]);
  check_bundle bundle ;; Ok bundle.

(** ** The signature *)

Definition unsigned_view (b : SignedAsfTerminalEvidenceBundle) : UnsignedAsfTerminalEvidenceView :=
  mkTerminalView (tg_schema b) (tg_key_id b) (tg_algorithm b) (tg_issued_at b) (tg_bundle_digest b)
    (tg_statement b).

Definition verify_wire_integrity_only (b : SignedAsfTerminalEvidenceBundle) (verifying_key_b64 : string)
  : res unit :=
  key ← decode_verifying_key verifying_key_b64;
  statement_json ← map_err (to_value (tg_statement b))
    (λ e, Serialization [Lit "failed to serialize statement: "; Disp e]);
  canonical_statement ← canonical_json statement_json;
  let calculated_statement_digest := sha256_digest canonical_statement in
  bail_if (negb (bool_decide (calculated_statement_digest = tg_bundle_digest b)))
    (Crypto [Lit "statement digest mismatch: expected '"; Disp (tg_bundle_digest b);
             Lit "', calculated '"; Disp calculated_statement_digest; Lit "'"]) ;;
  unsigned_json ← map_err (to_value (unsigned_view b))
    (λ e, Serialization [Lit "failed to serialize unsigned bundle: "; Disp e]);
  canonical_unsigned ← canonical_json unsigned_json;
  signature_str ← ok_or (strip_prefix "base64url:" (tg_signature b))
    (Crypto [Lit "signature must start with 'base64url:'"]);
  verify_signature key canonical_unsigned signature_str.

(** ** What is expected *)

Definition verify_expected_bindings (b : SignedAsfTerminalEvidenceBundle)
    (x : AsfTerminalEvidenceExpectation) : res unit :=
  let p := tz_predicate (tg_statement b) in
  let admission := tq_admission p in
  let verification := ta_signature_verification admission in
  bail_if (negb (tv_verified verification))
    (Crypto [Lit "admission signature_verification.verified must be true"]) ;;
  bail_if (negb (bool_decide (tv_algorithm verification = "EdDSA")))
    (Crypto [Lit "admission algorithm must be EdDSA, got '"; Disp (tv_algorithm verification); Lit "'"]) ;;
  bail_if (negb (bool_decide (tg_algorithm b = "EdDSA")))
    (Crypto [Lit "bundle algorithm must be EdDSA, got '"; Disp (tg_algorithm b); Lit "'"]) ;;
  bail_if (str_is_empty (tv_key_id verification))
    (Crypto [Lit "admission key_id must be non-empty"]) ;;
  must_equal "admission key_id mismatch" (ty_admission_key_id x) (tv_key_id verification) ;;
  must_equal "run_id mismatch" (ty_run_id x) (tn_run_id (tq_run p)) ;;
  must_equal "work_order_id mismatch" (ty_work_order_id x) (tn_work_order_id (tq_run p)) ;;
  must_equal "attempt_id mismatch" (ty_attempt_id x) (tn_attempt_id (tq_run p)) ;;
  must_equal "terminal_phase mismatch" (ty_terminal_phase x) (tn_terminal_phase (tq_run p)) ;;
  bail_if (negb (tn_terminal_event_seq (tq_run p) =? ty_terminal_event_seq x))
    (Validation [Lit "terminal_event_seq mismatch: expected "; FmtNum (ty_terminal_event_seq x);
                 Lit ", got "; FmtNum (tn_terminal_event_seq (tq_run p))]) ;;
  must_equal "work_order_envelope_digest mismatch" (ty_work_order_envelope_digest x)
    (ta_work_order_envelope_digest admission) ;;
  must_equal "work_order_payload_digest mismatch" (ty_work_order_payload_digest x)
    (ta_work_order_payload_digest admission) ;;
  must_equal "effective_policy_digest mismatch" (ty_effective_policy_digest x)
    (ta_effective_policy_digest admission) ;;
  must_equal "source repository mismatch" (ty_source_repository x) (tc_repository (tq_source p)) ;;
  must_equal "source base_sha mismatch" (ty_source_base_sha x) (tc_base_sha (tq_source p)) ;;
  bail_if (negb (bool_decide (tc_candidate_sha (tq_source p) = ty_source_candidate_sha x)))
    (Validation [Lit "source candidate_sha mismatch: expected ";
                 Dbg (option_text (ty_source_candidate_sha x)); Lit ", got ";
                 Dbg (option_text (tc_candidate_sha (tq_source p)))]) ;;
  must_equal "cleanup observation_digest mismatch" (ty_cleanup_observation_digest x)
    (tl_observation_digest (tq_cleanup p)) ;;
  bail_if (negb (bool_decide (te_delivery_bundle_digest (tq_evidence p) = ty_delivery_bundle_digest x)))
    (Validation [Lit "delivery_bundle_digest mismatch: expected ";
                 Dbg (option_text (ty_delivery_bundle_digest x)); Lit ", got ";
                 Dbg (option_text (te_delivery_bundle_digest (tq_evidence p)))]).
End terminal.

(** ** Facts *)

Section facts.
  Context {hashing : Hashing} {ed : Ed25519} {keys : VerifyingKeyBytes} {rfc3339 : Rfc3339}.
  Context {bundle_json : TerminalBundleJson} {value_jcs : Canonical Value}.
  Context {statement_value : ToValue AsfTerminalEvidenceStatement}.
  Context {view_value : ToValue UnsignedAsfTerminalEvidenceView} {build : Build}.
  Implicit Types (b : SignedAsfTerminalEvidenceBundle) (x : AsfTerminalEvidenceExpectation).

(** The document agrees with itself. *)
Record terminal_consistent b : Prop := {
  tk_schemas : tg_schema b = ASF_SIGNED_TERMINAL_EVIDENCE_SCHEMA ∧
    tz_type_field (tg_statement b) = ASF_TERMINAL_IN_TOTO_STATEMENT_V1 ∧
    tz_predicate_type (tg_statement b) = ASF_TERMINAL_EVIDENCE_PREDICATE_TYPE ∧
    tq_schema (tz_predicate (tg_statement b)) = ASF_TERMINAL_EVIDENCE_PREDICATE_SCHEMA;
  tk_subject : ∃ subject, tz_subject (tg_statement b) = [subject] ∧
    starts_with "asf-run:" (tj_name subject) = true ∧ "sha1" ∈ (tj_digest subject).*1;
  tk_sequence : let p := tz_predicate (tg_statement b) in
    tn_terminal_event_seq (tq_run p) = (te_preceding_event_count (tq_evidence p) + 1) mod 2 ^ 64 ∧
    (overflow_checks = true → te_preceding_event_count (tq_evidence p) < u64_max);
  tk_source : let s := tq_source (tz_predicate (tg_statement b)) in
    match tc_candidate_sha s with
    | Some sha => tc_subject_kind s = "candidate" ∧ tc_subject_sha s = sha
    | None => tc_subject_kind s = "base" ∧ tc_subject_sha s = tc_base_sha s
    end;
  tk_cancelled : tn_terminal_phase (tq_run (tz_predicate (tg_statement b))) = "CANCELLED" →
    is_Some (tq_cancellation (tz_predicate (tg_statement b)));
  tk_completed : tn_terminal_phase (tq_run (tz_predicate (tg_statement b))) = "COMPLETED" →
    is_Some (te_delivery_bundle_digest (tq_evidence (tz_predicate (tg_statement b))));
  tk_cleanup : let c := tq_cleanup (tz_predicate (tg_statement b)) in
    tl_identity_leases c = "released" ∧ tl_repository_lease c = "released" ∧ tl_workspace c = "removed" ∧
    tl_unresolved_effects c = 0;
  tk_timing : let t := tq_timing (tz_predicate (tg_statement b)) in
    tg_issued_at b = tt_terminal_evidence_at t ∧
    ∃ admitted terminal, parse_from_rfc3339 (tt_admitted_at t) = inr admitted ∧
      parse_from_rfc3339 (tg_issued_at b) = inr terminal ∧
      0 ≤ tt_elapsed_ms t ∧ num_milliseconds (terminal - admitted) = tt_elapsed_ms t
}.

Lemma must_equal_ok what expected actual : must_equal what expected actual = Ok tt ↔ actual = expected.
Proof. unfold must_equal. by rewrite bail_if_ok, negb_false_iff, bool_decide_eq_true. Qed.

Lemma check_subject_ok s : check_subject s = Ok tt ↔
  match tc_candidate_sha s with
  | Some sha => tc_subject_kind s = "candidate" ∧ tc_subject_sha s = sha
  | None => tc_subject_kind s = "base" ∧ tc_subject_sha s = tc_base_sha s
  end.
Proof. unfold check_subject. rewrite bind_unit_ok, !must_equal_ok. by destruct (tc_candidate_sha s). Qed.

Lemma check_timing_ok issued_at t : check_timing issued_at t = Ok tt ↔
  issued_at = tt_terminal_evidence_at t ∧
  ∃ admitted terminal, parse_from_rfc3339 (tt_admitted_at t) = inr admitted ∧
    parse_from_rfc3339 issued_at = inr terminal ∧
    0 ≤ tt_elapsed_ms t ∧ num_milliseconds (terminal - admitted) = tt_elapsed_ms t.
Proof.
  unfold check_timing. rewrite bind_unit_ok, bail_if_ok, negb_false_iff, bool_decide_eq_true.
  split; intros [<- H]; (split; [done|]).
  - apply bind_ok in H as (a & Ha & H). apply bind_ok in H as (z & Hz & H). rewrite map_err_ok in Ha, Hz.
    apply bail_if_ok in H. rewrite orb_false_iff, negb_false_iff, Z.ltb_ge, Z.eqb_eq in H.
    unfold signed_duration_since in H. exists a, z. split_and!; try done; [lia|tauto].
  - destruct H as (a & z & Ha & Hz & Hp & He). rewrite Ha, Hz. simpl. unfold signed_duration_since.
    apply bail_if_ok. rewrite He, orb_false_iff, negb_false_iff, Z.ltb_ge, Z.eqb_eq. done.
Qed.

Lemma u64_add_ok (a c n : Z) : u64_add a c = Ok n ↔
  n = (a + c) mod 2 ^ 64 ∧ (overflow_checks = true → a + c ≤ u64_max).
Proof.
  unfold u64_add. destruct (Z.leb_spec (a + c) u64_max) as [Hle|Hlt], overflow_checks; simpl;
    naive_solver lia.
Qed.

Lemma check_bundle_ok b : check_bundle b = Ok tt ↔ terminal_consistent b.
Proof.
  unfold check_bundle. split.
  - intros H. apply bind_ok in H as (t & Ht & H). rewrite !bind_unit_ok, !must_equal_ok, bail_if_ok in H.
    destruct H as (H1 & H2 & H3 & H4 & Hs & H). apply negb_false_iff, Z.eqb_eq in Hs. unfold count in Hs.
    destruct (tz_subject (tg_statement b)) as [|subject [|]] eqn:Hsub; simpl in Hs; try lia.
    cbn [lookup list_lookup expect mbind res_bind] in H. rewrite !bind_unit_ok, !bail_if_ok in H.
    destruct H as (Hn & Hd & H). apply bind_ok in H as (n & [-> Hc]%u64_add_ok & H).
    rewrite !bind_unit_ok, !bail_if_ok, check_subject_ok, check_timing_ok in H.
    destruct H as (Hseq & Hsrc & Hcan & Hcom & Hcl & Htime). unfold check_cleanup in Hcl.
    rewrite !bind_unit_ok, !bail_if_ok, !negb_false_iff, !bool_decide_eq_true, Z.eqb_eq in Hcl.
    rewrite negb_false_iff in *. rewrite existsb_true in Hd. setoid_rewrite bool_decide_eq_true in Hd.
    rewrite andb_false_iff, bool_decide_eq_false, is_none_false in Hcan.
    rewrite andb_false_iff, bool_decide_eq_false, is_none_false in Hcom. split; cbn zeta; try tauto.
    + exists subject. split_and!; try done. destruct Hd as (f & Hf & <-). apply list_elem_of_fmap. eauto.
    + rewrite Z.eqb_eq in Hseq. split; [done|]. intros Hchecks%Hc. lia.
  - intros [(H1 & H2 & H3 & H4) (subject & Hsub & Hn & Hd) [Hseq Hlt] Hsrc Hcan Hcom Hcl Htime]. cbn zeta in *.
    assert (∃ t, parse_from_rfc3339 (tg_issued_at b) = inr t) as [t Ht] by (destruct Htime as (_ & ? & t & _ & ? & _); eauto).
    rewrite Ht. cbn [map_err mbind res_bind]. rewrite !bind_unit_ok, !must_equal_ok, bail_if_ok.
    rewrite Hsub. cbn [lookup list_lookup expect mbind res_bind count length].
    split_and!; try done. rewrite !bind_unit_ok, !bail_if_ok, negb_false_iff. split; [done|]. split.
    { apply negb_false_iff, existsb_true. apply list_elem_of_fmap in Hd as (f & E & Hf). exists f.
      rewrite bool_decide_eq_true. done. }
    apply bind_ok. eexists. split; [apply u64_add_ok; split; [done|intros Hc%Hlt; lia]|].
    rewrite !bind_unit_ok, !bail_if_ok, check_subject_ok, check_timing_ok. unfold check_cleanup.
    rewrite !bind_unit_ok, !bail_if_ok, !negb_false_iff, !bool_decide_eq_true, !Z.eqb_eq.
    rewrite !andb_false_iff, !bool_decide_eq_false, !is_none_false. apply eq_sym in Hseq.
    destruct (decide (tn_terminal_phase (tq_run (tz_predicate (tg_statement b))) = "CANCELLED")),
      (decide (tn_terminal_phase (tq_run (tz_predicate (tg_statement b))) = "COMPLETED")); tauto.
Qed.

(** The document answers what is expected of the run. *)
Record terminal_answers b x : Prop := {
  tw_admission : let v := ta_signature_verification (tq_admission (tz_predicate (tg_statement b))) in
    tv_verified v = true ∧ tv_algorithm v = "EdDSA" ∧ tg_algorithm b = "EdDSA" ∧
    tv_key_id v ≠ "" ∧ tv_key_id v = ty_admission_key_id x;
  tw_run : let r := tq_run (tz_predicate (tg_statement b)) in
    tn_run_id r = ty_run_id x ∧ tn_work_order_id r = ty_work_order_id x ∧
    tn_attempt_id r = ty_attempt_id x ∧ tn_terminal_phase r = ty_terminal_phase x ∧
    tn_terminal_event_seq r = ty_terminal_event_seq x;
  tw_digests : let a := tq_admission (tz_predicate (tg_statement b)) in
    ta_work_order_envelope_digest a = ty_work_order_envelope_digest x ∧
    ta_work_order_payload_digest a = ty_work_order_payload_digest x ∧
    ta_effective_policy_digest a = ty_effective_policy_digest x;
  tw_source : let s := tq_source (tz_predicate (tg_statement b)) in
    tc_repository s = ty_source_repository x ∧ tc_base_sha s = ty_source_base_sha x ∧
    tc_candidate_sha s = ty_source_candidate_sha x;
  tw_cleanup : tl_observation_digest (tq_cleanup (tz_predicate (tg_statement b))) = ty_cleanup_observation_digest x;
  tw_delivery : te_delivery_bundle_digest (tq_evidence (tz_predicate (tg_statement b))) = ty_delivery_bundle_digest x
}.

Lemma str_is_empty_false s : str_is_empty s = false ↔ s ≠ "".
Proof. by destruct s. Qed.

Lemma verify_expected_bindings_ok b x : verify_expected_bindings b x = Ok tt ↔ terminal_answers b x.
Proof.
  unfold verify_expected_bindings.
  rewrite !bind_unit_ok, !must_equal_ok, !bail_if_ok, !negb_false_iff, !bool_decide_eq_true, Z.eqb_eq, str_is_empty_false.
  split; [intros H; destruct_and!; split; cbn zeta; tauto|].
  intros [H1 H2 H3 H4 H5 H6]. cbn zeta in *. tauto.
Qed.

Lemma verify_wire_integrity_ok b text : verify_wire_integrity_only b text = Ok tt ↔
  ∃ key statement view m m' signature, decode_verifying_key text = Ok key ∧
    to_value (tg_statement b) = inr statement ∧ canonical_json statement = Ok m ∧
    tg_bundle_digest b = sha256_digest m ∧ to_value (unsigned_view b) = inr view ∧
    canonical_json view = Ok m' ∧ tg_signature b = "base64url:" +:+ signature ∧
    verify_signature key m' signature = Ok tt.
Proof.
  unfold verify_wire_integrity_only. split.
  - intros H. apply bind_ok in H as (key & Hk & H). apply bind_ok in H as (st & Hst & H).
    apply map_err_ok in Hst. apply bind_ok in H as (m & Hm & H). apply bind_unit_ok in H as [Hd H].
    apply bail_if_ok, negb_false_iff, bool_decide_eq_true in Hd. apply bind_ok in H as (view & Hv & H).
    apply map_err_ok in Hv. apply bind_ok in H as (m' & Hm' & H). apply bind_ok in H as (sig & Hs & H).
    apply ok_or_ok, strip_prefix_spec in Hs. exists key, st, view, m, m', sig. split_and!; done.
  - intros (key & st & view & m & m' & sig & Hk & Hst & Hm & Hd & Hv & Hm' & Hs & H).
    rewrite Hk. cbn [mbind res_bind]. rewrite Hst. cbn [map_err mbind res_bind]. rewrite Hm. cbn [mbind res_bind].
    rewrite Hd, bool_decide_true by done. cbn [negb bail_if mbind res_bind]. rewrite Hv. cbn [map_err mbind res_bind].
    rewrite Hm'. cbn [mbind res_bind]. apply bind_ok. exists sig. split; [by apply ok_or_ok, strip_prefix_spec|done].
Qed.

(** C6. What the three checks of terminal evidence accept, exactly and in either
    build.  The parser returns a document exactly when it holds no sensitive field
    and passes these checks: the schemas are the known ones; there is one in-toto
    subject, named [asf-run:…] and with a [sha1] (neither is compared with the
    predicate, see [subject_not_bound]); the terminal sequence number is the number
    of events before it plus one, modulo [2^64] in the shipped build, which accepts
    sequence 0 after the largest count, while a build with overflow checks panics
    there; the predicate's own subject is the candidate if there is one and else the
    base; a cancelled run says who cancelled it, a completed one names its delivery;
    everything is released; and the times give the elapsed milliseconds.  The wire
    form is intact exactly when digest and signature are, and the bindings hold
    exactly when every expected field does. *)
Theorem terminal_evidence_exact :
  (∀ value b, terminal_from_json value = Ok b ↔
     reject_sensitive_fields value = Ok tt ∧ terminal_bundle_from_value value = inr b ∧
     terminal_consistent b) ∧
  (∀ b text, verify_wire_integrity_only b text = Ok tt ↔
     ∃ key statement view m m' signature, decode_verifying_key text = Ok key ∧
       to_value (tg_statement b) = inr statement ∧ canonical_json statement = Ok m ∧
       tg_bundle_digest b = sha256_digest m ∧ to_value (unsigned_view b) = inr view ∧
       canonical_json view = Ok m' ∧ tg_signature b = "base64url:" +:+ signature ∧
       verify_signature key m' signature = Ok tt) ∧
  (∀ b x, verify_expected_bindings b x = Ok tt ↔ terminal_answers b x).
Proof.
  split; [|split; [apply verify_wire_integrity_ok|apply verify_expected_bindings_ok]].
  intros value b. unfold terminal_from_json. rewrite bind_unit_ok, bind_ok. split.
  - intros (Hr & b' & Hb & H). apply bind_unit_ok in H as [Hc [= <-]]. apply map_err_ok in Hb.
    apply check_bundle_ok in Hc. done.
  - intros (Hr & Hb & Hc). split; [done|]. exists b. rewrite map_err_ok, bind_unit_ok, check_bundle_ok. done.
Qed.

(** ** What is not checked *)

(** The same bundle about another subject. *)
Definition with_subject (name : string) (digest : list (string * Value)) b : SignedAsfTerminalEvidenceBundle :=
  mkTerminalBundle (tg_schema b) (tg_key_id b) (tg_algorithm b) (tg_issued_at b) (tg_bundle_digest b)
    (mkTerminalStatement (tz_type_field (tg_statement b)) [mkTerminalSubject name digest]
       (tz_predicate_type (tg_statement b)) (tz_predicate (tg_statement b))) (tg_signature b).

(** Neither the run named by the in-toto subject nor its commit is compared with
    the predicate: any name with the prefix and any [sha1] will do. *)
Lemma subject_not_bound b x run sha :
  terminal_consistent b → terminal_answers b x →
  check_bundle (with_subject ("asf-run:" +:+ run) [("sha1", sha)] b) = Ok tt ∧
  verify_expected_bindings (with_subject ("asf-run:" +:+ run) [("sha1", sha)] b) x = Ok tt.
Proof.
  intros [] []. split.
  - apply check_bundle_ok. split; try done. eexists. split; [reflexivity|]. split; [|by left].
    by destruct run.
  - by apply verify_expected_bindings_ok.
Qed.

(** The largest event count makes the parser panic where overflow is checked. *)
Lemma event_count_overflow b t subject :
  overflow_checks = true →
  parse_from_rfc3339 (tg_issued_at b) = inr t →
  (tg_schema b = ASF_SIGNED_TERMINAL_EVIDENCE_SCHEMA ∧
   tz_type_field (tg_statement b) = ASF_TERMINAL_IN_TOTO_STATEMENT_V1 ∧
   tz_predicate_type (tg_statement b) = ASF_TERMINAL_EVIDENCE_PREDICATE_TYPE ∧
   tq_schema (tz_predicate (tg_statement b)) = ASF_TERMINAL_EVIDENCE_PREDICATE_SCHEMA) →
  tz_subject (tg_statement b) = [subject] → starts_with "asf-run:" (tj_name subject) = true →
  "sha1" ∈ (tj_digest subject).*1 →
  te_preceding_event_count (tq_evidence (tz_predicate (tg_statement b))) = u64_max →
  check_bundle b = Panic.
Proof.
  intros Hchecks Ht (H1 & H2 & H3 & H4) Hs Hn Hd Hc. unfold check_bundle, must_equal, u64_add.
  assert (∀ s : string, bool_decide (s = s) = true) as Hb by (intros; by apply bool_decide_true).
  rewrite Ht, H1, H2, H3, H4, Hs, Hc, !Hb, Hchecks.
  cbn [map_err mbind res_bind negb bail_if lookup list_lookup expect count length]. simpl count.
  rewrite Hn. cbn [negb bail_if mbind res_bind].
  rewrite (proj2 (existsb_true _ _)); [done|].
  apply list_elem_of_fmap in Hd as (f & E & Hf). exists f. rewrite bool_decide_eq_true. done.
Qed.
End facts.

(** ** A cancelled run *)

Module Sample.
Definition release : Build := {| overflow_checks := false |}.
Definition dev : Build := {| overflow_checks := true |}.
#[local] Existing Instance release.
#[local] Instance rfc3339 : Rfc3339 := {| parse_from_rfc3339 s := inr (len s * 1000000) |}.

Definition bundle (events seq : Z) (phase : string) : SignedAsfTerminalEvidenceBundle :=
  {| tg_schema := ASF_SIGNED_TERMINAL_EVIDENCE_SCHEMA; tg_key_id := "worker"; tg_algorithm := "EdDSA";
     tg_issued_at := "2026-01-01T00:00:00Z"; tg_bundle_digest := "d";
     tg_statement :=
       {| tz_type_field := ASF_TERMINAL_IN_TOTO_STATEMENT_V1;
          tz_subject := [mkTerminalSubject "asf-run:r1" [("sha1", VString "b")]];
          tz_predicate_type := ASF_TERMINAL_EVIDENCE_PREDICATE_TYPE;
          tz_predicate :=
            {| tq_schema := ASF_TERMINAL_EVIDENCE_PREDICATE_SCHEMA;
               tq_run := mkTerminalRun "r1" "w1" "a1" phase seq;
               tq_admission := mkTerminalAdmission "e" "p" "q" Null (mkTerminalVerification true "k" "EdDSA") Null;
               tq_source := mkTerminalSource "acme/app" "b" None "base" "b";
               tq_stop := mkTerminalStop "stop" "s" "RUNNING" "none" "nobody" "nothing" [];
               tq_cancellation := None; tq_budget := mkTerminalBudget 1 (Finite false 1 0) 1 1 0 [] Null;
               tq_side_effects := Null;
               tq_timing := mkTerminalTiming "" "2026-01-01T00:00:00Z" 20;
               tq_cleanup := mkTerminalCleanup "i" "d" "o" "released" "released" "removed" 0;
               tq_evidence := mkTerminalRecords events "c" [] [] None |} |};
     tg_signature := "base64url:s" |}.

Example failed_run_consistent : check_bundle (bundle 4 5 "FAILED") = Ok tt.
Proof. vm_compute. reflexivity. Qed.

Example cancelled_needs_request : is_err (check_bundle (bundle 4 5 "CANCELLED")) = true.
Proof. vm_compute. reflexivity. Qed.

Example completed_needs_delivery : is_err (check_bundle (bundle 4 5 "COMPLETED")) = true.
Proof. vm_compute. reflexivity. Qed.

Example overflow_panics : @check_bundle rfc3339 dev (bundle u64_max 0 "FAILED") = Panic.
Proof. vm_compute. reflexivity. Qed.

(** The shipped build accepts sequence 0 after the largest count. *)
Example overflow_wraps : @check_bundle rfc3339 release (bundle u64_max 0 "FAILED") = Ok tt.
Proof. vm_compute. reflexivity. Qed.
End Sample.
