(* ===== verification/Handlers.v ===== *)
(** The activity handlers of the reactor, [src/src/runtime/handlers.rs]: the
    production job types and their contract identities, the trait [JobHandler],
    the registry with its guards, and the claim routes and API capabilities that
    a registry grants.

    A handler is a record of what the trait's methods return; in every
    implementation all of them but [execute] are constant.  [execute] acts on a
    world [W], which stands for whatever the activity talks to.  The
    [BTreeMap] of the registry is a finite map whose entries are listed in the
    order of their keys.  [register] and [replace_unavailable] insert as their
    last action, so that a refused handler leaves the registry as it was. *)

From Stdlib Require Import ZArith Lia Ascii.
From stdpp Require Import base tactics option strings pretty numbers list gmap.
From S2P Require Import Prelude RustStr RustOrd Ids Security RunEvents Outcome JobQueue RunmillOrder Steps DeadLetter.

(** ** Job types and contract identities *)

Definition INTAKE_SYNC : string := "INTAKE_SYNC".
Definition ADVANCE_ACCEPTED_WORK_ITEM : string := "ADVANCE_ACCEPTED_WORK_ITEM".
Definition REQUEST_WORK_ITEM_CANCELLATION : string := "REQUEST_WORK_ITEM_CANCELLATION".
Definition APPLY_SIGNED_APPROVAL_DECISION : string := "APPLY_SIGNED_APPROVAL_DECISION".
Definition RECONCILE_WORKER : string := "RECONCILE_WORKER".
Definition OBSERVE_RUNMILL_RUN : string := "OBSERVE_RUNMILL_RUN".
Definition RETAIN_RUNMILL_TERMINAL_EVIDENCE : string := "RETAIN_RUNMILL_TERMINAL_EVIDENCE".
Definition VERIFY_EVIDENCE : string := "VERIFY_EVIDENCE".
Definition CLOSE_SOURCE : string := "CLOSE_SOURCE".

Definition PRODUCTION_JOB_TYPES : list string :=
  [ INTAKE_SYNC; ADVANCE_ACCEPTED_WORK_ITEM; REQUEST_WORK_ITEM_CANCELLATION;
    APPLY_SIGNED_APPROVAL_DECISION; RECONCILE_WORKER; OBSERVE_RUNMILL_RUN;
    RETAIN_RUNMILL_TERMINAL_EVIDENCE; VERIFY_EVIDENCE; CLOSE_SOURCE ].

Definition INTAKE_SYNC_ACTIVITY_CONTRACT_ID : string := "asf.activity/intake-sync/v1".
Definition ADVANCE_ACCEPTED_WORK_ITEM_ACTIVITY_CONTRACT_ID : string :=
  "asf.activity/advance-accepted-work-item/v1".
Definition REQUEST_WORK_ITEM_CANCELLATION_ACTIVITY_CONTRACT_ID : string :=
  "asf.activity/request-work-item-cancellation/v1".
Definition APPLY_SIGNED_APPROVAL_DECISION_ACTIVITY_CONTRACT_ID : string :=
  "asf.activity/apply-signed-approval-decision/v1".
Definition RECONCILE_WORKER_ACTIVITY_CONTRACT_ID : string := "asf.activity/reconcile-worker/v1".
Definition OBSERVE_RUNMILL_RUN_ACTIVITY_CONTRACT_ID : string :=
  "asf.activity/observe-runmill-run/v2".
Definition RETAIN_RUNMILL_TERMINAL_EVIDENCE_ACTIVITY_CONTRACT_ID : string :=
  "asf.activity/retain-runmill-terminal-evidence/v1".
Definition VERIFY_EVIDENCE_ACTIVITY_CONTRACT_ID : string := "asf.activity/verify-evidence/v1".
Definition CLOSE_SOURCE_ACTIVITY_CONTRACT_ID : string := "asf.activity/close-source/v1".

Definition production_activity_contract_id (job_type : string) : option string :=
  let named name := bool_decide (job_type = name) in
  if named INTAKE_SYNC then Some INTAKE_SYNC_ACTIVITY_CONTRACT_ID
  else if named ADVANCE_ACCEPTED_WORK_ITEM then Some ADVANCE_ACCEPTED_WORK_ITEM_ACTIVITY_CONTRACT_ID
  else if named REQUEST_WORK_ITEM_CANCELLATION then
    Some REQUEST_WORK_ITEM_CANCELLATION_ACTIVITY_CONTRACT_ID
  else if named APPLY_SIGNED_APPROVAL_DECISION then
    Some APPLY_SIGNED_APPROVAL_DECISION_ACTIVITY_CONTRACT_ID
  else if named RECONCILE_WORKER then Some RECONCILE_WORKER_ACTIVITY_CONTRACT_ID
  else if named OBSERVE_RUNMILL_RUN then Some OBSERVE_RUNMILL_RUN_ACTIVITY_CONTRACT_ID
  else if named RETAIN_RUNMILL_TERMINAL_EVIDENCE then
    Some RETAIN_RUNMILL_TERMINAL_EVIDENCE_ACTIVITY_CONTRACT_ID
  else if named VERIFY_EVIDENCE then Some VERIFY_EVIDENCE_ACTIVITY_CONTRACT_ID
  else if named CLOSE_SOURCE then Some CLOSE_SOURCE_ACTIVITY_CONTRACT_ID
  else None.

(** ** Strings and payloads *)

(** A character in UTF-8, and [str::trim] as a string. *)
Definition utf8 (c : Z) : list Z :=
  if c <? 128 then [c]
  else if c <? 2048 then [192 + Z.shiftr c 6; 128 + cont c]
  else if c <? 65536 then [224 + Z.shiftr c 12; 128 + cont (Z.shiftr c 6); 128 + cont c]
  else [240 + Z.shiftr c 18; 128 + cont (Z.shiftr c 12); 128 + cont (Z.shiftr c 6); 128 + cont c].

Fixpoint of_bytes (bs : list Z) : string :=
  match bs with [] => EmptyString | b :: bs => String (ascii_of_N (Z.to_N b)) (of_bytes bs) end.

Definition trim_str (s : string) : string := of_bytes (flat_map utf8 (trim s)).

(** [Value::as_str]. *)
Definition value_as_str (v : Value) : option string :=
  match v with VString s => Some s | _ => None end.

(** ** Handlers *)

Inductive HandlerReadiness := HReady | HUnavailable (reason : string).
#[global] Instance HandlerReadiness_eq_dec : EqDecision HandlerReadiness.
Proof. solve_decision. Defined.

Inductive JobClaimScope :=
| Unscoped
| ReconcileWorker (worker_id : WorkerId)
| CancellationWorker (worker_id : WorkerId)
| ObserveRunmillRunWorker (worker_id : WorkerId)
| RetainRunmillTerminalEvidenceWorker (worker_id : WorkerId).
#[global] Instance JobClaimScope_eq_dec : EqDecision JobClaimScope.
Proof. solve_decision. Defined.

Record ActivityControls := mkActivityControls { maintenance_mode : bool }.

Definition require_new_dispatch_permitted (c : ActivityControls) : res unit :=
  if maintenance_mode c
  then Err (ExternalUnavailable [Lit "new dispatch is disabled by maintenance mode"])
  else Ok tt.

Inductive ActivityOutcome :=
| Complete (result : option Value)
| TransactionCommitted
| RetryActivity (error : string) (retry_at : DateTime)
| DeadLetterCommitted.

(** [PRODUCTION_JOB_TYPES] that name a worker in their payload. *)
Definition is_canonical_worker_scoped_job_type (job_type : string) : bool :=
  mem job_type [ RECONCILE_WORKER; REQUEST_WORK_ITEM_CANCELLATION; OBSERVE_RUNMILL_RUN;
                 RETAIN_RUNMILL_TERMINAL_EVIDENCE ].

Definition unavailable_reason (job_type : string) : string :=
  let named name := bool_decide (job_type = name) in
  if named INTAKE_SYNC then "production Linear/GitHub intake adapter is not configured"
  else if named ADVANCE_ACCEPTED_WORK_ITEM then
    "production scheduler, ctxlane, Work Order, and Runmill dispatch activities are not configured"
  else if named REQUEST_WORK_ITEM_CANCELLATION then
    "production Runmill cancellation activity is not configured"
  else if named APPLY_SIGNED_APPROVAL_DECISION then
    "production signed approval authority activity is not configured"
  else if named RECONCILE_WORKER then
    "production Runmill worker reconciliation activity is not configured"
  else if named OBSERVE_RUNMILL_RUN then
    "production Runmill run-observation activity is not configured"
  else if named RETAIN_RUNMILL_TERMINAL_EVIDENCE then
    "production Runmill terminal evidence retention activity is not configured"
  else if named VERIFY_EVIDENCE then
    "production artifact, signer, and forge evidence verification activity is not configured"
  else if named CLOSE_SOURCE then
    "production evidence-bound source closure activity is not configured"
  else "activity is not configured".

Section handlers.
  Context {W : Type} `{UuidText}.

Record JobHandler := mkJobHandler {
  jh_job_type : string;
  jh_activity_contract_id : string;
  jh_readiness : HandlerReadiness;
  jh_claim_scope : JobClaimScope;
  jh_execute : ClaimedWorkflowJob → ActivityControls → call W Error ActivityOutcome
}.

Definition ready (h : JobHandler) : bool := bool_decide (jh_readiness h = HReady).

(** The worker that a scope names. *)
Definition names_worker (worker_id : WorkerId) (job_type : string) (job : ClaimedWorkflowJob) : bool :=
  bool_decide (cj_job_type job = job_type)
  && bool_decide (field "worker_id" (cj_payload job) ≫= value_as_str = Some (uuid_to_string worker_id)).

Definition JobClaimScope_matches (scope : JobClaimScope) (job : ClaimedWorkflowJob) : bool :=
  match scope with
  | Unscoped => true
  | ReconcileWorker worker_id => names_worker worker_id RECONCILE_WORKER job
  | CancellationWorker worker_id => names_worker worker_id REQUEST_WORK_ITEM_CANCELLATION job
  | ObserveRunmillRunWorker worker_id => names_worker worker_id OBSERVE_RUNMILL_RUN job
  | RetainRunmillTerminalEvidenceWorker worker_id =>
      names_worker worker_id RETAIN_RUNMILL_TERMINAL_EVIDENCE job
  end.

(** [UnavailableJobHandler]. *)
Definition UnavailableJobHandler (job_type activity_contract_id reason : string) : JobHandler :=
  {| jh_job_type := job_type; jh_activity_contract_id := activity_contract_id;
     jh_readiness := HUnavailable reason; jh_claim_scope := Unscoped;
     jh_execute := λ _ _, pure_call (Failure (ExternalUnavailable [Disp reason])) |}.

(** ** Guards of the registry *)

(** [(job_type, Ready, scope(worker_id)) if !worker_id.is_nil()]: [worker] is
    the worker of the scope, when it is of the right kind. *)
Definition require_worker (job_type : string) (worker : option WorkerId) : res unit :=
  match worker with
  | Some worker_id =>
      if negb (is_nil worker_id) then Ok tt
      else Err (Validation [Lit "a ready "; Lit job_type;
                            Lit " handler must declare one non-nil worker claim scope"])
  | None => Err (Validation [Lit "a ready "; Lit job_type;
                             Lit " handler must declare one non-nil worker claim scope"])
  end.

Definition validate_claim_scope (job_type : string) (h : JobHandler) : res unit :=
  let scope := jh_claim_scope h in
  if bool_decide (job_type = RECONCILE_WORKER) && ready h then
    require_worker RECONCILE_WORKER
      match scope with ReconcileWorker w => Some w | _ => None end
  else if bool_decide (job_type = REQUEST_WORK_ITEM_CANCELLATION) && ready h then
    require_worker REQUEST_WORK_ITEM_CANCELLATION
      match scope with CancellationWorker w => Some w | _ => None end
  else if bool_decide (job_type = OBSERVE_RUNMILL_RUN) && ready h then
    require_worker OBSERVE_RUNMILL_RUN
      match scope with ObserveRunmillRunWorker w => Some w | _ => None end
  else if bool_decide (job_type = RETAIN_RUNMILL_TERMINAL_EVIDENCE) && ready h then
    require_worker RETAIN_RUNMILL_TERMINAL_EVIDENCE
      match scope with RetainRunmillTerminalEvidenceWorker w => Some w | _ => None end
  else match scope with
       | Unscoped => Ok tt
       | _ => Err (Validation [Lit "worker claim scope is invalid for reactor job type ";
                               Disp job_type])
       end.

(** [is_valid_activity_contract_id] is the same function as in the queue. *)
Definition validate_activity_contract_id (job_type : string) (h : JobHandler) : res unit :=
  let activity_contract_id := jh_activity_contract_id h in
  bail_if (negb (is_valid_activity_contract_id activity_contract_id))
    (Validation [Lit "reactor handler for job type "; Disp job_type;
                 Lit " declares an invalid activity contract id "; Dbg activity_contract_id]) ;;
  match production_activity_contract_id job_type with
  | Some canonical =>
      bail_if (negb (bool_decide (activity_contract_id = canonical)))
        (Validation [Lit "reactor handler for production job type "; Disp job_type;
                     Lit " must declare the canonical activity contract id "; Dbg canonical;
                     Lit ", found "; Dbg activity_contract_id])
  | None => Ok tt
  end.

(** [HandlerRegistry]: its map from job types to implementations. *)
Local Abbreviation HandlerRegistry := (gmap string JobHandler).

Definition registry_new : HandlerRegistry := ∅.

Definition handler_is_ready (r : HandlerRegistry) (job_type : string) : bool :=
  match r !! job_type with Some h => ready h | None => false end.

Definition validate_activity_dependencies (r : HandlerRegistry) (job_type : string)
    (h : JobHandler) : res unit :=
  bail_if (bool_decide (job_type = VERIFY_EVIDENCE) && ready h
           && negb (handler_is_ready r CLOSE_SOURCE))
    (Validation [Lit "a ready VERIFY_EVIDENCE handler requires a ready CLOSE_SOURCE handler in the same registry"]).

(** ** Registration *)

Definition register (h : JobHandler) (r : HandlerRegistry) : res HandlerRegistry :=
  let job_type := trim_str (jh_job_type h) in
  bail_if (str_is_empty job_type)
    (Validation [Lit "reactor handler job type must be non-empty"]) ;;
  bail_if (is_some (r !! job_type))
    (Conflict [Lit "reactor handler for job type "; Disp job_type; Lit " is already registered"]) ;;
  validate_claim_scope job_type h ;;
  validate_activity_contract_id job_type h ;;
  validate_activity_dependencies r job_type h ;;
  Ok (<[job_type := h]> r).

Definition replace_unavailable (h : JobHandler) (r : HandlerRegistry) : res HandlerRegistry :=
  let job_type := trim_str (jh_job_type h) in
  bail_if (str_is_empty job_type)
    (Validation [Lit "reactor handler job type must be non-empty"]) ;;
  bail_if (negb (mem job_type PRODUCTION_JOB_TYPES))
    (Validation [Lit "reactor job type "; Disp job_type;
                 Lit " is not a recognized production activity"]) ;;
  bail_if (negb (ready h))
    (Validation [Lit "replacement reactor handler for "; Disp job_type; Lit " is not ready"]) ;;
  validate_claim_scope job_type h ;;
  validate_activity_contract_id job_type h ;;
  validate_activity_dependencies r job_type h ;;
  current ← ok_or (r !! job_type)
    (Conflict [Lit "reactor handler for production job type "; Disp job_type;
               Lit " was not pre-registered"]);
  bail_if (ready current)
    (Conflict [Lit "ready reactor handler for job type "; Disp job_type;
               Lit " cannot be replaced"]) ;;
  Ok (<[job_type := h]> r).

(** The loop of [fail_closed_production]; a type without a contract is a failed
    [expect]. *)
Fixpoint register_unavailable (job_types : list string) (r : HandlerRegistry)
  : res HandlerRegistry :=
  match job_types with
  | [] => Ok r
  | job_type :: rest =>
      match production_activity_contract_id job_type with
      | None => Panic
      | Some activity_contract_id =>
          r ← register (UnavailableJobHandler job_type activity_contract_id
                          (unavailable_reason job_type)) r;
          register_unavailable rest r
      end
  end.

Definition fail_closed_production : res HandlerRegistry :=
  register_unavailable PRODUCTION_JOB_TYPES registry_new.

(** ** Views of the registry *)

(** The entries in the order of the keys. *)
Definition handler_entries (r : HandlerRegistry) : list (string * JobHandler) :=
  sort_by_key fst (map_to_list r).

Definition handler (r : HandlerRegistry) (job_type : string) : option JobHandler := r !! job_type.

Definition known_job_types (r : HandlerRegistry) : list string := (handler_entries r).*1.

Definition ready_job_types (r : HandlerRegistry) : list string :=
  (List.filter (λ p, ready p.2) (handler_entries r)).*1.

Record ReadyClaimSet := mkReadyClaimSet {
  rc_unscoped : list (string * string);
  rc_reconcile_worker : list (string * string);
  rc_cancellation_worker : list (string * string);
  rc_observe_runmill_run_worker : list (string * string);
  rc_retain_runmill_terminal_evidence_worker : list (string * string)
}.

Definition no_claims : ReadyClaimSet := mkReadyClaimSet [] [] [] [] [].

Definition ReadyClaimSet_is_empty (c : ReadyClaimSet) : bool :=
  bool_decide (rc_unscoped c = []) && bool_decide (rc_reconcile_worker c = [])
  && bool_decide (rc_cancellation_worker c = []) && bool_decide (rc_observe_runmill_run_worker c = [])
  && bool_decide (rc_retain_runmill_terminal_evidence_worker c = []).

Definition observe_runmill_run_worker_ids (c : ReadyClaimSet) : list string :=
  (rc_observe_runmill_run_worker c).*1.

Definition retain_runmill_terminal_evidence_worker_ids (c : ReadyClaimSet) : list string :=
  (rc_retain_runmill_terminal_evidence_worker c).*1.

(** One turn of the loop of [ready_claim_set]. *)
Definition push_claim (c : ReadyClaimSet) (p : string * JobHandler) : ReadyClaimSet :=
  let '(job_type, h) := p in
  if negb (ready h) then c else
  let contract := jh_activity_contract_id h in
  match jh_claim_scope h with
  | Unscoped =>
      mkReadyClaimSet (rc_unscoped c ++ [(job_type, contract)]) (rc_reconcile_worker c)
        (rc_cancellation_worker c) (rc_observe_runmill_run_worker c)
        (rc_retain_runmill_terminal_evidence_worker c)
  | ReconcileWorker w =>
      mkReadyClaimSet (rc_unscoped c) (rc_reconcile_worker c ++ [(uuid_to_string w, contract)])
        (rc_cancellation_worker c) (rc_observe_runmill_run_worker c)
        (rc_retain_runmill_terminal_evidence_worker c)
  | CancellationWorker w =>
      mkReadyClaimSet (rc_unscoped c) (rc_reconcile_worker c)
        (rc_cancellation_worker c ++ [(uuid_to_string w, contract)])
        (rc_observe_runmill_run_worker c) (rc_retain_runmill_terminal_evidence_worker c)
  | ObserveRunmillRunWorker w =>
      mkReadyClaimSet (rc_unscoped c) (rc_reconcile_worker c) (rc_cancellation_worker c)
        (rc_observe_runmill_run_worker c ++ [(uuid_to_string w, contract)])
        (rc_retain_runmill_terminal_evidence_worker c)
  | RetainRunmillTerminalEvidenceWorker w =>
      mkReadyClaimSet (rc_unscoped c) (rc_reconcile_worker c) (rc_cancellation_worker c)
        (rc_observe_runmill_run_worker c)
        (rc_retain_runmill_terminal_evidence_worker c ++ [(uuid_to_string w, contract)])
  end.

Definition ready_claim_set (r : HandlerRegistry) : ReadyClaimSet :=
  foldl push_claim no_claims (handler_entries r).

Definition known_job_type_contract_pairs (r : HandlerRegistry) : list (string * string) :=
  (λ p, (p.1, jh_activity_contract_id p.2)) <$> handler_entries r.

Definition scoped_timer_reject_job_types (r : HandlerRegistry) : list string :=
  (List.filter (λ p, is_canonical_worker_scoped_job_type p.1
                     || negb (bool_decide (jh_claim_scope p.2 = Unscoped))) (handler_entries r)).*1.

Definition unavailable_handlers (r : HandlerRegistry) : list (string * string) :=
  omap (λ p, match jh_readiness p.2 with
             | HReady => None
             | HUnavailable reason => Some (p.1, reason)
             end) (handler_entries r).

(** ** Capabilities *)

Record ApiActivityCapabilities := mkApiActivityCapabilities { ac_ready_claims : ReadyClaimSet }.

Definition api_activity_capabilities (r : HandlerRegistry) : ApiActivityCapabilities :=
  mkApiActivityCapabilities (ready_claim_set r).

(** [routes.iter().any(|(key, contract)| …)]. *)
Definition has_route (key contract : string) (routes : list (string * string)) : bool :=
  existsb (λ p, bool_decide (p.1 = key) && bool_decide (p.2 = contract)) routes.

Definition supports_unscoped (c : ApiActivityCapabilities) (job_type contract : string) : bool :=
  has_route job_type contract (rc_unscoped (ac_ready_claims c)).

Definition supports_reconcile_worker (c : ApiActivityCapabilities) (worker_id : WorkerId)
    (contract : string) : bool :=
  has_route (uuid_to_string worker_id) contract (rc_reconcile_worker (ac_ready_claims c)).

Definition supports_cancellation_worker (c : ApiActivityCapabilities) (worker_id : WorkerId)
    (contract : string) : bool :=
  has_route (uuid_to_string worker_id) contract (rc_cancellation_worker (ac_ready_claims c)).

(** [worker_id.is_some_and(…)]. *)
Definition has_worker_route (worker_id : option string) (contract : string)
    (routes : list (string * string)) : bool :=
  match worker_id with Some w => has_route w contract routes | None => false end.

Definition supports_persisted_job_route (c : ApiActivityCapabilities) (job_type contract : string)
    (worker_id : option string) : bool :=
  let claims := ac_ready_claims c in
  if bool_decide (job_type = RECONCILE_WORKER) then
    has_worker_route worker_id contract (rc_reconcile_worker claims)
  else if bool_decide (job_type = REQUEST_WORK_ITEM_CANCELLATION) then
    has_worker_route worker_id contract (rc_cancellation_worker claims)
  else if bool_decide (job_type = OBSERVE_RUNMILL_RUN) then
    has_worker_route worker_id contract (rc_observe_runmill_run_worker claims)
  else if bool_decide (job_type = RETAIN_RUNMILL_TERMINAL_EVIDENCE) then
    has_worker_route worker_id contract (rc_retain_runmill_terminal_evidence_worker claims)
  else is_none worker_id && supports_unscoped c job_type contract.
End handlers.

#[global] Arguments JobHandler : clear implicits.
Abbreviation HandlerRegistry W := (gmap string (JobHandler W)).
