(* ===== verification/HandlerFacts.v ===== *)
(** What the handler registry guarantees: only guarded handlers enter it, ready
    ones are never exchanged, and the routes and capabilities it grants are
    those of its ready handlers. *)

From Stdlib Require Import ZArith Lia.
From stdpp Require Import base tactics option strings pretty numbers list gmap.
From S2P Require Import Prelude RustStr RustOrd Ids Security RunEvents Outcome JobQueue DeadLetter Handlers.

Section registry.
  Context {W : Type} `{UuidText}.
  Implicit Types (h : JobHandler W) (r : HandlerRegistry W).

Lemma elem_of_handler_entries r p : p ∈ handler_entries r ↔ r !! p.1 = Some p.2.
Proof. unfold handler_entries. rewrite elem_of_sort_by_key. destruct p. apply (elem_of_map_to_list (M:=gmap string)). Qed.

(** ** The invariant *)

(** The worker that a scope names, in the form of the payloads. *)
Definition scope_worker (s : JobClaimScope) : option string :=
  match s with
  | Unscoped => None
  | ReconcileWorker w | CancellationWorker w | ObserveRunmillRunWorker w
  | RetainRunmillTerminalEvidenceWorker w => Some (uuid_to_string w)
  end.

(** The job type that a scope is for, and its worker. *)
Definition scope_for (s : JobClaimScope) : option (string * WorkerId) :=
  match s with
  | Unscoped => None
  | ReconcileWorker w => Some (RECONCILE_WORKER, w)
  | CancellationWorker w => Some (REQUEST_WORK_ITEM_CANCELLATION, w)
  | ObserveRunmillRunWorker w => Some (OBSERVE_RUNMILL_RUN, w)
  | RetainRunmillTerminalEvidenceWorker w => Some (RETAIN_RUNMILL_TERMINAL_EVIDENCE, w)
  end.

(** A scoped handler is ready, for the job type of its scope and a real worker;
    an unscoped one is not ready for a type that names workers. *)
Definition scope_fits (job_type : string) h : Prop :=
  match scope_for (jh_claim_scope h) with
  | Some (t, w) => t = job_type ∧ ready h = true ∧ is_nil w = false
  | None => is_canonical_worker_scoped_job_type job_type = true → ready h = false
  end.

Record guarded (job_type : string) h : Prop := {
  gd_name : trim_str (jh_job_type h) = job_type ∧ job_type ≠ "";
  gd_valid : is_valid_activity_contract_id (jh_activity_contract_id h) = true;
  gd_canonical c : production_activity_contract_id job_type = Some c → jh_activity_contract_id h = c;
  gd_scope : scope_fits job_type h
}.

Record well_formed r : Prop := {
  wr_guarded job_type h : r !! job_type = Some h → guarded job_type h;
  wr_closure : handler_is_ready r VERIFY_EVIDENCE = true → handler_is_ready r CLOSE_SOURCE = true
}.

(** Every successful call that changes a registry. *)
Inductive registration : relation (HandlerRegistry W) :=
| registers h r r' : register h r = Ok r' → registration r r'
| replaces h r r' : replace_unavailable h r = Ok r' → registration r r'.

(** ** The guards *)

Lemma require_worker_ok t w u : require_worker t w = Ok u ↔ ∃ x, w = Some x ∧ is_nil x = false.
Proof.
  split.
  - destruct w as [x|]; simpl; [|done]. destruct (is_nil x) eqn:E; [done|]. by exists x.
  - intros (x & -> & E). destruct u. simpl. by rewrite E.
Qed.

Lemma validate_claim_scope_ok job_type h u :
  validate_claim_scope job_type h = Ok u → scope_fits job_type h.
Proof.
  unfold validate_claim_scope, scope_fits.
  destruct (ready h) eqn:R.
  - repeat (case_bool_decide; simpl;
      [rewrite require_worker_ok; intros (w & Hw & Hn); by destruct (jh_claim_scope h); simplify_eq/=|]).
    destruct (jh_claim_scope h); try done. intros _ M%mem_true. set_solver.
  - rewrite !andb_false_r. by destruct (jh_claim_scope h).
Qed.

Lemma validate_contract_ok job_type h u :
  validate_activity_contract_id job_type h = Ok u →
  is_valid_activity_contract_id (jh_activity_contract_id h) = true ∧
  ∀ c, production_activity_contract_id job_type = Some c → jh_activity_contract_id h = c.
Proof.
  unfold validate_activity_contract_id. rewrite bind_unit_ok, bail_if_ok.
  intros [Hv%negb_false_iff Hc]. split; [done|]. intros c E. rewrite E in Hc.
  apply bail_if_ok, negb_false_iff, bool_decide_eq_true in Hc. done.
Qed.

Lemma str_not_empty s : str_is_empty s = false ↔ s ≠ "".
Proof. by destruct s. Qed.

(** What an accepted handler satisfies, and where it goes. *)
Record accepted h r r' : Prop := {
  at_guarded : guarded (trim_str (jh_job_type h)) h;
  at_depends : trim_str (jh_job_type h) = VERIFY_EVIDENCE → ready h = true →
    handler_is_ready r CLOSE_SOURCE = true;
  at_free : handler_is_ready r (trim_str (jh_job_type h)) = false;
  at_result : r' = <[trim_str (jh_job_type h) := h]> r
}.

Lemma dependencies_ok r job_type h u :
  validate_activity_dependencies r job_type h = Ok u →
  job_type = VERIFY_EVIDENCE → ready h = true → handler_is_ready r CLOSE_SOURCE = true.
Proof.
  unfold validate_activity_dependencies. rewrite bail_if_ok. intros E -> R. rewrite R in E.
  rewrite bool_decide_true in E by done. by apply negb_false_iff in E.
Qed.

Lemma register_ok h r r' : register h r = Ok r' →
  accepted h r r' ∧ r !! trim_str (jh_job_type h) = None.
Proof.
  unfold register. rewrite !bind_unit_ok, !bail_if_ok, str_not_empty.
  intros (Hn & Hf & Hs%validate_claim_scope_ok & [Hv Hc]%validate_contract_ok & Hd & [= <-]).
  destruct (r !! _) eqn:E; [done|]. split; [|done].
  split; [by split|by eapply dependencies_ok| |done]. unfold handler_is_ready. by rewrite E.
Qed.

Lemma replace_unavailable_ok h r r' : replace_unavailable h r = Ok r' →
  accepted h r r' ∧ ready h = true ∧ trim_str (jh_job_type h) ∈ PRODUCTION_JOB_TYPES ∧
  ∃ old, r !! trim_str (jh_job_type h) = Some old ∧ ready old = false.
Proof.
  unfold replace_unavailable. rewrite !bind_unit_ok, !bail_if_ok, str_not_empty.
  intros (Hn & Hp%negb_false_iff & Hr%negb_false_iff & Hs%validate_claim_scope_ok
    & [Hv Hc]%validate_contract_ok & Hd & Hres).
  apply mem_true in Hp. apply bind_ok in Hres as (old & Ho & Hres).
  apply ok_or_ok in Ho. rewrite bind_unit_ok, bail_if_ok in Hres. destruct Hres as [Hold [= <-]].
  split; [|eauto]. split; [by split|by eapply dependencies_ok| |done].
  unfold handler_is_ready. by rewrite Ho.
Qed.

Lemma registration_accepted r r' : registration r r' → ∃ h, accepted h r r'.
Proof.
  destruct 1 as [h r r' Hr%register_ok|h r r' Hr%replace_unavailable_ok]; exists h; tauto.
Qed.

(** ** The invariant holds *)

Lemma ready_insert r t h t' :
  handler_is_ready (<[t := h]> r) t' = if decide (t = t') then ready h else handler_is_ready r t'.
Proof.
  unfold handler_is_ready. case_decide as E.
  - subst. by rewrite lookup_insert_eq.
  - by rewrite lookup_insert_ne.
Qed.

Lemma accepted_well_formed h r r' : accepted h r r' → well_formed r → well_formed r'.
Proof.
  intros [Hg Hd Hf ->] [Hw Hc]. split.
  - intros t h'. destruct (decide (trim_str (jh_job_type h) = t)) as [<-|Hne].
    + rewrite lookup_insert_eq. by intros [= <-].
    + rewrite lookup_insert_ne by done. apply Hw.
  - rewrite !ready_insert. case_decide as E; case_decide as E'; try done.
    + eauto.
    + rewrite E' in Hf. intros Hv%Hc. congruence.
Qed.

Lemma new_well_formed : well_formed (registry_new (W:=W)).
Proof. split; [|done]. intros t h. unfold registry_new. by rewrite lookup_empty. Qed.

(** A ready handler stays, a known type stays known. *)
Lemma accepted_keeps h r r' : accepted h r r' →
  (∀ t g, r !! t = Some g → ready g = true → r' !! t = Some g) ∧
  (∀ t, is_Some (r !! t) → is_Some (r' !! t)).
Proof.
  intros [Hg Hd Hf ->]. split.
  - intros t g Ht Hr. destruct (decide (trim_str (jh_job_type h) = t)) as [<-|Hne].
    + unfold handler_is_ready in Hf. rewrite Ht in Hf. congruence.
    + by rewrite lookup_insert_ne.
  - intros t Ht. destruct (decide (trim_str (jh_job_type h) = t)) as [<-|Hne].
    + rewrite lookup_insert_eq. eauto.
    + by rewrite lookup_insert_ne.
Qed.

Lemma register_unavailable_registrations types r r' :
  register_unavailable types r = Ok r' → rtc registration r r'.
Proof.
  revert r. induction types as [|t types IH]; intros r; simpl; [by intros [= <-]|].
  destruct (production_activity_contract_id t); [|done].
  intros (r1 & Hr & Hrest)%bind_ok. eapply rtc_l; [|by apply IH]. by eapply registers.
Qed.

Lemma registrations_well_formed r r' : rtc registration r r' → well_formed r → well_formed r'.
Proof.
  induction 1 as [|r1 r2 r3 (h & Ha)%registration_accepted _ IH]; [done|].
  intros Hw. by eapply IH, accepted_well_formed.
Qed.

Lemma registrations_keep r r' : rtc registration r r' →
  (∀ t g, r !! t = Some g → ready g = true → r' !! t = Some g) ∧
  (∀ t, is_Some (r !! t) → is_Some (r' !! t)).
Proof.
  induction 1 as [|r1 r2 r3 (h & Ha)%registration_accepted _ [IH1 IH2]]; [done|].
  apply accepted_keeps in Ha as [K1 K2]. split; eauto.
Qed.

(** The daemon starts with every production type known and none ready. *)
Lemma fail_closed_starts : ∃ r, fail_closed_production = Ok r ∧
  (∀ t, t ∈ PRODUCTION_JOB_TYPES → is_Some (r !! t)) ∧ ready_job_types r = [] ∧
  length (known_job_types r) = length PRODUCTION_JOB_TYPES.
Proof.
  assert (match fail_closed_production (W:=W) with
          | Ok r => forallb (λ t, is_some (r !! t)) PRODUCTION_JOB_TYPES
                    && bool_decide (ready_job_types r = [])
                    && bool_decide (length (known_job_types r) = length PRODUCTION_JOB_TYPES)
          | _ => false
          end = true) as E by (vm_compute; reflexivity).
  destruct fail_closed_production as [r| |]; [|done..].
  apply andb_true_iff in E as [[F R%bool_decide_eq_true]%andb_true_iff K%bool_decide_eq_true].
  exists r. split_and!; try done. intros t Ht%list_elem_of_In.
  rewrite forallb_forall in F. apply F in Ht. by destruct (r !! t).
Qed.

(** ** Routes *)

Lemma claims_field (f : ReadyClaimSet → list (string * string))
    (g : string → JobHandler W → option string) l c p :
  (∀ c t h, f (push_claim c (t, h)) = f c ++
     match g t h with
     | Some k => if ready h then [(k, jh_activity_contract_id h)] else []
     | None => []
     end) →
  p ∈ f (foldl push_claim c l) ↔ p ∈ f c ∨
    ∃ t h, (t, h) ∈ l ∧ ready h = true ∧ g t h = Some p.1 ∧ jh_activity_contract_id h = p.2.
Proof.
  intros Hpush. revert c. induction l as [|[t h] l IH]; intros c; cbn [foldl].
  - split; [by left|]. intros [?|(t & h & Ht & _)]; [done|]. by apply elem_of_nil in Ht.
  - rewrite IH, Hpush, elem_of_app. destruct p as [k d]; simpl. split.
    + intros [[Hc|Hx]|(t' & h' & Ht & Hx)]; [by left| |].
      * destruct (g t h) as [k'|] eqn:G; [|by apply elem_of_nil in Hx].
        destruct (ready h) eqn:R; [|by apply elem_of_nil in Hx].
        apply list_elem_of_singleton in Hx as [= -> ->]. right. exists t, h. set_solver.
      * right. exists t', h'. set_solver.
    + intros [Hc|(t' & h' & [[= -> ->]|Ht]%elem_of_cons & R & G & E)]; [auto| |].
      * left. right. rewrite G, R, E. set_solver.
      * right. exists t', h'. naive_solver.
Qed.

(** The ready handlers that serve a job type for a worker. *)
Definition serves r (job_type contract : string) (worker : option string) : Prop :=
  ∃ h, r !! job_type = Some h ∧ ready h = true ∧ jh_activity_contract_id h = contract ∧
       scope_worker (jh_claim_scope h) = worker.

Lemma scope_worker_for s : scope_worker s = (λ p, uuid_to_string p.2) <$> scope_for s.
Proof. by destruct s. Qed.

Lemma has_route_true k d l : has_route k d l = true ↔ (k, d) ∈ l.
Proof.
  unfold has_route. rewrite existsb_exists. setoid_rewrite <-list_elem_of_In. split.
  - intros ([k' d'] & Hin & [E1%bool_decide_eq_true E2%bool_decide_eq_true]%andb_true_iff).
    simpl in *. by subst.
  - intros Hin. exists (k, d). by rewrite !bool_decide_true.
Qed.

(** The routes of one kind of scope. *)
Definition scope_route (job_type : string) (t : string) h : option string :=
  match scope_for (jh_claim_scope h) with
  | Some (t', w) => if bool_decide (t' = job_type) then Some (uuid_to_string w) else None
  | None => None
  end.

Lemma scoped_field f job_type r w d :
  (∀ c t h, f (push_claim c (t, h)) = f c ++
     match scope_route job_type t h with
     | Some k => if ready h then [(k, jh_activity_contract_id h)] else []
     | None => []
     end) →
  f no_claims = [] → well_formed r →
  (w, d) ∈ f (ready_claim_set r) ↔ serves r job_type d (Some w).
Proof.
  intros Hpush H0 [Hg _]. unfold ready_claim_set.
  rewrite (claims_field f (scope_route job_type)), H0 by done. unfold serves, scope_route. split.
  - intros [Hn|(t & h & Ht%elem_of_handler_entries & R & Hs & E)]; [by apply elem_of_nil in Hn|].
    simpl in *. apply Hg in Ht as Hh. destruct Hh as [_ _ _ Hfit]. unfold scope_fits in Hfit.
    destruct (scope_for (jh_claim_scope h)) as [[t' x]|] eqn:Es; [|done].
    case_bool_decide; simplify_eq. destruct Hfit as [-> _]. exists h.
    by rewrite scope_worker_for, Es.
  - intros (h & Ht & R & E & Hs). right. exists job_type, h. rewrite elem_of_handler_entries.
    split_and!; [done..| |done]. apply Hg in Ht as [_ _ _ Hfit]. unfold scope_fits in Hfit.
    rewrite scope_worker_for in Hs. destruct (scope_for (jh_claim_scope h)) as [[t' x]|]; [|done].
    destruct Hfit as [-> _]. rewrite bool_decide_true by done. by simplify_eq/=.
Qed.

Lemma unscoped_field r t d :
  (t, d) ∈ rc_unscoped (ready_claim_set r) ↔ serves r t d None.
Proof.
  unfold ready_claim_set.
  rewrite (claims_field rc_unscoped
    (λ t h, match jh_claim_scope h with Unscoped => Some t | _ => None end)).
  2: { intros c t' h. unfold push_claim. destruct (jh_claim_scope h), (ready h); simpl;
       by rewrite ?app_nil_r. }
  unfold serves. split.
  - intros [Hn|(t' & h & Ht%elem_of_handler_entries & R & Hs & E)]; [by apply elem_of_nil in Hn|].
    exists h. destruct (jh_claim_scope h) eqn:Es; by simplify_eq/=.
  - intros (h & Ht & R & E & Hs). right. exists t, h. rewrite elem_of_handler_entries.
    by destruct (jh_claim_scope h).
Qed.

(** The job types that name workers are served for a worker only, the others
    for none. *)
Lemma serves_worker r t d w : well_formed r → serves r t d w →
  is_canonical_worker_scoped_job_type t = is_some w.
Proof.
  intros [Hg _] (h & [_ _ _ Hfit]%Hg & R & E & <-). unfold scope_fits in Hfit.
  rewrite scope_worker_for. destruct (scope_for (jh_claim_scope h)) as [[t' x]|] eqn:Es; simpl.
  - destruct Hfit as [<- _]. destruct (jh_claim_scope h); by simplify_eq/=.
  - destruct (is_canonical_worker_scoped_job_type t); [|done].
    rewrite Hfit in R by done. done.
Qed.

Lemma canonical_types t : is_canonical_worker_scoped_job_type t = true ↔
  t = RECONCILE_WORKER ∨ t = REQUEST_WORK_ITEM_CANCELLATION ∨ t = OBSERVE_RUNMILL_RUN ∨
  t = RETAIN_RUNMILL_TERMINAL_EVIDENCE.
Proof. unfold is_canonical_worker_scoped_job_type. rewrite mem_true. set_solver. Qed.

Lemma worker_field f t r w d : well_formed r →
  (∀ c t' h, f (push_claim c (t', h)) = f c ++
     match scope_route t t' h with
     | Some k => if ready h then [(k, jh_activity_contract_id h)] else []
     | None => []
     end) →
  f no_claims = [] → is_canonical_worker_scoped_job_type t = true →
  has_worker_route w d (f (ready_claim_set r)) = true ↔ serves r t d w.
Proof.
  intros Hw Hpush H0 Hc. destruct w as [w|]; simpl.
  - by rewrite has_route_true, (scoped_field f t).
  - split; [done|]. intros Hs%serves_worker; [|done]. by rewrite Hc in Hs.
Qed.

(** The list of routes of a job type that names workers. *)
Definition routes_of (f : ReadyClaimSet → list (string * string)) (t : string) : Prop :=
  (f = rc_reconcile_worker ∧ t = RECONCILE_WORKER) ∨
  (f = rc_cancellation_worker ∧ t = REQUEST_WORK_ITEM_CANCELLATION) ∨
  (f = rc_observe_runmill_run_worker ∧ t = OBSERVE_RUNMILL_RUN) ∨
  (f = rc_retain_runmill_terminal_evidence_worker ∧ t = RETAIN_RUNMILL_TERMINAL_EVIDENCE).

Lemma push_route f t : routes_of f t →
  (∀ c t' (h : JobHandler W), f (push_claim c (t', h)) = f c ++
     match scope_route t t' h with
     | Some k => if ready h then [(k, jh_activity_contract_id h)] else []
     | None => []
     end) ∧ f no_claims = [] ∧ is_canonical_worker_scoped_job_type t = true.
Proof.
  intros [[-> ->]|[[-> ->]|[[-> ->]|[-> ->]]]]; (split; [|done]); intros c t' h;
    unfold push_claim, scope_route; destruct (jh_claim_scope h), (ready h); simpl;
    by rewrite ?app_nil_r.
Qed.

Lemma routes_of_serve f t r w d : well_formed r → routes_of f t →
  has_worker_route w d (f (ready_claim_set r)) = true ↔ serves r t d w.
Proof. intros Hw (Hp & H0 & Hc)%push_route. by apply worker_field. Qed.

(** Capabilities name exactly the routes that a ready handler serves. *)
Lemma capabilities_serve r job_type contract worker : well_formed r →
  supports_persisted_job_route (api_activity_capabilities r) job_type contract worker = true ↔
  serves r job_type contract worker.
Proof.
  intros Hw. unfold supports_persisted_job_route, api_activity_capabilities. simpl.
  case_bool_decide as E1; [|case_bool_decide as E2; [|case_bool_decide as E3;
    [|case_bool_decide as E4]]].
  1-4: subst; apply routes_of_serve; [done|unfold routes_of; naive_solver].
  unfold supports_unscoped. simpl. destruct worker as [w|]; simpl.
  - split; [done|]. intros Hs%serves_worker; [|done]. apply canonical_types in Hs. naive_solver.
  - by rewrite has_route_true, unscoped_field.
Qed.

(** C23. The daemon's registry starts with every production job type known and
    none ready.  After any sequence of registrations and replacements each
    handler is installed under its own trimmed type with a valid contract
    identity, the canonical one for a production type; a ready handler of a
    worker-scoped type has the scope of that type for one real worker, and no
    other handler is scoped; evidence is verified only where sources can be
    closed; no production type is lost and no ready handler is exchanged; and
    the API capabilities of the registry support a persisted route exactly when
    a ready handler serves that type, contract and worker. *)
Theorem registry_sound :
  ∃ r0, fail_closed_production (W:=W) = Ok r0 ∧ ready_job_types r0 = [] ∧
  ∀ r, rtc registration r0 r →
    well_formed r ∧
    (∀ t, t ∈ PRODUCTION_JOB_TYPES → is_Some (r !! t)) ∧
    (∀ r' t h, rtc registration r r' → r !! t = Some h → ready h = true → r' !! t = Some h) ∧
    (∀ t contract worker,
       supports_persisted_job_route (api_activity_capabilities r) t contract worker = true ↔
       serves r t contract worker).
Proof.
  destruct fail_closed_starts as (r0 & E & Hk & Hr & _). exists r0. split_and!; [done..|].
  intros r Hrtc. assert (well_formed r) as Hw.
  { eapply registrations_well_formed; [done|]. eapply registrations_well_formed;
      [by eapply register_unavailable_registrations|apply new_well_formed]. }
  split_and!; [done| | |].
  - intros t Ht. eapply registrations_keep; [done|]. by apply Hk.
  - intros r' t h Hr' Ht R. by eapply registrations_keep.
  - intros t d w. by apply capabilities_serve.
Qed.

(** A job on a served route matches the scope of its handler. *)
Lemma serves_matches r job h d :
  well_formed r → r !! cj_job_type job = Some h →
  serves r (cj_job_type job) d
    (if is_canonical_worker_scoped_job_type (cj_job_type job)
     then field "worker_id" (cj_payload job) ≫= value_as_str else None) →
  JobClaimScope_matches (jh_claim_scope h) job = true ∧ ready h = true ∧
  jh_activity_contract_id h = d.
Proof.
  intros Hw Hh Hs. apply serves_worker in Hs as Hc; [|done].
  destruct Hs as (h' & Hh' & R & E & Hsw). assert (h' = h) as -> by congruence.
  split_and!; [|done..]. destruct Hw as [Hg _]. apply Hg in Hh as [_ _ _ Hfit].
  unfold scope_fits in Hfit. rewrite scope_worker_for in Hsw.
  destruct (is_canonical_worker_scoped_job_type (cj_job_type job)).
  - destruct (jh_claim_scope h); simpl in *; try done; destruct Hfit as [Ht _];
      unfold names_worker; rewrite <-Hsw, Ht; by rewrite !bool_decide_true.
  - by destruct (jh_claim_scope h).
Qed.
End registry.
