(* ===== verification/Timers.v ===== *)
(** Durable timers, [src/src/runtime/timers.rs]: due timers of ready routes
    become jobs of the queue, and a due timer that no installed handler may take
    stops the pass.

    The table [workflow_timers] is a finite map from the primary key.  The
    promotion is one transaction; the two inspections before it are statements
    of their own, so that the call takes the tables and the clock that each of
    the three finds.  [mint] gives, for each timer, the identifier of
    [Uuid::now_v7] and the clock of the database when the timer is promoted.
    The deferred triggers [workflow_timer_anchor_guard] and
    [workflow_timer_parent_anchor_guard] of the schema run at the commit; whether
    an anchor of another kind than the ones read here is live is the parameter
    [other_live]. *)

From Stdlib Require Import ZArith Lia Ascii.
From stdpp Require Import base tactics option strings pretty numbers list gmap.
From S2P Require Import Prelude RustStr RustOrd Ids Security RunEvents JobQueue Steps DeadLetter Handlers.

Record WorkflowTimerRow := mkWorkflowTimerRow {
  tw_tenant_id : Uuid;
  tw_workflow_instance_id : option Uuid;
  tw_work_item_id : option Uuid;
  tw_attempt_id : option Uuid;
  tw_workflow_key : string;
  tw_timer_key : string;
  tw_timer_type : string;
  tw_activity_contract_id : string;
  tw_payload : Value;
  tw_generation : Z;
  tw_due_at : DateTime;
  tw_status : string;
  tw_fired_at : option DateTime
}.

Record TimerTables := mkTimerTables {
  tt_timers : gmap Uuid WorkflowTimerRow;
  tt_queue : Queue;
  tt_workflows : gmap (Uuid * Uuid) WorkflowRow;
  tt_anchors : gmap (Uuid * Uuid) AnchorRow
}.

Section timers.
  Context `{UuidText} {pg : PgColumns} {dates : DateTimeText}.
  Context (other_live : Uuid * Uuid → AnchorRow → bool).

(** ** Statements *)

Definition timer_due (tenant_id : Uuid) (now : DateTime) (row : WorkflowTimerRow) : bool :=
  bool_decide (tw_tenant_id row = tenant_id)
  && bool_decide (tw_status row = "SCHEDULED") && (tw_due_at row <=? now).

(** [ORDER BY timer.due_at, timer.id]. *)
Definition timer_key (p : Uuid * WorkflowTimerRow) : Z * N := (tw_due_at p.2, p.1).

Definition timer_route (row : WorkflowTimerRow) (routes : list (string * string)) : bool :=
  has_route (tw_timer_type row) (tw_activity_contract_id row) routes.

Definition select_timers (p : WorkflowTimerRow → bool) (timers : gmap Uuid WorkflowTimerRow)
  : list (Uuid * WorkflowTimerRow) :=
  sort_by_key timer_key (List.filter (λ t, p t.2) (map_to_list timers)).

(** [UNKNOWN_OR_INCOMPATIBLE_DUE_TIMER_SQL]. *)
Definition unknown_or_incompatible_due_timer (tenant_id : Uuid) (known : list (string * string))
    (now : DateTime) (timers : gmap Uuid WorkflowTimerRow) : option WorkflowTimerRow :=
  snd <$> head (select_timers (λ t, timer_due tenant_id now t && negb (timer_route t known)) timers).

(** [SCOPED_DUE_TIMER_SQL]. *)
Definition scoped_due_timer (tenant_id : Uuid) (scoped_job_types : list string) (now : DateTime)
    (timers : gmap Uuid WorkflowTimerRow) : option WorkflowTimerRow :=
  snd <$> head (select_timers (λ t, timer_due tenant_id now t
                                    && mem (tw_timer_type t) scoped_job_types) timers).

(** [LOCK_DUE_TIMERS_SQL]. *)
Definition lock_due_timers (tenant_id : Uuid) (ready_routes : list (string * string)) (limit : Z)
    (now : DateTime) (locked : Uuid → bool) (timers : gmap Uuid WorkflowTimerRow)
  : list (Uuid * WorkflowTimerRow) :=
  take (Z.to_nat limit) (sort_by_key timer_key
    (List.filter (λ t, timer_due tenant_id now t.2 && timer_route t.2 ready_routes
                       && negb (locked t.1)) (map_to_list timers))).

Definition reject_scoped_due_timer (tenant_id : Uuid) (scoped_job_types : list string)
    (now : DateTime) (s : TimerTables) : res unit :=
  if bool_decide (scoped_job_types = []) then Ok tt else
  match scoped_due_timer tenant_id scoped_job_types now (tt_timers s) with
  | Some t => Err (Validation [Lit "scoped durable workflow timer type "; Dbg (tw_timer_type t);
                     Lit " cannot be promoted through the unscoped timer envelope"])
  | None => Ok tt
  end.

Definition reject_unknown_or_incompatible_due_timer (tenant_id : Uuid)
    (known_routes : list (string * string)) (now : DateTime) (s : TimerTables) : res unit :=
  match unknown_or_incompatible_due_timer tenant_id known_routes now (tt_timers s) with
  | Some t =>
      if existsb (λ p, bool_decide (p.1 = tw_timer_type t)) known_routes then
        Err (Validation [Lit "due workflow timer type "; Dbg (tw_timer_type t);
               Lit " has incompatible activity contract id "; Dbg (tw_activity_contract_id t);
               Lit "; timer remains scheduled"])
      else
        Err (Validation [Lit "unsupported due workflow timer type "; Dbg (tw_timer_type t);
               Lit "; timer remains scheduled"])
  | None => Ok tt
  end.

(** ** Promotion *)

Definition promotion_key (timer_id : Uuid) (generation : Z) : string :=
  "workflow-timer:" +:+ uuid_to_string timer_id +:+ ":" +:+ pretty generation.

Definition timer_envelope (timer_id : Uuid) (row : WorkflowTimerRow) : Value :=
  Object [ ("timer", Object
              [ ("id", VString (uuid_to_string timer_id));
                ("workflow_key", VString (tw_workflow_key row));
                ("timer_key", VString (tw_timer_key row));
                ("generation", Number (pretty (tw_generation row)));
                ("due_at", VString (datetime_to_string (tw_due_at row))) ]);
           ("payload", stored_value (tw_payload row)) ].

(** The row of [PROMOTE_JOB_INSERT_SQL], with the column defaults. *)
Definition promoted_job (tenant_id timer_id job_id : Uuid) (now : DateTime)
    (row : WorkflowTimerRow) : NewWorkflowJob :=
  {| nj_id := job_id; nj_tenant_id := tenant_id;
     nj_workflow_instance_id := tw_workflow_instance_id row;
     nj_work_item_id := tw_work_item_id row; nj_attempt_id := tw_attempt_id row;
     nj_job_type := tw_timer_type row;
     nj_activity_contract_id := tw_activity_contract_id row;
     nj_payload := timer_envelope timer_id row;
     nj_idempotency_key := promotion_key timer_id (tw_generation row);
     nj_priority := 0; nj_available_at := now; nj_max_attempts := 25 |}.

(** [SET status = 'FIRED', fired_at = clock_timestamp()]. *)
Definition fired_row (now : DateTime) (row : WorkflowTimerRow) : WorkflowTimerRow :=
  {| tw_tenant_id := tw_tenant_id row; tw_workflow_instance_id := tw_workflow_instance_id row;
     tw_work_item_id := tw_work_item_id row; tw_attempt_id := tw_attempt_id row;
     tw_workflow_key := tw_workflow_key row; tw_timer_key := tw_timer_key row;
     tw_timer_type := tw_timer_type row; tw_activity_contract_id := tw_activity_contract_id row;
     tw_payload := tw_payload row; tw_generation := tw_generation row;
     tw_due_at := tw_due_at row; tw_status := "FIRED"; tw_fired_at := Some now |}.

(** The update of the timer: the rows, when it affects one. *)
Definition fire_timer (tenant_id timer_id : Uuid) (generation : Z) (now : DateTime)
    (timers : gmap Uuid WorkflowTimerRow) : option (gmap Uuid WorkflowTimerRow) :=
  row ← timers !! timer_id;
  if bool_decide (tw_tenant_id row = tenant_id) && bool_decide (tw_status row = "SCHEDULED")
     && (tw_generation row =? generation)
  then Some (<[timer_id := fired_row now row]> timers) else None.

Definition promote_timer (tenant_id : Uuid) (mint : Uuid → Uuid * DateTime)
    (t : Uuid * WorkflowTimerRow) (s : TimerTables) : res TimerTables :=
  let '(timer_id, row) := t in
  let '(job_id, now) := mint timer_id in
  match insert_job now (promoted_job tenant_id timer_id job_id now row) (tt_queue s) with
  | Ok (q, inserted) =>
      bail_if (negb inserted)
        (Conflict [Lit "workflow timer "; FmtUuid timer_id; Lit " generation ";
                   FmtNum (tw_generation row); Lit " already has a job"]) ;;
      timers ← ok_or (fire_timer tenant_id timer_id (tw_generation row) now (tt_timers s))
        (Conflict [Lit "workflow timer "; FmtUuid timer_id;
                   Lit " generation changed while firing"]);
      Ok (mkTimerTables timers q (tt_workflows s) (tt_anchors s))
  | _ => Err (Persistence [Lit "enqueue fired workflow timer"])
  end.

(** The loop over the locked rows, with its counter. *)
Fixpoint promote_timers (tenant_id : Uuid) (mint : Uuid → Uuid * DateTime)
    (rows : list (Uuid * WorkflowTimerRow)) (promoted : Z) (s : TimerTables)
  : res (TimerTables * Z) :=
  match rows with
  | [] => Ok (s, promoted)
  | row :: rows =>
      s ← promote_timer tenant_id mint row s;
      promoted ← ok_or (checked_add u32_max promoted 1)
        (Persistence [Lit "promoted timer count overflowed"]);
      promote_timers tenant_id mint rows promoted s
  end.

(** ** The triggers at the commit *)

(** A job that can still run. *)
Definition job_live (now : DateTime) (row : JobRow) : bool :=
  mem (jb_status row) ["PENDING"; "RETRY"] && (jb_attempt_count row <? jb_max_attempts row)
  || bool_decide (jb_status row = "RUNNING")
     && match jb_lease row with Some (_, ends) => now <? ends | None => false end.

(** [asf_accountability_reference_is_live] for the anchor of [key], a tenant and
    a work item. *)
Definition anchor_live (now : DateTime) (s : TimerTables) (key : Uuid * Uuid) (a : AnchorRow)
  : bool :=
  let '(tenant_id, work_item_id) := key in
  let scheduled (row : WorkflowTimerRow) :=
    bool_decide (tw_tenant_id row = tenant_id) && bool_decide (tw_work_item_id row = Some work_item_id)
    && bool_decide (tw_status row = "SCHEDULED") in
  if bool_decide (an_anchor_type a = "WORKFLOW") then
    match tt_workflows s !! (tenant_id, an_reference_id a) with
    | Some wf =>
        bool_decide (wf_row_work_item_id wf = work_item_id)
        && mem (wf_row_state wf) ["ACTIVE"; "WAITING"]
        && is_none (an_wake_or_deadline_at a)
        && (existsb (λ p, bool_decide (jb_tenant_id p.2 = tenant_id)
                          && bool_decide (jb_work_item_id p.2 = Some work_item_id)
                          && bool_decide (jb_workflow_instance_id p.2 = Some (an_reference_id a))
                          && job_live now p.2) (map_to_list (q_jobs (tt_queue s)))
            || existsb (λ p, scheduled p.2
                             && bool_decide (tw_workflow_instance_id p.2 = Some (an_reference_id a)))
                 (map_to_list (tt_timers s)))
    | None => false
    end
  else if mem (an_anchor_type a) ["TIMER"; "RETRY"] then
    match tt_timers s !! an_reference_id a with
    | Some row =>
        scheduled row
        && (bool_decide (an_anchor_type a = "TIMER") || bool_decide (tw_timer_type row = "RETRY"))
        && bool_decide (Some (tw_due_at row) = an_wake_or_deadline_at a)
    | None => false
    end
  else other_live key a.

(** [asf_assert_referencing_accountability_anchors] and
    [asf_assert_workflow_anchor_for_child] for one updated timer. *)
Definition strands_anchor (now : DateTime) (s : TimerTables) (t : Uuid * WorkflowTimerRow) : bool :=
  existsb (λ p, bool_decide (p.1.1 = tw_tenant_id t.2)
                && (bool_decide (an_reference_id p.2 = t.1)
                    || bool_decide (an_anchor_type p.2 = "WORKFLOW")
                       && bool_decide (Some (an_reference_id p.2) = tw_workflow_instance_id t.2))
                && negb (anchor_live now s p.1 p.2)) (map_to_list (tt_anchors s)).

Definition commit_promotion (now : DateTime) (rows : list (Uuid * WorkflowTimerRow))
    (s : TimerTables) : res TimerTables :=
  bail_if (existsb (strands_anchor now s) rows) (Persistence [Lit "commit timer promotion"]) ;; Ok s.

(** What one pass finds: the tables and the clock of each statement. *)
Record Pass := mkPass {
  ps_unknown : TimerTables * DateTime;
  ps_scoped : TimerTables * DateTime;
  ps_tables : TimerTables;
  ps_locked : Uuid → bool;
  ps_now : DateTime;
  ps_commit : DateTime;
  ps_mint : Uuid → Uuid * DateTime
}.

Definition promote_due_timers (p : Pass) (tenant_id : Uuid)
    (known_routes ready_routes : list (string * string)) (scoped_job_types : list string)
    (limit : Z) : res (TimerTables * Z) :=
  let '(seen, now) := ps_unknown p in
  reject_unknown_or_incompatible_due_timer tenant_id known_routes now seen ;;
  let '(seen, now) := ps_scoped p in
  reject_scoped_due_timer tenant_id scoped_job_types now seen ;;
  if bool_decide (ready_routes = []) then Ok (ps_tables p, 0) else
  let s := ps_tables p in
  let rows := lock_due_timers tenant_id ready_routes limit (ps_now p) (ps_locked p) (tt_timers s) in
  '(s, promoted) ← promote_timers tenant_id (ps_mint p) rows 0 s;
  s ← commit_promotion (ps_commit p) rows s;
  Ok (s, promoted).
End timers.
