(* ===== verification/TimerFacts.v ===== *)
(** What the promotion of timers guarantees ([Timers]): each due timer of a ready
    route becomes exactly one job, nothing else changes, and nothing at all when
    a due timer may not be taken here. *)

From Stdlib Require Import ZArith Lia Ascii.
From stdpp Require Import base tactics option strings pretty numbers list gmap.
From S2P Require Import Prelude RustStr RustOrd Ids Security RunEvents JobQueue JobQueueFacts Steps ReservationFacts DeadLetter Handlers HandlerFacts Timers.

Section timers.
  Context `{UuidText} {pg : PgColumns} {dates : DateTimeText}.
  Context (other_live : Uuid * Uuid → AnchorRow → bool).

(** ** Selection *)

Lemma elem_of_lock tenant_id ready limit now locked timers id row :
  (id, row) ∈ lock_due_timers tenant_id ready limit now locked timers →
  timers !! id = Some row ∧ timer_due tenant_id now row = true ∧
  timer_route row ready = true ∧ locked id = false.
Proof.
  unfold lock_due_timers. intros (i & Hi & _)%elem_of_take.
  apply list_elem_of_lookup_2 in Hi. rewrite elem_of_sort_by_key, elem_of_filter_bool in Hi.
  destruct Hi as [Hm%elem_of_map_to_list Hp]. simpl in Hp.
  rewrite !andb_true_iff, negb_true_iff in Hp. tauto.
Qed.

Lemma lock_nodup tenant_id ready limit now locked timers :
  NoDup (lock_due_timers tenant_id ready limit now locked timers).*1.
Proof. apply selection_nodup. Qed.

Lemma lock_length tenant_id ready limit now locked timers : 0 ≤ limit →
  Z.of_nat (length (lock_due_timers tenant_id ready limit now locked timers)) ≤ limit.
Proof. intros Hl. unfold lock_due_timers. rewrite length_take. lia. Qed.

Lemma select_timers_none p timers : head (select_timers p timers) = None →
  ∀ id row, timers !! id = Some row → p row = false.
Proof.
  intros Hh id row Hrow. destruct (p row) eqn:E; [|done].
  assert ((id, row) ∈ select_timers p timers) as Hin.
  { unfold select_timers. rewrite elem_of_sort_by_key, elem_of_filter_bool.
    by rewrite elem_of_map_to_list. }
  destruct (select_timers p timers); [by apply elem_of_nil in Hin|done].
Qed.

Lemma no_unknown_timer tenant_id known now s u :
  reject_unknown_or_incompatible_due_timer tenant_id known now s = Ok u →
  ∀ id row, tt_timers s !! id = Some row → timer_due tenant_id now row = true →
    timer_route row known = true.
Proof.
  unfold reject_unknown_or_incompatible_due_timer, unknown_or_incompatible_due_timer.
  destruct (head _) eqn:E; simpl; [by case_match|]. intros _ id row Hrow Hd.
  pose proof (select_timers_none _ _ E _ _ Hrow) as Hp. simpl in Hp. rewrite Hd in Hp.
  by apply negb_false_iff in Hp.
Qed.

Lemma no_scoped_timer tenant_id scoped now s u :
  reject_scoped_due_timer tenant_id scoped now s = Ok u →
  ∀ id row, tt_timers s !! id = Some row → timer_due tenant_id now row = true →
    tw_timer_type row ∉ scoped.
Proof.
  unfold reject_scoped_due_timer, scoped_due_timer. case_bool_decide as E0.
  { subst. set_solver. }
  destruct (head _) eqn:E; simpl; [done|]. intros _ id row Hrow Hd Hin.
  pose proof (select_timers_none _ _ E _ _ Hrow) as Hp. simpl in Hp. rewrite Hd in Hp.
  apply mem_true in Hin. by rewrite Hin in Hp.
Qed.

(** ** One promotion *)

(** What promoting the timers [rows] makes of the tables. *)
Record promotes (tenant_id : Uuid) (mint : Uuid → Uuid * DateTime)
    (rows : list (Uuid * WorkflowTimerRow)) (s s' : TimerTables) : Prop := {
  pm_fired id row : (id, row) ∈ rows →
    tt_timers s' !! id = Some (fired_row (mint id).2 row);
  pm_job id row : (id, row) ∈ rows →
    row_by_key tenant_id (promotion_key id (tw_generation row)) (tt_queue s) = None ∧
    q_jobs (tt_queue s) !! (mint id).1 = None ∧
    q_jobs (tt_queue s') !! (mint id).1
      = Some (new_row (mint id).2 (promoted_job tenant_id id (mint id).1 (mint id).2 row));
  pm_timers id : id ∉ rows.*1 → tt_timers s' !! id = tt_timers s !! id;
  pm_jobs id : id ∉ ((λ t, (mint t.1).1) <$> rows) →
    q_jobs (tt_queue s') !! id = q_jobs (tt_queue s) !! id;
  pm_rest : q_effects (tt_queue s') = q_effects (tt_queue s) ∧
    tt_workflows s' = tt_workflows s ∧ tt_anchors s' = tt_anchors s
}.

Lemma promote_timer_ok tenant_id mint id row s s' :
  promote_timer tenant_id mint (id, row) s = Ok s' ↔
  row_by_key tenant_id (promotion_key id (tw_generation row)) (tt_queue s) = None ∧
  q_jobs (tt_queue s) !! (mint id).1 = None ∧
  (∃ cur, tt_timers s !! id = Some cur ∧ tw_tenant_id cur = tenant_id ∧
     tw_status cur = "SCHEDULED" ∧ tw_generation cur = tw_generation row ∧
     s' = mkTimerTables (<[id := fired_row (mint id).2 cur]> (tt_timers s))
            (mkQueue (<[(mint id).1 := new_row (mint id).2
                          (promoted_job tenant_id id (mint id).1 (mint id).2 row)]>
                        (q_jobs (tt_queue s))) (q_effects (tt_queue s)))
            (tt_workflows s) (tt_anchors s)).
Proof.
  unfold promote_timer, insert_job, fire_timer. destruct (mint id) as [job_id now]; simpl.
  destruct (row_by_key _ _ _); simpl; [naive_solver|].
  destruct (q_jobs (tt_queue s) !! job_id); simpl; [naive_solver|].
  destruct (tt_timers s !! id) as [cur|]; simpl; [|naive_solver].
  destruct (bool_decide (tw_tenant_id cur = tenant_id)) eqn:E1;
    [|apply bool_decide_eq_false in E1; simpl; naive_solver].
  destruct (bool_decide (tw_status cur = "SCHEDULED")) eqn:E2;
    [|apply bool_decide_eq_false in E2; simpl; naive_solver].
  destruct (tw_generation cur =? tw_generation row) eqn:E3; simpl;
    [|apply Z.eqb_neq in E3; naive_solver].
  apply bool_decide_eq_true in E1, E2. apply Z.eqb_eq in E3. naive_solver.
Qed.

(** *** Keys *)

Lemma row_by_key_none_iff tenant_id key q :
  row_by_key tenant_id key q = None ↔
  ∀ id row, q_jobs q !! id = Some row → ¬ (jb_tenant_id row = tenant_id ∧ jb_idempotency_key row = key).
Proof.
  split.
  - intros Hn id row Hrow [Ht Hk]. by eapply row_by_key_none.
  - intros Hno. unfold row_by_key. destruct (find _ _) as [[id row]|] eqn:E; [|done].
    apply find_some in E as [Hin Hk]. apply list_elem_of_In, elem_of_map_to_list in Hin.
    exfalso. apply (Hno id row Hin). unfold keyed in Hk. simpl in Hk.
    rewrite andb_true_iff, !bool_decide_eq_true in Hk. done.
Qed.

(** ** The loop *)

Lemma promote_timers_ok tenant_id mint rows n s s' m :
  NoDup rows.*1 → (∀ id row, (id, row) ∈ rows → tt_timers s !! id = Some row) →
  promote_timers tenant_id mint rows n s = Ok (s', m) →
  promotes tenant_id mint rows s s' ∧ m = n + Z.of_nat (length rows).
Proof.
  revert n s. induction rows as [|[id row] rows IH]; intros n s Hnd Hrows; simpl.
  { intros [= -> ->]. split; [|lia]. split; try done; intros ?? Hin; by apply elem_of_nil in Hin. }
  intros (s1 & H1 & H2)%bind_ok. apply bind_ok in H2 as (n1 & Hn%ok_or_ok & H2).
  apply checked_add_some in Hn as [_ ->].
  apply promote_timer_ok in H1 as (Hk & Hj & cur & Hc & _ & _ & _ & ->).
  assert (cur = row) as -> by (rewrite (Hrows id row) in Hc by set_solver; congruence).
  apply NoDup_cons in Hnd as [Hid Hnd].
  apply IH in H2 as [[Pf Pj Pt Pjs (Pe & Pw & Pa)] ->]; [|done|].
  2: { intros id' row' Hin. simpl. rewrite lookup_insert_ne; [by apply Hrows; set_solver|].
       intros <-. apply Hid. by apply (list_elem_of_fmap_2 fst _ (id, row')). }
  simpl in *. assert ((mint id).1 ∉ ((λ t, (mint t.1).1) <$> rows)) as Hfresh.
  { intros ((id' & row') & E & Hin)%list_elem_of_fmap. simpl in E.
    apply Pj in Hin as (_ & Hin & _). rewrite <-E, lookup_insert_eq in Hin. done. }
  split; [|lia]. split; simpl.
  - intros id' row' [[= -> ->]|Hin]%elem_of_cons; [|by apply Pf].
    rewrite Pt by done. by rewrite lookup_insert_eq.
  - intros id' row' [[= -> ->]|Hin]%elem_of_cons.
    + split_and!; [done|done|]. rewrite Pjs by done. by rewrite lookup_insert_eq.
    + destruct (Pj _ _ Hin) as (Kn & Jn & Js). rewrite lookup_insert_None in Jn.
      split_and!; [|tauto|done]. rewrite row_by_key_none_iff in Kn |- *. simpl in Kn.
      intros j r Hr. apply (Kn j). rewrite lookup_insert_ne; [done|]. intros <-. congruence.
  - intros id' Hn. rewrite Pt by set_solver. rewrite lookup_insert_ne by set_solver. done.
  - intros j Hn. rewrite Pjs by set_solver. rewrite lookup_insert_ne by set_solver. done.
  - done.
Qed.

(** Enough for the loop to succeed. *)
Record promotable (tenant_id : Uuid) (mint : Uuid → Uuid * DateTime)
    (rows : list (Uuid * WorkflowTimerRow)) (s : TimerTables) : Prop := {
  pr_timers id row : (id, row) ∈ rows → tt_timers s !! id = Some row ∧
    tw_tenant_id row = tenant_id ∧ tw_status row = "SCHEDULED";
  pr_keys id row : (id, row) ∈ rows →
    row_by_key tenant_id (promotion_key id (tw_generation row)) (tt_queue s) = None;
  pr_ids id row : (id, row) ∈ rows → q_jobs (tt_queue s) !! (mint id).1 = None;
  pr_nodup : NoDup rows.*1 ∧ NoDup ((λ t, (mint t.1).1) <$> rows)
}.

Lemma promotion_key_inj `{!UuidHyphenated} id id' g g' :
  promotion_key id g = promotion_key id' g' → id = id'.
Proof. unfold promotion_key. intros E%(inj (String.app "workflow-timer:")). apply uuid_colon_inj in E as [E _]. exact E. Qed.

Lemma promote_timers_total `{!UuidHyphenated} tenant_id mint rows n s :
  promotable tenant_id mint rows s → n + Z.of_nat (length rows) ≤ u32_max →
  ∃ s', promote_timers tenant_id mint rows n s = Ok (s', n + Z.of_nat (length rows)).
Proof.
  revert n s. induction rows as [|[id row] rows IH]; intros n s [Ht Hk Hi [Hn Hm]] Hl; cbn [promote_timers].
  { exists s. simpl. by rewrite Z.add_0_r. }
  destruct (Ht id row) as (Hrow & Htn & Hst); [set_solver|].
  apply NoDup_cons in Hn as [Hid Hn]. apply NoDup_cons in Hm as [Hmid Hm]. cbn [fst length] in Hid, Hmid, Hl.
  eassert (promote_timer tenant_id mint (id, row) s = Ok _) as ->.
  { apply promote_timer_ok. split_and!; [by apply Hk, elem_of_cons; left|by eapply Hi, elem_of_cons; left|].
    by exists row. }
  simpl. assert (checked_add u32_max n 1 = Some (n + 1)) as -> by (apply checked_add_some; lia).
  cbn [ok_or mbind res_bind].
  match goal with |- context [promote_timers _ _ _ _ ?s1] => destruct (IH (n + 1) s1) as [s' E] end;
    [|lia|exists s'; cbn [length];
     replace (n + Z.of_nat (S (length rows))) with (n + 1 + Z.of_nat (length rows)) by lia; exact E].
  assert (∀ id' row', (id', row') ∈ rows → id' ≠ id) as Hne.
  { intros id' row' Hin ->. apply Hid. by apply (list_elem_of_fmap_2 fst _ (id, row')). }
  split; simpl; [| | |done]; intros id' row' Hin; pose proof (Hne _ _ Hin) as Hx.
  - rewrite lookup_insert_ne by done. apply Ht. set_solver.
  - pose proof (Hk id' row' ltac:(set_solver)) as Hkn. rewrite row_by_key_none_iff in Hkn |- *.
    simpl. intros j r Hr [E1 E2]. apply lookup_insert_Some in Hr as [[_ <-]|[_ Hr]]; [|by eapply Hkn].
    simpl in E2. apply promotion_key_inj in E2. congruence.
  - rewrite lookup_insert_ne; [by eapply Hi, elem_of_cons; right|]. intros E. apply Hmid. rewrite E.
    by apply (list_elem_of_fmap_2 (λ t, (mint t.1).1) _ (id', row')).
Qed.

(** ** The pass *)

Lemma lock_best tenant_id ready limit now locked timers id row :
  timers !! id = Some row → timer_due tenant_id now row = true → timer_route row ready = true →
  locked id = false →
  let rows := lock_due_timers tenant_id ready limit now locked timers in
  (id, row) ∈ rows ∨
  length rows = Z.to_nat limit ∧ ∀ t, t ∈ rows → ole (timer_key t) (timer_key (id, row)).
Proof.
  intros Hrow Hd Hr Hl rows. unfold rows, lock_due_timers.
  set (l := sort_by_key timer_key _). assert ((id, row) ∈ l) as Hin.
  { unfold l. rewrite elem_of_sort_by_key, elem_of_filter_bool, elem_of_map_to_list. simpl.
    by rewrite Hd, Hr, Hl. }
  rewrite <-(take_drop (Z.to_nat limit) l), elem_of_app in Hin.
  destruct Hin as [Hin|Hin]; [by left|right]. split.
  - rewrite length_take. apply list_elem_of_lookup_1 in Hin as [i Hi].
    apply lookup_lt_Some in Hi. rewrite length_drop in Hi. lia.
  - intros t Ht. apply (sorted_take_drop (λ x y, ole (timer_key x) (timer_key y)) (Z.to_nat limit) l);
      [apply sort_by_key_sorted|done|done].
Qed.

(** The timers that a pass takes. *)
Definition taken (p : Pass) (tenant_id : Uuid) (ready : list (string * string)) (limit : Z)
  : list (Uuid * WorkflowTimerRow) :=
  if bool_decide (ready = []) then [] else
  lock_due_timers tenant_id ready limit (ps_now p) (ps_locked p) (tt_timers (ps_tables p)).

Lemma elem_of_taken p tenant_id ready limit id row : (id, row) ∈ taken p tenant_id ready limit →
  tt_timers (ps_tables p) !! id = Some row ∧ timer_due tenant_id (ps_now p) row = true ∧
  timer_route row ready = true ∧ ps_locked p id = false.
Proof.
  unfold taken. case_bool_decide; [intros Hin; by apply elem_of_nil in Hin|]. apply elem_of_lock.
Qed.

Lemma taken_nodup p tenant_id ready limit : NoDup (taken p tenant_id ready limit).*1.
Proof. unfold taken. case_bool_decide; [apply NoDup_nil_2|apply lock_nodup]. Qed.

Lemma timer_due_spec tenant_id now row : timer_due tenant_id now row = true ↔
  tw_tenant_id row = tenant_id ∧ tw_status row = "SCHEDULED" ∧ tw_due_at row ≤ now.
Proof.
  unfold timer_due. rewrite !andb_true_iff, !bool_decide_eq_true, Z.leb_le. tauto.
Qed.

(** A pass is its two inspections, the loop and the commit. *)
Lemma pass_spec p tenant_id known ready scoped limit r :
  promote_due_timers other_live p tenant_id known ready scoped limit = Ok r ↔
  reject_unknown_or_incompatible_due_timer tenant_id known (ps_unknown p).2 (ps_unknown p).1 = Ok tt ∧
  reject_scoped_due_timer tenant_id scoped (ps_scoped p).2 (ps_scoped p).1 = Ok tt ∧
  promote_timers tenant_id (ps_mint p) (taken p tenant_id ready limit) 0 (ps_tables p) = Ok r ∧
  existsb (strands_anchor other_live (ps_commit p) r.1) (taken p tenant_id ready limit) = false.
Proof.
  unfold promote_due_timers, taken, commit_promotion.
  destruct (ps_unknown p) as [s1 n1], (ps_scoped p) as [s2 n2]. rewrite !bind_unit_ok. simpl.
  case_bool_decide; simpl.
  - naive_solver.
  - rewrite bind_ok. split.
    + intros (H1 & H2 & [s' n'] & H3 & H4). split_and!; [done..| |].
      * apply bind_ok in H4 as (s3 & H4 & [= <-]). apply bind_unit_ok in H4 as [_ [= ->]]. done.
      * apply bind_ok in H4 as (s3 & H4 & [= <-]). apply bind_unit_ok in H4 as [H4 [= ->]].
        by apply bail_if_ok in H4.
    + intros (H1 & H2 & H3 & H4). split_and!; [done..|]. destruct r as [s' n'].
      exists (s', n'). split; [done|]. simpl in *. by rewrite H4.
Qed.

(** C24. A pass over the timers that returns has fired exactly the due, unlocked
    timers of a ready route, the earliest ones when the limit cuts them off, and
    reports their number.  Each of them is [FIRED] and has one new pending job
    with its own idempotency key, its type, contract and bindings and the
    envelope of its payload; no job had that key before, and no later selection
    takes the timer again.  Every other timer, job, effect and anchor is as it
    was, and no due timer that the inspections saw was of an unknown route or of
    a type that names workers. *)
Theorem timers_promoted_once p tenant_id known ready scoped limit s' n :
  0 ≤ limit →
  promote_due_timers other_live p tenant_id known ready scoped limit = Ok (s', n) →
  let rows := taken p tenant_id ready limit in
  promotes tenant_id (ps_mint p) rows (ps_tables p) s' ∧
  n = Z.of_nat (length rows) ∧ n ≤ limit ∧
  (∀ id row, tt_timers (ps_tables p) !! id = Some row →
     timer_due tenant_id (ps_now p) row = true → timer_route row ready = true →
     ps_locked p id = false →
     (id, row) ∈ rows ∨ n = limit ∧ ∀ t, t ∈ rows → ole (timer_key t) (timer_key (id, row))) ∧
  (∀ id row ready' limit' now' locked', (id, row) ∈ rows →
     id ∉ (lock_due_timers tenant_id ready' limit' now' locked' (tt_timers s')).*1) ∧
  (∀ id row, tt_timers (ps_unknown p).1 !! id = Some row →
     timer_due tenant_id (ps_unknown p).2 row = true → timer_route row known = true) ∧
  (∀ id row, tt_timers (ps_scoped p).1 !! id = Some row →
     timer_due tenant_id (ps_scoped p).2 row = true → tw_timer_type row ∉ scoped).
Proof.
  intros Hl (Hu & Hs & Hp & _)%pass_spec rows.
  apply promote_timers_ok in Hp as [Hp ->]; [|apply taken_nodup|].
  2: { intros id row Hin. by apply elem_of_taken in Hin as [Hin _]. }
  rewrite Z.add_0_l. split_and!; [done|done| | | |by eapply no_unknown_timer|by eapply no_scoped_timer].
  - unfold taken. case_bool_decide; [done|]. by apply lock_length.
  - intros id row Hrow Hd Hr Hk. unfold rows, taken. case_bool_decide as E.
    { subst. discriminate Hr. }
    destruct (lock_best tenant_id ready limit (ps_now p) (ps_locked p) (tt_timers (ps_tables p))
      id row) as [?|[El ?]]; [done..|by left|]. right. rewrite El. split; [lia|done].
  - intros id row ready' limit' now' locked' Hin ([id' row'] & -> & Hin')%list_elem_of_fmap.
    simpl in *. apply elem_of_lock in Hin' as (Hrow' & Hd & _). destruct Hp as [Hf _ _ _ _].
    rewrite (Hf _ _ Hin) in Hrow'. simplify_eq. by apply timer_due_spec in Hd as (_ & ? & _).
Qed.

(** ** When a pass succeeds *)

Lemma select_timers_empty p timers :
  (∀ id row, timers !! id = Some row → p row = false) → head (select_timers p timers) = None.
Proof.
  intros Hno. destruct (select_timers p timers) as [|[id row] l] eqn:E; [done|].
  assert ((id, row) ∈ select_timers p timers) as Hin by (rewrite E; set_solver).
  unfold select_timers in Hin. rewrite elem_of_sort_by_key, elem_of_filter_bool in Hin.
  destruct Hin as [Hin%elem_of_map_to_list Hp]. simpl in Hp. rewrite (Hno _ _ Hin) in Hp. done.
Qed.

(** The tables of a pass: nothing due that may not be taken, keys and
    identifiers not used yet, timers bound to the work item of their workflow,
    live anchors, and identifiers that name one row. *)
Record sound_pass (p : Pass) (tenant_id : Uuid) (known : list (string * string))
    (scoped : list string) : Prop := {
  so_known id row : tt_timers (ps_unknown p).1 !! id = Some row →
    timer_due tenant_id (ps_unknown p).2 row = true → timer_route row known = true;
  so_scoped id row : tt_timers (ps_scoped p).1 !! id = Some row →
    timer_due tenant_id (ps_scoped p).2 row = true → tw_timer_type row ∉ scoped;
  so_keys id row : tt_timers (ps_tables p) !! id = Some row → tw_status row = "SCHEDULED" →
    row_by_key tenant_id (promotion_key id (tw_generation row)) (tt_queue (ps_tables p)) = None;
  so_fresh id : q_jobs (tt_queue (ps_tables p)) !! (ps_mint p id).1 = None;
  so_distinct id id' : (ps_mint p id).1 = (ps_mint p id').1 → id = id';
  so_bound id row wf : tt_timers (ps_tables p) !! id = Some row →
    tw_workflow_instance_id row = Some wf →
    ∃ r, tt_workflows (ps_tables p) !! (tw_tenant_id row, wf) = Some r ∧
         tw_work_item_id row = Some (wf_row_work_item_id r);
  so_anchors key a : tt_anchors (ps_tables p) !! key = Some a →
    anchor_live other_live (ps_now p) (ps_tables p) key a = true;
  so_names key a : tt_anchors (ps_tables p) !! key = Some a →
    is_Some (tt_timers (ps_tables p) !! an_reference_id a) →
    an_anchor_type a = "TIMER" ∨ an_anchor_type a = "RETRY"
}.

(** An anchor of the tenant that stands on one of the timers. *)
Definition anchored (tenant_id : Uuid) (rows : list (Uuid * WorkflowTimerRow)) (s : TimerTables)
  : Prop :=
  ∃ item a row, tt_anchors s !! (tenant_id, item) = Some a ∧ (an_reference_id a, row) ∈ rows.

(** A promoted job keeps the workflow of its timer live. *)
Lemma promotion_keeps_workflow p tenant_id known scoped ready limit s' id row key a now :
  sound_pass p tenant_id known scoped →
  promotes tenant_id (ps_mint p) (taken p tenant_id ready limit) (ps_tables p) s' →
  (id, row) ∈ taken p tenant_id ready limit →
  tt_anchors (ps_tables p) !! key = Some a → key.1 = tenant_id →
  an_anchor_type a = "WORKFLOW" → tw_workflow_instance_id row = Some (an_reference_id a) →
  anchor_live other_live now s' key a = true.
Proof.
  intros [_ _ _ _ _ Hb Ha _] [_ Hj _ _ (_ & Hw & _)] Hin Hka Hk Ht Hwf.
  destruct (elem_of_taken _ _ _ _ _ _ Hin) as (Hrow & (Htn & _ & _)%timer_due_spec & _).
  destruct (Hb _ _ _ Hrow Hwf) as (r & Hr & Hitem). apply Ha in Hka as Hlive.
  destruct key as [t item]; simpl in Hk; subst t. unfold anchor_live in *.
  rewrite Ht, bool_decide_true in * by done. rewrite Hw. rewrite Htn in Hr. rewrite Hr in *.
  rewrite !andb_true_iff in *. destruct Hlive as [[[Hi%bool_decide_eq_true Hs] Hn] _].
  split_and!; [by rewrite bool_decide_true|done|done|]. apply orb_true_iff. left.
  destruct (Hj _ _ Hin) as (_ & _ & Hjob). apply existsb_exists.
  eexists (_, _). split; [apply list_elem_of_In, elem_of_map_to_list; exact Hjob|]. simpl.
  rewrite Hitem, Hi, Hwf, !bool_decide_true by done. done.
Qed.

Lemma strands_anchored p tenant_id known scoped ready limit s' now :
  sound_pass p tenant_id known scoped →
  promotes tenant_id (ps_mint p) (taken p tenant_id ready limit) (ps_tables p) s' →
  existsb (strands_anchor other_live now s') (taken p tenant_id ready limit) = true ↔
  anchored tenant_id (taken p tenant_id ready limit) (ps_tables p).
Proof.
  intros Hso Hp. rewrite existsb_exists. unfold strands_anchor, anchored.
  destruct (pm_rest _ _ _ _ _ Hp) as (_ & _ & Ea). rewrite Ea. split.
  - intros ([id row] & Hin%list_elem_of_In & ([[t item] a] & Hk & Hc)%existsb_exists).
    apply list_elem_of_In, elem_of_map_to_list in Hk. cbn [fst snd] in Hc.
    rewrite !andb_true_iff, orb_true_iff, andb_true_iff, negb_true_iff, !bool_decide_eq_true in Hc.
    destruct Hc as [[Ht Href] Hdead].
    destruct (elem_of_taken _ _ _ _ _ _ Hin) as (Hrow & (Htn & _ & _)%timer_due_spec & _).
    subst t. rewrite Htn in Hk. destruct Href as [Href|[Hty Hwf]].
    + exists item, a, row. by rewrite Href.
    + rewrite (promotion_keeps_workflow p tenant_id known scoped ready limit s' id row) in Hdead;
        try done. by rewrite Htn.
  - intros (item & a & row & Hk & Hin). exists (an_reference_id a, row).
    split; [by apply list_elem_of_In|]. apply existsb_exists. exists ((tenant_id, item), a).
    split; [by apply list_elem_of_In, elem_of_map_to_list|]. cbn [fst snd].
    destruct (elem_of_taken _ _ _ _ _ _ Hin) as (Hrow & (Htn & _ & _)%timer_due_spec & _).
    rewrite Htn, !bool_decide_true by done. simpl. apply negb_true_iff.
    unfold anchor_live. rewrite (pm_fired _ _ _ _ _ Hp _ _ Hin).
    destruct (so_names _ _ _ _ Hso _ _ Hk) as [->| ->]; [by eauto| |]; simpl;
      by rewrite !andb_false_r.
Qed.

(** C25. On consistent tables a pass either fires every timer that it takes, or,
    when an accountability anchor of the tenant stands on one of them, fails at
    the commit and fires none: the deferred trigger of the schema refuses to
    strand the anchor, which the promotion does not move. A workflow anchor
    never stands in the way, since the new job keeps its workflow live. *)
Theorem anchored_timers_block `{!UuidHyphenated} p tenant_id known ready scoped limit :
  0 ≤ limit ≤ u32_max → sound_pass p tenant_id known scoped →
  let rows := taken p tenant_id ready limit in
  (anchored tenant_id rows (ps_tables p) →
     promote_due_timers other_live p tenant_id known ready scoped limit
     = Err (Persistence [Lit "commit timer promotion"])) ∧
  (¬ anchored tenant_id rows (ps_tables p) → ∃ s',
     promote_due_timers other_live p tenant_id known ready scoped limit
     = Ok (s', Z.of_nat (length rows))).
Proof.
  intros Hl Hso rows. assert (reject_unknown_or_incompatible_due_timer tenant_id known
    (ps_unknown p).2 (ps_unknown p).1 = Ok tt) as Hu.
  { unfold reject_unknown_or_incompatible_due_timer, unknown_or_incompatible_due_timer.
    rewrite select_timers_empty; [done|]. intros id row Hrow.
    destruct (timer_due _ _ row) eqn:Hd; [|done]. apply negb_false_iff. by eapply so_known. }
  assert (reject_scoped_due_timer tenant_id scoped (ps_scoped p).2 (ps_scoped p).1 = Ok tt) as Hsc.
  { unfold reject_scoped_due_timer, scoped_due_timer. case_bool_decide; [done|].
    rewrite select_timers_empty; [done|]. intros id row Hrow.
    destruct (timer_due _ _ row) eqn:Hd; [|done]. cbn [andb]. apply not_true_iff_false. rewrite mem_true.
    by eapply so_scoped. }
  destruct (promote_timers_total tenant_id (ps_mint p) rows 0 (ps_tables p)) as [s' Hp].
  { split.
    - intros id row (Hrow & (Ht & Hs & _)%timer_due_spec & _)%elem_of_taken. done.
    - intros id row (Hrow & (Ht & Hs & _)%timer_due_spec & _)%elem_of_taken. by eapply so_keys.
    - intros id row _. by eapply so_fresh.
    - split; [apply taken_nodup|].
      assert ((λ t, (ps_mint p t.1).1) <$> rows = (λ i, (ps_mint p i).1) <$> rows.*1) as ->
        by (by rewrite <-list_fmap_compose).
      apply NoDup_fmap_2_strong; [|apply taken_nodup]. intros x y _ _. by eapply so_distinct. }
  { unfold rows, taken. case_bool_decide; [simpl; lia|].
    pose proof (lock_length tenant_id ready limit (ps_now p) (ps_locked p)
      (tt_timers (ps_tables p))). lia. }
  assert (promotes tenant_id (ps_mint p) rows (ps_tables p) s') as Hpm.
  { apply promote_timers_ok in Hp as [Hp _]; [done|apply taken_nodup|].
    intros id row Hin. by apply elem_of_taken in Hin as [Hin _]. }
  pose proof (strands_anchored p tenant_id known scoped ready limit s' (ps_commit p) Hso Hpm) as Hst.
  fold rows in Hst. split.
  - intros Ha. apply Hst in Ha. unfold promote_due_timers.
    destruct (ps_unknown p) as [s1 n1], (ps_scoped p) as [s2 n2]. simpl in Hu, Hsc.
    rewrite Hu, Hsc. simpl. unfold rows, taken in Ha, Hp. case_bool_decide; [done|].
    rewrite Hp. simpl. unfold commit_promotion. by rewrite Ha.
  - intros Hna. exists s'. apply pass_spec. split_and!; [done|done|exact Hp|].
    apply not_true_iff_false. by intros F%Hst.
Qed.
End timers.

(** ** A due timer of one workflow *)

Module Sample.
#[local] Existing Instance ReservationFacts.Sample.uuids.
#[local] Existing Instance ReservationFacts.Sample.hyphenated.
#[local] Instance columns : PgColumns :=
  {| stored_at t := t; stored_value v := v; stored_value_object v := eq_refl |}.
#[local] Instance dates : DateTimeText := {| datetime_to_string t := pretty t |}.

Definition elsewhere (_ : Uuid * Uuid) (_ : AnchorRow) : bool := true.

Definition timer : WorkflowTimerRow :=
  {| tw_tenant_id := 1%N; tw_workflow_instance_id := Some 7%N; tw_work_item_id := Some 5%N;
     tw_attempt_id := None; tw_workflow_key := "delivery"; tw_timer_key := "wake";
     tw_timer_type := ADVANCE_ACCEPTED_WORK_ITEM;
     tw_activity_contract_id := ADVANCE_ACCEPTED_WORK_ITEM_ACTIVITY_CONTRACT_ID;
     tw_payload := Object []; tw_generation := 1; tw_due_at := 10; tw_status := "SCHEDULED";
     tw_fired_at := None |}.

Definition workflow : WorkflowRow :=
  {| wf_row_work_item_id := 5%N; wf_row_state := "ACTIVE"; wf_row_event_cursor := 0;
     wf_row_fence_token := 1; wf_row_version := 1; wf_row_terminal_at := None |}.

Definition on_workflow : AnchorRow := mkAnchorRow "WORKFLOW" 7%N None false 1.
Definition on_timer : AnchorRow := mkAnchorRow "TIMER" 20%N (Some 10) false 1.

Definition tables (a : AnchorRow) : TimerTables :=
  mkTimerTables {[ 20%N := timer ]} (mkQueue ∅ ∅) {[ (1%N, 7%N) := workflow ]} {[ (1%N, 5%N) := a ]}.

Definition pass (a : AnchorRow) : Pass :=
  mkPass (tables a, 11) (tables a, 12) (tables a) (λ _, false) 13 15 (λ id, ((id + 100)%N, 14)).

Definition routes : list (string * string) :=
  [(ADVANCE_ACCEPTED_WORK_ITEM, ADVANCE_ACCEPTED_WORK_ITEM_ACTIVITY_CONTRACT_ID)].

Lemma pass_sound a : a = on_workflow ∨ a = on_timer →
  sound_pass elsewhere (pass a) 1%N routes [RECONCILE_WORKER].
Proof.
  intros Ha. split; simpl.
  - intros id row [<- <-]%lookup_singleton_Some _. reflexivity.
  - intros id row [<- <-]%lookup_singleton_Some _. apply not_elem_of_cons. split; [|set_solver].
    by vm_compute.
  - intros id row _ _. reflexivity.
  - intros id. apply lookup_empty.
  - intros id id'. lia.
  - intros id row wf [<- <-]%lookup_singleton_Some [= <-]. exists workflow.
    split; [apply lookup_singleton_eq|done].
  - intros key b [<- <-]%lookup_singleton_Some. by destruct Ha as [->| ->]; vm_compute.
  - intros key b [<- <-]%lookup_singleton_Some. destruct Ha as [->| ->]; [|by left].
    intros [? Hno]. by vm_compute in Hno.
Qed.

Lemma timers_promoted_once_witness :
  ∃ s', promote_due_timers elsewhere (pass on_workflow) 1%N routes routes [RECONCILE_WORKER] 100
    = Ok (s', 1) ∧
  promotes 1%N (ps_mint (pass on_workflow)) [(20%N, timer)] (tables on_workflow) s'.
Proof.
  eexists. split; [vm_compute; reflexivity|].
  apply (timers_promoted_once elsewhere (pass on_workflow) 1%N routes routes [RECONCILE_WORKER] 100
    _ 1); [lia|vm_compute; reflexivity].
Defined.

Lemma anchored_timers_block_witness :
  promote_due_timers elsewhere (pass on_timer) 1%N routes routes [RECONCILE_WORKER] 100
    = Err (Persistence [Lit "commit timer promotion"]).
Proof.
  apply (anchored_timers_block elsewhere (pass on_timer) 1%N routes routes [RECONCILE_WORKER] 100).
  - by vm_compute.
  - apply pass_sound. by right.
  - exists 5%N, on_timer, timer. split; [apply lookup_singleton_eq|]. vm_compute. left.
Defined.
End Sample.
