(* ===== verification/ReactorClaims.v ===== *)
(** The claims of the reactor, the SQL of [src/src/runtime/reactor.rs]: which due
    job a process may take for a ready handler, which it takes to dead-letter
    because its route is invalid, its last attempt was lost or its type is
    installed as unavailable, and the job that stops the reactor.

    The tables that a route is checked against are lists of rows.  Payloads are
    read as [jsonb] columns ([stored_value]); [->>] is [text_at].  A cast to
    [bigint] that is out of range is an error of the statement: the conditions of
    the scan for unserviceable jobs are evaluated from left to right and [None]
    is that error. *)

From Stdlib Require Import ZArith Lia Ascii.
From stdpp Require Import base tactics option strings pretty numbers list gmap.
From S2P Require Import Prelude RustStr RustOrd Ids Security RunEvents JobQueue RunmillOrder Steps DeadLetter Handlers.

(** ** Tables of the routes *)

Record RouteRunRow := mkRouteRunRow {
  rn_id : Uuid; rn_tenant_id : Uuid; rn_work_item_id : Uuid; rn_attempt_id : Uuid;
  rn_authoritative : bool; rn_work_order_id : Uuid; rn_worker_id : Uuid;
  rn_worker_session_id : Uuid; rn_worker_generation : Z; rn_external_run_id : string
}.

Record WorkOrderRow := mkWorkOrderRow {
  wo_id : Uuid; wo_tenant_id : Uuid; wo_work_item_id : Uuid; wo_attempt_id : Uuid;
  wo_payload_digest : string
}.

Record StreamRow := mkStreamRow {
  sm_tenant_id : Uuid; sm_run_id : Uuid; sm_workflow_instance_id : Uuid; sm_work_item_id : Uuid;
  sm_attempt_id : Uuid; sm_work_order_id : Uuid; sm_work_order_digest : string;
  sm_worker_id : Uuid; sm_worker_generation : Z; sm_run_admission_worker_session_id : Uuid;
  sm_external_run_id : string; sm_state : string; sm_active_job_id : option Uuid;
  sm_active_observation_id : option Uuid; sm_next_after_sequence : Z; sm_observation_epoch : Z
}.

Record CheckpointRow := mkCheckpointRow {
  ck_id : Uuid; ck_tenant_id : Uuid; ck_run_id : Uuid; ck_workflow_job_id : Uuid;
  ck_after_sequence : Z; ck_observation_epoch : Z; ck_observer_session_id : Uuid;
  ck_worker_id : Uuid; ck_worker_generation : Z
}.

Record ResultRow := mkResultRow {
  re_tenant_id : Uuid; re_run_id : Uuid; re_observation_id : Uuid; re_disposition : string;
  re_get_run_snapshot_id : Uuid; re_event_page_snapshot_id : Uuid; re_next_sequence : Z
}.

Record RouteSessionRow := mkRouteSessionRow {
  se_id : Uuid; se_tenant_id : Uuid; se_worker_id : Uuid; se_worker_generation : Z;
  se_status : string; se_expires_at : DateTime
}.

Record WorkerRow := mkWorkerRow {
  wk_id : Uuid; wk_tenant_id : Uuid; wk_generation : Z; wk_status : string
}.

Record RouteTables := mkRouteTables {
  ro_runs : list RouteRunRow;
  ro_work_orders : list WorkOrderRow;
  ro_streams : list StreamRow;
  ro_checkpoints : list CheckpointRow;
  ro_results : list ResultRow;
  ro_sessions : list RouteSessionRow;
  ro_workers : list WorkerRow
}.

(** ** Values *)

(** [jsonb_typeof]. *)
Definition jsonb_typeof (v : Value) : string :=
  match v with
  | Null => "null" | Bool _ => "boolean" | Number _ => "number" | VString _ => "string"
  | Array _ => "array" | Object _ => "object"
  end.

Definition typed (type key : string) (v : Value) : bool :=
  bool_decide (jsonb_typeof <$> field key v = Some type).

(** [v ?& keys AND v - keys = '{}'] of an object. *)
Definition has_keys (keys : list string) (v : Value) : bool :=
  forallb (λ k, is_some (field k v)) keys.
Definition only_keys (keys : list string) (v : Value) : bool :=
  match v with Object fields => forallb (λ f, mem f.1 keys) fields | _ => false end.

Definition is_lower_hex (b : Z) : bool := is_ascii_digit b || ((97 <=? b) && (b <=? 102)).

(** [^[0-9a-f]{8}-[0-9a-f]{4}-[1-8][0-9a-f]{3}-[89ab][0-9a-f]{3}-[0-9a-f]{12}$],
    position by position. *)
Definition uuid_position (i : nat) (b : Z) : bool :=
  if mem i [8%nat; 13%nat; 18%nat; 23%nat] then b =? 45
  else if bool_decide (i = 14%nat) then (49 <=? b) && (b <=? 56)
  else if bool_decide (i = 19%nat) then mem b [56; 57; 97; 98]
  else is_lower_hex b.

Definition canonical_uuid (s : string) : bool :=
  bool_decide (String.length s = 36%nat) && forallb (uncurry uuid_position) (imap pair (bytes s)).

(** [^sha256:[0-9a-f]{64}$]. *)
Definition sha256_text (s : string) : bool :=
  starts_with "sha256:" s && bool_decide (String.length s = 71%nat)
  && forallb is_lower_hex (drop 7 (bytes s)).

(** [^[0-9]+$]. *)
Definition digits (s : string) : bool :=
  negb (str_is_empty s) && forallb is_ascii_digit (bytes s).

(** [::bigint] of digits. *)
Definition to_bigint (s : string) : option Z :=
  try_from i64_max (foldl (λ n b, n * 10 + (b - 48)) 0 (bytes s)).

(** [btrim(s)] is [s], and is not empty: only spaces are trimmed. *)
Definition is_space (b : Z) : bool := b =? 32.
Definition btrimmed (s : string) : bool :=
  negb (from_option is_space false (head (bytes s)))
  && negb (from_option is_space false (last (bytes s))).
Definition btrim_empty (s : string) : bool := forallb is_space (bytes s).

(** [left(concat_ws('; ', NULLIF(last_error, ''), note), 8192)] and the other
    assignments of [released_external_effects]. *)
Definition released_effect_with (note : string) (e : EffectRow) : EffectRow :=
  {| ef_tenant_id := ef_tenant_id e; ef_provider := ef_provider e;
     ef_effect_type := ef_effect_type e; ef_status := "AMBIGUOUS";
     ef_owning_workflow_job_id := None; ef_fence_token := ef_fence_token e; ef_lease := None;
     ef_last_error := Some (take_chars (Z.to_nat 8192)
       match ef_last_error e with
       | None | Some EmptyString => note
       | Some last => last +:+ "; " +:+ note
       end) |}.

Definition route_invalid_note : string :=
  "route-invalid scoped workflow job expired while owning the external effect; exact reconciliation required".

Definition OBSERVATION_KEYS : list string :=
  [ "schema"; "observation_id"; "run_id"; "work_order_id"; "work_order_digest"; "worker_id";
    "worker_session_id"; "worker_generation"; "external_run_id"; "after_sequence";
    "observation_epoch"; "observer_session_id" ].

Definition RETENTION_KEYS : list string :=
  [ "schema"; "bundle_id"; "run_id"; "work_order_id"; "work_order_digest"; "worker_id";
    "worker_session_id"; "worker_generation"; "observer_session_id"; "external_run_id";
    "observation_id"; "get_run_snapshot_id"; "event_page_snapshot_id"; "terminal_phase";
    "terminal_event_seq" ].

Section claims.
  Context {pg : PgColumns} {jsonb : Jsonb} {uuids : UuidText} {jsonb_texts : JsonbText}.

(** [column::text = payload ->> key], [column = payload ->> key] and
    [payload -> key = to_jsonb(column)]. *)
Definition is_uuid (key : string) (u : Uuid) (p : Value) : bool :=
  bool_decide (text_at key p = Some (uuid_to_string u)).
Definition is_text (key s : string) (p : Value) : bool := bool_decide (text_at key p = Some s).
Definition is_number (key : string) (n : Z) (p : Value) : bool :=
  match field key p with Some v => jsonb_eqb v (Number (pretty n)) | None => false end.

Definition payload (row : JobRow) : Value := stored_value (jb_payload row).

(** ** Routes *)

(** [route_run] of a cancellation. *)
Definition cancellation_run (t : RouteTables) (row : JobRow) : bool :=
  existsb (λ r, bool_decide (rn_tenant_id r = jb_tenant_id row)
                && bool_decide (Some (rn_work_item_id r) = jb_work_item_id row)
                && bool_decide (Some (rn_attempt_id r) = jb_attempt_id row)
                && rn_authoritative r && is_uuid "worker_id" (rn_worker_id r) (payload row))
    (ro_runs t).

(** [route_run] of the recovery of a retention job. *)
Definition retention_run (t : RouteTables) (row : JobRow) : bool :=
  existsb (λ r, bool_decide (rn_tenant_id r = jb_tenant_id row)
                && bool_decide (Some (rn_work_item_id r) = jb_work_item_id row)
                && bool_decide (Some (rn_attempt_id r) = jb_attempt_id row)
                && rn_authoritative r && is_uuid "run_id" (rn_id r) (payload row)
                && is_uuid "worker_id" (rn_worker_id r) (payload row))
    (ro_runs t).

(** The shape of an observation payload. *)
Definition observation_shape (p : Value) : bool :=
  is_object p && has_keys OBSERVATION_KEYS p && only_keys OBSERVATION_KEYS p
  && is_text "schema" "asf.runmill-observation/v2" p
  && typed "string" "observation_id" p && typed "string" "run_id" p
  && typed "string" "work_order_id" p && typed "string" "work_order_digest" p
  && typed "string" "worker_id" p && typed "string" "worker_session_id" p
  && typed "number" "worker_generation" p && typed "string" "external_run_id" p
  && typed "number" "after_sequence" p && typed "number" "observation_epoch" p
  && typed "string" "observer_session_id" p.

(** The run and the work order that the payload names. *)
Definition payload_run (row : JobRow) (r : RouteRunRow) (o : WorkOrderRow) : bool :=
  let p := payload row in
  bool_decide (rn_tenant_id r = jb_tenant_id row)
  && bool_decide (wo_tenant_id o = rn_tenant_id r) && bool_decide (wo_id o = rn_work_order_id r)
  && bool_decide (wo_work_item_id o = rn_work_item_id r)
  && bool_decide (wo_attempt_id o = rn_attempt_id r)
  && is_uuid "run_id" (rn_id r) p
  && bool_decide (Some (rn_work_item_id r) = jb_work_item_id row)
  && bool_decide (Some (rn_attempt_id r) = jb_attempt_id row) && rn_authoritative r
  && is_uuid "work_order_id" (rn_work_order_id r) p
  && is_text "work_order_digest" (wo_payload_digest o) p
  && is_uuid "worker_id" (rn_worker_id r) p
  && is_uuid "worker_session_id" (rn_worker_session_id r) p
  && is_text "external_run_id" (rn_external_run_id r) p.

(** The stream of that run, with its immutable bindings. *)
Definition bound_stream (row : JobRow) (r : RouteRunRow) (o : WorkOrderRow) (m : StreamRow) : bool :=
  bool_decide (sm_tenant_id m = rn_tenant_id r) && bool_decide (sm_run_id m = rn_id r)
  && bool_decide (Some (sm_workflow_instance_id m) = jb_workflow_instance_id row)
  && bool_decide (Some (sm_work_item_id m) = jb_work_item_id row)
  && bool_decide (Some (sm_attempt_id m) = jb_attempt_id row)
  && bool_decide (sm_work_order_id m = rn_work_order_id r)
  && bool_decide (sm_work_order_digest m = wo_payload_digest o)
  && bool_decide (sm_worker_id m = rn_worker_id r)
  && (sm_worker_generation m =? rn_worker_generation r)
  && bool_decide (sm_run_admission_worker_session_id m = rn_worker_session_id r)
  && bool_decide (sm_external_run_id m = rn_external_run_id r).

(** The checkpoint that the stream is at. *)
Definition active_checkpoint (id : Uuid) (row : JobRow) (m : StreamRow) (c : CheckpointRow) : bool :=
  let p := payload row in
  bool_decide (ck_tenant_id c = sm_tenant_id m) && is_uuid "observation_id" (ck_id c) p
  && bool_decide (ck_run_id c = sm_run_id m) && bool_decide (ck_workflow_job_id c = id)
  && bool_decide (sm_state m = "ACTIVE") && bool_decide (sm_active_job_id m = Some id)
  && bool_decide (sm_active_observation_id m = Some (ck_id c))
  && (ck_after_sequence c =? sm_next_after_sequence m)
  && (ck_observation_epoch c =? sm_observation_epoch m)
  && is_uuid "observer_session_id" (ck_observer_session_id c) p
  && bool_decide (ck_worker_id c = sm_worker_id m)
  && (ck_worker_generation c =? sm_worker_generation m)
  && is_number "after_sequence" (sm_next_after_sequence m) p
  && is_number "observation_epoch" (sm_observation_epoch m) p.

(** A live session of the worker, at the generation of the stream. *)
Definition live_observer (now : DateTime) (t : RouteTables) (m : StreamRow) (s : RouteSessionRow) : bool :=
  bool_decide (se_status s = "ACTIVE") && (now <? se_expires_at s)
  && existsb (λ w, bool_decide (wk_tenant_id w = se_tenant_id s)
                   && bool_decide (wk_id w = se_worker_id s)
                   && (wk_generation w =? sm_worker_generation m)
                   && negb (bool_decide (wk_status w = "QUARANTINED"))) (ro_workers t).

(** The rows joined for an observation, but for the test of the generation of
    the run, which the statements write in two ways. *)
Definition observation_rows (generation : Z → bool) (now : DateTime) (t : RouteTables) (id : Uuid)
    (row : JobRow) : bool :=
  existsb (λ r, generation (rn_worker_generation r) &&
    existsb (λ o, payload_run row r o &&
      existsb (λ m, bound_stream row r o m &&
        existsb (λ c, active_checkpoint id row m c &&
          existsb (λ s, bool_decide (se_tenant_id s = ck_tenant_id c)
                        && bool_decide (se_id s = ck_observer_session_id c)
                        && bool_decide (se_worker_id s = ck_worker_id c)
                        && (se_worker_generation s =? ck_worker_generation c)
                        && live_observer now t m s)
            (ro_sessions t)) (ro_checkpoints t)) (ro_streams t)) (ro_work_orders t)) (ro_runs t).

Definition observation_route (now : DateTime) (t : RouteTables) (id : Uuid) (row : JobRow) : bool :=
  observation_shape (payload row)
  && observation_rows (λ g, is_number "worker_generation" g (payload row)) now t id row.

Definition retention_shape (p : Value) : bool :=
  is_object p && has_keys RETENTION_KEYS p && only_keys RETENTION_KEYS p
  && is_text "schema" "asf.runmill-terminal-evidence/v1" p
  && typed "string" "bundle_id" p && typed "string" "run_id" p
  && typed "string" "work_order_id" p && typed "string" "work_order_digest" p
  && typed "string" "worker_id" p && typed "string" "worker_session_id" p
  && typed "number" "worker_generation" p && typed "string" "observer_session_id" p
  && typed "string" "external_run_id" p && typed "string" "observation_id" p
  && typed "string" "get_run_snapshot_id" p && typed "string" "event_page_snapshot_id" p
  && typed "string" "terminal_phase" p && typed "number" "terminal_event_seq" p.

(** The rows joined for a retention job. *)
Definition retention_route (now : DateTime) (t : RouteTables) (row : JobRow) : bool :=
  let p := payload row in
  retention_shape p &&
  existsb (λ r, is_number "worker_generation" (rn_worker_generation r) p &&
    existsb (λ o, payload_run row r o &&
      existsb (λ m, bound_stream row r o m && bool_decide (sm_state m = "TERMINAL_READY") &&
        existsb (λ e, bool_decide (re_tenant_id e = sm_tenant_id m)
                      && bool_decide (re_run_id e = sm_run_id m)
                      && is_uuid "observation_id" (re_observation_id e) p
                      && bool_decide (re_disposition e = "TERMINAL_READY")
                      && is_uuid "get_run_snapshot_id" (re_get_run_snapshot_id e) p
                      && is_uuid "event_page_snapshot_id" (re_event_page_snapshot_id e) p
                      && is_number "terminal_event_seq" (re_next_sequence e + 1) p &&
          existsb (λ s, bool_decide (se_tenant_id s = sm_tenant_id m)
                        && is_uuid "observer_session_id" (se_id s) p
                        && bool_decide (se_worker_id s = sm_worker_id m)
                        && (se_worker_generation s =? sm_worker_generation m)
                        && live_observer now t m s)
            (ro_sessions t)) (ro_results t)) (ro_streams t)) (ro_work_orders t)) (ro_runs t).

(** [EXISTS (SELECT 1 FROM unnest(workers, contracts) …)]. *)
Definition worker_route (row : JobRow) (routes : list (string * string)) : bool :=
  has_worker_route (text_at "worker_id" (payload row)) (jb_activity_contract_id row) routes.
Definition type_route (row : JobRow) (routes : list (string * string)) : bool :=
  has_route (jb_job_type row) (jb_activity_contract_id row) routes.

(** The routes of [CLAIM_READY_JOBS_SQL]. *)
Definition ready_route (claims : ReadyClaimSet) (now : DateTime) (t : RouteTables) (id : Uuid)
    (row : JobRow) : bool :=
  type_route row (rc_unscoped claims)
  || bool_decide (jb_job_type row = "RECONCILE_WORKER")
     && worker_route row (rc_reconcile_worker claims)
  || bool_decide (jb_job_type row = "REQUEST_WORK_ITEM_CANCELLATION")
     && worker_route row (rc_cancellation_worker claims) && cancellation_run t row
  || bool_decide (jb_job_type row = "OBSERVE_RUNMILL_RUN")
     && worker_route row (rc_observe_runmill_run_worker claims) && observation_route now t id row
  || bool_decide (jb_job_type row = "RETAIN_RUNMILL_TERMINAL_EVIDENCE")
     && worker_route row (rc_retain_runmill_terminal_evidence_worker claims)
     && retention_route now t row.

(** The routes of [CLAIM_ROUTE_INVALID_SCOPED_JOB_SQL]. *)
Definition route_invalid (now : DateTime) (t : RouteTables) (id : Uuid) (row : JobRow) : bool :=
  let p := payload row in
  mem (jb_job_type row)
    ["RECONCILE_WORKER"; "REQUEST_WORK_ITEM_CANCELLATION"; "OBSERVE_RUNMILL_RUN"]
  && (bool_decide (jb_job_type row = "RECONCILE_WORKER")
      && bool_decide (jb_activity_contract_id row = RECONCILE_WORKER_ACTIVITY_CONTRACT_ID)
      || bool_decide (jb_job_type row = "REQUEST_WORK_ITEM_CANCELLATION")
         && bool_decide (jb_activity_contract_id row
                         = REQUEST_WORK_ITEM_CANCELLATION_ACTIVITY_CONTRACT_ID)
      || bool_decide (jb_job_type row = "OBSERVE_RUNMILL_RUN")
         && bool_decide (jb_activity_contract_id row = OBSERVE_RUNMILL_RUN_ACTIVITY_CONTRACT_ID))
  && (negb (typed "string" "worker_id" p)
      || negb (from_option canonical_uuid false (text_at "worker_id" p))
      || bool_decide (jb_job_type row = "REQUEST_WORK_ITEM_CANCELLATION")
         && negb (cancellation_run t row)
      || bool_decide (jb_job_type row = "OBSERVE_RUNMILL_RUN")
         && negb (observation_route now t id row)).

(** The routes of [CLAIM_ORPHANED_EXHAUSTED_JOBS_SQL]. *)
Definition orphan_route (claims : ReadyClaimSet) (now : DateTime) (t : RouteTables) (id : Uuid)
    (row : JobRow) : bool :=
  negb (is_canonical_worker_scoped_job_type (jb_job_type row))
    && type_route row (rc_unscoped claims)
  || bool_decide (jb_job_type row = "RECONCILE_WORKER")
     && worker_route row (rc_reconcile_worker claims)
  || bool_decide (jb_job_type row = "REQUEST_WORK_ITEM_CANCELLATION")
     && worker_route row (rc_cancellation_worker claims) && cancellation_run t row
  || bool_decide (jb_job_type row = "OBSERVE_RUNMILL_RUN")
     && worker_route row (rc_observe_runmill_run_worker claims) && observation_route now t id row
  || bool_decide (jb_job_type row = "RETAIN_RUNMILL_TERMINAL_EVIDENCE")
     && worker_route row (rc_retain_runmill_terminal_evidence_worker claims)
     && retention_run t row.

(** *** Known types that are installed as unavailable *)

(** Conditions that may fail to evaluate, from left to right. *)
Fixpoint all_hold (conditions : list (option bool)) : option bool :=
  match conditions with
  | [] => Some true
  | Some true :: rest => all_hold rest
  | Some false :: _ => Some false
  | None :: _ => None
  end.

Fixpoint one_holds (conditions : list (option bool)) : option bool :=
  match conditions with
  | [] => Some false
  | Some true :: _ => Some true
  | Some false :: rest => one_holds rest
  | None :: _ => None
  end.

(** [typeof = 'number' AND ->> ~ '^[0-9]+$' AND (->>)::bigint …]. *)
Definition bigint_field (key : string) (test : Z → bool) (p : Value) : list (option bool) :=
  [ Some (typed "number" key p);
    Some (from_option digits false (text_at key p));
    test <$> (text_at key p ≫= to_bigint) ].

(** [typeof = 'string' AND COALESCE(->> ~ pattern, false)]. *)
Definition text_field (key : string) (test : string → bool) (p : Value) : list (option bool) :=
  [ Some (typed "string" key p); Some (from_option test false (text_at key p)) ].

(** The part that the four worker-scoped branches share: [contract] is the
    canonical identity and [ready] the installed workers. *)
Definition unavailable_route (contract : string) (ready known : list (string * string))
    (row : JobRow) : list (option bool) :=
  [ Some (bool_decide (jb_activity_contract_id row = contract)); Some (bool_decide (ready = []));
    Some (type_route row known); Some (negb (worker_route row ready)) ].

Definition RECONCILIATION_KEYS : list string := ["worker_id"; "expected_generation"; "expected_version"].
Definition CANCELLATION_KEYS : list string :=
  ["work_item_id"; "worker_id"; "expected_version"; "reason"; "requested_by"].

Definition unserviceable_reconciliation (row : JobRow) : list (option bool) :=
  let p := payload row in
  [ Some (is_object p); Some (has_keys RECONCILIATION_KEYS p); Some (only_keys RECONCILIATION_KEYS p) ]
  ++ text_field "worker_id" canonical_uuid p
  ++ bigint_field "expected_generation" (λ n, 0 <? n) p
  ++ bigint_field "expected_version" (λ n, 0 <? n) p
  ++ [ Some (is_none (jb_workflow_instance_id row)); Some (is_none (jb_work_item_id row));
       Some (is_none (jb_attempt_id row)); Some (negb (btrim_empty (jb_idempotency_key row))) ].

Definition unserviceable_cancellation (t : RouteTables) (row : JobRow) : list (option bool) :=
  let p := payload row in
  [ Some (is_object p);
    Some (has_keys CANCELLATION_KEYS p || has_keys (CANCELLATION_KEYS ++ ["observe_only"]) p);
    Some (only_keys (CANCELLATION_KEYS ++ ["observe_only"]) p);
    Some (typed "string" "work_item_id" p);
    Some (match jb_work_item_id row with Some w => is_uuid "work_item_id" w p | None => false end);
    Some (from_option canonical_uuid false (text_at "work_item_id" p));
    Some (is_none (field "observe_only" p) || typed "boolean" "observe_only" p) ]
  ++ text_field "worker_id" canonical_uuid p
  ++ bigint_field "expected_version" (λ n, 0 <? n) p
  ++ text_field "reason" (λ s, btrimmed s && (Z.of_nat (length (chars s)) <=? 2048)) p
  ++ text_field "requested_by" (λ s, Z.of_nat (length (chars s)) <=? 1024) p
  ++ [ Some (is_some (jb_workflow_instance_id row)); Some (is_some (jb_attempt_id row));
       Some (cancellation_run t row) ].

Definition unserviceable_observation (now : DateTime) (t : RouteTables) (id : Uuid) (row : JobRow)
  : list (option bool) :=
  let p := payload row in
  [ Some (is_object p); Some (has_keys OBSERVATION_KEYS p); Some (only_keys OBSERVATION_KEYS p);
    Some (is_text "schema" "asf.runmill-observation/v2" p) ]
  ++ text_field "observation_id" canonical_uuid p ++ text_field "run_id" canonical_uuid p
  ++ text_field "work_order_id" canonical_uuid p ++ text_field "work_order_digest" sha256_text p
  ++ text_field "worker_id" canonical_uuid p ++ text_field "worker_session_id" canonical_uuid p
  ++ bigint_field "worker_generation" (λ n, 0 <? n) p
  ++ text_field "external_run_id" (λ s, negb (str_is_empty s)) p
  ++ bigint_field "after_sequence" (λ n, (0 <=? n) && (n <=? 9007199254740991)) p
  ++ bigint_field "observation_epoch" (λ n, 0 <? n) p
  ++ text_field "observer_session_id" canonical_uuid p
  ++ [ Some (observation_rows
               (λ g, bool_decide (text_at "worker_generation" p ≫= to_bigint = Some g)) now t id row) ].

Definition unserviceable_retention (t : RouteTables) (row : JobRow) : list (option bool) :=
  let p := payload row in
  [ Some (is_object p); Some (has_keys RETENTION_KEYS p); Some (only_keys RETENTION_KEYS p);
    Some (is_text "schema" "asf.runmill-terminal-evidence/v1" p) ]
  ++ text_field "bundle_id" canonical_uuid p ++ text_field "run_id" canonical_uuid p
  ++ text_field "work_order_id" canonical_uuid p ++ text_field "work_order_digest" sha256_text p
  ++ text_field "worker_id" canonical_uuid p ++ text_field "worker_session_id" canonical_uuid p
  ++ bigint_field "worker_generation" (λ n, 0 <? n) p
  ++ text_field "observer_session_id" canonical_uuid p
  ++ text_field "external_run_id" (λ s, negb (str_is_empty s)) p
  ++ text_field "observation_id" canonical_uuid p
  ++ text_field "get_run_snapshot_id" canonical_uuid p
  ++ text_field "event_page_snapshot_id" canonical_uuid p
  ++ [ Some (negb (bool_decide (text_at "get_run_snapshot_id" p = text_at "event_page_snapshot_id" p))) ]
  ++ text_field "terminal_phase"
       (λ s, mem s ["COMPLETED"; "CANCELLED"; "FAILED"; "REFUSED"; "QUARANTINED"; "BUDGET_EXHAUSTED"]) p
  ++ bigint_field "terminal_event_seq" (λ n, (0 <? n) && (n <=? 9007199254740991)) p
  ++ [ Some (is_some (jb_workflow_instance_id row)); Some (is_some (jb_work_item_id row));
       Some (is_some (jb_attempt_id row));
       Some (existsb (λ r, bool_decide (rn_tenant_id r = jb_tenant_id row)
                           && is_uuid "run_id" (rn_id r) p
                           && bool_decide (Some (rn_work_item_id r) = jb_work_item_id row)
                           && bool_decide (Some (rn_attempt_id r) = jb_attempt_id row)
                           && rn_authoritative r && is_uuid "worker_id" (rn_worker_id r) p
                           && is_text "external_run_id" (rn_external_run_id r) p
                           && existsb (λ m, bool_decide (sm_tenant_id m = rn_tenant_id r)
                                            && bool_decide (sm_run_id m = rn_id r)
                                            && bool_decide (sm_state m = "TERMINAL_READY"))
                                (ro_streams t)) (ro_runs t)) ].

(** The routes of [CLAIM_KNOWN_UNSERVICEABLE_DUE_JOB_SQL]. *)
Definition unserviceable_route (known : list (string * string)) (claims : ReadyClaimSet)
    (now : DateTime) (t : RouteTables) (id : Uuid) (row : JobRow) : option bool :=
  let type name := Some (bool_decide (jb_job_type row = name)) in
  one_holds
    [ all_hold [ Some (negb (is_canonical_worker_scoped_job_type (jb_job_type row)));
                 Some (type_route row known); Some (negb (type_route row (rc_unscoped claims))) ];
      all_hold (type "RECONCILE_WORKER"
        :: unavailable_route RECONCILE_WORKER_ACTIVITY_CONTRACT_ID (rc_reconcile_worker claims) known row
        ++ unserviceable_reconciliation row);
      all_hold (type "REQUEST_WORK_ITEM_CANCELLATION"
        :: unavailable_route REQUEST_WORK_ITEM_CANCELLATION_ACTIVITY_CONTRACT_ID
             (rc_cancellation_worker claims) known row
        ++ unserviceable_cancellation t row);
      all_hold (type "OBSERVE_RUNMILL_RUN"
        :: unavailable_route OBSERVE_RUNMILL_RUN_ACTIVITY_CONTRACT_ID
             (rc_observe_runmill_run_worker claims) known row
        ++ unserviceable_observation now t id row);
      all_hold (type "RETAIN_RUNMILL_TERMINAL_EVIDENCE"
        :: unavailable_route RETAIN_RUNMILL_TERMINAL_EVIDENCE_ACTIVITY_CONTRACT_ID
             (rc_retain_runmill_terminal_evidence_worker claims) known row
        ++ unserviceable_retention t row) ].

(** ** Statements *)

(** A due job. *)
Definition job_due (tenant_id : Uuid) (now : DateTime) (row : JobRow) : bool :=
  bool_decide (jb_tenant_id row = tenant_id)
  && (mem (jb_status row) ["PENDING"; "RETRY"] && (jb_available_at row <=? now)
      || bool_decide (jb_status row = "RUNNING") && lease_expired now row).

(** The first [limit] unlocked rows that satisfy a condition. *)
Definition select_jobs {K} `{Ord K} (key : Uuid * JobRow → K) (limit : nat)
    (condition : Uuid → JobRow → bool) (locked : Uuid → bool) (q : Queue) : list (Uuid * JobRow) :=
  take limit (sort_by_key key
    (List.filter (λ p, condition p.1 p.2 && negb (locked p.1)) (map_to_list (q_jobs q)))).

(** The assignments of a claim. *)
Definition reclaimed_row (attempts : JobRow → Z) (lease_owner : string) (expires_at : DateTime)
    (row : JobRow) : JobRow :=
  {| jb_tenant_id := jb_tenant_id row; jb_workflow_instance_id := jb_workflow_instance_id row;
     jb_work_item_id := jb_work_item_id row; jb_attempt_id := jb_attempt_id row;
     jb_job_type := jb_job_type row; jb_activity_contract_id := jb_activity_contract_id row;
     jb_payload := jb_payload row; jb_idempotency_key := jb_idempotency_key row;
     jb_priority := jb_priority row; jb_available_at := jb_available_at row;
     jb_max_attempts := jb_max_attempts row; jb_status := "RUNNING";
     jb_attempt_count := attempts row; jb_fence_token := jb_fence_token row + 1;
     jb_lease := Some (lease_owner, expires_at); jb_result := jb_result row;
     jb_completion := jb_completion row; jb_failure := jb_failure row;
     jb_created_at := jb_created_at row |}.

(** [released_external_effects] of the candidates whose lease ran out. *)
Definition release_expired_effects (note : string) (tenant_id : Uuid)
    (chosen : list (Uuid * JobRow)) (effects : gmap Uuid EffectRow) : gmap Uuid EffectRow :=
  let expired := (List.filter (λ p, bool_decide (jb_status p.2 = "RUNNING")) chosen).*1 in
  (λ e,
    if bool_decide (ef_tenant_id e = tenant_id)
       && match ef_owning_workflow_job_id e with Some id => mem id expired | None => false end
       && bool_decide (ef_status e = "IN_FLIGHT") && external_mutation e
    then released_effect_with note e else e) <$> effects.

(** The update of the chosen rows. *)
Definition take_claims (context note : string) (tenant_id : Uuid) (lease_owner : string) (lease : Z)
    (attempts : JobRow → Z) (now : DateTime) (chosen : list (Uuid * JobRow)) (q : Queue)
  : res (Queue * list ClaimedWorkflowJob) :=
  let ids := chosen.*1 in
  let expires_at := now + milliseconds lease in
  let claimed := reclaimed_row attempts lease_owner expires_at in
  let effects := release_expired_effects note tenant_id chosen (q_effects q) in
  bail_if (existsb (λ id, claim_referenced id effects) ids) (Persistence [Lit context]) ;;
  Ok (mkQueue (map_imap (λ id row, Some (if mem id ids then claimed row else row)) (q_jobs q)) effects,
      (λ p, claimed_job_from_row p.1 (claimed p.2) lease_owner expires_at) <$> chosen).

Record ReactorOptions := mkReactorOptions {
  op_lease_owner : string;
  op_poll_interval : Duration;
  op_lease_duration : Duration;
  op_max_error_backoff : Duration;
  op_claim_batch_size : Z
}.

(** [i64::try_from(options.lease_duration.as_millis())]. *)
Definition reactor_lease_milliseconds (options : ReactorOptions) : res Z :=
  ok_or (try_from i64_max (as_millis (op_lease_duration options)))
    (Validation [Lit "reactor workflow lease duration is too large"]).

(** What one statement finds: the clock, the rows other transactions hold and
    the tables of the routes. *)
Record Moment := mkMoment {
  mo_now : DateTime;
  mo_locked : Uuid → bool;
  mo_routes : RouteTables
}.

Definition ready_candidate (claims : ReadyClaimSet) (tenant_id : Uuid) (m : Moment) (id : Uuid)
    (row : JobRow) : bool :=
  ready_route claims (mo_now m) (mo_routes m) id row
  && (jb_attempt_count row <? jb_max_attempts row) && job_due tenant_id (mo_now m) row.

Definition claim_ready_jobs (tenant_id : Uuid) (options : ReactorOptions) (claims : ReadyClaimSet)
    (m : Moment) (q : Queue) : res (Queue * list ClaimedWorkflowJob) :=
  if ReadyClaimSet_is_empty claims then Ok (q, []) else
  lease ← reactor_lease_milliseconds options;
  let chosen := select_jobs claim_key (Z.to_nat (op_claim_batch_size options))
                  (ready_candidate claims tenant_id m) (mo_locked m) q in
  take_claims "claim reactor workflow jobs" expiry_note tenant_id (op_lease_owner options) lease
    (λ row, jb_attempt_count row + 1) (mo_now m) chosen q.

(** [fetch_optional]. *)
Definition claim_one (claimed : res (Queue * list ClaimedWorkflowJob))
  : res (Queue * option ClaimedWorkflowJob) :=
  '(q, jobs) ← claimed; Ok (q, head jobs).

(** [GREATEST(job.attempt_count, job.max_attempts)]. *)
Definition exhausted (row : JobRow) : Z := Z.max (jb_attempt_count row) (jb_max_attempts row).

Definition claim_one_route_invalid_scoped_job (tenant_id : Uuid) (options : ReactorOptions)
    (m : Moment) (q : Queue) : res (Queue * option ClaimedWorkflowJob) :=
  lease ← reactor_lease_milliseconds options;
  let chosen := select_jobs claim_key 1
    (λ id row, route_invalid (mo_now m) (mo_routes m) id row && job_due tenant_id (mo_now m) row)
    (mo_locked m) q in
  claim_one (take_claims "claim route-invalid scoped workflow job" route_invalid_note tenant_id
               (op_lease_owner options) lease exhausted (mo_now m) chosen q).

(** [ORDER BY job.lease_expires_at, job.id]. *)
Definition orphan_key (p : Uuid * JobRow) : Z * N := (from_option snd 0 (jb_lease p.2), p.1).

Definition orphan_candidate (claims : ReadyClaimSet) (tenant_id : Uuid) (m : Moment) (id : Uuid)
    (row : JobRow) : bool :=
  bool_decide (jb_tenant_id row = tenant_id) && bool_decide (jb_status row = "RUNNING")
  && (jb_max_attempts row <=? jb_attempt_count row) && lease_expired (mo_now m) row
  && orphan_route claims (mo_now m) (mo_routes m) id row.

Definition claim_one_orphaned_exhausted_job (tenant_id : Uuid) (options : ReactorOptions)
    (claims : ReadyClaimSet) (m : Moment) (q : Queue) : res (Queue * option ClaimedWorkflowJob) :=
  lease ← reactor_lease_milliseconds options;
  let chosen := select_jobs orphan_key 1 (orphan_candidate claims tenant_id m) (mo_locked m) q in
  claim_one (take_claims "claim orphaned exhausted workflow job" expiry_note tenant_id
               (op_lease_owner options) lease jb_attempt_count (mo_now m) chosen q).

(** A due job whose route does not evaluate is an error of the statement. *)
Definition unserviceable_error (known : list (string * string)) (claims : ReadyClaimSet)
    (tenant_id : Uuid) (m : Moment) (q : Queue) : bool :=
  existsb (λ p, job_due tenant_id (mo_now m) p.2
                && is_none (unserviceable_route known claims (mo_now m) (mo_routes m) p.1 p.2))
    (map_to_list (q_jobs q)).

Definition unserviceable_candidate (known : list (string * string)) (claims : ReadyClaimSet)
    (tenant_id : Uuid) (m : Moment) (id : Uuid) (row : JobRow) : bool :=
  job_due tenant_id (mo_now m) row
  && bool_decide (unserviceable_route known claims (mo_now m) (mo_routes m) id row = Some true).

Definition claim_one_known_unserviceable_due_job {W} (tenant_id : Uuid) (options : ReactorOptions)
    (handlers : HandlerRegistry W) (m : Moment) (q : Queue)
  : res (Queue * option ClaimedWorkflowJob) :=
  lease ← reactor_lease_milliseconds options;
  let known := known_job_type_contract_pairs handlers in
  let claims := ready_claim_set handlers in
  bail_if (unserviceable_error known claims tenant_id m q)
    (Persistence [Lit "claim known-unserviceable due workflow job"]) ;;
  let chosen := select_jobs claim_key 1 (unserviceable_candidate known claims tenant_id m)
                  (mo_locked m) q in
  claim_one (take_claims "claim known-unserviceable due workflow job" expiry_note tenant_id
               (op_lease_owner options) lease exhausted (mo_now m) chosen q).

(** [UNKNOWN_OR_INCOMPATIBLE_DUE_JOB_SQL]. *)
Definition unknown_or_incompatible_due_job (tenant_id : Uuid) (known : list (string * string))
    (now : DateTime) (q : Queue) : option JobRow :=
  snd <$> head (select_jobs claim_key 1
    (λ _ row, job_due tenant_id now row && negb (type_route row known)) (λ _, false) q).

Definition reject_unknown_or_incompatible_due_job (tenant_id : Uuid)
    (known_routes : list (string * string)) (now : DateTime) (q : Queue) : res unit :=
  match unknown_or_incompatible_due_job tenant_id known_routes now q with
  | Some row =>
      if existsb (λ p, bool_decide (p.1 = jb_job_type row)) known_routes then
        Err (Validation [Lit "due durable workflow job type "; Dbg (jb_job_type row);
               Lit " has incompatible activity contract id "; Dbg (jb_activity_contract_id row);
               Lit "; no work was claimed"])
      else
        Err (Validation [Lit "unsupported durable workflow job type "; Dbg (jb_job_type row);
               Lit "; no work was claimed"])
  | None => Ok tt
  end.
End claims.
