(* ===== verification/Reactor.v ===== *)
(** The reactor, [src/src/runtime/reactor.rs]: its options, the finalization of a
    claimed job, dead-lettering through an escalation or an operational incident,
    the scans that dead-letter jobs without a handler, dispatch and supervision.

    The tables extend those of the dead letters ([DeadLetter]) with
    [operational_incidents], the incident and time of a dead job and the policy
    digest of a work item.  A transaction that fails changes nothing; calls that
    commit more than once return the tables next to the result.  The identifiers
    of [Uuid::now_v7], the instants of [Utc::now] and the clock of the database
    are arguments ([Minted]).  The handler's [execute] acts on the tables and on
    the outside world [X].

    The whole of [poll_once] is in [Poll], with the producers of [Producers],
    the timers of [Timers] and the reservations of [Reservations]. *)

From Stdlib Require Import ZArith Lia Ascii.
From stdpp Require Import base tactics option strings pretty numbers list gmap.
From S2P Require Import Prelude RustStr RustOrd Ids Crypto Security AuditChain RunEvents Outcome JobQueue RunmillOrder Steps DeadLetter Handlers ReactorClaims.

Definition ORPHANED_FINAL_ATTEMPT_ERROR : string :=
  "final workflow-job attempt ended without a committed outcome; recovered after its claim expired".
Definition ROUTE_INVALID_SCOPED_JOB_ERROR : string :=
  "known worker-scoped workflow job has a missing, malformed, or contradictory immutable route; no daemon call was attempted".
Definition KNOWN_UNSERVICEABLE_DUE_JOB_ERROR : string :=
  "known durable activity type is installed as unavailable; workflow job escalated to operational incident".

(** ** Options *)

Definition ReactorOptions_validate (o : ReactorOptions) : res unit :=
  bail_if (blank (op_lease_owner o)) (Validation [Lit "reactor lease owner must be non-empty"]) ;;
  bail_if (op_poll_interval o =? 0) (Validation [Lit "reactor poll interval must be positive"]) ;;
  bail_if (op_lease_duration o <=? op_poll_interval o)
    (Validation [Lit "reactor lease duration must exceed its poll interval"]) ;;
  bail_if (MAX_JOB_LEASE_DURATION <? op_lease_duration o)
    (Validation [Lit "reactor lease duration cannot exceed 24 hours"]) ;;
  bail_if (op_max_error_backoff o <? op_poll_interval o)
    (Validation [Lit "reactor maximum error backoff cannot be shorter than its poll interval"]) ;;
  bail_if (negb ((1 <=? op_claim_batch_size o) && (op_claim_batch_size o <=? 1000)))
    (Validation [Lit "reactor claim batch size must be in 1..=1000"]).

(** ** Delays *)

(** The largest [std::time::Duration], and its [checked_mul]. *)
Definition STD_DURATION_MAX : Duration := (2 ^ 64 - 1) * nanos + (nanos - 1).
Definition duration_checked_mul (d : Duration) (n : Z) : option Duration :=
  if d * n <=? STD_DURATION_MAX then Some (d * n) else None.

(** [u32::try_from(attempt_count.saturating_sub(1)).unwrap_or(u32::MAX).min(20)];
    [1_u32.checked_shl] is defined below 32. *)
Definition job_retry_delay (base maximum : Duration) (attempt_count : Z) : Duration :=
  let less := Z.max (- 2 ^ 31) (attempt_count - 1) in
  let exponent := Z.min (if less <? 0 then u32_max else less) 20 in
  let multiplier := if exponent <? 32 then Z.shiftl 1 exponent else u32_max in
  Z.min (default maximum (duration_checked_mul base multiplier)) maximum.

Definition doubled_backoff (current maximum : Duration) : Duration :=
  Z.min (default maximum (duration_checked_mul current 2)) maximum.

(** ** Tables *)

Record IncidentRow := mkIncidentRow {
  ic_id : Uuid;
  ic_tenant_id : Uuid;
  ic_workflow_job_id : Uuid;
  ic_category : string;
  ic_status : string;
  ic_severity : string;
  ic_reason : string;
  ic_owner_type : string;
  ic_owner_id : string;
  ic_required_action : string;
  ic_evidence_references : Value;
  ic_deadline : DateTime;
  ic_escalation_path : Value;
  ic_retry_policy : Value;
  ic_prerequisites : Value;
  ic_authority_or_effect_active : bool;
  ic_idempotency_key : string;
  ic_opened_at : DateTime
}.

Record ReactorTables := mkReactorTables {
  rx_dead : DeadLetterTables;
  rx_incidents : list IncidentRow;
  rx_links : gmap Uuid (Uuid * DateTime);
  rx_policy_digests : gmap (Uuid * Uuid) string
}.

Definition rx_steps (s : ReactorTables) : StepTables := dt_steps (rx_dead s).
Definition rx_queue (s : ReactorTables) : Queue := sx_queue (rx_steps s).
Definition set_dead (d : DeadLetterTables) (s : ReactorTables) : ReactorTables :=
  mkReactorTables d (rx_incidents s) (rx_links s) (rx_policy_digests s).
Definition set_steps (t : StepTables) (s : ReactorTables) : ReactorTables :=
  set_dead (mkDeadLetterTables t (dt_escalations (rx_dead s)) (dt_dead_letters (rx_dead s))) s.
Definition set_rx_queue (q : Queue) (s : ReactorTables) : ReactorTables :=
  set_steps (set_queue q (rx_steps s)) s.

(** The identifiers and clocks of one dead letter: the escalation or incident,
    the audit event, the message, [Utc::now] and the clock of the database, with
    the escalations that others commit in between. *)
Record Minted := mkMinted {
  mi_record : Uuid;
  mi_audit : Uuid;
  mi_outbox : Uuid;
  mi_opened_at : DateTime;
  mi_now : DateTime;
  mi_between : list EscalationRow
}.

(** [{:?}] of a string, which escapes it. *)
Class DebugText := { debug_text : string → string }.

Section reactor.
  Context {pg : PgColumns} {jsonb : Jsonb} {uuids : UuidText} {hashing : Hashing}.
  Context {audit_jcs : Canonical AuditEventContent} {value_jcs : Canonical Value}.
  Context {jsonb_texts : JsonbText} {times : DateTimeText} {chrono : Chrono} {debug : DebugText}.

(** [format!]. *)
Definition render_fragment (f : fragment) : string :=
  match f with
  | Lit s | Disp s => s
  | Dbg s => debug_text s
  | FmtUuid u => uuid_to_string u
  | FmtNum n => pretty n
  end.
Definition render (m : message) : string := String.concat "" (render_fragment <$> m).

(** [checked_add_signed]. *)
Definition checked_add_signed (t : DateTime) (d : Duration) : option DateTime :=
  if (datetime_min <=? t + d) && (t + d <=? datetime_max) then Some (t + d) else None.

(** ** Dead letters of work items *)

Definition strings (l : list string) : Value := Array (VString <$> l).

Definition escalation_path_value : Value :=
  Array [ Object [("owner_type", VString "ON_CALL"); ("owner_id", VString "platform-operations")];
          Object [("owner_type", VString "TEAM"); ("owner_id", VString "platform-engineering")] ].
Definition retry_policy_value : Value :=
  no_retry (strings ["remote effects reconciled"; "operator decision recorded"]).
Definition prerequisites_value : Value :=
  strings ["inspect failure evidence"; "reconcile ambiguous remote effects"].
Definition job_evidence (job : ClaimedWorkflowJob) (error_digest : string) : Value :=
  strings ["workflow-job:" +:+ uuid_to_string (cj_id job); error_digest].

Definition work_item_action : string :=
  "inspect the activity failure evidence, reconcile any remote effect, then explicitly retry, replace, or cancel the work item".
Definition tenant_action : string :=
  "inspect the tenant activity failure evidence, reconcile any remote effect, then explicitly re-enqueue, replace, or disable the activity".

(** The columns read before the failure is written. *)
Definition load_fences (job : ClaimedWorkflowJob) (work_item_id workflow_instance_id : Uuid)
    (s : ReactorTables) : res WorkflowStepFence :=
  let stale := Conflict [Lit "workflow job "; FmtUuid (cj_id job);
                 Lit " no longer matches its workflow/work-item binding"] in
  work ← ok_or (sx_work_items (rx_steps s) !! (cj_tenant_id job, work_item_id)) stale;
  workflow ← ok_or (wf ← sx_workflows (rx_steps s) !! (cj_tenant_id job, workflow_instance_id);
                    if bool_decide (wf_row_work_item_id wf = work_item_id) then Some wf else None) stale;
  Ok {| sf_tenant_id := cj_tenant_id job; sf_job_id := cj_id job;
        sf_workflow_instance_id := workflow_instance_id; sf_work_item_id := work_item_id;
        sf_lease_owner := cj_lease_owner job; sf_job_fence_token := cj_fence_token job;
        sf_expected_work_item_version := wi_row_version work;
        sf_expected_workflow_version := wf_row_version workflow;
        sf_expected_workflow_fence_token := wf_row_fence_token workflow;
        sf_expected_anchor_generation :=
          from_option an_generation 0 (sx_anchors (rx_steps s) !! (cj_tenant_id job, work_item_id)) |}.

(** The failure handed to [fail_workflow_step]. *)
Definition exhausted_failure (job : ClaimedWorkflowJob) (fence : WorkflowStepFence)
    (policy_digest : option string) (error : string) (retry_at deadline : DateTime) (m : Minted)
  : WorkflowStepFailure :=
  let error_digest := sha256_digest (bytes error) in
  let correlation_id := "workflow-job-exhausted:" +:+ uuid_to_string (cj_id job) in
  {| sl_fence := fence; sl_error_summary := error; sl_retry_at := retry_at;
     sl_dead_letter :=
       {| de_id := mi_record m; de_run_id := None; de_category := "WORKFLOW_JOB_EXHAUSTED";
          de_severity := "HIGH";
          de_reason := "durable activity " +:+ cj_job_type job +:+ " exhausted all "
                       +:+ pretty (cj_max_attempts job) +:+ " configured attempts";
          de_owner_type := "ON_CALL"; de_owner_id := "platform-operations";
          de_required_action := work_item_action;
          de_evidence_references := job_evidence job error_digest; de_deadline := deadline;
          de_escalation_path := escalation_path_value; de_retry_policy := retry_policy_value;
          de_prerequisites := prerequisites_value; de_authority_or_effect_active := true;
          de_idempotency_key := correlation_id; de_opened_at := mi_opened_at m;
          de_audit_event :=
            {| sa_id := mi_audit m; sa_attempt_id := cj_attempt_id job; sa_actor_type := "SERVICE";
               sa_actor_id := cj_lease_owner job; sa_action := "WORKFLOW_JOB_EXHAUSTED";
               sa_subject_type := "WORKFLOW_JOB"; sa_subject_id := uuid_to_string (cj_id job);
               sa_correlation_id := correlation_id; sa_trace_id := None;
               sa_policy_digest := policy_digest; sa_before_digest := None; sa_after_digest := None;
               sa_details := Object
                 [ ("job_type", VString (cj_job_type job));
                   ("attempt_count", Number (pretty (cj_attempt_count job)));
                   ("max_attempts", Number (pretty (cj_max_attempts job)));
                   ("error_digest", VString error_digest);
                   ("escalation_id", uuid_value (mi_record m)) ];
               sa_occurred_at := mi_opened_at m |};
          de_outbox_message :=
            {| om_id := mi_outbox m; om_topic := "attention";
               om_message_key := uuid_to_string (sf_work_item_id fence);
               om_event_type := "workflow_job.exhausted";
               om_payload := Object
                 [ ("work_item_id", uuid_value (sf_work_item_id fence));
                   ("workflow_job_id", uuid_value (cj_id job));
                   ("escalation_id", uuid_value (mi_record m));
                   ("owner_type", VString "ON_CALL"); ("owner_id", VString "platform-operations");
                   ("required_action", VString work_item_action); ("deadline", time_value deadline);
                   ("evidence_references", job_evidence job error_digest) ];
               om_headers := Object [("schema", VString "asf.attention-event/v1")];
               om_idempotency_key := correlation_id +:+ ":outbox";
               om_available_at := mi_opened_at m |} |} |}.

Definition dead_letter_work_item_claim (job : ClaimedWorkflowJob) (error : string)
    (retry_at : DateTime) (m : Minted) (s : ReactorTables) : res ReactorTables :=
  workflow_instance_id ← ok_or (cj_workflow_instance_id job)
    (Validation [Lit "exhausted workflow job "; FmtUuid (cj_id job);
                 Lit " has no workflow binding for an owned escalation"]);
  work_item_id ← ok_or (cj_work_item_id job)
    (Validation [Lit "exhausted workflow job "; FmtUuid (cj_id job);
                 Lit " has no work-item binding for an owned escalation"]);
  fence ← load_fences job work_item_id workflow_instance_id s;
  deadline ← ok_or (checked_add_signed (mi_opened_at m) (hours 4))
    (Validation [Lit "dead-letter escalation deadline overflowed"]);
  let failure := exhausted_failure job fence
    (rx_policy_digests s !! (cj_tenant_id job, work_item_id)) error retry_at deadline m in
  '(d, outcome) ← fail_workflow_step failure (mi_between m) (mi_now m) (rx_dead s);
  bail_if (negb (bool_decide (fo_disposition outcome = WorkflowStepFailureDisposition.Escalated)))
    (Persistence [Lit "exhausted workflow job "; FmtUuid (cj_id job); Lit " was not escalated"]) ;;
  Ok (set_dead d s).

(** ** Dead letters of tenant activities *)

(** The conditions on the job, but for the time of the lease. *)
Definition exhausted_claim (job : ClaimedWorkflowJob) (row : JobRow) : bool :=
  bool_decide (jb_tenant_id row = cj_tenant_id job) && bool_decide (jb_status row = "RUNNING")
  && is_none (jb_workflow_instance_id row) && is_none (jb_work_item_id row)
  && is_none (jb_attempt_id row) && (jb_max_attempts row <=? jb_attempt_count row)
  && bool_decide (fst <$> jb_lease row = Some (cj_lease_owner job))
  && (jb_fence_token row =? cj_fence_token job).

Definition lease_running (now : DateTime) (row : JobRow) : bool :=
  match jb_lease row with Some (_, expires_at) => now <? expires_at | None => false end.

(** [UPDATE workflow_jobs SET status = 'DEAD', …]. *)
Definition dead_row (job : ClaimedWorkflowJob) (error_summary : string) (retry_at now : DateTime)
    (row : JobRow) : JobRow :=
  {| jb_tenant_id := jb_tenant_id row; jb_workflow_instance_id := jb_workflow_instance_id row;
     jb_work_item_id := jb_work_item_id row; jb_attempt_id := jb_attempt_id row;
     jb_job_type := jb_job_type row; jb_activity_contract_id := jb_activity_contract_id row;
     jb_payload := jb_payload row; jb_idempotency_key := jb_idempotency_key row;
     jb_priority := jb_priority row; jb_available_at := Z.max (stored_at retry_at) now;
     jb_max_attempts := jb_max_attempts row; jb_status := "DEAD";
     jb_attempt_count := jb_attempt_count row; jb_fence_token := jb_fence_token row;
     jb_lease := None; jb_result := jb_result row; jb_completion := jb_completion row;
     jb_failure := Some (cj_lease_owner job, cj_fence_token job, stored_at retry_at, error_summary);
     jb_created_at := jb_created_at row |}.

Definition operational_key (job : ClaimedWorkflowJob) : string :=
  "operational-job-exhausted:" +:+ uuid_to_string (cj_id job).

(** The row of [INSERT INTO operational_incidents]. *)
Definition incident_row (job : ClaimedWorkflowJob) (error_digest : string) (deadline : DateTime)
    (m : Minted) : IncidentRow :=
  {| ic_id := mi_record m; ic_tenant_id := cj_tenant_id job; ic_workflow_job_id := cj_id job;
     ic_category := "WORKFLOW_JOB_EXHAUSTED"; ic_status := "OPEN"; ic_severity := "HIGH";
     ic_reason := "tenant activity " +:+ cj_job_type job +:+ " exhausted all "
                  +:+ pretty (cj_max_attempts job) +:+ " configured attempts";
     ic_owner_type := "ON_CALL"; ic_owner_id := "platform-operations";
     ic_required_action := tenant_action;
     ic_evidence_references := stored_value (job_evidence job error_digest);
     ic_deadline := stored_at deadline; ic_escalation_path := stored_value escalation_path_value;
     ic_retry_policy := stored_value retry_policy_value;
     ic_prerequisites := stored_value prerequisites_value; ic_authority_or_effect_active := true;
     ic_idempotency_key := operational_key job; ic_opened_at := stored_at (mi_opened_at m) |}.

Definition array_length (v : Value) : Z :=
  match v with Array l => Z.of_nat (length l) | _ => 0 end.

(** The checks and keys of the table. *)
Definition insert_incident (i : IncidentRow) (rows : list IncidentRow) : res (list IncidentRow) :=
  bail_if (negb (0 <? array_length (ic_evidence_references i))
           || (ic_deadline i <=? ic_opened_at i)
           || existsb (λ x, bool_decide (ic_id x = ic_id i)
                || bool_decide (ic_tenant_id x = ic_tenant_id i)
                   && (bool_decide (ic_idempotency_key x = ic_idempotency_key i)
                       || bool_decide (ic_workflow_job_id x = ic_workflow_job_id i)
                          && bool_decide (ic_category x = ic_category i))) rows)
    (Persistence [Lit "insert exhausted operational-job incident"]) ;;
  Ok (rows ++ [i]).

Definition append_operational_failure_audit (job : ClaimedWorkflowJob) (m : Minted)
    (error_digest : string) (t : StepTables) : res StepTables :=
  event ← HashedAuditEvent_create
    {| ae_id := mi_audit m; ae_tenant_id := cj_tenant_id job; ae_work_item_id := None;
       ae_attempt_id := None; ae_actor_type := "SERVICE"; ae_actor_id := cj_lease_owner job;
       ae_action := "OPERATIONAL_WORKFLOW_JOB_EXHAUSTED"; ae_subject_type := "WORKFLOW_JOB";
       ae_subject_id := uuid_to_string (cj_id job); ae_correlation_id := operational_key job;
       ae_trace_id := None; ae_policy_digest := None; ae_before_digest := None;
       ae_after_digest := None;
       ae_previous_event_hash := audit_head (cj_tenant_id job) (sx_audit t);
       ae_details := Object
         [ ("job_type", VString (cj_job_type job));
           ("attempt_count", Number (pretty (cj_attempt_count job)));
           ("max_attempts", Number (pretty (cj_max_attempts job)));
           ("error_digest", VString error_digest);
           ("operational_incident_id", uuid_value (mi_record m)) ];
       ae_occurred_at := mi_opened_at m |};
  HashedAuditEvent_verify event ;;
  bail_if (existsb (λ e, bool_decide (ae_id (he_content e) = mi_audit m)
             || bool_decide (ae_tenant_id (he_content e) = cj_tenant_id job)
                && bool_decide (he_event_hash e = he_event_hash event)) (sx_audit t))
    (Persistence [Lit "append operational failure audit"]) ;;
  Ok (set_audit (sx_audit t ++ [stored_event event]) t).

Definition operational_message (job : ClaimedWorkflowJob) (error_digest : string)
    (deadline : DateTime) (m : Minted) : StepOutboxMessage :=
  {| om_id := mi_outbox m; om_topic := "attention"; om_message_key := uuid_to_string (cj_id job);
     om_event_type := "operational_job.exhausted";
     om_payload := Object
       [ ("workflow_job_id", uuid_value (cj_id job));
         ("operational_incident_id", uuid_value (mi_record m));
         ("job_type", VString (cj_job_type job)); ("owner_type", VString "ON_CALL");
         ("owner_id", VString "platform-operations"); ("required_action", VString tenant_action);
         ("deadline", time_value deadline);
         ("evidence_references", job_evidence job error_digest) ];
     om_headers := Object [("schema", VString "asf.operational-attention-event/v1")];
     om_idempotency_key := operational_key job +:+ ":outbox";
     om_available_at := mi_opened_at m |}.

(** [INSERT INTO outbox] without a conflict clause. *)
Definition insert_message (tenant_id : Uuid) (msg : StepOutboxMessage) (t : StepTables)
  : res StepTables :=
  bail_if (existsb (λ r, bool_decide (om_id (or_message r) = om_id msg)
             || bool_decide (or_tenant_id r = tenant_id)
                && bool_decide (om_idempotency_key (or_message r) = om_idempotency_key msg))
             (sx_outbox t))
    (Persistence [Lit "insert exhausted operational-job outbox message"]) ;;
  Ok (set_outbox (sx_outbox t ++ [mkOutboxRow tenant_id msg]) t).

(** The final [SELECT EXISTS]. *)
Definition incident_is_complete (job : ClaimedWorkflowJob) (incident_id : Uuid) (s : ReactorTables)
  : bool :=
  match q_jobs (rx_queue s) !! cj_id job, rx_links s !! cj_id job with
  | Some row, Some (link, dead_lettered_at) =>
      bool_decide (jb_tenant_id row = cj_tenant_id job) && bool_decide (jb_status row = "DEAD")
      && existsb (λ i, bool_decide (ic_tenant_id i = jb_tenant_id row)
           && bool_decide (ic_workflow_job_id i = cj_id job) && bool_decide (ic_id i = link)
           && bool_decide (ic_id i = incident_id) && mem (ic_status i) ["OPEN"; "ACKNOWLEDGED"]
           && bool_decide (ic_owner_id i = "platform-operations")
           && bool_decide (ic_required_action i = tenant_action)
           && (dead_lettered_at <? ic_deadline i)
           && (0 <? array_length (ic_evidence_references i))) (rx_incidents s)
  | _, _ => false
  end.

Definition dead_letter_operational_claim (job : ClaimedWorkflowJob) (error : string)
    (retry_at : DateTime) (m : Minted) (s : ReactorTables) : res ReactorTables :=
  let owned := match q_jobs (rx_queue s) !! cj_id job with
    | Some row => exhausted_claim job row && lease_running (mi_now m) row
    | None => false
    end in
  bail_if (negb owned)
    (Conflict [Lit "workflow job "; FmtUuid (cj_id job);
               Lit " claim is stale, expired, or no longer exhausted"]) ;;
  deadline ← ok_or (checked_add_signed (mi_opened_at m) (hours 4))
    (Validation [Lit "operational incident deadline overflowed"]);
  let error_digest := sha256_digest (bytes error) in
  incidents ← insert_incident (incident_row job error_digest deadline m) (rx_incidents s);
  updated ← update_claim "dead-letter exhausted operational workflow job" (cj_id job)
    (exhausted_claim job) (dead_row job (summarize_error error) retry_at (mi_now m)) (rx_queue s);
  q ← ok_or updated
    (Conflict [Lit "workflow job "; FmtUuid (cj_id job);
               Lit " claim became stale while opening its operational incident"]);
  t ← append_operational_failure_audit job m error_digest (set_queue q (rx_steps s));
  t ← insert_message (cj_tenant_id job) (operational_message job error_digest deadline m) t;
  let s' := mkReactorTables
    (mkDeadLetterTables t (dt_escalations (rx_dead s)) (dt_dead_letters (rx_dead s)))
    incidents (<[cj_id job := (mi_record m, stored_at (mi_opened_at m))]> (rx_links s))
    (rx_policy_digests s) in
  bail_if (negb (incident_is_complete job (mi_record m) s'))
    (Conflict [Lit "dead operational workflow job "; FmtUuid (cj_id job);
               Lit " has no matching owned incident"]) ;;
  Ok s'.

Definition dead_letter_exhausted_claim (job : ClaimedWorkflowJob) (error : string)
    (retry_at : DateTime) (m : Minted) (s : ReactorTables) : res ReactorTables :=
  match cj_workflow_instance_id job, cj_work_item_id job, cj_attempt_id job with
  | Some _, Some _, _ => dead_letter_work_item_claim job error retry_at m s
  | None, None, None => dead_letter_operational_claim job error retry_at m s
  | _, _, _ => Err (Validation [Lit "exhausted workflow job "; FmtUuid (cj_id job);
                      Lit " has an incomplete workflow/work-item binding"])
  end.

(** ** Finalization *)

Inductive ExecutionDisposition := ExecutionCompleted | Retried | TransactionallyFinalized.

(** [found] are the tables that the second statement of [fail_job] finds. *)
Definition retry_claim (job : ClaimedWorkflowJob) (error : string) (retry_at now later : DateTime)
    (s found : ReactorTables) : res ReactorTables :=
  bail_if (cj_max_attempts job <=? cj_attempt_count job)
    (Validation [Lit "handler for exhausted workflow job "; FmtUuid (cj_id job);
                 Lit " must atomically dead-letter it with an owned escalation"]) ;;
  '(q, outcome) ← fail_job (cj_tenant_id job) (cj_id job) (cj_lease_owner job) (cj_fence_token job)
    error retry_at now later (rx_queue s) (rx_queue found);
  match JobQueue.fo_disposition outcome with
  | RetryScheduled =>
      Ok (if JobQueue.fo_newly_recorded outcome then set_rx_queue q s else found)
  | Dead => Err (Persistence [Lit "non-exhausted workflow job "; FmtUuid (cj_id job);
                   Lit " returned an unexpected failure disposition"])
  end.

Definition verify_handler_finalized (job : ClaimedWorkflowJob) (expected_status : string)
    (s : ReactorTables) : res unit :=
  row ← load_job (cj_tenant_id job) (cj_id job) (rx_queue s);
  if bool_decide (jb_status row = expected_status) then Ok tt
  else Err (Conflict [Lit "handler reported "; Disp expected_status; Lit " for workflow job ";
              FmtUuid (cj_id job); Lit ", but durable status is "; Disp (jb_status row)]).

(** The row was settled under this owner and fence. *)
Definition claim_was_settled_by_same_fence (job : ClaimedWorkflowJob) (s : ReactorTables) : bool :=
  match load_job (cj_tenant_id job) (cj_id job) (rx_queue s) with
  | Ok row =>
      if bool_decide (jb_status row = "COMPLETED") then
        bool_decide (fst <$> jb_completion row = Some (cj_lease_owner job, cj_fence_token job))
      else if mem (jb_status row) ["RETRY"; "DEAD"] then
        bool_decide ((λ f, f.1.1) <$> jb_failure row = Some (cj_lease_owner job, cj_fence_token job))
      else false
  | _ => false
  end.

(** What a finalization finds: [Utc::now], the clocks of its two statements, the
    tables of the second and the identifiers of a dead letter. *)
Record Settling := mkSettling {
  sg_utc_now : DateTime;
  sg_now : DateTime;
  sg_later : DateTime;
  sg_found : ReactorTables;
  sg_minted : Minted
}.

Definition record_claim_failure (job : ClaimedWorkflowJob) (error : string) (retry_at : DateTime)
    (g : Settling) (s : ReactorTables) : res (ReactorTables * ExecutionDisposition) :=
  if cj_attempt_count job <? cj_max_attempts job then
    s ← retry_claim job error retry_at (sg_now g) (sg_later g) s (sg_found g);
    Ok (s, Retried)
  else
    s ← dead_letter_exhausted_claim job error retry_at (sg_minted g) s;
    Ok (s, TransactionallyFinalized).

(** [chrono::Duration::from_std]. *)
Definition from_std (d : Duration) : res Duration :=
  bail_if (duration_max <? d) (Validation [Lit "invalid reactor retry delay"]) ;; Ok d.

Definition finalize_claimed_job (options : ReactorOptions) (job : ClaimedWorkflowJob)
    (outcome : outcome Error ActivityOutcome) (g : Settling) (s : ReactorTables)
  : res (ReactorTables * ExecutionDisposition) :=
  match outcome with
  | Success (Complete result) =>
      '(q, completed) ← complete_job (cj_tenant_id job) (cj_id job) (cj_lease_owner job)
        (cj_fence_token job) result (sg_now g) (rx_queue s) (rx_queue (sg_found g));
      Ok (match completed with Completed => set_rx_queue q s | AlreadyCompleted => sg_found g end,
          ExecutionCompleted)
  | Success (RetryActivity error retry_at) => record_claim_failure job error retry_at g s
  | Success TransactionCommitted =>
      verify_handler_finalized job "COMPLETED" s ;; Ok (s, TransactionallyFinalized)
  | Success DeadLetterCommitted =>
      verify_handler_finalized job "DEAD" s ;; Ok (s, TransactionallyFinalized)
  | Failure error =>
      delay ← from_std (job_retry_delay (op_poll_interval options) (op_max_error_backoff options)
                          (cj_attempt_count job));
      retry_at ← dt_add (sg_utc_now g) delay;
      record_claim_failure job (render (Error_to_message error)) retry_at g s
  | Crash => Panic
  end.

(** ** Dispatch and execution *)

Section worlds.
  Context {X : Type}.
Let W : Type := ReactorTables * X.

(** The checks of [poll_once] on a claimed job. *)
Definition dispatch (handlers : HandlerRegistry W) (job : ClaimedWorkflowJob) : res (JobHandler W) :=
  h ← ok_or (handler handlers (cj_job_type job))
    (Validation [Lit "claimed unknown durable job type "; Dbg (cj_job_type job)]);
  bail_if (negb (JobClaimScope_matches (jh_claim_scope h) job))
    (Validation [Lit "claimed durable job "; FmtUuid (cj_id job);
                 Lit " does not match handler scope for "; Dbg (cj_job_type job)]) ;;
  bail_if (negb (bool_decide (jh_activity_contract_id h = cj_activity_contract_id job)))
    (Validation [Lit "claimed durable job "; FmtUuid (cj_id job);
                 Lit " declares activity contract id "; Dbg (cj_activity_contract_id job);
                 Lit ", but the installed "; Dbg (cj_job_type job); Lit " handler serves ";
                 Dbg (jh_activity_contract_id h)]) ;;
  Ok h.

(** A renewal that failed while the handler was running: its error, the tables
    in which the settlement is looked up and the world in which the dropped
    execution leaves things. *)
Record LostLease := mkLostLease {
  ll_error : Error;
  ll_seen : ReactorTables;
  ll_world : W
}.

(** [tokio::select!] over the execution and its heartbeat: [lost] is the first
    renewal that failed before the execution ended, if any. *)
Definition execute_claimed_job (h : JobHandler W) (options : ReactorOptions)
    (controls : ActivityControls) (job : ClaimedWorkflowJob) (lost : option LostLease)
    (g : W → Settling) (w : W) : W * res ExecutionDisposition :=
  if negb (ready h) then
    (w, Err (Validation [Lit "unavailable handler for "; Disp (cj_job_type job);
               Lit " was allowed to claim job "; FmtUuid (cj_id job)]))
  else
    let execution :=
      let '(w', outcome) := jh_execute h job controls w in
      match finalize_claimed_job options job outcome (g w') w'.1 with
      | Ok (s, d) => ((s, w'.2), Ok d)
      | Err e => (w', Err e)
      | Panic => (w', Panic)
      end in
    match lost with
    | None => execution
    | Some l =>
        if claim_was_settled_by_same_fence job (ll_seen l) then execution
        else (ll_world l, Err (ll_error l))
    end.
End worlds.

(** ** Scans *)

(** One of the loops of [poll_once]: claim a job, dead-letter it, up to [n]
    times.  The claim is committed before the dead letter is written. *)
Fixpoint dead_letter_scan (n : nat)
    (claim : nat → Queue → res (Queue * option ClaimedWorkflowJob)) (error : string)
    (mint : nat → Minted) (utc_now : nat → DateTime) (overflow : Error) (count : Z)
    (s : ReactorTables) : ReactorTables * res Z :=
  match n with
  | O => (s, Ok count)
  | S n =>
      match claim n (rx_queue s) with
      | Ok (q, None) => (s, Ok count)
      | Ok (q, Some job) =>
          let s := set_rx_queue q s in
          match dead_letter_exhausted_claim job error (utc_now n) (mint n) s with
          | Ok s =>
              match checked_add u32_max count 1 with
              | Some count => dead_letter_scan n claim error mint utc_now overflow count s
              | None => (s, Err overflow)
              end
          | Err e => (s, Err e)
          | Panic => (s, Panic)
          end
      | Err e => (s, Err e)
      | Panic => (s, Panic)
      end
  end.

Definition reject_route_invalid_jobs (tenant_id : Uuid) (options : ReactorOptions)
    (moments : nat → Moment) (mint : nat → Minted) (utc_now : nat → DateTime) (s : ReactorTables)
  : ReactorTables * res Z :=
  dead_letter_scan (Z.to_nat (op_claim_batch_size options))
    (λ n, claim_one_route_invalid_scoped_job tenant_id options (moments n))
    ROUTE_INVALID_SCOPED_JOB_ERROR mint utc_now
    (Persistence [Lit "rejected route count overflowed"]) 0 s.

Definition recover_orphaned_jobs (tenant_id : Uuid) (options : ReactorOptions)
    (claims : ReadyClaimSet) (moments : nat → Moment) (mint : nat → Minted)
    (utc_now : nat → DateTime) (s : ReactorTables) : ReactorTables * res Z :=
  dead_letter_scan (Z.to_nat (op_claim_batch_size options))
    (λ n, claim_one_orphaned_exhausted_job tenant_id options claims (moments n))
    ORPHANED_FINAL_ATTEMPT_ERROR mint utc_now
    (Persistence [Lit "recovered job count overflowed"]) 0 s.

Definition escalate_unserviceable_jobs {W} (tenant_id : Uuid) (options : ReactorOptions)
    (handlers : HandlerRegistry W) (moments : nat → Moment) (mint : nat → Minted)
    (utc_now : nat → DateTime) (s : ReactorTables) : ReactorTables * res Z :=
  dead_letter_scan (Z.to_nat (op_claim_batch_size options))
    (λ n, claim_one_known_unserviceable_due_job tenant_id options handlers (moments n))
    KNOWN_UNSERVICEABLE_DUE_JOB_ERROR mint utc_now
    (Persistence [Lit "known-unserviceable job count overflowed"]) 0 s.
End reactor.

(** ** Supervision *)

(** One turn of the loop of [run]: whether shutdown was requested before the
    poll, what the poll returned, and whether shutdown came during the wait. *)
Record Turn := mkTurn {
  tn_shutdown : bool;
  tn_poll : res unit;
  tn_interrupted : bool
}.

(** The waits and, once the loop has ended, its result. *)
Fixpoint run (o : ReactorOptions) (error_backoff : Duration) (turns : list Turn)
  : list Duration * option (res unit) :=
  match turns with
  | [] => ([], None)
  | t :: turns =>
      if tn_shutdown t then ([], Some (Ok tt)) else
      let wait d next :=
        if tn_interrupted t then ([d], Some (Ok tt))
        else let '(waits, result) := run o next turns in (d :: waits, result) in
      match tn_poll t with
      | Ok _ => wait (op_poll_interval o) (op_poll_interval o)
      | Err (Validation m) => ([], Some (Err (Validation m)))
      | Err _ => wait error_backoff (doubled_backoff error_backoff (op_max_error_backoff o))
      | Panic => ([], Some Panic)
      end
  end.
