(* ===== verification/ReactorFacts.v ===== *)
(** What the reactor guarantees ([ReactorClaims], [Reactor]): a claimed job always
    has its handler, dispositions that are reported are durable, dead jobs are
    owned, delays are bounded; and which jobs no statement ever takes. *)

From Stdlib Require Import ZArith Lia Ascii.
From stdpp Require Import base tactics option strings pretty numbers list gmap.
From S2P Require Import Prelude RustStr RustOrd Ids Crypto Security AuditChain RunEvents Outcome JobQueue JobQueueFacts RunmillOrder Steps StepFacts ReservationFacts DeadLetter DeadLetterFacts Handlers HandlerFacts ReactorClaims Reactor.

(** The text of an identifier is that of a JSON string only: it is neither that
    of a number, a literal, an array nor an object. *)
Class UuidJson `{UuidText, JsonbText} := {
  uuid_text_string v u : jsonb_text v = Some (uuid_to_string u) → v = VString (uuid_to_string u)
}.

Section claims.
  Context {pg : PgColumns} {jsonb : Jsonb} {uuids : UuidText} {jsonb_texts : JsonbText}.

(** ** Statements that claim *)

Lemma elem_of_select {K} `{Ord K} (key : Uuid * JobRow → K) n cond locked q id row :
  (id, row) ∈ select_jobs key n cond locked q →
  q_jobs q !! id = Some row ∧ cond id row = true ∧ locked id = false.
Proof.
  unfold select_jobs. intros (i & Hi & _)%elem_of_take. apply list_elem_of_lookup_2 in Hi.
  rewrite elem_of_sort_by_key, elem_of_filter_bool in Hi.
  destruct Hi as [Hm%elem_of_map_to_list Hp]. simpl in Hp.
  rewrite andb_true_iff, negb_true_iff in Hp. tauto.
Qed.

Lemma select_nodup {K} `{Ord K} (key : Uuid * JobRow → K) n cond locked q :
  NoDup (select_jobs key n cond locked q).*1.
Proof. apply selection_nodup. Qed.

(** What a claim makes of the queue. *)
Record claims_rows (attempts : JobRow → Z) (owner : string) (expires_at : DateTime)
    (chosen : list (Uuid * JobRow)) (q q' : Queue) (jobs : list ClaimedWorkflowJob) : Prop := {
  cr_jobs : jobs = (λ p, claimed_job_from_row p.1 (reclaimed_row attempts owner expires_at p.2)
                           owner expires_at) <$> chosen;
  cr_taken id row : (id, row) ∈ chosen → q_jobs q !! id = Some row →
    q_jobs q' !! id = Some (reclaimed_row attempts owner expires_at row);
  cr_others id : id ∉ chosen.*1 → q_jobs q' !! id = q_jobs q !! id
}.

Lemma take_claims_ok context note tenant_id owner lease attempts now chosen q q' jobs :
  take_claims context note tenant_id owner lease attempts now chosen q = Ok (q', jobs) →
  claims_rows attempts owner (now + milliseconds lease) chosen q q' jobs.
Proof.
  unfold take_claims. rewrite bind_unit_ok. intros [_ [= <- <-]]. split; [done| |]; simpl.
  - intros id row Hin Hrow. rewrite map_lookup_imap, Hrow. simpl.
    assert (mem id chosen.*1 = true) as ->; [|done].
    apply mem_true. by apply (list_elem_of_fmap_2 fst _ (id, row)).
  - intros id Hn. rewrite map_lookup_imap. destruct (q_jobs q !! id); [|done]. simpl.
    assert (mem id chosen.*1 = false) as ->; [|done]. apply not_true_iff_false. by rewrite mem_true.
Qed.

(** ** Ready routes are served *)

Lemma text_at_uuid `{!UuidJson} key p u : text_at key p = Some (uuid_to_string u) →
  field key p ≫= value_as_str = Some (uuid_to_string u).
Proof.
  unfold text_at. destruct (field key p) as [v|]; simpl; [|done]. intros E%uuid_text_string. by subst.
Qed.

Lemma worker_route_serves `{!UuidJson} {W} (r : HandlerRegistry W) f t row :
  well_formed r → routes_of f t → worker_route row (f (ready_claim_set r)) = true →
  serves r t (jb_activity_contract_id row) (field "worker_id" (payload row) ≫= value_as_str).
Proof.
  intros Hw Hf Hr. apply (routes_of_serve f t) in Hr as Hs; [|done|done].
  destruct Hs as (h & Hh & R & E & Hsw).
  assert (∃ u, text_at "worker_id" (payload row) = Some (uuid_to_string u)) as [u Hu].
  { unfold worker_route in Hr. rewrite <-Hsw, scope_worker_for in *.
    destruct (scope_for (jh_claim_scope h)) as [[t' u]|]; [by exists u|done]. }
  exists h. split_and!; [done..|]. rewrite Hsw, Hu. symmetry. by apply text_at_uuid.
Qed.

Lemma ready_route_serves `{!UuidJson} {W} (r : HandlerRegistry W) now t id row :
  well_formed r → ready_route (ready_claim_set r) now t id row = true →
  serves r (jb_job_type row) (jb_activity_contract_id row)
    (if is_canonical_worker_scoped_job_type (jb_job_type row)
     then field "worker_id" (payload row) ≫= value_as_str else None).
Proof.
  intros Hw Hr. unfold ready_route in Hr. rewrite !orb_true_iff in Hr.
  destruct Hr as [[[[Hr|Hr]|Hr]|Hr]|Hr].
  { unfold type_route in Hr. apply has_route_true, unscoped_field in Hr as Hs.
    apply serves_worker in Hs as Hc; [|done]. by rewrite Hc. }
  all: repeat match goal with H : _ && _ = true |- _ => apply andb_true_iff in H as [H ?] end.
  all: match goal with H : bool_decide (jb_job_type _ = _) = true |- _ =>
         apply bool_decide_eq_true in H as -> end; change (is_canonical_worker_scoped_job_type _) with true;
       cbn iota.
  - apply (worker_route_serves r rc_reconcile_worker); [done|unfold routes_of; naive_solver|done].
  - apply (worker_route_serves r rc_cancellation_worker); [done|unfold routes_of; naive_solver|done].
  - apply (worker_route_serves r rc_observe_runmill_run_worker);
      [done|unfold routes_of; naive_solver|done].
  - apply (worker_route_serves r rc_retain_runmill_terminal_evidence_worker);
      [done|unfold routes_of; naive_solver|done].
Qed.

(** A claimed row, as the handler and the queue see it. *)
Record leased (options : ReactorOptions) (now : DateTime) (q q' : Queue) (job : ClaimedWorkflowJob)
  : Prop := {
  ls_row : ∃ row, q_jobs q !! cj_id job = Some row ∧
    cj_fence_token job = jb_fence_token row + 1 ∧
    cj_attempt_count job = jb_attempt_count row + 1 ∧ cj_attempt_count job ≤ cj_max_attempts job ∧
    ∃ row', q_jobs q' !! cj_id job = Some row' ∧ jb_status row' = "RUNNING" ∧
      jb_fence_token row' = cj_fence_token job ∧
      jb_lease row' = Some (op_lease_owner options, cj_lease_expires_at job) ∧
      jb_tenant_id row' = cj_tenant_id job;
  ls_owner : cj_lease_owner job = op_lease_owner options;
  ls_expiry : cj_lease_expires_at job = now + milliseconds (as_millis (op_lease_duration options))
}.

(** C16. Every job that the reactor claims has its handler: for a well-formed
    registry, a job that the claim statement returns passes all the checks of the
    dispatch, so that the reactor never stops over a job it has just leased.  Its
    handler is ready, serves the contract of the job and, for a type that names
    workers, the worker of its payload.  The statement takes at most a batch, a
    job with attempts left gets one more attempt and the next fence under the
    lease of this reactor, and every other job stays as it was. *)
Theorem claimed_jobs_dispatch `{!UuidJson} {X} (r : HandlerRegistry (ReactorTables * X)) tenant_id
    options m q q' jobs :
  well_formed r →
  claim_ready_jobs tenant_id options (ready_claim_set r) m q = Ok (q', jobs) →
  (∀ job, job ∈ jobs →
     (∃ h, dispatch r job = Ok h ∧ ready h = true) ∧ leased options (mo_now m) q q' job) ∧
  Z.of_nat (length jobs) ≤ Z.max 0 (op_claim_batch_size options) ∧
  (∀ id, id ∉ (cj_id <$> jobs) → q_jobs q' !! id = q_jobs q !! id).
Proof.
  intros Hw. unfold claim_ready_jobs. destruct (ReadyClaimSet_is_empty _).
  { intros [= <- <-]. simpl. split_and!; [|lia|done]. intros job Hin. by apply elem_of_nil in Hin. }
  intros (lease & Hl%ok_or_ok & Hc)%bind_ok. apply try_from_some in Hl as [_ ->].
  apply take_claims_ok in Hc as [-> Ht Ho]. split_and!.
  - intros job ([id row] & -> & Hin)%list_elem_of_fmap. simpl.
    destruct (elem_of_select _ _ _ _ _ _ _ Hin) as (Hrow & Hc & _).
    unfold ready_candidate in Hc. rewrite !andb_true_iff, Z.ltb_lt in Hc.
    destruct Hc as [[Hr Ha] Hd]. split.
    + apply ready_route_serves in Hr as Hs; [|done]. destruct Hs as (h & Hh & _).
      set (job := claimed_job_from_row id _ _ _).
      destruct (serves_matches r job h (jb_activity_contract_id row)) as (M & R & E); [done..| |].
      { by apply ready_route_serves in Hr. }
      exists h. split; [|done]. unfold dispatch, handler. simpl. rewrite Hh. simpl.
      fold job. rewrite M. simpl. by rewrite bool_decide_true.
    + split; [|done|done]. exists row. simpl. split_and!; [done..|lia|].
      eexists. split; [by apply Ht|]. done.
  - rewrite length_fmap. unfold select_jobs. rewrite length_take. lia.
  - intros id Hn. apply Ho. intros Hin. apply Hn.
    apply list_elem_of_fmap in Hin as (p & -> & Hin). apply list_elem_of_fmap.
    eexists. split; [|apply list_elem_of_fmap_2, Hin]. done.
Qed.

(** ** Jobs that no statement takes *)

Lemma not_selected {K} `{Ord K} (key : Uuid * JobRow → K) n cond locked q id row :
  q_jobs q !! id = Some row → cond id row = false → id ∉ (select_jobs key n cond locked q).*1.
Proof.
  intros Hrow Hc ([id' row'] & -> & Hin)%list_elem_of_fmap. simpl in *.
  apply elem_of_select in Hin as (Hrow' & Hc' & _). congruence.
Qed.

Lemma claim_one_keeps context note tenant_id owner lease attempts now chosen q q' job id :
  claim_one (take_claims context note tenant_id owner lease attempts now chosen q) = Ok (q', job) →
  id ∉ chosen.*1 → q_jobs q' !! id = q_jobs q !! id.
Proof.
  unfold claim_one. intros ([q1 jobs] & Ht%take_claims_ok & [= <- <-])%bind_ok. apply Ht.
Qed.

Lemma retention_unserviceable {W} (r : HandlerRegistry W) known now t id row contract w :
  well_formed r → serves r RETAIN_RUNMILL_TERMINAL_EVIDENCE contract w →
  jb_job_type row = RETAIN_RUNMILL_TERMINAL_EVIDENCE →
  unserviceable_route known (ready_claim_set r) now t id row = Some false.
Proof.
  intros Hw Hs Ht. apply serves_worker in Hs as Hc; [|done]. destruct w as [w|]; [|done].
  assert (rc_retain_runmill_terminal_evidence_worker (ready_claim_set r) ≠ []) as Hne.
  { apply (routes_of_serve rc_retain_runmill_terminal_evidence_worker) in Hs;
      [|done|unfold routes_of; naive_solver]. intros E. by rewrite E in Hs. }
  unfold unserviceable_route, unavailable_route. rewrite Ht.
  rewrite (bool_decide_false (rc_retain_runmill_terminal_evidence_worker _ = [])) by done.
  simpl. by destruct (bool_decide (jb_activity_contract_id row = _)).
Qed.

(** A retention job whose payload is malformed is invisible to a process that
    has the retention handler installed: while it has attempts left, neither the
    claim of ready jobs nor any of the three scans that dead-letter jobs ever
    takes it, whatever the clock, the locks and the other tables are, and it does
    not stop the reactor either.  The scan for invalid routes covers the other
    three types that name workers only. *)
Lemma malformed_retention_invisible {W} (r : HandlerRegistry W) tenant_id options m q id row w :
  well_formed r →
  serves r RETAIN_RUNMILL_TERMINAL_EVIDENCE (jb_activity_contract_id row) w →
  q_jobs q !! id = Some row → jb_job_type row = RETAIN_RUNMILL_TERMINAL_EVIDENCE →
  jb_attempt_count row < jb_max_attempts row → retention_shape (payload row) = false →
  (∀ q' jobs, claim_ready_jobs tenant_id options (ready_claim_set r) m q = Ok (q', jobs) →
     q_jobs q' !! id = Some row ∧ id ∉ (cj_id <$> jobs)) ∧
  (∀ q' job, claim_one_route_invalid_scoped_job tenant_id options m q = Ok (q', job) →
     q_jobs q' !! id = Some row) ∧
  (∀ q' job, claim_one_orphaned_exhausted_job tenant_id options (ready_claim_set r) m q = Ok (q', job) →
     q_jobs q' !! id = Some row) ∧
  (∀ q' job, claim_one_known_unserviceable_due_job tenant_id options r m q = Ok (q', job) →
     q_jobs q' !! id = Some row) ∧
  type_route row (known_job_type_contract_pairs r) = true.
Proof.
  intros Hw Hs Hrow Ht Ha Hshape.
  assert (∀ claims, rc_unscoped claims = rc_unscoped (ready_claim_set r) →
    ready_route claims (mo_now m) (mo_routes m) id row = false) as Hready.
  { intros claims E. unfold ready_route, retention_route. rewrite Hshape, E.
    assert (type_route row (rc_unscoped (ready_claim_set r)) = false) as ->.
    { apply not_true_iff_false. unfold type_route. rewrite has_route_true, unscoped_field.
      intros Hu%serves_worker; [|done]. rewrite Ht in Hu. done. }
    rewrite Ht. simpl. by rewrite andb_false_r. }
  split_and!.
  - intros q' jobs. unfold claim_ready_jobs. destruct (ReadyClaimSet_is_empty _).
    { intros [= <- <-]. split; [done|]. apply not_elem_of_nil. }
    intros (lease & _ & Hc)%bind_ok. apply take_claims_ok in Hc as [-> _ Ho].
    assert (id ∉ (select_jobs claim_key (Z.to_nat (op_claim_batch_size options))
      (ready_candidate (ready_claim_set r) tenant_id m) (mo_locked m) q).*1) as Hn.
    { eapply not_selected; [done|]. unfold ready_candidate. by rewrite Hready. }
    split; [by rewrite Ho|]. by rewrite <-list_fmap_compose.
  - intros q' job. unfold claim_one_route_invalid_scoped_job. intros (lease & _ & Hc)%bind_ok.
    erewrite claim_one_keeps; [done|done|]. eapply not_selected; [done|].
    unfold route_invalid. by rewrite Ht.
  - intros q' job. unfold claim_one_orphaned_exhausted_job. intros (lease & _ & Hc)%bind_ok.
    erewrite claim_one_keeps; [done|done|]. eapply not_selected; [done|].
    unfold orphan_candidate. rewrite (proj2 (Z.leb_gt _ _)) by done. by rewrite !andb_false_r.
  - intros q' job. unfold claim_one_known_unserviceable_due_job. intros (lease & _ & Hc)%bind_ok.
    apply bind_unit_ok in Hc as [_ Hc].
    erewrite claim_one_keeps; [done|done|]. eapply not_selected; [done|].
    unfold unserviceable_candidate. erewrite retention_unserviceable by done.
    by rewrite andb_false_r.
  - destruct Hs as (h & Hh & _ & E & _). unfold type_route. rewrite has_route_true, Ht, <-E.
    unfold known_job_type_contract_pairs. apply list_elem_of_fmap.
    exists (RETAIN_RUNMILL_TERMINAL_EVIDENCE, h). by rewrite elem_of_handler_entries.
Qed.
End claims.

(** ** Dead letters *)

Section dead_letters.
  Context {pg : PgColumns} {jsonb : Jsonb} {uuids : UuidText} {hashing : Hashing}.
  Context {audit_jcs : Canonical AuditEventContent} {value_jcs : Canonical Value}.
  Context {jsonb_texts : JsonbText} {times : DateTimeText} {chrono : Chrono} {debug : DebugText}.
  Context {stored : StoredJson}.

Lemma create_content c e : HashedAuditEvent_create c = Ok e → he_content e = c.
Proof.
  unfold HashedAuditEvent_create. rewrite bind_unit_ok. intros [_ (h & _ & [= <-])%bind_ok]. done.
Qed.

Lemma append_operational_ok job m digest t t' :
  append_operational_failure_audit job m digest t = Ok t' →
  ∃ event, sx_audit t' = sx_audit t ++ [event] ∧
    ae_subject_id (he_content event) = uuid_to_string (cj_id job) ∧
    ae_action (he_content event) = "OPERATIONAL_WORKFLOW_JOB_EXHAUSTED" ∧
    ae_previous_event_hash (he_content event) = audit_head (cj_tenant_id job) (sx_audit t) ∧
    sx_queue t' = sx_queue t ∧ sx_outbox t' = sx_outbox t.
Proof.
  unfold append_operational_failure_audit. intros (event & Hc%create_content & H)%bind_ok.
  rewrite !bind_unit_ok in H. destruct H as (_ & _ & [= <-]). exists (stored_event event).
  destruct event as [c h]. simpl in *. by subst c.
Qed.

(** The job is dead, fenced by its claim, and somebody owns it. *)
Record dead_and_owned (job : ClaimedWorkflowJob) (error : string) (retry_at : DateTime)
    (s s' : ReactorTables) : Prop := {
  do_row : ∃ row, q_jobs (rx_queue s') !! cj_id job = Some row ∧ jb_status row = "DEAD" ∧
    jb_lease row = None ∧
    jb_failure row = Some (cj_lease_owner job, cj_fence_token job, stored_at retry_at,
                           summarize_error error);
  do_owner :
    (∃ e, e ∈ dt_escalations (rx_dead s') ∧ is_active_escalation e = true ∧
       dt_dead_letters (rx_dead s') !! cj_id job = Some (es_id e) ∧
       Some (es_work_item_id e) = cj_work_item_id job ∧ es_opened_at e < es_deadline e ∧
       ∃ item generation, cj_work_item_id job = Some item ∧
         sx_anchors (rx_steps s') !! (cj_tenant_id job, item)
         = Some (mkAnchorRow "ESCALATION" (es_id e) (Some (stored_at (es_deadline e))) true generation)) ∨
    (∃ i dead_at, i ∈ rx_incidents s' ∧ ic_status i ∈ ["OPEN"; "ACKNOWLEDGED"] ∧ ic_tenant_id i = cj_tenant_id job ∧
       ic_workflow_job_id i = cj_id job ∧ rx_links s' !! cj_id job = Some (ic_id i, dead_at) ∧
       ic_owner_id i = "platform-operations" ∧ dead_at < ic_deadline i);
  do_audit : ∃ event, sx_audit (rx_steps s') = sx_audit (rx_steps s) ++ [event] ∧
    ae_subject_id (he_content event) = uuid_to_string (cj_id job);
  do_fenced : ∃ row, q_jobs (rx_queue s) !! cj_id job = Some row ∧ jb_status row = "RUNNING" ∧
    fst <$> jb_lease row = Some (cj_lease_owner job) ∧ jb_fence_token row = cj_fence_token job ∧
    jb_max_attempts row ≤ jb_attempt_count row
}.

Lemma operational_dead_and_owned job error retry_at m s s' :
  dead_letter_operational_claim job error retry_at m s = Ok s' →
  dead_and_owned job error retry_at s s'.
Proof.
  unfold dead_letter_operational_claim. rewrite bind_unit_ok, bail_if_ok, negb_false_iff.
  intros [Ho H]. destruct (q_jobs (rx_queue s) !! cj_id job) as [row|] eqn:Hrow; [|done].
  apply andb_true_iff in Ho as [Hx Hlive].
  apply bind_ok in H as (deadline & Hdl%ok_or_ok & H).
  apply bind_ok in H as (incidents & Hi & H). apply bind_ok in H as (updated & Hu & H).
  apply bind_ok in H as (q & Hq%ok_or_ok & H). subst updated.
  apply bind_ok in H as (t & Ha & H). apply bind_ok in H as (t' & Hm & H).
  rewrite bind_unit_ok, bail_if_ok, negb_false_iff in H. destruct H as [Hdone [= <-]].
  unfold insert_incident in Hi. apply bind_unit_ok in Hi as [_ [= <-]].
  apply update_claim_some in Hu as (row0 & Hr0 & _ & _ & ->).
  assert (row0 = row) as -> by congruence.
  apply append_operational_ok in Ha as (event & Hev & Hsub & _ & _ & Hq & Hout).
  unfold insert_message in Hm. apply bind_unit_ok in Hm as [_ [= <-]].
  unfold exhausted_claim in Hx. rewrite !andb_true_iff, !bool_decide_eq_true, Z.leb_le, Z.eqb_eq in Hx.
  destruct Hx as [[[[[[[Ht Hst] _] _] _] Hmax] Hown] Hf].
  assert (q_jobs (sx_queue t) !! cj_id job
    = Some (dead_row job (summarize_error error) retry_at (mi_now m) row)) as Hnew.
  { rewrite Hq. simpl. apply lookup_insert_eq. }
  split.
  - eexists. split; [exact Hnew|]. done.
  - right. unfold incident_is_complete in Hdone. unfold rx_queue, rx_steps in Hdone.
    cbn [rx_dead dt_steps rx_links rx_incidents sx_queue set_outbox] in Hdone.
    rewrite Hnew in Hdone. rewrite lookup_insert_eq in Hdone.
    rewrite !andb_true_iff, existsb_exists in Hdone. destruct Hdone as [_ (i & Hin & Hc)].
    rewrite !andb_true_iff, !bool_decide_eq_true, mem_true, !Z.ltb_lt in Hc.
    destruct Hc as [[[[[[[[Hit Hij] Hil] _] Hs] Hown'] _] Hdd] _]. simpl in Hit.
    exists i, (stored_at (mi_opened_at m)). split_and!; try done; [|congruence|].
    + by apply list_elem_of_In.
    + simpl. by rewrite Hil, lookup_insert_eq.
  - exists event. done.
  - exists row. done.
Qed.

Lemma running_newly prelocked force failure between now s s' outcome job :
  q_jobs (sx_queue (dt_steps s)) !! sf_job_id (sl_fence failure) = Some job →
  jb_status job = "RUNNING" →
  fail_workflow_step_inner prelocked force failure between now s = Ok (s', outcome) →
  fo_newly_recorded outcome = true.
Proof.
  intros Hj Hst H. unfold fail_workflow_step_inner in H. apply bind_unit_ok in H as [_ H].
  apply bind_ok in H as (job' & Hl & H). apply load_job_some in Hl as [Hl _].
  assert (job' = job) as -> by congruence. apply bind_unit_ok in H as [_ H].
  unfold repeated_failure_outcome in H. rewrite Hst in H. simpl in H.
  apply bind_unit_ok in H as [_ H]. apply bind_ok in H as ([s1 written] & _ & H).
  apply bind_ok in H as ([s2 status] & _ & H). by apply bind_ok in H as (d & _ & [= <- <-]).
Qed.

Lemma work_item_dead_and_owned job error retry_at m s s' row :
  ids_unique (dt_escalations (rx_dead s) ++ mi_between m) →
  q_jobs (rx_queue s) !! cj_id job = Some row → jb_status row = "RUNNING" →
  dead_letter_work_item_claim job error retry_at m s = Ok s' →
  dead_and_owned job error retry_at s s'.
Proof.
  intros Hu Hrow Hst H. unfold dead_letter_work_item_claim in H.
  apply bind_ok in H as (wf & Hwf%ok_or_ok & H). apply bind_ok in H as (item & Hitem%ok_or_ok & H).
  apply bind_ok in H as (fence & Hfence & H). apply bind_ok in H as (deadline & _ & H).
  apply bind_ok in H as ([d outcome] & Hf & H). rewrite bind_unit_ok, bail_if_ok, negb_false_iff in H.
  destruct H as [Hd%bool_decide_eq_true [= <-]]. set (failure := exhausted_failure _ _ _ _ _ _ _) in Hf.
  assert (sf_tenant_id fence = cj_tenant_id job ∧ sf_job_id fence = cj_id job ∧
          sf_work_item_id fence = item ∧ sf_lease_owner fence = cj_lease_owner job ∧
          sf_job_fence_token fence = cj_fence_token job) as (Et & Ej & Ei & Eo & Ef).
  { unfold load_fences in Hfence. apply bind_ok in Hfence as (? & _ & Hfence).
    by apply bind_ok in Hfence as (? & _ & [= <-]). }
  assert (q_jobs (sx_queue (dt_steps (rx_dead s))) !! sf_job_id (sl_fence failure) = Some row) as Hj.
  { simpl. by rewrite Ej. }
  assert (fo_newly_recorded outcome = true) as Hnew by (by eapply running_newly).
  apply (failure_cases _ _ _ _ _ _ _ _ Hu) in Hf as (_ & row0 & Hr0 & _ & _ & Hf).
  assert (row0 = row) as -> by congruence.
  destruct Hf as [[_ E]|[Hown Hf]]; [congruence|].
  destruct Hf as [(_ & _ & ->)|(mu & audit & outbox & t & He & Hmax & ->)]; [done|].
  destruct (escalated_disposed _ _ _ _ _ _ _ _ _ _ _ Hmax He) as (row' & Hrow' & Hdis).
  pose proof (el_job _ _ _ _ _ _ _ _ _ _ He) as Hq.
  simpl in Hown. unfold owned_claim in Hown.
  rewrite !andb_true_iff, !bool_decide_eq_true, Z.eqb_eq in Hown. destruct Hown as [[_ Hlease] Hft].
  inversion Hdis as [|e item' flow event Hx Hs Hin [record Ho] Hlink _ _ _ _ _ Hanchor Haudit Hsub _];
    subst. simpl in Hanchor, Hsub, Hlink. split.
  - rewrite Hq in Hrow'. simpl in Hrow'. rewrite lookup_insert_eq in Hrow'. injection Hrow' as <-.
    eexists. split.
    { unfold rx_queue, rx_steps. simpl. rewrite Hq. simpl. rewrite Ej. apply lookup_insert_eq. }
    simpl. rewrite <-Eo, <-Ef. done.
  - left. exists e. destruct Ho as [_ Hi _ _ Hact _ _ [Hop _] _ _]. simpl in Hi.
    split_and!; [done|done| |congruence|done|].
    + simpl. by rewrite <-Ej.
    + exists (sf_work_item_id fence). eexists. split; [done|].
      unfold rx_steps. simpl. rewrite <-Et. exact Hanchor.
  - exists event. split; [exact Haudit|]. by rewrite Hsub, Ej.
  - exists row. split_and!; try done; [by rewrite Hlease, Eo|by rewrite Hft|].
    destruct Hx as [?|?]; [done|lia].
Qed.

Lemma exhausted_dead_and_owned job error retry_at m s s' row :
  ids_unique (dt_escalations (rx_dead s) ++ mi_between m) →
  q_jobs (rx_queue s) !! cj_id job = Some row → jb_status row = "RUNNING" →
  dead_letter_exhausted_claim job error retry_at m s = Ok s' →
  dead_and_owned job error retry_at s s'.
Proof.
  intros Hu Hrow Hst. unfold dead_letter_exhausted_claim.
  destruct (cj_workflow_instance_id job), (cj_work_item_id job), (cj_attempt_id job); try done;
    first [apply operational_dead_and_owned | by eapply work_item_dead_and_owned].
Qed.

(** ** Finalization *)

Lemma complete_job_durable t id owner fence result now q found q' completed :
  complete_job t id owner fence result now q found = Ok (q', completed) →
  ∃ row, q_jobs q' !! id = Some row ∧ jb_status row = "COMPLETED" ∧
    fst <$> jb_completion row = Some (owner, fence) ∧ (completed = AlreadyCompleted → q' = found).
Proof.
  destruct completed.
  - intros (row & _ & _ & -> & _)%complete_job_completed. eexists. simpl.
    split; [apply lookup_insert_eq|done].
  - unfold complete_job. intros [_ (u & Hu & H)%bind_ok]%bind_unit_ok. destruct u; [done|].
    apply bind_ok in H as (x & Hx & [= <- _]). unfold completion_state in Hx.
    apply bind_ok in Hx as (row & [Hrow _]%load_job_some & Hx).
    destruct (_ && _) eqn:E in Hx; [|done].
    rewrite !andb_true_iff, !bool_decide_eq_true in E. destruct E as [[Hs Ho] Hf].
    exists row. split_and!; [done..| |done].
    destruct (jb_completion row) as [[[o f] at_]|]; simpl in *; congruence.
Qed.

Lemma fail_job_durable t id owner fence error retry_at now later q found q' out :
  fail_job t id owner fence error retry_at now later q found = Ok (q', out) →
  ∃ row, q_jobs q' !! id = Some row ∧
    jb_failure row = Some (owner, fence, stored_at retry_at, summarize_error error) ∧
    (if JobQueue.fo_newly_recorded out then jb_status row = "RETRY" else q' = found).
Proof.
  unfold fail_job. intros [_ (u & Hu & H)%bind_ok]%bind_unit_ok. destruct u as [q1|].
  - injection H as <- <-. apply update_claim_some in Hu as (row & _ & _ & _ & ->).
    eexists. split; [apply lookup_insert_eq|done].
  - apply bind_ok in H as (x & Hx & [= <- <-]). unfold failure_state in Hx.
    apply bind_ok in Hx as (row & [Hrow _]%load_job_some & Hx). apply bind_unit_ok in Hx as [_ Hx].
    destruct (jb_failure row) as [[[[o f] at_] e]|] eqn:Hf; [|done].
    destruct (_ && _) eqn:E in Hx; [|done].
    rewrite andb_true_iff, bool_decide_eq_true, Z.eqb_eq in E. destruct E as [-> ->].
    rewrite bind_unit_ok, bail_if_ok, orb_false_iff, !negb_false_iff, bool_decide_eq_true, Z.eqb_eq in Hx.
    destruct Hx as [[-> ->] [= <-]]. exists row. done.
Qed.

(** What a handler's answer reports as a failure. *)
Definition reports (answer : outcome Error ActivityOutcome) (error : string) (retry_at : DateTime) : Prop :=
  match answer with
  | Success (RetryActivity e at_) => error = e ∧ retry_at = at_
  | Failure e => error = render (Error_to_message e)
  | _ => False
  end.

Definition durable (s : ReactorTables) (job : ClaimedWorkflowJob) (P : JobRow → Prop) : Prop :=
  ∃ row, q_jobs (rx_queue s) !! cj_id job = Some row ∧ P row.

(** The state of the tables behind each disposition. *)
Inductive settled (job : ClaimedWorkflowJob) (answer : outcome Error ActivityOutcome)
    (s s' : ReactorTables) : ExecutionDisposition → Prop :=
| settled_completed result :
    answer = Success (Complete result) →
    durable s' job (λ row, jb_status row = "COMPLETED" ∧
      fst <$> jb_completion row = Some (cj_lease_owner job, cj_fence_token job)) →
    settled job answer s s' ExecutionCompleted
| settled_retried error retry_at :
    reports answer error retry_at → cj_attempt_count job < cj_max_attempts job →
    durable s' job (λ row, jb_failure row
      = Some (cj_lease_owner job, cj_fence_token job, stored_at retry_at, summarize_error error)) →
    settled job answer s s' Retried
| settled_committed :
    answer = Success TransactionCommitted → s' = s →
    durable s' job (λ row, jb_status row = "COMPLETED") →
    settled job answer s s' TransactionallyFinalized
| settled_dead_committed :
    answer = Success DeadLetterCommitted → s' = s →
    durable s' job (λ row, jb_status row = "DEAD") →
    settled job answer s s' TransactionallyFinalized
| settled_dead error retry_at :
    reports answer error retry_at → cj_max_attempts job ≤ cj_attempt_count job →
    dead_and_owned job error retry_at s s' →
    settled job answer s s' TransactionallyFinalized.

Lemma retry_claim_durable job error retry_at now later s found s' :
  retry_claim job error retry_at now later s found = Ok s' →
  durable s' job (λ row, jb_failure row
    = Some (cj_lease_owner job, cj_fence_token job, stored_at retry_at, summarize_error error)).
Proof.
  unfold retry_claim. intros [_ ([q out] & Hf & H)%bind_ok]%bind_unit_ok.
  apply fail_job_durable in Hf as (row & Hrow & Hfail & Hn).
  destruct (JobQueue.fo_disposition out); [|done]. injection H as <-. exists row. split; [|done].
  destruct (JobQueue.fo_newly_recorded out); [done|by subst q].
Qed.

Lemma record_failure_settled job answer error retry_at g s s' d row :
  ids_unique (dt_escalations (rx_dead s) ++ mi_between (sg_minted g)) →
  q_jobs (rx_queue s) !! cj_id job = Some row → jb_status row = "RUNNING" →
  reports answer error retry_at →
  record_claim_failure job error retry_at g s = Ok (s', d) → settled job answer s s' d.
Proof.
  intros Hu Hrow Hst Hr. unfold record_claim_failure. destruct (Z.ltb_spec (cj_attempt_count job) (cj_max_attempts job)).
  - intros (s1 & Hs%retry_claim_durable & [= <- <-])%bind_ok. by eapply settled_retried.
  - intros (s1 & Hs & [= <- <-])%bind_ok. eapply exhausted_dead_and_owned in Hs; [|done..].
    by eapply settled_dead.
Qed.

Lemma verified_durable job status s : verify_handler_finalized job status s = Ok tt →
  durable s job (λ row, jb_status row = status).
Proof.
  unfold verify_handler_finalized. intros (row & [Hrow _]%load_job_some & H)%bind_ok.
  case_bool_decide; [|done]. by exists row.
Qed.

(** C17. What the reactor reports of a claimed job is in its tables: a job that is
    reported completed is recorded as completed by this owner and fence; a retried
    one had attempts left and carries the failure, the time of the retry and the
    summary of the error that the handler reported; one that is reported final was
    committed as such by its handler and left alone, or it has used up its
    attempts and is now dead, under the fence of its claim, with an active
    escalation or an open incident of a named owner before a deadline and one new
    audit event. *)
Theorem reported_outcomes_durable options job answer g s s' d row :
  ids_unique (dt_escalations (rx_dead s) ++ mi_between (sg_minted g)) →
  q_jobs (rx_queue s) !! cj_id job = Some row →
  (jb_status row = "RUNNING" ∨ answer = Success TransactionCommitted ∨ answer = Success DeadLetterCommitted) →
  finalize_claimed_job options job answer g s = Ok (s', d) →
  settled job answer s s' d.
Proof.
  intros Hu Hrow Hst. destruct answer as [[result| |error retry_at|]|error|]; simpl; [..|done].
  - intros ([q completed] & Hc & [= <- <-])%bind_ok.
    apply complete_job_durable in Hc as (row' & Hr' & Hs & Hf & Hq).
    eapply settled_completed; [done|]. exists row'. split; [|done].
    destruct completed; [done|]. by rewrite <-Hq.
  - intros [Hv%verified_durable [= <- <-]]%bind_unit_ok. by eapply settled_committed.
  - destruct Hst as [Hst|[?|?]]; [|done..]. by eapply record_failure_settled.
  - intros [Hv%verified_durable [= <- <-]]%bind_unit_ok. by eapply settled_dead_committed.
  - destruct Hst as [Hst|[?|?]]; [|done..]. intros (delay & _ & H)%bind_ok.
    apply bind_ok in H as (retry_at & _ & H). by eapply record_failure_settled.
Qed.
End dead_letters.

(** ** Delays *)

Lemma checked_mul_min d n maximum :
  maximum ≤ STD_DURATION_MAX →
  Z.min (default maximum (duration_checked_mul d n)) maximum = Z.min (d * n) maximum.
Proof. intros Hm. unfold duration_checked_mul. destruct (Z.leb_spec (d * n) STD_DURATION_MAX); simpl; lia. Qed.

Lemma job_retry_delay_spec base maximum n :
  maximum ≤ STD_DURATION_MAX → ∃ k, 0 ≤ k ≤ 20 ∧ (1 ≤ n → k = Z.min (n - 1) 20) ∧
    job_retry_delay base maximum n = Z.min (base * 2 ^ k) maximum.
Proof.
  intros Hm. unfold job_retry_delay. set (less := Z.max (- 2 ^ 31) (n - 1)).
  set (k := Z.min (if less <? 0 then u32_max else less) 20).
  assert (0 ≤ k ≤ 20) as Hk by (unfold k, u32_max; destruct (Z.ltb_spec less 0); lia).
  exists k. split; [done|]. split.
  - intros Hn. unfold k, less, u32_max. destruct (Z.ltb_spec (Z.max (- 2 ^ 31) (n - 1)) 0); lia.
  - rewrite (proj2 (Z.ltb_lt k 32)) by lia. rewrite Z.shiftl_1_l. by apply checked_mul_min.
Qed.

Lemma valid_backoff o : ReactorOptions_validate o = Ok tt →
  op_poll_interval o ≤ op_max_error_backoff o.
Proof.
  unfold ReactorOptions_validate. rewrite !bind_unit_ok, !bail_if_ok. intros (_ & _ & _ & _ & H & _).
  by apply Z.ltb_ge in H.
Qed.

(** A poll that fails without ending the loop. *)
Definition fails (t : Turn) : Prop :=
  tn_shutdown t = false ∧ tn_interrupted t = false ∧
  ∃ e, tn_poll t = Err e ∧ ∀ m, e ≠ Validation m.

Lemma run_waits o b turns waits result :
  0 ≤ op_poll_interval o ≤ b → b ≤ op_max_error_backoff o → op_max_error_backoff o ≤ STD_DURATION_MAX →
  run o b turns = (waits, result) →
  Forall (λ d, op_poll_interval o ≤ d ≤ op_max_error_backoff o) waits ∧
  (∀ e, result = Some (Err e) → ∃ m t, e = Validation m ∧ t ∈ turns ∧ tn_poll t = Err e).
Proof.
  intros Hb Hm Hs. revert b waits result Hb Hm.
  induction turns as [|t turns IH]; intros b waits result Hb Hm; simpl; [by intros [= <- <-]|].
  destruct (tn_shutdown t); [by intros [= <- <-]|].
  assert (∀ d next, op_poll_interval o ≤ d ≤ op_max_error_backoff o →
    op_poll_interval o ≤ next → next ≤ op_max_error_backoff o →
    (if tn_interrupted t then ([d], Some (Ok tt))
     else let '(waits, result) := run o next turns in (d :: waits, result)) = (waits, result) →
    Forall (λ d, op_poll_interval o ≤ d ≤ op_max_error_backoff o) waits ∧
    (∀ e, result = Some (Err e) → ∃ m t0, e = Validation m ∧ t0 ∈ t :: turns ∧ tn_poll t0 = Err e)) as Hw.
  { intros d next Hd Hn1 Hn2. destruct (tn_interrupted t).
    { intros [= <- <-]. split; [|done]. by apply Forall_singleton. }
    destruct (run o next turns) as [ws r] eqn:Hr. intros [= <- <-].
    destruct (IH next ws r) as [IH1 IH2]; [lia..|done|]. split; [by apply Forall_cons|].
    intros e He. destruct (IH2 e He) as (m & t0 & ? & ? & ?). exists m, t0. split_and!; [done|by right|done]. }
  destruct (tn_poll t) as [u|e|] eqn:Hp; [apply Hw; lia| |by intros [= <- <-]].
  assert (doubled_backoff b (op_max_error_backoff o) = Z.min (b * 2) (op_max_error_backoff o)) as Hd.
  { by apply checked_mul_min. }
  destruct e; try (apply Hw; rewrite ?Hd; lia).
  intros [= <- <-]. split; [done|]. intros e [= <-]. exists m, t. split_and!; [done|by left|done].
Qed.

Lemma run_backoff o b turns k :
  0 ≤ b → op_max_error_backoff o ≤ STD_DURATION_MAX → b ≤ op_max_error_backoff o →
  (k < length turns)%nat → Forall fails (take (S k) turns) →
  (run o b turns).1 !! k = Some (Z.min (b * 2 ^ Z.of_nat k) (op_max_error_backoff o)).
Proof.
  intros Hb Hs. revert b k Hb. induction turns as [|t turns IH]; intros b k Hb Hm Hk Hf; simpl in *; [lia|].
  apply Forall_cons in Hf as [(H1 & H2 & e & He & Hv) Hf]. rewrite H1, H2, He.
  assert ((let '(waits, result) := run o (doubled_backoff b (op_max_error_backoff o)) turns in
           (b :: waits, result)).1 !! k = Some (Z.min (b * 2 ^ Z.of_nat k) (op_max_error_backoff o))) as Hgoal.
  { destruct (run o (doubled_backoff b (op_max_error_backoff o)) turns) as [ws r] eqn:Hr. cbn [fst].
    destruct k as [|k]; [simpl; f_equal; lia|]. change ((b :: ws) !! S k) with (ws !! k).
    specialize (IH (doubled_backoff b (op_max_error_backoff o)) k). rewrite Hr in IH. cbn [fst] in IH.
    assert (doubled_backoff b (op_max_error_backoff o) = Z.min (b * 2) (op_max_error_backoff o)) as Hd
      by (by apply checked_mul_min).
    etrans; [apply IH; rewrite ?Hd; [lia..|done]|]. f_equal. rewrite Hd.
    assert (0 < 2 ^ Z.of_nat k) by (apply Z.pow_pos_nonneg; lia).
    rewrite Nat2Z.inj_succ, Z.pow_succ_r by lia.
    nia. }
  destruct e; try exact Hgoal. by destruct (Hv m).
Qed.

(** The reactor's delays: for options that it accepts, the delay of a failed
    job is the poll interval doubled per attempt already made, twenty times at
    most, and the delay after consecutive failed polls is the poll interval doubled
    per poll; both are cut at the maximal backoff, also where the multiplication
    would overflow, so that no delay is below the poll interval or above the
    maximum.  The loop ends in an error for an error of validation only, the one
    that the poll returned. *)
Lemma reactor_delays_bounded o :
  0 ≤ op_poll_interval o → op_max_error_backoff o ≤ STD_DURATION_MAX →
  ReactorOptions_validate o = Ok tt →
  (∀ n, 1 ≤ n → job_retry_delay (op_poll_interval o) (op_max_error_backoff o) n
     = Z.min (op_poll_interval o * 2 ^ Z.min (n - 1) 20) (op_max_error_backoff o)) ∧
  (∀ n, op_poll_interval o ≤ job_retry_delay (op_poll_interval o) (op_max_error_backoff o) n
     ≤ op_max_error_backoff o) ∧
  ∀ turns waits result, run o (op_poll_interval o) turns = (waits, result) →
    Forall (λ d, op_poll_interval o ≤ d ≤ op_max_error_backoff o) waits ∧
    (∀ k, (k < length turns)%nat → Forall fails (take (S k) turns) →
       waits !! k = Some (Z.min (op_poll_interval o * 2 ^ Z.of_nat k) (op_max_error_backoff o))) ∧
    (∀ e, result = Some (Err e) → ∃ m t, e = Validation m ∧ t ∈ turns ∧ tn_poll t = Err e).
Proof.
  intros Hp Hs Hv%valid_backoff. split_and!.
  - intros n Hn. destruct (job_retry_delay_spec (op_poll_interval o) _ n Hs) as (k & _ & Hk & ->).
    by rewrite (Hk Hn).
  - intros n. destruct (job_retry_delay_spec (op_poll_interval o) _ n Hs) as (k & Hk & _ & ->).
    assert (0 < 2 ^ k) by (apply Z.pow_pos_nonneg; lia). nia.
  - intros turns waits result Hr. destruct (run_waits _ _ _ _ _ (conj Hp (Z.le_refl _)) Hv Hs Hr) as [H1 H2].
    split_and!; [done| |done]. intros k Hk Hf. pose proof (run_backoff o _ _ _ Hp Hs Hv Hk Hf) as H.
    by rewrite Hr in H.
Qed.

(** ** A process with two handlers *)

Module Sample.
#[local] Existing Instance ReservationFacts.Sample.uuids.
#[local] Existing Instance DeadLetterFacts.Sample.columns.
#[local] Existing Instance DeadLetterFacts.Sample.equality.
#[local] Existing Instance DeadLetterFacts.Sample.texts.
#[local] Existing Instance DeadLetterFacts.Sample.stored.
#[local] Existing Instance DeadLetterFacts.Sample.times.
#[local] Existing Instance DeadLetterFacts.Sample.value_jcs.
#[local] Existing Instances sample_hashing sample_jcs.
#[local] Instance calendar : Chrono :=
  {| datetime_min := - hours 1000; datetime_max := hours 1000; duration_max := hours 1000 |}.
#[local] Instance quotes : DebugText := {| debug_text s := s |}.

Lemma only_strings v u : jsonb_text v = Some (uuid_to_string u) → v = VString (uuid_to_string u).
Proof. destruct v; simpl; [..|done]; try done. by intros [= ->]. Qed.
#[local] Instance only_string_texts : UuidJson := {| uuid_text_string := only_strings |}.

Definition W : Type := ReactorTables * unit.
Definition answers (_ : ClaimedWorkflowJob) (_ : ActivityControls) : call W Error ActivityOutcome :=
  pure_call (Success (Complete None)).
Definition advance : JobHandler W :=
  mkJobHandler ADVANCE_ACCEPTED_WORK_ITEM ADVANCE_ACCEPTED_WORK_ITEM_ACTIVITY_CONTRACT_ID HReady
    Unscoped answers.
Definition retain : JobHandler W :=
  mkJobHandler RETAIN_RUNMILL_TERMINAL_EVIDENCE RETAIN_RUNMILL_TERMINAL_EVIDENCE_ACTIVITY_CONTRACT_ID
    HReady (RetainRunmillTerminalEvidenceWorker 9%N) answers.
Definition registry : HandlerRegistry W :=
  {[ ADVANCE_ACCEPTED_WORK_ITEM := advance; RETAIN_RUNMILL_TERMINAL_EVIDENCE := retain ]}.

Lemma registry_well_formed : well_formed registry.
Proof.
  split; [|done]. intros job_type h. unfold registry. intros [[<- <-]|[_ [<- <-]%lookup_singleton_Some]]%lookup_insert_Some;
    split; try done; try (vm_compute; by intros ? [= <-]).
Qed.

Definition job_row (job_type contract status : string) (attempts max : Z)
    (lease : option (string * DateTime)) : JobRow :=
  {| jb_tenant_id := 1%N; jb_workflow_instance_id := None; jb_work_item_id := None;
     jb_attempt_id := None; jb_job_type := job_type; jb_activity_contract_id := contract;
     jb_payload := Object []; jb_idempotency_key := "key"; jb_priority := 0; jb_available_at := 0;
     jb_max_attempts := max; jb_status := status; jb_attempt_count := attempts; jb_fence_token := attempts;
     jb_lease := lease; jb_result := None; jb_completion := None; jb_failure := None;
     jb_created_at := 0 |}.

Definition waiting : JobRow :=
  job_row ADVANCE_ACCEPTED_WORK_ITEM ADVANCE_ACCEPTED_WORK_ITEM_ACTIVITY_CONTRACT_ID "PENDING" 0 3 None.
Definition malformed : JobRow :=
  job_row RETAIN_RUNMILL_TERMINAL_EVIDENCE RETAIN_RUNMILL_TERMINAL_EVIDENCE_ACTIVITY_CONTRACT_ID
    "PENDING" 0 3 None.
Definition options : ReactorOptions := mkReactorOptions "reactor" (seconds 1) (seconds 30) (minutes 1) 10.
Definition moment : Moment := mkMoment 5 (λ _, false) (mkRouteTables [] [] [] [] [] [] []).
Definition queue : Queue := mkQueue {[ 11%N := waiting; 12%N := malformed ]} ∅.

Lemma claimed_jobs_dispatch_witness :
  ∃ q' job, claim_ready_jobs 1%N options (ready_claim_set registry) moment queue = Ok (q', [job]) ∧
    cj_id job = 11%N ∧ (∃ h, dispatch registry job = Ok h ∧ ready h = true) ∧
    leased options 5 queue q' job.
Proof.
  destruct (claim_ready_jobs 1%N options (ready_claim_set registry) moment queue)
    as [[q' jobs]| |] eqn:E; [|vm_compute in E; discriminate E..].
  assert (∃ job, jobs = [job] ∧ cj_id job = 11%N) as (job & -> & Hid).
  { vm_compute in E. injection E as _ <-. eexists. split; reflexivity. }
  exists q', job. split; [done|]. split; [done|].
  apply (claimed_jobs_dispatch registry 1%N options moment queue q' [job] registry_well_formed E).
  apply list_elem_of_singleton. reflexivity.
Defined.

Lemma malformed_retention_invisible_witness :
  ∃ q' jobs, claim_ready_jobs 1%N options (ready_claim_set registry) moment queue = Ok (q', jobs) ∧
    q_jobs q' !! 12%N = Some malformed ∧ (12%N ∉ (cj_id <$> jobs)) ∧
    retention_shape (payload malformed) = false.
Proof.
  destruct (claim_ready_jobs 1%N options (ready_claim_set registry) moment queue)
    as [[q' jobs]| |] eqn:E; [|vm_compute in E; discriminate E..].
  destruct (malformed_retention_invisible registry 1%N options moment queue 12%N malformed
    (Some (uuid_to_string 9%N)) registry_well_formed) as [H _]; try reflexivity.
  { exists retain. repeat split. }
  destruct (H q' jobs E) as [H1 H2]. exists q', jobs.
  split; [reflexivity|]. split; [exact H1|]. split; [exact H2|reflexivity].
Defined.

(** The last attempt of a tenant activity fails. *)
Definition last_attempt : JobRow :=
  job_row INTAKE_SYNC INTAKE_SYNC_ACTIVITY_CONTRACT_ID "RUNNING" 3 3 (Some ("reactor", 100)).
Definition claimed : ClaimedWorkflowJob := claimed_job_from_row 13%N last_attempt "reactor" 100.
Definition minted : Minted := mkMinted 51%N 52%N 53%N 40 50 [].
Definition tables (row : JobRow) : ReactorTables :=
  mkReactorTables
    (mkDeadLetterTables
      (mkStepTables (mkQueue {[ 13%N := row ]} ∅) ∅ ∅ ∅ [] [] [] []) [] ∅) [] ∅ ∅.
Definition settling : Settling := mkSettling 45 50 60 (tables last_attempt) minted.

Lemma reported_outcomes_durable_witness :
  ∃ s', finalize_claimed_job options claimed (Failure (ExternalUnavailable [Lit "offline"])) settling
      (tables last_attempt) = Ok (s', TransactionallyFinalized) ∧
    settled claimed (Failure (ExternalUnavailable [Lit "offline"])) (tables last_attempt) s'
      TransactionallyFinalized.
Proof.
  destruct (finalize_claimed_job options claimed (Failure (ExternalUnavailable [Lit "offline"])) settling
      (tables last_attempt)) as [[s' d]| |] eqn:E; [|vm_compute in E; discriminate E..].
  assert (d = TransactionallyFinalized) as -> by (vm_compute in E; injection E as _ <-; reflexivity).
  exists s'. split; [done|].
  apply (reported_outcomes_durable options claimed (Failure (ExternalUnavailable [Lit "offline"])) settling
    (tables last_attempt) s' TransactionallyFinalized last_attempt); [apply NoDup_nil_2|done|by left|done].
Defined.

Definition failing : Turn := mkTurn false (Err (ExternalUnavailable [Lit "offline"])) false.

Lemma reactor_delays_bounded_witness :
  job_retry_delay (seconds 1) (minutes 1) 4 = seconds 8 ∧
  (run options (seconds 1) (repeat failing 8)).1 !! 3%nat = Some (seconds 8) ∧
  (run options (seconds 1) (repeat failing 8)).1 !! 7%nat = Some (minutes 1).
Proof.
  assert (∀ k, (k < 8)%nat → Forall fails (take (S k) (repeat failing 8))) as Hf.
  { intros k _. apply Forall_take, Forall_forall. intros t Ht%list_elem_of_In%repeat_spec. subst t.
    split_and!; [done..|]. eexists. split; [reflexivity|done]. }
  destruct (reactor_delays_bounded options) as (Hj & _ & Hr); [by vm_compute| |by vm_compute|].
  { by vm_compute. }
  split; [apply (Hj 4); lia|]. destruct (run options (seconds 1) (repeat failing 8)) as [ws r] eqn:E.
  destruct (Hr _ _ _ E) as (_ & Hk & _). split.
  - apply (Hk 3%nat); [simpl; lia|]. apply Hf. lia.
  - apply (Hk 7%nat); [simpl; lia|]. apply Hf. lia.
Defined.
End Sample.
