(* ===== verification/Incidents.v ===== *)
(** Operational incidents, [src/src/ledger/operational_incidents.rs]: an incident
    that the reactor opened for a dead tenant activity ([Reactor]) is acknowledged
    and then resolved or cancelled, once per version, with a receipt that lets the
    same request be repeated.

    The row of [operational_incidents] extends that of [Reactor] with the columns
    of the lifecycle; its check and the trigger [operational_incident_lifecycle_guard]
    ([migrations/0002_operational_incident_lifecycle.sql]) are part of the update.
    The deferred trigger that demands a receipt is not: a transition always writes
    the receipt it asks for.  The clock of the database and the identifiers of
    [Uuid::now_v7] are arguments. *)

From Stdlib Require Import ZArith Lia.
From stdpp Require Import base tactics option strings pretty numbers list gmap.
From S2P Require Import Prelude RustStr RustOrd Ids Crypto Security AuditChain RunEvents JobQueue RunmillOrder Steps DeadLetter Handlers ReactorClaims Reactor.

(** ** Transitions *)

Module OperationalIncidentStatus.
Inductive OperationalIncidentStatus := Open | Acknowledged | Resolved | Cancelled.
#[global] Instance eq_dec : EqDecision OperationalIncidentStatus.
Proof. solve_decision. Defined.
End OperationalIncidentStatus.
Abbreviation OperationalIncidentStatus := OperationalIncidentStatus.OperationalIncidentStatus.

Definition from_persisted (value : string) : res OperationalIncidentStatus :=
  if bool_decide (value = "OPEN") then Ok OperationalIncidentStatus.Open
  else if bool_decide (value = "ACKNOWLEDGED") then Ok OperationalIncidentStatus.Acknowledged
  else if bool_decide (value = "RESOLVED") then Ok OperationalIncidentStatus.Resolved
  else if bool_decide (value = "CANCELLED") then Ok OperationalIncidentStatus.Cancelled
  else Err (Persistence [Lit "unknown operational incident status "; Disp value]).

Definition status_as_persisted (s : OperationalIncidentStatus) : string :=
  match s with
  | OperationalIncidentStatus.Open => "OPEN"
  | OperationalIncidentStatus.Acknowledged => "ACKNOWLEDGED"
  | OperationalIncidentStatus.Resolved => "RESOLVED"
  | OperationalIncidentStatus.Cancelled => "CANCELLED"
  end.

Inductive OperationalIncidentTransition :=
| AcknowledgeIncident (actor : string)
| ResolveIncident (actor resolution : string)
| CancelIncident (actor resolution : string).

Definition transition_actor (t : OperationalIncidentTransition) : string :=
  match t with AcknowledgeIncident a | ResolveIncident a _ | CancelIncident a _ => a end.

Definition transition_resolution (t : OperationalIncidentTransition) : option string :=
  match t with
  | AcknowledgeIncident _ => None
  | ResolveIncident _ r | CancelIncident _ r => Some r
  end.

Definition OperationalIncidentTransition_validate (t : OperationalIncidentTransition) : res unit :=
  bail_if (blank (transition_actor t))
    (Validation [Lit "operational incident transition actor must be non-empty"]) ;;
  bail_if (from_option blank false (transition_resolution t))
    (Validation [Lit "operational incident closure requires a non-empty resolution"]).

Definition transition_kind (t : OperationalIncidentTransition) : string :=
  match t with
  | AcknowledgeIncident _ => "ACKNOWLEDGE"
  | ResolveIncident _ _ => "RESOLVE"
  | CancelIncident _ _ => "CANCEL"
  end.

Definition required_status (t : OperationalIncidentTransition) : OperationalIncidentStatus :=
  match t with
  | AcknowledgeIncident _ => OperationalIncidentStatus.Open
  | ResolveIncident _ _ | CancelIncident _ _ => OperationalIncidentStatus.Acknowledged
  end.

Definition resulting_status (t : OperationalIncidentTransition) : OperationalIncidentStatus :=
  match t with
  | AcknowledgeIncident _ => OperationalIncidentStatus.Acknowledged
  | ResolveIncident _ _ => OperationalIncidentStatus.Resolved
  | CancelIncident _ _ => OperationalIncidentStatus.Cancelled
  end.

Definition audit_action (t : OperationalIncidentTransition) : string :=
  match t with
  | AcknowledgeIncident _ => "OPERATIONAL_INCIDENT_ACKNOWLEDGED"
  | ResolveIncident _ _ => "OPERATIONAL_INCIDENT_RESOLVED"
  | CancelIncident _ _ => "OPERATIONAL_INCIDENT_CANCELLED"
  end.

Definition transition_event_type (t : OperationalIncidentTransition) : string :=
  match t with
  | AcknowledgeIncident _ => "operational_incident.acknowledged"
  | ResolveIncident _ _ => "operational_incident.resolved"
  | CancelIncident _ _ => "operational_incident.cancelled"
  end.

(** ** Rows *)

Record OperationalIncidentLifecycle := mkOperationalIncidentLifecycle {
  ol_id : Uuid;
  ol_tenant_id : Uuid;
  ol_workflow_job_id : Uuid;
  ol_status : OperationalIncidentStatus;
  ol_aggregate_version : Z;
  ol_authority_or_effect_active : bool;
  ol_acknowledged_at : option DateTime;
  ol_acknowledged_by : option string;
  ol_closed_at : option DateTime;
  ol_closed_by : option string;
  ol_resolution : option string
}.

Record OperationalIncidentSemanticRequest := mkOperationalIncidentSemanticRequest {
  oq_schema : string;
  oq_tenant_id : Uuid;
  oq_incident_id : Uuid;
  oq_expected_version : Z;
  oq_transition : string;
  oq_actor : string;
  oq_resolution : option string
}.

Record LifecycleRow := mkLifecycleRow {
  lr_incident : IncidentRow;
  lr_aggregate_version : Z;
  lr_acknowledged_at : option DateTime;
  lr_acknowledged_by : option string;
  lr_closed_at : option DateTime;
  lr_closed_by : option string;
  lr_resolution : option string
}.

(** A row as the reactor inserts it. *)
Definition opened_incident (i : IncidentRow) : LifecycleRow :=
  mkLifecycleRow i 1 None None None None None.

(** [operational_incident_transition_receipts] *)
Record IncidentReceipt := mkIncidentReceipt {
  ir_workflow_job_id : Uuid;
  ir_request_digest : string;
  ir_transition_kind : string;
  ir_result_status : string;
  ir_result_aggregate_version : Z;
  ir_result_authority_or_effect_active : bool;
  ir_acknowledged_at : option DateTime;
  ir_acknowledged_by : option string;
  ir_closed_at : option DateTime;
  ir_closed_by : option string;
  ir_resolution : option string;
  ir_occurred_at : DateTime;
  ir_audit_event_id : Uuid;
  ir_outbox_id : Uuid
}.

(** Incidents by their id; receipts by tenant, incident and expected version. *)
Record IncidentTables := mkIncidentTables {
  it_rows : gmap Uuid LifecycleRow;
  it_receipts : gmap (Uuid * Uuid * Z) IncidentReceipt;
  it_audit : list HashedAuditEvent;
  it_outbox : list OutboxRow
}.

Definition positive_version (value : Z) (context : string) : res Z :=
  if 0 <? value then Ok value else Err (Persistence [Disp context; Lit " is not positive"]).

Definition incident_from_row (row : LifecycleRow) : res OperationalIncidentLifecycle :=
  let i := lr_incident row in
  status ← from_persisted (ic_status i);
  version ← positive_version (lr_aggregate_version row) "operational incident version";
  Ok (mkOperationalIncidentLifecycle (ic_id i) (ic_tenant_id i) (ic_workflow_job_id i) status version
        (ic_authority_or_effect_active i) (lr_acknowledged_at row) (lr_acknowledged_by row)
        (lr_closed_at row) (lr_closed_by row) (lr_resolution row)).

Definition receipt_snapshot (tenant_id incident_id : Uuid) (r : IncidentReceipt)
  : res OperationalIncidentLifecycle :=
  status ← from_persisted (ir_result_status r);
  version ← positive_version (ir_result_aggregate_version r) "incident receipt version";
  Ok (mkOperationalIncidentLifecycle incident_id tenant_id (ir_workflow_job_id r) status version
        (ir_result_authority_or_effect_active r) (ir_acknowledged_at r) (ir_acknowledged_by r)
        (ir_closed_at r) (ir_closed_by r) (ir_resolution r)).

(** ** The update and its guards *)

(** [btrim(column) <> ''] of a column that is there. *)
Definition named (o : option string) : bool :=
  match o with Some s => negb (btrim_empty s) | None => false end.

(** [a >= b] of two columns that are there. *)
Definition not_before (a b : option DateTime) : bool :=
  match a, b with Some a, Some b => b <=? a | _, _ => false end.

(** [operational_incidents_lifecycle_shape] and
    [operational_incidents_active_authority]. *)
Definition lifecycle_shape (row : LifecycleRow) : bool :=
  let status := ic_status (lr_incident row) in
  let active := ic_authority_or_effect_active (lr_incident row) in
  let unclosed := is_none (lr_closed_at row) && is_none (lr_closed_by row) && is_none (lr_resolution row) in
  let acknowledged := is_some (lr_acknowledged_at row) && named (lr_acknowledged_by row) in
  bool_decide (status = "OPEN") && (lr_aggregate_version row =? 1) && is_none (lr_acknowledged_at row)
    && is_none (lr_acknowledged_by row) && unclosed && active
  || bool_decide (status = "ACKNOWLEDGED") && (lr_aggregate_version row =? 2) && acknowledged
     && unclosed && active
  || mem status ["RESOLVED"; "CANCELLED"] && (lr_aggregate_version row =? 3) && acknowledged
     && not_before (lr_closed_at row) (lr_acknowledged_at row) && named (lr_closed_by row)
     && named (lr_resolution row) && negb active.

(** What the trigger asks beyond the shape: the time of an acknowledgement is
    not before the opening. *)
Definition lifecycle_guard (old new : LifecycleRow) : bool :=
  negb (bool_decide (ic_status (lr_incident old) = "OPEN"))
  || not_before (lr_acknowledged_at new) (Some (ic_opened_at (lr_incident old))).

Definition set_status (status : string) (active : bool) (i : IncidentRow) : IncidentRow :=
  {| ic_id := ic_id i; ic_tenant_id := ic_tenant_id i; ic_workflow_job_id := ic_workflow_job_id i;
     ic_category := ic_category i; ic_status := status; ic_severity := ic_severity i;
     ic_reason := ic_reason i; ic_owner_type := ic_owner_type i; ic_owner_id := ic_owner_id i;
     ic_required_action := ic_required_action i; ic_evidence_references := ic_evidence_references i;
     ic_deadline := ic_deadline i; ic_escalation_path := ic_escalation_path i;
     ic_retry_policy := ic_retry_policy i; ic_prerequisites := ic_prerequisites i;
     ic_authority_or_effect_active := active; ic_idempotency_key := ic_idempotency_key i;
     ic_opened_at := ic_opened_at i |}.

(** The assignments of the two statements of [update_incident]. *)
Definition transitioned (t : OperationalIncidentTransition) (actor : string)
    (resolution : option string) (now : DateTime) (row : LifecycleRow) : LifecycleRow :=
  match t with
  | AcknowledgeIncident _ =>
      mkLifecycleRow
        (set_status "ACKNOWLEDGED" (ic_authority_or_effect_active (lr_incident row)) (lr_incident row))
        (lr_aggregate_version row + 1) (Some now) (Some actor) (lr_closed_at row) (lr_closed_by row)
        (lr_resolution row)
  | _ =>
      mkLifecycleRow (set_status (status_as_persisted (resulting_status t)) false (lr_incident row))
        (lr_aggregate_version row + 1) (lr_acknowledged_at row) (lr_acknowledged_by row) (Some now)
        (Some actor) resolution
  end.

Definition update_incident (tenant_id incident_id : Uuid) (expected_version : Z)
    (t : OperationalIncidentTransition) (actor : string) (resolution : option string) (now : DateTime)
    (rows : gmap Uuid LifecycleRow) : res (gmap Uuid LifecycleRow * LifecycleRow) :=
  let from := match t with AcknowledgeIncident _ => "OPEN" | _ => "ACKNOWLEDGED" end in
  row ← ok_or (row ← rows !! incident_id;
               if bool_decide (ic_tenant_id (lr_incident row) = tenant_id)
                  && bool_decide (ic_status (lr_incident row) = from)
                  && (lr_aggregate_version row =? expected_version)
               then Some row else None)
    (Conflict [Lit "operational incident "; FmtUuid incident_id;
               Lit " lifecycle fence changed while locked"]);
  let row' := transitioned t actor resolution now row in
  bail_if (negb (lifecycle_guard row row') || negb (lifecycle_shape row'))
    (Persistence [Lit "update operational incident lifecycle"]) ;;
  Ok (<[incident_id := row']> rows, row').

Definition transition_timestamp (after : OperationalIncidentLifecycle)
    (t : OperationalIncidentTransition) : res DateTime :=
  ok_or match t with AcknowledgeIncident _ => ol_acknowledged_at after | _ => ol_closed_at after end
    (Persistence [Lit "incident transition timestamp is absent"]).

(** The clock and the identifiers of one call. *)
Record Fresh := mkFresh { fr_now : DateTime; fr_audit_event_id : Uuid; fr_outbox_id : Uuid }.

Section incidents.
  Context {pg : PgColumns} {uuids : UuidText} {hashing : Hashing} {times : DateTimeText}.
  Context {audit_jcs : Canonical AuditEventContent}.
  Context {request_jcs : Canonical OperationalIncidentSemanticRequest}.
  Context {lifecycle_jcs : Canonical OperationalIncidentLifecycle}.

(** [serde_json::to_value] of the request. *)
Definition request_value (q : OperationalIncidentSemanticRequest) : Value :=
  Object [ ("schema", VString (oq_schema q)); ("tenant_id", uuid_value (oq_tenant_id q));
           ("incident_id", uuid_value (oq_incident_id q));
           ("expected_version", Number (pretty (oq_expected_version q)));
           ("transition", VString (oq_transition q)); ("actor", VString (oq_actor q));
           ("resolution", option_value VString (oq_resolution q)) ].

Definition lifecycle_digest (l : OperationalIncidentLifecycle) : res string := digest_canonical l.

Definition load_incident_receipt (tenant_id incident_id : Uuid) (expected_version : Z)
    (s : IncidentTables) : option IncidentReceipt :=
  it_receipts s !! (tenant_id, incident_id, expected_version).

(** ** What a transition writes *)

Definition append_transition_audit (after : OperationalIncidentLifecycle)
    (t : OperationalIncidentTransition) (actor correlation_id : string) (audit_event_id : Uuid)
    (before_digest after_digest : string) (details : Value) (occurred_at : DateTime)
    (events : list HashedAuditEvent) : res (list HashedAuditEvent) :=
  event ← HashedAuditEvent_create
    {| ae_id := audit_event_id; ae_tenant_id := ol_tenant_id after; ae_work_item_id := None;
       ae_attempt_id := None; ae_actor_type := "OPERATOR"; ae_actor_id := actor;
       ae_action := audit_action t; ae_subject_type := "OPERATIONAL_INCIDENT";
       ae_subject_id := uuid_to_string (ol_id after); ae_correlation_id := correlation_id;
       ae_trace_id := None; ae_policy_digest := None; ae_before_digest := Some before_digest;
       ae_after_digest := Some after_digest;
       ae_previous_event_hash := audit_head (ol_tenant_id after) events; ae_details := details;
       ae_occurred_at := occurred_at |};
  HashedAuditEvent_verify event ;;
  bail_if (existsb (λ e, bool_decide (ae_id (he_content e) = audit_event_id)
             || bool_decide (ae_tenant_id (he_content e) = ol_tenant_id after)
                && bool_decide (he_event_hash e = he_event_hash event)) events)
    (Persistence [Lit "append incident transition audit"]) ;;
  Ok (events ++ [stored_event event]).

Definition insert_transition_outbox (after : OperationalIncidentLifecycle)
    (t : OperationalIncidentTransition) (correlation_id : string) (outbox_id : Uuid) (payload : Value)
    (occurred_at : DateTime) (rows : list OutboxRow) : res (list OutboxRow) :=
  let msg := {| om_id := outbox_id; om_topic := "attention";
                om_message_key := uuid_to_string (ol_id after);
                om_event_type := transition_event_type t; om_payload := payload;
                om_headers := Object [("schema", VString "asf.operational-incident-lifecycle-event/v1")];
                om_idempotency_key := correlation_id +:+ ":outbox"; om_available_at := occurred_at |} in
  bail_if (existsb (λ r, bool_decide (om_id (or_message r) = outbox_id)
             || bool_decide (or_tenant_id r = ol_tenant_id after)
                && bool_decide (om_idempotency_key (or_message r) = om_idempotency_key msg)) rows)
    (Persistence [Lit "insert incident transition outbox"]) ;;
  Ok (rows ++ [mkOutboxRow (ol_tenant_id after) msg]).

Definition transition_receipt (after : OperationalIncidentLifecycle)
    (t : OperationalIncidentTransition) (request_digest : string) (f : Fresh) (occurred_at : DateTime)
  : IncidentReceipt :=
  mkIncidentReceipt (ol_workflow_job_id after) request_digest (transition_kind t)
    (status_as_persisted (ol_status after)) (ol_aggregate_version after) (ol_authority_or_effect_active after)
    (ol_acknowledged_at after) (ol_acknowledged_by after) (ol_closed_at after) (ol_closed_by after)
    (ol_resolution after) occurred_at (fr_audit_event_id f) (fr_outbox_id f).

Definition insert_transition_receipt (after : OperationalIncidentLifecycle)
    (t : OperationalIncidentTransition) (expected_version : Z) (request_digest : string) (f : Fresh)
    (occurred_at : DateTime) (receipts : gmap (Uuid * Uuid * Z) IncidentReceipt)
  : res (gmap (Uuid * Uuid * Z) IncidentReceipt) :=
  let key := (ol_tenant_id after, ol_id after, expected_version) in
  ok_or (try_from i64_max (ol_aggregate_version after))
    (Persistence [Lit "incident result version exceeds PostgreSQL bigint"]) ;;
  bail_if (is_some (receipts !! key)
           || existsb (λ p, bool_decide (p.1.1.1 = ol_tenant_id after)
                && (bool_decide (ir_audit_event_id p.2 = fr_audit_event_id f)
                    || bool_decide (ir_outbox_id p.2 = fr_outbox_id f))) (map_to_list receipts))
    (Persistence [Lit "insert incident transition receipt"]) ;;
  Ok (<[key := transition_receipt after t request_digest f occurred_at]> receipts).

Definition transition_details (before after : OperationalIncidentLifecycle)
    (t : OperationalIncidentTransition) (expected_version : Z) (request_digest : string)
    (resolution : option string) : Value :=
  Object [ ("schema", VString "asf.operational-incident-transition-audit/v1");
           ("operational_incident_id", uuid_value (ol_id after));
           ("workflow_job_id", uuid_value (ol_workflow_job_id after));
           ("transition", VString (transition_kind t));
           ("from_status", VString (status_as_persisted (ol_status before)));
           ("to_status", VString (status_as_persisted (ol_status after)));
           ("expected_version", Number (pretty expected_version));
           ("result_aggregate_version", Number (pretty (ol_aggregate_version after)));
           ("request_digest", VString request_digest);
           ("resolution", option_value VString resolution) ].

Definition transition_payload (after : OperationalIncidentLifecycle)
    (t : OperationalIncidentTransition) (actor : string) (expected_version : Z)
    (request_digest : string) (resolution : option string) (audit_event_id : Uuid)
    (occurred_at : DateTime) : Value :=
  Object [ ("schema", VString "asf.operational-incident-lifecycle-event/v1");
           ("tenant_id", uuid_value (ol_tenant_id after));
           ("operational_incident_id", uuid_value (ol_id after));
           ("workflow_job_id", uuid_value (ol_workflow_job_id after));
           ("transition", VString (transition_kind t));
           ("status", VString (status_as_persisted (ol_status after))); ("actor", VString actor);
           ("expected_version", Number (pretty expected_version));
           ("aggregate_version", Number (pretty (ol_aggregate_version after)));
           ("request_digest", VString request_digest); ("resolution", option_value VString resolution);
           ("audit_event_id", uuid_value audit_event_id); ("occurred_at", time_value occurred_at) ].

(** ** The transition *)

(** The checks before the transaction, and the digest of the request. *)
Definition prepare_transition (tenant_id incident_id : Uuid) (expected_version : Z)
    (t : OperationalIncidentTransition) : res string :=
  OperationalIncidentTransition_validate t ;;
  version ← ok_or (try_from i64_max expected_version)
    (Validation [Lit "operational incident version exceeds PostgreSQL bigint"]);
  bail_if (version <=? 0)
    (Validation [Lit "operational incident expected version must be positive"]) ;;
  let semantics := mkOperationalIncidentSemanticRequest
    "asf.operational-incident-transition-request/v1" tenant_id incident_id expected_version
    (transition_kind t) (trim_str (transition_actor t)) (trim_str <$> transition_resolution t) in
  reject_sensitive_fields (request_value semantics) ;;
  digest_canonical semantics.

(** The statements of a transition that is not a repetition. *)
Definition write_transition (tenant_id incident_id : Uuid) (expected_version : Z)
    (t : OperationalIncidentTransition) (request_digest : string) (f : Fresh) (row : LifecycleRow)
    (s : IncidentTables) : res (IncidentTables * OperationalIncidentLifecycle) :=
  let actor := trim_str (transition_actor t) in
  let resolution := trim_str <$> transition_resolution t in
  before ← incident_from_row row;
  bail_if (negb (ol_aggregate_version before =? expected_version)
           || negb (bool_decide (ol_status before = required_status t)))
    (Conflict [Lit "operational incident "; FmtUuid incident_id; Lit " is ";
               Disp (status_as_persisted (ol_status before)); Lit " at version ";
               FmtNum (ol_aggregate_version before); Lit ", expected ";
               Disp (status_as_persisted (required_status t)); Lit " at version "; FmtNum expected_version]) ;;
  '(rows, row') ← update_incident tenant_id incident_id expected_version t actor resolution (fr_now f)
    (it_rows s);
  after ← incident_from_row row';
  bail_if (negb (bool_decide (ol_status after = resulting_status t))
           || negb (ol_aggregate_version after =? expected_version + 1))
    (Persistence [Lit "operational incident transition returned an invalid lifecycle snapshot"]) ;;
  occurred_at ← transition_timestamp after t;
  before_digest ← lifecycle_digest before;
  after_digest ← lifecycle_digest after;
  let correlation_id := "operational-incident:" +:+ uuid_to_string incident_id +:+ ":"
                        +:+ pretty expected_version in
  let details := transition_details before after t expected_version request_digest resolution in
  reject_sensitive_fields details ;;
  audit ← append_transition_audit after t actor correlation_id (fr_audit_event_id f) before_digest
    after_digest details occurred_at (it_audit s);
  let payload := transition_payload after t actor expected_version request_digest resolution
    (fr_audit_event_id f) occurred_at in
  reject_sensitive_fields payload ;;
  outbox ← insert_transition_outbox after t correlation_id (fr_outbox_id f) payload occurred_at
    (it_outbox s);
  receipts ← insert_transition_receipt after t expected_version request_digest f occurred_at
    (it_receipts s);
  Ok (mkIncidentTables rows receipts audit outbox, after).

Definition transition_operational_incident (tenant_id incident_id : Uuid) (expected_version : Z)
    (t : OperationalIncidentTransition) (f : Fresh) (s : IncidentTables)
  : res (IncidentTables * OperationalIncidentLifecycle) :=
  request_digest ← prepare_transition tenant_id incident_id expected_version t;
  row ← ok_or (row ← it_rows s !! incident_id;
               if bool_decide (ic_tenant_id (lr_incident row) = tenant_id) then Some row else None)
    (NotFound [Lit "operational incident "; FmtUuid incident_id]);
  match load_incident_receipt tenant_id incident_id expected_version s with
  | Some receipt =>
      bail_if (negb (bool_decide (ir_request_digest receipt = request_digest)))
        (Conflict [Lit "operational incident "; FmtUuid incident_id; Lit " version ";
                   FmtNum expected_version; Lit " was already transitioned with different semantics"]) ;;
      snapshot ← receipt_snapshot tenant_id incident_id receipt;
      Ok (s, snapshot)
  | None => write_transition tenant_id incident_id expected_version t request_digest f row s
  end.
End incidents.
