(* ===== verification/IncidentFacts.v ===== *)
(** What the lifecycle of an operational incident guarantees ([Incidents]): at most
    two transitions, each with its receipt, audit event and message, and requests
    that can be repeated at any later time. *)

From Stdlib Require Import ZArith Lia.
From stdpp Require Import base tactics option strings pretty numbers list gmap.
From S2P Require Import Prelude RustStr RustOrd Ids Crypto Security AuditChain RunEvents JobQueue RunmillOrder Steps DeadLetter Handlers ReactorClaims Reactor Incidents.

Section facts.
  Context {pg : PgColumns} {uuids : UuidText} {hashing : Hashing} {times : DateTimeText}.
  Context {audit_jcs : Canonical AuditEventContent}.
  Context {request_jcs : Canonical OperationalIncidentSemanticRequest}.
  Context {lifecycle_jcs : Canonical OperationalIncidentLifecycle}.
  Implicit Types (s : IncidentTables) (row : LifecycleRow) (t : OperationalIncidentTransition).

Lemma from_persisted_round_trip st : from_persisted (status_as_persisted st) = Ok st.
Proof. by destruct st. Qed.

Lemma from_persisted_ok value st : from_persisted value = Ok st → value = status_as_persisted st.
Proof.
  unfold from_persisted. repeat (case_bool_decide; [by intros [= <-]|]). done.
Qed.

Lemma shape_versions row : lifecycle_shape row = true → 1 ≤ lr_aggregate_version row ≤ 3.
Proof.
  unfold lifecycle_shape. rewrite !orb_true_iff, !andb_true_iff, !Z.eqb_eq. intros H.
  destruct H as [[H|H]|H]; destruct_and?; lia.
Qed.

Lemma incident_from_row_ok row l : incident_from_row row = Ok l →
  ol_id l = ic_id (lr_incident row) ∧ ol_tenant_id l = ic_tenant_id (lr_incident row) ∧
  ol_workflow_job_id l = ic_workflow_job_id (lr_incident row) ∧
  ol_aggregate_version l = lr_aggregate_version row ∧
  status_as_persisted (ol_status l) = ic_status (lr_incident row) ∧ 0 < lr_aggregate_version row.
Proof.
  unfold incident_from_row, positive_version. intros (st & Hs%from_persisted_ok & H)%bind_ok.
  destruct (Z.ltb_spec 0 (lr_aggregate_version row)); [|done]. by injection H as <-.
Qed.

(** ** One transition *)

(** The receipt, event and message of a transition that leads to [after]. *)
Record documented tenant_id incident_id version t digest (f : Fresh) (after : OperationalIncidentLifecycle) s s'
  : Prop := {
  dc_receipt : it_receipts s !! (tenant_id, incident_id, version) = None ∧ ∃ occurred_at,
    it_receipts s' = <[(tenant_id, incident_id, version) :=
      transition_receipt after t digest f occurred_at]> (it_receipts s) ∧
    Some occurred_at = match t with AcknowledgeIncident _ => ol_acknowledged_at after
                       | _ => ol_closed_at after end;
  dc_audit : ∃ event, it_audit s' = it_audit s ++ [event] ∧
    ae_subject_id (he_content event) = uuid_to_string incident_id ∧
    ae_action (he_content event) = audit_action t ∧
    ae_actor_id (he_content event) = trim_str (transition_actor t) ∧
    ae_previous_event_hash (he_content event) = audit_head tenant_id (it_audit s);
  dc_outbox : ∃ message, it_outbox s' = it_outbox s ++ [mkOutboxRow tenant_id message] ∧
    om_message_key message = uuid_to_string incident_id ∧
    om_event_type message = transition_event_type t
}.

(** What a transition that is not a repetition does. *)
Record written tenant_id incident_id version t digest (f : Fresh) row (after : OperationalIncidentLifecycle) s s'
  : Prop := {
  wt_version : lr_aggregate_version row = version;
  wt_from : ic_status (lr_incident row) = status_as_persisted (required_status t);
  wt_row : let row' := transitioned t (trim_str (transition_actor t))
             (trim_str <$> transition_resolution t) (fr_now f) row in
    it_rows s' = <[incident_id := row']> (it_rows s) ∧ lifecycle_shape row' = true ∧
    incident_from_row row' = Ok after;
  wt_documented : documented tenant_id incident_id version t digest f after s s'
}.

Lemma append_audit_ok after t actor correlation id b a details at_ events events' :
  append_transition_audit after t actor correlation id b a details at_ events = Ok events' →
  ∃ event, events' = events ++ [event] ∧
    ae_subject_id (he_content event) = uuid_to_string (ol_id after) ∧
    ae_action (he_content event) = audit_action t ∧ ae_actor_id (he_content event) = actor ∧
    ae_previous_event_hash (he_content event) = audit_head (ol_tenant_id after) events.
Proof.
  unfold append_transition_audit. intros (event & Hc & H)%bind_ok. rewrite !bind_unit_ok in H.
  destruct H as (_ & _ & [= <-]). exists (stored_event event). split; [done|].
  unfold HashedAuditEvent_create in Hc. rewrite bind_unit_ok in Hc.
  by destruct Hc as [_ (h & _ & [= <-])%bind_ok].
Qed.

Lemma transitioned_identity t actor resolution now row :
  ic_id (lr_incident (transitioned t actor resolution now row)) = ic_id (lr_incident row) ∧
  ic_tenant_id (lr_incident (transitioned t actor resolution now row)) = ic_tenant_id (lr_incident row) ∧
  lr_aggregate_version (transitioned t actor resolution now row) = lr_aggregate_version row + 1.
Proof. by destruct t. Qed.

Lemma write_transition_ok tenant_id id version t digest f row s s' after :
  it_rows s !! id = Some row → ic_id (lr_incident row) = id → ic_tenant_id (lr_incident row) = tenant_id →
  write_transition tenant_id id version t digest f row s = Ok (s', after) →
  written tenant_id id version t digest f row after s s'.
Proof.
  intros Hrow Hid Ht. unfold write_transition.
  intros (before & Hb%incident_from_row_ok & H)%bind_ok. destruct Hb as (_ & _ & _ & Hv & Hs & _).
  rewrite bind_unit_ok, bail_if_ok, orb_false_iff, !negb_false_iff, bool_decide_eq_true, Z.eqb_eq in H.
  destruct H as [[Hver Hst] H]. apply bind_ok in H as ([rows row'] & Hu & H).
  unfold update_incident in Hu. rewrite Hrow in Hu. cbn [mbind option_bind] in Hu.
  destruct (_ && _) in Hu; [|done]. cbn [ok_or mbind res_bind] in Hu.
  rewrite bind_unit_ok, bail_if_ok, orb_false_iff, !negb_false_iff in Hu.
  destruct Hu as [[_ Hshape] [= <- <-]].
  apply bind_ok in H as (after' & Ha & H). rewrite bind_unit_ok in H. destruct H as [_ H].
  apply bind_ok in H as (occurred & Ho%ok_or_ok & H). apply bind_ok in H as (bd & _ & H).
  apply bind_ok in H as (ad & _ & H). rewrite bind_unit_ok in H. destruct H as [_ H].
  apply bind_ok in H as (audit & Haudit%append_audit_ok & H). rewrite bind_unit_ok in H.
  destruct H as [_ H]. apply bind_ok in H as (outbox & Hout & H).
  apply bind_ok in H as (receipts & Hrec & [= <- <-]).
  destruct (transitioned_identity t (trim_str (transition_actor t))
    (trim_str <$> transition_resolution t) (fr_now f) row) as (Ei & Et & _).
  destruct (incident_from_row_ok _ _ Ha) as (Ai & At & _). rewrite Ei, Hid in Ai. rewrite Et, Ht in At.
  rewrite Ai, At in Haudit. unfold insert_transition_receipt in Hrec. rewrite Ai, At in Hrec.
  unfold insert_transition_outbox in Hout. rewrite Ai, At in Hout.
  apply bind_unit_ok in Hout as [_ [= <-]].
  apply bind_ok in Hrec as (? & _ & Hrec).
  rewrite bind_unit_ok, bail_if_ok, orb_false_iff in Hrec. destruct Hrec as [[Hn _] [= <-]].
  split; [congruence|congruence|done|]. split.
  - split; [|by exists occurred]. by destruct (it_receipts s !! _).
  - exact Haudit.
  - by eexists.
Qed.

Lemma transition_cases tenant_id id version t f s s' after :
  (∀ row, it_rows s !! id = Some row → ic_id (lr_incident row) = id) →
  transition_operational_incident tenant_id id version t f s = Ok (s', after) →
  ∃ digest row, prepare_transition tenant_id id version t = Ok digest ∧
    it_rows s !! id = Some row ∧ ic_tenant_id (lr_incident row) = tenant_id ∧
    ((∃ receipt, it_receipts s !! (tenant_id, id, version) = Some receipt ∧
        ir_request_digest receipt = digest ∧ receipt_snapshot tenant_id id receipt = Ok after ∧ s' = s) ∨
     written tenant_id id version t digest f row after s s').
Proof.
  intros Hid. unfold transition_operational_incident. intros (digest & Hp & H)%bind_ok.
  apply bind_ok in H as (row & Hrow%ok_or_ok & H).
  destruct (it_rows s !! id) as [row0|] eqn:Hr; [|done]. simpl in Hrow.
  case_bool_decide as Ht; [|done]. injection Hrow as ->.
  exists digest, row. split_and!; [done..|]. unfold load_incident_receipt in H.
  destruct (it_receipts s !! (tenant_id, id, version)) as [receipt|].
  - left. rewrite bind_unit_ok, bail_if_ok, negb_false_iff, bool_decide_eq_true in H.
    destruct H as [Hd (snap & Hsnap & [= <- <-])%bind_ok]. by exists receipt.
  - right. eapply write_transition_ok; [done|by apply Hid|done|done].
Qed.

Lemma receipt_of_transition after t digest f at_ :
  0 < ol_aggregate_version after →
  receipt_snapshot (ol_tenant_id after) (ol_id after) (transition_receipt after t digest f at_) = Ok after.
Proof.
  intros Hv. unfold receipt_snapshot, positive_version. simpl. rewrite from_persisted_round_trip. simpl.
  rewrite (proj2 (Z.ltb_lt _ _)) by done. by destruct after.
Qed.

(** ** The invariant *)

(** The receipts of an incident are those of its past versions, and the last one
    is a snapshot of its row. *)
Record incident_history s (id : Uuid) row : Prop := {
  ih_id : ic_id (lr_incident row) = id;
  ih_shape : lifecycle_shape row = true;
  ih_receipts v : is_Some (it_receipts s !! (ic_tenant_id (lr_incident row), id, v)) ↔
    1 ≤ v < lr_aggregate_version row;
  ih_last receipt : it_receipts s !! (ic_tenant_id (lr_incident row), id, lr_aggregate_version row - 1)
    = Some receipt →
    receipt_snapshot (ic_tenant_id (lr_incident row)) id receipt = incident_from_row row
}.

Definition incidents_ok s : Prop := ∀ id row, it_rows s !! id = Some row → incident_history s id row.

Lemma incidents_ok_ids s id : incidents_ok s →
  ∀ row, it_rows s !! id = Some row → ic_id (lr_incident row) = id.
Proof. intros Hok row Hrow. apply (Hok _ _ Hrow). Qed.

Lemma written_ok tenant_id id version t digest f row after s s' :
  incidents_ok s → it_rows s !! id = Some row → ic_tenant_id (lr_incident row) = tenant_id →
  written tenant_id id version t digest f row after s s' →
  incidents_ok s' ∧ ∃ receipt, it_receipts s' !! (tenant_id, id, version) = Some receipt ∧
    ir_request_digest receipt = digest ∧ receipt_snapshot tenant_id id receipt = Ok after.
Proof.
  intros Hok Hrow Ht [Hv _ (Hrows & Hshape & Hafter) [[_ (at_ & Hrec & _)] _ _]].
  destruct (transitioned_identity t (trim_str (transition_actor t))
    (trim_str <$> transition_resolution t) (fr_now f) row) as (Ei & Et & Ev).
  set (row' := transitioned _ _ _ _ row) in *. destruct (Hok _ _ Hrow) as [Hid Hsh Hrs Hl].
  destruct (incident_from_row_ok _ _ Hafter) as (Ai & At & _ & Av & _ & Hpos).
  rewrite Ei, Hid in Ai. rewrite Et, Ht in At.
  assert (receipt_snapshot tenant_id id (transition_receipt after t digest f at_) = Ok after) as Hsnap.
  { rewrite <-Ai, <-At. apply receipt_of_transition. lia. }
  split; [|eexists; rewrite Hrec; split; [apply lookup_insert_eq|done]].
  intros id2 row2. rewrite Hrows, lookup_insert_Some. intros [[<- <-]|[Hne Hrow2]].
  - split; [by rewrite Ei|done| |].
    + intros v. rewrite Et, Ht, Ev, Hv, Hrec. rewrite Ht in Hrs.
      destruct (decide (v = version)) as [->|Hn].
      * rewrite lookup_insert_eq. pose proof (shape_versions _ Hsh). split; [lia|by eexists].
      * rewrite lookup_insert_ne by congruence. rewrite Hrs, Hv. lia.
    + intros receipt. rewrite Et, Ht, Ev, Hv, Hrec.
      replace (version + 1 - 1) with version by lia. rewrite lookup_insert_eq. intros [= <-].
      by rewrite Hsnap, Hafter.
  - destruct (Hok _ _ Hrow2) as [Hid2 Hsh2 Hrs2 Hl2]. split; [done..| |].
    + intros v. rewrite Hrec, lookup_insert_ne by congruence. apply Hrs2.
    + intros receipt. rewrite Hrec, lookup_insert_ne by congruence. apply Hl2.
Qed.

(** ** Sequences of transitions *)

Definition incident_step s s' : Prop :=
  ∃ tenant_id id version t f after,
    transition_operational_incident tenant_id id version t f s = Ok (s', after).

(** A row and a later form of it. *)
Record advances row row' : Prop := {
  av_owner : set_status "" false (lr_incident row') = set_status "" false (lr_incident row);
  av_version : lr_aggregate_version row ≤ lr_aggregate_version row';
  av_acknowledged : 1 < lr_aggregate_version row →
    lr_acknowledged_at row' = lr_acknowledged_at row ∧ lr_acknowledged_by row' = lr_acknowledged_by row;
  av_closed : 2 < lr_aggregate_version row → row' = row
}.

Lemma advances_refl row : advances row row.
Proof. by split. Qed.

Lemma advances_trans r1 r2 r3 : advances r1 r2 → advances r2 r3 → advances r1 r3.
Proof.
  intros [O1 V1 A1 C1] [O2 V2 A2 C2]. split; [congruence|lia| |].
  - intros H. destruct (A1 H), A2 as [? ?]; [lia|]. split; congruence.
  - intros H. rewrite <-(C1 H). apply C2. rewrite (C1 H). lia.
Qed.

Lemma written_advances tenant_id id version t digest f row after s s' :
  lifecycle_shape row = true → written tenant_id id version t digest f row after s s' →
  advances row (transitioned t (trim_str (transition_actor t)) (trim_str <$> transition_resolution t)
                  (fr_now f) row).
Proof.
  intros Hs [_ Hf _ _]. unfold lifecycle_shape in Hs.
  rewrite !orb_true_iff, !andb_true_iff, !Z.eqb_eq, !bool_decide_eq_true, mem_true in Hs.
  assert (lr_aggregate_version row ≤ 2 ∧ (1 < lr_aggregate_version row → ∀ a, t ≠ AcknowledgeIncident a)) as [Hv Ha].
  { destruct Hs as [[Hs|Hs]|Hs]; destruct_and?; split; try lia; try (intros _ a ->; simpl in Hf; congruence).
    all: exfalso; match goal with H : ic_status _ ∈ _ |- _ =>
      rewrite Hf, !elem_of_cons, elem_of_nil in H; by destruct t, H as [?|[?|?]] end. }
  destruct t; split; try done; simpl; try lia. intros H. by destruct (Ha H actor).
Qed.

Lemma step_keeps s s' : incidents_ok s → incident_step s s' →
  incidents_ok s' ∧
  (∀ key receipt, it_receipts s !! key = Some receipt → it_receipts s' !! key = Some receipt) ∧
  (∀ id row, it_rows s !! id = Some row → ∃ row', it_rows s' !! id = Some row' ∧ advances row row').
Proof.
  intros Hok (tenant_id & id & version & t & f & after & H).
  apply transition_cases in H as (digest & row & _ & Hrow & Ht & H); [|by apply incidents_ok_ids].
  destruct H as [(receipt & _ & _ & _ & ->)|Hw].
  { split_and!; [done..|]. intros id' row' Hr. exists row'. split; [done|apply advances_refl]. }
  split_and!; [by eapply written_ok| |].
  - intros key receipt Hr. destruct (wt_documented _ _ _ _ _ _ _ _ _ _ Hw) as [[Hn (at_ & -> & _)] _ _].
    rewrite lookup_insert_ne; [done|]. congruence.
  - intros id' row' Hr. destruct (wt_row _ _ _ _ _ _ _ _ _ _ Hw) as (-> & _ & _).
    destruct (decide (id' = id)) as [->|Hne].
    + rewrite lookup_insert_eq. eexists. split; [done|]. assert (row' = row) as -> by congruence.
      eapply written_advances; [|done]. apply (Hok _ _ Hrow).
    + rewrite lookup_insert_ne by done. exists row'. split; [done|apply advances_refl].
Qed.

Lemma steps_keep s s' : rtc incident_step s s' → incidents_ok s →
  incidents_ok s' ∧
  (∀ key receipt, it_receipts s !! key = Some receipt → it_receipts s' !! key = Some receipt) ∧
  (∀ id row, it_rows s !! id = Some row → ∃ row', it_rows s' !! id = Some row' ∧ advances row row').
Proof.
  induction 1 as [s|s1 s2 s3 Hstep _ IH]; intros Hok.
  { split_and!; [done..|]. intros id row Hr. exists row. split; [done|apply advances_refl]. }
  destruct (step_keeps _ _ Hok Hstep) as (Hok2 & Hr & Hrow). destruct (IH Hok2) as (Hok3 & Hr3 & Hrow3).
  split_and!; [done|by auto|]. intros id row H. destruct (Hrow _ _ H) as (row2 & H2 & A2).
  destruct (Hrow3 _ _ H2) as (row3 & H3 & A3). exists row3. split; [done|by eapply advances_trans].
Qed.

Lemma transition_replayed tenant_id id version t f s row receipt digest after :
  it_rows s !! id = Some row → ic_tenant_id (lr_incident row) = tenant_id →
  it_receipts s !! (tenant_id, id, version) = Some receipt → ir_request_digest receipt = digest →
  receipt_snapshot tenant_id id receipt = Ok after →
  ∀ digest', prepare_transition tenant_id id version t = Ok digest' →
    transition_operational_incident tenant_id id version t f s =
    if bool_decide (digest' = digest) then Ok (s, after)
    else Err (Conflict [Lit "operational incident "; FmtUuid id; Lit " version "; FmtNum version;
                        Lit " was already transitioned with different semantics"]).
Proof.
  intros Hrow Ht Hr Hd Hs digest' Hp. unfold transition_operational_incident, load_incident_receipt.
  rewrite Hp. cbn [mbind res_bind]. rewrite Hrow. cbn [mbind option_bind]. rewrite bool_decide_true by done.
  cbn [ok_or mbind res_bind]. rewrite Hr, Hd, Hs. case_bool_decide as E; case_bool_decide as E'; simpl; congruence.
Qed.

(** C26. A transition of an operational incident happens once and can be asked for
    again: in tables where every incident has the receipts of its past versions, a
    successful call keeps that so and is either the repetition of a recorded
    request or a change of this one row by one version, from the state that the
    transition requires, with one receipt, one audit event chained to the last and
    one message.  However many transitions follow, the same request still returns
    the same snapshot and changes nothing, any other request at that version is a
    conflict, the owner and the acknowledgement of an incident stay as they are,
    and a closed incident never changes again. *)
Theorem incident_transitions_once tenant_id id version t f s s' after :
  incidents_ok s → transition_operational_incident tenant_id id version t f s = Ok (s', after) →
  ∃ digest row, prepare_transition tenant_id id version t = Ok digest ∧ it_rows s !! id = Some row ∧
  (s' = s ∨ written tenant_id id version t digest f row after s s') ∧
  ∀ s2, rtc incident_step s' s2 → incidents_ok s2 ∧
    (∀ f2, transition_operational_incident tenant_id id version t f2 s2 = Ok (s2, after)) ∧
    (∀ t2 f2 digest2, prepare_transition tenant_id id version t2 = Ok digest2 → digest2 ≠ digest →
       transition_operational_incident tenant_id id version t2 f2 s2 =
       Err (Conflict [Lit "operational incident "; FmtUuid id; Lit " version "; FmtNum version;
                      Lit " was already transitioned with different semantics"])) ∧
    (∀ id' row1, it_rows s' !! id' = Some row1 → ∃ row2, it_rows s2 !! id' = Some row2 ∧ advances row1 row2).
Proof.
  intros Hok H. pose proof H as Hstep.
  apply transition_cases in H as (digest & row & Hp & Hrow & Ht & H); [|by apply incidents_ok_ids].
  exists digest, row. split; [done|]. split; [done|]. split.
  { destruct H as [(? & _ & _ & _ & ->)|H]; [by left|by right]. }
  assert (incidents_ok s' ∧ ∃ receipt, it_receipts s' !! (tenant_id, id, version) = Some receipt ∧
    ir_request_digest receipt = digest ∧ receipt_snapshot tenant_id id receipt = Ok after)
    as (Hok' & receipt & Hr & Hd & Hsnap).
  { destruct H as [(receipt & ? & ? & ? & ->)|H]; [by eauto|by eapply written_ok]. }
  assert (∃ row1, it_rows s' !! id = Some row1 ∧ ic_tenant_id (lr_incident row1) = tenant_id)
    as (row1 & Hrow1 & Ht1).
  { destruct H as [(_ & _ & _ & _ & ->)|H]; [by eauto|]. destruct (wt_row _ _ _ _ _ _ _ _ _ _ H) as (-> & _ & _).
    rewrite lookup_insert_eq. eexists. split; [done|]. by rewrite (proj1 (proj2 (transitioned_identity _ _ _ _ _))). }
  intros s2 Hs2. destruct (steps_keep _ _ Hs2 Hok') as (Hok2 & Hr2 & Hadv).
  destruct (Hadv _ _ Hrow1) as (row2 & Hrow2 & [Ho _ _ _]).
  assert (ic_tenant_id (lr_incident row2) = tenant_id) as Ht2.
  { rewrite <-Ht1. by injection Ho. }
  split_and!; [done| | |done].
  - intros f2. rewrite (transition_replayed _ _ _ _ f2 _ _ _ _ _ Hrow2 Ht2 (Hr2 _ _ Hr) Hd Hsnap _ Hp).
    by rewrite bool_decide_true.
  - intros t2 f2 digest2 Hp2 Hne.
    rewrite (transition_replayed _ _ _ _ f2 _ _ _ _ _ Hrow2 Ht2 (Hr2 _ _ Hr) Hd Hsnap _ Hp2).
    by rewrite bool_decide_false.
Qed.
End facts.

(** ** An acknowledged incident *)

Module Sample.
#[local] Instance columns : PgColumns :=
  {| stored_at t := t; stored_value v := v; stored_value_object v := eq_refl |}.
#[local] Instance uuids : UuidText := {| uuid_to_string _ := "u"; uuid_to_string_visible _ := eq_refl |}.
#[local] Existing Instances sample_hashing sample_jcs.
#[local] Instance times : DateTimeText := {| datetime_to_string _ := "t" |}.
#[local] Instance requests : Canonical OperationalIncidentSemanticRequest :=
  {| to_jcs q := inr (oq_expected_version q :: bytes (oq_transition q ++ oq_actor q)) |}.
#[local] Instance lifecycles : Canonical OperationalIncidentLifecycle :=
  {| to_jcs l := inr [ol_aggregate_version l] |}.

Definition incident : IncidentRow :=
  {| ic_id := 51%N; ic_tenant_id := 1%N; ic_workflow_job_id := 13%N;
     ic_category := "WORKFLOW_JOB_EXHAUSTED"; ic_status := "OPEN"; ic_severity := "HIGH";
     ic_reason := "exhausted"; ic_owner_type := "ON_CALL"; ic_owner_id := "platform-operations";
     ic_required_action := tenant_action; ic_evidence_references := Array [VString "log"];
     ic_deadline := 100; ic_escalation_path := Array []; ic_retry_policy := Object [];
     ic_prerequisites := Array []; ic_authority_or_effect_active := true; ic_idempotency_key := "key";
     ic_opened_at := 10 |}.

Definition tables : IncidentTables :=
  mkIncidentTables {[ 51%N := opened_incident incident ]} ∅ [] [].

Lemma tables_ok : incidents_ok tables.
Proof.
  intros id row. simpl. intros [<- <-]%lookup_singleton_Some. split; [done..| |].
  - intros v. simpl. rewrite lookup_empty. split; [by intros []|lia].
  - intros receipt. simpl. by rewrite lookup_empty.
Qed.

Lemma incident_transitions_once_witness :
  ∃ s' after,
    transition_operational_incident 1%N 51%N 1 (AcknowledgeIncident " ops ") (mkFresh 20 61%N 62%N) tables
      = Ok (s', after) ∧ ol_acknowledged_by after = Some "ops" ∧
    ∀ s2, rtc incident_step s' s2 → ∀ f2,
      transition_operational_incident 1%N 51%N 1 (AcknowledgeIncident " ops ") f2 s2 = Ok (s2, after).
Proof.
  destruct (transition_operational_incident 1%N 51%N 1 (AcknowledgeIncident " ops ")
    (mkFresh 20 61%N 62%N) tables) as [[s' after]| |] eqn:E; [|vm_compute in E; discriminate E..].
  exists s', after. split; [done|].
  split; [vm_compute in E; injection E as _ <-; reflexivity|].
  destruct (incident_transitions_once 1%N 51%N 1 (AcknowledgeIncident " ops ") (mkFresh 20 61%N 62%N)
    tables s' after tables_ok E) as (digest & row & _ & _ & _ & H).
  intros s2 Hs2. apply (H s2 Hs2).
Defined.
End Sample.
