(* ===== verification/Webhook.v ===== *)
(** Linear webhooks, [src/src/adapters/linear_webhook.rs]: the signature over the
    raw body, the replay window and the normalized delivery.

    The [hmac], [hex] and [uuid] crates and the parsing of the payload by serde are
    parameters; the comparison in constant time is equality. *)

From Stdlib Require Import ZArith Lia Ascii.
From stdpp Require Import base tactics option strings pretty numbers list.
From S2P Require Import Prelude RustStr RustOrd Ids Crypto Security RunEvents JobQueue Outcome DeadLetter Handlers.

(** [Hmac<Sha256>], which takes a key of any length, and [hex::decode], which
    inverts [hex::encode] on lower-case digits. *)
Class HmacSha256 `{Hashing} := {
  hmac_sha256 : list Z → list Z → list Z;
  hex_decode : string → option (list Z);
  hmac_sha256_len key m : len (hex_encode (hmac_sha256 key m)) = 64;
  hmac_sha256_lower key m : forallb lower_hex (bytes (hex_encode (hmac_sha256 key m))) = true;
  hex_decode_encode bs : forallb lower_hex (bytes (hex_encode bs)) = true →
    hex_decode (hex_encode bs) = Some bs;
  hex_encode_decode s bs : forallb lower_hex (bytes s) = true → hex_decode s = Some bs →
    hex_encode bs = s
}.

(** [Uuid::parse_str], and [get_version() == Some(Version::Random)]. *)
Class UuidParse := { uuid_parse : string → option Uuid; is_random_version : Uuid → bool }.

Definition DEFAULT_MAX_BODY_BYTES : Z := 1024 * 1024.
Definition MAX_CONFIGURED_BODY_BYTES : Z := 16 * 1024 * 1024.
Definition DEFAULT_MAX_TIMESTAMP_SKEW : Duration := minutes 1.

Record LinearWebhookRequest := mkLinearWebhookRequest {
  wq_delivery : string;
  wq_event : string;
  wq_signature : string;
  wq_timestamp : string;
  wq_raw_body : list Z
}.

Inductive LinearWebhookAction := WebhookCreate | WebhookUpdate | WebhookRemove.

(** [impl Deserialize for LinearWebhookAction], after the string is read. *)
Definition webhook_action (value : string) : option LinearWebhookAction :=
  if bool_decide (value = "create") then Some WebhookCreate
  else if bool_decide (value = "update") then Some WebhookUpdate
  else if bool_decide (value = "remove") then Some WebhookRemove
  else None.

Record LinearWebhookPayload := mkLinearWebhookPayload {
  wp_action : LinearWebhookAction;
  wp_event_type : string;
  wp_created_at : DateTime;
  wp_webhook_timestamp : Z;
  wp_data : Value;
  wp_updated_from : option Value
}.

(** [serde_json::from_slice] of the payload: an object whose fields it has. *)
Class WebhookJson := { parse_webhook : list Z → option LinearWebhookPayload }.

Record VerifiedLinearIssueDelivery := mkVerifiedLinearIssueDelivery {
  vd_delivery_id : Uuid;
  vd_action : LinearWebhookAction;
  vd_issue_id : string;
  vd_created_at : DateTime;
  vd_webhook_timestamp : DateTime;
  vd_data : Value;
  vd_updated_from : option Value
}.

Inductive LinearWebhookError :=
| WebhookInvalidConfiguration (m : message)
| BodyTooLarge
| InvalidSignature
| InvalidTimestamp
| StaleDelivery
| InvalidDelivery
| UnsupportedEvent
| InvalidPayload.

Record LinearWebhookVerifier := mkLinearWebhookVerifier {
  wv_signing_secret : string;
  wv_max_timestamp_skew : Duration;
  wv_max_body_bytes : Z
}.

Definition with_limits (signing_secret : string) (max_timestamp_skew : Duration) (max_body_bytes : Z)
  : outcome LinearWebhookError LinearWebhookVerifier :=
  refuse_if (str_is_empty signing_secret)
    (WebhookInvalidConfiguration [Lit "webhook signing secret must be non-empty"]) ;;
  refuse_if ((max_timestamp_skew <? seconds 1) || (minutes 5 <? max_timestamp_skew))
    (WebhookInvalidConfiguration [Lit "webhook timestamp skew must be within 1 second and 5 minutes"]) ;;
  refuse_if (negb ((1 <=? max_body_bytes) && (max_body_bytes <=? MAX_CONFIGURED_BODY_BYTES)))
    (WebhookInvalidConfiguration [Lit "webhook body limit must be within 1..=";
                                  FmtNum MAX_CONFIGURED_BODY_BYTES; Lit " bytes"]) ;;
  Success (mkLinearWebhookVerifier signing_secret max_timestamp_skew max_body_bytes).

Definition LinearWebhookVerifier_new (signing_secret : string)
  : outcome LinearWebhookError LinearWebhookVerifier :=
  with_limits signing_secret DEFAULT_MAX_TIMESTAMP_SKEW DEFAULT_MAX_BODY_BYTES.

(** [str::parse::<i64>]: an optional sign and decimal digits. *)
Definition decimal (bs : list Z) : option Z :=
  match bs with
  | [] => None
  | _ => if forallb is_ascii_digit bs then Some (foldl (λ n b, n * 10 + (b - 48)) 0 bs) else None
  end.

Definition parse_i64 (s : string) : option Z :=
  n ← match bytes s with
      | 45 :: bs => Z.opp <$> decimal bs
      | 43 :: bs => decimal bs
      | bs => decimal bs
      end;
  if (- 2 ^ 63 <=? n) && (n <=? i64_max) then Some n else None.

Section webhook.
  Context {hashing : Hashing} {hmacs : HmacSha256} {parse : UuidParse} {json : WebhookJson} {chrono : Chrono}.

Definition verify_webhook_signature (secret body : list Z) (signature : string)
  : outcome LinearWebhookError unit :=
  refuse_if (negb (len signature =? 64) || negb (forallb lower_hex (bytes signature))) InvalidSignature ;;
  supplied ← or_fail (hex_decode signature) InvalidSignature;
  refuse_if (negb (bool_decide (hmac_sha256 secret body = supplied))) InvalidSignature.

Definition parse_delivery_id (value : string) : outcome LinearWebhookError Uuid :=
  delivery_id ← or_fail (uuid_parse value) InvalidDelivery;
  refuse_if (negb (is_random_version delivery_id)) InvalidDelivery ;; Success delivery_id.

(** [DateTime::from_timestamp_millis]. *)
Definition from_timestamp_millis (ms : Z) : option DateTime :=
  let t := ms * 1000000 in
  if (datetime_min <=? t) && (t <=? datetime_max) then Some t else None.

Definition verify_at (v : LinearWebhookVerifier) (r : LinearWebhookRequest) (now : DateTime)
  : outcome LinearWebhookError VerifiedLinearIssueDelivery :=
  refuse_if (wv_max_body_bytes v <? Z.of_nat (length (wq_raw_body r))) BodyTooLarge ;;
  verify_webhook_signature (bytes (wv_signing_secret v)) (wq_raw_body r) (wq_signature r) ;;
  payload ← or_fail (parse_webhook (wq_raw_body r)) InvalidPayload;
  delivery_id ← parse_delivery_id (wq_delivery r);
  refuse_if (negb (bool_decide (wq_event r = "Issue"))
             || negb (bool_decide (wp_event_type payload = "Issue"))) UnsupportedEvent ;;
  header_timestamp ← or_fail (parse_i64 (wq_timestamp r)) InvalidTimestamp;
  refuse_if (negb (header_timestamp =? wp_webhook_timestamp payload)) InvalidTimestamp ;;
  webhook_timestamp ← or_fail (from_timestamp_millis (wp_webhook_timestamp payload)) InvalidTimestamp;
  refuse_if (duration_max <? wv_max_timestamp_skew v) InvalidTimestamp ;;
  refuse_if (wv_max_timestamp_skew v <? Z.abs (now - webhook_timestamp)) StaleDelivery ;;
  refuse_if (negb (is_object (wp_data payload))
             || from_option (λ u, negb (is_object u)) false (wp_updated_from payload)) InvalidPayload ;;
  issue_id ← or_fail (id ← field "id" (wp_data payload) ≫= value_as_str;
                      if blank id then None else Some id) InvalidPayload;
  Success (mkVerifiedLinearIssueDelivery delivery_id (wp_action payload) issue_id
             (wp_created_at payload) webhook_timestamp (wp_data payload) (wp_updated_from payload)).

(** ** What is accepted *)

(** A signature is accepted when it is the text of the code of the body. *)
Lemma verify_signature_exact secret body signature :
  verify_webhook_signature secret body signature = Success tt ↔
  signature = hex_encode (hmac_sha256 secret body).
Proof.
  unfold verify_webhook_signature.
  rewrite obind_unit_success, refuse_if_success, orb_false_iff, !negb_false_iff, Z.eqb_eq, obind_success.
  setoid_rewrite or_fail_success. setoid_rewrite refuse_if_success.
  setoid_rewrite negb_false_iff. setoid_rewrite bool_decide_eq_true. split.
  - intros ([_ Hlow] & bs & Hd & <-). symmetry. by apply hex_encode_decode.
  - intros ->. split; [split; [apply hmac_sha256_len|apply hmac_sha256_lower]|].
    eexists. split; [|done]. apply hex_decode_encode, hmac_sha256_lower.
Qed.

Lemma verify_signature_cases secret body signature :
  verify_webhook_signature secret body signature = Success tt ∨
  verify_webhook_signature secret body signature = Failure InvalidSignature.
Proof.
  unfold verify_webhook_signature. destruct (negb (len signature =? 64) || _); [by right|]. simpl.
  destruct (hex_decode signature) as [bs|]; [|by right]. simpl.
  destruct (negb _); [by right|by left].
Qed.

(** The text of a header is the number that the payload states. *)
Record accepted_delivery (v : LinearWebhookVerifier) (r : LinearWebhookRequest) (now : DateTime)
    (p : LinearWebhookPayload) (d : VerifiedLinearIssueDelivery) : Prop := {
  ac_bounded : Z.of_nat (length (wq_raw_body r)) ≤ wv_max_body_bytes v;
  ac_signed : wq_signature r = hex_encode (hmac_sha256 (bytes (wv_signing_secret v)) (wq_raw_body r));
  ac_parsed : parse_webhook (wq_raw_body r) = Some p;
  ac_delivery : uuid_parse (wq_delivery r) = Some (vd_delivery_id d) ∧
    is_random_version (vd_delivery_id d) = true;
  ac_event : wq_event r = "Issue" ∧ wp_event_type p = "Issue";
  ac_timestamp : parse_i64 (wq_timestamp r) = Some (wp_webhook_timestamp p) ∧
    vd_webhook_timestamp d = wp_webhook_timestamp p * 1000000 ∧
    datetime_min ≤ vd_webhook_timestamp d ≤ datetime_max;
  ac_fresh : Z.abs (now - vd_webhook_timestamp d) ≤ wv_max_timestamp_skew v ≤ duration_max;
  ac_objects : is_object (wp_data p) = true ∧
    (∀ u, wp_updated_from p = Some u → is_object u = true);
  ac_issue : field "id" (wp_data p) = Some (VString (vd_issue_id d)) ∧ blank (vd_issue_id d) = false;
  ac_rest : vd_action d = wp_action p ∧ vd_created_at d = wp_created_at p ∧ vd_data d = wp_data p ∧
    vd_updated_from d = wp_updated_from p
}.

Lemma parse_delivery_id_exact value id :
  parse_delivery_id value = Success id ↔ uuid_parse value = Some id ∧ is_random_version id = true.
Proof.
  unfold parse_delivery_id. rewrite obind_success. setoid_rewrite or_fail_success.
  setoid_rewrite obind_unit_success. setoid_rewrite refuse_if_success.
  setoid_rewrite negb_false_iff. naive_solver.
Qed.

Lemma issue_id_exact (data : Value) (id : string) :
  (id ← field "id" data ≫= value_as_str; if blank id then None else Some id) = Some id ↔
  field "id" data = Some (VString id) ∧ blank id = false.
Proof.
  destruct (field "id" data) as [[| | |s| |]|]; simpl; try (by split; [|intros [? _]]).
  destruct (blank s) eqn:E; split; try done.
  - intros [[= <-] H]. congruence.
  - by intros [= <-].
  - by intros [[= <-] _].
Qed.

Lemma objects_exact (updated : option Value) :
  from_option (λ u, negb (is_object u)) false updated = false ↔
  ∀ u, updated = Some u → is_object u = true.
Proof. destruct updated as [u|]; simpl; [rewrite negb_false_iff|]; naive_solver. Qed.

(** A webhook is accepted exactly when its body is within the limit, its
    signature is the HMAC of the exact bytes under the secret in lower-case
    hexadecimal, the delivery id is a random UUID, header and payload name an
    issue event and the same instant within the replay window, and the payload
    has objects and a visible issue id; the delivery repeats what was signed.  A
    body that is too large or whose signature is wrong is refused before any of
    its bytes is parsed. *)
Lemma webhook_exact v r now :
  (∀ d, verify_at v r now = Success d ↔ ∃ p, accepted_delivery v r now p d) ∧
  (wv_max_body_bytes v < Z.of_nat (length (wq_raw_body r)) → verify_at v r now = Failure BodyTooLarge) ∧
  (Z.of_nat (length (wq_raw_body r)) ≤ wv_max_body_bytes v →
   wq_signature r ≠ hex_encode (hmac_sha256 (bytes (wv_signing_secret v)) (wq_raw_body r)) →
   verify_at v r now = Failure InvalidSignature).
Proof.
  split_and!.
  - intros d. unfold verify_at. split.
    + intros H. apply obind_unit_success in H as [H0 H]. apply refuse_if_success, Z.ltb_ge in H0.
      apply obind_unit_success in H as [H1%verify_signature_exact H].
      apply obind_success in H as (p & H2%or_fail_success & H).
      apply obind_success in H as (id & H3%parse_delivery_id_exact & H).
      apply obind_unit_success in H as [H4 H].
      rewrite refuse_if_success, orb_false_iff, !negb_false_iff, !bool_decide_eq_true in H4.
      apply obind_success in H as (ts & H5%or_fail_success & H).
      apply obind_unit_success in H as [H6 H]. rewrite refuse_if_success, negb_false_iff, Z.eqb_eq in H6.
      subst ts. apply obind_success in H as (at_ & H7%or_fail_success & H).
      unfold from_timestamp_millis in H7. destruct (_ && _) eqn:Hr in H7; [|done]. injection H7 as <-.
      rewrite andb_true_iff, !Z.leb_le in Hr.
      apply obind_unit_success in H as [H8 H]. apply refuse_if_success, Z.ltb_ge in H8.
      apply obind_unit_success in H as [H9 H]. apply refuse_if_success, Z.ltb_ge in H9.
      apply obind_unit_success in H as [H10 H].
      rewrite refuse_if_success, orb_false_iff, negb_false_iff, objects_exact in H10.
      apply obind_success in H as (issue & H11%or_fail_success%issue_id_exact & [= <-]).
      exists p. by split.
    + intros (p & [H0 H1 H2 H3 [E1 E2] (H5 & H6 & H7) [H8 H9] [H10 H11] H12 (A1 & A2 & A3 & A4)]).
      rewrite (proj2 (Z.ltb_ge _ _)) by lia. cbn [refuse_if mbind outcome_bind].
      rewrite (proj2 (verify_signature_exact _ _ _)) by done. cbn [mbind outcome_bind].
      rewrite H2. cbn [or_fail mbind outcome_bind].
      rewrite (proj2 (parse_delivery_id_exact _ _) H3). cbn [mbind outcome_bind].
      rewrite E1, E2, !bool_decide_true by done. cbn [negb orb refuse_if mbind outcome_bind].
      rewrite H5. cbn [or_fail mbind outcome_bind]. rewrite Z.eqb_refl. cbn [negb refuse_if mbind outcome_bind].
      unfold from_timestamp_millis. rewrite <-H6, !(proj2 (Z.leb_le _ _)) by lia. cbn [andb or_fail mbind outcome_bind].
      rewrite !(proj2 (Z.ltb_ge _ _)) by lia. cbn [refuse_if mbind outcome_bind].
      rewrite H10, (proj2 (objects_exact _) H11). cbn [negb orb refuse_if mbind outcome_bind].
      rewrite (proj2 (issue_id_exact _ _) H12). cbn [or_fail mbind outcome_bind].
      rewrite <-A1, <-A2, <-A3, <-A4. by destruct d.
  - intros H. unfold verify_at. by rewrite (proj2 (Z.ltb_lt _ _) H).
  - intros H Hs. unfold verify_at. rewrite (proj2 (Z.ltb_ge _ _) H). cbn [refuse_if mbind outcome_bind].
    destruct (verify_signature_cases (bytes (wv_signing_secret v)) (wq_raw_body r) (wq_signature r)) as [H1|H1].
    + by apply verify_signature_exact in H1.
    + by rewrite H1.
Qed.
End webhook.

(** ** A signed delivery *)

Module Sample.
Definition digit (n : Z) : ascii :=
  ascii_of_nat (Z.to_nat (if n <? 10 then 48 + n else if n <? 16 then 87 + n else 103)).
Definition undigit (c : ascii) : Z :=
  let n := byte_of c in if n <? 58 then n - 48 else n - 87.

Fixpoint encode (bs : list Z) : string :=
  match bs with
  | [] => ""
  | b :: bs => if (0 <=? b) && (b <? 256)
               then String (digit (b / 16)) (String (digit (b mod 16)) (encode bs)) else "g"
  end.

Fixpoint decode (s : string) : option (list Z) :=
  match s with
  | "" => Some []
  | String c (String d s) => bs ← decode s; Some (undigit c * 16 + undigit d :: bs)
  | _ => None
  end.

Lemma undigit_digit n : 0 ≤ n < 16 → undigit (digit n) = n.
Proof.
  intros Hn. assert (n ∈ seqZ 0 16) as Hin by (apply elem_of_seqZ; lia). clear Hn.
  revert n Hin. apply Forall_forall. by repeat constructor.
Qed.

Lemma digit_undigit c : lower_hex (byte_of c) = true →
  digit (undigit c) = c ∧ 0 ≤ undigit c < 16.
Proof. destruct c as [[] [] [] [] [] [] [] []]; vm_compute; try done; intros _; by repeat split. Qed.

Lemma decode_encode bs : forallb lower_hex (bytes (encode bs)) = true → decode (encode bs) = Some bs.
Proof.
  induction bs as [|b bs IH]; simpl; [done|].
  destruct ((0 <=? b) && (b <? 256)) eqn:E; [|done]. rewrite andb_true_iff, Z.leb_le, Z.ltb_lt in E.
  simpl. rewrite !andb_true_iff. intros (_ & _ & H). rewrite (IH H). simpl.
  rewrite !undigit_digit by (pose proof (Z.div_mod b 16); pose proof (Z.mod_pos_bound b 16); lia).
  f_equal. f_equal. pose proof (Z.div_mod b 16). lia.
Qed.

Lemma encode_decode n : ∀ s bs, (String.length s ≤ n)%nat → forallb lower_hex (bytes s) = true →
  decode s = Some bs → encode bs = s.
Proof.
  induction n as [|n IH]; intros [|c [|d s]] bs Hn; simpl in *; try (intros _ [= <-]; done); try lia; try done.
  rewrite !andb_true_iff. intros (Hc%digit_undigit & Hd%digit_undigit & Hs).
  destruct (decode s) as [bs'|] eqn:E; [|done]. simpl. intros [= <-]. simpl.
  destruct Hc as [Ec Hc], Hd as [Ed Hd].
  rewrite (proj2 (Z.leb_le _ _)), (proj2 (Z.ltb_lt _ _)) by lia. simpl.
  rewrite Z.div_add_l, Z.div_small, Z.add_0_r by lia.
  rewrite Z.add_comm, Z.mod_add, Z.mod_small by lia. rewrite Ec, Ed. do 2 f_equal.
  apply IH; [lia|done|done].
Qed.

Definition code (_ _ : list Z) : list Z := replicate 32 171.

#[local] Instance hashes : Hashing :=
  {| sha256 := code []; hex_encode := encode; hex_sha256_len m := eq_refl; hex_sha256_lower m := eq_refl |}.
#[local] Instance codes : HmacSha256 :=
  {| hmac_sha256 := code; hex_decode := decode; hmac_sha256_len k m := eq_refl;
     hmac_sha256_lower k m := eq_refl; hex_decode_encode := decode_encode;
     hex_encode_decode s bs := encode_decode (String.length s) s bs (le_n _) |}.
#[local] Instance parses : UuidParse :=
  {| uuid_parse s := if bool_decide (s = "d") then Some 7%N else None; is_random_version _ := true |}.
#[local] Instance payloads : WebhookJson :=
  {| parse_webhook body := if bool_decide (body = [1; 2]) then
       Some (mkLinearWebhookPayload WebhookUpdate "Issue" 5 2000
               (Object [("id", VString "issue")]) None) else None |}.
#[local] Instance calendar : Chrono :=
  {| datetime_min := - hours 1000; datetime_max := hours 1000; duration_max := hours 1000 |}.

Definition verifier : LinearWebhookVerifier := mkLinearWebhookVerifier "secret" (minutes 1) 100.
Definition delivery : LinearWebhookRequest :=
  mkLinearWebhookRequest "d" "Issue" (encode (code [] [])) "+2000" [1; 2].

Lemma webhook_exact_witness :
  verify_at verifier delivery (seconds 30) = Success
    (mkVerifiedLinearIssueDelivery 7%N WebhookUpdate "issue" 5 (seconds 2)
       (Object [("id", VString "issue")]) None) ∧
  verify_at verifier delivery (minutes 3) = Failure StaleDelivery.
Proof.
  split; [|vm_compute; reflexivity].
  apply (proj1 (webhook_exact verifier delivery (seconds 30))).
  exists (mkLinearWebhookPayload WebhookUpdate "Issue" 5 2000 (Object [("id", VString "issue")]) None).
  by split; repeat split; vm_compute.
Defined.
End Sample.
