(* ===== verification/Artifacts.v ===== *)
(** Content-addressed artifacts, [src/src/artifacts]: the file store ([mod.rs]), the
    S3 store ([s3.rs]) and the signatures of its requests ([sigv4.rs]).

    The file store is a state machine: a call of [put] is in a [PutProgress] and
    moves by one input or output operation at a time, whose result is an
    [IoEvent], so that calls interleave and may fail or stop anywhere.  A path is
    its two components below the root.  The S3 endpoint answers each request with a
    status and a body or not at all.  The client, [Url::set_path] of the crate
    [url], HMAC, SHA-256 and the rendering of dates are parameters. *)

From Stdlib Require Import ZArith Lia Ascii.
From stdpp Require Import base tactics option strings pretty numbers list gmap.
From S2P Require Import Prelude RustStr RustOrd Ids Crypto Authority Outcome Handlers Webhook.

Record StoredArtifact := mkStoredArtifact {
  sd_digest : string;
  sd_media_type : string;
  sd_size : Z;
  sd_producer : string;
  sd_retention_class : string;
  sd_stored_at : DateTime
}.

(** ** The file store *)

Abbreviation ArtifactPath := (string * string)%type.
Abbreviation Files := (gmap (string * string) (list Z)).

(** The digits of a digest, as both stores check them. *)
Definition digest_digits (digest : string) : res string :=
  hex ← ok_or (strip_prefix "sha256:" digest)
    (Validation [Lit "artifact digest must use sha256"]);
  bail_if (negb (len hex =? 64) || negb (forallb is_ascii_hexdigit (bytes hex)))
    (Validation [Lit "invalid artifact digest"]) ;;
  Ok hex.

(** [&hex[..2]] and [&hex[2..]] of a text of at least two bytes. *)
Definition hex_head (hex : string) : string :=
  match hex with String a (String b _) => String a (String b EmptyString) | _ => hex end.
Definition hex_tail (hex : string) : string :=
  match hex with String _ (String _ tail) => tail | _ => EmptyString end.

Definition path_for (digest : string) : res ArtifactPath :=
  hex ← digest_digits digest; Ok (hex_head hex, hex_tail hex).

(** [Path::exists]. *)
Definition path_exists (fs : Files) (path : ArtifactPath) : bool := is_some (fs !! path).

(** One call of [put] whose metadata was accepted. *)
Record PutCall := mkPutCall {
  pu_bytes : list Z;
  pu_media_type : string;
  pu_producer : string;
  pu_retention_class : string
}.

Inductive PutProgress :=
| PutStarted
| PutChecked
| PutWriting (temporary : ArtifactPath) (written : list Z)
| PutFlushed (temporary : ArtifactPath)
| PutRaced
| PutEnded (result : res StoredArtifact).

(** What the operating system answers: the temporary file was created, some more
    bytes were written, the operation was done at an instant, it failed with the
    context that [put] adds, or the rename failed and the temporary file was
    removed or could not be. *)
Inductive IoEvent :=
| IoCreated (id : Uuid)
| IoWrote (chunk : list Z)
| IoDone (now : DateTime)
| IoFailed (context : string)
| IoRenameFailed (removed : bool).

Section files.
  Context {hashing : Hashing} {uuids : UuidText}.

Definition temporary_path (path : ArtifactPath) (id : Uuid) : ArtifactPath :=
  (path.1, path.2 +:+ "." +:+ uuid_to_string id +:+ ".tmp").

Definition artifact_of (c : PutCall) (now : DateTime) : StoredArtifact :=
  mkStoredArtifact (sha256_digest (pu_bytes c)) (pu_media_type c) (Z.of_nat (length (pu_bytes c)))
    (pu_producer c) (pu_retention_class c) now.

(** The checks at the start of [put]. *)
Definition begin_put (c : PutCall) : res ArtifactPath :=
  bail_if (blank (pu_media_type c) || blank (pu_producer c) || blank (pu_retention_class c))
    (Validation [Lit "artifact metadata fields must be non-empty"]) ;;
  path_for (sha256_digest (pu_bytes c)).

(** One operation of [put] on the files.  [create_new] refuses a file that is
    there; what a failed [write_all] wrote stays; [rename] replaces its target. *)
Definition put_step (c : PutCall) (path : ArtifactPath) (e : IoEvent) (p : PutProgress) (fs : Files)
  : option (Files * PutProgress) :=
  let failed contexts context :=
    if mem context contexts then Some (fs, PutEnded (Err (Persistence [Lit context]))) else None in
  match p, e with
  | PutStarted, IoDone now =>
      if path_exists fs path then Some (fs, PutEnded (Ok (artifact_of c now)))
      else Some (fs, PutChecked)
  | PutStarted, IoFailed context => failed ["create artifact prefix"] context
  | PutChecked, IoCreated id =>
      let temporary := temporary_path path id in
      if path_exists fs temporary then None
      else Some (<[temporary := []]> fs, PutWriting temporary [])
  | PutChecked, IoFailed context => failed ["create artifact"] context
  | PutWriting temporary written, IoWrote chunk =>
      if bool_decide ((written ++ chunk) `prefix_of` pu_bytes c)
      then Some (<[temporary := written ++ chunk]> fs, PutWriting temporary (written ++ chunk))
      else None
  | PutWriting temporary written, IoDone _ =>
      if bool_decide (written = pu_bytes c) then Some (fs, PutFlushed temporary) else None
  | PutWriting _ _, IoFailed context => failed ["write artifact"; "flush artifact"] context
  | PutFlushed temporary, IoDone now =>
      match fs !! temporary with
      | Some content =>
          Some (<[path := content]> (delete temporary fs), PutEnded (Ok (artifact_of c now)))
      | None => None
      end
  | PutFlushed temporary, IoRenameFailed removed =>
      let fs' := if removed then delete temporary fs else fs in
      if path_exists fs path then Some (fs', PutRaced)
      else Some (fs', PutEnded (Err (Persistence [Lit "commit artifact"])))
  | PutRaced, IoDone now =>
      match fs !! path with
      | Some existing =>
          Some (fs, PutEnded
            (if bool_decide (sha256_digest existing = sha256_digest (pu_bytes c))
             then Ok (artifact_of c now)
             else Err (Persistence [Lit "content-addressed artifact collision"])))
      | None => None
      end
  | PutRaced, IoFailed context => failed ["read raced artifact"] context
  | _, _ => None
  end.

Definition file_get (fs : Files) (digest : string) : res (list Z) :=
  path ← path_for digest;
  ok_or (fs !! path) (NotFound [Lit "artifact "; Disp digest]).
End files.

(** ** Signatures of requests *)

Definition ALGORITHM : string := "AWS4-HMAC-SHA256".
Definition TERMINATOR : string := "aws4_request".
Definition newline : string := String (ascii_of_nat 10) EmptyString.

Record SigningIdentity := mkSigningIdentity {
  sn_access_key_id : string;
  sn_secret_access_key : string;
  sn_region : string;
  sn_service : string
}.

Record CanonicalRequest := mkCanonicalRequest {
  cq_method : string;
  cq_path : string;
  cq_headers : list (string * string);
  cq_payload_sha256 : string
}.

(** [DateTime::format] with [%Y%m%d] and [%Y%m%dT%H%M%SZ]. *)
Class DateStamps := { date_stamp : DateTime → string; time_stamp : DateTime → string }.

(** [str::split_whitespace] of characters. *)
Fixpoint words (cs : list Z) (word : list Z) : list (list Z) :=
  match cs with
  | [] => match word with [] => [] | _ => [word] end
  | c :: cs =>
      if is_whitespace c then match word with [] => words cs [] | _ => word :: words cs [] end
      else words cs (word ++ [c])
  end.

Definition collapse (value : string) : string :=
  String.concat " " ((λ w, of_bytes (flat_map utf8 w)) <$> words (chars value) []).

(** Names in lower case, values without surplus white space, sorted by name. *)
Definition sorted_headers (headers : list (string * string)) : list (string * string) :=
  sort_by_key fst ((λ h, (to_ascii_lowercase h.1, collapse h.2)) <$> headers).

Definition canonical_headers (headers : list (string * string)) : string * string :=
  let sorted := sorted_headers headers in
  (String.concat "" ((λ h, h.1 +:+ ":" +:+ h.2 +:+ newline) <$> sorted),
   String.concat ";" sorted.*1).

(** [{other:02X}] of a byte. *)
Definition upper_digit (n : Z) : ascii := ascii_of_nat (Z.to_nat (if n <? 10 then 48 + n else 55 + n)).
Definition percent (b : Z) : string :=
  String "%" (String (upper_digit (Z.shiftr b 4)) (String (upper_digit (Z.land b 15)) EmptyString)).

Definition unreserved (b : Z) : bool :=
  is_ascii_alphanumeric b || mem b [45; 46; 95; 126].

Fixpoint encode_path_segment (segment : string) : string :=
  match segment with
  | EmptyString => EmptyString
  | String c s =>
      if unreserved (byte_of c) then String c (encode_path_segment s)
      else percent (byte_of c) +:+ encode_path_segment s
  end.

Section signatures.
  Context {hashing : Hashing} {hmacs : HmacSha256} {stamps : DateStamps}.

(** [new_from_slice] takes keys of any length. *)
Definition signing_key (identity : SigningIdentity) (date : string) : list Z :=
  let initial := "AWS4" +:+ sn_secret_access_key identity in
  let dated := hmac_sha256 (bytes initial) (bytes date) in
  let regioned := hmac_sha256 dated (bytes (sn_region identity)) in
  let serviced := hmac_sha256 regioned (bytes (sn_service identity)) in
  hmac_sha256 serviced (bytes TERMINATOR).

Definition credential_scope (identity : SigningIdentity) (date : string) : string :=
  date +:+ "/" +:+ sn_region identity +:+ "/" +:+ sn_service identity +:+ "/" +:+ TERMINATOR.

Definition canonical_request (r : CanonicalRequest) : string :=
  let '(headers, signed_headers) := canonical_headers (cq_headers r) in
  cq_method r +:+ newline +:+ cq_path r +:+ newline +:+ newline +:+ headers +:+ newline
  +:+ signed_headers +:+ newline +:+ cq_payload_sha256 r.

Definition string_to_sign (identity : SigningIdentity) (r : CanonicalRequest) (signed_at : DateTime)
  : string :=
  ALGORITHM +:+ newline +:+ time_stamp signed_at +:+ newline
  +:+ credential_scope identity (date_stamp signed_at) +:+ newline
  +:+ hex_encode (sha256 (bytes (canonical_request r))).

Definition authorization_header (identity : SigningIdentity) (r : CanonicalRequest)
    (signed_at : DateTime) : res string :=
  bail_if (blank (sn_access_key_id identity) || blank (sn_secret_access_key identity)
           || blank (sn_region identity) || blank (sn_service identity))
    (Crypto [Lit "artifact storage signing identity is incomplete"]) ;;
  let date := date_stamp signed_at in
  let signature := hex_encode (hmac_sha256 (signing_key identity date)
                                 (bytes (string_to_sign identity r signed_at))) in
  Ok (ALGORITHM +:+ " Credential=" +:+ sn_access_key_id identity +:+ "/"
      +:+ credential_scope identity date +:+ ", SignedHeaders="
      +:+ (canonical_headers (cq_headers r)).2 +:+ ", Signature=" +:+ signature).
End signatures.

(** ** The S3 store *)

Definition MIN_TIMEOUT : Duration := 1000000.
Definition MAX_TIMEOUT : Duration := minutes 5.
Definition MAX_S3_ARTIFACT_BYTES : Z := 512 * 1024 * 1024.
Definition SERVICE : string := "s3".

Inductive S3ServerSideEncryption := BucketManaged | Aes256 | AwsKms (key_id : string).

Definition encryption_headers (e : S3ServerSideEncryption) : list (string * string) :=
  match e with
  | BucketManaged => []
  | Aes256 => [("x-amz-server-side-encryption", "AES256")]
  | AwsKms key_id => [("x-amz-server-side-encryption", "aws:kms");
                      ("x-amz-server-side-encryption-aws-kms-key-id", key_id)]
  end.

Record S3ArtifactStoreSettings := mkS3ArtifactStoreSettings {
  s3_endpoint : Url;
  s3_endpoint_port : option Z;
  s3_region : string;
  s3_bucket : string;
  s3_prefix : string;
  s3_access_key_id : string;
  s3_secret_access_key : string;
  s3_path_style : bool;
  s3_server_side_encryption : S3ServerSideEncryption;
  s3_timeout : Duration
}.

Definition valid_bucket (bucket : string) : bool :=
  (3 <=? len bucket) && (len bucket <=? 63)
  && forallb (λ b, is_ascii_lowercase b || is_ascii_digit b || (b =? 45)) (bytes bucket)
  && negb (starts_with "-" bucket) && negb (ends_with_char "-" bucket).

Definition valid_prefix (prefix : string) : bool :=
  negb (str_is_empty prefix) && negb (starts_with "/" prefix) && negb (ends_with_char "/" prefix)
  && forallb (λ segment, negb (str_is_empty segment)
       && forallb (λ b, is_ascii_alphanumeric b || mem b [45; 95; 46]) (bytes segment))
       (split_on "/" prefix).

Definition S3_validate (s : S3ArtifactStoreSettings) : res unit :=
  let scheme := url_scheme (s3_endpoint s) in
  host ← ok_or (url_host (s3_endpoint s)) (Validation [Lit "artifact storage endpoint has no host"]);
  let loopback := mem host ["localhost"; "127.0.0.1"; "::1"] in
  bail_if (negb (bool_decide (scheme = "https")) && negb loopback)
    (Validation [Lit "artifact storage endpoint must use HTTPS outside loopback"]) ;;
  bail_if (negb (bool_decide (scheme = "https")) && negb (bool_decide (scheme = "http")))
    (Validation [Lit "artifact storage endpoint must be an HTTP(S) URL"]) ;;
  bail_if (is_some (url_query (s3_endpoint s)) || negb (str_is_empty (url_username (s3_endpoint s))))
    (Validation [Lit "artifact storage endpoint must carry no query or credentials"]) ;;
  bail_if (negb (valid_bucket (s3_bucket s)))
    (Validation [Lit "artifact storage bucket is not a valid S3 bucket name"]) ;;
  bail_if (negb (valid_prefix (s3_prefix s)))
    (Validation [Lit "artifact storage prefix must be non-empty path segments"]) ;;
  bail_if (blank (s3_region s) || blank (s3_access_key_id s))
    (Validation [Lit "artifact storage region and access key are required"]) ;;
  bail_if (match s3_server_side_encryption s with AwsKms key_id => blank key_id | _ => false end)
    (Validation [Lit "artifact storage KMS encryption requires a key ID"]) ;;
  bail_if ((s3_timeout s <? MIN_TIMEOUT) || (MAX_TIMEOUT <? s3_timeout s))
    (Validation [Lit "artifact storage timeout must be within 1ms..=300s"]).

(** The store, but for the client. *)
Record S3ArtifactStore := mkS3ArtifactStore {
  ss_settings : S3ArtifactStoreSettings;
  ss_identity : SigningIdentity
}.

Definition S3ArtifactStore_new (s : S3ArtifactStoreSettings) : res S3ArtifactStore :=
  S3_validate s ;;
  Ok (mkS3ArtifactStore s
        (mkSigningIdentity (s3_access_key_id s) (s3_secret_access_key s) (s3_region s) SERVICE)).

Definition path_segments (s : S3ArtifactStoreSettings) (hex : string) : list string :=
  (if s3_path_style s then [s3_bucket s] else [])
  ++ List.filter (λ part, negb (str_is_empty part)) (split_on "/" (s3_prefix s))
  ++ [hex_head hex; hex_tail hex].

Definition object_path (s : S3ArtifactStoreSettings) (digest : string) : res string :=
  hex ← digest_digits digest;
  Ok ("/" +:+ String.concat "/" (encode_path_segment <$> path_segments s hex)).

(** The path of a URL whose segments are these. *)
Definition path_text (segments : list string) : string := "/" +:+ String.concat "/" segments.

(** How the URL standard parses a path: a segment [.] is dropped, a segment [..]
    takes the one before it away, and a last segment of either kind leaves an empty
    one. *)
Fixpoint remove_dots (kept segments : list string) : list string :=
  match segments with
  | [] => kept
  | segment :: rest =>
      let trailing := match rest with [] => [""] | _ => [] end in
      if bool_decide (segment = ".") then remove_dots (kept ++ trailing) rest
      else if bool_decide (segment = "..") then remove_dots (removelast kept ++ trailing) rest
      else remove_dots (kept ++ [segment]) rest
  end.

(** A segment that needs no encoding. *)
Definition plain_segment (segment : string) : bool :=
  negb (str_is_empty segment) && forallb unreserved (bytes segment).

(** The path of a URL after [Url::set_path], and what the standard says of it where
    the path of an HTTP(S) URL is replaced by one that needs no encoding. *)
Class UrlPath := {
  url_set_path : Url → string → string;
  url_set_path_plain url segments :
    url_scheme url = "https" ∨ url_scheme url = "http" → segments ≠ [] →
    forallb plain_segment segments = true →
    url_set_path url (path_text segments) = path_text (remove_dots [] segments)
}.

Definition host_header (s : S3ArtifactStoreSettings) : res string :=
  host ← ok_or (url_host (s3_endpoint s)) (Validation [Lit "artifact storage endpoint has no host"]);
  Ok match s3_endpoint_port s with Some port => host +:+ ":" +:+ pretty port | None => host end.

(** What goes over the wire. *)
Record WireRequest := mkWireRequest {
  wr_method : string;
  wr_path : string;
  wr_headers : list (string * string);
  wr_body : list Z
}.

Section s3.
  Context {hashing : Hashing} {hmacs : HmacSha256} {stamps : DateStamps} {paths : UrlPath}.

(** The path of the URL that a request is sent to. *)
Definition request_url (s : S3ArtifactStoreSettings) (path : string) : string :=
  url_set_path (s3_endpoint s) path.

Definition signed_headers (s : S3ArtifactStoreSettings) (headers : list (string * string))
    (body : list Z) (signed_at : DateTime) : res (list (string * string)) :=
  host ← host_header s;
  Ok (headers ++ [("host", host); ("x-amz-date", time_stamp signed_at);
                  ("x-amz-content-sha256", hex_encode (sha256 body))]).

(** The request that [send] makes, signed for [path] and sent to the URL whose path
    is set to it; the transport adds the host. *)
Definition signed_request (store : S3ArtifactStore) (method path : string)
    (headers : list (string * string)) (body : list Z) (signed_at : DateTime) : res WireRequest :=
  all ← signed_headers (ss_settings store) headers body signed_at;
  authorization ← authorization_header (ss_identity store)
    (mkCanonicalRequest method path all (hex_encode (sha256 body))) signed_at;
  Ok (mkWireRequest method (request_url (ss_settings store) path)
        (("authorization", authorization) :: List.filter (λ h, negb (bool_decide (h.1 = "host"))) all)
        body).

(** The endpoint: its answer to a request, or the failure of the transport. *)
Definition Endpoint : Type := WireRequest → option (Z * list Z).

Definition send (store : S3ArtifactStore) (method path : string) (headers : list (string * string))
    (body : list Z) (signed_at : DateTime) (endpoint : Endpoint) : res (Z * list Z) :=
  request ← signed_request store method path headers body signed_at;
  ok_or (endpoint request) (ExternalUnavailable [Lit "artifact storage request failed"]).

(** [StatusCode::is_success]. *)
Definition is_success_status (status : Z) : bool := (200 <=? status) && (status <=? 299).

Definition storage_failure (operation : string) (status : Z) : Error :=
  ExternalUnavailable [Lit "artifact storage refused to "; Disp operation; Lit " (HTTP "; FmtNum status; Lit ")"].

Definition s3_put (store : S3ArtifactStore) (c : PutCall) (signed_at now : DateTime) (endpoint : Endpoint)
  : res StoredArtifact :=
  bail_if (blank (pu_media_type c) || blank (pu_producer c) || blank (pu_retention_class c))
    (Validation [Lit "artifact metadata fields must be non-empty"]) ;;
  bail_if (MAX_S3_ARTIFACT_BYTES <? Z.of_nat (length (pu_bytes c)))
    (Validation [Lit "artifact exceeds the supported single-request size"]) ;;
  path ← object_path (ss_settings store) (sha256_digest (pu_bytes c));
  let headers := ("content-type", pu_media_type c)
                 :: encryption_headers (s3_server_side_encryption (ss_settings store)) in
  '(status, _) ← send store "PUT" path headers (pu_bytes c) signed_at endpoint;
  bail_if (negb (is_success_status status)) (storage_failure "store artifact" status) ;;
  Ok (artifact_of c now).

Definition s3_get (store : S3ArtifactStore) (digest : string) (signed_at : DateTime) (endpoint : Endpoint)
  : res (list Z) :=
  path ← object_path (ss_settings store) digest;
  '(status, body) ← send store "GET" path [] [] signed_at endpoint;
  bail_if (status =? 404) (NotFound [Lit "artifact "; Disp digest]) ;;
  bail_if (negb (is_success_status status)) (storage_failure "read artifact" status) ;;
  bail_if (negb (bool_decide (sha256_digest body = digest)))
    (Persistence [Lit "artifact storage returned content that is not "; Disp digest]) ;;
  Ok body.
End s3.
