(* ===== verification/ArtifactFacts.v ===== *)
(** What the artifact stores guarantee ([Artifacts]): the bytes that are read are
    those of the digest, however calls interleave and wherever they fail; the path
    of an object is its bucket, prefix and digest; the path that is sent is the
    path that is signed where the prefix has no dot segment. *)

From Stdlib Require Import ZArith Lia Ascii.
From stdpp Require Import base tactics option strings pretty numbers list gmap.
From S2P Require Import Prelude RustStr RustOrd Ids Crypto Authority Outcome Handlers Webhook Artifacts.

(** ** Paths *)

Lemma string_length_app s t : String.length (s +:+ t) = (String.length s + String.length t)%nat.
Proof. induction s as [|c s IH]; simpl; [done|]. by rewrite IH. Qed.

Lemma digest_digits_ok digest hex : digest_digits digest = Ok hex →
  digest = "sha256:" +:+ hex ∧ len hex = 64 ∧ forallb is_ascii_hexdigit (bytes hex) = true.
Proof.
  unfold digest_digits. intros (h & Hs%ok_or_ok%strip_prefix_spec & H)%bind_ok.
  rewrite bind_unit_ok, bail_if_ok, orb_false_iff, !negb_false_iff, Z.eqb_eq in H.
  by destruct H as [[? ?] [= <-]].
Qed.

Lemma hex_parts hex : len hex = 64 →
  hex = hex_head hex +:+ hex_tail hex ∧ String.length (hex_head hex) = 2%nat ∧
  String.length (hex_tail hex) = 62%nat.
Proof.
  unfold len. destruct hex as [|a [|b s]]; simpl; try lia. intros H. split_and!; [done|done|]. lia.
Qed.

Lemma hex_parts_inj h1 h2 : len h1 = 64 → len h2 = 64 → hex_head h1 = hex_head h2 →
  hex_tail h1 = hex_tail h2 → h1 = h2.
Proof.
  intros (E1 & _ & _)%hex_parts (E2 & _ & _)%hex_parts Hh Ht.
  etrans; [exact E1|]. rewrite Hh, Ht. by symmetry.
Qed.

Lemma path_for_ok digest path : path_for digest = Ok path →
  ∃ hex, digest_digits digest = Ok hex ∧ path = (hex_head hex, hex_tail hex) ∧
    String.length path.2 = 62%nat.
Proof.
  unfold path_for. intros (hex & H & [= <-])%bind_ok. exists hex. split_and!; [done..|].
  apply digest_digits_ok in H as (_ & H & _). by apply hex_parts.
Qed.

Lemma path_for_inj d1 d2 path : path_for d1 = Ok path → path_for d2 = Ok path → d1 = d2.
Proof.
  intros (h1 & H1 & E1 & _)%path_for_ok (h2 & H2 & E2 & _)%path_for_ok.
  rewrite E1 in E2. injection E2 as Eh Et.
  apply digest_digits_ok in H1 as (-> & L1 & _), H2 as (-> & L2 & _).
  f_equal. by apply hex_parts_inj.
Qed.

Lemma digest_digits_sha256 `{Hashing} m : digest_digits (sha256_digest m) = Ok (hex_encode (sha256 m)).
Proof.
  unfold digest_digits, sha256_digest.
  rewrite (proj2 (strip_prefix_spec _ _ _) eq_refl). cbn [ok_or mbind res_bind].
  rewrite hex_sha256_len. pose proof (hex_sha256_lower m) as Hl.
  assert (forallb is_ascii_hexdigit (bytes (hex_encode (sha256 m))) = true) as ->; [|done].
  rewrite forallb_forall in Hl |- *. intros b Hb. specialize (Hl b Hb). unfold lower_hex in Hl.
  by apply andb_true_iff in Hl as [? _].
Qed.

Section stores.
  Context {hashing : Hashing} {hmacs : HmacSha256} {stamps : DateStamps} {uuids : UuidText}
    {paths : UrlPath}.

(** A temporary path is no path of an artifact. *)
Lemma temporary_not_artifact d d' path id :
  path_for d = Ok path → path_for d' ≠ Ok (temporary_path path id).
Proof.
  intros (_ & _ & _ & L)%path_for_ok (_ & _ & _ & L')%path_for_ok. simpl in L'.
  rewrite string_length_app in L'. simpl in L'. lia.
Qed.

(** ** Interleaved calls *)

Record ArtifactSystem := mkArtifactSystem {
  as_files : Files;
  as_calls : gmap nat (PutCall * PutProgress)
}.

Inductive system_step : relation ArtifactSystem :=
| call_begins n c path s :
    as_calls s !! n = None → begin_put c = Ok path →
    system_step s (mkArtifactSystem (as_files s) (<[n := (c, PutStarted)]> (as_calls s)))
| call_moves n c p path e fs' p' s :
    as_calls s !! n = Some (c, p) → begin_put c = Ok path →
    put_step c path e p (as_files s) = Some (fs', p') →
    system_step s (mkArtifactSystem fs' (<[n := (c, p')]> (as_calls s))).

(** The temporary file of a call, and what is in it. *)
Definition temporary_of (c : PutCall) (p : PutProgress) : option (ArtifactPath * list Z) :=
  match p with
  | PutWriting temporary written => Some (temporary, written)
  | PutFlushed temporary => Some (temporary, pu_bytes c)
  | _ => None
  end.

(** Every artifact is stored under the digest of its content. *)
Definition content_ok (fs : Files) : Prop :=
  ∀ digest path content, path_for digest = Ok path → fs !! path = Some content →
    sha256_digest content = digest.

Record system_ok (s : ArtifactSystem) : Prop := {
  sy_content : content_ok (as_files s);
  sy_temporary n c p t content : as_calls s !! n = Some (c, p) → temporary_of c p = Some (t, content) →
    as_files s !! t = Some content ∧
    ∃ id, t = temporary_path (hex_head (hex_encode (sha256 (pu_bytes c))),
                              hex_tail (hex_encode (sha256 (pu_bytes c)))) id;
  sy_own n1 n2 c1 c2 p1 p2 t w1 w2 : as_calls s !! n1 = Some (c1, p1) → as_calls s !! n2 = Some (c2, p2) →
    temporary_of c1 p1 = Some (t, w1) → temporary_of c2 p2 = Some (t, w2) → n1 = n2;
  sy_done n c a : as_calls s !! n = Some (c, PutEnded (Ok a)) →
    sd_digest a = sha256_digest (pu_bytes c) ∧
    ∃ path, path_for (sd_digest a) = Ok path ∧ is_Some (as_files s !! path)
}.

Lemma begin_put_path c path : begin_put c = Ok path →
  path_for (sha256_digest (pu_bytes c)) = Ok path ∧
  path = (hex_head (hex_encode (sha256 (pu_bytes c))), hex_tail (hex_encode (sha256 (pu_bytes c)))).
Proof.
  unfold begin_put. intros [_ H]%bind_unit_ok. split; [done|]. unfold path_for in H.
  rewrite digest_digits_sha256 in H. by injection H as <-.
Qed.

(** What one operation does to the files and to the temporary file of its call. *)
Inductive file_effect (path : ArtifactPath) (whole : list Z)
    (before after : option (ArtifactPath * list Z)) (fs : Files) : Files → Prop :=
| effect_none : after = None ∨ after = before → file_effect path whole before after fs fs
| effect_created id : fs !! temporary_path path id = None → before = None →
    after = Some (temporary_path path id, []) →
    file_effect path whole before after fs (<[temporary_path path id := []]> fs)
| effect_wrote t w w' : before = Some (t, w) → after = Some (t, w') →
    file_effect path whole before after fs (<[t := w']> fs)
| effect_renamed t : before = Some (t, whole) → after = None →
    file_effect path whole before after fs (<[path := whole]> (delete t fs))
| effect_removed t w : before = Some (t, w) → after = None →
    file_effect path whole before after fs (delete t fs).

Lemma put_step_effect c path e p fs fs' p' :
  put_step c path e p fs = Some (fs', p') →
  (∀ t content, temporary_of c p = Some (t, content) → fs !! t = Some content) →
  file_effect path (pu_bytes c) (temporary_of c p) (temporary_of c p') fs fs'.
Proof.
  intros H Ht. unfold put_step, path_exists in H. repeat case_match; simplify_eq;
    try (constructor; by left); try (by econstructor).
  - econstructor; [|done..]. by destruct (fs !! temporary_path path id).
  - constructor. right. simpl. by case_bool_decide; subst.
  - specialize (Ht _ _ eq_refl). simplify_eq. by econstructor.
Qed.

Lemma put_step_done c path e p fs fs' a :
  put_step c path e p fs = Some (fs', PutEnded (Ok a)) →
  sd_digest a = sha256_digest (pu_bytes c) ∧ is_Some (fs' !! path).
Proof.
  intros H. unfold put_step, path_exists in H. repeat case_match; simplify_eq; (split; [done|]).
  - by destruct (fs' !! path).
  - by rewrite lookup_insert_eq.
  - by eexists.
Qed.

(** An artifact is never at a path that a call uses for its temporary file. *)
Lemma artifact_not_temporary s n c p t w d path :
  system_ok s → as_calls s !! n = Some (c, p) → temporary_of c p = Some (t, w) →
  path_for d = Ok path → path ≠ t.
Proof.
  intros Hok Hc Ht Hp ->. destruct (sy_temporary _ Hok _ _ _ _ _ Hc Ht) as [_ [id ->]].
  eapply temporary_not_artifact; [|done]. unfold path_for. by rewrite digest_digits_sha256.
Qed.

(** What an operation of a call leaves: artifacts stay, each under its digest, and
    so do files that are neither artifacts nor its own. *)
Record kept (c : PutCall) (path : ArtifactPath) (before after : option (ArtifactPath * list Z))
    (fs fs' : Files) : Prop := {
  kp_content : content_ok fs → content_ok fs';
  kp_artifacts d q : path_for d = Ok q → is_Some (fs !! q) → is_Some (fs' !! q);
  kp_others t w : fs !! t = Some w → t ≠ path → (∀ w', before ≠ Some (t, w')) → fs' !! t = Some w;
  kp_own t w : after = Some (t, w) → fs' !! t = Some w ∧
    ((∃ w', before = Some (t, w')) ∨ fs !! t = None ∧ ∃ id, t = temporary_path path id)
}.

Lemma effect_kept c path before after fs fs' :
  path_for (sha256_digest (pu_bytes c)) = Ok path →
  (∀ t w, before = Some (t, w) → fs !! t = Some w ∧ ∃ id, t = temporary_path path id) →
  file_effect path (pu_bytes c) before after fs fs' → kept c path before after fs fs'.
Proof.
  intros Hp Hb He.
  assert (∀ d t id, path_for d = Ok t → t ≠ temporary_path path id) as Hne.
  { intros d t id Hd E. rewrite E in Hd. by apply (temporary_not_artifact _ d _ id Hp). }
  destruct He as [Ha|id Hn Hbn Ha|t w w' Hbt Ha|t Hbt Ha|t w Hbt Ha];
    try (destruct (Hb _ _ Hbt) as [Hf [id ->]]); split.
  - done.
  - done.
  - done.
  - intros t w E. destruct Ha as [Ha|Ha]; [congruence|]. rewrite Ha in E. destruct (Hb _ _ E). eauto.
  - intros Hc d q content Hd. rewrite lookup_insert_ne by (symmetry; exact (Hne _ _ _ Hd)). by apply Hc.
  - intros d q Hd. by rewrite lookup_insert_ne by (symmetry; exact (Hne _ _ _ Hd)).
  - intros t w Ht _ _. rewrite lookup_insert_ne; [done|]. intros <-. congruence.
  - intros t w E. rewrite Ha in E. injection E as <- <-. rewrite lookup_insert_eq. eauto.
  - intros Hc d q content Hd. rewrite lookup_insert_ne by (symmetry; exact (Hne _ _ _ Hd)). by apply Hc.
  - intros d q Hd. by rewrite lookup_insert_ne by (symmetry; exact (Hne _ _ _ Hd)).
  - intros t0 w0 Ht _ Hno. rewrite lookup_insert_ne; [done|]. intros <-. by destruct (Hno _ Hbt).
  - intros t0 w0 E. rewrite Ha in E. injection E as <- <-. rewrite lookup_insert_eq. eauto.
  - intros Hc d q content Hd. rewrite lookup_insert_Some. intros [[<- <-]|[_ Hq]].
    + by eapply path_for_inj.
    + rewrite lookup_delete_ne in Hq by (symmetry; exact (Hne _ _ _ Hd)). by eapply Hc.
  - intros d q Hd Hq. rewrite lookup_insert_is_Some'. right.
    by rewrite lookup_delete_ne by (symmetry; exact (Hne _ _ _ Hd)).
  - intros t0 w0 Ht Hnp Hno. rewrite lookup_insert_ne, lookup_delete_ne by (intros <-; first [by destruct (Hno _ Hbt)|done]).
    done.
  - intros t0 w0 E. congruence.
  - intros Hc d q content Hd. rewrite lookup_delete_ne by (symmetry; exact (Hne _ _ _ Hd)). by apply Hc.
  - intros d q Hd. by rewrite lookup_delete_ne by (symmetry; exact (Hne _ _ _ Hd)).
  - intros t0 w0 Ht _ Hno. rewrite lookup_delete_ne; [done|]. intros <-. by destruct (Hno _ Hbt).
  - intros t0 w0 E. congruence.
Qed.

Lemma started_ok s n c path : system_ok s → as_calls s !! n = None → begin_put c = Ok path →
  system_ok (mkArtifactSystem (as_files s) (<[n := (c, PutStarted)]> (as_calls s))).
Proof.
  intros [H1 H2 H3 H4] Hn Hb. split; simpl; [done| | |].
  - intros m c' p t w. rewrite lookup_insert_Some. intros [[_ [= <- <-]]|[_ Hm]]; [done|by eapply H2].
  - intros n1 n2 c1 c2 p1 p2 t w1 w2. rewrite !lookup_insert_Some.
    intros [[_ [= <- <-]]|[_ E1]] [[_ [= <- <-]]|[_ E2]]; try done. by eapply H3.
  - intros m c' a. rewrite lookup_insert_Some. intros [[_ [=]]|[_ Hm]]. by eapply H4.
Qed.

Lemma moved_ok s n c p path e fs' p' :
  system_ok s → as_calls s !! n = Some (c, p) → begin_put c = Ok path →
  put_step c path e p (as_files s) = Some (fs', p') →
  system_ok (mkArtifactSystem fs' (<[n := (c, p')]> (as_calls s))) ∧
  ∀ d q, path_for d = Ok q → is_Some (as_files s !! q) → is_Some (fs' !! q).
Proof.
  intros Hok Hn Hb Hs. destruct (begin_put_path _ _ Hb) as [Hp Hpath].
  assert (∀ m c' p' t w, as_calls s !! m = Some (c', p') → temporary_of c' p' = Some (t, w) → t ≠ path) as Hnt.
  { intros m c' p1 t w Hm Ht. symmetry. by eapply artifact_not_temporary. }
  destruct Hok as [H1 H2 H3 H4].
  assert (kept c path (temporary_of c p) (temporary_of c p') (as_files s) fs') as [K1 K2 K3 K4].
  { apply effect_kept; [done| |eapply put_step_effect; [done|]].
    - intros t w Ht. rewrite Hpath. by eapply H2.
    - intros t w Ht. by eapply H2. }
  assert (∀ m c' p1 t w, m ≠ n → as_calls s !! m = Some (c', p1) → temporary_of c' p1 = Some (t, w) →
    fs' !! t = Some w) as Hothers.
  { intros m c' p1 t w Hne Hm Ht. apply K3; [by eapply H2|by eapply Hnt|].
    intros w' E. by eapply Hne, H3. }
  split; [|done]. split; simpl; [auto| | |].
  - intros m c' p1 t w. rewrite lookup_insert_Some. intros [[<- [= <- <-]]|[Hne Hm]] Ht.
    + destruct (K4 _ _ Ht) as [Hf [[w' E]|[_ Hid]]]; split; try done; [by eapply H2|]. by rewrite <-Hpath.
    + split; [by eapply Hothers|by eapply H2].
  - assert (∀ m c' p1 t w w', m ≠ n → as_calls s !! m = Some (c', p1) → temporary_of c' p1 = Some (t, w) →
      temporary_of c p' ≠ Some (t, w')) as Hdis.
    { intros m c' p1 t w w' Hne Hm Ht E. destruct (K4 _ _ E) as [_ [[w2 E2]|[Hf _]]].
      - by eapply Hne, H3.
      - destruct (H2 _ _ _ _ _ Hm Ht). congruence. }
    intros n1 n2 c1 c2 p1 p2 t w1 w2. rewrite !lookup_insert_Some.
    intros [[<- [= <- <-]]|[N1 E1]] [[<- [= <- <-]]|[N2 E2]] T1 T2; try done.
    + destruct (Hdis _ _ _ _ _ w1 (not_eq_sym N2) E2 T2 T1).
    + destruct (Hdis _ _ _ _ _ w2 (not_eq_sym N1) E1 T1 T2).
    + by eapply H3.
  - intros m c' a. rewrite lookup_insert_Some. intros [[<- [= <- ->]]|[_ Hm]].
    + destruct (put_step_done _ _ _ _ _ _ _ Hs) as [-> Hd]. split; [done|]. by exists path.
    + destruct (H4 _ _ _ Hm) as [Hd (q & Hq & Hf)]. split; [done|]. exists q. split; [done|by eapply K2].
Qed.

Lemma steps_ok s s' : rtc system_step s s' → system_ok s →
  system_ok s' ∧ ∀ d q, path_for d = Ok q → is_Some (as_files s !! q) → is_Some (as_files s' !! q).
Proof.
  induction 1 as [s|s1 s2 s3 Hs _ IH]; intros Hok; [done|].
  destruct Hs as [n c path s Hn Hb|n c p path e fs' p' s Hn Hb Hs].
  - destruct (IH (started_ok _ _ _ _ Hok Hn Hb)) as [? Hk]. split; [done|]. intros d q Hd Hq. by eapply Hk.
  - destruct (moved_ok _ _ _ _ _ _ _ _ Hok Hn Hb Hs) as [Hok' Hk']. destruct (IH Hok') as [? Hk].
    split; [done|]. intros d q Hd Hq. eapply Hk; [done|]. simpl. by eapply Hk'.
Qed.

Lemma file_get_ok fs digest content : file_get fs digest = Ok content ↔
  ∃ path, path_for digest = Ok path ∧ fs !! path = Some content.
Proof.
  unfold file_get. rewrite bind_ok. split.
  - intros (path & Hp & H%ok_or_ok). eauto.
  - intros (path & Hp & H). exists path. split; [done|]. by rewrite H.
Qed.

(** C27. An artifact that is read is the content of the digest that was asked for:
    for the file store, whatever calls of [put] are interleaved, wherever they
    fail or stop and however much of a temporary file they wrote; for the S3
    store, whatever the endpoint answers.  Once a call of [put] has succeeded, its
    artifact carries the digest of its bytes and content of that digest can be read
    in every later state of the files. *)
Theorem artifacts_addressed_by_content fs s :
  content_ok fs → rtc system_step (mkArtifactSystem fs ∅) s →
  (∀ digest content, file_get (as_files s) digest = Ok content → sha256_digest content = digest) ∧
  (∀ n c a, as_calls s !! n = Some (c, PutEnded (Ok a)) →
     sd_digest a = sha256_digest (pu_bytes c) ∧
     ∀ s', rtc system_step s s' → ∃ content,
       file_get (as_files s') (sd_digest a) = Ok content ∧ sha256_digest content = sd_digest a) ∧
  (∀ store digest signed_at endpoint content,
     s3_get store digest signed_at endpoint = Ok content → sha256_digest content = digest).
Proof.
  intros Hc Hs. assert (system_ok (mkArtifactSystem fs ∅)) as Hok0 by (by split).
  destruct (steps_ok _ _ Hs Hok0) as [Hok _]. split_and!.
  - intros digest content (path & Hp & Hf)%file_get_ok. by eapply (sy_content _ Hok).
  - intros n c a Hn. destruct (sy_done _ Hok _ _ _ Hn) as [Hd (path & Hp & Hf)]. split; [done|].
    intros s' Hs'. destruct (steps_ok _ _ Hs' Hok) as [Hok' Hk]. destruct (Hk _ _ Hp Hf) as [content Hf'].
    exists content. split; [apply file_get_ok; eauto|]. by eapply (sy_content _ Hok').
  - intros store digest at_ endpoint content H. unfold s3_get in H.
    apply bind_ok in H as (path & _ & H). apply bind_ok in H as ([status body] & _ & H).
    rewrite !bind_unit_ok, !bail_if_ok in H. destruct H as (_ & _ & Hd & [= <-]).
    by apply negb_false_iff, bool_decide_eq_true in Hd.
Qed.
End stores.

(** ** Signed paths *)

(** The value of an upper-case hexadecimal digit. *)
Definition upper_value (c : ascii) : option Z :=
  let b := byte_of c in
  if is_ascii_digit b then Some (b - 48)
  else if (65 <=? b) && (b <=? 70) then Some (b - 55) else None.

(** What a server reads from a segment. *)
Fixpoint percent_decode (s : string) : option string :=
  match s with
  | EmptyString => Some EmptyString
  | String c s' =>
      if bool_decide (c = "%"%char) then
        match s' with
        | String h (String l rest) =>
            h ← upper_value h; l ← upper_value l; rest ← percent_decode rest;
            Some (String (ascii_of_N (Z.to_N (h * 16 + l))) rest)
        | _ => None
        end
      else rest ← percent_decode s'; Some (String c rest)
  end.

Lemma unreserved_plain c : unreserved (byte_of c) = true → c ≠ "%"%char ∧ c ≠ "/"%char.
Proof. destruct c as [[] [] [] [] [] [] [] []]; vm_compute; by split. Qed.

Lemma percent_read c rest s : percent_decode rest = Some s →
  percent_decode (percent (byte_of c) +:+ rest) = Some (String c s).
Proof.
  intros H. unfold percent.
  assert (∀ h l, percent_decode ((String "%" (String h (String l EmptyString))) +:+ rest)
    = (h ← upper_value h; l ← upper_value l; Some (String (ascii_of_N (Z.to_N (h * 16 + l))) s))) as ->.
  { intros h l. simpl. rewrite H. by destruct (upper_value h), (upper_value l). }
  destruct c as [[] [] [] [] [] [] [] []]; vm_compute; done.
Qed.

(** A segment is read back as it was. *)
Lemma encode_round_trip s : percent_decode (encode_path_segment s) = Some s.
Proof.
  induction s as [|c s IH]; [done|]. simpl. destruct (unreserved (byte_of c)) eqn:E.
  - apply unreserved_plain in E as [E _]. simpl. rewrite bool_decide_false by done. by rewrite IH.
  - by apply percent_read.
Qed.

Lemma encode_no_slash s : contains_char "/" (encode_path_segment s) = false.
Proof.
  induction s as [|c s IH]; [done|]. simpl. destruct (unreserved (byte_of c)) eqn:E.
  - apply unreserved_plain in E as [_ E]. simpl. rewrite IH. by rewrite bool_decide_false by done.
  - unfold percent. simpl. rewrite IH. clear. destruct c as [[] [] [] [] [] [] [] []]; vm_compute; done.
Qed.

Lemma split_on_app c a b : contains_char c a = false →
  split_on c (a +:+ String c b) = a :: split_on c b.
Proof.
  induction a as [|d a IH]; simpl.
  - by rewrite bool_decide_true.
  - rewrite orb_false_iff. intros [Hd Ha]. rewrite bool_decide_eq_false in Hd.
    rewrite bool_decide_false by congruence. by rewrite IH.
Qed.

Lemma split_on_plain c a : contains_char c a = false → split_on c a = [a].
Proof.
  induction a as [|d a IH]; simpl; [done|]. rewrite orb_false_iff. intros [Hd Ha].
  rewrite bool_decide_eq_false in Hd. rewrite bool_decide_false by congruence. by rewrite IH.
Qed.

Lemma split_concat l : l ≠ [] → Forall (λ a, contains_char "/" a = false) l →
  split_on "/" (String.concat "/" l) = l.
Proof.
  induction l as [|a l IH]; [done|]. intros _ [Ha Hl]%Forall_cons. destruct l as [|b l].
  - by apply split_on_plain.
  - change (String.concat "/" (a :: b :: l)) with (a +:+ String "/" (String.concat "/" (b :: l))).
    rewrite split_on_app by done. f_equal. by apply IH.
Qed.

Lemma mapM_decode_encode l : mapM percent_decode (encode_path_segment <$> l) = Some l.
Proof. apply mapM_Some. induction l as [|a l IH]; constructor; [apply encode_round_trip|done]. Qed.

Lemma object_path_segments s digest p : object_path s digest = Ok p →
  ∃ hex rest, digest_digits digest = Ok hex ∧ p = String "/" rest ∧
    mapM percent_decode (split_on "/" rest) = Some (path_segments s hex).
Proof.
  unfold object_path. intros (hex & Hd & [= <-])%bind_ok. exists hex. eexists. split_and!; [done..|].
  rewrite split_concat; [apply mapM_decode_encode| |].
  - unfold path_segments. by destruct (if s3_path_style s then _ else _), (List.filter _ _).
  - apply Forall_fmap, Forall_true. intros a. apply encode_no_slash.
Qed.

Lemma canonical_headers_perm headers headers' : Permutation headers headers' →
  NoDup (to_ascii_lowercase ∘ fst <$> headers) → canonical_headers headers = canonical_headers headers'.
Proof.
  intros Hp Hn. unfold canonical_headers, sorted_headers.
  rewrite (sort_by_key_permutation_invariant fst
    ((λ h, (to_ascii_lowercase h.1, collapse h.2)) <$> headers)
    ((λ h, (to_ascii_lowercase h.1, collapse h.2)) <$> headers')); [done| |by rewrite Hp].
  intros x y (h1 & -> & H1)%list_elem_of_fmap (h2 & -> & H2)%list_elem_of_fmap. simpl. intros E.
  apply list_elem_of_lookup in H1 as [i Hi], H2 as [j Hj].
  assert (i = j) as ->; [|congruence]. eapply (NoDup_lookup _ _ _ (to_ascii_lowercase h1.1) Hn).
  - rewrite list_lookup_fmap, Hi. done.
  - rewrite list_lookup_fmap, Hj. simpl. by rewrite E.
Qed.

(** ** Sent paths *)

Definition is_dots (segment : string) : Prop := segment = "." ∨ segment = "..".

#[local] Instance is_dots_dec segment : Decision (is_dots segment) := _.

Lemma remove_dots_none segments kept :
  Forall (λ x, ¬ is_dots x) segments → remove_dots kept segments = kept ++ segments.
Proof.
  unfold is_dots. intros H. revert kept. induction H as [|x l Hx Hl IH]; intros kept; simpl.
  - by rewrite app_nil_r.
  - rewrite !bool_decide_false by tauto. by rewrite IH, <-app_assoc.
Qed.

Lemma length_removelast {A} (l : list A) : (length (removelast l) ≤ length l)%nat.
Proof. induction l as [|x [|y l] IH]; simpl in *; lia. Qed.

Lemma remove_dots_length segments kept :
  (length (remove_dots kept segments) ≤ length kept + length segments)%nat.
Proof.
  revert kept. induction segments as [|x l IH]; intros kept; simpl; [lia|].
  pose proof (length_removelast kept). repeat case_bool_decide;
    (etrans; [apply IH|]); rewrite length_app; destruct l; simpl; lia.
Qed.

(** A dot segment that is not the last one shortens the path. *)
Lemma remove_dots_shorter a x b kept : is_dots x → b ≠ [] →
  (length (remove_dots kept (a ++ x :: b)) < length kept + length (a ++ x :: b))%nat.
Proof.
  intros Hx Hb. revert kept. induction a as [|y a IH]; intros kept; simpl.
  - pose proof (length_removelast kept). destruct b as [|z b]; [done|]. rewrite !app_nil_r.
    destruct Hx as [-> | ->]; repeat case_bool_decide; try done;
      (eapply Nat.le_lt_trans; [apply remove_dots_length|]); simpl; lia.
  - pose proof (length_removelast kept). destruct (a ++ x :: b) as [|z l] eqn:E; [by destruct a|].
    rewrite <-E in *. repeat case_bool_decide; (eapply Nat.lt_le_trans; [apply IH|]);
      rewrite length_app; simpl; lia.
Qed.

Lemma remove_dots_same segments : (∀ x, last segments = Some x → ¬ is_dots x) →
  remove_dots [] segments = segments ↔ Forall (λ x, ¬ is_dots x) segments.
Proof.
  intros Hlast. split; [|by intros ->%(remove_dots_none _ [])]. intros E.
  destruct (decide (Forall (λ x, ¬ is_dots x) segments)) as [|H]; [done|exfalso].
  apply not_Forall_Exists in H; [|apply _].
  apply Exists_exists in H as (x & (a & b & ->)%list_elem_of_split & Hx). apply dec_stable in Hx.
  destruct (decide (b = [])) as [->|Hb]; [by apply (Hlast x); [rewrite last_snoc|]|].
  pose proof (remove_dots_shorter a x b [] Hx Hb) as Hl. rewrite E in Hl. simpl in Hl. lia.
Qed.

Lemma plain_spec segment : plain_segment segment = true ↔
  segment ≠ "" ∧ forallb unreserved (bytes segment) = true.
Proof. unfold plain_segment. rewrite andb_true_iff. 
  destruct segment; simpl; (split; [intros [? ?]|intros [? ?]]); by split. Qed.

Lemma unreserved_no_slash s : forallb unreserved (bytes s) = true → contains_char "/" s = false.
Proof.
  induction s as [|c s IH]; [done|]. simpl. rewrite andb_true_iff. intros [[_ Hc]%unreserved_plain Hs].
  rewrite bool_decide_false by done. by apply IH.
Qed.

Lemma encode_plain s : forallb unreserved (bytes s) = true → encode_path_segment s = s.
Proof.
  induction s as [|c s IH]; [done|]. simpl. rewrite andb_true_iff. intros [-> Hs]. by rewrite IH.
Qed.

Lemma remove_dots_plain segments kept (P : string → Prop) : P "" → Forall P kept → Forall P segments →
  Forall P (remove_dots kept segments).
Proof.
  intros He Hk Hs. revert kept Hk. induction Hs as [|x l Hx Hl IH]; intros kept Hk; simpl; [done|].
  assert (Forall P match l with [] => [""] | _ => [] end) by (destruct l; by repeat constructor).
  assert (Forall P (removelast kept)).
  { clear -Hk. induction Hk as [|y k Hy Hk' IH]; [done|]. destruct k; [done|]. by constructor. }
  repeat case_bool_decide; apply IH, Forall_app; auto.
Qed.

Lemma forallb_weaken (f g : Z → bool) l : (∀ b, f b = true → g b = true) →
  forallb f l = true → forallb g l = true.
Proof. intros H. rewrite !forallb_forall. eauto. Qed.

Lemma S3_validate_paths s : S3_validate s = Ok tt →
  valid_bucket (s3_bucket s) = true ∧ valid_prefix (s3_prefix s) = true ∧
  (url_scheme (s3_endpoint s) = "https" ∨ url_scheme (s3_endpoint s) = "http").
Proof.
  unfold S3_validate. intros (host & _ & H)%bind_ok.
  rewrite !bind_unit_ok, !bail_if_ok, !negb_false_iff, andb_false_iff, !negb_false_iff, !bool_decide_eq_true in H.
  destruct H as (_ & H & _ & ? & ? & _). split_and!; [done..|].
  rewrite andb_false_iff, !negb_false_iff, !bool_decide_eq_true in H. exact H.
Qed.

Lemma bucket_segment bucket : valid_bucket bucket = true →
  forallb unreserved (bytes bucket) = true ∧ bucket ≠ "" ∧ ¬ is_dots bucket.
Proof.
  unfold valid_bucket. rewrite !andb_true_iff. intros [[[[Hl _] Hb] _] _]. split_and!.
  - eapply forallb_weaken, Hb. intros b. unfold unreserved, is_ascii_alphanumeric. rewrite !orb_true_iff, Z.eqb_eq.
    intros [[Hx|Hx]|E]; [tauto..|]. right. by rewrite E.
  - by intros ->.
  - by intros [-> | ->].
Qed.

Lemma prefix_segments prefix : valid_prefix prefix = true →
  List.filter (λ part, negb (str_is_empty part)) (split_on "/" prefix) = split_on "/" prefix ∧
  forallb plain_segment (split_on "/" prefix) = true.
Proof.
  unfold valid_prefix. rewrite !andb_true_iff. intros [_ H]. revert H.
  induction (split_on "/" prefix) as [|x l IH]; [done|]. simpl. rewrite !andb_true_iff.
  intros [[Hn Hx] Hl]. destruct (IH Hl) as [-> Hp]. unfold plain_segment. rewrite Hn. split; [done|].
  rewrite andb_true_iff. split; [split; [done|]|done].
  eapply forallb_weaken, Hx. intros b. unfold unreserved. rewrite orb_true_iff. intros [-> |Hb]; [done|].
  revert Hb. unfold mem. simpl. repeat case_bool_decide; rewrite ?orb_true_r; done.
Qed.

Lemma digit_segments hex : len hex = 64 → forallb is_ascii_hexdigit (bytes hex) = true →
  ∀ x, x = hex_head hex ∨ x = hex_tail hex →
  forallb unreserved (bytes x) = true ∧ x ≠ "" ∧ ¬ is_dots x.
Proof.
  intros (E & L1 & L2)%hex_parts Hh x Hx. rewrite E, bytes_app, forallb_app, andb_true_iff in Hh.
  assert (forallb is_ascii_hexdigit (bytes x) = true) as Hb by (destruct Hx as [-> | ->]; apply Hh).
  assert (String.length x ≠ 0)%nat by (destruct Hx as [-> | ->]; lia). split_and!.
  - eapply forallb_weaken, Hb. intros b. unfold unreserved, is_ascii_alphanumeric, is_ascii_hexdigit,
      is_ascii_digit, is_ascii_lowercase, is_ascii_uppercase. lia.
  - by intros ->.
  - intros [-> | ->]; done.
Qed.

(** The segments of the path of an object, under valid settings. *)
Lemma valid_segments s hex : S3_validate s = Ok tt → len hex = 64 →
  forallb is_ascii_hexdigit (bytes hex) = true →
  path_segments s hex = (if s3_path_style s then [s3_bucket s] else [])
    ++ split_on "/" (s3_prefix s) ++ [hex_head hex; hex_tail hex] ∧
  forallb plain_segment (path_segments s hex) = true ∧
  (Forall (λ x, ¬ is_dots x) (path_segments s hex)
     ↔ Forall (λ x, ¬ is_dots x) (split_on "/" (s3_prefix s))).
Proof.
  intros (Hb%bucket_segment & Hp%prefix_segments & _)%S3_validate_paths Hl Hh.
  destruct Hb as (Hb & Hb0 & Hbd), Hp as [Hf Hp].
  destruct (digit_segments hex Hl Hh _ (or_introl eq_refl)) as (H1 & H1e & H1d).
  destruct (digit_segments hex Hl Hh _ (or_intror eq_refl)) as (H2 & H2e & H2d).
  unfold path_segments. rewrite Hf. split_and!; [done| |].
  - rewrite !forallb_app, Hp. simpl. rewrite !andb_true_iff, !plain_spec.
    split_and!; try done. destruct (s3_path_style s); [|done]. simpl. by rewrite andb_true_r, plain_spec.
  - rewrite !Forall_app, !Forall_cons, Forall_nil. split; [tauto|].
    destruct (s3_path_style s); rewrite ?Forall_cons, Forall_nil; tauto.
Qed.

Lemma path_text_inj l l' : l ≠ [] → l' ≠ [] → Forall (λ x, contains_char "/" x = false) l →
  Forall (λ x, contains_char "/" x = false) l' → path_text l = path_text l' → l = l'.
Proof.
  intros Hl Hl' Hp Hs [= E]. rewrite <-(split_concat l Hl Hp), <-(split_concat l' Hl' Hs). by rewrite E.
Qed.

Lemma plain_no_slash l : forallb plain_segment l = true → Forall (λ x, contains_char "/" x = false) l.
Proof.
  intros H%forallb_true. eapply Forall_impl; [exact H|]. intros x [_ Hx]%plain_spec.
  by apply unreserved_no_slash.
Qed.

Lemma remove_dots_nonempty l x kept : ¬ is_dots x → remove_dots kept (l ++ [x]) ≠ [].
Proof.
  unfold is_dots. intros Hx. revert kept. induction l as [|y l IH]; intros kept; simpl.
  - rewrite !bool_decide_false by tauto. by destruct kept.
  - repeat case_bool_decide; apply IH.
Qed.

Lemma encode_plain_segments l : forallb plain_segment l = true → encode_path_segment <$> l = l.
Proof.
  intros H%forallb_true. induction H as [|x l [_ Hx]%plain_spec _ IH]; [done|].
  by rewrite fmap_cons, encode_plain, IH.
Qed.

Lemma object_path_inj s digest digest' p : object_path s digest = Ok p → object_path s digest' = Ok p →
  digest' = digest.
Proof.
  intros (h1 & r1 & D1 & -> & S1)%object_path_segments (h2 & r2 & D2 & [= <-] & S2)%object_path_segments.
  rewrite S1 in S2. injection S2 as E. unfold path_segments in E. rewrite !app_assoc in E.
  apply app_inj_2 in E as [_ E]; [|done]. injection E as Eh Et.
  apply digest_digits_ok in D1 as (-> & L1 & _), D2 as (-> & L2 & _). f_equal. symmetry.
  by apply hex_parts_inj.
Qed.

Lemma object_path_plain s digest p hex : S3_validate s = Ok tt → object_path s digest = Ok p →
  digest_digits digest = Ok hex → p = path_text (path_segments s hex).
Proof.
  unfold object_path. intros Hv (h & Hd & [= <-])%bind_ok Hd'. rewrite Hd in Hd'. injection Hd' as ->.
  apply digest_digits_ok in Hd as (_ & Hl & Hh). unfold path_text.
  by rewrite encode_plain_segments by by apply valid_segments.
Qed.

Lemma no_dots l : ("." ∉ l) ∧ (".." ∉ l) ↔ Forall (λ x, ¬ is_dots x) l.
Proof.
  unfold is_dots. rewrite Forall_forall. split.
  - intros [H1 H2] x Hx [-> | ->]; done.
  - intros H. split; intros Hx; apply (H _ Hx); auto.
Qed.

(** The path of a sent request, where the settings are valid. *)
Lemma sent_path `{UrlPath} s hex : S3_validate s = Ok tt → len hex = 64 →
  forallb is_ascii_hexdigit (bytes hex) = true →
  request_url s (path_text (path_segments s hex)) = path_text (remove_dots [] (path_segments s hex)) ∧
  (request_url s (path_text (path_segments s hex)) = path_text (path_segments s hex)
     ↔ Forall (λ x, ¬ is_dots x) (split_on "/" (s3_prefix s))).
Proof.
  intros Hv Hl Hh. destruct (valid_segments s hex Hv Hl Hh) as (_ & Hp & <-).
  destruct (digit_segments hex Hl Hh _ (or_intror eq_refl)) as (_ & _ & Hd).
  assert (∃ l, path_segments s hex = l ++ [hex_tail hex]) as [l El].
  { exists ((if s3_path_style s then [s3_bucket s] else [])
      ++ List.filter (λ part, negb (str_is_empty part)) (split_on "/" (s3_prefix s)) ++ [hex_head hex]).
    unfold path_segments. by rewrite <-!app_assoc. }
  assert (path_segments s hex ≠ []) as Hne by (rewrite El; by destruct l).
  apply S3_validate_paths in Hv as (_ & _ & Hs).
  assert (request_url s (path_text (path_segments s hex))
    = path_text (remove_dots [] (path_segments s hex))) as -> by (by apply url_set_path_plain).
  split; [done|]. rewrite <-remove_dots_same.
  2: { intros x. rewrite El, last_snoc. by intros [= <-]. }
  split; [|by intros ->]. intros E. apply path_text_inj in E; [done| |done| |by apply plain_no_slash].
  - rewrite El. by apply remove_dots_nonempty.
  - apply remove_dots_plain; [done|done|by apply plain_no_slash].
Qed.

Lemma signed_request_ok `{Hashing, HmacSha256, DateStamps, UrlPath} store method path headers body at_ request :
  signed_request store method path headers body at_ = Ok request →
  wr_path request = request_url (ss_settings store) path ∧ wr_method request = method ∧
  ∃ signed authorization,
    authorization_header (ss_identity store)
      (mkCanonicalRequest method path signed (hex_encode (sha256 body))) at_ = Ok authorization ∧
    ("authorization", authorization) ∈ wr_headers request ∧
    headers ⊆ signed ∧ ∀ h, h ∈ signed → h.1 ≠ "host" → h ∈ wr_headers request.
Proof.
  unfold signed_request. intros (signed & Hs & Hr)%bind_ok.
  apply bind_ok in Hr as (authorization & Ha & [= <-]). split_and!; [done..|].
  exists signed, authorization. split_and!; [done|left| |].
  - unfold signed_headers in Hs. apply bind_ok in Hs as (host & _ & [= <-]). simpl.
    intros h Hh. apply elem_of_app. by left.
  - intros h Hh Hne. right. apply list_elem_of_In, filter_In. split; [by apply list_elem_of_In|].
    by rewrite bool_decide_false.
Qed.

(** C28. The path of an object is what the settings and the digest say: under valid
    settings its segments decode to the bucket (in path style), the segments of the
    prefix and the digits of the digest, split after the second; two digests never
    share a path, and any text that is encoded into a segment is read back
    unchanged.  A request signs that path, its method, its payload and its headers,
    carries the signature and every signed header but the host, which the transport
    adds, and the signature does not depend on the order in which distinct headers
    are listed.  The path that is sent is the one that was signed exactly when no
    segment of the prefix is [.] or [..]: [Url::set_path] removes these, and the
    settings allow them. *)
Theorem signed_paths_round_trip `{Hashing, HmacSha256, DateStamps, UrlPath} s digest p :
  object_path s digest = Ok p →
  (S3_validate s = Ok tt → ∃ first others rest,
     digest = "sha256:" +:+ first +:+ others ∧ String.length first = 2%nat ∧
     String.length others = 62%nat ∧ p = String "/" rest ∧
     mapM percent_decode (split_on "/" rest)
     = Some ((if s3_path_style s then [s3_bucket s] else []) ++ split_on "/" (s3_prefix s)
             ++ [first; others])) ∧
  (∀ segment, percent_decode (encode_path_segment segment) = Some segment) ∧
  (∀ digest', object_path s digest' = Ok p → digest' = digest) ∧
  (∀ identity method headers headers' payload signed_at,
     Permutation headers headers' → NoDup (to_ascii_lowercase ∘ fst <$> headers) →
     authorization_header identity (mkCanonicalRequest method p headers payload) signed_at
     = authorization_header identity (mkCanonicalRequest method p headers' payload) signed_at) ∧
  (∀ store method headers body signed_at request,
     S3ArtifactStore_new s = Ok store →
     signed_request store method p headers body signed_at = Ok request →
     (∃ signed authorization,
        authorization_header (ss_identity store)
          (mkCanonicalRequest method p signed (hex_encode (sha256 body))) signed_at = Ok authorization ∧
        ("authorization", authorization) ∈ wr_headers request ∧
        headers ⊆ signed ∧ ∀ h, h ∈ signed → h.1 ≠ "host" → h ∈ wr_headers request) ∧
     (wr_path request = p ↔ ("." ∉ split_on "/" (s3_prefix s)) ∧ (".." ∉ split_on "/" (s3_prefix s)))).
Proof.
  intros Hp. destruct (object_path_segments _ _ _ Hp) as (hex & rest & Hd & -> & Hseg).
  destruct (digest_digits_ok _ _ Hd) as (-> & Hl & Hh). split_and!.
  - intros Hv. destruct (hex_parts hex Hl) as (E & L1 & L2).
    exists (hex_head hex), (hex_tail hex), rest. rewrite <-E. split_and!; [done..|].
    rewrite Hseg. f_equal. by apply valid_segments.
  - apply encode_round_trip.
  - intros digest' Hp'. by eapply object_path_inj.
  - intros identity method headers headers' payload at_ Hperm Hn.
    unfold authorization_header, string_to_sign, canonical_request.
    cbn [cq_headers cq_method cq_path cq_payload_sha256].
    by rewrite (canonical_headers_perm _ _ Hperm Hn).
  - intros store method headers body at_ request (u & Hv & [= <-])%bind_ok (Hw & _ & Ha)%signed_request_ok.
    destruct u. split; [done|]. rewrite Hw. simpl.
    rewrite (object_path_plain _ _ _ _ Hv Hp Hd), no_dots.
    by apply sent_path.
Qed.

(** ** A store of two files *)

Module Sample.
#[local] Existing Instances Webhook.Sample.hashes Webhook.Sample.codes.
#[local] Instance uuids : UuidText := {| uuid_to_string _ := "u"; uuid_to_string_visible _ := eq_refl |}.
#[local] Instance stamps : DateStamps := {| date_stamp _ := "20240101"; time_stamp _ := "20240101T000000Z" |}.

(** The crate, on paths that need no encoding. *)
Definition set_plain_path (path : string) : string :=
  match path with
  | String _ rest => path_text (remove_dots [] (split_on "/" rest))
  | EmptyString => path
  end.

Lemma set_plain_path_ok segments : segments ≠ [] → forallb plain_segment segments = true →
  set_plain_path (path_text segments) = path_text (remove_dots [] segments).
Proof.
  intros Hn Hp%plain_no_slash. unfold set_plain_path, path_text at 1. cbn [String.append].
  by rewrite split_concat.
Qed.

#[local] Instance url_paths : UrlPath := {|
  url_set_path _ := set_plain_path;
  url_set_path_plain _ segments _ := set_plain_path_ok segments
|}.

Definition artifact : PutCall := mkPutCall [1; 2; 3] "application/json" "runmill" "evidence".
Definition path : ArtifactPath := default ("", "") (match begin_put artifact with Ok p => Some p | _ => None end).

(** One call to its end. *)
Definition events : list IoEvent :=
  [IoDone 1; IoCreated 5%N; IoWrote [1]; IoWrote [2; 3]; IoDone 2; IoDone 3].

Fixpoint drive (es : list IoEvent) (p : PutProgress) (fs : Files) : option (Files * PutProgress) :=
  match es with
  | [] => Some (fs, p)
  | e :: es => '(fs, p) ← put_step artifact path e p fs; drive es p fs
  end.

Lemma drive_steps es p fs fs' p' :
  drive es p fs = Some (fs', p') →
  rtc system_step (mkArtifactSystem fs {[ 0%nat := (artifact, p) ]})
    (mkArtifactSystem fs' {[ 0%nat := (artifact, p') ]}).
Proof.
  revert p fs. induction es as [|e es IH]; intros p fs; simpl; [by intros [= -> ->]|].
  destruct (put_step artifact path e p fs) as [[fs1 p1]|] eqn:E; [|done]. intros H.
  eapply rtc_l; [|by apply IH].
  pose proof (call_moves 0 artifact p path e fs1 p1 (mkArtifactSystem fs {[ 0%nat := (artifact, p) ]})) as Hm.
  simpl in Hm. rewrite insert_singleton_eq in Hm. apply Hm; [reflexivity|reflexivity|exact E].
Qed.

Lemma artifacts_addressed_by_content_witness :
  ∃ s, rtc system_step (mkArtifactSystem ∅ ∅) s ∧
    (∃ a, as_calls s !! 0%nat = Some (artifact, PutEnded (Ok a)) ∧
       sd_digest a = sha256_digest [1; 2; 3]) ∧
    (∀ digest content, file_get (as_files s) digest = Ok content → sha256_digest content = digest) ∧
    file_get (as_files s) (sha256_digest [1; 2; 3]) = Ok [1; 2; 3].
Proof.
  assert (snd <$> drive events PutStarted ∅ = Some (PutEnded (Ok (artifact_of artifact 3)))) as Hp
    by (vm_compute; reflexivity).
  assert ((λ x, file_get x.1 (sha256_digest [1; 2; 3])) <$> drive events PutStarted ∅
    = Some (Ok [1; 2; 3])) as Hf by (vm_compute; reflexivity).
  destruct (drive events PutStarted ∅) as [[fs p]|] eqn:E; [|discriminate Hp].
  injection Hp as ->. injection Hf as Hf.
  assert (rtc system_step (mkArtifactSystem ∅ ∅)
    (mkArtifactSystem fs {[ 0%nat := (artifact, PutEnded (Ok (artifact_of artifact 3))) ]})) as Hs.
  { eapply rtc_l; [|eapply drive_steps, E]. apply (call_begins 0 artifact path (mkArtifactSystem ∅ ∅)); reflexivity. }
  assert (content_ok ∅) as Hc by (intros ? ? ? _; by rewrite lookup_empty).
  destruct (artifacts_addressed_by_content ∅ _ Hc Hs) as (H1 & H2 & _).
  eexists. split; [exact Hs|]. split; [|split; [exact H1|exact Hf]].
  exists (artifact_of artifact 3). split; [reflexivity|]. apply (H2 0%nat artifact). reflexivity.
Defined.

Definition settings (prefix : string) : S3ArtifactStoreSettings :=
  mkS3ArtifactStoreSettings (mkUrl "https" (Some "s3.example") "" None None None) None "eu" "evidence"
    prefix "AKIA" "secret" true Aes256 (seconds 30).

Definition store (prefix : string) : S3ArtifactStore :=
  mkS3ArtifactStore (settings prefix) (mkSigningIdentity "AKIA" "secret" "eu" SERVICE).

Lemma signed_paths_round_trip_witness :
  ∃ p request first others,
    object_path (settings "asf/sha256") (sha256_digest []) = Ok p ∧
    signed_request (store "asf/sha256") "GET" p [] [] 0 = Ok request ∧
    mapM percent_decode (split_on "/" (match p with String _ rest => rest | _ => "" end))
    = Some ["evidence"; "asf"; "sha256"; first; others] ∧
    wr_path request = p.
Proof.
  destruct (object_path (settings "asf/sha256") (sha256_digest [])) as [p| |] eqn:E;
    [|vm_compute in E; discriminate E..].
  destruct (signed_request (store "asf/sha256") "GET" p [] [] 0) as [request| |] eqn:R;
    [|vm_compute in R; discriminate R..].
  destruct (signed_paths_round_trip (settings "asf/sha256") (sha256_digest []) p E)
    as (H1 & _ & _ & _ & H5).
  destruct (H1 ltac:(vm_compute; reflexivity)) as (first & others & rest & _ & _ & _ & -> & Hseg).
  destruct (H5 (store "asf/sha256") "GET" [] [] 0 request ltac:(vm_compute; reflexivity) R) as [_ Hsent].
  exists (String "/" rest), request, first, others. split_and!; [reflexivity|exact R| |].
  - rewrite Hseg. reflexivity.
  - apply Hsent. split; apply (bool_decide_unpack _); vm_compute; exact I.
Defined.

(** A prefix of two dots is accepted; the signature then covers a path in the bucket,
    and the request goes to a path outside of it. *)
Example dots_leave_the_bucket :
  S3_validate (settings "..") = Ok tt ∧
  ∃ rest request, object_path (settings "..") (sha256_digest []) = Ok ("/evidence/../" +:+ rest) ∧
    signed_request (store "..") "GET" ("/evidence/../" +:+ rest) [] [] 0 = Ok request ∧
    wr_path request = "/" +:+ rest.
Proof.
  split; [vm_compute; reflexivity|].
  exists (hex_head (hex_encode (sha256 [])) +:+ "/" +:+ hex_tail (hex_encode (sha256 []))). eexists.
  split_and!; vm_compute; reflexivity.
Qed.

(** An endpoint with a password and no user name is accepted. *)
Example endpoint_password_accepted :
  S3_validate (mkS3ArtifactStoreSettings (mkUrl "https" (Some "s3.example") "" (Some "secret") None None)
    None "eu" "evidence" "asf/sha256" "AKIA" "secret" true Aes256 (seconds 30)) = Ok tt.
Proof. vm_compute. reflexivity. Qed.
End Sample.
