(* ===== verification/Producers.v ===== *)
(** The producers of durable Runmill jobs,
    [src/src/ledger/runmill_observation_streams.rs] and
    [src/src/ledger/runmill_terminal_evidence_jobs.rs]: the creation of an
    observation stream, the release of a stream whose observer job died, the
    scheduling of due observations and of the retention of terminal evidence.

    [ObservationTables] extends the tables of the reactor with the tables that
    the statements join.  A stream is kept under its primary key; the other
    tables are lists of rows, and a join is the search for a row that satisfies
    its conditions.  Each producer is one transaction, which commits nothing when
    it fails.  The clock of a statement and the rows that others hold
    ([SKIP LOCKED]) are in [Scan]; [Uuid::now_v7] and the clock of an insertion
    are given per run.  [updated_at], foreign keys and the triggers of the
    migrations, which can only refuse a statement, are left out. *)

From Stdlib Require Import ZArith Lia Ascii.
From stdpp Require Import base tactics option strings pretty numbers list gmap.
From S2P Require Import Prelude RustStr RustOrd Ids Crypto Security RunEvents JobQueue RunmillOrder Steps DeadLetter Handlers ReactorClaims Reactor.

Definition OBSERVATION_PAYLOAD_SCHEMA_V2 : string := "asf.runmill-observation/v2".
Definition OBSERVATION_JOB_PRIORITY : Z := 75.
Definition OBSERVATION_JOB_MAX_ATTEMPTS : Z := 25.
Definition TERMINAL_EVIDENCE_PAYLOAD_SCHEMA_V1 : string := "asf.runmill-terminal-evidence/v1".
Definition TERMINAL_EVIDENCE_JOB_PRIORITY : Z := 70.
Definition TERMINAL_EVIDENCE_JOB_MAX_ATTEMPTS : Z := 25.
Definition MAX_PRODUCTION_BATCH : Z := 1000.
Definition MAX_RUNMILL_SEQUENCE : Z := 9007199254740991.

(** ** Tables *)

(** The columns of [runmill_run_observation_streams] that are not its key
    [(tenant_id, run_id)]. *)
Record StreamColumns := mkStreamColumns {
  oc_workflow_instance_id : Uuid;
  oc_work_item_id : Uuid;
  oc_attempt_id : Uuid;
  oc_work_order_id : Uuid;
  oc_work_order_digest : string;
  oc_worker_id : Uuid;
  oc_worker_generation : Z;
  oc_run_admission_worker_session_id : Uuid;
  oc_external_run_id : string;
  oc_next_after_sequence : Z;
  oc_observation_epoch : Z;
  oc_active_job_id : option Uuid;
  oc_active_observation_id : option Uuid;
  oc_state : string;
  oc_next_poll_at : DateTime;
  oc_last_snapshot_id : option Uuid;
  oc_escalation_id : option Uuid;
  oc_last_error_digest : option string;
  oc_aggregate_version : Z
}.

(** The columns that the routes read. *)
Definition stream_row (key : Uuid * Uuid) (c : StreamColumns) : StreamRow :=
  {| sm_tenant_id := key.1; sm_run_id := key.2;
     sm_workflow_instance_id := oc_workflow_instance_id c; sm_work_item_id := oc_work_item_id c;
     sm_attempt_id := oc_attempt_id c; sm_work_order_id := oc_work_order_id c;
     sm_work_order_digest := oc_work_order_digest c; sm_worker_id := oc_worker_id c;
     sm_worker_generation := oc_worker_generation c;
     sm_run_admission_worker_session_id := oc_run_admission_worker_session_id c;
     sm_external_run_id := oc_external_run_id c; sm_state := oc_state c;
     sm_active_job_id := oc_active_job_id c; sm_active_observation_id := oc_active_observation_id c;
     sm_next_after_sequence := oc_next_after_sequence c;
     sm_observation_epoch := oc_observation_epoch c |}.

Record AttemptDigestRow := mkAttemptDigestRow {
  ad_id : Uuid; ad_tenant_id : Uuid; ad_work_item_id : Uuid; ad_work_order_digest : option string
}.

(** [current_attempt_id] and [accepted_at] of a work item. *)
Record AcceptanceColumns := mkAcceptanceColumns {
  wa_current_attempt_id : option Uuid; wa_accepted_at : option DateTime
}.

(** A row of [runmill_run_observation_results]. *)
Record ObservationResultRow := mkObservationResultRow {
  ox_result : ResultRow; ox_gap : bool; ox_has_more : bool
}.

Record ControlSnapshotRow := mkControlSnapshotRow {
  cs_id : Uuid; cs_tenant_id : Uuid; cs_control_operation : string; cs_run_id : Uuid;
  cs_work_item_id : Uuid; cs_attempt_id : Uuid; cs_work_order_id : Uuid;
  cs_work_order_digest : string; cs_worker_session_id : Uuid; cs_worker_id : Uuid;
  cs_worker_generation : Z; cs_external_run_id : string; cs_observation_id : option Uuid;
  cs_external_latest_sequence : Z; cs_raw_snapshot : Value
}.

(** A row of [runmill_observation_terminal_failure_facts]. *)
Record FailureFactRow := mkFailureFactRow {
  ff_tenant_id : Uuid; ff_run_id : Uuid; ff_observation_id : Uuid; ff_workflow_job_id : Uuid;
  ff_escalation_id : Uuid; ff_after_sequence : Z; ff_observation_epoch : Z;
  ff_failure_digest : string
}.

(** [ot_gap_bindings] are the tenants and observations of
    [runmill_observation_gap_escalation_bindings], [ot_bundles] the tenants and
    runs of [runmill_terminal_evidence_bundles], and a session is kept with its
    [started_at]. *)
Record ObservationTables := mkObservationTables {
  ot_reactor : ReactorTables;
  ot_runs : list RouteRunRow;
  ot_work_orders : list WorkOrderRow;
  ot_attempts : list AttemptDigestRow;
  ot_acceptances : gmap (Uuid * Uuid) AcceptanceColumns;
  ot_workers : list WorkerRow;
  ot_sessions : list (RouteSessionRow * DateTime);
  ot_streams : gmap (Uuid * Uuid) StreamColumns;
  ot_checkpoints : list CheckpointRow;
  ot_results : list ObservationResultRow;
  ot_gap_bindings : list (Uuid * Uuid);
  ot_snapshots : list ControlSnapshotRow;
  ot_failure_facts : list FailureFactRow;
  ot_bundles : list (Uuid * Uuid)
}.

Definition ot_queue (s : ObservationTables) : Queue := rx_queue (ot_reactor s).

Definition set_ot_queue (q : Queue) (s : ObservationTables) : ObservationTables :=
  mkObservationTables (set_rx_queue q (ot_reactor s)) (ot_runs s) (ot_work_orders s) (ot_attempts s)
    (ot_acceptances s) (ot_workers s) (ot_sessions s) (ot_streams s) (ot_checkpoints s)
    (ot_results s) (ot_gap_bindings s) (ot_snapshots s) (ot_failure_facts s) (ot_bundles s).
Definition set_streams m (s : ObservationTables) : ObservationTables :=
  mkObservationTables (ot_reactor s) (ot_runs s) (ot_work_orders s) (ot_attempts s)
    (ot_acceptances s) (ot_workers s) (ot_sessions s) m (ot_checkpoints s)
    (ot_results s) (ot_gap_bindings s) (ot_snapshots s) (ot_failure_facts s) (ot_bundles s).
Definition set_checkpoints l (s : ObservationTables) : ObservationTables :=
  mkObservationTables (ot_reactor s) (ot_runs s) (ot_work_orders s) (ot_attempts s)
    (ot_acceptances s) (ot_workers s) (ot_sessions s) (ot_streams s) l
    (ot_results s) (ot_gap_bindings s) (ot_snapshots s) (ot_failure_facts s) (ot_bundles s).
Definition set_failure_facts l (s : ObservationTables) : ObservationTables :=
  mkObservationTables (ot_reactor s) (ot_runs s) (ot_work_orders s) (ot_attempts s)
    (ot_acceptances s) (ot_workers s) (ot_sessions s) (ot_streams s) (ot_checkpoints s)
    (ot_results s) (ot_gap_bindings s) (ot_snapshots s) l (ot_bundles s).

(** The tables that a claim checks a route against. *)
Definition route_tables (s : ObservationTables) : RouteTables :=
  {| ro_runs := ot_runs s; ro_work_orders := ot_work_orders s;
     ro_streams := (λ p, stream_row p.1 p.2) <$> map_to_list (ot_streams s);
     ro_checkpoints := ot_checkpoints s; ro_results := ox_result <$> ot_results s;
     ro_sessions := (ot_sessions s).*1; ro_workers := ot_workers s |}.

(** The clock of a statement and the streams whose rows others hold. *)
Record Scan := mkScan { sn_now : DateTime; sn_locked : Uuid * Uuid → bool }.

(** ** Creation of a stream *)

Record NewRunmillObservationStream := mkNewRunmillObservationStream {
  ns_tenant_id : Uuid;
  ns_run_id : Uuid;
  ns_workflow_instance_id : Uuid;
  ns_work_item_id : Uuid;
  ns_attempt_id : Uuid;
  ns_work_order_id : Uuid;
  ns_work_order_digest : string;
  ns_worker_id : Uuid;
  ns_worker_generation : Z;
  ns_run_admission_worker_session_id : Uuid;
  ns_external_run_id : string
}.

Definition NewRunmillObservationStream_validate (n : NewRunmillObservationStream) : res unit :=
  bail_if
    (existsb is_nil
       [ns_tenant_id n; ns_run_id n; ns_workflow_instance_id n; ns_work_item_id n; ns_attempt_id n;
        ns_work_order_id n; ns_worker_id n; ns_run_admission_worker_session_id n]
     || (ns_worker_generation n <=? 0) || negb (is_sha256_digest (ns_work_order_digest n))
     || blank (ns_external_run_id n))
    (Validation [Lit "Runmill observation stream requires exact non-nil authority, a SHA-256 Work Order digest, a positive worker generation, and an external run ID"]).

Record CreateRunmillObservationStreamOutcome := mkCreateRunmillObservationStreamOutcome {
  cr_run_id : Uuid; cr_inserted : bool
}.

(** The inserted row, with the defaults of the other columns. *)
Definition new_stream (n : NewRunmillObservationStream) (now : DateTime) : StreamColumns :=
  {| oc_workflow_instance_id := ns_workflow_instance_id n; oc_work_item_id := ns_work_item_id n;
     oc_attempt_id := ns_attempt_id n; oc_work_order_id := ns_work_order_id n;
     oc_work_order_digest := ns_work_order_digest n; oc_worker_id := ns_worker_id n;
     oc_worker_generation := ns_worker_generation n;
     oc_run_admission_worker_session_id := ns_run_admission_worker_session_id n;
     oc_external_run_id := ns_external_run_id n; oc_next_after_sequence := 0;
     oc_observation_epoch := 0; oc_active_job_id := None; oc_active_observation_id := None;
     oc_state := "ACTIVE"; oc_next_poll_at := now; oc_last_snapshot_id := None;
     oc_escalation_id := None; oc_last_error_digest := None; oc_aggregate_version := 1 |}.

Definition stream_binding_matches (c : StreamColumns) (n : NewRunmillObservationStream) : bool :=
  bool_decide (oc_workflow_instance_id c = ns_workflow_instance_id n)
  && bool_decide (oc_work_item_id c = ns_work_item_id n)
  && bool_decide (oc_attempt_id c = ns_attempt_id n)
  && bool_decide (oc_work_order_id c = ns_work_order_id n)
  && bool_decide (oc_work_order_digest c = ns_work_order_digest n)
  && bool_decide (oc_worker_id c = ns_worker_id n)
  && (oc_worker_generation c =? ns_worker_generation n)
  && bool_decide (oc_run_admission_worker_session_id c = ns_run_admission_worker_session_id n)
  && bool_decide (oc_external_run_id c = ns_external_run_id n).

(** [found] are the streams that the second statement finds. *)
Definition create_runmill_observation_stream (n : NewRunmillObservationStream) (now : DateTime)
    (s found : ObservationTables)
  : res (ObservationTables * CreateRunmillObservationStreamOutcome) :=
  NewRunmillObservationStream_validate n ;;
  let key := (ns_tenant_id n, ns_run_id n) in
  match ot_streams s !! key with
  | None =>
      Ok (set_streams (<[key := new_stream n now]> (ot_streams s)) s,
          mkCreateRunmillObservationStreamOutcome (ns_run_id n) true)
  | Some _ =>
      c ← ok_or (ot_streams found !! key)
        (Persistence [Lit "Runmill observation stream conflict was observed without a visible row"]);
      if stream_binding_matches c n
      then Ok (found, mkCreateRunmillObservationStreamOutcome (ns_run_id n) false)
      else Err (Conflict [Lit "Runmill observation stream for run "; FmtUuid (ns_run_id n);
                  Lit " has different immutable authority"])
  end.

Section producers.
  Context {pg : PgColumns} {jsonb : Jsonb} {uuids : UuidText} {jsonb_texts : JsonbText}.

(** ** The joins that both producers share *)

Definition authoritative_run (key : Uuid * Uuid) (c : StreamColumns) (r : RouteRunRow) : bool :=
  bool_decide (rn_tenant_id r = key.1) && bool_decide (rn_id r = key.2)
  && bool_decide (rn_work_item_id r = oc_work_item_id c)
  && bool_decide (rn_attempt_id r = oc_attempt_id c)
  && bool_decide (rn_work_order_id r = oc_work_order_id c)
  && bool_decide (rn_worker_id r = oc_worker_id c)
  && (rn_worker_generation r =? oc_worker_generation c)
  && bool_decide (rn_worker_session_id r = oc_run_admission_worker_session_id c)
  && bool_decide (rn_external_run_id r = oc_external_run_id c) && rn_authoritative r.

Definition exact_work_order (key : Uuid * Uuid) (c : StreamColumns) (o : WorkOrderRow) : bool :=
  bool_decide (wo_tenant_id o = key.1) && bool_decide (wo_id o = oc_work_order_id c)
  && bool_decide (wo_work_item_id o = oc_work_item_id c)
  && bool_decide (wo_attempt_id o = oc_attempt_id c)
  && bool_decide (wo_payload_digest o = oc_work_order_digest c).

Definition exact_attempt (key : Uuid * Uuid) (c : StreamColumns) (a : AttemptDigestRow) : bool :=
  bool_decide (ad_tenant_id a = key.1) && bool_decide (ad_id a = oc_attempt_id c)
  && bool_decide (ad_work_item_id a = oc_work_item_id c)
  && bool_decide (ad_work_order_digest a = Some (oc_work_order_digest c)).

(** The work item, by its columns in the tables of a step and here. *)
Definition accepted_work (key : Uuid * Uuid) (c : StreamColumns) (s : ObservationTables) : bool :=
  match sx_work_items (rx_steps (ot_reactor s)) !! (key.1, oc_work_item_id c),
        ot_acceptances s !! (key.1, oc_work_item_id c) with
  | Some work, Some accepted =>
      bool_decide (wa_current_attempt_id accepted = Some (oc_attempt_id c))
      && is_some (wa_accepted_at accepted)
      && negb (mem (wi_row_state work) ["CLOSED"; "CANCELLED"])
  | _, _ => false
  end.

Definition live_workflow (key : Uuid * Uuid) (c : StreamColumns) (s : ObservationTables) : bool :=
  match sx_workflows (rx_steps (ot_reactor s)) !! (key.1, oc_workflow_instance_id c) with
  | Some workflow =>
      bool_decide (wf_row_work_item_id workflow = oc_work_item_id c)
      && mem (wf_row_state workflow) ["ACTIVE"; "WAITING"]
  | None => false
  end.

Definition usable_worker (key : Uuid * Uuid) (c : StreamColumns) (w : WorkerRow) : bool :=
  bool_decide (wk_tenant_id w = key.1) && bool_decide (wk_id w = oc_worker_id c)
  && (wk_generation w =? oc_worker_generation c)
  && negb (bool_decide (wk_status w = "QUARANTINED")).

Definition usable_session (now : DateTime) (key : Uuid * Uuid) (c : StreamColumns)
    (s : RouteSessionRow) : bool :=
  bool_decide (se_tenant_id s = key.1) && bool_decide (se_worker_id s = oc_worker_id c)
  && (se_worker_generation s =? oc_worker_generation c)
  && bool_decide (se_status s = "ACTIVE") && (now <? se_expires_at s).

(** The lateral join: [ORDER BY started_at DESC, id DESC LIMIT 1]. *)
Definition observer_session (now : DateTime) (key : Uuid * Uuid) (c : StreamColumns)
    (s : ObservationTables) : option Uuid :=
  (λ p, se_id p.1) <$> last (sort_by_key (λ p : RouteSessionRow * DateTime, (p.2, se_id p.1))
    (List.filter (λ p, usable_session now key c p.1) (ot_sessions s))).

(** Everything but the observer session. *)
Definition live_authority (key : Uuid * Uuid) (c : StreamColumns) (s : ObservationTables) : bool :=
  existsb (authoritative_run key c) (ot_runs s) && existsb (exact_work_order key c) (ot_work_orders s)
  && existsb (exact_attempt key c) (ot_attempts s) && accepted_work key c s && live_workflow key c s
  && existsb (usable_worker key c) (ot_workers s).

(** The limits that both producers accept. *)
Definition validate_production (what : string) (tenant_id : Uuid) (limit : Z) : res unit :=
  bail_if (is_nil tenant_id || (limit =? 0) || (MAX_PRODUCTION_BATCH <? limit))
    (Validation [Disp what; Lit " production requires a non-nil tenant and a limit in 1..=1000"]).

(** ** Streams pinned behind a dead observer job *)

Record DeadPinnedStream := mkDeadPinnedStream {
  dp_run_id : Uuid;
  dp_workflow_job_id : Uuid;
  dp_observation_id : Uuid;
  dp_after_sequence : Z;
  dp_observation_epoch : Z;
  dp_aggregate_version : Z;
  dp_escalation_id : Uuid;
  dp_failure_digest : string
}.

Definition exact_checkpoint (key : Uuid * Uuid) (c : StreamColumns) (job_id observation_id : Uuid)
    (k : CheckpointRow) : bool :=
  bool_decide (ck_tenant_id k = key.1) && bool_decide (ck_id k = observation_id)
  && bool_decide (ck_run_id k = key.2) && bool_decide (ck_workflow_job_id k = job_id)
  && (ck_after_sequence k =? oc_next_after_sequence c)
  && (ck_observation_epoch k =? oc_observation_epoch c)
  && bool_decide (ck_worker_id k = oc_worker_id c)
  && (ck_worker_generation k =? oc_worker_generation c).

(** The dead job: its bindings, its payload and its terminal receipt. *)
Definition dead_observer_job (key : Uuid * Uuid) (c : StreamColumns)
    (job_id observation_id escalation_id : Uuid) (row : JobRow) : bool :=
  let p := payload row in
  let result := default Null (jb_result row) in
  bool_decide (jb_tenant_id row = key.1)
  && bool_decide (jb_workflow_instance_id row = Some (oc_workflow_instance_id c))
  && bool_decide (jb_work_item_id row = Some (oc_work_item_id c))
  && bool_decide (jb_attempt_id row = Some (oc_attempt_id c))
  && bool_decide (jb_job_type row = OBSERVE_RUNMILL_RUN)
  && bool_decide (jb_activity_contract_id row = OBSERVE_RUNMILL_RUN_ACTIVITY_CONTRACT_ID)
  && bool_decide (jb_status row = "DEAD")
  && is_object p && is_text "schema" OBSERVATION_PAYLOAD_SCHEMA_V2 p
  && is_uuid "observation_id" observation_id p && is_uuid "run_id" key.2 p
  && is_number "after_sequence" (oc_next_after_sequence c) p
  && is_number "observation_epoch" (oc_observation_epoch c) p
  && is_object result && is_text "schema" "asf.workflow-job-dead-letter-result/v1" result
  && is_uuid "workflow_job_id" job_id result && is_text "job_type" OBSERVE_RUNMILL_RUN result
  && typed "string" "error_digest" result
  && from_option sha256_text false (text_at "error_digest" result)
  && bool_decide ((field "escalation" result ≫= text_at "id") = Some (uuid_to_string escalation_id)).

(** [evidence_references @> jsonb_build_array(…)] of one string. *)
Definition cites (v : Value) (reference : string) : bool :=
  match v with Array l => existsb (is_string reference) l | _ => false end.

Definition owning_escalation (key : Uuid * Uuid) (c : StreamColumns) (job_id escalation_id : Uuid)
    (digest : string) (e : EscalationRow) : bool :=
  bool_decide (es_tenant_id e = key.1) && bool_decide (es_id e = escalation_id)
  && bool_decide (es_work_item_id e = oc_work_item_id c)
  && bool_decide (es_attempt_id e = Some (oc_attempt_id c))
  && bool_decide (es_category e = "WORKFLOW_JOB_EXHAUSTED") && is_active_escalation e
  && es_authority_or_effect_active e
  && forallb (cites (es_evidence_references e))
       (exact_evidence job_id OBSERVE_RUNMILL_RUN digest).

(** No page of the observation was retained. *)
Definition nothing_retained (tenant_id observation_id : Uuid) (s : ObservationTables) : bool :=
  negb (existsb (λ e, bool_decide (re_tenant_id (ox_result e) = tenant_id)
                      && bool_decide (re_observation_id (ox_result e) = observation_id)) (ot_results s))
  && negb (mem (tenant_id, observation_id) (ot_gap_bindings s))
  && negb (existsb (λ p, bool_decide (cs_tenant_id p = tenant_id)
                         && bool_decide (cs_observation_id p = Some observation_id)) (ot_snapshots s)).

(** A row of [SELECT_DEAD_PINNED_STREAMS_SQL]. *)
Definition dead_pinned_row (tenant_id : Uuid) (s : ObservationTables) (p : (Uuid * Uuid) * StreamColumns)
  : option DeadPinnedStream :=
  let '(key, c) := p in
  job_id ← oc_active_job_id c;
  observation_id ← oc_active_observation_id c;
  row ← q_jobs (ot_queue s) !! job_id;
  escalation_id ← dt_dead_letters (rx_dead (ot_reactor s)) !! job_id;
  digest ← text_at "error_digest" (default Null (jb_result row));
  if bool_decide (key.1 = tenant_id) && bool_decide (oc_state c = "ACTIVE")
     && is_none (rx_links (ot_reactor s) !! job_id)
     && (0 <=? oc_next_after_sequence c) && (oc_next_after_sequence c <=? MAX_RUNMILL_SEQUENCE)
     && (1 <=? oc_observation_epoch c) && (oc_observation_epoch c <=? MAX_RUNMILL_SEQUENCE)
     && existsb (exact_checkpoint key c job_id observation_id) (ot_checkpoints s)
     && dead_observer_job key c job_id observation_id escalation_id row
     && existsb (owning_escalation key c job_id escalation_id digest)
          (dt_escalations (rx_dead (ot_reactor s)))
     && nothing_retained tenant_id observation_id s
  then Some {| dp_run_id := key.2; dp_workflow_job_id := job_id; dp_observation_id := observation_id;
               dp_after_sequence := oc_next_after_sequence c;
               dp_observation_epoch := oc_observation_epoch c;
               dp_aggregate_version := oc_aggregate_version c; dp_escalation_id := escalation_id;
               dp_failure_digest := digest |}
  else None.

(** The rows of a scan: those of the unlocked streams, ordered and cut. *)
Definition scan_streams {A K} `{Ord K} (key : A → K) (limit : Z) (sn : Scan)
    (rows : (Uuid * Uuid) * StreamColumns → list A) (s : ObservationTables) : list A :=
  take (Z.to_nat limit) (sort_by_key key
    (List.filter (λ p, negb (sn_locked sn p.1)) (map_to_list (ot_streams s)) ≫= rows)).

Definition rows_of {A} (o : option A) : list A := match o with Some a => [a] | None => [] end.

Definition dead_pinned_streams (tenant_id : Uuid) (limit : Z) (sn : Scan) (s : ObservationTables)
  : list DeadPinnedStream :=
  scan_streams dp_run_id limit sn (λ p, rows_of (dead_pinned_row tenant_id s p)) s.

Definition validate_dead_pinned_stream (d : DeadPinnedStream) : res unit :=
  bail_if
    (existsb is_nil [dp_run_id d; dp_workflow_job_id d; dp_observation_id d; dp_escalation_id d]
     || negb ((0 <=? dp_after_sequence d) && (dp_after_sequence d <=? MAX_RUNMILL_SEQUENCE))
     || negb ((1 <=? dp_observation_epoch d) && (dp_observation_epoch d <=? MAX_RUNMILL_SEQUENCE))
     || (dp_aggregate_version d <=? 0) || negb (is_sha256_digest (dp_failure_digest d)))
    (Conflict [Lit "Runmill observation stream "; FmtUuid (dp_run_id d);
               Lit " has an out-of-range or unproved terminal-failure identity"]).

Definition failure_fact (tenant_id : Uuid) (d : DeadPinnedStream) : FailureFactRow :=
  {| ff_tenant_id := tenant_id; ff_run_id := dp_run_id d; ff_observation_id := dp_observation_id d;
     ff_workflow_job_id := dp_workflow_job_id d; ff_escalation_id := dp_escalation_id d;
     ff_after_sequence := dp_after_sequence d; ff_observation_epoch := dp_observation_epoch d;
     ff_failure_digest := dp_failure_digest d |}.

Definition fact_of (tenant_id observation_id : Uuid) (f : FailureFactRow) : bool :=
  bool_decide (ff_tenant_id f = tenant_id) && bool_decide (ff_observation_id f = observation_id).

Definition same_fact (a b : FailureFactRow) : bool :=
  bool_decide (ff_run_id a = ff_run_id b) && bool_decide (ff_observation_id a = ff_observation_id b)
  && bool_decide (ff_workflow_job_id a = ff_workflow_job_id b)
  && bool_decide (ff_escalation_id a = ff_escalation_id b)
  && (ff_after_sequence a =? ff_after_sequence b)
  && (ff_observation_epoch a =? ff_observation_epoch b)
  && bool_decide (ff_failure_digest a = ff_failure_digest b).

(** The insertion is keyed by the observation; the run and the job are unique
    too, and a second fact of either is an error of the statement. *)
Definition record_terminal_failure_fact (tenant_id : Uuid) (d : DeadPinnedStream)
    (s : ObservationTables) : res ObservationTables :=
  let fact := failure_fact tenant_id d in
  s ← (if existsb (fact_of tenant_id (dp_observation_id d)) (ot_failure_facts s) then Ok s else
       bail_if (existsb (λ f, bool_decide (ff_tenant_id f = tenant_id)
                   && (bool_decide (ff_run_id f = dp_run_id d)
                       || bool_decide (ff_workflow_job_id f = dp_workflow_job_id d)))
                  (ot_failure_facts s))
         (Persistence [Lit "record Runmill observation terminal-failure fact"]) ;;
       Ok (set_failure_facts (ot_failure_facts s ++ [fact]) s));
  let retained := find (fact_of tenant_id (dp_observation_id d)) (ot_failure_facts s) in
  bail_if (negb (from_option (same_fact fact) false retained))
    (Conflict [Lit "Runmill observation "; FmtUuid (dp_observation_id d);
               Lit " has a conflicting retained terminal-failure fact"]) ;;
  Ok s.

(** The assignments of [RELEASE_DEAD_PINNED_STREAM_SQL]. *)
Definition released_stream (d : DeadPinnedStream) (c : StreamColumns) : StreamColumns :=
  {| oc_workflow_instance_id := oc_workflow_instance_id c; oc_work_item_id := oc_work_item_id c;
     oc_attempt_id := oc_attempt_id c; oc_work_order_id := oc_work_order_id c;
     oc_work_order_digest := oc_work_order_digest c; oc_worker_id := oc_worker_id c;
     oc_worker_generation := oc_worker_generation c;
     oc_run_admission_worker_session_id := oc_run_admission_worker_session_id c;
     oc_external_run_id := oc_external_run_id c; oc_next_after_sequence := oc_next_after_sequence c;
     oc_observation_epoch := oc_observation_epoch c; oc_active_job_id := None;
     oc_active_observation_id := None; oc_state := "ESCALATED"; oc_next_poll_at := oc_next_poll_at c;
     oc_last_snapshot_id := oc_last_snapshot_id c; oc_escalation_id := Some (dp_escalation_id d);
     oc_last_error_digest := Some (dp_failure_digest d);
     oc_aggregate_version := oc_aggregate_version c + 1 |}.

Definition release_dead_pinned_stream (tenant_id : Uuid) (d : DeadPinnedStream)
    (s : ObservationTables) : res ObservationTables :=
  let key := (tenant_id, dp_run_id d) in
  c ← ok_or (c ← ot_streams s !! key;
             if bool_decide (oc_state c = "ACTIVE")
                && bool_decide (oc_active_job_id c = Some (dp_workflow_job_id d))
                && bool_decide (oc_active_observation_id c = Some (dp_observation_id d))
                && (oc_aggregate_version c =? dp_aggregate_version d)
             then Some c else None)
    (Conflict [Lit "Runmill observation stream "; FmtUuid (dp_run_id d);
               Lit " changed before its terminal-failure release"]);
  Ok (set_streams (<[key := released_stream d c]> (ot_streams s)) s).

(** One turn of the loop of [escalate_dead_pinned_streams]. *)
Definition escalate_one (tenant_id : Uuid) (state : ObservationTables * Z) (d : DeadPinnedStream)
  : res (ObservationTables * Z) :=
  let '(s, escalated) := state in
  validate_dead_pinned_stream d ;;
  s ← record_terminal_failure_fact tenant_id d s;
  s ← release_dead_pinned_stream tenant_id d s;
  escalated ← ok_or (checked_add u32_max escalated 1)
    (Persistence [Lit "observation stream recovery count overflowed"]);
  Ok (s, escalated).

Definition escalate_dead_pinned_streams (tenant_id : Uuid) (limit : Z) (sn : Scan)
    (s : ObservationTables) : res (ObservationTables * Z) :=
  try_fold (dead_pinned_streams tenant_id limit sn s) (s, 0) (escalate_one tenant_id).

(** ** Due observations *)

(** A row of [SELECT_DUE_STREAMS_SQL]: the stream and its observer session. *)
Record DueStream := mkDueStream {
  du_run_id : Uuid;
  du_columns : StreamColumns;
  du_observer_session_id : Uuid
}.

Definition due_row (tenant_id : Uuid) (ready_worker_ids : list string) (now : DateTime)
    (s : ObservationTables) (p : (Uuid * Uuid) * StreamColumns) : option DueStream :=
  let '(key, c) := p in
  observer_session_id ← observer_session now key c s;
  if bool_decide (key.1 = tenant_id) && mem (uuid_to_string (oc_worker_id c)) ready_worker_ids
     && bool_decide (oc_state c = "ACTIVE") && is_none (oc_active_job_id c)
     && is_none (oc_active_observation_id c) && (oc_next_poll_at c <=? now)
     && live_authority key c s
  then Some (mkDueStream key.2 c observer_session_id) else None.

(** [ORDER BY stream.next_poll_at, stream.run_id]. *)
Definition due_key (d : DueStream) : Z * N := (oc_next_poll_at (du_columns d), du_run_id d).

Definition due_streams (tenant_id : Uuid) (ready_worker_ids : list string) (limit : Z) (sn : Scan)
    (s : ObservationTables) : list DueStream :=
  scan_streams due_key limit sn
    (λ p, rows_of (due_row tenant_id ready_worker_ids (sn_now sn) s p)) s.

Definition next_observation_epoch (current_epoch : Z) : res Z :=
  ok_or (epoch ← checked_add i64_max current_epoch 1;
         if epoch <=? MAX_RUNMILL_SEQUENCE then Some epoch else None)
    (Conflict [Lit "Runmill observation epoch exceeded the protocol range"]).

Definition observation_key (run_id : Uuid) (epoch after_sequence : Z) : string :=
  "runmill-observation:" +:+ uuid_to_string run_id +:+ ":" +:+ pretty epoch +:+ ":"
  +:+ pretty after_sequence.

Definition observation_payload (d : DueStream) (observation_id : Uuid) (epoch : Z) : Value :=
  let c := du_columns d in
  Object [ ("schema", VString OBSERVATION_PAYLOAD_SCHEMA_V2);
           ("observation_id", uuid_value observation_id); ("run_id", uuid_value (du_run_id d));
           ("work_order_id", uuid_value (oc_work_order_id c));
           ("work_order_digest", VString (oc_work_order_digest c));
           ("worker_id", uuid_value (oc_worker_id c));
           ("worker_session_id", uuid_value (oc_run_admission_worker_session_id c));
           ("worker_generation", Number (pretty (oc_worker_generation c)));
           ("external_run_id", VString (oc_external_run_id c));
           ("after_sequence", Number (pretty (oc_next_after_sequence c)));
           ("observation_epoch", Number (pretty epoch));
           ("observer_session_id", uuid_value (du_observer_session_id d)) ].

Definition observation_job (tenant_id : Uuid) (d : DueStream) (job_id observation_id : Uuid)
    (epoch : Z) (now : DateTime) : NewWorkflowJob :=
  let c := du_columns d in
  {| nj_id := job_id; nj_tenant_id := tenant_id;
     nj_workflow_instance_id := Some (oc_workflow_instance_id c);
     nj_work_item_id := Some (oc_work_item_id c); nj_attempt_id := Some (oc_attempt_id c);
     nj_job_type := OBSERVE_RUNMILL_RUN;
     nj_activity_contract_id := OBSERVE_RUNMILL_RUN_ACTIVITY_CONTRACT_ID;
     nj_payload := observation_payload d observation_id epoch;
     nj_idempotency_key := observation_key (du_run_id d) epoch (oc_next_after_sequence c);
     nj_priority := OBSERVATION_JOB_PRIORITY; nj_available_at := now;
     nj_max_attempts := OBSERVATION_JOB_MAX_ATTEMPTS |}.

(** [INSERT INTO workflow_jobs … ON CONFLICT (tenant_id, idempotency_key) DO NOTHING]. *)
Definition produce_job (context : string) (now : DateTime) (j : NewWorkflowJob)
    (s : ObservationTables) : res (ObservationTables * bool) :=
  match insert_job now j (ot_queue s) with
  | Ok (q, inserted) => Ok (set_ot_queue q s, inserted)
  | _ => Err (Persistence [Lit context])
  end.

Definition checkpoint_row (tenant_id : Uuid) (d : DueStream) (job_id observation_id : Uuid)
    (epoch : Z) : CheckpointRow :=
  {| ck_id := observation_id; ck_tenant_id := tenant_id; ck_run_id := du_run_id d;
     ck_workflow_job_id := job_id; ck_after_sequence := oc_next_after_sequence (du_columns d);
     ck_observation_epoch := epoch; ck_observer_session_id := du_observer_session_id d;
     ck_worker_id := oc_worker_id (du_columns d);
     ck_worker_generation := oc_worker_generation (du_columns d) |}.

(** The keys of the table. *)
Definition insert_checkpoint (k : CheckpointRow) (s : ObservationTables) : res ObservationTables :=
  bail_if (existsb (λ x, bool_decide (ck_id x = ck_id k)
             || bool_decide (ck_tenant_id x = ck_tenant_id k)
                && (bool_decide (ck_workflow_job_id x = ck_workflow_job_id k)
                    || bool_decide (ck_run_id x = ck_run_id k)
                       && (ck_observation_epoch x =? ck_observation_epoch k))) (ot_checkpoints s))
    (Persistence [Lit "insert Runmill observation checkpoint"]) ;;
  Ok (set_checkpoints (ot_checkpoints s ++ [k]) s).

(** The assignments of the last statement. *)
Definition scheduled_stream (job_id observation_id : Uuid) (epoch : Z) (c : StreamColumns)
  : StreamColumns :=
  {| oc_workflow_instance_id := oc_workflow_instance_id c; oc_work_item_id := oc_work_item_id c;
     oc_attempt_id := oc_attempt_id c; oc_work_order_id := oc_work_order_id c;
     oc_work_order_digest := oc_work_order_digest c; oc_worker_id := oc_worker_id c;
     oc_worker_generation := oc_worker_generation c;
     oc_run_admission_worker_session_id := oc_run_admission_worker_session_id c;
     oc_external_run_id := oc_external_run_id c; oc_next_after_sequence := oc_next_after_sequence c;
     oc_observation_epoch := epoch; oc_active_job_id := Some job_id;
     oc_active_observation_id := Some observation_id; oc_state := oc_state c;
     oc_next_poll_at := oc_next_poll_at c; oc_last_snapshot_id := oc_last_snapshot_id c;
     oc_escalation_id := oc_escalation_id c; oc_last_error_digest := oc_last_error_digest c;
     oc_aggregate_version := oc_aggregate_version c + 1 |}.

Definition install_observation (tenant_id : Uuid) (d : DueStream) (job_id observation_id : Uuid)
    (epoch : Z) (s : ObservationTables) : res ObservationTables :=
  let key := (tenant_id, du_run_id d) in
  c ← ok_or (c ← ot_streams s !! key;
             if (oc_aggregate_version c =? oc_aggregate_version (du_columns d))
                && bool_decide (oc_state c = "ACTIVE") && is_none (oc_active_job_id c)
                && is_none (oc_active_observation_id c)
                && (oc_next_after_sequence c =? oc_next_after_sequence (du_columns d))
                && (oc_observation_epoch c =? oc_observation_epoch (du_columns d))
             then Some c else None)
    (Conflict [Lit "Runmill observation stream "; FmtUuid (du_run_id d);
               Lit " changed before its job was installed"]);
  bail_if (existsb (λ p, bool_decide (p.1.1 = tenant_id)
             && negb (bool_decide (p.1 = key))
             && (bool_decide (oc_active_job_id p.2 = Some job_id)
                 || bool_decide (oc_active_observation_id p.2 = Some observation_id)))
             (map_to_list (ot_streams s)))
    (Persistence [Lit "install active Runmill observation job"]) ;;
  Ok (set_streams (<[key := scheduled_stream job_id observation_id epoch c]> (ot_streams s)) s).

(** The identifiers of a job and its observation, and the clock of the insertion. *)
Record MintedObservation := mkMintedObservation {
  mo_job_id : Uuid; mo_observation_id : Uuid; mo_inserted_at : DateTime
}.

Definition schedule_stream_job (tenant_id : Uuid) (d : DueStream) (m : MintedObservation)
    (s : ObservationTables) : res ObservationTables :=
  let c := du_columns d in
  epoch ← next_observation_epoch (oc_observation_epoch c);
  '(s, inserted) ← produce_job "insert Runmill observation job" (mo_inserted_at m)
    (observation_job tenant_id d (mo_job_id m) (mo_observation_id m) epoch (mo_inserted_at m)) s;
  bail_if (negb inserted)
    (Conflict [Lit "Runmill observation idempotency key ";
               Disp (observation_key (du_run_id d) epoch (oc_next_after_sequence c));
               Lit " already exists"]) ;;
  s ← insert_checkpoint (checkpoint_row tenant_id d (mo_job_id m) (mo_observation_id m) epoch) s;
  install_observation tenant_id d (mo_job_id m) (mo_observation_id m) epoch s.

Definition schedule_one (tenant_id : Uuid) (mint : Uuid → MintedObservation)
    (state : ObservationTables * Z) (d : DueStream) : res (ObservationTables * Z) :=
  let '(s, jobs_enqueued) := state in
  s ← schedule_stream_job tenant_id d (mint (du_run_id d)) s;
  jobs_enqueued ← ok_or (checked_add u32_max jobs_enqueued 1)
    (Persistence [Lit "observation production count overflowed"]);
  Ok (s, jobs_enqueued).

Record RunmillObservationProductionReport := mkRunmillObservationProductionReport {
  po_dead_jobs_escalated : Z; po_jobs_enqueued : Z
}.

(** [recovery] and [due] are the scans of the two statements. *)
Definition produce_due_runmill_observation_jobs (tenant_id : Uuid) (ready_worker_ids : list string)
    (limit : Z) (recovery due : Scan) (mint : Uuid → MintedObservation) (s : ObservationTables)
  : res (ObservationTables * RunmillObservationProductionReport) :=
  validate_production "Runmill observation" tenant_id limit ;;
  '(s, dead_jobs_escalated) ← escalate_dead_pinned_streams tenant_id limit recovery s;
  '(s, jobs_enqueued) ←
    (if bool_decide (ready_worker_ids = []) then Ok (s, 0)
     else try_fold (due_streams tenant_id ready_worker_ids limit due s) (s, 0)
            (schedule_one tenant_id mint));
  Ok (s, mkRunmillObservationProductionReport dead_jobs_escalated jobs_enqueued).

(** ** Retention of terminal evidence *)

Record TerminalReadyStream := mkTerminalReadyStream {
  ty_run_id : Uuid;
  ty_workflow_instance_id : Uuid;
  ty_work_item_id : Uuid;
  ty_attempt_id : Uuid;
  ty_work_order_id : Uuid;
  ty_work_order_digest : string;
  ty_worker_id : Uuid;
  ty_worker_generation : Z;
  ty_run_admission_worker_session_id : Uuid;
  ty_observer_session_id : Uuid;
  ty_external_run_id : string;
  ty_observation_id : Uuid;
  ty_get_run_snapshot_id : Uuid;
  ty_event_page_snapshot_id : Uuid;
  ty_terminal_phase : string;
  ty_terminal_event_seq : Z
}.

Definition TERMINAL_PHASES : list string :=
  ["COMPLETED"; "CANCELLED"; "FAILED"; "REFUSED"; "QUARANTINED"; "BUDGET_EXHAUSTED"].

(** The conditions that the two snapshots share. *)
Definition exact_snapshot (operation : string) (key : Uuid * Uuid) (c : StreamColumns)
    (observation_id snapshot_id : Uuid) (p : ControlSnapshotRow) : bool :=
  bool_decide (cs_tenant_id p = key.1) && bool_decide (cs_id p = snapshot_id)
  && bool_decide (cs_control_operation p = operation) && bool_decide (cs_run_id p = key.2)
  && bool_decide (cs_work_item_id p = oc_work_item_id c)
  && bool_decide (cs_attempt_id p = oc_attempt_id c)
  && bool_decide (cs_work_order_id p = oc_work_order_id c)
  && bool_decide (cs_work_order_digest p = oc_work_order_digest c)
  && bool_decide (cs_worker_session_id p = oc_run_admission_worker_session_id c)
  && bool_decide (cs_worker_id p = oc_worker_id c)
  && (cs_worker_generation p =? oc_worker_generation c)
  && bool_decide (cs_external_run_id p = oc_external_run_id c)
  && bool_decide (cs_observation_id p = Some observation_id).

Definition terminal_result (key : Uuid * Uuid) (e : ObservationResultRow) : bool :=
  let r := ox_result e in
  bool_decide (re_tenant_id r = key.1) && bool_decide (re_run_id r = key.2)
  && bool_decide (re_disposition r = "TERMINAL_READY") && negb (ox_gap e) && negb (ox_has_more e).

(** [raw_snapshot #>> '{run,state}'] and [#>> '{snapshot,run,state}']. *)
Definition run_state (v : Value) : option string := field "run" v ≫= text_at "state".
Definition page_state (v : Value) : option string := field "snapshot" v ≫= run_state.

(** The columns of a joined row, before they are decoded: the stream, the
    result, the session and the phase. *)
Record TerminalRow := mkTerminalRow {
  ts_run_id : Uuid;
  ts_columns : StreamColumns;
  ts_result : ResultRow;
  ts_observer_session_id : Uuid;
  ts_terminal_phase : string
}.

(** The snapshots are found by their primary key. *)
Definition terminal_row (tenant_id : Uuid) (ready_worker_ids : list string) (now : DateTime)
    (s : ObservationTables) (p : (Uuid * Uuid) * StreamColumns) (e : ObservationResultRow)
  : option TerminalRow :=
  let '(key, c) := p in
  let r := ox_result e in
  get_run ← find (exact_snapshot "GET_RUN" key c (re_observation_id r) (re_get_run_snapshot_id r))
              (ot_snapshots s);
  event_page ← find (exact_snapshot "LIST_RUN_EVENTS" key c (re_observation_id r)
                       (re_event_page_snapshot_id r)) (ot_snapshots s);
  observer_session_id ← observer_session now key c s;
  phase ← run_state (cs_raw_snapshot get_run);
  if bool_decide (key.1 = tenant_id) && mem (uuid_to_string (oc_worker_id c)) ready_worker_ids
     && bool_decide (oc_state c = "TERMINAL_READY") && terminal_result key e
     && (cs_external_latest_sequence event_page =? re_next_sequence r) && live_authority key c s
     && mem phase TERMINAL_PHASES && bool_decide (page_state (cs_raw_snapshot event_page) = Some phase)
     && negb (mem key (ot_bundles s))
  then Some (mkTerminalRow key.2 c r observer_session_id phase) else None.

Definition terminal_ready_rows (tenant_id : Uuid) (ready_worker_ids : list string) (limit : Z)
    (sn : Scan) (s : ObservationTables) : list TerminalRow :=
  scan_streams ts_run_id limit sn
    (λ p, ot_results s ≫= λ e,
       rows_of (terminal_row tenant_id ready_worker_ids (sn_now sn) s p e)) s.

Definition terminal_event_sequence (observed_sequence : Z) : res Z :=
  ok_or (sequence ← checked_add i64_max observed_sequence 1;
         if (1 <=? sequence) && (sequence <=? MAX_RUNMILL_SEQUENCE) then Some sequence else None)
    (Conflict [Lit "Runmill terminal event sequence exceeded the supported protocol range"]).

Definition validate_terminal_ready_stream (t : TerminalReadyStream) : res unit :=
  bail_if
    (existsb is_nil
       [ty_run_id t; ty_workflow_instance_id t; ty_work_item_id t; ty_attempt_id t;
        ty_work_order_id t; ty_worker_id t; ty_run_admission_worker_session_id t;
        ty_observer_session_id t; ty_observation_id t; ty_get_run_snapshot_id t;
        ty_event_page_snapshot_id t]
     || bool_decide (ty_get_run_snapshot_id t = ty_event_page_snapshot_id t)
     || (ty_worker_generation t <=? 0) || blank (ty_external_run_id t)
     || blank (ty_terminal_phase t) || negb (is_sha256_digest (ty_work_order_digest t)))
    (Conflict [Lit "Runmill observation stream "; FmtUuid (ty_run_id t);
               Lit " lacks a provable terminal evidence identity"]).

Definition terminal_candidate (row : TerminalRow) (sequence : Z) : TerminalReadyStream :=
  let c := ts_columns row in
  let r := ts_result row in
  {| ty_run_id := ts_run_id row; ty_workflow_instance_id := oc_workflow_instance_id c;
     ty_work_item_id := oc_work_item_id c; ty_attempt_id := oc_attempt_id c;
     ty_work_order_id := oc_work_order_id c; ty_work_order_digest := oc_work_order_digest c;
     ty_worker_id := oc_worker_id c; ty_worker_generation := oc_worker_generation c;
     ty_run_admission_worker_session_id := oc_run_admission_worker_session_id c;
     ty_observer_session_id := ts_observer_session_id row;
     ty_external_run_id := oc_external_run_id c; ty_observation_id := re_observation_id r;
     ty_get_run_snapshot_id := re_get_run_snapshot_id r;
     ty_event_page_snapshot_id := re_event_page_snapshot_id r;
     ty_terminal_phase := ts_terminal_phase row; ty_terminal_event_seq := sequence |}.

Definition terminal_ready_stream (row : TerminalRow) : res TerminalReadyStream :=
  sequence ← terminal_event_sequence (re_next_sequence (ts_result row));
  let t := terminal_candidate row sequence in
  validate_terminal_ready_stream t ;; Ok t.

Definition terminal_evidence_idempotency_key (run_id observation_id : Uuid) : string :=
  "runmill-terminal-evidence:" +:+ uuid_to_string run_id +:+ ":" +:+ uuid_to_string observation_id.

Definition retention_payload (t : TerminalReadyStream) (bundle_id : Uuid) : Value :=
  Object [ ("schema", VString TERMINAL_EVIDENCE_PAYLOAD_SCHEMA_V1);
           ("bundle_id", uuid_value bundle_id); ("run_id", uuid_value (ty_run_id t));
           ("work_order_id", uuid_value (ty_work_order_id t));
           ("work_order_digest", VString (ty_work_order_digest t));
           ("worker_id", uuid_value (ty_worker_id t));
           ("worker_session_id", uuid_value (ty_run_admission_worker_session_id t));
           ("worker_generation", Number (pretty (ty_worker_generation t)));
           ("observer_session_id", uuid_value (ty_observer_session_id t));
           ("external_run_id", VString (ty_external_run_id t));
           ("observation_id", uuid_value (ty_observation_id t));
           ("get_run_snapshot_id", uuid_value (ty_get_run_snapshot_id t));
           ("event_page_snapshot_id", uuid_value (ty_event_page_snapshot_id t));
           ("terminal_phase", VString (ty_terminal_phase t));
           ("terminal_event_seq", Number (pretty (ty_terminal_event_seq t))) ].

(** The identifiers of a job and its bundle, and the clock of the insertion. *)
Record MintedRetention := mkMintedRetention {
  mr_job_id : Uuid; mr_bundle_id : Uuid; mr_inserted_at : DateTime
}.

Definition retention_job (tenant_id : Uuid) (t : TerminalReadyStream) (m : MintedRetention)
  : NewWorkflowJob :=
  {| nj_id := mr_job_id m; nj_tenant_id := tenant_id;
     nj_workflow_instance_id := Some (ty_workflow_instance_id t);
     nj_work_item_id := Some (ty_work_item_id t); nj_attempt_id := Some (ty_attempt_id t);
     nj_job_type := RETAIN_RUNMILL_TERMINAL_EVIDENCE;
     nj_activity_contract_id := RETAIN_RUNMILL_TERMINAL_EVIDENCE_ACTIVITY_CONTRACT_ID;
     nj_payload := retention_payload t (mr_bundle_id m);
     nj_idempotency_key := terminal_evidence_idempotency_key (ty_run_id t) (ty_observation_id t);
     nj_priority := TERMINAL_EVIDENCE_JOB_PRIORITY; nj_available_at := mr_inserted_at m;
     nj_max_attempts := TERMINAL_EVIDENCE_JOB_MAX_ATTEMPTS |}.

Definition schedule_terminal_evidence_job (tenant_id : Uuid) (t : TerminalReadyStream)
    (m : MintedRetention) (s : ObservationTables) : res (ObservationTables * bool) :=
  produce_job "insert Runmill terminal evidence job" (mr_inserted_at m) (retention_job tenant_id t m) s.

Definition retain_one (tenant_id : Uuid) (mint : Uuid → MintedRetention)
    (state : ObservationTables * Z) (row : TerminalRow) : res (ObservationTables * Z) :=
  let '(s, jobs_enqueued) := state in
  t ← terminal_ready_stream row;
  '(s, inserted) ← schedule_terminal_evidence_job tenant_id t (mint (ty_observation_id t)) s;
  if inserted : bool then
    jobs_enqueued ← ok_or (checked_add u32_max jobs_enqueued 1)
      (Persistence [Lit "terminal evidence production count overflowed"]);
    Ok (s, jobs_enqueued)
  else Ok (s, jobs_enqueued).

(** The report is the number of jobs. *)
Definition produce_due_runmill_terminal_evidence_jobs (tenant_id : Uuid)
    (ready_worker_ids : list string) (limit : Z) (sn : Scan) (mint : Uuid → MintedRetention)
    (s : ObservationTables) : res (ObservationTables * Z) :=
  validate_production "Runmill terminal evidence" tenant_id limit ;;
  if bool_decide (ready_worker_ids = []) then Ok (s, 0)
  else try_fold (terminal_ready_rows tenant_id ready_worker_ids limit sn s) (s, 0)
         (retain_one tenant_id mint).
End producers.
