(* ===== verification/ProducerFacts.v ===== *)
(** What the producers of Runmill jobs guarantee ([Producers]): a stream moves by
    one step of its protocol, every job is on the route of a ready handler, and
    the retention of terminal evidence can be starved. *)

From Stdlib Require Import ZArith Lia Ascii.
From stdpp Require Import base tactics option strings pretty numbers list gmap.
From S2P Require Import Prelude RustStr RustOrd Ids Crypto Security RunEvents Outcome JobQueue JobQueueFacts RunmillOrder Steps StepFacts ReservationFacts DeadLetter DeadLetterFacts Handlers HandlerFacts ReactorClaims Reactor ReactorFacts Producers.

(** A [jsonb] column keeps the type of a value and the keys of an object. *)
Class StoredShape `{PgColumns} := {
  stored_typeof v : jsonb_typeof (stored_value v) = jsonb_typeof v;
  stored_only_keys keys v : only_keys keys (stored_value v) = only_keys keys v
}.

Section facts.
  Context {pg : PgColumns} {jsonb : Jsonb} {uuids : UuidText} {jsonb_texts : JsonbText}.
  Implicit Types (s : ObservationTables) (c : StreamColumns) (sn : Scan).

(** ** Scans *)

Lemma elem_of_rows_of {A} (a : A) o : a ∈ rows_of o ↔ o = Some a.
Proof. destruct o; simpl; set_solver. Qed.

Lemma elem_of_scan {A K} `{Ord K} (key : A → K) limit sn rows s (a : A) :
  a ∈ scan_streams key limit sn rows s →
  ∃ k c, ot_streams s !! k = Some c ∧ sn_locked sn k = false ∧ a ∈ rows (k, c).
Proof.
  unfold scan_streams. intros (i & Hi & _)%elem_of_take. apply list_elem_of_lookup_2 in Hi.
  rewrite elem_of_sort_by_key, list_elem_of_bind in Hi. destruct Hi as ([k c] & Ha & Hk).
  rewrite elem_of_filter_bool, elem_of_map_to_list in Hk. destruct Hk as [Hk Hl%negb_true_iff].
  exists k, c. done.
Qed.

(** ** Steps of a stream *)

(** What authorizes an observation of a stream, at an instant. *)
Record observable (tenant_id : Uuid) (ready : list string) (now : DateTime) s (run : Uuid) c
    (session : Uuid) : Prop := {
  ob_stream : ot_streams s !! (tenant_id, run) = Some c;
  ob_state : oc_state c = "ACTIVE";
  ob_idle : oc_active_job_id c = None ∧ oc_active_observation_id c = None;
  ob_due : oc_next_poll_at c ≤ now;
  ob_worker : uuid_to_string (oc_worker_id c) ∈ ready;
  ob_authority : live_authority (tenant_id, run) c s = true;
  ob_session : observer_session now (tenant_id, run) c s = Some session
}.

Lemma elem_of_due_streams tenant_id ready limit sn s d : d ∈ due_streams tenant_id ready limit sn s →
  observable tenant_id ready (sn_now sn) s (du_run_id d) (du_columns d) (du_observer_session_id d).
Proof.
  intros ([t run] & c & Hs & _ & Hr%elem_of_rows_of)%elem_of_scan. unfold due_row in Hr.
  apply bind_Some in Hr as (session & Hw & Hr). case_match eqn:G; [|done]. injection Hr as <-.
  simpl in *. rewrite !andb_true_iff, mem_true in G. crush.
Qed.

Lemma next_epoch_ok n e : next_observation_epoch n = Ok e ↔ e = n + 1 ∧ n < MAX_RUNMILL_SEQUENCE.
Proof.
  unfold next_observation_epoch. rewrite ok_or_ok. unfold checked_add, i64_max, MAX_RUNMILL_SEQUENCE.
  split.
  - destruct (_ <=? _) eqn:E; simpl; [|done]. case_match eqn:E'; [|done]. intros [= <-]. lia.
  - intros [-> Hn]. rewrite (proj2 (Z.leb_le _ _)) by lia. simpl.
    by rewrite (proj2 (Z.leb_le _ _)) by lia.
Qed.

(** The tables that a producer does not write. *)
Record same_context s s' : Prop := {
  sc_reactor : ot_reactor s' = set_rx_queue (ot_queue s') (ot_reactor s);
  sc_runs : ot_runs s' = ot_runs s;
  sc_orders : ot_work_orders s' = ot_work_orders s;
  sc_attempts : ot_attempts s' = ot_attempts s;
  sc_acceptances : ot_acceptances s' = ot_acceptances s;
  sc_workers : ot_workers s' = ot_workers s;
  sc_sessions : ot_sessions s' = ot_sessions s;
  sc_results : ot_results s' = ot_results s;
  sc_bindings : ot_gap_bindings s' = ot_gap_bindings s;
  sc_snapshots : ot_snapshots s' = ot_snapshots s;
  sc_bundles : ot_bundles s' = ot_bundles s
}.

Lemma set_same_queue (r : ReactorTables) : set_rx_queue (rx_queue r) r = r.
Proof. by destruct r as [[[] ? ?] ? ? ?]. Qed.

Lemma same_context_refl s : same_context s s.
Proof. split; try done. unfold ot_queue. by rewrite set_same_queue. Qed.

Lemma same_context_trans s1 s2 s3 : same_context s1 s2 → same_context s2 s3 → same_context s1 s3.
Proof.
  intros [A1] [B1]. split; try congruence. rewrite B1 at 1. rewrite A1. done.
Qed.

(** An observation was scheduled for a due stream. *)
Record scheduled (tenant_id : Uuid) (d : DueStream) (m : MintedObservation) s : Prop := {
  sd_stream : ot_streams s !! (tenant_id, du_run_id d) =
    Some (scheduled_stream (mo_job_id m) (mo_observation_id m)
            (oc_observation_epoch (du_columns d) + 1) (du_columns d));
  sd_epoch : oc_observation_epoch (du_columns d) < MAX_RUNMILL_SEQUENCE;
  sd_checkpoint : checkpoint_row tenant_id d (mo_job_id m) (mo_observation_id m)
    (oc_observation_epoch (du_columns d) + 1) ∈ ot_checkpoints s;
  sd_job : q_jobs (ot_queue s) !! mo_job_id m =
    Some (new_row (mo_inserted_at m) (observation_job tenant_id d (mo_job_id m) (mo_observation_id m)
            (oc_observation_epoch (du_columns d) + 1) (mo_inserted_at m)))
}.

Lemma produce_job_ok context now j s s' inserted : produce_job context now j s = Ok (s', inserted) →
  (inserted = false ∧ s' = set_ot_queue (ot_queue s) s) ∨
  (inserted = true ∧ row_by_key (nj_tenant_id j) (nj_idempotency_key j) (ot_queue s) = None ∧
   q_jobs (ot_queue s) !! nj_id j = None ∧
   s' = set_ot_queue (mkQueue (<[nj_id j := new_row now j]> (q_jobs (ot_queue s)))
                        (q_effects (ot_queue s))) s).
Proof.
  unfold produce_job. destruct (insert_job _ _ _) as [[q b]| |] eqn:E; [|done..].
  intros [= <- <-]. apply insert_job_ok in E as [[-> ->]|(-> & ? & ? & ->)]; auto 6.
Qed.

(** What one turn of the loop writes. *)
Record schedules (tenant_id : Uuid) (d : DueStream) (m : MintedObservation) s s' : Prop := {
  sw_context : same_context s s';
  sw_facts : ot_failure_facts s' = ot_failure_facts s;
  sw_was c : ot_streams s !! (tenant_id, du_run_id d) = Some c →
    oc_active_job_id c = None ∧ oc_aggregate_version c = oc_aggregate_version (du_columns d);
  sw_now c : ot_streams s !! (tenant_id, du_run_id d) = Some c →
    ot_streams s' = <[(tenant_id, du_run_id d) := scheduled_stream (mo_job_id m) (mo_observation_id m)
      (oc_observation_epoch (du_columns d) + 1) c]> (ot_streams s);
  sw_found : is_Some (ot_streams s !! (tenant_id, du_run_id d));
  sw_epoch : oc_observation_epoch (du_columns d) < MAX_RUNMILL_SEQUENCE;
  sw_checkpoints : ot_checkpoints s' = ot_checkpoints s ++
    [checkpoint_row tenant_id d (mo_job_id m) (mo_observation_id m)
       (oc_observation_epoch (du_columns d) + 1)];
  sw_fresh : q_jobs (ot_queue s) !! mo_job_id m = None;
  sw_jobs : q_jobs (ot_queue s') = <[mo_job_id m := new_row (mo_inserted_at m)
      (observation_job tenant_id d (mo_job_id m) (mo_observation_id m)
         (oc_observation_epoch (du_columns d) + 1) (mo_inserted_at m))]> (q_jobs (ot_queue s))
}.

Lemma schedule_stream_job_ok tenant_id d m s s' : schedule_stream_job tenant_id d m s = Ok s' →
  schedules tenant_id d m s s'.
Proof.
  unfold schedule_stream_job. rewrite bind_ok. intros (e & [-> He]%next_epoch_ok & H).
  apply bind_ok in H as ([s1 b] & [[-> ->]|(-> & _ & Hf & ->)]%produce_job_ok & H);
    apply bind_unit_ok in H as [Hb H]; [done|]. clear Hb.
  apply bind_ok in H as (s2 & H2 & H). unfold insert_checkpoint in H2.
  apply bind_unit_ok in H2 as [_ [= <-]]. unfold install_observation in H.
  apply bind_ok in H as (c & H3 & H). apply ok_or_ok, bind_Some in H3 as (c' & Hc & H3).
  case_match eqn:G; [|done]. injection H3 as ->. apply bind_unit_ok in H as [_ [= <-]].
  cbn in Hc. crush. split; try done; cbn; naive_solver.
Qed.

(** The loop, from the tables of its scan. *)
Record progress (tenant_id : Uuid) (mint : Uuid → MintedObservation) (l : list DueStream) s0 s
  : Prop := {
  pg_context : same_context s0 s;
  pg_facts : ot_failure_facts s = ot_failure_facts s0;
  pg_streams key : ot_streams s !! key = ot_streams s0 !! key ∨
    ∃ d, d ∈ l ∧ key = (tenant_id, du_run_id d) ∧ scheduled tenant_id d (mint (du_run_id d)) s;
  pg_jobs id : q_jobs (ot_queue s) !! id = q_jobs (ot_queue s0) !! id ∨
    ∃ d, d ∈ l ∧ id = mo_job_id (mint (du_run_id d)) ∧ q_jobs (ot_queue s0) !! id = None ∧
      scheduled tenant_id d (mint (du_run_id d)) s
}.

Lemma schedules_scheduled tenant_id d m s s' :
  ot_streams s !! (tenant_id, du_run_id d) = Some (du_columns d) →
  schedules tenant_id d m s s' → scheduled tenant_id d m s'.
Proof.
  intros Hc [? _ Hw Hn _ He Hk Hf Hj]. split; [|done|..].
  - rewrite (Hn _ Hc). apply lookup_insert_eq.
  - rewrite Hk. set_solver.
  - rewrite Hj. apply lookup_insert_eq.
Qed.

Lemma scheduled_kept tenant_id d m d' m' s s' :
  schedules tenant_id d m s s' → scheduled tenant_id d' m' s → scheduled tenant_id d' m' s'.
Proof.
  intros [? _ Hw Hn [c Hc] _ Hk Hf Hj] [Hs He Hc' Hj']. split; [|done|..].
  - rewrite (Hn _ Hc). rewrite lookup_insert_ne; [done|]. intros E.
    rewrite E, Hs in Hc. injection Hc as <-. rewrite E in Hw. apply Hw in Hs as [Hs _]. done.
  - rewrite Hk. set_solver.
  - rewrite Hj, lookup_insert_ne; congruence.
Qed.

Lemma progress_step tenant_id mint l s0 s s' d : d ∈ l →
  ot_streams s0 !! (tenant_id, du_run_id d) = Some (du_columns d) →
  schedules tenant_id d (mint (du_run_id d)) s s' →
  progress tenant_id mint l s0 s → progress tenant_id mint l s0 s'.
Proof.
  intros Hd Hs0 Hw [Hx Hf Hs Hj].
  assert (ot_streams s !! (tenant_id, du_run_id d) = Some (du_columns d)) as Hc.
  { destruct (Hs (tenant_id, du_run_id d)) as [->|(d' & _ & [= E] & [Hd' _ _ _])]; [done|].
    rewrite <- E in Hd'. apply (sw_was _ _ _ _ _ Hw) in Hd' as [? _]. done. }
  pose proof (schedules_scheduled _ _ _ _ _ Hc Hw) as Hnew.
  pose proof (λ d' m', scheduled_kept _ _ _ d' m' _ _ Hw) as Hold.
  split.
  - eapply same_context_trans; [done|apply Hw].
  - rewrite <- Hf. apply Hw.
  - intros key. destruct (decide (key = (tenant_id, du_run_id d))) as [->|Hne]; [naive_solver|].
    rewrite (sw_now _ _ _ _ _ Hw _ Hc), lookup_insert_ne by done. naive_solver.
  - intros id. rewrite (sw_jobs _ _ _ _ _ Hw).
    destruct (decide (id = mo_job_id (mint (du_run_id d)))) as [->|Hne].
    + right. exists d. split_and!; [done..| |done].
      destruct (Hj (mo_job_id (mint (du_run_id d)))) as [<-|(? & _ & _ & ? & _)]; [|done].
      apply (sw_fresh _ _ _ _ _ Hw).
    + rewrite lookup_insert_ne by done. naive_solver.
Qed.

Lemma scheduling_progress tenant_id ready limit sn mint s0 n s' n' :
  try_fold (due_streams tenant_id ready limit sn s0) (s0, n) (schedule_one tenant_id mint) = Ok (s', n') →
  progress tenant_id mint (due_streams tenant_id ready limit sn s0) s0 s'.
Proof.
  intros H. refine (try_fold_rel _ (λ a b, progress _ _ _ s0 a.1 → progress _ _ _ s0 b.1) _ _ _ _ _ _ H _);
    [by auto..| |split; [apply same_context_refl|done|auto|auto]].
  intros [s n1] d [s1 n2] Hd H1. apply bind_ok in H1 as (s2 & H2 & H1).
  apply bind_ok in H1 as (? & _ & [= -> _]). apply progress_step with (d := d); [done|..].
  - by apply elem_of_due_streams in Hd as [].
  - by apply schedule_stream_job_ok.
Qed.

(** *** Releases *)

Record releases (tenant_id : Uuid) (d : DeadPinnedStream) s s' : Prop := {
  rl_context : same_context s s';
  rl_queue : ot_queue s' = ot_queue s;
  rl_checkpoints : ot_checkpoints s' = ot_checkpoints s;
  rl_found : is_Some (ot_streams s !! (tenant_id, dp_run_id d));
  rl_was c : ot_streams s !! (tenant_id, dp_run_id d) = Some c → oc_state c = "ACTIVE";
  rl_now c : ot_streams s !! (tenant_id, dp_run_id d) = Some c →
    ot_streams s' = <[(tenant_id, dp_run_id d) := released_stream d c]> (ot_streams s);
  rl_fact : failure_fact tenant_id d ∈ ot_failure_facts s';
  rl_facts f : f ∈ ot_failure_facts s → f ∈ ot_failure_facts s'
}.

Lemma same_fact_eq a b : ff_tenant_id a = ff_tenant_id b → same_fact a b = true → a = b.
Proof. destruct a, b. unfold same_fact. simpl. intros -> ?. crush. Qed.

Lemma record_fact_ok tenant_id d s s' : record_terminal_failure_fact tenant_id d s = Ok s' →
  ∃ l, s' = set_failure_facts l s ∧ failure_fact tenant_id d ∈ l ∧
    ∀ f, f ∈ ot_failure_facts s → f ∈ l.
Proof.
  unfold record_terminal_failure_fact. intros (s1 & H1 & H)%bind_ok.
  apply bind_unit_ok in H as [Hf [= <-]]. apply bail_if_ok, negb_false_iff in Hf.
  assert (∃ l, s1 = set_failure_facts l s ∧ ∀ f, f ∈ ot_failure_facts s → f ∈ l) as (l & -> & Hl).
  { case_match; [injection H1 as <-; exists (ot_failure_facts s); by destruct s|].
    apply bind_unit_ok in H1 as [_ [= <-]]. eexists. split; [done|]. set_solver. }
  exists l. split_and!; [done| |done]. cbn in Hf.
  destruct (find _ l) as [f|] eqn:E; [|done]. apply find_some in E as [Hin%list_elem_of_In Hk].
  unfold fact_of in Hk. simpl in Hf. apply same_fact_eq in Hf; [by subst f|]. simpl. crush.
Qed.

Lemma escalate_one_ok tenant_id d s n s' n' : escalate_one tenant_id (s, n) d = Ok (s', n') →
  releases tenant_id d s s'.
Proof.
  unfold escalate_one. rewrite bind_unit_ok. intros [_ H].
  apply bind_ok in H as (s1 & (l & -> & Hf & Hl)%record_fact_ok & H).
  apply bind_ok in H as (s2 & H2 & H). apply bind_ok in H as (? & _ & [= -> _]).
  unfold release_dead_pinned_stream in H2. apply bind_ok in H2 as (c & H2 & [= <-]).
  apply ok_or_ok, bind_Some in H2 as (c' & Hc & H2). case_match eqn:G; [|done]. injection H2 as ->.
  cbn in Hc. crush. split; cbn; try done; [|naive_solver..].
  split; try done. unfold ot_queue. cbn. by rewrite set_same_queue.
Qed.

(** The loop of the recovery. *)
Record recovery_progress (tenant_id : Uuid) (l : list DeadPinnedStream) s0 s : Prop := {
  rp_context : same_context s0 s;
  rp_queue : ot_queue s = ot_queue s0;
  rp_checkpoints : ot_checkpoints s = ot_checkpoints s0;
  rp_streams key : ot_streams s !! key = ot_streams s0 !! key ∨
    ∃ d c, d ∈ l ∧ key = (tenant_id, dp_run_id d) ∧ ot_streams s0 !! key = Some c ∧
      ot_streams s !! key = Some (released_stream d c) ∧
      failure_fact tenant_id d ∈ ot_failure_facts s
}.

Lemma recovery_step tenant_id l s0 s s' d : d ∈ l → releases tenant_id d s s' →
  recovery_progress tenant_id l s0 s → recovery_progress tenant_id l s0 s'.
Proof.
  intros Hd [Hx Hq Hk [c Hc] Hw Hn Hf Hfs] [Hx0 Hq0 Hk0 Hs]. apply Hw in Hc as Ha.
  split; [by eapply same_context_trans|congruence..|]. intros key. rewrite (Hn _ Hc).
  destruct (decide (key = (tenant_id, dp_run_id d))) as [->|Hne].
  - rewrite lookup_insert_eq. destruct (Hs (tenant_id, dp_run_id d)) as [E|(? & ? & _ & _ & _ & E & _)].
    + right. exists d, c. split_and!; [done..| |done|done]. congruence.
    + rewrite E in Hc. by injection Hc as <-.
  - rewrite lookup_insert_ne by done. naive_solver.
Qed.

Lemma recovery_ok tenant_id limit sn s s' n : escalate_dead_pinned_streams tenant_id limit sn s = Ok (s', n) →
  recovery_progress tenant_id (dead_pinned_streams tenant_id limit sn s) s s'.
Proof.
  unfold escalate_dead_pinned_streams. intros H.
  refine (try_fold_rel _ (λ a b, recovery_progress _ _ s a.1 → recovery_progress _ _ s b.1) _ _ _ _ _ _ H _);
    [by auto..| |split; [apply same_context_refl|auto..]].
  intros [s1 n1] d [s2 n2] Hd H1%escalate_one_ok. by eapply recovery_step.
Qed.

Lemma elem_of_dead_pinned tenant_id limit sn s d : d ∈ dead_pinned_streams tenant_id limit sn s →
  ∃ c, ot_streams s !! (tenant_id, dp_run_id d) = Some c ∧
    dead_pinned_row tenant_id s ((tenant_id, dp_run_id d), c) = Some d.
Proof.
  intros ([t run] & c & Hs & _ & Hr%elem_of_rows_of)%elem_of_scan. exists c.
  assert (t = tenant_id ∧ dp_run_id d = run) as [-> ->]; [|done].
  unfold dead_pinned_row in Hr. repeat (apply bind_Some in Hr as (? & ? & Hr)).
  case_match eqn:G; [|done]. injection Hr as <-. rewrite !andb_true_iff in G. crush.
Qed.

Lemma context_authority s s' key c : same_context s s' →
  live_authority key c s' = live_authority key c s.
Proof.
  intros []. unfold live_authority, accepted_work, live_workflow.
  rewrite sc_reactor0, sc_runs0, sc_orders0, sc_attempts0, sc_acceptances0, sc_workers0. done.
Qed.

Lemma context_session s s' now key c : same_context s s' →
  observer_session now key c s' = observer_session now key c s.
Proof. intros []. unfold observer_session. by rewrite sc_sessions0. Qed.

(** The protocol of a stream in one pass: it is left alone, an observation is
    scheduled for it, or it is released from a dead observer. *)
Inductive stream_step (tenant_id : Uuid) (ready : list string) (now : DateTime) s s' (run : Uuid)
  : StreamColumns → StreamColumns → Prop :=
| step_kept c : stream_step tenant_id ready now s s' run c c
| step_scheduled c session m :
    observable tenant_id ready now s run c session →
    scheduled tenant_id (mkDueStream run c session) m s' →
    stream_step tenant_id ready now s s' run c
      (scheduled_stream (mo_job_id m) (mo_observation_id m) (oc_observation_epoch c + 1) c)
| step_released c d :
    dead_pinned_row tenant_id s ((tenant_id, run), c) = Some d →
    failure_fact tenant_id d ∈ ot_failure_facts s' →
    stream_step tenant_id ready now s s' run c (released_stream d c).

(** The columns that no producer changes. *)
Definition cursor_and_authority (c : StreamColumns) :=
  (oc_workflow_instance_id c, oc_work_item_id c, oc_attempt_id c, oc_work_order_id c,
   oc_work_order_digest c, oc_worker_id c, oc_worker_generation c,
   oc_run_admission_worker_session_id c, oc_external_run_id c, oc_next_after_sequence c,
   oc_last_snapshot_id c).

(** The parts of a pass. *)
Record pass_progress (tenant_id : Uuid) (ready : list string) (now : DateTime)
    (mint : Uuid → MintedObservation) s s' : Prop := {
  pp_streams key : ot_streams s' !! key = ot_streams s !! key ∨
    ∃ c c', key.1 = tenant_id ∧ ot_streams s !! key = Some c ∧ ot_streams s' !! key = Some c' ∧
      stream_step tenant_id ready now s s' key.2 c c';
  pp_context : same_context s s';
  pp_jobs id : q_jobs (ot_queue s') !! id = q_jobs (ot_queue s) !! id ∨
    ∃ run c session m, observable tenant_id ready now s run c session ∧ id = mo_job_id m ∧
      q_jobs (ot_queue s) !! id = None ∧ scheduled tenant_id (mkDueStream run c session) m s'
}.

Lemma observable_before tenant_id ready now s s1 l run c session :
  recovery_progress tenant_id l s s1 → observable tenant_id ready now s1 run c session →
  observable tenant_id ready now s run c session.
Proof.
  intros [Hx _ _ Hs] [Hc Ha Hi Hd Hw Hl Ho]. split; try done.
  - destruct (Hs (tenant_id, run)) as [<-|(? & ? & _ & _ & _ & E & _)]; [done|].
    rewrite E in Hc. by injection Hc as <-.
  - by rewrite <- (context_authority _ _ _ _ Hx).
  - by rewrite <- (context_session _ _ _ _ _ Hx).
Qed.

Lemma production_progress tenant_id ready limit recovery due mint s s' report :
  produce_due_runmill_observation_jobs tenant_id ready limit recovery due mint s = Ok (s', report) →
  pass_progress tenant_id ready (sn_now due) mint s s'.
Proof.
  unfold produce_due_runmill_observation_jobs. rewrite bind_unit_ok. intros [_ H].
  apply bind_ok in H as ([s1 n] & Hr & H). apply bind_ok in H as ([s2 k] & Hd & [= -> _]).
  pose proof (recovery_ok _ _ _ _ _ _ Hr) as Hp. pose proof Hp as [Hx Hq Hk Hs].
  assert (∃ l, (∀ d, d ∈ l → observable tenant_id ready (sn_now due) s (du_run_id d) (du_columns d)
      (du_observer_session_id d)) ∧ progress tenant_id mint l s1 s') as (l & Hl & [Hx' Hf' Hs' Hj']).
  { destruct (bool_decide (ready = [])).
    - injection Hd as -> _. exists []. split; [set_solver|].
      split; [apply same_context_refl|done|auto|auto].
    - apply scheduling_progress in Hd. eexists. split; [|done]. intros d H%elem_of_due_streams.
      by eapply observable_before. }
  assert (same_context s s') as Hxx by (by eapply same_context_trans).
  split; [|done|].
  - intros key. destruct (Hs' key) as [->|(d & [] %Hl & -> & Hsd)].
    + destruct (Hs key) as [->|(d & c & Hd' & -> & Hc & Hc' & Hfact)]; [by left|]. right.
      apply elem_of_dead_pinned in Hd' as (c' & Hc'' & Hrow). simplify_eq/=.
      exists c', (released_stream d c'). split_and!; [done..|]. apply step_released; [done|].
      by rewrite Hf'.
    + right. exists (du_columns d). eexists. split_and!; [done..|by apply Hsd|]. simpl.
      eapply (step_scheduled _ _ _ _ _ _ _ (du_observer_session_id d)); [by split|by destruct d].
  - intros id. rewrite <- Hq. destruct (Hj' id) as [->|(d & Hd'%Hl & -> & Hn & Hsd)]; [by left|]. right.
    exists (du_run_id d), (du_columns d), (du_observer_session_id d), (mint (du_run_id d)).
    by destruct d.
Qed.

(** C18. A pass of the observation producer moves every stream of the tenant by at
    most one step of its protocol, and touches no other tenant.  An observation
    is scheduled only for an idle, due and active stream with live authority and
    a live observer session, at the next epoch and under one fresh job and one
    checkpoint; a stream is released only when its own observer job is dead and
    owned by an open escalation with nothing retained, and then the failure is on
    record.  The cursor, the snapshot and the authority of a stream never change,
    a stream that is not active never moves, and the epoch stays within the safe
    integers. *)
Theorem streams_follow_protocol tenant_id ready limit recovery due mint s s' report key c :
  produce_due_runmill_observation_jobs tenant_id ready limit recovery due mint s = Ok (s', report) →
  ot_streams s !! key = Some c →
  ∃ c', ot_streams s' !! key = Some c' ∧ stream_step tenant_id ready (sn_now due) s s' key.2 c c' ∧
    cursor_and_authority c' = cursor_and_authority c ∧
    (key.1 ≠ tenant_id ∨ oc_state c ≠ "ACTIVE" → c' = c) ∧
    (oc_observation_epoch c' = oc_observation_epoch c ∨
     oc_observation_epoch c' = oc_observation_epoch c + 1 ∧
     oc_observation_epoch c' ≤ MAX_RUNMILL_SEQUENCE ∧
     is_Some (oc_active_job_id c')).
Proof.
  intros [Hs _ _]%production_progress Hc. destruct (Hs key) as [E|(c1 & c' & Ht & E & E' & Hstep)].
  - exists c. rewrite E. split_and!; [done|constructor|done|done|by left].
  - assert (c1 = c) as -> by congruence. exists c'. split_and!; [done..| | |].
    + by destruct Hstep.
    + destruct Hstep as [c|c session m [] _|c d Hr _]; [done|simpl in *; intros [?|?]; congruence|].
      intros Hn. exfalso.
      unfold dead_pinned_row in Hr. repeat (apply bind_Some in Hr as (? & ? & Hr)).
      case_match eqn:G; [|done]. rewrite !andb_true_iff in G. destruct Hn; crush.
    + destruct Hstep as [c|c session m _ []|c d Hr _]; [by left| |by left]. right. simpl in *.
      split_and!; [done|lia|by eexists].
Qed.

(** ** Creation *)

(** Any number of passes, of any tenant and either producer. *)
Inductive production_pass : relation ObservationTables :=
| observation_pass tenant_id ready limit recovery due mint s s' report :
    produce_due_runmill_observation_jobs tenant_id ready limit recovery due mint s = Ok (s', report) →
    production_pass s s'
| retention_pass tenant_id ready limit sn mint s s' n :
    produce_due_runmill_terminal_evidence_jobs tenant_id ready limit sn mint s = Ok (s', n) →
    production_pass s s'.

Lemma retain_one_streams tenant_id mint s n row s' n' :
  retain_one tenant_id mint (s, n) row = Ok (s', n') → ot_streams s' = ot_streams s.
Proof.
  intros (t & _ & H)%bind_ok. apply bind_ok in H as ([s1 b] & H1 & H).
  assert (s1 = s') as -> by (destruct b; [apply bind_ok in H as (? & _ & [= -> _])|injection H as -> _]; done).
  by apply produce_job_ok in H1 as [[_ ->]|(_ & _ & _ & ->)].
Qed.

Lemma pass_keeps_stream s s' key c : production_pass s s' → ot_streams s !! key = Some c →
  ∃ c', ot_streams s' !! key = Some c' ∧ cursor_and_authority c' = cursor_and_authority c.
Proof.
  intros [tenant_id ready limit recovery due mint s1 s2 report H|tenant_id ready limit sn mint s1 s2 n H] Hc.
  - apply production_progress in H as [Hs _ _].
    destruct (Hs key) as [->|(c1 & c' & _ & E & E' & Hstep)]; [by exists c|].
    exists c'. assert (c1 = c) as -> by congruence. split; [done|]. by destruct Hstep.
  - exists c. split; [|done]. unfold produce_due_runmill_terminal_evidence_jobs in H.
    apply bind_unit_ok in H as [_ H]. case_bool_decide; [by injection H as <- _|].
    rewrite <- Hc. f_equal.
    refine (try_fold_rel _ (λ a b, ot_streams b.1 = ot_streams a.1) _ _ _ _ _ _ H); [done| |].
    + intros ??? <- ->. done.
    + intros [s3 n3] row [s4 n4] _. apply retain_one_streams.
Qed.

Lemma passes_keep_stream s s' key c : star production_pass s s' → ot_streams s !! key = Some c →
  ∃ c', ot_streams s' !! key = Some c' ∧ cursor_and_authority c' = cursor_and_authority c.
Proof.
  intros Hp Hc.
  apply (star_invariant production_pass (λ x, ∃ c', ot_streams x !! key = Some c' ∧
    cursor_and_authority c' = cursor_and_authority c) s s'); [by exists c| |done].
  intros x y (c1 & Hc1 & E) Hxy. eapply pass_keeps_stream in Hxy as (c2 & Hc2 & E2); [|done].
  exists c2. split; [done|congruence].
Qed.

Lemma binding_kept c c' n : cursor_and_authority c' = cursor_and_authority c →
  stream_binding_matches c' n = stream_binding_matches c n.
Proof. destruct c, c'. intros [=]. by simplify_eq. Qed.

Lemma new_stream_matches n now : stream_binding_matches (new_stream n now) n = true.
Proof.
  unfold stream_binding_matches. cbn. rewrite !andb_true_iff.
  split_and!; first [by apply bool_decide_eq_true | apply Z.eqb_refl].
Qed.

(** The creation of a stream can be repeated: after any number of passes of the
    producers, which may have moved the stream on or released it, the same request
    finds the stream, inserts nothing and changes nothing, and a valid request for
    the same run under any other authority is a conflict. *)
Lemma stream_creation_idempotent n now now' s found s1 o s2 :
  create_runmill_observation_stream n now s found = Ok (s1, o) → star production_pass s1 s2 →
  create_runmill_observation_stream n now' s2 s2
    = Ok (s2, mkCreateRunmillObservationStreamOutcome (ns_run_id n) false) ∧
  ∀ n', NewRunmillObservationStream_validate n' = Ok tt →
    ns_tenant_id n' = ns_tenant_id n → ns_run_id n' = ns_run_id n → n' ≠ n →
    create_runmill_observation_stream n' now' s2 s2
      = Err (Conflict [Lit "Runmill observation stream for run "; FmtUuid (ns_run_id n);
               Lit " has different immutable authority"]).
Proof.
  unfold create_runmill_observation_stream at 1. rewrite bind_unit_ok. intros [Hv H] Hp.
  assert (∃ c, ot_streams s1 !! (ns_tenant_id n, ns_run_id n) = Some c ∧
    stream_binding_matches c n = true) as (c & Hc & Hb).
  { destruct (ot_streams s !! _) as [c|].
    - apply bind_ok in H as (c' & Hc%ok_or_ok & H). case_match; [|done]. injection H as <- _. eauto.
    - injection H as <- _. exists (new_stream n now). split; [apply lookup_insert_eq|].
      apply new_stream_matches. }
  eapply passes_keep_stream in Hp as (c' & Hc' & E); [|exact Hc].
  rewrite <- (binding_kept _ _ _ E) in Hb. unfold create_runmill_observation_stream.
  split; [rewrite Hv; cbn; rewrite Hc'; cbn; by rewrite Hb|].
  intros n' Hv' Ht Hr Hne. rewrite Hv'. cbn. rewrite Ht, Hr, Hc'. cbn.
  assert (stream_binding_matches c' n' = false) as ->; [|done].
  apply not_true_iff_false. intros Hb'. apply Hne. unfold stream_binding_matches in *.
  destruct n, n', c'. cbn in *. crush.
Qed.

(** ** Routes of the produced jobs *)

Section routes.
  Context {stored : StoredJson} {shape : StoredShape}.

Lemma existsb_intro {A} (f : A → bool) l x : x ∈ l → f x = true → existsb f l = true.
Proof. rewrite existsb_true. eauto. Qed.

Lemma stored_is_text key v x : field key v = Some (VString x) → is_text key x (stored_value v) = true.
Proof.
  intros E. unfold is_text, text_at. rewrite stored_field, E. simpl. rewrite stored_string. simpl.
  rewrite jsonb_text_string. by apply bool_decide_eq_true.
Qed.

Lemma stored_is_uuid key v u : field key v = Some (uuid_value u) → is_uuid key u (stored_value v) = true.
Proof. apply stored_is_text. Qed.

Lemma stored_is_number key v n : field key v = Some (Number (pretty n)) →
  is_number key n (stored_value v) = true.
Proof. intros E. unfold is_number. rewrite stored_field, E. apply stored_equal. Qed.

Lemma stored_typed type key v x : field key v = Some x → jsonb_typeof x = type →
  typed type key (stored_value v) = true.
Proof.
  intros E <-. unfold typed. rewrite stored_field, E. simpl. rewrite stored_typeof.
  by apply bool_decide_eq_true.
Qed.

Lemma stored_has_keys keys v : has_keys keys (stored_value v) = has_keys keys v.
Proof.
  induction keys as [|k keys IH]; [done|]. unfold has_keys in *. cbn [forallb].
  rewrite IH, stored_field. by destruct (field k v).
Qed.

(** A session that the lateral join finds. *)
Lemma observer_session_found now key c s session : observer_session now key c s = Some session →
  ∃ e, e ∈ (ot_sessions s).*1 ∧ se_id e = session ∧ usable_session now key c e = true.
Proof.
  unfold observer_session. intros ([e t] & Hl & ->)%fmap_Some. apply last_Some in Hl as [l Hl].
  exists e. assert ((e, t) ∈ List.filter (λ p, usable_session now key c p.1) (ot_sessions s)) as Hin.
  { rewrite <- (elem_of_sort_by_key (λ p : RouteSessionRow * DateTime, (p.2, se_id p.1))), Hl. set_solver. }
  apply elem_of_filter_bool in Hin as [Hin Hu]. split; [|done].
  by apply (list_elem_of_fmap_2 fst _ (e, t)).
Qed.

Lemma authority_rows key c s : live_authority key c s = true →
  (∃ r, r ∈ ot_runs s ∧ authoritative_run key c r = true) ∧
  (∃ o, o ∈ ot_work_orders s ∧ exact_work_order key c o = true) ∧
  (∃ w, w ∈ ot_workers s ∧ usable_worker key c w = true).
Proof.
  unfold live_authority. rewrite !andb_true_iff, !existsb_true. tauto.
Qed.

Lemma observer_live s key c now e w : usable_session now key c e = true → w ∈ ot_workers s →
  usable_worker key c w = true → live_observer now (route_tables s) (stream_row key c) e = true.
Proof.
  intros Hu Hw Hk. unfold live_observer. unfold usable_session in Hu. unfold usable_worker in Hk.
  rewrite !andb_true_iff in Hu. destruct_and! Hu. rewrite andb_true_iff. split.
  - rewrite andb_true_iff. by split.
  - apply existsb_intro with w; [done|]. cbn. crush. split_and!; congruence.
Qed.

Lemma elem_of_route_streams s key c : ot_streams s !! key = Some c →
  stream_row key c ∈ ro_streams (route_tables s).
Proof.
  intros H%elem_of_map_to_list. by apply (list_elem_of_fmap_2 (λ p, stream_row p.1 p.2) _ (key, c)).
Qed.

Lemma observation_payload_shape d observation_id epoch :
  observation_shape (stored_value (observation_payload d observation_id epoch)) = true.
Proof.
  unfold observation_shape. rewrite stored_value_object, stored_has_keys, stored_only_keys.
  rewrite !andb_true_iff. split_and!; first [reflexivity
    | by apply stored_is_text | by eapply stored_typed ].
Qed.

(** A scheduled observation satisfies the route that a claim checks. *)
Lemma scheduled_route tenant_id ready s s' run c session m :
  let d := mkDueStream run c session in
  ∀ now, observable tenant_id ready now s run c session → same_context s s' →
  scheduled tenant_id d m s' →
  ∃ row, q_jobs (ot_queue s') !! mo_job_id m = Some row ∧
    observation_route now (route_tables s') (mo_job_id m) row = true.
Proof.
  intros d now [_ Ha _ _ _ Hl Ho] Hx [Hs _ Hk Hj]. eexists. split; [exact Hj|].
  set (p := observation_payload d (mo_observation_id m) (oc_observation_epoch c + 1)).
  rewrite <- (context_authority _ _ _ _ Hx) in Hl. rewrite <- (context_session _ _ _ _ _ Hx) in Ho.
  apply authority_rows in Hl as ((r & Hr & Hr') & (o & Ho' & Ho'') & (w & Hw & Hw')).
  apply observer_session_found in Ho as (e & He & Hse & Hu). apply elem_of_route_streams in Hs as Hm.
  unfold observation_route. rewrite andb_true_iff.
  split; [apply (observation_payload_shape d)|]. unfold observation_rows.
  assert (payload (new_row (mo_inserted_at m) (observation_job tenant_id d (mo_job_id m)
    (mo_observation_id m) (oc_observation_epoch c + 1) (mo_inserted_at m))) = stored_value p) as Hp
    by done. cbn [du_columns d] in *. rewrite Hp.
  pose proof (observer_live s' _ _ _ _ _ Hu Hw Hw') as Hlive.
  unfold authoritative_run in Hr'. unfold exact_work_order in Ho''. unfold usable_session in Hu.
  destruct r, o. cbn in Hr', Ho'', Hu. crush.
  eapply existsb_intro; [exact Hr|]. rewrite andb_true_iff. split; [by apply stored_is_number|].
  eapply existsb_intro; [exact Ho'|]. rewrite andb_true_iff. split.
  { unfold payload_run. rewrite Hp. cbn. rewrite !andb_true_iff.
    split_and!; first [by apply bool_decide_eq_true | by apply stored_is_uuid | by apply stored_is_text | done]. }
  eapply existsb_intro; [exact Hm|]. rewrite andb_true_iff. split.
  { unfold bound_stream. cbn. rewrite !andb_true_iff.
    split_and!; first [by apply bool_decide_eq_true | apply Z.eqb_refl]. }
  eapply existsb_intro; [exact Hk|]. rewrite andb_true_iff. split.
  { unfold active_checkpoint. rewrite Hp. cbn. rewrite !andb_true_iff.
    split_and!; first [by apply bool_decide_eq_true | apply Z.eqb_refl | by apply stored_is_uuid
      | by apply stored_is_number ]. }
  eapply existsb_intro; [exact He|]. cbn. rewrite !andb_true_iff.
  split_and!; first [by apply bool_decide_eq_true | by apply Z.eqb_eq | done].
Qed.

(** A worker of the ready routes is served under the contract of its job type. *)
Lemma ready_worker_served {W} (r : HandlerRegistry W) f t contract w : well_formed r → routes_of f t →
  production_activity_contract_id t = Some contract → w ∈ (f (ready_claim_set r)).*1 →
  has_worker_route (Some w) contract (f (ready_claim_set r)) = true.
Proof.
  intros Hw Ht Hc ([w' k] & -> & Hin)%list_elem_of_fmap. simpl.
  assert (has_worker_route (Some w') k (f (ready_claim_set r)) = true) as Hr.
  { simpl. by apply has_route_true. }
  pose proof Hr as (h & Hh & _ & <- & _)%(routes_of_serve f t); [|done..].
  destruct Hw as [Hg _]. apply Hg in Hh as [_ _ Hcan _]. by rewrite <- (Hcan _ Hc).
Qed.

Lemma produced_worker_route {W} (r : HandlerRegistry W) f row w : well_formed r →
  routes_of f (jb_job_type row) →
  production_activity_contract_id (jb_job_type row) = Some (jb_activity_contract_id row) →
  is_uuid "worker_id" w (payload row) = true → uuid_to_string w ∈ (f (ready_claim_set r)).*1 →
  worker_route row (f (ready_claim_set r)) = true.
Proof.
  intros Hw Hf Hc Hu%bool_decide_eq_true Hin. unfold worker_route. rewrite Hu.
  by eapply ready_worker_served.
Qed.

(** C19. Every job that a pass of the observation producer adds, for the workers
    that the ready handlers of the registry name, is pending with all its
    attempts, is the one active job of its stream, and satisfies at the instant
    of the scan the whole route on which the reactor claims ready jobs: payload
    shape, authoritative run, work order, stream, checkpoint and live observer
    session.  So the producer never makes a job that only the scan for invalid
    routes would take. *)
Theorem observation_jobs_claimable {W} (r : HandlerRegistry W) tenant_id limit recovery due mint s s'
    report id row :
  well_formed r →
  produce_due_runmill_observation_jobs tenant_id (observe_runmill_run_worker_ids (ready_claim_set r))
    limit recovery due mint s = Ok (s', report) →
  q_jobs (ot_queue s') !! id = Some row → q_jobs (ot_queue s) !! id = None →
  ready_route (ready_claim_set r) (sn_now due) (route_tables s') id row = true ∧
  jb_tenant_id row = tenant_id ∧ jb_status row = "PENDING" ∧ jb_attempt_count row = 0 ∧
  jb_max_attempts row = OBSERVATION_JOB_MAX_ATTEMPTS ∧
  ∃ run c', ot_streams s' !! (tenant_id, run) = Some c' ∧ oc_active_job_id c' = Some id ∧
    jb_idempotency_key row = observation_key run (oc_observation_epoch c') (oc_next_after_sequence c').
Proof.
  intros Hw [_ Hx Hj]%production_progress Hrow Hnew.
  destruct (Hj id) as [E|(run & c & session & m & Hobs & -> & _ & Hsd)]; [congruence|].
  destruct (scheduled_route _ _ _ _ _ _ _ _ _ Hobs Hx Hsd) as (row' & Hrow' & Hroute).
  assert (row' = row) as -> by congruence. pose proof Hsd as [Hs _ _ Hjob].
  rewrite Hjob in Hrow. injection Hrow as <-. cbn in Hs. split_and!; try done.
  - unfold ready_route. rewrite Hroute, (bool_decide_true (_ = "OBSERVE_RUNMILL_RUN")) by done.
    rewrite (produced_worker_route r rc_observe_runmill_run_worker _ (oc_worker_id c) Hw); try done.
    + by rewrite !orb_true_r.
    + unfold routes_of. cbn. tauto.
    + by apply stored_is_uuid.
    + apply Hobs.
  - exists run. eexists. split_and!; [exact Hs|reflexivity..].
Qed.

(** ** Retention *)

(** What a selected row stands for. *)
Record owes_bundle (tenant_id : Uuid) (ready : list string) (now : DateTime) s (row : TerminalRow)
  : Prop := {
  wb_stream : ot_streams s !! (tenant_id, ts_run_id row) = Some (ts_columns row);
  wb_state : oc_state (ts_columns row) = "TERMINAL_READY";
  wb_worker : uuid_to_string (oc_worker_id (ts_columns row)) ∈ ready;
  wb_authority : live_authority (tenant_id, ts_run_id row) (ts_columns row) s = true;
  wb_session : observer_session now (tenant_id, ts_run_id row) (ts_columns row) s =
    Some (ts_observer_session_id row);
  wb_result : ∃ e, e ∈ ot_results s ∧ ox_result e = ts_result row ∧
    terminal_result (tenant_id, ts_run_id row) e = true;
  wb_none : (tenant_id, ts_run_id row) ∉ ot_bundles s
}.

Lemma elem_of_terminal_ready tenant_id ready limit sn s row :
  row ∈ terminal_ready_rows tenant_id ready limit sn s →
  owes_bundle tenant_id ready (sn_now sn) s row.
Proof.
  intros ([t run] & c & Hs & _ & Hr)%elem_of_scan. apply list_elem_of_bind in Hr as (e & Hr & He).
  apply elem_of_rows_of in Hr. unfold terminal_row in Hr.
  apply bind_Some in Hr as (g & _ & Hr). apply bind_Some in Hr as (p & _ & Hr).
  apply bind_Some in Hr as (session & Ho & Hr). apply bind_Some in Hr as (phase & _ & Hr).
  case_match eqn:G; [|done]. injection Hr as <-. rewrite !andb_true_iff, !mem_true, !negb_true_iff, mem_false in G.
  destruct_and! G. reflect. simpl in *. subst t. split; simpl; try done. by exists e.
Qed.

Lemma terminal_ready_stream_ok row t : terminal_ready_stream row = Ok t →
  t = terminal_candidate row (re_next_sequence (ts_result row) + 1).
Proof.
  unfold terminal_ready_stream, terminal_event_sequence. rewrite bind_ok.
  intros (n & Hn%ok_or_ok & H). apply bind_unit_ok in H as [_ [= <-]].
  apply bind_Some in Hn as (k & Hk & Hn). apply checked_add_some in Hk as [_ ->].
  case_match; [|done]. by injection Hn as <-.
Qed.

Lemma retention_payload_shape t bundle_id :
  retention_shape (stored_value (retention_payload t bundle_id)) = true.
Proof.
  unfold retention_shape. rewrite stored_value_object, stored_has_keys, stored_only_keys.
  rewrite !andb_true_iff. split_and!; first [reflexivity
    | by apply stored_is_text | by eapply stored_typed ].
Qed.

(** The row of a produced retention job. *)
Definition retention_row (tenant_id : Uuid) (t : TerminalReadyStream) (m : MintedRetention) : JobRow :=
  new_row (mr_inserted_at m) (retention_job tenant_id t m).

Lemma retention_job_route tenant_id ready now s row t m :
  owes_bundle tenant_id ready now s row → terminal_ready_stream row = Ok t →
  retention_route now (route_tables s) (retention_row tenant_id t m) = true.
Proof.
  intros [Hs Ha _ Hl Ho (e & He & Hre & Hte) _] ->%terminal_ready_stream_ok.
  destruct row as [run c res session phase]. cbn in *. subst res.
  set (t := terminal_candidate _ _).
  set (p := retention_payload t (mr_bundle_id m)).
  assert (payload (retention_row tenant_id t m) = stored_value p) as Hp by done.
  apply authority_rows in Hl as ((r & Hr & Hr') & (o & Ho' & Ho'') & (w & Hw & Hw')).
  apply observer_session_found in Ho as (x & Hx & Hsx & Hu). apply elem_of_route_streams in Hs as Hm.
  pose proof (observer_live s _ _ _ _ _ Hu Hw Hw') as Hlive.
  unfold retention_route. rewrite Hp, andb_true_iff. split; [apply (retention_payload_shape t)|].
  unfold authoritative_run in Hr'. unfold exact_work_order in Ho''. unfold usable_session in Hu.
  unfold terminal_result in Hte. destruct r, o. cbn in Hr', Ho'', Hu. crush.
  eapply existsb_intro; [exact Hr|]. rewrite andb_true_iff. split; [by apply stored_is_number|].
  eapply existsb_intro; [exact Ho'|]. rewrite andb_true_iff. split.
  { unfold payload_run. rewrite Hp. cbn. rewrite !andb_true_iff.
    split_and!; first [by apply bool_decide_eq_true | by apply stored_is_uuid | by apply stored_is_text | done]. }
  eapply existsb_intro; [exact Hm|]. rewrite !andb_true_iff. split.
  { unfold bound_stream. cbn. rewrite !andb_true_iff.
    split_and!; first [by apply bool_decide_eq_true | apply Z.eqb_refl]. }
  eapply existsb_intro; [by apply (list_elem_of_fmap_2 ox_result _ e)|]. rewrite !andb_true_iff. split.
  { split_and!; first [by apply bool_decide_eq_true | by apply stored_is_uuid | by apply stored_is_number]. }
  eapply existsb_intro; [exact Hx|]. cbn. rewrite !andb_true_iff.
  split_and!; first [by apply bool_decide_eq_true | by apply stored_is_uuid | by apply Z.eqb_eq | done].
Qed.

(** The key of a candidate is taken. *)
Definition key_taken (tenant_id : Uuid) s (t : TerminalReadyStream) : Prop :=
  ∃ id row, q_jobs (ot_queue s) !! id = Some row ∧ jb_tenant_id row = tenant_id ∧
    jb_idempotency_key row = terminal_evidence_idempotency_key (ty_run_id t) (ty_observation_id t).

Lemma row_by_key_some tenant_id key q id row : row_by_key tenant_id key q = Some (id, row) →
  q_jobs q !! id = Some row ∧ jb_tenant_id row = tenant_id ∧ jb_idempotency_key row = key.
Proof.
  unfold row_by_key. intros [Hin Hk]%find_some. unfold keyed in Hk.
  apply list_elem_of_In, elem_of_map_to_list in Hin. crush.
Qed.

Lemma set_same_tables s : set_ot_queue (ot_queue s) s = s.
Proof. destruct s. unfold set_ot_queue, ot_queue. cbn. by rewrite set_same_queue. Qed.

Lemma set_queue_again q q' s s0 : s = set_ot_queue q s0 → set_ot_queue q' s = set_ot_queue q' s0.
Proof. by intros ->. Qed.

(** The loop, from the tables of its scan. *)
Record retention_progress (tenant_id : Uuid) (mint : Uuid → MintedRetention) (l : list TerminalRow)
    s0 s : Prop := {
  tp_tables : s = set_ot_queue (ot_queue s) s0;
  tp_kept id row : q_jobs (ot_queue s0) !! id = Some row → q_jobs (ot_queue s) !! id = Some row;
  tp_jobs id row : q_jobs (ot_queue s) !! id = Some row → q_jobs (ot_queue s0) !! id = Some row ∨
    ∃ r t, r ∈ l ∧ terminal_ready_stream r = Ok t ∧
      row = retention_row tenant_id t (mint (ty_observation_id t)) ∧
      ∀ id' row', q_jobs (ot_queue s) !! id' = Some row' → jb_tenant_id row' = tenant_id →
        jb_idempotency_key row' = jb_idempotency_key row → id' = id
}.

Lemma retain_one_ok tenant_id mint l s0 s n row s' n' : row ∈ l →
  retain_one tenant_id mint (s, n) row = Ok (s', n') →
  retention_progress tenant_id mint l s0 s →
  retention_progress tenant_id mint l s0 s' ∧
  ∃ t, terminal_ready_stream row = Ok t ∧ key_taken tenant_id s' t.
Proof.
  intros Hl H [Ht Hk Hj]. unfold retain_one in H. apply bind_ok in H as (t & Hrow & H).
  apply bind_ok in H as ([s1 b] & H1 & H).
  assert (s1 = s') as -> by (destruct b; [apply bind_ok in H as (? & _ & [= -> _])|injection H as -> _]; done).
  clear H. unfold schedule_terminal_evidence_job in H1. pose proof H1 as H2. unfold produce_job in H2.
  apply produce_job_ok in H1 as [[-> ->]|(-> & Hnone & Hfresh & ->)].
  - rewrite set_same_tables in *. split; [by split|]. exists t. split; [done|].
    unfold insert_job in H2. destruct (row_by_key _ _ _) as [[id r]|] eqn:E.
    + apply row_by_key_some in E as (? & ? & ?). by exists id, r.
    + by destruct (q_jobs (ot_queue s) !! _).
  - pose proof (row_by_key_none _ _ _ Hnone) as Hu. cbn in Hu, Hfresh. clear H2. split.
    + split; [by eapply set_queue_again|..]; cbn.
      * intros id r Hr%Hk. rewrite lookup_insert_ne; congruence.
      * intros id r [[<- <-]|[Hne Hr]]%lookup_insert_Some.
        -- right. exists row, t. split_and!; [done..|]. cbn.
           intros id' row' [[<- <-]|[Hne Hr]]%lookup_insert_Some ??; [done|]. naive_solver.
        -- destruct (Hj _ _ Hr) as [?|(r' & t' & Hin & Ht' & -> & Hun)]; [by left|]. right.
           exists r', t'. split_and!; [done..|]. cbn. intros id' row' [[<- <-]|[Hne' Hr']]%lookup_insert_Some ? Hkey.
           ++ exfalso. eapply Hu; [exact Hr|done|]. by symmetry.
           ++ by eapply Hun.
    + exists t. split; [done|]. exists (mr_job_id (mint (ty_observation_id t))). eexists. cbn.
      split; [apply lookup_insert_eq|done].
Qed.

Lemma key_taken_kept tenant_id mint s n row s' n' t : retain_one tenant_id mint (s, n) row = Ok (s', n') →
  key_taken tenant_id s t → key_taken tenant_id s' t.
Proof.
  intros H (id & r & Hr & Hk). apply (retain_one_ok _ _ [row] s) in H as [[_ Hkept _] _].
  - exists id, r. split; [by apply Hkept|done].
  - set_solver.
  - split; [by rewrite set_same_tables|auto|auto].
Qed.

Lemma retention_progress_refl tenant_id mint l s : retention_progress tenant_id mint l s s.
Proof. split; [by rewrite set_same_tables|auto|auto]. Qed.

Lemma retention_loop tenant_id mint l s n s' n' :
  try_fold l (s, n) (retain_one tenant_id mint) = Ok (s', n') →
  retention_progress tenant_id mint l s s' ∧
  ∀ row, row ∈ l → ∃ t, terminal_ready_stream row = Ok t ∧ key_taken tenant_id s' t.
Proof.
  intros H. split.
  - refine (try_fold_rel _ (λ a b, retention_progress _ _ l s a.1 → retention_progress _ _ l s b.1)
      _ _ _ _ _ _ H _); [by auto..| |apply retention_progress_refl].
    intros [s1 n1] row [s2 n2] Hin H1 Hp. by eapply retain_one_ok.
  - apply (try_fold_each (retain_one tenant_id mint) (λ row a, ∃ t, terminal_ready_stream row = Ok t ∧ key_taken tenant_id a.1 t)
      l (s, n) (s', n')); [| |done].
    + intros [s1 n1] row [s2 n2] H1. apply (retain_one_ok _ _ [row] s1) in H1 as [_ ?];
        [done|set_solver|apply retention_progress_refl].
    + intros [s1 n1] row [s2 n2] row' H1 (t & Ht & Hk). exists t. split; [done|].
      by eapply key_taken_kept.
Qed.

(** C20. A pass of the retention producer writes nothing but jobs and afterwards
    every candidate that it selected has a job.  Each job that it adds is pending,
    the only one of its tenant with its key, for a stream that is terminal-ready
    and has no bundle, and satisfies at the instant of the scan the whole route on
    which the reactor claims ready jobs. *)
Theorem retention_jobs_exact {W} (r : HandlerRegistry W) tenant_id limit sn mint s s' n :
  well_formed r →
  let ready := retain_runmill_terminal_evidence_worker_ids (ready_claim_set r) in
  produce_due_runmill_terminal_evidence_jobs tenant_id ready limit sn mint s = Ok (s', n) →
  s' = set_ot_queue (ot_queue s') s ∧
  (∀ row, ready ≠ [] → row ∈ terminal_ready_rows tenant_id ready limit sn s →
     ∃ t, terminal_ready_stream row = Ok t ∧ key_taken tenant_id s' t) ∧
  ∀ id job, q_jobs (ot_queue s') !! id = Some job → q_jobs (ot_queue s) !! id = None →
    jb_status job = "PENDING" ∧
    ready_route (ready_claim_set r) (sn_now sn) (route_tables s') id job = true ∧
    (∃ row t, owes_bundle tenant_id ready (sn_now sn) s row ∧ terminal_ready_stream row = Ok t ∧
       job = retention_row tenant_id t (mint (ty_observation_id t))) ∧
    ∀ id' job', q_jobs (ot_queue s') !! id' = Some job' → jb_tenant_id job' = tenant_id →
      jb_idempotency_key job' = jb_idempotency_key job → id' = id.
Proof.
  intros Hw ready. unfold produce_due_runmill_terminal_evidence_jobs. rewrite bind_unit_ok. intros [_ H].
  case_bool_decide as Hready.
  { injection H as <- _. split_and!; [by rewrite set_same_tables|done|]. intros. congruence. }
  apply retention_loop in H as [[Ht Hk Hj] Hall]. split_and!; [done|auto|].
  intros id job Hjob Hnew. destruct (Hj _ _ Hjob) as [?|(row & t & Hin & Hrow & -> & Hun)]; [congruence|].
  apply elem_of_terminal_ready in Hin as Howes. split_and!; [done| |by exists row, t|done].
  assert (route_tables s' = route_tables s) as -> by (by rewrite Ht).
  pose proof (retention_job_route _ _ _ _ _ _ (mint (ty_observation_id t)) Howes Hrow) as Hroute.
  unfold ready_route. rewrite Hroute, (bool_decide_true (_ = "RETAIN_RUNMILL_TERMINAL_EVIDENCE")) by done.
  rewrite (produced_worker_route r rc_retain_runmill_terminal_evidence_worker _ (ty_worker_id t) Hw); try done.
  - by rewrite !orb_true_r.
  - unfold routes_of. cbn. tauto.
  - by apply stored_is_uuid.
  - apply terminal_ready_stream_ok in Hrow as ->. apply Howes.
Qed.

(** The limit is spent before the keys are looked up: when every selected
    candidate has a job already, whatever became of it, a pass adds nothing and
    leaves the tables as they were, so that the next pass finds the same
    candidates and no other stream is ever reached. *)
Lemma retention_starved tenant_id ready limit sn mint s :
  is_nil tenant_id = false → 0 < limit → limit ≤ MAX_PRODUCTION_BATCH →
  (∀ row, row ∈ terminal_ready_rows tenant_id ready limit sn s →
     ∃ t, terminal_ready_stream row = Ok t ∧ key_taken tenant_id s t) →
  produce_due_runmill_terminal_evidence_jobs tenant_id ready limit sn mint s = Ok (s, 0).
Proof.
  intros Hn Hl Hm Hall. unfold produce_due_runmill_terminal_evidence_jobs, validate_production.
  rewrite Hn, (proj2 (Z.eqb_neq _ _)), (proj2 (Z.ltb_ge _ _)) by lia. cbn. case_bool_decide; [done|].
  generalize dependent (terminal_ready_rows tenant_id ready limit sn s). intros l Hall.
  induction l as [|row l IH]; [done|]. cbn [try_fold].
  assert (retain_one tenant_id mint (s, 0) row = Ok (s, 0)) as ->.
  { destruct (Hall row) as (t & Ht & id & job & Hjob & Htn & Hkey); [set_solver|]. unfold retain_one.
    rewrite Ht. cbn. unfold schedule_terminal_evidence_job, produce_job, insert_job. cbn.
    destruct (row_by_key _ _ _) as [p|] eqn:E.
    - cbn. by rewrite set_same_tables.
    - exfalso. by eapply row_by_key_none. }
  apply IH. set_solver.
Qed.
End routes.
End facts.

Module Sample.
#[local] Existing Instance ReservationFacts.Sample.uuids.
#[local] Existing Instance DeadLetterFacts.Sample.columns.
#[local] Existing Instance DeadLetterFacts.Sample.equality.
#[local] Existing Instance DeadLetterFacts.Sample.texts.
#[local] Existing Instance DeadLetterFacts.Sample.stored.
#[local] Instance shapes : StoredShape :=
  {| stored_typeof v := eq_refl; stored_only_keys keys v := eq_refl |}.

Definition digest : string := "sha256:0000000000000000000000000000000000000000000000000000000000000000".
Definition observe : JobHandler unit :=
  mkJobHandler OBSERVE_RUNMILL_RUN OBSERVE_RUNMILL_RUN_ACTIVITY_CONTRACT_ID HReady
    (ObserveRunmillRunWorker 9%N) (λ _ _, pure_call (Success (Complete None))).
Definition retain : JobHandler unit :=
  mkJobHandler RETAIN_RUNMILL_TERMINAL_EVIDENCE RETAIN_RUNMILL_TERMINAL_EVIDENCE_ACTIVITY_CONTRACT_ID
    HReady (RetainRunmillTerminalEvidenceWorker 9%N) (λ _ _, pure_call (Success (Complete None))).
Definition registry : HandlerRegistry unit :=
  {[ OBSERVE_RUNMILL_RUN := observe; RETAIN_RUNMILL_TERMINAL_EVIDENCE := retain ]}.

Lemma registry_ready : well_formed registry.
Proof.
  split; [|done]. intros job_type h. unfold registry.
  intros [[<- <-]|[_ [<- <-]%lookup_singleton_Some]]%lookup_insert_Some;
    split; try done; try (vm_compute; by intros ? [= <-]).
Qed.

(** A stream of run [run] in a state. *)
Definition stream (run : Uuid) : NewRunmillObservationStream :=
  mkNewRunmillObservationStream 1%N run 21%N 31%N 41%N 51%N digest 9%N 2 61%N "run".
Definition in_state (state : string) (c : StreamColumns) : StreamColumns :=
  mkStreamColumns (oc_workflow_instance_id c) (oc_work_item_id c) (oc_attempt_id c)
    (oc_work_order_id c) (oc_work_order_digest c) (oc_worker_id c) (oc_worker_generation c)
    (oc_run_admission_worker_session_id c) (oc_external_run_id c) (oc_next_after_sequence c)
    (oc_observation_epoch c) (oc_active_job_id c) (oc_active_observation_id c) state
    (oc_next_poll_at c) (oc_last_snapshot_id c) (oc_escalation_id c) (oc_last_error_digest c)
    (oc_aggregate_version c).

Definition run_row (run : Uuid) : RouteRunRow := mkRouteRunRow run 1%N 31%N 41%N true 51%N 9%N 61%N 2 "run".
Definition result (run : Uuid) : ObservationResultRow :=
  mkObservationResultRow
    (mkResultRow 1%N run (run + 100)%N "TERMINAL_READY" (run + 200)%N (run + 300)%N 7) false false.
Definition snapshot (run id : Uuid) (operation : string) (raw : Value) : ControlSnapshotRow :=
  mkControlSnapshotRow id 1%N operation run 31%N 41%N 51%N digest 61%N 9%N 2 "run" (Some (run + 100)%N) 7 raw.
Definition phase : Value := Object [("run", Object [("state", VString "COMPLETED")])].
Definition snapshots (run : Uuid) : list ControlSnapshotRow :=
  [ snapshot run (run + 200)%N "GET_RUN" phase;
    snapshot run (run + 300)%N "LIST_RUN_EVENTS" (Object [("snapshot", phase)]) ].

(** A dead retention job of a run. *)
Definition dead_retention (run : Uuid) : JobRow :=
  {| jb_tenant_id := 1%N; jb_workflow_instance_id := Some 21%N; jb_work_item_id := Some 31%N;
     jb_attempt_id := Some 41%N; jb_job_type := RETAIN_RUNMILL_TERMINAL_EVIDENCE;
     jb_activity_contract_id := RETAIN_RUNMILL_TERMINAL_EVIDENCE_ACTIVITY_CONTRACT_ID;
     jb_payload := Object [];
     jb_idempotency_key := terminal_evidence_idempotency_key run (run + 100)%N;
     jb_priority := TERMINAL_EVIDENCE_JOB_PRIORITY; jb_available_at := 0; jb_max_attempts := 25;
     jb_status := "DEAD"; jb_attempt_count := 25; jb_fence_token := 25; jb_lease := None;
     jb_result := None; jb_completion := None; jb_failure := None; jb_created_at := 0 |}.

(** Runs 71 and 72 of one attempt, with streams in a state. *)
Definition tables (state : string) (jobs : gmap Uuid JobRow) : ObservationTables :=
  {| ot_reactor := mkReactorTables
       (mkDeadLetterTables
          (mkStepTables (mkQueue jobs ∅) {[ (1%N, 31%N) := mkWorkItemRow "ESCALATED" 3 None ]}
             {[ (1%N, 21%N) := mkWorkflowRow 31%N "WAITING" 0 0 3 None ]} ∅ [] [] [] []) [] ∅) [] ∅ ∅;
     ot_runs := [run_row 71%N; run_row 72%N]; ot_work_orders := [mkWorkOrderRow 51%N 1%N 31%N 41%N digest];
     ot_attempts := [mkAttemptDigestRow 41%N 1%N 31%N (Some digest)];
     ot_acceptances := {[ (1%N, 31%N) := mkAcceptanceColumns (Some 41%N) (Some 0) ]};
     ot_workers := [mkWorkerRow 9%N 1%N 2 "READY"];
     ot_sessions := [(mkRouteSessionRow 62%N 1%N 9%N 2 "ACTIVE" 100, 1)];
     ot_streams := {[ (1%N, 71%N) := in_state state (new_stream (stream 71%N) 0);
                      (1%N, 72%N) := in_state state (new_stream (stream 72%N) 0) ]};
     ot_checkpoints := []; ot_results := [result 71%N; result 72%N]; ot_gap_bindings := [];
     ot_snapshots := snapshots 71%N ++ snapshots 72%N; ot_failure_facts := []; ot_bundles := [] |}.
Definition scan : Scan := mkScan 5 (λ _, false).
Definition minted (run : Uuid) : MintedObservation := mkMintedObservation (run + 10)%N (run + 20)%N 6.
Definition minted_retention (id : Uuid) : MintedRetention := mkMintedRetention (id + 10)%N (id + 20)%N 6.

Definition scheduled_pass : res (ObservationTables * RunmillObservationProductionReport) :=
  produce_due_runmill_observation_jobs 1%N (observe_runmill_run_worker_ids (ready_claim_set registry)) 10
    scan scan minted (tables "ACTIVE" ∅).

Lemma stream_creation_idempotent_witness :
  ∃ s1 s2, create_runmill_observation_stream (stream 71%N) 0 (tables "ACTIVE" ∅) (tables "ACTIVE" ∅)
      = Ok (s1, mkCreateRunmillObservationStreamOutcome 71%N false) ∧
    (∃ report, scheduled_pass = Ok (s2, report)) ∧
    create_runmill_observation_stream (stream 71%N) 9 s2 s2
      = Ok (s2, mkCreateRunmillObservationStreamOutcome 71%N false).
Proof.
  destruct scheduled_pass as [[s2 report]| |] eqn:E; [|vm_compute in E; discriminate E..].
  exists (tables "ACTIVE" ∅), s2. split; [vm_compute; reflexivity|]. split; [by exists report|].
  apply (stream_creation_idempotent (stream 71%N) 0 9 (tables "ACTIVE" ∅) (tables "ACTIVE" ∅)
    (tables "ACTIVE" ∅) (mkCreateRunmillObservationStreamOutcome 71%N false) s2).
  - vm_compute. reflexivity.
  - eapply star_snoc; [constructor|].
    by apply (observation_pass 1%N (observe_runmill_run_worker_ids (ready_claim_set registry)) 10 scan
      scan minted (tables "ACTIVE" ∅) s2 report).
Defined.

Lemma streams_follow_protocol_witness :
  ∃ s' c', scheduled_pass = Ok (s', mkRunmillObservationProductionReport 0 2) ∧
    ot_streams s' !! (1%N, 71%N) = Some c' ∧ oc_observation_epoch c' = 1 ∧
    oc_active_job_id c' = Some 81%N ∧
    stream_step 1%N (observe_runmill_run_worker_ids (ready_claim_set registry)) 5 (tables "ACTIVE" ∅) s'
      71%N (new_stream (stream 71%N) 0) c'.
Proof.
  destruct scheduled_pass as [[s' report]| |] eqn:E; [|vm_compute in E; discriminate E..].
  assert (report = mkRunmillObservationProductionReport 0 2 ∧
    ∃ c', ot_streams s' !! (1%N, 71%N) = Some c' ∧ oc_observation_epoch c' = 1 ∧
      oc_active_job_id c' = Some 81%N) as (-> & c' & Hc & He & Ha).
  { vm_compute in E. injection E as <- <-. split; [reflexivity|]. eexists. repeat split. }
  exists s', c'. split_and!; [done..|].
  destruct (streams_follow_protocol 1%N (observe_runmill_run_worker_ids (ready_claim_set registry)) 10 scan
    scan minted (tables "ACTIVE" ∅) s' (mkRunmillObservationProductionReport 0 2) (1%N, 71%N)
    (new_stream (stream 71%N) 0) E)
    as (c & Hc' & Hstep & _); [by vm_compute|]. pose proof (eq_trans (eq_sym Hc') Hc) as Hcc. injection Hcc as ->.
  exact Hstep.
Defined.

Lemma observation_jobs_claimable_witness :
  ∃ s' report row, scheduled_pass = Ok (s', report) ∧ q_jobs (ot_queue s') !! 81%N = Some row ∧
    ready_route (ready_claim_set registry) 5 (route_tables s') 81%N row = true ∧
    jb_idempotency_key row = observation_key 71%N 1 0.
Proof.
  destruct scheduled_pass as [[s' report]| |] eqn:E; [|vm_compute in E; discriminate E..].
  assert (∃ row, q_jobs (ot_queue s') !! 81%N = Some row ∧
    jb_idempotency_key row = observation_key 71%N 1 0) as (row & Hrow & Hkey).
  { vm_compute in E. injection E as <- _. eexists. repeat split. }
  exists s', report, row. split_and!; [done..| |done].
  apply (observation_jobs_claimable registry 1%N 10 scan scan minted (tables "ACTIVE" ∅) s' report 81%N row
    registry_ready E Hrow). reflexivity.
Defined.

Definition retention_pass (limit : Z) (jobs : gmap Uuid JobRow) : res (ObservationTables * Z) :=
  produce_due_runmill_terminal_evidence_jobs 1%N
    (retain_runmill_terminal_evidence_worker_ids (ready_claim_set registry)) limit scan minted_retention
    (tables "TERMINAL_READY" jobs).

Lemma retention_jobs_exact_witness :
  ∃ s' row, retention_pass 10 {[ 80%N := dead_retention 71%N ]} = Ok (s', 1) ∧
    q_jobs (ot_queue s') !! 182%N = Some row ∧
    ready_route (ready_claim_set registry) 5 (route_tables s') 182%N row = true.
Proof.
  destruct (retention_pass 10 {[ 80%N := dead_retention 71%N ]}) as [[s' n]| |] eqn:E;
    [|vm_compute in E; discriminate E..].
  assert (n = 1 ∧ ∃ row, q_jobs (ot_queue s') !! 182%N = Some row) as (-> & row & Hrow).
  { vm_compute in E. injection E as <- <-. split; [reflexivity|]. eexists. reflexivity. }
  exists s', row. split_and!; [done..|].
  destruct (retention_jobs_exact registry 1%N 10 scan minted_retention
    (tables "TERMINAL_READY" {[ 80%N := dead_retention 71%N ]}) s' 1 registry_ready E)
    as (_ & _ & H). apply (H 182%N row Hrow). reflexivity.
Defined.

(** With a limit of one, the dead job of run 71 hides run 72, for which a limit
    of two produces a job. *)
Lemma retention_starves :
  (∃ s', retention_pass 2 {[ 80%N := dead_retention 71%N ]} = Ok (s', 1)) ∧
  retention_pass 1 {[ 80%N := dead_retention 71%N ]}
    = Ok (tables "TERMINAL_READY" {[ 80%N := dead_retention 71%N ]}, 0).
Proof.
  split.
  - destruct (retention_pass 2 _) as [[s' n]| |] eqn:E; [|vm_compute in E; discriminate E..].
    assert (n = 1) as -> by (vm_compute in E; by injection E). by exists s'.
  - apply retention_starved; [done..|]. intros row Hrow. vm_compute in Hrow.
    apply list_elem_of_singleton in Hrow as ->. eexists. split; [vm_compute; reflexivity|].
    exists 80%N, (dead_retention 71%N). split_and!; reflexivity.
Qed.
End Sample.
