(* ===== verification/Poll.v ===== *)
(** One poll of the reactor, [ReactorRuntime::poll_once] of
    [src/src/runtime/reactor.rs]: reservations are expired, an unsupported due job
    stops the poll, observation and retention jobs are produced, jobs that no
    handler may run are dead-lettered, timers are promoted, ready jobs are claimed
    and their handlers are run.

    Every stage commits on its own: a poll that fails keeps what its earlier stages
    wrote.  What the stages find is in [PollInputs]: their clocks, the rows that
    others hold, the identifiers that are minted and, before each stage, what other
    processes committed ([pi_between]).  The tables of the reactor hold the queue,
    the workflows and the anchors that the timers use.  The concurrent tasks of
    [tokio] are a parameter: they change the world and end in some order. *)

From Stdlib Require Import ZArith Lia Ascii.
From stdpp Require Import base tactics option strings pretty numbers list gmap.
From S2P Require Import Prelude RustStr RustOrd Ids Crypto Security AuditChain RunEvents Outcome JobQueue RunmillOrder Steps DeadLetter Reservations Handlers Timers ReactorClaims Reactor Producers.

Record ReactorPollReport := mkReactorPollReport {
  rr_reservations_expired : Z;
  rr_runmill_observation_jobs_produced : Z;
  rr_runmill_observation_streams_escalated : Z;
  rr_runmill_terminal_evidence_jobs_produced : Z;
  rr_timers_promoted : Z;
  rr_orphaned_jobs_recovered : Z;
  rr_route_invalid_jobs_rejected : Z;
  rr_known_unserviceable_jobs_escalated : Z;
  rr_jobs_claimed : Z;
  rr_jobs_completed : Z;
  rr_jobs_retried : Z;
  rr_jobs_transactionally_finalized : Z
}.

Section poll.
  Context {pg : PgColumns} {jsonb : Jsonb} {uuids : UuidText} {hashing : Hashing}.
  Context {audit_jcs : Canonical AuditEventContent} {value_jcs : Canonical Value}.
  Context {jsonb_texts : JsonbText} {times : DateTimeText} {chrono : Chrono} {debug : DebugText}.
  Context {collation : Collation}.
  Context (other_live : Uuid * Uuid → AnchorRow → bool) {X : Type}.

(** ** The world of a poll *)

Record PollWorld := mkPollWorld {
  pw_reservations : ReservationTables;
  pw_tables : ObservationTables;
  pw_timers : gmap Uuid WorkflowTimerRow;
  pw_outside : X
}.

Definition pw_reactor (w : PollWorld) : ReactorTables := ot_reactor (pw_tables w).
Definition pw_queue (w : PollWorld) : Queue := rx_queue (pw_reactor w).

Definition set_reactor (r : ReactorTables) (s : ObservationTables) : ObservationTables :=
  mkObservationTables r (ot_runs s) (ot_work_orders s) (ot_attempts s) (ot_acceptances s)
    (ot_workers s) (ot_sessions s) (ot_streams s) (ot_checkpoints s) (ot_results s)
    (ot_gap_bindings s) (ot_snapshots s) (ot_failure_facts s) (ot_bundles s).

Definition set_pw_reservations (t : ReservationTables) (w : PollWorld) : PollWorld :=
  mkPollWorld t (pw_tables w) (pw_timers w) (pw_outside w).
Definition set_pw_tables (t : ObservationTables) (w : PollWorld) : PollWorld :=
  mkPollWorld (pw_reservations w) t (pw_timers w) (pw_outside w).
Definition set_pw_reactor (r : ReactorTables) (w : PollWorld) : PollWorld :=
  set_pw_tables (set_reactor r (pw_tables w)) w.

(** The tables of the timers, and back. *)
Definition timer_tables (w : PollWorld) : TimerTables :=
  mkTimerTables (pw_timers w) (pw_queue w) (sx_workflows (rx_steps (pw_reactor w)))
    (sx_anchors (rx_steps (pw_reactor w))).
Definition set_pw_timers (t : TimerTables) (w : PollWorld) : PollWorld :=
  let r := set_rx_queue (tt_queue t) (pw_reactor w) in
  mkPollWorld (pw_reservations w) (set_reactor r (pw_tables w)) (tt_timers t) (pw_outside w).

(** ** Stages *)

(** A call that may fail after it committed. *)
Definition stage (A : Type) : Type := PollWorld → PollWorld * res A.

Definition then_stage {A B} (m : stage A) (k : A → stage B) : stage B := λ w,
  match m w with
  | (w, Ok a) => k a w
  | (w, Err e) => (w, Err e)
  | (w, Panic) => (w, Panic)
  end.

Local Notation "'let*' x := m 'in' k" := (then_stage m (λ x, k))
  (at level 10, x strict pattern, m at level 200, k at level 200).

(** A result that changes nothing, and one transaction. *)
Definition return_stage {A} (r : res A) : stage A := λ w, (w, r).
Definition transaction {T A} (set : T → PollWorld → PollWorld) (run : PollWorld → res (T * A)) : stage A :=
  λ w, match run w with
       | Ok (t, a) => (set t w, Ok a)
       | Err e => (w, Err e)
       | Panic => (w, Panic)
       end.

(** A scan of [Reactor], which commits as it goes. *)
Definition scan_stage (run : ReactorTables → ReactorTables * res Z) : stage Z := λ w,
  let '(r, result) := run (pw_reactor w) in (set_pw_reactor r w, result).

(** ** Inputs *)

(** What one of the three scans finds, turn by turn. *)
Record ScanInputs := mkScanInputs {
  si_moments : nat → Moment;
  si_minted : nat → Minted;
  si_utc_now : nat → DateTime
}.

Let W : Type := ReactorTables * X.
Let Task : Type := JobHandler W * ClaimedWorkflowJob.

(** [pi_tasks] runs the spawned tasks to the end and gives their results in the
    order in which they end, or the text of its failure to join; [pi_abandoned] is
    what tasks leave behind that are dropped. *)
Record PollInputs := mkPollInputs {
  pi_between : nat → PollWorld → PollWorld;
  pi_sweep : DateTime * DateTime;
  pi_locked_sets : Uuid → bool;
  pi_stamps : BatchStamps;
  pi_inspected_at : DateTime;
  pi_recovery : Scan;
  pi_due : Scan;
  pi_mint_observation : Uuid → MintedObservation;
  pi_terminal : Scan;
  pi_mint_retention : Uuid → MintedRetention;
  pi_invalid : ScanInputs;
  pi_orphaned : ScanInputs;
  pi_unserviceable : ScanInputs;
  pi_pass : TimerTables → Pass;
  pi_claims : Moment;
  pi_tasks : ActivityControls → list Task → PollWorld → PollWorld * list (string + res ExecutionDisposition);
  pi_abandoned : ActivityControls → list Task → PollWorld → PollWorld
}.

(** A stage, after what others committed before it. *)
Definition after {A} (i : nat) (inputs : PollInputs) (m : stage A) : stage A :=
  λ w, m (pi_between inputs i w).

(** ** Tasks *)

(** [tasks.spawn] of every claimed job, or the error of the first that has no
    handler, with the tasks spawned before it. *)
Fixpoint spawn (handlers : HandlerRegistry W) (jobs : list ClaimedWorkflowJob) (tasks : list Task)
  : list Task * res unit :=
  match jobs with
  | [] => (tasks, Ok tt)
  | job :: jobs =>
      match dispatch handlers job with
      | Ok h => spawn handlers jobs (tasks ++ [(h, job)])
      | Err e => (tasks, Err e)
      | Panic => (tasks, Panic)
      end
  end.

(** [report.jobs_… += 1]. *)
Definition count_disposition (r : ReactorPollReport) (d : ExecutionDisposition) : ReactorPollReport :=
  let completed := match d with ExecutionCompleted => 1 | _ => 0 end in
  let retried := match d with Retried => 1 | _ => 0 end in
  let finalized := match d with TransactionallyFinalized => 1 | _ => 0 end in
  {| rr_reservations_expired := rr_reservations_expired r;
     rr_runmill_observation_jobs_produced := rr_runmill_observation_jobs_produced r;
     rr_runmill_observation_streams_escalated := rr_runmill_observation_streams_escalated r;
     rr_runmill_terminal_evidence_jobs_produced := rr_runmill_terminal_evidence_jobs_produced r;
     rr_timers_promoted := rr_timers_promoted r;
     rr_orphaned_jobs_recovered := rr_orphaned_jobs_recovered r;
     rr_route_invalid_jobs_rejected := rr_route_invalid_jobs_rejected r;
     rr_known_unserviceable_jobs_escalated := rr_known_unserviceable_jobs_escalated r;
     rr_jobs_claimed := rr_jobs_claimed r; rr_jobs_completed := rr_jobs_completed r + completed;
     rr_jobs_retried := rr_jobs_retried r + retried;
     rr_jobs_transactionally_finalized := rr_jobs_transactionally_finalized r + finalized |}.

(** [while let Some(joined) = tasks.join_next().await]; the counters cannot
    overflow, since there are at most 1000 tasks and as many of each scan. *)
Definition join_one (report : ReactorPollReport) (joined : string + res ExecutionDisposition)
  : res ReactorPollReport :=
  match joined with
  | inl error => Err (Persistence [Lit "reactor activity panicked: "; Disp error])
  | inr disposition => d ← disposition; Ok (count_disposition report d)
  end.

(** The tasks are dropped when one cannot be spawned, or when the sum of the
    earlier dead letters, computed before they are joined, overflows. *)
Definition run_jobs (handlers : HandlerRegistry W) (controls : ActivityControls) (inputs : PollInputs)
    (jobs : list ClaimedWorkflowJob) (finalized : res Z)
  : stage (Z * list (string + res ExecutionDisposition)) := λ w,
  let '(tasks, spawned) := spawn handlers jobs [] in
  match (spawned ;; finalized) with
  | Ok n => let '(w, results) := pi_tasks inputs controls tasks w in (w, Ok (n, results))
  | Err e => (pi_abandoned inputs controls tasks w, Err e)
  | Panic => (pi_abandoned inputs controls tasks w, Panic)
  end.

(** ** The poll *)

Record ReactorRuntime := mkReactorRuntime {
  ru_tenant_id : Uuid;
  ru_handlers : HandlerRegistry W;
  ru_options : ReactorOptions;
  ru_maintenance_mode : bool
}.

Definition ReactorRuntime_new (tenant_id : Uuid) (handlers : HandlerRegistry W)
    (options : ReactorOptions) (maintenance_mode : bool) : res ReactorRuntime :=
  ReactorOptions_validate options ;;
  bail_if (is_nil tenant_id) (Validation [Lit "reactor tenant ID must be non-nil"]) ;;
  Ok (mkReactorRuntime tenant_id handlers options maintenance_mode).

(** [u32::try_from(list.len())]. *)
Definition count_u32 {A} (what : string) (l : list A) : res Z :=
  ok_or (try_from u32_max (Z.of_nat (length l))) (Persistence [Lit what]).

Definition expire_reservations (ru : ReactorRuntime) (inputs : PollInputs) : stage Z :=
  then_stage
    (transaction set_pw_reservations (λ w,
       expire_elapsed_reservation_sets (ru_tenant_id ru) "asf:reservation-expiry-sweeper"
         (op_claim_batch_size (ru_options ru)) (pi_sweep inputs).1 (pi_sweep inputs).2
         (pi_locked_sets inputs) (pi_stamps inputs) (pw_reservations w)))
    (λ receipts, return_stage (count_u32 "expired reservation count overflowed" receipts)).

Definition finalized_so_far (orphaned invalid unserviceable : Z) : res Z :=
  ok_or (sum ← checked_add u32_max orphaned invalid; checked_add u32_max sum unserviceable)
    (Persistence [Lit "transactionally finalized job count overflowed"]).

(** The stages up to the claim: the report so far and the claimed jobs. *)
Definition prepare (ru : ReactorRuntime) (inputs : PollInputs)
  : stage (ReactorPollReport * list ClaimedWorkflowJob) :=
  let tenant_id := ru_tenant_id ru in
  let options := ru_options ru in
  let limit := op_claim_batch_size options in
  let handlers := ru_handlers ru in
  let known_routes := known_job_type_contract_pairs handlers in
  let ready_claims := ready_claim_set handlers in
  let* reservations_expired := after 0 inputs (expire_reservations ru inputs) in
  let* _ := after 1 inputs (λ w, return_stage
    (reject_unknown_or_incompatible_due_job tenant_id known_routes (pi_inspected_at inputs) (pw_queue w)) w) in
  let* observations := after 2 inputs (transaction set_pw_tables (λ w,
    produce_due_runmill_observation_jobs tenant_id (observe_runmill_run_worker_ids ready_claims) limit
      (pi_recovery inputs) (pi_due inputs) (pi_mint_observation inputs) (pw_tables w))) in
  let* retentions := after 3 inputs (transaction set_pw_tables (λ w,
    produce_due_runmill_terminal_evidence_jobs tenant_id
      (retain_runmill_terminal_evidence_worker_ids ready_claims) limit (pi_terminal inputs)
      (pi_mint_retention inputs) (pw_tables w))) in
  let* invalid := after 4 inputs (scan_stage (reject_route_invalid_jobs tenant_id options
    (si_moments (pi_invalid inputs)) (si_minted (pi_invalid inputs)) (si_utc_now (pi_invalid inputs)))) in
  let* orphaned := after 5 inputs (scan_stage (recover_orphaned_jobs tenant_id options ready_claims
    (si_moments (pi_orphaned inputs)) (si_minted (pi_orphaned inputs))
    (si_utc_now (pi_orphaned inputs)))) in
  let* unserviceable := after 6 inputs (scan_stage (escalate_unserviceable_jobs tenant_id options handlers
    (si_moments (pi_unserviceable inputs)) (si_minted (pi_unserviceable inputs))
    (si_utc_now (pi_unserviceable inputs)))) in
  let* timers_promoted := after 7 inputs (transaction set_pw_timers (λ w,
    promote_due_timers other_live (pi_pass inputs (timer_tables w)) tenant_id known_routes
      (rc_unscoped ready_claims) (scoped_timer_reject_job_types handlers) limit)) in
  let* jobs := after 8 inputs (transaction (λ q w, set_pw_reactor (set_rx_queue q (pw_reactor w)) w) (λ w,
    claim_ready_jobs tenant_id options ready_claims (pi_claims inputs) (pw_queue w))) in
  let* jobs_claimed := return_stage (count_u32 "claimed job count overflowed" jobs) in
  return_stage (Ok
    ({| rr_reservations_expired := reservations_expired;
        rr_runmill_observation_jobs_produced := po_jobs_enqueued observations;
        rr_runmill_observation_streams_escalated := po_dead_jobs_escalated observations;
        rr_runmill_terminal_evidence_jobs_produced := retentions;
        rr_timers_promoted := timers_promoted; rr_orphaned_jobs_recovered := orphaned;
        rr_route_invalid_jobs_rejected := invalid;
        rr_known_unserviceable_jobs_escalated := unserviceable; rr_jobs_claimed := jobs_claimed;
        rr_jobs_completed := 0; rr_jobs_retried := 0; rr_jobs_transactionally_finalized := 0 |},
     jobs)).

(** [jobs_transactionally_finalized] before the tasks are joined. *)
Definition with_finalized (r : ReactorPollReport) (n : Z) : ReactorPollReport :=
  {| rr_reservations_expired := rr_reservations_expired r;
     rr_runmill_observation_jobs_produced := rr_runmill_observation_jobs_produced r;
     rr_runmill_observation_streams_escalated := rr_runmill_observation_streams_escalated r;
     rr_runmill_terminal_evidence_jobs_produced := rr_runmill_terminal_evidence_jobs_produced r;
     rr_timers_promoted := rr_timers_promoted r;
     rr_orphaned_jobs_recovered := rr_orphaned_jobs_recovered r;
     rr_route_invalid_jobs_rejected := rr_route_invalid_jobs_rejected r;
     rr_known_unserviceable_jobs_escalated := rr_known_unserviceable_jobs_escalated r;
     rr_jobs_claimed := rr_jobs_claimed r; rr_jobs_completed := rr_jobs_completed r;
     rr_jobs_retried := rr_jobs_retried r; rr_jobs_transactionally_finalized := n |}.

Definition poll_once (ru : ReactorRuntime) (inputs : PollInputs) : stage ReactorPollReport :=
  let* (report, jobs) := prepare ru inputs in
  let finalized := finalized_so_far (rr_orphaned_jobs_recovered report)
    (rr_route_invalid_jobs_rejected report) (rr_known_unserviceable_jobs_escalated report) in
  let* (n, results) := run_jobs (ru_handlers ru) (mkActivityControls (ru_maintenance_mode ru)) inputs
    jobs finalized in
  return_stage (try_fold results (with_finalized report n) join_one).
End poll.
