(* ===== verification/PollFacts.v ===== *)
(** What one poll guarantees ([Poll]): an unsupported due job stops it, and with it
    the reactor, before any job is written, and a report adds up and is bounded by
    the batch size. *)

From Stdlib Require Import ZArith Lia Ascii.
From stdpp Require Import base tactics option strings pretty numbers list gmap.
From S2P Require Import Prelude RustStr RustOrd Ids Crypto Security AuditChain RunEvents Outcome JobQueue JobQueueFacts RunmillOrder Steps StepFacts DeadLetter DeadLetterFacts Reservations ReservationFacts Handlers HandlerFacts Timers TimerFacts ReactorClaims Reactor ReactorFacts Producers Poll.

(** ** Counting loops *)

Lemma try_fold_counts {A S} (body : S * Z → A → res (S * Z)) l s n s' n' :
  (∀ s n x s' n', body (s, n) x = Ok (s', n') → n ≤ n' ≤ n + 1) →
  try_fold l (s, n) body = Ok (s', n') → n ≤ n' ≤ n + Z.of_nat (length l).
Proof.
  intros Hb. revert s n. induction l as [|x l IH]; intros s n H; cbn in H.
  - injection H as _ <-. simpl. lia.
  - apply bind_ok in H as ([s1 n1] & H1%Hb & H). apply IH in H. simpl. lia.
Qed.

Lemma try_fold_lengths {A B T} (body : T * list B → A → res (T * list B)) l s k s' k' :
  (∀ s k x s' k', body (s, k) x = Ok (s', k') → length k' = S (length k)) →
  try_fold l (s, k) body = Ok (s', k') → length k' = (length k + length l)%nat.
Proof.
  intros Hb. revert s k. induction l as [|x l IH]; intros s k H; cbn in H.
  - injection H as _ <-. simpl. lia.
  - apply bind_ok in H as ([s1 k1] & H1%Hb & H). apply IH in H. simpl. lia.
Qed.

(** A count that was incremented with a check. *)
Lemma incremented n m e : ok_or (checked_add u32_max n 1) e = Ok m → n ≤ m ≤ n + 1.
Proof. intros [_ ->]%ok_or_ok%checked_add_some. lia. Qed.

Section counts.
  Context {pg : PgColumns} {jsonb : Jsonb} {uuids : UuidText} {hashing : Hashing}.
  Context {audit_jcs : Canonical AuditEventContent} {value_jcs : Canonical Value}.
  Context {jsonb_texts : JsonbText} {times : DateTimeText} {chrono : Chrono} {debug : DebugText}.
  Context {collation : Collation}.
  Context (other_live : Uuid * Uuid → AnchorRow → bool).

Lemma scan_length {A K} `{Ord K} (key : A → K) limit sn rows s : 0 ≤ limit →
  Z.of_nat (length (scan_streams key limit sn rows s)) ≤ limit.
Proof. intros Hl. unfold scan_streams. rewrite length_take. lia. Qed.

Lemma observation_counts tenant_id ready limit recovery due mint s s' report : 0 ≤ limit →
  produce_due_runmill_observation_jobs tenant_id ready limit recovery due mint s = Ok (s', report) →
  0 ≤ po_dead_jobs_escalated report ≤ limit ∧ 0 ≤ po_jobs_enqueued report ≤ limit.
Proof.
  intros Hl H. apply bind_unit_ok in H as [_ H]. apply bind_ok in H as ([s1 n] & Hr & H).
  apply bind_ok in H as ([s2 k] & Hd & [= -> <-]). cbn. split.
  - apply try_fold_counts in Hr.
    + pose proof (scan_length dp_run_id limit recovery
        (λ p, rows_of (dead_pinned_row tenant_id s p)) s Hl) as Hlen. unfold dead_pinned_streams in Hr. lia.
    + intros t m d t' m' E. apply bind_unit_ok in E as [_ E]. apply bind_ok in E as (? & _ & E).
      apply bind_ok in E as (? & _ & E). apply bind_ok in E as (? & E%incremented & [= _ <-]). done.
  - case_bool_decide; [injection Hd as _ <-; lia|]. apply try_fold_counts in Hd.
    + pose proof (scan_length due_key limit due
        (λ p, rows_of (due_row tenant_id ready (sn_now due) s1 p)) s1 Hl) as Hlen. unfold due_streams in Hd. lia.
    + intros t m d t' m' E. apply bind_ok in E as (? & _ & E).
      apply bind_ok in E as (? & E%incremented & [= _ <-]). done.
Qed.

Lemma retention_counts tenant_id ready limit sn mint s s' n : 0 ≤ limit →
  produce_due_runmill_terminal_evidence_jobs tenant_id ready limit sn mint s = Ok (s', n) →
  0 ≤ n ≤ limit.
Proof.
  intros Hl H. apply bind_unit_ok in H as [_ H]. case_bool_decide; [injection H as _ <-; lia|].
  apply try_fold_counts in H.
  - pose proof (scan_length ts_run_id limit sn (λ p, ot_results s ≫= λ e,
      rows_of (terminal_row tenant_id ready (sn_now sn) s p e)) s Hl). unfold terminal_ready_rows in H. lia.
  - intros t m d t' m' E. apply bind_ok in E as (? & _ & E). apply bind_ok in E as ([? b] & _ & E).
    destruct b; [apply bind_ok in E as (? & E%incremented & [= _ <-]); done|injection E as _ <-; lia].
Qed.

Lemma scan_counts n claim error mint utc_now overflow count s s' m :
  dead_letter_scan n claim error mint utc_now overflow count s = (s', Ok m) →
  count ≤ m ≤ count + Z.of_nat n.
Proof.
  revert count s. induction n as [|n IH]; intros count s; cbn; [intros [= _ <-]; lia|].
  destruct (claim n (rx_queue s)) as [[q [job|]]| |]; try done; [|intros [= _ <-]; lia].
  destruct (dead_letter_exhausted_claim _ _ _ _ _) as [s1| |]; try done.
  destruct (checked_add u32_max count 1) as [c|] eqn:E; [|done].
  apply checked_add_some in E as [_ ->]. intros H%IH. lia.
Qed.

Lemma timer_counts p tenant_id known ready scoped limit s n : 0 ≤ limit →
  promote_due_timers other_live p tenant_id known ready scoped limit = Ok (s, n) → 0 ≤ n ≤ limit.
Proof.
  intros Hl. unfold promote_due_timers. destruct (ps_unknown p), (ps_scoped p).
  intros [_ H]%bind_unit_ok. apply bind_unit_ok in H as [_ H].
  case_bool_decide; [injection H as _ <-; lia|]. apply bind_ok in H as ([s1 m] & Hp & H).
  apply bind_ok in H as (s2 & _ & [= _ <-]).
  apply (promote_timers_ok other_live) in Hp as [_ ->]; [|apply lock_nodup|].
  - pose proof (lock_length tenant_id ready limit (ps_now p) (ps_locked p) (tt_timers (ps_tables p)) Hl). lia.
  - intros id row Hin. by apply (elem_of_lock other_live) in Hin as [? _].
Qed.

Lemma claim_counts tenant_id options claims m q q' jobs : 0 ≤ op_claim_batch_size options →
  claim_ready_jobs tenant_id options claims m q = Ok (q', jobs) →
  Z.of_nat (length jobs) ≤ op_claim_batch_size options.
Proof.
  intros Hl. unfold claim_ready_jobs. destruct (ReadyClaimSet_is_empty claims);
    [intros [= _ <-]; simpl; lia|]. intros (lease & _ & H)%bind_ok.
  apply take_claims_ok in H as [-> _ _]. rewrite length_fmap. unfold select_jobs.
  rewrite length_take. lia.
Qed.

Lemma expiry_counts tenant_id actor limit selected now locked stamps s s' receipts : 0 ≤ limit →
  expire_elapsed_reservation_sets tenant_id actor limit selected now locked stamps s = Ok (s', receipts) →
  Z.of_nat (length receipts) ≤ limit.
Proof.
  intros Hl. unfold expire_elapsed_reservation_sets. intros H. do 3 apply bind_unit_ok in H as [_ H].
  apply try_fold_lengths in H; cycle 1.
  { intros t k [id set] t' k' E. apply bind_ok in E as (? & _ & E).
    apply bind_ok in E as ([? receipt] & _ & [= _ <-]). rewrite length_app. simpl. lia. }
  rewrite H. simpl. set (ids := (sweep_candidates tenant_id limit selected s).*1) in *.
  assert (length ids ≤ Z.to_nat limit)%nat as Hids.
  { unfold ids, sweep_candidates. rewrite length_fmap, length_take. lia. }
  set (rows := by_expiry _).
  assert (rows.*1 ⊆+ ids) as Hsub%submseteq_length.
  { apply NoDup_submseteq.
    - pose proof (selection_nodup (λ p, (st_expires_at p.2, p.1)) (λ p, bool_decide (p.1 ∈ ids)
        && is_elapsed tenant_id now p && negb (locked p.1)) (length rows) (rt_sets s)) as Hn.
      fold rows in Hn. unfold rows, by_expiry in *. rewrite firstn_all in Hn. exact Hn.
    - intros id (p & -> & Hp)%list_elem_of_fmap. unfold rows, by_expiry in Hp.
      rewrite elem_of_sort_by_key, elem_of_filter_bool, !andb_true_iff in Hp. crush. }
  rewrite length_fmap in Hsub. lia.
Qed.
End counts.

(** ** Stages *)

Section poll.
  Context {pg : PgColumns} {jsonb : Jsonb} {uuids : UuidText} {hashing : Hashing}.
  Context {audit_jcs : Canonical AuditEventContent} {value_jcs : Canonical Value}.
  Context {jsonb_texts : JsonbText} {times : DateTimeText} {chrono : Chrono} {debug : DebugText}.
  Context {collation : Collation}.
  Context (other_live : Uuid * Uuid → AnchorRow → bool) {X : Type}.
  Implicit Types (w : PollWorld (X:=X)) (ru : ReactorRuntime (X:=X)) (inputs : PollInputs (X:=X)).

Lemma then_stage_ok {A B} (m : stage A) (k : A → stage B) w w' b :
  then_stage m k w = (w', Ok b) → ∃ w1 a, m w = (w1, Ok a) ∧ k a w1 = (w', Ok b).
Proof. unfold then_stage. destruct (m w) as [w1 [a| |]]; try done. eauto. Qed.

Lemma transaction_ok {T A} (set : T → PollWorld → PollWorld) run w w' (a : A) :
  transaction set run w = (w', Ok a) → ∃ t, run w = Ok (t, a) ∧ w' = set t w.
Proof. unfold transaction. destruct (run w) as [[t b]| |]; try done. intros [= <- <-]. eauto. Qed.

Lemma scan_stage_ok run w w' n : scan_stage run w = (w', Ok n) → ∃ r, run (pw_reactor w) = (r, Ok n).
Proof. unfold scan_stage. destruct (run (pw_reactor w)) as [r res]. intros [= _ ->]. eauto. Qed.

Lemma return_stage_ok {A} (r : res A) w w' a : return_stage r w = (w', Ok a) → r = Ok a.
Proof. by intros [=]. Qed.

Lemma count_u32_ok {A} what (l : list A) n : count_u32 what l = Ok n → n = Z.of_nat (length l).
Proof. unfold count_u32. by intros [_ ->]%ok_or_ok%try_from_some. Qed.

Lemma valid_batch tenant_id handlers options mode ru :
  ReactorRuntime_new tenant_id handlers options mode = Ok ru →
  1 ≤ op_claim_batch_size (ru_options ru) ≤ 1000.
Proof.
  unfold ReactorRuntime_new, ReactorOptions_validate. intros [Hv H]%bind_unit_ok.
  apply bind_unit_ok in H as [_ [= <-]]. simpl. crush.
Qed.

(** What the stages before the tasks report. *)
Definition within (limit n : Z) : Prop := 0 ≤ n ≤ limit.
Record bounded (limit : Z) (r : ReactorPollReport) : Prop := {
  bd_expired : within limit (rr_reservations_expired r);
  bd_observations : within limit (rr_runmill_observation_jobs_produced r);
  bd_streams : within limit (rr_runmill_observation_streams_escalated r);
  bd_retentions : within limit (rr_runmill_terminal_evidence_jobs_produced r);
  bd_timers : within limit (rr_timers_promoted r);
  bd_orphaned : within limit (rr_orphaned_jobs_recovered r);
  bd_invalid : within limit (rr_route_invalid_jobs_rejected r);
  bd_unserviceable : within limit (rr_known_unserviceable_jobs_escalated r);
  bd_claimed : within limit (rr_jobs_claimed r)
}.

Lemma prepared ru inputs w w' report jobs : 0 ≤ op_claim_batch_size (ru_options ru) →
  prepare other_live ru inputs w = (w', Ok (report, jobs)) →
  bounded (op_claim_batch_size (ru_options ru)) report ∧
  rr_jobs_claimed report = Z.of_nat (length jobs) ∧
  rr_jobs_completed report = 0 ∧ rr_jobs_retried report = 0.
Proof.
  intros Hl H. unfold prepare, after in H.
  apply then_stage_ok in H as (w1 & n1 & H1 & H). apply then_stage_ok in H as (w2 & ? & _ & H).
  apply then_stage_ok in H as (w3 & n3 & (? & H3 & _)%transaction_ok & H).
  apply then_stage_ok in H as (w4 & n4 & (? & H4 & _)%transaction_ok & H).
  apply then_stage_ok in H as (w5 & n5 & (? & H5)%scan_stage_ok & H).
  apply then_stage_ok in H as (w6 & n6 & (? & H6)%scan_stage_ok & H).
  apply then_stage_ok in H as (w7 & n7 & (? & H7)%scan_stage_ok & H).
  apply then_stage_ok in H as (w8 & n8 & (? & H8 & _)%transaction_ok & H).
  apply then_stage_ok in H as (w9 & n9 & (? & H9 & _)%transaction_ok & H).
  apply then_stage_ok in H as (w10 & n10 & H10%return_stage_ok%count_u32_ok & H).
  apply return_stage_ok in H. injection H as <- <-.
  apply then_stage_ok in H1 as (w0 & receipts & (? & H0 & _)%transaction_ok & H1%return_stage_ok%count_u32_ok).
  apply expiry_counts in H0; [|done]. apply observation_counts in H3; [|done].
  apply retention_counts in H4; [|done]. apply timer_counts in H8; [|done]. apply claim_counts in H9; [|done].
  apply scan_counts in H5. apply scan_counts in H6. apply scan_counts in H7.
  split_and!; try done. unfold within. split; unfold within; cbn; lia.
Qed.

(** The counters of the joined tasks. *)
Lemma joined results report report' : try_fold results report join_one = Ok report' →
  rr_jobs_completed report' + rr_jobs_retried report' + rr_jobs_transactionally_finalized report'
  = rr_jobs_completed report + rr_jobs_retried report + rr_jobs_transactionally_finalized report
    + Z.of_nat (length results) ∧
  rr_jobs_completed report ≤ rr_jobs_completed report' ∧ rr_jobs_retried report ≤ rr_jobs_retried report' ∧
  rr_jobs_transactionally_finalized report ≤ rr_jobs_transactionally_finalized report' ∧
  ∀ limit, bounded limit report → bounded limit report'.
Proof.
  revert report. induction results as [|x l IH]; intros r H; cbn in H.
  - injection H as <-. simpl. split_and!; [lia..|done].
  - apply bind_ok in H as (r1 & H1 & (H2 & H3 & H4 & H5 & H6)%IH).
    destruct x as [|disposition]; [done|]. apply bind_ok in H1 as (d & _ & [= <-]).
    destruct d; cbn in *; (split_and!; [lia..|]); intros limit Hb; apply H6; by destruct Hb.
Qed.

Lemma spawned (handlers : HandlerRegistry (ReactorTables * X)) jobs tasks tasks' u :
  spawn handlers jobs tasks = (tasks', Ok u) → length tasks' = (length tasks + length jobs)%nat.
Proof.
  revert tasks. induction jobs as [|job jobs IH]; intros tasks; cbn; [intros [= -> _]; lia|].
  destruct (dispatch handlers job); try done. intros H%IH. rewrite length_app in H. simpl in *. lia.
Qed.

(** C22. A poll that succeeds has done at most one batch of each kind of work, and
    its report adds up: every claimed job and every job that a scan dead-lettered
    is counted exactly once as completed, retried or transactionally finalized,
    so that no counter comes near its 32 bits.  The one thing used of the tasks is
    that each spawned task is joined once. *)
Theorem poll_report_adds_up tenant_id handlers options mode ru inputs w w' report :
  ReactorRuntime_new tenant_id handlers options mode = Ok ru →
  (∀ controls tasks v, length (pi_tasks inputs controls tasks v).2 = length tasks) →
  poll_once other_live ru inputs w = (w', Ok report) →
  bounded (op_claim_batch_size (ru_options ru)) report ∧
  rr_jobs_completed report + rr_jobs_retried report + rr_jobs_transactionally_finalized report
  = rr_jobs_claimed report + rr_orphaned_jobs_recovered report + rr_route_invalid_jobs_rejected report
    + rr_known_unserviceable_jobs_escalated report ∧
  0 ≤ rr_jobs_completed report ∧ 0 ≤ rr_jobs_retried report ∧
  0 ≤ rr_jobs_transactionally_finalized report ≤ 4000.
Proof.
  intros Hb%valid_batch Hj H. unfold poll_once in H.
  apply then_stage_ok in H as (w1 & [r0 jobs] & H1 & H). apply then_stage_ok in H as (w2 & [n results] & H2 & H).
  apply return_stage_ok in H. apply prepared in H1 as (Hbd & Hc & H0 & H0'); [|lia].
  unfold run_jobs in H2. destruct (spawn _ _ _) as [tasks u] eqn:Es.
  destruct u as [u| |]; try done. cbn in H2.
  destruct (finalized_so_far _ _ _) as [m| |] eqn:Ef; try done.
  destruct (pi_tasks _ _ _ _) as [w3 results'] eqn:Et. injection H2 as -> -> ->.
  pose proof (Hj (mkActivityControls (ru_maintenance_mode ru)) tasks w1) as Hlen. rewrite Et in Hlen.
  apply spawned in Es. unfold finalized_so_far in Ef.
  apply ok_or_ok, bind_Some in Ef as (k & [_ ->]%checked_add_some & [_ ->]%checked_add_some).
  pose proof (joined _ _ _ H) as (Hsum & H3 & H4 & H5 & H6). cbn in *.
  assert (bounded (op_claim_batch_size (ru_options ru)) report) as Hr.
  { apply H6. by destruct Hbd. }
  assert (rr_jobs_claimed report = rr_jobs_claimed r0 ∧
    rr_orphaned_jobs_recovered report = rr_orphaned_jobs_recovered r0 ∧
    rr_route_invalid_jobs_rejected report = rr_route_invalid_jobs_rejected r0 ∧
    rr_known_unserviceable_jobs_escalated report = rr_known_unserviceable_jobs_escalated r0) as (E1 & E2 & E3 & E4).
  { refine (try_fold_rel join_one (λ a b, rr_jobs_claimed b = rr_jobs_claimed a ∧
      rr_orphaned_jobs_recovered b = rr_orphaned_jobs_recovered a ∧
      rr_route_invalid_jobs_rejected b = rr_route_invalid_jobs_rejected a ∧
      rr_known_unserviceable_jobs_escalated b = rr_known_unserviceable_jobs_escalated a) _ _ _ _ _ _ H).
    - done.
    - intros ??? (-> & -> & -> & ->) (-> & -> & -> & ->). done.
    - intros r [|disposition] r' _ Hx; [done|]. by apply bind_ok in Hx as (d & _ & [= <-]). }
  destruct Hr, Hbd. unfold within in *. split_and!; try lia. done.
Qed.

(** A due job of no known route is found, though it need not be the first. *)
Lemma unsupported_found tenant_id known now q id row :
  q_jobs q !! id = Some row → job_due tenant_id now row = true → type_route row known = false →
  ∃ m, reject_unknown_or_incompatible_due_job tenant_id known now q = Err (Validation m).
Proof.
  intros Hrow Hd Hr. unfold reject_unknown_or_incompatible_due_job.
  assert (∃ r, unknown_or_incompatible_due_job tenant_id known now q = Some r) as [r ->].
  { unfold unknown_or_incompatible_due_job, select_jobs. set (l := sort_by_key _ _).
    assert ((id, row) ∈ l) as Hin.
    { unfold l. rewrite elem_of_sort_by_key, elem_of_filter_bool, elem_of_map_to_list. cbn.
      by rewrite Hd, Hr. }
    destruct l as [|p l]; [by apply elem_of_nil in Hin|]. by exists p.2. }
  case_match; eauto.
Qed.

Lemma expiry_writes ru inputs w w' r : expire_reservations ru inputs w = (w', r) →
  pw_tables w' = pw_tables w ∧ pw_timers w' = pw_timers w ∧ pw_outside w' = pw_outside w.
Proof.
  unfold expire_reservations, then_stage, transaction, return_stage.
  destruct (expire_elapsed_reservation_sets _ _ _ _ _ _ _ _) as [[t receipts]| |]; by intros [= <- _].
Qed.

(** C21. A due job whose type is unknown, or known under another activity contract,
    stops the poll: whatever else is due, the poll fails as a validation error
    after the expiry of reservations and before any job, stream or timer is
    written or claimed, and the error ends the loop of the reactor without another
    wait or poll. *)
Theorem unsupported_job_stops_reactor ru inputs w w1 n id row :
  expire_reservations ru inputs (pi_between inputs 0 w) = (w1, Ok n) →
  q_jobs (pw_queue (pi_between inputs 1 w1)) !! id = Some row →
  job_due (ru_tenant_id ru) (pi_inspected_at inputs) row = true →
  (jb_job_type row, jb_activity_contract_id row) ∉ known_job_type_contract_pairs (ru_handlers ru) →
  (pw_tables w1 = pw_tables (pi_between inputs 0 w) ∧ pw_timers w1 = pw_timers (pi_between inputs 0 w)) ∧
  ∃ m, poll_once other_live ru inputs w = (pi_between inputs 1 w1, Err (Validation m)) ∧
    ∀ options backoff interrupted turns,
      run options backoff (mkTurn false (Err (Validation m)) interrupted :: turns)
        = ([], Some (Err (Validation m))).
Proof.
  intros He Hrow Hd Hn. split; [by apply expiry_writes in He as (-> & -> & _)|].
  assert (type_route row (known_job_type_contract_pairs (ru_handlers ru)) = false) as Hr.
  { apply not_true_iff_false. unfold type_route. by rewrite has_route_true. }
  destruct (unsupported_found _ _ _ _ _ _ Hrow Hd Hr) as [m Hm]. exists m. split; [|done].
  unfold poll_once, prepare, then_stage, after. rewrite He. unfold return_stage. by rewrite Hm.
Qed.
End poll.

Module Sample.
#[local] Existing Instance ReservationFacts.Sample.uuids.
#[local] Existing Instance DeadLetterFacts.Sample.columns.
#[local] Existing Instance DeadLetterFacts.Sample.equality.
#[local] Existing Instance DeadLetterFacts.Sample.texts.
#[local] Existing Instance DeadLetterFacts.Sample.times.
#[local] Existing Instance DeadLetterFacts.Sample.value_jcs.
#[local] Existing Instances sample_hashing sample_jcs.
#[local] Instance calendar : Chrono :=
  {| datetime_min := - hours 1000; datetime_max := hours 1000; duration_max := hours 1000 |}.
#[local] Instance quotes : DebugText := {| debug_text s := s |}.
#[local] Existing Instance ReservationFacts.Sample.collation.

(** The tables of [ReactorFacts.Sample], with the waiting job only. *)
Definition queue (row : JobRow) : Queue := mkQueue {[ 11%N := row ]} ∅.
Definition tables (row : JobRow) : ObservationTables :=
  mkObservationTables
    (mkReactorTables (mkDeadLetterTables (mkStepTables (queue row) ∅ ∅ ∅ [] [] [] []) [] ∅) [] ∅ ∅)
    [] [] [] ∅ [] [] ∅ [] [] [] [] [] [].
Definition world (row : JobRow) : PollWorld (X:=()) := mkPollWorld (mkReservationTables ∅ [] [] []) (tables row) ∅ ().
Definition no_scan : ScanInputs := mkScanInputs (λ _, ReactorFacts.Sample.moment) (λ _, ReactorFacts.Sample.minted) (λ _, 5).
Definition completes (controls : ActivityControls)
    (tasks : list (JobHandler (ReactorTables * ()) * ClaimedWorkflowJob)) (w : PollWorld (X:=()))
  : PollWorld (X:=()) * list (string + res ExecutionDisposition) :=
  (w, (λ _, inr (Ok ExecutionCompleted)) <$> tasks).
Definition inputs : PollInputs (X:=()) :=
  {| pi_between _ w := w; pi_sweep := (5, 5); pi_locked_sets _ := false;
     pi_stamps := mkBatchStamps (λ _, 5) (λ u, u); pi_inspected_at := 5; pi_recovery := mkScan 5 (λ _, false);
     pi_due := mkScan 5 (λ _, false); pi_mint_observation u := mkMintedObservation u u 5;
     pi_terminal := mkScan 5 (λ _, false); pi_mint_retention u := mkMintedRetention u u 5;
     pi_invalid := no_scan; pi_orphaned := no_scan; pi_unserviceable := no_scan;
     pi_pass t := mkPass (t, 5) (t, 5) t (λ _, false) 5 5 (λ u, (u, 5));
     pi_claims := ReactorFacts.Sample.moment; pi_tasks := completes; pi_abandoned _ _ w := w |}.
Definition runtime : ReactorRuntime (X:=()) :=
  mkReactorRuntime 1%N ReactorFacts.Sample.registry ReactorFacts.Sample.options false.

Lemma poll_report_adds_up_witness :
  ∃ w' report, poll_once (λ _ _, false) runtime inputs (world ReactorFacts.Sample.waiting) = (w', Ok report) ∧
    rr_jobs_claimed report = 1 ∧ rr_jobs_completed report = 1 ∧ bounded 10 report.
Proof.
  destruct (poll_once (λ _ _, false) runtime inputs (world ReactorFacts.Sample.waiting)) as [w' r] eqn:E.
  assert (∃ report, r = Ok report ∧ rr_jobs_claimed report = 1 ∧ rr_jobs_completed report = 1)
    as (report & -> & Hc & Hd).
  { vm_compute in E. injection E as _ <-. eexists. repeat split. }
  exists w', report. split_and!; [done..|].
  apply (poll_report_adds_up (λ _ _, false) 1%N ReactorFacts.Sample.registry ReactorFacts.Sample.options
    false runtime inputs (world ReactorFacts.Sample.waiting) w' report); [reflexivity| |done].
  intros controls tasks v. apply length_fmap.
Defined.

Definition unknown : JobRow := ReactorFacts.Sample.job_row "UNKNOWN" "asf.activity/unknown/v1" "PENDING" 0 3 None.

Lemma unsupported_job_stops_reactor_witness :
  ∃ m, poll_once (λ _ _, false) runtime inputs (world unknown) = (world unknown, Err (Validation m)).
Proof.
  destruct (unsupported_job_stops_reactor (λ _ _, false) runtime inputs (world unknown) (world unknown) 0
    11%N unknown) as (_ & m & Hm & _).
  - vm_compute. reflexivity.
  - reflexivity.
  - vm_compute. reflexivity.
  - vm_compute. intros H. repeat (apply elem_of_cons in H as [H|H]; [discriminate H|]).
    by apply elem_of_nil in H.
  - by exists m.
Defined.
End Sample.
